(* ===== verification/_CoqProject ===== *)
-Q . S2P
Prelude.v
Cryptobyte.v
Common.v
Config.v
Negotiation.v
Codec.v
Buffer.v
KeySchedule.v
Record.v
Names.v
Quic.v
Messages.v
Ticket.v
TicketKeys.v
Caches.v
RawMessages.v
ServerHello.v
ClientHello.v
Public.v
Extensions.v
PreSharedKey.v
ECH.v
Handshake.v
Conn.v
Suites.v
Hpke.v
EchFacts.v
Forge.v
ConnFacts.v
ConnFrame.v
GreaseECH.v
Marshal.v
Shuffle.v
Parrots.v
ParrotFacts.v
Fingerprint.v
FingerprintFacts.v
Session.v
Preset.v
Auth.v
KeyAgreement.v
Randomized.v
RandomizedFacts.v
Apply.v
Binders.v
Build.v
BuildFacts.v
Peer.v
PeerFacts.v
Client12.v
Client12Facts.v
Client13.v
Client13Facts.v
Client.v
ClientFacts.v
ServerPeer.v
ServerPeerFacts.v
Server12.v
Server12Facts.v
Server13.v
Server13Facts.v
Server.v
ServerFacts.v
