(* ===== verification/Prelude.v ===== *)
(** * uTLS: a verification library

    uTLS is a fork of Go's crypto/tls whose client can imitate the ClientHello
    of other TLS stacks.  This library models its core as Rocq functions and
    proves that they do what the protocol and the documentation promise.

    ** Parts of the program and files of the library

    Foundations
    - [Prelude] (this file): byte strings, big-endian integers, Go errors and
      the notations for early returns.
    - [Cryptobyte]: the third-party package golang.org/x/crypto/cryptobyte as
      a class of operations, its documented behaviour as laws, a reference
      instance, and the vocabulary of the codec proofs ([Emits], [loop]).
    - [Common], [Config]: constants of common.go, alert.go and u_common.go, GREASE
      values, and the fields of [Config] that the modelled code uses.
    - [Codec], [Buffer]: the loop over extension blocks that the parsers share,
      and byte slices indexed by hand ([Panic] is an index out of range).

    Messages (handshake_messages.go, u_handshake_messages.go, u_public.go)
    - [Messages], [RawMessages], [ServerHello], [ClientHello]: one Module per Go
      type with its fields, [marshal] and [unmarshal].  [ClientHello] also has
      the encrypted inner hello, its expanded form, and the truncation used for
      PSK binders.
    - [Handshake]: the interface [handshakeMessage] as a sum type, the dispatch
      of conn.go and u_conn.go, and the transcript.
    - [Public]: the exported form of the ClientHello.

    Negotiation and cryptographic schedule
    - [Negotiation]: cipher_suites.go, defaults.go, the choices of versions,
      suites, groups and protocols (common.go, handshake_server.go,
      handshake_server_tls13.go).
    - [KeySchedule]: internal/tls13, key_schedule.go, internal/tls12, prf.go.
    - [Auth], [KeyAgreement]: auth.go, key_agreement.go, u_key_schedule.go.
    - [Suites]: the ciphers, MACs and AEADs that the suites of cipher_suites.go name,
      made from the keys of a connection.
    - [Hpke]: internal/hpke.  [EchFacts]: Encrypted ClientHello from client to server.
    - [Ticket], [TicketKeys]: ticket.go and the ticket keys of common.go.
    - [Caches]: the session cache of common.go and cache.go, whose calls and
      finalizers interleave as a step relation.

    The connection (conn.go)
    - [Record]: [halfConn], encryption and decryption of records of every cipher
      kind.  [Conn]: records over a byte stream, alerts, handshake messages,
      [Read], [Write], [Close], key updates, renegotiation.  [ConnFacts]: its
      theorems.  [ConnFrame]: what its operations leave as it was.

    The imitating client
    - [Names], [Quic], [Extensions], [PreSharedKey], [GreaseECH], [ECH]: the
      extension types of u_tls_extensions.go, trust_anchors.go,
      u_session_ticket.go, u_quic_transport_parameters.go, u_pre_shared_key.go,
      u_ech.go, and ech.go; each type is a Module with [Len], [Read], [Write] and
      [writeToUConn].
    - [Marshal]: [MarshalClientHelloNoECH] of u_conn.go.
    - [Shuffle], [Parrots], [ParrotFacts]: u_parrots.go, the order of extensions
      and the specification of every imitated client.
    - [Randomized], [RandomizedFacts]: u_prng.go, [generateRandomizedSpec],
      u_roller.go.
    - [Fingerprint], [FingerprintFacts]: u_fingerprinter.go and [FromRaw] of
      u_common.go, from a captured hello to a specification.
    - [Session], [Preset], [Apply], [Binders], [Build], [BuildFacts]: u_session_controller.go,
      [ApplyPreset] and [applyPresetByID], the loading of sessions, [ApplyConfig],
      [MarshalClientHello] and [BuildHandshakeState] of u_conn.go, on a connection
      whose extensions are shared objects in a store.

    The handshake of the client
    - [Peer], [PeerFacts]: the connection as the handshakes see it, and what
      handshake_client.go, conn.go and common.go do with the peer: version, protocol,
      certificates, key log, the state of the connection.
    - [Client12], [Client12Facts]: the handshake of TLS 1.0 to 1.2 in
      handshake_client.go, full and resumed.
    - [Client13], [Client13Facts]: handshake_client_tls13.go with its uTLS parts in
      u_handshake_client.go, one definition per method, in an error monad over the
      state of the handshake.

    - [Client], [ClientFacts]: [clientHandshake] of Go and of uTLS, [Handshake] and
      renegotiation of a uTLS client: from the configuration to a connection.
    - [Forge]: [MakeConnWithCompleteHandshake] of u_conn.go, a connection without a
      handshake.

    The handshake of the server
    - [ServerPeer], [ServerPeerFacts]: what both servers share in handshake_server.go
      and common.go: the hello with Encrypted ClientHello and [GetConfigForClient], the
      choice of a certificate, the certificates of the client, tickets.
    - [Server12], [Server12Facts]: handshake_server.go.  [Server13], [Server13Facts]:
      handshake_server_tls13.go.  One definition per method, as for the client.
    - [Server], [ServerFacts]: [serverHandshake] and [Handshake] of a server, and runs of
      the client of [Client] against the server of [Server].

    The client builds a hello from a specification ([Parrots], [Randomized] or
    [Fingerprint], then [Preset] and [Build]), marshals it ([Marshal], [Apply]) and
    sends it through the connection ([Conn] over [Record]); received messages come
    back through [Conn] and [Handshake] to the message files.  [Client]
    sends it, reads the answer and lets [Client12] or [Client13] go on; after a HelloRetryRequest [Client13] calls the
    functions of [Apply] to build the second hello.

    ** How code becomes definitions

    A Go function is a Rocq function with the same name.  A struct is a
    [Record t] in a Module named after it.  A method that can fail returns
    [option] (Go's bool), [res] (a value or an error) or [outcome] (which adds
    run-time panics).  Code that changes a connection is a state monad over that
    connection.  Integers are [Z]; a conversion to a narrower type and an addition
    that can wrap are written out with [mod].  A slice whose nil value is tested is
    an [option].  Objects that the code shares (the extensions of a client) live in
    a store and are named by address.  Random numbers, the clock and what the peer
    sends are arguments, and the theorems hold for all of them.

    Packages whose source is not in the repository (cryptobyte, crypto/x509, hashes,
    elliptic curves, AEADs, SHAKE, math/rand) are classes of operations; what the code relies
    on is a class of laws, and for each a concrete instance shows that the laws can
    hold.

    ** Bounds and fuel

    Loops over the rest of an input take as fuel the length of that input, which is
    enough because every iteration consumes at least one byte
    ([while_nonempty_fuel] in [Cryptobyte]); the one loop for which this is false is
    the subject of [parseECHConfigList_diverges].  In [Conn] the loop that writes
    data has the length of the data as fuel, the one that retries after a record
    without progress what is left of the limit that the code itself sets, and the
    one that gathers a handshake message the number of bytes it waits for; the
    theorems of [ConnFacts] show that each returns.  In [Parrots] an identifier
    stands for another one at most three times.

    ** What is proved

    - Codecs: every handshake message that can be marshalled is dispatched and
      parsed back unchanged ([messages_round_trip]); sessions, exported hellos and
      QUIC parameters too; an accepted ClientHello has no duplicate extension and
      its pre_shared_key last ([clientHello_accepted]); parsers that index by hand
      do not panic.
    - Binders and transcripts: the bytes hashed are the hello without its binders,
      for the plain hello ([patch_writes_binder]) and for the inner hello of ECH, where
      they are those that the server reconstructs ([binder_accepted]).
    - Encrypted ClientHello: what the client seals is what the server goes on with
      ([ech_delivered]); the two ends of an HPKE context agree on every message up to
      the limit of its counter ([hpke_delivers]) and never use a nonce twice
      ([hpke_nonces_distinct]).
    - Connection: what is written arrives whole and in order
      ([write_then_read], [handshake_message_delivered]); reading ends and does one
      thing at a time ([read_record_contract]); no nonce is used twice
      ([nonce_never_reused]); nothing is sent after close_notify.
    - Handshake: when the handshake of a client succeeds, of uTLS or of Go, its version
      is allowed, no downgrade is announced and the server is authenticated
      ([handshake_secured]): in TLS 1.3 by a verified certificate that signed the transcript or by the
      pre-shared key, and by its Finished message ([client_authenticates]), and
      before TLS 1.3 by a certificate that signs the key exchange or decrypts the secret
      ([client12_authenticates]).  When the handshake of a server succeeds the client is
      authenticated in the same way ([server13_authenticates], [server12_authenticates])
      and what the configuration asks of clients holds, on resumption too
      ([client_auth_enforced]).  Two ends that are made to use an old version notice it
      ([downgrade_refused]).  The connection is complete exactly when its handshake has
      succeeded, and the result stays ([handshake_result], [server_handshake_result]).  Before TLS 1.3 both ends of
      an ECDHE exchange get one secret ([ecdhe_agreement]), and ciphers in step from
      one master secret whatever the suite ([keys_in_sync]).
    - Negotiation and keys: the choices are the best in common and refusals are
      exact; the key schedule is total and the PRF is that of the RFC; tickets
      survive key rotation.
    - Imitation: every specification, randomized ones included, is well formed
      ([presets_well_formed], [randomized_well_formed]); shuffling reaches every
      allowed order in one way; marshalling writes exactly the announced bytes and
      a captured hello gives back its specification ([fingerprint_recovers]).
    - Sessions: whatever a user does before the handshake, the session controller stays
      consistent, and once a hello is built the session with which the handshake would
      resume is fixed ([controller_invariant], [session_frozen]).
    - Caches: the session cache refines an abstract one, as long as nil is put only for
      keys it has; the certificate cache is safe under every interleaving.

    ** What is not modelled

    The network and goroutines beyond what is said above, cryptographic
    primitives, the building of certificate chains (a parameter); QUIC connections, so that [c.quic]
    is nil in every function; FIPS mode, which is off; the JSON form of specifications;
    command line tools and name strings. *)

From Stdlib Require Export Strings.Byte Strings.String.
From stdpp Require Export base list option numbers strings gmap.

#[global] Open Scope Z_scope.

(** ** Byte strings *)

Abbreviation byte := Byte.byte.
Abbreviation bytes := (list Byte.byte).

#[export] Instance byte_eq_dec : EqDecision byte := Byte.byte_eq_dec.
#[export] Instance byte_countable : Countable byte := inj_countable Byte.to_N Byte.of_N Byte.of_to_N.

(** [uint8(z)] of Go: conversion truncates to the low eight bits. *)
Definition u8 (z : Z) : byte :=
  match Byte.of_N (Z.to_N (z mod 256)) with Some b => b | None => x00 end.

(** The unsigned value of a byte. *)
Definition b2z (b : byte) : Z := Z.of_N (Byte.to_N b).

(** Go's [len] of a slice or string. *)
Definition len {A} (l : list A) : Z := Z.of_nat (length l).

Lemma b2z_range b : 0 <= b2z b < 256.
Proof.
  unfold b2z. split; [lia|].
  pose proof (Byte.to_N_bounded b). lia.
Qed.

Lemma b2z_u8 z : b2z (u8 z) = z mod 256.
Proof.
  unfold u8, b2z.
  pose proof (Z.mod_pos_bound z 256 ltac:(lia)) as Hb.
  destruct (Byte.of_N (Z.to_N (z mod 256))) as [b|] eqn:E.
  - apply Byte.to_of_N in E. rewrite E, Z2N.id; lia.
  - apply Byte.of_N_None_iff in E. lia.
Qed.

Lemma b2z_inj a b : b2z a = b2z b -> a = b.
Proof.
  unfold b2z. intros H%N2Z.inj.
  pose proof (Byte.of_to_N a). pose proof (Byte.of_to_N b). congruence.
Qed.

Lemma u8_b2z b : u8 (b2z b) = b.
Proof.
  apply b2z_inj. rewrite b2z_u8. apply Z.mod_small, b2z_range.
Qed.

Lemma b2z_u8_small z : 0 <= z < 256 -> b2z (u8 z) = z.
Proof. intros. rewrite b2z_u8. by apply Z.mod_small. Qed.

(** A Go slice or pointer whose nil value matters is an [option]; [x != nil]. *)
Definition non_nil {A} (o : option A) : bool :=
  match o with Some _ => true | None => false end.

Lemma non_nil_false {A} (o : option A) : non_nil o = false -> o = None.
Proof. by destruct o. Qed.

(** ** Go errors

    [errors.New], [fmt.Errorf] with its integer arguments, the [io] sentinel
    errors, and TLS alerts (which implement [error] in alert.go). *)
Inductive gerror :=
  | ErrorNew (msg : string)
  | Errorf (fmt : string) (args : list Z)
  | EOF
  | ErrShortBuffer
  | ErrUnexpectedEOF
  | ErrClosed
  | Alert (code : Z).

#[export] Instance gerror_eq_dec : EqDecision gerror.
Proof. solve_decision. Defined.

(** A Go result pair [(T, error)] whose value is only used when the error is nil. *)
Abbreviation res A := (sum gerror A).

Definition res_bind {A B} (x : res A) (f : A -> res B) : res B :=
  match x with inl e => inl e | inr a => f a end.

Declare Scope go_scope.
Delimit Scope go_scope with go.
#[global] Open Scope go_scope.

(** [try x := e in k] for [x, err := e; if err != nil { return err }; k]. *)
Notation "'try' x := e 'in' k" := (res_bind e (fun x => k))
  (at level 10, x pattern, e at level 100, k at level 200,
   format "'[v' 'try'  x  :=  e  'in' '/' k ']'") : go_scope.

(** [read p := e in k] for [if !e { return false }; k]. *)
Notation "'read' x := e 'in' k" :=
  (match e with Some x => k | None => None end)
  (at level 10, x pattern, e at level 100, k at level 200,
   format "'[v' 'read'  x  :=  e  'in' '/' k ']'") : go_scope.

(** [if !e { return ..., err }] for a read inside a function that returns an
    error. *)
Notation "'readE' x := e 'or' err 'in' k" :=
  (match e with Some x => k | None => inl err end)
  (at level 10, x pattern, e at level 100, err at level 100, k at level 200,
   format "'[v' 'readE'  x  :=  e  'or'  err  'in' '/' k ']'") : go_scope.

(** [ensure c in k] for [if !c { return false }; k]. *)
Notation "'ensure' c 'in' k" := (if c then k else None)
  (at level 10, c at level 100, k at level 200,
   format "'[v' 'ensure'  c  'in' '/' k ']'") : go_scope.

(** ** Big-endian integers *)

(** The [n] low-order bytes of [z], most significant first. *)
Fixpoint be (n : nat) (z : Z) : bytes :=
  match n with
  | O => []
  | S n => u8 (Z.shiftr z (8 * Z.of_nat n)) :: be n z
  end.

(** The value of a big-endian byte string. *)
Definition be_val (l : bytes) : Z := fold_left (fun a b => a * 256 + b2z b) l 0.

Lemma length_be n z : length (be n z) = n.
Proof. induction n; simpl; auto. Qed.

Lemma be_val_acc l a :
  fold_left (fun a b => a * 256 + b2z b) l a = a * 256 ^ len l + be_val l.
Proof.
  unfold be_val, len. revert a. induction l as [|b l IH]; intros a; cbn [fold_left length].
  - simpl. lia.
  - rewrite IH, (IH (0 * 256 + b2z b)), Nat2Z.inj_succ, Z.pow_succ_r by lia. lia.
Qed.

Lemma be_val_cons b l : be_val (b :: l) = b2z b * 256 ^ len l + be_val l.
Proof. unfold be_val at 1. cbn [fold_left]. by rewrite be_val_acc. Qed.

Lemma be_val_range l : 0 <= be_val l < 256 ^ len l.
Proof.
  induction l as [|b l IH].
  - cbv. split; congruence || auto.
  - rewrite be_val_cons. unfold len in *. simpl length.
    rewrite Nat2Z.inj_succ, Z.pow_succ_r by lia.
    pose proof (b2z_range b). nia.
Qed.

Lemma be_val_be n z : be_val (be n z) = z mod 256 ^ Z.of_nat n.
Proof.
  induction n as [|n IH]; simpl be.
  - cbn. by rewrite Z.mod_1_r.
  - rewrite be_val_cons, IH, b2z_u8. unfold len. rewrite length_be.
    rewrite Z.shiftr_div_pow2 by lia.
    replace (2 ^ (8 * Z.of_nat n)) with (256 ^ Z.of_nat n)
      by (rewrite Z.pow_mul_r by lia; done).
    rewrite Nat2Z.inj_succ, Z.pow_succ_r by lia.
    rewrite (Z.mul_comm 256), Z.rem_mul_r by lia. lia.
Qed.

Lemma be_val_be_small n z :
  0 <= z < 256 ^ Z.of_nat n -> be_val (be n z) = z.
Proof. intros. rewrite be_val_be. by apply Z.mod_small. Qed.

Lemma be_add_high n k v m :
  (n <= m)%nat -> be n (k * 256 ^ Z.of_nat m + v) = be n v.
Proof.
  induction n as [|n IHn]; intros Hn; [done|].
  cbn [be]. rewrite IHn by lia. f_equal. apply b2z_inj. rewrite !b2z_u8.
  rewrite !Z.shiftr_div_pow2 by lia.
  replace m with ((m - n - 1) + 1 + n)%nat by lia.
  rewrite !Nat2Z.inj_add, !Z.pow_add_r by lia.
  rewrite Z.pow_mul_r by lia. change (2 ^ 8) with 256.
  rewrite !Z.mul_assoc, Z.div_add_l by lia.
  change (256 ^ Z.of_nat 1) with 256. rewrite Z.add_comm. by rewrite Z.mod_add by lia.
Qed.

Lemma be_be_val l : be (length l) (be_val l) = l.
Proof.
  induction l as [|b l IH]; [done|]. cbn [length be]. rewrite be_val_cons.
  pose proof (be_val_range l) as Hr. pose proof (b2z_range b).
  assert (Hp : 2 ^ (8 * Z.of_nat (length l)) = 256 ^ len l)
    by (unfold len; rewrite Z.pow_mul_r by lia; done).
  f_equal.
  - rewrite Z.shiftr_div_pow2, Hp by lia.
    rewrite Z.div_add_l, (Z.div_small (be_val l)), Z.add_0_r by lia. apply u8_b2z.
  - unfold len. by rewrite be_add_high.
Qed.

#[global] Arguments be : simpl never.
#[global] Arguments be_val : simpl never.
#[global] Arguments u8 : simpl never.
#[global] Arguments b2z : simpl never.
#[global] Arguments len : simpl never.

(** ** Machine widths *)

Definition is_u8 (z : Z) : Prop := 0 <= z < 2 ^ 8.
Definition is_u16 (z : Z) : Prop := 0 <= z < 2 ^ 16.
Definition is_u24 (z : Z) : Prop := 0 <= z < 2 ^ 24.
Definition is_u32 (z : Z) : Prop := 0 <= z < 2 ^ 32.
Definition is_u64 (z : Z) : Prop := 0 <= z < 2 ^ 64.

(** Cut or pad with zeros to [n] bytes: toy primitives in the examples. *)
Definition fit (n : nat) (b : bytes) : bytes := take n (b ++ replicate n x00).

Lemma fit_len n b : length (fit n b) = n.
Proof. unfold fit. rewrite length_take, length_app, length_replicate. lia. Qed.

(** ** Automation *)

(** Decide integer comparisons in the goal from the hypotheses. *)
Ltac zbool :=
  repeat match goal with
  | |- context [Z.ltb ?a ?b] =>
      first [ replace (Z.ltb a b) with true by (symmetry; apply Z.ltb_lt; lia)
            | replace (Z.ltb a b) with false by (symmetry; apply Z.ltb_ge; lia) ]
  | |- context [Z.leb ?a ?b] =>
      first [ replace (Z.leb a b) with true by (symmetry; apply Z.leb_le; lia)
            | replace (Z.leb a b) with false by (symmetry; apply Z.leb_gt; lia) ]
  | |- context [Z.eqb ?a ?b] =>
      first [ replace (Z.eqb a b) with true by (symmetry; apply Z.eqb_eq; lia)
            | replace (Z.eqb a b) with false by (symmetry; apply Z.eqb_neq; lia) ]
  end; cbn [negb andb orb].
