(* ===== verification/Cryptobyte.v ===== *)
(** * The interface of golang.org/x/crypto/cryptobyte

    The message and extension codecs of uTLS are written against the package
    golang.org/x/crypto/cryptobyte, whose source is not part of this
    repository.  It is therefore a parameter of the model: class [Cryptobyte]
    lists the methods the code calls, class [CryptobyteOk] states their
    documented behaviour, and every codec theorem is proved for an arbitrary
    implementation.  [Reference] shows that the laws can be met and makes the
    codecs executable.

    The second half is the vocabulary of the codec proofs: [Emits f d] says
    that the builder function [f] appends the byte string [d] (or fails, when
    [d] is [None]); [loop] is the [for !s.Empty()] statement of the parsers. *)

From S2P Require Import Prelude.

(** ** Reference readings of a byte string *)

(** Read exactly [n] bytes. *)
Definition rd_bytes (n : Z) (s : bytes) : option (bytes * bytes) :=
  if (0 <=? n) && (n <=? len s)
  then Some (take (Z.to_nat n) s, drop (Z.to_nat n) s) else None.

(** Read an [n]-byte big-endian integer. *)
Definition rd_uint (n : nat) (s : bytes) : option (Z * bytes) :=
  if (n <=? length s)%nat then Some (be_val (take n s), drop n s) else None.

(** Read a string preceded by its [n]-byte length. *)
Definition rd_lp (n : nat) (s : bytes) : option (bytes * bytes) :=
  match rd_uint n s with Some (l, r) => rd_bytes l r | None => None end.

(** Append optional outputs; [None] is a builder in its error state. *)
Definition oapp (x y : option bytes) : option bytes :=
  match x, y with Some p, Some q => Some (p ++ q) | _, _ => None end.

(** Length-prefix an output; it fails when the length does not fit. *)
Definition olp (n : nat) (x : option bytes) : option bytes :=
  match x with
  | Some c => if len c <? 256 ^ Z.of_nat n then Some (be n (len c) ++ c) else None
  | None => None
  end.

Fixpoint oconcat (l : list (option bytes)) : option bytes :=
  match l with [] => Some [] | x :: l => oapp x (oconcat l) end.

#[global] Arguments rd_bytes : simpl never.
#[global] Arguments rd_uint : simpl never.
#[global] Arguments rd_lp : simpl never.
#[global] Arguments oapp : simpl never.
#[global] Arguments olp : simpl never.

(** ** The package's methods and their documented behaviour *)

Class Cryptobyte := {
  Builder : Type;
  NewBuilder : Builder;
  AddUint8 : Z -> Builder -> Builder;
  AddUint16 : Z -> Builder -> Builder;
  AddUint24 : Z -> Builder -> Builder;
  AddUint32 : Z -> Builder -> Builder;
  AddBytes : bytes -> Builder -> Builder;
  AddUint8LengthPrefixed : (Builder -> Builder) -> Builder -> Builder;
  AddUint16LengthPrefixed : (Builder -> Builder) -> Builder -> Builder;
  AddUint24LengthPrefixed : (Builder -> Builder) -> Builder -> Builder;
  AddValue : (Builder -> Builder * option gerror) -> Builder -> Builder;
  SetError : gerror -> Builder -> Builder;
  Bytes : Builder -> res bytes;
  Empty : bytes -> bool;
  Skip : Z -> bytes -> option bytes;
  ReadUint8 : bytes -> option (Z * bytes);
  ReadUint16 : bytes -> option (Z * bytes);
  ReadUint24 : bytes -> option (Z * bytes);
  ReadUint32 : bytes -> option (Z * bytes);
  ReadUint64 : bytes -> option (Z * bytes);
  ReadBytes : Z -> bytes -> option (bytes * bytes);
  CopyBytes : Z -> bytes -> option (bytes * bytes);
  ReadUint8LengthPrefixed : bytes -> option (bytes * bytes);
  ReadUint16LengthPrefixed : bytes -> option (bytes * bytes);
  ReadUint24LengthPrefixed : bytes -> option (bytes * bytes)
}.

(** The bytes of a builder, forgetting which error it holds. *)
Definition out `{Cryptobyte} (b : Builder) : option bytes :=
  match Bytes b with inr p => Some p | inl _ => None end.

Class CryptobyteOk (C : Cryptobyte) : Prop := {
  out_NewBuilder : out NewBuilder = Some [];
  out_AddUint8 v b : out (AddUint8 v b) = oapp (out b) (Some (be 1 v));
  out_AddUint16 v b : out (AddUint16 v b) = oapp (out b) (Some (be 2 v));
  out_AddUint24 v b : out (AddUint24 v b) = oapp (out b) (Some (be 3 v));
  out_AddUint32 v b : out (AddUint32 v b) = oapp (out b) (Some (be 4 v));
  out_AddBytes v b : out (AddBytes v b) = oapp (out b) (Some v);
  out_AddUint8LengthPrefixed f b :
    out (AddUint8LengthPrefixed f b) = oapp (out b) (olp 1 (out (f NewBuilder)));
  out_AddUint16LengthPrefixed f b :
    out (AddUint16LengthPrefixed f b) = oapp (out b) (olp 2 (out (f NewBuilder)));
  out_AddUint24LengthPrefixed f b :
    out (AddUint24LengthPrefixed f b) = oapp (out b) (olp 3 (out (f NewBuilder)));
  out_AddValue f b :
    out (AddValue f b) =
      match (f b).2 with Some _ => None | None => out (f b).1 end;
  out_SetError e b : out (SetError e b) = None;
  Empty_spec s : Empty s = match s with [] => true | _ => false end;
  Skip_spec n s : Skip n s = snd <$> rd_bytes n s;
  ReadUint8_spec s : ReadUint8 s = rd_uint 1 s;
  ReadUint16_spec s : ReadUint16 s = rd_uint 2 s;
  ReadUint24_spec s : ReadUint24 s = rd_uint 3 s;
  ReadUint32_spec s : ReadUint32 s = rd_uint 4 s;
  ReadUint64_spec s : ReadUint64 s = rd_uint 8 s;
  ReadBytes_spec n s : ReadBytes n s = rd_bytes n s;
  CopyBytes_spec n s : CopyBytes n s = rd_bytes n s;
  ReadUint8LengthPrefixed_spec s : ReadUint8LengthPrefixed s = rd_lp 1 s;
  ReadUint16LengthPrefixed_spec s : ReadUint16LengthPrefixed s = rd_lp 2 s;
  ReadUint24LengthPrefixed_spec s : ReadUint24LengthPrefixed s = rd_lp 3 s
}.

(** A concrete implementation: a builder is its accumulated output. *)
Module Reference.

Definition add (q : bytes) (b : res bytes) : res bytes :=
  match b with inl e => inl e | inr p => inr (p ++ q) end.

Definition add_lp (n : nat) (f : res bytes -> res bytes) (b : res bytes) : res bytes :=
  match b with
  | inl e => inl e
  | inr p =>
      match f (inr []) with
      | inl e => inl e
      | inr c =>
          if len c <? 256 ^ Z.of_nat n then inr (p ++ be n (len c) ++ c)
          else inl (Errorf "cryptobyte: pending child length %d exceeds %d-byte length prefix"
                      [len c; Z.of_nat n])
      end
  end.

#[export] Instance ops : Cryptobyte := {|
  Builder := res bytes;
  NewBuilder := inr [];
  AddUint8 v := add (be 1 v);
  AddUint16 v := add (be 2 v);
  AddUint24 v := add (be 3 v);
  AddUint32 v := add (be 4 v);
  AddBytes v := add v;
  AddUint8LengthPrefixed := add_lp 1;
  AddUint16LengthPrefixed := add_lp 2;
  AddUint24LengthPrefixed := add_lp 3;
  AddValue f b := match f b with (b', None) => b' | (_, Some e) => inl e end;
  SetError e _ := inl e;
  Bytes b := b;
  Empty s := match s with [] => true | _ => false end;
  Skip n s := snd <$> rd_bytes n s;
  ReadUint8 := rd_uint 1;
  ReadUint16 := rd_uint 2;
  ReadUint24 := rd_uint 3;
  ReadUint32 := rd_uint 4;
  ReadUint64 := rd_uint 8;
  ReadBytes := rd_bytes;
  CopyBytes := rd_bytes;
  ReadUint8LengthPrefixed := rd_lp 1;
  ReadUint16LengthPrefixed := rd_lp 2;
  ReadUint24LengthPrefixed := rd_lp 3
|}.

Lemma out_add q b : out (add q b) = oapp (out b) (Some q).
Proof. by destruct b. Qed.

Lemma out_add_lp n f b : out (add_lp n f b) = oapp (out b) (olp n (out (f NewBuilder))).
Proof.
  destruct b as [e|p]; [done|]. unfold out, olp. simpl.
  destruct (f (inr [])) as [e|c]; [done|]. by destruct (_ <? _).
Qed.

#[export] Instance ok : CryptobyteOk ops.
Proof.
  split; try reflexivity; intros; try apply out_add; try apply out_add_lp.
  unfold out. simpl. by destruct (f b) as [b' []].
Qed.

End Reference.

(** ** Reading back what was written *)

Lemma len_app {A} (a b : list A) : len (a ++ b) = len a + len b.
Proof. unfold len. rewrite length_app. lia. Qed.

Lemma len_nonneg {A} (a : list A) : 0 <= len a.
Proof. unfold len. lia. Qed.

Lemma len_nil {A} : len (@nil A) = 0.
Proof. done. Qed.

Lemma len_cons {A} (x : A) l : len (x :: l) = 1 + len l.
Proof. unfold len. simpl. lia. Qed.

Lemma len_be n z : len (be n z) = Z.of_nat n.
Proof. unfold len. by rewrite length_be. Qed.

Lemma len_0_iff {A} (l : list A) : len l = 0 <-> l = [].
Proof. unfold len. rewrite <- length_zero_iff_nil. lia. Qed.

Create HintDb cb.
#[export] Hint Rewrite @len_app @len_nil @len_cons len_be : cb.

Lemma rd_bytes_app c r n : n = len c -> rd_bytes n (c ++ r) = Some (c, r).
Proof.
  intros ->. unfold rd_bytes. rewrite len_app.
  pose proof (len_nonneg c). pose proof (len_nonneg r).
  replace ((0 <=? len c) && (len c <=? len c + len r)) with true
    by (symmetry; rewrite andb_true_iff; split; apply Z.leb_le; lia).
  unfold len. rewrite Nat2Z.id. by rewrite take_app_length, drop_app_length.
Qed.

Lemma rd_bytes_all c n : n = len c -> rd_bytes n c = Some (c, []).
Proof. intros. rewrite <- (app_nil_r c) at 1. by apply rd_bytes_app. Qed.

Lemma rd_uint_be n z r :
  rd_uint n (be n z ++ r) = Some (z mod 256 ^ Z.of_nat n, r).
Proof.
  unfold rd_uint. rewrite length_app, length_be.
  replace (n <=? n + length r)%nat with true by (symmetry; apply Nat.leb_le; lia).
  rewrite <- (length_be n z) at 1. rewrite take_app_length.
  rewrite <- (length_be n z) at 2. rewrite drop_app_length. by rewrite be_val_be.
Qed.

Lemma rd_uint_be_small n z r :
  0 <= z < 256 ^ Z.of_nat n -> rd_uint n (be n z ++ r) = Some (z, r).
Proof. intros. rewrite rd_uint_be. by rewrite Z.mod_small. Qed.

Lemma rd_lp_app n c r :
  len c < 256 ^ Z.of_nat n -> rd_lp n ((be n (len c) ++ c) ++ r) = Some (c, r).
Proof.
  intros. unfold rd_lp. rewrite <- app_assoc.
  rewrite rd_uint_be_small by (pose proof (len_nonneg c); lia). by apply rd_bytes_app.
Qed.

Lemma oapp_Some x y z :
  oapp x y = Some z <-> exists p q, x = Some p /\ y = Some q /\ z = p ++ q.
Proof. destruct x, y; unfold oapp; naive_solver. Qed.

Lemma oapp_nil_l x : oapp (Some []) x = x.
Proof. by destruct x. Qed.

Lemma oapp_nil_r x : oapp x (Some []) = x.
Proof. destruct x; unfold oapp; by rewrite ?app_nil_r. Qed.

Lemma oapp_assoc x y z : oapp x (oapp y z) = oapp (oapp x y) z.
Proof. destruct x, y, z; unfold oapp; by rewrite ?app_assoc. Qed.

Lemma olp_Some n x z :
  olp n x = Some z <->
  exists c, x = Some c /\ len c < 256 ^ Z.of_nat n /\ z = be n (len c) ++ c.
Proof.
  unfold olp. destruct x as [c|]; [|naive_solver].
  destruct (Z.ltb_spec (len c) (256 ^ Z.of_nat n)); naive_solver lia.
Qed.

(** Sizes of what the reading functions leave over. *)
Lemma rd_bytes_len n s c r : rd_bytes n s = Some (c, r) -> len s = len c + len r.
Proof.
  unfold rd_bytes. destruct (_ && _); [|done]. intros [= <- <-].
  unfold len. rewrite length_take, length_drop. lia.
Qed.

Lemma rd_bytes_eq n s c r :
  rd_bytes n s = Some (c, r) -> s = c ++ r /\ n = len c.
Proof.
  unfold rd_bytes. destruct (_ && _) eqn:E; [|done]. intros [= <- <-].
  apply andb_true_iff in E as [E1%Z.leb_le E2%Z.leb_le].
  split; [by rewrite take_drop|]. unfold len in *. rewrite length_take. lia.
Qed.

Lemma rd_uint_eq n s v r :
  rd_uint n s = Some (v, r) -> s = be n v ++ r /\ 0 <= v < 256 ^ Z.of_nat n.
Proof.
  unfold rd_uint. destruct (Nat.leb_spec n (length s)); [|done]. intros [= <- <-].
  pose proof (be_val_range (take n s)) as Hr. unfold len in Hr.
  rewrite length_take, Nat.min_l in Hr by done.
  split; [|done]. rewrite <- (take_drop n s) at 1. f_equal.
  rewrite <- (be_be_val (take n s)) at 1. by rewrite length_take, Nat.min_l.
Qed.

Lemma rd_lp_eq n s c r :
  rd_lp n s = Some (c, r) -> s = (be n (len c) ++ c) ++ r /\ len c < 256 ^ Z.of_nat n.
Proof.
  unfold rd_lp. destruct (rd_uint n s) as [[l s1]|] eqn:E; [|done].
  intros [-> ->]%rd_bytes_eq. apply rd_uint_eq in E as [-> ?].
  rewrite <- app_assoc. split; [done|lia].
Qed.

Lemma rd_uint_shrinks n s v r :
  rd_uint n s = Some (v, r) -> len s = Z.of_nat n + len r.
Proof. intros [-> _]%rd_uint_eq. by autorewrite with cb. Qed.

Lemma rd_lp_shrinks n s c r :
  rd_lp n s = Some (c, r) -> len s = Z.of_nat n + len c + len r.
Proof. intros [-> _]%rd_lp_eq. autorewrite with cb. lia. Qed.

(** ** Builder functions *)

Declare Scope builder_scope.
Delimit Scope builder_scope with bld.

(** Statements of a builder function run one after the other. *)
Definition bseq {B : Type} (f g : B -> B) : B -> B := fun b => g (f b).
Notation "f ;> g" := (bseq f g)
  (at level 90, right associativity, format "'[v' f  ;> '/' g ']'") : builder_scope.
#[global] Open Scope builder_scope.

(** [if c { f }] and [if c { f } else { g }]. *)
Definition bwhen {B : Type} (c : bool) (f : B -> B) : B -> B :=
  if c then f else fun b => b.

Definition bnop {B : Type} : B -> B := fun b => b.

(** [for _, x := range l { f x }]. *)
Fixpoint for_each {A B : Type} (l : list A) (f : A -> B -> B) : B -> B :=
  match l with
  | [] => fun b => b
  | x :: l => bseq (f x) (for_each l f)
  end.

Section Emission.
Context `{C : Cryptobyte} {Cok : CryptobyteOk C}.

(** Running [f] appends [d]. *)
Class Emits (f : Builder -> Builder) (d : option bytes) : Prop :=
  emits b : out (f b) = oapp (out b) d.

#[global] Instance emits_AddUint8 v : Emits (AddUint8 v) (Some (be 1 v)).
Proof. intros b. apply out_AddUint8. Qed.
#[global] Instance emits_AddUint16 v : Emits (AddUint16 v) (Some (be 2 v)).
Proof. intros b. apply out_AddUint16. Qed.
#[global] Instance emits_AddUint24 v : Emits (AddUint24 v) (Some (be 3 v)).
Proof. intros b. apply out_AddUint24. Qed.
#[global] Instance emits_AddUint32 v : Emits (AddUint32 v) (Some (be 4 v)).
Proof. intros b. apply out_AddUint32. Qed.
#[global] Instance emits_AddBytes v : Emits (AddBytes v) (Some v).
Proof. intros b. apply out_AddBytes. Qed.

Lemma emits_new f d : Emits f d -> out (f NewBuilder) = d.
Proof. intros E. by rewrite (E _), out_NewBuilder, oapp_nil_l. Qed.

#[global] Instance emits_lp8 f d :
  Emits f d -> Emits (AddUint8LengthPrefixed f) (olp 1 d).
Proof. intros E b. by rewrite out_AddUint8LengthPrefixed, (emits_new f d). Qed.
#[global] Instance emits_lp16 f d :
  Emits f d -> Emits (AddUint16LengthPrefixed f) (olp 2 d).
Proof. intros E b. by rewrite out_AddUint16LengthPrefixed, (emits_new f d). Qed.
#[global] Instance emits_lp24 f d :
  Emits f d -> Emits (AddUint24LengthPrefixed f) (olp 3 d).
Proof. intros E b. by rewrite out_AddUint24LengthPrefixed, (emits_new f d). Qed.

#[global] Instance emits_seq f g d e :
  Emits f d -> Emits g e -> Emits (bseq f g) (oapp d e).
Proof. intros E F b. unfold bseq. by rewrite (F _), (E _), oapp_assoc. Qed.

#[global] Instance emits_when c f d :
  Emits f d -> Emits (bwhen c f) (if c then d else Some []).
Proof. intros E b. unfold bwhen. destruct c; [apply E|by rewrite oapp_nil_r]. Qed.

#[global] Instance emits_nop : Emits bnop (Some []).
Proof. intros b. by rewrite oapp_nil_r. Qed.

#[global] Instance emits_if (c : bool) f g d e :
  Emits f d -> Emits g e -> Emits (if c then f else g) (if c then d else e).
Proof. intros E F. by destruct c. Qed.

#[global] Instance emits_for_each {A} (l : list A) f d :
  (forall x, Emits (f x) (d x)) -> Emits (for_each l f) (oconcat (map d l)).
Proof.
  intros E. induction l as [|x l IH]; simpl; [apply emits_nop|].
  by apply emits_seq.
Qed.

(** The output of [b.Bytes()] after running an emitting function on a new
    builder. *)
Lemma Bytes_emits f d x : Emits f d -> Bytes (f NewBuilder) = inr x <-> d = Some x.
Proof.
  intros E%emits_new. unfold out in E. destruct (Bytes _); naive_solver.
Qed.

End Emission.

#[export] Hint Rewrite @Empty_spec @Skip_spec @ReadUint8_spec @ReadUint16_spec
  @ReadUint24_spec @ReadUint32_spec @ReadUint64_spec @ReadBytes_spec @CopyBytes_spec
  @ReadUint8LengthPrefixed_spec @ReadUint16LengthPrefixed_spec
  @ReadUint24LengthPrefixed_spec using typeclasses eauto : cbspec.

(** ** Parsing loops *)

Section Loops.
Context `{C : Cryptobyte} {Cok : CryptobyteOk C}.

(** [for !s.Empty() { body }]: the body updates the loop's variables and
    consumes part of [s], or makes the function return false.  Every iteration
    of the modelled loops consumes at least one byte ([shrinks]), so [length s]
    iterations are enough ([while_nonempty_fuel]). *)
Fixpoint while_nonempty {S} (body : S -> bytes -> option (S * bytes))
    (fuel : nat) (st : S) (s : bytes) : option S :=
  if Empty s then Some st else
  match fuel with
  | O => None
  | Datatypes.S fuel =>
      match body st s with
      | Some (st', s') => while_nonempty body fuel st' s'
      | None => None
      end
  end.

Definition loop {S} (body : S -> bytes -> option (S * bytes)) (st : S) (s : bytes) :=
  while_nonempty body (length s) st s.

Definition shrinks {S} (body : S -> bytes -> option (S * bytes)) : Prop :=
  forall st s st' s', body st s = Some (st', s') -> (length s' < length s)%nat.

Lemma while_nonempty_fuel {S} (body : S -> bytes -> option (S * bytes)) fuel st s :
  shrinks body -> (length s <= fuel)%nat ->
  while_nonempty body fuel st s = loop body st s.
Proof.
  intros Hb. unfold loop.
  enough (forall n m st s, (length s <= n)%nat -> (length s <= m)%nat ->
    while_nonempty body n st s = while_nonempty body m st s) by eauto.
  induction n as [|n IH]; intros m st1 s1 Hn Hm.
  - destruct s1; [|simpl in *; lia]. destruct m; simpl; by rewrite Empty_spec.
  - destruct m as [|m].
    + destruct s1; [|simpl in *; lia]. simpl. by rewrite Empty_spec.
    + simpl. destruct (Empty s1); [done|].
      destruct (body st1 s1) as [[st' s']|] eqn:E; [|done].
      apply Hb in E. apply IH; lia.
Qed.

Lemma loop_nil {S} (body : S -> bytes -> option (S * bytes)) st :
  loop body st [] = Some st.
Proof. unfold loop. simpl. by rewrite Empty_spec. Qed.

Lemma loop_step {S} (body : S -> bytes -> option (S * bytes)) st s :
  shrinks body -> s <> [] ->
  loop body st s =
    match body st s with Some (st', s') => loop body st' s' | None => None end.
Proof.
  intros Hb Hs. unfold loop at 1. destruct s as [|b s]; [done|].
  cbn [length while_nonempty]. rewrite Empty_spec.
  destruct (body st (b :: s)) as [[st' s']|] eqn:E; [|done].
  apply Hb in E. apply while_nonempty_fuel; simpl in *; auto with lia.
Qed.

(** A loop over the concatenated encodings of [xs] folds the update over [xs]. *)
Lemma loop_concat {S A} (body : S -> bytes -> option (S * bytes))
    (enc : A -> bytes) (upd : S -> A -> S) (P : A -> Prop) xs st :
  shrinks body ->
  (forall x st r, P x -> body st (enc x ++ r) = Some (upd st x, r)) ->
  Forall P xs ->
  loop body st (concat (map enc xs)) = Some (fold_left upd xs st).
Proof.
  intros Hs Hb HP. revert st. induction HP as [|x xs Hx HP IH]; intros st; simpl.
  - apply loop_nil.
  - pose proof (Hb x st (concat (map enc xs)) Hx) as E.
    rewrite loop_step; [by rewrite E|done|].
    apply Hs in E. destruct (enc x ++ _); [simpl in E; lia|done].
Qed.

End Loops.

Lemma fold_left_snoc {A} (xs acc : list A) :
  fold_left (fun l x => l ++ [x]) xs acc = acc ++ xs.
Proof.
  revert acc. induction xs as [|x xs IH]; intros acc; simpl; [by rewrite app_nil_r|].
  by rewrite IH, <- app_assoc.
Qed.

Lemma oconcat_Some {A} (d : A -> option bytes) (e : A -> bytes) (P : A -> Prop) xs z :
  (forall x y, d x = Some y -> y = e x /\ P x) ->
  oconcat (map d xs) = Some z -> z = concat (map e xs) /\ Forall P xs.
Proof.
  intros Hd. revert z. induction xs as [|x xs IH]; simpl; intros z.
  - intros [= <-]. by split.
  - intros (p & q & [-> ?]%Hd & [-> ?]%IH & ->)%oapp_Some. by split; [|constructor].
Qed.

(** ** Automation for codec round trips *)

Lemma rd_lp_cat n c r :
  len c < 256 ^ Z.of_nat n -> rd_lp n (be n (len c) ++ c ++ r) = Some (c, r).
Proof. intros. rewrite app_assoc. by apply rd_lp_app. Qed.

Lemma rd_lp_end n c :
  len c < 256 ^ Z.of_nat n -> rd_lp n (be n (len c) ++ c) = Some (c, []).
Proof. intros. rewrite <- (rd_lp_app n c []) by done. by rewrite app_nil_r. Qed.

Lemma rd_uint_end n z :
  0 <= z < 256 ^ Z.of_nat n -> rd_uint n (be n z) = Some (z, []).
Proof. intros. rewrite <- (rd_uint_be_small n z []) by done. by rewrite app_nil_r. Qed.

Lemma rd_lp_zero n r : rd_lp n (be n 0 ++ r) = Some ([], r).
Proof. rewrite <- (rd_lp_cat n [] r); [done|]. apply Z.pow_pos_nonneg; lia. Qed.

Lemma rd_lp_zero_end n : rd_lp n (be n 0) = Some ([], []).
Proof. rewrite <- (app_nil_r (be n 0)). apply rd_lp_zero. Qed.

(** Skipping the four-byte handshake message header. *)
Lemma rd_bytes_header t l c : rd_bytes 4 (be 1 t ++ be 3 l ++ c) = Some (be 1 t ++ be 3 l, c).
Proof. rewrite app_assoc. by apply rd_bytes_app. Qed.

Lemma rd_bytes_header' t l c : rd_bytes 4 (be 1 t ++ (be 3 l ++ c)) = Some (be 1 t ++ be 3 l, c).
Proof. apply rd_bytes_header. Qed.

(** Taking apart a successful output. *)
Ltac inv_out :=
  repeat match goal with
  | H : oapp _ _ = Some _ |- _ => apply oapp_Some in H as (? & ? & ? & ? & ?)
  | H : olp _ _ = Some _ |- _ => apply olp_Some in H as (? & ? & ? & ?)
  | H : Some _ = Some _ |- _ => injection H as H
  | H : ?x = ?t |- _ => is_var x; subst x
  | H : ?t = ?x |- _ => is_var x; subst x
  end.

(** Running the parser over a concatenation of encodings. *)
Ltac width := unfold is_u8, is_u16, is_u24, is_u32 in *; simpl Z.of_nat in *;
  first [assumption | lia | split; vm_compute; [discriminate | reflexivity]].

Ltac parse_step :=
  first
    [ rewrite rd_bytes_header | rewrite rd_lp_zero | rewrite rd_lp_zero_end
    | rewrite rd_lp_cat by width | rewrite rd_lp_end by width
    | rewrite rd_uint_be_small by width | rewrite rd_uint_end by width
    | rewrite rd_bytes_app by width | rewrite rd_bytes_all by width ].

Ltac parse := autorewrite with cbspec; rewrite <- ?app_assoc, ?app_nil_l;
  repeat (parse_step; cbn [fmap option_fmap option_map snd fst]; autorewrite with cbspec).

(** Replace [H : Bytes (f NewBuilder) = inr x] by the denotation of [f]. *)
Ltac denote H :=
  match type of H with
  | Bytes (?f NewBuilder) = inr ?x =>
      let E := fresh "E" in
      eassert (E : Emits f _) by typeclasses eauto;
      apply (Bytes_emits f _ x E) in H; clear E
  end.
