(* ===== verification/Common.v ===== *)
(** * Constants, data and negotiation helpers shared by the whole library

    Models common.go and the constants of u_common.go: protocol versions,
    record types and limits, message types, extension numbers; the structs
    [keyShare] and [pskIdentity]; the GREASE tests of u_common.go.  Every
    integer constant of the source is a [Z] within its Go width. *)

From S2P Require Import Prelude.

(** ** Constants *)

(** Protocol versions (common.go). *)
Definition VersionTLS10 : Z := 0x0301.
Definition VersionTLS11 : Z := 0x0302.
Definition VersionTLS12 : Z := 0x0303.
Definition VersionTLS13 : Z := 0x0304.
Definition VersionSSL30 : Z := 0x0300.

(** Record-layer limits (common.go). *)
Definition maxPlaintext : Z := 16384.
Definition maxCiphertext : Z := 16384 + 2048.
Definition maxCiphertextTLS13 : Z := 16384 + 256.
Definition recordHeaderLen : Z := 5.
Definition maxHandshake : Z := 65536.
Definition maxHandshakeCertificateMsg : Z := 262144.
Definition maxUselessRecords : Z := 32.

(** Record types (common.go). *)
Definition recordTypeChangeCipherSpec : Z := 20.
Definition recordTypeAlert : Z := 21.
Definition recordTypeHandshake : Z := 22.
Definition recordTypeApplicationData : Z := 23.

(** Handshake message types (common.go, u_common.go). *)
Definition typeHelloRequest : Z := 0.
Definition typeClientHello : Z := 1.
Definition typeServerHello : Z := 2.
Definition typeNewSessionTicket : Z := 4.
Definition typeEndOfEarlyData : Z := 5.
Definition typeEncryptedExtensions : Z := 8.
Definition typeCertificate : Z := 11.
Definition typeServerKeyExchange : Z := 12.
Definition typeCertificateRequest : Z := 13.
Definition typeServerHelloDone : Z := 14.
Definition typeCertificateVerify : Z := 15.
Definition typeClientKeyExchange : Z := 16.
Definition typeFinished : Z := 20.
Definition typeCertificateStatus : Z := 22.
Definition typeKeyUpdate : Z := 24.
Definition typeMessageHash : Z := 254.

(** Compressed certificate message (u_common.go). *)
Definition utlsTypeCompressedCertificate : Z := 25.

(** Alerts (alert.go). *)
Definition alertLevelWarning : Z := 1.
Definition alertLevelError : Z := 2.
Definition alertCloseNotify : Z := 0.
Definition alertUnexpectedMessage : Z := 10.
Definition alertBadRecordMAC : Z := 20.
Definition alertDecryptionFailed : Z := 21.
Definition alertRecordOverflow : Z := 22.
Definition alertDecompressionFailure : Z := 30.
Definition alertHandshakeFailure : Z := 40.
Definition alertBadCertificate : Z := 42.
Definition alertUnsupportedCertificate : Z := 43.
Definition alertCertificateRevoked : Z := 44.
Definition alertCertificateExpired : Z := 45.
Definition alertCertificateUnknown : Z := 46.
Definition alertIllegalParameter : Z := 47.
Definition alertUnknownCA : Z := 48.
Definition alertAccessDenied : Z := 49.
Definition alertDecodeError : Z := 50.
Definition alertDecryptError : Z := 51.
Definition alertExportRestriction : Z := 60.
Definition alertProtocolVersion : Z := 70.
Definition alertInsufficientSecurity : Z := 71.
Definition alertInternalError : Z := 80.
Definition alertInappropriateFallback : Z := 86.
Definition alertUserCanceled : Z := 90.
Definition alertNoRenegotiation : Z := 100.
Definition alertMissingExtension : Z := 109.
Definition alertUnsupportedExtension : Z := 110.
Definition alertCertificateUnobtainable : Z := 111.
Definition alertUnrecognizedName : Z := 112.
Definition alertBadCertificateStatusResponse : Z := 113.
Definition alertBadCertificateHashValue : Z := 114.
Definition alertUnknownPSKIdentity : Z := 115.
Definition alertCertificateRequired : Z := 116.
Definition alertNoApplicationProtocol : Z := 120.
Definition alertECHRequired : Z := 121.

(** Extension numbers (common.go). *)
Definition extensionServerName : Z := 0.
Definition extensionStatusRequest : Z := 5.
Definition extensionSupportedCurves : Z := 10.
Definition extensionSupportedPoints : Z := 11.
Definition extensionSignatureAlgorithms : Z := 13.
Definition extensionALPN : Z := 16.
Definition extensionStatusRequestV2 : Z := 17.
Definition extensionSCT : Z := 18.
Definition extensionExtendedMasterSecret : Z := 23.
Definition extensionDelegatedCredentials : Z := 34.
Definition extensionSessionTicket : Z := 35.
Definition extensionPreSharedKey : Z := 41.
Definition extensionEarlyData : Z := 42.
Definition extensionSupportedVersions : Z := 43.
Definition extensionCookie : Z := 44.
Definition extensionPSKModes : Z := 45.
Definition extensionCertificateAuthorities : Z := 47.
Definition extensionSignatureAlgorithmsCert : Z := 50.
Definition extensionKeyShare : Z := 51.
Definition extensionQUICTransportParameters : Z := 57.
Definition extensionRenegotiationInfo : Z := 0xff01.
Definition extensionECHOuterExtensions : Z := 0xfd00.
Definition extensionEncryptedClientHello : Z := 0xfe0d.

(** Signalling cipher suite (common.go). *)
Definition scsvRenegotiation : Z := 0x00ff.

(** Key exchange groups (common.go). *)
Definition CurveP256 : Z := 23.
Definition CurveP384 : Z := 24.
Definition CurveP521 : Z := 25.
Definition X25519 : Z := 29.
Definition X25519MLKEM768 : Z := 4588.

(** CertificateStatusType (common.go). *)
Definition statusTypeOCSP : Z := 1.
Definition statusV2TypeOCSP : Z := 2.

(** uTLS extension numbers (u_common.go). *)
Definition extensionNextProtoNeg : Z := 13172.
Definition utlsExtensionPadding : Z := 21.
Definition utlsExtensionCompressCertificate : Z := 27.
Definition utlsExtensionApplicationSettings : Z := 17513.
Definition utlsExtensionApplicationSettingsNew : Z := 17613.
Definition utlsFakeExtensionCustom : Z := 1234.
Definition utlsExtensionTrustAnchors : Z := 0xca34.
Definition utlsExtensionECH : Z := 0xfe0d.
Definition utlsExtensionECHOuterExtensions : Z := 0xfd00.
Definition fakeExtensionEncryptThenMAC : Z := 22.
Definition fakeExtensionTokenBinding : Z := 24.
Definition fakeExtensionDelegatedCredentials : Z := 34.
Definition fakeExtensionPreSharedKey : Z := 41.
Definition fakeOldExtensionChannelID : Z := 30031.
Definition fakeExtensionChannelID : Z := 30032.

(** Other uTLS extension numbers (u_common.go). *)
Definition fakeRecordSizeLimit : Z := 0x001c.

(** The GREASE placeholder (u_common.go). *)
Definition GREASE_PLACEHOLDER : Z := 0x0a0a.

(** ** Structs shared by several messages *)

(** TLS 1.3 key share (common.go). *)
Module keyShare.
Record t := Mk { group : Z; data : bytes }.
End keyShare.

(** TLS 1.3 PSK identity (common.go). *)
Module pskIdentity.
Record t := Mk { label : bytes; obfuscatedTicketAge : Z }.
End pskIdentity.

#[export] Instance keyShare_eq_dec : EqDecision keyShare.t.
Proof. solve_decision. Defined.
#[export] Instance pskIdentity_eq_dec : EqDecision pskIdentity.t.
Proof. solve_decision. Defined.

(** ** GREASE (u_common.go) *)

Definition isGREASEUint16 (v : Z) : bool :=
  (Z.shiftr v 8 =? Z.land v 0xff) && (Z.land v 0xf =? 0xa).

Definition unGREASEUint16 (v : Z) : Z :=
  if isGREASEUint16 v then GREASE_PLACEHOLDER else v.
