(* ===== verification/Config.v ===== *)
(** * The configuration

    Models the part of [Config] (common.go) that the modelled code reads or
    writes.  A nil slice that differs from an empty one is an [option]; the
    callbacks and the certificates are not here, they are arguments of the
    definitions that use them. *)

From S2P Require Import Prelude Common.

Inductive RenegotiationSupport := RenegotiateNever | RenegotiateOnceAsClient | RenegotiateFreelyAsClient.

Module Config.
Record t := Mk {
  ServerName : bytes;
  CurvePreferences : list Z;
  NextProtos : list bytes;
  Renegotiation : RenegotiationSupport;
  EncryptedClientHelloConfigList : option bytes;
  MinVersion : Z;
  MaxVersion : Z;
  CipherSuites : option (list Z);
  SessionTicketsDisabled : bool;
  InsecureSkipVerify : bool;
  InsecureSkipTimeVerify : bool;
  InsecureServerNameToVerify : bytes;
  OmitEmptyPsk : bool;
  PreferSkipResumptionOnNilExtension : bool;
  DynamicRecordSizingDisabled : bool
}.

Definition set_ServerName (v : bytes) (m : t) : t :=
  Mk v m.(CurvePreferences) m.(NextProtos) m.(Renegotiation)
    m.(EncryptedClientHelloConfigList) m.(MinVersion) m.(MaxVersion) m.(CipherSuites)
    m.(SessionTicketsDisabled) m.(InsecureSkipVerify) m.(InsecureSkipTimeVerify)
    m.(InsecureServerNameToVerify) m.(OmitEmptyPsk)
    m.(PreferSkipResumptionOnNilExtension) m.(DynamicRecordSizingDisabled).
Definition set_CurvePreferences (v : list Z) (m : t) : t :=
  Mk m.(ServerName) v m.(NextProtos) m.(Renegotiation) m.(EncryptedClientHelloConfigList)
    m.(MinVersion) m.(MaxVersion) m.(CipherSuites) m.(SessionTicketsDisabled)
    m.(InsecureSkipVerify) m.(InsecureSkipTimeVerify) m.(InsecureServerNameToVerify)
    m.(OmitEmptyPsk) m.(PreferSkipResumptionOnNilExtension)
    m.(DynamicRecordSizingDisabled).
Definition set_NextProtos (v : list bytes) (m : t) : t :=
  Mk m.(ServerName) m.(CurvePreferences) v m.(Renegotiation)
    m.(EncryptedClientHelloConfigList) m.(MinVersion) m.(MaxVersion) m.(CipherSuites)
    m.(SessionTicketsDisabled) m.(InsecureSkipVerify) m.(InsecureSkipTimeVerify)
    m.(InsecureServerNameToVerify) m.(OmitEmptyPsk)
    m.(PreferSkipResumptionOnNilExtension) m.(DynamicRecordSizingDisabled).
Definition set_Renegotiation (v : RenegotiationSupport) (m : t) : t :=
  Mk m.(ServerName) m.(CurvePreferences) m.(NextProtos) v m.(EncryptedClientHelloConfigList)
    m.(MinVersion) m.(MaxVersion) m.(CipherSuites) m.(SessionTicketsDisabled)
    m.(InsecureSkipVerify) m.(InsecureSkipTimeVerify) m.(InsecureServerNameToVerify)
    m.(OmitEmptyPsk) m.(PreferSkipResumptionOnNilExtension)
    m.(DynamicRecordSizingDisabled).
Definition set_EncryptedClientHelloConfigList (v : option bytes) (m : t) : t :=
  Mk m.(ServerName) m.(CurvePreferences) m.(NextProtos) m.(Renegotiation) v m.(MinVersion)
    m.(MaxVersion) m.(CipherSuites) m.(SessionTicketsDisabled) m.(InsecureSkipVerify)
    m.(InsecureSkipTimeVerify) m.(InsecureServerNameToVerify) m.(OmitEmptyPsk)
    m.(PreferSkipResumptionOnNilExtension) m.(DynamicRecordSizingDisabled).
Definition set_MinVersion (v : Z) (m : t) : t :=
  Mk m.(ServerName) m.(CurvePreferences) m.(NextProtos) m.(Renegotiation)
    m.(EncryptedClientHelloConfigList) v m.(MaxVersion) m.(CipherSuites)
    m.(SessionTicketsDisabled) m.(InsecureSkipVerify) m.(InsecureSkipTimeVerify)
    m.(InsecureServerNameToVerify) m.(OmitEmptyPsk)
    m.(PreferSkipResumptionOnNilExtension) m.(DynamicRecordSizingDisabled).
Definition set_MaxVersion (v : Z) (m : t) : t :=
  Mk m.(ServerName) m.(CurvePreferences) m.(NextProtos) m.(Renegotiation)
    m.(EncryptedClientHelloConfigList) m.(MinVersion) v m.(CipherSuites)
    m.(SessionTicketsDisabled) m.(InsecureSkipVerify) m.(InsecureSkipTimeVerify)
    m.(InsecureServerNameToVerify) m.(OmitEmptyPsk)
    m.(PreferSkipResumptionOnNilExtension) m.(DynamicRecordSizingDisabled).
Definition set_CipherSuites (v : option (list Z)) (m : t) : t :=
  Mk m.(ServerName) m.(CurvePreferences) m.(NextProtos) m.(Renegotiation)
    m.(EncryptedClientHelloConfigList) m.(MinVersion) m.(MaxVersion) v
    m.(SessionTicketsDisabled) m.(InsecureSkipVerify) m.(InsecureSkipTimeVerify)
    m.(InsecureServerNameToVerify) m.(OmitEmptyPsk)
    m.(PreferSkipResumptionOnNilExtension) m.(DynamicRecordSizingDisabled).
Definition set_SessionTicketsDisabled (v : bool) (m : t) : t :=
  Mk m.(ServerName) m.(CurvePreferences) m.(NextProtos) m.(Renegotiation)
    m.(EncryptedClientHelloConfigList) m.(MinVersion) m.(MaxVersion) m.(CipherSuites) v
    m.(InsecureSkipVerify) m.(InsecureSkipTimeVerify) m.(InsecureServerNameToVerify)
    m.(OmitEmptyPsk) m.(PreferSkipResumptionOnNilExtension)
    m.(DynamicRecordSizingDisabled).
Definition set_InsecureSkipVerify (v : bool) (m : t) : t :=
  Mk m.(ServerName) m.(CurvePreferences) m.(NextProtos) m.(Renegotiation)
    m.(EncryptedClientHelloConfigList) m.(MinVersion) m.(MaxVersion) m.(CipherSuites)
    m.(SessionTicketsDisabled) v m.(InsecureSkipTimeVerify)
    m.(InsecureServerNameToVerify) m.(OmitEmptyPsk)
    m.(PreferSkipResumptionOnNilExtension) m.(DynamicRecordSizingDisabled).
Definition set_InsecureSkipTimeVerify (v : bool) (m : t) : t :=
  Mk m.(ServerName) m.(CurvePreferences) m.(NextProtos) m.(Renegotiation)
    m.(EncryptedClientHelloConfigList) m.(MinVersion) m.(MaxVersion) m.(CipherSuites)
    m.(SessionTicketsDisabled) m.(InsecureSkipVerify) v m.(InsecureServerNameToVerify)
    m.(OmitEmptyPsk) m.(PreferSkipResumptionOnNilExtension)
    m.(DynamicRecordSizingDisabled).
Definition set_InsecureServerNameToVerify (v : bytes) (m : t) : t :=
  Mk m.(ServerName) m.(CurvePreferences) m.(NextProtos) m.(Renegotiation)
    m.(EncryptedClientHelloConfigList) m.(MinVersion) m.(MaxVersion) m.(CipherSuites)
    m.(SessionTicketsDisabled) m.(InsecureSkipVerify) m.(InsecureSkipTimeVerify) v
    m.(OmitEmptyPsk) m.(PreferSkipResumptionOnNilExtension)
    m.(DynamicRecordSizingDisabled).
Definition set_OmitEmptyPsk (v : bool) (m : t) : t :=
  Mk m.(ServerName) m.(CurvePreferences) m.(NextProtos) m.(Renegotiation)
    m.(EncryptedClientHelloConfigList) m.(MinVersion) m.(MaxVersion) m.(CipherSuites)
    m.(SessionTicketsDisabled) m.(InsecureSkipVerify) m.(InsecureSkipTimeVerify)
    m.(InsecureServerNameToVerify) v m.(PreferSkipResumptionOnNilExtension)
    m.(DynamicRecordSizingDisabled).
Definition set_PreferSkipResumptionOnNilExtension (v : bool) (m : t) : t :=
  Mk m.(ServerName) m.(CurvePreferences) m.(NextProtos) m.(Renegotiation)
    m.(EncryptedClientHelloConfigList) m.(MinVersion) m.(MaxVersion) m.(CipherSuites)
    m.(SessionTicketsDisabled) m.(InsecureSkipVerify) m.(InsecureSkipTimeVerify)
    m.(InsecureServerNameToVerify) m.(OmitEmptyPsk) v m.(DynamicRecordSizingDisabled).
Definition set_DynamicRecordSizingDisabled (v : bool) (m : t) : t :=
  Mk m.(ServerName) m.(CurvePreferences) m.(NextProtos) m.(Renegotiation)
    m.(EncryptedClientHelloConfigList) m.(MinVersion) m.(MaxVersion) m.(CipherSuites)
    m.(SessionTicketsDisabled) m.(InsecureSkipVerify) m.(InsecureSkipTimeVerify)
    m.(InsecureServerNameToVerify) m.(OmitEmptyPsk)
    m.(PreferSkipResumptionOnNilExtension) v.


(** [&Config{}] *)
Definition zero : t := Mk [] [] [] RenegotiateNever None 0 0 None false false false [] false false false.
End Config.
