(* ===== verification/Negotiation.v ===== *)
(** * Cipher suites and negotiation

    Models cipher_suites.go, defaults.go, the version, group and suite lists of
    [Config] (common.go) and the choices a server makes from them:
    [pickCipherSuite], [cipherSuiteOk], [supportsECDHE] and [negotiateALPN]
    (handshake_server.go), the suite and group selection of
    [processClientHello] (handshake_server_tls13.go).

    The functions of a suite (key agreement, cipher, MAC, AEAD) are constructors
    of enumerations: their bodies call the cryptography of the standard library.
    The table [utlsSupportedCipherSuites] is a variable that [EnableWeakCiphers]
    replaces; it is an argument of the functions that look suites up. *)

From S2P Require Import Prelude Common Config.

(** ** Identifiers *)

Definition TLS_RSA_WITH_RC4_128_SHA : Z := 0x0005.
Definition TLS_RSA_WITH_3DES_EDE_CBC_SHA : Z := 0x000a.
Definition TLS_RSA_WITH_AES_128_CBC_SHA : Z := 0x002f.
Definition TLS_RSA_WITH_AES_256_CBC_SHA : Z := 0x0035.
Definition TLS_RSA_WITH_AES_128_CBC_SHA256 : Z := 0x003c.
Definition TLS_RSA_WITH_AES_128_GCM_SHA256 : Z := 0x009c.
Definition TLS_RSA_WITH_AES_256_GCM_SHA384 : Z := 0x009d.
Definition TLS_ECDHE_ECDSA_WITH_RC4_128_SHA : Z := 0xc007.
Definition TLS_ECDHE_ECDSA_WITH_AES_128_CBC_SHA : Z := 0xc009.
Definition TLS_ECDHE_ECDSA_WITH_AES_256_CBC_SHA : Z := 0xc00a.
Definition TLS_ECDHE_RSA_WITH_RC4_128_SHA : Z := 0xc011.
Definition TLS_ECDHE_RSA_WITH_3DES_EDE_CBC_SHA : Z := 0xc012.
Definition TLS_ECDHE_RSA_WITH_AES_128_CBC_SHA : Z := 0xc013.
Definition TLS_ECDHE_RSA_WITH_AES_256_CBC_SHA : Z := 0xc014.
Definition TLS_ECDHE_ECDSA_WITH_AES_128_CBC_SHA256 : Z := 0xc023.
Definition TLS_ECDHE_RSA_WITH_AES_128_CBC_SHA256 : Z := 0xc027.
Definition TLS_ECDHE_RSA_WITH_AES_128_GCM_SHA256 : Z := 0xc02f.
Definition TLS_ECDHE_ECDSA_WITH_AES_128_GCM_SHA256 : Z := 0xc02b.
Definition TLS_ECDHE_RSA_WITH_AES_256_GCM_SHA384 : Z := 0xc030.
Definition TLS_ECDHE_ECDSA_WITH_AES_256_GCM_SHA384 : Z := 0xc02c.
Definition TLS_ECDHE_RSA_WITH_CHACHA20_POLY1305_SHA256 : Z := 0xcca8.
Definition TLS_ECDHE_ECDSA_WITH_CHACHA20_POLY1305_SHA256 : Z := 0xcca9.
Definition TLS_AES_128_GCM_SHA256 : Z := 0x1301.
Definition TLS_AES_256_GCM_SHA384 : Z := 0x1302.
Definition TLS_CHACHA20_POLY1305_SHA256 : Z := 0x1303.
Definition TLS_FALLBACK_SCSV : Z := 0x5600.
Definition TLS_ECDHE_RSA_WITH_CHACHA20_POLY1305 : Z := TLS_ECDHE_RSA_WITH_CHACHA20_POLY1305_SHA256.
Definition TLS_ECDHE_ECDSA_WITH_CHACHA20_POLY1305 : Z := TLS_ECDHE_ECDSA_WITH_CHACHA20_POLY1305_SHA256.

(** Suites known to uTLS only (u_common.go). *)
Definition OLD_TLS_ECDHE_RSA_WITH_CHACHA20_POLY1305_SHA256 : Z := 0xcc13.
Definition OLD_TLS_ECDHE_ECDSA_WITH_CHACHA20_POLY1305_SHA256 : Z := 0xcc14.
Definition DISABLED_TLS_ECDHE_ECDSA_WITH_AES_256_CBC_SHA384 : Z := 0xc024.
Definition DISABLED_TLS_ECDHE_RSA_WITH_AES_256_CBC_SHA384 : Z := 0xc028.
Definition DISABLED_TLS_RSA_WITH_AES_256_CBC_SHA256 : Z := 0x003d.

(** ** The suites of TLS 1.0 to 1.2 *)

Definition suiteECDHE : Z := 1.
Definition suiteECSign : Z := 2.
Definition suiteTLS12 : Z := 4.
Definition suiteSHA384 : Z := 8.

Inductive key_agreement := rsaKA | ecdheECDSAKA | ecdheRSAKA.
Inductive block_cipher := cipherRC4 | cipher3DES | cipherAES.
Inductive mac_function := macSHA1 | macSHA256 | utlsMacSHA384.
Inductive aead_function := aeadAESGCM | aeadAESGCMTLS13 | aeadChaCha20Poly1305.

#[export] Instance aead_function_eq_dec : EqDecision aead_function.
Proof. solve_decision. Defined.
#[export] Instance block_cipher_eq_dec : EqDecision block_cipher.
Proof. solve_decision. Defined.
#[export] Instance mac_function_eq_dec : EqDecision mac_function.
Proof. solve_decision. Defined.

Module cipherSuite.
Record t := Mk {
  id : Z;
  keyLen : Z;
  macLen : Z;
  ivLen : Z;
  ka : key_agreement;
  flags : Z;
  cipher : option block_cipher;
  mac : option mac_function;
  aead : option aead_function
}.

(** [c.flags&flag != 0] *)
Definition has (flag : Z) (c : t) : bool := negb (Z.land c.(flags) flag =? 0).
End cipherSuite.
Import cipherSuite(Mk).

Definition cipherSuites : list cipherSuite.t := [
  Mk TLS_ECDHE_RSA_WITH_CHACHA20_POLY1305 32 0 12 ecdheRSAKA
    (Z.lor suiteECDHE suiteTLS12) None None (Some aeadChaCha20Poly1305);
  Mk TLS_ECDHE_ECDSA_WITH_CHACHA20_POLY1305 32 0 12 ecdheECDSAKA
    (Z.lor suiteECDHE (Z.lor suiteECSign suiteTLS12)) None None (Some aeadChaCha20Poly1305);
  Mk TLS_ECDHE_RSA_WITH_AES_128_GCM_SHA256 16 0 4 ecdheRSAKA
    (Z.lor suiteECDHE suiteTLS12) None None (Some aeadAESGCM);
  Mk TLS_ECDHE_ECDSA_WITH_AES_128_GCM_SHA256 16 0 4 ecdheECDSAKA
    (Z.lor suiteECDHE (Z.lor suiteECSign suiteTLS12)) None None (Some aeadAESGCM);
  Mk TLS_ECDHE_RSA_WITH_AES_256_GCM_SHA384 32 0 4 ecdheRSAKA
    (Z.lor suiteECDHE (Z.lor suiteTLS12 suiteSHA384)) None None (Some aeadAESGCM);
  Mk TLS_ECDHE_ECDSA_WITH_AES_256_GCM_SHA384 32 0 4 ecdheECDSAKA
    (Z.lor suiteECDHE (Z.lor suiteECSign (Z.lor suiteTLS12 suiteSHA384))) None None (Some aeadAESGCM);
  Mk TLS_ECDHE_RSA_WITH_AES_128_CBC_SHA256 16 32 16 ecdheRSAKA
    (Z.lor suiteECDHE suiteTLS12) (Some cipherAES) (Some macSHA256) None;
  Mk TLS_ECDHE_RSA_WITH_AES_128_CBC_SHA 16 20 16 ecdheRSAKA
    suiteECDHE (Some cipherAES) (Some macSHA1) None;
  Mk TLS_ECDHE_ECDSA_WITH_AES_128_CBC_SHA256 16 32 16 ecdheECDSAKA
    (Z.lor suiteECDHE (Z.lor suiteECSign suiteTLS12)) (Some cipherAES) (Some macSHA256) None;
  Mk TLS_ECDHE_ECDSA_WITH_AES_128_CBC_SHA 16 20 16 ecdheECDSAKA
    (Z.lor suiteECDHE suiteECSign) (Some cipherAES) (Some macSHA1) None;
  Mk TLS_ECDHE_RSA_WITH_AES_256_CBC_SHA 32 20 16 ecdheRSAKA
    suiteECDHE (Some cipherAES) (Some macSHA1) None;
  Mk TLS_ECDHE_ECDSA_WITH_AES_256_CBC_SHA 32 20 16 ecdheECDSAKA
    (Z.lor suiteECDHE suiteECSign) (Some cipherAES) (Some macSHA1) None;
  Mk TLS_RSA_WITH_AES_128_GCM_SHA256 16 0 4 rsaKA
    suiteTLS12 None None (Some aeadAESGCM);
  Mk TLS_RSA_WITH_AES_256_GCM_SHA384 32 0 4 rsaKA
    (Z.lor suiteTLS12 suiteSHA384) None None (Some aeadAESGCM);
  Mk TLS_RSA_WITH_AES_128_CBC_SHA256 16 32 16 rsaKA
    suiteTLS12 (Some cipherAES) (Some macSHA256) None;
  Mk TLS_RSA_WITH_AES_128_CBC_SHA 16 20 16 rsaKA
    0 (Some cipherAES) (Some macSHA1) None;
  Mk TLS_RSA_WITH_AES_256_CBC_SHA 32 20 16 rsaKA
    0 (Some cipherAES) (Some macSHA1) None;
  Mk TLS_ECDHE_RSA_WITH_3DES_EDE_CBC_SHA 24 20 8 ecdheRSAKA
    suiteECDHE (Some cipher3DES) (Some macSHA1) None;
  Mk TLS_RSA_WITH_3DES_EDE_CBC_SHA 24 20 8 rsaKA
    0 (Some cipher3DES) (Some macSHA1) None;
  Mk TLS_RSA_WITH_RC4_128_SHA 16 20 0 rsaKA
    0 (Some cipherRC4) (Some macSHA1) None;
  Mk TLS_ECDHE_RSA_WITH_RC4_128_SHA 16 20 0 ecdheRSAKA
    suiteECDHE (Some cipherRC4) (Some macSHA1) None;
  Mk TLS_ECDHE_ECDSA_WITH_RC4_128_SHA 16 20 0 ecdheECDSAKA
    (Z.lor suiteECDHE suiteECSign) (Some cipherRC4) (Some macSHA1) None
].

(** [utlsSupportedCipherSuites] as [init] leaves it. *)
Definition utlsSupportedCipherSuites : list cipherSuite.t := cipherSuites ++ [
  Mk OLD_TLS_ECDHE_RSA_WITH_CHACHA20_POLY1305_SHA256 32 0 12 ecdheRSAKA
    (Z.lor suiteECDHE suiteTLS12) None None (Some aeadChaCha20Poly1305);
  Mk OLD_TLS_ECDHE_ECDSA_WITH_CHACHA20_POLY1305_SHA256 32 0 12 ecdheECDSAKA
    (Z.lor suiteECDHE (Z.lor suiteECSign suiteTLS12)) None None (Some aeadChaCha20Poly1305)
].

(** The same variable after a call of [EnableWeakCiphers]. *)
Definition EnableWeakCiphers : list cipherSuite.t := cipherSuites ++ [
  Mk DISABLED_TLS_RSA_WITH_AES_256_CBC_SHA256 32 32 16 rsaKA
    suiteTLS12 (Some cipherAES) (Some macSHA256) None;
  Mk DISABLED_TLS_ECDHE_ECDSA_WITH_AES_256_CBC_SHA384 32 48 16 ecdheECDSAKA
    (Z.lor suiteECDHE (Z.lor suiteECSign (Z.lor suiteTLS12 suiteSHA384))) (Some cipherAES) (Some utlsMacSHA384) None;
  Mk DISABLED_TLS_ECDHE_RSA_WITH_AES_256_CBC_SHA384 32 48 16 ecdheRSAKA
    (Z.lor suiteECDHE (Z.lor suiteTLS12 suiteSHA384)) (Some cipherAES) (Some utlsMacSHA384) None
].

Definition cipherSuiteByID (supported : list cipherSuite.t) (id : Z) : option cipherSuite.t :=
  List.find (fun cipherSuite => cipherSuite.(cipherSuite.id) =? id) supported.

Fixpoint selectCipherSuite (supported : list cipherSuite.t) (ids supportedIDs : list Z)
    (ok : cipherSuite.t -> bool) : option cipherSuite.t :=
  match ids with
  | [] => None
  | id :: ids =>
      match cipherSuiteByID supported id with
      | Some candidate =>
          if ok candidate && List.existsb (fun suppID => id =? suppID) supportedIDs then Some candidate
          else selectCipherSuite supported ids supportedIDs ok
      | None => selectCipherSuite supported ids supportedIDs ok
      end
  end.

Definition mutualCipherSuite (supported : list cipherSuite.t) (have : list Z) (want : Z) : option cipherSuite.t :=
  if List.existsb (fun id => id =? want) have then cipherSuiteByID supported want else None.

Definition cipherSuitesPreferenceOrder : list Z := [
  TLS_ECDHE_ECDSA_WITH_AES_128_GCM_SHA256; TLS_ECDHE_RSA_WITH_AES_128_GCM_SHA256;
  TLS_ECDHE_ECDSA_WITH_AES_256_GCM_SHA384; TLS_ECDHE_RSA_WITH_AES_256_GCM_SHA384;
  TLS_ECDHE_ECDSA_WITH_CHACHA20_POLY1305; TLS_ECDHE_RSA_WITH_CHACHA20_POLY1305;
  TLS_ECDHE_ECDSA_WITH_AES_128_CBC_SHA; TLS_ECDHE_RSA_WITH_AES_128_CBC_SHA;
  TLS_ECDHE_ECDSA_WITH_AES_256_CBC_SHA; TLS_ECDHE_RSA_WITH_AES_256_CBC_SHA;
  TLS_RSA_WITH_AES_128_GCM_SHA256; TLS_RSA_WITH_AES_256_GCM_SHA384; TLS_RSA_WITH_AES_128_CBC_SHA;
  TLS_RSA_WITH_AES_256_CBC_SHA; TLS_ECDHE_RSA_WITH_3DES_EDE_CBC_SHA; TLS_RSA_WITH_3DES_EDE_CBC_SHA;
  TLS_ECDHE_ECDSA_WITH_AES_128_CBC_SHA256; TLS_ECDHE_RSA_WITH_AES_128_CBC_SHA256;
  TLS_RSA_WITH_AES_128_CBC_SHA256; TLS_ECDHE_ECDSA_WITH_RC4_128_SHA;
  TLS_ECDHE_RSA_WITH_RC4_128_SHA; TLS_RSA_WITH_RC4_128_SHA
].

Definition cipherSuitesPreferenceOrderNoAES : list Z := [
  TLS_ECDHE_ECDSA_WITH_CHACHA20_POLY1305; TLS_ECDHE_RSA_WITH_CHACHA20_POLY1305;
  TLS_ECDHE_ECDSA_WITH_AES_128_GCM_SHA256; TLS_ECDHE_RSA_WITH_AES_128_GCM_SHA256;
  TLS_ECDHE_ECDSA_WITH_AES_256_GCM_SHA384; TLS_ECDHE_RSA_WITH_AES_256_GCM_SHA384;
  TLS_ECDHE_ECDSA_WITH_AES_128_CBC_SHA; TLS_ECDHE_RSA_WITH_AES_128_CBC_SHA;
  TLS_ECDHE_ECDSA_WITH_AES_256_CBC_SHA; TLS_ECDHE_RSA_WITH_AES_256_CBC_SHA;
  TLS_RSA_WITH_AES_128_GCM_SHA256; TLS_RSA_WITH_AES_256_GCM_SHA384; TLS_RSA_WITH_AES_128_CBC_SHA;
  TLS_RSA_WITH_AES_256_CBC_SHA; TLS_ECDHE_RSA_WITH_3DES_EDE_CBC_SHA; TLS_RSA_WITH_3DES_EDE_CBC_SHA;
  TLS_ECDHE_ECDSA_WITH_AES_128_CBC_SHA256; TLS_ECDHE_RSA_WITH_AES_128_CBC_SHA256;
  TLS_RSA_WITH_AES_128_CBC_SHA256; TLS_ECDHE_ECDSA_WITH_RC4_128_SHA;
  TLS_ECDHE_RSA_WITH_RC4_128_SHA; TLS_RSA_WITH_RC4_128_SHA
].

(** The maps from suites to [true]. *)
Definition disabledCipherSuites : list Z := [
  TLS_ECDHE_ECDSA_WITH_AES_128_CBC_SHA256; TLS_ECDHE_RSA_WITH_AES_128_CBC_SHA256;
  TLS_RSA_WITH_AES_128_CBC_SHA256; TLS_ECDHE_ECDSA_WITH_RC4_128_SHA;
  TLS_ECDHE_RSA_WITH_RC4_128_SHA; TLS_RSA_WITH_RC4_128_SHA
].
Definition rsaKexCiphers : list Z := [
  TLS_RSA_WITH_RC4_128_SHA; TLS_RSA_WITH_3DES_EDE_CBC_SHA; TLS_RSA_WITH_AES_128_CBC_SHA;
  TLS_RSA_WITH_AES_256_CBC_SHA; TLS_RSA_WITH_AES_128_CBC_SHA256; TLS_RSA_WITH_AES_128_GCM_SHA256;
  TLS_RSA_WITH_AES_256_GCM_SHA384
].
Definition tdesCiphers : list Z := [
  TLS_ECDHE_RSA_WITH_3DES_EDE_CBC_SHA; TLS_RSA_WITH_3DES_EDE_CBC_SHA
].
Definition aesgcmCiphers : list Z := [
  TLS_ECDHE_RSA_WITH_AES_128_GCM_SHA256; TLS_ECDHE_RSA_WITH_AES_256_GCM_SHA384;
  TLS_ECDHE_ECDSA_WITH_AES_128_GCM_SHA256; TLS_ECDHE_ECDSA_WITH_AES_256_GCM_SHA384;
  TLS_AES_128_GCM_SHA256; TLS_AES_256_GCM_SHA384
].

Definition contains (l : list Z) (x : Z) : bool := List.existsb (fun y => y =? x) l.

(** ** The suites of TLS 1.3 *)

Inductive hash_function := MD5 | SHA1 | SHA256 | SHA384 | SHA512.

#[export] Instance hash_function_eq_dec : EqDecision hash_function.
Proof. solve_decision. Defined.

(** [crypto.Hash.Size] *)
Definition hash_size (h : hash_function) : nat :=
  match h with MD5 => 16 | SHA1 => 20 | SHA256 => 32 | SHA384 => 48 | SHA512 => 64 end.

Module cipherSuiteTLS13.
Record t := Mk { id : Z; keyLen : Z; aead : aead_function; hash : hash_function }.
End cipherSuiteTLS13.

Definition cipherSuitesTLS13 : list cipherSuiteTLS13.t := [
  cipherSuiteTLS13.Mk TLS_AES_128_GCM_SHA256 16 aeadAESGCMTLS13 SHA256;
  cipherSuiteTLS13.Mk TLS_CHACHA20_POLY1305_SHA256 32 aeadChaCha20Poly1305 SHA256;
  cipherSuiteTLS13.Mk TLS_AES_256_GCM_SHA384 32 aeadAESGCMTLS13 SHA384
].

Definition cipherSuiteTLS13ByID (id : Z) : option cipherSuiteTLS13.t :=
  List.find (fun cipherSuite => cipherSuite.(cipherSuiteTLS13.id) =? id) cipherSuitesTLS13.

Definition mutualCipherSuiteTLS13 (have : list Z) (want : Z) : option cipherSuiteTLS13.t :=
  if List.existsb (fun id => id =? want) have then cipherSuiteTLS13ByID want else None.

(** The first known suite of the list decides. *)
Fixpoint aesgcmPreferred (supported : list cipherSuite.t) (ciphers : list Z) : bool :=
  match ciphers with
  | [] => false
  | cID :: ciphers =>
      if non_nil (cipherSuiteByID supported cID) then contains aesgcmCiphers cID
      else if non_nil (cipherSuiteTLS13ByID cID) then contains aesgcmCiphers cID
      else aesgcmPreferred supported ciphers
  end.

(** ** Defaults (defaults.go) *)

Definition defaultCurvePreferences : list Z := [X25519MLKEM768; X25519; CurveP256; CurveP384; CurveP521].

Definition defaultCipherSuites : list Z :=
  List.filter (fun c => negb (contains disabledCipherSuites c || contains rsaKexCiphers c || contains tdesCiphers c))
    cipherSuitesPreferenceOrder.

Definition defaultCipherSuitesTLS13 : list Z :=
  [TLS_AES_128_GCM_SHA256; TLS_AES_256_GCM_SHA384; TLS_CHACHA20_POLY1305_SHA256].
Definition defaultCipherSuitesTLS13NoAES : list Z :=
  [TLS_CHACHA20_POLY1305_SHA256; TLS_AES_128_GCM_SHA256; TLS_AES_256_GCM_SHA384].

(** ** What a configuration supports (common.go) *)

Definition config_cipherSuites (c : Config.t) : list Z :=
  match c.(Config.CipherSuites) with None => defaultCipherSuites | Some l => l end.

Definition supportedVersions : list Z := [VersionTLS13; VersionTLS12; VersionTLS11; VersionTLS10].

Definition config_supportedVersions (c : Config.t) (isClient : bool) : list Z :=
  List.filter (fun v =>
    negb ((c.(Config.MinVersion) =? 0) && (v <? VersionTLS12) && isClient) &&
    negb (isClient && non_nil c.(Config.EncryptedClientHelloConfigList) && (v <? VersionTLS13)) &&
    negb (negb (c.(Config.MinVersion) =? 0) && (v <? c.(Config.MinVersion))) &&
    negb (negb (c.(Config.MaxVersion) =? 0) && (c.(Config.MaxVersion) <? v)))
  supportedVersions.

Definition maxSupportedVersion (c : Config.t) (isClient : bool) : Z :=
  match config_supportedVersions c isClient with [] => 0 | v :: _ => v end.

Definition supportedVersionsFromMax (maxVersion : Z) : list Z :=
  List.filter (fun v => negb (maxVersion <? v)) supportedVersions.

Definition isTLS13OnlyKeyExchange (curve : Z) : bool := curve =? X25519MLKEM768.
Definition isPQKeyExchange (curve : Z) : bool := curve =? X25519MLKEM768.

Definition curvePreferences (c : Config.t) (version : Z) : list Z :=
  let l := defaultCurvePreferences in
  let l := if negb (len c.(Config.CurvePreferences) =? 0)
           then List.filter (contains c.(Config.CurvePreferences)) l else l in
  if version <? VersionTLS13 then List.filter (fun x => negb (isTLS13OnlyKeyExchange x)) l else l.

Definition supportsCurve (c : Config.t) (version curve : Z) : bool := contains (curvePreferences c version) curve.

(** [for peerVersion { for v { if v == peerVersion { return v, true } } }] *)
Definition mutualVersion (c : Config.t) (isClient : bool) (peerVersions : list Z) : option Z :=
  List.find (contains (config_supportedVersions c isClient)) peerVersions.

(** ** The choices of a server *)

Definition pointFormatUncompressed : byte := x00.

Definition supportsECDHE (c : Config.t) (version : Z) (supportedCurves : list Z) (supportedPoints : bytes) : bool :=
  let curveOk := List.existsb (supportsCurve c version) supportedCurves in
  let pointOk := if len supportedPoints =? 0 then true
    else List.existsb (fun p => bool_decide (p = pointFormatUncompressed)) supportedPoints in
  curveOk && pointOk.

(** The fields of [serverHandshakeState] that the choice of a suite reads. *)
Module serverHandshakeState.
Record t := Mk {
  config : Config.t;
  c_vers : Z;
  hello_vers : Z;
  hello_cipherSuites : list Z;
  ecdheOk : bool;
  ecSignOk : bool;
  rsaSignOk : bool;
  rsaDecryptOk : bool
}.
End serverHandshakeState.
Import serverHandshakeState(config, c_vers, hello_vers, hello_cipherSuites, ecdheOk, ecSignOk, rsaSignOk, rsaDecryptOk).

Definition cipherSuiteOk (hs : serverHandshakeState.t) (c : cipherSuite.t) : bool :=
  (if cipherSuite.has suiteECDHE c then
     hs.(ecdheOk) && (if cipherSuite.has suiteECSign c then hs.(ecSignOk) else hs.(rsaSignOk))
   else hs.(rsaDecryptOk)) &&
  negb ((hs.(c_vers) <? VersionTLS12) && cipherSuite.has suiteTLS12 c).


(** The order in which the server looks for a suite. *)
Definition server_preferences (hardware : bool) (supported : list cipherSuite.t) (hs : serverHandshakeState.t) : list Z :=
  let preferenceOrder :=
    if negb hardware || negb (aesgcmPreferred supported hs.(hello_cipherSuites))
    then cipherSuitesPreferenceOrderNoAES else cipherSuitesPreferenceOrder in
  List.filter (contains (config_cipherSuites hs.(config))) preferenceOrder.

(** The alert with which the handshake ends, or the suite; [hardware] is
    [hasAESGCMHardwareSupport]. *)
Definition pickCipherSuite (hardware : bool) (supported : list cipherSuite.t) (hs : serverHandshakeState.t)
    : Z * gerror + cipherSuite.t :=
  match selectCipherSuite supported (server_preferences hardware supported hs) hs.(hello_cipherSuites)
          (cipherSuiteOk hs) with
  | None => inl (alertHandshakeFailure, ErrorNew "tls: no cipher suite supported by both client and server")
  | Some suite =>
      if contains hs.(hello_cipherSuites) TLS_FALLBACK_SCSV &&
         (hs.(hello_vers) <? maxSupportedVersion hs.(config) false)
      then inl (alertInappropriateFallback, ErrorNew "tls: client using inappropriate protocol fallback")
      else inr suite
  end.

Definition h2 : bytes := map u8 [104; 50].
Definition http11 : bytes := map u8 [104; 116; 116; 112; 47; 49; 46; 49].

Definition negotiateALPN (serverProtos clientProtos : list bytes) (quic : bool) : res bytes :=
  if (len serverProtos =? 0) || (len clientProtos =? 0) then
    if quic && negb (len serverProtos =? 0)
    then inl (ErrorNew "tls: client did not request an application protocol") else inr []
  else
    match List.find (fun s => bool_decide (s ∈ clientProtos)) serverProtos with
    | Some s => inr s
    | None =>
        if bool_decide (h2 ∈ serverProtos) && bool_decide (http11 ∈ clientProtos) then inr []
        else inl (ErrorNew "tls: client requested unsupported application protocols")
    end.

(** *** TLS 1.3 *)

(** [for _, suiteID := range preferenceList { hs.suite = mutualCipherSuiteTLS13(...) }] *)
Fixpoint first_mutual (preferenceList have : list Z) : option cipherSuiteTLS13.t :=
  match preferenceList with
  | [] => None
  | suiteID :: preferenceList =>
      match mutualCipherSuiteTLS13 have suiteID with
      | Some suite => Some suite
      | None => first_mutual preferenceList have
      end
  end.

Definition select_suiteTLS13 (hardware : bool) (supported : list cipherSuite.t) (have : list Z)
    : Z * gerror + cipherSuiteTLS13.t :=
  let preferenceList :=
    if negb hardware || negb (aesgcmPreferred supported have)
    then defaultCipherSuitesTLS13NoAES else defaultCipherSuitesTLS13 in
  (* [fips140tls.Required()] is the constant false *)
  match first_mutual preferenceList have with
  | Some suite => inr suite
  | None => inl (alertHandshakeFailure, ErrorNew "tls: no cipher suite supported by both client and server")
  end.

(** [sort.SliceStable(l, func(i, j) { return p(l[i]) && !p(l[j]) })]: the
    elements with [p] come first, each part in its old order. *)
Definition stable_first (p : Z -> bool) (l : list Z) : list Z :=
  List.filter p l ++ List.filter (fun x => negb (p x)) l.

Definition select_group (c : Config.t) (vers : Z) (hello_groups : list Z) (keyShares : list keyShare.t)
    : Z * gerror + (Z * option keyShare.t) :=
  let preferredGroups := List.filter (contains hello_groups) (curvePreferences c vers) in
  let hasKeyShare group := List.existsb (fun ks => ks.(keyShare.group) =? group) keyShares in
  match stable_first isPQKeyExchange (stable_first hasKeyShare preferredGroups) with
  | [] => inl (alertHandshakeFailure, ErrorNew "tls: no key exchanges supported by both client and server")
  | selectedGroup :: _ =>
      inr (selectedGroup, List.find (fun ks => ks.(keyShare.group) =? selectedGroup) keyShares)
  end.

(** * Theorems *)

Lemma contains_spec l x : contains l x = true <-> x ∈ l.
Proof.
  unfold contains. rewrite existsb_exists, list_elem_of_In. split.
  - intros (y & Hy & ->%Z.eqb_eq). done.
  - intros H. exists x. by rewrite Z.eqb_refl.
Qed.

(** The first element of a list with a property. *)
Lemma find_first {A} (f : A -> bool) l x : List.find f l = Some x ->
  exists l1 l2, l = l1 ++ x :: l2 /\ f x = true /\ Forall (fun y => f y = false) l1.
Proof.
  induction l as [|y l IH]; cbn; [done|]. destruct (f y) eqn:E.
  - intros [= ->]. by exists [], l.
  - intros H. apply IH in H as (l1 & l2 & -> & Hx & Hl). exists (y :: l1), l2. split_and!; [done|done|by constructor].
Qed.

Lemma filter_mem {A} (f : A -> bool) l x : x ∈ List.filter f l <-> f x = true /\ x ∈ l.
Proof. rewrite !list_elem_of_In, filter_In. tauto. Qed.

(** ** Cipher suites *)

(** A suite that the server may choose. *)
Definition acceptable (supported : list cipherSuite.t) (hs : serverHandshakeState.t) (id : Z) (c : cipherSuite.t) : Prop :=
  cipherSuiteByID supported id = Some c /\ cipherSuiteOk hs c = true /\
  id ∈ config_cipherSuites hs.(config) /\ id ∈ hs.(hello_cipherSuites).

(** The priority rules written above [cipherSuitesPreferenceOrder], most
    important first; [aes] tells whether AES comes before ChaCha20. *)
Definition penalty (b : bool) : nat := if b then 1 else 0.
Definition priority (aes : bool) (c : cipherSuite.t) : list nat :=
  let aead := non_nil c.(cipherSuite.aead) in
  [penalty (bool_decide (c.(cipherSuite.cipher) = Some cipherRC4));
   penalty (bool_decide (c.(cipherSuite.mac) = Some macSHA256));
   penalty (bool_decide (c.(cipherSuite.cipher) = Some cipher3DES));
   penalty (negb (cipherSuite.has suiteECDHE c));
   penalty (negb aead);
   penalty (Bool.eqb aes (bool_decide (c.(cipherSuite.aead) = Some aeadChaCha20Poly1305)));
   penalty (negb (c.(cipherSuite.keyLen) =? 16));
   penalty (negb (cipherSuite.has suiteECSign c))].

Fixpoint lex_le (a b : list nat) : bool :=
  match a, b with
  | x :: a, y :: b => Nat.ltb x y || (Nat.eqb x y && lex_le a b)
  | _, _ => true
  end.

(** Every pair of a list, in order. *)
Fixpoint all_pairs {A} (f : A -> A -> bool) (l : list A) : bool :=
  match l with [] => true | x :: l => forallb (f x) l && all_pairs f l end.

Lemma all_pairs_spec {A} (f : A -> A -> bool) l1 x l2 y :
  all_pairs f (l1 ++ x :: l2) = true -> y ∈ l2 -> f x y = true.
Proof.
  intros H Hy. induction l1 as [|z l1 IH]; cbn in H; apply andb_true_iff in H as [H1 H2]; [|by apply IH].
  rewrite forallb_forall in H1. apply H1. by apply list_elem_of_In.
Qed.

Lemma all_pairs_filter {A} (f : A -> A -> bool) g l : all_pairs f l = true -> all_pairs f (List.filter g l) = true.
Proof.
  induction l as [|x l IH]; cbn; [done|]. intros [H1 H2]%andb_true_iff. destruct (g x); [|by apply IH].
  cbn. rewrite IH, andb_true_r by done. rewrite forallb_forall in *. intros y [Hy _]%filter_In. by apply H1.
Qed.

(** [a] is not after [b] in the order of preference. *)
Definition ranked (aes : bool) (a b : Z) : bool :=
  match cipherSuiteByID cipherSuites a, cipherSuiteByID cipherSuites b with
  | Some a, Some b => lex_le (priority aes a) (priority aes b)
  | _, _ => false
  end.

Lemma orders_ranked :
  all_pairs (ranked true) cipherSuitesPreferenceOrder = true /\
  all_pairs (ranked false) cipherSuitesPreferenceOrderNoAES = true.
Proof. split; vm_compute; reflexivity. Qed.

Lemma orders_complete id : id ∈ map cipherSuite.id cipherSuites ->
  id ∈ cipherSuitesPreferenceOrder /\ id ∈ cipherSuitesPreferenceOrderNoAES.
Proof.
  assert (H : forallb (fun id => contains cipherSuitesPreferenceOrder id && contains cipherSuitesPreferenceOrderNoAES id)
    (map cipherSuite.id cipherSuites) = true) by (vm_compute; reflexivity).
  rewrite forallb_forall in H. intros Hid. specialize (H id). rewrite list_elem_of_In in Hid.
  apply H, andb_true_iff in Hid as [H1 H2]. by rewrite !contains_spec in *.
Qed.

Lemma selectCipherSuite_spec supported ids have ok c :
  selectCipherSuite supported ids have ok = Some c ->
  exists l1 id l2, ids = l1 ++ id :: l2 /\ cipherSuiteByID supported id = Some c /\ ok c = true /\ id ∈ have /\
    Forall (fun x => forall c', cipherSuiteByID supported x = Some c' -> ok c' = true -> x ∉ have) l1.
Proof.
  induction ids as [|id ids IH]; cbn; [done|]. intros H.
  destruct (cipherSuiteByID supported id) as [d|] eqn:Ed.
  - destruct (ok d && _) eqn:E.
    + injection H as ->. apply andb_true_iff in E as [Eo Ee]. exists [], id, ids. split_and!; try done.
      apply existsb_exists in Ee as (y & Hy & ->%Z.eqb_eq). by apply list_elem_of_In.
    + apply IH in H as (l1 & x & l2 & -> & ? & ? & ? & Hl). exists (id :: l1), x, l2. split_and!; try done.
      constructor; [|done]. intros c' [= <-]%(eq_trans (eq_sym Ed)) Hok Hin. rewrite Hok in E. cbn in E.
      assert (Ht : List.existsb (fun s => id =? s) have = true);
        [|congruence]. apply existsb_exists. exists id. by rewrite Z.eqb_refl, <- list_elem_of_In.
  - apply IH in H as (l1 & x & l2 & -> & ? & ? & ? & Hl). exists (id :: l1), x, l2. split_and!; try done.
    constructor; [|done]. intros c' E'. congruence.
Qed.

Lemma selectCipherSuite_none supported ids have ok :
  selectCipherSuite supported ids have ok = None ->
  forall x c, x ∈ ids -> cipherSuiteByID supported x = Some c -> ok c = true -> x ∉ have.
Proof.
  induction ids as [|id ids IH]; intros H x c Hx; [by apply elem_of_nil in Hx|]. cbn in H.
  apply elem_of_cons in Hx as [->|Hx].
  - intros Hc Hok Hin. rewrite Hc, Hok in H.
    replace (List.existsb (fun s => id =? s) have) with true in H; [done|]. symmetry.
    apply existsb_exists. exists id. by rewrite Z.eqb_refl, <- list_elem_of_In.
  - destruct (cipherSuiteByID supported id) as [d|]; [destruct (ok d && _); [done|]|]; by eapply IH.
Qed.

(** Suites that uTLS adds to the table do not hide those of the order. *)
Lemma byID_app extra id c : cipherSuiteByID cipherSuites id = Some c ->
  cipherSuiteByID (cipherSuites ++ extra) id = Some c.
Proof. unfold cipherSuiteByID. generalize cipherSuites. intros l. induction l as [|d l IH]; cbn; [done|]. by destruct (_ =? _). Qed.

Lemma ranked_spec aes extra a b ca cb : ranked aes a b = true ->
  cipherSuiteByID (cipherSuites ++ extra) a = Some ca -> cipherSuiteByID (cipherSuites ++ extra) b = Some cb ->
  lex_le (priority aes ca) (priority aes cb) = true.
Proof.
  unfold ranked. destruct (cipherSuiteByID cipherSuites a) as [da|] eqn:Ea; [|done].
  destruct (cipherSuiteByID cipherSuites b) as [db|] eqn:Eb; [|done].
  rewrite (byID_app _ _ _ Ea), (byID_app _ _ _ Eb). by intros H [= <-] [= <-].
Qed.

Lemma lex_le_refl a : lex_le a a = true.
Proof. induction a as [|x a IH]; cbn; [done|]. by rewrite Nat.eqb_refl, IH, orb_true_r. Qed.

Lemma server_preferences_ranked hardware supported hs : exists aes,
  all_pairs (ranked aes) (server_preferences hardware supported hs) = true /\
  aes = hardware && aesgcmPreferred supported hs.(hello_cipherSuites).
Proof.
  exists (hardware && aesgcmPreferred supported hs.(hello_cipherSuites)). split; [|done].
  unfold server_preferences. apply all_pairs_filter.
  destruct hardware, (aesgcmPreferred _ _); cbn; apply orders_ranked.
Qed.

Lemma server_preferences_mem hardware supported hs id :
  id ∈ map cipherSuite.id cipherSuites -> id ∈ config_cipherSuites hs.(config) ->
  id ∈ server_preferences hardware supported hs.
Proof.
  intros [H1 H2]%orders_complete Hc. unfold server_preferences. apply filter_mem. rewrite contains_spec.
  split; [done|]. by destruct (_ || _).
Qed.

(** C33: when the server picks a suite, the suite is offered by the client,
    enabled in the configuration and usable with the server's key and the
    negotiated version, and no other such suite of the standard table ranks
    before it under the documented priority rules (no RC4, no CBC with SHA-256,
    no 3DES, forward secrecy, AEAD, AES or ChaCha20 first according to the
    hardware, short keys, ECDSA): in particular a broken suite is chosen only
    when nothing better is possible. *)
Theorem server_picks_best hardware extra hs c :
  let supported := cipherSuites ++ extra in
  pickCipherSuite hardware supported hs = inr c ->
  exists id, acceptable supported hs id c /\
  forall id' c', id' ∈ map cipherSuite.id cipherSuites -> acceptable supported hs id' c' ->
    let aes := hardware && aesgcmPreferred supported hs.(hello_cipherSuites) in
    lex_le (priority aes c) (priority aes c') = true.
Proof.
  intros supported. unfold pickCipherSuite.
  destruct (selectCipherSuite _ _ _ _) as [d|] eqn:E; [|done]. destruct (_ && _); [done|]. intros [= ->].
  apply selectCipherSuite_spec in E as (l1 & id & l2 & El & Hid & Hok & Hin & Hl1).
  destruct (server_preferences_ranked hardware supported hs) as (aes & Hr & Haes).
  assert (Hmem : id ∈ server_preferences hardware supported hs) by (rewrite El; set_solver).
  exists id. split.
  { split_and!; [done|done| |done]. unfold server_preferences in Hmem. apply filter_mem in Hmem as [Hc _].
    by apply contains_spec in Hc. }
  intros id' c' Hstd (Hid' & Hok' & Hcfg & Hhello). cbn zeta. rewrite <- Haes.
  assert (Hm : id' ∈ server_preferences hardware supported hs) by (by apply server_preferences_mem).
  rewrite El in Hm. apply elem_of_app in Hm as [Hm|Hm].
  - rewrite Forall_forall in Hl1. by destruct (Hl1 id' Hm c' Hid' Hok').
  - apply elem_of_cons in Hm as [->|Hm].
    + rewrite Hid in Hid'. injection Hid' as <-. apply lex_le_refl.
    + rewrite El in Hr. eapply ranked_spec; [by eapply all_pairs_spec| |]; done.
Qed.

Lemma server_picks_best_witness :
  let hs := serverHandshakeState.Mk Config.zero VersionTLS12 VersionTLS12
    [TLS_RSA_WITH_RC4_128_SHA; TLS_ECDHE_RSA_WITH_CHACHA20_POLY1305; TLS_ECDHE_RSA_WITH_AES_256_GCM_SHA384]
    true true true true in
  exists id, acceptable utlsSupportedCipherSuites hs id
    (default (Mk 0 0 0 0 rsaKA 0 None None None) (cipherSuiteByID cipherSuites TLS_ECDHE_RSA_WITH_CHACHA20_POLY1305)).
Proof.
  intros hs.
  edestruct (server_picks_best true [
      Mk OLD_TLS_ECDHE_RSA_WITH_CHACHA20_POLY1305_SHA256 32 0 12 ecdheRSAKA
        (Z.lor suiteECDHE suiteTLS12) None None (Some aeadChaCha20Poly1305);
      Mk OLD_TLS_ECDHE_ECDSA_WITH_CHACHA20_POLY1305_SHA256 32 0 12 ecdheECDSAKA
        (Z.lor suiteECDHE (Z.lor suiteECSign suiteTLS12)) None None (Some aeadChaCha20Poly1305)] hs) as (id & Hid & _);
    [vm_compute; reflexivity|].
  by exists id.
Defined.

(** The server refuses to choose a suite exactly when the client, the
    configuration, the key and the version leave none in common (with
    handshake_failure), or when the client announces a fallback to a version
    below the server's best (with inappropriate_fallback, RFC 7507). *)
Theorem server_refuses hardware extra hs :
  let supported := cipherSuites ++ extra in
  (exists c, pickCipherSuite hardware supported hs = inr c) \/
  pickCipherSuite hardware supported hs =
    inl (alertHandshakeFailure, ErrorNew "tls: no cipher suite supported by both client and server") /\
    (forall id c, id ∈ map cipherSuite.id cipherSuites -> ~ acceptable supported hs id c) \/
  pickCipherSuite hardware supported hs =
    inl (alertInappropriateFallback, ErrorNew "tls: client using inappropriate protocol fallback") /\
    TLS_FALLBACK_SCSV ∈ hs.(hello_cipherSuites) /\ hs.(hello_vers) < maxSupportedVersion hs.(config) false.
Proof.
  intros supported. unfold pickCipherSuite. destruct (selectCipherSuite _ _ _ _) as [d|] eqn:E.
  - destruct (_ && _) eqn:Ef; [|by left; exists d]. right; right. apply andb_true_iff in Ef as [H1 H2].
    rewrite contains_spec in H1. by rewrite Z.ltb_lt in H2.
  - right; left. split; [done|]. intros id c Hstd (Hid & Hok & Hcfg & Hhello).
    by apply (selectCipherSuite_none _ _ _ _ E id c (server_preferences_mem _ _ _ _ Hstd Hcfg) Hid Hok).
Qed.

(** [EnableWeakCiphers] adds three suites and loses the two draft ChaCha20
    suites that [init] had made available, so that a connection that needs one
    of them works only as long as [EnableWeakCiphers] is not called. *)
Theorem weak_ciphers_drop_old :
  let known table id := non_nil (cipherSuiteByID table id) in
  List.filter (fun id => known utlsSupportedCipherSuites id && negb (known EnableWeakCiphers id))
    (map cipherSuite.id utlsSupportedCipherSuites) =
    [OLD_TLS_ECDHE_RSA_WITH_CHACHA20_POLY1305_SHA256; OLD_TLS_ECDHE_ECDSA_WITH_CHACHA20_POLY1305_SHA256] /\
  List.filter (fun id => known EnableWeakCiphers id && negb (known utlsSupportedCipherSuites id))
    (map cipherSuite.id EnableWeakCiphers) =
    [DISABLED_TLS_RSA_WITH_AES_256_CBC_SHA256; DISABLED_TLS_ECDHE_ECDSA_WITH_AES_256_CBC_SHA384;
     DISABLED_TLS_ECDHE_RSA_WITH_AES_256_CBC_SHA384].
Proof. vm_compute. split; reflexivity. Qed.

(** ** Protocol versions *)

Lemma versions_sorted : all_pairs (fun a b => b <? a) supportedVersions = true.
Proof. reflexivity. Qed.

Lemma mutualVersion_spec c isClient peer v : mutualVersion c isClient peer = Some v ->
  v ∈ config_supportedVersions c isClient /\
  exists l1 l2, peer = l1 ++ v :: l2 /\ Forall (fun x => x ∉ config_supportedVersions c isClient) l1.
Proof.
  unfold mutualVersion. intros (l1 & l2 & -> & Hv & Hl)%find_first. rewrite contains_spec in Hv.
  split; [done|]. exists l1, l2. split; [done|]. eapply Forall_impl; [apply Hl|]. intros x Hx Hin.
  apply contains_spec in Hin. cbn beta in Hx. by rewrite Hin in Hx.
Qed.

(** A server that receives the versions a client offers chooses the highest
    one that both configurations support, and the client accepts the choice;
    it chooses none only if there is none in common. *)
Theorem version_negotiation client server :
  let offered := config_supportedVersions client true in
  let enabled := config_supportedVersions server false in
  match mutualVersion server false offered with
  | Some v =>
      v ∈ offered /\ v ∈ enabled /\ (forall w, w ∈ offered -> w ∈ enabled -> w <= v) /\
      mutualVersion client true [v] = Some v
  | None => forall w, w ∈ offered -> w ∉ enabled
  end.
Proof.
  cbn zeta. destruct (mutualVersion _ _ _) as [v|] eqn:E.
  - apply mutualVersion_spec in E as [Hv (l1 & l2 & Ho & Hl1)].
    assert (Hin : v ∈ config_supportedVersions client true) by (rewrite Ho; set_solver).
    split_and!; [done|done| |].
    + intros w Hw He. rewrite Ho in Hw. apply elem_of_app in Hw as [Hw|Hw].
      * rewrite Forall_forall in Hl1. by apply Hl1 in Hw.
      * apply elem_of_cons in Hw as [->|Hw]; [lia|].
        assert (Hs : all_pairs (fun a b => b <? a) (config_supportedVersions client true) = true)
          by (apply all_pairs_filter, versions_sorted).
        rewrite Ho in Hs. apply (all_pairs_spec _ _ _ _ _ Hs), Z.ltb_lt in Hw. lia.
    + unfold mutualVersion. cbn [List.find]. by rewrite (proj2 (contains_spec _ _) Hin).
  - intros w Hw He. unfold mutualVersion in E. rewrite list_elem_of_In in Hw. eapply find_none in E; [|apply Hw].
    apply contains_spec in He. by rewrite He in E.
Qed.

(** The documented default minimum is TLS 1.2; a client with no [MinVersion]
    keeps to it, but a server with no [MinVersion] supports TLS 1.0 and 1.1 as
    well, whatever its other settings, unless [MaxVersion] excludes them. *)
Theorem server_default_versions c : c.(Config.MinVersion) = 0 ->
  Forall (fun v => VersionTLS12 <= v) (config_supportedVersions c true) /\
  (forall v, v ∈ supportedVersions -> c.(Config.MaxVersion) = 0 \/ v <= c.(Config.MaxVersion) ->
     v ∈ config_supportedVersions c false).
Proof.
  intros Hm. split.
  - apply Forall_forall. intros v [Hv _]%filter_mem. rewrite Hm in Hv.
    destruct (v <? VersionTLS12) eqn:E; [done|]. lia.
  - intros v Hv Hmax. apply filter_mem. split; [|done]. rewrite Hm. cbn [Z.eqb negb andb].
    rewrite andb_false_r. cbn [negb andb]. destruct Hmax as [->|Hle]; [done|].
    rewrite (proj2 (Z.ltb_ge _ _) Hle). by rewrite andb_false_r.
Qed.

Lemma server_default_versions_witness :
  Config.zero.(Config.MinVersion) = 0 /\ VersionTLS10 ∈ config_supportedVersions Config.zero false.
Proof.
  split; [done|]. apply (server_default_versions Config.zero eq_refl); [|by left].
  vm_compute. repeat constructor.
Defined.

(** ** Groups and protocols *)

Lemma stable_first_head p l x l' : stable_first p l = x :: l' ->
  x ∈ l /\ (p x = false -> Forall (fun y => p y = false) l).
Proof.
  unfold stable_first. intros H. split.
  - assert (Hx : x ∈ List.filter p l ++ List.filter (fun y => negb (p y)) l) by (rewrite H; set_solver).
    apply elem_of_app in Hx as [[_ ?]%filter_mem|[_ ?]%filter_mem]; done.
  - intros Hp. apply Forall_forall. intros y Hy. destruct (p y) eqn:E; [|done].
    assert (Hf : y ∈ List.filter p l) by (by apply filter_mem).
    destruct (List.filter p l) as [|z fl] eqn:Ef; [by apply elem_of_nil in Hf|].
    injection H as -> _. assert (Hz : x ∈ List.filter p l) by (rewrite Ef; set_solver).
    apply filter_mem in Hz as [Hz _]. congruence.
Qed.

Lemma stable_first_mem p l x : x ∈ stable_first p l <-> x ∈ l.
Proof.
  unfold stable_first. rewrite elem_of_app, !filter_mem. destruct (p x) eqn:E; cbn; naive_solver.
Qed.

Lemma stable_first_none p l : Forall (fun y => p y = false) l -> stable_first p l = l.
Proof.
  intros H. unfold stable_first.
  assert (List.filter p l = [] /\ List.filter (fun x => negb (p x)) l = l) as [-> ->]; [|done].
  induction H as [|y l Hy _ [IH1 IH2]]; [done|]. cbn. rewrite Hy. cbn. by rewrite IH1, IH2.
Qed.

(** The TLS 1.3 server chooses a group that it and the client support; a
    post-quantum group whenever there is one in common; and otherwise it asks
    the client for another key share only when the client sent none for any
    group in common. *)
Theorem group_selection c vers groups shares g ks :
  let common x := x ∈ curvePreferences c vers /\ x ∈ groups in
  select_group c vers groups shares = inr (g, ks) ->
  common g /\
  (isPQKeyExchange g = false -> forall x, common x -> isPQKeyExchange x = false) /\
  (isPQKeyExchange g = false -> ks = None -> forall x, common x -> x ∉ map keyShare.group shares).
Proof.
  intros common. unfold select_group.
  set (has := fun group => List.existsb (fun ks => keyShare.group ks =? group) shares).
  set (pref := List.filter (contains groups) (curvePreferences c vers)).
  destruct (stable_first _ _) as [|x l] eqn:E; [done|]. intros [= -> <-].
  assert (Hc : forall x, x ∈ pref <-> common x).
  { intros x. unfold pref, common. rewrite filter_mem, contains_spec. tauto. }
  destruct (stable_first_head _ _ _ _ E) as [Hg Hpq]. rewrite stable_first_mem, Hc in Hg. split; [done|].
  split; intros Hf; specialize (Hpq Hf).
  - intros x Hx. rewrite Forall_forall in Hpq. by apply Hpq, stable_first_mem, Hc.
  - intros Hnone y Hy Hs. rewrite (stable_first_none _ _ Hpq) in E.
    assert (Hh : has y = true).
    { apply existsb_exists. rewrite list_elem_of_In, in_map_iff in Hs. destruct Hs as (k & <- & Hk).
      exists k. by rewrite Z.eqb_refl. }
    destruct (has g) eqn:Eg.
    + apply existsb_exists in Eg as (k & Hk & Ek). eapply find_none in Hnone; [|apply Hk]. cbn in Hnone. congruence.
    + apply stable_first_head in E as [_ E]. specialize (E Eg). rewrite Forall_forall in E.
      specialize (E y (proj2 (Hc y) Hy)). cbn in E. congruence.
Qed.

Lemma group_selection_witness :
  let shares := [keyShare.Mk CurveP256 [x01]] in
  select_group Config.zero VersionTLS13 [X25519; CurveP256] shares = inr (CurveP256, Some (keyShare.Mk CurveP256 [x01])) /\
  (CurveP256 ∈ curvePreferences Config.zero VersionTLS13 /\ CurveP256 ∈ [X25519; CurveP256]).
Proof.
  intros shares. split; [reflexivity|].
  apply (group_selection Config.zero VersionTLS13 [X25519; CurveP256] shares CurveP256 (Some (keyShare.Mk CurveP256 [x01]))).
  reflexivity.
Defined.

(** The application protocol the server settles on is the first of its own
    list that the client offers; it fails only if there is none in common, and
    then still lets a client that offers http/1.1 connect without a protocol
    to a server that lists h2. *)
Theorem alpn_choice server client quic : server <> [] -> client <> [] ->
  match negotiateALPN server client quic with
  | inr ((_ :: _) as p) =>
      p ∈ client /\ exists l1 l2, server = l1 ++ p :: l2 /\ Forall (fun q => q ∉ client) l1
  | inr [] =>
      [] ∈ server /\ [] ∈ client \/
      Forall (fun q => q ∉ client) server /\ h2 ∈ server /\ http11 ∈ client
  | inl _ => Forall (fun q => q ∉ client) server /\ (h2 ∉ server \/ http11 ∉ client)
  end.
Proof.
  intros Hs Hcl. unfold negotiateALPN.
  destruct (len server =? 0) eqn:E1; [by destruct server|].
  destruct (len client =? 0) eqn:E2; [by destruct client|]. cbn [orb].
  destruct (List.find _ _) as [p|] eqn:E.
  - apply find_first in E as (l1 & l2 & -> & Hp & Hl). apply bool_decide_eq_true in Hp.
    destruct p as [|b p]; [left; set_solver|]. split; [done|]. exists l1, l2. split; [done|].
    eapply Forall_impl; [apply Hl|]. cbn. intros q Hq. by apply bool_decide_eq_false in Hq.
  - assert (Hno : Forall (fun q => q ∉ client) server).
    { apply Forall_forall. intros q Hq. rewrite list_elem_of_In in Hq.
      eapply find_none in E; [|apply Hq]. by apply bool_decide_eq_false in E. }
    destruct (bool_decide (h2 ∈ server)) eqn:D1; cbn [andb].
    + destruct (bool_decide (http11 ∈ client)) eqn:D2.
      * right. apply bool_decide_eq_true in D1, D2. done.
      * apply bool_decide_eq_false in D2. by split; [|right].
    + apply bool_decide_eq_false in D1. by split; [|left].
Qed.

Lemma alpn_choice_witness :
  http11 ∈ [http11] /\ exists l1 l2, [h2; http11] = l1 ++ http11 :: l2 /\ Forall (fun q => q ∉ [http11]) l1.
Proof. apply (alpn_choice [h2; http11] [http11] false); discriminate. Defined.
