(* ===== verification/Codec.v ===== *)
(** * Extension blocks and item lists

    Every TLS message with extensions is written as a sequence of blocks
    (16-bit type, 16-bit length, body) and parsed by a loop that reads one
    block, switches on its type and continues.  This file holds that loop once
    ([ext_loop]), the lists of 16-bit values and of length-prefixed strings
    that occur inside the blocks, and the lemmas that relate the loop to the
    encoding: a loop over encoded blocks runs the switch on each in turn
    ([ext_loop_enc]), and a loop that succeeds was run on encoded blocks
    ([ext_loop_inv]). *)

From S2P Require Import Prelude Cryptobyte Common.

Lemma len_pos_false {A} (l : list A) : (0 <? len l) = false -> l = [].
Proof. intros H%Z.ltb_ge. apply len_0_iff. pose proof (len_nonneg l). lia. Qed.

Lemma len_pos_cons {A} (x : A) l : (0 <? len (x :: l)) = true.
Proof. apply Z.ltb_lt. rewrite len_cons. pose proof (len_nonneg l). lia. Qed.

Lemma len_pos_true {A} (l : list A) : (0 <? len l) = true -> l <> [].
Proof. by intros H%Z.ltb_lt ->. Qed.

(** ** Blocks *)

Definition enc_ext (e : Z * bytes) : bytes := be 2 e.1 ++ be 2 (len e.2) ++ e.2.
Definition enc_exts (l : list (Z * bytes)) : bytes := concat (map enc_ext l).
Definition wf_ext (e : Z * bytes) : Prop := is_u16 e.1 /\ len e.2 < 2 ^ 16.

Lemma enc_exts_app l1 l2 : enc_exts (l1 ++ l2) = enc_exts l1 ++ enc_exts l2.
Proof. unfold enc_exts. by rewrite map_app, concat_app. Qed.

(** What the builder emits for a block whose body is [d]. *)
Definition oext (id : Z) (d : option bytes) : option bytes :=
  oapp (Some (be 2 id)) (olp 2 d).
#[global] Arguments oext : simpl never.

Lemma oext_Some id d z :
  oext id d = Some z <->
  exists c, d = Some c /\ len c < 2 ^ 16 /\ z = enc_exts [(id, c)].
Proof.
  unfold oext, enc_exts, enc_ext. simpl. split.
  - intros (p & q & [= <-] & (c & -> & Hc & ->)%olp_Some & ->)%oapp_Some.
    exists c. rewrite app_nil_r. by split_and!; [|exact Hc|].
  - intros (c & -> & Hc & ->). apply oapp_Some. do 2 eexists. split_and!; [done| |].
    + apply olp_Some. by eexists.
    + by rewrite app_nil_r.
Qed.

(** A block that is present when [c] holds: the builder statements
    [if c { AddUint16(id); AddUint16LengthPrefixed(body) }] and
    [if c { AddUint16(id); AddUint16(0) }]. *)
Lemma opt_ext_inv (c : bool) id d z :
  (if c then oext id d else Some []) = Some z ->
  exists b, z = enc_exts (if c then [(id, b)] else []) /\ (c = true -> d = Some b /\ len b < 2 ^ 16).
Proof.
  destruct c.
  - intros (b & -> & ? & ->)%oext_Some. by exists b.
  - intros [= <-]. by exists [].
Qed.

Lemma empty_ext_inv (c : bool) id z :
  (if c then oapp (Some (be 2 id)) (Some (be 2 0)) else Some []) = Some z ->
  z = enc_exts (if c then [(id, [])] else []).
Proof.
  destruct c; [|by intros [= <-]].
  intros (p & q & [= <-] & [= <-] & ->)%oapp_Some. by unfold enc_exts, enc_ext.
Qed.

(** ** The parsing loop over blocks *)

Section ExtLoop.
Context `{C : Cryptobyte}.

(** [if !extensions.ReadUint16(&extension) ||
        !extensions.ReadUint16LengthPrefixed(&extData) { return false }],
    the head of every extension loop; then the switch. *)
Definition ext_body {S} (handler : S -> Z -> bytes -> bytes -> option S)
    (st : S) (extensions : bytes) : option (S * bytes) :=
  read (extension, extensions) := ReadUint16 extensions in
  read (extData, extensions) := ReadUint16LengthPrefixed extensions in
  read st := handler st extension extData extensions in
  Some (st, extensions).

(** The handler receives the loop state, the type, the body, and what is left
    of the block list (only pre_shared_key looks at it). *)
Definition ext_loop {S} (handler : S -> Z -> bytes -> bytes -> option S)
    (st : S) (extensions : bytes) : option S :=
  loop (ext_body handler) st extensions.

(** The same switch run over decoded blocks; [r] follows the last one. *)
Fixpoint run_exts {S} (handler : S -> Z -> bytes -> bytes -> option S)
    (st : S) (l : list (Z * bytes)) (r : bytes) : option S :=
  match l with
  | [] => Some st
  | e :: l =>
      match handler st e.1 e.2 (enc_exts l ++ r) with
      | Some st => run_exts handler st l r
      | None => None
      end
  end.

Lemma run_exts_app {S} (h : S -> Z -> bytes -> bytes -> option S) st l1 l2 r :
  run_exts h st (l1 ++ l2) r =
    match run_exts h st l1 (enc_exts l2 ++ r) with
    | Some st => run_exts h st l2 r
    | None => None
    end.
Proof.
  revert st. induction l1 as [|e l1 IH]; intros st; simpl; [done|].
  rewrite enc_exts_app, <- app_assoc. destruct (h _ _ _ _); auto.
Qed.

(** What the switch preserves, the loop preserves. *)
Lemma run_exts_inv {S A} (f : S -> A) (h : S -> Z -> bytes -> bytes -> option S) st l r st' :
  (forall st e d r st', h st e d r = Some st' -> f st' = f st) ->
  run_exts h st l r = Some st' -> f st' = f st.
Proof.
  intros Hf. revert st. induction l as [|e l IH]; intros st; cbn [run_exts]; [by intros [= <-]|].
  destruct (h st e.1 e.2 _) as [st1|] eqn:E; [|done]. intros ->%IH. by eapply Hf.
Qed.

Lemma run_exts_opt {S} (h : S -> Z -> bytes -> bytes -> option S) st (c : bool) id b r :
  run_exts h st (if c then [(id, b)] else []) r =
    if c then h st id b r else Some st.
Proof. destruct c; simpl; [|done]. by destruct (h _ _ _ _). Qed.

Context {Cok : CryptobyteOk C}.

Lemma ext_body_shrinks {S} (h : S -> Z -> bytes -> bytes -> option S) :
  shrinks (ext_body h).
Proof.
  intros st s st' s'. unfold ext_body. autorewrite with cbspec.
  destruct (rd_uint 2 s) as [[v r]|] eqn:E1; [|done].
  autorewrite with cbspec.
  destruct (rd_lp 2 r) as [[d r']|] eqn:E2; [|done].
  destruct (h _ _ _ _); [|done]. intros [= <- <-].
  apply rd_uint_shrinks in E1. apply rd_lp_shrinks in E2. unfold len in *. lia.
Qed.

Lemma ext_body_enc {S} (h : S -> Z -> bytes -> bytes -> option S) st e r :
  wf_ext e ->
  ext_body h st (enc_ext e ++ r) =
    match h st e.1 e.2 r with Some st => Some (st, r) | None => None end.
Proof.
  intros [H1 H2]. unfold ext_body, enc_ext. destruct e as [id d]. cbn [fst snd] in *. by parse.
Qed.

Lemma enc_ext_nonempty e r : enc_ext e ++ r <> [].
Proof.
  intros H%(f_equal len). unfold enc_ext in H. autorewrite with cb in H.
  pose proof (len_nonneg e.2). pose proof (len_nonneg r). lia.
Qed.

Lemma ext_loop_enc {S} (h : S -> Z -> bytes -> bytes -> option S) st l :
  Forall wf_ext l -> ext_loop h st (enc_exts l) = run_exts h st l [].
Proof.
  intros Hl. revert st. induction Hl as [|e l He Hl IH]; intros st; [apply loop_nil|].
  unfold ext_loop in *. cbn [run_exts]. rewrite app_nil_r.
  change (enc_exts (e :: l)) with (enc_ext e ++ enc_exts l).
  rewrite loop_step; [|apply ext_body_shrinks|apply enc_ext_nonempty].
  rewrite ext_body_enc by done.
  destruct (h _ _ _ _); [|done]. apply IH.
Qed.

Lemma ext_loop_inv {S} (h : S -> Z -> bytes -> bytes -> option S) st s st' :
  ext_loop h st s = Some st' ->
  exists l, s = enc_exts l /\ Forall wf_ext l /\ run_exts h st l [] = Some st'.
Proof.
  remember (length s) as n eqn:Hn. revert st s Hn.
  induction n as [n IH] using lt_wf_ind. intros st s -> H.
  destruct s as [|b s].
  - unfold ext_loop in H. rewrite loop_nil in H. injection H as <-. by exists [].
  - unfold ext_loop in H. rewrite loop_step in H by (done || apply ext_body_shrinks).
    destruct (ext_body h st (b :: s)) as [[st1 s1]|] eqn:E; [|done].
    pose proof (ext_body_shrinks h _ _ _ _ E) as Hlt.
    apply (IH _ Hlt _ _ eq_refl) in H as (l & -> & Hl & Hr).
    unfold ext_body in E. autorewrite with cbspec in E.
    destruct (rd_uint 2 _) as [[v r]|] eqn:E1; [|done]. autorewrite with cbspec in E.
    destruct (rd_lp 2 r) as [[d r']|] eqn:E2; [|done].
    destruct (h st v d r') as [st2|] eqn:E3; [|done]. injection E as -> ->.
    apply rd_uint_eq in E1 as [E1 ?]. apply rd_lp_eq in E2 as [-> ?].
    exists ((v, d) :: l). split_and!.
    + rewrite E1. change (enc_exts ((v, d) :: l)) with (enc_ext (v, d) ++ enc_exts l).
      unfold enc_ext. cbn [fst snd]. by rewrite <- !app_assoc.
    + by constructor.
    + cbn [run_exts fst snd]. by rewrite app_nil_r, E3.
Qed.

(** ** Items inside a block *)

(** [for !s.Empty() { var v uint16; if !s.ReadUint16(&v) { return false }; append }] *)
Definition read_u16s (acc : list Z) (s : bytes) : option (list Z) :=
  loop (fun acc s => read (v, s) := ReadUint16 s in Some (acc ++ [v], s)) acc s.

(** A length-prefixed, non-empty list of 16-bit values: the parsing fragment
    [if !extData.Read..LengthPrefixed(&l) || l.Empty() { return false };
     for !l.Empty() { ... }] of the extension switches. *)
Definition read_u16_list (readLengthPrefixed : bytes -> option (bytes * bytes))
    (acc : list Z) (extData : bytes) : option (list Z * bytes) :=
  read (s, extData) := readLengthPrefixed extData in
  ensure negb (Empty s) in
  read l := read_u16s acc s in
  Some (l, extData).

Definition enc_u16s (l : list Z) : bytes := concat (map (be 2) l).

Lemma read_u16s_enc acc l :
  Forall is_u16 l -> read_u16s acc (enc_u16s l) = Some (acc ++ l).
Proof.
  intros. unfold read_u16s, enc_u16s.
  erewrite (loop_concat _ (be 2) (fun acc v => acc ++ [v])); [by rewrite fold_left_snoc| | |done].
  - intros st s st' s'. autorewrite with cbspec.
    destruct (rd_uint 2 s) as [[v r]|] eqn:E; [|done]. intros [= <- <-].
    apply rd_uint_shrinks in E. unfold len in E. lia.
  - intros x st r Hx. by parse.
Qed.

Lemma len_enc_u16s l : len (enc_u16s l) = 2 * len l.
Proof.
  unfold enc_u16s. induction l as [|x l IH]; [done|].
  cbn [map concat]. autorewrite with cb in *. lia.
Qed.

Lemma Empty_len s : Empty s = (len s =? 0).
Proof. rewrite Empty_spec. destruct s; [done|]. rewrite len_cons. pose proof (len_nonneg s). lia. Qed.

Lemma read_u16_list_enc n rd acc l r :
  (forall s, rd s = rd_lp n s) -> Forall is_u16 l -> (0 <? len l) = true ->
  len (enc_u16s l) < 256 ^ Z.of_nat n ->
  read_u16_list rd acc ((be n (len (enc_u16s l)) ++ enc_u16s l) ++ r) = Some (acc ++ l, r).
Proof.
  intros Hrd Hl H0 Hlen. unfold read_u16_list. rewrite Hrd, rd_lp_app by done.
  rewrite Empty_len, len_enc_u16s.
  destruct (Z.eqb_spec (2 * len l) 0); simpl; [lia|].
  by rewrite read_u16s_enc.
Qed.

Lemma emit_u16s l : oconcat (map (fun v => Some (be 2 v)) l) = Some (enc_u16s l).
Proof. unfold enc_u16s. induction l as [|x l IH]; simpl; [done|]. by rewrite IH. Qed.

(** Strings with an [n]-byte length, as in lists of protocols, SCTs and
    certificate authorities. *)
Definition enc_lp (n : nat) (x : bytes) : bytes := be n (len x) ++ x.

Lemma len_enc_lp n (d : bytes) : len (enc_lp n d) = Z.of_nat n + len d.
Proof. unfold enc_lp. by rewrite len_app, len_be. Qed.

Lemma emit_lps n l z :
  oconcat (map (fun x => olp n (Some x)) l) = Some z ->
  z = concat (map (enc_lp n) l) /\ Forall (fun x => len x < 256 ^ Z.of_nat n) l.
Proof.
  apply oconcat_Some. intros x y (c & [= ->] & ? & ->)%olp_Some. done.
Qed.

(** A loop that reads length-prefixed strings and rejects empty ones. *)
Lemma loop_lps n (rd : bytes -> option (bytes * bytes)) acc l :
  (forall s, rd s = rd_lp n s) -> (0 < n)%nat ->
  Forall (fun x => len x < 256 ^ Z.of_nat n) l -> Forall (fun x => x <> []) l ->
  loop (fun acc s =>
    read (x, s) := rd s in
    ensure negb (len x =? 0) in
    Some (acc ++ [x], s)) acc (concat (map (enc_lp n) l)) = Some (acc ++ l).
Proof.
  intros Hrd Hn H1 H2.
  erewrite (loop_concat _ (enc_lp n) (fun acc x => acc ++ [x])
    (fun x => len x < 256 ^ Z.of_nat n /\ x <> [])); [by rewrite fold_left_snoc| | |].
  - intros st s st' s'. rewrite Hrd.
    destruct (rd_lp n s) as [[v r]|] eqn:E; [|done]. destruct (negb _); [|done].
    intros [= <- <-]. apply rd_lp_shrinks in E. unfold len in E. lia.
  - intros x st r [Hx Hne]. unfold enc_lp. rewrite <- app_assoc, Hrd, rd_lp_cat by done.
    destruct (Z.eqb_spec (len x) 0) as [E%len_0_iff|]; done.
  - by apply Forall_and.
Qed.

End ExtLoop.

(** ** Loops that reject a repeated extension

    [if seenExts[extension] { return false }; seenExts[extension] = true]
    before the switch; the map is the list of numbers seen so far. *)

Definition with_seen {S} (handler : S -> Z -> bytes -> bytes -> option S)
    (st : S * list Z) (extension : Z) (extData rest : bytes) : option (S * list Z) :=
  ensure negb (bool_decide (extension ∈ st.2)) in
  read m := handler st.1 extension extData rest in
  Some (m, extension :: st.2).

Lemma run_exts_seen {S} (h : S -> Z -> bytes -> bytes -> option S) st seen l r :
  NoDup (map fst l ++ seen) ->
  run_exts (with_seen h) (st, seen) l r =
    match run_exts h st l r with
    | Some st => Some (st, rev (map fst l) ++ seen)
    | None => None
    end.
Proof.
  revert st seen. induction l as [|e l IH]; intros st seen Hnd; [done|].
  cbn [run_exts map rev] in *. unfold with_seen at 1. cbn [fst snd].
  cbn [app] in Hnd. apply NoDup_cons in Hnd as [Hin Hnd].
  rewrite bool_decide_eq_false_2 by (set_solver). cbn [negb].
  destruct (h st e.1 e.2 _) as [st1|]; [|done].
  rewrite IH; [by rewrite <- app_assoc|].
  apply NoDup_app in Hnd as (H1 & H2 & H3). apply NoDup_app. split_and!; [done| |constructor; set_solver].
  intros x Hx [->|Hs]%elem_of_cons; [set_solver|by eapply H2].
Qed.

Lemma run_exts_seen_inv {S} (h : S -> Z -> bytes -> bytes -> option S) st seen l r st' :
  run_exts (with_seen h) (st, seen) l r = Some st' ->
  NoDup (map fst l) /\ Forall (fun x => x ∉ seen) (map fst l) /\ run_exts h st l r = Some st'.1.
Proof.
  revert st seen. induction l as [|e l IH]; intros st seen; cbn [run_exts map].
  - intros [= <-]. split_and!; [constructor|constructor|done].
  - unfold with_seen at 1. cbn [fst snd]. case_bool_decide as Hin; [done|]. cbn [negb].
    destruct (h st e.1 e.2 _) as [st1|]; [|done]. intros (H1 & H2 & H3)%IH.
    split_and!; [constructor; [|done]|constructor; [done|]|done].
    + intros Hm. rewrite Forall_forall in H2. apply (H2 _ Hm). set_solver.
    + eapply Forall_impl; [done|]. intros x Hx. set_solver.
Qed.

(** The numbers of optional blocks are a sublist of all numbers. *)
Lemma sublist_opt_ext (c : bool) (id : Z) (b : bytes) :
  sublist (map fst (if c then [(id, b)] else [])) [id].
Proof. destruct c; cbn; [done|apply sublist_nil_l]. Qed.

Ltac nodup_exts :=
  rewrite ?app_nil_r, ?map_app;
  eapply sublist_NoDup;
  [| repeat (eapply sublist_app; [apply sublist_opt_ext|]); apply sublist_opt_ext];
  cbn [app]; match goal with |- NoDup ?l => apply (bool_decide_unpack (NoDup l)) end;
  vm_compute; exact I.

(** The end of both hello parsers: the message "is optionally followed by
    extension data". *)
Section OptionalExts.
Context `{C : Cryptobyte}.

Definition optional_exts {S} (handler : S -> Z -> bytes -> bytes -> option S)
    (m : S) (s : bytes) : option S :=
  if Empty s then Some m else
  read (extensions, s) := ReadUint16LengthPrefixed s in
  ensure Empty s in
  read (m, seenExts) := ext_loop (with_seen handler) (m, []) extensions in
  Some m.

Context {Cok : CryptobyteOk C}.

Lemma enc_exts_nil l : enc_exts l = [] -> l = [].
Proof.
  destruct l as [|e l]; [done|]. intros H. change (enc_exts (e :: l)) with (enc_ext e ++ enc_exts l) in H.
  by apply enc_ext_nonempty in H.
Qed.

(** Reading what [if len(extBytes) > 0 { AddUint16LengthPrefixed(extBytes) }]
    wrote. *)
Lemma optional_exts_enc {S} (h : S -> Z -> bytes -> bytes -> option S) m l s :
  (if 0 <? len (enc_exts l) then olp 2 (Some (enc_exts l)) else Some []) = Some s ->
  Forall wf_ext l -> NoDup (map fst l) ->
  optional_exts h m s = run_exts h m l [].
Proof.
  intros H Hl Hnd. unfold optional_exts. destruct (0 <? len (enc_exts l)) eqn:E.
  - inv_out. rewrite Empty_len, len_app, len_be. pose proof (len_nonneg (enc_exts l)). zbool. parse.
    rewrite ext_loop_enc, run_exts_seen by (rewrite ?app_nil_r; done). by destruct (run_exts h m l []).
  - apply len_pos_false, enc_exts_nil in E. subst l. injection H as <-. by rewrite Empty_spec.
Qed.

(** What is accepted is a duplicate-free sequence of blocks. *)
Lemma optional_exts_inv {S} (h : S -> Z -> bytes -> bytes -> option S) m s m' :
  optional_exts h m s = Some m' ->
  exists l, (s = [] /\ l = [] \/ s = be 2 (len (enc_exts l)) ++ enc_exts l) /\
    Forall wf_ext l /\ NoDup (map fst l) /\ run_exts h m l [] = Some m'.
Proof.
  unfold optional_exts. rewrite Empty_spec. destruct s as [|b s]; intros H.
  - injection H as <-. exists []. split_and!; try done; [by left|constructor].
  - rewrite ReadUint16LengthPrefixed_spec in H. destruct (rd_lp 2 (b :: s)) as [[e r]|] eqn:E; [|done].
    rewrite Empty_spec in H. destruct r; [|done]. apply rd_lp_eq in E as [-> _].
    destruct (ext_loop _ _ e) as [[m1 sn]|] eqn:El; [|done]. injection H as <-.
    apply ext_loop_inv in El as (l & -> & Hl & Hr). apply run_exts_seen_inv in Hr as (Hnd & _ & Hr).
    exists l. rewrite app_nil_r. split_and!; try done. by right.
Qed.
End OptionalExts.

Lemma wf_opt_ext (c : bool) id (d : option bytes) b :
  is_u16 id -> (c = true -> d = Some b /\ len b < 2 ^ 16) ->
  Forall wf_ext (if c then [(id, b)] else []).
Proof.
  intros Hid Hb. destruct c; repeat constructor; cbn [fst snd]; try apply Hid.
  by destruct Hb.
Qed.

Lemma wf_empty_ext (c : bool) id :
  is_u16 id -> Forall wf_ext (if c then [(id, [])] else []).
Proof. intros Hid. destruct c; repeat constructor; cbn [fst snd]; try apply Hid. Qed.

(** Break the output of a sequence of optional blocks into its blocks. *)
Ltac inv_exts :=
  repeat (inv_out;
  match goal with
  | H : (if ?c then oapp (Some (be 2 ?id)) (olp 2 ?d) else Some []) = Some ?z |- _ =>
      let b := fresh "body" in let Hb := fresh "Hbody" in
      apply (opt_ext_inv c id d z) in H as (b & -> & Hb)
  | H : (if ?c then oapp (Some (be 2 ?id)) (Some (be 2 0)) else Some []) = Some ?z |- _ =>
      apply (empty_ext_inv c id z) in H as ->
  end); inv_out; rewrite <- ?enc_exts_app in *.

Ltac wf_exts :=
  repeat (apply Forall_app_2);
  first [eapply wf_opt_ext; [done|eassumption] | apply wf_empty_ext; done].

(** Resolve a switch on a known extension number, one comparison at a time. *)
Lemma switch_case {A} (c : bool) (x y r : A) : c = true -> x = r -> (if c then x else y) = r.
Proof. by intros ->. Qed.
Lemma switch_next {A} (c : bool) (x y r : A) : c = false -> y = r -> (if c then x else y) = r.
Proof. by intros ->. Qed.

Ltac ext_switch :=
  repeat lazymatch goal with
  | |- (if ?a =? ?b then _ else _) = _ =>
      first [ apply switch_next; [reflexivity|] | apply switch_case; [reflexivity|] ]
  end.

(** ** Stepping through the blocks of a message

    [ext_step f] processes the next optional block: when the block is present
    the handler must turn the state [st] into [f st]; when it is absent, [f st]
    must be [st] itself. *)

Lemma run_exts_step {S} (h : S -> Z -> bytes -> bytes -> option S) st (c : bool) id b L r st1 out :
  (if c then h st id b (enc_exts L ++ r) else Some st) = Some st1 ->
  run_exts h st1 L r = out ->
  run_exts h st ((if c then [(id, b)] else []) ++ L) r = out.
Proof. intros H1 H2. by rewrite run_exts_app, run_exts_opt, H1. Qed.

Lemma run_exts_last {S} (h : S -> Z -> bytes -> bytes -> option S) st (c : bool) id b r st1 :
  (if c then h st id b r else Some st) = Some st1 ->
  run_exts h st (if c then [(id, b)] else []) r = Some st1.
Proof. intros H1. by rewrite run_exts_opt. Qed.

(** Absent block: the condition tells that the field has its zero value. *)
Ltac ext_absent :=
  repeat match goal with
  | H : (0 <? len ?l) = false |- _ => apply len_pos_false in H; rewrite ?H; clear H
  | H : non_nil ?l = false |- _ => apply non_nil_false in H; rewrite ?H; clear H
  | H : negb (?x =? 0) = false |- _ =>
      apply negb_false_iff, Z.eqb_eq in H; rewrite ?H; clear H
  | H : ?x = false |- _ => rewrite ?H; clear H
  end; reflexivity.

Ltac ext_present :=
  repeat match goal with
  | Hb : true = true -> _ = Some _ /\ _ |- _ =>
      let E := fresh "E" in destruct (Hb eq_refl) as [E ?]; clear Hb; rewrite ?emit_u16s in E; inv_out
  end.

(** Run the message's parser over its header and start the block loop. *)
Ltac enter_exts :=
  inv_exts; parse; rewrite ext_loop_enc by wf_exts;
  repeat match goal with H : len _ < _ |- _ => clear H end.

Ltac ext_step_with f tac tac2 :=
  lazymatch goal with
  | |- run_exts ?h ?st (app (if ?c then _ else _) _) _ = _ =>
      let st' := eval simpl in (f st) in
      apply (run_exts_step h st c _ _ _ _ st');
      [ let Hc := fresh "Hc" in destruct c eqn:Hc;
        [ ext_present; tac | tac2 ] | ]
  | |- run_exts ?h ?st (if ?c then _ else _) _ = _ =>
      let st' := eval simpl in (f st) in
      transitivity (Some st'); [apply (run_exts_last h st c);
      let Hc := fresh "Hc" in destruct c eqn:Hc;
      [ ext_present; tac | tac2 ] | ]
  end.

Tactic Notation "ext_step" constr(f) "by" tactic3(tac) := ext_step_with f tac ext_absent.
Tactic Notation "ext_step" constr(f) "by" tactic3(tac) "else" tactic3(tac2) :=
  ext_step_with f tac tac2.

(** Solve the "present" case of a block: compute the switch, then read the
    body back. *)
Ltac unfold_head h :=
  lazymatch h with ?g _ => unfold_head g | _ => unfold h end.

Ltac ext_solve_with tac :=
  lazymatch goal with |- ?h _ _ _ _ = _ => unfold_head h end; ext_switch; cbv zeta;
  first
    [ done
    | parse; done
    | rewrite <- (app_nil_r (be _ _ ++ _));
      first [ rewrite (read_u16_list_enc 2) by
                (done || auto using ReadUint16LengthPrefixed_spec)
            | rewrite (read_u16_list_enc 1) by
                (done || auto using ReadUint8LengthPrefixed_spec)
            | tac ]; parse; done ].

Ltac ext_solve := ext_solve_with fail.
