(* ===== verification/Buffer.v ===== *)
(** * Byte slices written and read by index

    Several messages and all client extensions are serialised by hand into a
    byte slice: [x := make([]byte, n)], [x[i] = v], [copy(x[i:], src)],
    [y = y[k:]].  This file models those operations with Go's run-time
    behaviour: an index or a slice bound out of range panics.

    A slice [y] of a buffer [x] shares its storage, so [y] is represented by
    its offset in [x] and every write goes to [x].  [Writes f off d] is the
    specification used by the proofs: run on any buffer with room for [d] at
    offset [off], the statements [f] store exactly [d] there, change nothing
    else and do not panic. *)

From S2P Require Import Prelude Cryptobyte.

(** ** Go evaluation that may panic *)

Inductive outcome (A : Type) :=
  | Panic
  | Ret (a : A).
Arguments Panic {A}.
Arguments Ret {A} _.

Definition obind {A B} (x : outcome A) (f : A -> outcome B) : outcome B :=
  match x with Panic => Panic | Ret a => f a end.

Notation "'run' x := e 'in' k" := (obind e (fun x => k))
  (at level 10, x pattern, e at level 100, k at level 200,
   format "'[v' 'run'  x  :=  e  'in' '/' k ']'") : go_scope.

Lemma Ret_inj {A} (a b : A) : Ret a = Ret b -> a = b.
Proof. by intros [= ->]. Qed.

(** ** Reading *)

(** [b[i]] *)
Definition get (b : bytes) (i : Z) : outcome Z :=
  if (0 <=? i) && (i <? len b)
  then match b !! Z.to_nat i with Some v => Ret (b2z v) | None => Panic end
  else Panic.

(** [b[i:]] *)
Definition from (b : bytes) (i : Z) : outcome bytes :=
  if (0 <=? i) && (i <=? len b) then Ret (drop (Z.to_nat i) b) else Panic.

(** [b[:j]]; the capacity of the slices that are read is their length. *)
Definition upto (b : bytes) (j : Z) : outcome bytes :=
  if (0 <=? j) && (j <=? len b) then Ret (take (Z.to_nat j) b) else Panic.

(** [b[i:j]] *)
Definition slice (b : bytes) (i j : Z) : outcome bytes :=
  run b := upto b j in from b i.

(** ** Writing *)

(** [make([]byte, n)]; a negative length panics. *)
Definition make (n : Z) : outcome bytes :=
  if 0 <=? n then Ret (replicate (Z.to_nat n) x00) else Panic.

(** [b[i] = uint8(v)] *)
Definition put (i v : Z) (b : bytes) : outcome bytes :=
  if (0 <=? i) && (i <? len b) then Ret (<[Z.to_nat i := u8 v]> b) else Panic.

(** [copy(b[i:], src)] *)
Definition copy_at (i : Z) (src : bytes) (b : bytes) : outcome bytes :=
  if (0 <=? i) && (i <=? len b) then
    let n := Nat.min (length src) (length b - Z.to_nat i) in
    Ret (take (Z.to_nat i) b ++ take n src ++ drop (Z.to_nat i + n) b)
  else Panic.

(** [y = y[k:]] for the [y] that starts at offset [off]: only the bound is
    checked, the new offset is [off + k]. *)
Definition advance (i : Z) (b : bytes) : outcome bytes :=
  if (0 <=? i) && (i <=? len b) then Ret b else Panic.

(** Statements in sequence. *)
Definition wseq (f g : bytes -> outcome bytes) : bytes -> outcome bytes :=
  fun b => obind (f b) g.
Notation "f ;! g" := (wseq f g)
  (at level 91, right associativity, format "'[v' f  ;! '/' g ']'") : go_scope.

Definition wnop : bytes -> outcome bytes := Ret.

(** ** Specification of write sequences *)

Definition Writes (f : bytes -> outcome bytes) (off : Z) (d : bytes) : Prop :=
  forall pre rest, len pre = off -> len d <= len rest ->
    f (pre ++ rest) = Ret (pre ++ d ++ drop (length d) rest).

Lemma writes_put i v : Writes (put i v) i [u8 v].
Proof.
  intros pre rest <- Hr. destruct rest as [|x rest]; [by rewrite len_nil in Hr|].
  unfold put. rewrite len_app, len_cons.
  pose proof (len_nonneg pre). pose proof (len_nonneg rest).
  replace ((0 <=? len pre) && _) with true by (symmetry; rewrite andb_true_iff; split; lia).
  f_equal. unfold len. rewrite Nat2Z.id. rewrite <- (Nat.add_0_r (length pre)) at 1.
  by rewrite insert_app_r.
Qed.

Lemma writes_copy i src : Writes (copy_at i src) i src.
Proof.
  intros pre rest <- Hr. unfold copy_at. rewrite len_app.
  pose proof (len_nonneg pre). pose proof (len_nonneg rest).
  replace ((0 <=? len pre) && _) with true by (symmetry; rewrite andb_true_iff; split; lia).
  f_equal. unfold len in *. rewrite Nat2Z.id, take_app_length. f_equal.
  rewrite Nat.min_l by (rewrite length_app; lia). rewrite take_ge by lia. f_equal.
  by rewrite drop_app_add'.
Qed.

Lemma writes_advance i : Writes (advance i) i [].
Proof.
  intros pre rest <- Hr. unfold advance. rewrite len_app.
  pose proof (len_nonneg pre). pose proof (len_nonneg rest).
  by replace ((0 <=? len pre) && _) with true by (symmetry; rewrite andb_true_iff; split; lia).
Qed.

Lemma writes_nop off : Writes wnop off [].
Proof. by intros pre rest _ _. Qed.

Lemma writes_seq f g off off' d e :
  Writes f off d -> off' = off + len d -> Writes g off' e -> Writes (f ;! g) off (d ++ e).
Proof.
  intros Hf -> Hg pre rest Hp Hr. rewrite len_app in Hr.
  pose proof (len_nonneg e). unfold wseq. rewrite Hf by lia. cbn [obind].
  rewrite app_assoc. rewrite Hg.
  - rewrite <- !app_assoc. do 3 f_equal. rewrite drop_drop, length_app. done.
  - rewrite len_app. lia.
  - unfold len in *. rewrite length_drop. lia.
Qed.

Lemma writes_cast f off off' d d' : Writes f off d -> off = off' -> d = d' -> Writes f off' d'.
Proof. by intros ? <- <-. Qed.

Lemma writes_if (c : bool) f g off d e :
  Writes f off d -> Writes g off e ->
  Writes (if c then f else g) off (if c then d else e).
Proof. by destruct c. Qed.

(** A buffer of exactly the right size is filled. *)
Lemma writes_fill f d n : Writes f 0 d -> n = len d -> obind (make n) f = Ret d.
Proof.
  intros Hf ->. unfold make. pose proof (len_nonneg d).
  replace (0 <=? len d) with true by lia. cbn [obind].
  unfold len. rewrite Nat2Z.id.
  change (replicate (length d) x00) with ([] ++ replicate (length d) x00). rewrite Hf; [|done|].
  - f_equal. simpl. rewrite drop_ge by (rewrite length_replicate; lia). apply app_nil_r.
  - unfold len. rewrite length_replicate. lia.
Qed.

(** The big-endian stores [x[i] = uint8(v >> 8); x[i+1] = uint8(v)], etc. *)
Lemma be1_u8 v : be 1 v = [u8 v].
Proof. done. Qed.
Lemma be2_u8 v : be 2 v = [u8 (Z.shiftr v 8); u8 v].
Proof. done. Qed.
Lemma be3_u8 v : be 3 v = [u8 (Z.shiftr v 16); u8 (Z.shiftr v 8); u8 v].
Proof. done. Qed.
Lemma be4_u8 v : be 4 v = [u8 (Z.shiftr v 24); u8 (Z.shiftr v 16); u8 (Z.shiftr v 8); u8 v].
Proof. done. Qed.

(** ** Specification of reads *)

Lemma get_app pre x r i : i = len pre -> get (pre ++ x :: r) i = Ret (b2z x).
Proof.
  intros ->. unfold get. rewrite len_app, len_cons.
  pose proof (len_nonneg pre). pose proof (len_nonneg r).
  replace ((0 <=? len pre) && _) with true by (symmetry; rewrite andb_true_iff; split; lia).
  unfold len. by rewrite Nat2Z.id, list_lookup_middle.
Qed.

Lemma from_app pre r i : i = len pre -> from (pre ++ r) i = Ret r.
Proof.
  intros ->. unfold from. rewrite len_app.
  pose proof (len_nonneg pre). pose proof (len_nonneg r).
  replace ((0 <=? len pre) && _) with true by (symmetry; rewrite andb_true_iff; split; lia).
  unfold len. by rewrite Nat2Z.id, drop_app_length.
Qed.

Lemma upto_app d r i : i = len d -> upto (d ++ r) i = Ret d.
Proof.
  intros ->. unfold upto. rewrite len_app.
  pose proof (len_nonneg d). pose proof (len_nonneg r).
  replace ((0 <=? len d) && _) with true by (symmetry; rewrite andb_true_iff; split; lia).
  unfold len. by rewrite Nat2Z.id, take_app_length.
Qed.

Lemma slice_app pre d r i j :
  i = len pre -> j = len pre + len d -> slice (pre ++ d ++ r) i j = Ret d.
Proof.
  intros -> ->. unfold slice. rewrite app_assoc, upto_app by (by rewrite len_app).
  cbn [obind]. by apply from_app.
Qed.

(** The reads of a long enough slice do not panic. *)
Lemma get_ok b i : 0 <= i < len b -> exists v, get b i = Ret v /\ 0 <= v < 256.
Proof.
  intros Hi. unfold get.
  replace ((0 <=? i) && _) with true by (symmetry; rewrite andb_true_iff; split; lia).
  destruct (lookup_lt_is_Some_2 b (Z.to_nat i)) as [v ->]; [unfold len in Hi; lia|].
  exists (b2z v). split; [done|]. apply b2z_range.
Qed.

Lemma from_ok b i : 0 <= i <= len b -> from b i = Ret (drop (Z.to_nat i) b).
Proof.
  intros Hi. unfold from.
  by replace ((0 <=? i) && _) with true by (symmetry; rewrite andb_true_iff; split; lia).
Qed.

Lemma upto_ok b i : 0 <= i <= len b -> upto b i = Ret (take (Z.to_nat i) b).
Proof.
  intros Hi. unfold upto.
  by replace ((0 <=? i) && _) with true by (symmetry; rewrite andb_true_iff; split; lia).
Qed.

Lemma len_drop (b : bytes) i : 0 <= i <= len b -> len (drop (Z.to_nat i) b) = len b - i.
Proof. intros. unfold len in *. rewrite length_drop. lia. Qed.

Lemma len_replicate {A} (x : A) n : 0 <= n -> len (replicate (Z.to_nat n) x) = n.
Proof. intros. unfold len. rewrite length_replicate. lia. Qed.

Lemma len_take (b : bytes) i : 0 <= i <= len b -> len (take (Z.to_nat i) b) = i.
Proof. intros. unfold len in *. rewrite length_take. lia. Qed.

(** [uint32(a)<<16 | uint32(b)<<8 | uint32(c)] and its 16-bit counterpart. *)
Definition be3 (a b c : Z) : Z := Z.lor (Z.lor (Z.shiftl a 16) (Z.shiftl b 8)) c.
Definition be2 (a b : Z) : Z := Z.lor (Z.shiftl a 8) b.

(** [uint32(b[i])<<16 | uint32(b[i+1])<<8 | uint32(b[i+2])] *)
Definition get24 (b : bytes) (i : Z) : outcome Z :=
  run p := get b i in
  run q := get b (i + 1) in
  run r := get b (i + 2) in
  Ret (be3 p q r).

Definition get16 (b : bytes) (i : Z) : outcome Z :=
  run p := get b i in
  run q := get b (i + 1) in
  Ret (be2 p q).

Lemma lor_disjoint a b n :
  0 <= n -> 0 <= b < 2 ^ n -> Z.lor (Z.shiftl a n) b = a * 2 ^ n + b.
Proof.
  intros Hn Hb. rewrite <- Z.shiftl_mul_pow2 by done.
  rewrite Z.add_nocarry_lxor, Z.lxor_lor; auto.
  all: apply Z.bits_inj'; intros k Hk; rewrite Z.land_spec, Z.bits_0, andb_false_iff.
  all: destruct (Z.lt_ge_cases k n); [left; by apply Z.shiftl_spec_low|right].
  all: rewrite <- (Z.mod_small b (2 ^ n)) by done; by apply Z.mod_pow2_bits_high.
Qed.

Lemma be2_val a b : 0 <= b < 256 -> be2 a b = a * 256 + b.
Proof. intros. unfold be2. by rewrite lor_disjoint. Qed.

Lemma be3_val a b c : 0 <= b < 256 -> 0 <= c < 256 -> be3 a b c = a * 65536 + b * 256 + c.
Proof.
  intros. unfold be3.
  replace (Z.shiftl a 16) with (Z.shiftl (Z.shiftl a 8) 8) by (by rewrite Z.shiftl_shiftl).
  rewrite <- Z.shiftl_lor. rewrite (lor_disjoint _ c 8), (lor_disjoint a b 8) by (simpl; lia). simpl. lia.
Qed.

Lemma be2_bytes v : be2 (b2z (u8 (Z.shiftr v 8))) (b2z (u8 v)) = v mod 2 ^ 16.
Proof.
  rewrite be2_val by apply b2z_range. change (2 ^ 16) with (256 ^ Z.of_nat 2).
  rewrite <- (be_val_be 2 v), be2_u8.
  rewrite !be_val_cons. change (be_val []) with 0. change (len [_]) with 1. change (len []) with 0. lia.
Qed.

Lemma be3_bytes v :
  be3 (b2z (u8 (Z.shiftr v 16))) (b2z (u8 (Z.shiftr v 8))) (b2z (u8 v)) = v mod 2 ^ 24.
Proof.
  rewrite be3_val by apply b2z_range. change (2 ^ 24) with (256 ^ Z.of_nat 3).
  rewrite <- (be_val_be 3 v), be3_u8.
  rewrite !be_val_cons. change (be_val []) with 0. change (len [_]) with 1.
  change (len [_; _]) with 2. change (len []) with 0. lia.
Qed.

(** Reading integers back. *)
Lemma get24_be pre v r i : i = len pre -> get24 (pre ++ be 3 v ++ r) i = Ret (v mod 2 ^ 24).
Proof.
  intros ->. unfold get24. rewrite be3_u8.
  change ([u8 (Z.shiftr v 16); u8 (Z.shiftr v 8); u8 v] ++ r)
    with (u8 (Z.shiftr v 16) :: u8 (Z.shiftr v 8) :: u8 v :: r).
  rewrite get_app by done. cbn [obind].
  rewrite (cons_middle (u8 (Z.shiftr v 16))), app_assoc, get_app by (autorewrite with cb; lia). cbn [obind].
  rewrite (cons_middle (u8 (Z.shiftr v 8))), app_assoc, get_app by (autorewrite with cb; lia).
  cbn [obind]. by rewrite be3_bytes.
Qed.

Lemma get16_be pre v r i : i = len pre -> get16 (pre ++ be 2 v ++ r) i = Ret (v mod 2 ^ 16).
Proof.
  intros ->. unfold get16. rewrite be2_u8.
  change ([u8 (Z.shiftr v 8); u8 v] ++ r) with (u8 (Z.shiftr v 8) :: u8 v :: r).
  rewrite get_app by done. cbn [obind].
  rewrite (cons_middle (u8 (Z.shiftr v 8))), app_assoc, get_app by (autorewrite with cb; lia).
  cbn [obind]. by rewrite be2_bytes.
Qed.

Lemma get24_be0 v r : get24 (be 3 v ++ r) 0 = Ret (v mod 2 ^ 24).
Proof. by apply (get24_be []). Qed.

Lemma get16_be0 v r : get16 (be 2 v ++ r) 0 = Ret (v mod 2 ^ 16).
Proof. by apply (get16_be []). Qed.

(** A long enough string starts with some [n]-byte integer. *)
Lemma split_be n d :
  Z.of_nat n <= len d -> exists v r, d = be n v ++ r /\ 0 <= v < 256 ^ Z.of_nat n.
Proof.
  intros Hd. destruct (rd_uint n d) as [[v r]|] eqn:E.
  - exists v, r. by apply rd_uint_eq in E.
  - unfold rd_uint in E. destruct (Nat.leb_spec n (length d)); [done|]. unfold len in Hd. lia.
Qed.

Lemma split_len (d : bytes) n : 0 <= n <= len d -> exists x r, d = x ++ r /\ len x = n.
Proof.
  intros Hn. exists (take (Z.to_nat n) d), (drop (Z.to_nat n) d).
  by rewrite take_drop, len_take.
Qed.

Lemma get24_ok b i : 0 <= i -> i + 3 <= len b -> exists v, get24 b i = Ret v /\ 0 <= v < 2 ^ 24.
Proof.
  intros Hi Hb. unfold get24.
  destruct (get_ok b i) as (p & -> & ?); [lia|]. cbn [obind].
  destruct (get_ok b (i + 1)) as (q & -> & ?); [lia|]. cbn [obind].
  destruct (get_ok b (i + 2)) as (r & -> & ?); [lia|]. cbn [obind].
  eexists. split; [done|]. rewrite be3_val by lia. lia.
Qed.

Lemma get16_ok b i : 0 <= i -> i + 2 <= len b -> exists v, get16 b i = Ret v /\ 0 <= v < 2 ^ 16.
Proof.
  intros Hi Hb. unfold get16.
  destruct (get_ok b i) as (p & -> & ?); [lia|]. cbn [obind].
  destruct (get_ok b (i + 1)) as (q & -> & ?); [lia|]. cbn [obind].
  eexists. split; [done|]. rewrite be2_val by lia. lia.
Qed.

#[global] Arguments get : simpl never.
#[global] Arguments put : simpl never.
#[global] Arguments make : simpl never.
#[global] Arguments from : simpl never.
#[global] Arguments upto : simpl never.
#[global] Arguments slice : simpl never.
#[global] Arguments copy_at : simpl never.
#[global] Arguments advance : simpl never.
#[global] Arguments get24 : simpl never.
#[global] Arguments get16 : simpl never.
#[global] Arguments be2 : simpl never.
#[global] Arguments be3 : simpl never.

(** Prove [Writes] of a straight-line sequence: one goal per loop or call. *)
Ltac writes :=
  repeat first
    [ apply writes_put | apply writes_copy | apply writes_advance | apply writes_nop
    | apply writes_if
    | eapply writes_seq; [| |] ].

(** ** Filling a zeroed buffer

    The client extensions write themselves into the unused part of a buffered
    writer.  They skip bytes that should be zero and write some length fields
    after the items they count.  [Fills f off d]: on a buffer that has zeros at
    offset [off], the statements [f] leave [d] there. *)
Definition Fills (f : bytes -> outcome bytes) (off : Z) (d : bytes) : Prop :=
  forall pre rest, len pre = off ->
    f (pre ++ replicate (length d) x00 ++ rest) = Ret (pre ++ d ++ rest).

Lemma writes_fills f off d : Writes f off d -> Fills f off d.
Proof.
  intros H pre rest Hp. rewrite H; [|done|].
  - do 3 f_equal. apply drop_app_length'. by rewrite length_replicate.
  - rewrite len_app. pose proof (len_nonneg rest). unfold len in *. rewrite length_replicate. lia.
Qed.

Lemma fills_seq f g off off' d e :
  Fills f off d -> off' = off + len d -> Fills g off' e -> Fills (f ;! g) off (d ++ e).
Proof.
  intros Hf -> Hg pre rest Hp. unfold wseq. rewrite length_app, replicate_add, <- app_assoc, Hf by done.
  cbn [obind]. rewrite app_assoc, Hg by (rewrite len_app; lia). by rewrite <- !app_assoc.
Qed.

(** A field that is written after the items that follow it. *)
Lemma fills_before f g off off' d e :
  Fills f off' e -> off' = off + len d -> Fills g off d -> Fills (f ;! g) off (d ++ e).
Proof.
  intros Hf -> Hg pre rest Hp. unfold wseq. rewrite length_app, replicate_add, <- app_assoc, app_assoc.
  rewrite Hf by (rewrite len_app; unfold len in *; rewrite length_replicate; lia).
  cbn [obind]. rewrite <- app_assoc, Hg by done. by rewrite <- !app_assoc.
Qed.

(** Bytes that are not written stay zero. *)
Lemma fills_skip f off off' k d :
  Fills f off' d -> off' = off + Z.of_nat k -> Fills f off (replicate k x00 ++ d).
Proof.
  intros Hf -> pre rest Hp. rewrite length_app, length_replicate, replicate_add, <- app_assoc, app_assoc.
  rewrite Hf by (rewrite len_app; unfold len in *; rewrite length_replicate; lia). by rewrite <- !app_assoc.
Qed.

Lemma fills_rest f off k d : Fills f off d -> Fills f off (d ++ replicate k x00).
Proof.
  intros Hf pre rest Hp. rewrite length_app, length_replicate, replicate_add, <- !app_assoc.
  by rewrite Hf.
Qed.

Lemma fills_cast f off off' d d' : Fills f off d -> off = off' -> d = d' -> Fills f off' d'.
Proof. by intros ? <- <-. Qed.

Lemma fills_nop off : Fills wnop off [].
Proof. apply writes_fills, writes_nop. Qed.
Lemma fills_put i v : Fills (put i v) i [u8 v].
Proof. apply writes_fills, writes_put. Qed.
Lemma fills_copy i src : Fills (copy_at i src) i src.
Proof. apply writes_fills, writes_copy. Qed.
Lemma fills_advance i : Fills (advance i) i [].
Proof. apply writes_fills, writes_advance. Qed.

(** [b[i] = uint8(v >> 8); b[i+1] = uint8(v)] *)
Definition put16 (i v : Z) : bytes -> outcome bytes := put i (Z.shiftr v 8) ;! put (i + 1) v.

Lemma fills_put16 i v : Fills (put16 i v) i (be 2 v).
Proof.
  rewrite be2_u8. change [u8 (Z.shiftr v 8); u8 v] with ([u8 (Z.shiftr v 8)] ++ [u8 v]).
  eapply fills_seq; [apply fills_put|reflexivity|apply fills_put].
Qed.

(** The same for 32 bits. *)
Definition put32 (i v : Z) : bytes -> outcome bytes :=
  put i (Z.shiftr v 24) ;! put (i + 1) (Z.shiftr v 16) ;! put (i + 2) (Z.shiftr v 8) ;! put (i + 3) v.

Lemma fills_put32 i v : Fills (put32 i v) i (be 4 v).
Proof.
  assert (E : be 4 v = [u8 (Z.shiftr v 24)] ++ [u8 (Z.shiftr v 16)] ++ [u8 (Z.shiftr v 8)] ++ [u8 v])
    by (unfold be; cbn; by rewrite Z.shiftr_0_r).
  rewrite E. eapply fills_seq; [apply fills_put|reflexivity|].
  eapply fills_seq; [apply fills_put|by rewrite <- Z.add_assoc|].
  eapply fills_seq; [apply fills_put|by rewrite <- Z.add_assoc|apply fills_put].
Qed.

(** [for k, v := range l { b[i+2*k] = uint8(v >> 8); b[i+2*k+1] = uint8(v) }] *)
Fixpoint put16s (i : Z) (l : list Z) : bytes -> outcome bytes :=
  match l with
  | [] => wnop
  | v :: l => put16 i v ;! put16s (i + 2) l
  end.

Lemma fills_put16s l : forall i, Fills (put16s i l) i (concat (map (be 2) l)).
Proof.
  induction l as [|v l IH]; intros i; cbn [put16s map concat]; [apply fills_nop|].
  eapply fills_seq; [apply fills_put16| |apply IH]. unfold len. rewrite length_be. lia.
Qed.

(** The statements of a sequence that follow one another in the buffer. *)
Ltac fills :=
  repeat first
    [ apply fills_put16s | apply fills_put16 | apply fills_put | apply fills_copy
    | apply fills_advance | apply fills_nop | eapply fills_seq; [| |] ].
