(* ===== verification/KeySchedule.v ===== *)
(** * Key derivation

    Models internal/tls13 (the TLS 1.3 key schedule), the part of
    key_schedule.go that uses it, internal/tls12 and prf.go (the TLS 1.0 to 1.2
    pseudo-random functions, master secrets, key blocks, Finished hashes and
    exporters).  Hashes, HMAC and HKDF are the standard library's: parameters of
    the model (class [Crypto]) of which only the output lengths are assumed.

    A [hash.Hash] that is only written to and summed is the bytes written so
    far; [hash().Sum(nil)] is [Hash h] of them. *)

From S2P Require Import Prelude Cryptobyte Common Config Buffer Negotiation.

Class Crypto := {
  Hash : hash_function -> bytes -> bytes;
  HMAC : hash_function -> bytes -> bytes -> bytes;
  hkdf_Extract : hash_function -> bytes -> bytes -> bytes;
  hkdf_Expand : hash_function -> bytes -> bytes -> Z -> outcome bytes
}.

(** [hkdf.Expand] fails, and its wrapper panics, above 255 blocks. *)
Class CryptoOk (K : Crypto) : Prop := {
  Hash_len h b : length (Hash h b) = hash_size h;
  HMAC_len h k b : length (HMAC h k b) = hash_size h;
  Extract_len h s k : length (hkdf_Extract h s k) = hash_size h;
  Expand_len h k info n : 0 <= n <= 255 * Z.of_nat (hash_size h) ->
    exists x, hkdf_Expand h k info n = Ret x /\ len x = n
}.

(** The bytes of a label. *)
Definition label (s : string) : bytes := String.list_byte_of_string s.

(** ** internal/tls13 *)

Module tls13.
Section Ops.
Context `{K : Crypto}.

(** The argument that [ExpandLabel] builds for HKDF-Expand. *)
Definition hkdfLabel (lbl context : bytes) (length : Z) : bytes :=
  be 2 (length mod 2 ^ 16) ++ [u8 (len (label "tls13 ") + len lbl)] ++ label "tls13 " ++ lbl ++
  [u8 (len context)] ++ context.

Definition ExpandLabel (hash : hash_function) (secret lbl context : bytes) (length : Z) : outcome bytes :=
  if (255 <? len (label "tls13 ") + len lbl) || (255 <? len context) then Panic
  else hkdf_Expand hash secret (hkdfLabel lbl context length) length.

(** A nil secret stands for zeros. *)
Definition extract (hash : hash_function) (newSecret : option bytes) (currentSecret : bytes) : bytes :=
  hkdf_Extract hash (match newSecret with Some s => s | None => replicate (hash_size hash) x00 end) currentSecret.

(** A nil transcript is an empty one. *)
Definition deriveSecret (hash : hash_function) (secret lbl : bytes) (transcript : option bytes) : outcome bytes :=
  ExpandLabel hash secret lbl (Hash hash (default [] transcript)) (Z.of_nat (hash_size hash)).

Definition resumptionBinderLabel : bytes := label "res binder".
Definition clientEarlyTrafficLabel : bytes := label "c e traffic".
Definition clientHandshakeTrafficLabel : bytes := label "c hs traffic".
Definition serverHandshakeTrafficLabel : bytes := label "s hs traffic".
Definition clientApplicationTrafficLabel : bytes := label "c ap traffic".
Definition serverApplicationTrafficLabel : bytes := label "s ap traffic".
Definition earlyExporterLabel : bytes := label "e exp master".
Definition exporterLabel : bytes := label "exp master".
Definition resumptionLabel : bytes := label "res master".

(** [EarlySecret], [HandshakeSecret], [MasterSecret] and [ExporterMasterSecret]
    have the same two fields. *)
Record EarlySecret := MkEarly { early : bytes; early_hash : hash_function }.
Record HandshakeSecret := MkHandshake { handshake : bytes; handshake_hash : hash_function }.
Record MasterSecret := MkMaster { master : bytes; master_hash : hash_function }.
Record ExporterMasterSecret := MkExporter { exporter : bytes; exporter_hash : hash_function }.

Definition NewEarlySecret (hash : hash_function) (psk : option bytes) : EarlySecret :=
  MkEarly (extract hash psk []) hash.
Definition NewEarlySecretFromSecret (hash : hash_function) (secret : bytes) : EarlySecret := MkEarly secret hash.
Definition NewMasterSecretFromSecret (hash : hash_function) (secret : bytes) : MasterSecret := MkMaster secret hash.

Definition ResumptionBinderKey (s : EarlySecret) : outcome bytes :=
  deriveSecret s.(early_hash) s.(early) resumptionBinderLabel None.
Definition ClientEarlyTrafficSecret (s : EarlySecret) (transcript : bytes) : outcome bytes :=
  deriveSecret s.(early_hash) s.(early) clientEarlyTrafficLabel (Some transcript).

Definition EarlySecret_HandshakeSecret (s : EarlySecret) (sharedSecret : bytes) : outcome HandshakeSecret :=
  run derived := deriveSecret s.(early_hash) s.(early) (label "derived") None in
  Ret (MkHandshake (extract s.(early_hash) (Some sharedSecret) derived) s.(early_hash)).

Definition ClientHandshakeTrafficSecret (s : HandshakeSecret) (transcript : bytes) : outcome bytes :=
  deriveSecret s.(handshake_hash) s.(handshake) clientHandshakeTrafficLabel (Some transcript).
Definition ServerHandshakeTrafficSecret (s : HandshakeSecret) (transcript : bytes) : outcome bytes :=
  deriveSecret s.(handshake_hash) s.(handshake) serverHandshakeTrafficLabel (Some transcript).

Definition HandshakeSecret_MasterSecret (s : HandshakeSecret) : outcome MasterSecret :=
  run derived := deriveSecret s.(handshake_hash) s.(handshake) (label "derived") None in
  Ret (MkMaster (extract s.(handshake_hash) None derived) s.(handshake_hash)).

Definition ClientApplicationTrafficSecret (s : MasterSecret) (transcript : bytes) : outcome bytes :=
  deriveSecret s.(master_hash) s.(master) clientApplicationTrafficLabel (Some transcript).
Definition ServerApplicationTrafficSecret (s : MasterSecret) (transcript : bytes) : outcome bytes :=
  deriveSecret s.(master_hash) s.(master) serverApplicationTrafficLabel (Some transcript).
Definition ResumptionMasterSecret (s : MasterSecret) (transcript : bytes) : outcome bytes :=
  deriveSecret s.(master_hash) s.(master) resumptionLabel (Some transcript).

Definition MasterSecret_ExporterMasterSecret (s : MasterSecret) (transcript : bytes) : outcome ExporterMasterSecret :=
  run secret := deriveSecret s.(master_hash) s.(master) exporterLabel (Some transcript) in
  Ret (MkExporter secret s.(master_hash)).
Definition EarlyExporterMasterSecret (s : EarlySecret) (transcript : bytes) : outcome ExporterMasterSecret :=
  run secret := deriveSecret s.(early_hash) s.(early) earlyExporterLabel (Some transcript) in
  Ret (MkExporter secret s.(early_hash)).

Definition Exporter (s : ExporterMasterSecret) (lbl context : bytes) (length : Z) : outcome bytes :=
  run secret := deriveSecret s.(exporter_hash) s.(exporter) lbl None in
  ExpandLabel s.(exporter_hash) secret (label "exporter") (Hash s.(exporter_hash) context) length.
End Ops.
End tls13.

(** ** key_schedule.go *)

Definition aeadNonceLength : Z := 12.

Section Suite13.
Context `{K : Crypto}.

Definition nextTrafficSecret (c : cipherSuiteTLS13.t) (trafficSecret : bytes) : outcome bytes :=
  tls13.ExpandLabel c.(cipherSuiteTLS13.hash) trafficSecret (label "traffic upd") []
    (Z.of_nat (hash_size c.(cipherSuiteTLS13.hash))).

Definition trafficKey (c : cipherSuiteTLS13.t) (trafficSecret : bytes) : outcome (bytes * bytes) :=
  run key := tls13.ExpandLabel c.(cipherSuiteTLS13.hash) trafficSecret (label "key") [] c.(cipherSuiteTLS13.keyLen) in
  run iv := tls13.ExpandLabel c.(cipherSuiteTLS13.hash) trafficSecret (label "iv") [] aeadNonceLength in
  Ret (key, iv).

Definition finishedHash (c : cipherSuiteTLS13.t) (baseKey transcript : bytes) : outcome bytes :=
  let h := c.(cipherSuiteTLS13.hash) in
  run finishedKey := tls13.ExpandLabel h baseKey (label "finished") [] (Z.of_nat (hash_size h)) in
  Ret (HMAC h finishedKey (Hash h transcript)).

Definition exportKeyingMaterial (s : tls13.MasterSecret) (transcript lbl context : bytes) (length : Z)
    : outcome bytes :=
  run expMasterSecret := tls13.MasterSecret_ExporterMasterSecret s transcript in
  tls13.Exporter expMasterSecret lbl context length.
End Suite13.

(** ** prf.go and internal/tls12 *)

(** The six slices of the key material. *)
Module keys.
Record t := Mk {
  clientMAC : bytes; serverMAC : bytes; clientKey : bytes; serverKey : bytes; clientIV : bytes; serverIV : bytes
}.
End keys.

Section PRF.
Context `{K : Crypto}.

(** The loop of [pHash] in prf.go; [Ret None] when the fuel runs out. *)
Fixpoint pHash_loop (fuel : nat) (h : hash_function) (secret seed a : bytes) (j : Z) (result : bytes)
    : outcome (option bytes) :=
  if negb (j <? len result) then Ret (Some result) else
  match fuel with
  | O => Ret None
  | S fuel =>
      let b := HMAC h secret (a ++ seed) in
      run result := copy_at j b result in
      pHash_loop fuel h secret seed (HMAC h secret a) (j + len b) result
  end.

Definition pHash (result secret seed : bytes) (h : hash_function) : outcome (option bytes) :=
  pHash_loop (length result) h secret seed (HMAC h secret seed) 0 result.

(** The loop of [pHash] in tls12.go: [result] is the slice that starts at [off]. *)
Fixpoint tls12_loop (fuel : nat) (h : hash_function) (secret seed a : bytes) (off : Z) (result : bytes)
    : outcome (option bytes) :=
  if negb (0 <? len result - off) then Ret (Some result) else
  match fuel with
  | O => Ret None
  | S fuel =>
      let b := HMAC h secret (a ++ seed) in
      let n := Z.min (len result - off) (len b) in
      run result := copy_at off b result in
      run result := advance (off + n) result in
      tls12_loop fuel h secret seed (HMAC h secret a) (off + n) result
  end.

Definition tls12_pHash (h : hash_function) (result secret seed : bytes) : outcome (option bytes) :=
  tls12_loop (length result) h secret seed (HMAC h secret seed) 0 result.

Definition tls12_PRF (h : hash_function) (secret lbl seed : bytes) (keyLen : Z) : outcome (option bytes) :=
  run result := make keyLen in tls12_pHash h result secret (lbl ++ seed).

Definition masterSecretLength : Z := 48.
Definition finishedVerifyLength : Z := 12.
Definition masterSecretLabel : bytes := label "master secret".
Definition extendedMasterSecretLabel : bytes := label "extended master secret".
Definition keyExpansionLabel : bytes := label "key expansion".
Definition clientFinishedLabel : bytes := label "client finished".
Definition serverFinishedLabel : bytes := label "server finished".

Definition tls12_MasterSecret (h : hash_function) (preMasterSecret transcript : bytes) : outcome (option bytes) :=
  tls12_PRF h preMasterSecret extendedMasterSecretLabel transcript masterSecretLength.

Definition splitPreMasterSecret (secret : bytes) : outcome (bytes * bytes) :=
  run s1 := slice secret 0 ((len secret + 1) / 2) in
  run s2 := from secret (len secret / 2) in
  Ret (s1, s2).

(** [for i, b := range result2 { result[i] ^= b }] *)
Definition xor_bytes (result result2 : bytes) : bytes :=
  zip_with (fun x y => u8 (Z.lxor (b2z x) (b2z y))) result result2.

Definition prf10 (secret lbl seed : bytes) (keyLen : Z) : outcome (option bytes) :=
  run result := make keyLen in
  let labelAndSeed := lbl ++ seed in
  run (s1, s2) := splitPreMasterSecret secret in
  run r := pHash result s1 labelAndSeed MD5 in
  match r with
  | None => Ret None
  | Some result =>
      run result2 := make (len result) in
      run r := pHash result2 s2 labelAndSeed SHA1 in
      match r with None => Ret None | Some result2 => Ret (Some (xor_bytes result result2)) end
  end.

(** The values of type [prfFunc]. *)
Inductive prfFunc := PRF10 | PRF12 (hashFunc : hash_function).
Definition prf (f : prfFunc) : bytes -> bytes -> bytes -> Z -> outcome (option bytes) :=
  match f with PRF10 => prf10 | PRF12 hashFunc => tls12_PRF hashFunc end.

(** [crypto.Hash(0)] is [None]. *)
Definition prfAndHashForVersion (version : Z) (suite : cipherSuite.t) : outcome (prfFunc * option hash_function) :=
  if (version =? VersionTLS10) || (version =? VersionTLS11) then Ret (PRF10, None)
  else if version =? VersionTLS12 then
    if cipherSuite.has suiteSHA384 suite then Ret (PRF12 SHA384, Some SHA384) else Ret (PRF12 SHA256, Some SHA256)
  else Panic.

Definition prfForVersion (version : Z) (suite : cipherSuite.t) : outcome prfFunc :=
  run (f, _) := prfAndHashForVersion version suite in Ret f.

Definition masterFromPreMasterSecret (version : Z) (suite : cipherSuite.t)
    (preMasterSecret clientRandom serverRandom : bytes) : outcome (option bytes) :=
  run f := prfForVersion version suite in
  prf f preMasterSecret masterSecretLabel (clientRandom ++ serverRandom) masterSecretLength.

Definition extMasterFromPreMasterSecret (version : Z) (suite : cipherSuite.t)
    (preMasterSecret transcript : bytes) : outcome (option bytes) :=
  run (f, hash) := prfAndHashForVersion version suite in
  if version =? VersionTLS12 then
    match hash with
    | Some hash => tls12_MasterSecret hash preMasterSecret transcript
    | None => Panic
    end
  else prf f preMasterSecret extendedMasterSecretLabel transcript masterSecretLength.

Definition cut_keys (keyMaterial : bytes) (macLen keyLen ivLen : Z) : outcome keys.t :=
  run clientMAC := upto keyMaterial macLen in
  run keyMaterial := from keyMaterial macLen in
  run serverMAC := upto keyMaterial macLen in
  run keyMaterial := from keyMaterial macLen in
  run clientKey := upto keyMaterial keyLen in
  run keyMaterial := from keyMaterial keyLen in
  run serverKey := upto keyMaterial keyLen in
  run keyMaterial := from keyMaterial keyLen in
  run clientIV := upto keyMaterial ivLen in
  run keyMaterial := from keyMaterial ivLen in
  run serverIV := upto keyMaterial ivLen in
  Ret (keys.Mk clientMAC serverMAC clientKey serverKey clientIV serverIV).

Definition keysFromMasterSecret (version : Z) (suite : cipherSuite.t)
    (masterSecret clientRandom serverRandom : bytes) (macLen keyLen ivLen : Z) : outcome (option keys.t) :=
  let n := 2 * macLen + 2 * keyLen + 2 * ivLen in
  run f := prfForVersion version suite in
  run r := prf f masterSecret keyExpansionLabel (serverRandom ++ clientRandom) n in
  match r with
  | None => Ret None
  | Some keyMaterial => run k := cut_keys keyMaterial macLen keyLen ivLen in Ret (Some k)
  end.

(** Exporters: the error of a refused call, or the bytes. *)
Definition reservedLabels : list bytes :=
  [clientFinishedLabel; serverFinishedLabel; masterSecretLabel; keyExpansionLabel].

Definition ekmFromMasterSecret (version : Z) (suite : cipherSuite.t) (masterSecret clientRandom serverRandom : bytes)
    (lbl : bytes) (context : option bytes) (length : Z) : outcome (option (res bytes)) :=
  if bool_decide (lbl ∈ reservedLabels) then
    Ret (Some (inl (ErrorNew "crypto/tls: reserved ExportKeyingMaterial label")))
  else
  let seed := clientRandom ++ serverRandom in
  let derive seed :=
    run f := prfForVersion version suite in
    run r := prf f masterSecret lbl seed length in
    Ret (match r with Some x => Some (inr x) | None => None end) in
  match context with
  | None => derive seed
  | Some context =>
      if 2 ^ 16 <=? len context then Ret (Some (inl (ErrorNew "crypto/tls: ExportKeyingMaterial context too long")))
      else derive (seed ++ [u8 (Z.shiftr (len context) 8); u8 (len context)] ++ context)
  end.
End PRF.

(** ** The Finished hash *)

Definition signatureEd25519 : Z := 228.
Definition signatureECDSA : Z := 227.

(** The four running hashes are the bytes written to them; [None] is a nil hash. *)
Module finishedHash12.
Record t := Mk {
  client : bytes;
  server : bytes;
  clientMD5 : option bytes;
  serverMD5 : option bytes;
  buffer : option bytes;
  version : Z;
  prfFn : prfFunc;
  hashAlg : hash_function
}.
Section Ops.
Context `{K : Crypto}.

Definition newFinishedHash (version : Z) (suite : cipherSuite.t) : outcome t :=
  let buffer := if VersionTLS12 <=? version then Some [] else None in
  run (f, hash) := prfAndHashForVersion version suite in
  match hash with
  | Some hash => Ret (Mk [] [] None None buffer version f hash)
  | None => Ret (Mk [] [] (Some []) (Some []) buffer version f SHA1)
  end.

(** Writing to a nil hash panics. *)
Definition write_nil (o : option bytes) (msg : bytes) : outcome (option bytes) :=
  match o with Some b => Ret (Some (b ++ msg)) | None => Panic end.

Definition Write (h : t) (msg : bytes) : outcome t :=
  let client := h.(client) ++ msg in
  let server := h.(server) ++ msg in
  let buffer := match h.(buffer) with Some b => Some (b ++ msg) | None => None end in
  if h.(version) <? VersionTLS12 then
    run c5 := write_nil h.(clientMD5) msg in
    run s5 := write_nil h.(serverMD5) msg in
    Ret (Mk client server c5 s5 buffer h.(version) h.(prfFn) h.(hashAlg))
  else Ret (Mk client server h.(clientMD5) h.(serverMD5) buffer h.(version) h.(prfFn) h.(hashAlg)).

Definition Sum (h : t) : outcome bytes :=
  if VersionTLS12 <=? h.(version) then Ret (Hash h.(hashAlg) h.(client)) else
  match h.(clientMD5) with
  | Some c5 => Ret (Hash MD5 c5 ++ Hash h.(hashAlg) h.(client))
  | None => Panic
  end.

Definition clientSum (h : t) (masterSecret : bytes) : outcome (option bytes) :=
  run s := Sum h in prf h.(prfFn) masterSecret clientFinishedLabel s finishedVerifyLength.
Definition serverSum (h : t) (masterSecret : bytes) : outcome (option bytes) :=
  run s := Sum h in prf h.(prfFn) masterSecret serverFinishedLabel s finishedVerifyLength.

Definition hashForClientCertificate (h : t) (sigType : Z) (alg : hash_function) : outcome bytes :=
  if ((VersionTLS12 <=? h.(version)) || (sigType =? signatureEd25519)) && negb (non_nil h.(buffer)) then Panic
  else if sigType =? signatureEd25519 then Ret (default [] h.(buffer))
  else if VersionTLS12 <=? h.(version) then Ret (Hash alg (default [] h.(buffer)))
  else if sigType =? signatureECDSA then Ret (Hash h.(hashAlg) h.(server))
  else Sum h.

Definition discardHandshakeBuffer (h : t) : t :=
  Mk h.(client) h.(server) h.(clientMD5) h.(serverMD5) None h.(version) h.(prfFn) h.(hashAlg).
End Ops.
End finishedHash12.

(** * Theorems *)

(** ** P_hash *)

Section PHash.
Context `{K : Crypto} {Kok : CryptoOk K}.
Variables (h : hash_function) (secret seed : bytes).

(** RFC 5246, Section 5: A(0) = seed, A(i) = HMAC(secret, A(i-1)), and P_hash is
    the concatenation of HMAC(secret, A(i) + seed) for i = 1, 2, ... *)
Definition A (i : nat) : bytes := Nat.iter i (HMAC h secret) seed.
Definition P_block (i : nat) : bytes := HMAC h secret (A (S i) ++ seed).
Definition P_stream (k : nat) : bytes := concat (map P_block (seq 0 k)).
(** As many blocks as bytes are always enough. *)
Definition P_hash (n : nat) : bytes := take n (P_stream n).

Lemma hash_size_pos : (0 < hash_size h)%nat.
Proof. destruct h; cbn; lia. Qed.

Lemma P_stream_S k : P_stream (S k) = P_stream k ++ P_block k.
Proof. unfold P_stream. rewrite seq_S, map_app, concat_app. cbn. by rewrite app_nil_r. Qed.

Lemma P_stream_len k : length (P_stream k) = (k * hash_size h)%nat.
Proof.
  induction k as [|k IH]; [done|]. rewrite P_stream_S, length_app, IH. unfold P_block. rewrite HMAC_len. lia.
Qed.

Lemma P_hash_enough n k : (n <= k * hash_size h)%nat -> take n (P_stream k) = P_hash n.
Proof.
  pose proof hash_size_pos as Hp. unfold P_hash.
  assert (Hpre : forall d k, (n <= k * hash_size h)%nat -> take n (P_stream (k + d)) = take n (P_stream k)).
  { induction d as [|d IH]; intros i Hi; [by rewrite Nat.add_0_r|].
    rewrite Nat.add_succ_r, P_stream_S, take_app_le; [by apply IH|]. rewrite P_stream_len. nia. }
  intros Hk. destruct (Nat.le_ge_cases k n) as [Hn|Hn].
  - rewrite <- (Hpre (n - k)%nat k Hk). do 2 f_equal. lia.
  - rewrite <- (Hpre (k - n)%nat n) by nia. do 2 f_equal. lia.
Qed.

(** One round: the bytes written so far grow by one block. *)
Lemma P_copy i result j : (j < length result)%nat -> j = (i * hash_size h)%nat ->
  take j result = P_stream i ->
  exists r, copy_at (Z.of_nat j) (P_block i) result = Ret r /\ length r = length result /\
    take (Nat.min (j + hash_size h) (length result)) r = take (length result) (P_stream (S i)).
Proof.
  intros Hj Ej Ht. unfold copy_at. rewrite Nat2Z.id.
  replace ((0 <=? Z.of_nat j) && _) with true by (symmetry; rewrite andb_true_iff; unfold len; split; lia).
  pose proof (HMAC_len h secret (A (S i) ++ seed)) as Hb. fold (P_block i) in Hb.
  eexists. split; [reflexivity|]. rewrite Hb. set (m := Nat.min (hash_size h) (length result - j)).
  assert (Hm : length (take m (P_block i)) = m) by (rewrite length_take; lia).
  split.
  - rewrite !length_app, Hm, length_take, length_drop. lia.
  - rewrite Ht, app_assoc. replace (Nat.min (j + hash_size h) (length result))
      with (length (P_stream i ++ take m (P_block i))) by (rewrite length_app, P_stream_len, Hm; lia).
    rewrite take_app_length, P_stream_S, take_app, (take_ge (P_stream i)) by (rewrite P_stream_len; lia).
    f_equal. rewrite P_stream_len. destruct (Nat.le_ge_cases (hash_size h) (length result - j)).
    + rewrite !take_ge by lia. done.
    + f_equal. lia.
Qed.

Lemma pHash_loop_spec fuel i result j :
  (length result - j <= fuel)%nat -> j = (i * hash_size h)%nat ->
  take (Nat.min j (length result)) result = take (length result) (P_stream i) ->
  pHash_loop fuel h secret seed (A (S i)) (Z.of_nat j) result = Ret (Some (P_hash (length result))).
Proof.
  pose proof hash_size_pos as Hp.
  revert i result j. induction fuel as [|fuel IH]; intros i result j Hf Ej Ht; cbn [pHash_loop].
  all: destruct (Z.ltb_spec (Z.of_nat j) (len result)) as [Hj|Hj]; unfold len in Hj; cbn [negb].
  all: try (rewrite Nat.min_r, (take_ge result), P_hash_enough in Ht by lia; by rewrite <- Ht).
  - lia.
  - rewrite Nat.min_l in Ht by lia. rewrite (take_ge (P_stream i)) in Ht by (rewrite P_stream_len; lia).
    destruct (P_copy i result j) as (r & Hr & Hl & Htr); [lia|done|done|].
    unfold P_block in Hr. rewrite Hr. cbn [obind]. unfold len. rewrite HMAC_len, <- Nat2Z.inj_add.
    change (HMAC h secret (A (S i))) with (A (S (S i))). rewrite <- Hl. apply IH; rewrite ?Hl; [lia|lia|done].
Qed.

Lemma tls12_loop_spec fuel i result j :
  (length result - j <= fuel)%nat -> j = Nat.min (i * hash_size h) (length result) ->
  take j result = take (length result) (P_stream i) ->
  tls12_loop fuel h secret seed (A (S i)) (Z.of_nat j) result = Ret (Some (P_hash (length result))).
Proof.
  pose proof hash_size_pos as Hp.
  revert i result j. induction fuel as [|fuel IH]; intros i result j Hf Ej Ht; cbn [tls12_loop].
  all: destruct (Z.ltb_spec 0 (len result - Z.of_nat j)) as [Hj|Hj]; unfold len in Hj; cbn [negb].
  all: try (rewrite (take_ge result), P_hash_enough in Ht by lia; by rewrite <- Ht).
  - lia.
  - rewrite (take_ge (P_stream i)) in Ht by (rewrite P_stream_len; lia).
    destruct (P_copy i result j) as (r & Hr & Hl & Htr); [lia|lia|done|].
    unfold P_block in Hr. rewrite Hr. cbn [obind]. unfold len. rewrite HMAC_len.
    replace (Z.of_nat j + Z.min _ _) with (Z.of_nat (Nat.min (j + hash_size h) (length result))) by lia.
    unfold advance. rewrite (proj2 (Z.leb_le 0 _)), (proj2 (Z.leb_le _ (len r))) by (unfold len; lia).
    cbn [obind andb]. change (HMAC h secret (A (S i))) with (A (S (S i))). rewrite <- Hl. apply IH; rewrite ?Hl; [lia|lia|done].
Qed.

Lemma pHash_spec result :
  pHash result secret seed h = Ret (Some (P_hash (length result))) /\
  tls12_pHash h result secret seed = Ret (Some (P_hash (length result))).
Proof.
  split.
  - apply (pHash_loop_spec (length result) 0 result 0); [lia|done|].
    change (P_stream 0) with (@nil byte). by rewrite take_nil, Nat.min_0_l.
  - apply (tls12_loop_spec (length result) 0 result 0); [lia|done|].
    change (P_stream 0) with (@nil byte). by rewrite take_nil.
Qed.
(** C34: the two implementations of P_hash, the one of prf.go that counts the
    bytes written and the one of internal/tls12 that shrinks the result slice,
    both terminate without a panic and compute the P_hash of RFC 5246, whatever
    the length asked for; the fuel of the loops never runs out. *)
Theorem p_hash_rfc result :
  pHash result secret seed h = Ret (Some (P_hash (length result))) /\
  tls12_pHash h result secret seed = Ret (Some (P_hash (length result))).
Proof. apply pHash_spec. Qed.
End PHash.

(** ** TLS 1.3 *)

Section Schedule.
Context `{K : Crypto} {Kok : CryptoOk K}.

Lemma tls13_label_len (lbl : bytes) : len (label "tls13 ") + len lbl = 6 + len lbl.
Proof. reflexivity. Qed.

Lemma u8_inj_small x y : 0 <= x < 256 -> 0 <= y < 256 -> u8 x = u8 y -> x = y.
Proof. intros Hx Hy H. by rewrite <- (b2z_u8_small x), <- (b2z_u8_small y), H. Qed.

Lemma be_inj_small n x y : 0 <= x < 256 ^ Z.of_nat n -> 0 <= y < 256 ^ Z.of_nat n -> be n x = be n y -> x = y.
Proof. intros Hx Hy H. by rewrite <- (be_val_be_small n x), <- (be_val_be_small n y), H. Qed.

(** The argument that [ExpandLabel] hands to HKDF determines the label, the
    context and the length asked for: secrets derived under different labels,
    over different transcripts or for different lengths never share an HKDF
    input. *)
Theorem hkdfLabel_injective (l c : bytes) n l' c' n' :
  len l <= 249 -> len l' <= 249 -> len c <= 255 -> len c' <= 255 -> is_u16 n -> is_u16 n' ->
  tls13.hkdfLabel l c n = tls13.hkdfLabel l' c' n' -> l = l' /\ c = c' /\ n = n'.
Proof.
  intros Hl Hl' Hc Hc' Hn Hn'. unfold tls13.hkdfLabel, is_u16 in *. rewrite !Z.mod_small by lia.
  pose proof (len_nonneg l). pose proof (len_nonneg l'). pose proof (len_nonneg c). pose proof (len_nonneg c').
  intros [En E1]%app_inj_1; [|by rewrite !length_be].
  apply (be_inj_small 2) in En; [|done|done]. cbn [app] in E1. injection E1 as El E1.
  rewrite (tls13_label_len l), (tls13_label_len l') in El. apply u8_inj_small in El; [|lia|lia].
  assert (Hll : length l = length l') by (unfold len in *; lia).
  apply app_inj_1 in E1 as [-> E1]; [|done]. injection E1 as Ec Hcc. done.
Qed.

(** [ExpandLabel] with the labels and contexts of the schedule. *)
Lemma ExpandLabel_ok h s lbl c n : len lbl <= 249 -> len c <= 255 -> 0 <= n <= 255 * Z.of_nat (hash_size h) ->
  exists x, tls13.ExpandLabel h s lbl c n = Ret x /\ len x = n.
Proof.
  intros Hl Hc Hn. unfold tls13.ExpandLabel. rewrite tls13_label_len.
  rewrite (proj2 (Z.ltb_ge 255 (6 + len lbl))), (proj2 (Z.ltb_ge 255 (len c))) by lia. cbn [orb].
  by apply Expand_len.
Qed.

Lemma hash_size_bound h : (hash_size h <= 64)%nat.
Proof. destruct h; cbn; lia. Qed.

Lemma deriveSecret_ok h s lbl t : len lbl <= 249 ->
  exists x, tls13.deriveSecret h s lbl t = Ret x /\ length x = hash_size h.
Proof.
  intros Hl. unfold tls13.deriveSecret. pose proof (hash_size_bound h).
  destruct (ExpandLabel_ok h s lbl (Hash h (default [] t)) (Z.of_nat (hash_size h))) as (x & Hx & Ex); [done| |lia|].
  - unfold len. rewrite Hash_len. lia.
  - exists x. split; [done|]. unfold len in Ex. lia.
Qed.

(** A step of the schedule: the secret exists and has the length of the hash. *)
Ltac derive x h s l t := let Hx := fresh "H" x in
  destruct (deriveSecret_ok h s l t) as (x & Hx & ?); [vm_compute; discriminate|].
Ltac expand x h s l n := let Hx := fresh "H" x in
  destruct (ExpandLabel_ok h s l [] n) as (x & Hx & ?);
  [vm_compute; discriminate|done|unfold aeadNonceLength; pose proof (hash_size_pos h); lia|].

(** The whole TLS 1.3 key schedule is total and well-typed: from any
    pre-shared key (or none), any shared secret and any transcripts every
    secret is derived without a panic and has the length of the suite's hash,
    and the record keys of each of the three suites have the lengths their AEAD
    constructors require. *)
Theorem key_schedule_types c psk shared t1 t2 t3 t4 : c ∈ cipherSuitesTLS13 ->
  let h := c.(cipherSuiteTLS13.hash) in
  let secret s := length s = hash_size h in
  let e := tls13.NewEarlySecret h psk in
  exists hs ms chs shs cap sap res key iv fin,
    tls13.EarlySecret_HandshakeSecret e shared = Ret hs /\ tls13.HandshakeSecret_MasterSecret hs = Ret ms /\
    tls13.ClientHandshakeTrafficSecret hs t1 = Ret chs /\ tls13.ServerHandshakeTrafficSecret hs t1 = Ret shs /\
    tls13.ClientApplicationTrafficSecret ms t2 = Ret cap /\ tls13.ServerApplicationTrafficSecret ms t2 = Ret sap /\
    tls13.ResumptionMasterSecret ms t3 = Ret res /\ trafficKey c cap = Ret (key, iv) /\ finishedHash c chs t4 = Ret fin /\
    Forall secret [tls13.early e; tls13.handshake hs; tls13.master ms; chs; shs; cap; sap; res; fin] /\
    len key = c.(cipherSuiteTLS13.keyLen) /\ len iv = aeadNonceLength.
Proof.
  intros Hc h secret e.
  assert (Hk : 0 <= c.(cipherSuiteTLS13.keyLen) <= 255 * Z.of_nat (hash_size h)).
  { subst h. unfold cipherSuitesTLS13 in Hc. repeat (apply elem_of_cons in Hc as [->|Hc]; [cbn; lia|]).
    by apply elem_of_nil in Hc. }
  pose proof (hash_size_bound h).
  derive d1 h (tls13.early e) (label "derived") (@None bytes).
  set (hs := tls13.MkHandshake (tls13.extract h (Some shared) d1) h).
  derive d2 h (tls13.handshake hs) (label "derived") (@None bytes).
  set (ms := tls13.MkMaster (tls13.extract h None d2) h).
  derive chs h (tls13.handshake hs) tls13.clientHandshakeTrafficLabel (Some t1).
  derive shs h (tls13.handshake hs) tls13.serverHandshakeTrafficLabel (Some t1).
  derive cap h (tls13.master ms) tls13.clientApplicationTrafficLabel (Some t2).
  derive sap h (tls13.master ms) tls13.serverApplicationTrafficLabel (Some t2).
  derive rs h (tls13.master ms) tls13.resumptionLabel (Some t3).
  expand key h cap (label "key") c.(cipherSuiteTLS13.keyLen). expand iv h cap (label "iv") aeadNonceLength.
  expand fk h chs (label "finished") (Z.of_nat (hash_size h)).
  exists hs, ms, chs, shs, cap, sap, rs, key, iv, (HMAC h fk (Hash h t4)).
  unfold tls13.EarlySecret_HandshakeSecret, tls13.HandshakeSecret_MasterSecret, trafficKey, finishedHash.
  cbn [e tls13.NewEarlySecret tls13.early tls13.early_hash] in *. fold h.
  change (tls13.handshake_hash hs) with h. rewrite Hd1, Hd2, Hkey. cbn [obind]. rewrite Hiv, Hfk. cbn [obind].
  split_and!; try done. repeat constructor; unfold secret; cbn; try done; try apply Extract_len; apply HMAC_len.
Qed.
End Schedule.

(** ** TLS 1.0 to 1.2 *)

Section TLS12.
Context `{K : Crypto} {Kok : CryptoOk K}.

Definition known_version (v : Z) : Prop := v = VersionTLS10 \/ v = VersionTLS11 \/ v = VersionTLS12.

Lemma make_nonneg n : 0 <= n -> make n = Ret (replicate (Z.to_nat n) x00).
Proof. intros Hn. unfold make. by rewrite (proj2 (Z.leb_le 0 n)). Qed.

Lemma P_hash_len h s z n : length (P_hash h s z n) = n.
Proof. unfold P_hash. rewrite length_take, P_stream_len. pose proof (hash_size_pos h). nia. Qed.

Lemma split_ok s : exists a b, splitPreMasterSecret s = Ret (a, b).
Proof.
  unfold splitPreMasterSecret, slice, upto, from. pose proof (len_nonneg s).
  assert (0 <= (len s + 1) / 2 <= len s) as [? ?].
  { split; [apply Z.div_pos; lia|]. destruct (Z.eq_dec (len s) 0) as [->|]; [done|].
    apply Z.div_le_upper_bound; lia. }
  assert (0 <= len s / 2 <= len s) by (split; [apply Z.div_pos; lia|apply Z.div_le_upper_bound; lia]).
  rewrite !(proj2 (Z.leb_le _ _)) by lia. cbn [andb obind].
  rewrite (proj2 (Z.leb_le 0 (len _))) by apply len_nonneg. cbn. eauto.
Qed.

(** Every pseudo-random function returns as many bytes as it is asked for. *)
Lemma prf_total f s lbl seed n : 0 <= n -> exists x, prf f s lbl seed n = Ret (Some x) /\ len x = n.
Proof.
  intros Hn. destruct f as [|h]; cbn [prf].
  - unfold prf10. rewrite make_nonneg by done. cbn [obind]. destruct (split_ok s) as (a & b & ->). cbn [obind].
    rewrite (proj1 (pHash_spec MD5 a (lbl ++ seed) _)). cbn [obind].
    rewrite make_nonneg by apply len_nonneg. cbn [obind]. rewrite (proj1 (pHash_spec SHA1 b (lbl ++ seed) _)).
    cbn [obind]. eexists. split; [reflexivity|]. unfold xor_bytes, len.
    rewrite length_zip_with, !P_hash_len, !length_replicate. lia.
  - unfold tls12_PRF. rewrite make_nonneg by done. cbn [obind]. rewrite (proj2 (pHash_spec h s (lbl ++ seed) _)).
    eexists. split; [reflexivity|]. unfold len. rewrite P_hash_len, length_replicate. lia.
Qed.

Lemma prfForVersion_ok v suite : known_version v -> exists f, prfForVersion v suite = Ret f.
Proof.
  intros [->|[->| ->]]; unfold prfForVersion, prfAndHashForVersion; cbn; eauto.
  destruct (cipherSuite.has suiteSHA384 suite); cbn; eauto.
Qed.

Lemma upto_from b n : 0 <= n <= len b -> upto b n = Ret (take (Z.to_nat n) b) /\ from b n = Ret (drop (Z.to_nat n) b).
Proof. intros Hn. unfold upto, from. rewrite !(proj2 (Z.leb_le _ _)) by lia. done. Qed.

(** For every TLS 1.0 to 1.2 version and any lengths, the connection keys
    are derived without a panic, have the lengths asked for, and are the
    consecutive parts, in the order of RFC 2246, of a key block computed from
    the master secret and the randoms; client and server, which both call this
    function, therefore hold the same six keys. *)
Theorem connection_keys v suite ms cr sr macLen keyLen ivLen :
  known_version v -> 0 <= macLen -> 0 <= keyLen -> 0 <= ivLen ->
  exists f block k,
    prfForVersion v suite = Ret f /\
    prf f ms keyExpansionLabel (sr ++ cr) (2 * macLen + 2 * keyLen + 2 * ivLen) = Ret (Some block) /\
    keysFromMasterSecret v suite ms cr sr macLen keyLen ivLen = Ret (Some k) /\
    block = keys.clientMAC k ++ keys.serverMAC k ++ keys.clientKey k ++ keys.serverKey k ++
            keys.clientIV k ++ keys.serverIV k /\
    len (keys.clientMAC k) = macLen /\ len (keys.serverMAC k) = macLen /\
    len (keys.clientKey k) = keyLen /\ len (keys.serverKey k) = keyLen /\
    len (keys.clientIV k) = ivLen /\ len (keys.serverIV k) = ivLen.
Proof.
  intros Hv Hm Hk Hi. destruct (prfForVersion_ok v suite Hv) as [f Hf].
  destruct (prf_total f ms keyExpansionLabel (sr ++ cr) (2 * macLen + 2 * keyLen + 2 * ivLen)) as (b & Hb & Hl); [lia|].
  exists f, b. unfold keysFromMasterSecret. rewrite Hf. cbn [obind]. rewrite Hb. cbn [obind]. unfold cut_keys.
  repeat match goal with |- context [upto ?x ?n] =>
    let E := fresh in assert (E : 0 <= n <= len x) by (unfold len in *; rewrite ?length_drop; lia);
    rewrite (proj1 (upto_from x n E)), ?(proj2 (upto_from x n E)); cbn [obind]; clear E end.
  eexists. split_and!; [done|done|reflexivity|..].
  all: cbn [keys.clientMAC keys.serverMAC keys.clientKey keys.serverKey keys.clientIV keys.serverIV].
  2-7: unfold len in *; rewrite length_take, ?length_drop; lia.
  rewrite <- (take_drop (Z.to_nat macLen) b) at 1. f_equal.
  do 4 (match goal with |- ?x = take ?n ?x ++ _ => rewrite <- (take_drop n x) at 1 end; f_equal).
  rewrite take_ge; [done|]. unfold len in *. rewrite !length_drop. lia.
Qed.

(** The states of a Finished hash after the messages written to it. *)
Import finishedHash12.

Definition hash_of (version : Z) (f : prfFunc) (alg : hash_function) (msgs : bytes) (kept : bool) : t :=
  let old := version <? VersionTLS12 in
  Mk msgs msgs (if old then Some msgs else None) (if old then Some msgs else None)
    (if negb old && kept then Some msgs else None) version f alg.

Lemma Write_hash_of v f alg msgs kept m :
  Write (hash_of v f alg msgs kept) m = Ret (hash_of v f alg (msgs ++ m) kept).
Proof. unfold Write, hash_of. cbn. by destruct (v <? VersionTLS12), kept. Qed.

Fixpoint write_all (h : t) (msgs : list bytes) : outcome t :=
  match msgs with [] => Ret h | m :: msgs => run h := Write h m in write_all h msgs end.

Lemma write_all_hash_of v f alg kept msgs : forall b,
  write_all (hash_of v f alg b kept) msgs = Ret (hash_of v f alg (b ++ concat msgs) kept).
Proof.
  induction msgs as [|m msgs IH]; intros b; cbn [write_all concat]; [by rewrite app_nil_r|].
  rewrite Write_hash_of. cbn [obind]. by rewrite IH, app_assoc.
Qed.

(** Whatever handshake messages are written to a new Finished hash, in any
    of the versions 1.0 to 1.2, no nil hash is touched, both Finished sums are
    computed over the hash of exactly the concatenated messages and are 12
    bytes long, and the transcript that a TLS 1.2 client certificate signs is
    the concatenated messages as well, until the buffer is discarded. *)
Theorem finished_hash_transcript v suite msgs ms alg : known_version v ->
  exists h0 h digest c s,
    newFinishedHash v suite = Ret h0 /\ write_all h0 msgs = Ret h /\ Sum h = Ret digest /\
    digest = (if v <? VersionTLS12 then Hash MD5 (concat msgs) ++ Hash SHA1 (concat msgs)
              else Hash (hashAlg h) (concat msgs)) /\
    clientSum h ms = Ret (Some c) /\ serverSum h ms = Ret (Some s) /\ len c = 12 /\ len s = 12 /\
    (v = VersionTLS12 -> hashForClientCertificate h signatureECDSA alg = Ret (Hash alg (concat msgs)) /\
       hashForClientCertificate (discardHandshakeBuffer h) signatureECDSA alg = Panic).
Proof.
  intros Hv.
  assert (H0 : exists f alg', newFinishedHash v suite = Ret (hash_of v f alg' [] true) /\
            (v <? VersionTLS12 = true -> alg' = SHA1)).
  { unfold newFinishedHash, prfAndHashForVersion. destruct Hv as [->|[->| ->]]; cbn; eauto.
    destruct (cipherSuite.has suiteSHA384 suite); cbn; eexists _, _; split; reflexivity || done. }
  destruct H0 as (f & alg' & H0 & Ha).
  set (h := hash_of v f alg' (concat msgs) true).
  assert (Hs : Sum h = Ret (if v <? VersionTLS12 then Hash MD5 (concat msgs) ++ Hash SHA1 (concat msgs)
              else Hash alg' (concat msgs))).
  { unfold Sum, h, hash_of. cbn. rewrite Z.leb_antisym. destruct (v <? VersionTLS12) eqn:E; cbn; [|done].
    by rewrite Ha. }
  destruct (prf_total f ms clientFinishedLabel (if v <? VersionTLS12 then Hash MD5 (concat msgs) ++
    Hash SHA1 (concat msgs) else Hash alg' (concat msgs)) finishedVerifyLength) as (c & Hc & Lc); [done|].
  destruct (prf_total f ms serverFinishedLabel (if v <? VersionTLS12 then Hash MD5 (concat msgs) ++
    Hash SHA1 (concat msgs) else Hash alg' (concat msgs)) finishedVerifyLength) as (s & Hss & Ls); [done|].
  eexists _, h, _, c, s. split; [exact H0|]. split; [apply write_all_hash_of|]. split; [exact Hs|].
  unfold clientSum, serverSum. rewrite Hs. cbn [obind]. split_and!; try done. by intros ->.
Qed.
End TLS12.

(** * Examples *)

Definition toy_hash : Crypto := {|
  Hash h b := fit (hash_size h) b;
  HMAC h k b := fit (hash_size h) (k ++ b);
  hkdf_Extract h s k := fit (hash_size h) (s ++ k);
  hkdf_Expand h k info n := if (0 <=? n) && (n <=? 255 * Z.of_nat (hash_size h))
    then Ret (fit (Z.to_nat n) (k ++ info)) else Panic
|}.

#[export] Instance toy_hash_ok : CryptoOk toy_hash.
Proof.
  constructor; intros; try apply fit_len. cbn. eexists.
  rewrite (proj2 (Z.leb_le 0 n)), (proj2 (Z.leb_le n _)) by lia. split; [reflexivity|].
  unfold len. rewrite fit_len. lia.
Qed.

Lemma p_hash_rfc_witness :
  @pHash toy_hash (replicate 40 x00) [x01] [x02] SHA1 = Ret (Some (@P_hash toy_hash SHA1 [x01] [x02] 40)).
Proof. apply (@p_hash_rfc toy_hash toy_hash_ok SHA1 [x01] [x02] (replicate 40 x00)). Defined.

Lemma hkdfLabel_injective_witness :
  tls13.hkdfLabel (label "key") [] 16 = tls13.hkdfLabel (label "key") [] 16 /\ label "key" = label "key".
Proof.
  split; [reflexivity|].
  apply (hkdfLabel_injective (label "key") [] 16 (label "key") [] 16); done.
Defined.

Definition suite_128 : cipherSuiteTLS13.t := cipherSuiteTLS13.Mk TLS_AES_128_GCM_SHA256 16 aeadAESGCMTLS13 SHA256.

Lemma key_schedule_types_witness :
  exists hs, @tls13.EarlySecret_HandshakeSecret toy_hash (@tls13.NewEarlySecret toy_hash SHA256 None) [x05] = Ret hs.
Proof.
  destruct (@key_schedule_types toy_hash toy_hash_ok suite_128 None [x05] [] [] [] []) as (hs & H).
  - apply elem_of_cons. by left.
  - exists hs. destruct H as (? & ? & ? & ? & ? & ? & ? & ? & ? & H & _). exact H.
Defined.

Definition suite_gcm : cipherSuite.t :=
  cipherSuite.Mk TLS_RSA_WITH_AES_128_GCM_SHA256 16 0 4 rsaKA suiteTLS12 None None (Some aeadAESGCM).

Lemma connection_keys_witness :
  exists k, @keysFromMasterSecret toy_hash VersionTLS12 suite_gcm [x01] [x02] [x03] 0 16 4 = Ret (Some k) /\
    len (keys.serverKey k) = 16.
Proof.
  destruct (@connection_keys toy_hash toy_hash_ok VersionTLS12 suite_gcm [x01] [x02] [x03] 0 16 4)
    as (f & block & k & H); [by right; right|done|done|done|].
  exists k. destruct H as (_ & _ & Hk & _ & _ & _ & _ & Hl & _). exact (conj Hk Hl).
Defined.

Lemma finished_hash_transcript_witness :
  exists h, @finishedHash12.newFinishedHash VersionTLS10 suite_gcm = Ret h.
Proof.
  destruct (@finished_hash_transcript toy_hash toy_hash_ok VersionTLS10 suite_gcm [[x01]; [x02]] [] SHA256)
    as (h0 & h & d & c & s & H); [by left|].
  exists h0. exact (proj1 H).
Defined.
