(* ===== verification/Record.v ===== *)
(** * Records

    Models one direction of the record layer, [halfConn] of conn.go: cipher
    changes, the sequence number, removal of CBC padding, encryption and
    decryption of a record; with the AEAD wrappers and [tls10MAC] of
    cipher_suites.go.

    Streams, block modes and AEADs of crypto/cipher are a class: an object of Go
    is a value and an operation that changes it returns the new one.  A slice
    that is written in place is the list of its bytes after the writes. *)

From S2P Require Import Prelude Cryptobyte Common Config Negotiation Buffer KeySchedule.

(** ** crypto/cipher *)

Class Ciphers := {
  stream : Type;
  XORKeyStream : stream -> bytes -> stream * bytes;
  cbc : Type;
  BlockSize : cbc -> Z;
  SetIV : bytes -> cbc -> cbc;
  CryptBlocks : cbc -> bytes -> cbc * bytes;
  AEAD : Type;
  AEAD_Overhead : AEAD -> Z;
  AEAD_Seal : AEAD -> bytes -> bytes -> bytes -> bytes;
  AEAD_Open : AEAD -> bytes -> bytes -> bytes -> option bytes
}.

(** ** The AEADs of a suite *)

Definition noncePrefixLength : Z := 4.

Section Aead.
Context `{Cs : Ciphers}.

Inductive aead :=
  | prefixNonceAEAD (nonce : bytes) (a : AEAD)
  | xorNonceAEAD (nonceMask : bytes) (a : AEAD).

Definition Overhead (f : aead) : Z :=
  match f with prefixNonceAEAD _ a | xorNonceAEAD _ a => AEAD_Overhead a end.
Definition aead_explicitNonceLen (f : aead) : Z :=
  match f with prefixNonceAEAD _ _ => aeadNonceLength - noncePrefixLength | xorNonceAEAD _ _ => 0 end.

(** [for i, b := range nonce { mask[4+i] ^= b }] *)
Definition xor_mask (mask nonce : bytes) : outcome bytes :=
  if len nonce + noncePrefixLength <=? len mask then
    let n := length nonce in
    Ret (take 4 mask ++ xor_bytes (take n (drop 4 mask)) nonce ++ drop (4 + n) mask)
  else Panic.

Definition Seal (f : aead) (nonce plaintext additionalData : bytes) : outcome (aead * bytes) :=
  match f with
  | prefixNonceAEAD n a =>
      run n := copy_at noncePrefixLength nonce n in
      Ret (prefixNonceAEAD n a, AEAD_Seal a n plaintext additionalData)
  | xorNonceAEAD mask a =>
      run m := xor_mask mask nonce in
      let result := AEAD_Seal a m plaintext additionalData in
      run m := xor_mask m nonce in
      Ret (xorNonceAEAD m a, result)
  end.

Definition Open (f : aead) (nonce ciphertext additionalData : bytes) : outcome (aead * option bytes) :=
  match f with
  | prefixNonceAEAD n a =>
      run n := copy_at noncePrefixLength nonce n in
      Ret (prefixNonceAEAD n a, AEAD_Open a n ciphertext additionalData)
  | xorNonceAEAD mask a =>
      run m := xor_mask mask nonce in
      let result := AEAD_Open a m ciphertext additionalData in
      run m := xor_mask m nonce in
      Ret (xorNonceAEAD m a, result)
  end.

(** What [hc.cipher] can hold. *)
Inductive cipher :=
  | Stream (s : stream)
  | Aead (f : aead)
  | CbcMode (b : cbc).
End Aead.

(** ** MACs *)

(** A keyed hash. *)
Record mac := MkMac { mac_hash : hash_function; mac_key : bytes }.
Definition mac_Size (m : mac) : Z := Z.of_nat (hash_size m.(mac_hash)).

(** [extra] is hashed after the result is taken. *)
Definition tls10MAC `{K : Crypto} (h : mac) (seq header data : bytes) : bytes :=
  HMAC h.(mac_hash) h.(mac_key) (seq ++ header ++ data).

(** ** Padding *)

Definition uint (z : Z) : Z := z mod 2 ^ 64.
(** [int32(x)] of an unsigned integer. *)
Definition int32 (z : Z) : Z := (z + 2 ^ 31) mod 2 ^ 32 - 2 ^ 31.
(** [byte(int32(^t) >> 31)] *)
Definition msb_clear (t : Z) : Z := Z.shiftr (int32 (uint (Z.lnot t))) 31 mod 2 ^ 8.

(** The loop, from [i] for [n] iterations, over the payload read backwards. *)
Fixpoint check_padding (paddingLen : Z) (i : Z) (n : nat) (reversed : bytes) (good : Z) : outcome Z :=
  match n with
  | O => Ret good
  | S n =>
      match reversed with
      | [] => Panic
      | b :: reversed =>
          let t := uint (paddingLen - i) in
          let mask := msb_clear t in
          let good := Z.ldiff good (Z.lxor (Z.land mask paddingLen) (Z.land mask (b2z b))) in
          check_padding paddingLen (i + 1) n reversed good
      end
  end.

(** The AND of the bits of a byte, replicated. *)
Definition collapse (good : Z) : Z :=
  let good := Z.land good (Z.shiftl good 4 mod 2 ^ 8) in
  let good := Z.land good (Z.shiftl good 2 mod 2 ^ 8) in
  let good := Z.land good (Z.shiftl good 1 mod 2 ^ 8) in
  Z.shiftr ((good + 2 ^ 7) mod 2 ^ 8 - 2 ^ 7) 7 mod 2 ^ 8.

Definition extractPadding (payload : bytes) : outcome (Z * Z) :=
  if len payload <? 1 then Ret (0, 0) else
  run paddingLen := get payload (len payload - 1) in
  let t := uint (len payload - 1 - paddingLen) in
  let good := msb_clear t in
  let toCheck := Z.min 256 (len payload) in
  run good := check_padding paddingLen 0 (Z.to_nat toCheck) (rev payload) good in
  let good := collapse good in
  Ret (Z.land paddingLen good + 1, good).

Definition roundUp (a b : Z) : Z := a + Z.rem (b - Z.rem a b) b.

(** ** Errors of a connection *)

(** Errors that the package makes or passes on; [netError] is one of the
    underlying connection that implements [net.Error], [OpError] is
    [*net.OpError] around an alert, [WrapError] is [fmt.Errorf] with a [%w]. *)
Inductive connError :=
  | Plain (e : gerror)
  | netError (text : string) (timeout temporary : bool)
  | OpError (Op : string) (Err : gerror)
  | RecordHeaderError (Msg : gerror) (RecordHeader : bytes) (Conn : bool)
  | WrapError (text : string) (err : connError)
  | permanentError (err : connError).

#[export] Instance connError_eq_dec : EqDecision connError.
Proof. solve_decision. Defined.

(** [err.(net.Error)] *)
Definition is_net_error (e : connError) : bool :=
  match e with netError _ _ _ | OpError _ _ | permanentError _ => true | _ => false end.
(** [Temporary()]; an alert has no such method, so that of [OpError] is false. *)
Definition Temporary (e : connError) : bool := match e with netError _ _ t => t | _ => false end.

(** ** One direction of a connection *)

Module halfConn.
Record t `{Cs : Ciphers} := Mk {
  err : option connError;
  version : Z;
  cipher : option cipher;
  mac : option mac;
  seq : bytes;
  nextCipher : option Record.cipher;
  nextMac : option Record.mac;
  level : Z;
  trafficSecret : bytes
}.
#[global] Arguments t {Cs}.
Section Set_.
Context `{Cs : Ciphers}.
Definition set_cipher (v : option Record.cipher) (hc : t) : t :=
  Mk Cs hc.(err) hc.(version) v hc.(mac) hc.(seq) hc.(nextCipher) hc.(nextMac) hc.(level) hc.(trafficSecret).
Definition set_seq (v : bytes) (hc : t) : t :=
  Mk Cs hc.(err) hc.(version) hc.(cipher) hc.(mac) v hc.(nextCipher) hc.(nextMac) hc.(level) hc.(trafficSecret).
Definition set_err (v : option connError) (hc : t) : t :=
  Mk Cs v hc.(version) hc.(cipher) hc.(mac) hc.(seq) hc.(nextCipher) hc.(nextMac) hc.(level) hc.(trafficSecret).
Definition set_version (v : Z) (hc : t) : t :=
  Mk Cs hc.(err) v hc.(cipher) hc.(mac) hc.(seq) hc.(nextCipher) hc.(nextMac) hc.(level) hc.(trafficSecret).
End Set_.
End halfConn.

Section HalfConn.
Context {Cs : Ciphers} {K : Crypto}.
Import halfConn.

(** The zero value. *)
Definition newHalfConn : halfConn.t := halfConn.Mk Cs None 0 None None (replicate 8 x00) None None 0 [].

Definition setErrorLocked (e : option connError) (hc : halfConn.t) : halfConn.t * option connError :=
  let e := match e with Some x => Some (if is_net_error x then permanentError x else x) | None => None end in
  (set_err e hc, e).

Definition prepareCipherSpec (v : Z) (c : option Record.cipher) (m : option Record.mac) (hc : halfConn.t) : halfConn.t :=
  halfConn.Mk Cs hc.(err) v hc.(cipher) hc.(mac) hc.(seq) c m hc.(level) hc.(trafficSecret).

Definition changeCipherSpec (hc : halfConn.t) : halfConn.t * option Z :=
  match hc.(nextCipher) with
  | Some c =>
      if hc.(version) =? VersionTLS13 then (hc, Some alertInternalError)
      else (halfConn.Mk Cs hc.(err) hc.(version) (Some c) hc.(nextMac) (replicate 8 x00) None None hc.(level) hc.(trafficSecret), None)
  | None => (hc, Some alertInternalError)
  end.

(** [suite.aead] makes an AEAD from a key and an IV. *)
Definition setTrafficSecret (newAead : cipherSuiteTLS13.t -> bytes -> bytes -> outcome aead)
    (suite : cipherSuiteTLS13.t) (level : Z) (secret : bytes) (hc : halfConn.t) : outcome halfConn.t :=
  run (key, iv) := trafficKey suite secret in
  run a := newAead suite key iv in
  Ret (halfConn.Mk Cs hc.(err) hc.(version) (Some (Aead a)) hc.(mac) (replicate 8 x00) hc.(nextCipher) hc.(nextMac) level secret).

(** The bytes from the last to the first. *)
Fixpoint inc_bytes (reversed : bytes) : outcome bytes :=
  match reversed with
  | [] => Panic
  | b :: rest =>
      let b := u8 (b2z b + 1) in
      if negb (b2z b =? 0) then Ret (b :: rest)
      else run rest := inc_bytes rest in Ret (b :: rest)
  end.
Definition incSeq (hc : halfConn.t) : outcome halfConn.t :=
  run s := inc_bytes (rev hc.(seq)) in Ret (set_seq (rev s) hc).

Definition explicitNonceLen (hc : halfConn.t) : Z :=
  match hc.(cipher) with
  | None => 0
  | Some (Stream _) => 0
  | Some (Aead f) => aead_explicitNonceLen f
  | Some (CbcMode b) => if VersionTLS11 <=? hc.(version) then BlockSize b else 0
  end.

(** ** decrypt *)

(** The content type of a TLS 1.3 record, scanning from the end; [None]: every
    byte is zero.  An empty plaintext keeps the outer type. *)
Fixpoint content_type (reversed : bytes) : option (bytes * Z) :=
  match reversed with
  | [] => None
  | b :: rest => if b2z b =? 0 then content_type rest else Some (rev rest, b2z b)
  end.
Definition inner_plaintext (plaintext : bytes) (typ : Z) : option (bytes * Z) :=
  match plaintext with [] => Some ([], typ) | _ => content_type (rev plaintext) end.

(** The additional data of an AEAD before TLS 1.3. *)
Definition additional_data (seq header : bytes) (n : Z) : bytes :=
  seq ++ take 3 header ++ [u8 (Z.shiftr n 8); u8 n].

(** What the cipher leaves: the new cipher, the payload and the plaintext, and
    the length and validity of the padding; or the cipher and an alert. *)
Record opened := MkOpened {
  o_cipher : option Record.cipher; o_payload : bytes; o_plaintext : bytes; o_paddingLen : Z; o_paddingGood : Z
}.

Definition open_record (hc : halfConn.t) (header payload : bytes) : outcome (option Record.cipher * Z + opened) :=
  let n := explicitNonceLen hc in
  match hc.(cipher) with
  | None => Ret (inr (MkOpened None payload payload 0 255))
  | Some (Stream s) =>
      let (s, payload) := XORKeyStream s payload in
      Ret (inr (MkOpened (Some (Stream s)) payload [] 0 255))
  | Some (Aead f) =>
      if len payload <? n then Ret (inl (hc.(cipher), alertBadRecordMAC)) else
      run nonce := upto payload n in
      let nonce := if len nonce =? 0 then hc.(seq) else nonce in
      run payload := from payload n in
      let additionalData :=
        if hc.(version) =? VersionTLS13 then header
        else additional_data hc.(seq) header (len payload - Overhead f) in
      run (f, plaintext) := Open f nonce payload additionalData in
      match plaintext with
      | None => Ret (inl (Some (Aead f), alertBadRecordMAC))
      | Some plaintext => Ret (inr (MkOpened (Some (Aead f)) payload plaintext 0 255))
      end
  | Some (CbcMode b) =>
      match hc.(mac) with
      | None => Panic
      | Some m =>
          let blockSize := BlockSize b in
          let minPayload := n + roundUp (mac_Size m + 1) blockSize in
          if negb (Z.rem (len payload) blockSize =? 0) || (len payload <? minPayload) then Ret (inl (hc.(cipher), alertBadRecordMAC)) else
          run (b, payload) :=
            (if 0 <? n then run iv := upto payload n in run rest := from payload n in Ret (SetIV iv b, rest)
             else Ret (b, payload)) in
          let (b, payload) := CryptBlocks b payload in
          run (paddingLen, paddingGood) := extractPadding payload in
          Ret (inr (MkOpened (Some (CbcMode b)) payload [] paddingLen paddingGood))
      end
  end.

(** The checks of TLS 1.3 on a protected record. *)
Definition open_inner (hc : halfConn.t) (typ : Z) (o : opened) : Z + (bytes * Z) :=
  if (hc.(version) =? VersionTLS13) && non_nil hc.(cipher) then
    if negb (typ =? recordTypeApplicationData) then inl alertUnexpectedMessage else
    if maxPlaintext + 1 <? len o.(o_plaintext) then inl alertRecordOverflow else
    match inner_plaintext o.(o_plaintext) typ with
    | None => inl alertUnexpectedMessage
    | Some p => inr p
    end
  else inr (o.(o_plaintext), typ).

(** The MAC of a record, over its payload without MAC and padding. *)
Definition check_mac (hc : halfConn.t) (header : bytes) (o : opened) (plaintext : bytes) : outcome (Z + bytes) :=
  match hc.(mac) with
  | None => Ret (inr plaintext)
  | Some m =>
      let macSize := mac_Size m in
      let payload := o.(o_payload) in
      if len payload <? macSize then Ret (inl alertBadRecordMAC) else
      let n := len payload - macSize - o.(o_paddingLen) in
      let n := if n <? 0 then 0 else n in
      run header := (put 3 (Z.shiftr n 8) ;! put 4 n) header in
      run remoteMAC := slice payload n (n + macSize) in
      run data := upto payload n in
      let localMAC := tls10MAC m hc.(seq) header data in
      let same := if bool_decide (localMAC = remoteMAC) then 1 else 0 in
      if negb (Z.land same o.(o_paddingGood) =? 1) then Ret (inl alertBadRecordMAC) else Ret (inr data)
  end.

Definition decrypt (record : bytes) (hc : halfConn.t) : outcome (halfConn.t * (Z + (bytes * Z))) :=
  run typ := get record 0 in
  run header := upto record recordHeaderLen in
  run payload := from record recordHeaderLen in
  if (hc.(version) =? VersionTLS13) && (typ =? recordTypeChangeCipherSpec) then Ret (hc, inr (payload, typ)) else
  run r := open_record hc header payload in
  match r with
  | inl (c, alert) => Ret (set_cipher c hc, inl alert)
  | inr o =>
      match open_inner hc typ o with
      | inl alert => Ret (set_cipher o.(o_cipher) hc, inl alert)
      | inr (plaintext, typ) =>
          run r := check_mac hc header o plaintext in
          match r with
          | inl alert => Ret (set_cipher o.(o_cipher) hc, inl alert)
          | inr plaintext =>
              run hc := incSeq (set_cipher o.(o_cipher) hc) in
              Ret (hc, inr (plaintext, typ))
          end
      end
  end.

(** ** encrypt *)

(** The state of the random source, and [io.ReadFull]. *)
Context {reader : Type} (ReadFull : Z -> reader -> reader * res bytes).

Definition is_cbc (c : Record.cipher) : bool := match c with CbcMode _ => true | _ => false end.

(** The explicit nonce of a record. *)
Definition make_nonce (hc : halfConn.t) (c : Record.cipher) (rand : reader) : outcome (reader * res bytes) :=
  let n := explicitNonceLen hc in
  if 0 <? n then
    if negb (is_cbc c) && (n <? 16) then
      run nonce := make n in run nonce := copy_at 0 hc.(seq) nonce in Ret (rand, inr nonce)
    else Ret (ReadFull n rand)
  else Ret (rand, inr []).

(** The padding added to [plaintextLen] bytes. *)
Definition cbc_padding (blockSize plaintextLen : Z) : bytes :=
  let paddingLen := blockSize - Z.rem plaintextLen blockSize in
  replicate (Z.to_nat paddingLen) (u8 (paddingLen - 1)).

(** The new cipher and what follows the header, which has the type that is sent. *)
Definition seal_record (hc : halfConn.t) (c : Record.cipher) (header payload explicitNonce : bytes)
    : outcome (Record.cipher * bytes * bytes) :=
  match c with
  | Stream s =>
      match hc.(mac) with
      | None => Panic
      | Some m =>
          let mac := tls10MAC m hc.(seq) header payload in
          let (s, d1) := XORKeyStream s payload in
          let (s, d2) := XORKeyStream s mac in
          Ret (Stream s, header, explicitNonce ++ d1 ++ d2)
      end
  | Aead f =>
      let nonce := if len explicitNonce =? 0 then hc.(seq) else explicitNonce in
      if hc.(version) =? VersionTLS13 then
        run typ := get header 0 in
        let n := len payload + 1 + Overhead f in
        run header := (put 0 recordTypeApplicationData ;! put 3 (Z.shiftr n 8) ;! put 4 n) header in
        run (f, sealed) := Seal f nonce (explicitNonce ++ payload ++ [u8 typ]) header in
        Ret (Aead f, header, sealed)
      else
        run (f, sealed) := Seal f nonce payload (hc.(seq) ++ header) in
        Ret (Aead f, header, explicitNonce ++ sealed)
  | CbcMode b =>
      match hc.(mac) with
      | None => Panic
      | Some m =>
          let mac := tls10MAC m hc.(seq) header payload in
          let dst := payload ++ mac ++ cbc_padding (BlockSize b) (len payload + len mac) in
          let b := if 0 <? len explicitNonce then SetIV explicitNonce b else b in
          let (b, dst) := CryptBlocks b dst in
          Ret (CbcMode b, header, explicitNonce ++ dst)
      end
  end.

(** [record] is the header. *)
Definition encrypt (record payload : bytes) (rand : reader) (hc : halfConn.t)
    : outcome (halfConn.t * reader * res bytes) :=
  match hc.(cipher) with
  | None => Ret (hc, rand, inr (record ++ payload))
  | Some c =>
      run (rand, nonce) := make_nonce hc c rand in
      match nonce with
      | inl err => Ret (hc, rand, inl err)
      | inr explicitNonce =>
          run header := upto record recordHeaderLen in
          run (c, header, body) := seal_record hc c header payload explicitNonce in
          let n := len body in
          run header := (put 3 (Z.shiftr n 8) ;! put 4 n) header in
          run hc := incSeq (set_cipher (Some c) hc) in
          Ret (hc, rand, inr (header ++ body))
      end
  end.
End HalfConn.

(** * Sequence numbers *)

Lemma be_val_snoc l b : be_val (l ++ [b]) = be_val l * 256 + b2z b.
Proof. unfold be_val. by rewrite fold_left_app. Qed.

Lemma be_val_inj a b : length a = length b -> be_val a = be_val b -> a = b.
Proof. intros Hl Hv. rewrite <- (be_be_val a), <- (be_be_val b). congruence. Qed.

(** Without a wrap-around the increment is that of the number. *)
Lemma inc_bytes_spec r : be_val (rev r) + 1 < 256 ^ len r ->
  exists r', inc_bytes r = Ret r' /\ length r' = length r /\ be_val (rev r') = be_val (rev r) + 1.
Proof.
  induction r as [|b r IH]; [by cbv|]. intros H. cbn [rev] in H. rewrite be_val_snoc in H.
  pose proof (b2z_range b) as Hb. rewrite len_cons, Z.pow_add_r, Z.pow_1_r in H by (pose proof (len_nonneg r); lia).
  cbn [inc_bytes rev]. rewrite b2z_u8. case_match eqn:E.
  - apply negb_true_iff, Z.eqb_neq in E. eexists. split; [done|]. split; [done|]. cbn [rev].
    rewrite !be_val_snoc, b2z_u8. rewrite Z.mod_small; [lia|]. destruct (decide (b2z b = 255)) as [Hx|]; [|lia].
    by rewrite Hx in E.
  - apply negb_false_iff, Z.eqb_eq in E. assert (b2z b = 255) as Hx.
    { destruct (decide (b2z b = 255)); [done|]. rewrite Z.mod_small in E by lia. lia. }
    destruct IH as (r' & -> & Hl & Hv); [lia|]. eexists. split; [done|]. cbn [length rev]. split; [by rewrite Hl|].
    rewrite !be_val_snoc, Hv, b2z_u8, Hx. change ((255 + 1) mod 256) with 0. lia.
Qed.

(** * Padding *)

(** The length of a padding that can be removed: its value is in the last byte and
    in that many bytes before. *)
Definition padding_of (payload : bytes) : option Z :=
  match rev payload with
  | [] => None
  | b :: _ =>
      let p := b2z b in
      if (p <? len payload) && bool_decide (Forall (fun x => x = b) (take (Z.to_nat (p + 1)) (rev payload)))
      then Some p else None
  end.

Lemma msb_clear_sub a b : 0 <= a < 2 ^ 31 -> 0 <= b < 2 ^ 31 -> msb_clear (uint (a - b)) = if b <=? a then 255 else 0.
Proof.
  intros Ha Hb. unfold msb_clear, int32, uint, Z.lnot. rewrite <- Z.sub_1_r.
  rewrite Z.shiftr_div_pow2 by lia. destruct (Z.leb_spec b a).
  - rewrite (Z.mod_small (a - b)) by lia.
    replace ((- (a - b) - 1) mod 2 ^ 64) with (2 ^ 64 - 1 - (a - b)) by (apply (Z.mod_unique _ _ (-1)); lia).
    replace ((2 ^ 64 - 1 - (a - b) + 2 ^ 31) mod 2 ^ 32) with (2 ^ 31 - 1 - (a - b))
      by (apply (Z.mod_unique _ _ (2 ^ 32)); lia).
    replace ((2 ^ 31 - 1 - (a - b) - 2 ^ 31) / 2 ^ 31) with (-1) by (apply (Z.div_unique _ _ _ (2 ^ 31 - 1 - (a - b))); lia).
    done.
  - replace ((a - b) mod 2 ^ 64) with (2 ^ 64 + (a - b)) by (apply (Z.mod_unique _ _ (-1)); lia).
    replace ((- (2 ^ 64 + (a - b)) - 1) mod 2 ^ 64) with (b - a - 1) by (apply (Z.mod_unique _ _ (-1)); lia).
    rewrite (Z.mod_small (b - a - 1 + 2 ^ 31)) by lia.
    replace ((b - a - 1 + 2 ^ 31 - 2 ^ 31) / 2 ^ 31) with 0 by (symmetry; apply Z.div_small; lia). done.
Qed.

(** Facts on bytes, by cases. *)
Definition all_bytes (f : Z -> bool) : bool := forallb (fun n => f (Z.of_nat n)) (seq 0 256).
Lemma all_bytes_spec f : all_bytes f = true -> forall z, 0 <= z < 256 -> f z = true.
Proof.
  intros H z Hz. unfold all_bytes in H. rewrite forallb_forall in H.
  specialize (H (Z.to_nat z)). rewrite Z2Nat.id in H by lia. apply H, in_seq. lia.
Qed.

Lemma collapse_spec good : 0 <= good < 256 -> collapse good = if good =? 255 then 255 else 0.
Proof.
  intros H. apply Z.eqb_eq. revert good H.
  apply (all_bytes_spec (fun good => collapse good =? if good =? 255 then 255 else 0)). by vm_compute.
Qed.

Lemma ldiff_full good x : 0 <= good < 256 -> 0 <= x < 256 ->
  0 <= Z.ldiff good x < 256 /\ (Z.ldiff good x = 255 <-> good = 255 /\ x = 0).
Proof.
  intros Hg Hx.
  assert (H : (0 <=? Z.ldiff good x) && (Z.ldiff good x <? 256) &&
    Bool.eqb (Z.ldiff good x =? 255) ((good =? 255) && (x =? 0)) = true).
  { revert x Hx. apply (all_bytes_spec (fun x => (0 <=? Z.ldiff good x) && (Z.ldiff good x <? 256) &&
      Bool.eqb (Z.ldiff good x =? 255) ((good =? 255) && (x =? 0)))).
    revert good Hg. apply (all_bytes_spec (fun good => all_bytes (fun x => (0 <=? Z.ldiff good x) &&
      (Z.ldiff good x <? 256) && Bool.eqb (Z.ldiff good x =? 255) ((good =? 255) && (x =? 0))))). by vm_compute. }
  apply andb_prop in H as [[H1 H2]%andb_prop H3]. apply eqb_prop in H3.
  split; [lia|]. rewrite <- !Z.eqb_eq, H3, andb_true_iff, !Z.eqb_eq. done.
Qed.

Lemma lxor_bytes a b : 0 <= a < 256 -> 0 <= b < 256 -> 0 <= Z.lxor a b < 256.
Proof.
  intros Ha Hb. assert (Hn : 0 <= Z.lxor a b) by (apply Z.lxor_nonneg; split; intros; lia). split; [done|].
  destruct (decide (Z.lxor a b = 0)) as [->|Hz]; [lia|].
  change 256 with (2 ^ 8). apply Z.log2_lt_pow2; [lia|].
  eapply Z.le_lt_trans; [apply Z.log2_lxor; lia|]. apply Z.max_lub_lt.
  - destruct (decide (a = 0)) as [->|]; [by cbv|]. apply Z.log2_lt_pow2; lia.
  - destruct (decide (b = 0)) as [->|]; [by cbv|]. apply Z.log2_lt_pow2; lia.
Qed.

(** What one iteration takes away is zero when the byte is right or not padding. *)
Lemma masked_difference p i b : 0 <= p < 256 -> 0 <= i < 256 -> let mask := msb_clear (uint (p - i)) in
  let x := Z.lxor (Z.land mask p) (Z.land mask (b2z b)) in
  0 <= x < 256 /\ (x = 0 <-> (i <= p -> b2z b = p)).
Proof.
  intros Hp Hi mask x. subst mask x. rewrite msb_clear_sub by lia. pose proof (b2z_range b).
  destruct (Z.leb_spec i p).
  - assert (Hl : forall z, 0 <= z < 256 -> Z.land 255 z = z).
    { intros z Hz. rewrite Z.land_comm. change 255 with (Z.ones 8). rewrite Z.land_ones, Z.mod_small by lia. done. }
    rewrite !Hl by lia. split; [by apply lxor_bytes|]. rewrite Z.lxor_eq_0_iff. split; [by intros ->|]. intros ->; lia.
  - rewrite !Z.land_0_l. change (Z.lxor 0 0) with 0. split; [lia|]. split; [lia|done].
Qed.

Lemma check_padding_spec p i n r good : 0 <= p < 256 -> 0 <= i -> i + Z.of_nat n <= 256 -> (n <= length r)%nat ->
  0 <= good < 256 ->
  exists g, check_padding p i n r good = Ret g /\ 0 <= g < 256 /\
    (g = 255 <-> good = 255 /\ forall k b, (k < n)%nat -> r !! k = Some b -> i + Z.of_nat k <= p -> b2z b = p).
Proof.
  intros Hp. revert i r good. induction n as [|n IH]; intros i r good Hi Hn Hr Hg; cbn [check_padding].
  { exists good. split_and!; [done|lia|lia|]. split; [|by intros []]. intros ->. split; [done|]. lia. }
  destruct r as [|b r]; [cbn in Hr; lia|].
  destruct (masked_difference p i b) as [Hx Hx0]; [lia|lia|].
  destruct (ldiff_full good _ Hg Hx) as [Hg' Hfull].
  destruct (IH (i + 1) r _ ltac:(lia) ltac:(lia) ltac:(cbn in Hr; lia) Hg') as (g & -> & Hgr & Hiff).
  exists g. split; [done|]. split; [done|]. rewrite Hiff, Hfull, Hx0. split.
  - intros [[-> H0] Hk]. split; [done|]. intros [|k] b' Hlt Hb' Hle.
    + injection Hb' as <-. apply H0. lia.
    + apply (Hk k b'); [lia|done|lia].
  - intros [-> Hk]. split; [split; [done|]|].
    + intros Hle. apply (Hk 0%nat b); [lia|done|lia].
    + intros k b' Hlt Hb' Hle. apply (Hk (S k) b'); [lia|done|lia].
Qed.

Lemma get_last payload b r : rev payload = b :: r -> get payload (len payload - 1) = Ret (b2z b).
Proof.
  intros H. rewrite <- (rev_involutive payload), H. cbn [rev]. unfold get. rewrite len_app.
  change (len [b]) with 1. pose proof (len_nonneg (rev r)). zbool.
  replace (Z.to_nat (len (rev r) + 1 - 1)) with (length (rev r)) by (unfold len; lia). by rewrite list_lookup_middle.
Qed.

(** The test of the loop and the definition agree. *)
Lemma padding_of_spec payload b r : rev payload = b :: r ->
  let checked := b2z b < len payload /\ forall k x, (k < Z.to_nat (Z.min 256 (len payload)))%nat ->
    rev payload !! k = Some x -> 0 + Z.of_nat k <= b2z b -> b2z x = b2z b in
  padding_of payload = Some (b2z b) /\ checked \/ padding_of payload = None /\ ~ checked.
Proof.
  intros Hr checked. pose proof (b2z_range b).
  assert (padding_of payload = if (b2z b <? len payload) &&
      bool_decide (Forall (fun x => x = b) (take (Z.to_nat (b2z b + 1)) (rev payload))) then Some (b2z b) else None) as ->
    by (unfold padding_of; by rewrite Hr at 1).
  destruct (Z.ltb_spec (b2z b) (len payload)) as [Hlt|Hge]; cbn [andb]; [|right; split; [done|unfold checked; lia]].
  case_bool_decide as Hall; [left|right]; split; try done.
  - split; [done|]. intros k x Hk Hx Hle. rewrite Forall_lookup in Hall. f_equal. apply (Hall k).
    rewrite lookup_take_lt by lia. done.
  - intros [_ Hc]. apply Hall, Forall_lookup. intros k x Hx. apply lookup_take_Some in Hx as [Hx Hk].
    pose proof (lookup_lt_Some _ _ _ Hx) as Hl. rewrite length_rev in Hl. apply b2z_inj, (Hc k); [unfold len; lia|done|lia].
Qed.

(** In constant time or not, the padding found in a decrypted CBC payload is the
    one RFC 2246 defines: its bytes all hold its length; otherwise the payload is
    flagged and only one byte is removed, so that the MAC covers the rest. *)
Lemma extract_padding_spec payload : len payload < 2 ^ 31 ->
  extractPadding payload = Ret (match payload with
    | [] => (0, 0)
    | _ => match padding_of payload with Some p => (p + 1, 255) | None => (1, 0) end
    end).
Proof.
  intros Hlen. unfold extractPadding. destruct (Z.ltb_spec (len payload) 1) as [Hz|Hz].
  { destruct payload; [done|]. rewrite len_cons in Hz. pose proof (len_nonneg payload). lia. }
  destruct payload as [|a l]; [by cbv in Hz|]. set (payload := a :: l) in *.
  destruct (rev payload) as [|b r] eqn:Hr; [apply (f_equal length) in Hr; rewrite length_rev in Hr; done|].
  rewrite (get_last _ _ _ Hr). cbn [obind]. rewrite <- Hr. pose proof (b2z_range b) as Hb.
  set (toCheck := Z.to_nat (Z.min 256 (len payload))).
  assert (Hgood : 0 <= msb_clear (uint (len payload - 1 - b2z b)) < 256).
  { rewrite msb_clear_sub by lia. by destruct (_ <=? _). }
  destruct (check_padding_spec (b2z b) 0 toCheck (rev payload) _ Hb ltac:(lia) ltac:(unfold toCheck; lia)
    ltac:(unfold toCheck, len; rewrite length_rev; lia) Hgood) as (g & -> & Hg & Hiff). cbn [obind].
  rewrite collapse_spec by done. rewrite msb_clear_sub in Hiff by lia.
  destruct (padding_of_spec payload b r Hr) as [[-> Hc]|[-> Hc]].
  - assert (g = 255) as ->. { apply Hiff. destruct Hc. split; [by zbool|done]. }
    rewrite Z.eqb_refl. do 2 f_equal.
    change 255 with (Z.ones 8). rewrite Z.land_ones, Z.mod_small by lia. done.
  - assert (g <> 255). { intros Hg255. apply Hc. apply Hiff in Hg255 as [Hm Hk]. split; [|done].
      destruct (Z.leb_spec (b2z b) (len payload - 1)); [lia|done]. }
    replace (g =? 255) with false by lia. by rewrite Z.land_0_r.
Qed.

(** * Both ends of a direction *)

(** The states of a stream or a block mode at the two ends. *)
Class Sync (Cs : Ciphers) := {
  stream_sync : stream -> stream -> Prop;
  cbc_sync : cbc -> cbc -> Prop
}.

(** The receiver's object undoes what the sender's did, and they stay in step. *)
Class CiphersOk (Cs : Ciphers) (S : Sync Cs) : Prop := {
  XORKeyStream_app s a b : XORKeyStream s (a ++ b) =
    let (s1, c1) := XORKeyStream s a in let (s2, c2) := XORKeyStream s1 b in (s2, c1 ++ c2);
  XORKeyStream_sync e d p e' c : stream_sync e d -> XORKeyStream e p = (e', c) ->
    exists d', XORKeyStream d c = (d', p) /\ stream_sync e' d';
  XORKeyStream_len s p s' c : XORKeyStream s p = (s', c) -> len c = len p;
  cbc_block e d : cbc_sync e d -> BlockSize e = BlockSize d /\ 8 <= BlockSize e <= 16;
  SetIV_sync iv e d : cbc_sync e d -> cbc_sync (SetIV iv e) (SetIV iv d) /\ BlockSize (SetIV iv e) = BlockSize e;
  CryptBlocks_sync e d p e' c : cbc_sync e d -> len p mod BlockSize e = 0 -> CryptBlocks e p = (e', c) ->
    len c = len p /\ exists d', CryptBlocks d c = (d', p) /\ cbc_sync e' d';
  AEAD_open a n p ad : AEAD_Open a n (AEAD_Seal a n p ad) ad = Some p;
  AEAD_len a n p ad : len (AEAD_Seal a n p ad) = len p + AEAD_Overhead a;
  AEAD_Overhead_range a : 0 <= AEAD_Overhead a <= 255
}.

Section RoundTrip.
Context {Cs : Ciphers} {Sy : Sync Cs} {Cok : CiphersOk Cs Sy} {K : Crypto} {Kok : CryptoOk K}.
Context {reader : Type} (ReadFull : Z -> reader -> reader * res bytes).
Import halfConn.
Implicit Types e d : halfConn.t.

(** ** AEADs *)

Lemma xor_byte_twice x y : u8 (Z.lxor (b2z (u8 (Z.lxor (b2z x) (b2z y)))) (b2z y)) = x.
Proof.
  pose proof (b2z_range x). pose proof (b2z_range y).
  rewrite b2z_u8_small by (by apply lxor_bytes). by rewrite Z.lxor_assoc, Z.lxor_nilpotent, Z.lxor_0_r, u8_b2z.
Qed.

Lemma xor_bytes_twice a b : length a = length b -> xor_bytes (xor_bytes a b) b = a.
Proof.
  revert b. induction a as [|x a IH]; intros [|y b] H; try done. unfold xor_bytes in *. cbn.
  by rewrite xor_byte_twice, IH by (cbn in H; lia).
Qed.

Lemma length_xor_bytes a b : length (xor_bytes a b) = Nat.min (length a) (length b).
Proof. apply length_zip_with. Qed.

Lemma xor_bytes_inj a b b' : length b = length a -> length b' = length a -> xor_bytes a b = xor_bytes a b' -> b = b'.
Proof.
  revert b b'. induction a as [|x a IH]; intros [|y b] [|y' b'] H H'; try done. unfold xor_bytes in *. cbn.
  intros [= Hx Hr]. f_equal; [|apply IH; [cbn in *; lia|cbn in *; lia|done]].
  pose proof (b2z_range x). pose proof (b2z_range y). pose proof (b2z_range y').
  apply (f_equal b2z) in Hx. rewrite !b2z_u8_small in Hx by (by apply lxor_bytes).
  apply b2z_inj. rewrite <- (Z.lxor_0_l (b2z y)), <- (Z.lxor_0_l (b2z y')), <- (Z.lxor_nilpotent (b2z x)).
  by rewrite !Z.lxor_assoc, Hx.
Qed.

(** The nonce the underlying AEAD gets. *)
Definition full_nonce (f : aead) (nonce : bytes) : bytes :=
  match f with
  | prefixNonceAEAD n _ => take 4 n ++ nonce
  | xorNonceAEAD mask _ => take 4 mask ++ xor_bytes (drop 4 mask) nonce
  end.
Definition inner_aead (f : aead) : AEAD := match f with prefixNonceAEAD _ a | xorNonceAEAD _ a => a end.

(** Nonces of twelve bytes. *)
Definition wf_aead (f : aead) : Prop :=
  match f with prefixNonceAEAD n _ => length n = 12%nat | xorNonceAEAD m _ => length m = 12%nat end.

(** The fixed parts agree. *)
Definition aead_peer (f g : aead) : Prop :=
  match f, g with
  | prefixNonceAEAD n a, prefixNonceAEAD n' a' => take 4 n = take 4 n' /\ a = a'
  | xorNonceAEAD m a, xorNonceAEAD m' a' => m = m' /\ a = a'
  | _, _ => False
  end /\ wf_aead f /\ wf_aead g.

Lemma copy_nonce n nonce : length n = 12%nat -> length nonce = 8%nat ->
  copy_at noncePrefixLength nonce n = Ret (take 4 n ++ nonce).
Proof.
  intros Hn Hl. unfold copy_at, noncePrefixLength, len. rewrite Hn. cbn [andb Z.leb Z.compare]. change (0 <=? 4) with true.
  change (4 <=? Z.of_nat 12) with true. cbn [andb]. change (Z.to_nat 4) with 4%nat. rewrite Hl. cbn [Nat.min Nat.sub Nat.add].
  rewrite (take_ge nonce), (drop_ge n), app_nil_r by lia. done.
Qed.

Lemma xor_mask_eq m nonce : length m = 12%nat -> length nonce = 8%nat ->
  xor_mask m nonce = Ret (take 4 m ++ xor_bytes (drop 4 m) nonce).
Proof.
  intros Hm Hn. unfold xor_mask, noncePrefixLength, len. rewrite Hm, Hn.
  change (Z.of_nat 8 + 4 <=? Z.of_nat 12) with true. cbn [Nat.add].
  rewrite (take_ge (drop 4 m)), (drop_ge m 12), app_nil_r by (rewrite ?length_drop; lia). done.
Qed.

Lemma xor_mask_twice m nonce : length m = 12%nat -> length nonce = 8%nat ->
  xor_mask (take 4 m ++ xor_bytes (drop 4 m) nonce) nonce = Ret m.
Proof.
  intros Hm Hn. assert (H4 : length (take 4 m) = 4%nat) by (rewrite length_take; lia).
  rewrite xor_mask_eq; [|rewrite length_app, length_xor_bytes, length_drop; lia|done].
  rewrite take_app_length', drop_app_length' by done.
  rewrite xor_bytes_twice by (rewrite length_drop; lia). by rewrite take_drop.
Qed.

(** Sealing gives the nonce and leaves the wrapper with its fixed part. *)
Lemma seal_spec f nonce p ad : wf_aead f -> length nonce = 8%nat ->
  exists f', Seal f nonce p ad = Ret (f', AEAD_Seal (inner_aead f) (full_nonce f nonce) p ad) /\
    aead_peer f f' /\ (forall nonce, full_nonce f' nonce = full_nonce f nonce) /\ inner_aead f' = inner_aead f.
Proof.
  destruct f as [n a|m a]; intros Hw Hn; cbn in Hw |- *.
  - rewrite copy_nonce by done. cbn [obind].
    assert (H4 : length (take 4 n) = 4%nat) by (rewrite length_take; lia).
    assert (Ht : take 4 (take 4 n ++ nonce) = take 4 n) by (by apply take_app_length').
    eexists. split; [done|]. unfold aead_peer, wf_aead. split_and!; [by rewrite Ht|done|done| | |done].
    + rewrite length_app. lia.
    + intros nonce'. cbn. by rewrite Ht.
  - rewrite xor_mask_eq by done. cbn [obind]. rewrite xor_mask_twice by done. cbn [obind].
    eexists. split; [done|]. done.
Qed.

Lemma open_spec f g nonce p ad : aead_peer f g -> length nonce = 8%nat ->
  exists g', Open g nonce (AEAD_Seal (inner_aead f) (full_nonce f nonce) p ad) ad = Ret (g', Some p) /\ aead_peer f g'.
Proof.
  destruct f as [n a|m a], g as [n' a'|m' a']; intros (Hp & Hf & Hg) Hn; cbn in Hp, Hf, Hg |- *; try done.
  - destruct Hp as [Ht ->]. rewrite copy_nonce by done. cbn [obind]. rewrite <- Ht, AEAD_open.
    eexists. split; [done|]. assert (H4 : length (take 4 n) = 4%nat) by (rewrite length_take; lia).
    unfold aead_peer, wf_aead. split_and!; [|done|done|rewrite length_app; lia].
    by rewrite take_app_length'.
  - destruct Hp as [<- ->]. rewrite xor_mask_eq by done. cbn [obind]. rewrite xor_mask_twice by done. cbn [obind].
    rewrite AEAD_open. eexists. split; [done|]. done.
Qed.

(** ** The states of the two ends *)

Definition same_mac (e d : halfConn.t) : Prop := exists m, e.(mac) = Some m /\ d.(mac) = Some m.
Definition no_mac (e d : halfConn.t) : Prop := e.(mac) = None /\ d.(mac) = None.

(** The ciphers of a sender and of its receiver: a MAC goes with a stream or a
    block mode, and TLS 1.3 uses AEADs with the sequence number as nonce. *)
Definition cipher_sync (e d : halfConn.t) : Prop :=
  match e.(cipher), d.(cipher) with
  | None, None => no_mac e d
  | Some (Stream s), Some (Stream s') => stream_sync s s' /\ same_mac e d /\ e.(version) <> VersionTLS13
  | Some (Aead f), Some (Aead g) => aead_peer f g /\ no_mac e d /\ (e.(version) = VersionTLS13 -> aead_explicitNonceLen f = 0)
  | Some (CbcMode b), Some (CbcMode b') => cbc_sync b b' /\ same_mac e d /\ e.(version) <> VersionTLS13
  | _, _ => False
  end.

(** Before a cipher is set only the receiver counts. *)
Definition synced (e d : halfConn.t) : Prop :=
  e.(version) = d.(version) /\ length e.(seq) = 8%nat /\ length d.(seq) = 8%nat /\
  (e.(cipher) <> None -> e.(seq) = d.(seq)) /\ cipher_sync e d.

(** The header [writeRecordLocked] makes for a payload of [m] bytes. *)
Definition record_header (typ vers m : Z) : bytes :=
  [u8 typ; u8 (Z.shiftr vers 8); u8 vers; u8 (Z.shiftr m 8); u8 m].

Lemma put_length t v1 v2 l1 l2 n : (put 3 (Z.shiftr n 8) ;! put 4 n) [t; v1; v2; l1; l2] = Ret [t; v1; v2; u8 (Z.shiftr n 8); u8 n].
Proof. done. Qed.

Lemma put_type t v1 v2 l1 l2 n :
  (put 0 recordTypeApplicationData ;! put 3 (Z.shiftr n 8) ;! put 4 n) [t; v1; v2; l1; l2] =
  Ret [u8 recordTypeApplicationData; v1; v2; u8 (Z.shiftr n 8); u8 n].
Proof. done. Qed.

Lemma len_record (t v1 v2 l1 l2 : byte) body : len ([t; v1; v2; l1; l2] ++ body) = recordHeaderLen + len body.
Proof. by rewrite len_app. Qed.

Lemma incSeq_spec (hc : halfConn.t) : length hc.(seq) = 8%nat -> be_val hc.(seq) + 1 < 2 ^ 64 ->
  exists s, incSeq hc = Ret (set_seq s hc) /\ length s = 8%nat /\ be_val s = be_val hc.(seq) + 1.
Proof.
  intros Hl Hs. destruct (inc_bytes_spec (rev hc.(seq))) as (r & Hr & Hlr & Hv).
  { rewrite rev_involutive. unfold len. rewrite length_rev, Hl. exact Hs. }
  exists (rev r). unfold incSeq. rewrite Hr. cbn [obind]. rewrite length_rev in Hlr |- *.
  split; [done|]. split; [lia|]. by rewrite Hv, rev_involutive.
Qed.

(** The parts of a record. *)
Lemma decrypt_parts (d : halfConn.t) t v1 v2 l1 l2 body :
  let header := [t; v1; v2; l1; l2] in
  decrypt (header ++ body) d =
  if (d.(version) =? VersionTLS13) && (b2z t =? recordTypeChangeCipherSpec) then Ret (d, inr (body, b2z t)) else
  run r := open_record d header body in
  match r with
  | inl (c, alert) => Ret (set_cipher c d, inl alert)
  | inr o =>
      match open_inner d (b2z t) o with
      | inl alert => Ret (set_cipher o.(o_cipher) d, inl alert)
      | inr (plaintext, typ) =>
          run r := check_mac d header o plaintext in
          match r with
          | inl alert => Ret (set_cipher o.(o_cipher) d, inl alert)
          | inr plaintext => run hc := incSeq (set_cipher o.(o_cipher) d) in Ret (hc, inr (plaintext, typ))
          end
      end
  end.
Proof.
  intros header. unfold decrypt.
  assert (Hl : len (header ++ body) = 5 + len body) by (by rewrite len_app). pose proof (len_nonneg body).
  assert (get (header ++ body) 0 = Ret (b2z t)) as ->.
  { unfold get. rewrite Hl. zbool. done. }
  assert (upto (header ++ body) recordHeaderLen = Ret header) as ->.
  { unfold upto, recordHeaderLen. rewrite Hl. zbool. by rewrite take_app_length'. }
  assert (from (header ++ body) recordHeaderLen = Ret body) as ->.
  { unfold from, recordHeaderLen. rewrite Hl. zbool. by rewrite drop_app_length'. }
  done.
Qed.

(** ** MACs *)

Lemma len_tls10MAC m s h x : len (tls10MAC m s h x) = mac_Size m.
Proof. unfold tls10MAC, len, mac_Size. by rewrite HMAC_len. Qed.

(** A payload that carries its own MAC and [pad] passes. *)
Lemma check_mac_ok d m t v1 v2 l1 l2 o payload pad rest : d.(mac) = Some m ->
  o.(o_payload) = payload ++ tls10MAC m d.(seq) [t; v1; v2; u8 (Z.shiftr (len payload) 8); u8 (len payload)] payload ++ pad ->
  o.(o_paddingLen) = len pad -> o.(o_paddingGood) = 255 ->
  check_mac d [t; v1; v2; l1; l2] o rest = Ret (inr payload).
Proof.
  intros Hm Hp Hl Hg. unfold check_mac. rewrite Hm. set (tag := tls10MAC _ _ _ _) in Hp.
  assert (Ht : len tag = mac_Size m) by apply len_tls10MAC. pose proof (len_nonneg pad). pose proof (len_nonneg payload).
  pose proof (len_nonneg tag). rewrite Hp, !len_app, Hl, Hg, Ht. zbool.
  replace (len payload + (mac_Size m + len pad) - mac_Size m - len pad) with (len payload) by lia. zbool.
  rewrite put_length. cbn [obind]. unfold slice, upto, from. rewrite !len_app, Ht. zbool. cbn [obind].
  assert (Hcut : take (Z.to_nat (len payload + mac_Size m)) (payload ++ tag ++ pad) = payload ++ tag).
  { rewrite app_assoc. apply take_app_length'. rewrite length_app. unfold len in *. lia. }
  rewrite Hcut, len_app, Ht. zbool. cbn [obind].
  rewrite drop_app_length' by (unfold len; lia). rewrite take_app_length' by (unfold len; lia). cbn [obind].
  fold tag. rewrite bool_decide_true by done. done.
Qed.

(** ** One record *)

(** The type in the header, which TLS 1.3 hides. *)
Definition outer_type (e : halfConn.t) (typ : Z) : Z :=
  if (e.(version) =? VersionTLS13) && non_nil e.(cipher) then recordTypeApplicationData else typ.

(** What is claimed of a record of a sender: the receiver gets the payload and the
    type, both ends stay in step, and the record is not too long. *)
Definition delivered (d : halfConn.t) (typ vers : Z) (payload : bytes) (e' : halfConn.t) (record : bytes) : Prop :=
  exists d' n, decrypt record d = Ret (d', inr (payload, typ)) /\ synced e' d' /\
    len record = recordHeaderLen + n /\ n <= maxCiphertext /\ (e'.(version) = VersionTLS13 -> n <= maxCiphertextTLS13) /\
    take 5 record = record_header (outer_type e' typ) vers n.

Context (rand_ok : forall n r, 0 <= n -> exists r' b, ReadFull n r = (r', inr b) /\ len b = n).

Notation header5 typ vers n := [u8 typ; u8 (Z.shiftr vers 8); u8 vers; u8 (Z.shiftr n 8); u8 n].

Lemma outer_type_old e typ : e.(version) <> VersionTLS13 -> outer_type e typ = typ.
Proof. intros H. unfold outer_type. by rewrite (proj2 (Z.eqb_neq _ _) H). Qed.

Lemma plain_record e d typ vers payload rand : synced e d -> e.(cipher) = None -> be_val d.(seq) + 1 < 2 ^ 64 ->
  0 <= typ < 256 -> len payload <= maxPlaintext ->
  exists record, encrypt ReadFull (record_header typ vers (len payload)) payload rand e = Ret (e, rand, inr record) /\
    delivered d typ vers payload e record.
Proof.
  intros Hsync He Hseq Ht Hp. pose proof Hsync as (Hv & Hle & Hld & Hs & Hc). unfold encrypt. rewrite He.
  exists (record_header typ vers (len payload) ++ payload). split; [done|]. unfold cipher_sync in Hc. rewrite He in Hc.
  destruct (cipher d) as [[]|] eqn:Hd; try done. destruct Hc as [Hme Hmd].
  unfold delivered, record_header. rewrite decrypt_parts, b2z_u8_small by done.
  assert (Hlen : len (header5 typ vers (len payload) ++ payload) = recordHeaderLen + len payload) by (by rewrite len_app).
  assert (Hbound : len payload <= maxCiphertext /\ len payload <= maxCiphertextTLS13) by (unfold maxPlaintext, maxCiphertext, maxCiphertextTLS13 in *; lia).
  unfold open_record. rewrite Hd. cbn [obind]. unfold open_inner. rewrite Hd. cbn [non_nil andb]. rewrite andb_false_r.
  unfold check_mac. rewrite Hmd. cbn [o_plaintext o_cipher obind].
  assert (Hsyn : forall s, length s = 8%nat -> synced e (set_seq s (set_cipher None d))).
  { intros s Hls. split_and!; cbn; [done|done|done|by intros []|]. unfold cipher_sync. cbn. by rewrite He. }
  assert (Hot : outer_type e typ = typ) by (unfold outer_type; by rewrite He, andb_false_r).
  case_match.
  - exists d, (len payload). split; [done|]. split; [done|]. split_and!; [done|lia|lia|by rewrite Hot].
  - destruct (incSeq_spec (set_cipher None d) Hld Hseq) as (s & -> & Hls & _). cbn [obind].
    exists (set_seq s (set_cipher None d)), (len payload). split; [done|]. split; [by apply Hsyn|].
    split_and!; [done|lia|lia|by rewrite Hot].
Qed.

(** Both ends after a record, with new ciphers. *)
Lemma synced_next e d c c' : synced e d -> e.(cipher) <> None -> be_val e.(seq) + 1 < 2 ^ 64 ->
  (forall s, cipher_sync (set_seq s (set_cipher (Some c) e)) (set_seq s (set_cipher (Some c') d))) ->
  exists e' d', incSeq (set_cipher (Some c) e) = Ret e' /\ incSeq (set_cipher (Some c') d) = Ret d' /\ synced e' d' /\
    e'.(version) = e.(version) /\ e'.(cipher) = Some c.
Proof.
  intros (Hv & Hle & Hld & Hs & _) Hn Hseq Hc. specialize (Hs Hn).
  destruct (incSeq_spec (set_cipher (Some c) e) Hle Hseq) as (s & He & Hls & Hvs).
  destruct (incSeq_spec (set_cipher (Some c') d) Hld) as (s' & Hd & Hls' & Hvs'); [cbn; by rewrite <- Hs|].
  assert (s' = s) as -> by (apply be_val_inj; [lia|]; rewrite Hvs, Hvs'; cbn; by rewrite Hs).
  eexists _, _. split; [exact He|]. split; [exact Hd|]. split; [|done]. by split_and!.
Qed.

Lemma encrypt_parts e c m payload rand rand' nonce c' typ vers t v1 v2 l1 l2 body e' : e.(cipher) = Some c ->
  make_nonce ReadFull e c rand = Ret (rand', inr nonce) ->
  seal_record e c (record_header typ vers m) payload nonce = Ret (c', [t; v1; v2; l1; l2], body) ->
  incSeq (set_cipher (Some c') e) = Ret e' ->
  encrypt ReadFull (record_header typ vers m) payload rand e =
    Ret (e', rand', inr ([t; v1; v2; u8 (Z.shiftr (len body) 8); u8 (len body)] ++ body)).
Proof.
  intros He Hn Hs Hi. unfold encrypt. rewrite He, Hn. cbn [obind].
  assert (upto (record_header typ vers m) recordHeaderLen = Ret (record_header typ vers m)) as -> by done.
  cbn [obind]. rewrite Hs. cbn [obind]. rewrite put_length. cbn [obind]. by rewrite Hi.
Qed.

Lemma hash_size_le h : Z.of_nat (hash_size h) <= 64.
Proof. destruct h; cbn; lia. Qed.

Lemma stream_record e d s typ vers payload rand : synced e d -> e.(cipher) = Some (Stream s) ->
  be_val e.(seq) + 1 < 2 ^ 64 -> 0 <= typ < 256 -> len payload <= maxPlaintext ->
  exists e' record, encrypt ReadFull (record_header typ vers (len payload)) payload rand e = Ret (e', rand, inr record) /\
    delivered d typ vers payload e' record.
Proof.
  intros Hsync He Hseq Ht Hp. pose proof Hsync as (Hv & _ & _ & Hs & Hc). specialize (Hs ltac:(by rewrite He)).
  unfold cipher_sync in Hc. rewrite He in Hc. destruct (cipher d) as [[s'| |]|] eqn:Hd; try done.
  destruct Hc as (Hss & (m & Hme & Hmd) & Hv13).
  set (tag := tls10MAC m (seq e) (header5 typ vers (len payload)) payload).
  destruct (XORKeyStream s payload) as [s1 d1] eqn:E1. destruct (XORKeyStream s1 tag) as [s2 d2] eqn:E2.
  assert (Hx : XORKeyStream s (payload ++ tag) = (s2, d1 ++ d2)) by (by rewrite XORKeyStream_app, E1, E2).
  destruct (XORKeyStream_sync _ _ _ _ _ Hss Hx) as (s'' & Hx' & Hss').
  destruct (synced_next e d (Stream s2) (Stream s'') Hsync ltac:(by rewrite He) Hseq) as (e' & d' & Hie & Hid & Hsync' & Hv' & Hc').
  { intros sq. unfold cipher_sync. cbn. split_and!; [done| |done]. by exists m. }
  exists e', (header5 typ vers (len (d1 ++ d2)) ++ (d1 ++ d2)). split.
  { eapply encrypt_parts; [exact He|unfold make_nonce, explicitNonceLen; by rewrite He| |exact Hie].
    unfold seal_record. rewrite Hme. unfold record_header. fold tag. by rewrite E1, E2. }
  unfold delivered. exists d', (len (d1 ++ d2)).
  assert (Hlen : len (d1 ++ d2) = len payload + mac_Size m).
  { rewrite (XORKeyStream_len _ _ _ _ Hx), len_app. unfold tag. by rewrite len_tls10MAC. }
  pose proof (hash_size_le m.(mac_hash)) as Hm. unfold mac_Size in Hlen.
  split; [|split; [done|]; split_and!;
    [apply len_record|unfold maxPlaintext, maxCiphertext in *; lia|congruence|by rewrite outer_type_old by congruence]].
  rewrite decrypt_parts, b2z_u8_small by done.
  replace (version d =? VersionTLS13) with false by (symmetry; apply Z.eqb_neq; congruence). cbn [andb].
  unfold open_record. rewrite Hd. cbn beta iota zeta. rewrite Hx'. cbn [obind]. unfold open_inner.
  replace (version d =? VersionTLS13) with false by (symmetry; apply Z.eqb_neq; congruence). cbn [andb o_plaintext].
  rewrite (check_mac_ok d m _ _ _ _ _ _ payload []) by (cbn; try done; by rewrite app_nil_r, <- Hs).
  cbn [obind o_cipher]. by rewrite Hid.
Qed.

(** The nonce on the wire and the one the AEAD is given. *)
Definition wire_nonce (hc : halfConn.t) (f : aead) : bytes :=
  if aead_explicitNonceLen f =? 0 then [] else hc.(seq).

Lemma aead_nonce_len f : aead_explicitNonceLen f = 0 \/ aead_explicitNonceLen f = 8.
Proof. destruct f; [by right|by left]. Qed.

Lemma make_nonce_aead e f rand : e.(cipher) = Some (Aead f) -> length e.(seq) = 8%nat ->
  make_nonce ReadFull e (Aead f) rand = Ret (rand, inr (wire_nonce e f)).
Proof.
  intros He Hl. unfold make_nonce, explicitNonceLen, wire_nonce. rewrite He.
  destruct (aead_nonce_len f) as [->| ->]; [done|].
  destruct (seq e) as [|b0 [|b1 [|b2 [|b3 [|b4 [|b5 [|b6 [|b7 [|]]]]]]]]]; done.
Qed.

Lemma peer_lens f g : aead_peer f g -> aead_explicitNonceLen f = aead_explicitNonceLen g /\ Overhead f = Overhead g /\
  Overhead f = AEAD_Overhead (inner_aead f).
Proof. destruct f, g; intros (Hp & _ & _); cbn in Hp |- *; try done; destruct Hp as [_ ->]; done. Qed.

(** The receiver cuts off the nonce that the sender wrote. *)
Lemma open_aead e d f g header ad p : synced e d -> e.(cipher) = Some (Aead f) -> d.(cipher) = Some (Aead g) -> aead_peer f g ->
  ad = (if d.(version) =? VersionTLS13 then header else additional_data d.(seq) header (len p)) ->
  let ct := AEAD_Seal (inner_aead f) (full_nonce f e.(seq)) p ad in
  exists g', open_record d header (wire_nonce e f ++ ct) = Ret (inr (MkOpened (Some (Aead g')) ct p 0 255)) /\ aead_peer f g'.
Proof.
  intros (Hv & Hle & Hld & Hs & _) He Hd Hpeer -> ct. specialize (Hs ltac:(by rewrite He)).
  destruct (peer_lens f g Hpeer) as (Hn & Ho & Hoi). destruct (open_spec f g e.(seq) p
    (if version d =? VersionTLS13 then header else additional_data (seq d) header (len p)) Hpeer Hle) as (g' & Hopen & Hp').
  exists g'. split; [|done]. unfold open_record, explicitNonceLen. rewrite Hd. cbn beta iota zeta. rewrite <- Hn.
  pose proof (len_nonneg ct).
  assert (Hcut : len (wire_nonce e f ++ ct) = aead_explicitNonceLen f + len ct /\
    upto (wire_nonce e f ++ ct) (aead_explicitNonceLen f) = Ret (wire_nonce e f) /\
    from (wire_nonce e f ++ ct) (aead_explicitNonceLen f) = Ret ct /\
    (if len (wire_nonce e f) =? 0 then seq d else wire_nonce e f) = seq e).
  { unfold wire_nonce. destruct (aead_nonce_len f) as [-> | ->].
    - change (0 =? 0) with true. cbn [app]. unfold upto, from. zbool. rewrite take_0, drop_0. split_and!; [lia|done|done|by rewrite Hs].
    - change (8 =? 0) with false. cbn iota. unfold upto, from. rewrite len_app.
      assert (Hl8 : len (seq e) = 8) by (unfold len; lia). rewrite Hl8. zbool.
      rewrite take_app_length', drop_app_length' by (by rewrite Hle). by split_and!. }
  destruct Hcut as (Hl & -> & -> & Hnon). rewrite Hl. zbool. cbn [obind]. rewrite Hnon.
  assert (len ct - Overhead g = len p) as -> by (unfold ct; rewrite AEAD_len; lia).
  unfold ct. rewrite Hopen. done.
Qed.

(** What a sender with an AEAD puts after the header, and the header. *)
Lemma seal_aead e f typ vers payload : e.(cipher) = Some (Aead f) -> length e.(seq) = 8%nat -> wf_aead f ->
  (e.(version) = VersionTLS13 -> aead_explicitNonceLen f = 0) -> 0 <= typ < 256 ->
  let tls13 := e.(version) =? VersionTLS13 in
  let n := len payload + 1 + Overhead f in
  let h := if tls13 then header5 recordTypeApplicationData vers n else header5 typ vers (len payload) in
  let p := if tls13 then payload ++ [u8 typ] else payload in
  exists f', seal_record e (Aead f) (record_header typ vers (len payload)) payload (wire_nonce e f) =
    Ret (Aead f', h, wire_nonce e f ++ AEAD_Seal (inner_aead f) (full_nonce f e.(seq)) p (if tls13 then h else e.(seq) ++ h)) /\
    aead_peer f f' /\ (forall nonce, full_nonce f' nonce = full_nonce f nonce) /\ inner_aead f' = inner_aead f.
Proof.
  intros He Hl Hw H13 Ht tls13 n h p. unfold seal_record.
  assert (Hnonce : (if len (wire_nonce e f) =? 0 then seq e else wire_nonce e f) = seq e).
  { unfold wire_nonce. destruct (aead_explicitNonceLen f =? 0); [done|]. by destruct (len (seq e) =? 0). }
  rewrite Hnonce. subst tls13 h p. destruct (Z.eqb_spec e.(version) VersionTLS13) as [Hv|Hv].
  - unfold wire_nonce. rewrite (H13 Hv). change (0 =? 0) with true. cbn [app].
    assert (get (record_header typ vers (len payload)) 0 = Ret typ) as ->.
    { transitivity (Ret (b2z (u8 typ))); [done|by rewrite b2z_u8_small]. }
    cbn [obind]. unfold record_header. rewrite put_type. cbn [obind].
    edestruct (seal_spec f (seq e)) as (f' & Hs & Hf'); [done|done|]. rewrite Hs. cbn [obind]. by exists f'.
  - edestruct (seal_spec f (seq e)) as (f' & Hs & Hf'); [done|done|]. rewrite Hs. cbn [obind]. by exists f'.
Qed.

Lemma peer_trans f g f' : aead_peer f g -> aead_peer f f' -> aead_peer f' g.
Proof.
  destruct f, g, f'; intros (H & Hf & Hg) (H' & _ & Hf'); cbn in *; try done; unfold aead_peer, wf_aead; intuition congruence.
Qed.

Lemma peer_nonce_len f f' : aead_peer f f' -> aead_explicitNonceLen f' = aead_explicitNonceLen f.
Proof. intros H. by destruct (peer_lens f f' H) as [-> _]. Qed.

Lemma inner_plaintext_snoc payload typ : 0 < typ < 256 -> inner_plaintext (payload ++ [u8 typ]) 23 = Some (payload, typ).
Proof.
  intros Ht. unfold inner_plaintext. destruct (payload ++ [u8 typ]) as [|a l] eqn:E; [by destruct payload|]. rewrite <- E.
  rewrite rev_app_distr. cbn. rewrite b2z_u8_small by lia. zbool. by rewrite rev_involutive.
Qed.

(** The inner plaintext of TLS 1.3, or the plaintext. *)
Lemma open_inner_aead d c ct payload typ : d.(cipher) <> None -> 0 < typ < 256 -> len payload <= maxPlaintext ->
  let tls13 := d.(version) =? VersionTLS13 in
  open_inner d (if tls13 then recordTypeApplicationData else typ)
    (MkOpened c ct (if tls13 then payload ++ [u8 typ] else payload) 0 255) = inr (payload, typ).
Proof.
  intros Hd Ht Hp tls13. unfold open_inner. fold tls13. destruct (cipher d); [|done]. cbn [non_nil o_plaintext].
  rewrite andb_true_r. destruct tls13; [|done].
  change (recordTypeApplicationData =? recordTypeApplicationData) with true. cbn [negb].
  assert (len (payload ++ [u8 typ]) = len payload + 1) by (by rewrite len_app).
  replace (_ <? _) with false by (unfold maxPlaintext in *; lia). by rewrite inner_plaintext_snoc.
Qed.

Lemma aead_record e d f typ vers payload rand : synced e d -> e.(cipher) = Some (Aead f) ->
  be_val e.(seq) + 1 < 2 ^ 64 -> 0 < typ < 256 -> len payload <= maxPlaintext ->
  exists e' record, encrypt ReadFull (record_header typ vers (len payload)) payload rand e = Ret (e', rand, inr record) /\
    delivered d typ vers payload e' record.
Proof.
  intros Hsync He Hseq Ht Hp. pose proof Hsync as (Hv & Hle & Hld & Hs & Hc). specialize (Hs ltac:(by rewrite He)).
  unfold cipher_sync in Hc. rewrite He in Hc. destruct (cipher d) as [[|g|]|] eqn:Hd; try done.
  destruct Hc as (Hpeer & (Hme & Hmd) & H13). pose proof Hpeer as (_ & Hwf & _).
  destruct (seal_aead e f typ vers payload He Hle Hwf H13 ltac:(lia)) as (f' & Hseal & Hpf' & _ & _).
  set (tls13 := version e =? VersionTLS13) in *.
  set (h := if tls13 then header5 recordTypeApplicationData vers (len payload + 1 + Overhead f) else header5 typ vers (len payload)) in *.
  set (p := if tls13 then payload ++ [u8 typ] else payload) in *.
  set (body := wire_nonce e f ++ AEAD_Seal _ _ _ _) in Hseal.
  destruct (peer_lens f g Hpeer) as (_ & _ & Ho). pose proof (AEAD_Overhead_range (inner_aead f)) as Hov.
  assert (Hlp : len p = len payload + (if tls13 then 1 else 0)) by (subst p; destruct tls13; rewrite ?len_app; [done|lia]).
  assert (Hone : 0 <= (if tls13 then 1 else 0) <= 1) by (destruct tls13; lia).
  assert (Hbody : len body = len (wire_nonce e f) + (len p + Overhead f)) by (subst body; by rewrite len_app, AEAD_len, Ho).
  assert (Hwn : len (wire_nonce e f) <= 8 /\ (tls13 = true -> len (wire_nonce e f) = 0)).
  { unfold wire_nonce. split.
    - destruct (_ =? 0); unfold len; [done|lia].
    - intros H. rewrite H13 by (by apply Z.eqb_eq). done. }
  set (t := if tls13 then recordTypeApplicationData else typ).
  assert (Hh : header5 t vers (len body) = if tls13 then h else [u8 typ; u8 (Z.shiftr vers 8); u8 vers; u8 (Z.shiftr (len body) 8); u8 (len body)]).
  { subst t h. destruct tls13; [|done]. repeat f_equal; lia. }
  destruct (open_aead e d f g (header5 t vers (len body)) (if tls13 then h else seq e ++ h) p Hsync He Hd Hpeer) as (g' & Hopen & Hpg').
  { rewrite <- Hv. fold tls13. rewrite Hh. destruct tls13; [done|]. subst h. unfold additional_data. cbn [take].
    by rewrite Hs, Hlp, Z.add_0_r. }
  destruct (synced_next e d (Aead f') (Aead g') Hsync ltac:(by rewrite He) Hseq) as (e' & d' & Hie & Hid & Hsync' & Hv' & Hc').
  { intros sq. unfold cipher_sync. cbn. split_and!; [by apply (peer_trans f g')|done|].
    intros ?. rewrite (peer_nonce_len f f'); [by apply H13|done]. }
  exists e', (header5 t vers (len body) ++ body). split.
  { subst h t. destruct tls13; (eapply encrypt_parts; [exact He|by apply make_nonce_aead|exact Hseal|exact Hie]). }
  exists d', (len body). split; [|split; [done|]; split_and!;
    [apply len_record|unfold maxPlaintext, maxCiphertext in *; lia| |by unfold outer_type; rewrite Hv', Hc', andb_true_r]].
  - rewrite decrypt_parts, b2z_u8_small by (subst t; unfold recordTypeApplicationData; destruct tls13; lia).
    assert (Hopen' : open_record d (header5 t vers (len body)) body = Ret (inr (MkOpened (Some (Aead g')) _ p 0 255))) by exact Hopen.
    assert (Hvd : (version d =? VersionTLS13) = tls13) by (by rewrite <- Hv).
    assert (Hinner := open_inner_aead d (Some (Aead g')) (AEAD_Seal (inner_aead f) (full_nonce f (seq e)) p
      (if tls13 then h else seq e ++ h)) payload typ ltac:(by rewrite Hd) Ht Hp). rewrite Hvd in Hinner.
    replace (_ && _) with false by (rewrite Hvd; subst t; by destruct tls13).
    rewrite Hopen'. cbn [obind]. subst t p. rewrite Hinner. unfold check_mac. rewrite Hmd. cbn [obind o_cipher]. by rewrite Hid.
  - intros H. rewrite Hv' in H. assert (tls13 = true) as E by (by apply Z.eqb_eq). destruct Hwn as [_ Hwn]. rewrite (Hwn E) in Hbody.
    rewrite E in Hlp. unfold maxPlaintext, maxCiphertextTLS13 in *. lia.
Qed.

(** ** Block modes *)

Lemma cbc_padding_spec bs n : 8 <= bs <= 16 -> 0 <= n ->
  exists p, cbc_padding bs n = replicate (Z.to_nat (p + 1)) (u8 p) /\ 0 <= p < bs /\ (n + (p + 1)) mod bs = 0.
Proof.
  intros Hb Hn. exists (bs - Z.rem n bs - 1). pose proof (Z.rem_bound_pos n bs ltac:(lia) ltac:(lia)).
  split; [unfold cbc_padding; f_equal; lia|]. split; [lia|].
  rewrite Z.rem_mod_nonneg in * by lia. pose proof (Z.div_mod n bs ltac:(lia)).
  replace (n + (bs - n mod bs - 1 + 1)) with ((n / bs + 1) * bs) by lia. apply Z.mod_mul. lia.
Qed.

Lemma rev_replicate n (x : byte) : rev (replicate n x) = replicate n x.
Proof. rewrite rev_alt. apply reverse_replicate. Qed.

Lemma padding_of_replicate x p : 0 <= p < 256 -> padding_of (x ++ replicate (Z.to_nat (p + 1)) (u8 p)) = Some p.
Proof.
  intros Hp. unfold padding_of. rewrite rev_app_distr, rev_replicate, len_app. unfold len at 2. rewrite length_replicate.
  replace (Z.to_nat (p + 1)) with (S (Z.to_nat p)) at 1 by lia. cbn [replicate app]. rewrite b2z_u8_small by done.
  pose proof (len_nonneg x). zbool. rewrite bool_decide_true; [done|].
  rewrite take_app_le by (rewrite length_replicate; lia). rewrite take_replicate. apply Forall_replicate. done.
Qed.

Lemma roundUp_le a b k : 0 < b -> 0 <= a -> a <= k -> k mod b = 0 -> roundUp a b <= k.
Proof.
  intros Hb Ha Hk Hm. unfold roundUp. rewrite (Z.rem_mod_nonneg a) by lia.
  pose proof (Z.mod_pos_bound a b Hb). rewrite Z.rem_mod_nonneg by lia.
  pose proof (Z.div_mod a b ltac:(lia)). apply Z.mod_divide in Hm as [q ->]; [|lia].
  destruct (decide (a mod b = 0)) as [E|E].
  - rewrite E, Z.sub_0_r, Z_mod_same_full. lia.
  - rewrite (Z.mod_small (b - a mod b)) by lia. assert (a <> q * b) by (intros ->; by rewrite Z_mod_mult in E).
    assert (a / b < q) by (apply Z.div_lt_upper_bound; lia). nia.
Qed.

(** The explicit IV of a sender. *)
Lemma make_nonce_cbc e b rand : e.(cipher) = Some (CbcMode b) -> 8 <= BlockSize b <= 16 ->
  exists rand' iv, make_nonce ReadFull e (CbcMode b) rand = Ret (rand', inr iv) /\ len iv = explicitNonceLen e.
Proof.
  intros He Hb. unfold make_nonce, explicitNonceLen. rewrite He. destruct (VersionTLS11 <=? version e).
  - destruct (rand_ok (BlockSize b) rand ltac:(lia)) as (r & iv & Hr & Hl). zbool. cbn [is_cbc negb andb]. rewrite Hr. by exists r, iv.
  - by exists rand, [].
Qed.

(** Decryption of a block mode, after the IV. *)
Lemma open_cbc d b b' header iv dst c m payload p tag : d.(cipher) = Some (CbcMode b) -> d.(mac) = Some m ->
  8 <= BlockSize b <= 16 -> len iv = explicitNonceLen d -> len dst mod BlockSize b = 0 ->
  dst = payload ++ tag ++ replicate (Z.to_nat (p + 1)) (u8 p) -> len tag = mac_Size m -> 0 <= p < 256 -> len dst < 2 ^ 31 ->
  len c = len dst ->
  CryptBlocks (if 0 <? len iv then SetIV iv b else b) c = (b', dst) ->
  open_record d header (iv ++ c) = Ret (inr (MkOpened (Some (CbcMode b')) dst [] (p + 1) 255)).
Proof.
  intros Hd Hm Hb Hiv Hmod Hdst Htag Hp Hbig Hlc Hcrypt. unfold open_record. rewrite Hd, Hm. cbn beta iota zeta. rewrite <- Hiv.
  assert (Hmin : roundUp (mac_Size m + 1) (BlockSize b) <= len dst).
  { apply roundUp_le; [lia|unfold mac_Size; lia| |done]. rewrite Hdst, !len_app, Htag. unfold len at 2. rewrite length_replicate.
    pose proof (len_nonneg payload). lia. }
  pose proof (len_nonneg iv) as Hiv0. pose proof (len_nonneg dst) as Hd0.
  assert (Hmul : Z.rem (len (iv ++ c)) (BlockSize b) = 0).
  { rewrite len_app, Hlc, Z.rem_mod_nonneg by lia. rewrite Z.add_mod, Hmod, Z.add_0_r, Z.mod_mod by lia.
    rewrite Hiv. unfold explicitNonceLen. rewrite Hd.
    destruct (VersionTLS11 <=? version d); [by apply Z_mod_same_full|by apply Z.mod_0_l; lia]. }
  rewrite Hmul, len_app, Hlc. zbool.
  assert ((if 0 <? len iv then run iv0 := upto (iv ++ c) (len iv) in run rest := from (iv ++ c) (len iv) in Ret (SetIV iv0 b, rest)
    else Ret (b, iv ++ c)) = Ret (if 0 <? len iv then SetIV iv b else b, c)) as ->.
  { destruct (Z.ltb_spec 0 (len iv)); [|destruct iv; [done|rewrite len_cons in *; pose proof (len_nonneg iv); lia]]. unfold upto, from. rewrite len_app. pose proof (len_nonneg c). zbool.
    cbn [obind]. by rewrite take_app_length', drop_app_length' by (unfold len; lia). }
  cbn [obind]. rewrite Hcrypt. rewrite extract_padding_spec by done.
  assert (Hpad : padding_of dst = Some p) by (rewrite Hdst, app_assoc; by apply padding_of_replicate).
  rewrite Hpad. by destruct dst.
Qed.

Lemma cbc_record e d b typ vers payload rand : synced e d -> e.(cipher) = Some (CbcMode b) ->
  be_val e.(seq) + 1 < 2 ^ 64 -> 0 <= typ < 256 -> len payload <= maxPlaintext ->
  exists e' rand' record, encrypt ReadFull (record_header typ vers (len payload)) payload rand e = Ret (e', rand', inr record) /\
    delivered d typ vers payload e' record.
Proof.
  intros Hsync He Hseq Ht Hp. pose proof Hsync as (Hv & _ & _ & Hs & Hc). specialize (Hs ltac:(by rewrite He)).
  unfold cipher_sync in Hc. rewrite He in Hc. destruct (cipher d) as [[| |b']|] eqn:Hd; try done.
  destruct Hc as (Hss & (m & Hme & Hmd) & Hv13). destruct (cbc_block _ _ Hss) as [Hbs Hb].
  set (tag := tls10MAC m (seq e) (header5 typ vers (len payload)) payload).
  assert (Htag : len tag = mac_Size m) by apply len_tls10MAC. pose proof (hash_size_le m.(mac_hash)) as Hm. unfold mac_Size in Htag.
  destruct (cbc_padding_spec (BlockSize b) (len payload + len tag) Hb) as (p & Hpad & Hpr & Hmod).
  { pose proof (len_nonneg payload). pose proof (len_nonneg tag). lia. }
  set (dst := payload ++ tag ++ replicate (Z.to_nat (p + 1)) (u8 p)).
  assert (Hdst : len dst = len payload + len tag + (p + 1)).
  { unfold dst. rewrite !len_app. unfold len at 3. rewrite length_replicate. lia. }
  destruct (make_nonce_cbc e b rand He Hb) as (rand' & iv & Hn & Hiv).
  set (be := if 0 <? len iv then SetIV iv b else b). set (bd := if 0 <? len iv then SetIV iv b' else b').
  assert (Hsiv : cbc_sync be bd /\ BlockSize be = BlockSize b).
  { subst be bd. destruct (0 <? len iv); [by apply SetIV_sync|done]. }
  destruct Hsiv as [Hsiv Hbe]. destruct (CryptBlocks be dst) as [be' c] eqn:Ecrypt.
  destruct (CryptBlocks_sync _ _ _ _ _ Hsiv ltac:(by rewrite Hbe, Hdst) Ecrypt) as (Hlc & bd' & Hdec & Hsiv').
  destruct (synced_next e d (CbcMode be') (CbcMode bd') Hsync ltac:(by rewrite He) Hseq) as (e' & d' & Hie & Hid & Hsync' & Hv' & Hc').
  { intros sq. unfold cipher_sync. cbn. split_and!; [done| |done]. by exists m. }
  assert (Hivd : len iv = explicitNonceLen d /\ len iv <= 16).
  { rewrite Hiv. unfold explicitNonceLen. rewrite He, Hd, <- Hv, Hbs. destruct (_ <=? _); lia. }
  exists e', rand', (header5 typ vers (len (iv ++ c)) ++ (iv ++ c)). split.
  { eapply encrypt_parts; [exact He|exact Hn| |exact Hie]. unfold seal_record. rewrite Hme. unfold record_header. fold tag.
    rewrite Hpad. fold dst be. by rewrite Ecrypt. }
  exists d', (len (iv ++ c)). split; [|split; [done|]; split_and!;
    [apply len_record|rewrite len_app; unfold maxPlaintext, maxCiphertext in *; lia|congruence|by rewrite outer_type_old by congruence]].
  rewrite decrypt_parts, b2z_u8_small by done.
  assert (Hn13 : (version d =? VersionTLS13) = false) by (apply Z.eqb_neq; congruence). rewrite Hn13. cbn [andb].
  rewrite (open_cbc d b' bd' _ iv dst c m payload p tag) by
    (first [done|lia|rewrite <- Hbs, Hdst; done|unfold maxPlaintext in *; lia]).
  cbn [obind]. unfold open_inner. rewrite Hn13. cbn [andb o_plaintext].
  rewrite (check_mac_ok d m _ _ _ _ _ _ payload (replicate (Z.to_nat (p + 1)) (u8 p))); [|done|cbn; by rewrite <- Hs| |done].
  - cbn [obind o_cipher]. by rewrite Hid.
  - cbn. unfold len. rewrite length_replicate. lia.
Qed.

(** A record that one end encrypts, with any kind of cipher and in any version, is
    decrypted by the other end to the same payload and type; both ends stay in
    step, so that this goes on, and the record is never longer than the receiver
    accepts. *)
Lemma record_step e d typ vers payload rand : synced e d -> 0 < typ < 256 -> len payload <= maxPlaintext ->
  be_val e.(seq) + 1 < 2 ^ 64 -> be_val d.(seq) + 1 < 2 ^ 64 ->
  exists e' rand' record, encrypt ReadFull (record_header typ vers (len payload)) payload rand e = Ret (e', rand', inr record) /\
    delivered d typ vers payload e' record.
Proof.
  intros Hs Ht Hp He Hd. destruct (cipher e) as [[s|f|b]|] eqn:Hc.
  - destruct (stream_record e d s typ vers payload rand) as (e' & r & H); try done; [lia|]. by exists e', rand, r.
  - destruct (aead_record e d f typ vers payload rand) as (e' & r & H); try done. by exists e', rand, r.
  - apply (cbc_record e d b); try done. lia.
  - destruct (plain_record e d typ vers payload rand) as (r & H); try done; [lia|]. by exists e, rand, r.
Qed.

(** ** Nonces *)

Lemma inc_bytes_inv r r' : inc_bytes r = Ret r' -> length r' = length r /\ be_val (rev r') = be_val (rev r) + 1.
Proof.
  revert r'. induction r as [|b r IH]; intros r'; [done|]. cbn [inc_bytes]. pose proof (b2z_range b). rewrite b2z_u8.
  case_match eqn:E.
  - intros [= <-]. split; [done|]. cbn [rev]. rewrite !be_val_snoc, b2z_u8. apply negb_true_iff, Z.eqb_neq in E.
    destruct (decide (b2z b = 255)) as [Hx|]; [by rewrite Hx in E|]. rewrite Z.mod_small by lia. lia.
  - apply negb_false_iff, Z.eqb_eq in E. assert (b2z b = 255) as Hx.
    { destruct (decide (b2z b = 255)); [done|]. rewrite Z.mod_small in E by lia. lia. }
    destruct (inc_bytes r) as [|r1]; [done|]. intros [= <-]. destruct (IH r1 eq_refl) as [Hl Hv]. cbn [length rev].
    split; [by rewrite Hl|]. rewrite !be_val_snoc, Hv, b2z_u8, Hx. change ((255 + 1) mod 256) with 0. lia.
Qed.

Lemma full_nonce_inj f n n' : wf_aead f -> length n = 8%nat -> length n' = 8%nat -> full_nonce f n = full_nonce f n' -> n = n'.
Proof.
  destruct f; cbn; intros Hw Hn Hn' H; apply app_inv_head in H; [done|].
  by eapply xor_bytes_inj; [| |exact H]; rewrite length_drop; lia.
Qed.

(** ** What encryption and decryption leave alone *)

Lemma incSeq_inv hc hc' : incSeq hc = Ret hc' ->
  exists s, hc' = set_seq s hc /\ length s = length hc.(seq) /\ be_val s = be_val hc.(seq) + 1.
Proof.
  unfold incSeq. destruct (inc_bytes (rev hc.(seq))) as [|r] eqn:E; [done|]. intros [= <-].
  destruct (inc_bytes_inv _ _ E) as [Hl Hv]. rewrite rev_involutive in Hv. rewrite length_rev in Hl.
  exists (rev r). rewrite length_rev. done.
Qed.

(** Only the cipher and the sequence number, by at most one, change. *)
Definition moved (hc hc' : halfConn.t) : Prop :=
  exists c s, hc' = set_seq s (set_cipher c hc) /\ non_nil c = non_nil hc.(cipher) /\
    length s = length hc.(seq) /\ be_val hc.(seq) <= be_val s <= be_val hc.(seq) + 1.

Lemma moved_refl hc : moved hc hc.
Proof. exists hc.(cipher), hc.(seq). split_and!; [by destruct hc|done|done|lia|lia]. Qed.

Lemma moved_cipher hc c : non_nil c = non_nil hc.(cipher) -> moved hc (set_cipher c hc).
Proof. intros H. exists c, hc.(seq). split_and!; [by destruct hc|done|done|lia|lia]. Qed.

Lemma moved_next hc c hc' : non_nil c = non_nil hc.(cipher) -> incSeq (set_cipher c hc) = Ret hc' -> moved hc hc'.
Proof.
  intros Hc (s & -> & Hl & Hv)%incSeq_inv. exists c, s. cbn in *. split_and!; [done|done|done|lia|lia].
Qed.

Lemma encrypt_moved hc header payload rand hc' rand' r :
  encrypt ReadFull header payload rand hc = Ret (hc', rand', r) -> moved hc hc'.
Proof.
  unfold encrypt. destruct (cipher hc) as [c|] eqn:Hc; [|intros [= <- <- <-]; apply moved_refl].
  destruct (make_nonce ReadFull hc c rand) as [|[rand1 [e|nonce]]]; cbn [obind]; [done|intros [= <- <- <-]; apply moved_refl|].
  destruct (upto header recordHeaderLen) as [|h]; cbn [obind]; [done|].
  destruct (seal_record hc c h payload nonce) as [|[[c' h'] body]]; cbn [obind]; [done|].
  match goal with |- context [(put 3 ?a ;! put 4 ?b) h'] => destruct ((put 3 a ;! put 4 b) h') as [|h''] end; cbn [obind]; [done|].
  destruct (incSeq (set_cipher (Some c') hc)) as [|hc1] eqn:Ei; cbn [obind]; [done|]. intros [= <- <- <-].
  eapply moved_next; [|exact Ei]. by rewrite Hc.
Qed.

Lemma open_record_cipher hc header payload r : open_record hc header payload = Ret r ->
  match r with inl (c, a) => non_nil c = non_nil hc.(cipher) /\ a = alertBadRecordMAC | inr o => non_nil o.(o_cipher) = non_nil hc.(cipher) end.
Proof.
  unfold open_record. destruct (cipher hc) as [[s|f|b]|] eqn:Hc.
  - destruct (XORKeyStream s payload). by intros [= <-].
  - case_match; [by intros [= <-]|]. destruct (upto payload _) as [|n]; cbn [obind]; [done|].
    destruct (from payload _) as [|p]; cbn [obind]; [done|]. destruct (Open f _ _ _) as [|[f' [x|]]]; cbn [obind]; [done| |]; by intros [= <-].
  - destruct (mac hc); [|done]. case_match; [by intros [= <-]|].
    match goal with |- (run (b0, p0) := ?x in _) = _ -> _ => destruct x as [|[b1 p1]] end; cbn [obind]; [done|].
    destruct (CryptBlocks b1 p1) as [b2 p2]. destruct (extractPadding p2) as [|[? ?]]; cbn [obind]; [done|]. by intros [= <-].
  - by intros [= <-].
Qed.

Lemma decrypt_moved hc record hc' r : decrypt record hc = Ret (hc', r) -> moved hc hc'.
Proof.
  unfold decrypt. destruct (get record 0) as [|typ]; cbn [obind]; [done|].
  destruct (upto record _) as [|h]; cbn [obind]; [done|]. destruct (from record _) as [|p]; cbn [obind]; [done|].
  case_match; [intros [= <- <-]; apply moved_refl|].
  destruct (open_record hc h p) as [|[[c a]|o]] eqn:Eo; cbn [obind]; [done| |]; apply open_record_cipher in Eo.
  { intros [= <- <-]. apply moved_cipher, Eo. }
  destruct (open_inner hc typ o) as [a|[pt t]]; [intros [= <- <-]; by apply moved_cipher|].
  destruct (check_mac hc h o pt) as [|[a|pt']]; cbn [obind]; [done|intros [= <- <-]; by apply moved_cipher|].
  destruct (incSeq (set_cipher (o_cipher o) hc)) as [|hc1] eqn:Ei; cbn [obind]; [done|]. intros [= <- <-].
  by eapply moved_next.
Qed.

(** The alerts of decryption. *)
Lemma decrypt_alert record hc hc' a : decrypt record hc = Ret (hc', inl a) ->
  a ∈ [alertBadRecordMAC; alertUnexpectedMessage; alertRecordOverflow].
Proof.
  assert (Hi : forall typ o a, open_inner hc typ o = inl a -> a ∈ [alertUnexpectedMessage; alertRecordOverflow]).
  { intros typ o b. unfold open_inner. repeat case_match; intros [= <-]; by repeat constructor. }
  assert (Hm : forall h o p a, check_mac hc h o p = Ret (inl a) -> a = alertBadRecordMAC).
  { intros h o p b. unfold check_mac. destruct (mac hc); [|done]. case_match; [by intros [= <-]|].
    match goal with |- context [(put 3 ?x ;! put 4 ?y) h] => destruct ((put 3 x ;! put 4 y) h) as [|h'] end; cbn [obind]; [done|].
    destruct (slice _ _ _) as [|r]; cbn [obind]; [done|]. destruct (upto _ _) as [|d]; cbn [obind]; [done|].
    repeat case_match; by intros [= <-]. }
  unfold decrypt. destruct (get record 0) as [|typ]; cbn [obind]; [done|].
  destruct (upto record _) as [|h]; cbn [obind]; [done|]. destruct (from record _) as [|p]; cbn [obind]; [done|]. case_match; [done|].
  destruct (open_record hc h p) as [|[[c b]|o]] eqn:Eo; cbn [obind]; [done| |].
  { intros [= _ <-]. apply open_record_cipher in Eo as [_ ->]. by constructor. }
  destruct (open_inner hc typ o) as [b|[pt t]] eqn:Ei; [intros [= _ <-]; apply Hi in Ei; by constructor|].
  destruct (check_mac hc h o pt) as [|[b|pt']] eqn:Em; cbn [obind]; [done| |].
  - intros [= _ <-]. apply Hm in Em as ->. by constructor.
  - by destruct (incSeq _).
Qed.

(** The records sent one after the other with the nonce each gave the AEAD, until
    one cannot be sent. *)
Fixpoint send_all (rs : list (Z * Z * bytes)) (rand : reader) (hc : halfConn.t) : outcome (list (bytes * bytes)) :=
  match rs with
  | [] => Ret []
  | (typ, vers, payload) :: rs =>
      run (hc', rand, r) := encrypt ReadFull (record_header typ vers (len payload)) payload rand hc in
      match r, hc.(cipher) with
      | inr record, Some (Aead f) =>
          run sent := send_all rs rand hc' in Ret ((full_nonce f hc.(seq), record) :: sent)
      | _, _ => Ret []
      end
  end.

(** One step of that. *)
Lemma encrypt_aead e f typ vers payload rand e' rand' r : e.(cipher) = Some (Aead f) -> length e.(seq) = 8%nat -> wf_aead f ->
  (e.(version) = VersionTLS13 -> aead_explicitNonceLen f = 0) -> 0 <= typ < 256 ->
  encrypt ReadFull (record_header typ vers (len payload)) payload rand e = Ret (e', rand', r) ->
  exists f' record pre p ad, r = inr record /\ e'.(cipher) = Some (Aead f') /\ e'.(version) = e.(version) /\
    length e'.(seq) = 8%nat /\ be_val e'.(seq) = be_val e.(seq) + 1 /\ aead_peer f f' /\
    (forall nonce, full_nonce f' nonce = full_nonce f nonce) /\ inner_aead f' = inner_aead f /\
    record = pre ++ AEAD_Seal (inner_aead f) (full_nonce f e.(seq)) p ad.
Proof.
  intros He Hl Hw H13 Ht Henc. destruct (seal_aead e f typ vers payload He Hl Hw H13 Ht) as (f' & Hs & Hp & Hfn & Hi).
  unfold encrypt in Henc. rewrite He, (make_nonce_aead e f rand He Hl) in Henc. cbn [obind] in Henc.
  assert (upto (record_header typ vers (len payload)) recordHeaderLen = Ret (record_header typ vers (len payload))) as Hu by done.
  rewrite Hu in Henc. cbn [obind] in Henc. rewrite Hs in Henc. cbn [obind] in Henc.
  match type of Henc with context [put 4 (len ?b)] => set (body := b) in Henc end.
  match type of Henc with context [(put 3 _ ;! put 4 _) ?b] => set (h := b) in Henc end.
  destruct ((put 3 (Z.shiftr (len body) 8) ;! put 4 (len body)) h) as [|h'] eqn:Eh; [done|]. cbn [obind] in Henc.
  destruct (incSeq (set_cipher (Some (Aead f')) e)) as [|e1] eqn:Ei; [done|]. cbn [obind] in Henc. injection Henc as <- <- <-.
  unfold incSeq in Ei. cbn in Ei. destruct (inc_bytes (rev (seq e))) as [|s] eqn:Es; [done|]. cbn in Ei. injection Ei as <-.
  destruct (inc_bytes_inv _ _ Es) as [Hls Hvs]. rewrite rev_involutive in Hvs. rewrite length_rev in Hls.
  eexists f', _, (h' ++ wire_nonce e f), _, _. split; [done|]. cbn. rewrite length_rev, Hls.
  split_and!; try done. by unfold body; rewrite <- app_assoc.
Qed.

(** C13: whatever records are sent with an AEAD, each is sealed under the same key with a
    nonce that no other record uses, until the sequence number runs out and
    nothing more is sent. *)
Theorem nonce_never_reused rs rand hc f sent : hc.(cipher) = Some (Aead f) -> length hc.(seq) = 8%nat -> wf_aead f ->
  (hc.(version) = VersionTLS13 -> aead_explicitNonceLen f = 0) -> Forall (fun r => 0 <= r.1.1 < 256) rs ->
  send_all rs rand hc = Ret sent ->
  length sent = length rs /\ NoDup (map fst sent) /\
  Forall (fun s => exists pre p ad, s.2 = pre ++ AEAD_Seal (inner_aead f) s.1 p ad) sent.
Proof.
  intros Hc Hl Hw H13 Hrs Hsend.
  cut (length sent = length rs /\ NoDup (map fst sent) /\
    Forall (fun s => exists pre p ad n, s.2 = pre ++ AEAD_Seal (inner_aead f) s.1 p ad /\
      s.1 = full_nonce f n /\ length n = 8%nat /\ be_val hc.(seq) <= be_val n) sent).
  { intros (H1 & H2 & H3). split_and!; [done|done|]. eapply Forall_impl; [exact H3|]. intros s (pre & p & ad & n & H & _). by exists pre, p, ad. }
  revert rand hc f sent Hc Hl Hw H13 Hsend.
  induction Hrs as [|[[typ vers] payload] rs Ht _ IH]; intros rand hc f sent Hc Hl Hw H13 Hsend; cbn [send_all] in Hsend.
  { injection Hsend as <-. by split_and!; [|constructor|constructor]. }
  destruct (encrypt _ _ _ _ _) as [|[[hc' rand'] r]] eqn:E; [done|]. cbn [obind] in Hsend.
  destruct (encrypt_aead _ _ _ _ _ _ _ _ _ Hc Hl Hw H13 Ht E) as (f' & record & pre & p & ad & -> & Hc' & Hv' & Hl' & Hseq & Hpeer & Hfn & Hi & Hrec).
  rewrite Hc in Hsend. destruct (send_all rs rand' hc') as [|tl] eqn:Etl; [done|]. injection Hsend as <-.
  pose proof Hpeer as (_ & _ & Hw').
  destruct (IH rand' hc' f' tl Hc' Hl' Hw') as (Hlen & Hnd & Hall); [|done|].
  { rewrite Hv'. intros H. rewrite (peer_nonce_len f f') by done. by apply H13. }
  rewrite Hi in Hall. cbn [map length fst]. split_and!; [by rewrite Hlen| |].
  - constructor; [|done]. intros Hin. apply list_elem_of_fmap in Hin as (s & Hs & Hin).
    rewrite Forall_forall in Hall. destruct (Hall s Hin) as (_ & _ & _ & n & _ & Hn & Hln & Hle).
    rewrite Hn, Hfn in Hs. apply full_nonce_inj in Hs; [|done|done|done]. subst n. lia.
  - constructor; [by exists pre, p, ad, (seq hc)|]. eapply Forall_impl; [exact Hall|].
    intros s (pre' & p' & ad' & n & H1 & H2 & H3 & H4). exists pre', p', ad', n. rewrite <- Hfn. split_and!; try done. lia.
Qed.
End RoundTrip.

(** * Toy ciphers, for examples *)

Definition toy_xor (k : Z) (b : byte) : byte := u8 (Z.lxor (b2z b) (b2z (u8 k))).
(** The key stream counts. *)
Fixpoint toy_stream (k : Z) (p : bytes) : Z * bytes :=
  match p with
  | [] => (k, [])
  | b :: p => let (k', c) := toy_stream (k + 1) p in (k', toy_xor k b :: c)
  end.
Definition toy_tag (a : Z) (n p ad : bytes) : byte := u8 (a + be_val n + be_val p + be_val ad).
#[export] Instance toy_ciphers : Ciphers := {|
  stream := Z;
  XORKeyStream := toy_stream;
  cbc := bytes;
  BlockSize _ := 16;
  SetIV iv _ := iv;
  CryptBlocks b p := (b, map (toy_xor (be_val b)) p);
  AEAD := Z;
  AEAD_Overhead _ := 16;
  AEAD_Seal a n p ad := p ++ replicate 16 (toy_tag a n p ad);
  AEAD_Open a n c ad :=
    let p := take (length c - 16) c in
    if bool_decide (c = p ++ replicate 16 (toy_tag a n p ad)) then Some p else None
|}.
#[export] Instance toy_sync : Sync toy_ciphers := {| stream_sync := @eq Z; cbc_sync := @eq bytes |}.

Lemma toy_xor_twice k b : toy_xor k (toy_xor k b) = b.
Proof. apply xor_byte_twice. Qed.

#[export] Instance toy_ciphers_ok : CiphersOk toy_ciphers toy_sync.
Proof.
  constructor; cbn.
  - intros s a. revert s. induction a as [|x a IH]; intros s b; cbn; [by destruct (toy_stream s b)|].
    rewrite IH. destruct (toy_stream (s + 1) a) as [s1 c1]. by destruct (toy_stream s1 b).
  - intros e d p e' c <-. revert e e' c. induction p as [|x p IH]; intros e e' c; cbn.
    + intros [= <- <-]. by exists e.
    + destruct (toy_stream (e + 1) p) as [k c1] eqn:E. intros [= <- <-]. cbn.
      destruct (IH _ _ _ E) as (d' & Hd & <-). exists k. by rewrite Hd, toy_xor_twice.
  - intros s p. revert s. induction p as [|x p IH]; intros s s' c; cbn; [by intros [= <- <-]|].
    destruct (toy_stream (s + 1) p) as [k c1] eqn:E. intros [= <- <-]. by rewrite !len_cons, (IH _ _ _ E).
  - by intros e d ->.
  - by intros iv e d ->.
  - intros e d p e' c -> _ [= <- <-]. unfold len. rewrite length_map. split; [done|]. exists d. split; [|done].
    f_equal. rewrite map_map. rewrite <- (map_id p) at 2. apply map_ext, toy_xor_twice.
  - intros a n p ad. assert (Ht : forall t : bytes, length t = 16%nat -> take (length (p ++ t) - 16) (p ++ t) = p).
    { intros t Ht. rewrite length_app, Ht, Nat.add_sub. apply take_app_length. }
    rewrite Ht by done. by rewrite bool_decide_true.
  - intros a n p ad. by rewrite len_app.
  - lia.
Qed.

(** Two ends of TLS 1.3 with a mask, and of TLS 1.2 with a block mode. *)
Definition end13 : halfConn.t :=
  halfConn.Mk toy_ciphers None VersionTLS13 (Some (Aead (xorNonceAEAD (replicate 12 x07) 5))) None (replicate 8 x00) None None 0 [].
Definition end12 : halfConn.t :=
  halfConn.Mk toy_ciphers None VersionTLS12 (Some (CbcMode (replicate 16 x01))) (Some (MkMac SHA1 [x01])) (replicate 8 x00) None None 0 [].
Definition toy_rand (n : Z) (r : Z) : Z * res bytes := (r + 1, inr (replicate (Z.to_nat n) (u8 r))).
Lemma toy_rand_ok n r : 0 <= n -> exists r' b, toy_rand n r = (r', inr b) /\ len b = n.
Proof. intros Hn. eexists _, _. split; [done|]. unfold len. rewrite length_replicate. lia. Qed.

Example record13 : match encrypt (K := toy_hash) toy_rand (record_header recordTypeHandshake VersionTLS12 2) [x0a; x0b] 3 end13 with
  | Ret (_, _, inr r) => take 9 r = [x17; x03; x03; x00; x13; x0a; x0b; x16; x35] | _ => False end.
Proof. vm_compute. reflexivity. Qed.

Lemma nonce_never_reused_witness :
  exists sent, send_all (K := toy_hash) toy_rand [(22, VersionTLS12, [x01]); (23, VersionTLS12, [x01]); (23, VersionTLS12, [])] 3 end13
    = Ret sent /\ NoDup (map fst sent).
Proof.
  eexists. split; [vm_compute; reflexivity|].
  eapply (nonce_never_reused (Cs := toy_ciphers) (K := toy_hash) toy_rand
    [(22, VersionTLS12, [x01]); (23, VersionTLS12, [x01]); (23, VersionTLS12, [])] 3 end13
    (xorNonceAEAD (Cs := toy_ciphers) (replicate 12 x07) 5)); [done|done|done|done|by repeat constructor|vm_compute; reflexivity].
Defined.
