(* ===== verification/Names.v ===== *)
(** * Host names in the server_name extension

    [hostnameInSNI] of handshake_client.go, which turns a configured server
    name into the host name sent to the server (or into nothing when it is an
    IP address), with the functions of the Go standard library it calls:
    [strings.LastIndex] and [net.ParseIP] (of which only success matters). *)

From S2P Require Import Prelude Cryptobyte.

(** ** net.ParseIP *)

Definition is_char (c : Z) (b : byte) : bool := b2z b =? c.
Definition dot : Z := 0x2e.
Definition colon : Z := 0x3a.
Definition percent : Z := 0x25.

(** The value of a digit, decimal or hexadecimal. *)
Definition dec_digit (b : byte) : option Z :=
  if (0x30 <=? b2z b) && (b2z b <=? 0x39) then Some (b2z b - 0x30) else None.
Definition hex_digit (b : byte) : option Z :=
  match dec_digit b with
  | Some d => Some d
  | None =>
      if (0x61 <=? b2z b) && (b2z b <=? 0x66) then Some (b2z b - 0x61 + 10)
      else if (0x41 <=? b2z b) && (b2z b <=? 0x46) then Some (b2z b - 0x41 + 10)
      else None
  end.

(** [netip.parseIPv4Fields]: [first] says that no character was read yet,
    [afterDot] that the last one was a dot; [val], [digLen] and [pos] as in Go. *)
Fixpoint ipv4_fields (first afterDot : bool) (val digLen pos : Z) (s : bytes) : bool :=
  match s with
  | [] => negb (pos <? 3)
  | c :: s =>
      match dec_digit c with
      | Some d =>
          if (digLen =? 1) && (val =? 0) then false
          else if 255 <? val * 10 + d then false
          else ipv4_fields false false (val * 10 + d) (digLen + 1) pos s
      | None =>
          if is_char dot c then
            if first || (len s =? 0) || afterDot || (pos =? 3) then false
            else ipv4_fields false true 0 0 (pos + 1) s
          else false
      end
  end.
Definition parseIPv4Fields (s : bytes) : bool := ipv4_fields true false 0 0 0 s.

(** The hexadecimal digits at the head of [s]: how many, and what follows; [None]
    for more than four. *)
Fixpoint hex_field (off : Z) (s : bytes) : option (Z * bytes) :=
  match s with
  | c :: s' =>
      match hex_digit c with
      | Some _ => if 3 <? off then None else hex_field (off + 1) s'
      | None => Some (off, s)
      end
  | [] => Some (off, [])
  end.

(** The loop of [netip.parseIPv6]: [i] bytes of the address are known, [n] more
    groups fit. *)
Fixpoint ipv6_groups (n : nat) (i : Z) (ellipsis : bool) (s : bytes) : bool :=
  let finish (i : Z) (ellipsis : bool) (s : bytes) :=
    (len s =? 0) && (if i <? 16 then ellipsis else negb ellipsis) in
  match n with
  | O => finish i ellipsis s
  | S n =>
      match hex_field 0 s with
      | None => false
      | Some (off, after) =>
          if off =? 0 then false else
          match after with
          | [] => finish (i + 2) ellipsis []
          | c :: after' =>
              if is_char dot c then
                if negb ellipsis && negb (i =? 12) then false
                else if 16 <? i + 4 then false
                else parseIPv4Fields s && finish (i + 4) ellipsis []
              else if negb (is_char colon c) then false
              else
                match after' with
                | [] => false
                | c :: after'' =>
                    if is_char colon c then
                      if ellipsis then false
                      else match after'' with
                           | [] => finish (i + 2) true []
                           | _ => ipv6_groups n (i + 2) true after''
                           end
                    else ipv6_groups n (i + 2) ellipsis after'
                end
          end
      end
  end.

Definition has_char (c : Z) (s : bytes) : bool := List.existsb (is_char c) s.

(** [netip.parseIPv6] of an address without zone ([net.ParseIP] refuses zones). *)
Definition parseIPv6 (s : bytes) : bool :=
  if has_char percent s then false else
  match s with
  | a :: b :: s' =>
      if is_char colon a && is_char colon b then
        if len s' =? 0 then true else ipv6_groups 8 0 true s'
      else ipv6_groups 8 0 false s
  | _ => ipv6_groups 8 0 false s
  end.

(** [net.ParseIP(s) != nil]: the first of the three characters decides. *)
Definition ParseIP (s : bytes) : bool :=
  match List.find (fun c => is_char dot c || is_char colon c || is_char percent c) s with
  | Some c => if is_char dot c then parseIPv4Fields s else if is_char colon c then parseIPv6 s else false
  | None => false
  end.

(** ** hostnameInSNI *)

(** [host[:strings.LastIndex(host, "%")]] where the index is positive. *)
Fixpoint last_index (c : Z) (i : Z) (found : Z) (s : bytes) : Z :=
  match s with
  | [] => found
  | b :: s => last_index c (i + 1) (if is_char c b then i else found) s
  end.
Definition LastIndex (s : bytes) (c : Z) : Z := last_index c 0 (-1) s.

(** [for len(name) > 0 && name[len(name)-1] == '.' { name = name[:len(name)-1] }] *)
Fixpoint drop_dots (rev_name : bytes) : bytes :=
  match rev_name with
  | c :: r => if is_char dot c then drop_dots r else rev_name
  | [] => []
  end.
Definition trim_dots (name : bytes) : bytes := reverse (drop_dots (reverse name)).

Definition unbracket (host : bytes) : bytes :=
  match host, last host with
  | a :: _, Some z =>
      if is_char 0x5b a && is_char 0x5d z then take (length host - 2) (drop 1 host) else host
  | _, _ => host
  end.

Definition hostnameInSNI (name : bytes) : bytes :=
  let host := unbracket name in
  let i := LastIndex host percent in
  let host := if 0 <? i then take (Z.to_nat i) host else host in
  if ParseIP host then [] else trim_dots name.

(** ** Theorems *)

Lemma drop_dots_suffix r : exists k, r = replicate k (u8 dot) ++ drop_dots r.
Proof.
  induction r as [|c r IH]; [by exists 0%nat|]. cbn [drop_dots]. unfold is_char.
  destruct (Z.eqb_spec (b2z c) dot) as [E|E]; [|by exists 0%nat].
  destruct IH as [k E']. exists (S k). cbn [replicate app]. f_equal; [|exact E'].
  apply b2z_inj. rewrite E. done.
Qed.

Lemma drop_dots_head c r : head (drop_dots r) = Some c -> is_char dot c = false.
Proof.
  induction r as [|x r IH]; [done|]. cbn [drop_dots].
  destruct (is_char dot x) eqn:E; [exact IH|]. cbn. by intros [= <-].
Qed.

Lemma trim_dots_spec name : exists k, name = trim_dots name ++ replicate k (u8 dot).
Proof.
  destruct (drop_dots_suffix (reverse name)) as [k E]. exists k.
  unfold trim_dots. rewrite <- (reverse_involutive name) at 1. rewrite E at 1.
  by rewrite reverse_app, reverse_replicate.
Qed.

Lemma trim_dots_last name c : last (trim_dots name) = Some c -> is_char dot c = false.
Proof.
  unfold trim_dots. intros H. apply (drop_dots_head c (reverse name)).
  rewrite <- (reverse_involutive (drop_dots _)). by rewrite head_reverse.
Qed.

(** The name sent is the configured name without its trailing dots, or
    nothing; it never ends in a dot, and a name that is an IP address (with or
    without brackets) is not sent. *)
Theorem hostnameInSNI_spec name :
  let h := hostnameInSNI name in
  (h = [] \/ exists k, name = h ++ replicate k (u8 dot)) /\
  (forall c, last h = Some c -> b2z c <> dot) /\
  (LastIndex (unbracket name) percent <= 0 -> ParseIP (unbracket name) = true -> h = []).
Proof.
  cbv zeta. unfold hostnameInSNI.
  destruct (trim_dots_spec name) as [k Hk].
  assert (Hl : forall c, last (trim_dots name) = Some c -> b2z c <> dot)
    by (intros c Hc%trim_dots_last; unfold is_char in Hc; lia).
  split_and!.
  - destruct (ParseIP _); [by left|right; eauto].
  - destruct (ParseIP _); [done|exact Hl].
  - intros Hi Hp. destruct (Z.ltb_spec 0 (LastIndex (unbracket name) percent)); [lia|]. by rewrite Hp.
Qed.

(** Trailing dots are removed after the test for an IP address, so the
    absolute form of an address is sent as a host name although it is one. *)
Theorem hostnameInSNI_sends_ip :
  let name := map u8 [0x31; 0x2e; 0x32; 0x2e; 0x33; 0x2e; 0x34] in
  ParseIP name = true /\ hostnameInSNI name = [] /\ hostnameInSNI (name ++ [u8 dot]) = name.
Proof. vm_compute. auto. Qed.
