(* ===== verification/Quic.v ===== *)
(** * QUIC variable-length integers and transport parameters

    internal/quicvarint/varint.go ([Read], [Append], [AppendWithLen], [Len])
    and u_quic_transport_parameters.go: the parameter types with their [ID] and
    [Value], and [Marshal], which the QUIC extension of the ClientHello sends.

    Random numbers come from crypto/rand; the definitions take the numbers
    drawn as arguments ([draws]), and the theorems hold for all of them. *)

From S2P Require Import Prelude Cryptobyte Buffer.

(** ** Variable-length integers *)

Module quicvarint.
Definition maxVarInt1 : Z := 63.
Definition maxVarInt2 : Z := 16383.
Definition maxVarInt4 : Z := 1073741823.
Definition maxVarInt8 : Z := 4611686018427387903.

(** [r.ReadByte()] of a reader over [r]. *)
Definition ReadByte (r : bytes) : res (Z * bytes) :=
  match r with [] => inl EOF | b :: r => inr (b2z b, r) end.

Definition Read (r : bytes) : res (Z * bytes) :=
  try (firstByte, r) := ReadByte r in
  let len := Z.shiftl 1 (Z.shiftr (Z.land firstByte 0xc0) 6) in
  let b1 := Z.land firstByte (0xff - 0xc0) in
  if len =? 1 then inr (b1, r) else
  try (b2, r) := ReadByte r in
  if len =? 2 then inr (b2 + Z.shiftl b1 8, r) else
  try (b3, r) := ReadByte r in
  try (b4, r) := ReadByte r in
  if len =? 4 then inr (b4 + Z.shiftl b3 8 + Z.shiftl b2 16 + Z.shiftl b1 24, r) else
  try (b5, r) := ReadByte r in
  try (b6, r) := ReadByte r in
  try (b7, r) := ReadByte r in
  try (b8, r) := ReadByte r in
  inr (b8 + Z.shiftl b7 8 + Z.shiftl b6 16 + Z.shiftl b5 24 + Z.shiftl b4 32 + Z.shiftl b3 40
       + Z.shiftl b2 48 + Z.shiftl b1 56, r).

Definition Append (b : bytes) (i : Z) : outcome bytes :=
  if i <=? maxVarInt1 then Ret (b ++ [u8 i]) else
  if i <=? maxVarInt2 then Ret (b ++ [u8 (Z.lor (Z.shiftr i 8 mod 256) 0x40); u8 i]) else
  if i <=? maxVarInt4 then
    Ret (b ++ [u8 (Z.lor (Z.shiftr i 24 mod 256) 0x80); u8 (Z.shiftr i 16); u8 (Z.shiftr i 8); u8 i]) else
  if i <=? maxVarInt8 then
    Ret (b ++ [u8 (Z.lor (Z.shiftr i 56 mod 256) 0xc0); u8 (Z.shiftr i 48); u8 (Z.shiftr i 40);
               u8 (Z.shiftr i 32); u8 (Z.shiftr i 24); u8 (Z.shiftr i 16); u8 (Z.shiftr i 8); u8 i])
  else Panic.

Definition Len (i : Z) : outcome Z :=
  if i <=? maxVarInt1 then Ret 1 else
  if i <=? maxVarInt2 then Ret 2 else
  if i <=? maxVarInt4 then Ret 4 else
  if i <=? maxVarInt8 then Ret 8 else Panic.

(** The two loops append [length-l-1] zeros and the [l] low-order bytes of [i]. *)
Definition AppendWithLen (b : bytes) (i length : Z) : outcome bytes :=
  if negb (length =? 1) && negb (length =? 2) && negb (length =? 4) && negb (length =? 8) then Panic else
  run l := Len i in
  if l =? length then Append b i else
  if length <? l then Panic else
  let b := if length =? 2 then b ++ [u8 0x40] else if length =? 4 then b ++ [u8 0x80]
           else if length =? 8 then b ++ [u8 0xc0] else b in
  Ret (b ++ replicate (Z.to_nat (length - l - 1)) x00 ++ be (Z.to_nat l) i).
End quicvarint.

(** ** Transport parameters *)

(** Numbers drawn from crypto/rand while one parameter is marshalled; [None] is
    an error of the generator. *)
Record draws := MkDraws {
  id_draw : option Z;             (** [GetGREASEID] *)
  fill_draw : nat -> bytes;       (** [rand.Read] of a slice of the given length *)
  len_draw : nat -> option Z;     (** [GetGREASEVersion], in the call that measures *)
  out_draw : nat -> option Z      (** and in the call that is sent *)
}.

Module GREASETransportParameter.
Record t := Mk { IdOverride : Z; Length : Z; ValueOverride : bytes }.
Definition GREASE_MAX_MULTIPLIER : Z := (0x3FFFFFFFFFFFFFFF - 27) / 31.
Definition IsGREASEID (id : Z) : bool := (27 <=? id) && ((id - 27) mod 31 =? 0).
Definition GetGREASEID (draw : option Z) : Z :=
  match draw with None => 27 | Some randMultiply => 27 + randMultiply * 31 end.
(** [ID] and [Value] store what they generate. *)
Definition ID (draw : option Z) (g : t) : t * Z :=
  let g := if IsGREASEID g.(IdOverride) then g
           else Mk (GetGREASEID draw) g.(Length) g.(ValueOverride) in
  (g, g.(IdOverride)).
Definition Value (draw : nat -> bytes) (g : t) : t * bytes :=
  let g := if len g.(ValueOverride) =? 0
           then Mk g.(IdOverride) g.(Length) (draw (Z.to_nat g.(Length))) else g in
  (g, g.(ValueOverride)).
End GREASETransportParameter.

Module VersionInformation.
Record t := Mk { ChoosenVersion : Z; AvailableVersions : list Z; LegacyID : bool }.
Definition VERSION_GREASE : Z := 0x0a0a0a0a.
Definition ID (v : t) : Z := if v.(LegacyID) then 0xff73db else 0x11.
Definition GetGREASEVersion (draw : option Z) : Z :=
  match draw with
  | None => VERSION_GREASE
  | Some randVal => Z.lor (Z.land randVal 0xffffffff mod 2 ^ 32) 0x0a0a0a0a
  end.
(** [draw i] is the number drawn for the [i]-th version of the list. *)
Definition Value (draw : nat -> option Z) (v : t) : bytes :=
  be 4 v.(ChoosenVersion) ++
  concat (imap (fun i version =>
    if negb (version =? VERSION_GREASE) then be 4 version else be 4 (GetGREASEVersion (draw i)))
    v.(AvailableVersions)).
End VersionInformation.

(** The implementations of the interface [TransportParameter]. *)
Inductive TransportParameter :=
  | GREASE (g : GREASETransportParameter.t)
  | MaxIdleTimeout (m : Z)
  | MaxUDPPayloadSize (m : Z)
  | InitialMaxData (m : Z)
  | InitialMaxStreamDataBidiLocal (m : Z)
  | InitialMaxStreamDataBidiRemote (m : Z)
  | InitialMaxStreamDataUni (m : Z)
  | InitialMaxStreamsBidi (m : Z)
  | InitialMaxStreamsUni (m : Z)
  | MaxAckDelay (m : Z)
  | DisableActiveMigration
  | ActiveConnectionIDLimit (m : Z)
  | InitialSourceConnectionID (i : bytes)
  | VersionInfo (v : VersionInformation.t)
  | PaddingTransportParameter (p : bytes)
  | MaxDatagramFrameSize (m : Z)
  | GREASEQUICBit
  | FakeQUICTransportParameter (Id : Z) (Val : bytes).

Definition ID (d : draws) (tp : TransportParameter) : outcome (TransportParameter * Z) :=
  let plain id := Ret (tp, id) in
  match tp with
  | GREASE g => let (g, id) := GREASETransportParameter.ID d.(id_draw) g in Ret (GREASE g, id)
  | MaxIdleTimeout _ => plain 0x1
  | MaxUDPPayloadSize _ => plain 0x3
  | InitialMaxData _ => plain 0x4
  | InitialMaxStreamDataBidiLocal _ => plain 0x5
  | InitialMaxStreamDataBidiRemote _ => plain 0x6
  | InitialMaxStreamDataUni _ => plain 0x7
  | InitialMaxStreamsBidi _ => plain 0x8
  | InitialMaxStreamsUni _ => plain 0x9
  | MaxAckDelay _ => plain 0xb
  | DisableActiveMigration => plain 0xc
  | ActiveConnectionIDLimit _ => plain 0xe
  | InitialSourceConnectionID _ => plain 0xf
  | VersionInfo v => plain (VersionInformation.ID v)
  | PaddingTransportParameter _ => plain 0x15
  | MaxDatagramFrameSize _ => plain 0x20
  | GREASEQUICBit => plain 0x2ab2
  | FakeQUICTransportParameter Id _ => if Id =? 0 then Panic else plain Id
  end.

Definition Value (d : draws) (draw : nat -> option Z) (tp : TransportParameter)
    : outcome (TransportParameter * bytes) :=
  let number m := run v := quicvarint.Append [] m in Ret (tp, v) in
  match tp with
  | GREASE g => let (g, v) := GREASETransportParameter.Value d.(fill_draw) g in Ret (GREASE g, v)
  | MaxIdleTimeout m | MaxUDPPayloadSize m | InitialMaxData m | InitialMaxStreamDataBidiLocal m
  | InitialMaxStreamDataBidiRemote m | InitialMaxStreamDataUni m | InitialMaxStreamsBidi m
  | InitialMaxStreamsUni m | MaxAckDelay m | ActiveConnectionIDLimit m | MaxDatagramFrameSize m =>
      number m
  | DisableActiveMigration | GREASEQUICBit => Ret (tp, [])
  | InitialSourceConnectionID i => Ret (tp, i)
  | VersionInfo v => Ret (tp, VersionInformation.Value draw v)
  | PaddingTransportParameter p => Ret (tp, p)
  | FakeQUICTransportParameter _ Val => Ret (tp, Val)
  end.

(** [TransportParameters.Marshal]: [rnd i] are the numbers drawn for the [i]-th
    parameter; the parameters are returned as the calls left them. *)
Fixpoint marshal_params (rnd : nat -> draws) (i : nat) (b : bytes) (tps : list TransportParameter)
    : outcome (list TransportParameter * bytes) :=
  match tps with
  | [] => Ret ([], b)
  | tp :: tps =>
      run (tp, id) := ID (rnd i) tp in
      run b := quicvarint.Append b id in
      run (tp, v) := Value (rnd i) (rnd i).(len_draw) tp in
      run b := quicvarint.Append b (len v) in
      run (tp, v) := Value (rnd i) (rnd i).(out_draw) tp in
      run (tps, b) := marshal_params rnd (S i) (b ++ v) tps in
      Ret (tp :: tps, b)
  end.
Definition Marshal (rnd : nat -> draws) (tps : list TransportParameter)
    : outcome (list TransportParameter * bytes) :=
  marshal_params rnd 0 [] tps.

(** ** Theorems on variable-length integers *)

Section Varint.
Import quicvarint.

(** The two tag bits of the first byte and the rest of it. *)
Lemma first_byte k v : 0 <= k < 4 -> 0 <= v < 64 ->
  u8 (Z.lor v (k * 64)) = u8 (k * 64 + v) /\
  Z.shiftr (Z.land (k * 64 + v) 0xc0) 6 = k /\ Z.land (k * 64 + v) 0x3f = v.
Proof.
  intros Hk Hv.
  assert (E : Z.lor v (k * 64) = k * 64 + v).
  { rewrite Z.lor_comm. change 64 with (2 ^ 6) in *. rewrite <- Z.shiftl_mul_pow2 by lia.
    rewrite lor_disjoint by lia. by rewrite Z.shiftl_mul_pow2 by lia. }
  rewrite E. split; [done|].
  change 0x3f with (Z.ones 6). rewrite Z.land_ones by lia. change (2 ^ 6) with 64.
  split; [|rewrite Z.add_comm, Z.mod_add by lia; by apply Z.mod_small].
  change 0xc0 with (Z.shiftl (Z.ones 2) 6).
  rewrite <- (Z.land_comm (Z.shiftl (Z.ones 2) 6)).
  rewrite Z.shiftr_land. rewrite Z.shiftr_shiftl_l by lia. change (6 - 6) with 0. rewrite Z.shiftl_0_r.
  rewrite Z.shiftr_div_pow2 by lia. change (2 ^ 6) with 64. rewrite Z.div_add_l by lia.
  rewrite (Z.div_small v 64), Z.add_0_r by lia. rewrite Z.land_comm, Z.land_ones by lia.
  by apply Z.mod_small.
Qed.

(** A number [i] with the length tag [k] (for [2^k] bytes). *)
Definition varint (k : nat) (i : Z) : bytes :=
  be (2 ^ k) (Z.of_nat k * 64 * 256 ^ (2 ^ Z.of_nat k - 1) + i).

Lemma varint_cons k n i :
  (k < 4)%nat -> (2 ^ k)%nat = S n -> 0 <= i < 64 * 256 ^ Z.of_nat n ->
  varint k i = u8 (Z.of_nat k * 64 + Z.shiftr i (8 * Z.of_nat n)) :: be n i.
Proof.
  intros Hk Hn Hi. unfold varint. rewrite Hn. cbn [be].
  replace (2 ^ Z.of_nat k - 1) with (Z.of_nat n) by (rewrite <- (Nat2Z.inj_pow 2); lia).
  apply (f_equal2 cons); [|by apply be_add_high].
  f_equal. rewrite !Z.shiftr_div_pow2 by lia. rewrite Z.pow_mul_r by lia. change (2 ^ 8) with 256.
  rewrite Z.div_add_l by lia. done.
Qed.

Lemma tag_byte k n i :
  (k < 4)%nat -> 0 <= i < 64 * 256 ^ Z.of_nat n ->
  u8 (Z.lor (Z.shiftr i (8 * Z.of_nat n) mod 256) (Z.of_nat k * 64)) =
  u8 (Z.of_nat k * 64 + Z.shiftr i (8 * Z.of_nat n)).
Proof.
  intros Hk Hi.
  assert (Hh : 0 <= Z.shiftr i (8 * Z.of_nat n) < 64).
  { rewrite Z.shiftr_div_pow2, Z.pow_mul_r by lia. change (2 ^ 8) with 256.
    split; [apply Z.div_pos; lia|]. apply Z.div_lt_upper_bound; lia. }
  rewrite Z.mod_small by lia. by destruct (first_byte (Z.of_nat k) _ ltac:(lia) Hh) as [-> _].
Qed.

(** [Append] writes the shortest form, [AppendWithLen] the form of the length
    asked for. *)
Lemma Append_varint b i : 0 <= i <= maxVarInt8 ->
  exists k, (k < 4)%nat /\ Append b i = Ret (b ++ varint k i) /\ Len i = Ret (2 ^ Z.of_nat k) /\
    i < 64 * 256 ^ (2 ^ Z.of_nat k - 1).
Proof.
  unfold Append, Len. intros Hi.
  destruct (Z.leb_spec i maxVarInt1);
    [exists 0%nat|destruct (Z.leb_spec i maxVarInt2);
    [exists 1%nat|destruct (Z.leb_spec i maxVarInt4);
    [exists 2%nat|exists 3%nat; destruct (Z.leb_spec i maxVarInt8); [|lia]]]];
    unfold maxVarInt1, maxVarInt2, maxVarInt4, maxVarInt8 in *; (split_and!; [lia| |done|cbn; lia]); apply (f_equal Ret), (f_equal (app b)).
  - rewrite (varint_cons 0 0) by (done || cbn; lia). cbn [be Z.of_nat Z.mul Z.add]. by rewrite Z.shiftr_0_r.
  - rewrite (varint_cons 1 1) by (done || cbn; lia). by rewrite <- (tag_byte 1 1) by (done || cbn; lia).
  - rewrite (varint_cons 2 3) by (done || cbn; lia). by rewrite <- (tag_byte 2 3) by (done || cbn; lia).
  - rewrite (varint_cons 3 7) by (done || cbn; lia). by rewrite <- (tag_byte 3 7) by (done || cbn; lia).
Qed.

Lemma be_sum n v : 0 <= v ->
  be_val (be n v) + Z.shiftl (Z.shiftr v (8 * Z.of_nat n)) (8 * Z.of_nat n) = v.
Proof.
  intros Hv. rewrite be_val_be, Z.shiftr_div_pow2, Z.shiftl_mul_pow2, Z.pow_mul_r by lia.
  change (2 ^ 8) with 256. pose proof (Z.div_mod v (256 ^ Z.of_nat n) ltac:(lia)). lia.
Qed.

Lemma Read_varint k i r : (k < 4)%nat -> 0 <= i < 64 * 256 ^ (2 ^ Z.of_nat k - 1) ->
  Read (varint k i ++ r) = inr (i, r).
Proof.
  intros Hk Hi. pose proof (Nat.pow_nonzero 2 k ltac:(lia)) as Hnz.
  destruct (2 ^ k)%nat as [|n] eqn:En; [lia|].
  replace (2 ^ Z.of_nat k - 1) with (Z.of_nat n) in Hi by (rewrite <- (Nat2Z.inj_pow 2); lia).
  rewrite (varint_cons k n) by done.
  pose proof (be_sum n i ltac:(lia)) as Hs. set (h := Z.shiftr i (8 * Z.of_nat n)) in *.
  assert (Hh : 0 <= h < 64).
  { unfold h. rewrite Z.shiftr_div_pow2, Z.pow_mul_r by lia. change (2 ^ 8) with 256.
    split; [apply Z.div_pos; lia|]. apply Z.div_lt_upper_bound; lia. }
  destruct (first_byte (Z.of_nat k) h ltac:(lia) Hh) as (_ & H1 & H2).
  unfold Read, ReadByte. cbn [app res_bind]. rewrite b2z_u8_small by lia. rewrite H1.
  change (255 - 192) with 0x3f. rewrite H2. clearbody h.
  assert (Hl : length (be n i) = n) by apply length_be.
  set (y := be n i) in *. clearbody y.
  destruct k as [|[|[|[|k]]]]; [| | | |lia]; simpl in En; injection En as <-;
    repeat (destruct y as [|? y]; [discriminate Hl|]); (destruct y; [|discriminate Hl]);
    cbn; rewrite <- Hs; unfold be_val; cbn [fold_left]; do 2 f_equal;
    rewrite ?Z.shiftl_mul_pow2 by lia; lia.
Qed.

Lemma be_pad m l i : 0 <= i < 256 ^ Z.of_nat l -> be (m + l) i = replicate m x00 ++ be l i.
Proof.
  intros Hi. induction m as [|m IH]; [done|]. 
  change (be (S m + l) i) with (u8 (Z.shiftr i (8 * Z.of_nat (m + l))) :: be (m + l) i).
  rewrite IH. apply (f_equal2 cons); [|done]. rewrite Z.shiftr_div_pow2, Z.pow_mul_r by lia. change (2 ^ 8) with 256.
  rewrite Z.div_small; [done|]. split; [lia|]. eapply Z.lt_le_trans; [apply Hi|].
  apply Z.pow_le_mono_r; lia.
Qed.

(** The tag followed by zeros and the number in [l] bytes. *)
Lemma varint_pad k l i :
  (k < 4)%nat -> (0 < l < 2 ^ k)%nat -> 0 <= i < 64 * 256 ^ (Z.of_nat l - 1) ->
  varint k i = u8 (Z.of_nat k * 64) :: replicate (2 ^ k - l - 1) x00 ++ be l i.
Proof.
  intros Hk Hl Hi. destruct (2 ^ k)%nat as [|n] eqn:En; [lia|].
  assert (Hp : 256 ^ Z.of_nat l = 256 * 256 ^ (Z.of_nat l - 1)).
  { rewrite <- Z.pow_succ_r by lia. f_equal. lia. }
  assert (Hn : 256 ^ Z.of_nat l <= 256 ^ Z.of_nat n) by (apply Z.pow_le_mono_r; lia).
  rewrite (varint_cons k n) by (done || lia).
  apply (f_equal2 cons).
  - rewrite Z.shiftr_div_pow2, Z.pow_mul_r by lia. change (2 ^ 8) with 256. rewrite Z.div_small by lia.
    f_equal. lia.
  - replace n with ((S n - l - 1) + l)%nat at 1 by lia. by apply be_pad; lia.
Qed.

Lemma len_varint k i : len (varint k i) = 2 ^ Z.of_nat k.
Proof. unfold varint, len. rewrite length_be. by rewrite (Nat2Z.inj_pow 2). Qed.

Lemma too_long b i : maxVarInt8 < i -> Append b i = Panic /\ Len i = Panic.
Proof.
  unfold Append, Len, maxVarInt1, maxVarInt2, maxVarInt4, maxVarInt8. intros H.
  by rewrite !(proj2 (Z.leb_gt i _)) by lia.
Qed.

Lemma tag_added b k : (0 < k < 4)%nat ->
  (if 2 ^ Z.of_nat k =? 2 then b ++ [u8 0x40] else if 2 ^ Z.of_nat k =? 4 then b ++ [u8 0x80]
   else if 2 ^ Z.of_nat k =? 8 then b ++ [u8 0xc0] else b) = b ++ [u8 (Z.of_nat k * 64)].
Proof. intros Hk. destruct k as [|[|[|[|k]]]]; [lia|done..|lia]. Qed.

Lemma AppendWithLen_varint b i length out : 0 <= i -> AppendWithLen b i length = Ret out ->
  exists k, (k < 4)%nat /\ length = 2 ^ Z.of_nat k /\ out = b ++ varint k i /\
    i < 64 * 256 ^ (2 ^ Z.of_nat k - 1).
Proof.
  intros Hi. unfold AppendWithLen. destruct (_ && _) eqn:Eg; [done|].
  destruct (Z.le_gt_cases i maxVarInt8) as [Hm|Hm].
  2: { by destruct (too_long b i Hm) as [_ ->]. }
  destruct (Append_varint b i ltac:(lia)) as (j & Hj & Ha & -> & Hb). cbn [obind].
  destruct (Z.eqb_spec (2 ^ Z.of_nat j) length) as [<-|Hne].
  { rewrite Ha. intros <-%Ret_inj. by exists j. }
  destruct (Z.ltb_spec length (2 ^ Z.of_nat j)); [done|]. intros Ho%Ret_inj.
  assert (Hk : exists k, (k < 4)%nat /\ length = 2 ^ Z.of_nat k).
  { assert (length = 1 \/ length = 2 \/ length = 4 \/ length = 8) as [->|[->|[->| ->]]] by lia;
      [exists 0%nat|exists 1%nat|exists 2%nat|exists 3%nat]; (split; [lia|done]). }
  destruct Hk as (k & Hk & ->). exists k.
  assert (Hjk : (2 ^ j < 2 ^ k)%nat) by (apply Nat2Z.inj_lt; rewrite !Nat2Z.inj_pow; cbn; lia).
  assert (H0 : (0 < 2 ^ j)%nat) by (pose proof (Nat.pow_nonzero 2 j); lia).
  assert (Ez : 2 ^ Z.of_nat j = Z.of_nat (2 ^ j)) by (by rewrite Nat2Z.inj_pow).
  assert (Ezk : 2 ^ Z.of_nat k = Z.of_nat (2 ^ k)) by (by rewrite Nat2Z.inj_pow).
  split_and!; [done|done| |].
  - rewrite <- Ho. rewrite (varint_pad k (2 ^ j)) by (lia || (rewrite <- Ez; lia)).
    rewrite Ez, Ezk, Nat2Z.id.
    replace (Z.to_nat (Z.of_nat (2 ^ k) - Z.of_nat (2 ^ j) - 1)) with (2 ^ k - 2 ^ j - 1)%nat by lia.
    rewrite <- Ezk, (tag_added b k) by (destruct k; cbn in Hjk; lia). by rewrite <- app_assoc.
  - eapply Z.lt_le_trans; [exact Hb|]. apply Z.mul_le_mono_nonneg_l; [lia|]. apply Z.pow_le_mono_r; lia.
Qed.

(** A number below 2^62 that [Append] or [AppendWithLen] wrote is read back,
    with the rest of the input; numbers of 62 bits or more make [Append] panic,
    and [Len] is the number of bytes [Append] adds. *)
Theorem varint_round_trip b i r : 0 <= i ->
  (i <= maxVarInt8 -> exists e, Append b i = Ret (b ++ e) /\ Read (e ++ r) = inr (i, r) /\ Len i = Ret (len e)) /\
  (maxVarInt8 < i -> Append b i = Panic /\ Len i = Panic) /\
  (forall length out, AppendWithLen b i length = Ret out ->
    exists e, out = b ++ e /\ len e = length /\ Read (e ++ r) = inr (i, r)).
Proof.
  intros Hi. split_and!.
  - intros Hm. destruct (Append_varint b i ltac:(lia)) as (k & Hk & -> & -> & Hb).
    exists (varint k i). split_and!; [done|by apply Read_varint|by rewrite len_varint].
  - apply too_long.
  - intros length out H. apply AppendWithLen_varint in H as (k & Hk & -> & -> & Hb); [|done].
    exists (varint k i). split_and!; [done|by rewrite len_varint|by apply Read_varint].
Qed.
End Varint.

Lemma varint_round_trip_witness :
  exists e, quicvarint.Append [] 15293 = Ret ([] ++ e) /\
    quicvarint.Read (e ++ [x01]) = inr (15293, [x01]) /\ quicvarint.Len 15293 = Ret (len e).
Proof.
  destruct (varint_round_trip [] 15293 [x01] ltac:(lia)) as [H _]. apply H. vm_compute. discriminate.
Defined.

(** ** Theorems on transport parameters *)

(** What a QUIC peer does with the extension body: identifiers, lengths and
    values, in sequence. *)
Fixpoint read_params (fuel : nat) (b : bytes) : option (list (Z * bytes)) :=
  match b with
  | [] => Some []
  | _ =>
      match fuel with
      | O => None
      | S fuel =>
          match quicvarint.Read b with
          | inl _ => None
          | inr (id, b) =>
              match quicvarint.Read b with
              | inl _ => None
              | inr (n, b) =>
                  if len b <? n then None else
                  match read_params fuel (drop (Z.to_nat n) b) with
                  | Some l => Some ((id, take (Z.to_nat n) b) :: l)
                  | None => None
                  end
              end
          end
      end
  end.

(** What crypto/rand returns: a number below the bound, or a full slice. *)
Definition wf_draws (d : draws) : Prop :=
  (forall m, d.(id_draw) = Some m -> 0 <= m < GREASETransportParameter.GREASE_MAX_MULTIPLIER) /\
  (forall n, length (d.(fill_draw) n) = n).

(** Every number is a uint64. *)
Definition wf_param (tp : TransportParameter) : Prop :=
  match tp with
  | GREASE g => 0 <= g.(GREASETransportParameter.IdOverride) /\ 0 <= g.(GREASETransportParameter.Length)
  | FakeQUICTransportParameter Id _ => 0 <= Id
  | _ => True
  end.

(** A generated GREASE identifier is one, and fits a variable-length integer. *)
Lemma grease_id_valid draw g :
  (forall m, draw = Some m -> 0 <= m < GREASETransportParameter.GREASE_MAX_MULTIPLIER) ->
  let id := (GREASETransportParameter.ID draw g).2 in
  GREASETransportParameter.IsGREASEID id = true /\
  (g.(GREASETransportParameter.IdOverride) <= quicvarint.maxVarInt8 -> id <= quicvarint.maxVarInt8).
Proof.
  intros Hm. unfold GREASETransportParameter.ID.
  destruct (GREASETransportParameter.IsGREASEID (GREASETransportParameter.IdOverride g)) eqn:E;
    cbn [snd]; [done|]. cbn [GREASETransportParameter.IdOverride].
  unfold GREASETransportParameter.GetGREASEID. destruct draw as [m|]; [|done].
  specialize (Hm m eq_refl). unfold GREASETransportParameter.GREASE_MAX_MULTIPLIER in Hm.
  change ((0x3FFFFFFFFFFFFFFF - 27) / 31) with 148764065110560899 in Hm.
  unfold GREASETransportParameter.IsGREASEID, quicvarint.maxVarInt8.
  replace (27 + m * 31 - 27) with (m * 31) by lia. rewrite Z.mod_mul by lia. lia.
Qed.

(** A random version is forced to have the bits of 0x0a0a0a0a but keeps its
    other low bits, so a reserved version drawn for the version information need
    not have the reserved form 0x?a?a?a?a. *)
Theorem grease_version_not_reserved :
  let v := VersionInformation.GetGREASEVersion (Some 0x01020304) in
  0 <= v < 2 ^ 32 /\ Z.land v 0x0a0a0a0a = 0x0a0a0a0a /\ Z.land v 0x0f0f0f0f <> 0x0a0a0a0a.
Proof. vm_compute. repeat split; congruence. Qed.

Section Marshal.
Import quicvarint.

Lemma version_value_len draw draw' v :
  len (VersionInformation.Value draw v) = len (VersionInformation.Value draw' v).
Proof.
  unfold VersionInformation.Value. rewrite !len_app. f_equal.
  generalize (VersionInformation.AvailableVersions v) as l. intros l. revert draw draw'.
  induction l as [|a l IH]; intros draw draw'; [done|]. rewrite !imap_cons. cbn [concat].
  rewrite !len_app. f_equal; [by destruct (negb _); rewrite !len_be|].
  apply (IH (draw ∘ S) (draw' ∘ S)).
Qed.

(** The second call of [Value] returns as many bytes as the first. *)
Lemma Value_len d draw draw' tp tp1 tp2 v1 v2 : wf_draws d -> wf_param tp ->
  Value d draw tp = Ret (tp1, v1) -> Value d draw' tp1 = Ret (tp2, v2) -> len v1 = len v2.
Proof.
  intros [_ Hf] Hw H1 H2. destruct tp; cbn [Value] in H1.
  1: { cbn in H1. injection H1 as <- <-. cbn in H2. injection H2 as _ <-.
       destruct Hw as [_ Hl]. destruct (Z.eqb_spec (len (GREASETransportParameter.ValueOverride g)) 0) as [E|E];
         cbn [GREASETransportParameter.ValueOverride GREASETransportParameter.Length].
       - destruct (Z.eqb_spec (len (fill_draw d (Z.to_nat (GREASETransportParameter.Length g)))) 0);
           cbn [GREASETransportParameter.ValueOverride]; done.
       - by destruct (Z.eqb_spec (len (GREASETransportParameter.ValueOverride g)) 0). }
  all: first [ destruct (Append [] m) eqn:E; [done|]; cbn [obind] in H1; injection H1 as <- <-;
                 cbn [Value] in H2; rewrite E in H2; by injection H2 as _ <-
             | injection H1 as <- <-; cbn [Value] in H2; injection H2 as _ <-;
                 solve [done | apply version_value_len] ].
Qed.

(** What the calls store stays: the identifier and the value are final. *)
Lemma ID_final d tp tp1 id : wf_draws d -> ID d tp = Ret (tp1, id) ->
  forall d', ID d' tp1 = Ret (tp1, id).
Proof.
  intros [Hd _] H d'. destruct tp; cbn [ID] in H; try (injection H as <- <-; done).
  - injection H as <- <-. cbn [ID]. unfold GREASETransportParameter.ID.
    destruct (grease_id_valid (id_draw d) g Hd) as [Hv _]. unfold GREASETransportParameter.ID in Hv. cbn [snd] in Hv.
    by rewrite Hv.
  - destruct (Z.eqb_spec Id 0) as [|E]; [done|]. injection H as <- <-. cbn [ID].
    by destruct (Z.eqb_spec Id 0).
Qed.

Lemma grease_final g id :
  (forall d, ID d (GREASE g) = Ret (GREASE g, id)) <->
  GREASETransportParameter.IsGREASEID (GREASETransportParameter.IdOverride g) = true /\
  id = GREASETransportParameter.IdOverride g.
Proof.
  cbn [ID]. unfold GREASETransportParameter.ID. split.
  - intros H. specialize (H (MkDraws None (fun _ => []) (fun _ => None) (fun _ => None))).
    destruct (GREASETransportParameter.IsGREASEID (GREASETransportParameter.IdOverride g)) eqn:E;
      [by injection H as <-|]. injection H as Hg _. rewrite <- Hg in E. done.
  - by intros [-> ->].
Qed.

Lemma Value_ID d draw tp tp1 v : Value d draw tp = Ret (tp1, v) ->
  forall id, (forall d', ID d' tp = Ret (tp, id)) -> forall d', ID d' tp1 = Ret (tp1, id).
Proof.
  intros H id Hid. destruct tp; cbn [Value] in H;
    try (destruct (Append [] m); [done|]; cbn [obind] in H); try (injection H as <- <-; exact Hid).
  injection H as <- <-. apply grease_final in Hid as [E ->]. apply grease_final.
  by destruct (len _ =? 0).
Qed.

Lemma ID_nonneg d tp tp1 id : wf_draws d -> wf_param tp -> ID d tp = Ret (tp1, id) -> 0 <= id.
Proof.
  intros [Hd _] Hw H. destruct tp; cbn [ID] in H; try (injection H as _ <-; done).
  - injection H as _ <-. destruct (GREASETransportParameter.IsGREASEID _); [apply Hw|].
    cbn [GREASETransportParameter.IdOverride]. unfold GREASETransportParameter.GetGREASEID.
    destruct (id_draw d); [|done]. specialize (Hd z eq_refl). lia.
  - injection H as _ <-. unfold VersionInformation.ID. by destruct (VersionInformation.LegacyID v).
  - destruct (Id =? 0); [done|]. by injection H as _ <-.
Qed.

Lemma Value_wf d draw tp tp1 v : wf_param tp -> Value d draw tp = Ret (tp1, v) -> wf_param tp1.
Proof.
  intros Hw H. destruct tp; cbn [Value] in H;
    try (destruct (Append [] m); [done|]; cbn [obind] in H); injection H as <- _; try done.
  by destruct (len _ =? 0).
Qed.

Lemma ID_wf d tp tp1 id : wf_draws d -> wf_param tp -> ID d tp = Ret (tp1, id) -> wf_param tp1.
Proof.
  intros Hd Hw H. pose proof (ID_nonneg d tp tp1 id Hd Hw H) as Hid.
  destruct tp; cbn [ID] in H; try (injection H as <- _; done).
  - injection H as <- E. split; [by rewrite E|]. destruct Hw. by destruct (GREASETransportParameter.IsGREASEID _).
  - destruct (Id =? 0); [done|]. by injection H as <- _.
Qed.

(** What [Append] wrote is read back. *)
Lemma Append_Read b i b' : 0 <= i -> Append b i = Ret b' ->
  exists e, b' = b ++ e /\ e <> [] /\ forall r, Read (e ++ r) = inr (i, r).
Proof.
  intros Hi H. destruct (Z.le_gt_cases i maxVarInt8) as [Hm|Hm].
  - destruct (Append_varint b i ltac:(lia)) as (k & Hk & Ha & _ & Hb). rewrite Ha in H. apply Ret_inj in H as <-.
    exists (varint k i). split_and!; [done| |intros r; by apply Read_varint].
    intros E. pose proof (len_varint k i) as El. rewrite E, len_nil in El. lia.
  - by rewrite (proj1 (too_long b i Hm)) in H.
Qed.

(** The [i]-th parameter as it was sent. *)
Definition sent_as (d : draws) (tp : TransportParameter) (p : Z * bytes) : Prop :=
  (forall d', ID d' tp = Ret (tp, p.1)) /\ exists tp0, Value d d.(out_draw) tp0 = Ret (tp, p.2).

Lemma marshal_params_read rnd tps : forall i b tps' b',
  (forall i, wf_draws (rnd i)) -> Forall wf_param tps ->
  marshal_params rnd i b tps = Ret (tps', b') ->
  exists body l, b' = b ++ body /\ length tps' = length l /\ length l = length tps /\
    (forall fuel, (length l <= fuel)%nat -> read_params fuel body = Some l) /\
    forall k tp p, tps' !! k = Some tp -> l !! k = Some p -> sent_as (rnd (i + k)%nat) tp p.
Proof.
  induction tps as [|tp tps IH]; intros i b tps' b' Hd Hw H; cbn [marshal_params] in H.
  { apply Ret_inj in H. injection H as <- <-. exists [], []. rewrite app_nil_r.
    split_and!; [done|done|done|by intros [|]|done]. }
  inversion Hw as [|? ? Hw0 Hws]; subst.
  destruct (ID (rnd i) tp) as [|[tp1 id]] eqn:E1; [done|]. cbn [obind] in H.
  destruct (Append b id) as [|b1] eqn:E2; [done|]. cbn [obind] in H.
  destruct (Value (rnd i) _ tp1) as [|[tp2 v1]] eqn:E3; [done|]. cbn [obind] in H.
  destruct (Append b1 (len v1)) as [|b2] eqn:E4; [done|]. cbn [obind] in H.
  destruct (Value (rnd i) (out_draw _) tp2) as [|[tp3 v]] eqn:E5; [done|]. cbn [obind] in H.
  destruct (marshal_params rnd (S i) (b2 ++ v) tps) as [|[tps1 b3]] eqn:E6; [done|]. cbn [obind] in H.
  apply Ret_inj in H. injection H as <- <-.
  pose proof (ID_wf _ _ _ _ (Hd i) Hw0 E1) as Hw1.
  pose proof (ID_final _ _ _ _ (Hd i) E1) as Hf1.
  pose proof (Value_ID _ _ _ _ _ E5 _ (Value_ID _ _ _ _ _ E3 _ Hf1)) as Hf3.
  rewrite (Value_len _ _ _ _ _ _ _ _ (Hd i) Hw1 E3 E5) in E4.
  apply Append_Read in E2 as (e1 & -> & Hn & He1); [|exact (ID_nonneg _ _ _ _ (Hd i) Hw0 E1)].
  apply Append_Read in E4 as (e2 & -> & _ & He2); [|apply len_nonneg].
  destruct (IH _ _ _ _ Hd Hws E6) as (body & l & -> & Hl & Hl' & Hr & Hk).
  exists (e1 ++ e2 ++ v ++ body), ((id, v) :: l). split_and!.
  - by rewrite <- !app_assoc.
  - cbn. by f_equal.
  - cbn. by f_equal.
  - intros [|fuel] Hfuel; cbn [length] in Hfuel; [lia|].
    destruct e1 as [|x e1]; [done|]. cbn [app read_params].
    rewrite (app_comm_cons e1 _ x), He1, He2. rewrite len_app. pose proof (len_nonneg body).
    replace (len v + len body <? len v) with false by (symmetry; apply Z.ltb_ge; lia).
    unfold len. rewrite Nat2Z.id, drop_app_length, take_app_length. rewrite Hr by lia. done.
  - intros [|k] t p Ht Hp; cbn in Ht, Hp.
    + injection Ht as <-. injection Hp as <-. rewrite Nat.add_0_r. split; [exact Hf3|by exists tp2].
    + replace (i + S k)%nat with (S i + k)%nat by lia. by apply Hk.
Qed.

(** A QUIC peer that reads the marshalled parameters one after the other gets
    each parameter's identifier and value, in order, whatever was drawn for
    the random ones; the identifiers kept by the parameters are the ones sent. *)
Theorem transport_parameters_round_trip rnd tps tps' b :
  (forall i, wf_draws (rnd i)) -> Forall wf_param tps -> Marshal rnd tps = Ret (tps', b) ->
  exists l, read_params (length tps) b = Some l /\ length l = length tps /\
    forall i tp p, tps' !! i = Some tp -> l !! i = Some p -> sent_as (rnd i) tp p.
Proof.
  intros Hd Hw H. apply marshal_params_read in H as (body & l & -> & _ & Hl & Hr & Hk); [|done..].
  exists l. split_and!; [apply Hr; lia|done|]. intros i tp p. apply (Hk i).
Qed.

Lemma transport_parameters_round_trip_witness :
  let rnd := fun _ => MkDraws (Some 4) (fun n => replicate n x07) (fun _ => Some 1) (fun _ => Some 2) in
  exists l, read_params 3 (match Marshal rnd [MaxIdleTimeout 30000; GREASE (GREASETransportParameter.Mk 0 3 []);
      VersionInfo (VersionInformation.Mk 1 [0x0a0a0a0a; 1] false)] with Ret (_, b) => b | Panic => [] end) = Some l /\
    length l = 3%nat.
Proof.
  intros rnd. set (tps := [MaxIdleTimeout 30000; GREASE (GREASETransportParameter.Mk 0 3 []);
      VersionInfo (VersionInformation.Mk 1 [0x0a0a0a0a; 1] false)]).
  destruct (Marshal rnd tps) as [|[tps' b]] eqn:E; [vm_compute in E; discriminate E|].
  destruct (transport_parameters_round_trip rnd tps tps' b) as (l & H1 & H2 & _).
  - intros i. split; [intros m [= <-]; vm_compute; split; congruence|intros n; apply length_replicate].
  - repeat constructor; vm_compute; congruence.
  - exact E.
  - exists l. split; [exact H1|exact H2].
Defined.
End Marshal.
