(* ===== verification/Messages.v ===== *)
(** * Handshake messages read and written with cryptobyte

    The message types of handshake_messages.go (other than the hellos) whose
    [marshal] fills a [cryptobyte.Builder], the helpers at the top of that
    file, and the uTLS messages of u_handshake_messages.go.  One Module per
    Go type, with the type's fields, [marshal] and [unmarshal].

    [marshal] returns the bytes or the builder's error.  [unmarshal] returns
    the filled message, or [None] where the Go method returns false (callers
    drop the half-filled message then).  A Go slice whose nil value is
    distinguished from an empty one is an [option]. *)

From S2P Require Import Prelude Cryptobyte Common Codec.

(** ** Helpers of handshake_messages.go *)

Section Helpers.
Context `{C : Cryptobyte}.

Definition addBytesWithLength (v : bytes) (n : Z) : Builder -> Builder :=
  AddValue (fun b =>
    if negb (len v =? n)
    then (b, Some (Errorf "invalid value length: expected %d, got %d" [n; len v]))
    else (AddBytes v b, None)).

Definition addUint64 (v : Z) : Builder -> Builder :=
  AddUint32 (Z.shiftr v 32 mod 2 ^ 32) ;>
  AddUint32 (v mod 2 ^ 32).

Definition readUint64 (s : bytes) : option (Z * bytes) :=
  read (hi, s) := ReadUint32 s in
  read (lo, s) := ReadUint32 s in
  Some (Z.lor (Z.shiftl hi 32) lo, s).

Definition readUint8LengthPrefixed (s : bytes) : option (bytes * bytes) :=
  ReadUint8LengthPrefixed s.

Definition readUint16LengthPrefixed (s : bytes) : option (bytes * bytes) :=
  ReadUint16LengthPrefixed s.

Definition readUint24LengthPrefixed (s : bytes) : option (bytes * bytes) :=
  ReadUint24LengthPrefixed s.

(** The fragment that reads a non-empty 16-bit-length list of non-empty
    16-bit-length strings into a slice (SCTs, certificate authorities). *)
Definition read_lp16_list (acc : list bytes) (extData : bytes)
    : option (list bytes * bytes) :=
  read (s, extData) := ReadUint16LengthPrefixed extData in
  ensure negb (Empty s) in
  read l := loop (fun acc s =>
    read (x, s) := readUint16LengthPrefixed s in
    ensure negb (len x =? 0) in
    Some (acc ++ [x], s)) acc s in
  Some (l, extData).
End Helpers.

Section HelperSpecs.
Context `{C : Cryptobyte} {Cok : CryptobyteOk C}.
Lemma readUint8LengthPrefixed_spec s : readUint8LengthPrefixed s = rd_lp 1 s.
Proof. apply ReadUint8LengthPrefixed_spec. Qed.
Lemma readUint16LengthPrefixed_spec s : readUint16LengthPrefixed s = rd_lp 2 s.
Proof. apply ReadUint16LengthPrefixed_spec. Qed.
Lemma readUint24LengthPrefixed_spec s : readUint24LengthPrefixed s = rd_lp 3 s.
Proof. apply ReadUint24LengthPrefixed_spec. Qed.
End HelperSpecs.
#[export] Hint Rewrite @readUint8LengthPrefixed_spec @readUint16LengthPrefixed_spec
  @readUint24LengthPrefixed_spec using typeclasses eauto : cbspec.

(** [b] or nothing: the bytes of a slice that may be nil. *)
Definition slice_bytes (o : option bytes) : bytes := default [] o.

Lemma slice_pos_false o : (0 <? len (slice_bytes o)) = false -> o <> Some [] -> o = None.
Proof. destruct o as [v|]; [|done]. intros E%len_pos_false. cbn in E. by subst. Qed.

Lemma slice_pos_true o : (0 <? len (slice_bytes o)) = true -> exists v, o = Some v /\ v <> [].
Proof. destruct o as [v|]; [|done]. intros ?%len_pos_true. eauto. Qed.

Module keyUpdateMsg.
Record t := Mk { updateRequested : bool }.
Section Ops.
Context `{C : Cryptobyte}.

Definition marshal (m : t) : res bytes :=
  Bytes ((
    AddUint8 typeKeyUpdate ;>
    AddUint24LengthPrefixed
      (if m.(updateRequested) then AddUint8 1 else AddUint8 0))
    NewBuilder).

Definition unmarshal (data : bytes) : option t :=
  read s := Skip 4 data in
  read (updateRequested, s) := ReadUint8 s in
  ensure Empty s in
  if updateRequested =? 0 then Some (Mk false)
  else if updateRequested =? 1 then Some (Mk true)
  else None.
End Ops.
End keyUpdateMsg.

Module newSessionTicketMsgTLS13.
Record t := Mk {
  lifetime : Z;
  ageAdd : Z;
  nonce : bytes;
  label : bytes;
  maxEarlyData : Z
}.
Section Ops.
Context `{C : Cryptobyte}.

Definition marshal (m : t) : res bytes :=
  Bytes ((
    AddUint8 typeNewSessionTicket ;>
    AddUint24LengthPrefixed (
      AddUint32 m.(lifetime) ;>
      AddUint32 m.(ageAdd) ;>
      AddUint8LengthPrefixed (AddBytes m.(nonce)) ;>
      AddUint16LengthPrefixed (AddBytes m.(label)) ;>
      AddUint16LengthPrefixed (
        bwhen (0 <? m.(maxEarlyData)) (
          AddUint16 extensionEarlyData ;>
          AddUint16LengthPrefixed (AddUint32 m.(maxEarlyData))))))
    NewBuilder).

Definition unmarshal_ext (m : t) (extension : Z) (extData rest : bytes) : option t :=
  if extension =? extensionEarlyData then
    read (v, extData) := ReadUint32 extData in
    ensure Empty extData in
    Some (Mk m.(lifetime) m.(ageAdd) m.(nonce) m.(label) v)
  else Some m.

Definition unmarshal (data : bytes) : option t :=
  read s := Skip 4 data in
  read (lifetime, s) := ReadUint32 s in
  read (ageAdd, s) := ReadUint32 s in
  read (nonce, s) := readUint8LengthPrefixed s in
  read (label, s) := readUint16LengthPrefixed s in
  read (extensions, s) := ReadUint16LengthPrefixed s in
  ensure Empty s in
  ext_loop unmarshal_ext (Mk lifetime ageAdd nonce label 0) extensions.
End Ops.
End newSessionTicketMsgTLS13.

Module certificateRequestMsgTLS13.
Record t := Mk {
  original : option bytes;
  ocspStapling : bool;
  scts : bool;
  supportedSignatureAlgorithms : list Z;
  supportedSignatureAlgorithmsCert : list Z;
  certificateAuthorities : list bytes
}.

Definition set_original (v : option bytes) (m : t) : t :=
  Mk v m.(ocspStapling) m.(scts) m.(supportedSignatureAlgorithms)
    m.(supportedSignatureAlgorithmsCert) m.(certificateAuthorities).
Definition set_ocspStapling (v : bool) (m : t) : t :=
  Mk m.(original) v m.(scts) m.(supportedSignatureAlgorithms)
    m.(supportedSignatureAlgorithmsCert) m.(certificateAuthorities).
Definition set_scts (v : bool) (m : t) : t :=
  Mk m.(original) m.(ocspStapling) v m.(supportedSignatureAlgorithms)
    m.(supportedSignatureAlgorithmsCert) m.(certificateAuthorities).
Definition set_supportedSignatureAlgorithms (v : list Z) (m : t) : t :=
  Mk m.(original) m.(ocspStapling) m.(scts) v m.(supportedSignatureAlgorithmsCert)
    m.(certificateAuthorities).
Definition set_supportedSignatureAlgorithmsCert (v : list Z) (m : t) : t :=
  Mk m.(original) m.(ocspStapling) m.(scts) m.(supportedSignatureAlgorithms) v
    m.(certificateAuthorities).
Definition set_certificateAuthorities (v : list bytes) (m : t) : t :=
  Mk m.(original) m.(ocspStapling) m.(scts) m.(supportedSignatureAlgorithms)
    m.(supportedSignatureAlgorithmsCert) v.

Section Ops.
Context `{C : Cryptobyte}.

Definition marshal (m : t) : res bytes :=
  Bytes ((
    AddUint8 typeCertificateRequest ;>
    AddUint24LengthPrefixed (
      AddUint8 0 ;>
      AddUint16LengthPrefixed (
        bwhen m.(ocspStapling) (
          AddUint16 extensionStatusRequest ;>
          AddUint16 0) ;>
        bwhen m.(scts) (
          AddUint16 extensionSCT ;>
          AddUint16 0) ;>
        bwhen (0 <? len m.(supportedSignatureAlgorithms)) (
          AddUint16 extensionSignatureAlgorithms ;>
          AddUint16LengthPrefixed (
            AddUint16LengthPrefixed (
              for_each m.(supportedSignatureAlgorithms) (fun sigAlgo => AddUint16 sigAlgo)))) ;>
        bwhen (0 <? len m.(supportedSignatureAlgorithmsCert)) (
          AddUint16 extensionSignatureAlgorithmsCert ;>
          AddUint16LengthPrefixed (
            AddUint16LengthPrefixed (
              for_each m.(supportedSignatureAlgorithmsCert) (fun sigAlgo => AddUint16 sigAlgo)))) ;>
        bwhen (0 <? len m.(certificateAuthorities)) (
          AddUint16 extensionCertificateAuthorities ;>
          AddUint16LengthPrefixed (
            AddUint16LengthPrefixed (
              for_each m.(certificateAuthorities) (fun ca =>
                AddUint16LengthPrefixed (AddBytes ca))))))))
    NewBuilder).

Definition unmarshal_ext (m : t) (extension : Z) (extData rest : bytes) : option t :=
  if extension =? extensionStatusRequest then
    ensure Empty extData in
    Some (set_ocspStapling true m)
  else if extension =? extensionSCT then
    ensure Empty extData in
    Some (set_scts true m)
  else if extension =? extensionSignatureAlgorithms then
    read (l, extData) := read_u16_list ReadUint16LengthPrefixed m.(supportedSignatureAlgorithms) extData in
    ensure Empty extData in
    Some (set_supportedSignatureAlgorithms l m)
  else if extension =? extensionSignatureAlgorithmsCert then
    read (l, extData) := read_u16_list ReadUint16LengthPrefixed m.(supportedSignatureAlgorithmsCert) extData in
    ensure Empty extData in
    Some (set_supportedSignatureAlgorithmsCert l m)
  else if extension =? extensionCertificateAuthorities then
    read (l, extData) := read_lp16_list m.(certificateAuthorities) extData in
    ensure Empty extData in
    Some (set_certificateAuthorities l m)
  else Some m.

Definition unmarshal (data : bytes) : option t :=
  read s := Skip 4 data in
  read (context, s) := ReadUint8LengthPrefixed s in
  ensure Empty context in
  read (extensions, s) := ReadUint16LengthPrefixed s in
  ensure Empty s in
  ext_loop unmarshal_ext (Mk (Some data) false false [] [] []) extensions.

Definition originalBytes (m : t) : option bytes := m.(original).
End Ops.
End certificateRequestMsgTLS13.

(** The fields of [Certificate] (common.go) that travel in messages. *)
Module Certificate.
Record t := Mk {
  Certificate : list bytes;
  OCSPStaple : option bytes;
  SignedCertificateTimestamps : option (list bytes)
}.
End Certificate.

Section MarshalCertificate.
Context `{C : Cryptobyte}.
Import Certificate.

Definition leaf_extensions (certificate : Certificate.t) : Builder -> Builder :=
  (match certificate.(OCSPStaple) with
   | Some ocsp =>
       AddUint16 extensionStatusRequest ;>
       AddUint16LengthPrefixed (
         AddUint8 statusTypeOCSP ;>
         AddUint24LengthPrefixed (AddBytes ocsp))
   | None => bnop
   end) ;>
  (match certificate.(SignedCertificateTimestamps) with
   | Some scts =>
       AddUint16 extensionSCT ;>
       AddUint16LengthPrefixed (
         AddUint16LengthPrefixed (
           for_each scts (fun sct => AddUint16LengthPrefixed (AddBytes sct))))
   | None => bnop
   end).

Definition marshalCertificate (certificate : Certificate.t) : Builder -> Builder :=
  AddUint24LengthPrefixed (
    for_each (imap pair certificate.(Certificate)) (fun '(i, cert) =>
      AddUint24LengthPrefixed (AddBytes cert) ;>
      AddUint16LengthPrefixed (
        if (0 <? Z.of_nat i) then bnop else leaf_extensions certificate))).

Definition unmarshalCertificate_ext (certificate : Certificate.t)
    (extension : Z) (extData rest : bytes) : option Certificate.t :=
  if 1 <? len certificate.(Certificate) then Some certificate
  else if extension =? extensionStatusRequest then
    read (statusType, extData) := ReadUint8 extData in
    ensure statusType =? statusTypeOCSP in
    read (ocsp, extData) := readUint24LengthPrefixed extData in
    ensure negb (len ocsp =? 0) in
    ensure Empty extData in
    Some (Certificate.Mk certificate.(Certificate) (Some ocsp)
            certificate.(SignedCertificateTimestamps))
  else if extension =? extensionSCT then
    read (l, extData) :=
      read_lp16_list (default [] certificate.(SignedCertificateTimestamps)) extData in
    ensure Empty extData in
    Some (Certificate.Mk certificate.(Certificate) certificate.(OCSPStaple) (Some l))
  else Some certificate.

Definition unmarshalCertificate_body (certificate : Certificate.t) (certList : bytes)
    : option (Certificate.t * bytes) :=
  read (cert, certList) := readUint24LengthPrefixed certList in
  read (extensions, certList) := ReadUint16LengthPrefixed certList in
  read certificate := ext_loop unmarshalCertificate_ext
    (Certificate.Mk (certificate.(Certificate) ++ [cert]) certificate.(OCSPStaple)
       certificate.(SignedCertificateTimestamps)) extensions in
  Some (certificate, certList).

Definition unmarshalCertificate (s : bytes) (certificate : Certificate.t)
    : option (Certificate.t * bytes) :=
  read (certList, s) := ReadUint24LengthPrefixed s in
  read certificate := loop unmarshalCertificate_body certificate certList in
  Some (certificate, s).
End MarshalCertificate.

Module certificateMsgTLS13.
Record t := Mk {
  certificate : Certificate.t;
  ocspStapling : bool;
  scts : bool
}.
Section Ops.
Context `{C : Cryptobyte}.

Definition marshal (m : t) : res bytes :=
  Bytes ((
    AddUint8 typeCertificate ;>
    AddUint24LengthPrefixed (
      AddUint8 0 ;>
      marshalCertificate (Certificate.Mk
        m.(certificate).(Certificate.Certificate)
        (if m.(ocspStapling) then m.(certificate).(Certificate.OCSPStaple) else None)
        (if m.(scts) then m.(certificate).(Certificate.SignedCertificateTimestamps) else None))))
    NewBuilder).

Definition unmarshal (data : bytes) : option t :=
  read s := Skip 4 data in
  read (context, s) := ReadUint8LengthPrefixed s in
  ensure Empty context in
  read (certificate, s) := unmarshalCertificate s (Certificate.Mk [] None None) in
  ensure Empty s in
  Some (Mk certificate
    (non_nil certificate.(Certificate.OCSPStaple))
    (non_nil certificate.(Certificate.SignedCertificateTimestamps))).
End Ops.
End certificateMsgTLS13.

Module certificateStatusMsg.
Record t := Mk { response : bytes }.
Section Ops.
Context `{C : Cryptobyte}.

Definition marshal (m : t) : res bytes :=
  Bytes ((
    AddUint8 typeCertificateStatus ;>
    AddUint24LengthPrefixed (
      AddUint8 statusTypeOCSP ;>
      AddUint24LengthPrefixed (AddBytes m.(response))))
    NewBuilder).

Definition unmarshal (data : bytes) : option t :=
  read s := Skip 4 data in
  read (statusType, s) := ReadUint8 s in
  ensure statusType =? statusTypeOCSP in
  read (response, s) := readUint24LengthPrefixed s in
  ensure negb (len response =? 0) in
  ensure Empty s in
  Some (Mk response).
End Ops.
End certificateStatusMsg.

Module finishedMsg.
Record t := Mk { verifyData : bytes }.
Section Ops.
Context `{C : Cryptobyte}.

Definition marshal (m : t) : res bytes :=
  Bytes ((
    AddUint8 typeFinished ;>
    AddUint24LengthPrefixed (AddBytes m.(verifyData)))
    NewBuilder).

Definition unmarshal (data : bytes) : option t :=
  read s := Skip 1 data in
  read (verifyData, s) := readUint24LengthPrefixed s in
  ensure Empty s in
  Some (Mk verifyData).
End Ops.
End finishedMsg.

Module certificateVerifyMsg.
Record t := Mk {
  hasSignatureAlgorithm : bool;
  signatureAlgorithm : Z;
  signature : bytes
}.
Section Ops.
Context `{C : Cryptobyte}.

Definition marshal (m : t) : res bytes :=
  Bytes ((
    AddUint8 typeCertificateVerify ;>
    AddUint24LengthPrefixed (
      bwhen m.(hasSignatureAlgorithm) (AddUint16 m.(signatureAlgorithm)) ;>
      AddUint16LengthPrefixed (AddBytes m.(signature))))
    NewBuilder).

(** The receiver's [hasSignatureAlgorithm] is set by the caller. *)
Definition unmarshal (m : t) (data : bytes) : option t :=
  read s := Skip 4 data in
  read (alg, s) :=
    if m.(hasSignatureAlgorithm) then ReadUint16 s else Some (m.(signatureAlgorithm), s) in
  read (signature, s) := readUint16LengthPrefixed s in
  ensure Empty s in
  Some (Mk m.(hasSignatureAlgorithm) alg signature).
End Ops.
End certificateVerifyMsg.

(** ** Messages added by uTLS (u_handshake_messages.go) *)

Module utlsCompressedCertificateMsg.
Record t := Mk {
  raw : option bytes;
  algorithm : Z;
  uncompressedLength : Z;
  compressedCertificateMessage : bytes
}.
Section Ops.
Context `{C : Cryptobyte}.

(** Marshalling caches the result in [raw]; the updated receiver is returned
    with the result. *)
Definition marshal (m : t) : res bytes * t :=
  match m.(raw) with
  | Some r => (inr r, m)
  | None =>
      let x := Bytes ((
        AddUint8 utlsTypeCompressedCertificate ;>
        AddUint24LengthPrefixed (
          AddUint16 m.(algorithm) ;>
          AddUint24 m.(uncompressedLength) ;>
          AddUint24LengthPrefixed (AddBytes m.(compressedCertificateMessage))))
        NewBuilder) in
      (x, Mk (match x with inr r => Some r | inl _ => None end)
            m.(algorithm) m.(uncompressedLength) m.(compressedCertificateMessage))
  end.

Definition unmarshal (data : bytes) : option t :=
  read s := Skip 4 data in
  read (algorithm, s) := ReadUint16 s in
  read (uncompressedLength, s) := ReadUint24 s in
  read (compressedCertificateMessage, s) := readUint24LengthPrefixed s in
  Some (Mk (Some data) algorithm uncompressedLength compressedCertificateMessage).
End Ops.
End utlsCompressedCertificateMsg.

Module utlsEncryptedExtensionsMsgExtraFields.
Record t := Mk {
  applicationSettings : bytes;
  applicationSettingsCodepoint : Z;
  customExtension : bytes
}.
End utlsEncryptedExtensionsMsgExtraFields.

Module encryptedExtensionsMsg.
Import utlsEncryptedExtensionsMsgExtraFields.
Record t := Mk {
  alpnProtocol : bytes;
  quicTransportParameters : option bytes;
  earlyData : bool;
  echRetryConfigs : option bytes;
  utls : utlsEncryptedExtensionsMsgExtraFields.t
}.

Definition set_alpnProtocol (v : bytes) (m : t) : t :=
  Mk v m.(quicTransportParameters) m.(earlyData) m.(echRetryConfigs) m.(utls).
Definition set_quicTransportParameters (v : option bytes) (m : t) : t :=
  Mk m.(alpnProtocol) v m.(earlyData) m.(echRetryConfigs) m.(utls).
Definition set_earlyData (v : bool) (m : t) : t :=
  Mk m.(alpnProtocol) m.(quicTransportParameters) v m.(echRetryConfigs) m.(utls).
Definition set_echRetryConfigs (v : option bytes) (m : t) : t :=
  Mk m.(alpnProtocol) m.(quicTransportParameters) m.(earlyData) v m.(utls).
Definition set_utls (v : utlsEncryptedExtensionsMsgExtraFields.t) (m : t) : t :=
  Mk m.(alpnProtocol) m.(quicTransportParameters) m.(earlyData) m.(echRetryConfigs) v.

Section Ops.
Context `{C : Cryptobyte}.

Definition marshal (m : t) : res bytes :=
  Bytes ((
    AddUint8 typeEncryptedExtensions ;>
    AddUint24LengthPrefixed (
      AddUint16LengthPrefixed (
        bwhen (0 <? len m.(alpnProtocol)) (
          AddUint16 extensionALPN ;>
          AddUint16LengthPrefixed (
            AddUint16LengthPrefixed (
              AddUint8LengthPrefixed (AddBytes m.(alpnProtocol))))) ;>
        bwhen (non_nil m.(quicTransportParameters)) (
          AddUint16 extensionQUICTransportParameters ;>
          AddUint16LengthPrefixed (AddBytes (slice_bytes m.(quicTransportParameters)))) ;>
        bwhen m.(earlyData) (
          AddUint16 extensionEarlyData ;>
          AddUint16 0) ;>
        bwhen (0 <? len (slice_bytes m.(echRetryConfigs))) (
          AddUint16 extensionEncryptedClientHello ;>
          AddUint16LengthPrefixed (AddBytes (slice_bytes m.(echRetryConfigs)))))))
    NewBuilder).

(** [utlsUnmarshal] of u_handshake_messages.go. *)
Definition utlsUnmarshal (m : t) (extension : Z) (extData : bytes) : bool * t :=
  if (extension =? utlsExtensionApplicationSettings)
     || (extension =? utlsExtensionApplicationSettingsNew) then
    (true, set_utls (utlsEncryptedExtensionsMsgExtraFields.Mk extData extension
                       m.(utls).(customExtension)) m)
  else (true, m).

Definition unmarshal_ext (m : t) (extension : Z) (extData rest : bytes) : option t :=
  if extension =? extensionALPN then
    read (protoList, extData) := ReadUint16LengthPrefixed extData in
    ensure negb (Empty protoList) in
    read (proto, protoList) := ReadUint8LengthPrefixed protoList in
    ensure negb (Empty proto) && Empty protoList in
    ensure Empty extData in
    Some (set_alpnProtocol proto m)
  else if extension =? extensionQUICTransportParameters then
    read (v, extData) := CopyBytes (len extData) extData in
    ensure Empty extData in
    Some (set_quicTransportParameters (Some v) m)
  else if extension =? extensionEarlyData then
    ensure Empty extData in
    Some (set_earlyData true m)
  else if extension =? extensionEncryptedClientHello then
    read (v, extData) := CopyBytes (len extData) extData in
    ensure Empty extData in
    Some (set_echRetryConfigs (Some v) m)
  else
    let '(ok, m) := utlsUnmarshal m extension extData in
    ensure ok in Some m.

Definition unmarshal (data : bytes) : option t :=
  read s := Skip 4 data in
  read (extensions, s) := ReadUint16LengthPrefixed s in
  ensure Empty s in
  ext_loop unmarshal_ext
    (Mk [] None false None (utlsEncryptedExtensionsMsgExtraFields.Mk [] 0 [])) extensions.
End Ops.
End encryptedExtensionsMsg.

Module utlsClientEncryptedExtensionsMsg.
Record t := Mk {
  raw : option bytes;
  applicationSettings : bytes;
  applicationSettingsCodepoint : Z;
  customExtension : bytes
}.
Section Ops.
Context `{C : Cryptobyte}.

Definition marshal (m : t) : res bytes * t :=
  match m.(raw) with
  | Some r => (inr r, m)
  | None =>
      let x := Bytes ((
        AddUint8 typeEncryptedExtensions ;>
        AddUint24LengthPrefixed (
          AddUint16LengthPrefixed (
            bwhen (negb (m.(applicationSettingsCodepoint) =? 0)) (
              AddUint16 m.(applicationSettingsCodepoint) ;>
              AddUint16LengthPrefixed (AddBytes m.(applicationSettings))) ;>
            bwhen (0 <? len m.(customExtension)) (
              AddUint16 utlsFakeExtensionCustom ;>
              AddUint16LengthPrefixed (AddBytes m.(customExtension))))))
        NewBuilder) in
      (x, Mk (match x with inr r => Some r | inl _ => None end)
            m.(applicationSettings) m.(applicationSettingsCodepoint) m.(customExtension))
  end.

Definition unmarshal_ext (m : t) (extension : Z) (extData rest : bytes) : option t :=
  if (extension =? utlsExtensionApplicationSettings)
     || (extension =? utlsExtensionApplicationSettingsNew) then
    Some (Mk m.(raw) extData extension m.(customExtension))
  else None.

Definition unmarshal (data : bytes) : option t :=
  read s := Skip 4 data in
  read (extensions, s) := ReadUint16LengthPrefixed s in
  ensure Empty s in
  ext_loop unmarshal_ext (Mk (Some data) [] 0 []) extensions.
End Ops.
End utlsClientEncryptedExtensionsMsg.

(** * Theorems *)

(** Normalise a parse result once all reads have been rewritten. *)
Section Proofs.
Context `{C : Cryptobyte} {Cok : CryptobyteOk C}.

#[global] Instance emits_addBytesWithLength v n :
  Emits (addBytesWithLength v n) (if len v =? n then Some v else None).
Proof.
  intros b. unfold addBytesWithLength. rewrite out_AddValue.
  destruct (len v =? n); simpl; [apply emits_AddBytes|].
  destruct (out b); done.
Qed.

Lemma read_lp16_list_enc acc l z r :
  oconcat (map (fun x => olp 2 (Some x)) l) = Some z ->
  Forall (fun x => x <> []) l -> (0 <? len l) = true -> len z < 2 ^ 16 ->
  read_lp16_list acc ((be 2 (len z) ++ z) ++ r) = Some (acc ++ l, r).
Proof.
  intros [-> Hl]%emit_lps Hne H0 Hz. unfold read_lp16_list.
  autorewrite with cbspec. rewrite rd_lp_app by exact Hz.
  rewrite Empty_len. destruct (Z.eqb_spec (len (concat (map (enc_lp 2) l))) 0) as [E|_]; simpl.
  - destruct l as [|x l]; [done|]. cbn [map concat] in E. unfold enc_lp in E.
    autorewrite with cb in E. pose proof (len_nonneg x).
    pose proof (len_nonneg (concat (map (enc_lp 2) l))). unfold enc_lp in *. lia.
  - rewrite (loop_lps 2); auto with lia. intros s. unfold readUint16LengthPrefixed.
    by autorewrite with cbspec.
Qed.

Lemma len_nonzero {A} (l : list A) : l <> [] -> (len l =? 0) = false.
Proof. intros H. apply Z.eqb_neq. by rewrite len_0_iff. Qed.

Section CertificateRequest.
Import certificateRequestMsgTLS13.

Lemma certificateRequestTLS13_rt m x :
  Forall is_u16 m.(supportedSignatureAlgorithms) ->
  Forall is_u16 m.(supportedSignatureAlgorithmsCert) ->
  Forall (fun ca => ca <> []) m.(certificateAuthorities) ->
  marshal m = inr x -> unmarshal x = Some (set_original (Some x) m).
Proof.
  intros H1 H2 H3 H. unfold marshal in H. denote H.
  unfold unmarshal. generalize (Some x) as orig. intros orig. enter_exts.
  ext_step (set_ocspStapling m.(ocspStapling)) by ext_solve.
  ext_step (set_scts m.(scts)) by ext_solve.
  ext_step (set_supportedSignatureAlgorithms m.(supportedSignatureAlgorithms)) by ext_solve.
  ext_step (set_supportedSignatureAlgorithmsCert m.(supportedSignatureAlgorithmsCert)) by ext_solve.
  ext_step (set_certificateAuthorities m.(certificateAuthorities)) by
    (ext_solve_with ltac:(rewrite read_lp16_list_enc with (l := m.(certificateAuthorities)) by done)).
  by destruct m.
Qed.
End CertificateRequest.

Section KeyUpdate.
Import keyUpdateMsg.
Lemma keyUpdate_rt m x : marshal m = inr x -> unmarshal x = Some m.
Proof.
  intros H. unfold marshal in H. denote H.
  destruct m as [[]]; cbn [updateRequested] in H; inv_out; unfold unmarshal; by parse.
Qed.

(** A KeyUpdate body other than 0 or 1 is rejected. *)
Lemma keyUpdate_reject b hdr :
  length hdr = 4%nat -> unmarshal (hdr ++ [b]) =
    if b2z b =? 0 then Some (Mk false) else if b2z b =? 1 then Some (Mk true) else None.
Proof.
  intros Hh. unfold unmarshal. autorewrite with cbspec.
  rewrite rd_bytes_app by (unfold len; lia). cbn [fmap option_fmap option_map snd].
  rewrite <- (u8_b2z b) at 1. change [u8 (b2z b)] with (be 1 (b2z b)). pose proof (b2z_range b).
  by parse.
Qed.
End KeyUpdate.

Section NewSessionTicket.
Import newSessionTicketMsgTLS13.
Lemma newSessionTicketTLS13_rt m x :
  is_u32 m.(lifetime) -> is_u32 m.(ageAdd) -> is_u32 m.(maxEarlyData) ->
  marshal m = inr x -> unmarshal x = Some m.
Proof.
  intros H1 H2 H3 H. unfold marshal in H. denote H. unfold unmarshal, readUint8LengthPrefixed,
    readUint16LengthPrefixed. enter_exts.
  transitivity (Some m); [apply run_exts_last|done].
  destruct (0 <? maxEarlyData m) eqn:Hc;
    [ext_present; unfold unmarshal_ext; ext_switch; parse; by destruct m|].
  apply Z.ltb_ge in Hc. destruct m as [l a n lb e]. cbn in *. unfold is_u32 in *.
  by replace e with 0 by lia.
Qed.
End NewSessionTicket.

Section CertificateVerify.
Import certificateVerifyMsg.
Lemma certificateVerify_rt m m0 x :
  m0.(hasSignatureAlgorithm) = m.(hasSignatureAlgorithm) ->
  (if m.(hasSignatureAlgorithm) then is_u16 m.(signatureAlgorithm)
   else m0.(signatureAlgorithm) = m.(signatureAlgorithm)) ->
  marshal m = inr x -> unmarshal m0 x = Some m.
Proof.
  intros H0 H1 H. unfold marshal in H. denote H. inv_out.
  unfold unmarshal, readUint16LengthPrefixed. rewrite H0.
  destruct m as [[] a s]; cbn in *; inv_out; by parse.
Qed.
End CertificateVerify.

Section CertificateStatus.
Import certificateStatusMsg.
Lemma certificateStatus_rt m x :
  m.(response) <> [] -> marshal m = inr x -> unmarshal x = Some m.
Proof.
  intros H0 H. unfold marshal in H. denote H. inv_out.
  unfold unmarshal, readUint24LengthPrefixed. parse. ext_switch. parse.
  rewrite len_nonzero by done. by destruct m.
Qed.
End CertificateStatus.

Section Finished.
Import finishedMsg.
Lemma finished_rt m x : marshal m = inr x -> unmarshal x = Some m.
Proof.
  intros H. unfold marshal in H. denote H. inv_out.
  unfold unmarshal, readUint24LengthPrefixed. autorewrite with cbspec.
  rewrite rd_bytes_app by done. cbn [fmap option_fmap option_map snd]. parse. by destruct m.
Qed.
End Finished.

Section EncryptedExtensions.
Import encryptedExtensionsMsg.
(** The server's message carries none of the uTLS fields. *)
Lemma encryptedExtensions_rt m x :
  m.(utls) = utlsEncryptedExtensionsMsgExtraFields.Mk [] 0 [] ->
  m.(echRetryConfigs) <> Some [] ->
  marshal m = inr x -> unmarshal x = Some m.
Proof.
  intros H0 H1 H. unfold marshal in H. denote H. unfold unmarshal. enter_exts.
  ext_step (set_alpnProtocol m.(alpnProtocol)) by
    (unfold unmarshal_ext; ext_switch; parse; by destruct (alpnProtocol m)).
  ext_step (set_quicTransportParameters m.(quicTransportParameters)) by
    (unfold unmarshal_ext; ext_switch; parse; by destruct (quicTransportParameters m)).
  ext_step (set_earlyData m.(earlyData)) by ext_solve.
  destruct m as [a q e [[|b ech]|] u]; [done| |]; unfold slice_bytes in *;
    cbn [echRetryConfigs utls from_option id] in *;
    rewrite run_exts_opt, H0; [|done].
  rewrite !len_pos_cons in *. ext_present. ext_solve.
Qed.
End EncryptedExtensions.

Section CompressedCertificate.
Import utlsCompressedCertificateMsg.
Lemma compressedCertificate_rt m x :
  m.(raw) = None -> is_u16 m.(algorithm) -> is_u24 m.(uncompressedLength) ->
  (marshal m).1 = inr x ->
  let m' := Mk (Some x) m.(algorithm) m.(uncompressedLength) m.(compressedCertificateMessage) in
  (marshal m).2 = m' /\ unmarshal x = Some m'.
Proof.
  intros H0 H1 H2 H m'. unfold marshal in *. rewrite H0 in *. cbn [fst snd] in *.
  rewrite H. split; [done|]. denote H. unfold unmarshal, readUint24LengthPrefixed.
  subst m'. generalize (Some x) as orig. intros orig. inv_out. by parse.
Qed.
End CompressedCertificate.

Section ClientEncryptedExtensions.
Import utlsClientEncryptedExtensionsMsg.
(** The ALPS message of the client; the custom extension is write-only. *)
Lemma clientEncryptedExtensions_rt m x :
  m.(raw) = None -> m.(customExtension) = [] ->
  m.(applicationSettingsCodepoint) = utlsExtensionApplicationSettings \/
  m.(applicationSettingsCodepoint) = utlsExtensionApplicationSettingsNew ->
  (marshal m).1 = inr x ->
  unmarshal x =
    Some (Mk (Some x) m.(applicationSettings) m.(applicationSettingsCodepoint) []).
Proof.
  intros H0 H1 H2 H. unfold marshal in H. rewrite H0 in H. cbn [fst] in H. denote H.
  rewrite H1 in H. unfold unmarshal. generalize (Some x) as orig. intros orig.
  assert (is_u16 m.(applicationSettingsCodepoint)) by (destruct H2 as [-> | ->]; done).
  inv_exts. parse. rewrite ext_loop_enc.
  - rewrite run_exts_app, run_exts_opt. destruct H2 as [H2|H2]; rewrite H2 in *.
    all: destruct (Hbody0 eq_refl) as [[= <-] ?]; unfold unmarshal_ext; done.
  - wf_exts || (apply Forall_app_2; [eapply wf_opt_ext; eauto | constructor]).
Qed.
End ClientEncryptedExtensions.

Section CertificateTLS13.
Import Certificate.

(** What [marshalCertificate] emits for the leaf's extensions and for one
    certificate of the chain. *)
Definition leaf_d (c : Certificate.t) : option bytes :=
  oapp
    (if non_nil c.(OCSPStaple)
     then oext extensionStatusRequest
            (oapp (Some (be 1 statusTypeOCSP)) (olp 3 (Some (slice_bytes c.(OCSPStaple)))))
     else Some [])
    (if non_nil c.(SignedCertificateTimestamps)
     then oext extensionSCT
            (olp 2 (oconcat (map (fun x => olp 2 (Some x)) (default [] c.(SignedCertificateTimestamps)))))
     else Some []).

Definition cert_d (c : Certificate.t) (x : nat * bytes) : option bytes :=
  oapp (olp 3 (Some x.2)) (olp 2 (if 0 <? Z.of_nat x.1 then Some [] else leaf_d c)).

Lemma emits_leaf_extensions c : Emits (leaf_extensions c) (leaf_d c).
Proof.
  unfold leaf_extensions, leaf_d, oext. apply emits_seq.
  - destruct (OCSPStaple c); cbn; typeclasses eauto.
  - destruct (SignedCertificateTimestamps c); cbn; typeclasses eauto.
Qed.

#[global] Instance emits_marshalCertificate c :
  Emits (marshalCertificate c) (olp 3 (oconcat (map (cert_d c) (imap pair c.(Certificate))))).
Proof.
  unfold marshalCertificate. apply emits_lp24, emits_for_each. intros [i cert].
  unfold cert_d. cbn [fst snd]. pose proof (emits_leaf_extensions c). typeclasses eauto.
Qed.

Lemma unmarshalCertificate_shrinks : shrinks unmarshalCertificate_body.
Proof.
  intros st s st' s'. unfold unmarshalCertificate_body, readUint24LengthPrefixed.
  autorewrite with cbspec. destruct (rd_lp 3 s) as [[x r]|] eqn:E; [|done].
  autorewrite with cbspec. destruct (rd_lp 2 r) as [[y r']|] eqn:E'; [|done].
  destruct (ext_loop _ _ _); [|done]. intros [= <- <-].
  apply rd_lp_shrinks in E, E'. unfold len in *. lia.
Qed.

(** Certificates after the leaf carry no extensions and are appended. *)
Lemma unmarshal_chain c i certs z st :
  oconcat (map (cert_d c) (imap (pair ∘ (Nat.add (S i))) certs)) = Some z ->
  st.(Certificate) <> [] ->
  loop unmarshalCertificate_body st z =
    Some (Certificate.Mk (st.(Certificate) ++ certs) st.(OCSPStaple)
            st.(SignedCertificateTimestamps)).
Proof.
  revert i z st. induction certs as [|x certs IH]; intros i z st; cbn [imap map oconcat].
  - intros [= <-] _. rewrite loop_nil, app_nil_r. by destruct st.
  - intros (p & q & Hp & Hq & ->)%oapp_Some Hst. unfold cert_d in Hp. cbn [fst snd compose] in Hp.
    replace (0 <? Z.of_nat (S i + 0)) with true in Hp by (symmetry; apply Z.ltb_lt; lia).
    inv_out. rewrite loop_step; [|apply unmarshalCertificate_shrinks|by destruct (be 3 _) eqn:?].
    unfold unmarshalCertificate_body at 1, readUint24LengthPrefixed. parse.
    change (rd_lp 2 (be 2 (len []) ++ [] ++ q)) with (rd_lp 2 (be 2 0 ++ q)). parse.
    unfold ext_loop. rewrite loop_nil.
    rewrite (IH (S i)); cbn [Certificate OCSPStaple SignedCertificateTimestamps].
    + by rewrite <- app_assoc.
    + rewrite <- Hq. do 2 f_equal. apply imap_ext. intros k y _. cbn. f_equal. lia.
    + by destruct (Certificate st).
Qed.

(** A certificate that the TLS 1.3 Certificate message can carry: stapled
    data is non-empty and belongs to a leaf. *)
Definition wf_staples (c : Certificate.t) : Prop :=
  c.(OCSPStaple) <> Some [] /\ c.(SignedCertificateTimestamps) <> Some [] /\
  Forall (fun sct => sct <> []) (default [] c.(SignedCertificateTimestamps)) /\
  (c.(Certificate) = [] -> c.(OCSPStaple) = None /\ c.(SignedCertificateTimestamps) = None).

Lemma unmarshal_leaf c x z :
  leaf_d c = Some z -> wf_staples c ->
  ext_loop unmarshalCertificate_ext (Certificate.Mk [x] None None) z =
    Some (Certificate.Mk [x] c.(OCSPStaple) c.(SignedCertificateTimestamps)).
Proof.
  intros H (Ho & Hs & Hne & _). unfold leaf_d, oext in H. inv_exts. rewrite ext_loop_enc by wf_exts.
  ext_step (fun st => Certificate.Mk st.(Certificate) c.(OCSPStaple) st.(SignedCertificateTimestamps)) by idtac.
  - unfold unmarshalCertificate_ext, readUint24LengthPrefixed. cbn [Certificate OCSPStaple SignedCertificateTimestamps].
    change (1 <? len [x]) with false. ext_switch. parse. ext_switch. parse.
    destruct (OCSPStaple c) as [o|]; [|done]. cbn in *. rewrite len_nonzero by congruence. done.
  - ext_step (fun st => Certificate.Mk st.(Certificate) st.(OCSPStaple) c.(SignedCertificateTimestamps)) by idtac;
      [|by cbn].
    unfold unmarshalCertificate_ext. cbn [Certificate OCSPStaple SignedCertificateTimestamps].
    change (1 <? len [x]) with false. ext_switch.
    destruct (SignedCertificateTimestamps c) as [l|]; [|done]. cbn in *.
    rewrite <- (app_nil_r (be _ _ ++ _)).
    rewrite read_lp16_list_enc with (l := l); [by parse|done|done| |done].
    destruct l; [done|apply len_pos_cons].
Qed.

Lemma unmarshal_certs c z :
  oconcat (map (cert_d c) (imap pair c.(Certificate))) = Some z -> wf_staples c ->
  loop unmarshalCertificate_body (Certificate.Mk [] None None) z = Some c.
Proof.
  intros H Hw. destruct c as [[|x certs] o s]; cbn [Certificate.Certificate imap map oconcat] in H.
  - injection H as <-. destruct Hw as (_ & _ & _ & Hw). destruct (Hw eq_refl) as [H1 H2]. cbn in H1, H2.
    rewrite loop_nil. by subst.
  - apply oapp_Some in H as (p & q & Hp & Hq & ->).
    unfold cert_d in Hp. cbn [fst snd] in Hp.
    apply oapp_Some in Hp as (p1 & p2 & (c1 & [= <-] & ? & ->)%olp_Some & (c2 & Hl & ? & ->)%olp_Some & ->).
    rewrite loop_step; [|apply unmarshalCertificate_shrinks|by destruct (be 3 _) eqn:?].
    unfold unmarshalCertificate_body at 1, readUint24LengthPrefixed. parse.
    rewrite app_nil_l, (unmarshal_leaf _ _ _ Hl Hw).
    by rewrite (unmarshal_chain _ 0 _ _ _ Hq).
Qed.

Import certificateMsgTLS13.
Lemma certificateTLS13_rt m x :
  wf_staples m.(certificate) ->
  m.(ocspStapling) = non_nil m.(certificate).(OCSPStaple) ->
  m.(scts) = non_nil m.(certificate).(SignedCertificateTimestamps) ->
  marshal m = inr x -> unmarshal x = Some m.
Proof.
  intros Hw H1 H2 H. destruct m as [c o s]. cbn in H1, H2, Hw. subst o s.
  unfold marshal in H. cbn in H.
  replace (if non_nil c.(OCSPStaple) then c.(OCSPStaple) else None) with c.(OCSPStaple) in H
    by by destruct (OCSPStaple c).
  replace (if non_nil c.(SignedCertificateTimestamps) then c.(SignedCertificateTimestamps) else None)
    with c.(SignedCertificateTimestamps) in H by by destruct (SignedCertificateTimestamps c).
  replace (Certificate.Mk c.(Certificate) c.(OCSPStaple) c.(SignedCertificateTimestamps)) with c in H
    by by destruct c.
  denote H. inv_out. unfold unmarshal. parse. unfold unmarshalCertificate. parse.
  erewrite unmarshal_certs by done. by parse.
Qed.
End CertificateTLS13.
End Proofs.
