(* ===== verification/Ticket.v ===== *)
(** * Sessions

    Models [SessionState] of ticket.go with its encoding and parser.
    Certificates are parsed by crypto/x509, which is a parameter (class [X509])
    whose documented behaviour is that a certificate parsed from its [Raw] field
    is that certificate. *)

From S2P Require Import Prelude Cryptobyte Common Codec Buffer Messages.

(** ** crypto/x509 *)

Class X509 := {
  certificate : Type;
  ParseCertificate : bytes -> res certificate;
  Raw : certificate -> bytes
}.

Class X509Ok (X : X509) : Prop := {
  ParseCertificate_Raw c : ParseCertificate (Raw c) = inr c
}.

(** ** Sessions *)

Module SessionState.
Record t `{X : X509} := Mk {
  Extra : list bytes;
  EarlyData : bool;
  version : Z;
  isClient : bool;
  cipherSuite : Z;
  createdAt : Z;
  secret : bytes;
  extMasterSecret : bool;
  peerCertificates : list certificate;
  ocspResponse : option bytes;
  scts : option (list bytes);
  verifiedChains : list (list certificate);
  alpnProtocol : bytes;
  useBy : Z;
  ageAdd : Z;
  ticket : option bytes
}.
#[global] Arguments t _ : clear implicits.
#[global] Arguments Mk {X}.

Section Ops.
Context `{C : Cryptobyte} `{X : X509}.

Definition addBool (b : bool) : Builder -> Builder := if b then AddUint8 1 else AddUint8 0.

(** One verified chain, without its leaf. *)
Definition add_chain (chain : list certificate) : Builder -> Builder :=
  AddUint24LengthPrefixed (
    match chain with
    | [] => SetError (ErrorNew "tls: internal error: empty verified chain")
    | _ :: chain => for_each chain (fun cert => AddUint24LengthPrefixed (AddBytes (Raw cert)))
    end).

Definition certificatesToBytesSlice (certs : list certificate) : list bytes := map Raw certs.

Definition Bytes_ (s : t X) : res bytes :=
  Bytes ((
    AddUint16 s.(version) ;>
    (if s.(isClient) then AddUint8 2 else AddUint8 1) ;>
    AddUint16 s.(cipherSuite) ;>
    addUint64 s.(createdAt) ;>
    AddUint8LengthPrefixed (AddBytes s.(secret)) ;>
    AddUint24LengthPrefixed (
      for_each s.(Extra) (fun extra => AddUint24LengthPrefixed (AddBytes extra))) ;>
    addBool s.(extMasterSecret) ;>
    addBool s.(EarlyData) ;>
    marshalCertificate (Certificate.Mk (certificatesToBytesSlice s.(peerCertificates))
      s.(ocspResponse) s.(scts)) ;>
    AddUint24LengthPrefixed (for_each s.(verifiedChains) add_chain) ;>
    bwhen s.(EarlyData) (AddUint8LengthPrefixed (AddBytes s.(alpnProtocol))) ;>
    bwhen (s.(isClient) && (VersionTLS13 <=? s.(version)))
      (addUint64 s.(useBy) ;> AddUint32 s.(ageAdd))) NewBuilder).

Definition invalid : gerror := ErrorNew "tls: invalid session encoding".

(** [for !extra.Empty() { ... }] *)
Definition extra_body (acc : list bytes) (extra : bytes) : option (list bytes * bytes) :=
  read (e, extra) := readUint24LengthPrefixed extra in
  Some (acc ++ [e], extra).

(** [globalCertCache.newCert] of every certificate; the first error ends it. *)
Fixpoint newCerts (l : list bytes) : res (list certificate) :=
  match l with
  | [] => inr []
  | cert :: l =>
      try c := ParseCertificate cert in
      try certs := newCerts l in
      inr (c :: certs)
  end.

(** [for !certList.Empty() { ... }] and [for !chainList.Empty() { ... }]; a
    failure to read is [None], a certificate that does not parse is an error. *)
Definition chain_body (chain : res (list certificate)) (certList : bytes)
    : option (res (list certificate) * bytes) :=
  match chain with
  | inl _ => None  (* not reached: after an error nothing is left *)
  | inr chain =>
      read (cert, certList) := readUint24LengthPrefixed certList in
      match ParseCertificate cert with
      | inl e => Some (inl e, [])
      | inr c => Some (inr (chain ++ [c]), certList)
      end
  end.

Definition chains_body (peerCertificates : list certificate) (chains : res (list (list certificate)))
    (chainList : bytes) : option (res (list (list certificate)) * bytes) :=
  match chains with
  | inl _ => None  (* not reached *)
  | inr chains =>
      read (certList, chainList) := ReadUint24LengthPrefixed chainList in
      match peerCertificates with
      | [] => Some (inl invalid, [])
      | leaf :: _ =>
          read chain := loop chain_body (inr [leaf]) certList in
          match chain with
          | inl e => Some (inl e, [])
          | inr chain => Some (inr (chains ++ [chain]), chainList)
          end
      end
  end.

Definition readBool (v : Z) : option bool :=
  if v =? 0 then Some false else if v =? 1 then Some true else None.

(** The end of [ParseSessionState]: what follows the chains. *)
Definition parse_tail (ss : t X) (typ : Z) (s : bytes) : res (t X) :=
  readE (alpn, s) := (if ss.(EarlyData) then readUint8LengthPrefixed s else Some ([], s)) or invalid in
  let with_tail isClient useBy ageAdd :=
    Mk ss.(Extra) ss.(EarlyData) ss.(version) isClient ss.(cipherSuite) ss.(createdAt) ss.(secret)
      ss.(extMasterSecret) ss.(peerCertificates) ss.(ocspResponse) ss.(scts) ss.(verifiedChains)
      alpn useBy ageAdd None in
  if negb (typ =? 2) then (if Empty s then inr (with_tail false 0 0) else inl invalid) else
  if len ss.(peerCertificates) =? 0 then inl (ErrorNew "tls: no server certificates in client session") else
  if ss.(version) <? VersionTLS13 then (if Empty s then inr (with_tail true 0 0) else inl invalid) else
  readE (useBy, s) := ReadUint64 s or invalid in
  readE (ageAdd, s) := ReadUint32 s or invalid in
  if Empty s then inr (with_tail true useBy ageAdd) else inl invalid.

Definition ParseSessionState (data : bytes) : res (t X) :=
  readE (version, s) := ReadUint16 data or invalid in
  readE (typ, s) := ReadUint8 s or invalid in
  if negb (typ =? 1) && negb (typ =? 2) then inl invalid else
  readE (cipherSuite, s) := ReadUint16 s or invalid in
  readE (createdAt, s) := readUint64 s or invalid in
  readE (secret, s) := readUint8LengthPrefixed s or invalid in
  readE (extra, s) := ReadUint24LengthPrefixed s or invalid in
  readE (extMasterSecret, s) := ReadUint8 s or invalid in
  readE (earlyData, s) := ReadUint8 s or invalid in
  if len secret =? 0 then inl invalid else
  readE (cert, s) := unmarshalCertificate s (Certificate.Mk [] None None) or invalid in
  readE Extra := loop extra_body [] extra or invalid in
  readE extMasterSecret := readBool extMasterSecret or invalid in
  readE EarlyData := readBool earlyData or invalid in
  try peerCertificates := newCerts cert.(Certificate.Certificate) in
  readE (chainList, s) := ReadUint24LengthPrefixed s or invalid in
  readE chains := loop (chains_body peerCertificates) (inr []) chainList or invalid in
  try verifiedChains := chains in
  parse_tail (Mk Extra EarlyData version false cipherSuite createdAt secret extMasterSecret
    peerCertificates cert.(Certificate.OCSPStaple) cert.(Certificate.SignedCertificateTimestamps)
    verifiedChains [] 0 0 None) typ s.
End Ops.
End SessionState.

(** ** Sessions by reference *)

Module session.
Record ptr `{X : X509} := Ptr { addr : nat; state : SessionState.t X }.
#[global] Arguments ptr _ : clear implicits.
#[global] Arguments Ptr {X}.
(** [p == q] *)
Definition same `{X : X509} (p q : option (ptr X)) : bool :=
  match p, q with
  | None, None => true
  | Some p, Some q => Nat.eqb p.(addr) q.(addr)
  | _, _ => false
  end.
End session.

(** ** Encoding and parsing *)

Lemma be4_mod v : be 4 (v mod 2 ^ 32) = be 4 v.
Proof.
  rewrite (Z.div_mod v (2 ^ 32)) at 2 by lia. change (2 ^ 32) with (256 ^ Z.of_nat 4).
  by rewrite (Z.mul_comm _ (v / _)), (be_add_high 4 _ _ 4) by lia.
Qed.

(** The two halves that [addUint64] writes. *)
Lemma be8_halves v : be 4 (Z.shiftr v 32 mod 2 ^ 32) ++ be 4 (v mod 2 ^ 32) = be 8 v.
Proof.
  rewrite !be4_mod. unfold be. cbn [app]. rewrite !Z.shiftr_shiftr by lia. done.
Qed.

Section Sessions.
Context `{C : Cryptobyte} {Cok : CryptobyteOk C} `{X : X509} {Xok : X509Ok X}.
Import SessionState.

Lemma readUint64_be v r : is_u64 v -> readUint64 (be 8 v ++ r) = Some (v, r).
Proof.
  intros Hv. rewrite <- be8_halves, <- app_assoc. unfold readUint64. autorewrite with cbspec. rewrite !rd_uint_be.
  autorewrite with cbspec. rewrite rd_uint_be.
  change (256 ^ Z.of_nat 4) with (2 ^ 32). rewrite !Z.mod_mod by lia. do 2 f_equal.
  unfold is_u64 in Hv. rewrite (Z.mod_small (Z.shiftr v 32)).
  2: { rewrite Z.shiftr_div_pow2 by lia. split; [apply Z.div_pos; lia|]. apply Z.div_lt_upper_bound; lia. }
  rewrite <- Z.land_ones by lia. apply Z.bits_inj'. intros n Hn.
  rewrite Z.lor_spec, Z.shiftl_spec, Z.land_spec, Z.testbit_ones by lia.
  destruct (Z.ltb_spec n 32).
  - rewrite Z.testbit_neg_r by lia. rewrite (proj2 (Z.leb_le 0 n)) by lia. cbn. by rewrite andb_true_r.
  - rewrite Z.shiftr_spec by lia. rewrite andb_false_r, andb_false_r, orb_false_r. f_equal. lia.
Qed.

Lemma extra_body_shrinks : shrinks extra_body.
Proof.
  intros st s st' s'. unfold extra_body, readUint24LengthPrefixed. autorewrite with cbspec.
  destruct (rd_lp 3 s) as [[x r]|] eqn:E; [|done]. intros [= <- <-]. apply rd_lp_shrinks in E. unfold len in *. lia.
Qed.

Lemma chain_body_shrinks : shrinks chain_body.
Proof.
  intros [e|chain] s st' s' H; cbn in H; [done|].
  unfold readUint24LengthPrefixed in H. autorewrite with cbspec in H.
  destruct (rd_lp 3 s) as [[x r]|] eqn:E; [|done]. apply rd_lp_shrinks in E. unfold len in E.
  destruct (ParseCertificate x); injection H as <- <-; cbn; lia.
Qed.

Lemma chains_body_shrinks peer : shrinks (chains_body peer).
Proof.
  intros [e|chains] s st' s' H; cbn in H; [done|]. autorewrite with cbspec in H.
  destruct (rd_lp 3 s) as [[x r]|] eqn:E; [|done]. apply rd_lp_shrinks in E. unfold len in E.
  destruct peer as [|leaf peer]; [injection H as <- <-; cbn; lia|].
  destruct (loop chain_body _ x) as [[e|chain]|]; [| |done]; injection H as <- <-; cbn; lia.
Qed.

Lemma newCerts_raw l : newCerts (certificatesToBytesSlice l) = inr l.
Proof.
  induction l as [|c l IH]; [done|]. unfold certificatesToBytesSlice in *. cbn. rewrite ParseCertificate_Raw.
  cbn. by rewrite IH.
Qed.

Lemma nonempty_be n z r : n <> O -> be n z ++ r <> [].
Proof. destruct n; [done|]. intros _. unfold be. cbn. done. Qed.

Lemma read_extra l z acc : oconcat (map (fun e => olp 3 (Some e)) l) = Some z -> loop extra_body acc z = Some (acc ++ l).
Proof.
  revert z acc. induction l as [|e l IH]; intros z acc; cbn [map oconcat].
  - intros [= <-]. by rewrite loop_nil, app_nil_r.
  - intros (p & q & (c1 & [= <-] & Hc1 & ->)%olp_Some & Hq & ->)%oapp_Some. rewrite <- !app_assoc. rewrite loop_step; [|apply extra_body_shrinks|by apply nonempty_be].
    unfold extra_body at 1, readUint24LengthPrefixed. parse. rewrite (IH _ _ Hq). by rewrite <- app_assoc.
Qed.

Lemma read_chain l z chain : oconcat (map (fun c => olp 3 (Some (Raw c))) l) = Some z ->
  loop chain_body (inr chain) z = Some (inr (chain ++ l)).
Proof.
  revert z chain. induction l as [|c l IH]; intros z chain; cbn [map oconcat].
  - intros [= <-]. by rewrite loop_nil, app_nil_r.
  - intros (p & q & (c1 & [= <-] & Hc1 & ->)%olp_Some & Hq & ->)%oapp_Some. rewrite <- !app_assoc. rewrite loop_step; [|apply chain_body_shrinks|by apply nonempty_be].
    unfold chain_body at 1, readUint24LengthPrefixed. parse. rewrite ParseCertificate_Raw.
    rewrite (IH _ _ Hq). by rewrite <- app_assoc.
Qed.

(** What [add_chain] emits. *)
Definition chain_d (chain : list certificate) : option bytes :=
  olp 3 (match chain with [] => None | _ :: l => oconcat (map (fun c => olp 3 (Some (Raw c))) l) end).

#[local] Instance emits_add_chain chain : Emits (add_chain chain) (chain_d chain).
Proof.
  unfold add_chain, chain_d. apply emits_lp24. destruct chain as [|leaf l]; [|typeclasses eauto].
  intros b. rewrite out_SetError. unfold oapp. by destruct (out b).
Qed.

Lemma read_chains leaf peer l z chains : oconcat (map chain_d l) = Some z ->
  Forall (fun chain => head chain = Some leaf) l ->
  loop (chains_body (leaf :: peer)) (inr chains) z = Some (inr (chains ++ l)).
Proof.
  intros H Hl. revert z chains H. induction Hl as [|chain l Hc Hl IH]; intros z chains; cbn [map oconcat].
  - intros [= <-]. by rewrite loop_nil, app_nil_r.
  - destruct chain as [|c chain]; [done|]. injection Hc as ->. unfold chain_d at 1.
    intros (p & q & (c1 & Hc & Hc1 & ->)%olp_Some & Hq & ->)%oapp_Some. rewrite <- !app_assoc. rewrite loop_step; [|apply chains_body_shrinks|by apply nonempty_be].
    unfold chains_body at 1. parse. rewrite (read_chain _ _ _ Hc). rewrite (IH _ _ Hq). by rewrite <- app_assoc.
Qed.

(** A session as a connection builds it: fields within their widths, and every
    verified chain starts with the leaf certificate. *)
Record wf_session (s : t X) : Prop := {
  ss_version : is_u16 s.(version);
  ss_suite : is_u16 s.(cipherSuite);
  ss_created : is_u64 s.(createdAt);
  ss_use : is_u64 s.(useBy);
  ss_age : is_u32 s.(ageAdd);
  ss_secret : s.(secret) <> [];
  ss_staples : wf_staples (Certificate.Mk (certificatesToBytesSlice s.(peerCertificates)) s.(ocspResponse) s.(scts));
  ss_client : s.(isClient) = true -> s.(peerCertificates) <> [];
  ss_chains : Forall (fun chain => head chain = head s.(peerCertificates)) s.(verifiedChains)
}.

(** What an encoding keeps: the ticket never, the protocol only with early
    data, the TLS 1.3 times only of a TLS 1.3 client session. *)
Definition encoded (s : t X) : t X :=
  let tls13 := s.(isClient) && (VersionTLS13 <=? s.(version)) in
  Mk s.(Extra) s.(EarlyData) s.(version) s.(isClient) s.(cipherSuite) s.(createdAt) s.(secret)
    s.(extMasterSecret) s.(peerCertificates) s.(ocspResponse) s.(scts) s.(verifiedChains)
    (if s.(EarlyData) then s.(alpnProtocol) else [])
    (if tls13 then s.(useBy) else 0) (if tls13 then s.(ageAdd) else 0) None.

#[local] Instance emits_addUint64 v :
  Emits (addUint64 v) (Some (be 8 v)).
Proof. unfold addUint64. rewrite <- be8_halves. exact (emits_seq _ _ _ _ (emits_AddUint32 _) (emits_AddUint32 _)). Qed.

#[local] Instance emits_addBool b : Emits (addBool b) (Some (be 1 (if b then 1 else 0))).
Proof. unfold addBool. destruct b; typeclasses eauto. Qed.

#[local] Instance emits_type (b : bool) : Emits (if b then AddUint8 2 else AddUint8 1) (Some (be 1 (if b then 2 else 1))).
Proof. destruct b; typeclasses eauto. Qed.

Lemma readBool_bit (b : bool) : readBool (if b then 1 else 0) = Some b.
Proof. by destruct b. Qed.

(** The fields that follow the chains. *)
Lemma parse_tail_encoded s z1 z2 :
  wf_session s ->
  (if s.(EarlyData) then olp 1 (Some s.(alpnProtocol)) else Some []) = Some z1 ->
  (if s.(isClient) && (VersionTLS13 <=? s.(version))
   then oapp (Some (be 8 s.(useBy))) (Some (be 4 s.(ageAdd)))
   else Some []) = Some z2 ->
  parse_tail (Mk s.(Extra) s.(EarlyData) s.(version) false s.(cipherSuite) s.(createdAt) s.(secret)
    s.(extMasterSecret) s.(peerCertificates) s.(ocspResponse) s.(scts) s.(verifiedChains) [] 0 0 None)
    (if s.(isClient) then 2 else 1) (z1 ++ z2) = inr (encoded s).
Proof.
  intros Hw H1 H2. unfold parse_tail, encoded. cbn [EarlyData peerCertificates version].
  assert (Ha : (if s.(EarlyData) then readUint8LengthPrefixed (z1 ++ z2) else Some ([], z1 ++ z2)) =
    Some (if s.(EarlyData) then s.(alpnProtocol) else [], z2)).
  { unfold readUint8LengthPrefixed. destruct s.(EarlyData); inv_out; [by parse|done]. }
  rewrite Ha. destruct Hw. destruct (isClient s) eqn:Ec.
  - change (negb (2 =? 2)) with false. cbn iota.
    rewrite len_nonzero by auto. cbn [andb] in *. revert H2.
    destruct (Z.leb_spec VersionTLS13 s.(version)) as [Hv|Hv]; intros H2.
    + rewrite (proj2 (Z.ltb_ge _ _) Hv). inv_out. unfold is_u64 in *. by parse.
    + rewrite (proj2 (Z.ltb_lt _ _) Hv). inv_out. by parse.
  - cbn [andb] in *. inv_out. change (negb (1 =? 2)) with true. cbn iota. by parse.
Qed.

Lemma read_chains_of peer l z : oconcat (map chain_d l) = Some z ->
  Forall (fun chain => head chain = head peer) l -> loop (chains_body peer) (inr []) z = Some (inr l).
Proof.
  intros H Hl. destruct peer as [|leaf peer]; [|by apply (read_chains leaf peer l z [])].
  destruct Hl as [|chain l Hc _]; [injection H as <-; apply loop_nil|]. by destruct chain.
Qed.

(** C32: a session that is encoded with [Bytes] is parsed back with every field
    the format carries, whatever its role, version and certificates. *)
Theorem session_round_trip s x : wf_session s -> Bytes_ s = inr x -> ParseSessionState x = inr (encoded s).
Proof.
  intros Hw H. unfold Bytes_ in H. denote H.
  apply oapp_Some in H as (h & r & [= <-] & H & ->). do 10 (apply oapp_Some in H as (? & ? & ? & H & ->)).
  inv_out. destruct (Hw). unfold is_u16 in *.
  assert (0 <= (if s.(isClient) then 2 else 1) < 256 ^ 1) by (destruct s.(isClient); lia).
  assert (0 <= (if s.(extMasterSecret) then 1 else 0) < 256 ^ 1) by (destruct s.(extMasterSecret); lia).
  assert (0 <= (if s.(EarlyData) then 1 else 0) < 256 ^ 1) by (destruct s.(EarlyData); lia).
  unfold ParseSessionState. parse.
  replace (negb ((if isClient s then 2 else 1) =? 1) && _) with false by (by destruct (isClient s)).
  rewrite readUint64_be by done. unfold readUint8LengthPrefixed. parse. rewrite len_nonzero by done.
  unfold unmarshalCertificate. parse. erewrite unmarshal_certs by done.
  erewrite read_extra by done. rewrite !readBool_bit.
  cbn [Certificate.Certificate Certificate.OCSPStaple Certificate.SignedCertificateTimestamps].
  rewrite newCerts_raw. cbn [res_bind].
  parse. erewrite read_chains_of by done. cbn [res_bind]. by apply parse_tail_encoded.
Qed.
End Sessions.

(** A session with a chain of two certificates. *)
Definition plain_x509 : X509 := {| certificate := bytes; ParseCertificate := inr; Raw c := c |}.
#[export] Instance plain_x509_ok : X509Ok plain_x509.
Proof. by constructor. Qed.

Definition example_session : SessionState.t plain_x509 :=
  @SessionState.Mk plain_x509 [[x05]] true VersionTLS13 true 0x1301 1700000000 (replicate 32 x07) true
    [[x01; x02]; [x03]] (Some [x09]) None [[[x01; x02]; [x04]]] (be 2 0x6832) 1700003600 77 (Some [x06]).

Lemma session_round_trip_witness :
  exists x, @SessionState.Bytes_ Reference.ops plain_x509 example_session = inr x /\
    @SessionState.ParseSessionState Reference.ops plain_x509 x = inr (encoded example_session).
Proof.
  eexists. split; [vm_compute; reflexivity|].
  apply (@session_round_trip Reference.ops Reference.ok plain_x509 plain_x509_ok example_session).
  - constructor; cbn; unfold is_u16, is_u32, is_u64; try (lia || done). repeat constructor; done.
  - vm_compute. reflexivity.
Defined.
