(* ===== verification/TicketKeys.v ===== *)
(** * Session tickets and their keys

    Models the ticket encryption of ticket.go ([encryptTicket],
    [decryptTicket]) and the ticket keys of a server's [Config] (common.go):
    [ticketKeys] with the automatic rotation and the locks it takes,
    [initLegacySessionTicketKeyRLocked] and [SetSessionTicketKeys].  SHA-512,
    AES-CTR and HMAC-SHA256 are parameters (class [TicketCrypto]).

    The clock shows one time [now] throughout a call.  The random numbers a call
    may read are an argument; a read that fails is [None]. *)

From S2P Require Import Prelude Cryptobyte Common Buffer.

(** ** Ticket keys *)

(** Times and durations in nanoseconds. *)
Definition hour : Z := 3600 * 1000000000.
Definition ticketKeyLifetime : Z := 7 * 24 * hour.
Definition ticketKeyRotation : Z := 24 * hour.

Module ticketKey.
Record t := Mk { aesKey : bytes; hmacKey : bytes; created : Z }.
End ticketKey.

(** What the tickets need of the standard library's cryptography. *)
Class TicketCrypto := {
  Sum512 : bytes -> bytes;
  block : Type;
  NewCipher : bytes -> res block;
  XORKeyStream : block -> bytes -> bytes -> bytes;
  HMAC_SHA256 : bytes -> bytes -> bytes
}.

Class TicketCryptoOk (T : TicketCrypto) : Prop := {
  Sum512_len b : length (Sum512 b) = 64%nat;
  NewCipher_16 k : length k = 16%nat -> exists c, NewCipher k = inr c;
  XORKeyStream_len c iv x : length (XORKeyStream c iv x) = length x;
  XORKeyStream_twice c iv x : XORKeyStream c iv (XORKeyStream c iv x) = x;
  HMAC_SHA256_len k x : length (HMAC_SHA256 k x) = 32%nat
}.

Section TicketKeys.
Context `{T : TicketCrypto}.

Definition legacyTicketKeyNameLen : nat := 16.

Definition ticketKeyFromBytes (now : Z) (b : bytes) : ticketKey.t :=
  let hashed := Sum512 b in
  ticketKey.Mk (take 16 (drop legacyTicketKeyNameLen hashed))
    (take 16 (drop (legacyTicketKeyNameLen + 16) hashed)) now.
End TicketKeys.

(** A call that takes locks may panic, block for ever or return. *)
Inductive lresult (A : Type) := LPanic | LBlocked | LRet (a : A).
Arguments LPanic {A}.
Arguments LBlocked {A}.
Arguments LRet {A} _.

Definition lbind {A B} (x : lresult A) (f : A -> lresult B) : lresult B :=
  match x with LPanic => LPanic | LBlocked => LBlocked | LRet a => f a end.

Notation "'locked' x := e 'in' k" := (lbind e (fun x => k))
  (at level 10, x pattern, e at level 100, k at level 200) : go_scope.

(** The part of a server's [Config] that holds ticket keys.  [readers] counts
    the read locks held on its mutex; no goroutine but the caller runs. *)
Module TicketConfig.
Record t := Mk {
  SessionTicketsDisabled : bool;
  SessionTicketKey : bytes;
  sessionTicketKeys : list ticketKey.t;
  autoSessionTicketKeys : list ticketKey.t;
  readers : nat
}.

Definition set_SessionTicketsDisabled (v : bool) (m : t) : t :=
  Mk v m.(SessionTicketKey) m.(sessionTicketKeys) m.(autoSessionTicketKeys) m.(readers).
Definition set_SessionTicketKey (v : bytes) (m : t) : t :=
  Mk m.(SessionTicketsDisabled) v m.(sessionTicketKeys) m.(autoSessionTicketKeys) m.(readers).
Definition set_sessionTicketKeys (v : list ticketKey.t) (m : t) : t :=
  Mk m.(SessionTicketsDisabled) m.(SessionTicketKey) v m.(autoSessionTicketKeys) m.(readers).
Definition set_autoSessionTicketKeys (v : list ticketKey.t) (m : t) : t :=
  Mk m.(SessionTicketsDisabled) m.(SessionTicketKey) m.(sessionTicketKeys) v m.(readers).
Definition set_readers (v : nat) (m : t) : t :=
  Mk m.(SessionTicketsDisabled) m.(SessionTicketKey) m.(sessionTicketKeys)
    m.(autoSessionTicketKeys) v.

End TicketConfig.

Import TicketConfig.

Definition RLock (c : t) : t := set_readers (S c.(readers)) c.
Definition RUnlock (c : t) : lresult t :=
  match c.(readers) with O => LPanic | S n => LRet (set_readers n c) end.
(** The writer waits until no reader is left. *)
Definition Lock (c : t) : lresult t := match c.(readers) with O => LRet c | S _ => LBlocked end.

(** [io.ReadFull(c.rand(), b[:])] for 32 bytes. *)
Abbreviation randoms := (list (option bytes)).
Definition read32 (rand : randoms) : option (bytes * randoms) :=
  match rand with Some b :: rand => Some (b, rand) | _ => None end.

Definition deprecatedSessionTicketKey : bytes := map u8 [0x44; 0x45; 0x50; 0x52; 0x45; 0x43; 0x41; 0x54; 0x45; 0x44].

Definition has_prefix (p b : bytes) : bool := bool_decide (take (length p) b = p).

Section Keys.
Context `{T : TicketCrypto}.

Definition initLegacySessionTicketKeyRLocked (now : Z) (c : t) (rand : randoms) : lresult (t * randoms) :=
  let empty := bool_decide (c.(SessionTicketKey) = replicate 32 x00) in
  let deprecated := has_prefix deprecatedSessionTicketKey c.(SessionTicketKey) in
  if negb empty && (deprecated || (0 <? len c.(sessionTicketKeys))) then LRet (c, rand) else
  locked c := RUnlock c in
  locked c := Lock c in
  if empty then
    match read32 rand with
    | None => LPanic
    | Some (b, rand) =>
        LRet (RLock (set_SessionTicketKey (deprecatedSessionTicketKey ++ drop 10 b) c), rand)
    end
  else if negb deprecated && (len c.(sessionTicketKeys) =? 0) then
    LRet (RLock (set_sessionTicketKeys [ticketKeyFromBytes now c.(SessionTicketKey)] c), rand)
  else LRet (RLock c, rand).

(** Whether the first key still encrypts new tickets. *)
Definition fresh (now : Z) (keys : list ticketKey.t) : bool :=
  match keys with [] => false | k :: _ => now - k.(ticketKey.created) <? ticketKeyRotation end.

Definition rotate (now : Z) (newKey : bytes) (keys : list ticketKey.t) : list ticketKey.t :=
  ticketKeyFromBytes now newKey ::
  List.filter (fun k => now - k.(ticketKey.created) <? ticketKeyLifetime) keys.

(** The second half of [ticketKeys], on the configuration itself. *)
Definition own_ticketKeys (now : Z) (c : t) (rand : randoms) : lresult (t * list ticketKey.t * randoms) :=
  let c := RLock c in
  if c.(SessionTicketsDisabled) then locked c := RUnlock c in LRet (c, [], rand) else
  locked (c, rand) := initLegacySessionTicketKeyRLocked now c rand in
  if negb (len c.(sessionTicketKeys) =? 0) then
    locked c := RUnlock c in LRet (c, c.(sessionTicketKeys), rand)
  else if fresh now c.(autoSessionTicketKeys) then
    locked c := RUnlock c in LRet (c, c.(autoSessionTicketKeys), rand)
  else
    locked c := RUnlock c in
    locked c := Lock c in
    if fresh now c.(autoSessionTicketKeys) then
      locked c := RUnlock (RLock c) in LRet (c, c.(autoSessionTicketKeys), rand)
    else
    match read32 rand with
    | None => LPanic
    | Some (newKey, rand) =>
        let c := set_autoSessionTicketKeys (rotate now newKey c.(autoSessionTicketKeys)) c in
        locked c := RUnlock (RLock c) in
        LRet (c, c.(autoSessionTicketKeys), rand)
    end.

(** [c.ticketKeys(configForClient)]: the configurations as the call leaves them
    and the keys. *)
Definition ticketKeys (now : Z) (c : t) (configForClient : option t) (rand : randoms)
    : lresult (t * option t * list ticketKey.t * randoms) :=
  match configForClient with
  | None =>
      locked (c, keys, rand) := own_ticketKeys now c rand in LRet (c, None, keys, rand)
  | Some d =>
      let d := RLock d in
      if d.(SessionTicketsDisabled) then LRet (c, Some d, [], rand) else
      locked (d, rand) := initLegacySessionTicketKeyRLocked now d rand in
      if negb (len d.(sessionTicketKeys) =? 0) then
        locked d := RUnlock d in LRet (c, Some d, d.(sessionTicketKeys), rand)
      else
        locked d := RUnlock d in
        locked (c, keys, rand) := own_ticketKeys now c rand in LRet (c, Some d, keys, rand)
  end.

Definition SetSessionTicketKeys (now : Z) (keys : list bytes) (c : t) : lresult t :=
  if len keys =? 0 then LPanic else
  locked c := Lock c in
  LRet (set_sessionTicketKeys (map (ticketKeyFromBytes now) keys) c).

(** ** Tickets *)

Definition aesBlockSize : nat := 16.
Definition sha256Size : nat := 32.

(** [rand] are the bytes read for the initialisation vector. *)
Definition encryptTicket (rand : option bytes) (state : bytes) (ticketKeys : list ticketKey.t) : res bytes :=
  match ticketKeys with
  | [] => inl (ErrorNew "tls: internal error: session ticket keys unavailable")
  | key :: _ =>
      match rand with
      | None => inl ErrUnexpectedEOF
      | Some iv =>
          match NewCipher key.(ticketKey.aesKey) with
          | inl _ => inl (ErrorNew "tls: failed to create cipher while encrypting ticket")
          | inr block =>
              let authenticated := iv ++ XORKeyStream block iv state in
              inr (authenticated ++ HMAC_SHA256 key.(ticketKey.hmacKey) authenticated)
          end
      end
  end.

Fixpoint decrypt_with (iv ciphertext authenticated macBytes : bytes) (ticketKeys : list ticketKey.t) : option bytes :=
  match ticketKeys with
  | [] => None
  | key :: ticketKeys =>
      if bool_decide (macBytes = HMAC_SHA256 key.(ticketKey.hmacKey) authenticated) then
        match NewCipher key.(ticketKey.aesKey) with
        | inl _ => None
        | inr block => Some (XORKeyStream block iv ciphertext)
        end
      else decrypt_with iv ciphertext authenticated macBytes ticketKeys
  end.

Definition decryptTicket (encrypted : bytes) (ticketKeys : list ticketKey.t) : option bytes :=
  if (length encrypted <? aesBlockSize + sha256Size)%nat then None else
  let n := (length encrypted - sha256Size)%nat in
  let iv := take aesBlockSize encrypted in
  let ciphertext := drop aesBlockSize (take n encrypted) in
  let authenticated := take n encrypted in
  let macBytes := drop n encrypted in
  decrypt_with iv ciphertext authenticated macBytes ticketKeys.
End Keys.

(** * Theorems *)

Section Theorems.
Context `{T : TicketCrypto} {Tok : TicketCryptoOk T}.

(** Tickets are enabled and no key was set by the application. *)
Definition auto_mode (c : t) : Prop :=
  c.(SessionTicketsDisabled) = false /\ c.(sessionTicketKeys) = [] /\
  (c.(SessionTicketKey) = replicate 32 x00 \/ has_prefix deprecatedSessionTicketKey c.(SessionTicketKey) = true).

Lemma has_prefix_app p b : has_prefix p (p ++ b) = true.
Proof. unfold has_prefix. rewrite take_app_length. by apply bool_decide_eq_true. Qed.

Lemma deprecated_nonzero b : has_prefix deprecatedSessionTicketKey b = true ->
  bool_decide (b = replicate 32 x00) = false.
Proof. intros H. apply bool_decide_eq_false. intros ->. vm_compute in H. done. Qed.

(** The legacy key is filled on first use and nothing else changes. *)
Lemma init_auto now c rand c' rand' : auto_mode c ->
  initLegacySessionTicketKeyRLocked now c rand = LRet (c', rand') ->
  auto_mode c' /\ c'.(autoSessionTicketKeys) = c.(autoSessionTicketKeys) /\ c'.(readers) = c.(readers) /\
  c'.(sessionTicketKeys) = [].
Proof.
  intros (Hd & Hs & Hk). unfold initLegacySessionTicketKeyRLocked. rewrite Hs. change (0 <? len []) with false.
  rewrite orb_false_r. destruct Hk as [Hk|Hk].
  - rewrite Hk, bool_decide_true by done. cbn [negb andb]. unfold RUnlock, Lock.
    destruct (readers c) as [|[|n]] eqn:Er; cbn; [done| |done].
    destruct (read32 rand) as [[b r]|]; [|done]. intros [= <- <-]. cbn. split_and!; try done.
    split_and!; try done. right. apply (has_prefix_app deprecatedSessionTicketKey).
  - rewrite (deprecated_nonzero _ Hk), Hk. cbn. intros [= <- <-]. split_and!; try done. split_and!; try done. by right.
Qed.

Lemma init_returns now c b rand : auto_mode c -> c.(readers) = 1%nat ->
  exists c' rand', initLegacySessionTicketKeyRLocked now c (Some b :: rand) = LRet (c', rand') /\
    (rand' = rand \/ rand' = Some b :: rand).
Proof.
  intros (Hd & Hs & Hk) Hr. unfold initLegacySessionTicketKeyRLocked, RUnlock, Lock. rewrite Hr, Hs.
  change (0 <? len []) with false. rewrite orb_false_r. destruct Hk as [Hk|Hk].
  - rewrite Hk, bool_decide_true by done. cbn. eauto.
  - rewrite (deprecated_nonzero _ Hk), Hk. cbn. eauto.
Qed.

Lemma own_auto now c rand c' keys rand' : auto_mode c ->
  own_ticketKeys now c rand = LRet (c', keys, rand') ->
  auto_mode c' /\ c'.(readers) = c.(readers) /\ keys = c'.(autoSessionTicketKeys) /\
  (fresh now c.(autoSessionTicketKeys) = true /\ keys = c.(autoSessionTicketKeys) \/
   exists b, keys = rotate now b c.(autoSessionTicketKeys)).
Proof.
  intros Ha. unfold own_ticketKeys.
  assert (Ha' : auto_mode (RLock c)) by done. destruct (Ha') as (-> & _ & _).
  destruct (initLegacySessionTicketKeyRLocked now (RLock c) rand) as [| |[d r]] eqn:E; cbn; [done|done|].
  apply init_auto in E as (Hd & Ea & Er & Es); [|done]. rewrite Es, Ea. change (negb (len [] =? 0)) with false.
  cbn in Er, Ea |- *. destruct (fresh now c.(autoSessionTicketKeys)) eqn:Ef; unfold RUnlock, Lock; rewrite Er; cbn.
  - intros [= <- <- <-]. cbn. rewrite Ea. split_and!; try done. by left.
  - destruct (readers c) as [|n] eqn:En; cbn; [|done]. rewrite Ea, Ef.
    destruct (read32 r) as [[b r']|]; [|done]. cbn. intros [= <- <- <-]. cbn. split_and!; try done.
    right. by exists b.
Qed.

(** The server calls [ticketKeys] again and again while time passes. *)
Inductive runs (t0 : Z) (c0 : t) : Z -> t -> Prop :=
  | runs_start : runs t0 c0 t0 c0
  | runs_call t1 c1 t2 c2 rand keys rand' :
      runs t0 c0 t1 c1 -> t1 <= t2 -> ticketKeys t2 c1 None rand = LRet (c2, None, keys, rand') ->
      runs t0 c0 t2 c2.

Lemma runs_auto t0 c0 t1 c1 : runs t0 c0 t1 c1 -> auto_mode c0 -> auto_mode c1.
Proof.
  induction 1 as [|t1 c1 t2 c2 rand keys rand' _ IH _ H]; [done|]. intros Ha. unfold ticketKeys in H.
  destruct (own_ticketKeys t2 c1 rand) as [| |[[c k] r]] eqn:E; cbn in H; try done. injection H as <- <- <-.
  by apply own_auto in E as [? _]; [|apply IH].
Qed.

(** A key is dropped only after its lifetime. *)
Lemma key_survives t0 c0 k t1 c1 : runs t0 c0 t1 c1 -> auto_mode c0 -> k ∈ c0.(autoSessionTicketKeys) ->
  t1 - k.(ticketKey.created) < ticketKeyLifetime -> k ∈ c1.(autoSessionTicketKeys).
Proof.
  induction 1 as [|t1 c1 t2 c2 rand keys rand' Hr IH Ht H]; [done|]. intros Ha Hk Hlife.
  specialize (IH Ha Hk ltac:(lia)). unfold ticketKeys in H.
  destruct (own_ticketKeys t2 c1 rand) as [| |[[c k'] r]] eqn:E; cbn in H; try done. injection H as <- <- <-.
  apply own_auto in E as (_ & _ & <- & Hcase); [|by eapply runs_auto]. destruct Hcase as [[_ ->]|[b ->]]; [done|].
  apply elem_of_cons. right. rewrite list_elem_of_In, filter_In, <- list_elem_of_In. split; [done|].
  by apply Z.ltb_lt.
Qed.

Lemma decrypt_with_found iv x auth mac keys k blk :
  k ∈ keys -> NewCipher k.(ticketKey.aesKey) = inr blk -> mac = HMAC_SHA256 k.(ticketKey.hmacKey) auth ->
  Forall (fun k' => HMAC_SHA256 k'.(ticketKey.hmacKey) auth = mac -> k'.(ticketKey.aesKey) = k.(ticketKey.aesKey)) keys ->
  decrypt_with iv x auth mac keys = Some (XORKeyStream blk iv x).
Proof.
  intros Hk Hb -> H. induction H as [|k' keys Hk' _ IH]; [by apply elem_of_nil in Hk|]. cbn.
  destruct (bool_decide _) eqn:E.
  - apply bool_decide_eq_true in E. by rewrite Hk', Hb by done.
  - apply bool_decide_eq_false in E. apply elem_of_cons in Hk as [->|Hk]; [done|]. by apply IH.
Qed.

(** The parts [decryptTicket] cuts a ticket into. *)
Lemma ticket_parts iv x mac keys : length iv = 16%nat -> length mac = 32%nat ->
  decryptTicket ((iv ++ x) ++ mac) keys = decrypt_with iv x (iv ++ x) mac keys.
Proof.
  intros Hi Hm. unfold decryptTicket, aesBlockSize, sha256Size. rewrite !length_app, Hm, Hi.
  replace (16 + length x + 32 <? 16 + 32)%nat with false by (symmetry; apply Nat.ltb_ge; lia).
  replace (16 + length x + 32 - 32)%nat with (length (iv ++ x)) by (rewrite length_app; lia).
  rewrite take_app_length, drop_app_length, <- app_assoc, <- Hi, take_app_length, drop_app_length. done.
Qed.

(** C31: a ticket that a server with automatic keys issues stays usable through
    any number of key rotations for seven days from the creation of its key:
    it is decrypted to the state it was made from, provided that among the keys
    the server then has none with another AES key happens to give the same MAC
    over this very ticket. *)
Theorem ticket_outlives_rotation t0 c0 k iv state x t1 c1 :
  auto_mode c0 -> head c0.(autoSessionTicketKeys) = Some k ->
  length iv = 16%nat -> length k.(ticketKey.aesKey) = 16%nat ->
  encryptTicket (Some iv) state c0.(autoSessionTicketKeys) = inr x ->
  runs t0 c0 t1 c1 -> t1 - k.(ticketKey.created) < ticketKeyLifetime ->
  (forall k', k' ∈ c1.(autoSessionTicketKeys) ->
     HMAC_SHA256 k'.(ticketKey.hmacKey) (take (length x - 32) x) = drop (length x - 32) x ->
     k'.(ticketKey.aesKey) = k.(ticketKey.aesKey)) ->
  decryptTicket x c1.(autoSessionTicketKeys) = Some state.
Proof.
  intros Ha Hk Hiv Haes He Hr Hlife Hmac.
  destruct (autoSessionTicketKeys c0) as [|k0 ks] eqn:Ek; [done|]. injection Hk as ->.
  destruct (NewCipher_16 _ Haes) as [blk Hblk]. cbn in He. rewrite Hblk in He. injection He as <-.
  rewrite length_app, HMAC_SHA256_len, Nat.add_sub, take_app_length, drop_app_length in Hmac.
  rewrite ticket_parts by (done || apply HMAC_SHA256_len).
  rewrite (decrypt_with_found _ _ _ _ _ k blk); [by rewrite XORKeyStream_twice| |done|done|].
  - eapply key_survives; [done|done| |done]. rewrite Ek. apply elem_of_cons. by left.
  - apply Forall_forall. intros k' Hk'. by apply Hmac.
Qed.

(** With automatic keys and a working random source a call of [ticketKeys]
    returns (it neither blocks nor panics), releases its locks and leaves a
    first key that is less than a day old, with which new tickets are made. *)
Theorem ticketKeys_returns now c rand1 rand2 rand :
  auto_mode c -> c.(readers) = O ->
  exists c' keys rand', ticketKeys now c None (Some rand1 :: Some rand2 :: rand) = LRet (c', None, keys, rand') /\
    auto_mode c' /\ c'.(readers) = O /\ keys = c'.(autoSessionTicketKeys) /\ fresh now keys = true.
Proof.
  intros Ha Hr.
  assert (H : exists c' keys rand', own_ticketKeys now c (Some rand1 :: Some rand2 :: rand) = LRet (c', keys, rand')).
  { unfold own_ticketKeys. destruct (Ha) as (Hd & _). change (SessionTicketsDisabled (RLock c)) with (SessionTicketsDisabled c).
    rewrite Hd. destruct (init_returns now (RLock c) rand1 (Some rand2 :: rand)) as (d & r & E & Hrand); [done|by cbn; rewrite Hr|].
    rewrite E. cbn [lbind]. apply init_auto in E as (_ & Ea & Er & Es); [|done]. rewrite Es, Ea. cbn in Er |- *.
    destruct (fresh now (autoSessionTicketKeys c)) eqn:Ef; unfold RUnlock, Lock; rewrite Er; cbn; [eauto|].
    rewrite Hr. cbn. rewrite Ea. cbn. rewrite Ef. destruct Hrand as [->| ->]; cbn; eauto. }
  destruct H as (c' & keys & rand' & H). exists c', keys, rand'. unfold ticketKeys. rewrite H. cbn.
  apply own_auto in H as (Ha' & Hr' & Hk & Hcase); [|done]. split_and!; try done; [by rewrite Hr'|].
  destruct Hcase as [[Hf ->]|[b ->]]; [done|]. cbn. apply Z.ltb_lt. unfold ticketKeyRotation, hour. lia.
Qed.

(** When [GetConfigForClient] returns a configuration with tickets disabled,
    [ticketKeys] returns without releasing the read lock it took on that
    configuration: every later [SetSessionTicketKeys] on it blocks for ever. *)
Theorem disabled_config_lock_leak now c d rand later keys :
  d.(SessionTicketsDisabled) = true -> keys <> [] ->
  exists d', ticketKeys now c (Some d) rand = LRet (c, Some d', [], rand) /\
    d'.(readers) = S d.(readers) /\ SetSessionTicketKeys later keys d' = LBlocked.
Proof.
  intros Hd Hk. exists (RLock d). unfold ticketKeys. cbn. rewrite Hd. split_and!; [done|done|].
  unfold SetSessionTicketKeys. by destruct keys.
Qed.
End Theorems.

(** * Examples *)

(** A toy instance of the cryptography. *)
Definition toy_crypto : TicketCrypto := {|
  Sum512 b := fit 64 (b ++ b); block := bytes; NewCipher := inr;
  XORKeyStream _ _ x := rev x; HMAC_SHA256 k x := fit 32 k
|}.

#[export] Instance toy_crypto_ok : TicketCryptoOk toy_crypto.
Proof.
  constructor; cbn; intros.
  - apply fit_len.
  - by eexists.
  - apply length_rev.
  - apply rev_involutive.
  - apply fit_len.
Qed.

Definition first_key : ticketKey.t := ticketKey.Mk (replicate 16 x01) (replicate 16 x02) 0.
Definition server0 : TicketConfig.t := TicketConfig.Mk false (replicate 32 x00) [] [first_key] 0.
Definition next_day : lresult (TicketConfig.t * option TicketConfig.t * list ticketKey.t * randoms) :=
  @ticketKeys toy_crypto (25 * hour) server0 None [Some (replicate 32 x05); Some (replicate 32 x06)].
Definition server1 : TicketConfig.t := match next_day with LRet (c, _, _, _) => c | _ => server0 end.

Lemma ticket_outlives_rotation_witness :
  length server1.(TicketConfig.autoSessionTicketKeys) = 2%nat /\
  exists x, @encryptTicket toy_crypto (Some (replicate 16 x09)) [x01; x02; x03] [first_key] = inr x /\
    @decryptTicket toy_crypto x server1.(TicketConfig.autoSessionTicketKeys) = Some [x01; x02; x03].
Proof.
  split; [vm_compute; reflexivity|]. eexists. split; [vm_compute; reflexivity|].
  apply (@ticket_outlives_rotation toy_crypto toy_crypto_ok 0 server0 first_key (replicate 16 x09) [x01; x02; x03]
    _ (25 * hour) server1); try (vm_compute; reflexivity).
  - split_and!; try done. by left.
  - apply (runs_call 0 server0 0 server0 (25 * hour) server1 [Some (replicate 32 x05); Some (replicate 32 x06)]
      server1.(TicketConfig.autoSessionTicketKeys) []); [apply runs_start|done|]. vm_compute. reflexivity.
  - intros k' Hk Hm. vm_compute in Hk. apply elem_of_cons in Hk as [->|Hk].
    + vm_compute in Hm. discriminate.
    + apply elem_of_cons in Hk as [->|Hk]; [done|by apply elem_of_nil in Hk].
Defined.

Lemma ticketKeys_returns_witness :
  exists c' keys rand', next_day = LRet (c', None, keys, rand') /\ @fresh (25 * hour) keys = true.
Proof.
  destruct (@ticketKeys_returns toy_crypto (25 * hour) server0 (replicate 32 x05) (replicate 32 x06) [])
    as (c' & keys & rand' & H & _ & _ & _ & Hf).
  - split_and!; try done. by left.
  - reflexivity.
  - exact (ex_intro _ c' (ex_intro _ keys (ex_intro _ rand' (conj H Hf)))).
Defined.

Lemma disabled_config_lock_leak_witness :
  let d := TicketConfig.Mk true (replicate 32 x00) [] [] 0 in
  exists d', @ticketKeys toy_crypto 0 server0 (Some d) [] = LRet (server0, Some d', [], []) /\
    d'.(TicketConfig.readers) = 1%nat /\ @SetSessionTicketKeys toy_crypto 1 [replicate 32 x01] d' = LBlocked.
Proof.
  intros d. apply (@disabled_config_lock_leak toy_crypto 0 server0 d [] 1 [replicate 32 x01]); [reflexivity|discriminate].
Defined.
