(* ===== verification/Caches.v ===== *)
(** * Caches

    [lruSessionCache] of common.go, on a map from keys to list elements and a
    container/list of elements, and the interface [ClientSessionCache] of which
    it is an implementation; [certCache] of cache.go, whose operations
    interleave with one another and with finalizers, as a step relation.

    The session cache refines the abstract cache [Recency], a list of pairs with
    the most recently used first.  The mutex makes its operations atomic. *)

From S2P Require Import Prelude Cryptobyte Common Codec Buffer Messages Ticket.

(** ** The interface *)

(** [ClientSessionCache] of common.go; a nil session is [None], and the second
    component of [Get] is [ok]. *)
Class ClientSessionCache (S : Type) := {
  cache : Type;
  Get : bytes -> cache -> (option S * bool) * cache;
  Put : bytes -> option S -> cache -> cache
}.

(** ** lruSessionCache *)

Module lruSessionCacheEntry.
Record t {S : Type} := Mk { sessionKey : bytes; state : option S }.
#[global] Arguments t _ : clear implicits.
#[global] Arguments Mk {S}.
End lruSessionCacheEntry.

Module lruSessionCache.
(** An element of the list is its address; [values] is what the addresses hold,
    and [next] the next address to be allocated. *)
Record t {S : Type} := Mk {
  m : gmap bytes nat;
  q : list nat;
  values : gmap nat (lruSessionCacheEntry.t S);
  next : nat;
  capacity : Z
}.
#[global] Arguments t _ : clear implicits.
#[global] Arguments Mk {S}.

Section Ops.
Context {S : Type}.

Definition defaultSessionCacheCapacity : Z := 64.

Definition NewLRUClientSessionCache (capacity : Z) : t S :=
  Mk ∅ [] ∅ 0 (if capacity <? 1 then defaultSessionCacheCapacity else capacity).

(** container/list: [Remove], [MoveToFront], [PushFront], [Back]. *)
Definition Remove (elem : nat) (q : list nat) : list nat := filter (fun e => e <> elem) q.
Definition MoveToFront (elem : nat) (q : list nat) : list nat := elem :: Remove elem q.

Definition Put (sessionKey : bytes) (cs : option S) (c : t S) : t S :=
  match c.(m) !! sessionKey with
  | Some elem =>
      match cs with
      | None => Mk (delete sessionKey c.(m)) (Remove elem c.(q)) c.(values) c.(next) c.(capacity)
      | Some cs =>
          Mk c.(m) (MoveToFront elem c.(q))
            (alter (fun e => lruSessionCacheEntry.Mk e.(lruSessionCacheEntry.sessionKey) (Some cs)) elem c.(values))
            c.(next) c.(capacity)
      end
  | None =>
      let entry := lruSessionCacheEntry.Mk sessionKey cs in
      if len c.(q) <? c.(capacity) then
        Mk (<[sessionKey := c.(next)]> c.(m)) (c.(next) :: c.(q)) (<[c.(next) := entry]> c.(values))
          (1 + c.(next))%nat c.(capacity)
      else
        match last c.(q) with
        | None => c (* a nil element: the code would panic, but the capacity is positive *)
        | Some elem =>
            match c.(values) !! elem with
            | None => c
            | Some old =>
                Mk (<[sessionKey := elem]> (delete old.(lruSessionCacheEntry.sessionKey) c.(m)))
                  (MoveToFront elem c.(q)) (<[elem := entry]> c.(values)) c.(next) c.(capacity)
            end
        end
  end.

Definition Get (sessionKey : bytes) (c : t S) : (option S * bool) * t S :=
  match c.(m) !! sessionKey with
  | Some elem =>
      ((match c.(values) !! elem with Some e => e.(lruSessionCacheEntry.state) | None => None end, true),
       Mk c.(m) (MoveToFront elem c.(q)) c.(values) c.(next) c.(capacity))
  | None => ((None, false), c)
  end.
End Ops.
End lruSessionCache.

#[export] Instance lru_cache (S : Type) : ClientSessionCache S :=
  {| cache := lruSessionCache.t S; Get := lruSessionCache.Get; Put := lruSessionCache.Put |}.

(** ** The abstract cache *)

(** Pairs of distinct keys and sessions, the most recently used first; [Put] and [Get]
    do what their comments in common.go say: a nil session removes the key. *)
Module Recency.
Section Ops.
Context {V : Type}.
Definition without (k : bytes) (l : list (bytes * V)) : list (bytes * V) := filter (fun p => p.1 <> k) l.
Definition lookup (k : bytes) (l : list (bytes * V)) : option V := snd <$> head (filter (fun p => p.1 = k) l).
Definition Put (cap : nat) (k : bytes) (cs : option V) (l : list (bytes * V)) : list (bytes * V) :=
  match cs with
  | None => without k l
  | Some cs => take cap ((k, cs) :: without k l)
  end.
Definition Get (k : bytes) (l : list (bytes * V)) : (option V * bool) * list (bytes * V) :=
  match lookup k l with
  | Some v => ((Some v, true), (k, v) :: without k l)
  | None => ((None, false), l)
  end.
End Ops.
End Recency.

(** *** The simulation *)

Section Refinement.
Context {S : Type}.
Import lruSessionCache.

(** An element with the key and the session it holds. *)
Local Abbreviation slot := (nat * (bytes * option S))%type.
Implicit Types (T : list slot) (c : t S).

Record Slots c T : Prop := {
  sl_q : c.(q) = T.*1;
  sl_elems : NoDup T.*1;
  sl_keys : NoDup (T.*2).*1;
  sl_values e k v : (e, (k, v)) ∈ T -> c.(values) !! e = Some (lruSessionCacheEntry.Mk k v);
  sl_next e p : (e, p) ∈ T -> (e < c.(next))%nat;
  sl_index k e : c.(m) !! k = Some e <-> exists v, (e, (k, v)) ∈ T;
  sl_cap : 0 < c.(capacity) /\ len T <= c.(capacity)
}.

(** The cache [c] stands for the list [l] of sessions, none of them nil. *)
Definition somes (l : list (bytes * S)) : list (bytes * option S) := prod_map id Some <$> l.
Definition Rep c (l : list (bytes * S)) : Prop := exists T, Slots c T /\ T.*2 = somes l.

Lemma without_somes k l : Recency.without k (somes l) = somes (Recency.without k l).
Proof.
  unfold Recency.without, somes. induction l as [|[k' v] l IH]; [done|]. cbn [fmap list_fmap prod_map].
  destruct (decide (k' <> k)); [rewrite !filter_cons_True by done; cbn [fmap list_fmap]; by f_equal|by rewrite !filter_cons_False by done].
Qed.
Lemma lookup_somes k l : Recency.lookup k (somes l) = Some <$> Recency.lookup k l.
Proof.
  unfold Recency.lookup, somes. induction l as [|[k' v] l IH]; [done|]. cbn [fmap list_fmap prod_map].
  destruct (decide (k' = k)); [by rewrite !filter_cons_True by done|by rewrite !filter_cons_False by done].
Qed.

Definition drop_key (k : bytes) T : list slot := filter (fun t => t.2.1 <> k) T.

Lemma elem_of_drop_key k T e k' v : (e, (k', v)) ∈ drop_key k T <-> k' <> k /\ (e, (k', v)) ∈ T.
Proof. unfold drop_key. by rewrite list_elem_of_filter. Qed.

Lemma drop_key_without k T : Recency.without k T.*2 = (drop_key k T).*2.
Proof.
  unfold Recency.without, drop_key. induction T as [|[e [k' v]] T IH]; [done|]. cbn [fmap list_fmap snd].
  destruct (decide (k' <> k)); [rewrite !filter_cons_True by done; cbn [fmap list_fmap snd]; by f_equal|].
  by rewrite !filter_cons_False by done.
Qed.

Lemma drop_key_absent k T : (forall e v, (e, (k, v)) ∉ T) -> drop_key k T = T.
Proof.
  intros H. induction T as [|[e [k' v]] T IH]; [done|]. unfold drop_key. rewrite filter_cons_True.
  - f_equal. apply IH. intros e' v' Hin. apply (H e' v'). by right.
  - cbn. intros ->. apply (H e v). by left.
Qed.

Lemma drop_key_sublist k T : drop_key k T `sublist_of` T.
Proof. apply sublist_filter. Qed.

Lemma Remove_absent (e : nat) (l : list nat) : e ∉ l -> Remove e l = l.
Proof.
  unfold Remove. induction l as [|x l IH]; [done|]. intros [Hx Hl]%not_elem_of_cons.
  rewrite filter_cons_True by done. f_equal. by apply IH.
Qed.

(** Removing by element is removing by key. *)
Lemma remove_elem e k v T : NoDup T.*1 -> NoDup (T.*2).*1 -> (e, (k, v)) ∈ T ->
  Remove e T.*1 = (drop_key k T).*1.
Proof.
  unfold Remove, drop_key. intros He Hk Hin. induction T as [|[e' [k' v']] T IH]; [done|].
  cbn [fmap list_fmap fst snd] in *. apply NoDup_cons in He as [He1 He], Hk as [Hk1 Hk].
  apply elem_of_cons in Hin as [[= <- <- <-]|Hin].
  - rewrite !filter_cons_False by naive_solver.
    fold (drop_key k T). rewrite drop_key_absent.
    + by apply Remove_absent.
    + intros e' v' H. apply Hk1. rewrite <- list_fmap_compose. apply list_elem_of_fmap. by exists (e', (k, v')).
  - assert (e' <> e) by (intros ->; apply He1; apply list_elem_of_fmap; by exists (e, (k, v))).
    assert (k' <> k) by (intros ->; apply Hk1; rewrite <- list_fmap_compose; apply list_elem_of_fmap; by exists (e, (k, v))).
    rewrite !filter_cons_True by done. cbn [fmap list_fmap fst]. f_equal. by apply IH.
Qed.

Lemma lookup_present e k v T : NoDup (T.*2).*1 -> (e, (k, v)) ∈ T -> Recency.lookup k T.*2 = Some v.
Proof.
  unfold Recency.lookup. intros Hk Hin. induction T as [|[e' [k' v']] T IH]; [by apply not_elem_of_nil in Hin|].
  cbn [fmap list_fmap fst snd] in *. apply NoDup_cons in Hk as [Hk1 Hk].
  apply elem_of_cons in Hin as [[= <- <- <-]|Hin]; [by rewrite filter_cons_True|].
  rewrite filter_cons_False; [by apply IH|]. cbn. intros ->. apply Hk1. rewrite <- list_fmap_compose.
  apply list_elem_of_fmap. by exists (e, (k, v)).
Qed.

Lemma lookup_absent k T : (forall e v, (e, (k, v)) ∉ T) -> Recency.lookup k T.*2 = None.
Proof.
  unfold Recency.lookup. intros H. induction T as [|[e' [k' v']] T IH]; [done|]. cbn [fmap list_fmap snd].
  rewrite filter_cons_False; [apply IH; intros e v Hin; apply (H e v); by right|].
  cbn. intros ->. apply (H e' v'). by left.
Qed.

Lemma index_none c T k : Slots c T -> c.(m) !! k = None -> forall e v, (e, (k, v)) ∉ T.
Proof. intros H Hn e v Hin. assert (c.(m) !! k = Some e) by (apply (sl_index c T H); by exists v). congruence. Qed.

Lemma fst_unique T e p p' : NoDup T.*1 -> (e, p) ∈ T -> (e, p') ∈ T -> p = p'.
Proof.
  intros Hn (i & Hi)%list_elem_of_lookup (j & Hj)%list_elem_of_lookup.
  assert (i = j); [|congruence]. eapply NoDup_lookup; [exact Hn| |]; rewrite list_lookup_fmap; [by rewrite Hi|by rewrite Hj].
Qed.

(** A part of the slots, with one more in front. *)
Lemma slots_front c T T0 c' e k v : Slots c T -> T0 `sublist_of` T ->
  e ∉ T0.*1 -> (forall e v, (e, (k, v)) ∉ T0) -> len T0 < c.(capacity) ->
  c'.(q) = e :: T0.*1 -> c'.(capacity) = c.(capacity) ->
  c'.(values) !! e = Some (lruSessionCacheEntry.Mk k v) ->
  (forall e' p, (e', p) ∈ T0 -> c'.(values) !! e' = c.(values) !! e') ->
  (e < c'.(next))%nat -> (c.(next) <= c'.(next))%nat ->
  (forall k' e', c'.(m) !! k' = Some e' <-> (k' = k /\ e' = e) \/ (exists v, (e', (k', v)) ∈ T0)) ->
  Slots c' ((e, (k, v)) :: T0).
Proof.
  intros H Hs He Hk Hc Hq Hcap Hv Hv' Hn Hn' Hm. destruct H as [_ N1 N2 V Nx _ [Hp _]].
  assert (Hsub : forall t, t ∈ T0 -> t ∈ T) by (intros t Ht; by eapply elem_of_sublist).
  constructor; cbn [fmap list_fmap fst snd].
  - done.
  - apply NoDup_cons. split; [done|]. eapply sublist_NoDup; [exact N1|]. by apply fmap_sublist.
  - apply NoDup_cons. split; [|eapply sublist_NoDup; [exact N2|]; by do 2 apply fmap_sublist].
    rewrite <- list_fmap_compose. intros ([e' [k' v']] & -> & Hin)%list_elem_of_fmap. by apply (Hk e' v').
  - intros e' k' v' [[= -> -> ->]|Hin]%elem_of_cons; [done|]. rewrite (Hv' e' (k', v')) by done. apply V. by apply Hsub.
  - intros e' p [[= -> _]|Hin]%elem_of_cons; [done|]. pose proof (Nx e' p (Hsub _ Hin)). lia.
  - intros k' e'. rewrite Hm. setoid_rewrite elem_of_cons. split; [naive_solver|].
    intros (v' & [[= -> -> ->]|Hin]); [by left|right; by exists v'].
  - rewrite Hcap, len_cons. lia.
Qed.

(** *** The operations *)

Lemma New_rep n : Rep (NewLRUClientSessionCache (S := S) n) [].
Proof.
  exists []. split; [|done]. constructor; cbn.
  - done.
  - constructor.
  - constructor.
  - intros e k v H. by apply not_elem_of_nil in H.
  - intros e p H. by apply not_elem_of_nil in H.
  - intros k e. rewrite lookup_empty. split; [done|]. by intros (v & H%not_elem_of_nil).
  - unfold defaultSessionCacheCapacity, len. cbn [length]. destruct (Z.ltb_spec n 1); lia.
Qed.

Lemma Slots_present c T k e : Slots c T -> c.(m) !! k = Some e ->
  exists v, (e, (k, v)) ∈ T /\ Remove e c.(q) = (drop_key k T).*1 /\ e ∉ (drop_key k T).*1 /\
    len (drop_key k T) < c.(capacity).
Proof.
  intros H Hm. pose proof H as [Hq N1 N2 V Nx Hi [Hp Hc]]. apply Hi in Hm as (v & Hin). exists v.
  split_and!; [done| | |].
  - rewrite Hq. by eapply remove_elem.
  - intros ([e' [k' v']] & -> & Hin')%list_elem_of_fmap. apply elem_of_drop_key in Hin' as [Hne Hin'].
    apply Hne. cbn in Hin. by injection (fst_unique T e' (k, v) (k', v') N1 Hin Hin').
  - enough (length (drop_key k T) < length T)%nat by (unfold len in *; lia).
    apply (length_filter_lt _ _ (e, (k, v))); [done|]. cbn. naive_solver.
Qed.

Lemma drop_key_index c T k k' e : Slots c T ->
  c.(m) !! k' = Some e -> k' <> k -> exists v, (e, (k', v)) ∈ drop_key k T.
Proof. intros H (v & Hin)%(sl_index c T H) Hne. exists v. by apply elem_of_drop_key. Qed.

(** The element of [k], with the session [v], moved to the front. *)
Lemma front_rep c T k e v c' : Slots c T -> c.(m) !! k = Some e ->
  c' = Mk c.(m) (MoveToFront e c.(q)) c'.(values) c.(next) c.(capacity) ->
  c'.(values) !! e = Some (lruSessionCacheEntry.Mk k v) ->
  (forall e', e' <> e -> c'.(values) !! e' = c.(values) !! e') ->
  Slots c' ((e, (k, v)) :: drop_key k T).
Proof.
  intros H Hm Hc' Hv Hv'. destruct (Slots_present c T k e H Hm) as (v0 & Hin & Hr & He & Hcap).
  apply (slots_front c T (drop_key k T)); try (rewrite Hc'; cbn; done); try done.
  - apply drop_key_sublist.
  - intros e' v' [? _]%elem_of_drop_key. done.
  - rewrite Hc'. cbn. unfold MoveToFront. by rewrite Hr.
  - intros e' p Hp. apply Hv'. intros ->. apply He. apply list_elem_of_fmap. by exists (e, p).
  - rewrite Hc'. cbn. by apply (sl_next c T H e (k, v0)).
  - rewrite Hc'. cbn. intros k' e'. destruct (decide (k' = k)) as [->|Hne].
    + rewrite Hm. split; [intros [= <-]; by left|]. intros [[_ ->]|(v' & [? _]%elem_of_drop_key)]; done.
    + split; [intros Hk'; right; by eapply drop_key_index|].
      intros [[? _]|(v' & [_ Hi]%elem_of_drop_key)]; [done|]. apply (sl_index c T H). by exists v'.
Qed.

Lemma Get_refines c l k : Rep c l ->
  (Get k c).1 = (Recency.Get k l).1 /\ Rep (Get k c).2 (Recency.Get k l).2.
Proof.
  intros (T & H & HT). unfold Get, Recency.Get. destruct (c.(m) !! k) as [e|] eqn:Hm.
  - destruct (Slots_present c T k e H Hm) as (v & Hin & Hr & He & Hcap).
    pose proof (lookup_present e k v T (sl_keys c T H) Hin) as Hl. rewrite HT, lookup_somes in Hl.
    apply fmap_Some in Hl as (x & -> & ->). rewrite (sl_values c T H e k _ Hin). cbn. split; [done|].
    exists ((e, (k, Some x)) :: drop_key k T). split; [|cbn; by rewrite <- drop_key_without, HT, without_somes].
    eapply front_rep; [exact H|exact Hm|done|by apply (sl_values c T H)|done].
  - pose proof (lookup_absent k T (index_none c T k H Hm)) as Hl. rewrite HT, lookup_somes in Hl. apply fmap_None in Hl as ->.
    split; [done|]. by exists T.
Qed.

Lemma take_room {A} n (l : list A) : len l <= Z.of_nat n -> take n l = l.
Proof. intros H. apply take_ge. unfold len in H. lia. Qed.

Lemma remove_slots c T k e : Slots c T -> c.(m) !! k = Some e ->
  Slots (Mk (delete k c.(m)) (Remove e c.(q)) c.(values) c.(next) c.(capacity)) (drop_key k T).
Proof.
  intros H Hm. destruct (Slots_present c T k e H Hm) as (v & Hin & Hr & He & Hcap).
  pose proof H as [Hq N1 N2 V Nx Hi [Hp Hc]]. pose proof (drop_key_sublist k T) as Hs.
  constructor; cbn.
  - done.
  - eapply sublist_NoDup; [exact N1|]. by apply fmap_sublist.
  - eapply sublist_NoDup; [exact N2|]. by do 2 apply fmap_sublist.
  - intros e' k' v' [_ ?]%elem_of_drop_key. by apply V.
  - intros e' [k' v'] [_ Hin']%elem_of_drop_key. by eapply Nx.
  - intros k' e'. setoid_rewrite elem_of_drop_key. destruct (decide (k' = k)) as [->|Hne].
    + rewrite lookup_delete_eq. naive_solver.
    + rewrite lookup_delete_ne, Hi by done. naive_solver.
  - lia.
Qed.

(** A key that is not in the cache, in front of all the slots. *)
Lemma push_slots c T k cs : Slots c T -> c.(m) !! k = None -> len c.(q) < c.(capacity) ->
  Slots (Mk (<[k := c.(next)]> c.(m)) (c.(next) :: c.(q)) (<[c.(next) := lruSessionCacheEntry.Mk k cs]> c.(values))
    (1 + c.(next))%nat c.(capacity)) ((c.(next), (k, cs)) :: T).
Proof.
  intros H Hm Hl. pose proof H as [Hq _ _ _ Nx Hi _].
  assert (Hfresh : c.(next) ∉ T.*1).
  { intros ([e p] & E & Hin)%list_elem_of_fmap. cbn in E. apply Nx in Hin. lia. }
  apply (slots_front c T T); cbn; try done.
  - by eapply index_none.
  - rewrite Hq in Hl. unfold len in *. by rewrite length_fmap in Hl.
  - by rewrite Hq.
  - apply lookup_insert_eq.
  - intros e p Hin. rewrite lookup_insert_ne; [done|]. intros <-. apply Nx in Hin. lia.
  - lia.
  - lia.
  - intros k' e'. destruct (decide (k' = k)) as [->|Hne].
    + rewrite lookup_insert_eq. split; [intros [= <-]; by left|].
      intros [[_ ->]|(v & Hin)]; [done|]. by destruct (index_none c T k H Hm e' v).
    + rewrite lookup_insert_ne by done. rewrite Hi. naive_solver.
Qed.

(** The least recently used slot, reused for a new key. *)
Lemma evict_slots c T0 e k0 v0 k cs : Slots c (T0 ++ [(e, (k0, v0))]) -> c.(m) !! k = None ->
  Slots (Mk (<[k := e]> (delete k0 c.(m))) (MoveToFront e c.(q)) (<[e := lruSessionCacheEntry.Mk k cs]> c.(values))
    c.(next) c.(capacity)) ((e, (k, cs)) :: T0).
Proof.
  intros H Hm. pose proof H as [Hq N1 N2 V Nx Hi [Hp Hc]].
  assert (Hlast : (e, (k0, v0)) ∈ T0 ++ [(e, (k0, v0))]) by (apply elem_of_app; right; by apply list_elem_of_singleton).
  rewrite fmap_app in N1. apply NoDup_app in N1 as (N1 & Ne & _).
  assert (He : e ∉ T0.*1) by (intros Hin; apply (Ne e Hin); by left).
  assert (Hk0 : forall e' v, (e', (k0, v)) ∉ T0).
  { intros e' v Hin. rewrite !fmap_app in N2. apply NoDup_app in N2 as (_ & Nk & _). apply (Nk k0); [|by left].
    rewrite <- list_fmap_compose. apply list_elem_of_fmap. by exists (e', (k0, v)). }
  assert (Hkk : forall e' v, (e', (k, v)) ∉ T0).
  { intros e' v Hin. apply (index_none c _ k H Hm e' v). apply elem_of_app. by left. }
  apply (slots_front c (T0 ++ [(e, (k0, v0))]) T0); cbn; try done.
  - apply sublist_inserts_r. done.
  - rewrite len_app, len_cons in Hc. rewrite len_nil in Hc. lia.
  - unfold MoveToFront. rewrite Hq, fmap_app. unfold Remove. change ([(e, (k0, v0))].*1) with [e].
    rewrite filter_app, (filter_cons_False _ e []), filter_nil, app_nil_r by naive_solver. f_equal. by apply Remove_absent.
  - apply lookup_insert_eq.
  - intros e' p Hin. rewrite lookup_insert_ne; [done|]. intros <-. apply He. apply list_elem_of_fmap. by exists (e, p).
  - by apply (Nx e (k0, v0)).
  - intros k' e'. destruct (decide (k' = k)) as [->|Hne].
    + rewrite lookup_insert_eq. split; [intros [= <-]; by left|].
      intros [[_ ->]|(v & Hin)]; [done|]. by apply Hkk in Hin.
    + rewrite lookup_insert_ne by done. destruct (decide (k' = k0)) as [->|Hne0].
      * rewrite lookup_delete_eq. split; [done|]. intros [[? _]|(v & Hin)]; [done|]. by apply Hk0 in Hin.
      * rewrite lookup_delete_ne, Hi by done. setoid_rewrite elem_of_app. setoid_rewrite list_elem_of_singleton. naive_solver.
Qed.

(** [l] as long as the slots. *)
Lemma somes_len c T l : Slots c T -> T.*2 = somes l -> len l = len T.
Proof. intros _ H. apply (f_equal length) in H. unfold somes in H. rewrite !length_fmap in H. unfold len. by rewrite H. Qed.

(** A nil session may only be put for a key that is there. *)
Lemma Put_refines c l k cs : Rep c l -> cs <> None \/ Recency.lookup k l <> None ->
  Rep (Put k cs c) (Recency.Put (Z.to_nat c.(capacity)) k cs l) /\ (Put k cs c).(capacity) = c.(capacity).
Proof.
  intros (T & H & HT) Hcs. pose proof (sl_cap c T H) as [Hp Hc]. unfold Put, Recency.Put.
  assert (Hw : (drop_key k T).*2 = somes (Recency.without k l)) by (by rewrite <- drop_key_without, HT, without_somes).
  assert (Hf : forall s, somes ((k, s) :: Recency.without k l) = (k, Some s) :: (drop_key k T).*2) by (intros s; rewrite Hw; done).
  destruct (c.(m) !! k) as [e|] eqn:Hm.
  - destruct (Slots_present c T k e H Hm) as (v & Hin & Hr & He & Hcap).
    destruct cs as [cs|]; (split; [|done]).
    + exists ((e, (k, Some cs)) :: drop_key k T). split.
      * eapply front_rep; [exact H|exact Hm|done|cbn|cbn].
        -- by rewrite lookup_alter_eq, (sl_values c T H e k v Hin).
        -- intros e' Hne. by rewrite lookup_alter_ne.
      * rewrite take_room; [by rewrite Hf|]. apply (f_equal len) in Hw. unfold somes in Hw. rewrite len_cons. unfold len in *. rewrite !length_fmap in Hw. lia.
    + exists (drop_key k T). split; [by apply (remove_slots c T k e)|done].
  - pose proof (lookup_absent k T (index_none c T k H Hm)) as Hl. rewrite HT, lookup_somes in Hl. apply fmap_None in Hl.
    destruct cs as [cs|]; [|by destruct Hcs]. rewrite drop_key_absent in Hw, Hf by (by eapply index_none).
    assert (Hlw : Recency.without k l = l).
    { rewrite HT in Hw. unfold somes in Hw. apply (inj (fmap (prod_map id Some))) in Hw. done. }
    rewrite Hlw in *. pose proof (somes_len c T l H HT) as Hll.
    assert (EL : len c.(q) = len T) by (rewrite (sl_q c T H); unfold len; by rewrite length_fmap).
    destruct (Z.ltb_spec (len c.(q)) c.(capacity)) as [Hlt|Hge].
    + split; [|done]. exists ((c.(next), (k, Some cs)) :: T). split; [by apply push_slots|].
      rewrite take_room by (rewrite len_cons; lia). by rewrite Hf.
    + destruct T as [|t T _] using rev_ind; [rewrite len_nil in EL; lia|]. destruct t as [e [k0 v0]].
      rewrite (sl_q _ _ H), fmap_app. change ([(e, (k0, v0))].*1) with [e]. rewrite last_snoc.
      assert (HV : c.(values) !! e = Some (lruSessionCacheEntry.Mk k0 v0))
        by (apply (sl_values _ _ H); apply elem_of_app; right; by apply list_elem_of_singleton).
      cbn [fst]. rewrite HV. split; [|done]. exists ((e, (k, Some cs)) :: T). split.
      * pose proof (evict_slots c T e k0 v0 k (Some cs) H Hm) as HE. rewrite (sl_q _ _ H), fmap_app in HE. exact HE.
      * rewrite len_app, len_cons, len_nil in *.
        assert (Hn : Z.to_nat c.(capacity) = Datatypes.S (length T)) by (unfold len in *; lia).
        rewrite Hn. cbn [take]. change (somes ((k, cs) :: take (length T) l)) with ((k, Some cs) :: somes (take (length T) l)).
        cbn [fmap list_fmap snd]. f_equal. unfold somes in *. rewrite fmap_take, <- HT, fmap_app, take_app_le by (by rewrite length_fmap).
        by rewrite take_ge by (by rewrite length_fmap).
Qed.
End Refinement.

(** ** Histories *)

(** The specification as an implementation of the interface. *)
Definition recency_cache (S : Type) (cap : nat) : ClientSessionCache S :=
  {| cache := list (bytes * S); Get := Recency.Get; Put := Recency.Put cap |}.

Inductive cache_op (S : Type) := OGet (k : bytes) | OPut (k : bytes) (cs : option S).
Arguments OGet {S}.
Arguments OPut {S}.

(** The answers of a cache to a sequence of calls. *)
Fixpoint answers {S} (I : ClientSessionCache S) (ops : list (cache_op S)) (c : I.(cache)) : list (option S * bool) :=
  match ops with
  | [] => []
  | OGet k :: ops => (Get k c).1 :: answers I ops (Get k c).2
  | OPut k cs :: ops => answers I ops (Put k cs c)
  end.

(** Whether a nil session is only put for a key that the cache has at that time. *)
Fixpoint removes_present {S} (cap : nat) (ops : list (cache_op S)) (l : list (bytes * S)) : bool :=
  match ops with
  | [] => true
  | OGet k :: ops => removes_present cap ops (Recency.Get k l).2
  | OPut k cs :: ops =>
      (match cs with None => bool_decide (Recency.lookup k l ≠ None) | Some _ => true end) && removes_present cap ops (Recency.Put cap k cs l)
  end.

Lemma answers_rep {S} (ops : list (cache_op S)) : forall (c : lruSessionCache.t S) l cap, Rep c l ->
  cap = Z.to_nat c.(lruSessionCache.capacity) -> removes_present cap ops l = true ->
  answers (lru_cache S) ops c = answers (recency_cache S cap) ops l.
Proof.
  induction ops as [|[k|k cs] ops IH]; intros c l cap HR Hc Hd; cbn [answers]; [done| |]; cbn [removes_present] in Hd.
  - destruct (Get_refines c l k HR) as [E HR']. f_equal; [exact E|]. apply IH; [exact HR'| |exact Hd].
    cbn. unfold lruSessionCache.Get. by destruct (_ !! k).
  - apply andb_true_iff in Hd as [Hk Hd]. destruct (Put_refines c l k cs HR) as [HR' E].
    { destruct cs; [by left|]. right. by apply bool_decide_eq_true in Hk. }
    apply IH; [cbn; by rewrite Hc|cbn; by rewrite E|exact Hd].
Qed.

(** C38: over any sequence of calls in which a nil session is only put for a key that
    the cache has, the session cache gives the answers of the abstract cache that keeps
    the [capacity] most recently used keys (64 when a capacity below 1 is asked for) and
    that removes a key for which nil is put, as the documentation says: a pointer-based
    list and an index refine a list of pairs.  ([lru_put_nil_evicts] shows what the code
    does for a nil session of a key that the cache does not have.) *)
Theorem lru_refines {S} (ops : list (cache_op S)) n :
  let cap := if n <? 1 then 64%nat else Z.to_nat n in
  removes_present cap ops [] = true ->
  answers (lru_cache S) ops (lruSessionCache.NewLRUClientSessionCache n) = answers (recency_cache S cap) ops [].
Proof. intros cap. apply answers_rep; [apply New_rep|]. unfold cap. cbn. by destruct (n <? 1). Qed.

Lemma lru_refines_witness :
  answers (lru_cache nat) [OPut [x01] (Some 7%nat); OPut [x02] (Some 8%nat); OGet [x01]; OPut [x03] (Some 9%nat); OGet [x02]; OPut [x01] None; OGet [x01]; OGet [x03]]
    (lruSessionCache.NewLRUClientSessionCache 2) = [(Some 7%nat, true); (None, false); (None, false); (Some 9%nat, true)].
Proof. rewrite (lru_refines _ 2); [reflexivity|]. vm_compute. reflexivity. Defined.

(** Removing a key that is not there stores a nil session for it and drops the session that
    was used least recently. *)
Theorem lru_put_nil_evicts :
  answers (lru_cache nat) [OPut [x01] (Some 7%nat); OPut [x02] None; OGet [x01]; OGet [x02]]
    (lruSessionCache.NewLRUClientSessionCache 1) = [(None, false); (None, true)].
Proof. reflexivity. Qed.

(** * The certificate cache *)

Module cacheEntry.
Record t `{X : X509} := Mk { refs : Z; cert : certificate }.
#[global] Arguments t _ : clear implicits.
#[global] Arguments Mk {X}.
End cacheEntry.

Module certCache.
Section Steps.
Context `{X : X509}.

(** Where a call of [newCert] for [der] stands: before [Load]; after a miss,
    before parsing; before [LoadOrStore]; before [active] increments the count
    of the entry at an address; returned, holding a handle or an error.  A
    finalizer that brought the count to zero is about to evict its entry. *)
Inductive pc :=
  | Loading (der : bytes)
  | Parsing (der : bytes)
  | Storing (der : bytes) (cert : certificate)
  | Activating (der : bytes) (entry : nat)
  | Returned (der : bytes) (r : res (nat * certificate))
  | Evicting (entry : nat)
  | Freed.

(** The [sync.Map], the entries by address, the next address, and the threads. *)
Record state := MkState {
  table : gmap bytes nat;
  entries : gmap nat (cacheEntry.t X);
  next : nat;
  threads : list pc
}.

Definition add_refs (n : Z) (e : cacheEntry.t X) : cacheEntry.t X :=
  cacheEntry.Mk (e.(cacheEntry.refs) + n) e.(cacheEntry.cert).

(** One atomic action of one thread. *)
Inductive step : state -> state -> Prop :=
  | call t es n ts der : step (MkState t es n ts) (MkState t es n (ts ++ [Loading der]))
  | load_hit t es n l r der e : t !! der = Some e ->
      step (MkState t es n (l ++ Loading der :: r)) (MkState t es n (l ++ Activating der e :: r))
  | load_miss t es n l r der : t !! der = None ->
      step (MkState t es n (l ++ Loading der :: r)) (MkState t es n (l ++ Parsing der :: r))
  | parse_error t es n l r der err : ParseCertificate der = inl err ->
      step (MkState t es n (l ++ Parsing der :: r)) (MkState t es n (l ++ Returned der (inl err) :: r))
  | parse_ok t es n l r der c : ParseCertificate der = inr c ->
      step (MkState t es n (l ++ Parsing der :: r)) (MkState t es n (l ++ Storing der c :: r))
  | store_loaded t es n l r der c e : t !! der = Some e ->
      step (MkState t es n (l ++ Storing der c :: r)) (MkState t es n (l ++ Activating der e :: r))
  | store_new t es n l r der c : t !! der = None ->
      step (MkState t es n (l ++ Storing der c :: r))
        (MkState (<[der := n]> t) (<[n := cacheEntry.Mk 0 c]> es) (Datatypes.S n) (l ++ Activating der n :: r))
  | active t es n l r der e ent : es !! e = Some ent ->
      step (MkState t es n (l ++ Activating der e :: r))
        (MkState t (<[e := add_refs 1 ent]> es) n (l ++ Returned der (inr (e, ent.(cacheEntry.cert))) :: r))
  | finalize_last t es n l r der e c ent : es !! e = Some ent -> ent.(cacheEntry.refs) - 1 = 0 ->
      step (MkState t es n (l ++ Returned der (inr (e, c)) :: r))
        (MkState t (<[e := add_refs (-1) ent]> es) n (l ++ Evicting e :: r))
  | finalize t es n l r der e c ent : es !! e = Some ent -> ent.(cacheEntry.refs) - 1 <> 0 ->
      step (MkState t es n (l ++ Returned der (inr (e, c)) :: r))
        (MkState t (<[e := add_refs (-1) ent]> es) n (l ++ Freed :: r))
  | evict t es n l r e ent : es !! e = Some ent ->
      step (MkState t es n (l ++ Evicting e :: r))
        (MkState (delete (Raw ent.(cacheEntry.cert)) t) es n (l ++ Freed :: r)).

Definition empty : state := MkState ∅ ∅ 0 [].
Definition reachable (s : state) : Prop := rtc step empty s.

(** ** The invariant *)

Definition holds (e : nat) (p : pc) : bool :=
  match p with Returned _ (inr (e', _)) => Nat.eqb e e' | _ => false end.
(** The live handles of an entry. *)
Definition holders (e : nat) (ts : list pc) : Z := len (List.filter (holds e) ts).

(** A thread that will still change the count or the table for [e]. *)
Definition busy (e : nat) (p : pc) : bool :=
  match p with Activating _ e' | Evicting e' => Nat.eqb e e' | _ => false end.

(** The entry at [e] is for the certificate [der]. *)
Definition entry_for (es : gmap nat (cacheEntry.t X)) (e : nat) (der : bytes) : Prop :=
  exists ent, es !! e = Some ent /\ ParseCertificate der = inr ent.(cacheEntry.cert).

Definition thread_ok (es : gmap nat (cacheEntry.t X)) (p : pc) : Prop :=
  match p with
  | Storing der c => ParseCertificate der = inr c
  | Activating der e => entry_for es e der
  | Returned der (inr (e, c)) => ParseCertificate der = inr c /\ entry_for es e der
  | Returned der (inl err) => ParseCertificate der = inl err
  | Evicting e => exists der, entry_for es e der
  | Loading _ | Parsing _ | Freed => True
  end.

Record Inv (s : state) : Prop := {
  inv_table der e : s.(table) !! der = Some e -> entry_for s.(entries) e der;
  inv_threads : Forall (thread_ok s.(entries)) s.(threads);
  inv_refs e ent : s.(entries) !! e = Some ent -> ent.(cacheEntry.refs) = holders e s.(threads);
  inv_next e ent : s.(entries) !! e = Some ent -> (e < s.(next))%nat;
  inv_idle der e ent : s.(table) !! der = Some e -> s.(entries) !! e = Some ent ->
    ent.(cacheEntry.refs) = 0 -> exists p, p ∈ s.(threads) /\ busy e p = true
}.

Lemma holders_swap e l p r :
  holders e (l ++ p :: r) = holders e (l ++ r) + (if holds e p then 1 else 0).
Proof.
  unfold holders, len. rewrite !List.filter_app, !length_app. cbn [List.filter].
  destruct (holds e p); cbn [length]; lia.
Qed.

Lemma thread_ok_mono es es' p : (forall e der, entry_for es e der -> entry_for es' e der) ->
  thread_ok es p -> thread_ok es' p.
Proof. destruct p as [| | | |? [?|[? ?]]| |]; naive_solver. Qed.

Lemma entry_for_refs es e ent k e' der : es !! e = Some ent ->
  entry_for es e' der <-> entry_for (<[e := add_refs k ent]> es) e' der.
Proof.
  intros He. unfold entry_for. destruct (decide (e' = e)) as [->|Hne].
  - rewrite lookup_insert_eq. naive_solver.
  - by rewrite lookup_insert_ne.
Qed.

Lemma busy_swap e l p p' r : (busy e p = true -> busy e p' = true) ->
  (exists q, q ∈ l ++ p :: r /\ busy e q = true) -> exists q, q ∈ l ++ p' :: r /\ busy e q = true.
Proof.
  intros Hb (q & Hq & Hbq). apply elem_of_app in Hq as [Hq|[->|Hq]%elem_of_cons].
  - exists q. split; [apply elem_of_app; by left|done].
  - exists p'. split; [apply elem_of_app; right; by left|by apply Hb].
  - exists q. split; [apply elem_of_app; right; by right|done].
Qed.

(** A thread moves on without touching the table or a count. *)
Lemma inv_move t es n l p p' r : Inv (MkState t es n (l ++ p :: r)) ->
  (forall e, holds e p' = holds e p) -> (forall e, busy e p = true -> busy e p' = true) -> thread_ok es p' ->
  Inv (MkState t es n (l ++ p' :: r)).
Proof.
  intros [H1 H2 H3 H4 H5] Hh Hb Hp. cbn in *. constructor; cbn; try done.
  - apply Forall_app in H2 as [? H2%Forall_cons]. apply Forall_app. split; [done|]. apply Forall_cons. naive_solver.
  - intros e ent He. rewrite (H3 e ent He), !holders_swap. by rewrite Hh.
  - intros der e ent Ht He H0. eapply busy_swap; [apply Hb|]. by eapply H5.
Qed.

(** A thread changes the count of the entry at [e] by [k]. *)
Lemma inv_count t es n l p p' r e ent k : Inv (MkState t es n (l ++ p :: r)) -> es !! e = Some ent ->
  (forall e', (if holds e' p' then 1 else 0) = (if holds e' p then 1 else 0) + (if Nat.eqb e' e then k else 0)) ->
  (forall e', e' <> e -> busy e' p = true -> busy e' p' = true) ->
  (ent.(cacheEntry.refs) + k = 0 -> busy e p' = true) -> thread_ok es p' ->
  Inv (MkState t (<[e := add_refs k ent]> es) n (l ++ p' :: r)).
Proof.
  intros [H1 H2 H3 H4 H5] He Hh Hb Hbe Hp. cbn in *.
  assert (Hmono : forall e' der, entry_for es e' der -> entry_for (<[e := add_refs k ent]> es) e' der)
    by (intros; by apply entry_for_refs).
  constructor; cbn.
  - intros der e' Ht. apply Hmono. by apply H1.
  - apply Forall_app in H2 as [? H2%Forall_cons]. apply Forall_app.
    split; [|apply Forall_cons; split]; [eapply Forall_impl; [done|]|by eapply thread_ok_mono|eapply Forall_impl; [apply H2|]];
      intros q Hq; by eapply thread_ok_mono.
  - intros e' ent' He'. rewrite holders_swap, Hh. destruct (decide (e' = e)) as [->|Hne].
    + rewrite lookup_insert_eq in He'. injection He' as <-. cbn. rewrite (H3 e ent He), holders_swap, Nat.eqb_refl. lia.
    + rewrite lookup_insert_ne in He' by done. rewrite (H3 e' ent' He'), holders_swap.
      rewrite (proj2 (Nat.eqb_neq e' e)) by done. lia.
  - intros e' ent' He'. destruct (decide (e' = e)) as [->|Hne]; [by eapply H4|].
    rewrite lookup_insert_ne in He' by done. by eapply H4.
  - intros der e' ent' Ht He' H0. destruct (decide (e' = e)) as [->|Hne].
    + rewrite lookup_insert_eq in He'. injection He' as <-. exists p'. split; [apply elem_of_app; right; by left|].
      by apply Hbe.
    + rewrite lookup_insert_ne in He' by done. eapply busy_swap; [by apply Hb|]. by eapply H5.
Qed.

Lemma inv_thread t es n l p r : Inv (MkState t es n (l ++ p :: r)) -> thread_ok es p.
Proof. intros [_ H _ _ _]. cbn in H. apply Forall_app in H as [_ H]. by apply Forall_cons in H as [? _]. Qed.

(** Nobody holds a handle of an address that is not allocated. *)
Lemma no_holders t es n ts : Inv (MkState t es n ts) -> holders n ts = 0.
Proof.
  intros [_ H _ Hn _]. cbn in *. unfold holders. induction H as [|p ts Hp H IH]; [done|]. cbn [List.filter].
  destruct (holds n p) eqn:E; [|apply IH].
  destruct p as [| | | |? [?|[e ?]]| |]; cbn in E; try done. apply Nat.eqb_eq in E as <-.
  destruct Hp as [_ (ent & He & _)]. apply Hn in He. lia.
Qed.

Lemma inv_store_new t es n l r der c : Inv (MkState t es n (l ++ Storing der c :: r)) -> t !! der = None ->
  Inv (MkState (<[der := n]> t) (<[n := cacheEntry.Mk 0 c]> es) (Datatypes.S n) (l ++ Activating der n :: r)).
Proof.
  intros HI Ht. pose proof (inv_thread _ _ _ _ _ _ HI) as Hc. pose proof (no_holders _ _ _ _ HI) as Hh.
  destruct HI as [H1 H2 H3 H4 H5]. cbn in *.
  assert (Hn : es !! n = None) by (destruct (es !! n) eqn:E; [apply H4 in E; lia|done]).
  assert (Hmono : forall e' der', entry_for es e' der' -> entry_for (<[n := cacheEntry.Mk 0 c]> es) e' der').
  { intros e' der' (ent & He & Hd). exists ent. rewrite lookup_insert_ne by congruence. done. }
  assert (Hnew : entry_for (<[n := cacheEntry.Mk 0 c]> es) n der)
    by (exists (cacheEntry.Mk 0 c); by rewrite lookup_insert_eq).
  constructor; cbn.
  - intros der' e' He'. destruct (decide (der' = der)) as [->|]; [rewrite lookup_insert_eq in He'; by injection He' as <-|].
    rewrite lookup_insert_ne in He' by done. apply Hmono. by apply H1.
  - apply Forall_app in H2 as [? H2%Forall_cons]. apply Forall_app.
    split; [|apply Forall_cons; split]; [eapply Forall_impl; [done|]|done|eapply Forall_impl; [apply H2|]];
      intros q Hq; by eapply thread_ok_mono.
  - intros e' ent' He'. rewrite holders_swap in *. cbn in *. destruct (decide (e' = n)) as [->|].
    + rewrite lookup_insert_eq in He'. injection He' as <-. cbn. lia.
    + rewrite lookup_insert_ne in He' by done. rewrite (H3 e' ent' He'), holders_swap. cbn. lia.
  - intros e' ent' He'. destruct (decide (e' = n)) as [->|]; [lia|].
    rewrite lookup_insert_ne in He' by done. apply H4 in He'. lia.
  - intros der' e' ent' Ht' He' H0. destruct (decide (e' = n)) as [->|Hne].
    + exists (Activating der n). split; [apply elem_of_app; right; by left|]. cbn. apply Nat.eqb_refl.
    + rewrite lookup_insert_ne in He' by done.
      destruct (decide (der' = der)) as [->|]; [rewrite lookup_insert_eq in Ht'; congruence|].
      rewrite lookup_insert_ne in Ht' by done. eapply (busy_swap _ _ (Storing der c)); [done|]. by eapply H5.
Qed.

(** Evicting deletes the key of the entry's certificate, whatever it leads to. *)
Hypothesis Raw_Parse : forall der c, ParseCertificate der = inr c -> Raw c = der.

Lemma inv_evict t es n l r e ent : Inv (MkState t es n (l ++ Evicting e :: r)) -> es !! e = Some ent ->
  Inv (MkState (delete (Raw ent.(cacheEntry.cert)) t) es n (l ++ Freed :: r)).
Proof.
  intros HI He. destruct HI as [H1 H2 H3 H4 H5]. cbn in *. constructor; cbn.
  - intros der' e' Ht. apply H1. by apply lookup_delete_Some in Ht as [_ ?].
  - apply Forall_app in H2 as [? H2%Forall_cons]. apply Forall_app. split; [done|]. apply Forall_cons. naive_solver.
  - intros e' ent' He'. rewrite holders_swap. rewrite (H3 e' ent' He'), holders_swap. done.
  - done.
  - intros der' e' ent' [Hne Ht]%lookup_delete_Some He' H0.
    eapply (busy_swap _ _ (Evicting e)); [|by eapply H5]. cbn. intros ->%Nat.eqb_eq. exfalso. apply Hne.
    destruct (H1 der' e Ht) as (ent'' & He'' & Hd). rewrite He in He''. injection He'' as <-. by apply Raw_Parse.
Qed.

Lemma inv_step s s' : step s s' -> Inv s -> Inv s'.
Proof.
  intros H HI. destruct H.
  - destruct HI as [H1 H2 H3 H4 H5]. cbn in *. constructor; cbn; try done.
    + apply Forall_app. split; [done|]. by constructor.
    + intros e ent He. rewrite (H3 e ent He). unfold holders. rewrite List.filter_app. cbn. by rewrite app_nil_r.
    + intros der' e ent Ht He H0. destruct (H5 der' e ent Ht He H0) as (p & Hp & Hb). exists p.
      split; [apply elem_of_app; by left|done].
  - eapply inv_move; [exact HI|done|done|]. by apply (inv_table _ HI).
  - by eapply inv_move; [exact HI| | |].
  - by eapply inv_move; [exact HI| | |].
  - by eapply inv_move; [exact HI| | |].
  - eapply inv_move; [exact HI|done|done|]. by apply (inv_table _ HI).
  - by apply inv_store_new.
  - pose proof (inv_thread _ _ _ _ _ _ HI) as (ent' & He & Hd). rewrite H in He. injection He as <-.
    eapply inv_count; [exact HI|done|intros e'; cbn; by destruct (Nat.eqb e' e)| | |].
    + intros e' Hne. cbn. by rewrite (proj2 (Nat.eqb_neq e' e)).
    + pose proof (inv_refs _ HI e ent H) as Hr. cbn in Hr. unfold holders in Hr.
      pose proof (len_nonneg (List.filter (holds e) (l ++ Activating der e :: r))). lia.
    + split; [done|]. by exists ent.
  - pose proof (inv_thread _ _ _ _ _ _ HI) as (Hc & He).
    eapply inv_count; [exact HI|done|intros e'; cbn; by destruct (Nat.eqb e' e)|done|cbn; intros; apply Nat.eqb_refl|].
    by exists der.
  - eapply inv_count; [exact HI|done|intros e'; cbn; by destruct (Nat.eqb e' e)|done|lia|done].
  - by eapply inv_evict.
Qed.

Lemma inv_reachable s : reachable s -> Inv s.
Proof.
  unfold reachable. enough (forall s0, rtc step s0 s -> Inv s0 -> Inv s) as H.
  { intros Hr. apply (H empty Hr). by constructor; cbn. }
  intros s0 Hr. induction Hr; [done|]. intros. by eauto using inv_step.
Qed.

(** No call is in progress: every thread has returned or is gone. *)
Definition quiescent (s : state) : Prop :=
  Forall (fun p => match p with Returned _ _ | Freed => True | _ => False end) s.(threads).

Lemma busy_not_quiescent s e p : quiescent s -> p ∈ s.(threads) -> busy e p = false.
Proof.
  intros Hq Hp. unfold quiescent in Hq. rewrite Forall_forall in Hq. apply Hq in Hp. by destruct p.
Qed.

(** C39: under every interleaving of calls and finalizers, a call returns what
    parsing its certificate gives, error or value; the count of an entry is the
    number of live handles, so it never becomes negative; and once no call is
    in progress no entry without a live handle stays in the table, although
    eviction races with calls that found the entry. *)
Theorem cert_cache_safe s : reachable s ->
  (forall der r, Returned der r ∈ s.(threads) -> (try p := r in inr p.2) = ParseCertificate der) /\
  (forall e ent, s.(entries) !! e = Some ent -> ent.(cacheEntry.refs) = holders e s.(threads)) /\
  (quiescent s -> forall der e, s.(table) !! der = Some e ->
    exists ent, s.(entries) !! e = Some ent /\ ParseCertificate der = inr ent.(cacheEntry.cert) /\
      0 < ent.(cacheEntry.refs)).
Proof.
  intros HI%inv_reachable. split_and!.
  - intros der r Hr. pose proof (inv_threads _ HI) as HT. rewrite Forall_forall in HT. apply HT in Hr.
    destruct r as [err|[e c]]; cbn in *; [done|]. by destruct Hr as [-> _].
  - apply (inv_refs _ HI).
  - intros Hq der e Ht. destruct (inv_table _ HI der e Ht) as (ent & He & Hd). exists ent. split_and!; [done..|].
    pose proof (inv_refs _ HI e ent He) as Hr. unfold holders in Hr.
    pose proof (len_nonneg (List.filter (holds e) (threads s))).
    destruct (Z.eq_dec ent.(cacheEntry.refs) 0) as [H0|]; [|lia].
    destruct (inv_idle _ HI der e ent Ht He H0) as (p & Hp & Hb). by rewrite (busy_not_quiescent s e p) in Hb.
Qed.
End Steps.
End certCache.

(** Two calls for one certificate, interleaved so that both miss, and the first
    handle freed while the second call runs. *)
Definition race_cert : @certificate plain_x509 := [x30].
Definition race : @certCache.state plain_x509 :=
  certCache.MkState {[ [x30] := 0%nat ]} {[ 0%nat := cacheEntry.Mk 2 race_cert ]} 1
    [certCache.Returned [x30] (inr (0%nat, race_cert)); certCache.Returned [x30] (inr (0%nat, race_cert))].

Lemma race_reachable : certCache.reachable race.
Proof.
  unfold certCache.reachable, certCache.empty, race.
  eapply rtc_l; [apply (certCache.call _ _ _ [] [x30])|]. cbn [app].
  eapply rtc_l; [apply (certCache.call _ _ _ [_] [x30])|]. cbn [app].
  eapply rtc_l; [apply (certCache.load_miss _ _ _ [] [_]); done|]. cbn [app].
  eapply rtc_l; [apply (certCache.load_miss _ _ _ [_] []); done|]. cbn [app].
  eapply rtc_l; [apply (certCache.parse_ok _ _ _ [] [_] _ race_cert); done|]. cbn [app].
  eapply rtc_l; [apply (certCache.parse_ok _ _ _ [_] [] _ race_cert); done|]. cbn [app].
  eapply rtc_l; [apply (certCache.store_new _ _ _ [] [_]); done|]. cbn [app].
  eapply rtc_l; [apply (certCache.store_loaded _ _ _ [_] [] _ _ 0); done|]. cbn [app].
  eapply rtc_l; [apply (certCache.active _ _ _ [] [_] _ 0 (cacheEntry.Mk 0 race_cert)); done|]. cbn [app].
  eapply rtc_l; [apply (certCache.active _ _ _ [_] [] _ 0 (cacheEntry.Mk 1 race_cert)); done|]. cbn [app].
  apply rtc_refl.
Qed.

Lemma cert_cache_safe_witness :
  certCache.reachable race /\
  exists ent, race.(certCache.entries) !! 0%nat = Some ent /\ 0 < ent.(cacheEntry.refs).
Proof.
  split; [exact race_reachable|].
  destruct (certCache.cert_cache_safe (X := plain_x509) ltac:(intros ? ? [= <-]; reflexivity) race race_reachable)
    as (_ & _ & H).
  destruct (H ltac:(repeat constructor) [x30] 0%nat eq_refl) as (ent & He & _ & Hr). by exists ent.
Defined.
