(* ===== verification/RawMessages.v ===== *)
(** * Handshake messages serialised by hand

    The message types of handshake_messages.go that index a byte slice
    directly: the TLS 1.2 certificate, key exchange, certificate request and
    session ticket messages and the messages with an empty body.  [marshal]
    and [unmarshal] are [outcome]s: [Panic] is an index out of range (or a loop
    that runs out of fuel), [Ret None] is [return false]. *)

From S2P Require Import Prelude Cryptobyte Common Codec Buffer.

(** [if !c { return false }] *)
Notation "'check' c 'in' k" := (if c then k else Ret None)
  (at level 10, c at level 100, k at level 200,
   format "'[v' 'check'  c  'in' '/' k ']'") : go_scope.

(** Type conversion and arithmetic of [uint32]. *)
Definition u32 (z : Z) : Z := z mod 2 ^ 32.
Definition u16 (z : Z) : Z := z mod 2 ^ 16.

(** [x[0] = typ; x[1] = uint8(length >> 16); x[2] = uint8(length >> 8); x[3] = uint8(length)] *)
Definition put_header (typ length : Z) : bytes -> outcome bytes :=
  put 0 typ ;!
  put 1 (Z.shiftr length 16) ;!
  put 2 (Z.shiftr length 8) ;!
  put 3 length.

Module endOfEarlyDataMsg.
Definition marshal : outcome bytes :=
  run x := make 4 in
  put 0 typeEndOfEarlyData x.
Definition unmarshal (data : bytes) : bool := len data =? 4.
End endOfEarlyDataMsg.

Module serverHelloDoneMsg.
Definition marshal : outcome bytes :=
  run x := make 4 in
  put 0 typeServerHelloDone x.
Definition unmarshal (data : bytes) : bool := len data =? 4.
End serverHelloDoneMsg.

Module helloRequestMsg.
Definition marshal : outcome bytes := Ret [u8 typeHelloRequest; x00; x00; x00].
Definition unmarshal (data : bytes) : bool := len data =? 4.
End helloRequestMsg.

Module serverKeyExchangeMsg.
Record t := Mk { key : bytes }.

Definition marshal (m : t) : outcome bytes :=
  let length := len m.(key) in
  run x := make (length + 4) in
  (put_header typeServerKeyExchange length ;!
   copy_at 4 m.(key)) x.

Definition unmarshal (data : bytes) : outcome (option t) :=
  check negb (len data <? 4) in
  run key := from data 4 in
  Ret (Some (Mk key)).
End serverKeyExchangeMsg.

Module clientKeyExchangeMsg.
Record t := Mk { ciphertext : bytes }.

Definition marshal (m : t) : outcome bytes :=
  let length := len m.(ciphertext) in
  run x := make (length + 4) in
  (put_header typeClientKeyExchange length ;!
   copy_at 4 m.(ciphertext)) x.

Definition unmarshal (data : bytes) : outcome (option t) :=
  check negb (len data <? 4) in
  run l := get24 data 1 in
  check (l =? len data - 4) in
  run ciphertext := from data 4 in
  Ret (Some (Mk ciphertext)).
End clientKeyExchangeMsg.

Module newSessionTicketMsg.
Record t := Mk { ticket : bytes }.

Definition marshal (m : t) : outcome bytes :=
  let ticketLen := len m.(ticket) in
  let length := 2 + 4 + ticketLen in
  run x := make (4 + length) in
  (put_header typeNewSessionTicket length ;!
   put 8 (Z.shiftr ticketLen 8) ;!
   put 9 ticketLen ;!
   copy_at 10 m.(ticket)) x.

Definition unmarshal (data : bytes) : outcome (option t) :=
  check negb (len data <? 10) in
  run length := get24 data 1 in
  check (u32 (u32 (len data) - 4) =? length) in
  run p := get data 8 in
  run q := get data 9 in
  let ticketLen := Z.shiftl p 8 + q in
  check (len data - 10 =? ticketLen) in
  run ticket := from data 10 in
  Ret (Some (Mk ticket)).
End newSessionTicketMsg.

Module certificateMsg.
Record t := Mk { certificates : list bytes }.

(** [for _, slice := range m.certificates { i += len(slice) }] *)
Definition sum_len (l : list bytes) : Z := fold_left (fun i slice => i + len slice) l 0.

(** The writing loop; [y] is the offset of the slice [y] in the message. *)
Fixpoint write_certs (y : Z) (l : list bytes) : bytes -> outcome bytes :=
  match l with
  | [] => wnop
  | slice :: l =>
      put y (Z.shiftr (len slice) 16) ;!
      put (y + 1) (Z.shiftr (len slice) 8) ;!
      put (y + 2) (len slice) ;!
      copy_at (y + 3) slice ;!
      advance (y + (3 + len slice)) ;!
      write_certs (y + (3 + len slice)) l
  end.

Definition marshal (m : t) : outcome bytes :=
  let i := sum_len m.(certificates) in
  let length := 3 + 3 * len m.(certificates) + i in
  run x := make (4 + length) in
  let certificateOctets := length - 3 in
  (put_header typeCertificate length ;!
   put 4 (Z.shiftr certificateOctets 16) ;!
   put 5 (Z.shiftr certificateOctets 8) ;!
   put 6 certificateOctets ;!
   write_certs 7 m.(certificates)) x.

(** [for certsLen > 0 { ... }]: counts the certificates and checks their
    lengths.  Every iteration drops at least four bytes of [d]. *)
Fixpoint count_certs (fuel : nat) (certsLen : Z) (d : bytes) (numCerts : Z)
    : outcome (option Z) :=
  if 0 <? certsLen then
    match fuel with
    | O => Panic
    | S fuel =>
        check negb (len d <? 4) in
        run certLen := get24 d 0 in
        check negb (u32 (len d) <? u32 (3 + certLen)) in
        run d := from d (u32 (3 + certLen)) in
        count_certs fuel (u32 (certsLen - u32 (3 + certLen))) d (numCerts + 1)
    end
  else Ret (Some numCerts).

(** [for i := 0; i < numCerts; i++ { ... }]: cuts out the certificates. *)
Fixpoint cut_certs (n : nat) (d : bytes) : outcome (list bytes) :=
  match n with
  | O => Ret []
  | S n =>
      run certLen := get24 d 0 in
      run cert := slice d 3 (u32 (3 + certLen)) in
      run d := from d (u32 (3 + certLen)) in
      run l := cut_certs n d in
      Ret (cert :: l)
  end.

Definition unmarshal (data : bytes) : outcome (option t) :=
  check negb (len data <? 7) in
  run certsLen := get24 data 4 in
  check (u32 (len data) =? u32 (certsLen + 7)) in
  run d := from data 7 in
  run r := count_certs (length d) certsLen d 0 in
  match r with
  | None => Ret None
  | Some numCerts =>
      run d := from data 7 in
      run l := cut_certs (Z.to_nat numCerts) d in
      Ret (Some (Mk l))
  end.
End certificateMsg.

Module certificateRequestMsg.
Record t := Mk {
  hasSignatureAlgorithm : bool;
  certificateTypes : bytes;
  supportedSignatureAlgorithms : list Z;
  certificateAuthorities : list bytes
}.

(** [for _, ca := range m.certificateAuthorities { casLength += 2 + len(ca) }] *)
Definition cas_length (l : list bytes) : Z :=
  fold_left (fun casLength ca => casLength + (2 + len ca)) l 0.

Fixpoint write_algs (y : Z) (l : list Z) : bytes -> outcome bytes :=
  match l with
  | [] => wnop
  | sigAlgo :: l =>
      put y (Z.shiftr sigAlgo 8) ;!
      put (y + 1) sigAlgo ;!
      advance (y + 2) ;!
      write_algs (y + 2) l
  end.

Fixpoint write_cas (y : Z) (l : list bytes) : bytes -> outcome bytes :=
  match l with
  | [] => wnop
  | ca :: l =>
      put y (Z.shiftr (len ca) 8) ;!
      put (y + 1) (len ca) ;!
      advance (y + 2) ;!
      copy_at (y + 2) ca ;!
      advance (y + 2 + len ca) ;!
      write_cas (y + 2 + len ca) l
  end.

Definition marshal (m : t) : outcome bytes :=
  let casLength := cas_length m.(certificateAuthorities) in
  let n := len m.(supportedSignatureAlgorithms) * 2 in
  let length := 1 + len m.(certificateTypes) + 2 + casLength
    + (if m.(hasSignatureAlgorithm) then 2 + 2 * len m.(supportedSignatureAlgorithms) else 0) in
  run x := make (4 + length) in
  let y := 5 + len m.(certificateTypes) in
  let y' := if m.(hasSignatureAlgorithm) then y + 2 + n else y in
  (put_header typeCertificateRequest length ;!
   put 4 (len m.(certificateTypes)) ;!
   copy_at 5 m.(certificateTypes) ;!
   advance y ;!
   (if m.(hasSignatureAlgorithm) then
      put y (Z.shiftr n 8) ;!
      put (y + 1) n ;!
      advance (y + 2) ;!
      write_algs (y + 2) m.(supportedSignatureAlgorithms)
    else wnop) ;!
   put y' (Z.shiftr casLength 8) ;!
   put (y' + 1) casLength ;!
   advance (y' + 2) ;!
   write_cas (y' + 2) m.(certificateAuthorities)) x.

(** [for i := range m.supportedSignatureAlgorithms { ... }] *)
Fixpoint read_algs (n : nat) (data : bytes) : outcome (list Z * bytes) :=
  match n with
  | O => Ret ([], data)
  | S n =>
      run v := get16 data 0 in
      run data := from data 2 in
      run (l, data) := read_algs n data in
      Ret (v :: l, data)
  end.

(** [for len(cas) > 0 { ... }]; every iteration drops at least two bytes. *)
Fixpoint read_cas (fuel : nat) (cas : bytes) (acc : list bytes) : outcome (option (list bytes)) :=
  if 0 <? len cas then
    match fuel with
    | O => Panic
    | S fuel =>
        check negb (len cas <? 2) in
        run caLen := get16 cas 0 in
        run cas := from cas 2 in
        check negb (len cas <? caLen) in
        run ca := upto cas caLen in
        run cas := from cas caLen in
        read_cas fuel cas (acc ++ [ca])
    end
  else Ret (Some acc).

(** The block [if m.hasSignatureAlgorithm { ... }] of [unmarshal]. *)
Definition unmarshal_algs (m : t) (data : bytes) : outcome (option (list Z * bytes)) :=
  if m.(hasSignatureAlgorithm) then
    check negb (len data <? 2) in
    run sigAndHashLen := get16 data 0 in
    run data := from data 2 in
    check (Z.land sigAndHashLen 1 =? 0) in
    check negb (len data <? sigAndHashLen) in
    run r := read_algs (Z.to_nat (sigAndHashLen / 2)) data in
    Ret (Some r)
  else Ret (Some (m.(supportedSignatureAlgorithms), data)).

(** From the certificate authorities to the end. *)
Definition unmarshal_cas (data : bytes) : outcome (option (list bytes)) :=
  check negb (len data <? 2) in
  run casLength := get16 data 0 in
  run data := from data 2 in
  check negb (len data <? casLength) in
  run cas0 := make casLength in
  run cas := copy_at 0 data cas0 in
  run data := from data casLength in
  run r := read_cas (length cas) cas [] in
  match r with
  | None => Ret None
  | Some l => check (len data =? 0) in Ret (Some l)
  end.

(** The receiver's [hasSignatureAlgorithm] is set by the caller. *)
Definition unmarshal (m : t) (data : bytes) : outcome (option t) :=
  check negb (len data <? 5) in
  run length := get24 data 1 in
  check (u32 (u32 (len data) - 4) =? length) in
  run numCertTypes := get data 4 in
  run data := from data 5 in
  check negb ((numCertTypes =? 0) || (len data <=? numCertTypes)) in
  run types0 := make numCertTypes in
  run types := copy_at 0 data types0 in
  check (Z.min numCertTypes (len data) =? numCertTypes) in
  run data := from data numCertTypes in
  run r := unmarshal_algs m data in
  match r with
  | None => Ret None
  | Some (algs, data) =>
      run r := unmarshal_cas data in
      match r with
      | None => Ret None
      | Some cas => Ret (Some (Mk m.(hasSignatureAlgorithm) types algs cas))
      end
  end.
End certificateRequestMsg.

(** * What [marshal] writes *)

Lemma writes_put_header typ l : Writes (put_header typ l) 0 (be 1 typ ++ be 3 l).
Proof.
  eapply writes_cast; [unfold put_header; writes; try reflexivity|done|done].
Qed.

Lemma serverKeyExchange_bytes m :
  serverKeyExchangeMsg.marshal m =
    Ret ((be 1 typeServerKeyExchange ++ be 3 (len m.(serverKeyExchangeMsg.key)))
           ++ m.(serverKeyExchangeMsg.key)).
Proof.
  unfold serverKeyExchangeMsg.marshal. apply writes_fill; [|autorewrite with cb; lia].
  eapply writes_seq; [apply writes_put_header|done|apply writes_copy].
Qed.

Lemma clientKeyExchange_bytes m :
  clientKeyExchangeMsg.marshal m =
    Ret ((be 1 typeClientKeyExchange ++ be 3 (len m.(clientKeyExchangeMsg.ciphertext)))
           ++ m.(clientKeyExchangeMsg.ciphertext)).
Proof.
  unfold clientKeyExchangeMsg.marshal. apply writes_fill; [|autorewrite with cb; lia].
  eapply writes_seq; [apply writes_put_header|done|apply writes_copy].
Qed.

(** The four lifetime bytes are never stored: they keep the zeros of [make]. *)
Lemma newSessionTicket_bytes m :
  newSessionTicketMsg.marshal m =
    Ret ((be 1 typeNewSessionTicket ++ be 3 (6 + len m.(newSessionTicketMsg.ticket)) ++ be 4 0)
           ++ be 2 (len m.(newSessionTicketMsg.ticket)) ++ m.(newSessionTicketMsg.ticket)).
Proof.
  unfold newSessionTicketMsg.marshal. set (t := newSessionTicketMsg.ticket m).
  pose proof (len_nonneg t). unfold make.
  replace (0 <=? _) with true by lia. cbn [obind]. unfold wseq at 1.
  replace (Z.to_nat (4 + (2 + 4 + len t))) with (4 + (4 + (2 + length t)))%nat by (unfold len; lia).
  rewrite !replicate_add.
  pose proof (writes_put_header typeNewSessionTicket (2 + 4 + len t) []
    (replicate 4 x00 ++ replicate 4 x00 ++ replicate 2 x00 ++ replicate (length t) x00)) as E.
  cbn [app] in E. rewrite E; clear E; [|done|unfold len; rewrite !length_app, !length_be; simpl; lia].
  cbn [obind app]. change (drop _ (replicate 4 x00 ++ ?x)) with x.
  rewrite (app_assoc (be 1 _ ++ _) (replicate 4 x00)).
  eassert (W : Writes _ 8 (be 2 (len t) ++ t)); [|rewrite W; [|done|]].
  - eapply writes_cast; [writes; reflexivity|done|]. done.
  - rewrite drop_ge; [|rewrite !length_app, length_be, !length_replicate; lia].
    by rewrite app_nil_r, <- !app_assoc.
  - unfold len. rewrite !length_app, length_be, !length_replicate. lia.
Qed.

Section CertificateBytes.
Import certificateMsg.

Lemma sum_len_spec l : 3 * len l + sum_len l = len (concat (map (enc_lp 3) l)).
Proof.
  unfold sum_len. enough (forall a, fold_left (fun i slice => i + len slice) l a + 3 * len l =
    a + len (concat (map (enc_lp 3) l))) as H by (specialize (H 0); lia).
  induction l as [|x l IH]; intros a; cbn [fold_left map concat]; [unfold len; simpl; lia|].
  specialize (IH (a + len x)). unfold enc_lp at 1. autorewrite with cb. lia.
Qed.

Lemma writes_certs y l : Writes (write_certs y l) y (concat (map (enc_lp 3) l)).
Proof.
  revert y. induction l as [|x l IH]; intros y; cbn [write_certs map concat]; [apply writes_nop|].
  eapply writes_cast; [writes; [..|apply IH]| done |].
  all: try (autorewrite with cb; lia).
  unfold enc_lp. rewrite be3_u8. by rewrite <- !app_assoc.
Qed.

Lemma certificate_bytes m :
  let c := concat (map (enc_lp 3) m.(certificates)) in
  marshal m = Ret ((be 1 typeCertificate ++ be 3 (3 + len c)) ++ be 3 (len c) ++ c).
Proof.
  intros c. unfold marshal. pose proof (sum_len_spec m.(certificates)) as E. fold c in E.
  replace (3 + 3 * len (certificates m) + sum_len (certificates m)) with (3 + len c) by lia.
  replace (3 + len c - 3) with (len c) by lia.
  apply writes_fill; [|autorewrite with cb; lia].
  eapply writes_seq; [apply writes_put_header|done|].
  eapply writes_cast; [writes; [reflexivity|reflexivity|reflexivity|apply writes_certs]|done|].
  by rewrite be3_u8.
Qed.
End CertificateBytes.

Section CertificateRequestBytes.
Import certificateRequestMsg.

Lemma cas_length_spec l : cas_length l = len (concat (map (enc_lp 2) l)).
Proof.
  unfold cas_length. enough (forall a, fold_left (fun n ca => n + (2 + len ca)) l a =
    a + len (concat (map (enc_lp 2) l))) as H by (specialize (H 0); lia).
  induction l as [|x l IH]; intros a; cbn [fold_left map concat]; [unfold len; simpl; lia|].
  rewrite IH. unfold enc_lp at 2. autorewrite with cb. lia.
Qed.

Lemma writes_algs y l : Writes (write_algs y l) y (enc_u16s l).
Proof.
  revert y. induction l as [|x l IH]; intros y; cbn [write_algs]; [apply writes_nop|].
  eapply writes_cast; [writes; [..|apply IH]| done |].
  all: try (autorewrite with cb; lia).
  unfold enc_u16s. cbn [map concat]. by rewrite be2_u8.
Qed.

Lemma writes_cas y l : Writes (write_cas y l) y (concat (map (enc_lp 2) l)).
Proof.
  revert y. induction l as [|x l IH]; intros y; cbn [write_cas map concat]; [apply writes_nop|].
  eapply writes_cast; [writes; [..|apply IH]| done |].
  all: try (autorewrite with cb; lia).
  unfold enc_lp. rewrite be2_u8. by rewrite <- !app_assoc.
Qed.

Definition algs_bytes (m : t) : bytes :=
  if m.(hasSignatureAlgorithm)
  then be 2 (len (enc_u16s m.(supportedSignatureAlgorithms))) ++ enc_u16s m.(supportedSignatureAlgorithms)
  else [].

Definition body_bytes (m : t) : bytes :=
  be 1 (len m.(certificateTypes)) ++ m.(certificateTypes) ++ algs_bytes m ++
  let cas := concat (map (enc_lp 2) m.(certificateAuthorities)) in be 2 (len cas) ++ cas.

Lemma certificateRequest_bytes m :
  marshal m = Ret ((be 1 typeCertificateRequest ++ be 3 (len (body_bytes m))) ++ body_bytes m).
Proof.
  unfold marshal. rewrite cas_length_spec. set (cas := concat _).
  set (l := 1 + _ + 2 + _ + _).
  assert (El : l = len (body_bytes m)).
  { unfold body_bytes, algs_bytes. fold cas. cbv zeta. unfold l.
    destruct (hasSignatureAlgorithm m); autorewrite with cb; rewrite ?len_enc_u16s; lia. }
  rewrite El. clearbody l. subst l.
  apply writes_fill; [|autorewrite with cb; lia].
  eapply writes_seq; [apply writes_put_header|done|].
  unfold body_bytes. fold cas. cbv zeta.
  eapply writes_cast.
  - eapply writes_seq; [apply writes_put|reflexivity|].
    eapply writes_seq; [apply writes_copy|reflexivity|].
    eapply writes_seq; [apply writes_advance|reflexivity|].
    eapply (writes_seq _ _ _ _ (algs_bytes m)); [| |writes; [..|apply writes_cas]].
    + unfold algs_bytes. destruct (hasSignatureAlgorithm m); [|apply writes_nop].
      eapply writes_cast; [writes; [..|apply writes_algs]| |].
      all: try (autorewrite with cb; lia).
      rewrite len_enc_u16s, be2_u8. by rewrite (Z.mul_comm 2).
    + unfold algs_bytes. destruct (hasSignatureAlgorithm m); autorewrite with cb; rewrite ?len_enc_u16s; lia.
    + autorewrite with cb. lia.
    + autorewrite with cb. lia.
    + autorewrite with cb. lia.
  - done.
  - rewrite be1_u8, be2_u8. done.
Qed.
End CertificateRequestBytes.

(** * Reading the messages back *)

Lemma u32_small z : 0 <= z < 2 ^ 32 -> u32 z = z.
Proof. apply Z.mod_small. Qed.

(** Remove the conversions to [uint32] that do not truncate. *)
Ltac u32s :=
  repeat match goal with
  | |- context [u32 ?x] =>
      lazymatch x with context [u32 _] => fail | _ => rewrite (u32_small x) by lia end
  end.

Section CertificateParse.
Import certificateMsg.

Lemma count_certs_enc l fuel n :
  Forall (fun x => len x < 2 ^ 24) l -> last l <> Some [] ->
  let c := concat (map (enc_lp 3) l) in
  len c < 2 ^ 32 -> (length c <= fuel)%nat ->
  count_certs fuel (len c) c n = Ret (Some (n + len l)).
Proof.
  revert fuel n. induction l as [|x l IH]; intros fuel n Hl Hlast c Hc Hf.
  - destruct fuel; cbn; do 2 f_equal; unfold len; simpl; lia.
  - apply Forall_cons in Hl as [Hx Hl].
    assert (Hc' : c = be 3 (len x) ++ x ++ concat (map (enc_lp 3) l))
      by (unfold c; cbn [map concat]; unfold enc_lp at 1; by rewrite <- app_assoc).
    set (r := concat (map (enc_lp 3) l)) in *. rewrite Hc' in *. clear c Hc'.
    pose proof (len_nonneg x). pose proof (len_nonneg r).
    assert (Hr : l = [] \/ 3 <= len r).
    { destruct l as [|y l]; [by left|right]. unfold r. cbn [map concat]. unfold enc_lp at 1.
      autorewrite with cb. pose proof (len_nonneg y). pose proof (len_nonneg (concat (map (enc_lp 3) l))). lia. }
    assert (H4 : 4 <= len (be 3 (len x) ++ x ++ r)).
    { autorewrite with cb. destruct Hr as [->|]; [|lia]. destruct x; [done|]. rewrite len_cons. pose proof (len_nonneg x). lia. }
    destruct fuel as [|fuel]; [unfold len in *; lia|]. cbn [count_certs].
    replace (0 <? _) with true by lia. replace (_ <? 4) with false by lia. cbn [negb].
    rewrite get24_be0. cbn [obind].
    rewrite Z.mod_small by lia. autorewrite with cb in *. rewrite !u32_small by lia.
    zbool. rewrite app_assoc, from_app by (autorewrite with cb; lia). cbn [obind].
    replace (Z.of_nat 3 + (len x + len r) - (3 + len x)) with (len r) by lia.
    unfold r. rewrite IH; auto with lia.
    + do 2 f_equal. lia.
    + destruct l; [done|]. by rewrite last_cons_cons in Hlast.
    + fold r. unfold len in *. rewrite !length_app, length_be in Hf. lia.
Qed.

Lemma cut_certs_enc l r :
  Forall (fun x => len x < 2 ^ 24) l ->
  cut_certs (length l) (concat (map (enc_lp 3) l) ++ r) = Ret l.
Proof.
  intros Hl. induction Hl as [|x l Hx Hl IH]; [done|]. cbn [length cut_certs map concat].
  unfold enc_lp at 1 3 5. rewrite <- !app_assoc. pose proof (len_nonneg x).
  rewrite get24_be0. cbn [obind]. rewrite Z.mod_small by lia.
  rewrite u32_small by lia. rewrite slice_app by (autorewrite with cb; lia). cbn [obind].
  rewrite (app_assoc (be 3 _)), from_app by (autorewrite with cb; lia). cbn [obind].
  by rewrite IH.
Qed.

Lemma certificate_rt m x :
  let c := concat (map (enc_lp 3) m.(certificates)) in
  len c < 2 ^ 24 -> last m.(certificates) <> Some [] ->
  marshal m = Ret x -> unmarshal x = Ret (Some m).
Proof.
  intros c Hc Hlast. rewrite certificate_bytes. fold c. intros <-%Ret_inj.
  pose proof (len_nonneg c).
  assert (Hl : Forall (fun x => len x < 2 ^ 24) m.(certificates)).
  { apply Forall_forall. intros y Hy. apply list_elem_of_split in Hy as (l1 & l2 & Hy).
    unfold c in Hc. rewrite Hy, map_app, concat_app in Hc. cbn [map concat] in Hc.
    unfold enc_lp at 2 in Hc. autorewrite with cb in Hc.
    pose proof (len_nonneg (concat (map (enc_lp 3) l1))).
    pose proof (len_nonneg (concat (map (enc_lp 3) l2))). lia. }
  unfold unmarshal. rewrite (get24_be _ _ c) by done.
  assert (E : len ((be 1 typeCertificate ++ be 3 (3 + len c)) ++ be 3 (len c) ++ c) = 7 + len c)
    by (autorewrite with cb; lia).
  rewrite E. replace (_ <? 7) with false by lia. cbn [negb obind].
  rewrite Z.mod_small, !u32_small by lia. replace (_ =? _) with true by lia. cbn [obind].
  rewrite (app_assoc _ (be 3 (len c))), from_app by (autorewrite with cb; lia). cbn [obind].
  unfold c. rewrite count_certs_enc; [|done|done|fold c; lia|done]. cbn [obind].
  replace (Z.to_nat (0 + len (certificates m))) with (length (certificates m)) by (unfold len; lia).
  rewrite <- (app_nil_r (concat _)), cut_certs_enc by done. by destruct m.
Qed.

(** On every input, the counting loop ends, no index is out of range, and what
    it accepts is a sequence of length-prefixed certificates. *)
Lemma count_certs_total fuel d n :
  len d < 2 ^ 32 -> (length d <= fuel)%nat -> 0 <= n ->
  count_certs fuel (len d) d n = Ret None \/
  exists l, count_certs fuel (len d) d n = Ret (Some (n + len l)) /\
    d = concat (map (enc_lp 3) l) /\ Forall (fun x => len x < 2 ^ 24) l.
Proof.
  revert d n. induction fuel as [|fuel IH]; intros d n Hd Hf Hn.
  - right. exists []. destruct d; [|simpl in Hf; lia]. cbn. split_and!; auto. do 2 f_equal. unfold len. simpl. lia.
  - destruct (Z.ltb_spec 0 (len d)) as [Hpos|Hz]; cbn [count_certs].
    2: { right. exists []. replace (0 <? len d) with false by lia. assert (d = []) as ->; [|split_and!; auto].
         + apply len_0_iff. pose proof (len_nonneg d). lia.
         + do 2 f_equal. unfold len. simpl. lia. }
    replace (0 <? len d) with true by lia.
    destruct (Z.ltb_spec (len d) 4); cbn [negb]; [by left|].
    destruct (split_be 3 d) as (v & r & -> & Hv); [lia|]. change (256 ^ Z.of_nat 3) with (2 ^ 24) in Hv.
    rewrite get24_be0. cbn [obind]. rewrite Z.mod_small, !u32_small by lia.
    destruct (Z.ltb_spec (len (be 3 v ++ r)) (3 + v)); cbn [negb]; [by left|].
    destruct (split_len r v) as (x & d & -> & <-); [autorewrite with cb in *; lia|].
    rewrite app_assoc, from_app by (autorewrite with cb; lia). cbn [obind].
    autorewrite with cb in *. rewrite u32_small by (pose proof (len_nonneg d); lia).
    replace (Z.of_nat 3 + len x + len d - (3 + len x)) with (len d) by lia.
    destruct (IH d (n + 1)) as [->|(l & -> & -> & Hl)];
      [lia|rewrite !length_app, length_be in Hf; lia|lia|by left|right].
    exists (x :: l). split_and!; [do 2 f_equal; rewrite len_cons; lia| |constructor; [lia|done]].
    cbn [map concat]. unfold enc_lp. done.
Qed.

(** On every input shorter than 4 GiB the TLS 1.2 certificate parser, with
    its counting and its cutting loop, ends without an index out of range; what
    it accepts is a header, the total length and the listed certificates with
    their lengths, and nothing else. *)
Theorem certificate_unmarshal_total data :
  len data < 2 ^ 32 ->
  unmarshal data = Ret None \/
  exists hdr l, let c := concat (map (enc_lp 3) l) in
    unmarshal data = Ret (Some (Mk l)) /\ len hdr = 4 /\ data = hdr ++ be 3 (len c) ++ c.
Proof.
  intros Hd. unfold unmarshal. destruct (Z.ltb_spec (len data) 7); cbn [negb]; [by left|].
  destruct (split_len data 4) as (hdr & d & -> & Hh); [lia|]. rewrite len_app in *.
  destruct (split_be 3 d) as (v & r & -> & Hv); [lia|]. change (256 ^ Z.of_nat 3) with (2 ^ 24) in Hv.
  rewrite get24_be by done. cbn [obind]. autorewrite with cb in *. rewrite Z.mod_small, !u32_small by lia.
  destruct (Z.eqb_spec (len hdr + (Z.of_nat 3 + len r)) (v + 7)); [|by left].
  rewrite app_assoc, from_app by (autorewrite with cb; lia). cbn [obind].
  replace v with (len r) by lia.
  destruct (count_certs_total (length r) r 0) as [->|(l & -> & -> & Hl)]; [lia|lia|lia|by left|right].
  exists hdr, l. cbn [obind]. split_and!; [|done|by rewrite <- app_assoc].
  replace (Z.to_nat (0 + len l)) with (length l) by (unfold len; lia).
  rewrite <- (app_nil_r (concat _)), cut_certs_enc by done. done.
Qed.
End CertificateParse.

Lemma serverKeyExchange_rt m x :
  serverKeyExchangeMsg.marshal m = Ret x -> serverKeyExchangeMsg.unmarshal x = Ret (Some m).
Proof.
  rewrite serverKeyExchange_bytes. intros <-%Ret_inj. destruct m as [k].
  unfold serverKeyExchangeMsg.unmarshal. cbn [serverKeyExchangeMsg.key].
  autorewrite with cb. pose proof (len_nonneg k). zbool. by rewrite from_app.
Qed.

Lemma clientKeyExchange_rt m x :
  len m.(clientKeyExchangeMsg.ciphertext) < 2 ^ 24 ->
  clientKeyExchangeMsg.marshal m = Ret x -> clientKeyExchangeMsg.unmarshal x = Ret (Some m).
Proof.
  rewrite clientKeyExchange_bytes. intros Hl <-%Ret_inj. destruct m as [k].
  unfold clientKeyExchangeMsg.unmarshal. cbn [clientKeyExchangeMsg.ciphertext] in *.
  rewrite <- (app_assoc (be 1 _)), get24_be by done. autorewrite with cb. pose proof (len_nonneg k). zbool.
  cbn [obind]. rewrite Z.mod_small by lia. zbool. rewrite app_assoc. by rewrite from_app.
Qed.

Lemma newSessionTicket_rt m x :
  len m.(newSessionTicketMsg.ticket) < 2 ^ 16 ->
  newSessionTicketMsg.marshal m = Ret x -> newSessionTicketMsg.unmarshal x = Ret (Some m).
Proof.
  rewrite newSessionTicket_bytes. intros Hl <-%Ret_inj. destruct m as [k].
  unfold newSessionTicketMsg.unmarshal. cbn [newSessionTicketMsg.ticket] in *.
  rewrite <- (app_assoc (be 1 _)), <- (app_assoc (be 3 _)), get24_be by done.
  autorewrite with cb. pose proof (len_nonneg k). zbool.
  cbn [obind]. rewrite Z.mod_small by lia. u32s. zbool.
  rewrite !app_assoc, be2_u8. rewrite <- (app_assoc _ [_; _]).
  rewrite (get_app _ (u8 (Z.shiftr (len k) 8)) (u8 (len k) :: k)) by done. cbn [obind].
  cbn [app]. rewrite (cons_middle (u8 (Z.shiftr (len k) 8))), app_assoc.
  rewrite get_app by done. cbn [obind].
  rewrite Z.shiftl_mul_pow2 by lia. change (2 ^ 8) with 256.
  rewrite <- be2_val, be2_bytes, Z.mod_small by (apply b2z_range || lia). zbool.
  rewrite (cons_middle (u8 (len k))), app_assoc. by rewrite from_app.
Qed.

Section CertificateRequestParse.
Import certificateRequestMsg.

Lemma read_algs_enc l r :
  Forall is_u16 l -> read_algs (length l) (enc_u16s l ++ r) = Ret (l, r).
Proof.
  intros Hl. induction Hl as [|x l Hx Hl IH]; [done|]. cbn [length read_algs].
  unfold enc_u16s. cbn [map concat]. rewrite <- app_assoc, get16_be0. cbn [obind].
  rewrite Z.mod_small by done. rewrite from_app by done. cbn [obind].
  change (concat (map (be 2) l)) with (enc_u16s l). by rewrite IH.
Qed.

Lemma read_cas_enc l fuel acc :
  Forall (fun x => len x < 2 ^ 16) l ->
  let c := concat (map (enc_lp 2) l) in
  (length c <= fuel)%nat -> read_cas fuel c acc = Ret (Some (acc ++ l)).
Proof.
  intros Hl. revert fuel acc.
  induction Hl as [|x l Hx Hl IH]; intros fuel acc c Hf.
  - destruct fuel; cbn; by rewrite app_nil_r.
  - unfold c in *. cbn [map concat] in *. set (r := concat (map (enc_lp 2) l)) in *.
    unfold enc_lp at 1. unfold enc_lp at 1 in Hf. rewrite !length_app, length_be in Hf.
    pose proof (len_nonneg x). pose proof (len_nonneg r).
    destruct fuel as [|fuel]; [lia|]. cbn [read_cas]. rewrite <- !app_assoc, get16_be0.
    rewrite Z.mod_small by lia. rewrite from_app by done. cbn [obind]. autorewrite with cb. zbool.
    rewrite upto_app, from_app by done. cbn [obind]. unfold r. rewrite IH by (fold r; lia).
    by rewrite <- app_assoc.
Qed.

(** [cas := make([]byte, n); copy(cas, data)] takes a prefix. *)
Lemma make_copy (d r : bytes) n :
  n = len d -> obind (make n) (copy_at 0 (d ++ r)) = Ret d.
Proof.
  intros ->. unfold make, copy_at. pose proof (len_nonneg d). zbool. cbn [obind].
  pose proof (len_nonneg (replicate (Z.to_nat (len d)) x00)). zbool.
  unfold len. rewrite Nat2Z.id. cbn [Z.to_nat]. rewrite take_0, app_nil_l, length_app, length_replicate.
  replace (_ `min` _)%nat with (length d) by lia.
  rewrite take_app_length, drop_ge by (rewrite length_replicate; lia). by rewrite app_nil_r.
Qed.

Lemma unmarshal_cas_enc l :
  Forall (fun x => len x < 2 ^ 16) l ->
  let c := concat (map (enc_lp 2) l) in
  len c < 2 ^ 16 -> unmarshal_cas (be 2 (len c) ++ c) = Ret (Some l).
Proof.
  intros Hl c Hc. unfold unmarshal_cas. autorewrite with cb. pose proof (len_nonneg c). zbool.
  rewrite get16_be0, Z.mod_small by lia. cbn [obind]. rewrite from_app by done. cbn [obind]. zbool.
  pose proof (make_copy c [] _ eq_refl) as E. pose proof (from_app c [] _ eq_refl) as E'.
  rewrite app_nil_r in E, E'.
  destruct (make (len c)) as [|z]; [done|]. cbn [obind] in *. rewrite E. cbn [obind].
  rewrite E'. cbn [obind]. unfold c. by rewrite read_cas_enc.
Qed.

Lemma certificateRequest_rt m m0 x :
  m0.(hasSignatureAlgorithm) = m.(hasSignatureAlgorithm) ->
  (if m.(hasSignatureAlgorithm)
   then Forall is_u16 m.(supportedSignatureAlgorithms) /\ len m.(supportedSignatureAlgorithms) < 2 ^ 15
   else m0.(supportedSignatureAlgorithms) = m.(supportedSignatureAlgorithms)) ->
  0 < len m.(certificateTypes) < 2 ^ 8 ->
  Forall (fun x => len x < 2 ^ 16) m.(certificateAuthorities) ->
  len (concat (map (enc_lp 2) m.(certificateAuthorities))) < 2 ^ 16 ->
  marshal m = Ret x -> unmarshal m0 x = Ret (Some m).
Proof.
  intros H0 Ha Ht Hc Hc'. rewrite certificateRequest_bytes. intros <-%Ret_inj.
  unfold unmarshal. set (B := body_bytes m).
  assert (HB : 0 < len B < 2 ^ 24).
  { unfold B, body_bytes, algs_bytes. cbv zeta.
    destruct (hasSignatureAlgorithm m); autorewrite with cb; rewrite ?len_enc_u16s;
      try destruct Ha; pose proof (len_nonneg (supportedSignatureAlgorithms m));
      pose proof (len_nonneg (concat (map (enc_lp 2) m.(certificateAuthorities)))); lia. }
  rewrite <- (app_assoc (be 1 _)), get24_be by done.
  autorewrite with cb. zbool. cbn [obind]. rewrite Z.mod_small by lia. u32s. zbool.
  rewrite app_assoc. unfold B, body_bytes. cbv zeta. rewrite (be1_u8 (len m.(certificateTypes))).
  set (C := concat (map (enc_lp 2) (certificateAuthorities m))) in *.
  change ([u8 (len (certificateTypes m))] ++ ?r) with (u8 (len (certificateTypes m)) :: r).
  rewrite get_app by done. cbn [obind]. rewrite b2z_u8_small by lia.
  rewrite (cons_middle (u8 (len (certificateTypes m)))), app_assoc, from_app by done. cbn [obind].
  pose proof (len_nonneg (algs_bytes m)). pose proof (len_nonneg C).
  autorewrite with cb. zbool.
  pose proof (make_copy (certificateTypes m) (algs_bytes m ++ be 2 (len C) ++ C) _ eq_refl) as E.
  destruct (make (len (certificateTypes m))) as [|z]; [done|]. cbn [obind] in *. rewrite E. cbn [obind].
  zbool. rewrite from_app by done. cbn [obind]. unfold unmarshal_algs, algs_bytes. rewrite H0.
  assert (EC : unmarshal_cas (be 2 (len C) ++ C) = Ret (Some (certificateAuthorities m)))
    by (by apply unmarshal_cas_enc).
  destruct m as [h t a c]. cbn [hasSignatureAlgorithm certificateTypes supportedSignatureAlgorithms certificateAuthorities] in *.
  destruct h.
  - destruct Ha as [Ha Ha']. rewrite <- !app_assoc. autorewrite with cb. pose proof (len_nonneg (enc_u16s a)). zbool.
    rewrite get16_be0, Z.mod_small by (rewrite len_enc_u16s in *; lia). cbn [obind].
    rewrite from_app by done. cbn [obind]. rewrite len_enc_u16s.
    replace (Z.land (2 * len a) 1) with 0
      by (change 1 with (Z.ones 1); rewrite Z.land_ones, Z.mul_comm, Z.mod_mul by lia; done).
    autorewrite with cb. rewrite len_enc_u16s. zbool.
    replace (Z.to_nat (2 * len a / 2)) with (length a)
      by (rewrite Z.mul_comm, Z.div_mul by lia; unfold len; lia).
    rewrite read_algs_enc by done. cbn [obind]. by rewrite EC.
  - cbn [app obind]. rewrite EC. cbn [obind]. by rewrite Ha.
Qed.
End CertificateRequestParse.

(** ** No input makes a parser panic *)

Lemma get24_ret b i : 0 <= i -> i + 3 <= len b -> exists v, get24 b i = Ret v.
Proof. intros. destruct (get24_ok b i) as (v & ? & _); eauto. Qed.

(** Step over the next index or slice expression, with its bound by [lia]. *)
Ltac in_range :=
  match goal with
  | |- context [get24 ?b ?i] =>
      let v := fresh "v" in let H := fresh in
      destruct (get24_ok b i) as (v & -> & H); [lia|lia|]
  | |- context [get16 ?b ?i] =>
      let v := fresh "v" in let H := fresh in
      destruct (get16_ok b i) as (v & -> & H); [lia|lia|]
  | |- context [get ?b ?i] =>
      let v := fresh "v" in let H := fresh in
      destruct (get_ok b i) as (v & -> & H); [lia|]
  | |- context [from ?b ?i] =>
      rewrite (from_ok b i) by lia;
      let H := fresh in
      assert (H : len (drop (Z.to_nat i) b) = len b - i) by (apply len_drop; lia);
      let d := fresh "d" in
      set (d := drop (Z.to_nat i) b) in *; clearbody d
  | |- context [upto ?b ?i] => rewrite (upto_ok b i) by lia
  | |- context [make ?n] =>
      let z := fresh "z" in let E := fresh "E" in
      destruct (make n) as [|z] eqn:E; [unfold make in E; destruct (Z.leb_spec 0 n); [done|lia]|]
  | |- context [if negb (?a <? ?b) then _ else _] =>
      destruct (Z.ltb_spec a b); cbn [negb]; [done|]
  | |- context [if ?a =? ?b then _ else _] => destruct (Z.eqb_spec a b); [|done]
  end; cbn [obind].

Lemma clientKeyExchange_no_panic data : clientKeyExchangeMsg.unmarshal data <> Panic.
Proof. unfold clientKeyExchangeMsg.unmarshal. by repeat in_range. Qed.

Lemma serverKeyExchange_no_panic data : serverKeyExchangeMsg.unmarshal data <> Panic.
Proof. unfold serverKeyExchangeMsg.unmarshal. by repeat in_range. Qed.

Lemma newSessionTicket_no_panic data : newSessionTicketMsg.unmarshal data <> Panic.
Proof. unfold newSessionTicketMsg.unmarshal. by repeat in_range. Qed.

Section CertificateRequestTotal.
Import certificateRequestMsg.

Lemma read_algs_total n data :
  2 * Z.of_nat n <= len data -> exists r, read_algs n data = Ret r.
Proof.
  revert data. induction n as [|n IH]; intros data Hn; [by eexists|]. cbn [read_algs].
  repeat in_range. destruct (IH d) as [[l r] ->]; [lia|]. by eexists.
Qed.

Lemma read_cas_total fuel cas acc : (length cas <= fuel)%nat -> read_cas fuel cas acc <> Panic.
Proof.
  revert cas acc. induction fuel as [|fuel IH]; intros cas acc Hf; cbn [read_cas].
  - destruct cas; [done|simpl in Hf; lia].
  - destruct (0 <? len cas); [|done]. repeat in_range. apply IH. unfold len in *. lia.
Qed.

Lemma copy_total src b : exists z, copy_at 0 src b = Ret z.
Proof. unfold copy_at. pose proof (len_nonneg b). zbool. by eexists. Qed.

Lemma unmarshal_cas_total data : unmarshal_cas data <> Panic.
Proof.
  unfold unmarshal_cas. repeat in_range.
  match goal with |- context [copy_at 0 ?s ?b] => destruct (copy_total s b) as [cas ->] end. cbn [obind].
  repeat in_range. pose proof (read_cas_total (length cas) cas [] (le_n _)).
  destruct (read_cas _ cas []) as [|[l|]]; [done| |done]. cbn [obind]. by in_range.
Qed.

Lemma unmarshal_algs_total m data : unmarshal_algs m data <> Panic.
Proof.
  unfold unmarshal_algs. destruct (hasSignatureAlgorithm m); [|done]. repeat in_range.
  match goal with |- context [read_algs ?n ?d] => destruct (read_algs_total n d) as [r ->]; [|done] end.
  rewrite Z2Nat.id by (apply Z.div_pos; lia).
  match goal with |- 2 * (?v / 2) <= _ => pose proof (Z.mul_div_le v 2 ltac:(lia)) end. lia.
Qed.

Lemma certificateRequest_no_panic m data : unmarshal m data <> Panic.
Proof.
  unfold unmarshal. repeat in_range.
  match goal with |- context [if negb (?a || ?b) then _ else _] => destruct a; [done|] end. cbn [orb].
  match goal with |- context [if negb (?a <=? ?b) then _ else _] => destruct (Z.leb_spec a b); [done|] end.
  cbn [negb]. in_range.
  match goal with |- context [copy_at 0 ?s ?b] => destruct (copy_total s b) as [t ->] end. cbn [obind].
  repeat in_range.
  match goal with |- context [unmarshal_algs m ?d] =>
    pose proof (unmarshal_algs_total m d); destruct (unmarshal_algs m d) as [|[[al r]|]] end; [done| |done].
  cbn [obind]. pose proof (unmarshal_cas_total r). by destruct (unmarshal_cas r) as [|[]].
Qed.
End CertificateRequestTotal.

(** The other parsers that index the message directly never read out of
    range, whatever the input (also one whose length fields lie). *)
Theorem raw_parsers_no_panic data m :
  clientKeyExchangeMsg.unmarshal data <> Panic /\ serverKeyExchangeMsg.unmarshal data <> Panic /\
  newSessionTicketMsg.unmarshal data <> Panic /\ certificateRequestMsg.unmarshal m data <> Panic.
Proof.
  split_and!; [apply clientKeyExchange_no_panic|apply serverKeyExchange_no_panic
    |apply newSessionTicket_no_panic|apply certificateRequest_no_panic].
Qed.

Lemma certificate_unmarshal_total_witness :
  let data := be 4 0 ++ be 3 8 ++ be 3 2 ++ be 2 7 ++ be 3 0 in
  certificateMsg.unmarshal data = Ret None \/
  exists hdr l, let c := concat (map (enc_lp 3) l) in
    certificateMsg.unmarshal data = Ret (Some (certificateMsg.Mk l)) /\ len hdr = 4 /\
    data = hdr ++ be 3 (len c) ++ c.
Proof.
  apply (certificate_unmarshal_total (be 4 0 ++ be 3 8 ++ be 3 2 ++ be 2 7 ++ be 3 0)).
  vm_compute. reflexivity.
Defined.
