(* ===== verification/ServerHello.v ===== *)
(** * ServerHello

    [serverHelloMsg] of handshake_messages.go: the ServerHello and
    HelloRetryRequest message, its [marshal] and [unmarshal].  Slices whose
    nil value is tested by the handshake code ([original], [cookie],
    [encryptedClientHello]) are options. *)

From S2P Require Import Prelude Cryptobyte Common Codec Messages.

Module serverHelloMsg.
Record t := Mk {
  original : option bytes;
  vers : Z;
  random : bytes;
  sessionId : bytes;
  cipherSuite : Z;
  compressionMethod : Z;
  ocspStapling : bool;
  ticketSupported : bool;
  secureRenegotiationSupported : bool;
  secureRenegotiation : bytes;
  extendedMasterSecret : bool;
  alpnProtocol : bytes;
  scts : list bytes;
  supportedVersion : Z;
  serverShare : keyShare.t;
  selectedIdentityPresent : bool;
  selectedIdentity : Z;
  supportedPoints : bytes;
  encryptedClientHello : option bytes;
  serverNameAck : bool;
  cookie : option bytes;
  selectedGroup : Z;
  nextProtoNeg : bool;
  nextProtos : list bytes
}.

Definition set_original (v : option bytes) (m : t) : t :=
  Mk v m.(vers) m.(random) m.(sessionId) m.(cipherSuite) m.(compressionMethod)
    m.(ocspStapling) m.(ticketSupported) m.(secureRenegotiationSupported)
    m.(secureRenegotiation) m.(extendedMasterSecret) m.(alpnProtocol) m.(scts)
    m.(supportedVersion) m.(serverShare) m.(selectedIdentityPresent)
    m.(selectedIdentity) m.(supportedPoints) m.(encryptedClientHello) m.(serverNameAck)
    m.(cookie) m.(selectedGroup) m.(nextProtoNeg) m.(nextProtos).
Definition set_vers (v : Z) (m : t) : t :=
  Mk m.(original) v m.(random) m.(sessionId) m.(cipherSuite) m.(compressionMethod)
    m.(ocspStapling) m.(ticketSupported) m.(secureRenegotiationSupported)
    m.(secureRenegotiation) m.(extendedMasterSecret) m.(alpnProtocol) m.(scts)
    m.(supportedVersion) m.(serverShare) m.(selectedIdentityPresent)
    m.(selectedIdentity) m.(supportedPoints) m.(encryptedClientHello) m.(serverNameAck)
    m.(cookie) m.(selectedGroup) m.(nextProtoNeg) m.(nextProtos).
Definition set_random (v : bytes) (m : t) : t :=
  Mk m.(original) m.(vers) v m.(sessionId) m.(cipherSuite) m.(compressionMethod)
    m.(ocspStapling) m.(ticketSupported) m.(secureRenegotiationSupported)
    m.(secureRenegotiation) m.(extendedMasterSecret) m.(alpnProtocol) m.(scts)
    m.(supportedVersion) m.(serverShare) m.(selectedIdentityPresent)
    m.(selectedIdentity) m.(supportedPoints) m.(encryptedClientHello) m.(serverNameAck)
    m.(cookie) m.(selectedGroup) m.(nextProtoNeg) m.(nextProtos).
Definition set_sessionId (v : bytes) (m : t) : t :=
  Mk m.(original) m.(vers) m.(random) v m.(cipherSuite) m.(compressionMethod)
    m.(ocspStapling) m.(ticketSupported) m.(secureRenegotiationSupported)
    m.(secureRenegotiation) m.(extendedMasterSecret) m.(alpnProtocol) m.(scts)
    m.(supportedVersion) m.(serverShare) m.(selectedIdentityPresent)
    m.(selectedIdentity) m.(supportedPoints) m.(encryptedClientHello) m.(serverNameAck)
    m.(cookie) m.(selectedGroup) m.(nextProtoNeg) m.(nextProtos).
Definition set_cipherSuite (v : Z) (m : t) : t :=
  Mk m.(original) m.(vers) m.(random) m.(sessionId) v m.(compressionMethod) m.(ocspStapling)
    m.(ticketSupported) m.(secureRenegotiationSupported) m.(secureRenegotiation)
    m.(extendedMasterSecret) m.(alpnProtocol) m.(scts) m.(supportedVersion)
    m.(serverShare) m.(selectedIdentityPresent) m.(selectedIdentity) m.(supportedPoints)
    m.(encryptedClientHello) m.(serverNameAck) m.(cookie) m.(selectedGroup)
    m.(nextProtoNeg) m.(nextProtos).
Definition set_compressionMethod (v : Z) (m : t) : t :=
  Mk m.(original) m.(vers) m.(random) m.(sessionId) m.(cipherSuite) v m.(ocspStapling)
    m.(ticketSupported) m.(secureRenegotiationSupported) m.(secureRenegotiation)
    m.(extendedMasterSecret) m.(alpnProtocol) m.(scts) m.(supportedVersion)
    m.(serverShare) m.(selectedIdentityPresent) m.(selectedIdentity) m.(supportedPoints)
    m.(encryptedClientHello) m.(serverNameAck) m.(cookie) m.(selectedGroup)
    m.(nextProtoNeg) m.(nextProtos).
Definition set_ocspStapling (v : bool) (m : t) : t :=
  Mk m.(original) m.(vers) m.(random) m.(sessionId) m.(cipherSuite) m.(compressionMethod) v
    m.(ticketSupported) m.(secureRenegotiationSupported) m.(secureRenegotiation)
    m.(extendedMasterSecret) m.(alpnProtocol) m.(scts) m.(supportedVersion)
    m.(serverShare) m.(selectedIdentityPresent) m.(selectedIdentity) m.(supportedPoints)
    m.(encryptedClientHello) m.(serverNameAck) m.(cookie) m.(selectedGroup)
    m.(nextProtoNeg) m.(nextProtos).
Definition set_ticketSupported (v : bool) (m : t) : t :=
  Mk m.(original) m.(vers) m.(random) m.(sessionId) m.(cipherSuite) m.(compressionMethod)
    m.(ocspStapling) v m.(secureRenegotiationSupported) m.(secureRenegotiation)
    m.(extendedMasterSecret) m.(alpnProtocol) m.(scts) m.(supportedVersion)
    m.(serverShare) m.(selectedIdentityPresent) m.(selectedIdentity) m.(supportedPoints)
    m.(encryptedClientHello) m.(serverNameAck) m.(cookie) m.(selectedGroup)
    m.(nextProtoNeg) m.(nextProtos).
Definition set_secureRenegotiationSupported (v : bool) (m : t) : t :=
  Mk m.(original) m.(vers) m.(random) m.(sessionId) m.(cipherSuite) m.(compressionMethod)
    m.(ocspStapling) m.(ticketSupported) v m.(secureRenegotiation)
    m.(extendedMasterSecret) m.(alpnProtocol) m.(scts) m.(supportedVersion)
    m.(serverShare) m.(selectedIdentityPresent) m.(selectedIdentity) m.(supportedPoints)
    m.(encryptedClientHello) m.(serverNameAck) m.(cookie) m.(selectedGroup)
    m.(nextProtoNeg) m.(nextProtos).
Definition set_secureRenegotiation (v : bytes) (m : t) : t :=
  Mk m.(original) m.(vers) m.(random) m.(sessionId) m.(cipherSuite) m.(compressionMethod)
    m.(ocspStapling) m.(ticketSupported) m.(secureRenegotiationSupported) v
    m.(extendedMasterSecret) m.(alpnProtocol) m.(scts) m.(supportedVersion)
    m.(serverShare) m.(selectedIdentityPresent) m.(selectedIdentity) m.(supportedPoints)
    m.(encryptedClientHello) m.(serverNameAck) m.(cookie) m.(selectedGroup)
    m.(nextProtoNeg) m.(nextProtos).
Definition set_extendedMasterSecret (v : bool) (m : t) : t :=
  Mk m.(original) m.(vers) m.(random) m.(sessionId) m.(cipherSuite) m.(compressionMethod)
    m.(ocspStapling) m.(ticketSupported) m.(secureRenegotiationSupported)
    m.(secureRenegotiation) v m.(alpnProtocol) m.(scts) m.(supportedVersion)
    m.(serverShare) m.(selectedIdentityPresent) m.(selectedIdentity) m.(supportedPoints)
    m.(encryptedClientHello) m.(serverNameAck) m.(cookie) m.(selectedGroup)
    m.(nextProtoNeg) m.(nextProtos).
Definition set_alpnProtocol (v : bytes) (m : t) : t :=
  Mk m.(original) m.(vers) m.(random) m.(sessionId) m.(cipherSuite) m.(compressionMethod)
    m.(ocspStapling) m.(ticketSupported) m.(secureRenegotiationSupported)
    m.(secureRenegotiation) m.(extendedMasterSecret) v m.(scts) m.(supportedVersion)
    m.(serverShare) m.(selectedIdentityPresent) m.(selectedIdentity) m.(supportedPoints)
    m.(encryptedClientHello) m.(serverNameAck) m.(cookie) m.(selectedGroup)
    m.(nextProtoNeg) m.(nextProtos).
Definition set_scts (v : list bytes) (m : t) : t :=
  Mk m.(original) m.(vers) m.(random) m.(sessionId) m.(cipherSuite) m.(compressionMethod)
    m.(ocspStapling) m.(ticketSupported) m.(secureRenegotiationSupported)
    m.(secureRenegotiation) m.(extendedMasterSecret) m.(alpnProtocol) v
    m.(supportedVersion) m.(serverShare) m.(selectedIdentityPresent)
    m.(selectedIdentity) m.(supportedPoints) m.(encryptedClientHello) m.(serverNameAck)
    m.(cookie) m.(selectedGroup) m.(nextProtoNeg) m.(nextProtos).
Definition set_supportedVersion (v : Z) (m : t) : t :=
  Mk m.(original) m.(vers) m.(random) m.(sessionId) m.(cipherSuite) m.(compressionMethod)
    m.(ocspStapling) m.(ticketSupported) m.(secureRenegotiationSupported)
    m.(secureRenegotiation) m.(extendedMasterSecret) m.(alpnProtocol) m.(scts) v
    m.(serverShare) m.(selectedIdentityPresent) m.(selectedIdentity) m.(supportedPoints)
    m.(encryptedClientHello) m.(serverNameAck) m.(cookie) m.(selectedGroup)
    m.(nextProtoNeg) m.(nextProtos).
Definition set_serverShare (v : keyShare.t) (m : t) : t :=
  Mk m.(original) m.(vers) m.(random) m.(sessionId) m.(cipherSuite) m.(compressionMethod)
    m.(ocspStapling) m.(ticketSupported) m.(secureRenegotiationSupported)
    m.(secureRenegotiation) m.(extendedMasterSecret) m.(alpnProtocol) m.(scts)
    m.(supportedVersion) v m.(selectedIdentityPresent) m.(selectedIdentity)
    m.(supportedPoints) m.(encryptedClientHello) m.(serverNameAck) m.(cookie)
    m.(selectedGroup) m.(nextProtoNeg) m.(nextProtos).
Definition set_selectedIdentityPresent (v : bool) (m : t) : t :=
  Mk m.(original) m.(vers) m.(random) m.(sessionId) m.(cipherSuite) m.(compressionMethod)
    m.(ocspStapling) m.(ticketSupported) m.(secureRenegotiationSupported)
    m.(secureRenegotiation) m.(extendedMasterSecret) m.(alpnProtocol) m.(scts)
    m.(supportedVersion) m.(serverShare) v m.(selectedIdentity) m.(supportedPoints)
    m.(encryptedClientHello) m.(serverNameAck) m.(cookie) m.(selectedGroup)
    m.(nextProtoNeg) m.(nextProtos).
Definition set_selectedIdentity (v : Z) (m : t) : t :=
  Mk m.(original) m.(vers) m.(random) m.(sessionId) m.(cipherSuite) m.(compressionMethod)
    m.(ocspStapling) m.(ticketSupported) m.(secureRenegotiationSupported)
    m.(secureRenegotiation) m.(extendedMasterSecret) m.(alpnProtocol) m.(scts)
    m.(supportedVersion) m.(serverShare) m.(selectedIdentityPresent) v
    m.(supportedPoints) m.(encryptedClientHello) m.(serverNameAck) m.(cookie)
    m.(selectedGroup) m.(nextProtoNeg) m.(nextProtos).
Definition set_supportedPoints (v : bytes) (m : t) : t :=
  Mk m.(original) m.(vers) m.(random) m.(sessionId) m.(cipherSuite) m.(compressionMethod)
    m.(ocspStapling) m.(ticketSupported) m.(secureRenegotiationSupported)
    m.(secureRenegotiation) m.(extendedMasterSecret) m.(alpnProtocol) m.(scts)
    m.(supportedVersion) m.(serverShare) m.(selectedIdentityPresent)
    m.(selectedIdentity) v m.(encryptedClientHello) m.(serverNameAck) m.(cookie)
    m.(selectedGroup) m.(nextProtoNeg) m.(nextProtos).
Definition set_encryptedClientHello (v : option bytes) (m : t) : t :=
  Mk m.(original) m.(vers) m.(random) m.(sessionId) m.(cipherSuite) m.(compressionMethod)
    m.(ocspStapling) m.(ticketSupported) m.(secureRenegotiationSupported)
    m.(secureRenegotiation) m.(extendedMasterSecret) m.(alpnProtocol) m.(scts)
    m.(supportedVersion) m.(serverShare) m.(selectedIdentityPresent)
    m.(selectedIdentity) m.(supportedPoints) v m.(serverNameAck) m.(cookie)
    m.(selectedGroup) m.(nextProtoNeg) m.(nextProtos).
Definition set_serverNameAck (v : bool) (m : t) : t :=
  Mk m.(original) m.(vers) m.(random) m.(sessionId) m.(cipherSuite) m.(compressionMethod)
    m.(ocspStapling) m.(ticketSupported) m.(secureRenegotiationSupported)
    m.(secureRenegotiation) m.(extendedMasterSecret) m.(alpnProtocol) m.(scts)
    m.(supportedVersion) m.(serverShare) m.(selectedIdentityPresent)
    m.(selectedIdentity) m.(supportedPoints) m.(encryptedClientHello) v m.(cookie)
    m.(selectedGroup) m.(nextProtoNeg) m.(nextProtos).
Definition set_cookie (v : option bytes) (m : t) : t :=
  Mk m.(original) m.(vers) m.(random) m.(sessionId) m.(cipherSuite) m.(compressionMethod)
    m.(ocspStapling) m.(ticketSupported) m.(secureRenegotiationSupported)
    m.(secureRenegotiation) m.(extendedMasterSecret) m.(alpnProtocol) m.(scts)
    m.(supportedVersion) m.(serverShare) m.(selectedIdentityPresent)
    m.(selectedIdentity) m.(supportedPoints) m.(encryptedClientHello) m.(serverNameAck)
    v m.(selectedGroup) m.(nextProtoNeg) m.(nextProtos).
Definition set_selectedGroup (v : Z) (m : t) : t :=
  Mk m.(original) m.(vers) m.(random) m.(sessionId) m.(cipherSuite) m.(compressionMethod)
    m.(ocspStapling) m.(ticketSupported) m.(secureRenegotiationSupported)
    m.(secureRenegotiation) m.(extendedMasterSecret) m.(alpnProtocol) m.(scts)
    m.(supportedVersion) m.(serverShare) m.(selectedIdentityPresent)
    m.(selectedIdentity) m.(supportedPoints) m.(encryptedClientHello) m.(serverNameAck)
    m.(cookie) v m.(nextProtoNeg) m.(nextProtos).
Definition set_nextProtoNeg (v : bool) (m : t) : t :=
  Mk m.(original) m.(vers) m.(random) m.(sessionId) m.(cipherSuite) m.(compressionMethod)
    m.(ocspStapling) m.(ticketSupported) m.(secureRenegotiationSupported)
    m.(secureRenegotiation) m.(extendedMasterSecret) m.(alpnProtocol) m.(scts)
    m.(supportedVersion) m.(serverShare) m.(selectedIdentityPresent)
    m.(selectedIdentity) m.(supportedPoints) m.(encryptedClientHello) m.(serverNameAck)
    m.(cookie) m.(selectedGroup) v m.(nextProtos).
Definition set_nextProtos (v : list bytes) (m : t) : t :=
  Mk m.(original) m.(vers) m.(random) m.(sessionId) m.(cipherSuite) m.(compressionMethod)
    m.(ocspStapling) m.(ticketSupported) m.(secureRenegotiationSupported)
    m.(secureRenegotiation) m.(extendedMasterSecret) m.(alpnProtocol) m.(scts)
    m.(supportedVersion) m.(serverShare) m.(selectedIdentityPresent)
    m.(selectedIdentity) m.(supportedPoints) m.(encryptedClientHello) m.(serverNameAck)
    m.(cookie) m.(selectedGroup) m.(nextProtoNeg) v.


Section Ops.
Context `{C : Cryptobyte}.

(** The statements that fill [exts]. *)
Definition marshal_exts (m : t) : Builder -> Builder :=
  bwhen m.(ocspStapling) (
    AddUint16 extensionStatusRequest ;>
    AddUint16 0) ;>
  bwhen m.(ticketSupported) (
    AddUint16 extensionSessionTicket ;>
    AddUint16 0) ;>
  bwhen m.(secureRenegotiationSupported) (
    AddUint16 extensionRenegotiationInfo ;>
    AddUint16LengthPrefixed (
      AddUint8LengthPrefixed (AddBytes m.(secureRenegotiation)))) ;>
  bwhen m.(extendedMasterSecret) (
    AddUint16 extensionExtendedMasterSecret ;>
    AddUint16 0) ;>
  bwhen (0 <? len m.(alpnProtocol)) (
    AddUint16 extensionALPN ;>
    AddUint16LengthPrefixed (
      AddUint16LengthPrefixed (
        AddUint8LengthPrefixed (AddBytes m.(alpnProtocol))))) ;>
  bwhen (0 <? len m.(scts)) (
    AddUint16 extensionSCT ;>
    AddUint16LengthPrefixed (
      AddUint16LengthPrefixed (
        for_each m.(scts) (fun sct => AddUint16LengthPrefixed (AddBytes sct))))) ;>
  bwhen (negb (m.(supportedVersion) =? 0)) (
    AddUint16 extensionSupportedVersions ;>
    AddUint16LengthPrefixed (AddUint16 m.(supportedVersion))) ;>
  bwhen (negb (m.(serverShare).(keyShare.group) =? 0)) (
    AddUint16 extensionKeyShare ;>
    AddUint16LengthPrefixed (
      AddUint16 m.(serverShare).(keyShare.group) ;>
      AddUint16LengthPrefixed (AddBytes m.(serverShare).(keyShare.data)))) ;>
  bwhen m.(selectedIdentityPresent) (
    AddUint16 extensionPreSharedKey ;>
    AddUint16LengthPrefixed (AddUint16 m.(selectedIdentity))) ;>
  bwhen (0 <? len (slice_bytes m.(cookie))) (
    AddUint16 extensionCookie ;>
    AddUint16LengthPrefixed (
      AddUint16LengthPrefixed (AddBytes (slice_bytes m.(cookie))))) ;>
  bwhen (negb (m.(selectedGroup) =? 0)) (
    AddUint16 extensionKeyShare ;>
    AddUint16LengthPrefixed (AddUint16 m.(selectedGroup))) ;>
  bwhen (0 <? len m.(supportedPoints)) (
    AddUint16 extensionSupportedPoints ;>
    AddUint16LengthPrefixed (
      AddUint8LengthPrefixed (AddBytes m.(supportedPoints)))) ;>
  bwhen (0 <? len (slice_bytes m.(encryptedClientHello))) (
    AddUint16 extensionEncryptedClientHello ;>
    AddUint16LengthPrefixed (AddBytes (slice_bytes m.(encryptedClientHello)))) ;>
  bwhen m.(serverNameAck) (
    AddUint16 extensionServerName ;>
    AddUint16 0).

Definition marshal (m : t) : res bytes :=
  try extBytes := Bytes (marshal_exts m NewBuilder) in
  Bytes ((
    AddUint8 typeServerHello ;>
    AddUint24LengthPrefixed (
      AddUint16 m.(vers) ;>
      addBytesWithLength m.(random) 32 ;>
      AddUint8LengthPrefixed (AddBytes m.(sessionId)) ;>
      AddUint16 m.(cipherSuite) ;>
      AddUint8 m.(compressionMethod) ;>
      bwhen (0 <? len extBytes) (
        AddUint16LengthPrefixed (AddBytes extBytes))))
    NewBuilder).

(** One iteration of the switch; unknown extensions are ignored. *)
Definition unmarshal_ext (m : t) (extension : Z) (extData rest : bytes) : option t :=
  if extension =? extensionStatusRequest then
    ensure Empty extData in
    Some (set_ocspStapling true m)
  else if extension =? extensionSessionTicket then
    ensure Empty extData in
    Some (set_ticketSupported true m)
  else if extension =? extensionRenegotiationInfo then
    read (v, extData) := readUint8LengthPrefixed extData in
    ensure Empty extData in
    Some (set_secureRenegotiationSupported true (set_secureRenegotiation v m))
  else if extension =? extensionExtendedMasterSecret then
    ensure Empty extData in
    Some (set_extendedMasterSecret true m)
  else if extension =? extensionALPN then
    read (protoList, extData) := ReadUint16LengthPrefixed extData in
    ensure negb (Empty protoList) in
    read (proto, protoList) := ReadUint8LengthPrefixed protoList in
    ensure negb (Empty proto) && Empty protoList in
    ensure Empty extData in
    Some (set_alpnProtocol proto m)
  else if extension =? extensionSCT then
    read (l, extData) := read_lp16_list m.(scts) extData in
    ensure Empty extData in
    Some (set_scts l m)
  else if extension =? extensionSupportedVersions then
    read (v, extData) := ReadUint16 extData in
    ensure Empty extData in
    Some (set_supportedVersion v m)
  else if extension =? extensionCookie then
    read (v, extData) := readUint16LengthPrefixed extData in
    ensure negb (len v =? 0) in
    ensure Empty extData in
    Some (set_cookie (Some v) m)
  else if extension =? extensionKeyShare then
    if len extData =? 2 then
      read (v, extData) := ReadUint16 extData in
      ensure Empty extData in
      Some (set_selectedGroup v m)
    else
      read (g, extData) := ReadUint16 extData in
      read (d, extData) := readUint16LengthPrefixed extData in
      ensure Empty extData in
      Some (set_serverShare (keyShare.Mk g d) m)
  else if extension =? extensionPreSharedKey then
    read (v, extData) := ReadUint16 extData in
    ensure Empty extData in
    Some (set_selectedIdentity v (set_selectedIdentityPresent true m))
  else if extension =? extensionSupportedPoints then
    read (v, extData) := readUint8LengthPrefixed extData in
    ensure negb (len v =? 0) in
    ensure Empty extData in
    Some (set_supportedPoints v m)
  else if extension =? extensionEncryptedClientHello then
    read (v, extData) := CopyBytes (len extData) extData in
    ensure Empty extData in
    Some (set_encryptedClientHello (Some v) m)
  else if extension =? extensionServerName then
    ensure len extData =? 0 in
    ensure Empty extData in
    Some (set_serverNameAck true m)
  else Some m.

Definition unmarshal (data : bytes) : option t :=
  read s := Skip 4 data in
  read (vers, s) := ReadUint16 s in
  read (random, s) := ReadBytes 32 s in
  read (sessionId, s) := readUint8LengthPrefixed s in
  read (cipherSuite, s) := ReadUint16 s in
  read (compressionMethod, s) := ReadUint8 s in
  let m := Mk (Some data) vers random sessionId cipherSuite compressionMethod
    false false false [] false [] [] 0 (keyShare.Mk 0 []) false 0 [] None false None 0 false [] in
  optional_exts unmarshal_ext m s.

Definition originalBytes (m : t) : option bytes := m.(original).
End Ops.
End serverHelloMsg.

(** * Round trip *)

Section RoundTrip.
Context `{C : Cryptobyte} {Cok : CryptobyteOk C}.
Import serverHelloMsg.

(** The messages whose fields all travel on the wire. *)
Record wf_serverHello (m : t) : Prop := {
  sh_vers : is_u16 m.(vers);
  sh_suite : is_u16 m.(cipherSuite);
  sh_comp : is_u8 m.(compressionMethod);
  sh_sv : is_u16 m.(supportedVersion);
  sh_group : is_u16 m.(serverShare).(keyShare.group);
  sh_sel : is_u16 m.(selectedGroup);
  sh_id : is_u16 m.(selectedIdentity);
  sh_scts : Forall (fun sct => sct <> []) m.(scts);
  sh_reneg : m.(secureRenegotiationSupported) = false -> m.(secureRenegotiation) = [];
  sh_noid : m.(selectedIdentityPresent) = false -> m.(selectedIdentity) = 0;
  sh_cookie : m.(cookie) <> Some [];
  sh_ech : m.(encryptedClientHello) <> Some [];
  sh_share : m.(serverShare).(keyShare.group) = 0 -> m.(serverShare).(keyShare.data) = [];
  sh_hrr : m.(serverShare).(keyShare.group) = 0 \/ m.(selectedGroup) = 0;
  sh_npn : m.(nextProtoNeg) = false /\ m.(nextProtos) = []
}.

(** What [unmarshal] starts the extension loop with. *)
Definition empty_serverHello (orig : option bytes) (m : t) : t :=
  Mk orig m.(vers) m.(random) m.(sessionId) m.(cipherSuite) m.(compressionMethod)
    false false false [] false [] [] 0 (keyShare.Mk 0 []) false 0 [] None false None 0 false [].

(** The extensions that [marshal_exts] wrote are read back. *)
Lemma serverHello_exts m z orig :
  wf_serverHello m -> Bytes (marshal_exts m NewBuilder) = inr z ->
  exists l, z = enc_exts l /\ Forall wf_ext l /\ NoDup (map fst l) /\
    run_exts unmarshal_ext (empty_serverHello orig m) l [] = Some (set_original orig m).
Proof.
  intros [] H. unfold marshal_exts in H. denote H. inv_exts.
  eexists. split; [reflexivity|]. split; [wf_exts|].
  split.
  { destruct sh_hrr0 as [-> | ->]; cbn [Z.eqb negb]; cbn [app]; nodup_exts. }
  ext_step (set_ocspStapling m.(ocspStapling)) by ext_solve.
  ext_step (set_ticketSupported m.(ticketSupported)) by ext_solve.
  ext_step (fun st => set_secureRenegotiationSupported m.(secureRenegotiationSupported)
    (set_secureRenegotiation m.(secureRenegotiation) st)) by
    ext_solve else (rewrite sh_reneg0; done).
  ext_step (set_extendedMasterSecret m.(extendedMasterSecret)) by ext_solve.
  ext_step (set_alpnProtocol m.(alpnProtocol)) by
    (unfold unmarshal_ext; ext_switch; parse; by destruct (alpnProtocol m)).
  ext_step (set_scts m.(scts)) by
    (ext_solve_with ltac:(rewrite read_lp16_list_enc with (l := m.(scts)) by done)).
  ext_step (set_supportedVersion m.(supportedVersion)) by ext_solve.
  ext_step (set_serverShare m.(serverShare)) by
    (unfold unmarshal_ext; ext_switch; autorewrite with cb;
     pose proof (len_nonneg m.(serverShare).(keyShare.data)); zbool; parse;
     by destruct (serverShare m))
    else (apply negb_false_iff, Z.eqb_eq in Hc; specialize (sh_share0 Hc);
          destruct (serverShare m); cbn in *; by subst).
  ext_step (fun st => set_selectedIdentity m.(selectedIdentity)
    (set_selectedIdentityPresent m.(selectedIdentityPresent) st)) by ext_solve
    else (rewrite sh_noid0; done).
  ext_step (set_cookie m.(cookie)) by
    (unfold unmarshal_ext; ext_switch; parse; destruct (cookie m); [|done];
     rewrite len_nonzero by (intros E; cbn in E; congruence); done)
    else (by rewrite (slice_pos_false _ Hc)).
  ext_step (set_selectedGroup m.(selectedGroup)) by
    (unfold unmarshal_ext; ext_switch; autorewrite with cb; zbool; parse; done).
  ext_step (set_supportedPoints m.(supportedPoints)) by
    (unfold unmarshal_ext; ext_switch; parse; rewrite len_nonzero by (by apply len_pos_true); done).
  ext_step (set_encryptedClientHello m.(encryptedClientHello)) by
    (unfold unmarshal_ext; ext_switch; parse; destruct (encryptedClientHello m); done)
    else (by rewrite (slice_pos_false _ Hc)).
  ext_step (set_serverNameAck m.(serverNameAck)) by ext_solve.
  destruct sh_npn0 as [Hn1 Hn2]. destruct m; cbn in *; by subst.
Qed.

Lemma serverHello_rt m x :
  wf_serverHello m -> marshal m = inr x -> unmarshal x = Some (set_original (Some x) m).
Proof.
  intros Hw H. unfold marshal, res_bind in H.
  destruct (Bytes (marshal_exts m NewBuilder)) as [e|z] eqn:Ez; [done|].
  apply (serverHello_exts m z (Some x) Hw) in Ez as (l & -> & Hl & Hnd & Hrun).
  destruct Hw. denote H. unfold unmarshal. unfold empty_serverHello in Hrun.
  revert Hrun. generalize (Some x) as orig. intros orig Hrun.
  set (ex := if 0 <? len (enc_exts l) then _ else Some []) in H.
  destruct ex as [tail|] eqn:Ht; [|inv_out; done].
  destruct (len m.(random) =? 32) eqn:E32; [|inv_out; done]. apply Z.eqb_eq in E32.
  inv_out. parse. by rewrite (optional_exts_enc _ _ l).
Qed.
End RoundTrip.
