(* ===== verification/ClientHello.v ===== *)
(** * ClientHello

    [clientHelloMsg] of handshake_messages.go.  [marshalMsgReorderOuterExts]
    builds the plain hello, and the two forms of the encrypted inner hello of
    this fork: the fixed Chrome layout that refers to the outer hello through
    ech_outer_extensions ([ech_fixed_exts]) and the field-driven one
    ([plain_exts] with [echInner]).  [marshalExpandedECH] is the inner hello
    after the server has expanded those references.  [unmarshal] is the
    parser, with its rejection of duplicates and of a pre_shared_key extension
    that is not last. *)

From S2P Require Import Prelude Cryptobyte Common Codec Buffer Messages.

Module clientHelloMsg.
Record t := Mk {
  original : option bytes;
  vers : Z;
  random : bytes;
  sessionId : bytes;
  cipherSuites : list Z;
  compressionMethods : bytes;
  serverName : bytes;
  ocspStapling : bool;
  supportedCurves : list Z;
  supportedPoints : bytes;
  ticketSupported : bool;
  sessionTicket : bytes;
  supportedSignatureAlgorithms : list Z;
  supportedSignatureAlgorithmsCert : list Z;
  secureRenegotiationSupported : bool;
  secureRenegotiation : bytes;
  extendedMasterSecret : bool;
  alpnProtocols : list bytes;
  scts : bool;
  supportedVersions : list Z;
  cookie : bytes;
  keyShares : list keyShare.t;
  earlyData : bool;
  pskModes : bytes;
  pskIdentities : list pskIdentity.t;
  pskBinders : list bytes;
  quicTransportParameters : option bytes;
  encryptedClientHello : bytes;
  extensions : list Z;
  nextProtoNeg : bool
}.

Definition set_original (v : option bytes) (m : t) : t :=
  Mk v m.(vers) m.(random) m.(sessionId) m.(cipherSuites) m.(compressionMethods)
    m.(serverName) m.(ocspStapling) m.(supportedCurves) m.(supportedPoints)
    m.(ticketSupported) m.(sessionTicket) m.(supportedSignatureAlgorithms)
    m.(supportedSignatureAlgorithmsCert) m.(secureRenegotiationSupported)
    m.(secureRenegotiation) m.(extendedMasterSecret) m.(alpnProtocols) m.(scts)
    m.(supportedVersions) m.(cookie) m.(keyShares) m.(earlyData) m.(pskModes)
    m.(pskIdentities) m.(pskBinders) m.(quicTransportParameters)
    m.(encryptedClientHello) m.(extensions) m.(nextProtoNeg).
Definition set_vers (v : Z) (m : t) : t :=
  Mk m.(original) v m.(random) m.(sessionId) m.(cipherSuites) m.(compressionMethods)
    m.(serverName) m.(ocspStapling) m.(supportedCurves) m.(supportedPoints)
    m.(ticketSupported) m.(sessionTicket) m.(supportedSignatureAlgorithms)
    m.(supportedSignatureAlgorithmsCert) m.(secureRenegotiationSupported)
    m.(secureRenegotiation) m.(extendedMasterSecret) m.(alpnProtocols) m.(scts)
    m.(supportedVersions) m.(cookie) m.(keyShares) m.(earlyData) m.(pskModes)
    m.(pskIdentities) m.(pskBinders) m.(quicTransportParameters)
    m.(encryptedClientHello) m.(extensions) m.(nextProtoNeg).
Definition set_random (v : bytes) (m : t) : t :=
  Mk m.(original) m.(vers) v m.(sessionId) m.(cipherSuites) m.(compressionMethods)
    m.(serverName) m.(ocspStapling) m.(supportedCurves) m.(supportedPoints)
    m.(ticketSupported) m.(sessionTicket) m.(supportedSignatureAlgorithms)
    m.(supportedSignatureAlgorithmsCert) m.(secureRenegotiationSupported)
    m.(secureRenegotiation) m.(extendedMasterSecret) m.(alpnProtocols) m.(scts)
    m.(supportedVersions) m.(cookie) m.(keyShares) m.(earlyData) m.(pskModes)
    m.(pskIdentities) m.(pskBinders) m.(quicTransportParameters)
    m.(encryptedClientHello) m.(extensions) m.(nextProtoNeg).
Definition set_sessionId (v : bytes) (m : t) : t :=
  Mk m.(original) m.(vers) m.(random) v m.(cipherSuites) m.(compressionMethods)
    m.(serverName) m.(ocspStapling) m.(supportedCurves) m.(supportedPoints)
    m.(ticketSupported) m.(sessionTicket) m.(supportedSignatureAlgorithms)
    m.(supportedSignatureAlgorithmsCert) m.(secureRenegotiationSupported)
    m.(secureRenegotiation) m.(extendedMasterSecret) m.(alpnProtocols) m.(scts)
    m.(supportedVersions) m.(cookie) m.(keyShares) m.(earlyData) m.(pskModes)
    m.(pskIdentities) m.(pskBinders) m.(quicTransportParameters)
    m.(encryptedClientHello) m.(extensions) m.(nextProtoNeg).
Definition set_cipherSuites (v : list Z) (m : t) : t :=
  Mk m.(original) m.(vers) m.(random) m.(sessionId) v m.(compressionMethods) m.(serverName)
    m.(ocspStapling) m.(supportedCurves) m.(supportedPoints) m.(ticketSupported)
    m.(sessionTicket) m.(supportedSignatureAlgorithms)
    m.(supportedSignatureAlgorithmsCert) m.(secureRenegotiationSupported)
    m.(secureRenegotiation) m.(extendedMasterSecret) m.(alpnProtocols) m.(scts)
    m.(supportedVersions) m.(cookie) m.(keyShares) m.(earlyData) m.(pskModes)
    m.(pskIdentities) m.(pskBinders) m.(quicTransportParameters)
    m.(encryptedClientHello) m.(extensions) m.(nextProtoNeg).
Definition set_compressionMethods (v : bytes) (m : t) : t :=
  Mk m.(original) m.(vers) m.(random) m.(sessionId) m.(cipherSuites) v m.(serverName)
    m.(ocspStapling) m.(supportedCurves) m.(supportedPoints) m.(ticketSupported)
    m.(sessionTicket) m.(supportedSignatureAlgorithms)
    m.(supportedSignatureAlgorithmsCert) m.(secureRenegotiationSupported)
    m.(secureRenegotiation) m.(extendedMasterSecret) m.(alpnProtocols) m.(scts)
    m.(supportedVersions) m.(cookie) m.(keyShares) m.(earlyData) m.(pskModes)
    m.(pskIdentities) m.(pskBinders) m.(quicTransportParameters)
    m.(encryptedClientHello) m.(extensions) m.(nextProtoNeg).
Definition set_serverName (v : bytes) (m : t) : t :=
  Mk m.(original) m.(vers) m.(random) m.(sessionId) m.(cipherSuites) m.(compressionMethods) v
    m.(ocspStapling) m.(supportedCurves) m.(supportedPoints) m.(ticketSupported)
    m.(sessionTicket) m.(supportedSignatureAlgorithms)
    m.(supportedSignatureAlgorithmsCert) m.(secureRenegotiationSupported)
    m.(secureRenegotiation) m.(extendedMasterSecret) m.(alpnProtocols) m.(scts)
    m.(supportedVersions) m.(cookie) m.(keyShares) m.(earlyData) m.(pskModes)
    m.(pskIdentities) m.(pskBinders) m.(quicTransportParameters)
    m.(encryptedClientHello) m.(extensions) m.(nextProtoNeg).
Definition set_ocspStapling (v : bool) (m : t) : t :=
  Mk m.(original) m.(vers) m.(random) m.(sessionId) m.(cipherSuites) m.(compressionMethods)
    m.(serverName) v m.(supportedCurves) m.(supportedPoints) m.(ticketSupported)
    m.(sessionTicket) m.(supportedSignatureAlgorithms)
    m.(supportedSignatureAlgorithmsCert) m.(secureRenegotiationSupported)
    m.(secureRenegotiation) m.(extendedMasterSecret) m.(alpnProtocols) m.(scts)
    m.(supportedVersions) m.(cookie) m.(keyShares) m.(earlyData) m.(pskModes)
    m.(pskIdentities) m.(pskBinders) m.(quicTransportParameters)
    m.(encryptedClientHello) m.(extensions) m.(nextProtoNeg).
Definition set_supportedCurves (v : list Z) (m : t) : t :=
  Mk m.(original) m.(vers) m.(random) m.(sessionId) m.(cipherSuites) m.(compressionMethods)
    m.(serverName) m.(ocspStapling) v m.(supportedPoints) m.(ticketSupported)
    m.(sessionTicket) m.(supportedSignatureAlgorithms)
    m.(supportedSignatureAlgorithmsCert) m.(secureRenegotiationSupported)
    m.(secureRenegotiation) m.(extendedMasterSecret) m.(alpnProtocols) m.(scts)
    m.(supportedVersions) m.(cookie) m.(keyShares) m.(earlyData) m.(pskModes)
    m.(pskIdentities) m.(pskBinders) m.(quicTransportParameters)
    m.(encryptedClientHello) m.(extensions) m.(nextProtoNeg).
Definition set_supportedPoints (v : bytes) (m : t) : t :=
  Mk m.(original) m.(vers) m.(random) m.(sessionId) m.(cipherSuites) m.(compressionMethods)
    m.(serverName) m.(ocspStapling) m.(supportedCurves) v m.(ticketSupported)
    m.(sessionTicket) m.(supportedSignatureAlgorithms)
    m.(supportedSignatureAlgorithmsCert) m.(secureRenegotiationSupported)
    m.(secureRenegotiation) m.(extendedMasterSecret) m.(alpnProtocols) m.(scts)
    m.(supportedVersions) m.(cookie) m.(keyShares) m.(earlyData) m.(pskModes)
    m.(pskIdentities) m.(pskBinders) m.(quicTransportParameters)
    m.(encryptedClientHello) m.(extensions) m.(nextProtoNeg).
Definition set_ticketSupported (v : bool) (m : t) : t :=
  Mk m.(original) m.(vers) m.(random) m.(sessionId) m.(cipherSuites) m.(compressionMethods)
    m.(serverName) m.(ocspStapling) m.(supportedCurves) m.(supportedPoints) v
    m.(sessionTicket) m.(supportedSignatureAlgorithms)
    m.(supportedSignatureAlgorithmsCert) m.(secureRenegotiationSupported)
    m.(secureRenegotiation) m.(extendedMasterSecret) m.(alpnProtocols) m.(scts)
    m.(supportedVersions) m.(cookie) m.(keyShares) m.(earlyData) m.(pskModes)
    m.(pskIdentities) m.(pskBinders) m.(quicTransportParameters)
    m.(encryptedClientHello) m.(extensions) m.(nextProtoNeg).
Definition set_sessionTicket (v : bytes) (m : t) : t :=
  Mk m.(original) m.(vers) m.(random) m.(sessionId) m.(cipherSuites) m.(compressionMethods)
    m.(serverName) m.(ocspStapling) m.(supportedCurves) m.(supportedPoints)
    m.(ticketSupported) v m.(supportedSignatureAlgorithms)
    m.(supportedSignatureAlgorithmsCert) m.(secureRenegotiationSupported)
    m.(secureRenegotiation) m.(extendedMasterSecret) m.(alpnProtocols) m.(scts)
    m.(supportedVersions) m.(cookie) m.(keyShares) m.(earlyData) m.(pskModes)
    m.(pskIdentities) m.(pskBinders) m.(quicTransportParameters)
    m.(encryptedClientHello) m.(extensions) m.(nextProtoNeg).
Definition set_supportedSignatureAlgorithms (v : list Z) (m : t) : t :=
  Mk m.(original) m.(vers) m.(random) m.(sessionId) m.(cipherSuites) m.(compressionMethods)
    m.(serverName) m.(ocspStapling) m.(supportedCurves) m.(supportedPoints)
    m.(ticketSupported) m.(sessionTicket) v m.(supportedSignatureAlgorithmsCert)
    m.(secureRenegotiationSupported) m.(secureRenegotiation) m.(extendedMasterSecret)
    m.(alpnProtocols) m.(scts) m.(supportedVersions) m.(cookie) m.(keyShares)
    m.(earlyData) m.(pskModes) m.(pskIdentities) m.(pskBinders)
    m.(quicTransportParameters) m.(encryptedClientHello) m.(extensions) m.(nextProtoNeg).
Definition set_supportedSignatureAlgorithmsCert (v : list Z) (m : t) : t :=
  Mk m.(original) m.(vers) m.(random) m.(sessionId) m.(cipherSuites) m.(compressionMethods)
    m.(serverName) m.(ocspStapling) m.(supportedCurves) m.(supportedPoints)
    m.(ticketSupported) m.(sessionTicket) m.(supportedSignatureAlgorithms) v
    m.(secureRenegotiationSupported) m.(secureRenegotiation) m.(extendedMasterSecret)
    m.(alpnProtocols) m.(scts) m.(supportedVersions) m.(cookie) m.(keyShares)
    m.(earlyData) m.(pskModes) m.(pskIdentities) m.(pskBinders)
    m.(quicTransportParameters) m.(encryptedClientHello) m.(extensions) m.(nextProtoNeg).
Definition set_secureRenegotiationSupported (v : bool) (m : t) : t :=
  Mk m.(original) m.(vers) m.(random) m.(sessionId) m.(cipherSuites) m.(compressionMethods)
    m.(serverName) m.(ocspStapling) m.(supportedCurves) m.(supportedPoints)
    m.(ticketSupported) m.(sessionTicket) m.(supportedSignatureAlgorithms)
    m.(supportedSignatureAlgorithmsCert) v m.(secureRenegotiation)
    m.(extendedMasterSecret) m.(alpnProtocols) m.(scts) m.(supportedVersions) m.(cookie)
    m.(keyShares) m.(earlyData) m.(pskModes) m.(pskIdentities) m.(pskBinders)
    m.(quicTransportParameters) m.(encryptedClientHello) m.(extensions) m.(nextProtoNeg).
Definition set_secureRenegotiation (v : bytes) (m : t) : t :=
  Mk m.(original) m.(vers) m.(random) m.(sessionId) m.(cipherSuites) m.(compressionMethods)
    m.(serverName) m.(ocspStapling) m.(supportedCurves) m.(supportedPoints)
    m.(ticketSupported) m.(sessionTicket) m.(supportedSignatureAlgorithms)
    m.(supportedSignatureAlgorithmsCert) m.(secureRenegotiationSupported) v
    m.(extendedMasterSecret) m.(alpnProtocols) m.(scts) m.(supportedVersions) m.(cookie)
    m.(keyShares) m.(earlyData) m.(pskModes) m.(pskIdentities) m.(pskBinders)
    m.(quicTransportParameters) m.(encryptedClientHello) m.(extensions) m.(nextProtoNeg).
Definition set_extendedMasterSecret (v : bool) (m : t) : t :=
  Mk m.(original) m.(vers) m.(random) m.(sessionId) m.(cipherSuites) m.(compressionMethods)
    m.(serverName) m.(ocspStapling) m.(supportedCurves) m.(supportedPoints)
    m.(ticketSupported) m.(sessionTicket) m.(supportedSignatureAlgorithms)
    m.(supportedSignatureAlgorithmsCert) m.(secureRenegotiationSupported)
    m.(secureRenegotiation) v m.(alpnProtocols) m.(scts) m.(supportedVersions)
    m.(cookie) m.(keyShares) m.(earlyData) m.(pskModes) m.(pskIdentities) m.(pskBinders)
    m.(quicTransportParameters) m.(encryptedClientHello) m.(extensions) m.(nextProtoNeg).
Definition set_alpnProtocols (v : list bytes) (m : t) : t :=
  Mk m.(original) m.(vers) m.(random) m.(sessionId) m.(cipherSuites) m.(compressionMethods)
    m.(serverName) m.(ocspStapling) m.(supportedCurves) m.(supportedPoints)
    m.(ticketSupported) m.(sessionTicket) m.(supportedSignatureAlgorithms)
    m.(supportedSignatureAlgorithmsCert) m.(secureRenegotiationSupported)
    m.(secureRenegotiation) m.(extendedMasterSecret) v m.(scts) m.(supportedVersions)
    m.(cookie) m.(keyShares) m.(earlyData) m.(pskModes) m.(pskIdentities) m.(pskBinders)
    m.(quicTransportParameters) m.(encryptedClientHello) m.(extensions) m.(nextProtoNeg).
Definition set_scts (v : bool) (m : t) : t :=
  Mk m.(original) m.(vers) m.(random) m.(sessionId) m.(cipherSuites) m.(compressionMethods)
    m.(serverName) m.(ocspStapling) m.(supportedCurves) m.(supportedPoints)
    m.(ticketSupported) m.(sessionTicket) m.(supportedSignatureAlgorithms)
    m.(supportedSignatureAlgorithmsCert) m.(secureRenegotiationSupported)
    m.(secureRenegotiation) m.(extendedMasterSecret) m.(alpnProtocols) v
    m.(supportedVersions) m.(cookie) m.(keyShares) m.(earlyData) m.(pskModes)
    m.(pskIdentities) m.(pskBinders) m.(quicTransportParameters)
    m.(encryptedClientHello) m.(extensions) m.(nextProtoNeg).
Definition set_supportedVersions (v : list Z) (m : t) : t :=
  Mk m.(original) m.(vers) m.(random) m.(sessionId) m.(cipherSuites) m.(compressionMethods)
    m.(serverName) m.(ocspStapling) m.(supportedCurves) m.(supportedPoints)
    m.(ticketSupported) m.(sessionTicket) m.(supportedSignatureAlgorithms)
    m.(supportedSignatureAlgorithmsCert) m.(secureRenegotiationSupported)
    m.(secureRenegotiation) m.(extendedMasterSecret) m.(alpnProtocols) m.(scts) v
    m.(cookie) m.(keyShares) m.(earlyData) m.(pskModes) m.(pskIdentities) m.(pskBinders)
    m.(quicTransportParameters) m.(encryptedClientHello) m.(extensions) m.(nextProtoNeg).
Definition set_cookie (v : bytes) (m : t) : t :=
  Mk m.(original) m.(vers) m.(random) m.(sessionId) m.(cipherSuites) m.(compressionMethods)
    m.(serverName) m.(ocspStapling) m.(supportedCurves) m.(supportedPoints)
    m.(ticketSupported) m.(sessionTicket) m.(supportedSignatureAlgorithms)
    m.(supportedSignatureAlgorithmsCert) m.(secureRenegotiationSupported)
    m.(secureRenegotiation) m.(extendedMasterSecret) m.(alpnProtocols) m.(scts)
    m.(supportedVersions) v m.(keyShares) m.(earlyData) m.(pskModes) m.(pskIdentities)
    m.(pskBinders) m.(quicTransportParameters) m.(encryptedClientHello) m.(extensions)
    m.(nextProtoNeg).
Definition set_keyShares (v : list keyShare.t) (m : t) : t :=
  Mk m.(original) m.(vers) m.(random) m.(sessionId) m.(cipherSuites) m.(compressionMethods)
    m.(serverName) m.(ocspStapling) m.(supportedCurves) m.(supportedPoints)
    m.(ticketSupported) m.(sessionTicket) m.(supportedSignatureAlgorithms)
    m.(supportedSignatureAlgorithmsCert) m.(secureRenegotiationSupported)
    m.(secureRenegotiation) m.(extendedMasterSecret) m.(alpnProtocols) m.(scts)
    m.(supportedVersions) m.(cookie) v m.(earlyData) m.(pskModes) m.(pskIdentities)
    m.(pskBinders) m.(quicTransportParameters) m.(encryptedClientHello) m.(extensions)
    m.(nextProtoNeg).
Definition set_earlyData (v : bool) (m : t) : t :=
  Mk m.(original) m.(vers) m.(random) m.(sessionId) m.(cipherSuites) m.(compressionMethods)
    m.(serverName) m.(ocspStapling) m.(supportedCurves) m.(supportedPoints)
    m.(ticketSupported) m.(sessionTicket) m.(supportedSignatureAlgorithms)
    m.(supportedSignatureAlgorithmsCert) m.(secureRenegotiationSupported)
    m.(secureRenegotiation) m.(extendedMasterSecret) m.(alpnProtocols) m.(scts)
    m.(supportedVersions) m.(cookie) m.(keyShares) v m.(pskModes) m.(pskIdentities)
    m.(pskBinders) m.(quicTransportParameters) m.(encryptedClientHello) m.(extensions)
    m.(nextProtoNeg).
Definition set_pskModes (v : bytes) (m : t) : t :=
  Mk m.(original) m.(vers) m.(random) m.(sessionId) m.(cipherSuites) m.(compressionMethods)
    m.(serverName) m.(ocspStapling) m.(supportedCurves) m.(supportedPoints)
    m.(ticketSupported) m.(sessionTicket) m.(supportedSignatureAlgorithms)
    m.(supportedSignatureAlgorithmsCert) m.(secureRenegotiationSupported)
    m.(secureRenegotiation) m.(extendedMasterSecret) m.(alpnProtocols) m.(scts)
    m.(supportedVersions) m.(cookie) m.(keyShares) m.(earlyData) v m.(pskIdentities)
    m.(pskBinders) m.(quicTransportParameters) m.(encryptedClientHello) m.(extensions)
    m.(nextProtoNeg).
Definition set_pskIdentities (v : list pskIdentity.t) (m : t) : t :=
  Mk m.(original) m.(vers) m.(random) m.(sessionId) m.(cipherSuites) m.(compressionMethods)
    m.(serverName) m.(ocspStapling) m.(supportedCurves) m.(supportedPoints)
    m.(ticketSupported) m.(sessionTicket) m.(supportedSignatureAlgorithms)
    m.(supportedSignatureAlgorithmsCert) m.(secureRenegotiationSupported)
    m.(secureRenegotiation) m.(extendedMasterSecret) m.(alpnProtocols) m.(scts)
    m.(supportedVersions) m.(cookie) m.(keyShares) m.(earlyData) m.(pskModes) v
    m.(pskBinders) m.(quicTransportParameters) m.(encryptedClientHello) m.(extensions)
    m.(nextProtoNeg).
Definition set_pskBinders (v : list bytes) (m : t) : t :=
  Mk m.(original) m.(vers) m.(random) m.(sessionId) m.(cipherSuites) m.(compressionMethods)
    m.(serverName) m.(ocspStapling) m.(supportedCurves) m.(supportedPoints)
    m.(ticketSupported) m.(sessionTicket) m.(supportedSignatureAlgorithms)
    m.(supportedSignatureAlgorithmsCert) m.(secureRenegotiationSupported)
    m.(secureRenegotiation) m.(extendedMasterSecret) m.(alpnProtocols) m.(scts)
    m.(supportedVersions) m.(cookie) m.(keyShares) m.(earlyData) m.(pskModes)
    m.(pskIdentities) v m.(quicTransportParameters) m.(encryptedClientHello)
    m.(extensions) m.(nextProtoNeg).
Definition set_quicTransportParameters (v : option bytes) (m : t) : t :=
  Mk m.(original) m.(vers) m.(random) m.(sessionId) m.(cipherSuites) m.(compressionMethods)
    m.(serverName) m.(ocspStapling) m.(supportedCurves) m.(supportedPoints)
    m.(ticketSupported) m.(sessionTicket) m.(supportedSignatureAlgorithms)
    m.(supportedSignatureAlgorithmsCert) m.(secureRenegotiationSupported)
    m.(secureRenegotiation) m.(extendedMasterSecret) m.(alpnProtocols) m.(scts)
    m.(supportedVersions) m.(cookie) m.(keyShares) m.(earlyData) m.(pskModes)
    m.(pskIdentities) m.(pskBinders) v m.(encryptedClientHello) m.(extensions)
    m.(nextProtoNeg).
Definition set_encryptedClientHello (v : bytes) (m : t) : t :=
  Mk m.(original) m.(vers) m.(random) m.(sessionId) m.(cipherSuites) m.(compressionMethods)
    m.(serverName) m.(ocspStapling) m.(supportedCurves) m.(supportedPoints)
    m.(ticketSupported) m.(sessionTicket) m.(supportedSignatureAlgorithms)
    m.(supportedSignatureAlgorithmsCert) m.(secureRenegotiationSupported)
    m.(secureRenegotiation) m.(extendedMasterSecret) m.(alpnProtocols) m.(scts)
    m.(supportedVersions) m.(cookie) m.(keyShares) m.(earlyData) m.(pskModes)
    m.(pskIdentities) m.(pskBinders) m.(quicTransportParameters) v m.(extensions)
    m.(nextProtoNeg).
Definition set_extensions (v : list Z) (m : t) : t :=
  Mk m.(original) m.(vers) m.(random) m.(sessionId) m.(cipherSuites) m.(compressionMethods)
    m.(serverName) m.(ocspStapling) m.(supportedCurves) m.(supportedPoints)
    m.(ticketSupported) m.(sessionTicket) m.(supportedSignatureAlgorithms)
    m.(supportedSignatureAlgorithmsCert) m.(secureRenegotiationSupported)
    m.(secureRenegotiation) m.(extendedMasterSecret) m.(alpnProtocols) m.(scts)
    m.(supportedVersions) m.(cookie) m.(keyShares) m.(earlyData) m.(pskModes)
    m.(pskIdentities) m.(pskBinders) m.(quicTransportParameters)
    m.(encryptedClientHello) v m.(nextProtoNeg).
Definition set_nextProtoNeg (v : bool) (m : t) : t :=
  Mk m.(original) m.(vers) m.(random) m.(sessionId) m.(cipherSuites) m.(compressionMethods)
    m.(serverName) m.(ocspStapling) m.(supportedCurves) m.(supportedPoints)
    m.(ticketSupported) m.(sessionTicket) m.(supportedSignatureAlgorithms)
    m.(supportedSignatureAlgorithmsCert) m.(secureRenegotiationSupported)
    m.(secureRenegotiation) m.(extendedMasterSecret) m.(alpnProtocols) m.(scts)
    m.(supportedVersions) m.(cookie) m.(keyShares) m.(earlyData) m.(pskModes)
    m.(pskIdentities) m.(pskBinders) m.(quicTransportParameters)
    m.(encryptedClientHello) m.(extensions) v.


Section Ops.
Context `{C : Cryptobyte}.

(** ** Extension writers

    Each is one [AddUint16(type); AddUint16LengthPrefixed(body)] fragment of
    the marshalling functions, which repeat them. *)

Definition add_server_name (m : t) : Builder -> Builder :=
  AddUint16 extensionServerName ;>
  AddUint16LengthPrefixed (
    AddUint16LengthPrefixed (
      AddUint8 0 ;>
      AddUint16LengthPrefixed (AddBytes m.(serverName)))).

Definition add_supported_points (m : t) : Builder -> Builder :=
  AddUint16 extensionSupportedPoints ;>
  AddUint16LengthPrefixed (
    AddUint8LengthPrefixed (AddBytes m.(supportedPoints))).

Definition add_session_ticket (m : t) : Builder -> Builder :=
  AddUint16 extensionSessionTicket ;>
  AddUint16LengthPrefixed (AddBytes m.(sessionTicket)).

Definition add_renegotiation_info (m : t) : Builder -> Builder :=
  AddUint16 extensionRenegotiationInfo ;>
  AddUint16LengthPrefixed (
    AddUint8LengthPrefixed (AddBytes m.(secureRenegotiation))).

Definition add_quic_transport_parameters (m : t) : Builder -> Builder :=
  AddUint16 extensionQUICTransportParameters ;>
  AddUint16LengthPrefixed (AddBytes (slice_bytes m.(quicTransportParameters))).

Definition add_encrypted_client_hello (m : t) : Builder -> Builder :=
  AddUint16 extensionEncryptedClientHello ;>
  AddUint16LengthPrefixed (AddBytes m.(encryptedClientHello)).

Definition add_status_request : Builder -> Builder :=
  AddUint16 extensionStatusRequest ;>
  AddUint16LengthPrefixed (
    AddUint8 1 ;>
    AddUint16 0 ;>
    AddUint16 0).

(** A two-byte list length and two-byte items. *)
Definition add_u16_list (ext : Z) (l : list Z) : Builder -> Builder :=
  AddUint16 ext ;>
  AddUint16LengthPrefixed (
    AddUint16LengthPrefixed (for_each l (fun v => AddUint16 v))).

Definition add_alpn (m : t) : Builder -> Builder :=
  AddUint16 extensionALPN ;>
  AddUint16LengthPrefixed (
    AddUint16LengthPrefixed (
      for_each m.(alpnProtocols) (fun proto => AddUint8LengthPrefixed (AddBytes proto)))).

(** A one-byte list length and two-byte items. *)
Definition add_u16_list8 (ext : Z) (l : list Z) : Builder -> Builder :=
  AddUint16 ext ;>
  AddUint16LengthPrefixed (
    AddUint8LengthPrefixed (for_each l (fun v => AddUint16 v))).

Definition add_cookie (m : t) : Builder -> Builder :=
  AddUint16 extensionCookie ;>
  AddUint16LengthPrefixed (
    AddUint16LengthPrefixed (AddBytes m.(cookie))).

Definition add_key_share (m : t) : Builder -> Builder :=
  AddUint16 extensionKeyShare ;>
  AddUint16LengthPrefixed (
    AddUint16LengthPrefixed (
      for_each m.(keyShares) (fun ks =>
        AddUint16 ks.(keyShare.group) ;>
        AddUint16LengthPrefixed (AddBytes ks.(keyShare.data))))).

Definition add_psk_modes (m : t) : Builder -> Builder :=
  AddUint16 extensionPSKModes ;>
  AddUint16LengthPrefixed (
    AddUint8LengthPrefixed (AddBytes m.(pskModes))).

Definition add_pre_shared_key (m : t) : Builder -> Builder :=
  AddUint16 extensionPreSharedKey ;>
  AddUint16LengthPrefixed (
    AddUint16LengthPrefixed (
      for_each m.(pskIdentities) (fun psk =>
        AddUint16LengthPrefixed (AddBytes psk.(pskIdentity.label)) ;>
        AddUint32 psk.(pskIdentity.obfuscatedTicketAge))) ;>
    AddUint16LengthPrefixed (
      for_each m.(pskBinders) (fun binder => AddUint8LengthPrefixed (AddBytes binder)))).

(** ** The fixed layout of the ECH inner hello *)

(** The switch over [outerExts]: GREASE numbers ([extType&0x0f0f == 0x0a0a])
    and the listed extensions are referenced from the outer hello. *)
Definition is_grease_ext (extType : Z) : bool := Z.land extType 0x0f0f =? 0x0a0a.

Definition compressible (extType : Z) : bool :=
  is_grease_ext extType ||
  (extType =? extensionPSKModes) || (extType =? extensionSupportedCurves) ||
  (extType =? extensionALPN) || (extType =? extensionSignatureAlgorithms) ||
  (extType =? extensionQUICTransportParameters) || (extType =? extensionKeyShare) ||
  (extType =? extensionRenegotiationInfo) || (extType =? extensionSCT) ||
  (extType =? extensionSupportedPoints) || (extType =? extensionSessionTicket) ||
  (extType =? extensionStatusRequest) || (extType =? extensionExtendedMasterSecret) ||
  (extType =? extensionSignatureAlgorithmsCert) ||
  (extType =? utlsExtensionCompressCertificate) ||
  (extType =? utlsExtensionApplicationSettings) ||
  (extType =? utlsExtensionApplicationSettingsNew) ||
  (extType =? extensionSupportedVersions) || (extType =? extensionEarlyData).

Definition ech_outer_exts (outerExts : list Z) : list Z :=
  List.filter compressible outerExts.

Definition ech_fixed_exts (m : t) (outerExts : list Z) : Builder -> Builder :=
  let echOuterExts := ech_outer_exts outerExts in
  let supportedVersionsInOuter :=
    List.existsb (fun e => e =? extensionSupportedVersions) echOuterExts in
  bwhen (0 <? len m.(encryptedClientHello)) (add_encrypted_client_hello m) ;>
  bwhen (0 <? len m.(serverName)) (add_server_name m) ;>
  bwhen (0 <? len echOuterExts) (add_u16_list8 extensionECHOuterExtensions echOuterExts) ;>
  bwhen (negb supportedVersionsInOuter && (0 <? len m.(supportedVersions)))
    (add_u16_list8 extensionSupportedVersions [VersionTLS13]) ;>
  bwhen (0 <? len m.(pskIdentities)) (add_pre_shared_key m).

(** ** The field-driven layout *)

Definition chromeECHOuterOrder : list Z :=
  [extensionALPN; extensionKeyShare; extensionSignatureAlgorithms; extensionSupportedVersions;
   extensionPSKModes; extensionSupportedCurves; extensionQUICTransportParameters;
   extensionStatusRequest; extensionSupportedPoints; extensionSCT;
   extensionExtendedMasterSecret; extensionSessionTicket; extensionSignatureAlgorithmsCert;
   extensionRenegotiationInfo].

(** [echOuterExts] as the inner-hello branches append to it. *)
Definition plain_outer_exts (m : t) (echInner : bool) (outerExts : option (list Z)) : list Z :=
  let inner (c : bool) (ext : Z) := if c && echInner then [ext] else [] in
  let echOuterExts :=
    inner (non_nil m.(quicTransportParameters)) extensionQUICTransportParameters ++
    inner m.(ocspStapling) extensionStatusRequest ++
    inner (0 <? len m.(supportedCurves)) extensionSupportedCurves ++
    inner (0 <? len m.(supportedSignatureAlgorithms)) extensionSignatureAlgorithms ++
    inner (0 <? len m.(supportedSignatureAlgorithmsCert)) extensionSignatureAlgorithmsCert ++
    inner (0 <? len m.(alpnProtocols)) extensionALPN ++
    inner (0 <? len m.(cookie)) extensionCookie ++
    inner (0 <? len m.(keyShares)) extensionKeyShare ++
    inner (0 <? len m.(pskModes)) extensionPSKModes in
  if echInner && non_nil outerExts
  then List.filter (fun ext => bool_decide (ext ∈ echOuterExts)) chromeECHOuterOrder
  else echOuterExts.

Definition plain_exts (m : t) (echInner : bool) (outerExts : option (list Z)) : Builder -> Builder :=
  let echOuterExts := plain_outer_exts m echInner outerExts in
  let tls13Versions :=
    List.filter (fun vers => (vers =? VersionTLS13) || (Z.land vers 0x0f0f =? 0x0a0a))
      m.(supportedVersions) in
  bwhen (0 <? len m.(serverName)) (add_server_name m) ;>
  bwhen ((0 <? len m.(supportedPoints)) && negb echInner) (add_supported_points m) ;>
  bwhen (m.(ticketSupported) && negb echInner) (add_session_ticket m) ;>
  bwhen (m.(secureRenegotiationSupported) && negb echInner) (add_renegotiation_info m) ;>
  bwhen (m.(extendedMasterSecret) && negb echInner) (
    AddUint16 extensionExtendedMasterSecret ;>
    AddUint16 0) ;>
  bwhen (m.(scts) && negb echInner) (
    AddUint16 extensionSCT ;>
    AddUint16 0) ;>
  bwhen (m.(earlyData) && negb echInner) (
    AddUint16 extensionEarlyData ;>
    AddUint16 0) ;>
  bwhen (non_nil m.(quicTransportParameters) && negb echInner) (add_quic_transport_parameters m) ;>
  bwhen ((0 <? len m.(encryptedClientHello)) && negb echInner) (add_encrypted_client_hello m) ;>
  bwhen (m.(ocspStapling) && negb echInner) add_status_request ;>
  bwhen ((0 <? len m.(supportedCurves)) && negb echInner)
    (add_u16_list extensionSupportedCurves m.(supportedCurves)) ;>
  bwhen ((0 <? len m.(supportedSignatureAlgorithms)) && negb echInner)
    (add_u16_list extensionSignatureAlgorithms m.(supportedSignatureAlgorithms)) ;>
  bwhen ((0 <? len m.(supportedSignatureAlgorithmsCert)) && negb echInner)
    (add_u16_list extensionSignatureAlgorithmsCert m.(supportedSignatureAlgorithmsCert)) ;>
  bwhen ((0 <? len m.(alpnProtocols)) && negb echInner) (add_alpn m) ;>
  (if echInner
   then bwhen ((0 <? len m.(supportedVersions)) && (0 <? len tls13Versions))
          (add_u16_list8 extensionSupportedVersions tls13Versions)
   else bwhen (0 <? len m.(supportedVersions))
          (add_u16_list8 extensionSupportedVersions m.(supportedVersions))) ;>
  bwhen ((0 <? len m.(cookie)) && negb echInner) (add_cookie m) ;>
  bwhen ((0 <? len m.(keyShares)) && negb echInner) (add_key_share m) ;>
  bwhen ((0 <? len m.(pskModes)) && negb echInner) (add_psk_modes m) ;>
  bwhen ((0 <? len echOuterExts) && echInner)
    (add_u16_list8 extensionECHOuterExtensions echOuterExts) ;>
  bwhen (0 <? len m.(pskIdentities)) (add_pre_shared_key m).

(** ** Marshalling *)

(** [buildClientHello:] onwards. *)
Definition buildClientHello (m : t) (echInner : bool) (extBytes : bytes) : res bytes :=
  Bytes ((
    AddUint8 typeClientHello ;>
    AddUint24LengthPrefixed (
      AddUint16 m.(vers) ;>
      addBytesWithLength m.(random) 32 ;>
      AddUint8LengthPrefixed (bwhen (negb echInner) (AddBytes m.(sessionId))) ;>
      AddUint16LengthPrefixed (for_each m.(cipherSuites) (fun suite => AddUint16 suite)) ;>
      AddUint8LengthPrefixed (AddBytes m.(compressionMethods)) ;>
      bwhen (0 <? len extBytes) (
        AddUint16LengthPrefixed (AddBytes extBytes))))
    NewBuilder).

Definition marshalMsgReorderOuterExts (m : t) (echInner : bool) (outerExts : option (list Z))
    : res bytes :=
  try extBytes := Bytes (
    match echInner, outerExts with
    | true, Some outer => ech_fixed_exts m outer
    | _, _ => plain_exts m echInner outerExts
    end NewBuilder) in
  buildClientHello m echInner extBytes.

Definition marshalMsg (m : t) (echInner : bool) : res bytes :=
  marshalMsgReorderOuterExts m echInner None.

Definition marshal (m : t) : res bytes :=
  match m.(original) with
  | Some original => inr original
  | None => marshalMsg m false
  end.

(** [bindersLen := 2; for _, binder := range m.pskBinders { bindersLen += 1; bindersLen += len(binder) }] *)
Definition bindersLen (m : t) : Z :=
  fold_left (fun n binder => n + 1 + len binder) m.(pskBinders) 2.

(** [return fullMessage[:len(fullMessage)-bindersLen], nil], which panics when
    the message is shorter than its binders. *)
Definition cut_binders (m : t) (fullMessage : res bytes) : outcome (res bytes) :=
  match fullMessage with
  | inl err => Ret (inl err)
  | inr fullMessage =>
      run x := upto fullMessage (len fullMessage - bindersLen m) in
      Ret (inr x)
  end.

Definition marshalWithoutBinders (m : t) : outcome (res bytes) :=
  cut_binders m
    (match m.(original) with Some original => inr original | None => marshal m end).

Definition marshalWithoutBindersECH (m : t) (outerExts : option (list Z)) : outcome (res bytes) :=
  cut_binders m (marshalMsgReorderOuterExts m true outerExts).

(** ** The expanded inner hello *)

(** The fallback of [marshalExpandedECH]: re-serialise from the fields. *)
Definition expanded_fallback (m : t) (extType : Z) : Builder -> Builder :=
  if extType =? extensionPSKModes then bwhen (0 <? len m.(pskModes)) (add_psk_modes m)
  else if extType =? extensionSupportedCurves then
    bwhen (0 <? len m.(supportedCurves)) (add_u16_list extensionSupportedCurves m.(supportedCurves))
  else if extType =? extensionALPN then bwhen (0 <? len m.(alpnProtocols)) (add_alpn m)
  else if extType =? extensionSignatureAlgorithms then
    bwhen (0 <? len m.(supportedSignatureAlgorithms))
      (add_u16_list extensionSignatureAlgorithms m.(supportedSignatureAlgorithms))
  else if extType =? extensionSignatureAlgorithmsCert then
    bwhen (0 <? len m.(supportedSignatureAlgorithmsCert))
      (add_u16_list extensionSignatureAlgorithmsCert m.(supportedSignatureAlgorithmsCert))
  else if extType =? extensionKeyShare then bwhen (0 <? len m.(keyShares)) (add_key_share m)
  else if extType =? extensionQUICTransportParameters then
    bwhen (0 <? len (slice_bytes m.(quicTransportParameters))) (add_quic_transport_parameters m)
  else if extType =? extensionRenegotiationInfo then
    bwhen m.(secureRenegotiationSupported) (add_renegotiation_info m)
  else if extType =? extensionSCT then
    bwhen m.(scts) (AddUint16 extensionSCT ;> AddUint16 0)
  else if extType =? extensionSupportedPoints then
    bwhen (0 <? len m.(supportedPoints)) (add_supported_points m)
  else if extType =? extensionSessionTicket then
    bwhen m.(ticketSupported) (add_session_ticket m)
  else if extType =? extensionStatusRequest then bwhen m.(ocspStapling) add_status_request
  else if extType =? extensionExtendedMasterSecret then
    bwhen m.(extendedMasterSecret) (AddUint16 extensionExtendedMasterSecret ;> AddUint16 0)
  else bnop.

(** One iteration over [outerExts]. *)
Definition expanded_ext (m : t) (outerExtRawBytes : gmap Z bytes) (extType : Z)
    : Builder -> Builder :=
  if (extType =? extensionServerName) || (extType =? extensionEncryptedClientHello)
     || (extType =? extensionPreSharedKey) then bnop
  else if negb (compressible extType) then bnop
  else match outerExtRawBytes !! extType with
       | Some rawBytes => AddBytes rawBytes
       | None => expanded_fallback m extType
       end.

Definition expanded_exts (m : t) (outerExts : list Z) (outerExtRawBytes : gmap Z bytes)
    : Builder -> Builder :=
  bwhen (0 <? len m.(encryptedClientHello)) (add_encrypted_client_hello m) ;>
  bwhen (0 <? len m.(serverName)) (add_server_name m) ;>
  for_each outerExts (expanded_ext m outerExtRawBytes) ;>
  bwhen (0 <? len m.(pskIdentities)) (add_pre_shared_key m).

Definition marshalExpandedECH (m : t) (outerExts : list Z) (outerExtRawBytes : gmap Z bytes)
    (outerSessionId : bytes) : res bytes :=
  try extBytes := Bytes (expanded_exts m outerExts outerExtRawBytes NewBuilder) in
  Bytes ((
    AddUint8 typeClientHello ;>
    AddUint24LengthPrefixed (
      AddUint16 VersionTLS12 ;>
      AddBytes m.(random) ;>
      AddUint8LengthPrefixed (AddBytes outerSessionId) ;>
      AddUint16LengthPrefixed (for_each m.(cipherSuites) (fun suite => AddUint16 suite)) ;>
      AddUint8LengthPrefixed (AddBytes m.(compressionMethods)) ;>
      bwhen (0 <? len extBytes) (
        AddUint16LengthPrefixed (AddBytes extBytes))))
    NewBuilder).

Definition marshalExpandedECHWithoutBinders (m : t) (outerExts : list Z)
    (outerExtRawBytes : gmap Z bytes) (outerSessionId : bytes) : outcome (res bytes) :=
  cut_binders m (marshalExpandedECH m outerExts outerExtRawBytes outerSessionId).

(** ** Binders *)

Definition updateBinders (m : t) (pskBinders' : list bytes) : res t :=
  if negb (len pskBinders' =? len m.(pskBinders))
  then inl (ErrorNew "tls: internal error: pskBinders length mismatch")
  else if List.forallb (fun '(new, old) => len new =? len old)
            (List.combine pskBinders' m.(pskBinders))
  then inr (set_pskBinders pskBinders' m)
  else inl (ErrorNew "tls: internal error: pskBinders length mismatch").

(** ** Unmarshalling *)

(** [strings.HasSuffix(name, ".")] *)
Definition has_dot_suffix (name : bytes) : bool := bool_decide (last name = Some (u8 0x2e)).

(** [for !nameList.Empty() { ... }] of server_name. *)
Definition server_name_body (name : bytes) (nameList : bytes) : option (bytes * bytes) :=
  read (nameType, nameList) := ReadUint8 nameList in
  read (serverName, nameList) := ReadUint16LengthPrefixed nameList in
  ensure negb (Empty serverName) in
  if negb (nameType =? 0) then Some (name, nameList) else
  ensure len name =? 0 in
  ensure negb (has_dot_suffix serverName) in
  Some (serverName, nameList).

Definition key_share_body (keyShares : list keyShare.t) (clientShares : bytes)
    : option (list keyShare.t * bytes) :=
  read (group, clientShares) := ReadUint16 clientShares in
  read (data, clientShares) := readUint16LengthPrefixed clientShares in
  ensure negb (len data =? 0) in
  Some (keyShares ++ [keyShare.Mk group data], clientShares).

Definition psk_identity_body (ids : list pskIdentity.t) (identities : bytes)
    : option (list pskIdentity.t * bytes) :=
  read (label, identities) := readUint16LengthPrefixed identities in
  read (age, identities) := ReadUint32 identities in
  ensure negb (len label =? 0) in
  Some (ids ++ [pskIdentity.Mk label age], identities).

Definition binder_body (pskBinders : list bytes) (binders : bytes) : option (list bytes * bytes) :=
  read (binder, binders) := readUint8LengthPrefixed binders in
  ensure negb (len binder =? 0) in
  Some (pskBinders ++ [binder], binders).

Definition alpn_body (protos : list bytes) (protoList : bytes) : option (list bytes * bytes) :=
  read (proto, protoList) := ReadUint8LengthPrefixed protoList in
  ensure negb (Empty proto) in
  Some (protos ++ [proto], protoList).

(** The pre_shared_key case; [rest] is what follows the extension. *)
Definition unmarshal_psk (m : t) (extData rest : bytes) : option t :=
  ensure Empty rest in
  read (identities, extData) := ReadUint16LengthPrefixed extData in
  ensure negb (Empty identities) in
  read ids := loop psk_identity_body m.(pskIdentities) identities in
  read (binders, extData) := ReadUint16LengthPrefixed extData in
  ensure negb (Empty binders) in
  read bs := loop binder_body m.(pskBinders) binders in
  ensure Empty extData in
  Some (set_pskBinders bs (set_pskIdentities ids m)).

(** The switch over the extension type. *)
Definition unmarshal_ext (m : t) (extension : Z) (extData rest : bytes) : option t :=
  if extension =? extensionServerName then
    read (nameList, extData) := ReadUint16LengthPrefixed extData in
    ensure negb (Empty nameList) in
    read name := loop server_name_body m.(serverName) nameList in
    ensure Empty extData in
    Some (set_serverName name m)
  else if extension =? extensionStatusRequest then
    read (statusType, extData) := ReadUint8 extData in
    read (ignored, extData) := ReadUint16LengthPrefixed extData in
    read (ignored, extData) := ReadUint16LengthPrefixed extData in
    ensure Empty extData in
    Some (set_ocspStapling (statusType =? statusTypeOCSP) m)
  else if extension =? extensionSupportedCurves then
    read (l, extData) := read_u16_list ReadUint16LengthPrefixed m.(supportedCurves) extData in
    ensure Empty extData in
    Some (set_supportedCurves l m)
  else if extension =? extensionSupportedPoints then
    read (v, extData) := readUint8LengthPrefixed extData in
    ensure negb (len v =? 0) in
    ensure Empty extData in
    Some (set_supportedPoints v m)
  else if extension =? extensionSessionTicket then
    let '(v, extData) :=
      match ReadBytes (len extData) extData with
      | Some r => r
      | None => (m.(sessionTicket), extData)
      end in
    ensure Empty extData in
    Some (set_sessionTicket v (set_ticketSupported true m))
  else if extension =? extensionSignatureAlgorithms then
    read (l, extData) :=
      read_u16_list ReadUint16LengthPrefixed m.(supportedSignatureAlgorithms) extData in
    ensure Empty extData in
    Some (set_supportedSignatureAlgorithms l m)
  else if extension =? extensionSignatureAlgorithmsCert then
    read (l, extData) :=
      read_u16_list ReadUint16LengthPrefixed m.(supportedSignatureAlgorithmsCert) extData in
    ensure Empty extData in
    Some (set_supportedSignatureAlgorithmsCert l m)
  else if extension =? extensionRenegotiationInfo then
    read (v, extData) := readUint8LengthPrefixed extData in
    ensure Empty extData in
    Some (set_secureRenegotiationSupported true (set_secureRenegotiation v m))
  else if extension =? extensionExtendedMasterSecret then
    ensure Empty extData in
    Some (set_extendedMasterSecret true m)
  else if extension =? extensionALPN then
    read (protoList, extData) := ReadUint16LengthPrefixed extData in
    ensure negb (Empty protoList) in
    read l := loop alpn_body m.(alpnProtocols) protoList in
    ensure Empty extData in
    Some (set_alpnProtocols l m)
  else if extension =? extensionSCT then
    ensure Empty extData in
    Some (set_scts true m)
  else if extension =? extensionSupportedVersions then
    read (l, extData) := read_u16_list ReadUint8LengthPrefixed m.(supportedVersions) extData in
    ensure Empty extData in
    Some (set_supportedVersions l m)
  else if extension =? extensionCookie then
    read (v, extData) := readUint16LengthPrefixed extData in
    ensure negb (len v =? 0) in
    ensure Empty extData in
    Some (set_cookie v m)
  else if extension =? extensionKeyShare then
    read (clientShares, extData) := ReadUint16LengthPrefixed extData in
    read l := loop key_share_body m.(keyShares) clientShares in
    ensure Empty extData in
    Some (set_keyShares l m)
  else if extension =? extensionEarlyData then
    ensure Empty extData in
    Some (set_earlyData true m)
  else if extension =? extensionPSKModes then
    read (v, extData) := readUint8LengthPrefixed extData in
    ensure Empty extData in
    Some (set_pskModes v m)
  else if extension =? extensionQUICTransportParameters then
    read (v, extData) := CopyBytes (len extData) extData in
    ensure Empty extData in
    Some (set_quicTransportParameters (Some v) m)
  else if extension =? extensionPreSharedKey then
    unmarshal_psk m extData rest
  else if extension =? extensionEncryptedClientHello then
    read (v, extData) := ReadBytes (len extData) extData in
    ensure Empty extData in
    Some (set_encryptedClientHello v m)
  else Some m.

(** [m.extensions = append(m.extensions, extension)], then the switch. *)
Definition unmarshal_logged (m : t) (extension : Z) (extData rest : bytes) : option t :=
  unmarshal_ext (set_extensions (m.(extensions) ++ [extension]) m) extension extData rest.

(** [for !cipherSuites.Empty() { ... }] *)
Definition suites_body (st : bool * list Z) (cipherSuites : bytes)
    : option ((bool * list Z) * bytes) :=
  read (suite, cipherSuites) := ReadUint16 cipherSuites in
  Some ((if suite =? scsvRenegotiation then true else st.1, st.2 ++ [suite]), cipherSuites).

Definition unmarshal (data : bytes) : option t :=
  read s := Skip 4 data in
  read (vers, s) := ReadUint16 s in
  read (random, s) := ReadBytes 32 s in
  read (sessionId, s) := readUint8LengthPrefixed s in
  read (suites, s) := ReadUint16LengthPrefixed s in
  read (reneg, cipherSuites) := loop suites_body (false, []) suites in
  read (compressionMethods, s) := readUint8LengthPrefixed s in
  let m := Mk (Some data) vers random sessionId cipherSuites compressionMethods [] false [] []
    false [] [] [] reneg [] false [] false [] [] [] false [] [] [] None [] [] false in
  optional_exts unmarshal_logged m s.

Definition originalBytes (m : t) : option bytes := m.(original).

(** [clone] copies neither [extensions] nor [nextProtoNeg]. *)
Definition clone (m : t) : t :=
  Mk m.(original) m.(vers) m.(random) m.(sessionId) m.(cipherSuites) m.(compressionMethods)
    m.(serverName) m.(ocspStapling) m.(supportedCurves) m.(supportedPoints) m.(ticketSupported)
    m.(sessionTicket) m.(supportedSignatureAlgorithms) m.(supportedSignatureAlgorithmsCert)
    m.(secureRenegotiationSupported) m.(secureRenegotiation) m.(extendedMasterSecret)
    m.(alpnProtocols) m.(scts) m.(supportedVersions) m.(cookie) m.(keyShares) m.(earlyData)
    m.(pskModes) m.(pskIdentities) m.(pskBinders) m.(quicTransportParameters)
    m.(encryptedClientHello) [] false.
End Ops.
End clientHelloMsg.

(** * Reading the items back *)

Section Items.
Context `{C : Cryptobyte} {Cok : CryptobyteOk C}.
Import clientHelloMsg.

Definition enc_keyShare (ks : keyShare.t) : bytes :=
  be 2 ks.(keyShare.group) ++ be 2 (len ks.(keyShare.data)) ++ ks.(keyShare.data).
Definition enc_psk (p : pskIdentity.t) : bytes :=
  (be 2 (len p.(pskIdentity.label)) ++ p.(pskIdentity.label)) ++ be 4 p.(pskIdentity.obfuscatedTicketAge).

Lemma key_share_body_shrinks : shrinks key_share_body.
Proof.
  intros st s st' s'. unfold key_share_body. autorewrite with cbspec.
  destruct (rd_uint 2 s) as [[v r]|] eqn:E; [|done]. autorewrite with cbspec.
  destruct (rd_lp 2 r) as [[d r']|] eqn:E'; [|done]. destruct (negb _); [|done]. intros [= <- <-].
  apply rd_uint_shrinks in E. apply rd_lp_shrinks in E'. unfold len in *. lia.
Qed.

Lemma psk_identity_body_shrinks : shrinks psk_identity_body.
Proof.
  intros st s st' s'. unfold psk_identity_body. autorewrite with cbspec.
  destruct (rd_lp 2 s) as [[d r]|] eqn:E'; [|done]. autorewrite with cbspec.
  destruct (rd_uint 4 r) as [[v r']|] eqn:E; [|done]. destruct (negb _); [|done]. intros [= <- <-].
  apply rd_uint_shrinks in E. apply rd_lp_shrinks in E'. unfold len in *. lia.
Qed.

Lemma binder_body_shrinks : shrinks binder_body.
Proof.
  intros st s st' s'. unfold binder_body. autorewrite with cbspec.
  destruct (rd_lp 1 s) as [[d r]|] eqn:E'; [|done]. destruct (negb _); [|done]. intros [= <- <-].
  apply rd_lp_shrinks in E'. unfold len in *. lia.
Qed.

Lemma alpn_body_shrinks : shrinks alpn_body.
Proof.
  intros st s st' s'. unfold alpn_body. autorewrite with cbspec.
  destruct (rd_lp 1 s) as [[d r]|] eqn:E'; [|done]. destruct (negb _); [|done]. intros [= <- <-].
  apply rd_lp_shrinks in E'. unfold len in *. lia.
Qed.

Lemma suites_body_shrinks : shrinks suites_body.
Proof.
  intros st s st' s'. unfold suites_body. autorewrite with cbspec.
  destruct (rd_uint 2 s) as [[v r]|] eqn:E; [|done]. intros [= <- <-].
  apply rd_uint_shrinks in E. unfold len in *. lia.
Qed.

Lemma server_name_body_shrinks : shrinks server_name_body.
Proof.
  intros st s st' s'. unfold server_name_body. autorewrite with cbspec.
  destruct (rd_uint 1 s) as [[v r]|] eqn:E; [|done]. autorewrite with cbspec.
  destruct (rd_lp 2 r) as [[d r']|] eqn:E'; [|done]. autorewrite with cbspec.
  apply rd_uint_shrinks in E. apply rd_lp_shrinks in E'. unfold len in *.
  intros H. repeat case_match; simplify_eq; lia.
Qed.

Lemma key_shares_enc l :
  Forall (fun ks => is_u16 ks.(keyShare.group) /\ len ks.(keyShare.data) < 2 ^ 16 /\ ks.(keyShare.data) <> []) l ->
  loop key_share_body [] (concat (map enc_keyShare l)) = Some l.
Proof.
  intros Hl.
  erewrite (loop_concat _ _ (fun acc x => acc ++ [x])); [by rewrite fold_left_snoc| | |done].
  - apply key_share_body_shrinks.
  - intros [g d] st r (Hg & Hd & Hne). unfold key_share_body, enc_keyShare. cbn in Hg, Hd, Hne. cbn [keyShare.group keyShare.data].
    parse. rewrite len_nonzero by done. done.
Qed.

Lemma psk_identities_enc l :
  Forall (fun p => is_u32 p.(pskIdentity.obfuscatedTicketAge) /\ len p.(pskIdentity.label) < 2 ^ 16 /\ p.(pskIdentity.label) <> []) l ->
  loop psk_identity_body [] (concat (map enc_psk l)) = Some l.
Proof.
  intros Hl.
  erewrite (loop_concat _ _ (fun acc x => acc ++ [x])); [by rewrite fold_left_snoc| | |done].
  - apply psk_identity_body_shrinks.
  - intros [g d] st r (Hg & Hd & Hne). unfold psk_identity_body, enc_psk. cbn in Hg, Hd, Hne.
    cbn [pskIdentity.label pskIdentity.obfuscatedTicketAge].
    parse. rewrite len_nonzero by done. done.
Qed.

Lemma binders_enc l :
  Forall (fun b => len b < 256 ^ Z.of_nat 1) l -> Forall (fun b => b <> []) l ->
  loop binder_body [] (concat (map (enc_lp 1) l)) = Some l.
Proof.
  intros H1 H2. unfold binder_body. rewrite (loop_lps 1); auto.
  intros s. by autorewrite with cbspec.
Qed.

Lemma alpn_enc l :
  Forall (fun b => len b < 256 ^ Z.of_nat 1) l -> Forall (fun b => b <> []) l ->
  loop alpn_body [] (concat (map (enc_lp 1) l)) = Some l.
Proof.
  intros H1 H2.
  erewrite (loop_concat _ _ (fun acc x => acc ++ [x])
    (fun x => len x < 256 ^ Z.of_nat 1 /\ x <> [])); [by rewrite fold_left_snoc| | |by apply Forall_and].
  - apply alpn_body_shrinks.
  - intros x st r [Hx Hne]. unfold alpn_body, enc_lp. parse. by destruct x.
Qed.

Lemma suites_enc l b :
  Forall is_u16 l ->
  loop suites_body (b, []) (enc_u16s l) =
    Some (b || List.existsb (fun s => s =? scsvRenegotiation) l, l).
Proof.
  intros Hl. unfold enc_u16s.
  erewrite (loop_concat _ (be 2)
    (fun st x => (if x =? scsvRenegotiation then true else st.1, st.2 ++ [x]))); [| | |done].
  - f_equal. clear Hl. enough (forall b acc, fold_left
      (fun st x => (if x =? scsvRenegotiation then true else st.1, st.2 ++ [x])) l (b, acc) =
      (b || List.existsb (fun s => s =? scsvRenegotiation) l, acc ++ l)) as H by apply H.
    induction l as [|x l IH]; intros b' acc; cbn [fold_left List.existsb].
    + by rewrite orb_false_r, app_nil_r.
    + cbn [fst snd]. rewrite IH, <- app_assoc. f_equal.
      destruct (x =? scsvRenegotiation), b'; done.
  - apply suites_body_shrinks.
  - intros x st r Hx. unfold suites_body. by parse.
Qed.

Lemma server_name_enc name :
  name <> [] -> has_dot_suffix name = false -> len name < 2 ^ 16 ->
  loop server_name_body [] (be 1 0 ++ be 2 (len name) ++ name) = Some name.
Proof.
  intros Hne Hdot Hl. rewrite loop_step; [|apply server_name_body_shrinks|done].
  unfold server_name_body at 1. parse. destruct name as [|b name]; [done|]. cbn [negb].
  change (0 =? 0) with true. cbn [negb]. change (len [] =? 0) with true. cbv iota.
  rewrite Hdot. cbn [negb]. apply loop_nil.
Qed.
End Items.

(** * Round trip *)

Section RoundTrip.
Context `{C : Cryptobyte} {Cok : CryptobyteOk C}.
Import clientHelloMsg.

(** The switch neither reads nor writes the log of extension numbers. *)
Lemma unmarshal_ext_log v m e d r :
  unmarshal_ext (set_extensions v m) e d r = set_extensions v <$> unmarshal_ext m e d r.
Proof.
  unfold unmarshal_ext, unmarshal_psk. destruct m; cbn [set_extensions serverName supportedCurves
    sessionTicket supportedSignatureAlgorithms supportedSignatureAlgorithmsCert alpnProtocols
    supportedVersions keyShares pskIdentities pskBinders].
  repeat (match goal with |- (if ?c then _ else _) = _ => destruct c; [repeat case_match; done|] end).
  done.
Qed.

Lemma run_exts_set_log v m l r :
  run_exts unmarshal_ext (set_extensions v m) l r = set_extensions v <$> run_exts unmarshal_ext m l r.
Proof.
  revert m. induction l as [|e l IH]; intros m; [done|]. cbn [run_exts].
  rewrite unmarshal_ext_log. destruct (unmarshal_ext m e.1 e.2 _); cbn; auto.
Qed.

Lemma run_exts_log m l r :
  run_exts unmarshal_logged m l r =
    set_extensions (m.(extensions) ++ map fst l) <$> run_exts unmarshal_ext m l r.
Proof.
  revert m. induction l as [|e l IH]; intros m; cbn [run_exts map].
  - rewrite app_nil_r. by destruct m.
  - unfold unmarshal_logged at 1. rewrite unmarshal_ext_log.
    destruct (unmarshal_ext m e.1 e.2 _) as [m1|] eqn:E; [|done]. cbn [fmap option_fmap option_map].
    rewrite IH, run_exts_set_log. destruct (run_exts unmarshal_ext m1 l r); [|done]. cbn.
    by rewrite <- app_assoc.
Qed.

(** The messages all of whose fields travel on the wire. *)
Record wf_clientHello (m : t) : Prop := {
  ch_vers : is_u16 m.(vers);
  ch_suites : Forall is_u16 m.(cipherSuites);
  ch_dot : has_dot_suffix m.(serverName) = false;
  ch_curves : Forall is_u16 m.(supportedCurves);
  ch_ticket : m.(ticketSupported) = false -> m.(sessionTicket) = [];
  ch_sigs : Forall is_u16 m.(supportedSignatureAlgorithms);
  ch_certsigs : Forall is_u16 m.(supportedSignatureAlgorithmsCert);
  ch_reneg : m.(secureRenegotiationSupported) = false ->
    m.(secureRenegotiation) = [] /\ scsvRenegotiation ∉ m.(cipherSuites);
  ch_alpn : Forall (fun p => p <> []) m.(alpnProtocols);
  ch_versions : Forall is_u16 m.(supportedVersions);
  ch_shares : Forall (fun ks => is_u16 ks.(keyShare.group) /\ ks.(keyShare.data) <> []) m.(keyShares);
  ch_ids : Forall (fun p => is_u32 p.(pskIdentity.obfuscatedTicketAge) /\
    p.(pskIdentity.label) <> []) m.(pskIdentities);
  ch_binders : Forall (fun b => b <> []) m.(pskBinders);
  ch_psk : m.(pskIdentities) = [] <-> m.(pskBinders) = [];
  ch_npn : m.(nextProtoNeg) = false
}.

(** The extension numbers of the message, in the order they are written. *)
Definition written_extensions (m : t) : list Z :=
  let opt (c : bool) (e : Z) := if c then [e] else [] in
  opt (0 <? len m.(serverName)) extensionServerName ++
  opt (0 <? len m.(supportedPoints)) extensionSupportedPoints ++
  opt m.(ticketSupported) extensionSessionTicket ++
  opt m.(secureRenegotiationSupported) extensionRenegotiationInfo ++
  opt m.(extendedMasterSecret) extensionExtendedMasterSecret ++
  opt m.(scts) extensionSCT ++
  opt m.(earlyData) extensionEarlyData ++
  opt (non_nil m.(quicTransportParameters)) extensionQUICTransportParameters ++
  opt (0 <? len m.(encryptedClientHello)) extensionEncryptedClientHello ++
  opt m.(ocspStapling) extensionStatusRequest ++
  opt (0 <? len m.(supportedCurves)) extensionSupportedCurves ++
  opt (0 <? len m.(supportedSignatureAlgorithms)) extensionSignatureAlgorithms ++
  opt (0 <? len m.(supportedSignatureAlgorithmsCert)) extensionSignatureAlgorithmsCert ++
  opt (0 <? len m.(alpnProtocols)) extensionALPN ++
  opt (0 <? len m.(supportedVersions)) extensionSupportedVersions ++
  opt (0 <? len m.(cookie)) extensionCookie ++
  opt (0 <? len m.(keyShares)) extensionKeyShare ++
  opt (0 <? len m.(pskModes)) extensionPSKModes ++
  opt (0 <? len m.(pskIdentities)) extensionPreSharedKey.

(** What [unmarshal] starts the extension loop with. *)
Definition empty_clientHello (orig : option bytes) (reneg : bool) (m : t) : t :=
  Mk orig m.(vers) m.(random) m.(sessionId) m.(cipherSuites) m.(compressionMethods) [] false [] []
    false [] [] [] reneg [] false [] false [] [] [] false [] [] [] None [] [] false.

Lemma emit_items {A} (d : A -> option bytes) (e : A -> bytes) P (l : list A) z :
  (forall x y, d x = Some y -> y = e x /\ P x) ->
  oconcat (map d l) = Some z -> z = concat (map e l) /\ Forall P l.
Proof. apply oconcat_Some. Qed.

Lemma emit_keyShares l z :
  oconcat (map (fun ks => oapp (Some (be 2 ks.(keyShare.group))) (olp 2 (Some ks.(keyShare.data)))) l) = Some z ->
  z = concat (map enc_keyShare l) /\ Forall (fun ks => len ks.(keyShare.data) < 2 ^ 16) l.
Proof. apply emit_items. intros x y H. inv_out. done. Qed.

Lemma emit_psks l z :
  oconcat (map (fun p => oapp (olp 2 (Some p.(pskIdentity.label))) (Some (be 4 p.(pskIdentity.obfuscatedTicketAge)))) l) = Some z ->
  z = concat (map enc_psk l) /\ Forall (fun p => len p.(pskIdentity.label) < 2 ^ 16) l.
Proof. apply emit_items. intros x y H. inv_out. done. Qed.

Lemma nonempty_concat {A} (e : A -> bytes) (l : list A) :
  (forall x, e x <> []) -> l <> [] -> concat (map e l) <> [].
Proof. destruct l as [|x l]; [done|]. intros He _ [H _]%app_eq_nil. by apply He in H. Qed.

Lemma enc_lp_nonempty n x : n <> O -> enc_lp n x <> [].
Proof. intros Hn H%(f_equal len). unfold enc_lp in H. autorewrite with cb in H. pose proof (len_nonneg x). lia. Qed.
Lemma enc_psk_nonempty x : enc_psk x <> [].
Proof. intros H%(f_equal len). unfold enc_psk in H. autorewrite with cb in H. pose proof (len_nonneg (pskIdentity.label x)). lia. Qed.

Lemma Forall_and3 {A} (P Q R : A -> Prop) l :
  Forall (fun x => P x /\ Q x) l -> Forall R l -> Forall (fun x => P x /\ R x /\ Q x) l.
Proof. intros H. induction H as [|x l [? ?] H IH]; inversion 1; subst; constructor; auto. Qed.

Lemma nonempty_match {A} (s : bytes) (x y : A) :
  s <> [] -> match s with [] => x | _ :: _ => y end = y.
Proof. by destruct s. Qed.

Lemma no_scsv l :
  scsvRenegotiation ∉ l -> List.existsb (fun s => s =? scsvRenegotiation) l = false.
Proof.
  intros Hl. apply not_true_is_false. intros (x & Hx & E%Z.eqb_eq)%List.existsb_exists.
  subst x. by apply Hl, list_elem_of_In.
Qed.

(** The blocks written by [plain_exts] for a plain hello are read back. *)
Lemma clientHello_exts m z orig reneg :
  wf_clientHello m -> (m.(secureRenegotiationSupported) = false -> reneg = false) -> Bytes (plain_exts m false None NewBuilder) = inr z ->
  exists l, z = enc_exts l /\ Forall wf_ext l /\ map fst l = written_extensions m /\
    NoDup (map fst l) /\
    run_exts unmarshal_ext (empty_clientHello orig reneg m) l [] =
      Some (set_extensions [] (set_original orig m)).
Proof.
  intros [] Hreneg H. unfold plain_exts, add_server_name, add_supported_points, add_session_ticket,
    add_renegotiation_info, add_quic_transport_parameters, add_encrypted_client_hello,
    add_status_request, add_u16_list, add_alpn, add_u16_list8, add_cookie, add_key_share,
    add_psk_modes, add_pre_shared_key in H.
  cbv zeta in H. cbn [negb] in H. rewrite !andb_true_r, andb_false_r in H. denote H.
  cbv iota in H. inv_exts. rewrite app_nil_l, <- !enc_exts_app.
  eexists. split; [reflexivity|]. split; [wf_exts|].
  split.
  { unfold written_extensions. rewrite !map_app.
    repeat (apply f_equal2; [by match goal with |- context [if ?c then _ else _] => destruct c end|]).
    by match goal with |- context [if ?c then _ else _] => destruct c end. }
  split; [nodup_exts|].
  ext_step (set_serverName m.(serverName)) by
    (unfold unmarshal_ext; ext_switch; parse;
     rewrite server_name_enc by (by try apply len_pos_true); by parse).
  ext_step (set_supportedPoints m.(supportedPoints)) by
    (unfold unmarshal_ext; ext_switch; parse; rewrite len_nonzero by (by apply len_pos_true); by parse).
  ext_step (fun st => set_ticketSupported m.(ticketSupported) (set_sessionTicket m.(sessionTicket) st)) by
    ext_solve else (by rewrite ch_ticket0).
  ext_step (fun st => set_secureRenegotiationSupported m.(secureRenegotiationSupported)
    (set_secureRenegotiation m.(secureRenegotiation) st)) by ext_solve
    else (destruct (ch_reneg0 eq_refl) as [-> ?]; by rewrite Hreneg).
  ext_step (set_extendedMasterSecret m.(extendedMasterSecret)) by ext_solve.
  ext_step (set_scts m.(scts)) by ext_solve.
  ext_step (set_earlyData m.(earlyData)) by ext_solve.
  ext_step (set_quicTransportParameters m.(quicTransportParameters)) by
    (unfold unmarshal_ext; ext_switch; parse; by destruct (quicTransportParameters m)).
  ext_step (set_encryptedClientHello m.(encryptedClientHello)) by ext_solve.
  ext_step (set_ocspStapling m.(ocspStapling)) by ext_solve.
  ext_step (set_supportedCurves m.(supportedCurves)) by ext_solve.
  ext_step (set_supportedSignatureAlgorithms m.(supportedSignatureAlgorithms)) by ext_solve.
  ext_step (set_supportedSignatureAlgorithmsCert m.(supportedSignatureAlgorithmsCert)) by ext_solve.
  ext_step (set_alpnProtocols m.(alpnProtocols)) by idtac.
  { match goal with H : oconcat _ = Some _ |- _ => apply emit_lps in H as [-> ?] end. unfold unmarshal_ext. ext_switch. parse.
    rewrite nonempty_match by (apply nonempty_concat; [intros; by apply enc_lp_nonempty|by apply len_pos_true]).
    cbn [negb]. rewrite alpn_enc by done. by parse. }
  ext_step (set_supportedVersions m.(supportedVersions)) by ext_solve.
  ext_step (set_cookie m.(cookie)) by
    (unfold unmarshal_ext; ext_switch; parse; rewrite len_nonzero by (by apply len_pos_true); by parse).
  ext_step (set_keyShares m.(keyShares)) by idtac.
  { match goal with H : oconcat _ = Some _ |- _ => apply emit_keyShares in H as [-> ?] end. unfold unmarshal_ext. ext_switch. parse.
    rewrite key_shares_enc; [by parse|by apply Forall_and3]. }
  ext_step (set_pskModes m.(pskModes)) by ext_solve.
  ext_step (fun st => set_pskBinders m.(pskBinders) (set_pskIdentities m.(pskIdentities) st)) by idtac
    else (apply len_pos_false in Hc; by rewrite Hc, (proj1 ch_psk0 Hc)).
  { match goal with H : oconcat (map _ m.(pskIdentities)) = Some _ |- _ => apply emit_psks in H as [-> ?] end.
    match goal with H : oconcat _ = Some _ |- _ => apply emit_lps in H as [-> ?] end.
    apply len_pos_true in Hc. unfold unmarshal_ext. ext_switch. unfold unmarshal_psk. parse. cbv iota.
    rewrite nonempty_match by (apply nonempty_concat; [apply enc_psk_nonempty|done]). cbn [negb].
    rewrite psk_identities_enc; [|by apply Forall_and3].
    parse. rewrite nonempty_match by (apply nonempty_concat; [intros; by apply enc_lp_nonempty|by rewrite <- ch_psk0]).
    cbn [negb]. rewrite binders_enc by done. by parse. }
  destruct m; cbn in *. by subst.
Qed.

Lemma clientHello_rt m x :
  wf_clientHello m -> m.(original) = None -> marshal m = inr x ->
  unmarshal x = Some (set_extensions (written_extensions m) (set_original (Some x) m)).
Proof.
  intros Hw Ho H. unfold marshal in H. rewrite Ho in H.
  unfold marshalMsg, marshalMsgReorderOuterExts, res_bind in H.
  destruct (Bytes (plain_exts m false None NewBuilder)) as [e|z] eqn:Ez; [done|].
  set (reneg := List.existsb (fun s => s =? scsvRenegotiation) m.(cipherSuites)).
  apply (clientHello_exts m z (Some x) reneg Hw) in Ez as (l & -> & Hl & Hids & Hnd & Hrun).
  2: { intros E. apply no_scsv. by apply Hw. }
  destruct Hw. unfold buildClientHello in H. denote H. unfold unmarshal.
  unfold empty_clientHello in Hrun. revert Hrun. generalize (Some x) as orig. intros orig Hrun.
  set (ex := if 0 <? len (enc_exts l) then _ else Some []) in H.
  destruct ex as [tail|] eqn:Ht; [|inv_out; done].
  destruct (len m.(random) =? 32) eqn:E32; [|inv_out; done]. apply Z.eqb_eq in E32.
  rewrite emit_u16s in H. cbn [negb] in H. inv_out. parse.
  rewrite suites_enc by done. cbn [orb]. parse. rewrite (optional_exts_enc _ _ l) by done.
  fold reneg. rewrite run_exts_log, Hrun, Hids. done.
Qed.
End RoundTrip.

(** * The parser accepts no duplicates, and pre_shared_key only at the end *)

Section Accepted.
Context `{C : Cryptobyte} {Cok : CryptobyteOk C}.
Import clientHelloMsg.

Lemma psk_block_last m l1 d l2 m' :
  run_exts unmarshal_ext m (l1 ++ (extensionPreSharedKey, d) :: l2) [] = Some m' -> l2 = [].
Proof.
  rewrite run_exts_app. destruct (run_exts _ m l1 _) as [m1|]; [|done]. cbn [run_exts fst snd].
  unfold unmarshal_ext at 1. change (extensionPreSharedKey =? extensionPreSharedKey) with true.
  cbn -[unmarshal_psk run_exts enc_exts]. unfold unmarshal_psk.
  destruct (Empty (enc_exts l2 ++ [])) eqn:E; [|done]. intros _.
  rewrite Empty_spec, app_nil_r in E. destruct (enc_exts l2) eqn:E2; [|done].
  by apply (enc_exts_nil l2).
Qed.

(** The fields before the extensions. *)
Definition header_fields (m : t) : Z * bytes * bytes * list Z * bytes :=
  (m.(vers), m.(random), m.(sessionId), m.(cipherSuites), m.(compressionMethods)).

Lemma ext_keeps_header m e d rest m' : unmarshal_ext m e d rest = Some m' -> header_fields m' = header_fields m.
Proof.
  unfold unmarshal_ext, unmarshal_psk. intros H. repeat case_match; try discriminate H; injection H as <-; reflexivity.
Qed.

(** The suites that the loop reads are the ones on the wire. *)
Lemma suites_read fuel b acc s st : while_nonempty suites_body fuel (b, acc) s = Some st ->
  exists l, s = enc_u16s l /\ st.2 = acc ++ l.
Proof.
  revert b acc s. induction fuel as [|fuel IH]; intros b acc s; cbn [while_nonempty]; rewrite Empty_spec; destruct s as [|x s].
  1, 3: intros [= <-]; exists []; by rewrite app_nil_r.
  { done. }
  unfold suites_body at 1. rewrite ReadUint16_spec. destruct (rd_uint 2 (x :: s)) as [[v r]|] eqn:E; [|done].
  apply rd_uint_eq in E as [-> _]. intros (l & -> & Hst)%IH. exists (v :: l). split; [done|]. cbn in Hst. by rewrite Hst, <- app_assoc.
Qed.

(** C28: whatever bytes [unmarshal] accepts as a ClientHello are, after four bytes of
    header, exactly the fields of the message in the order of the wire, then either
    nothing or a sequence of extension blocks with its length; no extension number
    occurs twice in these blocks, the message records their numbers in wire order,
    and a pre_shared_key block is the last one. *)
Theorem clientHello_accepted data m :
  unmarshal data = Some m ->
  exists hdr tail l,
    data = hdr ++ be 2 m.(vers) ++ m.(random) ++ enc_lp 1 m.(sessionId) ++ enc_lp 2 (enc_u16s m.(cipherSuites)) ++
      enc_lp 1 m.(compressionMethods) ++ tail /\
    len hdr = 4 /\ len m.(random) = 32 /\
    (tail = [] /\ l = [] \/ tail = be 2 (len (enc_exts l)) ++ enc_exts l) /\
    Forall wf_ext l /\ m.(extensions) = map fst l /\ NoDup (map fst l) /\
    (forall l1 d l2, l = l1 ++ (extensionPreSharedKey, d) :: l2 -> l2 = []).
Proof.
  unfold unmarshal. autorewrite with cbspec.
  destruct (rd_bytes 4 data) as [[h s]|] eqn:E1; [|done]. cbn [fmap option_fmap option_map snd].
  autorewrite with cbspec. destruct (rd_uint 2 s) as [[v s2]|] eqn:E2; [|done].
  autorewrite with cbspec. destruct (rd_bytes 32 s2) as [[rn s3]|] eqn:E3; [|done].
  autorewrite with cbspec. destruct (rd_lp 1 s3) as [[sid s4]|] eqn:E4; [|done].
  autorewrite with cbspec. destruct (rd_lp 2 s4) as [[cs s5]|] eqn:E5; [|done].
  destruct (loop suites_body _ cs) as [[rg suites]|] eqn:E6; [|done].
  autorewrite with cbspec. destruct (rd_lp 1 s5) as [[cm s6]|] eqn:E7; [|done].
  intros (l & Hs & Hl & Hnd & Hr)%optional_exts_inv.
  apply rd_bytes_eq in E1 as [-> H4]. apply rd_uint_eq in E2 as [-> _]. apply rd_bytes_eq in E3 as [-> H32].
  apply rd_lp_eq in E4 as [-> _]. apply rd_lp_eq in E5 as [-> _]. apply rd_lp_eq in E7 as [-> _].
  apply suites_read in E6 as (cs' & -> & Hcs). cbn in Hcs. subst cs'.
  rewrite run_exts_log in Hr. apply fmap_Some in Hr as (m1 & Er & ->). pose proof (run_exts_inv header_fields _ _ _ _ _ ext_keeps_header Er) as [= H1 H2 H3 H5 H6].
  exists h, s6, l. cbn [vers random sessionId cipherSuites compressionMethods extensions set_extensions] in *. rewrite H1, H2, H3, H5, H6.
  split; [unfold enc_lp; by rewrite <- !app_assoc|].
  split_and!; try done. intros l1 d l2 ->. by eapply psk_block_last.
Qed.
End Accepted.

(** * Binders

    The hello without its binders does not depend on the binders' values, and
    the complete hello is that prefix followed by the binder list. *)

Section Binders.
Context `{C : Cryptobyte} {Cok : CryptobyteOk C}.
Import clientHelloMsg.

Definition binder_bytes (binders : list bytes) : bytes :=
  let B := concat (map (enc_lp 1) binders) in be 2 (len B) ++ B.

Lemma len_binder_bytes m : len (binder_bytes m.(pskBinders)) = bindersLen m.
Proof.
  unfold binder_bytes, bindersLen. rewrite len_app, len_be.
  enough (forall l n, fold_left (fun n binder => n + 1 + len binder) l n =
    n + len (concat (map (enc_lp 1) l))) as -> by lia.
  induction l as [|x l IH]; intros n; cbn [fold_left map concat]; [rewrite len_nil; lia|].
  rewrite IH. unfold enc_lp at 2. autorewrite with cb. lia.
Qed.

(** Any hello: the statements [hdr] up to the compression methods, the
    extensions [pre] before pre_shared_key. *)
Definition hello_msg (hdr pre : Builder -> Builder) (m : t) : res bytes :=
  try extBytes := Bytes ((pre ;> bwhen (0 <? len m.(pskIdentities)) (add_pre_shared_key m)) NewBuilder) in
  Bytes ((
    AddUint8 typeClientHello ;>
    AddUint24LengthPrefixed (
      hdr ;>
      bwhen (0 <? len extBytes) (AddUint16LengthPrefixed (AddBytes extBytes))))
    NewBuilder).

Lemma emits_add_psk m :
  Emits (add_pre_shared_key m)
    (oext extensionPreSharedKey
      (oapp (olp 2 (oconcat (map (fun p => oapp (olp 2 (Some p.(pskIdentity.label)))
               (Some (be 4 p.(pskIdentity.obfuscatedTicketAge)))) m.(pskIdentities))))
            (olp 2 (oconcat (map (fun b => olp 1 (Some b)) m.(pskBinders)))))).
Proof. unfold add_pre_shared_key, oext. typeclasses eauto. Qed.

(** Binders with the lengths of [bs] can be written when those of [bs] can. *)
Lemma binders_same_length bs bs' z :
  Forall2 (fun b b' => len b = len b') bs bs' ->
  oconcat (map (fun b => olp 1 (Some b)) bs) = Some z ->
  oconcat (map (fun b => olp 1 (Some b)) bs') = Some (concat (map (enc_lp 1) bs')) /\
  len (concat (map (enc_lp 1) bs')) = len z.
Proof.
  intros H. revert z. induction H as [|b b' bs bs' Hb H IH]; intros z; cbn [map concat oconcat].
  - by intros [= <-].
  - intros (p & q & (c & [= <-] & Hc & ->)%olp_Some & Hq & ->)%oapp_Some.
    destruct (IH q Hq) as [-> E]. unfold olp. rewrite <- Hb.
    replace (len b <? 256 ^ Z.of_nat 1) with true by (symmetry; by apply Z.ltb_lt). unfold oapp. split.
    + by unfold enc_lp; rewrite Hb.
    + unfold enc_lp at 1. autorewrite with cb. lia.
Qed.

Lemma updateBinders_ok m bs m' :
  updateBinders m bs = inr m' ->
  m' = set_pskBinders bs m /\ Forall2 (fun b b' => len b = len b') m.(pskBinders) bs.
Proof.
  unfold updateBinders. destruct (Z.eqb_spec (len bs) (len m.(pskBinders))) as [Hl|]; [|done]. cbn [negb].
  destruct (List.forallb _ _) eqn:Hf; [|done]. intros [= <-]. split; [done|].
  revert Hl Hf. generalize m.(pskBinders) as old. clear m.
  induction bs as [|b bs IH]; intros [|o old] Hl Hf; unfold len in Hl; cbn [length] in Hl; try lia; [constructor|].
  cbn [List.combine List.forallb] in Hf. apply andb_true_iff in Hf as [Hb Hf]. apply Z.eqb_eq in Hb.
  constructor; [done|]. apply IH; [unfold len; lia|done].
Qed.

Definition psk_d (ids : list pskIdentity.t) (binders : list bytes) : option bytes :=
  oext extensionPreSharedKey
    (oapp (olp 2 (oconcat (map (fun p => oapp (olp 2 (Some p.(pskIdentity.label)))
             (Some (be 4 p.(pskIdentity.obfuscatedTicketAge)))) ids)))
          (olp 2 (oconcat (map (fun b => olp 1 (Some b)) binders)))).

Lemma psk_d_swap ids bs bs' z :
  Forall2 (fun b b' => len b = len b') bs bs' -> psk_d ids bs = Some z ->
  exists z0, z = z0 ++ binder_bytes bs /\ psk_d ids bs' = Some (z0 ++ binder_bytes bs') /\
    len (binder_bytes bs') = len (binder_bytes bs).
Proof.
  intros Hf. unfold psk_d, oext. intros H. apply oapp_Some in H as (p & q & [= <-] & H & ->).
  apply olp_Some in H as (c & H & Hc & ->). apply oapp_Some in H as (ib & bb & Hi & Hb & ->).
  apply olp_Some in Hb as (B & HB & HBl & ->). pose proof HB as [-> _]%emit_lps.
  destruct (binders_same_length _ _ _ Hf HB) as [HB' El]. rewrite Hi, HB'.
  set (B := concat (map (enc_lp 1) bs)) in *. set (B' := concat (map (enc_lp 1) bs')) in *.
  exists (be 2 extensionPreSharedKey ++ be 2 (len (ib ++ be 2 (len B) ++ B)) ++ ib).
  unfold binder_bytes. fold B B'. split; [by rewrite <- !app_assoc|].
  assert (E2 : olp 2 (Some B') = Some (be 2 (len B') ++ B')) by (apply olp_Some; eexists; split_and!; [done|lia|done]).
  rewrite E2. split.
  - unfold oapp at 2. unfold olp. rewrite !len_app, !len_be, El in *.
    replace (_ <? _) with true by (symmetry; apply Z.ltb_lt; lia).
    unfold oapp. by rewrite <- !app_assoc.
  - autorewrite with cb. lia.
Qed.

(** The central fact about truncation, for any hello. *)
Lemma hello_msg_binders hdr pre dh dp m bs m' x :
  Emits hdr dh -> Emits pre dp -> m.(pskIdentities) <> [] ->
  updateBinders m bs = inr m' -> hello_msg hdr pre m = inr x ->
  exists y, x = y ++ binder_bytes m.(pskBinders) /\
    hello_msg hdr pre m' = inr (y ++ binder_bytes bs) /\
    len (binder_bytes bs) = len (binder_bytes m.(pskBinders)).
Proof.
  intros Eh Ep Hid [-> Hf]%updateBinders_ok. unfold hello_msg, res_bind.
  change (pskIdentities (set_pskBinders bs m)) with (pskIdentities m).
  assert (Hpos : (0 <? len m.(pskIdentities)) = true) by (destruct (pskIdentities m); [done|apply len_pos_cons]).
  rewrite Hpos. cbn [bwhen].
  pose proof (emits_add_psk m) as Em. pose proof (emits_add_psk (set_pskBinders bs m)) as Em'.
  change (Emits (add_pre_shared_key m) (psk_d m.(pskIdentities) m.(pskBinders))) in Em.
  change (Emits (add_pre_shared_key (set_pskBinders bs m)) (psk_d m.(pskIdentities) bs)) in Em'.
  destruct (Bytes _) as [e|ext] eqn:Ex; [done|].
  apply (Bytes_emits _ _ _ (emits_seq _ _ _ _ Ep Em)) in Ex.
  apply oapp_Some in Ex as (p & z & -> & Hz & ->).
  destruct (psk_d_swap _ _ _ _ Hf Hz) as (z0 & -> & Hz' & El).
  assert (Ex' : Bytes ((pre ;> add_pre_shared_key (set_pskBinders bs m)) NewBuilder) =
    inr (p ++ z0 ++ binder_bytes bs)).
  { apply (Bytes_emits _ _ _ (emits_seq _ _ _ _ Ep Em')). by rewrite Hz'. }
  rewrite Ex'. intros H. denote H. rewrite !len_app in *.
  assert (E0 : 0 <? len p + (len z0 + len (binder_bytes m.(pskBinders))) = true).
  { apply Z.ltb_lt. unfold binder_bytes. rewrite !len_app, !len_be. pose proof (len_nonneg p).
    pose proof (len_nonneg z0). pose proof (len_nonneg (concat (map (enc_lp 1) m.(pskBinders)))). lia. }
  rewrite E0 in H. inv_out. rewrite !len_app, !len_be in *.
  match goal with |- context [be 3 ?n] => set (n3 := n) in * end.
  match goal with |- context [be 2 ?n] => set (n2 := n) in * end.
  exists (be 1 typeClientHello ++ be 3 n3 ++ x3 ++ be 2 n2 ++ p ++ z0).
  split; [by rewrite <- !app_assoc|]. split; [|done]. rewrite El. fold n2. rewrite E0. cbn [bwhen].
  match goal with |- Bytes (?f NewBuilder) = _ => eassert (E : Emits f _) by typeclasses eauto end.
  apply (Bytes_emits _ _ _ E).
  assert (Ho : olp 2 (Some (p ++ z0 ++ binder_bytes bs)) = Some (be 2 n2 ++ p ++ z0 ++ binder_bytes bs)).
  { apply olp_Some. eexists. split; [done|]. rewrite !len_app, El. done. }
  rewrite Ho. unfold oapp at 2. unfold olp. rewrite !len_app, len_be, El. fold n2. fold n3.
  replace (n3 <? _) with true by (symmetry; by apply Z.ltb_lt). unfold oapp.
  by rewrite <- !app_assoc.
Qed.

Lemma cut_binders_app m y :
  cut_binders m (inr (y ++ binder_bytes m.(pskBinders))) = Ret (inr y).
Proof.
  unfold cut_binders. rewrite <- len_binder_bytes, len_app.
  rewrite upto_app by lia. done.
Qed.

(** Binders.  For a hello with identities, the bytes hashed for the binders
    ([marshalWithoutBinders]) are the same before and after [updateBinders]
    replaces the placeholder binders by real ones of the same lengths, and the
    hello finally sent is that prefix followed by the new binder list. *)
Theorem plain_truncation m bs m' x :
  m.(original) = None -> m.(pskIdentities) <> [] ->
  updateBinders m bs = inr m' -> marshal m = inr x ->
  exists y, x = y ++ binder_bytes m.(pskBinders) /\ marshal m' = inr (y ++ binder_bytes bs) /\
    marshalWithoutBinders m = Ret (inr y) /\ marshalWithoutBinders m' = Ret (inr y).
Proof.
  intros Ho Hid Hu Hx. pose proof Hu as [Hm' _]%updateBinders_ok.
  assert (Ho' : m'.(original) = None) by (by subst m').
  unfold marshalWithoutBinders, marshal in *. rewrite Ho, Ho' in *.
  pose (hdr := AddUint16 m.(vers) ;> addBytesWithLength m.(random) 32 ;>
    AddUint8LengthPrefixed (bwhen true (AddBytes m.(sessionId))) ;>
    AddUint16LengthPrefixed (for_each m.(cipherSuites) (fun suite => AddUint16 suite)) ;>
    AddUint8LengthPrefixed (AddBytes m.(compressionMethods))).
  pose (pre := plain_exts (set_pskIdentities [] m) false None).
  assert (E : forall n, n = m \/ n = m' -> marshalMsg n false = hello_msg hdr pre n).
  { intros n [-> | ->]; [|subst m']; reflexivity. }
  eassert (Eh : Emits hdr _) by (unfold hdr; typeclasses eauto).
  eassert (Ep : Emits pre _).
  { unfold pre, plain_exts, add_server_name, add_supported_points, add_session_ticket,
    add_renegotiation_info, add_quic_transport_parameters, add_encrypted_client_hello,
    add_status_request, add_u16_list, add_alpn, add_u16_list8, add_cookie, add_key_share,
    add_psk_modes, add_pre_shared_key. typeclasses eauto. }
  rewrite !E in * by auto.
  destruct (hello_msg_binders _ _ _ _ _ _ _ _ Eh Ep Hid Hu Hx) as (y & -> & E' & El).
  exists y. split_and!; [done|by rewrite E'|rewrite Hx; apply cut_binders_app|].
  rewrite E'. subst m'. apply (cut_binders_app (set_pskBinders bs m)).
Qed.

Lemma emits_self f d : Emits f d -> Emits f (out (f NewBuilder)).
Proof. intros E. by rewrite (emits_new f d E). Qed.

Lemma emits_expanded_ext m raw e :
  Emits (expanded_ext m raw e) (out (expanded_ext m raw e NewBuilder)).
Proof.
  unfold expanded_ext. destruct (_ || _ || _); [eapply emits_self; typeclasses eauto|].
  destruct (negb _); [eapply emits_self; typeclasses eauto|].
  destruct (raw !! e); [eapply emits_self; typeclasses eauto|].
  unfold expanded_fallback, add_server_name, add_supported_points, add_session_ticket,
    add_renegotiation_info, add_quic_transport_parameters, add_encrypted_client_hello,
    add_status_request, add_u16_list, add_alpn, add_u16_list8, add_cookie, add_key_share,
    add_psk_modes.
  repeat match goal with |- context [if ?c then _ else _] => destruct c; [eapply emits_self; typeclasses eauto|] end.
  eapply emits_self; typeclasses eauto.
Qed.

(** The same for the expanded inner hello over which the binders of an
    encrypted hello are computed. *)
Theorem expanded_truncation m bs m' outer raw sid x :
  m.(pskIdentities) <> [] ->
  updateBinders m bs = inr m' -> marshalExpandedECH m outer raw sid = inr x ->
  exists y, x = y ++ binder_bytes m.(pskBinders) /\
    marshalExpandedECH m' outer raw sid = inr (y ++ binder_bytes bs) /\
    marshalExpandedECHWithoutBinders m outer raw sid = Ret (inr y) /\
    marshalExpandedECHWithoutBinders m' outer raw sid = Ret (inr y).
Proof.
  intros Hid Hu Hx. pose proof Hu as [Hm' _]%updateBinders_ok.
  unfold marshalExpandedECHWithoutBinders.
  pose (hdr := AddUint16 VersionTLS12 ;> AddBytes m.(random) ;>
    AddUint8LengthPrefixed (AddBytes sid) ;>
    AddUint16LengthPrefixed (for_each m.(cipherSuites) (fun suite => AddUint16 suite)) ;>
    AddUint8LengthPrefixed (AddBytes m.(compressionMethods))).
  pose (pre := bwhen (0 <? len m.(encryptedClientHello)) (add_encrypted_client_hello m) ;>
    bwhen (0 <? len m.(serverName)) (add_server_name m) ;>
    for_each outer (expanded_ext m raw)).
  assert (E : forall n, n = m \/ n = m' -> marshalExpandedECH n outer raw sid = hello_msg hdr pre n).
  { intros n [-> | ->]; [|subst m']; reflexivity. }
  eassert (Eh : Emits hdr _) by (unfold hdr; typeclasses eauto).
  pose proof (emits_expanded_ext m raw).
  eassert (Ep : Emits pre _).
  { unfold pre, add_server_name, add_encrypted_client_hello. typeclasses eauto. }
  rewrite !E in * by auto.
  destruct (hello_msg_binders _ _ _ _ _ _ _ _ Eh Ep Hid Hu Hx) as (y & -> & E' & El).
  exists y. split_and!; [done|by rewrite E'|rewrite Hx; apply cut_binders_app|].
  rewrite E'. subst m'. apply (cut_binders_app (set_pskBinders bs m)).
Qed.
End Binders.

(** * Examples *)

(** A hello with a name, a ticket, a key share and a pre-shared key. *)
Definition example_hello : clientHelloMsg.t :=
  clientHelloMsg.Mk None VersionTLS12 (replicate 32 x01) (be 4 99) [0x1301; 0xc02f] [x00] (be 4 0x61626364)
    true [X25519] [x00] true (be 2 5) [0x0403] [] true [] true [be 2 0x6832] false
    [VersionTLS13; VersionTLS12] [] [keyShare.Mk X25519 (be 4 1)] false [x01]
    [pskIdentity.Mk (be 3 17) 1000] [replicate 32 x07] (Some []) [] [] false.

Definition example_bytes : bytes :=
  match @clientHelloMsg.marshal Reference.ops example_hello with inr x => x | inl _ => [] end.

Definition example_read : clientHelloMsg.t :=
  clientHelloMsg.set_extensions (written_extensions example_hello)
    (clientHelloMsg.set_original (Some example_bytes) example_hello).

Definition new_binders : list bytes := [replicate 32 x09].

Lemma clientHello_accepted_witness :
  @clientHelloMsg.unmarshal Reference.ops example_bytes = Some example_read /\
  exists (hdr tail : bytes) l, len hdr = 4 /\ (tail = [] /\ l = [] \/ tail = be 2 (len (enc_exts l)) ++ enc_exts l) /\
    example_read.(clientHelloMsg.extensions) = map fst l /\
    (forall l1 d l2, l = l1 ++ (extensionPreSharedKey, d) :: l2 -> l2 = []).
Proof.
  split; [vm_compute; reflexivity|].
  destruct (@clientHello_accepted Reference.ops Reference.ok example_bytes example_read) as (hdr & tail & l & _ & H1 & _ & H2 & _ & H3 & _ & H4);
    [vm_compute; reflexivity|].
  exists hdr, tail, l. split; [exact H1|]. split; [exact H2|]. split; [exact H3|exact H4].
Defined.

Lemma plain_truncation_witness :
  exists y, example_bytes = y ++ binder_bytes example_hello.(clientHelloMsg.pskBinders) /\
    @clientHelloMsg.marshal Reference.ops (clientHelloMsg.set_pskBinders new_binders example_hello) =
      inr (y ++ binder_bytes new_binders) /\
    @clientHelloMsg.marshalWithoutBinders Reference.ops example_hello = Ret (inr y) /\
    @clientHelloMsg.marshalWithoutBinders Reference.ops
      (clientHelloMsg.set_pskBinders new_binders example_hello) = Ret (inr y).
Proof.
  apply (@plain_truncation Reference.ops Reference.ok example_hello new_binders
    (clientHelloMsg.set_pskBinders new_binders example_hello) example_bytes).
  - reflexivity.
  - discriminate.
  - vm_compute. reflexivity.
  - vm_compute. reflexivity.
Defined.

Definition example_outer : list Z := [0x1a1a; extensionKeyShare; extensionServerName; extensionSupportedVersions].
Definition example_expanded : bytes :=
  match @clientHelloMsg.marshalExpandedECH Reference.ops example_hello example_outer ∅ (be 4 7)
  with inr x => x | inl _ => [] end.

Lemma expanded_truncation_witness :
  exists y, example_expanded = y ++ binder_bytes example_hello.(clientHelloMsg.pskBinders) /\
    @clientHelloMsg.marshalExpandedECH Reference.ops
      (clientHelloMsg.set_pskBinders new_binders example_hello) example_outer ∅ (be 4 7) =
      inr (y ++ binder_bytes new_binders) /\
    @clientHelloMsg.marshalExpandedECHWithoutBinders Reference.ops example_hello example_outer ∅ (be 4 7) =
      Ret (inr y) /\
    @clientHelloMsg.marshalExpandedECHWithoutBinders Reference.ops
      (clientHelloMsg.set_pskBinders new_binders example_hello) example_outer ∅ (be 4 7) = Ret (inr y).
Proof.
  apply (@expanded_truncation Reference.ops Reference.ok example_hello new_binders
    (clientHelloMsg.set_pskBinders new_binders example_hello) example_outer ∅ (be 4 7) example_expanded).
  - discriminate.
  - vm_compute. reflexivity.
  - vm_compute. reflexivity.
Defined.
