(* ===== verification/Public.v ===== *)
(** * The public form of the ClientHello

    u_public.go: [PubClientHelloMsg], the exported copy of [clientHelloMsg] on
    which uTLS and its users work, the conversions between the two, and the
    exported parser and marshaller. *)

From S2P Require Import Prelude Cryptobyte Common Codec Buffer Messages ClientHello.

(** [KeyShare] of u_public.go. *)
Module KeyShare.
Record t := Mk { Group : Z; Data : bytes }.
End KeyShare.

(** [PskIdentity] of u_public.go. *)
Module PskIdentity.
Record t := Mk { Label : bytes; ObfuscatedTicketAge : Z }.
End PskIdentity.

(** [PubClientHelloMsg] of u_public.go. *)
Module PubClientHelloMsg.
Record t := Mk {
  Raw : option bytes;
  Vers : Z;
  Random : bytes;
  SessionId : bytes;
  CipherSuites : list Z;
  CompressionMethods : bytes;
  NextProtoNeg : bool;
  ServerName : bytes;
  OcspStapling : bool;
  Scts : bool;
  Ems : bool;
  SupportedCurves : list Z;
  SupportedPoints : bytes;
  TicketSupported : bool;
  SessionTicket : bytes;
  SupportedSignatureAlgorithms : list Z;
  SecureRenegotiation : bytes;
  SecureRenegotiationSupported : bool;
  AlpnProtocols : list bytes;
  SupportedSignatureAlgorithmsCert : list Z;
  SupportedVersions : list Z;
  Cookie : bytes;
  KeyShares : list KeyShare.t;
  EarlyData : bool;
  PskModes : bytes;
  PskIdentities : list PskIdentity.t;
  PskBinders : list bytes;
  QuicTransportParameters : option bytes;
  cachedPrivateHello : option clientHelloMsg.t;
  encryptedClientHello : bytes
}.

Definition set_Raw (v : option bytes) (m : t) : t :=
  Mk v m.(Vers) m.(Random) m.(SessionId) m.(CipherSuites) m.(CompressionMethods)
    m.(NextProtoNeg) m.(ServerName) m.(OcspStapling) m.(Scts) m.(Ems)
    m.(SupportedCurves) m.(SupportedPoints) m.(TicketSupported) m.(SessionTicket)
    m.(SupportedSignatureAlgorithms) m.(SecureRenegotiation)
    m.(SecureRenegotiationSupported) m.(AlpnProtocols)
    m.(SupportedSignatureAlgorithmsCert) m.(SupportedVersions) m.(Cookie) m.(KeyShares)
    m.(EarlyData) m.(PskModes) m.(PskIdentities) m.(PskBinders)
    m.(QuicTransportParameters) m.(cachedPrivateHello) m.(encryptedClientHello).
Definition set_Vers (v : Z) (m : t) : t :=
  Mk m.(Raw) v m.(Random) m.(SessionId) m.(CipherSuites) m.(CompressionMethods)
    m.(NextProtoNeg) m.(ServerName) m.(OcspStapling) m.(Scts) m.(Ems)
    m.(SupportedCurves) m.(SupportedPoints) m.(TicketSupported) m.(SessionTicket)
    m.(SupportedSignatureAlgorithms) m.(SecureRenegotiation)
    m.(SecureRenegotiationSupported) m.(AlpnProtocols)
    m.(SupportedSignatureAlgorithmsCert) m.(SupportedVersions) m.(Cookie) m.(KeyShares)
    m.(EarlyData) m.(PskModes) m.(PskIdentities) m.(PskBinders)
    m.(QuicTransportParameters) m.(cachedPrivateHello) m.(encryptedClientHello).
Definition set_Random (v : bytes) (m : t) : t :=
  Mk m.(Raw) m.(Vers) v m.(SessionId) m.(CipherSuites) m.(CompressionMethods)
    m.(NextProtoNeg) m.(ServerName) m.(OcspStapling) m.(Scts) m.(Ems)
    m.(SupportedCurves) m.(SupportedPoints) m.(TicketSupported) m.(SessionTicket)
    m.(SupportedSignatureAlgorithms) m.(SecureRenegotiation)
    m.(SecureRenegotiationSupported) m.(AlpnProtocols)
    m.(SupportedSignatureAlgorithmsCert) m.(SupportedVersions) m.(Cookie) m.(KeyShares)
    m.(EarlyData) m.(PskModes) m.(PskIdentities) m.(PskBinders)
    m.(QuicTransportParameters) m.(cachedPrivateHello) m.(encryptedClientHello).
Definition set_SessionId (v : bytes) (m : t) : t :=
  Mk m.(Raw) m.(Vers) m.(Random) v m.(CipherSuites) m.(CompressionMethods) m.(NextProtoNeg)
    m.(ServerName) m.(OcspStapling) m.(Scts) m.(Ems) m.(SupportedCurves)
    m.(SupportedPoints) m.(TicketSupported) m.(SessionTicket)
    m.(SupportedSignatureAlgorithms) m.(SecureRenegotiation)
    m.(SecureRenegotiationSupported) m.(AlpnProtocols)
    m.(SupportedSignatureAlgorithmsCert) m.(SupportedVersions) m.(Cookie) m.(KeyShares)
    m.(EarlyData) m.(PskModes) m.(PskIdentities) m.(PskBinders)
    m.(QuicTransportParameters) m.(cachedPrivateHello) m.(encryptedClientHello).
Definition set_CipherSuites (v : list Z) (m : t) : t :=
  Mk m.(Raw) m.(Vers) m.(Random) m.(SessionId) v m.(CompressionMethods) m.(NextProtoNeg)
    m.(ServerName) m.(OcspStapling) m.(Scts) m.(Ems) m.(SupportedCurves)
    m.(SupportedPoints) m.(TicketSupported) m.(SessionTicket)
    m.(SupportedSignatureAlgorithms) m.(SecureRenegotiation)
    m.(SecureRenegotiationSupported) m.(AlpnProtocols)
    m.(SupportedSignatureAlgorithmsCert) m.(SupportedVersions) m.(Cookie) m.(KeyShares)
    m.(EarlyData) m.(PskModes) m.(PskIdentities) m.(PskBinders)
    m.(QuicTransportParameters) m.(cachedPrivateHello) m.(encryptedClientHello).
Definition set_CompressionMethods (v : bytes) (m : t) : t :=
  Mk m.(Raw) m.(Vers) m.(Random) m.(SessionId) m.(CipherSuites) v m.(NextProtoNeg)
    m.(ServerName) m.(OcspStapling) m.(Scts) m.(Ems) m.(SupportedCurves)
    m.(SupportedPoints) m.(TicketSupported) m.(SessionTicket)
    m.(SupportedSignatureAlgorithms) m.(SecureRenegotiation)
    m.(SecureRenegotiationSupported) m.(AlpnProtocols)
    m.(SupportedSignatureAlgorithmsCert) m.(SupportedVersions) m.(Cookie) m.(KeyShares)
    m.(EarlyData) m.(PskModes) m.(PskIdentities) m.(PskBinders)
    m.(QuicTransportParameters) m.(cachedPrivateHello) m.(encryptedClientHello).
Definition set_NextProtoNeg (v : bool) (m : t) : t :=
  Mk m.(Raw) m.(Vers) m.(Random) m.(SessionId) m.(CipherSuites) m.(CompressionMethods) v
    m.(ServerName) m.(OcspStapling) m.(Scts) m.(Ems) m.(SupportedCurves)
    m.(SupportedPoints) m.(TicketSupported) m.(SessionTicket)
    m.(SupportedSignatureAlgorithms) m.(SecureRenegotiation)
    m.(SecureRenegotiationSupported) m.(AlpnProtocols)
    m.(SupportedSignatureAlgorithmsCert) m.(SupportedVersions) m.(Cookie) m.(KeyShares)
    m.(EarlyData) m.(PskModes) m.(PskIdentities) m.(PskBinders)
    m.(QuicTransportParameters) m.(cachedPrivateHello) m.(encryptedClientHello).
Definition set_ServerName (v : bytes) (m : t) : t :=
  Mk m.(Raw) m.(Vers) m.(Random) m.(SessionId) m.(CipherSuites) m.(CompressionMethods)
    m.(NextProtoNeg) v m.(OcspStapling) m.(Scts) m.(Ems) m.(SupportedCurves)
    m.(SupportedPoints) m.(TicketSupported) m.(SessionTicket)
    m.(SupportedSignatureAlgorithms) m.(SecureRenegotiation)
    m.(SecureRenegotiationSupported) m.(AlpnProtocols)
    m.(SupportedSignatureAlgorithmsCert) m.(SupportedVersions) m.(Cookie) m.(KeyShares)
    m.(EarlyData) m.(PskModes) m.(PskIdentities) m.(PskBinders)
    m.(QuicTransportParameters) m.(cachedPrivateHello) m.(encryptedClientHello).
Definition set_OcspStapling (v : bool) (m : t) : t :=
  Mk m.(Raw) m.(Vers) m.(Random) m.(SessionId) m.(CipherSuites) m.(CompressionMethods)
    m.(NextProtoNeg) m.(ServerName) v m.(Scts) m.(Ems) m.(SupportedCurves)
    m.(SupportedPoints) m.(TicketSupported) m.(SessionTicket)
    m.(SupportedSignatureAlgorithms) m.(SecureRenegotiation)
    m.(SecureRenegotiationSupported) m.(AlpnProtocols)
    m.(SupportedSignatureAlgorithmsCert) m.(SupportedVersions) m.(Cookie) m.(KeyShares)
    m.(EarlyData) m.(PskModes) m.(PskIdentities) m.(PskBinders)
    m.(QuicTransportParameters) m.(cachedPrivateHello) m.(encryptedClientHello).
Definition set_Scts (v : bool) (m : t) : t :=
  Mk m.(Raw) m.(Vers) m.(Random) m.(SessionId) m.(CipherSuites) m.(CompressionMethods)
    m.(NextProtoNeg) m.(ServerName) m.(OcspStapling) v m.(Ems) m.(SupportedCurves)
    m.(SupportedPoints) m.(TicketSupported) m.(SessionTicket)
    m.(SupportedSignatureAlgorithms) m.(SecureRenegotiation)
    m.(SecureRenegotiationSupported) m.(AlpnProtocols)
    m.(SupportedSignatureAlgorithmsCert) m.(SupportedVersions) m.(Cookie) m.(KeyShares)
    m.(EarlyData) m.(PskModes) m.(PskIdentities) m.(PskBinders)
    m.(QuicTransportParameters) m.(cachedPrivateHello) m.(encryptedClientHello).
Definition set_Ems (v : bool) (m : t) : t :=
  Mk m.(Raw) m.(Vers) m.(Random) m.(SessionId) m.(CipherSuites) m.(CompressionMethods)
    m.(NextProtoNeg) m.(ServerName) m.(OcspStapling) m.(Scts) v m.(SupportedCurves)
    m.(SupportedPoints) m.(TicketSupported) m.(SessionTicket)
    m.(SupportedSignatureAlgorithms) m.(SecureRenegotiation)
    m.(SecureRenegotiationSupported) m.(AlpnProtocols)
    m.(SupportedSignatureAlgorithmsCert) m.(SupportedVersions) m.(Cookie) m.(KeyShares)
    m.(EarlyData) m.(PskModes) m.(PskIdentities) m.(PskBinders)
    m.(QuicTransportParameters) m.(cachedPrivateHello) m.(encryptedClientHello).
Definition set_SupportedCurves (v : list Z) (m : t) : t :=
  Mk m.(Raw) m.(Vers) m.(Random) m.(SessionId) m.(CipherSuites) m.(CompressionMethods)
    m.(NextProtoNeg) m.(ServerName) m.(OcspStapling) m.(Scts) m.(Ems) v
    m.(SupportedPoints) m.(TicketSupported) m.(SessionTicket)
    m.(SupportedSignatureAlgorithms) m.(SecureRenegotiation)
    m.(SecureRenegotiationSupported) m.(AlpnProtocols)
    m.(SupportedSignatureAlgorithmsCert) m.(SupportedVersions) m.(Cookie) m.(KeyShares)
    m.(EarlyData) m.(PskModes) m.(PskIdentities) m.(PskBinders)
    m.(QuicTransportParameters) m.(cachedPrivateHello) m.(encryptedClientHello).
Definition set_SupportedPoints (v : bytes) (m : t) : t :=
  Mk m.(Raw) m.(Vers) m.(Random) m.(SessionId) m.(CipherSuites) m.(CompressionMethods)
    m.(NextProtoNeg) m.(ServerName) m.(OcspStapling) m.(Scts) m.(Ems)
    m.(SupportedCurves) v m.(TicketSupported) m.(SessionTicket)
    m.(SupportedSignatureAlgorithms) m.(SecureRenegotiation)
    m.(SecureRenegotiationSupported) m.(AlpnProtocols)
    m.(SupportedSignatureAlgorithmsCert) m.(SupportedVersions) m.(Cookie) m.(KeyShares)
    m.(EarlyData) m.(PskModes) m.(PskIdentities) m.(PskBinders)
    m.(QuicTransportParameters) m.(cachedPrivateHello) m.(encryptedClientHello).
Definition set_TicketSupported (v : bool) (m : t) : t :=
  Mk m.(Raw) m.(Vers) m.(Random) m.(SessionId) m.(CipherSuites) m.(CompressionMethods)
    m.(NextProtoNeg) m.(ServerName) m.(OcspStapling) m.(Scts) m.(Ems)
    m.(SupportedCurves) m.(SupportedPoints) v m.(SessionTicket)
    m.(SupportedSignatureAlgorithms) m.(SecureRenegotiation)
    m.(SecureRenegotiationSupported) m.(AlpnProtocols)
    m.(SupportedSignatureAlgorithmsCert) m.(SupportedVersions) m.(Cookie) m.(KeyShares)
    m.(EarlyData) m.(PskModes) m.(PskIdentities) m.(PskBinders)
    m.(QuicTransportParameters) m.(cachedPrivateHello) m.(encryptedClientHello).
Definition set_SessionTicket (v : bytes) (m : t) : t :=
  Mk m.(Raw) m.(Vers) m.(Random) m.(SessionId) m.(CipherSuites) m.(CompressionMethods)
    m.(NextProtoNeg) m.(ServerName) m.(OcspStapling) m.(Scts) m.(Ems)
    m.(SupportedCurves) m.(SupportedPoints) m.(TicketSupported) v
    m.(SupportedSignatureAlgorithms) m.(SecureRenegotiation)
    m.(SecureRenegotiationSupported) m.(AlpnProtocols)
    m.(SupportedSignatureAlgorithmsCert) m.(SupportedVersions) m.(Cookie) m.(KeyShares)
    m.(EarlyData) m.(PskModes) m.(PskIdentities) m.(PskBinders)
    m.(QuicTransportParameters) m.(cachedPrivateHello) m.(encryptedClientHello).
Definition set_SupportedSignatureAlgorithms (v : list Z) (m : t) : t :=
  Mk m.(Raw) m.(Vers) m.(Random) m.(SessionId) m.(CipherSuites) m.(CompressionMethods)
    m.(NextProtoNeg) m.(ServerName) m.(OcspStapling) m.(Scts) m.(Ems)
    m.(SupportedCurves) m.(SupportedPoints) m.(TicketSupported) m.(SessionTicket) v
    m.(SecureRenegotiation) m.(SecureRenegotiationSupported) m.(AlpnProtocols)
    m.(SupportedSignatureAlgorithmsCert) m.(SupportedVersions) m.(Cookie) m.(KeyShares)
    m.(EarlyData) m.(PskModes) m.(PskIdentities) m.(PskBinders)
    m.(QuicTransportParameters) m.(cachedPrivateHello) m.(encryptedClientHello).
Definition set_SecureRenegotiation (v : bytes) (m : t) : t :=
  Mk m.(Raw) m.(Vers) m.(Random) m.(SessionId) m.(CipherSuites) m.(CompressionMethods)
    m.(NextProtoNeg) m.(ServerName) m.(OcspStapling) m.(Scts) m.(Ems)
    m.(SupportedCurves) m.(SupportedPoints) m.(TicketSupported) m.(SessionTicket)
    m.(SupportedSignatureAlgorithms) v m.(SecureRenegotiationSupported)
    m.(AlpnProtocols) m.(SupportedSignatureAlgorithmsCert) m.(SupportedVersions)
    m.(Cookie) m.(KeyShares) m.(EarlyData) m.(PskModes) m.(PskIdentities) m.(PskBinders)
    m.(QuicTransportParameters) m.(cachedPrivateHello) m.(encryptedClientHello).
Definition set_SecureRenegotiationSupported (v : bool) (m : t) : t :=
  Mk m.(Raw) m.(Vers) m.(Random) m.(SessionId) m.(CipherSuites) m.(CompressionMethods)
    m.(NextProtoNeg) m.(ServerName) m.(OcspStapling) m.(Scts) m.(Ems)
    m.(SupportedCurves) m.(SupportedPoints) m.(TicketSupported) m.(SessionTicket)
    m.(SupportedSignatureAlgorithms) m.(SecureRenegotiation) v m.(AlpnProtocols)
    m.(SupportedSignatureAlgorithmsCert) m.(SupportedVersions) m.(Cookie) m.(KeyShares)
    m.(EarlyData) m.(PskModes) m.(PskIdentities) m.(PskBinders)
    m.(QuicTransportParameters) m.(cachedPrivateHello) m.(encryptedClientHello).
Definition set_AlpnProtocols (v : list bytes) (m : t) : t :=
  Mk m.(Raw) m.(Vers) m.(Random) m.(SessionId) m.(CipherSuites) m.(CompressionMethods)
    m.(NextProtoNeg) m.(ServerName) m.(OcspStapling) m.(Scts) m.(Ems)
    m.(SupportedCurves) m.(SupportedPoints) m.(TicketSupported) m.(SessionTicket)
    m.(SupportedSignatureAlgorithms) m.(SecureRenegotiation)
    m.(SecureRenegotiationSupported) v m.(SupportedSignatureAlgorithmsCert)
    m.(SupportedVersions) m.(Cookie) m.(KeyShares) m.(EarlyData) m.(PskModes)
    m.(PskIdentities) m.(PskBinders) m.(QuicTransportParameters) m.(cachedPrivateHello)
    m.(encryptedClientHello).
Definition set_SupportedSignatureAlgorithmsCert (v : list Z) (m : t) : t :=
  Mk m.(Raw) m.(Vers) m.(Random) m.(SessionId) m.(CipherSuites) m.(CompressionMethods)
    m.(NextProtoNeg) m.(ServerName) m.(OcspStapling) m.(Scts) m.(Ems)
    m.(SupportedCurves) m.(SupportedPoints) m.(TicketSupported) m.(SessionTicket)
    m.(SupportedSignatureAlgorithms) m.(SecureRenegotiation)
    m.(SecureRenegotiationSupported) m.(AlpnProtocols) v m.(SupportedVersions)
    m.(Cookie) m.(KeyShares) m.(EarlyData) m.(PskModes) m.(PskIdentities) m.(PskBinders)
    m.(QuicTransportParameters) m.(cachedPrivateHello) m.(encryptedClientHello).
Definition set_SupportedVersions (v : list Z) (m : t) : t :=
  Mk m.(Raw) m.(Vers) m.(Random) m.(SessionId) m.(CipherSuites) m.(CompressionMethods)
    m.(NextProtoNeg) m.(ServerName) m.(OcspStapling) m.(Scts) m.(Ems)
    m.(SupportedCurves) m.(SupportedPoints) m.(TicketSupported) m.(SessionTicket)
    m.(SupportedSignatureAlgorithms) m.(SecureRenegotiation)
    m.(SecureRenegotiationSupported) m.(AlpnProtocols)
    m.(SupportedSignatureAlgorithmsCert) v m.(Cookie) m.(KeyShares) m.(EarlyData)
    m.(PskModes) m.(PskIdentities) m.(PskBinders) m.(QuicTransportParameters)
    m.(cachedPrivateHello) m.(encryptedClientHello).
Definition set_Cookie (v : bytes) (m : t) : t :=
  Mk m.(Raw) m.(Vers) m.(Random) m.(SessionId) m.(CipherSuites) m.(CompressionMethods)
    m.(NextProtoNeg) m.(ServerName) m.(OcspStapling) m.(Scts) m.(Ems)
    m.(SupportedCurves) m.(SupportedPoints) m.(TicketSupported) m.(SessionTicket)
    m.(SupportedSignatureAlgorithms) m.(SecureRenegotiation)
    m.(SecureRenegotiationSupported) m.(AlpnProtocols)
    m.(SupportedSignatureAlgorithmsCert) m.(SupportedVersions) v m.(KeyShares)
    m.(EarlyData) m.(PskModes) m.(PskIdentities) m.(PskBinders)
    m.(QuicTransportParameters) m.(cachedPrivateHello) m.(encryptedClientHello).
Definition set_KeyShares (v : list KeyShare.t) (m : t) : t :=
  Mk m.(Raw) m.(Vers) m.(Random) m.(SessionId) m.(CipherSuites) m.(CompressionMethods)
    m.(NextProtoNeg) m.(ServerName) m.(OcspStapling) m.(Scts) m.(Ems)
    m.(SupportedCurves) m.(SupportedPoints) m.(TicketSupported) m.(SessionTicket)
    m.(SupportedSignatureAlgorithms) m.(SecureRenegotiation)
    m.(SecureRenegotiationSupported) m.(AlpnProtocols)
    m.(SupportedSignatureAlgorithmsCert) m.(SupportedVersions) m.(Cookie) v
    m.(EarlyData) m.(PskModes) m.(PskIdentities) m.(PskBinders)
    m.(QuicTransportParameters) m.(cachedPrivateHello) m.(encryptedClientHello).
Definition set_EarlyData (v : bool) (m : t) : t :=
  Mk m.(Raw) m.(Vers) m.(Random) m.(SessionId) m.(CipherSuites) m.(CompressionMethods)
    m.(NextProtoNeg) m.(ServerName) m.(OcspStapling) m.(Scts) m.(Ems)
    m.(SupportedCurves) m.(SupportedPoints) m.(TicketSupported) m.(SessionTicket)
    m.(SupportedSignatureAlgorithms) m.(SecureRenegotiation)
    m.(SecureRenegotiationSupported) m.(AlpnProtocols)
    m.(SupportedSignatureAlgorithmsCert) m.(SupportedVersions) m.(Cookie) m.(KeyShares)
    v m.(PskModes) m.(PskIdentities) m.(PskBinders) m.(QuicTransportParameters)
    m.(cachedPrivateHello) m.(encryptedClientHello).
Definition set_PskModes (v : bytes) (m : t) : t :=
  Mk m.(Raw) m.(Vers) m.(Random) m.(SessionId) m.(CipherSuites) m.(CompressionMethods)
    m.(NextProtoNeg) m.(ServerName) m.(OcspStapling) m.(Scts) m.(Ems)
    m.(SupportedCurves) m.(SupportedPoints) m.(TicketSupported) m.(SessionTicket)
    m.(SupportedSignatureAlgorithms) m.(SecureRenegotiation)
    m.(SecureRenegotiationSupported) m.(AlpnProtocols)
    m.(SupportedSignatureAlgorithmsCert) m.(SupportedVersions) m.(Cookie) m.(KeyShares)
    m.(EarlyData) v m.(PskIdentities) m.(PskBinders) m.(QuicTransportParameters)
    m.(cachedPrivateHello) m.(encryptedClientHello).
Definition set_PskIdentities (v : list PskIdentity.t) (m : t) : t :=
  Mk m.(Raw) m.(Vers) m.(Random) m.(SessionId) m.(CipherSuites) m.(CompressionMethods)
    m.(NextProtoNeg) m.(ServerName) m.(OcspStapling) m.(Scts) m.(Ems)
    m.(SupportedCurves) m.(SupportedPoints) m.(TicketSupported) m.(SessionTicket)
    m.(SupportedSignatureAlgorithms) m.(SecureRenegotiation)
    m.(SecureRenegotiationSupported) m.(AlpnProtocols)
    m.(SupportedSignatureAlgorithmsCert) m.(SupportedVersions) m.(Cookie) m.(KeyShares)
    m.(EarlyData) m.(PskModes) v m.(PskBinders) m.(QuicTransportParameters)
    m.(cachedPrivateHello) m.(encryptedClientHello).
Definition set_PskBinders (v : list bytes) (m : t) : t :=
  Mk m.(Raw) m.(Vers) m.(Random) m.(SessionId) m.(CipherSuites) m.(CompressionMethods)
    m.(NextProtoNeg) m.(ServerName) m.(OcspStapling) m.(Scts) m.(Ems)
    m.(SupportedCurves) m.(SupportedPoints) m.(TicketSupported) m.(SessionTicket)
    m.(SupportedSignatureAlgorithms) m.(SecureRenegotiation)
    m.(SecureRenegotiationSupported) m.(AlpnProtocols)
    m.(SupportedSignatureAlgorithmsCert) m.(SupportedVersions) m.(Cookie) m.(KeyShares)
    m.(EarlyData) m.(PskModes) m.(PskIdentities) v m.(QuicTransportParameters)
    m.(cachedPrivateHello) m.(encryptedClientHello).
Definition set_QuicTransportParameters (v : option bytes) (m : t) : t :=
  Mk m.(Raw) m.(Vers) m.(Random) m.(SessionId) m.(CipherSuites) m.(CompressionMethods)
    m.(NextProtoNeg) m.(ServerName) m.(OcspStapling) m.(Scts) m.(Ems)
    m.(SupportedCurves) m.(SupportedPoints) m.(TicketSupported) m.(SessionTicket)
    m.(SupportedSignatureAlgorithms) m.(SecureRenegotiation)
    m.(SecureRenegotiationSupported) m.(AlpnProtocols)
    m.(SupportedSignatureAlgorithmsCert) m.(SupportedVersions) m.(Cookie) m.(KeyShares)
    m.(EarlyData) m.(PskModes) m.(PskIdentities) m.(PskBinders) v m.(cachedPrivateHello)
    m.(encryptedClientHello).
Definition set_cachedPrivateHello (v : option clientHelloMsg.t) (m : t) : t :=
  Mk m.(Raw) m.(Vers) m.(Random) m.(SessionId) m.(CipherSuites) m.(CompressionMethods)
    m.(NextProtoNeg) m.(ServerName) m.(OcspStapling) m.(Scts) m.(Ems)
    m.(SupportedCurves) m.(SupportedPoints) m.(TicketSupported) m.(SessionTicket)
    m.(SupportedSignatureAlgorithms) m.(SecureRenegotiation)
    m.(SecureRenegotiationSupported) m.(AlpnProtocols)
    m.(SupportedSignatureAlgorithmsCert) m.(SupportedVersions) m.(Cookie) m.(KeyShares)
    m.(EarlyData) m.(PskModes) m.(PskIdentities) m.(PskBinders)
    m.(QuicTransportParameters) v m.(encryptedClientHello).
Definition set_encryptedClientHello (v : bytes) (m : t) : t :=
  Mk m.(Raw) m.(Vers) m.(Random) m.(SessionId) m.(CipherSuites) m.(CompressionMethods)
    m.(NextProtoNeg) m.(ServerName) m.(OcspStapling) m.(Scts) m.(Ems)
    m.(SupportedCurves) m.(SupportedPoints) m.(TicketSupported) m.(SessionTicket)
    m.(SupportedSignatureAlgorithms) m.(SecureRenegotiation)
    m.(SecureRenegotiationSupported) m.(AlpnProtocols)
    m.(SupportedSignatureAlgorithmsCert) m.(SupportedVersions) m.(Cookie) m.(KeyShares)
    m.(EarlyData) m.(PskModes) m.(PskIdentities) m.(PskBinders)
    m.(QuicTransportParameters) m.(cachedPrivateHello) v.

End PubClientHelloMsg.

(** ** Conversions *)

Definition KeyShare_ToPrivate (ks : KeyShare.t) : keyShare.t := keyShare.Mk ks.(KeyShare.Group) ks.(KeyShare.Data).
Definition keyShare_ToPublic (ks : keyShare.t) : KeyShare.t := KeyShare.Mk ks.(keyShare.group) ks.(keyShare.data).
Definition KeyShares_ToPrivate (KSS : list KeyShare.t) : list keyShare.t := map KeyShare_ToPrivate KSS.
Definition keyShares_ToPublic (kss : list keyShare.t) : list KeyShare.t := map keyShare_ToPublic kss.
Definition PskIdentities_ToPrivate (PSS : list PskIdentity.t) : list pskIdentity.t :=
  map (fun PS => pskIdentity.Mk PS.(PskIdentity.Label) PS.(PskIdentity.ObfuscatedTicketAge)) PSS.
Definition pskIdentities_ToPublic (pss : list pskIdentity.t) : list PskIdentity.t :=
  map (fun ps => PskIdentity.Mk ps.(pskIdentity.label) ps.(pskIdentity.obfuscatedTicketAge)) pss.

(** [getPrivatePtr] builds the private message and keeps it as the cache. *)
Definition getPrivatePtr (chm : PubClientHelloMsg.t) : PubClientHelloMsg.t * clientHelloMsg.t :=
  let private := {|
    clientHelloMsg.original := chm.(PubClientHelloMsg.Raw);
    clientHelloMsg.vers := chm.(PubClientHelloMsg.Vers);
    clientHelloMsg.random := chm.(PubClientHelloMsg.Random);
    clientHelloMsg.sessionId := chm.(PubClientHelloMsg.SessionId);
    clientHelloMsg.cipherSuites := chm.(PubClientHelloMsg.CipherSuites);
    clientHelloMsg.compressionMethods := chm.(PubClientHelloMsg.CompressionMethods);
    clientHelloMsg.serverName := chm.(PubClientHelloMsg.ServerName);
    clientHelloMsg.ocspStapling := chm.(PubClientHelloMsg.OcspStapling);
    clientHelloMsg.supportedCurves := chm.(PubClientHelloMsg.SupportedCurves);
    clientHelloMsg.supportedPoints := chm.(PubClientHelloMsg.SupportedPoints);
    clientHelloMsg.ticketSupported := chm.(PubClientHelloMsg.TicketSupported);
    clientHelloMsg.sessionTicket := chm.(PubClientHelloMsg.SessionTicket);
    clientHelloMsg.supportedSignatureAlgorithms := chm.(PubClientHelloMsg.SupportedSignatureAlgorithms);
    clientHelloMsg.supportedSignatureAlgorithmsCert := chm.(PubClientHelloMsg.SupportedSignatureAlgorithmsCert);
    clientHelloMsg.secureRenegotiationSupported := chm.(PubClientHelloMsg.SecureRenegotiationSupported);
    clientHelloMsg.secureRenegotiation := chm.(PubClientHelloMsg.SecureRenegotiation);
    clientHelloMsg.extendedMasterSecret := chm.(PubClientHelloMsg.Ems);
    clientHelloMsg.alpnProtocols := chm.(PubClientHelloMsg.AlpnProtocols);
    clientHelloMsg.scts := chm.(PubClientHelloMsg.Scts);
    clientHelloMsg.supportedVersions := chm.(PubClientHelloMsg.SupportedVersions);
    clientHelloMsg.cookie := chm.(PubClientHelloMsg.Cookie);
    clientHelloMsg.keyShares := KeyShares_ToPrivate chm.(PubClientHelloMsg.KeyShares);
    clientHelloMsg.earlyData := chm.(PubClientHelloMsg.EarlyData);
    clientHelloMsg.pskModes := chm.(PubClientHelloMsg.PskModes);
    clientHelloMsg.pskIdentities := PskIdentities_ToPrivate chm.(PubClientHelloMsg.PskIdentities);
    clientHelloMsg.pskBinders := chm.(PubClientHelloMsg.PskBinders);
    clientHelloMsg.quicTransportParameters := chm.(PubClientHelloMsg.QuicTransportParameters);
    clientHelloMsg.encryptedClientHello := chm.(PubClientHelloMsg.encryptedClientHello);
    clientHelloMsg.extensions := [];
    clientHelloMsg.nextProtoNeg := chm.(PubClientHelloMsg.NextProtoNeg)
  |} in
  (PubClientHelloMsg.set_cachedPrivateHello (Some private) chm, private).

Definition getCachedPrivatePtr (chm : PubClientHelloMsg.t) : option clientHelloMsg.t :=
  chm.(PubClientHelloMsg.cachedPrivateHello).

Definition getPublicPtr (chm : clientHelloMsg.t) : PubClientHelloMsg.t := {|
  PubClientHelloMsg.Raw := chm.(clientHelloMsg.original);
  PubClientHelloMsg.Vers := chm.(clientHelloMsg.vers);
  PubClientHelloMsg.Random := chm.(clientHelloMsg.random);
  PubClientHelloMsg.SessionId := chm.(clientHelloMsg.sessionId);
  PubClientHelloMsg.CipherSuites := chm.(clientHelloMsg.cipherSuites);
  PubClientHelloMsg.CompressionMethods := chm.(clientHelloMsg.compressionMethods);
  PubClientHelloMsg.NextProtoNeg := chm.(clientHelloMsg.nextProtoNeg);
  PubClientHelloMsg.ServerName := chm.(clientHelloMsg.serverName);
  PubClientHelloMsg.OcspStapling := chm.(clientHelloMsg.ocspStapling);
  PubClientHelloMsg.Scts := chm.(clientHelloMsg.scts);
  PubClientHelloMsg.Ems := chm.(clientHelloMsg.extendedMasterSecret);
  PubClientHelloMsg.SupportedCurves := chm.(clientHelloMsg.supportedCurves);
  PubClientHelloMsg.SupportedPoints := chm.(clientHelloMsg.supportedPoints);
  PubClientHelloMsg.TicketSupported := chm.(clientHelloMsg.ticketSupported);
  PubClientHelloMsg.SessionTicket := chm.(clientHelloMsg.sessionTicket);
  PubClientHelloMsg.SupportedSignatureAlgorithms := chm.(clientHelloMsg.supportedSignatureAlgorithms);
  PubClientHelloMsg.SecureRenegotiation := chm.(clientHelloMsg.secureRenegotiation);
  PubClientHelloMsg.SecureRenegotiationSupported := chm.(clientHelloMsg.secureRenegotiationSupported);
  PubClientHelloMsg.AlpnProtocols := chm.(clientHelloMsg.alpnProtocols);
  PubClientHelloMsg.SupportedSignatureAlgorithmsCert := chm.(clientHelloMsg.supportedSignatureAlgorithmsCert);
  PubClientHelloMsg.SupportedVersions := chm.(clientHelloMsg.supportedVersions);
  PubClientHelloMsg.Cookie := chm.(clientHelloMsg.cookie);
  PubClientHelloMsg.KeyShares := keyShares_ToPublic chm.(clientHelloMsg.keyShares);
  PubClientHelloMsg.EarlyData := chm.(clientHelloMsg.earlyData);
  PubClientHelloMsg.PskModes := chm.(clientHelloMsg.pskModes);
  PubClientHelloMsg.PskIdentities := pskIdentities_ToPublic chm.(clientHelloMsg.pskIdentities);
  PubClientHelloMsg.PskBinders := chm.(clientHelloMsg.pskBinders);
  PubClientHelloMsg.QuicTransportParameters := chm.(clientHelloMsg.quicTransportParameters);
  PubClientHelloMsg.cachedPrivateHello := Some chm;
  PubClientHelloMsg.encryptedClientHello := chm.(clientHelloMsg.encryptedClientHello)
|}.

Section Exported.
Context `{C : Cryptobyte}.

Definition UnmarshalClientHello (data : bytes) : option PubClientHelloMsg.t :=
  read m := clientHelloMsg.unmarshal data in Some (getPublicPtr m).

Definition Marshal (chm : PubClientHelloMsg.t) : res bytes := clientHelloMsg.marshal (getPrivatePtr chm).2.
End Exported.

(** ** Theorems *)

Lemma keyShares_private_public l : KeyShares_ToPrivate (keyShares_ToPublic l) = l.
Proof. unfold KeyShares_ToPrivate, keyShares_ToPublic. rewrite map_map. rewrite <- (map_id l) at 2. by apply map_ext; intros []. Qed.

Lemma pskIdentities_private_public l : PskIdentities_ToPrivate (pskIdentities_ToPublic l) = l.
Proof. unfold PskIdentities_ToPrivate, pskIdentities_ToPublic. rewrite map_map. rewrite <- (map_id l) at 2. by apply map_ext; intros []. Qed.

(** Making a message public and private again loses only the list of extension
    numbers that the parser recorded. *)
Lemma private_of_public m : (getPrivatePtr (getPublicPtr m)).2 = clientHelloMsg.set_extensions [] m.
Proof.
  destruct m. unfold getPrivatePtr, getPublicPtr, clientHelloMsg.set_extensions. cbn.
  by rewrite keyShares_private_public, pskIdentities_private_public.
Qed.

Section Exported.
Context `{C : Cryptobyte} {Cok : CryptobyteOk C}.

(** A message that the library marshals and external code parses with
    [UnmarshalClientHello] marshals to the same bytes both from its fields alone
    (when [Raw] is cleared) and, as long as [Raw] is left in place, whatever is
    done to the other fields: an edited hello keeps its old bytes until [Raw]
    is cleared. *)
Theorem exported_round_trip m x :
  wf_clientHello m -> m.(clientHelloMsg.original) = None -> clientHelloMsg.marshal m = inr x ->
  exists p, UnmarshalClientHello x = Some p /\
    Marshal (PubClientHelloMsg.set_Raw None p) = inr x /\
    forall q, q.(PubClientHelloMsg.Raw) = p.(PubClientHelloMsg.Raw) -> Marshal q = inr x.
Proof.
  intros Hw Ho H. unfold UnmarshalClientHello. rewrite (clientHello_rt m x Hw Ho H).
  eexists. split; [reflexivity|]. split.
  - rewrite <- H. destruct m. cbn in Ho. subst. unfold Marshal, getPrivatePtr. cbn -[clientHelloMsg.marshal].
    by rewrite keyShares_private_public, pskIdentities_private_public.
  - intros q Hq. unfold Marshal, clientHelloMsg.marshal, getPrivatePtr. cbn. by rewrite Hq.
Qed.
End Exported.

Lemma exported_round_trip_witness :
  exists p, @UnmarshalClientHello Reference.ops example_bytes = Some p /\
    @Marshal Reference.ops (PubClientHelloMsg.set_Raw None p) = inr example_bytes.
Proof.
  destruct (@exported_round_trip Reference.ops Reference.ok example_hello example_bytes) as (p & Hp & Hm & _).
  - constructor; cbn [example_hello]; repeat constructor; try (unfold is_u16, is_u32; cbn; done || lia).
  - reflexivity.
  - vm_compute. reflexivity.
  - exact (ex_intro _ p (conj Hp Hm)).
Defined.
