(* ===== verification/Extensions.v ===== *)
(** * The client extensions

    Models u_tls_extensions.go, trust_anchors.go and u_session_ticket.go: the
    types that implement the interface [TLSExtension], one Module per type with
    its fields, [Len], [Read] (the extension written into a buffer), [Write]
    (the extension filled from a captured body) and [writeToUConn] (its effect
    on the connection's hello and configuration).

    [Read e b] is the buffer afterwards, the number of bytes and the error,
    which is never nil: [io.EOF] is success.  [Write] returns the filled
    extension and the number of bytes; on an error the caller drops both.

    [TLSExtensionOk] is what a marshaller relies on: an extension announces the
    length of its block, refuses a shorter buffer without touching it, and
    fills a zeroed one with exactly its block. *)

From S2P Require Import Prelude Cryptobyte Common Config Codec Buffer Names Quic Messages Ticket Public.

(** ** The connection, as the extensions see it *)

(** The fields of [UConn] that the extensions read or write; [rand] are the
    results of the next reads of eight bytes from crypto/rand. *)
Module UConn.
Record t := Mk {
  config : Config.t;
  Hello : PubClientHelloMsg.t;
  certCompressionAlgs : list Z;
  handshakes : Z;
  clientFinished : bytes;
  rand : list (option Z)
}.

Definition set_config (v : Config.t) (m : t) : t :=
  Mk v m.(Hello) m.(certCompressionAlgs) m.(handshakes) m.(clientFinished) m.(rand).
Definition set_Hello (v : PubClientHelloMsg.t) (m : t) : t :=
  Mk m.(config) v m.(certCompressionAlgs) m.(handshakes) m.(clientFinished) m.(rand).
Definition set_certCompressionAlgs (v : list Z) (m : t) : t :=
  Mk m.(config) m.(Hello) v m.(handshakes) m.(clientFinished) m.(rand).
Definition set_handshakes (v : Z) (m : t) : t :=
  Mk m.(config) m.(Hello) m.(certCompressionAlgs) v m.(clientFinished) m.(rand).
Definition set_clientFinished (v : bytes) (m : t) : t :=
  Mk m.(config) m.(Hello) m.(certCompressionAlgs) m.(handshakes) v m.(rand).
Definition set_rand (v : list (option Z)) (m : t) : t :=
  Mk m.(config) m.(Hello) m.(certCompressionAlgs) m.(handshakes) m.(clientFinished) v.

End UConn.

Abbreviation hello_set f uc := (UConn.set_Hello (f (UConn.Hello uc)) uc).
Abbreviation config_set f uc := (UConn.set_config (f (UConn.config uc)) uc).

(** ** The interface *)

(** The result of [Read]: the buffer, and the pair it returns. *)
Abbreviation read_result := (outcome (bytes * (Z * gerror))).

(** [return 0, io.ErrShortBuffer] and [return e.Len(), io.EOF] after the writes. *)
Definition shortBuffer (b : bytes) : read_result := Ret (b, (0, ErrShortBuffer)).
Definition written (n : Z) (writes : bytes -> outcome bytes) (b : bytes) : read_result :=
  run b := writes b in Ret (b, (n, EOF)).

Class TLSExtension (E : Type) := {
  Len : E -> Z;
  Read : E -> bytes -> read_result
}.

(** The bytes of a block that may be absent. *)
Definition wire (o : option (Z * bytes)) : bytes :=
  match o with Some e => enc_ext e | None => [] end.

(** What the marshaller relies on, for an extension in a state [ready] to be sent. *)
Class TLSExtensionOk (E : Type) `{TLSExtension E} := {
  ready : E -> Prop;
  block : E -> option (Z * bytes);
  Len_block e : ready e -> Len e = len (wire (block e));
  Read_short e b : ready e -> len b < Len e -> Read e b = Ret (b, (0, ErrShortBuffer));
  Read_block e rest : ready e ->
    Read e (replicate (length (wire (block e))) x00 ++ rest) =
    Ret (wire (block e) ++ rest, (Len e, EOF))
}.

(** ** The extension types *)

(** [for i, v := range l { b[off+i] = v }] *)
Fixpoint put_bytes (off : Z) (l : bytes) : bytes -> outcome bytes :=
  match l with
  | [] => wnop
  | v :: l => put off (b2z v) ;! put_bytes (off + 1) l
  end.

(** server_name *)
Module SNIExtension.
Record t := Mk { ServerName : bytes }.

Definition Len (e : t) : Z :=
  let hostName := hostnameInSNI e.(ServerName) in
  if len hostName =? 0 then 0 else 4 + 2 + 1 + 2 + len hostName.

Definition Read (e : t) (b : bytes) : read_result :=
  let hostName := hostnameInSNI e.(ServerName) in
  if len hostName =? 0 then Ret (b, (0, EOF)) else
  if len b <? Len e then shortBuffer b else
  written (Len e)
    (put16 0 extensionServerName ;!
     put16 2 (len hostName + 5) ;!
     put16 4 (len hostName + 3) ;!
     put16 7 (len hostName) ;!
     copy_at 9 hostName) b.

Definition err : gerror := ErrorNew "unable to read server name extension data".

(** [for !nameList.Empty() { ... }] *)
Fixpoint read_names `{Cryptobyte} (fuel : nat) (serverName nameList : bytes) : res bytes :=
  if Empty nameList then inr serverName else
  match fuel with
  | O => inl err
  | S fuel =>
      readE (nameType, nameList) := ReadUint8 nameList or err in
      readE (serverNameBytes, nameList) := ReadUint16LengthPrefixed nameList or err in
      if Empty serverNameBytes then inl err else
      if negb (nameType =? 0) then read_names fuel serverName nameList else
      if negb (len serverName =? 0) then
        inl (ErrorNew "multiple names of the same name_type in server name extension are prohibited") else
      if bool_decide (last serverNameBytes = Some (u8 dot)) then
        inl (ErrorNew "SNI value may not include a trailing dot")
      else read_names fuel serverNameBytes nameList
  end.

(** The captured name is checked and forgotten. *)
Definition Write `{Cryptobyte} (e : t) (b : bytes) : res (t * Z) :=
  readE (nameList, extData) := ReadUint16LengthPrefixed b or err in
  if Empty nameList then inl err else
  try serverName := read_names (length nameList) [] nameList in
  inr (e, len b).

Definition writeToUConn (e : t) (uc : UConn.t) : UConn.t :=
  let uc := match uc.(UConn.config).(Config.EncryptedClientHelloConfigList) with
            | None => config_set (Config.set_ServerName e.(ServerName)) uc
            | Some _ => uc
            end in
  hello_set (PubClientHelloMsg.set_ServerName (hostnameInSNI e.(ServerName))) uc.
End SNIExtension.

(** status_request *)
Module StatusRequestExtension.
Inductive t := Mk.
Definition Len (e : t) : Z := 9.
Definition Read (e : t) (b : bytes) : read_result :=
  if len b <? Len e then shortBuffer b else
  written (Len e) (put16 0 extensionStatusRequest ;! put 2 0 ;! put 3 5 ;! put 4 1) b.
Definition Write `{Cryptobyte} (e : t) (b : bytes) : res (t * Z) :=
  let err := ErrorNew "unable to read status request extension data" in
  readE (statusType, extData) := ReadUint8 b or err in
  readE (ignored, extData) := ReadUint16LengthPrefixed extData or err in
  readE (ignored, extData) := ReadUint16LengthPrefixed extData or err in
  if negb (statusType =? statusTypeOCSP) then
    inl (ErrorNew "status request extension statusType is not statusTypeOCSP(1)")
  else inr (e, len b).
Definition writeToUConn (e : t) (uc : UConn.t) : UConn.t :=
  hello_set (PubClientHelloMsg.set_OcspStapling true) uc.
End StatusRequestExtension.

(** The body shared by the extensions that hold one list of 16-bit values. *)
Definition read_u16s_ext (id : Z) (l : list Z) (b : bytes) : read_result :=
  let Len := 6 + 2 * len l in
  if len b <? Len then shortBuffer b else
  written Len
    (put16 0 id ;! put16 2 (2 + 2 * len l) ;! put16 4 (2 * len l) ;! put16s 6 l) b.

Definition write_u16s_ext `{Cryptobyte} (err : gerror) (canon : Z -> Z) (b : bytes) : res (list Z * Z) :=
  readE (l, extData) := read_u16_list ReadUint16LengthPrefixed [] b or err in
  inr (map canon l, len b).

(** supported_groups *)
Module SupportedCurvesExtension.
Record t := Mk { Curves : list Z }.
Definition Len (e : t) : Z := 6 + 2 * len e.(Curves).
Definition Read (e : t) (b : bytes) : read_result := read_u16s_ext extensionSupportedCurves e.(Curves) b.
Definition Write `{Cryptobyte} (e : t) (b : bytes) : res (t * Z) :=
  try (curves, n) :=
    write_u16s_ext (ErrorNew "unable to read supported curves extension data") unGREASEUint16 b in
  inr (Mk curves, n).
Definition writeToUConn (e : t) (uc : UConn.t) : UConn.t :=
  hello_set (PubClientHelloMsg.set_SupportedCurves e.(Curves))
    (config_set (Config.set_CurvePreferences e.(Curves)) uc).
End SupportedCurvesExtension.

(** ec_point_formats *)
Module SupportedPointsExtension.
Record t := Mk { SupportedPoints : bytes }.
Definition Len (e : t) : Z := 5 + len e.(SupportedPoints).
Definition Read (e : t) (b : bytes) : read_result :=
  if len b <? Len e then shortBuffer b else
  written (Len e)
    (put16 0 extensionSupportedPoints ;! put16 2 (1 + len e.(SupportedPoints)) ;!
     put 4 (len e.(SupportedPoints)) ;! put_bytes 5 e.(SupportedPoints)) b.
Definition Write `{Cryptobyte} (e : t) (b : bytes) : res (t * Z) :=
  let err := ErrorNew "unable to read supported points extension data" in
  readE (supportedPoints, extData) := readUint8LengthPrefixed b or err in
  if len supportedPoints =? 0 then inl err else inr (Mk supportedPoints, len b).
Definition writeToUConn (e : t) (uc : UConn.t) : UConn.t :=
  hello_set (PubClientHelloMsg.set_SupportedPoints e.(SupportedPoints)) uc.
End SupportedPointsExtension.

(** signature_algorithms *)
Module SignatureAlgorithmsExtension.
Record t := Mk { SupportedSignatureAlgorithms : list Z }.
Definition Len (e : t) : Z := 6 + 2 * len e.(SupportedSignatureAlgorithms).
Definition Read (e : t) (b : bytes) : read_result :=
  read_u16s_ext extensionSignatureAlgorithms e.(SupportedSignatureAlgorithms) b.
Definition Write `{Cryptobyte} (e : t) (b : bytes) : res (t * Z) :=
  try (algs, n) :=
    write_u16s_ext (ErrorNew "unable to read signature algorithms extension data") id b in
  inr (Mk algs, n).
Definition writeToUConn (e : t) (uc : UConn.t) : UConn.t :=
  let greased := List.existsb isGREASEUint16 e.(SupportedSignatureAlgorithms) in
  if negb greased then
    hello_set (PubClientHelloMsg.set_SupportedSignatureAlgorithms e.(SupportedSignatureAlgorithms)) uc
  else
    hello_set (PubClientHelloMsg.set_SupportedSignatureAlgorithms
      (List.filter (fun sa => negb (isGREASEUint16 sa)) e.(SupportedSignatureAlgorithms))) uc.
End SignatureAlgorithmsExtension.

(** status_request_v2 *)
Module StatusRequestV2Extension.
Inductive t := Mk.
Definition Len (e : t) : Z := 13.
Definition Read (e : t) (b : bytes) : read_result :=
  if len b <? Len e then shortBuffer b else
  written (Len e)
    (put16 0 extensionStatusRequestV2 ;! put 2 0 ;! put 3 9 ;! put 4 0 ;! put 5 7 ;!
     put 6 2 ;! put 7 0 ;! put 8 4) b.
Definition Write `{Cryptobyte} (e : t) (b : bytes) : res (t * Z) :=
  let err := ErrorNew "unable to read status request v2 extension data" in
  readE (ignored, extData) := ReadUint16LengthPrefixed b or err in
  readE (statusType, ignored) := ReadUint8 ignored or err in
  if negb (statusType =? statusV2TypeOCSP) then
    inl (ErrorNew "status request v2 extension statusType is not statusV2TypeOCSP(2)")
  else inr (e, len b).
Definition writeToUConn (e : t) (uc : UConn.t) : UConn.t :=
  hello_set (PubClientHelloMsg.set_OcspStapling true) uc.
End StatusRequestV2Extension.

(** signature_algorithms_cert *)
Module SignatureAlgorithmsCertExtension.
Record t := Mk { SupportedSignatureAlgorithms : list Z }.
Definition Len (e : t) : Z := 6 + 2 * len e.(SupportedSignatureAlgorithms).
Definition Read (e : t) (b : bytes) : read_result :=
  read_u16s_ext extensionSignatureAlgorithmsCert e.(SupportedSignatureAlgorithms) b.
Definition Write `{Cryptobyte} (e : t) (b : bytes) : res (t * Z) :=
  try (algs, n) :=
    write_u16s_ext (ErrorNew "unable to read signature algorithms extension data") id b in
  inr (Mk algs, n).
(** As written in the source: the field of signature_algorithms is set. *)
Definition writeToUConn (e : t) (uc : UConn.t) : UConn.t :=
  hello_set (PubClientHelloMsg.set_SupportedSignatureAlgorithms e.(SupportedSignatureAlgorithms)) uc.
End SignatureAlgorithmsCertExtension.

(** ** Lists of protocol names *)

(** [for _, s := range protocols { bLen += 1 + len(s) }] *)
Definition protocols_len (bLen : Z) (l : list bytes) : Z := fold_left (fun n s => n + (1 + len s)) l bLen.

(** [for _, s := range l { b[0] = byte(len(s)); copy(b[1:], s); b = b[1+len(s):] }]
    for the [b] that starts at offset [off]. *)
Fixpoint put_strings (off : Z) (l : list bytes) : bytes -> outcome bytes :=
  match l with
  | [] => wnop
  | s :: l =>
      put off (len s) ;! copy_at (off + 1) s ;! advance (off + (1 + len s)) ;!
      put_strings (off + (1 + len s)) l
  end.

(** The two lengths are written after the strings they count. *)
Definition read_protocols (id : Z) (l : list bytes) (b : bytes) : read_result :=
  let Len := protocols_len (2 + 2 + 2) l in
  if len b <? Len then shortBuffer b else
  let stringsLength := protocols_len 0 l in
  written Len
    (put 0 (Z.shiftr id 8) ;! put 1 (Z.land id 0xff) ;! advance 2 ;! advance 6 ;!
     put_strings 6 l ;! put16 4 stringsLength ;! put16 2 (stringsLength + 2)) b.

Definition write_protocols `{Cryptobyte} (b : bytes) : res (list bytes * Z) :=
  let err := ErrorNew "unable to read ALPN extension data" in
  readE (protoList, extData) := ReadUint16LengthPrefixed b or err in
  if Empty protoList then inl err else
  readE l := loop (fun acc s =>
    read (proto, s) := ReadUint8LengthPrefixed s in
    ensure negb (Empty proto) in
    Some (acc ++ [proto], s)) [] protoList or err in
  inr (l, len b).

(** application_layer_protocol_negotiation *)
Module ALPNExtension.
Record t := Mk { AlpnProtocols : list bytes }.
Definition Len (e : t) : Z := protocols_len (2 + 2 + 2) e.(AlpnProtocols).
Definition Read (e : t) (b : bytes) : read_result := read_protocols extensionALPN e.(AlpnProtocols) b.
Definition Write `{Cryptobyte} (e : t) (b : bytes) : res (t * Z) :=
  try (l, n) := write_protocols b in inr (Mk l, n).
Definition writeToUConn (e : t) (uc : UConn.t) : UConn.t :=
  hello_set (PubClientHelloMsg.set_AlpnProtocols e.(AlpnProtocols))
    (config_set (Config.set_NextProtos e.(AlpnProtocols)) uc).
End ALPNExtension.

(** application_settings, with the code point set by [Read]. *)
Module ApplicationSettingsExtension.
Record t := Mk { SupportedProtocols : list bytes }.
Definition Len (e : t) : Z := protocols_len (2 + 2 + 2) e.(SupportedProtocols).
Definition Read (e : t) (b : bytes) : read_result :=
  read_protocols utlsExtensionApplicationSettings e.(SupportedProtocols) b.
Definition Write `{Cryptobyte} (e : t) (b : bytes) : res (t * Z) :=
  try (l, n) := write_protocols b in inr (Mk l, n).
End ApplicationSettingsExtension.

Module ApplicationSettingsExtensionNew.
Record t := Mk { SupportedProtocols : list bytes }.
Definition Len (e : t) : Z := protocols_len (2 + 2 + 2) e.(SupportedProtocols).
Definition Read (e : t) (b : bytes) : read_result :=
  read_protocols utlsExtensionApplicationSettingsNew e.(SupportedProtocols) b.
Definition Write `{Cryptobyte} (e : t) (b : bytes) : res (t * Z) :=
  try (l, n) := write_protocols b in inr (Mk l, n).
End ApplicationSettingsExtensionNew.

(** ** Empty and opaque extensions *)

(** An extension of which only the type is written. *)
Definition read_empty (id : Z) (b : bytes) : read_result :=
  if len b <? 4 then shortBuffer b else written 4 (put16 0 id) b.

(** Type, length and opaque data. *)
Definition read_opaque (id : Z) (data : bytes) (b : bytes) : read_result :=
  if len b <? 4 + len data then shortBuffer b else
  written (4 + len data)
    (put16 0 id ;! put16 2 (len data) ;! (if 0 <? len data then copy_at 4 data else wnop)) b.

(** signed_certificate_timestamp *)
Module SCTExtension.
Inductive t := Mk.
Definition Len (e : t) : Z := 4.
Definition Read (e : t) (b : bytes) : read_result := read_empty extensionSCT b.
Definition Write (e : t) (b : bytes) : res (t * Z) := inr (e, 0).
Definition writeToUConn (e : t) (uc : UConn.t) : UConn.t := hello_set (PubClientHelloMsg.set_Scts true) uc.
End SCTExtension.

(** Any extension, by number and body. *)
Module GenericExtension.
Record t := Mk { Id : Z; Data : bytes }.
Definition Len (e : t) : Z := 4 + len e.(Data).
Definition Read (e : t) (b : bytes) : read_result := read_opaque e.(Id) e.(Data) b.
End GenericExtension.

(** extended_master_secret *)
Module ExtendedMasterSecretExtension.
Inductive t := Mk.
Definition Len (e : t) : Z := 4.
Definition Read (e : t) (b : bytes) : read_result := read_empty extensionExtendedMasterSecret b.
Definition Write (e : t) (b : bytes) : res (t * Z) := inr (e, 0).
Definition writeToUConn (e : t) (uc : UConn.t) : UConn.t := hello_set (PubClientHelloMsg.set_Ems true) uc.
End ExtendedMasterSecretExtension.

(** GREASE *)
Definition ssl_grease_seed_len : nat := 8.

(** [GetBoringGREASEValue]; an index outside the seed panics. *)
Definition GetBoringGREASEValue (greaseSeed : list Z) (index : nat) : outcome Z :=
  match greaseSeed !! index with
  | None => Panic
  | Some ret =>
      let ret := Z.lor (Z.land ret 0xf0) 0x0a in
      Ret (Z.lor ret (Z.shiftl ret 8 mod 2 ^ 16))
  end.

Module UtlsGREASEExtension.
Record t := Mk { Value : Z; Body : bytes }.
Definition Len (e : t) : Z := 4 + len e.(Body).
Definition Read (e : t) (b : bytes) : read_result := read_opaque e.(Value) e.(Body) b.
Definition Write (e : t) (b : bytes) : res (t * Z) := inr (Mk GREASE_PLACEHOLDER b, len b).
End UtlsGREASEExtension.

(** padding *)
Definition BoringPaddingStyle (unpaddedLen : Z) : Z * bool :=
  if (0xff <? unpaddedLen) && (unpaddedLen <? 0x200) then
    let paddingLen := 0x200 - unpaddedLen in
    (if 4 + 1 <=? paddingLen then paddingLen - 4 else 1, true)
  else (0, false).

Definition AlwaysPadToLen (padToLen unpaddedLen : Z) : Z * bool :=
  if unpaddedLen <? padToLen then
    let paddingLen := padToLen - unpaddedLen in
    (if 4 + 1 <=? paddingLen then paddingLen - 4 else 1, true)
  else (0, false).

Module UtlsPaddingExtension.
Record t := Mk { PaddingLen : Z; WillPad : bool; GetPaddingLen : option (Z -> Z * bool) }.
Definition Len (e : t) : Z := if e.(WillPad) then 4 + e.(PaddingLen) else 0.
Definition Update (clientHelloUnpaddedLen : Z) (e : t) : t :=
  match e.(GetPaddingLen) with
  | Some f => let (n, w) := f clientHelloUnpaddedLen in Mk n w e.(GetPaddingLen)
  | None => e
  end.
Definition Read (e : t) (b : bytes) : read_result :=
  if negb e.(WillPad) then Ret (b, (0, EOF)) else
  if len b <? Len e then shortBuffer b else
  written (Len e) (put16 0 utlsExtensionPadding ;! put16 2 e.(PaddingLen)) b.
Definition Write (e : t) (b : bytes) : res (t * Z) :=
  inr (Mk e.(PaddingLen) e.(WillPad) (Some BoringPaddingStyle), 0).
End UtlsPaddingExtension.

(** compress_certificate *)
Module UtlsCompressCertExtension.
Record t := Mk { Algorithms : list Z }.
Definition Len (e : t) : Z := 4 + 1 + 2 * len e.(Algorithms).
Definition Read (e : t) (b : bytes) : read_result :=
  if len b <? Len e then shortBuffer b else
  run b := (put 0 (Z.shiftr utlsExtensionCompressCertificate 8) ;!
            put 1 (Z.land utlsExtensionCompressCertificate 0xff)) b in
  let extLen := 2 * len e.(Algorithms) in
  if 255 <? extLen then Ret (b, (0, ErrorNew "too many certificate compression methods")) else
  written (Len e)
    (put 2 (Z.shiftr (extLen + 1) 8) ;! put 3 (Z.land (extLen + 1) 0xff) ;! put 4 extLen ;!
     put16s 5 e.(Algorithms)) b.
Definition Write `{Cryptobyte} (e : t) (b : bytes) : res (t * Z) :=
  let err := ErrorNew "unable to read cert compression algorithms extension data" in
  readE (methodsRaw, extData) := ReadUint8LengthPrefixed b or err in
  readE methods := read_u16s [] methodsRaw or err in
  inr (Mk methods, len b).
Definition writeToUConn (e : t) (uc : UConn.t) : UConn.t :=
  UConn.set_certCompressionAlgs e.(Algorithms) uc.
End UtlsCompressCertExtension.

(** key_share *)
Module KeyShareExtension.
Record t := Mk { KeyShares : list KeyShare.t }.
Definition keySharesLen (e : t) : Z :=
  fold_left (fun extLen ks => extLen + (4 + len ks.(KeyShare.Data))) e.(KeyShares) 0.
Definition Len (e : t) : Z := 4 + 2 + keySharesLen e.
Fixpoint put_shares (i : Z) (l : list KeyShare.t) : bytes -> outcome bytes :=
  match l with
  | [] => wnop
  | ks :: l =>
      put16 i ks.(KeyShare.Group) ;! put16 (i + 2) (len ks.(KeyShare.Data)) ;!
      copy_at (i + 4) ks.(KeyShare.Data) ;! put_shares (i + (4 + len ks.(KeyShare.Data))) l
  end.
Definition Read (e : t) (b : bytes) : read_result :=
  if len b <? Len e then shortBuffer b else
  written (Len e)
    (put16 0 extensionKeyShare ;! put16 2 (keySharesLen e + 2) ;! put16 4 (keySharesLen e) ;!
     put_shares 6 e.(KeyShares)) b.
(** Key material other than that of GREASE shares is dropped. *)
Definition share_body `{Cryptobyte} (acc : list KeyShare.t) (s : bytes) : option (list KeyShare.t * bytes) :=
  read (group, s) := ReadUint16 s in
  read (data, s) := readUint16LengthPrefixed s in
  ensure negb (len data =? 0) in
  let Group := unGREASEUint16 group in
  Some (acc ++ [KeyShare.Mk Group (if negb (Group =? GREASE_PLACEHOLDER) then [] else data)], s).
Definition Write `{Cryptobyte} (e : t) (b : bytes) : res (t * Z) :=
  let err := ErrorNew "unable to read key share extension data" in
  readE (clientShares, extData) := ReadUint16LengthPrefixed b or err in
  readE keyShares := loop share_body [] clientShares or err in
  inr (Mk keyShares, len b).
Definition writeToUConn (e : t) (uc : UConn.t) : UConn.t :=
  hello_set (PubClientHelloMsg.set_KeyShares e.(KeyShares)) uc.
End KeyShareExtension.

(** psk_key_exchange_modes *)
Module PSKKeyExchangeModesExtension.
Record t := Mk { Modes : bytes }.
Definition Len (e : t) : Z := 4 + 1 + len e.(Modes).
Definition Read (e : t) (b : bytes) : read_result :=
  if len b <? Len e then shortBuffer b else
  if 255 <? len e.(Modes) then Ret (b, (0, ErrorNew "too many PSK Key Exchange modes")) else
  let modesLen := len e.(Modes) in
  written (Len e)
    (put16 0 extensionPSKModes ;! put16 2 (modesLen + 1) ;! put 4 modesLen ;!
     (if 0 <? len e.(Modes) then copy_at 5 e.(Modes) else wnop)) b.
Definition Write `{Cryptobyte} (e : t) (b : bytes) : res (t * Z) :=
  readE (pskModes, extData) := readUint8LengthPrefixed b or ErrorNew "unable to read PSK extension data" in
  inr (Mk pskModes, len b).
Definition writeToUConn (e : t) (uc : UConn.t) : UConn.t :=
  hello_set (PubClientHelloMsg.set_PskModes e.(Modes)) uc.
End PSKKeyExchangeModesExtension.

(** supported_versions *)
Module SupportedVersionsExtension.
Record t := Mk { Versions : list Z }.
Definition Len (e : t) : Z := 4 + 1 + 2 * len e.(Versions).
Definition Read (e : t) (b : bytes) : read_result :=
  if len b <? Len e then shortBuffer b else
  let extLen := 2 * len e.(Versions) in
  if 255 <? extLen then Ret (b, (0, ErrorNew "too many supported versions")) else
  written (Len e)
    (put16 0 extensionSupportedVersions ;! put16 2 (extLen + 1) ;! put 4 extLen ;!
     put16s 5 e.(Versions)) b.
Definition Write `{Cryptobyte} (e : t) (b : bytes) : res (t * Z) :=
  readE (l, extData) := read_u16_list ReadUint8LengthPrefixed [] b or
    ErrorNew "unable to read supported versions extension data" in
  inr (Mk (map unGREASEUint16 l), len b).
Definition writeToUConn (e : t) (uc : UConn.t) : UConn.t :=
  hello_set (PubClientHelloMsg.set_SupportedVersions e.(Versions)) uc.
End SupportedVersionsExtension.

(** cookie *)
Module CookieExtension.
Record t := Mk { Cookie : bytes }.
Definition Len (e : t) : Z := 6 + len e.(Cookie).
Definition Read (e : t) (b : bytes) : read_result :=
  let cookieLen := len e.(Cookie) in
  if len b <? Len e then shortBuffer b else
  let extDataLen := 2 + cookieLen in
  written (Len e)
    (put16 0 extensionCookie ;! put16 2 extDataLen ;! put16 4 cookieLen ;! copy_at 6 e.(Cookie)) b.
End CookieExtension.

(** next_protocol_negotiation *)
Module NPNExtension.
Record t := Mk { NextProtos : list bytes }.
Definition Len (e : t) : Z := 4.
Definition Read (e : t) (b : bytes) : read_result :=
  if len b <? Len e then shortBuffer b else
  written (Len e) (put 0 (Z.shiftr extensionNextProtoNeg 8) ;! put 1 (Z.land extensionNextProtoNeg 0xff)) b.
Definition Write (e : t) (b : bytes) : res (t * Z) := inr (e, 0).
Definition writeToUConn (e : t) (uc : UConn.t) : UConn.t :=
  hello_set (PubClientHelloMsg.set_NextProtoNeg true) (config_set (Config.set_NextProtos e.(NextProtos)) uc).
End NPNExtension.

(** renegotiation_info *)
Module RenegotiationInfoExtension.
Record t := Mk { Renegotiation : RenegotiationSupport; RenegotiatedConnection : bytes }.
Definition Len (e : t) : Z := 5 + len e.(RenegotiatedConnection).
Definition Read (e : t) (b : bytes) : read_result :=
  if len b <? Len e then shortBuffer b else
  let dataLen := len e.(RenegotiatedConnection) in
  let extBodyLen := 1 + dataLen in
  written (Len e)
    (put 0 (Z.shiftr extensionRenegotiationInfo 8) ;! put 1 (Z.land extensionRenegotiationInfo 0xff) ;!
     put16 2 extBodyLen ;! put 4 dataLen ;! copy_at 5 e.(RenegotiatedConnection)) b.
Definition Write (e : t) (b : bytes) : res (t * Z) :=
  inr (Mk RenegotiateOnceAsClient e.(RenegotiatedConnection), len b).
(** Also updates the extension itself on a renegotiation. *)
Definition writeToUConn (e : t) (uc : UConn.t) : t * UConn.t :=
  let uc := config_set (Config.set_Renegotiation e.(Renegotiation)) uc in
  match e.(Renegotiation) with
  | RenegotiateOnceAsClient | RenegotiateFreelyAsClient =>
      (if 0 <? uc.(UConn.handshakes) then Mk e.(Renegotiation) uc.(UConn.clientFinished) else e,
       hello_set (PubClientHelloMsg.set_SecureRenegotiationSupported true) uc)
  | RenegotiateNever => (e, uc)
  end.
End RenegotiationInfoExtension.

(** Channel ID *)
Module FakeChannelIDExtension.
Record t := Mk { OldExtensionID : bool }.
Definition Len (e : t) : Z := 4.
Definition Read (e : t) (b : bytes) : read_result :=
  if len b <? Len e then shortBuffer b else
  let extensionID := if e.(OldExtensionID) then fakeOldExtensionChannelID else fakeExtensionChannelID in
  written (Len e) (put 0 (Z.shiftr extensionID 8) ;! put 1 (Z.land extensionID 0xff)) b.
Definition Write (e : t) (b : bytes) : res (t * Z) := inr (e, 0).
End FakeChannelIDExtension.

(** record_size_limit *)
Module FakeRecordSizeLimitExtension.
Record t := Mk { Limit : Z }.
Definition Len (e : t) : Z := 6.
Definition Read (e : t) (b : bytes) : read_result :=
  if len b <? Len e then shortBuffer b else
  written (Len e)
    (put 0 (Z.shiftr fakeRecordSizeLimit 8) ;! put 1 (Z.land fakeRecordSizeLimit 0xff) ;! put 2 0 ;! put 3 2 ;!
     put 4 (Z.shiftr e.(Limit) 8) ;! put 5 (Z.land e.(Limit) 0xff)) b.
Definition Write `{Cryptobyte} (e : t) (b : bytes) : res (t * Z) :=
  readE (Limit, extData) := ReadUint16 b or ErrorNew "unable to read record size limit extension data" in
  inr (Mk Limit, len b).
End FakeRecordSizeLimitExtension.

(** token_binding *)
Module FakeTokenBindingExtension.
Record t := Mk { MajorVersion : Z; MinorVersion : Z; KeyParameters : bytes }.
Definition Len (e : t) : Z := 2 + 2 + 2 + 1 + len e.(KeyParameters).
Definition Read (e : t) (b : bytes) : read_result :=
  if len b <? Len e then shortBuffer b else
  let dataLen := Len e - 4 in
  written (Len e)
    (put 0 (Z.shiftr fakeExtensionTokenBinding 8) ;! put 1 (Z.land fakeExtensionTokenBinding 0xff) ;!
     put 2 (Z.shiftr dataLen 8) ;! put 3 (Z.land dataLen 0xff) ;!
     put 4 e.(MajorVersion) ;! put 5 e.(MinorVersion) ;! put 6 (len e.(KeyParameters)) ;!
     (if 0 <? len e.(KeyParameters) then copy_at 7 e.(KeyParameters) else wnop)) b.
Definition Write `{Cryptobyte} (e : t) (b : bytes) : res (t * Z) :=
  let err := ErrorNew "unable to read token binding extension data" in
  readE (MajorVersion, extData) := ReadUint8 b or err in
  readE (MinorVersion, extData) := ReadUint8 extData or err in
  readE (keyParameters, extData) := ReadUint8LengthPrefixed extData or err in
  inr (Mk MajorVersion MinorVersion keyParameters, len b).
End FakeTokenBindingExtension.

(** delegated_credentials *)
Module FakeDelegatedCredentialsExtension.
Record t := Mk { SupportedSignatureAlgorithms : list Z }.
Definition Len (e : t) : Z := 6 + 2 * len e.(SupportedSignatureAlgorithms).
Definition Read (e : t) (b : bytes) : read_result :=
  read_u16s_ext fakeExtensionDelegatedCredentials e.(SupportedSignatureAlgorithms) b.
Definition Write `{Cryptobyte} (e : t) (b : bytes) : res (t * Z) :=
  try (algs, n) :=
    write_u16s_ext (ErrorNew "unable to read signature algorithms extension data") id b in
  inr (Mk algs, n).
End FakeDelegatedCredentialsExtension.

(** early_data *)
Module FakeEarlyDataExtension.
Inductive t := Mk.
Definition Len (e : t) : Z := 4.
Definition Read (e : t) (b : bytes) : read_result :=
  if len b <? Len e then shortBuffer b else
  written (Len e) (put16 0 extensionEarlyData ;! put 2 0 ;! put 3 0) b.
Definition Write (e : t) (b : bytes) : res (t * Z) := inr (e, len b).
Definition writeToUConn (e : t) (uc : UConn.t) : UConn.t :=
  hello_set (PubClientHelloMsg.set_EarlyData true) uc.
End FakeEarlyDataExtension.

(** session_ticket (u_session_ticket.go); the session pointer may be nil. *)
Module SessionTicketExtension.
Record t `{X : X509} := Mk { Session : option (session.ptr X); Ticket : bytes; Initialized : bool }.
#[global] Arguments t _ : clear implicits.
#[global] Arguments Mk {X}.
Section Ops.
Context `{X : X509}.
Definition Len (e : t X) : Z := 4 + len e.(Ticket).
Definition Read (e : t X) (b : bytes) : read_result :=
  if len b <? Len e then shortBuffer b else
  let extBodyLen := Len e - 4 in
  written (Len e)
    (put16 0 extensionSessionTicket ;! put16 2 extBodyLen ;!
     (if 0 <? extBodyLen then copy_at 4 e.(Ticket) else wnop)) b.
Definition Write (e : t X) (b : bytes) : res (t X * Z) := inr (e, 0).
Definition writeToUConn (e : t X) (uc : UConn.t) : UConn.t :=
  hello_set (PubClientHelloMsg.set_TicketSupported true) uc.
Definition IsInitialized (e : t X) : bool := e.(Initialized).
(** [uAssert]s: not initialised yet, a TLS 1.2 session, and a ticket that is not nil. *)
Definition InitializeByUtls (e : t X) (session : session.ptr X) (ticket : option bytes) : outcome (t X) :=
  if e.(Initialized) then Panic else
  if negb ((session.(session.state).(SessionState.version) =? VersionTLS12) && non_nil ticket) then Panic else
  Ret (Mk (Some session) (default [] ticket) true).
Definition GetSession (e : t X) : option (session.ptr X) := e.(Session).
Definition GetTicket (e : t X) : bytes := e.(Ticket).
End Ops.
End SessionTicketExtension.

(** trust_anchors (trust_anchors.go) *)
Module TrustAnchorsExtension.
Record t := Mk { TrustAnchors : list bytes; Shuffle : bool; emitOrder : option (list bytes) }.

(** [e.list()] *)
Definition list_ (e : t) : list bytes :=
  match e.(emitOrder) with Some l => l | None => e.(TrustAnchors) end.

(** [out[i], out[j] = out[j], out[i]] *)
Definition swap (i j : nat) (out : list bytes) : list bytes :=
  match out !! i, out !! j with
  | Some x, Some y => <[i := y]> (<[j := x]> out)
  | _, _ => out
  end.

(** [for i := len(out) - 1; i > 0; i-- { ... }]; [None] when the generator
    fails.  The rest of the random numbers is returned. *)
Fixpoint shuffle (i : nat) (out : list bytes) (rand : list (option Z))
    : option (list bytes) * list (option Z) :=
  match i with
  | O => (Some out, rand)
  | S i' =>
      match rand with
      | Some r :: rand =>
          let j := Z.to_nat (r mod (Z.of_nat i + 1)) in
          shuffle i' (swap i j out) rand
      | None :: rand => (None, rand)
      | [] => (None, [])
      end
  end.

Definition writeToUConn (e : t) (uc : UConn.t) : t * UConn.t :=
  if negb e.(Shuffle) || (len e.(TrustAnchors) <? 2) then (Mk e.(TrustAnchors) e.(Shuffle) None, uc) else
  let (out, rand) := shuffle (length e.(TrustAnchors) - 1) e.(TrustAnchors) uc.(UConn.rand) in
  (Mk e.(TrustAnchors) e.(Shuffle) out, UConn.set_rand rand uc).

Definition Len (e : t) : Z := protocols_len (2 + 2 + 2) e.(TrustAnchors).

Definition Read (e : t) (b : bytes) : read_result :=
  if len b <? Len e then shortBuffer b else
  if 0xffff - 2 <? Len e - 6 then
    Ret (b, (0, ErrorNew "tls: trust_anchors list does not fit a uint16 length")) else
  let listLen := protocols_len 0 (list_ e) in
  written (Len e)
    (put16 0 utlsExtensionTrustAnchors ;! advance 6 ;! put_strings 6 (list_ e) ;!
     put16 2 ((listLen + 2) mod 2 ^ 16) ;! put16 4 (listLen mod 2 ^ 16)) b.

Definition Write `{Cryptobyte} (e : t) (b : bytes) : res (t * Z) :=
  readE (l, extData) := ReadUint16LengthPrefixed b or ErrorNew "unable to read trust_anchors extension data" in
  readE anchors := loop (fun acc s =>
    read (ta, s) := ReadUint8LengthPrefixed s in
    ensure negb (Empty ta) in
    Some (acc ++ [ta], s)) [] l or ErrorNew "unable to read a trust_anchors entry" in
  inr (Mk anchors e.(Shuffle) e.(emitOrder), len b).
End TrustAnchorsExtension.

(** quic_transport_parameters.  [Len] marshals the parameters once and keeps the
    result; [rnd] are the random numbers it would use. *)
Module QUICTransportParametersExtension.
Record t := Mk {
  TransportParameters : list TransportParameter;
  rnd : nat -> draws;
  RawData : option bytes;
  marshalResult : option bytes
}.

Definition Len (e : t) : outcome (t * Z) :=
  match e.(RawData) with
  | Some d => Ret (e, 4 + len d)
  | None =>
      match e.(marshalResult) with
      | Some d => Ret (e, 4 + len d)
      | None =>
          run (tps, d) := Quic.Marshal e.(rnd) e.(TransportParameters) in
          (* an empty result is a nil slice, which does not count as cached *)
          Ret (Mk tps e.(rnd) None (if len d =? 0 then None else Some d), 4 + len d)
      end
  end.

Definition Read (e : t) (b : bytes) : outcome (t * (bytes * (Z * gerror))) :=
  run (e, n) := Len e in
  if len b <? n then run r := shortBuffer b in Ret (e, r) else
  let data := match e.(RawData) with Some d => d | None => default [] e.(marshalResult) end in
  run b := (put16 0 extensionQUICTransportParameters ;! put16 2 (len data) ;! copy_at 4 data) b in
  run (e, n) := Len e in
  Ret (e, (b, (n, EOF))).

Definition Write (e : t) (b : bytes) : res (t * Z) :=
  inr (Mk e.(TransportParameters) e.(rnd) (Some b) None, len b).
End QUICTransportParametersExtension.

(** * The laws of the interface *)

Lemma u8_land v : u8 (Z.land v 0xff) = u8 v.
Proof.
  apply b2z_inj. rewrite !b2z_u8. change 0xff with (Z.ones 8). rewrite Z.land_ones by lia.
  change (2 ^ 8) with 256. by rewrite Z.mod_mod by lia.
Qed.

Lemma be2_mod v : be 2 (v mod 2 ^ 16) = be 2 v.
Proof.
  pose proof (Z.div_mod v (2 ^ 16) ltac:(lia)) as E. rewrite E at 2.
  change (2 ^ 16) with (256 ^ Z.of_nat 2). rewrite (Z.mul_comm _ (v / _)). by rewrite (be_add_high 2 _ _ 2) by lia.
Qed.

Lemma fills_put_bytes l : forall off, Fills (put_bytes off l) off l.
Proof.
  induction l as [|v l IH]; intros off; cbn [put_bytes]; [apply fills_nop|].
  eapply fills_cast; [eapply fills_seq; [apply fills_put|reflexivity|apply IH]|done|by rewrite u8_b2z].
Qed.

Lemma fills_put_strings l : forall off, Fills (put_strings off l) off (concat (map (enc_lp 1) l)).
Proof.
  induction l as [|s l IH]; intros off; cbn [put_strings map concat]; [apply fills_nop|].
  unfold enc_lp at 1. rewrite <- app_assoc, be1_u8.
  eapply fills_seq; [apply fills_put|reflexivity|].
  eapply fills_seq; [apply fills_copy|reflexivity|].
  eapply (fills_seq _ _ _ _ []); [|by rewrite len_nil, Z.add_0_r|].
  - eapply fills_cast; [apply fills_advance| |done]. autorewrite with cb. lia.
  - eapply fills_cast; [apply IH| |done]. autorewrite with cb. lia.
Qed.

Lemma fills_if (c : bool) f off d : Fills f off d -> (c = false -> d = []) ->
  Fills (if c then f else wnop) off d.
Proof. destruct c; [done|]. intros _ ->; [apply fills_nop|done]. Qed.

Lemma protocols_len_acc l n : protocols_len n l = n + len (concat (map (enc_lp 1) l)).
Proof.
  unfold protocols_len. revert n. induction l as [|s l IH]; intros n; cbn [fold_left map concat].
  - rewrite len_nil. lia.
  - rewrite IH, len_app. unfold enc_lp at 2. rewrite len_app, len_be. lia.
Qed.

Lemma written_fills n f d rest : Fills f 0 d ->
  written n f (replicate (length d) x00 ++ rest) = Ret (d ++ rest, (n, EOF)).
Proof. intros H. unfold written. specialize (H [] rest eq_refl). cbn [app] in H. by rewrite H. Qed.

(** The buffer that the marshaller offers is long enough. *)
Lemma room (d rest : bytes) n : n <= len d -> (len (replicate (length d) x00 ++ rest) <? n) = false.
Proof.
  intros Hn. apply Z.ltb_ge. rewrite len_app. pose proof (len_nonneg rest).
  unfold len in *. rewrite length_replicate. lia.
Qed.

Lemma too_short {A} (b : bytes) n (x y : A) : len b < n -> (if len b <? n then x else y) = x.
Proof. intros H. by rewrite (proj2 (Z.ltb_lt _ _) H). Qed.

(** The length of a block whose parts are known. *)
Ltac block_len := unfold wire, enc_ext; cbn [fst snd]; autorewrite with cb; lia.

(** The header of a block, and its variants. *)
Lemma fills_ext f id n body :
  Fills f 4 body -> n = len body -> Fills (put16 0 id ;! put16 2 n ;! f) 0 (enc_ext (id, body)).
Proof.
  intros Hf ->. unfold enc_ext. cbn [fst snd].
  eapply fills_seq; [apply fills_put16|reflexivity|]. by eapply fills_seq; [apply fills_put16|reflexivity|].
Qed.

Lemma fills_pointwise f g off d : (forall b, f b = g b) -> Fills g off d -> Fills f off d.
Proof. intros E H pre rest Hp. rewrite E. by apply H. Qed.

Lemma put_land i v b : put i (Z.land v 0xff) b = put i v b.
Proof. unfold put. by rewrite u8_land. Qed.

Lemma fills_land i v g off d :
  Fills (put16 i v ;! g) off d -> Fills (put i (Z.shiftr v 8) ;! put (i + 1) (Z.land v 0xff) ;! g) off d.
Proof.
  apply fills_pointwise. intros b. unfold put16, wseq. destruct (put i (Z.shiftr v 8) b) as [|b']; [done|].
  cbn [obind]. by rewrite put_land.
Qed.

Lemma fills_land_end i v off d :
  Fills (put16 i v) off d -> Fills (put i (Z.shiftr v 8) ;! put (i + 1) (Z.land v 0xff)) off d.
Proof.
  apply fills_pointwise. intros b. unfold put16, wseq. destruct (put i (Z.shiftr v 8) b) as [|b']; [done|].
  cbn [obind]. by rewrite put_land.
Qed.

(** A slice expression inside the block. *)
Lemma fills_within i g off d : Fills g off d -> 0 <= i <= off + len d -> Fills (advance i ;! g) off d.
Proof.
  intros Hg Hi pre rest Hp. unfold wseq, advance. rewrite !len_app.
  assert (El : len (replicate (length d) x00) = len d) by (unfold len; by rewrite length_replicate).
  pose proof (len_nonneg rest).
  replace ((0 <=? i) && _) with true by (symmetry; rewrite andb_true_iff; split; lia).
  cbn [obind]. by apply Hg.
Qed.

(** A list of strings whose two lengths are written last. *)
Lemma fills_strings l : let c := concat (map (enc_lp 1) l) in
  Fills (put_strings 6 l ;! put16 4 (len c) ;! put16 2 (len c + 2)) 2 (be 2 (len c + 2) ++ be 2 (len c) ++ c).
Proof.
  intros c. rewrite app_assoc.
  eapply fills_before; [apply fills_put_strings|by rewrite len_app, !len_be|].
  by eapply fills_before; [apply fills_put16|by rewrite len_be|apply fills_put16].
Qed.

(** The parts of a body that follow one another. *)
Ltac fills_body :=
  repeat match goal with
  | |- Fills (put_bytes _ _) _ _ => apply fills_put_bytes
  | |- Fills (put_strings _ _) _ _ => apply fills_put_strings
  | |- Fills (put16s _ _) _ _ => apply fills_put16s
  | |- Fills (put16 _ _) _ _ => apply fills_put16
  | |- Fills (put _ _) _ _ => apply fills_put
  | |- Fills (copy_at _ _) _ _ => apply fills_copy
  | |- Fills wnop _ _ => apply fills_nop
  | |- Fills (if _ then _ else wnop) _ _ => apply fills_if; [|by intros ?%len_pos_false]
  | |- Fills (_ ;! _) _ _ => eapply fills_seq; [| |]
  end; autorewrite with cb; try lia.

(** ** Instances *)

#[export] Instance SNI_ext : TLSExtension SNIExtension.t := {| Len := SNIExtension.Len; Read := SNIExtension.Read |}.
#[export] Program Instance SNI_ok : TLSExtensionOk SNIExtension.t := {|
  ready _ := True;
  block e := let h := hostnameInSNI e.(SNIExtension.ServerName) in
    if len h =? 0 then None
    else Some (extensionServerName, be 2 (len h + 3) ++ be 1 0 ++ be 2 (len h) ++ h)
|}.
Next Obligation. intros e _. cbn [Len SNI_ext]. unfold SNIExtension.Len. destruct (len _ =? 0); [done|]. block_len. Qed.
Next Obligation.
  intros e b _. cbn [Len Read SNI_ext]. unfold SNIExtension.Read. destruct (len _ =? 0) eqn:E; intros H.
  - unfold SNIExtension.Len in H. rewrite E in H. pose proof (len_nonneg b). lia.
  - by apply too_short.
Qed.
Next Obligation.
  intros e rest _. cbn [Len Read SNI_ext]. unfold SNIExtension.Read, SNIExtension.Len.
  destruct (len _ =? 0) eqn:E; [done|].
  rewrite room by block_len. apply written_fills, fills_ext; [|autorewrite with cb; lia].
  eapply fills_seq; [apply fills_put16|reflexivity|].
  change (be 1 0) with (replicate 1 x00). eapply fills_skip; [|done]. by fills_body.
Qed.

(** Most types check the length of the buffer and write one block. *)
Lemma simple_laws `{TLSExtension E} (rdy : E -> Prop) (blk : E -> Z * bytes) (f : E -> bytes -> outcome bytes) :
  (forall e b, rdy e -> Read e b = if len b <? Len e then shortBuffer b else written (Len e) (f e) b) ->
  (forall e, rdy e -> Len e = 4 + len (blk e).2) ->
  (forall e, rdy e -> Fills (f e) 0 (enc_ext (blk e))) ->
  forall e, rdy e ->
    Len e = len (wire (Some (blk e))) /\
    (forall b, len b < Len e -> Read e b = Ret (b, (0, ErrShortBuffer))) /\
    (forall rest, Read e (replicate (length (wire (Some (blk e)))) x00 ++ rest) =
                  Ret (wire (Some (blk e)) ++ rest, (Len e, EOF))).
Proof.
  intros HR HL HF e He.
  assert (El : Len e = len (wire (Some (blk e)))).
  { rewrite HL by done. unfold wire, enc_ext. autorewrite with cb. lia. }
  split_and!; [done| |].
  - intros b Hb. rewrite HR by done. by apply too_short.
  - intros rest. rewrite HR by done. rewrite room by lia. by apply written_fills, HF.
Qed.

Definition simple_ok `{TLSExtension E} (rdy : E -> Prop) (blk : E -> Z * bytes) (f : E -> bytes -> outcome bytes)
  (HR : forall e b, rdy e -> Read e b = if len b <? Len e then shortBuffer b else written (Len e) (f e) b)
  (HL : forall e, rdy e -> Len e = 4 + len (blk e).2)
  (HF : forall e, rdy e -> Fills (f e) 0 (enc_ext (blk e))) : TLSExtensionOk E :=
  {| ready := rdy; block e := Some (blk e);
     Len_block e He := proj1 (simple_laws rdy blk f HR HL HF e He);
     Read_short e b He := proj1 (proj2 (simple_laws rdy blk f HR HL HF e He)) b;
     Read_block e rest He := proj2 (proj2 (simple_laws rdy blk f HR HL HF e He)) rest |}.

(** [Len] of an instance, unfolded to arithmetic over the lengths of the fields. *)
Ltac len_simpl :=
  cbn -[len be Z.add Z.mul enc_u16s app hostnameInSNI];
  try match goal with |- ?f _ = _ => unfold f end; autorewrite with cb.

(** The three premises, for a type whose writes follow the block. *)
Ltac simple_ext :=
  [> intros; reflexivity
   | intros e He; len_simpl; lia
   | intros e He; apply fills_ext; [fills_body|autorewrite with cb; lia] ].

#[export] Instance StatusRequest_ext : TLSExtension StatusRequestExtension.t :=
  {| Len := StatusRequestExtension.Len; Read := StatusRequestExtension.Read |}.
#[export] Instance StatusRequest_ok : TLSExtensionOk StatusRequestExtension.t.
Proof.
  refine (simple_ok (fun _ => True) (fun _ => (extensionStatusRequest, be 1 1 ++ be 4 0))
    (fun _ => put16 0 extensionStatusRequest ;! put 2 0 ;! put 3 5 ;! put 4 1) _ _ _); [done|done|].
  intros e _. apply (fills_rest _ 0 4 (be 2 extensionStatusRequest ++ [u8 0] ++ [u8 5] ++ [u8 1])). by fills_body.
Defined.

(** *** Lists of 16-bit values *)

Lemma u16s_fills id l :
  Fills (put16 0 id ;! put16 2 (2 + 2 * len l) ;! put16 4 (2 * len l) ;! put16s 6 l) 0
    (enc_ext (id, be 2 (2 * len l) ++ enc_u16s l)).
Proof. apply fills_ext; [by fills_body|]. autorewrite with cb. rewrite len_enc_u16s. lia. Qed.

Ltac u16s_ok :=
  [> intros; reflexivity | intros e _; len_simpl; rewrite len_enc_u16s; lia | intros; apply u16s_fills ].

#[export] Instance SupportedCurves_ext : TLSExtension SupportedCurvesExtension.t :=
  {| Len := SupportedCurvesExtension.Len; Read := SupportedCurvesExtension.Read |}.
#[export] Instance SupportedCurves_ok : TLSExtensionOk SupportedCurvesExtension.t.
Proof.
  refine (simple_ok (fun _ => True) (fun e => (extensionSupportedCurves,
    be 2 (2 * len e.(SupportedCurvesExtension.Curves)) ++ enc_u16s e.(SupportedCurvesExtension.Curves)))
    (fun e => _) _ _ _); u16s_ok.
Defined.

#[export] Instance SignatureAlgorithms_ext : TLSExtension SignatureAlgorithmsExtension.t :=
  {| Len := SignatureAlgorithmsExtension.Len; Read := SignatureAlgorithmsExtension.Read |}.
#[export] Instance SignatureAlgorithms_ok : TLSExtensionOk SignatureAlgorithmsExtension.t.
Proof.
  refine (simple_ok (fun _ => True) (fun e => (extensionSignatureAlgorithms,
    be 2 (2 * len e.(SignatureAlgorithmsExtension.SupportedSignatureAlgorithms)) ++
    enc_u16s e.(SignatureAlgorithmsExtension.SupportedSignatureAlgorithms)))
    (fun e => _) _ _ _); u16s_ok.
Defined.

#[export] Instance SignatureAlgorithmsCert_ext : TLSExtension SignatureAlgorithmsCertExtension.t :=
  {| Len := SignatureAlgorithmsCertExtension.Len; Read := SignatureAlgorithmsCertExtension.Read |}.
#[export] Instance SignatureAlgorithmsCert_ok : TLSExtensionOk SignatureAlgorithmsCertExtension.t.
Proof.
  refine (simple_ok (fun _ => True) (fun e => (extensionSignatureAlgorithmsCert,
    be 2 (2 * len e.(SignatureAlgorithmsCertExtension.SupportedSignatureAlgorithms)) ++
    enc_u16s e.(SignatureAlgorithmsCertExtension.SupportedSignatureAlgorithms)))
    (fun e => _) _ _ _); u16s_ok.
Defined.

#[export] Instance FakeDelegatedCredentials_ext : TLSExtension FakeDelegatedCredentialsExtension.t :=
  {| Len := FakeDelegatedCredentialsExtension.Len; Read := FakeDelegatedCredentialsExtension.Read |}.
#[export] Instance FakeDelegatedCredentials_ok : TLSExtensionOk FakeDelegatedCredentialsExtension.t.
Proof.
  refine (simple_ok (fun _ => True) (fun e => (fakeExtensionDelegatedCredentials,
    be 2 (2 * len e.(FakeDelegatedCredentialsExtension.SupportedSignatureAlgorithms)) ++
    enc_u16s e.(FakeDelegatedCredentialsExtension.SupportedSignatureAlgorithms)))
    (fun e => _) _ _ _); u16s_ok.
Defined.

(** *** Fixed bodies and byte strings *)

#[export] Instance StatusRequestV2_ext : TLSExtension StatusRequestV2Extension.t :=
  {| Len := StatusRequestV2Extension.Len; Read := StatusRequestV2Extension.Read |}.
#[export] Instance StatusRequestV2_ok : TLSExtensionOk StatusRequestV2Extension.t.
Proof.
  refine (simple_ok (fun _ => True) (fun _ => (extensionStatusRequestV2, be 2 7 ++ be 1 2 ++ be 2 4 ++ be 4 0))
    (fun _ => _) _ _ _); [intros; reflexivity|done|].
  intros e _. apply (fills_rest _ 0 4 (be 2 extensionStatusRequestV2 ++ [u8 0] ++ [u8 9] ++ [u8 0] ++ [u8 7] ++
    [u8 2] ++ [u8 0] ++ [u8 4])). by fills_body.
Defined.

#[export] Instance SupportedPoints_ext : TLSExtension SupportedPointsExtension.t :=
  {| Len := SupportedPointsExtension.Len; Read := SupportedPointsExtension.Read |}.
#[export] Instance SupportedPoints_ok : TLSExtensionOk SupportedPointsExtension.t.
Proof.
  refine (simple_ok (fun _ => True) (fun e => (extensionSupportedPoints, enc_lp 1 e.(SupportedPointsExtension.SupportedPoints)))
    (fun e => _) _ _ _); unfold enc_lp; simple_ext.
Defined.

#[export] Instance Cookie_ext : TLSExtension CookieExtension.t :=
  {| Len := CookieExtension.Len; Read := CookieExtension.Read |}.
#[export] Instance Cookie_ok : TLSExtensionOk CookieExtension.t.
Proof.
  refine (simple_ok (fun _ => True) (fun e => (extensionCookie, enc_lp 2 e.(CookieExtension.Cookie)))
    (fun e => _) _ _ _); unfold enc_lp; simple_ext.
Defined.

#[export] Instance Generic_ext : TLSExtension GenericExtension.t :=
  {| Len := GenericExtension.Len; Read := GenericExtension.Read |}.
#[export] Instance Generic_ok : TLSExtensionOk GenericExtension.t.
Proof.
  refine (simple_ok (fun _ => True) (fun e => (e.(GenericExtension.Id), e.(GenericExtension.Data)))
    (fun e => _) _ _ _); simple_ext.
Defined.

#[export] Instance UtlsGREASE_ext : TLSExtension UtlsGREASEExtension.t :=
  {| Len := UtlsGREASEExtension.Len; Read := UtlsGREASEExtension.Read |}.
#[export] Instance UtlsGREASE_ok : TLSExtensionOk UtlsGREASEExtension.t.
Proof.
  refine (simple_ok (fun _ => True) (fun e => (e.(UtlsGREASEExtension.Value), e.(UtlsGREASEExtension.Body)))
    (fun e => _) _ _ _); simple_ext.
Defined.

#[export] Instance SessionTicket_ext `{X : X509} : TLSExtension (SessionTicketExtension.t X) :=
  {| Len := SessionTicketExtension.Len; Read := SessionTicketExtension.Read |}.
#[export] Instance SessionTicket_ok `{X : X509} : TLSExtensionOk (SessionTicketExtension.t X).
Proof.
  refine (simple_ok (fun _ => True) (fun e => (extensionSessionTicket, e.(SessionTicketExtension.Ticket)))
    (fun e => _) _ _ _); [intros; reflexivity|intros e He; cbn [Len SessionTicket_ext snd]; unfold SessionTicketExtension.Len; lia|].
  intros e _. apply fills_ext; [|unfold SessionTicketExtension.Len; lia].
  unfold SessionTicketExtension.Len. rewrite Z.add_simpl_l. by fills_body.
Defined.

#[export] Instance FakeEarlyData_ext : TLSExtension FakeEarlyDataExtension.t :=
  {| Len := FakeEarlyDataExtension.Len; Read := FakeEarlyDataExtension.Read |}.
#[export] Instance FakeEarlyData_ok : TLSExtensionOk FakeEarlyDataExtension.t.
Proof.
  refine (simple_ok (fun _ => True) (fun _ => (extensionEarlyData, []))
    (fun e => _) _ _ _); [intros; reflexivity|done|].
  intros e _. change (enc_ext _) with (be 2 extensionEarlyData ++ [u8 0] ++ [u8 0]). by fills_body.
Defined.

(** *** Empty bodies: the zero length is not written *)

Lemma empty_fills id : Fills (put16 0 id) 0 (enc_ext (id, [])).
Proof. apply (fills_rest _ 0 2 (be 2 id)). apply fills_put16. Qed.

#[export] Instance SCT_ext : TLSExtension SCTExtension.t := {| Len := SCTExtension.Len; Read := SCTExtension.Read |}.
#[export] Instance SCT_ok : TLSExtensionOk SCTExtension.t.
Proof.
  refine (simple_ok (fun _ => True) (fun _ => (extensionSCT, [])) (fun _ => _) _ _ _);
    [intros; reflexivity|done|intros; apply empty_fills].
Defined.

#[export] Instance ExtendedMasterSecret_ext : TLSExtension ExtendedMasterSecretExtension.t :=
  {| Len := ExtendedMasterSecretExtension.Len; Read := ExtendedMasterSecretExtension.Read |}.
#[export] Instance ExtendedMasterSecret_ok : TLSExtensionOk ExtendedMasterSecretExtension.t.
Proof.
  refine (simple_ok (fun _ => True) (fun _ => (extensionExtendedMasterSecret, [])) (fun _ => _) _ _ _);
    [intros; reflexivity|done|intros; apply empty_fills].
Defined.

#[export] Instance NPN_ext : TLSExtension NPNExtension.t := {| Len := NPNExtension.Len; Read := NPNExtension.Read |}.
#[export] Instance NPN_ok : TLSExtensionOk NPNExtension.t.
Proof.
  refine (simple_ok (fun _ => True) (fun _ => (extensionNextProtoNeg, [])) (fun _ => _) _ _ _);
    [intros; reflexivity|done|]. intros e _. apply (fills_land_end 0). apply empty_fills.
Defined.

#[export] Instance FakeChannelID_ext : TLSExtension FakeChannelIDExtension.t :=
  {| Len := FakeChannelIDExtension.Len; Read := FakeChannelIDExtension.Read |}.
#[export] Instance FakeChannelID_ok : TLSExtensionOk FakeChannelIDExtension.t.
Proof.
  refine (simple_ok (fun _ => True)
    (fun e => (if e.(FakeChannelIDExtension.OldExtensionID) then fakeOldExtensionChannelID else fakeExtensionChannelID, []))
    (fun e => _) _ _ _); [intros; reflexivity|done|]. intros e _. apply (fills_land_end 0). apply empty_fills.
Defined.

(** *** Protocol lists: the lengths are written last *)

Lemma protocols_fills id l : let c := concat (map (enc_lp 1) l) in
  Fills (put 0 (Z.shiftr id 8) ;! put 1 (Z.land id 0xff) ;! advance 2 ;! advance 6 ;!
         put_strings 6 l ;! put16 4 (protocols_len 0 l) ;! put16 2 (protocols_len 0 l + 2)) 0
    (enc_ext (id, enc_lp 2 c)).
Proof.
  intros c. rewrite !protocols_len_acc. change (0 + _) with (len c). apply (fills_land 0).
  unfold enc_ext, enc_lp at 2. cbn [fst snd]. rewrite len_app, len_be, (Z.add_comm (Z.of_nat 2)).
  eapply fills_seq; [apply fills_put16|reflexivity|].
  pose proof (len_nonneg c).
  apply fills_within; [apply fills_within; [apply fills_strings|]|];
    unfold enc_lp; rewrite !len_app, !len_be; lia.
Qed.

Ltac protocols_ok :=
  [> intros; reflexivity
   | intros e _; len_simpl; rewrite protocols_len_acc; unfold enc_lp at 2; autorewrite with cb; lia
   | intros; apply protocols_fills ].

#[export] Instance ALPN_ext : TLSExtension ALPNExtension.t := {| Len := ALPNExtension.Len; Read := ALPNExtension.Read |}.
#[export] Instance ALPN_ok : TLSExtensionOk ALPNExtension.t.
Proof.
  refine (simple_ok (fun _ => True)
    (fun e => (extensionALPN, enc_lp 2 (concat (map (enc_lp 1) e.(ALPNExtension.AlpnProtocols)))))
    (fun e => _) _ _ _); protocols_ok.
Defined.

#[export] Instance ApplicationSettings_ext : TLSExtension ApplicationSettingsExtension.t :=
  {| Len := ApplicationSettingsExtension.Len; Read := ApplicationSettingsExtension.Read |}.
#[export] Instance ApplicationSettings_ok : TLSExtensionOk ApplicationSettingsExtension.t.
Proof.
  refine (simple_ok (fun _ => True) (fun e => (utlsExtensionApplicationSettings,
    enc_lp 2 (concat (map (enc_lp 1) e.(ApplicationSettingsExtension.SupportedProtocols)))))
    (fun e => _) _ _ _); protocols_ok.
Defined.

#[export] Instance ApplicationSettingsNew_ext : TLSExtension ApplicationSettingsExtensionNew.t :=
  {| Len := ApplicationSettingsExtensionNew.Len; Read := ApplicationSettingsExtensionNew.Read |}.
#[export] Instance ApplicationSettingsNew_ok : TLSExtensionOk ApplicationSettingsExtensionNew.t.
Proof.
  refine (simple_ok (fun _ => True) (fun e => (utlsExtensionApplicationSettingsNew,
    enc_lp 2 (concat (map (enc_lp 1) e.(ApplicationSettingsExtensionNew.SupportedProtocols)))))
    (fun e => _) _ _ _); protocols_ok.
Defined.

(** *** Extensions with guards of their own *)

#[export] Instance PSKModes_ext : TLSExtension PSKKeyExchangeModesExtension.t :=
  {| Len := PSKKeyExchangeModesExtension.Len; Read := PSKKeyExchangeModesExtension.Read |}.
#[export] Instance PSKModes_ok : TLSExtensionOk PSKKeyExchangeModesExtension.t.
Proof.
  refine (simple_ok (fun e => len e.(PSKKeyExchangeModesExtension.Modes) <= 255)
    (fun e => (extensionPSKModes, enc_lp 1 e.(PSKKeyExchangeModesExtension.Modes)))
    (fun e => _) _ _ _); unfold enc_lp.
  - intros e b He. cbn [Read PSKModes_ext]. unfold PSKKeyExchangeModesExtension.Read.
    rewrite (proj2 (Z.ltb_ge 255 _)) by lia. reflexivity.
  - intros e He; len_simpl; lia.
  - intros e He. apply fills_ext; [fills_body|autorewrite with cb; lia].
Defined.

#[export] Instance SupportedVersions_ext : TLSExtension SupportedVersionsExtension.t :=
  {| Len := SupportedVersionsExtension.Len; Read := SupportedVersionsExtension.Read |}.
#[export] Instance SupportedVersions_ok : TLSExtensionOk SupportedVersionsExtension.t.
Proof.
  refine (simple_ok (fun e => 2 * len e.(SupportedVersionsExtension.Versions) <= 255)
    (fun e => (extensionSupportedVersions, enc_lp 1 (enc_u16s e.(SupportedVersionsExtension.Versions))))
    (fun e => _) _ _ _); unfold enc_lp.
  - intros e b He. cbn [Read SupportedVersions_ext]. unfold SupportedVersionsExtension.Read.
    cbv zeta. rewrite (proj2 (Z.ltb_ge 255 _)) by lia. reflexivity.
  - intros e He; len_simpl; rewrite len_enc_u16s; lia.
  - intros e He. apply fills_ext; [rewrite len_enc_u16s; by fills_body|]. autorewrite with cb. rewrite len_enc_u16s. lia.
Defined.

#[export] Instance UtlsCompressCert_ext : TLSExtension UtlsCompressCertExtension.t :=
  {| Len := UtlsCompressCertExtension.Len; Read := UtlsCompressCertExtension.Read |}.
#[export] Instance UtlsCompressCert_ok : TLSExtensionOk UtlsCompressCertExtension.t.
Proof.
  refine (simple_ok (fun e => 2 * len e.(UtlsCompressCertExtension.Algorithms) <= 255)
    (fun e => (utlsExtensionCompressCertificate, enc_lp 1 (enc_u16s e.(UtlsCompressCertExtension.Algorithms))))
    (fun e => let extLen := 2 * len e.(UtlsCompressCertExtension.Algorithms) in
       put 0 (Z.shiftr utlsExtensionCompressCertificate 8) ;!
       put 1 (Z.land utlsExtensionCompressCertificate 0xff) ;!
       put 2 (Z.shiftr (extLen + 1) 8) ;! put 3 (Z.land (extLen + 1) 0xff) ;! put 4 extLen ;!
       put16s 5 e.(UtlsCompressCertExtension.Algorithms)) _ _ _); unfold enc_lp.
  - intros e b He. cbn [Read UtlsCompressCert_ext]. unfold UtlsCompressCertExtension.Read, written, wseq.
    cbv zeta. rewrite (proj2 (Z.ltb_ge 255 _)) by lia.
    change (Len e) with (UtlsCompressCertExtension.Len e). destruct (len b <? UtlsCompressCertExtension.Len e); [done|]. destruct (put 0 _ b) as [|b1]; [done|]. cbn [obind].
    by destruct (put 1 _ b1).
  - intros e He; len_simpl; rewrite len_enc_u16s; lia.
  - intros e He. cbv zeta. apply (fills_land 0). unfold enc_ext. cbn [fst snd].
    eapply fills_seq; [apply fills_put16|reflexivity|]. apply (fills_land 2).
    rewrite !len_app, !len_be, len_enc_u16s, (Z.add_comm (Z.of_nat 1)).
    eapply fills_seq; [apply fills_put16|reflexivity|]. by fills_body.
Defined.

#[export] Instance RenegotiationInfo_ext : TLSExtension RenegotiationInfoExtension.t :=
  {| Len := RenegotiationInfoExtension.Len; Read := RenegotiationInfoExtension.Read |}.
#[export] Instance RenegotiationInfo_ok : TLSExtensionOk RenegotiationInfoExtension.t.
Proof.
  refine (simple_ok (fun _ => True)
    (fun e => (extensionRenegotiationInfo, enc_lp 1 e.(RenegotiationInfoExtension.RenegotiatedConnection)))
    (fun e => _) _ _ _); unfold enc_lp; [intros; reflexivity|intros e He; len_simpl; lia|].
  intros e _. apply (fills_land 0), fills_ext; [by fills_body|autorewrite with cb; lia].
Defined.

#[export] Instance FakeRecordSizeLimit_ext : TLSExtension FakeRecordSizeLimitExtension.t :=
  {| Len := FakeRecordSizeLimitExtension.Len; Read := FakeRecordSizeLimitExtension.Read |}.
#[export] Instance FakeRecordSizeLimit_ok : TLSExtensionOk FakeRecordSizeLimitExtension.t.
Proof.
  refine (simple_ok (fun _ => True) (fun e => (fakeRecordSizeLimit, be 2 e.(FakeRecordSizeLimitExtension.Limit)))
    (fun e => _) _ _ _); [intros; reflexivity|done|].
  intros e _. apply (fills_land 0). unfold enc_ext. cbn [fst snd].
  eapply fills_seq; [apply fills_put16|reflexivity|].
  change (be 2 (len (be 2 _))) with ([u8 0] ++ [u8 2]). rewrite <- app_assoc.
  eapply fills_seq; [apply fills_put|reflexivity|]. eapply fills_seq; [apply fills_put|reflexivity|].
  apply (fills_land_end 4), fills_put16.
Defined.

#[export] Instance FakeTokenBinding_ext : TLSExtension FakeTokenBindingExtension.t :=
  {| Len := FakeTokenBindingExtension.Len; Read := FakeTokenBindingExtension.Read |}.
#[export] Instance FakeTokenBinding_ok : TLSExtensionOk FakeTokenBindingExtension.t.
Proof.
  refine (simple_ok (fun _ => True)
    (fun e => (fakeExtensionTokenBinding,
       be 1 e.(FakeTokenBindingExtension.MajorVersion) ++ be 1 e.(FakeTokenBindingExtension.MinorVersion) ++
       enc_lp 1 e.(FakeTokenBindingExtension.KeyParameters)))
    (fun e => _) _ _ _); unfold enc_lp; [intros; reflexivity|intros e He; len_simpl; lia|].
  intros e _. apply (fills_land 0). unfold enc_ext. cbn [fst snd].
  eapply fills_seq; [apply fills_put16|reflexivity|]. apply (fills_land 2).
  rewrite !len_app, !len_be. unfold FakeTokenBindingExtension.Len.
  replace (2 + 2 + 2 + 1 + len _ - 4)
    with (Z.of_nat 1 + (Z.of_nat 1 + (Z.of_nat 1 + len (FakeTokenBindingExtension.KeyParameters e)))) by lia.
  eapply fills_seq; [apply fills_put16|reflexivity|]. by fills_body.
Defined.

(** *** Key shares *)

Definition enc_share (ks : KeyShare.t) : bytes := be 2 ks.(KeyShare.Group) ++ enc_lp 2 ks.(KeyShare.Data).

Lemma fills_put_shares l : forall i, Fills (KeyShareExtension.put_shares i l) i (concat (map enc_share l)).
Proof.
  induction l as [|ks l IH]; intros i; cbn [KeyShareExtension.put_shares map concat]; [apply fills_nop|].
  unfold enc_share at 1, enc_lp at 1. rewrite <- !app_assoc.
  eapply (fills_seq _ _ _ (i + 2)); [apply fills_put16|rewrite len_be; lia|].
  eapply (fills_seq _ _ _ (i + 4)); [apply fills_put16|rewrite len_be; lia|].
  eapply fills_seq; [apply fills_copy| |apply IH]. lia.
Qed.

Lemma keySharesLen_concat e :
  KeyShareExtension.keySharesLen e = len (concat (map enc_share e.(KeyShareExtension.KeyShares))).
Proof.
  unfold KeyShareExtension.keySharesLen. rewrite <- (Z.add_0_l (len _)). generalize 0.
  induction (KeyShareExtension.KeyShares e) as [|ks l IH]; intros z; cbn [fold_left map concat].
  - rewrite len_nil. lia.
  - rewrite IH, len_app. unfold enc_share at 2, enc_lp. autorewrite with cb. lia.
Qed.

#[export] Instance KeyShare_ext : TLSExtension KeyShareExtension.t :=
  {| Len := KeyShareExtension.Len; Read := KeyShareExtension.Read |}.
#[export] Instance KeyShare_ok : TLSExtensionOk KeyShareExtension.t.
Proof.
  refine (simple_ok (fun _ => True)
    (fun e => (extensionKeyShare, enc_lp 2 (concat (map enc_share e.(KeyShareExtension.KeyShares)))))
    (fun e => _) _ _ _); [intros; reflexivity| |].
  - intros e _. cbn [snd]. change (Len e) with (4 + 2 + KeyShareExtension.keySharesLen e).
    rewrite keySharesLen_concat. unfold enc_lp. autorewrite with cb. lia.
  - intros e _. rewrite keySharesLen_concat. apply fills_ext; [|unfold enc_lp; autorewrite with cb; lia].
    eapply fills_seq; [apply fills_put16|reflexivity|apply fills_put_shares].
Defined.

(** *** Padding: the body is not written *)

#[export] Instance UtlsPadding_ext : TLSExtension UtlsPaddingExtension.t :=
  {| Len := UtlsPaddingExtension.Len; Read := UtlsPaddingExtension.Read |}.
#[export] Program Instance UtlsPadding_ok : TLSExtensionOk UtlsPaddingExtension.t := {|
  ready e := 0 <= e.(UtlsPaddingExtension.PaddingLen);
  block e := if e.(UtlsPaddingExtension.WillPad)
    then Some (utlsExtensionPadding, replicate (Z.to_nat e.(UtlsPaddingExtension.PaddingLen)) x00) else None
|}.
Next Obligation.
  intros e He. cbn [Len UtlsPadding_ext]. unfold UtlsPaddingExtension.Len.
  destruct (UtlsPaddingExtension.WillPad e); [|done].
  unfold wire, enc_ext. cbn [fst snd]. autorewrite with cb. rewrite len_replicate by done. lia.
Qed.
Next Obligation.
  intros e b He. cbn [Len Read UtlsPadding_ext]. unfold UtlsPaddingExtension.Read, UtlsPaddingExtension.Len.
  destruct (UtlsPaddingExtension.WillPad e); cbn [negb]; intros H; [by apply too_short|].
  pose proof (len_nonneg b). lia.
Qed.
Next Obligation.
  intros e rest He. cbn [Len Read UtlsPadding_ext]. unfold UtlsPaddingExtension.Read, UtlsPaddingExtension.Len.
  destruct (UtlsPaddingExtension.WillPad e); cbn [negb]; [|done].
  set (z := replicate (Z.to_nat (UtlsPaddingExtension.PaddingLen e)) x00).
  assert (Ez : len z = UtlsPaddingExtension.PaddingLen e) by (by apply len_replicate).
  rewrite room by (unfold wire, enc_ext; cbn [fst snd]; autorewrite with cb; lia). apply written_fills.
  unfold wire, enc_ext; cbn [fst snd]. rewrite app_assoc, Ez. apply fills_rest. by fills_body.
Qed.

(** *** Trust anchors: the order may be shuffled *)

Lemma swap_perm i j out : TrustAnchorsExtension.swap i j out ≡ₚ out.
Proof.
  unfold TrustAnchorsExtension.swap.
  destruct (out !! i) as [x|] eqn:Ei; [|done]. destruct (out !! j) as [y|] eqn:Ej; [|done].
  by apply Permutation_insert_swap.
Qed.

Lemma shuffle_perm i : forall out rand out' rand',
  TrustAnchorsExtension.shuffle i out rand = (Some out', rand') -> out' ≡ₚ out.
Proof.
  induction i as [|i IH]; intros out rand out' rand' H; cbn [TrustAnchorsExtension.shuffle] in H.
  - by injection H as <- _.
  - destruct rand as [|[r|] rand]; [done| |done]. apply IH in H. rewrite H. apply swap_perm.
Qed.

Lemma protocols_len_perm l l' n : l ≡ₚ l' -> protocols_len n l = protocols_len n l'.
Proof.
  intros H. unfold protocols_len. revert n.
  induction H as [|x l l' H IH|x y l|l l' l'' H1 IH1 H2 IH2]; intros n; cbn [fold_left].
  - done.
  - apply IH.
  - f_equal. lia.
  - by rewrite IH1.
Qed.

#[export] Instance TrustAnchors_ext : TLSExtension TrustAnchorsExtension.t :=
  {| Len := TrustAnchorsExtension.Len; Read := TrustAnchorsExtension.Read |}.
#[export] Instance TrustAnchors_ok : TLSExtensionOk TrustAnchorsExtension.t.
Proof.
  refine (simple_ok
    (fun e => TrustAnchorsExtension.list_ e ≡ₚ e.(TrustAnchorsExtension.TrustAnchors) /\
              protocols_len 0 e.(TrustAnchorsExtension.TrustAnchors) <= 0xffff - 2)
    (fun e => (utlsExtensionTrustAnchors, enc_lp 2 (concat (map (enc_lp 1) (TrustAnchorsExtension.list_ e)))))
    (fun e => _) _ _ _).
  - intros e b [_ He]. cbn [Read TrustAnchors_ext]. unfold TrustAnchorsExtension.Read.
    rewrite (proj2 (Z.ltb_ge (0xffff - 2) _)); [reflexivity|].
    unfold TrustAnchorsExtension.Len. rewrite protocols_len_acc in *. lia.
  - intros e [Hp _]. change (Len e) with (protocols_len (2 + 2 + 2) e.(TrustAnchorsExtension.TrustAnchors)).
    rewrite <- (protocols_len_perm _ _ _ Hp), protocols_len_acc. unfold enc_lp at 2. cbn [snd].
    autorewrite with cb. lia.
  - intros e [Hp He]. cbv zeta. rewrite protocols_len_acc. set (c := concat _).
    unfold enc_ext, enc_lp. cbn [fst snd]. rewrite len_app, len_be, (Z.add_comm (Z.of_nat 2)).
    eapply fills_seq; [apply fills_put16|reflexivity|]. pose proof (len_nonneg c).
    apply fills_within; [|rewrite !len_app, !len_be; lia].
    rewrite app_assoc. eapply fills_before; [apply fills_put_strings|by rewrite len_app, !len_be|].
    eapply fills_seq; [|by rewrite len_be|];
      (eapply fills_cast; [apply fills_put16|done|by rewrite be2_mod]).
Defined.

(** Whatever the random numbers, [writeToUConn] leaves the trust anchors in
    some order that is a permutation of the configured list, so that the
    extension is ready to be sent; the configured list is not changed. *)
Theorem trust_anchors_shuffled e uc :
  protocols_len 0 e.(TrustAnchorsExtension.TrustAnchors) <= 0xffff - 2 ->
  let e' := (TrustAnchorsExtension.writeToUConn e uc).1 in
  ready e' /\ e'.(TrustAnchorsExtension.TrustAnchors) = e.(TrustAnchorsExtension.TrustAnchors).
Proof.
  intros He. unfold TrustAnchorsExtension.writeToUConn.
  destruct (negb _ || _); [done|].
  destruct (TrustAnchorsExtension.shuffle _ _ _) as [[out|] rand] eqn:E; cbn [fst]; [|done].
  split; [|done]. split; [|done]. by apply shuffle_perm in E.
Qed.

Lemma trust_anchors_shuffled_witness :
  let e := TrustAnchorsExtension.Mk [[x01]; [x02; x03]; [x04]] true None in
  let uc := UConn.Mk Config.zero
    (PubClientHelloMsg.Mk None 0 [] [] [] [] false [] false false false [] [] false [] [] [] false [] [] [] [] []
       false [] [] [] None None []) [] 0 [] [Some 7; Some 12] in
  ready (TrustAnchorsExtension.writeToUConn e uc).1.
Proof.
  intros e uc. apply (trust_anchors_shuffled e uc). vm_compute. discriminate.
Defined.
