(* ===== verification/PreSharedKey.v ===== *)
(** * Pre-shared keys

    Models u_pre_shared_key.go: the two implementations of the interface
    [PreSharedKeyExtension], [UtlsPreSharedKeyExtension] (initialised from a
    session; its binders are computed over the marshalled hello by
    [PatchBuiltHello]) and [FakePreSharedKeyExtension] (identities and binders
    given by the user).

    A pointer to a session is its address together with the session, which is
    not changed while it is shared.  [PatchBuiltHello] overwrites the binders in
    the storage of [hello.Raw]: the builder it uses has that slice as its fixed
    buffer. *)

From S2P Require Import Prelude Cryptobyte Common Config Codec Buffer Negotiation KeySchedule Messages Ticket ClientHello Public Extensions.

Definition ErrEmptyPsk : gerror :=
  ErrorNew "tls: empty psk detected; remove the psk extension for this connection or set OmitEmptyPsk to true to conceal it in utls".

Module PreSharedKeyCommon.
Record t `{X : X509} := Mk {
  Identities : list PskIdentity.t;
  Binders : list bytes;
  BinderKey : bytes;
  EarlySecret : bytes;
  Session : option (session.ptr X)
}.
#[global] Arguments t _ : clear implicits.
#[global] Arguments Mk {X}.
End PreSharedKeyCommon.

(** ** The extension on the wire *)

Definition pskExtLen (identities : list PskIdentity.t) (binders : list bytes) : Z :=
  if (len identities =? 0) || (len binders =? 0) then 0 else
  let length := 4 in
  let length := length + 2 in
  let length := fold_left (fun n identity => n + (2 + len identity.(PskIdentity.Label) + 4)) identities length in
  let length := length + 2 in
  fold_left (fun n binder => n + (len binder + 1)) binders length.

(** The identities from offset [offset] on, and the binders. *)
Fixpoint put_identities (offset : Z) (l : list PskIdentity.t) : bytes -> outcome bytes :=
  match l with
  | [] => wnop
  | identity :: l =>
      put16 offset (len identity.(PskIdentity.Label)) ;!
      copy_at (offset + 2) identity.(PskIdentity.Label) ;!
      put32 (offset + 2 + len identity.(PskIdentity.Label)) identity.(PskIdentity.ObfuscatedTicketAge) ;!
      put_identities (offset + 2 + len identity.(PskIdentity.Label) + 4) l
  end.

Fixpoint put_binders (offset : Z) (l : list bytes) : bytes -> outcome bytes :=
  match l with
  | [] => wnop
  | binder :: l =>
      put offset (len binder) ;! copy_at (offset + 1) binder ;! put_binders (offset + 1 + len binder) l
  end.

Definition readPskIntoBytes (b : bytes) (identities : list PskIdentity.t) (binders : list bytes) : read_result :=
  let extLen := pskExtLen identities binders in
  if extLen =? 0 then Ret (b, (0, EOF)) else
  if len b <? extLen then shortBuffer b else
  let identitiesLength :=
    fold_left (fun n identity => n + (2 + len identity.(PskIdentity.Label) + 4)) identities 0 in
  let offset := 6 + identitiesLength in
  let bindersLength := fold_left (fun n binder => n + (len binder + 1)) binders 0 in
  written extLen
    (put16 0 extensionPreSharedKey ;! put16 2 (extLen - 4) ;! put16 4 identitiesLength ;!
     put_identities 6 identities ;! put16 offset bindersLength ;! put_binders (offset + 2) binders) b.

(** ** UtlsPreSharedKeyExtension *)

Module UtlsPreSharedKeyExtension.
Record t `{X : X509} := Mk {
  Identities : list PskIdentity.t;
  Binders : list bytes;
  BinderKey : bytes;
  EarlySecret : bytes;
  Session : option (session.ptr X);
  cipherSuite : option cipherSuiteTLS13.t;
  cachedLength : option Z;
  OmitEmptyPsk : bool;
  SkipBinderPatching : bool
}.
#[global] Arguments t _ : clear implicits.
#[global] Arguments Mk {X}.

Section Ops.
Context `{X : X509}.

Definition set_Binders (v : list bytes) (e : t X) : t X :=
  Mk e.(Identities) v e.(BinderKey) e.(EarlySecret) e.(Session) e.(cipherSuite) e.(cachedLength)
    e.(OmitEmptyPsk) e.(SkipBinderPatching).
Definition set_cachedLength (v : option Z) (e : t X) : t X :=
  Mk e.(Identities) e.(Binders) e.(BinderKey) e.(EarlySecret) e.(Session) e.(cipherSuite) v
    e.(OmitEmptyPsk) e.(SkipBinderPatching).

Definition IsInitialized (e : t X) : bool := non_nil e.(Session).

(** An unknown suite is a nil pointer, which is used for every identity. *)
Definition InitializeByUtls (e : t X) (session : session.ptr X) (earlySecret binderKey : bytes)
    (identities : list PskIdentity.t) : outcome (t X) :=
  let suite := cipherSuiteTLS13ByID session.(session.state).(SessionState.cipherSuite) in
  match suite, identities with
  | None, _ :: _ => Panic
  | _, _ =>
      let size := match suite with Some c => hash_size c.(cipherSuiteTLS13.hash) | None => O end in
      Ret (Mk identities (map (fun _ => replicate size x00) identities) binderKey earlySecret (Some session)
             suite e.(cachedLength) e.(OmitEmptyPsk) e.(SkipBinderPatching))
  end.

Definition ResetForReuse (e : t X) : t X :=
  Mk [] [] [] [] None None None e.(OmitEmptyPsk) e.(SkipBinderPatching).

Definition writeToUConn (e : t X) (uc : UConn.t) : UConn.t :=
  hello_set (PubClientHelloMsg.set_TicketSupported true) uc.

Definition GetPreSharedKeyCommon (e : t X) : PreSharedKeyCommon.t X :=
  PreSharedKeyCommon.Mk e.(Identities) e.(Binders) e.(BinderKey) e.(EarlySecret) e.(Session).

(** The length is computed once and kept. *)
Definition Len (e : t X) : t X * Z :=
  if negb (non_nil e.(Session)) && ((len e.(Identities) =? 0) || (len e.(Binders) =? 0)) then (e, 0) else
  match e.(cachedLength) with
  | Some n => (e, n)
  | None =>
      let length := pskExtLen e.(Identities) e.(Binders) in
      (set_cachedLength (Some length) e, length)
  end.

Definition SetOmitEmptyPsk (val : bool) (e : t X) : t X :=
  Mk e.(Identities) e.(Binders) e.(BinderKey) e.(EarlySecret) e.(Session) e.(cipherSuite) e.(cachedLength)
    val e.(SkipBinderPatching).

Definition Read (e : t X) (b : bytes) : outcome (t X * (bytes * (Z * gerror))) :=
  let '(e, empty) := if negb e.(OmitEmptyPsk) then let (e, n) := Len e in (e, n =? 0) else (e, false) in
  if empty then Ret (e, (b, (0, ErrEmptyPsk))) else
  run r := readPskIntoBytes b e.(Identities) e.(Binders) in Ret (e, r).

Definition Write (e : t X) (b : bytes) : res (t X * Z) := inr (e, len b).

Context `{C : Cryptobyte} `{K : Crypto}.

(** The hello without its binders followed by the binder list, as the fixed
    builder writes it over [original]. *)
Definition rewrite_binders (helloBytes : bytes) (binders : list bytes) : res bytes :=
  Bytes ((AddBytes helloBytes ;>
          AddUint16LengthPrefixed (
            for_each binders (fun binder => AddUint8LengthPrefixed (AddBytes binder)))) NewBuilder).

(** The extension and the hello afterwards, and the error ([None] is nil). *)
Definition PatchBuiltHello (e : t X) (hello : PubClientHelloMsg.t)
    : outcome (t X * PubClientHelloMsg.t * option gerror) :=
  let (e, n) := Len e in
  if n =? 0 then Ret (e, hello, None) else
  if e.(SkipBinderPatching) then Ret (e, hello, None) else
  let private := match getCachedPrivatePtr hello with Some p => p | None => (getPrivatePtr hello).2 end in
  let private := clientHelloMsg.set_pskBinders e.(Binders)
                   (clientHelloMsg.set_original hello.(PubClientHelloMsg.Raw) private) in
  let cached p := PubClientHelloMsg.set_cachedPrivateHello (Some p) hello in
  match e.(cipherSuite) with
  | None => Panic
  | Some suite =>
      run helloBytes := clientHelloMsg.marshalWithoutBinders private in
      match helloBytes with
      | inl err => Ret (e, cached private, Some err)
      | inr helloBytes =>
          run binder := finishedHash suite e.(BinderKey) helloBytes in
          match clientHelloMsg.updateBinders private [binder] with
          | inl err => Ret (e, cached private, Some err)
          | inr private =>
              let original := default [] private.(clientHelloMsg.original) in
              run prefix := upto original (len helloBytes) in
              let failed := ErrorNew "tls: internal error: failed to update binders" in
              match rewrite_binders prefix private.(clientHelloMsg.pskBinders) with
              | inl _ => Ret (e, cached private, Some failed)
              | inr out =>
                  (* the storage that [hello.Raw] and [private.original] share *)
                  let raw := take (length original) out ++ drop (length out) original in
                  let hello := PubClientHelloMsg.set_Raw (Some raw)
                    (cached (clientHelloMsg.set_original (Some raw) private)) in
                  if len out =? len original then Ret (set_Binders [binder] e, hello, Some EOF)
                  else Ret (e, hello, Some failed)
              end
          end
      end
  end.
End Ops.
End UtlsPreSharedKeyExtension.

(** ** FakePreSharedKeyExtension *)

(** [mapSlice(cipherSuitesTLS13, c.hash.Size())] *)
Definition validHashLen : list Z := map (fun c => Z.of_nat (hash_size c.(cipherSuiteTLS13.hash))) cipherSuitesTLS13.

Module FakePreSharedKeyExtension.
(** A nil slice is [None]. *)
Record t := Mk { Identities : option (list PskIdentity.t); Binders : option (list bytes); OmitEmptyPsk : bool }.

Definition ids (e : t) : list PskIdentity.t := default [] e.(Identities).
Definition bs (e : t) : list bytes := default [] e.(Binders).

Definition IsInitialized (e : t) : bool := non_nil e.(Identities) && non_nil e.(Binders).
Definition ResetForReuse (e : t) : t := Mk None None e.(OmitEmptyPsk).
Definition Len (e : t) : Z := pskExtLen (ids e) (bs e).
Definition SetOmitEmptyPsk (val : bool) (e : t) : t := Mk e.(Identities) e.(Binders) val.

(** [session] tells whether the cache of the connection holds a session for it. *)
Definition writeToUConn (session : bool) (e : t) (uc : UConn.t) : UConn.t :=
  if session then
    hello_set (PubClientHelloMsg.set_PskBinders (bs e)) (hello_set (PubClientHelloMsg.set_PskIdentities (ids e)) uc)
  else uc.

Definition Read (e : t) (b : bytes) : read_result :=
  if negb e.(OmitEmptyPsk) && (Len e =? 0) then Ret (b, (0, ErrEmptyPsk)) else
  if negb (forallb (fun binder => contains validHashLen (len binder)) (bs e)) then
    Ret (b, (0, ErrorNew "tls: FakePreSharedKeyExtension.Read failed: invalid binder size"))
  else readPskIntoBytes b (ids e) (bs e).

Definition GetPreSharedKeyCommon `{X : X509} (e : t) : PreSharedKeyCommon.t X :=
  PreSharedKeyCommon.Mk (ids e) (bs e) [] [] None.

Definition err : gerror := ErrorNew "tls: invalid PSK extension".

Section Write.
Context `{C : Cryptobyte}.

(** [for identitiesLength > 0 { ... }]; the counter is a uint16. *)
Fixpoint read_identities (fuel : nat) (identitiesLength : Z) (acc : list PskIdentity.t) (s : bytes)
    : option (list PskIdentity.t * bytes) :=
  if identitiesLength =? 0 then Some (acc, s) else
  match fuel with
  | O => None
  | S fuel =>
      read (identityLength, s) := ReadUint16 s in
      let identitiesLength := (identitiesLength - 2) mod 2 ^ 16 in
      ensure negb (identitiesLength <? identityLength) in
      read (identity, s) := ReadBytes identityLength s in
      let identitiesLength := (identitiesLength - identityLength) mod 2 ^ 16 in
      read (obfuscatedTicketAge, s) := ReadUint32 s in
      read_identities fuel ((identitiesLength - 4) mod 2 ^ 16)
        (acc ++ [PskIdentity.Mk identity obfuscatedTicketAge]) s
  end.

Fixpoint read_binders (fuel : nat) (bindersLength : Z) (acc : list bytes) (s : bytes) : option (list bytes * bytes) :=
  if bindersLength =? 0 then Some (acc, s) else
  match fuel with
  | O => None
  | S fuel =>
      read (binderLength, s) := ReadUint8 s in
      let bindersLength := (bindersLength - 1) mod 2 ^ 16 in
      ensure negb (bindersLength <? binderLength) in
      read (binder, s) := ReadBytes binderLength s in
      read_binders fuel ((bindersLength - binderLength) mod 2 ^ 16) (acc ++ [binder]) s
  end.

(** Appending to a nil slice makes it non-nil; appending nothing leaves it. *)
Definition grown {A} (o : option (list A)) (l : list A) : option (list A) :=
  match o, l with None, [] => None | _, _ => Some l end.

Definition Write (e : t) (b : bytes) : res (t * Z) :=
  readE (identitiesLength, s) := ReadUint16 b or err in
  readE (identities, s) := read_identities (length b) identitiesLength (ids e) s or err in
  readE (bindersLength, s) := ReadUint16 s or err in
  readE (binders, s) := read_binders (length b) bindersLength (bs e) s or err in
  inr (Mk (grown e.(Identities) identities) (grown e.(Binders) binders) e.(OmitEmptyPsk), len b).
End Write.
End FakePreSharedKeyExtension.

(** * The binder of a built hello *)

Section Patch.
Context `{X : X509} `{C : Cryptobyte} {Cok : CryptobyteOk C} `{K : Crypto} {Kok : CryptoOk K}.
Import UtlsPreSharedKeyExtension.

Lemma finishedHash_ok suite key y :
  exists b, finishedHash suite key y = Ret b /\ length b = hash_size suite.(cipherSuiteTLS13.hash).
Proof.
  unfold finishedHash. set (h := suite.(cipherSuiteTLS13.hash)).
  destruct (ExpandLabel_ok h key (label "finished") [] (Z.of_nat (hash_size h))) as (x & -> & _);
    [vm_compute; discriminate|done|pose proof (hash_size_pos h); lia|].
  cbn [obind]. eexists. split; [done|]. apply HMAC_len.
Qed.

(** The fixed builder writes the prefix and one binder. *)
Lemma rewrite_binders_one y b : len b < 256 ->
  rewrite_binders y [b] = inr (y ++ binder_bytes [b]).
Proof.
  intros Hb. unfold rewrite_binders. apply (Bytes_emits _ (oapp (Some y) (olp 2 (oapp (olp 1 (Some b)) (Some []))))).
  - apply emits_seq; [apply emits_AddBytes|]. apply emits_lp16.
    apply (emits_for_each [b] _ (fun b => olp 1 (Some b))). intros. apply emits_lp8, emits_AddBytes.
  - unfold binder_bytes, olp, oapp, enc_lp. cbn [map concat]. rewrite app_nil_r.
    replace (len b <? 256 ^ Z.of_nat 1) with true by (symmetry; by apply Z.ltb_lt).
    rewrite app_nil_r. replace (len (be 1 (len b) ++ b) <? 256 ^ Z.of_nat 2) with true; [done|].
    symmetry. apply Z.ltb_lt. autorewrite with cb. cbn. lia.
Qed.

Lemma len_binder_bytes_one (b : bytes) : len (binder_bytes [b]) = 3 + len b.
Proof. unfold binder_bytes, enc_lp. cbn [map concat]. autorewrite with cb. lia. Qed.

(** An extension that is ready to be patched with [suite]. *)
Definition patchable (e : t X) (suite : cipherSuiteTLS13.t) : Prop :=
  e.(cipherSuite) = Some suite /\ e.(SkipBinderPatching) = false /\ (Len e).2 <> 0 /\
  exists b, e.(Binders) = [b] /\ length b = hash_size suite.(cipherSuiteTLS13.hash).

Lemma Len_fields (e : t X) :
  exists o, (Len e).1 = set_cachedLength o e.
Proof.
  unfold Len. destruct (negb _ && _); [exists e.(cachedLength); by destruct e|].
  destruct (cachedLength e) eqn:E; [|by eexists]. exists (cachedLength e). by destruct e.
Qed.

Lemma Len_patched (e : t X) b b' : e.(Binders) = [b] ->
  (Len (set_Binders [b'] (Len e).1)) = (set_Binders [b'] (Len e).1, (Len e).2) \/ (Len e).2 = 0.
Proof.
  intros E. unfold Len at 2 3 4 5. rewrite E. cbn [len].
  replace (len [b] =? 0) with false by done. rewrite orb_false_r.
  destruct (non_nil (Session e)) eqn:Hs, (len (Identities e) =? 0) eqn:Hi; cbn [negb andb]; try by right.
  all: left; destruct (cachedLength e) eqn:Hc; unfold Len, set_Binders, set_cachedLength;
    cbn; rewrite ?Hs, ?Hi, ?Hc; cbn; done.
Qed.

(** One call of [PatchBuiltHello]. *)
Lemma patch_once e hello y suite binder : patchable e suite ->
  hello.(PubClientHelloMsg.Raw) = Some (y ++ binder_bytes e.(Binders)) ->
  finishedHash suite e.(BinderKey) y = Ret binder -> length binder = hash_size suite.(cipherSuiteTLS13.hash) ->
  exists hello', PatchBuiltHello e hello = Ret (set_Binders [binder] (Len e).1, hello', Some EOF) /\
    hello'.(PubClientHelloMsg.Raw) = Some (y ++ binder_bytes [binder]).
Proof.
  intros (Hc & Hs & Hn & b & Hb & Hlb) HR Hf Hl. unfold PatchBuiltHello.
  destruct (Len_fields e) as [o Ho]. destruct (Len e) as [e1 n] eqn:EL. cbn [fst snd] in *. subst e1.
  rewrite (proj2 (Z.eqb_neq n 0)) by done. cbn [SkipBinderPatching set_cachedLength cipherSuite Binders BinderKey].
  rewrite Hs, Hc, HR, Hb. set (p0 := match getCachedPrivatePtr hello with Some p => p | None => _ end).
  set (p1 := clientHelloMsg.set_pskBinders [b] (clientHelloMsg.set_original _ p0)).
  assert (E1 : clientHelloMsg.marshalWithoutBinders p1 = Ret (inr y)) by exact (cut_binders_app p1 y).
  rewrite E1. cbn [obind]. rewrite Hf. cbn [obind].
  unfold clientHelloMsg.updateBinders. change (clientHelloMsg.pskBinders p1) with [b].
  cbn [length List.combine List.forallb]. change (len [binder] =? len [b]) with true. cbn [negb].
  replace (len binder =? len b) with true by (symmetry; apply Z.eqb_eq; unfold len; by rewrite Hl, Hlb).
  cbn [negb andb]. cbn [clientHelloMsg.original clientHelloMsg.set_pskBinders p1 clientHelloMsg.set_original
    clientHelloMsg.pskBinders default id].
  rewrite upto_app by done. cbn [obind]. pose proof (hash_size_bound suite.(cipherSuiteTLS13.hash)).
  rewrite rewrite_binders_one by (unfold len; lia).
  assert (HL : length (y ++ binder_bytes [binder]) = length (y ++ binder_bytes [b])).
  { rewrite !length_app. pose proof (len_binder_bytes_one b). pose proof (len_binder_bytes_one binder).
    unfold len in *. lia. }
  replace (len (y ++ binder_bytes [binder]) =? len (y ++ binder_bytes [b])) with true
    by (symmetry; apply Z.eqb_eq; unfold len; by rewrite HL).
  eexists. split; [reflexivity|]. cbn [PubClientHelloMsg.Raw PubClientHelloMsg.set_Raw].
  by rewrite <- HL, firstn_all, HL, drop_all, app_nil_r.
Qed.

(** C35: when the hello was built with a placeholder binder, [PatchBuiltHello]
    replaces in [Raw] the binders and nothing else, by the keyed hash of the
    rest of the hello; calling it again changes nothing; and whoever parses the
    hello as sent (keeping its bytes) cuts off the same prefix, so the server
    checks the binder over the bytes the client hashed. *)
Theorem patch_writes_binder e hello y suite : patchable e suite ->
  hello.(PubClientHelloMsg.Raw) = Some (y ++ binder_bytes e.(Binders)) ->
  exists binder hello' hello'', finishedHash suite e.(BinderKey) y = Ret binder /\
    let e' := set_Binders [binder] (Len e).1 in
    PatchBuiltHello e hello = Ret (e', hello', Some EOF) /\
    hello'.(PubClientHelloMsg.Raw) = Some (y ++ binder_bytes [binder]) /\
    PatchBuiltHello e' hello' = Ret (e', hello'', Some EOF) /\
    hello''.(PubClientHelloMsg.Raw) = hello'.(PubClientHelloMsg.Raw) /\
    forall m, m.(clientHelloMsg.original) = hello'.(PubClientHelloMsg.Raw) ->
      m.(clientHelloMsg.pskBinders) = [binder] -> clientHelloMsg.marshalWithoutBinders m = Ret (inr y).
Proof.
  intros He HR. destruct (finishedHash_ok suite e.(BinderKey) y) as (binder & Hf & Hl).
  destruct (patch_once e hello y suite binder) as (hello' & E1 & R1); [done..|].
  destruct He as (Hc & Hs & Hn & b & Hb & Hlb). destruct (Len_fields e) as [o Ho].
  destruct (Len_patched e b binder Hb) as [EL|]; [|done].
  destruct (patch_once (set_Binders [binder] (Len e).1) hello' y suite binder) as (hello'' & E2 & R2).
  - rewrite Ho in *. unfold patchable. rewrite EL. cbn. split_and!; [done..|]. by exists binder.
  - rewrite Ho. exact R1.
  - by rewrite Ho.
  - done.
  - rewrite EL in E2. exists binder, hello', hello''. cbn [fst] in E2. cbn zeta.
    split_and!; [exact Hf|exact E1|exact R1|exact E2|by rewrite R1|].
    intros m Hm Hp. unfold clientHelloMsg.marshalWithoutBinders. rewrite Hm, R1, <- Hp. apply cut_binders_app.
Qed.
End Patch.

(** * The wire format *)

Definition enc_identity (i : PskIdentity.t) : bytes :=
  enc_lp 2 i.(PskIdentity.Label) ++ be 4 i.(PskIdentity.ObfuscatedTicketAge).
Definition enc_psk (identities : list PskIdentity.t) (binders : list bytes) : bytes :=
  enc_lp 2 (concat (map enc_identity identities)) ++ enc_lp 2 (concat (map (enc_lp 1) binders)).

Lemma enc_identity_eq i : enc_identity i =
  be 2 (len i.(PskIdentity.Label)) ++ i.(PskIdentity.Label) ++ be 4 i.(PskIdentity.ObfuscatedTicketAge).
Proof. unfold enc_identity, enc_lp. by rewrite <- app_assoc. Qed.

Lemma len_enc_identity i : len (enc_identity i) = 2 + len i.(PskIdentity.Label) + 4.
Proof. unfold enc_identity. rewrite len_app, len_enc_lp, len_be. lia. Qed.

Lemma identities_len l n :
  fold_left (fun n i => n + (2 + len i.(PskIdentity.Label) + 4)) l n = n + len (concat (map enc_identity l)).
Proof.
  revert n. induction l as [|i l IH]; intros n; cbn [fold_left map concat]; [rewrite len_nil; lia|].
  rewrite IH, len_app, len_enc_identity. lia.
Qed.

Lemma binders_len l n :
  fold_left (fun n (b : bytes) => n + (len b + 1)) l n = n + len (concat (map (enc_lp 1) l)).
Proof.
  revert n. induction l as [|b l IH]; intros n; cbn [fold_left map concat]; [rewrite len_nil; lia|].
  rewrite IH, len_app, len_enc_lp. lia.
Qed.

Lemma enc_psk_eq ids bs : enc_psk ids bs =
  let i := concat (map enc_identity ids) in let b := concat (map (enc_lp 1) bs) in
  be 2 (len i) ++ i ++ be 2 (len b) ++ b.
Proof. unfold enc_psk, enc_lp at 1 2. by rewrite <- !app_assoc. Qed.

Lemma pskExtLen_eq ids bs : ids <> [] -> bs <> [] -> pskExtLen ids bs = 4 + len (enc_psk ids bs).
Proof.
  intros Hi Hb. unfold pskExtLen. destruct ids as [|i ids]; [done|]. destruct bs as [|b bs]; [done|].
  rewrite (proj2 (Z.eqb_neq (len (i :: ids)) 0)), (proj2 (Z.eqb_neq (len (b :: bs)) 0))
    by (rewrite len_cons; pose proof (len_nonneg ids); pose proof (len_nonneg bs); lia).
  cbn [orb]. rewrite identities_len, binders_len. unfold enc_psk. rewrite len_app, !len_enc_lp. lia.
Qed.

Lemma fills_identities l : forall off, Fills (put_identities off l) off (concat (map enc_identity l)).
Proof.
  induction l as [|i l IH]; intros off; cbn [put_identities map concat]; [apply fills_nop|].
  unfold enc_identity at 1, enc_lp. rewrite <- !app_assoc.
  eapply fills_seq; [apply fills_put16|by rewrite len_be|].
  eapply fills_seq; [apply fills_copy|done|]. eapply fills_seq; [apply fills_put32|by rewrite len_be|apply IH].
Qed.

Lemma fills_binders l : forall off, Fills (put_binders off l) off (concat (map (enc_lp 1) l)).
Proof.
  induction l as [|b l IH]; intros off; cbn [put_binders map concat]; [apply fills_nop|].
  unfold enc_lp at 1. rewrite <- !app_assoc, be1_u8.
  eapply fills_seq; [apply fills_put|done|]. by eapply fills_seq; [apply fills_copy|done|].
Qed.

(** The extension writes itself into a zeroed buffer that is long enough. *)
Lemma readPsk_block ids bs rest : ids <> [] -> bs <> [] ->
  let block := enc_ext (extensionPreSharedKey, enc_psk ids bs) in
  readPskIntoBytes (replicate (length block) x00 ++ rest) ids bs = Ret (block ++ rest, (len block, EOF)).
Proof.
  intros Hi Hb block. unfold readPskIntoBytes. pose proof (pskExtLen_eq ids bs Hi Hb) as E.
  pose proof (len_nonneg (enc_psk ids bs)).
  assert (EL : len block = pskExtLen ids bs) by (rewrite E; unfold block, enc_ext; cbn [fst snd]; autorewrite with cb; lia).
  rewrite (proj2 (Z.eqb_neq _ 0)) by lia. rewrite room by lia. rewrite EL. apply written_fills.
  rewrite identities_len, binders_len. apply fills_ext; [|lia].
  unfold enc_psk, enc_lp. rewrite <- !app_assoc.
  eapply fills_seq; [apply fills_put16|by rewrite len_be|].
  eapply fills_seq; [apply fills_identities|done|].
  eapply fills_seq; [apply fills_put16|reflexivity|]. eapply fills_cast; [apply fills_binders| |done].
  rewrite len_be. lia.
Qed.

(** ** The parser of the fake extension *)

Definition wf_identity (i : PskIdentity.t) : Prop :=
  len i.(PskIdentity.Label) < 2 ^ 16 /\ is_u32 i.(PskIdentity.ObfuscatedTicketAge).

Section Fake.
Context `{C : Cryptobyte} {Cok : CryptobyteOk C}.
Import FakePreSharedKeyExtension.

Lemma counter_step n a r : 0 <= n < 2 ^ 16 -> r mod 2 ^ 16 = (n - a) mod 2 ^ 16 -> (a + r) mod 2 ^ 16 = n.
Proof.
  intros Hn Hr. rewrite <- Zplus_mod_idemp_r, Hr, Zplus_mod_idemp_r.
  replace (a + (n - a)) with n by lia. by apply Z.mod_small.
Qed.

(** The uint16 counters follow what has been read, modulo 2^16. *)
Lemma read_identities_sound fuel : forall n acc s ids r, 0 <= n < 2 ^ 16 ->
  read_identities fuel n acc s = Some (ids, r) ->
  exists l, ids = acc ++ l /\ s = concat (map enc_identity l) ++ r /\ Forall wf_identity l /\
    len (concat (map enc_identity l)) mod 2 ^ 16 = n.
Proof.
  induction fuel as [|fuel IH]; intros n acc s ids r Hn; cbn [read_identities].
  all: destruct (Z.eqb_spec n 0) as [->|]; [intros [= <- <-]; exists []; rewrite app_nil_r; by split_and!|].
  1: done.
  autorewrite with cbspec. destruct (rd_uint 2 s) as [[k s1]|] eqn:E1; [|done].
  destruct (negb _); [|done]. autorewrite with cbspec.
  destruct (rd_bytes k s1) as [[label s2]|] eqn:E2; [|done]. autorewrite with cbspec.
  destruct (rd_uint 4 s2) as [[age s3]|] eqn:E3; [|done].
  apply rd_uint_eq in E1 as [-> Hk], E3 as [-> Ha]. apply rd_bytes_eq in E2 as [-> ->].
  intros H. apply IH in H as (l & -> & -> & Hl & Hm); [|apply Z.mod_pos_bound; lia].
  exists (PskIdentity.Mk label age :: l). cbn [map concat]. rewrite len_app, len_enc_identity.
  rewrite <- !app_assoc. split_and!; [done| | |].
  - by rewrite enc_identity_eq, <- !app_assoc.
  - constructor; [split; [exact (proj2 Hk)|done]|done].
  - rewrite !Zminus_mod_idemp_l, <- ?Z.sub_add_distr, ?Zminus_mod_idemp_l in Hm. apply (counter_step n); [done|]. rewrite Hm. f_equal. cbn [PskIdentity.Label]. lia.
Qed.

Lemma read_binders_sound fuel : forall n acc s bs r, 0 <= n < 2 ^ 16 ->
  read_binders fuel n acc s = Some (bs, r) ->
  exists l, bs = acc ++ l /\ s = concat (map (enc_lp 1) l) ++ r /\ Forall (fun b => len b < 256) l /\
    len (concat (map (enc_lp 1) l)) mod 2 ^ 16 = n.
Proof.
  induction fuel as [|fuel IH]; intros n acc s ids r Hn; cbn [read_binders].
  all: destruct (Z.eqb_spec n 0) as [->|]; [intros [= <- <-]; exists []; rewrite app_nil_r; by split_and!|].
  1: done.
  autorewrite with cbspec. destruct (rd_uint 1 s) as [[k s1]|] eqn:E1; [|done].
  destruct (negb _); [|done]. autorewrite with cbspec.
  destruct (rd_bytes k s1) as [[b s2]|] eqn:E2; [|done].
  apply rd_uint_eq in E1 as [-> Hk]. apply rd_bytes_eq in E2 as [-> ->].
  intros H. apply IH in H as (l & -> & -> & Hl & Hm); [|apply Z.mod_pos_bound; lia].
  exists (b :: l). cbn [map concat]. rewrite len_app, len_enc_lp.
  rewrite <- !app_assoc. split_and!; [done| | |].
  - unfold enc_lp at 2. by rewrite <- !app_assoc.
  - constructor; [exact (proj2 Hk)|done].
  - rewrite !Zminus_mod_idemp_l, <- ?Z.sub_add_distr, ?Zminus_mod_idemp_l in Hm. apply (counter_step n); [done|]. rewrite Hm. f_equal; lia.
Qed.

Lemma read_identities_complete l : forall fuel acc r, Forall wf_identity l ->
  len (concat (map enc_identity l)) < 2 ^ 16 -> (length l <= fuel)%nat ->
  read_identities fuel (len (concat (map enc_identity l))) acc (concat (map enc_identity l) ++ r) = Some (acc ++ l, r).
Proof.
  induction l as [|i l IH]; intros fuel acc r Hw Hn Hf; cbn [map concat length] in *.
  - destruct fuel; cbn; by rewrite app_nil_r.
  - destruct fuel as [|fuel]; [lia|]. inversion_clear Hw as [|? ? [Hi Ha] Hw'].
    rewrite len_app, len_enc_identity in *. pose proof (len_nonneg i.(PskIdentity.Label)).
    pose proof (len_nonneg (concat (map enc_identity l))). cbn [read_identities].
    rewrite (proj2 (Z.eqb_neq _ 0)) by lia. rewrite (enc_identity_eq i), <- !app_assoc. parse.
    rewrite (Z.mod_small (_ - 2)) by lia. rewrite (proj2 (Z.ltb_ge _ _)) by lia. cbn [negb]. parse.
    rewrite (Z.mod_small (_ - len _)) by lia. rewrite (Z.mod_small (_ - 4)) by lia.
    match goal with |- context[read_identities _ ?n] =>
      replace n with (len (concat (map enc_identity l))) by lia end.
    rewrite IH by (done || lia). rewrite <- app_assoc. by destruct i.
Qed.

Lemma read_binders_complete l : forall fuel acc r, Forall (fun b => len b < 256) l ->
  len (concat (map (enc_lp 1) l)) < 2 ^ 16 -> (length l <= fuel)%nat ->
  read_binders fuel (len (concat (map (enc_lp 1) l))) acc (concat (map (enc_lp 1) l) ++ r) = Some (acc ++ l, r).
Proof.
  induction l as [|b l IH]; intros fuel acc r Hw Hn Hf; cbn [map concat length] in *.
  - destruct fuel; cbn; by rewrite app_nil_r.
  - destruct fuel as [|fuel]; [lia|]. inversion_clear Hw as [|? ? Hb Hw'].
    rewrite len_app, len_enc_lp in *. pose proof (len_nonneg b).
    pose proof (len_nonneg (concat (map (enc_lp 1) l))). cbn [read_binders].
    rewrite (proj2 (Z.eqb_neq _ 0)) by lia. change (enc_lp 1 b) with (be 1 (len b) ++ b). rewrite <- !app_assoc. parse.
    rewrite (Z.mod_small (_ - 1)) by lia. rewrite (proj2 (Z.ltb_ge _ _)) by lia. cbn [negb]. parse.
    rewrite (Z.mod_small (_ - len _)) by lia.
    match goal with |- context[read_binders _ ?n] =>
      replace n with (len (concat (map (enc_lp 1) l))) by lia end.
    rewrite IH by (done || lia). by rewrite <- app_assoc.
Qed.

Lemma items_fuel {A} (enc : A -> bytes) l :
  (forall x, (0 < length (enc x))%nat) -> (length l <= length (concat (map enc l)))%nat.
Proof.
  intros H. induction l as [|x l IH]; cbn [map concat length]; [lia|].
  rewrite length_app. specialize (H x). lia.
Qed.

Definition wf_psk (ids : list PskIdentity.t) (bs : list bytes) : Prop :=
  Forall wf_identity ids /\ Forall (fun b => len b < 256) bs /\
  len (concat (map enc_identity ids)) < 2 ^ 16 /\ len (concat (map (enc_lp 1) bs)) < 2 ^ 16.

Lemma Write_complete e ids bs r : wf_psk ids bs ->
  exists e', Write e (enc_psk ids bs ++ r) = inr (e', len (enc_psk ids bs ++ r)) /\
    FakePreSharedKeyExtension.ids e' = FakePreSharedKeyExtension.ids e ++ ids /\
    FakePreSharedKeyExtension.bs e' = FakePreSharedKeyExtension.bs e ++ bs /\ OmitEmptyPsk e' = OmitEmptyPsk e.
Proof.
  intros (Hi & Hb & Ni & Nb). unfold Write. set (b := enc_psk ids bs ++ r).
  assert (Hf : (length ids <= length b)%nat /\ (length bs <= length b)%nat).
  { pose proof (items_fuel enc_identity ids) as F1. pose proof (items_fuel (enc_lp 1) bs) as F2.
    unfold b. rewrite enc_psk_eq, !length_app, !length_be.
    split; [etrans; [apply F1|]|etrans; [apply F2|]]; try lia; intros x.
    - rewrite enc_identity_eq, length_app, length_be. lia.
    - unfold enc_lp. rewrite length_app, length_be. lia. }
  destruct Hf as [F1 F2]. pose proof (len_nonneg (concat (map enc_identity ids))).
  pose proof (len_nonneg (concat (map (enc_lp 1) bs))).
  unfold b at 1. rewrite enc_psk_eq, <- !app_assoc. parse.
  rewrite read_identities_complete by done. parse. rewrite read_binders_complete by done.
  eexists. split; [done|]. unfold FakePreSharedKeyExtension.ids, FakePreSharedKeyExtension.bs, grown. cbn.
  destruct (Identities e), (Binders e), ids, bs; cbn; rewrite ?app_nil_r; try done.
Qed.

(** The parser of the fake extension accepts exactly the documented format,
    a list of identities and a list of binders, although it counts down in
    uint16 without checking that an item still fits: for every body shorter
    than 64 KiB a wrapped counter never reaches zero again.  The items are
    appended to those the extension already has, and what follows the binders is dropped. *)
Theorem fake_psk_grammar e b : len b < 2 ^ 16 ->
  (forall e' n, Write e b = inr (e', n) ->
    n = len b /\ exists i s r, wf_psk i s /\ b = enc_psk i s ++ r /\ ids e' = ids e ++ i /\ bs e' = bs e ++ s) /\
  (forall i s r, wf_psk i s -> b = enc_psk i s ++ r ->
    exists e', Write e b = inr (e', len b) /\ ids e' = ids e ++ i /\ bs e' = bs e ++ s).
Proof.
  intros Hlen. split.
  - intros e' n. unfold Write. autorewrite with cbspec. destruct (rd_uint 2 b) as [[k s1]|] eqn:E1; [|done].
    destruct (read_identities _ _ _ _) as [[l s2]|] eqn:E2; [|done]. autorewrite with cbspec.
    destruct (rd_uint 2 s2) as [[k' s3]|] eqn:E3; [|done].
    destruct (read_binders _ _ _ _) as [[l' s4]|] eqn:E4; [|done]. intros [= <- <-]. split; [done|].
    apply rd_uint_eq in E1 as [-> Hk], E3 as [-> Hk'].
    apply read_identities_sound in E2 as (i & -> & -> & Wi & Mi); [|exact Hk].
    apply read_binders_sound in E4 as (s & -> & -> & Ws & Ms); [|exact Hk'].
    rewrite !len_app, !len_be in Hlen. pose proof (len_nonneg (concat (map enc_identity i))).
    pose proof (len_nonneg (concat (map (enc_lp 1) s))). pose proof (len_nonneg s4).
    rewrite Z.mod_small in Mi, Ms by lia. subst k k'. exists i, s, s4. split_and!; [split_and!; [done..|lia|lia]| | |].
    + rewrite enc_psk_eq. by rewrite <- !app_assoc.
    + unfold ids, grown. cbn. destruct (Identities e), i; cbn; by rewrite ?app_nil_r.
    + unfold bs, grown. cbn. destruct (Binders e), s; cbn; by rewrite ?app_nil_r.
  - intros i s r Hw ->. destruct (Write_complete e i s r Hw) as (e' & ? & ? & ? & _). by exists e'.
Qed.

(** A fake extension whose parts fit their length fields. *)
Definition sendable (e : t) : Prop :=
  ids e <> [] /\ bs e <> [] /\ wf_psk (ids e) (bs e) /\ Forall (fun b => contains validHashLen (len b) = true) (bs e).

(** A fake extension written with [Read] into a buffer of at least [Len]
    zero bytes is one extension block; [Write] of the block's body into an
    empty extension gives the same identities and binders.  A shorter buffer is
    refused with io.ErrShortBuffer and not written. *)
Theorem fake_psk_round_trip e rest : sendable e ->
  exists body, Len e = 4 + len body /\
    Read e (replicate (Z.to_nat (Len e)) x00 ++ rest) = Ret (enc_ext (extensionPreSharedKey, body) ++ rest, (Len e, EOF)) /\
    (forall b, len b < Len e -> Read e b = Ret (b, (0, ErrShortBuffer))) /\
    exists e', Write (Mk None None e.(OmitEmptyPsk)) body = inr (e', len body) /\ ids e' = ids e /\ bs e' = bs e.
Proof.
  intros (Hi & Hb & Hw & Hv). set (body := enc_psk (ids e) (bs e)). exists body.
  pose proof (pskExtLen_eq _ _ Hi Hb) as E. fold body in E. change (pskExtLen _ _) with (Len e) in E.
  pose proof (len_nonneg body).
  assert (Hr : forall b, Read e b = readPskIntoBytes b (ids e) (bs e)).
  { intros b. unfold Read. rewrite (proj2 (Z.eqb_neq _ 0)), andb_false_r by lia.
    replace (forallb _ _) with true; [done|]. symmetry. apply forallb_forall. intros x Hx.
    rewrite Forall_forall in Hv. apply Hv. by apply list_elem_of_In. }
  split_and!.
  - exact E.
  - rewrite Hr. pose proof (readPsk_block (ids e) (bs e) rest Hi Hb) as HB. fold body in HB. cbn zeta in HB.
    assert (EL : len (enc_ext (extensionPreSharedKey, body)) = Len e)
      by (rewrite E; unfold enc_ext; cbn [fst snd]; autorewrite with cb; lia).
    rewrite EL in HB. unfold len in EL. rewrite <- EL, Nat2Z.id. rewrite EL. exact HB.
  - intros b Hlt. rewrite Hr. unfold readPskIntoBytes. change (pskExtLen _ _) with (Len e).
    rewrite (proj2 (Z.eqb_neq _ 0)) by lia. by apply too_short.
  - destruct (Write_complete (Mk None None e.(OmitEmptyPsk)) _ _ [] Hw) as (e' & HW & ? & ? & _).
    rewrite app_nil_r in HW. by exists e'.
Qed.
End Fake.

(** * Examples *)

Definition example_identity : PskIdentity.t := PskIdentity.Mk [x01; x02; x03] 7.
Definition example_binder : bytes := replicate 32 x00.
Definition example_psk : UtlsPreSharedKeyExtension.t plain_x509 :=
  UtlsPreSharedKeyExtension.Mk [example_identity] [example_binder] (replicate 32 x0b) (replicate 32 x0e)
    (Some (session.Ptr 0 example_session)) (Some suite_128) None false false.
Definition example_built : PubClientHelloMsg.t :=
  PubClientHelloMsg.set_Raw (Some ([x01; x00; x00; x23] ++ binder_bytes [example_binder])) (getPublicPtr example_hello).

Lemma patch_writes_binder_witness :
  exists binder hello', @finishedHash toy_hash suite_128 (replicate 32 x0b) [x01; x00; x00; x23] = Ret binder /\
    hello'.(PubClientHelloMsg.Raw) = Some ([x01; x00; x00; x23] ++ binder_bytes [binder]).
Proof.
  destruct (patch_writes_binder (C := Reference.ops) (Cok := Reference.ok) (K := toy_hash) (Kok := toy_hash_ok)
    example_psk example_built [x01; x00; x00; x23] suite_128) as (b & h & h' & Hf & _ & HR & _).
  - split_and!; [reflexivity|reflexivity|vm_compute; discriminate|]. by exists example_binder.
  - reflexivity.
  - exists b, h. split; [exact Hf|exact HR].
Defined.

Definition example_fake : FakePreSharedKeyExtension.t :=
  FakePreSharedKeyExtension.Mk (Some [example_identity]) (Some [example_binder]) false.

Lemma wf_example : wf_psk [example_identity] [example_binder].
Proof. split_and!; [|by repeat constructor|done|done]. constructor; [|constructor]. by split. Qed.

Lemma fake_psk_grammar_witness :
  exists e', FakePreSharedKeyExtension.Write (C := Reference.ops) (FakePreSharedKeyExtension.Mk None None false)
    (enc_psk [example_identity] [example_binder] ++ [x2a]) = inr (e', 47).
Proof.
  edestruct (fake_psk_grammar (C := Reference.ops) (Cok := Reference.ok) (FakePreSharedKeyExtension.Mk None None false)
    (enc_psk [example_identity] [example_binder] ++ [x2a])) as [_ H]; [done|].
  destruct (H [example_identity] [example_binder] [x2a] wf_example eq_refl) as (e' & HW & _). by exists e'.
Defined.

Lemma fake_psk_round_trip_witness :
  exists body : bytes, FakePreSharedKeyExtension.Len example_fake = 4 + len body.
Proof.
  destruct (fake_psk_round_trip (C := Reference.ops) (Cok := Reference.ok) example_fake []) as (body & H & _).
  - split_and!; [done|done|apply wf_example|by repeat constructor].
  - by exists body.
Defined.
