(* ===== verification/ECH.v ===== *)
(** * Encrypted Client Hello

    Models ech.go: parsing ECHConfigLists and the encrypted_client_hello
    extension, choosing a configuration, encoding the inner hello with its
    padding, reconstructing it from the outer hello on the server side, and
    the functions that list the outer hello's extensions for the client.

    HPKE is cryptography and enters as the parameters [Seal], [Open],
    [ParseHPKEPrivateKey] and [SetupReceipient]. *)

From S2P Require Import Prelude Cryptobyte Common Codec Buffer Messages ClientHello.

(** ** Data *)

Module echCipher.
Record t := Mk { KDFID : Z; AEADID : Z }.
End echCipher.
#[export] Instance echCipher_eq_dec : EqDecision echCipher.t.
Proof. solve_decision. Defined.

Module echExtension.
Record t := Mk { Type_ : Z; Data : bytes }.
End echExtension.

Module echConfig.
Record t := Mk {
  raw : bytes;
  Version : Z;
  Length : Z;
  ConfigID : Z;
  KemID : Z;
  PublicKey : bytes;
  SymmetricCipherSuite : list echCipher.t;
  MaxNameLength : Z;
  PublicName : bytes;
  Extensions : list echExtension.t
}.
End echConfig.

Module EncryptedClientHelloKey.
Record t := Mk { Config : bytes; PrivateKey : bytes; SendAsRetry : bool }.
End EncryptedClientHelloKey.

(** Algorithm numbers of internal/hpke (the keys of its tables). *)
Definition DHKEM_X25519_HKDF_SHA256 : Z := 0x0020.
Definition KDF_HKDF_SHA256 : Z := 0x0001.
Definition AEAD_AES_128_GCM : Z := 0x0001.
Definition AEAD_AES_256_GCM : Z := 0x0002.
Definition AEAD_ChaCha20Poly1305 : Z := 0x0003.
Definition SupportedKEMs : list Z := [DHKEM_X25519_HKDF_SHA256].
Definition SupportedAEADs : list Z := [AEAD_AES_128_GCM; AEAD_AES_256_GCM; AEAD_ChaCha20Poly1305].
Definition SupportedKDFs : list Z := [KDF_HKDF_SHA256].

Definition errMalformedECHConfig : gerror := ErrorNew "tls: malformed ECHConfigList".
Definition errMalformedECHExt : gerror := ErrorNew "tls: malformed encrypted_client_hello extension".
Definition errInvalidECHExt : gerror :=
  ErrorNew "tls: client sent invalid encrypted_client_hello extension".

Definition innerECHExt : Z := 1.
Definition outerECHExt : Z := 0.

Section Parsing.
Context `{C : Cryptobyte}.

(** ** ECHConfigs *)

Definition ech_cipher_body (l : list echCipher.t) (s : bytes) : option (list echCipher.t * bytes) :=
  read (kdf, s) := ReadUint16 s in
  read (aead, s) := ReadUint16 s in
  Some (l ++ [echCipher.Mk kdf aead], s).

Definition ech_extension_body (l : list echExtension.t) (s : bytes)
    : option (list echExtension.t * bytes) :=
  read (typ, s) := ReadUint16 s in
  read (data, s) := ReadUint16LengthPrefixed s in
  Some (l ++ [echExtension.Mk typ data], s).

(** [Ret (inr None)] is [skip]; [ec.raw[:ec.Length+4]] is computed in uint16. *)
Definition parseECHConfig (enc : bytes) : outcome (res (option echConfig.t)) :=
  match ReadUint16 enc with
  | None => Ret (inl errMalformedECHConfig)
  | Some (version, s) =>
  match ReadUint16 s with
  | None => Ret (inl errMalformedECHConfig)
  | Some (length, s) =>
  if len enc <? length + 4 then Ret (inl errMalformedECHConfig) else
  run raw := upto enc ((length + 4) mod 2 ^ 16) in
  if negb (version =? extensionEncryptedClientHello) then Ret (inr None) else
  Ret (
    readE (configID, s) := ReadUint8 s or errMalformedECHConfig in
    readE (kemID, s) := ReadUint16 s or errMalformedECHConfig in
    readE (publicKey, s) := readUint16LengthPrefixed s or errMalformedECHConfig in
    readE (cipherSuites, s) := ReadUint16LengthPrefixed s or errMalformedECHConfig in
    readE suites := loop ech_cipher_body [] cipherSuites or errMalformedECHConfig in
    readE (maxNameLength, s) := ReadUint8 s or errMalformedECHConfig in
    readE (publicName, s) := ReadUint8LengthPrefixed s or errMalformedECHConfig in
    readE (extensions, s) := ReadUint16LengthPrefixed s or errMalformedECHConfig in
    readE exts := loop ech_extension_body [] extensions or errMalformedECHConfig in
    inr (Some (echConfig.Mk raw version length configID kemID publicKey suites
                 maxNameLength publicName exts)))
  end
  end.

(** [for len(s) > 0 { ... }]; [None] is fuel exhaustion.  The advance
    [s = s[configLen+4:]] is computed in uint16. *)
Fixpoint parse_configs (fuel : nat) (s : bytes) (configs : list echConfig.t)
    : option (outcome (res (list echConfig.t))) :=
  if 0 <? len s then
    match fuel with
    | O => None
    | S fuel =>
        if len s <? 4 then Some (Ret (inl (ErrorNew "tls: malformed ECHConfig"))) else
        match get16 s 2 with
        | Panic => Some Panic
        | Ret configLen =>
            match parseECHConfig s with
            | Panic => Some Panic
            | Ret (inl err) => Some (Ret (inl err))
            | Ret (inr ec) =>
                match from s ((configLen + 4) mod 2 ^ 16) with
                | Panic => Some Panic
                | Ret s => parse_configs fuel s (configs ++ option_list ec)
                end
            end
        end
    end
  else Some (Ret (inr configs)).

Definition parseECHConfigList (data : bytes) : option (outcome (res (list echConfig.t))) :=
  match ReadUint16 data with
  | None => Some (Ret (inl errMalformedECHConfig))
  | Some (length, s) =>
      if negb (length =? (len data - 2) mod 2 ^ 16) then Some (Ret (inl errMalformedECHConfig))
      else parse_configs (List.length s) s []
  end.

(** ** The encrypted_client_hello extension *)

(** The results [(echType, cs, configID, encap, payload)]. *)
Record ech_ext := MkExt {
  echType : Z; cs : echCipher.t; configID : Z; encap : bytes; payload : bytes
}.

Definition parseECHExt (ext : bytes) : res ech_ext :=
  readE (echType, s) := ReadUint8 ext or errMalformedECHExt in
  if echType =? innerECHExt then
    if negb (Empty s) then inl errMalformedECHExt
    else inr (MkExt echType (echCipher.Mk 0 0) 0 [] [])
  else if negb (echType =? outerECHExt) then inl errInvalidECHExt
  else
    readE (kdf, s) := ReadUint16 s or errMalformedECHExt in
    readE (aead, s) := ReadUint16 s or errMalformedECHExt in
    readE (configID, s) := ReadUint8 s or errMalformedECHExt in
    readE (encap, s) := readUint16LengthPrefixed s or errMalformedECHExt in
    readE (payload, s) := readUint16LengthPrefixed s or errMalformedECHExt in
    inr (MkExt echType (echCipher.Mk kdf aead) configID encap payload).

Definition generateOuterECHExt (id kdfID aeadID : Z) (encodedKey payload : bytes) : res bytes :=
  Bytes ((
    AddUint8 0 ;>
    AddUint16 kdfID ;>
    AddUint16 aeadID ;>
    AddUint8 id ;>
    AddUint16LengthPrefixed (AddBytes encodedKey) ;>
    AddUint16LengthPrefixed (AddBytes payload))
    NewBuilder).

Definition marshalEncryptedClientHelloConfigList (configs : list EncryptedClientHelloKey.t) : res bytes :=
  Bytes (AddUint16LengthPrefixed
    (for_each configs (fun c => AddBytes c.(EncryptedClientHelloKey.Config))) NewBuilder).

(** A nil slice when no key is sent as a retry configuration. *)
Definition buildRetryConfigList (keys : list EncryptedClientHelloKey.t) : res (option bytes) :=
  let retry := List.filter EncryptedClientHelloKey.SendAsRetry keys in
  if len retry =? 0 then inr None else
  try b := Bytes (AddUint16LengthPrefixed
    (for_each retry (fun c => AddBytes c.(EncryptedClientHelloKey.Config))) NewBuilder) in
  inr (Some b).
End Parsing.

(** ** Choosing a configuration *)

Definition byte_in (lo hi : Z) (r : byte) : bool := (lo <=? b2z r) && (b2z r <=? hi).

(** [strings.Split(name, ".")] *)
Fixpoint split_dots (cur : bytes) (name : bytes) : list bytes :=
  match name with
  | [] => [cur]
  | r :: name => if b2z r =? 0x2e then cur :: split_dots [] name else split_dots (cur ++ [r]) name
  end.

Definition valid_label (l : bytes) : bool :=
  let labelLen := len l in
  negb (labelLen =? 0) &&
  List.forallb (fun '(i, r) =>
    negb ((b2z r =? 0x2d) && ((Z.of_nat i =? 0) || (Z.of_nat i =? labelLen - 1))) &&
    (byte_in 0x30 0x39 r || byte_in 0x61 0x7a r || byte_in 0x41 0x5a r || (b2z r =? 0x2d)))
    (imap pair l).

Definition validDNSName (name : bytes) : bool :=
  if 253 <? len name then false else
  let labels := split_dots [] name in
  if len labels <=? 1 then false else List.forallb valid_label labels.

Definition supported (l : list Z) (id : Z) : bool := bool_decide (id ∈ l).

Definition usable_suite (cs : echCipher.t) : bool :=
  supported SupportedAEADs cs.(echCipher.AEADID) && supported SupportedKDFs cs.(echCipher.KDFID).

Definition usable_config (ec : echConfig.t) : bool :=
  supported SupportedKEMs ec.(echConfig.KemID) &&
  List.existsb usable_suite ec.(echConfig.SymmetricCipherSuite) &&
  validDNSName ec.(echConfig.PublicName) &&
  negb (List.existsb (fun ext => negb (Z.land ext.(echExtension.Type_) (2 ^ 15) =? 0))
          ec.(echConfig.Extensions)).

Definition pickECHConfig (l : list echConfig.t) : option echConfig.t := List.find usable_config l.

Definition pickECHCipherSuite (suites : list echCipher.t) : res echCipher.t :=
  match List.find usable_suite suites with
  | Some s => inr s
  | None => inl (ErrorNew "tls: no supported symmetric ciphersuites for ECH")
  end.

(** ** Encoding the inner hello *)

Section Inner.
Context `{C : Cryptobyte}.
Import clientHelloMsg.

Definition encodeInnerClientHelloReorderOuterExts (inner : t) (maxNameLength : Z)
    (outerExts : option (list Z)) : outcome (res bytes) :=
  match marshalMsgReorderOuterExts inner true outerExts with
  | inl err => Ret (inl err)
  | inr h =>
      run h := from h 4 in
      let paddingLen :=
        if 0 <? len inner.(serverName) then Z.max 0 (maxNameLength - len inner.(serverName))
        else maxNameLength + 9 in
      let paddingLen := 31 - Z.rem (len h + paddingLen - 1) 32 in
      run padding := make paddingLen in
      Ret (inr (h ++ padding))
  end.

Definition encodeInnerClientHello (inner : t) (maxNameLength : Z) : outcome (res bytes) :=
  encodeInnerClientHelloReorderOuterExts inner maxNameLength None.

(** ** Reconstructing it *)

Definition skipUint8LengthPrefixed (s : bytes) : option bytes :=
  read (skip, s) := ReadUint8 s in
  Skip skip s.

Definition skipUint16LengthPrefixed (s : bytes) : option bytes :=
  read (skip, s) := ReadUint16 s in
  Skip skip s.

(** A [rawExtension] is the pair of its type and its data. *)
Definition raw_extension_body (l : list (Z * bytes)) (extensions : bytes)
    : option (list (Z * bytes) * bytes) :=
  read (extension, extensions) := ReadUint16 extensions in
  read (extData, extensions) := ReadUint16LengthPrefixed extensions in
  Some (l ++ [(extension, extData)], extensions).

Definition errInner : gerror := ErrorNew "tls: invalid inner client hello".
Definition errOuterExts : gerror := ErrorNew "tls: invalid outer extensions".
Definition errOuter : gerror := ErrorNew "tls: malformed outer client hello".

Definition extractRawExtensions (hello : t) : res (list (Z * bytes)) :=
  readE s := Skip (4 + 2 + 32) (slice_bytes hello.(original)) or errOuter in
  readE s := skipUint8LengthPrefixed s or errOuter in
  readE s := skipUint16LengthPrefixed s or errOuter in
  readE s := skipUint8LengthPrefixed s or errOuter in
  readE (extensions, s) := ReadUint16LengthPrefixed s or errOuter in
  readE l := loop raw_extension_body [] extensions or errInner in
  inr l.

(** [for ; i <= len(rawOuterExts); i++ { ... }]: the first entry of the given
    type at or after [i]; [rest] is [rawOuterExts[i:]]. *)
Fixpoint seek (extType : Z) (rest : list (Z * bytes)) : option (list (Z * bytes)) :=
  match rest with
  | [] => None
  | e :: rest' => if e.1 =? extType then Some rest else seek extType rest'
  end.

(** [for !extData.Empty() { ... }] over an ech_outer_extensions list.  The
    boolean tells whether the enclosing loop goes on. *)
Fixpoint recon_outer (fuel : nat) (extData : bytes) (rest : list (Z * bytes)) (recon : Builder)
    : bool * Builder :=
  if Empty extData then (true, recon) else
  match fuel with
  | O => (false, SetError errInner recon)
  | S fuel =>
      match ReadUint16 extData with
      | None => (false, SetError errInner recon)
      | Some (extType, extData) =>
          if extType =? extensionEncryptedClientHello then (false, SetError errOuterExts recon) else
          match seek extType rest with
          | Some (((typ, data) :: _) as rest) =>
              recon_outer fuel extData rest
                ((AddUint16 typ ;> AddUint16LengthPrefixed (AddBytes data)) recon)
          | _ => (false, SetError errOuterExts recon)
          end
      end
  end.

(** [for !extensions.Empty() { ... }] of the reconstruction. *)
Fixpoint recon_exts (fuel : nat) (rawOuterExts : list (Z * bytes)) (extensions : bytes)
    (recon : Builder) : Builder :=
  if Empty extensions then recon else
  match fuel with
  | O => SetError errInner recon
  | S fuel =>
      match ReadUint16 extensions with
      | None => SetError errInner recon
      | Some (extension, extensions) =>
      match ReadUint16LengthPrefixed extensions with
      | None => SetError errInner recon
      | Some (extData, extensions) =>
          if extension =? extensionECHOuterExtensions then
            match ReadUint8LengthPrefixed extData with
            | None => SetError errInner recon
            | Some (extData, _) =>
                match recon_outer (length extData) extData rawOuterExts recon with
                | (true, recon) => recon_exts fuel rawOuterExts extensions recon
                | (false, recon) => recon
                end
            end
          else
            recon_exts fuel rawOuterExts extensions
              ((AddUint16 extension ;> AddUint16LengthPrefixed (AddBytes extData)) recon)
      end
      end
  end.

(** The first part of [decodeInnerClientHelloWithRaw]: the bytes of the
    reconstructed hello. *)
Definition reconstruct (outer : t) (encoded : bytes) : res bytes :=
  readE (versionAndRandom, r) := ReadBytes (2 + 32) encoded or errInner in
  readE (sessionID, r) := readUint8LengthPrefixed r or errInner in
  if negb (len sessionID =? 0) then inl errInner else
  readE (cipherSuites, r) := readUint16LengthPrefixed r or errInner in
  readE (compressionMethods, r) := readUint8LengthPrefixed r or errInner in
  readE (extensions, padding) := ReadUint16LengthPrefixed r or errInner in
  if List.existsb (fun p => negb (b2z p =? 0)) padding then inl errInner else
  try rawOuterExts := extractRawExtensions outer in
  Bytes ((
    AddUint8 typeClientHello ;>
    AddUint24LengthPrefixed (
      AddBytes versionAndRandom ;>
      AddUint8LengthPrefixed (AddBytes outer.(sessionId)) ;>
      AddUint16LengthPrefixed (AddBytes cipherSuites) ;>
      AddUint8LengthPrefixed (AddBytes compressionMethods) ;>
      AddUint16LengthPrefixed (recon_exts (length extensions) rawOuterExts extensions)))
    NewBuilder).

Definition decodeInnerClientHelloWithRaw (outer : t) (encoded : bytes) : res (t * bytes) :=
  try reconBytes := reconstruct outer encoded in
  match unmarshal reconBytes with
  | None => inl (ErrorNew "tls: invalid reconstructed inner client hello")
  | Some inner =>
      if negb (bool_decide (inner.(encryptedClientHello) = [u8 innerECHExt])) then inl errInvalidECHExt
      else if negb (len inner.(supportedVersions) =? 1)
           || ((1 <=? len inner.(supportedVersions))
               && negb (bool_decide (head inner.(supportedVersions) = Some VersionTLS13)))
      then inl (ErrorNew
        "tls: client sent encrypted_client_hello extension and offered incompatible versions")
      else inr (inner, reconBytes)
  end.

Definition decodeInnerClientHello (outer : t) (encoded : bytes) : res t :=
  try x := decodeInnerClientHelloWithRaw outer encoded in
  inr x.1.

(** ** The extensions of a serialised hello (without its header) *)

(** The offset of the extension block, [None] for [return nil]. *)
Definition ext_offset (hello : bytes) : outcome (option (Z * Z)) :=
  if len hello <? 38 then Ret None else
  run sessionIDLen := get hello 34 in
  let offset := 34 + (1 + sessionIDLen) in
  if len hello <? offset + 2 then Ret None else
  run cipherLen := get16 hello offset in
  let offset := offset + (2 + cipherLen) in
  if len hello <? offset + 1 then Ret None else
  run compLen := get hello offset in
  let offset := offset + (1 + compLen) in
  if len hello <? offset + 2 then Ret None else
  run extLen := get16 hello offset in
  Ret (Some (offset + 2, offset + 2 + extLen)).

(** [for offset+4 <= len(hello) && offset < endOffset { ... }]; the step is at
    least 4. *)
Fixpoint ext_types (fuel : nat) (hello : bytes) (offset endOffset : Z) (exts : list Z)
    : outcome (list Z) :=
  if (offset + 4 <=? len hello) && (offset <? endOffset) then
    match fuel with
    | O => Panic
    | S fuel =>
        run extType := get16 hello offset in
        run extDataLen := get16 hello (offset + 2) in
        ext_types fuel hello (offset + (4 + extDataLen)) endOffset (exts ++ [extType])
    end
  else Ret exts.

Definition extractExtensionTypes (hello : bytes) : outcome (list Z) :=
  run r := ext_offset hello in
  match r with
  | None => Ret []
  | Some (offset, endOffset) => ext_types (length hello) hello offset endOffset []
  end.

Fixpoint ext_bytes_map (fuel : nat) (hello : bytes) (offset endOffset : Z) (result : gmap Z bytes)
    : outcome (gmap Z bytes) :=
  if (offset + 4 <=? len hello) && (offset <? endOffset) then
    match fuel with
    | O => Panic
    | S fuel =>
        run extType := get16 hello offset in
        run extDataLen := get16 hello (offset + 2) in
        let fullExtLen := 4 + extDataLen in
        run result :=
          (if offset + fullExtLen <=? len hello then
             run full := slice hello offset (offset + fullExtLen) in
             Ret (<[extType := full]> result)
           else Ret result) in
        ext_bytes_map fuel hello (offset + fullExtLen) endOffset result
    end
  else Ret result.

Definition extractExtensionBytesFromHello (hello : bytes) : outcome (gmap Z bytes) :=
  run r := ext_offset hello in
  match r with
  | None => Ret ∅
  | Some (offset, endOffset) => ext_bytes_map (length hello) hello offset endOffset ∅
  end.
End Inner.

(** A slice built by [append] from nil is nil exactly when it is empty. *)
Definition appended (l : list Z) : option (list Z) :=
  match l with [] => None | _ => Some l end.

(** The fields of [echClientContext] that are used. *)
Module echClientContext.
Record t := Mk {
  config : echConfig.t;
  encapsulatedKey : bytes;
  kdfID : Z;
  aeadID : Z
}.
End echClientContext.

Section Client.
Context `{C : Cryptobyte}.
Import echClientContext clientHelloMsg.

(** [ech.hpkeContext.Seal(aad, plaintext)], which counts the messages. *)
Context {Sender : Type} (Seal : Sender -> bytes -> bytes -> Sender * res bytes).

Definition computeAndUpdateOuterECHExtension (outer inner : t) (ech : echClientContext.t) (hpkeContext : Sender)
    (useKey : bool) : outcome (Sender * res t) :=
  let encapKey := if useKey then ech.(encapsulatedKey) else [] in
  match marshal outer with
  | inl err => Ret (hpkeContext, inl err)
  | inr tempOuter =>
  run tempOuter := from tempOuter 4 in
  run outerExts := extractExtensionTypes tempOuter in
  run encodedInner := encodeInnerClientHelloReorderOuterExts inner
    ech.(config).(echConfig.MaxNameLength) (appended outerExts) in
  match encodedInner with
  | inl err => Ret (hpkeContext, inl err)
  | inr encodedInner =>
  let encryptedLen := len encodedInner + 16 in
  run zeros := make encryptedLen in
  match generateOuterECHExt ech.(config).(echConfig.ConfigID) ech.(kdfID) ech.(aeadID) encapKey zeros with
  | inl err => Ret (hpkeContext, inl err)
  | inr ext =>
  let outer := set_encryptedClientHello ext outer in
  match marshal outer with
  | inl err => Ret (hpkeContext, inl err)
  | inr serializedOuter =>
  run serializedOuter := from serializedOuter 4 in
  let (hpkeContext, encryptedInner) := Seal hpkeContext serializedOuter encodedInner in
  Ret (hpkeContext,
    try encryptedInner := encryptedInner in
    try ext := generateOuterECHExt ech.(config).(echConfig.ConfigID) ech.(kdfID) ech.(aeadID)
                 encapKey encryptedInner in
    inr (set_encryptedClientHello ext outer))
  end
  end
  end
  end.
End Client.

(** ** The server *)

(** [bytes.Replace(s, old, new, 1)] for [old] and [new] of the same length. *)
Fixpoint replace_first (old new s : bytes) : bytes :=
  if bool_decide (take (length old) s = old) then new ++ drop (length old) s
  else match s with [] => [] | b :: s => b :: replace_first old new s end.

Section Server.
Context `{C : Cryptobyte}.
Import clientHelloMsg.

(** HPKE: private keys and receiving contexts. *)
Context {PrivKey HpkeContext : Type}.
Variable ParseHPKEPrivateKey : Z -> bytes -> res PrivKey.
Variable SetupReceipient : Z -> Z -> Z -> PrivKey -> bytes -> bytes -> res HpkeContext.
Variable Open : HpkeContext -> bytes -> bytes -> HpkeContext * res bytes.

(** With the context, which counts the messages. *)
Definition decryptECHPayload (context : HpkeContext) (hello payload : bytes) : outcome (HpkeContext * res bytes) :=
  run h := from hello 4 in
  let outerAAD := replace_first payload (replicate (length payload) x00) h in
  Ret (Open context outerAAD payload).

(** [echServerContext] *)
Inductive echServerContext :=
  | ServerInner
  | ServerOuter (hpkeContext : HpkeContext) (configID : Z) (ciphersuite : echCipher.t).

(** The result of [processECHClientHello]: the alert sent if any, the
    connection's [echAccepted], and the returned hello and context. *)
Record process_result := MkProcess {
  alert_sent : option Z;
  echAccepted : bool;
  result : res (t * option echServerContext)
}.

Definition fail_with (alert : Z) (err : gerror) : process_result :=
  MkProcess (Some alert) false (inl err).


(** ["tls ech\x00"] *)
Definition ech_info_prefix : bytes := map u8 [0x74; 0x6c; 0x73; 0x20; 0x65; 0x63; 0x68; 0x00].

(** [for _, echKey := range c.config.EncryptedClientHelloKeys { ... }] *)
Fixpoint try_keys (keys : list EncryptedClientHelloKey.t) (outer : t) (e : ech_ext)
    : outcome process_result :=
  match keys with
  | [] => Ret (MkProcess None false (inr (outer, None)))
  | echKey :: keys =>
      run config := parseECHConfig echKey.(EncryptedClientHelloKey.Config) in
      match config with
      | inl _ | inr None =>
          Ret (fail_with alertInternalError
                 (ErrorNew "tls: invalid EncryptedClientHelloKeys Config: %s"))
      | inr (Some config) =>
          match ParseHPKEPrivateKey config.(echConfig.KemID) echKey.(EncryptedClientHelloKey.PrivateKey) with
          | inl _ =>
              Ret (fail_with alertInternalError
                     (ErrorNew "tls: invalid EncryptedClientHelloKeys PrivateKey: %s"))
          | inr echPriv =>
              let info := ech_info_prefix ++ echKey.(EncryptedClientHelloKey.Config) in
              match SetupReceipient DHKEM_X25519_HKDF_SHA256 e.(cs).(echCipher.KDFID)
                      e.(cs).(echCipher.AEADID) echPriv info e.(encap) with
              | inl _ => try_keys keys outer e
              | inr hpkeContext =>
                  run (hpkeContext, encodedInner) := decryptECHPayload hpkeContext (slice_bytes outer.(original)) e.(payload) in
                  match encodedInner with
                  | inl _ => try_keys keys outer e
                  | inr encodedInner =>
                      match decodeInnerClientHello outer encodedInner with
                      | inl _ => Ret (fail_with alertIllegalParameter errInvalidECHExt)
                      | inr echInner =>
                          Ret (MkProcess None true
                            (inr (echInner, Some (ServerOuter hpkeContext e.(configID) e.(cs)))))
                      end
                  end
              end
          end
      end
  end.

Definition processECHClientHello (EncryptedClientHelloKeys : list EncryptedClientHelloKey.t) (outer : t)
    : outcome process_result :=
  match parseECHExt outer.(encryptedClientHello) with
  | inl err =>
      Ret (fail_with
        (if bool_decide (err = errInvalidECHExt) then alertIllegalParameter else alertDecodeError)
        errInvalidECHExt)
  | inr e =>
      if e.(echType) =? innerECHExt then
        Ret (MkProcess None false (inr (outer, Some ServerInner)))
      else if len EncryptedClientHelloKeys =? 0 then
        Ret (MkProcess None false (inr (outer, None)))
      else try_keys EncryptedClientHelloKeys outer e
  end.
End Server.

(** * Theorems *)

(** ** The extension round trip *)

Section ExtRoundTrip.
Context `{C : Cryptobyte} {Cok : CryptobyteOk C}.

Lemma outer_ext_parsed id kdf aead key pl x :
  is_u8 id -> is_u16 kdf -> is_u16 aead ->
  generateOuterECHExt id kdf aead key pl = inr x ->
  parseECHExt x = inr (MkExt outerECHExt (echCipher.Mk kdf aead) id key pl).
Proof.
  intros H1 H2 H3 H. unfold generateOuterECHExt in H. denote H. inv_out.
  unfold parseECHExt. parse. ext_switch. parse. done.
Qed.

(** The server parses back the encrypted_client_hello extension that the
    client generated: cipher suite, configuration id, encapsulated key and
    payload. *)
Theorem ech_ext_round_trip id kdf aead key pl x :
  is_u8 id -> is_u16 kdf -> is_u16 aead ->
  generateOuterECHExt id kdf aead key pl = inr x ->
  parseECHExt x = inr (MkExt outerECHExt (echCipher.Mk kdf aead) id key pl).
Proof. apply outer_ext_parsed. Qed.
End ExtRoundTrip.

(** ** The outer hello's extensions, as the client and the server list them *)

Section OuterExtensions.
Context `{C : Cryptobyte} {Cok : CryptobyteOk C}.

(** A serialised hello body: version and random, session id, suites,
    compression methods, extensions. *)
Definition hello_bytes (vr sid cs cm : bytes) (L : list (Z * bytes)) : bytes :=
  vr ++ enc_lp 1 sid ++ enc_lp 2 cs ++ enc_lp 1 cm ++ enc_lp 2 (enc_exts L).

Record wf_hello (vr sid cs cm : bytes) (L : list (Z * bytes)) : Prop := {
  hb_vr : len vr = 34;
  hb_sid : len sid < 2 ^ 8;
  hb_cs : len cs < 2 ^ 16;
  hb_cm : len cm < 2 ^ 8;
  hb_exts : len (enc_exts L) < 2 ^ 16;
  hb_wf : Forall wf_ext L;
  hb_nodup : NoDup (map fst L)
}.

Lemma get_be1 pre v r i : i = len pre -> 0 <= v < 256 -> get (pre ++ be 1 v ++ r) i = Ret v.
Proof.
  intros -> Hv. rewrite be1_u8. cbn [app]. rewrite get_app by done. by rewrite b2z_u8_small.
Qed.

Lemma ext_offset_enc vr sid cs cm L :
  wf_hello vr sid cs cm L ->
  exists off, ext_offset (hello_bytes vr sid cs cm L) = Ret (Some (off, off + len (enc_exts L))) /\
    hello_bytes vr sid cs cm L =
      (vr ++ enc_lp 1 sid ++ enc_lp 2 cs ++ enc_lp 1 cm ++ be 2 (len (enc_exts L))) ++ enc_exts L /\
    off = len (vr ++ enc_lp 1 sid ++ enc_lp 2 cs ++ enc_lp 1 cm ++ be 2 (len (enc_exts L))).
Proof.
  intros []. set (E := enc_exts L) in *. pose proof (len_nonneg sid). pose proof (len_nonneg cs).
  pose proof (len_nonneg cm). pose proof (len_nonneg E).
  eexists. split_and!; [|unfold hello_bytes, enc_lp; by rewrite <- !app_assoc|reflexivity].
  unfold ext_offset, hello_bytes, enc_lp. fold E. rewrite <- !app_assoc.
  set (HB := vr ++ _). assert (EH : len HB = 34 + 1 + len sid + 2 + len cs + 1 + len cm + 2 + len E)
    by (unfold HB; autorewrite with cb; lia).
  zbool. unfold HB at 1. rewrite get_be1 by lia. cbn [obind]. zbool.
  replace HB with ((vr ++ be 1 (len sid) ++ sid) ++ be 2 (len cs) ++ cs ++ be 1 (len cm) ++ cm ++ be 2 (len E) ++ E) at 1
    by (unfold HB; by rewrite <- !app_assoc).
  rewrite get16_be by (autorewrite with cb; lia). cbn [obind]. rewrite Z.mod_small by lia. zbool.
  replace HB with ((vr ++ be 1 (len sid) ++ sid ++ be 2 (len cs) ++ cs) ++ be 1 (len cm) ++ cm ++ be 2 (len E) ++ E) at 1
    by (unfold HB; by rewrite <- !app_assoc).
  rewrite get_be1 by (autorewrite with cb; lia). cbn [obind]. zbool.
  replace HB with ((vr ++ be 1 (len sid) ++ sid ++ be 2 (len cs) ++ cs ++ be 1 (len cm) ++ cm) ++ be 2 (len E) ++ E) at 1
    by (unfold HB; by rewrite <- !app_assoc).
  rewrite get16_be by (autorewrite with cb; lia). cbn [obind]. rewrite Z.mod_small by lia.
  autorewrite with cb. do 3 f_equal; lia.
Qed.

Lemma enc_exts_cons e l : enc_exts (e :: l) = enc_ext e ++ enc_exts l.
Proof. done. Qed.

Lemma len_enc_ext e : len (enc_ext e) = 4 + len e.2.
Proof. unfold enc_ext. autorewrite with cb. lia. Qed.

(** One step of either loop over the blocks. *)
Lemma ext_step_gets pre e r :
  wf_ext e ->
  get16 (pre ++ enc_ext e ++ r) (len pre) = Ret e.1 /\
  get16 (pre ++ enc_ext e ++ r) (len pre + 2) = Ret (len e.2).
Proof.
  intros [H1 H2]. unfold enc_ext. rewrite <- !app_assoc. split.
  - rewrite get16_be by done. by rewrite Z.mod_small.
  - rewrite app_assoc, get16_be by (autorewrite with cb; lia).
    pose proof (len_nonneg e.2). by rewrite Z.mod_small.
Qed.

Lemma ext_types_enc L pre fuel acc :
  Forall wf_ext L -> (length L <= fuel)%nat ->
  ext_types fuel (pre ++ enc_exts L) (len pre) (len (pre ++ enc_exts L)) acc = Ret (acc ++ map fst L).
Proof.
  intros HL. revert pre fuel acc. induction HL as [|e L He HL IH]; intros pre fuel acc Hf.
  - change (enc_exts []) with (@nil byte). rewrite app_nil_r.
    destruct fuel; cbn [ext_types]; zbool; by rewrite app_nil_r.
  - destruct fuel as [|fuel]; [simpl in Hf; lia|]. rewrite enc_exts_cons. cbn [ext_types].
    destruct (ext_step_gets pre e (enc_exts L) He) as [E1 E2].
    assert (El : len (pre ++ enc_ext e ++ enc_exts L) = len pre + (4 + len e.2) + len (enc_exts L))
      by (rewrite !len_app, len_enc_ext; lia).
    rewrite E1, E2. cbn [obind]. pose proof (len_nonneg e.2). pose proof (len_nonneg (enc_exts L)).
    rewrite El. zbool. rewrite <- El, app_assoc.
    replace (len pre + (4 + len e.2)) with (len (pre ++ enc_ext e)) by (rewrite len_app, len_enc_ext; lia).
    rewrite IH by (simpl in Hf; lia). cbn [map]. by rewrite <- app_assoc.
Qed.

(** The map of the blocks, as [extractExtensionBytesFromHello] builds it. *)
Definition raw_map (L : list (Z * bytes)) (result : gmap Z bytes) : gmap Z bytes :=
  fold_left (fun result e => <[e.1 := enc_ext e]> result) L result.

Lemma ext_bytes_map_enc L pre fuel acc :
  Forall wf_ext L -> (length L <= fuel)%nat ->
  ext_bytes_map fuel (pre ++ enc_exts L) (len pre) (len (pre ++ enc_exts L)) acc = Ret (raw_map L acc).
Proof.
  intros HL. revert pre fuel acc. induction HL as [|e L He HL IH]; intros pre fuel acc Hf.
  - change (enc_exts []) with (@nil byte). rewrite app_nil_r.
    destruct fuel; cbn [ext_bytes_map]; zbool; done.
  - destruct fuel as [|fuel]; [simpl in Hf; lia|]. rewrite enc_exts_cons. cbn [ext_bytes_map].
    destruct (ext_step_gets pre e (enc_exts L) He) as [E1 E2].
    assert (El : len (pre ++ enc_ext e ++ enc_exts L) = len pre + (4 + len e.2) + len (enc_exts L))
      by (rewrite !len_app, len_enc_ext; lia).
    rewrite E1, E2. cbn [obind]. pose proof (len_nonneg e.2). pose proof (len_nonneg (enc_exts L)).
    rewrite El. zbool. rewrite slice_app by (rewrite ?len_enc_ext; lia). cbn [obind].
    rewrite <- El, app_assoc.
    replace (len pre + (4 + len e.2)) with (len (pre ++ enc_ext e)) by (rewrite len_app, len_enc_ext; lia).
    rewrite IH by (simpl in Hf; lia). done.
Qed.

Lemma length_enc_exts L : (length L <= length (enc_exts L))%nat.
Proof.
  induction L as [|e L IH]; [done|]. rewrite enc_exts_cons, length_app. cbn [length].
  pose proof (len_enc_ext e). pose proof (len_nonneg e.2). unfold len in *. lia.
Qed.

Lemma extension_types_enc vr sid cs cm L :
  wf_hello vr sid cs cm L ->
  extractExtensionTypes (hello_bytes vr sid cs cm L) = Ret (map fst L).
Proof.
  intros Hw. unfold extractExtensionTypes.
  destruct (ext_offset_enc _ _ _ _ _ Hw) as (off & -> & Eh & Eo). cbn [obind].
  rewrite Eh. set (P := vr ++ _) in *. subst off.
  replace (len P + len (enc_exts L)) with (len (P ++ enc_exts L)) by (by rewrite len_app).
  apply ext_types_enc; [apply Hw|]. rewrite length_app. pose proof (length_enc_exts L). lia.
Qed.

Lemma extension_bytes_enc vr sid cs cm L :
  wf_hello vr sid cs cm L ->
  extractExtensionBytesFromHello (hello_bytes vr sid cs cm L) = Ret (raw_map L ∅).
Proof.
  intros Hw. unfold extractExtensionBytesFromHello.
  destruct (ext_offset_enc _ _ _ _ _ Hw) as (off & -> & Eh & Eo). cbn [obind].
  rewrite Eh. set (P := vr ++ _) in *. subst off.
  replace (len P + len (enc_exts L)) with (len (P ++ enc_exts L)) by (by rewrite len_app).
  apply ext_bytes_map_enc; [apply Hw|]. rewrite length_app. pose proof (length_enc_exts L). lia.
Qed.

Lemma raw_map_lookup L e :
  NoDup (map fst L) -> e ∈ L -> raw_map L ∅ !! e.1 = Some (enc_ext e).
Proof.
  unfold raw_map. generalize (∅ : gmap Z bytes). induction L as [|x L IH]; intros acc Hnd Hin; [by apply not_elem_of_nil in Hin|].
  cbn [map] in Hnd. apply NoDup_cons in Hnd as [Hx Hnd]. cbn [fold_left].
  apply elem_of_cons in Hin as [->|Hin]; [|by apply IH].
  clear IH Hnd. enough (forall a : gmap Z bytes, a !! x.1 = Some (enc_ext x) ->
    fold_left (fun r e => <[e.1:=enc_ext e]> r) L a !! x.1 = Some (enc_ext x)) as H
    by (apply H; apply lookup_insert_eq).
  induction L as [|y L IH]; intros a Ha; [done|]. cbn [fold_left map] in *.
  apply not_elem_of_cons in Hx as [Hne Hx]. apply IH; [done|]. by rewrite lookup_insert_ne.
Qed.

(** The server finds the same blocks. *)
Lemma raw_extensions_enc L :
  Forall wf_ext L -> loop raw_extension_body [] (enc_exts L) = Some L.
Proof.
  intros HL. unfold enc_exts.
  erewrite (loop_concat _ enc_ext (fun acc e => acc ++ [e])); [by rewrite fold_left_snoc| | |done].
  - intros st s st' s'. unfold raw_extension_body. autorewrite with cbspec.
    destruct (rd_uint 2 s) as [[v r]|] eqn:E; [|done]. autorewrite with cbspec.
    destruct (rd_lp 2 r) as [[d r']|] eqn:E'; [|done]. intros [= <- <-].
    apply rd_uint_shrinks in E. apply rd_lp_shrinks in E'. unfold len in *. lia.
  - intros [id d] st r [H1 H2]. unfold raw_extension_body, enc_ext. cbn [fst snd] in *. by parse.
Qed.

Lemma skip8_enc x r : len x < 2 ^ 8 -> skipUint8LengthPrefixed (enc_lp 1 x ++ r) = Some r.
Proof.
  intros. unfold skipUint8LengthPrefixed, enc_lp. pose proof (len_nonneg x). by parse.
Qed.

Lemma skip16_enc x r : len x < 2 ^ 16 -> skipUint16LengthPrefixed (enc_lp 2 x ++ r) = Some r.
Proof.
  intros. unfold skipUint16LengthPrefixed, enc_lp. pose proof (len_nonneg x). by parse.
Qed.

Lemma extract_raw_enc outer hdr vr sid cs cm L :
  wf_hello vr sid cs cm L -> len hdr = 4 ->
  outer.(clientHelloMsg.original) = Some (hdr ++ hello_bytes vr sid cs cm L) ->
  extractRawExtensions outer = inr L.
Proof.
  intros [] Hh Ho. unfold extractRawExtensions. rewrite Ho. cbn [slice_bytes from_option id].
  unfold hello_bytes. rewrite app_assoc. autorewrite with cbspec.
  rewrite rd_bytes_app by (rewrite len_app; lia). cbn [fmap option_fmap option_map snd].
  rewrite skip8_enc, skip16_enc, skip8_enc by done. unfold enc_lp. parse.
  by rewrite raw_extensions_enc.
Qed.
End OuterExtensions.

(** ** Reconstruction

    What the server rebuilds from the encoded inner hello is the expanded
    hello over which the client computed its binders. *)

Section Reconstruction.
Context `{C : Cryptobyte} {Cok : CryptobyteOk C}.
Import clientHelloMsg.

Definition referenced (L : list (Z * bytes)) : list (Z * bytes) :=
  List.filter (fun e => compressible e.1) L.

Lemma referenced_types L : ech_outer_exts (map fst L) = map fst (referenced L).
Proof.
  unfold ech_outer_exts, referenced. induction L as [|e L IH]; [done|]. cbn [map List.filter].
  destruct (compressible e.1); cbn [map]; by rewrite IH.
Qed.

Lemma compressible_not_ech : compressible extensionEncryptedClientHello = false.
Proof. vm_compute. reflexivity. Qed.

Lemma emits_block id d b :
  len d < 2 ^ 16 ->
  out ((AddUint16 id ;> AddUint16LengthPrefixed (AddBytes d)) b) = oapp (out b) (Some (enc_ext (id, d))).
Proof.
  intros Hd. eassert (E : Emits (AddUint16 id ;> AddUint16LengthPrefixed (AddBytes d)) _)
    by typeclasses eauto. rewrite (E b). f_equal. unfold olp.
  replace (len d <? 256 ^ Z.of_nat 2) with true by (symmetry; by apply Z.ltb_lt). done.
Qed.

Lemma seek_app id l1 l2 : id ∉ map fst l1 -> seek id (l1 ++ l2) = seek id l2.
Proof.
  induction l1 as [|e l1 IH]; [done|]. cbn [map app seek]. intros [Hne Hni]%not_elem_of_cons.
  destruct (Z.eqb_spec e.1 id); [by subst|]. by apply IH.
Qed.

Lemma recon_outer_enc L l1 fuel b :
  Forall wf_ext L -> NoDup (map fst (l1 ++ L)) ->
  let ids := map fst (referenced L) in (length ids <= fuel)%nat ->
  exists b', recon_outer fuel (enc_u16s ids) (l1 ++ L) b = (true, b') /\
    out b' = oapp (out b) (Some (enc_exts (referenced L))).
Proof.
  intros HL. revert l1 fuel b. induction HL as [|e L He HL IH]; intros l1 fuel b Hnd ids Hf.
  - exists b. unfold ids. cbn. split; [destruct fuel; cbn; by rewrite Empty_spec|by rewrite oapp_nil_r].
  - unfold ids, referenced in *. cbn [List.filter] in *. destruct (compressible e.1) eqn:Hc.
    + cbn [map length] in Hf. destruct fuel as [|fuel]; [lia|].
      destruct e as [id d]. cbn [fst map] in *. unfold enc_u16s. cbn [map concat recon_outer].
      destruct He as [Hid Hd]. cbn [fst snd] in Hid, Hd.
      rewrite Empty_len. autorewrite with cb. pose proof (len_nonneg (concat (map (be 2) (map fst (List.filter (fun e => compressible e.1) L))))).
      zbool. autorewrite with cbspec. rewrite rd_uint_be_small by done.
      destruct (Z.eqb_spec id extensionEncryptedClientHello) as [->|_]; [by rewrite compressible_not_ech in Hc|].
      rewrite map_app in Hnd. pose proof Hnd as (H1 & H2 & H3)%NoDup_app.
      rewrite seek_app by (intros Hin; apply (H2 _ Hin); cbn; left).
      cbn [seek fst]. rewrite Z.eqb_refl. 
      destruct (IH [(id, d)] fuel ((AddUint16 id ;> AddUint16LengthPrefixed (AddBytes d)) b)) as (b' & Eb & Eo);
        [done|lia|].
      exists b'. split; [exact Eb|]. rewrite Eo, emits_block, <- oapp_assoc by done. done.
    + specialize (IH (l1 ++ [e]) fuel b). rewrite <- app_assoc in IH. by apply IH.
Qed.

(** The bytes that replace one block of the encoded inner hello. *)
Definition expand (L : list (Z * bytes)) (e : Z * bytes) : bytes :=
  if e.1 =? extensionECHOuterExtensions then enc_exts (referenced L) else enc_ext e.

Lemma recon_exts_enc L l fuel b :
  Forall wf_ext L -> NoDup (map fst L) -> Forall wf_ext l ->
  let ids := map fst (referenced L) in
  Forall (fun e => e.1 = extensionECHOuterExtensions ->
    e.2 = enc_lp 1 (enc_u16s ids) /\ len (enc_u16s ids) < 256) l ->
  (length l <= fuel)%nat ->
  out (recon_exts fuel L (enc_exts l) b) = oapp (out b) (Some (concat (map (expand L) l))).
Proof.
  intros HL Hnd Hl ids. revert fuel b. induction Hl as [|e l He Hl IH]; intros fuel b Ho Hf.
  - destruct fuel; cbn; rewrite Empty_spec; cbn; by rewrite oapp_nil_r.
  - destruct fuel as [|fuel]; [simpl in Hf; lia|]. rewrite enc_exts_cons. cbn [recon_exts].
    apply Forall_cons in Ho as [Ho1 Ho2]. destruct e as [id d]. pose proof (len_enc_ext (id, d)).
    rewrite Empty_len, len_app. pose proof (len_nonneg d). pose proof (len_nonneg (enc_exts l)).
    cbn [fst snd] in *. zbool. unfold enc_ext at 1. cbn [fst snd]. destruct He as [Hid Hd]. cbn [fst snd] in *.
    parse. cbn [map concat]. unfold expand at 1. cbn [fst].
    destruct (Z.eqb_spec id extensionECHOuterExtensions) as [Eid|Eid].
    + destruct (Ho1 Eid) as [-> Hlen]. unfold enc_lp. rewrite rd_lp_end by done. 
      destruct (recon_outer_enc L [] (length (enc_u16s ids)) b) as (b' & Eb & Eo); [done|done| |].
      { fold ids. pose proof (len_enc_u16s ids). unfold len in *. lia. }
      cbn [app] in Eb. fold ids in Eb. rewrite Eb. rewrite IH, Eo, <- oapp_assoc by (done || (simpl in Hf; lia)). done.
    + rewrite IH, emits_block, <- oapp_assoc by (done || (simpl in Hf; lia)). done.
Qed.

(** The expanded hello takes the same blocks from the raw bytes. *)
Lemma expanded_loop m L :
  NoDup (map fst L) ->
  oconcat (map (fun e => out (expanded_ext m (raw_map L ∅) e NewBuilder)) (map fst L)) =
    Some (enc_exts (referenced L)).
Proof.
  intros Hnd.
  enough (forall l, (forall e, e ∈ l -> e ∈ L) ->
    oconcat (map (fun e => out (expanded_ext m (raw_map L ∅) e NewBuilder)) (map fst l)) =
    Some (enc_exts (referenced l))) as H by auto.
  induction l as [|e l IH]; intros Hl; [done|]. cbn [map oconcat]. rewrite IH by set_solver.
  unfold referenced. cbn [List.filter]. unfold expanded_ext.
  destruct (compressible e.1) eqn:Hc.
  - destruct (Z.eqb_spec e.1 extensionServerName) as [E|_]; [by rewrite E in Hc|].
    destruct (Z.eqb_spec e.1 extensionEncryptedClientHello) as [E|_]; [by rewrite E in Hc|].
    destruct (Z.eqb_spec e.1 extensionPreSharedKey) as [E|_]; [by rewrite E in Hc|].
    cbn [orb negb]. rewrite raw_map_lookup by set_solver.
    rewrite (emits_new _ _ (emits_AddBytes (enc_ext e))). done.
  - destruct (_ || _ || _); cbn [negb]; rewrite (emits_new _ _ emits_nop); by rewrite oapp_nil_l.
Qed.

Lemma expand_opt L (c : bool) id b :
  id <> extensionECHOuterExtensions ->
  concat (map (expand L) (if c then [(id, b)] else [])) = enc_exts (if c then [(id, b)] else []).
Proof.
  intros Hid. destruct c; [|done]. unfold expand, enc_exts. cbn [map concat fst].
  by destruct (Z.eqb_spec id extensionECHOuterExtensions).
Qed.

Lemma expand_outer L b :
  concat (map (expand L)
    (if 0 <? len (ech_outer_exts (map fst L)) then [(extensionECHOuterExtensions, b)] else [])) =
  enc_exts (referenced L).
Proof.
  rewrite referenced_types. destruct (0 <? len (map fst (referenced L))) eqn:E.
  - cbn [map concat]. unfold expand. cbn [fst]. rewrite Z.eqb_refl. by rewrite app_nil_r.
  - apply len_pos_false in E. by destruct (referenced L).
Qed.

(** The extension bytes: expanding what [ech_fixed_exts] wrote gives what
    [expanded_exts] writes. *)
Lemma fixed_exts_expand m L z zz :
  Forall wf_ext L -> NoDup (map fst L) ->
  extensionSupportedVersions ∈ map fst L \/ m.(supportedVersions) = [] ->
  Bytes (ech_fixed_exts m (map fst L) NewBuilder) = inr z ->
  Bytes (expanded_exts m (map fst L) (raw_map L ∅) NewBuilder) = inr zz ->
  exists l, z = enc_exts l /\ Forall wf_ext l /\ zz = concat (map (expand L) l) /\
    Forall (fun e => e.1 = extensionECHOuterExtensions ->
      e.2 = enc_lp 1 (enc_u16s (map fst (referenced L))) /\
      len (enc_u16s (map fst (referenced L))) < 256) l.
Proof.
  intros HL Hnd Hsv Hz Hzz.
  assert (Hno : negb (List.existsb (fun e => e =? extensionSupportedVersions) (ech_outer_exts (map fst L)))
                && (0 <? len m.(supportedVersions)) = false).
  { destruct Hsv as [Hin| ->]; [|apply andb_false_r]. apply andb_false_intro1, negb_false_iff.
    apply List.existsb_exists. exists extensionSupportedVersions. split; [|done].
    apply filter_In. split; [by apply list_elem_of_In|done]. }
  unfold ech_fixed_exts in Hz. cbv zeta in Hz. rewrite Hno in Hz.
  unfold expanded_exts in Hzz.
  unfold add_encrypted_client_hello, add_server_name, add_u16_list8, add_pre_shared_key in *.
  pose proof (emits_expanded_ext m (raw_map L ∅)) as Hexp.
  denote Hz. denote Hzz. rewrite expanded_loop in Hzz by done.
  cbv iota in Hz. apply oapp_Some in Hz as (a & z1 & Ha & Hz & ->). apply oapp_Some in Hz as (b & z2 & Hb & Hz & ->).
  apply oapp_Some in Hz as (c & z3 & Hc & Hz & ->). apply oapp_Some in Hz as (z4 & d & [= <-] & Hd & ->).
  rewrite Ha, Hb, Hd in Hzz. unfold oapp in Hzz. injection Hzz as <-.
  apply opt_ext_inv in Ha as (ba & -> & Hba). apply opt_ext_inv in Hb as (bb & -> & Hbb).
  apply opt_ext_inv in Hc as (bc & -> & Hbc). apply opt_ext_inv in Hd as (bd & -> & Hbd).
  rewrite app_nil_l, <- !enc_exts_app. eexists. split; [reflexivity|].
  split; [wf_exts|]. split.
  - rewrite !map_app, !concat_app, expand_outer, !expand_opt
      by (intros E; vm_compute in E; discriminate). by rewrite !enc_exts_app.
  - rewrite !Forall_app. split_and!.
    1, 2, 4: match goal with |- Forall _ (if ?c then _ else _) => destruct c; [|constructor] end;
      constructor; [|constructor]; intros E; vm_compute in E; discriminate.
    destruct (0 <? len (ech_outer_exts (map fst L))); [|constructor].
    constructor; [|constructor]. intros _. cbn [snd].
    destruct (Hbc eq_refl) as [E _]. rewrite emit_u16s, referenced_types in E.
    apply olp_Some in E as (x & [= <-] & Hx & ->). done.
Qed.

Lemma padding_zero n : List.existsb (fun p => negb (b2z p =? 0)) (replicate n x00) = false.
Proof. induction n; [done|]. cbn [replicate List.existsb]. by rewrite IHn. Qed.

(** The encoded inner hello, byte by byte. *)
Lemma encoded_inner_bytes m outerExts maxName encoded :
  encodeInnerClientHelloReorderOuterExts m maxName (Some outerExts) = Ret (inr encoded) ->
  exists z n, Bytes (ech_fixed_exts m outerExts NewBuilder) = inr z /\ len m.(random) = 32 /\
    len (enc_u16s m.(cipherSuites)) < 2 ^ 16 /\ len m.(compressionMethods) < 2 ^ 8 /\ len z < 2 ^ 16 /\
    encoded = ((be 2 m.(vers) ++ m.(random)) ++ be 1 0 ++ enc_lp 2 (enc_u16s m.(cipherSuites)) ++
      enc_lp 1 m.(compressionMethods) ++ (if 0 <? len z then enc_lp 2 z else [])) ++ replicate n x00.
Proof.
  unfold encodeInnerClientHelloReorderOuterExts, marshalMsgReorderOuterExts, res_bind.
  destruct (Bytes (ech_fixed_exts m outerExts NewBuilder)) as [|z] eqn:Ez; [done|].
  destruct (buildClientHello m true z) as [|h] eqn:Eh; [done|]. unfold buildClientHello in Eh. denote Eh.
  destruct (len m.(random) =? 32) eqn:E32; [|inv_out; done]. apply Z.eqb_eq in E32.
  rewrite emit_u16s in Eh. cbn [negb] in Eh.
  assert (Hz : (if 0 <? len z then olp 2 (Some z) else Some []) =
    (if len z <? 2 ^ 16 then Some (if 0 <? len z then enc_lp 2 z else []) else None)).
  { unfold olp. destruct (Z.ltb_spec 0 (len z)); [done|].
    replace (len z <? 2 ^ 16) with true by (symmetry; apply Z.ltb_lt; lia). done. }
  rewrite Hz in Eh. destruct (Z.ltb_spec (len z) (2 ^ 16)); [|inv_out; done]. inv_out.
  rewrite app_assoc, from_app by (autorewrite with cb; lia). cbn [obind].
  destruct (make _) as [|p] eqn:Ep; [done|]. cbn [obind]. intros [= <-].
  unfold make in Ep. destruct (0 <=? _); [|done]. apply Ret_inj in Ep as <-.
  exists z. eexists. by split_and!.
Qed.

(** A block was written first, so there are extension bytes. *)
Lemma first_block_pos (c : bool) id d e z :
  c = true -> oapp (if c then oapp (Some (be 2 id)) d else Some []) e = Some z -> 0 < len z.
Proof.
  intros -> H. apply oapp_Some in H as (p & q & H & _ & ->).
  apply oapp_Some in H as (p1 & p2 & [= <-] & _ & ->).
  autorewrite with cb. pose proof (len_nonneg p2). pose proof (len_nonneg q). lia.
Qed.

Lemma reconstruct_expanded m outer hdr vr cs cm L maxName encoded y :
  let sid := outer.(sessionId) in
  wf_hello vr sid cs cm L -> len hdr = 4 ->
  outer.(original) = Some (hdr ++ hello_bytes vr sid cs cm L) ->
  m.(vers) = VersionTLS12 -> m.(encryptedClientHello) <> [] ->
  extensionSupportedVersions ∈ map fst L \/ m.(supportedVersions) = [] ->
  encodeInnerClientHelloReorderOuterExts m maxName (Some (map fst L)) = Ret (inr encoded) ->
  marshalExpandedECH m (map fst L) (raw_map L ∅) sid = inr y ->
  reconstruct outer encoded = inr y.
Proof.
  intros sid Hw Hh Ho Hv Hne Hsv He Hy.
  apply encoded_inner_bytes in He as (z & n & Hz & Hr & Hcs & Hcm & Hzl & ->).
  unfold marshalExpandedECH, res_bind in Hy.
  destruct (Bytes (expanded_exts _ _ _ _)) as [|zz] eqn:Ezz; [done|].
  pose proof Hw as [].
  destruct (fixed_exts_expand m L z zz) as (l & Ez & Hl & Ezz' & Hol); try done.
  assert (Hc : (0 <? len m.(encryptedClientHello)) = true)
    by (destruct (encryptedClientHello m); [done|apply len_pos_cons]).
  assert (Hpos : 0 < len z /\ 0 < len zz).
  { clear - Cok Hz Ezz Hc. pose proof (emits_expanded_ext m (raw_map L ∅)).
    unfold ech_fixed_exts, expanded_exts, add_encrypted_client_hello, add_server_name,
      add_u16_list8, add_pre_shared_key in *. cbv zeta in Hz. denote Hz. denote Ezz.
    split; [eapply (first_block_pos _ _ _ _ z Hc)|eapply (first_block_pos _ _ _ _ zz Hc)]; eassumption. }
  destruct Hpos as [Hp1 Hp2]. unfold reconstruct.
  replace (0 <? len z) with true by (symmetry; by apply Z.ltb_lt).
  replace (0 <? len zz) with true in Hy by (symmetry; by apply Z.ltb_lt). cbn [bwhen] in Hy.
  autorewrite with cbspec. rewrite <- !app_assoc, (app_assoc (be 2 m.(vers)) m.(random)).
  rewrite rd_bytes_app by (autorewrite with cb; lia). unfold enc_lp. rewrite <- !app_assoc. parse.
  change (len [] =? 0) with true. cbn [negb]. parse. rewrite padding_zero.
  unfold res_bind. rewrite (extract_raw_enc outer hdr vr sid cs cm L Hw Hh Ho).
  assert (Er : Emits (recon_exts (length z) L z) (Some zz)).
  { intros b. rewrite Ez, Ezz'. apply recon_exts_enc; try done. apply length_enc_exts. }
  denote Hy. rewrite emit_u16s in Hy.
  match goal with |- Bytes (?f NewBuilder) = _ => eassert (E : Emits f _) by typeclasses eauto end.
  apply (Bytes_emits _ _ _ E). rewrite <- Hy. subst sid. rewrite Hv.
  rewrite !oapp_assoc. done.
Qed.

(** The expanded inner hello.  Let [hello] be the serialised outer hello, and
    let the client encode its inner hello against the extension types it
    extracts from [hello].  Then the server, from the outer hello and the
    decrypted encoding alone, reconstructs exactly the bytes that
    [marshalExpandedECH] makes from the raw extensions of [hello].  The outer hello
    must offer supported_versions (or the inner one none): see the note on
    [ech_fixed_exts].  (The code has no call of [marshalExpandedECH]; the binders
    of the client are computed over the reconstruction, see [fix_binder].) *)
Theorem ech_binder_agreement m outer hdr vr cs cm L maxName types raw encoded y :
  let sid := outer.(sessionId) in
  let hello := hello_bytes vr sid cs cm L in
  wf_hello vr sid cs cm L -> len hdr = 4 -> outer.(original) = Some (hdr ++ hello) ->
  m.(vers) = VersionTLS12 -> m.(encryptedClientHello) <> [] ->
  extensionSupportedVersions ∈ map fst L \/ m.(supportedVersions) = [] ->
  extractExtensionTypes hello = Ret types ->
  extractExtensionBytesFromHello hello = Ret raw ->
  encodeInnerClientHelloReorderOuterExts m maxName (Some types) = Ret (inr encoded) ->
  marshalExpandedECH m types raw sid = inr y ->
  reconstruct outer encoded = inr y.
Proof.
  intros sid hello Hw Hh Ho Hv Hne Hsv Ht Hr.
  unfold hello in Ht, Hr. rewrite extension_types_enc in Ht by done. rewrite extension_bytes_enc in Hr by done.
  apply Ret_inj in Ht as <-. apply Ret_inj in Hr as <-. by apply (reconstruct_expanded m outer hdr vr cs cm L).
Qed.

End Reconstruction.

(** ** Padding of the inner hello *)

Section Padding.
Context `{C : Cryptobyte} {Cok : CryptobyteOk C}.
Import clientHelloMsg.

(** The padding that the first assignment to [paddingLen] computes. *)
Definition name_padding (m : t) (maxNameLength : Z) : Z :=
  if 0 <? len m.(serverName) then Z.max 0 (maxNameLength - len m.(serverName)) else maxNameLength + 9.

Lemma hello_length m outerExts h :
  marshalMsgReorderOuterExts m true outerExts = inr h -> 6 <= len h.
Proof.
  unfold marshalMsgReorderOuterExts, res_bind. destruct (Bytes _) as [|z]; [done|].
  unfold buildClientHello. intros H. denote H.
  apply oapp_Some in H as (p & q & [= <-] & H & ->). apply olp_Some in H as (c & H & _ & ->).
  apply oapp_Some in H as (p & r & [= <-] & _ & ->). autorewrite with cb. pose proof (len_nonneg r). lia.
Qed.

(** Padding of the encoded inner hello.  Fewer than 32 zero bytes are
    appended, and the length is a multiple of 32 only together with the name
    padding that the first assignment computes and the second discards: the
    encoded length itself still reveals the name's length modulo 32. *)
Theorem inner_length m maxName outerExts encoded :
  0 <= maxName ->
  encodeInnerClientHelloReorderOuterExts m maxName outerExts = Ret (inr encoded) ->
  exists h, marshalMsgReorderOuterExts m true outerExts = inr h /\
    len h - 4 <= len encoded <= len h - 4 + 31 /\
    (len encoded + name_padding m maxName) mod 32 = 0.
Proof.
  intros Hmax. unfold encodeInnerClientHelloReorderOuterExts.
  destruct (marshalMsgReorderOuterExts m true outerExts) as [|h] eqn:E; [done|].
  apply hello_length in E. fold (name_padding m maxName). set (p := name_padding m maxName).
  assert (Hp : 0 <= p) by (unfold p, name_padding; destruct (0 <? _); lia).
  rewrite from_ok by lia. cbn [obind]. pose proof (len_drop h 4 ltac:(lia)) as E4.
  set (h4 := drop (Z.to_nat 4) h) in *. clearbody h4.
  rewrite Z.rem_mod_nonneg by lia. pose proof (Z.mod_pos_bound (len h4 + p - 1) 32 ltac:(lia)) as Hm.
  unfold make. zbool. cbn [obind]. intros H%Ret_inj. injection H as <-. exists h. split; [done|].
  rewrite len_app, len_replicate by lia.
  split; [lia|]. pose proof (Z.div_mod (len h4 + p - 1) 32 ltac:(lia)) as Hd.
  apply Z.mod_divide; [lia|]. exists ((len h4 + p - 1) / 32 + 1). lia.
Qed.
End Padding.

(** ** Parsing configuration lists terminates without a panic *)

Section ConfigList.
Context `{C : Cryptobyte} {Cok : CryptobyteOk C}.

Lemma parseECHConfig_total s :
  4 <= len s -> len s < 2 ^ 16 ->
  exists configLen r, get16 s 2 = Ret configLen /\ 0 <= configLen /\ parseECHConfig s = Ret r /\
    (forall ec, r = inr ec -> configLen + 4 <= len s).
Proof.
  intros H4 Hs. destruct (split_be 2 s) as (v & s1 & -> & Hv); [lia|]. rewrite len_app, len_be in *.
  destruct (split_be 2 s1) as (l & s2 & -> & Hl); [lia|]. rewrite len_app, len_be in *.
  rewrite get16_be by done. change (256 ^ Z.of_nat 2) with (2 ^ 16) in *. rewrite Z.mod_small by done.
  unfold parseECHConfig. autorewrite with cbspec. rewrite rd_uint_be_small by done.
  autorewrite with cbspec. rewrite rd_uint_be_small by done. rewrite !len_app, !len_be.
  destruct (Z.ltb_spec (Z.of_nat 2 + (Z.of_nat 2 + len s2)) (l + 4)).
  - do 2 eexists. split_and!; [done|lia|done|]. by intros.
  - rewrite Z.mod_small by lia. rewrite upto_ok by (rewrite !len_app, !len_be; lia). cbn [obind].
    exists l. destruct (negb _); eexists; split_and!; try done; try lia; intros; lia.
Qed.

Lemma parse_configs_total fuel s acc :
  len s < 2 ^ 16 -> (length s <= fuel)%nat -> exists r, parse_configs fuel s acc = Some (Ret r).
Proof.
  revert s acc. induction fuel as [|fuel IH]; intros s acc Hs Hf; cbn [parse_configs].
  - destruct s; [by eexists|simpl in Hf; lia].
  - destruct (0 <? len s); [|by eexists]. destruct (Z.ltb_spec (len s) 4); [by eexists|].
    destruct (parseECHConfig_total s) as (l & r & -> & Hl & -> & Hr); [lia|lia|].
    destruct r as [e|ec]; [by eexists|]. specialize (Hr ec eq_refl).
    rewrite Z.mod_small by lia. rewrite from_ok by lia.
    apply IH; [rewrite len_drop by lia; lia|].
    pose proof (len_drop s (l + 4) ltac:(lia)). unfold len in *. lia.
Qed.

(** C29: for every input of at most 65537 bytes (all a two-byte length can
    announce), [parseECHConfigList] terminates and returns a list or an error,
    without an index out of range. *)
Theorem parseECHConfigList_total data :
  len data <= 2 + (2 ^ 16 - 1) -> exists r, parseECHConfigList data = Some (Ret r).
Proof.
  intros Hd. unfold parseECHConfigList. autorewrite with cbspec.
  destruct (rd_uint 2 data) as [[v s]|] eqn:E; [|by eexists].
  destruct (negb _); [by eexists|]. apply rd_uint_shrinks in E.
  apply parse_configs_total; [lia|done].
Qed.

(** One byte more and the uint16 sum [configLen+4] can wrap to 0. *)
Definition wrapping_config : bytes := be 2 0 ++ be 2 65532 ++ replicate (Z.to_nat 65532) x00.

Lemma wrapping_config_loops fuel acc : parse_configs fuel wrapping_config acc = None.
Proof.
  revert acc. assert (El : len wrapping_config = 65536)
    by (unfold wrapping_config; rewrite !len_app, !len_be, len_replicate by lia; lia).
  assert (Ep : parseECHConfig wrapping_config = Ret (inr None)).
  { unfold parseECHConfig. unfold wrapping_config at 1. autorewrite with cbspec.
    rewrite rd_uint_be_small by lia. autorewrite with cbspec. rewrite rd_uint_be_small by lia.
    rewrite El. zbool. change ((65532 + 4) mod 2 ^ 16) with 0. rewrite upto_ok by lia. done. }
  assert (Eg : get16 wrapping_config 2 = Ret 65532).
  { unfold wrapping_config. rewrite get16_be by done. done. }
  induction fuel as [|fuel IH]; intros acc; cbn [parse_configs]; rewrite El; zbool; [done|].
  rewrite Eg, Ep. change ((65532 + 4) mod 2 ^ 16) with 0. rewrite from_ok by lia. apply IH.
Qed.

(** C30: on the 65538-byte input that announces a length of 65536 modulo 2^16 and
    contains one configuration of length 65532, the loop of
    [parseECHConfigList] makes no progress: it does not end for any number of
    iterations. *)
Theorem parseECHConfigList_diverges fuel :
  let data := be 2 0 ++ wrapping_config in
  len data = 65538 /\ ReadUint16 data = Some ((len data - 2) mod 2 ^ 16, wrapping_config) /\
  parse_configs fuel wrapping_config [] = None /\ parseECHConfigList data = None.
Proof.
  cbv zeta. assert (El : len wrapping_config = 65536)
    by (unfold wrapping_config; rewrite !len_app, !len_be, len_replicate by lia; lia).
  assert (Er : ReadUint16 (be 2 0 ++ wrapping_config) = Some (0, wrapping_config))
    by (rewrite ReadUint16_spec; apply rd_uint_be_small; lia).
  rewrite len_app, len_be, El. split_and!; [done|exact Er|apply wrapping_config_loops|].
  unfold parseECHConfigList. rewrite Er. rewrite len_app, len_be, El. apply wrapping_config_loops.
Qed.
End ConfigList.

(** * Examples *)

Lemma ech_ext_round_trip_witness :
  @parseECHExt Reference.ops
    (match @generateOuterECHExt Reference.ops 7 KDF_HKDF_SHA256 AEAD_AES_256_GCM (be 4 5) (be 4 6)
     with inr x => x | inl _ => [] end) =
  inr (MkExt outerECHExt (echCipher.Mk KDF_HKDF_SHA256 AEAD_AES_256_GCM) 7 (be 4 5) (be 4 6)).
Proof.
  apply (@ech_ext_round_trip Reference.ops Reference.ok); try done.
Defined.

Definition inner_example : clientHelloMsg.t :=
  clientHelloMsg.set_encryptedClientHello [u8 innerECHExt] example_hello.
Definition encoded_example : bytes :=
  match @encodeInnerClientHelloReorderOuterExts Reference.ops inner_example 64 (Some example_outer)
  with Ret (inr x) => x | _ => [] end.

Lemma inner_length_witness :
  exists h, @clientHelloMsg.marshalMsgReorderOuterExts Reference.ops inner_example true (Some example_outer) = inr h /\
    len h - 4 <= len encoded_example <= len h - 4 + 31 /\
    (len encoded_example + name_padding inner_example 64) mod 32 = 0.
Proof.
  apply (@inner_length Reference.ops Reference.ok inner_example 64 (Some example_outer) encoded_example).
  - lia.
  - vm_compute. reflexivity.
Defined.

Lemma parseECHConfigList_total_witness :
  exists r, @parseECHConfigList Reference.ops (be 2 6 ++ be 2 1 ++ be 2 2 ++ be 2 0) = Some (Ret r).
Proof. apply (@parseECHConfigList_total Reference.ops Reference.ok). vm_compute. discriminate. Defined.

Lemma parseECHConfigList_diverges_witness :
  @parse_configs Reference.ops 7 wrapping_config [] = None /\
  @parseECHConfigList Reference.ops (be 2 0 ++ wrapping_config) = None.
Proof.
  destruct (@parseECHConfigList_diverges Reference.ops Reference.ok 7) as (_ & _ & H1 & H2).
  split; assumption.
Defined.

(** An outer hello with five extensions, two of them not referenced. *)
Definition outer_exts : list (Z * bytes) :=
  [(0x2a2a, []); (extensionServerName, be 4 1); (extensionKeyShare, be 3 2);
   (extensionSupportedVersions, be 1 2 ++ be 2 VersionTLS13); (extensionEncryptedClientHello, be 2 9)].
Definition outer_vr : bytes := be 2 VersionTLS12 ++ replicate 32 x05.
Definition outer_hello : bytes := hello_bytes outer_vr (be 4 77) (be 2 0x1301) [x00] outer_exts.
Definition outer_example : clientHelloMsg.t :=
  clientHelloMsg.set_sessionId (be 4 77) (clientHelloMsg.set_original (Some (be 4 0 ++ outer_hello)) example_hello).
Definition outer_types : list Z := map fst outer_exts.
Definition outer_raw : gmap Z bytes := raw_map outer_exts ∅.
Definition inner_encoding : bytes :=
  match @encodeInnerClientHelloReorderOuterExts Reference.ops inner_example 64 (Some outer_types)
  with Ret (inr x) => x | _ => [] end.
Definition inner_expanded : bytes :=
  match @clientHelloMsg.marshalExpandedECH Reference.ops inner_example outer_types outer_raw (be 4 77)
  with inr x => x | _ => [] end.

Lemma ech_binder_agreement_witness :
  @reconstruct Reference.ops outer_example inner_encoding = inr inner_expanded /\ len inner_expanded = 139.
Proof.
  split; [|vm_compute; reflexivity].
  apply (@ech_binder_agreement Reference.ops Reference.ok inner_example outer_example (be 4 0) outer_vr
    (be 2 0x1301) [x00] outer_exts 64 outer_types outer_raw inner_encoding inner_expanded).
  - split; try (vm_compute; reflexivity).
    + repeat constructor; vm_compute; congruence.
    + apply (bool_decide_unpack (NoDup (map fst outer_exts))). vm_compute. exact I.
  - reflexivity.
  - reflexivity.
  - reflexivity.
  - discriminate.
  - left. apply (bool_decide_unpack (extensionSupportedVersions ∈ map fst outer_exts)). vm_compute. exact I.
  - vm_compute. reflexivity.
  - vm_compute. reflexivity.
  - vm_compute. reflexivity.
  - vm_compute. reflexivity.
Defined.

(** The same outer hello without its supported_versions block. *)
Definition outer_exts' : list (Z * bytes) :=
  [(0x2a2a, []); (extensionServerName, be 4 1); (extensionKeyShare, be 3 2);
   (extensionEncryptedClientHello, be 2 9)].
Definition outer_example' : clientHelloMsg.t :=
  clientHelloMsg.set_original
    (Some (be 4 0 ++ hello_bytes outer_vr (be 4 77) (be 2 0x1301) [x00] outer_exts')) outer_example.

(** The condition of the previous theorem is needed.  When the outer hello
    has no supported_versions extension, the encoded inner hello carries one
    inline and the expanded one does not, so the server reconstructs other
    bytes than those of [marshalExpandedECH]. *)
Theorem ech_binder_disagreement :
  let types := map fst outer_exts' in
  let raw := raw_map outer_exts' ∅ in
  exists encoded y y',
    @encodeInnerClientHelloReorderOuterExts Reference.ops inner_example 64 (Some types) = Ret (inr encoded) /\
    @clientHelloMsg.marshalExpandedECH Reference.ops inner_example types raw (be 4 77) = inr y /\
    @reconstruct Reference.ops outer_example' encoded = inr y' /\ len y' = len y + 7.
Proof.
  cbv zeta. do 3 eexists. split_and!; [vm_compute; reflexivity..|]. vm_compute. reflexivity.
Qed.
