(* ===== verification/Handshake.v ===== *)
(** * Handshake messages as a whole

    The interface [handshakeMessage] of common.go as a sum type over the
    message types, the dispatch of conn.go ([unmarshalHandshakeMessage]) and
    u_conn.go ([utlsHandshakeMessageType]) from a message's type byte and the
    connection's state to the type that parses it, and the transcript helper
    [transcriptMsg].

    The theorem at the end says that a connection parses back every message
    its peer can marshal, through that dispatch. *)

From S2P Require Import Prelude Cryptobyte Common Codec Buffer Messages RawMessages.
From S2P Require Import ServerHello ClientHello.

Inductive handshakeMessage :=
  | HelloRequest
  | ClientHello (m : clientHelloMsg.t)
  | ServerHello (m : serverHelloMsg.t)
  | NewSessionTicketTLS13 (m : newSessionTicketMsgTLS13.t)
  | NewSessionTicket (m : newSessionTicketMsg.t)
  | CertificateTLS13 (m : certificateMsgTLS13.t)
  | CertificateMsg (m : certificateMsg.t)
  | CertificateRequestTLS13 (m : certificateRequestMsgTLS13.t)
  | CertificateRequest (m : certificateRequestMsg.t)
  | CertificateStatus (m : certificateStatusMsg.t)
  | ServerKeyExchange (m : serverKeyExchangeMsg.t)
  | ServerHelloDone
  | ClientKeyExchange (m : clientKeyExchangeMsg.t)
  | CertificateVerify (m : certificateVerifyMsg.t)
  | Finished (m : finishedMsg.t)
  | EndOfEarlyData
  | KeyUpdate (m : keyUpdateMsg.t)
  | CompressedCertificate (m : utlsCompressedCertificateMsg.t)
  | EncryptedExtensions (m : encryptedExtensionsMsg.t)
  | ClientEncryptedExtensions (m : utlsClientEncryptedExtensionsMsg.t).

Definition utlsTypeEncryptedExtensions : Z := 8.

Section Ops.
Context `{C : Cryptobyte}.

Definition ret_res (x : outcome bytes) : outcome (res bytes) :=
  run b := x in Ret (inr b).

(** The method [marshal]. *)
Definition marshal (m : handshakeMessage) : outcome (res bytes) :=
  match m with
  | HelloRequest => ret_res helloRequestMsg.marshal
  | ClientHello m => Ret (clientHelloMsg.marshal m)
  | ServerHello m => Ret (serverHelloMsg.marshal m)
  | NewSessionTicketTLS13 m => Ret (newSessionTicketMsgTLS13.marshal m)
  | NewSessionTicket m => ret_res (newSessionTicketMsg.marshal m)
  | CertificateTLS13 m => Ret (certificateMsgTLS13.marshal m)
  | CertificateMsg m => ret_res (certificateMsg.marshal m)
  | CertificateRequestTLS13 m => Ret (certificateRequestMsgTLS13.marshal m)
  | CertificateRequest m => ret_res (certificateRequestMsg.marshal m)
  | CertificateStatus m => Ret (certificateStatusMsg.marshal m)
  | ServerKeyExchange m => ret_res (serverKeyExchangeMsg.marshal m)
  | ServerHelloDone => ret_res serverHelloDoneMsg.marshal
  | ClientKeyExchange m => ret_res (clientKeyExchangeMsg.marshal m)
  | CertificateVerify m => Ret (certificateVerifyMsg.marshal m)
  | Finished m => Ret (finishedMsg.marshal m)
  | EndOfEarlyData => ret_res endOfEarlyDataMsg.marshal
  | KeyUpdate m => Ret (keyUpdateMsg.marshal m)
  | CompressedCertificate m => Ret (utlsCompressedCertificateMsg.marshal m).1
  | EncryptedExtensions m => Ret (encryptedExtensionsMsg.marshal m)
  | ClientEncryptedExtensions m => Ret (utlsClientEncryptedExtensionsMsg.marshal m).1
  end.

(** [m.unmarshal(data)] on the receiver that the dispatch allocated. *)
Definition lift {A} (f : A -> handshakeMessage) (x : option A) : outcome (option handshakeMessage) :=
  Ret (f <$> x).
Definition lift' {A} (f : A -> handshakeMessage) (x : outcome (option A))
    : outcome (option handshakeMessage) :=
  run r := x in Ret (f <$> r).
Definition when (b : bool) (m : handshakeMessage) : outcome (option handshakeMessage) :=
  Ret (if b then Some m else None).

(** The fields of [Conn] that the dispatch reads. *)
Record conn := MkConn { c_vers : Z; isClient : bool }.

(** The parser for the message types that the extended dispatch adds; [None] is
    the error path, on which an alert has been sent. *)
Definition utlsHandshakeMessageType (c : conn) (typ : Z)
    : option (bytes -> outcome (option handshakeMessage)) :=
  if typ =? utlsTypeCompressedCertificate then
    Some (fun d => lift CompressedCertificate (utlsCompressedCertificateMsg.unmarshal d))
  else if typ =? utlsTypeEncryptedExtensions then
    Some (fun d => if c.(isClient) then lift EncryptedExtensions (encryptedExtensionsMsg.unmarshal d)
                   else lift ClientEncryptedExtensions (utlsClientEncryptedExtensionsMsg.unmarshal d))
  else None.

(** The switch of [unmarshalHandshakeMessage]: the parser for a message type;
    [None] is the error path. *)
Definition parser_for (c : conn) (typ : Z) : option (bytes -> outcome (option handshakeMessage)) :=
  let tls13 := c.(c_vers) =? VersionTLS13 in
  let tls12 := VersionTLS12 <=? c.(c_vers) in
  if typ =? typeHelloRequest then
    Some (fun d => when (helloRequestMsg.unmarshal d) HelloRequest)
  else if typ =? typeClientHello then Some (fun d => lift ClientHello (clientHelloMsg.unmarshal d))
  else if typ =? typeServerHello then Some (fun d => lift ServerHello (serverHelloMsg.unmarshal d))
  else if typ =? typeNewSessionTicket then
    Some (fun d => if tls13 then lift NewSessionTicketTLS13 (newSessionTicketMsgTLS13.unmarshal d)
                   else lift' NewSessionTicket (newSessionTicketMsg.unmarshal d))
  else if typ =? typeCertificate then
    Some (fun d => if tls13 then lift CertificateTLS13 (certificateMsgTLS13.unmarshal d)
                   else lift' CertificateMsg (certificateMsg.unmarshal d))
  else if typ =? typeCertificateRequest then
    Some (fun d => if tls13 then lift CertificateRequestTLS13 (certificateRequestMsgTLS13.unmarshal d)
                   else lift' CertificateRequest
                          (certificateRequestMsg.unmarshal (certificateRequestMsg.Mk tls12 [] [] []) d))
  else if typ =? typeCertificateStatus then
    Some (fun d => lift CertificateStatus (certificateStatusMsg.unmarshal d))
  else if typ =? typeServerKeyExchange then
    Some (fun d => lift' ServerKeyExchange (serverKeyExchangeMsg.unmarshal d))
  else if typ =? typeServerHelloDone then
    Some (fun d => when (serverHelloDoneMsg.unmarshal d) ServerHelloDone)
  else if typ =? typeClientKeyExchange then
    Some (fun d => lift' ClientKeyExchange (clientKeyExchangeMsg.unmarshal d))
  else if typ =? typeCertificateVerify then
    Some (fun d => lift CertificateVerify
                     (certificateVerifyMsg.unmarshal (certificateVerifyMsg.Mk tls12 0 []) d))
  else if typ =? typeFinished then Some (fun d => lift Finished (finishedMsg.unmarshal d))
  else if typ =? typeEndOfEarlyData then
    Some (fun d => when (endOfEarlyDataMsg.unmarshal d) EndOfEarlyData)
  else if typ =? typeKeyUpdate then Some (fun d => lift KeyUpdate (keyUpdateMsg.unmarshal d))
  else utlsHandshakeMessageType c typ.

(** The outcome of handling one message: the alerts sent, what was written to
    the transcript, and the message (or the error left in [c.in]). *)
Record handled := MkHandled {
  alerts : list Z;
  written : bytes;
  message : option handshakeMessage
}.

(** [utlsHandshakeMessageType] sends an alert itself before its caller does. *)
Definition unmarshalHandshakeMessage (c : conn) (data : bytes) (transcript : bool)
    : outcome handled :=
  run typ := get data 0 in
  match parser_for c typ with
  | None => Ret (MkHandled [alertUnexpectedMessage; alertUnexpectedMessage] [] None)
  | Some unmarshal =>
      run r := unmarshal data in
      match r with
      | None => Ret (MkHandled [alertUnexpectedMessage] [] None)
      | Some m => Ret (MkHandled [] (if transcript then data else []) (Some m))
      end
  end.

(** [msg.(handshakeMessageWithOriginalBytes)] and its [originalBytes]. *)
Definition originalBytes (m : handshakeMessage) : option bytes :=
  match m with
  | ClientHello m => clientHelloMsg.originalBytes m
  | ServerHello m => serverHelloMsg.originalBytes m
  | CertificateRequestTLS13 m => certificateRequestMsgTLS13.originalBytes m
  | _ => None
  end.

(** [transcriptMsg]: the bytes written to the hash. *)
Definition transcriptMsg (m : handshakeMessage) : outcome (res bytes) :=
  match originalBytes m with
  | Some orig => Ret (inr orig)
  | None => marshal m
  end.
End Ops.

(** * Every message is parsed back *)

Section Dispatch.
Context `{C : Cryptobyte} {Cok : CryptobyteOk C}.

(** Messages that the connection [c] reads from its peer, all of whose fields
    travel on the wire. *)
Definition wf_message (c : conn) (m : handshakeMessage) : Prop :=
  let tls13 := c.(c_vers) =? VersionTLS13 in
  let tls12 := VersionTLS12 <=? c.(c_vers) in
  match m with
  | HelloRequest | ServerHelloDone | EndOfEarlyData => True
  | ClientHello m => wf_clientHello m /\ m.(clientHelloMsg.original) = None
  | ServerHello m => wf_serverHello m
  | NewSessionTicketTLS13 m =>
      tls13 = true /\ is_u32 m.(newSessionTicketMsgTLS13.lifetime) /\
      is_u32 m.(newSessionTicketMsgTLS13.ageAdd) /\ is_u32 m.(newSessionTicketMsgTLS13.maxEarlyData)
  | NewSessionTicket m => tls13 = false /\ len m.(newSessionTicketMsg.ticket) < 2 ^ 16
  | CertificateTLS13 m =>
      tls13 = true /\ wf_staples m.(certificateMsgTLS13.certificate) /\
      m.(certificateMsgTLS13.ocspStapling) = non_nil m.(certificateMsgTLS13.certificate).(Certificate.OCSPStaple) /\
      m.(certificateMsgTLS13.scts) =
        non_nil m.(certificateMsgTLS13.certificate).(Certificate.SignedCertificateTimestamps)
  | CertificateMsg m =>
      tls13 = false /\ len (concat (map (enc_lp 3) m.(certificateMsg.certificates))) < 2 ^ 24 /\
      last m.(certificateMsg.certificates) <> Some []
  | CertificateRequestTLS13 m =>
      tls13 = true /\ Forall is_u16 m.(certificateRequestMsgTLS13.supportedSignatureAlgorithms) /\
      Forall is_u16 m.(certificateRequestMsgTLS13.supportedSignatureAlgorithmsCert) /\
      Forall (fun ca => ca <> []) m.(certificateRequestMsgTLS13.certificateAuthorities)
  | CertificateRequest m =>
      tls13 = false /\ m.(certificateRequestMsg.hasSignatureAlgorithm) = tls12 /\
      (if tls12 then Forall is_u16 m.(certificateRequestMsg.supportedSignatureAlgorithms) /\
                     len m.(certificateRequestMsg.supportedSignatureAlgorithms) < 2 ^ 15
       else m.(certificateRequestMsg.supportedSignatureAlgorithms) = []) /\
      0 < len m.(certificateRequestMsg.certificateTypes) < 2 ^ 8 /\
      Forall (fun x => len x < 2 ^ 16) m.(certificateRequestMsg.certificateAuthorities) /\
      len (concat (map (enc_lp 2) m.(certificateRequestMsg.certificateAuthorities))) < 2 ^ 16
  | CertificateStatus m => m.(certificateStatusMsg.response) <> []
  | ServerKeyExchange _ | Finished _ | KeyUpdate _ => True
  | ClientKeyExchange m => len m.(clientKeyExchangeMsg.ciphertext) < 2 ^ 24
  | CertificateVerify m =>
      m.(certificateVerifyMsg.hasSignatureAlgorithm) = tls12 /\
      (if tls12 then is_u16 m.(certificateVerifyMsg.signatureAlgorithm)
       else m.(certificateVerifyMsg.signatureAlgorithm) = 0)
  | CompressedCertificate m =>
      m.(utlsCompressedCertificateMsg.raw) = None /\ is_u16 m.(utlsCompressedCertificateMsg.algorithm) /\
      is_u24 m.(utlsCompressedCertificateMsg.uncompressedLength)
  | EncryptedExtensions m =>
      c.(isClient) = true /\
      m.(encryptedExtensionsMsg.utls) = utlsEncryptedExtensionsMsgExtraFields.Mk [] 0 [] /\
      m.(encryptedExtensionsMsg.echRetryConfigs) <> Some []
  | ClientEncryptedExtensions m =>
      c.(isClient) = false /\ m.(utlsClientEncryptedExtensionsMsg.raw) = None /\
      m.(utlsClientEncryptedExtensionsMsg.customExtension) = [] /\
      (m.(utlsClientEncryptedExtensionsMsg.applicationSettingsCodepoint) = utlsExtensionApplicationSettings \/
       m.(utlsClientEncryptedExtensionsMsg.applicationSettingsCodepoint) = utlsExtensionApplicationSettingsNew)
  end.

(** The message as the reader holds it: with the wire bytes where the type
    keeps them. *)
Definition as_read (x : bytes) (m : handshakeMessage) : handshakeMessage :=
  match m with
  | ClientHello m => ClientHello (clientHelloMsg.set_extensions (written_extensions m)
                                    (clientHelloMsg.set_original (Some x) m))
  | ServerHello m => ServerHello (serverHelloMsg.set_original (Some x) m)
  | CertificateRequestTLS13 m => CertificateRequestTLS13 (certificateRequestMsgTLS13.set_original (Some x) m)
  | CompressedCertificate m =>
      CompressedCertificate (utlsCompressedCertificateMsg.Mk (Some x)
        m.(utlsCompressedCertificateMsg.algorithm) m.(utlsCompressedCertificateMsg.uncompressedLength)
        m.(utlsCompressedCertificateMsg.compressedCertificateMessage))
  | ClientEncryptedExtensions m =>
      ClientEncryptedExtensions (utlsClientEncryptedExtensionsMsg.Mk (Some x)
        m.(utlsClientEncryptedExtensionsMsg.applicationSettings)
        m.(utlsClientEncryptedExtensionsMsg.applicationSettingsCodepoint) [])
  | m => m
  end.

(** The type byte. *)
Lemma get_be1_head v r : 0 <= v < 256 -> get (be 1 v ++ r) 0 = Ret v.
Proof.
  intros Hv. rewrite be1_u8. change ([u8 v] ++ r) with ([] ++ u8 v :: r).
  rewrite get_app by done. by rewrite b2z_u8_small.
Qed.

(** The frame of a message. *)
Definition framed (typ : Z) (x : bytes) : Prop := exists body, x = be 1 typ ++ be 3 (len body) ++ body.

Lemma framed_cb typ f x :
  Bytes ((AddUint8 typ ;> AddUint24LengthPrefixed f) NewBuilder) = inr x ->
  (exists d, Emits f d) -> framed typ x.
Proof.
  intros H [d E]. apply (Bytes_emits _ _ _ (emits_seq _ _ _ _ (emits_AddUint8 typ) (emits_lp24 _ _ E))) in H.
  apply oapp_Some in H as (p & q & [= <-] & Hq & ->). unfold olp in Hq. destruct d as [body|]; [|done].
  case_match; [|done]. injection Hq as <-. by exists body.
Qed.

Ltac cb_type H := eapply framed_cb; [exact H | eexists; typeclasses eauto].
Ltac raw_type H bytes_eq :=
  rewrite bytes_eq in H; apply Ret_inj in H as <-; rewrite <- ?app_assoc.

Lemma ret_res_inv x y : ret_res x = Ret (inr y) -> x = Ret y.
Proof. destruct x; [done|]. cbn. by intros [= ->]. Qed.

Definition type_of (m : handshakeMessage) : Z :=
  match m with
  | HelloRequest => typeHelloRequest
  | ClientHello _ => typeClientHello
  | ServerHello _ => typeServerHello
  | NewSessionTicketTLS13 _ | NewSessionTicket _ => typeNewSessionTicket
  | CertificateTLS13 _ | CertificateMsg _ => typeCertificate
  | CertificateRequestTLS13 _ | CertificateRequest _ => typeCertificateRequest
  | CertificateStatus _ => typeCertificateStatus
  | ServerKeyExchange _ => typeServerKeyExchange
  | ServerHelloDone => typeServerHelloDone
  | ClientKeyExchange _ => typeClientKeyExchange
  | CertificateVerify _ => typeCertificateVerify
  | Finished _ => typeFinished
  | EndOfEarlyData => typeEndOfEarlyData
  | KeyUpdate _ => typeKeyUpdate
  | CompressedCertificate _ => utlsTypeCompressedCertificate
  | EncryptedExtensions _ | ClientEncryptedExtensions _ => utlsTypeEncryptedExtensions
  end.

(** A marshalled message starts with its type and its length. *)
Lemma marshal_framed c m x : wf_message c m -> marshal m = Ret (inr x) -> framed (type_of m) x.
Proof.
  intros Hw H. destruct m as [|m|m|m|m|m|m|m|m|m|m| |m|m|m| |m|m|m|m]; cbn [wf_message type_of marshal] in *;
    first [apply ret_res_inv in H | apply Ret_inj in H];
    try (vm_compute in H; apply Ret_inj in H as <-; by exists []); try cb_type H.
  - destruct Hw as [Hw Ho]. unfold clientHelloMsg.marshal in H. rewrite Ho in H.
    unfold clientHelloMsg.marshalMsg, clientHelloMsg.marshalMsgReorderOuterExts, res_bind in H.
    destruct (Bytes (clientHelloMsg.plain_exts _ _ _ _)); [done|]. cb_type H.
  - unfold serverHelloMsg.marshal, res_bind in H.
    destruct (Bytes (serverHelloMsg.marshal_exts _ _)); [done|]. cb_type H.
  - raw_type H newSessionTicket_bytes. set (t := newSessionTicketMsg.ticket m). exists (be 4 0 ++ be 2 (len t) ++ t).
    rewrite !len_app, !len_be. by replace (Z.of_nat 4 + (Z.of_nat 2 + len t)) with (6 + len t) by lia.
  - raw_type H certificate_bytes. set (t := concat _). exists (be 3 (len t) ++ t). by rewrite len_app, len_be.
  - raw_type H certificateRequest_bytes. by eexists.
  - raw_type H serverKeyExchange_bytes. by eexists.
  - raw_type H clientKeyExchange_bytes. by eexists.
  - destruct Hw as (Hr & _). unfold utlsCompressedCertificateMsg.marshal in H. rewrite Hr in H.
    cbn [fst] in H. cb_type H.
  - destruct Hw as (_ & Hr & _). unfold utlsClientEncryptedExtensionsMsg.marshal in H. rewrite Hr in H.
    cbn [fst] in H. cb_type H.
Qed.

Lemma marshal_type c m x : wf_message c m -> marshal m = Ret (inr x) -> get x 0 = Ret (type_of m).
Proof.
  intros Hw H. destruct (marshal_framed c m x Hw H) as [body ->]. apply get_be1_head. by destruct m.
Qed.

Lemma reads_by c typ p x r : parser_for c typ = Some p -> p x = r ->
  exists p, parser_for c typ = Some p /\ p x = r.
Proof. intros. by exists p. Qed.

(** The parser that the connection chooses for that type reads the message. *)
Lemma parser_reads c m x : wf_message c m -> marshal m = Ret (inr x) ->
  exists p, parser_for c (type_of m) = Some p /\ p x = Ret (Some (as_read x m)).
Proof.
  intros Hw H. destruct m as [|m|m|m|m|m|m|m|m|m|m| |m|m|m| |m|m|m|m]; cbn [wf_message as_read marshal] in *;
    first [apply ret_res_inv in H | apply Ret_inj in H]; (eapply reads_by; [reflexivity|]);
    cbn beta; unfold lift, lift'.
  1, 12, 16: by vm_compute in H; apply Ret_inj in H as <-.
  - destruct Hw as [Hw Ho]. by rewrite (clientHello_rt m x Hw Ho H).
  - by rewrite (serverHello_rt m x Hw H).
  - destruct Hw as (-> & ? & ? & ?). by rewrite (newSessionTicketTLS13_rt m x).
  - destruct Hw as (-> & ?). by rewrite (newSessionTicket_rt m x).
  - destruct Hw as (-> & ? & ? & ?). by rewrite (certificateTLS13_rt m x).
  - destruct Hw as (-> & ? & ?). by rewrite (certificate_rt m x).
  - destruct Hw as (-> & ? & ? & ?). by rewrite (certificateRequestTLS13_rt m x).
  - destruct Hw as (-> & Hh & Ha & Ht & Hc & Hc').
    erewrite (certificateRequest_rt m _ x); [done|done| |done|done|done|done].
    cbn. rewrite Hh. destruct (VersionTLS12 <=? c_vers c); [done|by rewrite Ha].
  - by rewrite (certificateStatus_rt m x).
  - by rewrite (serverKeyExchange_rt m x).
  - by rewrite (clientKeyExchange_rt m x).
  - destruct Hw as [Hh Ha]. rewrite (certificateVerify_rt m _ x); [done|done| |done].
    cbn. rewrite Hh. destruct (VersionTLS12 <=? c_vers c); [done|by rewrite Ha].
  - by rewrite (finished_rt m x).
  - by rewrite (keyUpdate_rt m x).
  - destruct Hw as (Hr & ? & ?). destruct (compressedCertificate_rt m x) as [_ E]; try done. by rewrite E.
  - destruct Hw as (-> & ? & ?). by rewrite (encryptedExtensions_rt m x).
  - destruct Hw as (-> & Hr & ? & ?). by rewrite (clientEncryptedExtensions_rt m x).
Qed.

(** C1: a connection that receives the bytes of any handshake message [m] its
    peer can marshal (any of the twenty message types, with all fields
    representable on the wire) dispatches on the type byte, parses the message
    back unchanged, sends no alert, and adds exactly these bytes to the
    transcript when one is kept. *)
Theorem messages_round_trip c m x t :
  wf_message c m -> marshal m = Ret (inr x) ->
  unmarshalHandshakeMessage c x t = Ret (MkHandled [] (if t then x else []) (Some (as_read x m))).
Proof.
  intros Hw H. destruct (parser_reads c m x Hw H) as (p & Hp & Hx).
  unfold unmarshalHandshakeMessage. rewrite (marshal_type c m x Hw H). cbn [obind]. by rewrite Hp, Hx.
Qed.
End Dispatch.

(** * The transcript *)

Section Transcript.
Context `{C : Cryptobyte} {Cok : CryptobyteOk C}.

Ltac keeps_original :=
  repeat (match goal with
  | H : (if ?c then _ else _) = Some _ |- _ => destruct c
  | H : match ?x with _ => _ end = Some _ |- _ => destruct x
  | H : Some _ = Some _ |- _ => injection H as <-
  | _ => progress simplify_eq
  end; try reflexivity).

Lemma clientHello_ext_original m e d r m' :
  clientHelloMsg.unmarshal_logged m e d r = Some m' -> m'.(clientHelloMsg.original) = m.(clientHelloMsg.original).
Proof.
  unfold clientHelloMsg.unmarshal_logged, clientHelloMsg.unmarshal_ext, clientHelloMsg.unmarshal_psk.
  intros H. keeps_original.
Qed.

Lemma serverHello_ext_original m e d r m' :
  serverHelloMsg.unmarshal_ext m e d r = Some m' -> m'.(serverHelloMsg.original) = m.(serverHelloMsg.original).
Proof. unfold serverHelloMsg.unmarshal_ext. intros H. keeps_original. Qed.

Lemma certificateRequest_ext_original m e d r m' :
  certificateRequestMsgTLS13.unmarshal_ext m e d r = Some m' ->
  m'.(certificateRequestMsgTLS13.original) = m.(certificateRequestMsgTLS13.original).
Proof. unfold certificateRequestMsgTLS13.unmarshal_ext. intros H. keeps_original. Qed.

Lemma clientHello_original data m :
  clientHelloMsg.unmarshal data = Some m -> m.(clientHelloMsg.original) = Some data.
Proof.
  unfold clientHelloMsg.unmarshal. intros H.
  repeat match type of H with match ?x with _ => _ end = Some _ => destruct x as [[? ?]|]; [|done]
    | match ?x with _ => _ end = Some _ => destruct x; [|done] end.
  apply optional_exts_inv in H as (lx & _ & _ & _ & Hr).
  by apply (run_exts_inv clientHelloMsg.original _ _ _ _ _ clientHello_ext_original) in Hr.
Qed.

Lemma serverHello_original data m :
  serverHelloMsg.unmarshal data = Some m -> m.(serverHelloMsg.original) = Some data.
Proof.
  unfold serverHelloMsg.unmarshal. intros H.
  repeat match type of H with match ?x with _ => _ end = Some _ => destruct x as [[? ?]|]; [|done]
    | match ?x with _ => _ end = Some _ => destruct x; [|done] end.
  apply optional_exts_inv in H as (lx & _ & _ & _ & Hr).
  by apply (run_exts_inv serverHelloMsg.original _ _ _ _ _ serverHello_ext_original) in Hr.
Qed.

Lemma certificateRequest_original data m :
  certificateRequestMsgTLS13.unmarshal data = Some m ->
  m.(certificateRequestMsgTLS13.original) = Some data.
Proof.
  unfold certificateRequestMsgTLS13.unmarshal. intros H.
  repeat match type of H with match ?x with _ => _ end = Some _ => destruct x as [[? ?]|]; [|done]
    | match ?x with _ => _ end = Some _ => destruct x; [|done]
    | (if ?x then _ else _) = Some _ => destruct x; [|done] end.
  apply ext_loop_inv in H as (lx & _ & _ & Hr).
  by apply (run_exts_inv certificateRequestMsgTLS13.original _ _ _ _ _ certificateRequest_ext_original) in Hr.
Qed.

(** Only the matching [unmarshal] produces a message of these types. *)
Definition parsed_from (data : bytes) (m : handshakeMessage) : Prop :=
  match m with
  | ClientHello m => clientHelloMsg.unmarshal data = Some m
  | ServerHello m => serverHelloMsg.unmarshal data = Some m
  | CertificateRequestTLS13 m => certificateRequestMsgTLS13.unmarshal data = Some m
  | _ => True
  end.

Lemma lift_parsed {A} (f : A -> handshakeMessage) x data m :
  (forall a, x = Some a -> parsed_from data (f a)) -> lift f x = Ret (Some m) -> parsed_from data m.
Proof. intros H. unfold lift. destruct x as [a|]; [|done]. intros [= <-]. by apply H. Qed.

Lemma lift'_parsed {A} (f : A -> handshakeMessage) x data m :
  (forall a, parsed_from data (f a)) -> lift' f x = Ret (Some m) -> parsed_from data m.
Proof. intros H. unfold lift'. destruct x as [|[a|]]; [done| |done]. intros [= <-]. by apply H. Qed.

Lemma when_parsed b m' data m :
  parsed_from data m' -> when b m' = Ret (Some m) -> parsed_from data m.
Proof. intros H. unfold when. destruct b; [|done]. by intros [= <-]. Qed.

Lemma parser_for_parsed c typ p data m :
  parser_for c typ = Some p -> p data = Ret (Some m) -> parsed_from data m.
Proof.
  unfold parser_for, utlsHandshakeMessageType. intros Hp.
  repeat (match type of Hp with (if ?x then _ else _) = Some _ => destruct x end;
    [injection Hp as <-; cbn beta; repeat match goal with |- context [if ?x then _ else _] => destruct x end;
     (apply lift_parsed + apply lift'_parsed + apply when_parsed); cbn; auto; fail|]).
  done.
Qed.

(** For the messages that cannot be re-marshalled faithfully (the two
    hellos and the TLS 1.3 certificate request), the transcript of a message
    that was received is fed the bytes that were received, also when the peer
    ordered its extensions differently or sent unknown ones. *)
Theorem transcript_is_wire_bytes c data t h m :
  unmarshalHandshakeMessage c data t = Ret h -> message h = Some m ->
  match m with
  | ClientHello _ | ServerHello _ | CertificateRequestTLS13 _ => transcriptMsg m = Ret (inr data)
  | _ => True
  end.
Proof.
  unfold unmarshalHandshakeMessage. destruct (get data 0) as [|typ]; [done|]. cbn [obind].
  destruct (parser_for c typ) as [p|] eqn:Ep; [|by intros <-%Ret_inj].
  destruct (p data) as [|[m'|]] eqn:Er; [done| |by intros <-%Ret_inj]. cbn [obind].
  intros <-%Ret_inj [= ->]. pose proof (parser_for_parsed _ _ _ _ _ Ep Er) as H.
  destruct m; try exact I; unfold transcriptMsg, originalBytes; cbn in H.
  - unfold clientHelloMsg.originalBytes. by rewrite (clientHello_original data m H).
  - unfold serverHelloMsg.originalBytes. by rewrite (serverHello_original data m H).
  - unfold certificateRequestMsgTLS13.originalBytes. by rewrite (certificateRequest_original data m H).
Qed.
End Transcript.

(** A TLS 1.3 client that reads a certificate request. *)
Definition example_request : handshakeMessage :=
  CertificateRequestTLS13 (certificateRequestMsgTLS13.Mk None true false [0x0403; 0x0804] [] [be 3 7]).

Definition bytes_of (m : handshakeMessage) : bytes :=
  match @marshal Reference.ops m with Ret (inr x) => x | _ => [] end.

Lemma messages_round_trip_witness :
  @unmarshalHandshakeMessage Reference.ops (MkConn VersionTLS13 true) (bytes_of example_request) true =
    Ret (MkHandled [] (bytes_of example_request)
           (Some (as_read (bytes_of example_request) example_request))) /\
  @unmarshalHandshakeMessage Reference.ops (MkConn 0 false) (bytes_of (ClientHello example_hello)) false =
    Ret (MkHandled [] []
           (Some (as_read (bytes_of (ClientHello example_hello)) (ClientHello example_hello)))).
Proof.
  split.
  - apply (@messages_round_trip Reference.ops Reference.ok (MkConn VersionTLS13 true) example_request _ true).
    + cbn. split_and!; [done|repeat constructor; done..].
    + vm_compute. reflexivity.
  - apply (@messages_round_trip Reference.ops Reference.ok (MkConn 0 false) (ClientHello example_hello) _ false).
    + cbn. split; [|done]. split; cbn; try done; try (repeat constructor; done).
    + vm_compute. reflexivity.
Defined.

Lemma transcript_is_wire_bytes_witness :
  @transcriptMsg Reference.ops (as_read (bytes_of (ClientHello example_hello)) (ClientHello example_hello)) =
    Ret (inr (bytes_of (ClientHello example_hello))).
Proof.
  apply (@transcript_is_wire_bytes Reference.ops Reference.ok (MkConn 0 false)
    (bytes_of (ClientHello example_hello)) false
    (MkHandled [] [] (Some (as_read (bytes_of (ClientHello example_hello)) (ClientHello example_hello))))
    (as_read (bytes_of (ClientHello example_hello)) (ClientHello example_hello))).
  - vm_compute. reflexivity.
  - reflexivity.
Defined.
