(* ===== verification/Conn.v ===== *)
(** * Connections

    Models the record layer of [Conn] (conn.go) over a byte stream: records are
    read from and written to the underlying connection, alerts sent, data cut
    into records, and handshake messages put together from records; with
    [Handshake], [Read], [Write], [Close] and what happens to messages after the
    handshake.

    The underlying connection is the list of results its [Read] will give, and
    the list of results of its [Write]; the bytes it accepted are recorded.  Once
    the first list is used up, [Read] reports the end of the stream.  Locks are
    not modelled: the calls run one after the other.  The connection does not use
    QUIC.  The handshake itself and [handleNewSessionTicket] are arguments. *)

From S2P Require Import Prelude Cryptobyte Common Config Negotiation Codec Buffer KeySchedule Record Messages RawMessages ServerHello ClientHello Handshake.

(** ** The underlying connection *)

Module net.
Record t := Mk {
  reads : list (bytes * option connError);
  writes : list (option (nat * connError));
  sent : bytes;
  expired : bool;
  closeErr : option connError;
  closed : bool
}.

Definition Read (c : t) : t * (bytes * option connError) :=
  match c.(reads) with
  | [] => (c, ([], Some (Plain EOF)))
  | r :: rs => (Mk rs c.(writes) c.(sent) c.(expired) c.(closeErr) c.(closed), r)
  end.

(** [os.ErrDeadlineExceeded] *)
Definition ErrDeadlineExceeded : connError := netError "i/o timeout" true true.

Definition Write (data : bytes) (c : t) : t * (Z * option connError) :=
  if c.(expired) then (c, (0, Some ErrDeadlineExceeded)) else
  let all := len data in
  match c.(writes) with
  | [] => (Mk c.(reads) [] (c.(sent) ++ data) false c.(closeErr) c.(closed), (all, None))
  | None :: ws => (Mk c.(reads) ws (c.(sent) ++ data) false c.(closeErr) c.(closed), (all, None))
  | Some (n, e) :: ws =>
      let part := take n data in
      (Mk c.(reads) ws (c.(sent) ++ part) false c.(closeErr) c.(closed), (len part, Some e))
  end.

(** [SetWriteDeadline] with a time that has come or not. *)
Definition SetWriteDeadline (past : bool) (c : t) : t :=
  Mk c.(reads) c.(writes) c.(sent) past c.(closeErr) c.(closed).
Definition Close (c : t) : t * option connError :=
  (Mk c.(reads) c.(writes) c.(sent) c.(expired) c.(closeErr) true, c.(closeErr)).
End net.

(** ** The state *)

(** The fields of [Conn] that only the handshake uses are left out; [rand] is the
    state of [config.rand()]. *)
Module Conn.
Record t `{Cs : Ciphers} {reader : Type} := Mk {
  conn : net.t;
  rand : reader;
  isClient : bool;
  isHandshakeComplete : bool;
  handshakeErr : option connError;
  vers : Z;
  haveVers : bool;
  config : Config.t;
  handshakes : Z;
  cipherSuite : Z;
  closeNotifyErr : option connError;
  closeNotifySent : bool;
  in_ : halfConn.t;
  out : halfConn.t;
  rawInput : bytes;
  input : bytes;
  hand : bytes;
  buffering : bool;
  sendBuf : bytes;
  bytesSent : Z;
  packetsSent : Z;
  retryCount : Z;
  activeCall : Z
}.
#[global] Arguments t {Cs} reader.
Section Set_.
Context {Cs : Ciphers} {reader : Type}.
Abbreviation t := (Conn.t reader).
Definition set_conn (v : net.t) (c : t) : t :=
  Mk Cs reader v c.(rand) c.(isClient) c.(isHandshakeComplete) c.(handshakeErr) c.(vers) c.(haveVers) c.(config)
    c.(handshakes) c.(cipherSuite) c.(closeNotifyErr) c.(closeNotifySent) c.(in_) c.(out)
    c.(rawInput) c.(input) c.(hand) c.(buffering) c.(sendBuf) c.(bytesSent) c.(packetsSent)
    c.(retryCount) c.(activeCall).
Definition set_rand (v : reader) (c : t) : t :=
  Mk Cs reader c.(conn) v c.(isClient) c.(isHandshakeComplete) c.(handshakeErr) c.(vers) c.(haveVers) c.(config)
    c.(handshakes) c.(cipherSuite) c.(closeNotifyErr) c.(closeNotifySent) c.(in_) c.(out)
    c.(rawInput) c.(input) c.(hand) c.(buffering) c.(sendBuf) c.(bytesSent) c.(packetsSent)
    c.(retryCount) c.(activeCall).
Definition set_isHandshakeComplete (v : bool) (c : t) : t :=
  Mk Cs reader c.(conn) c.(rand) c.(isClient) v c.(handshakeErr) c.(vers) c.(haveVers) c.(config) c.(handshakes)
    c.(cipherSuite) c.(closeNotifyErr) c.(closeNotifySent) c.(in_) c.(out) c.(rawInput) c.(input)
    c.(hand) c.(buffering) c.(sendBuf) c.(bytesSent) c.(packetsSent) c.(retryCount) c.(activeCall).
Definition set_handshakeErr (v : option connError) (c : t) : t :=
  Mk Cs reader c.(conn) c.(rand) c.(isClient) c.(isHandshakeComplete) v c.(vers) c.(haveVers) c.(config)
    c.(handshakes) c.(cipherSuite) c.(closeNotifyErr) c.(closeNotifySent) c.(in_) c.(out)
    c.(rawInput) c.(input) c.(hand) c.(buffering) c.(sendBuf) c.(bytesSent) c.(packetsSent)
    c.(retryCount) c.(activeCall).
Definition set_vers (v : Z) (c : t) : t :=
  Mk Cs reader c.(conn) c.(rand) c.(isClient) c.(isHandshakeComplete) c.(handshakeErr) v c.(haveVers) c.(config)
    c.(handshakes) c.(cipherSuite) c.(closeNotifyErr) c.(closeNotifySent) c.(in_) c.(out)
    c.(rawInput) c.(input) c.(hand) c.(buffering) c.(sendBuf) c.(bytesSent) c.(packetsSent)
    c.(retryCount) c.(activeCall).
Definition set_haveVers (v : bool) (c : t) : t :=
  Mk Cs reader c.(conn) c.(rand) c.(isClient) c.(isHandshakeComplete) c.(handshakeErr) c.(vers) v c.(config)
    c.(handshakes) c.(cipherSuite) c.(closeNotifyErr) c.(closeNotifySent) c.(in_) c.(out)
    c.(rawInput) c.(input) c.(hand) c.(buffering) c.(sendBuf) c.(bytesSent) c.(packetsSent)
    c.(retryCount) c.(activeCall).
Definition set_config (v : Config.t) (c : t) : t :=
  Mk Cs reader c.(conn) c.(rand) c.(isClient) c.(isHandshakeComplete) c.(handshakeErr) c.(vers) c.(haveVers)
    v c.(handshakes) c.(cipherSuite) c.(closeNotifyErr) c.(closeNotifySent) c.(in_) c.(out) c.(rawInput)
    c.(input) c.(hand) c.(buffering) c.(sendBuf) c.(bytesSent) c.(packetsSent) c.(retryCount)
    c.(activeCall).
Definition set_handshakes (v : Z) (c : t) : t :=
  Mk Cs reader c.(conn) c.(rand) c.(isClient) c.(isHandshakeComplete) c.(handshakeErr) c.(vers) c.(haveVers)
    c.(config) v c.(cipherSuite) c.(closeNotifyErr) c.(closeNotifySent) c.(in_) c.(out) c.(rawInput)
    c.(input) c.(hand) c.(buffering) c.(sendBuf) c.(bytesSent) c.(packetsSent) c.(retryCount)
    c.(activeCall).
Definition set_cipherSuite (v : Z) (c : t) : t :=
  Mk Cs reader c.(conn) c.(rand) c.(isClient) c.(isHandshakeComplete) c.(handshakeErr) c.(vers) c.(haveVers)
    c.(config) c.(handshakes) v c.(closeNotifyErr) c.(closeNotifySent) c.(in_) c.(out) c.(rawInput)
    c.(input) c.(hand) c.(buffering) c.(sendBuf) c.(bytesSent) c.(packetsSent) c.(retryCount)
    c.(activeCall).
Definition set_closeNotifyErr (v : option connError) (c : t) : t :=
  Mk Cs reader c.(conn) c.(rand) c.(isClient) c.(isHandshakeComplete) c.(handshakeErr) c.(vers) c.(haveVers)
    c.(config) c.(handshakes) c.(cipherSuite) v c.(closeNotifySent) c.(in_) c.(out) c.(rawInput)
    c.(input) c.(hand) c.(buffering) c.(sendBuf) c.(bytesSent) c.(packetsSent) c.(retryCount)
    c.(activeCall).
Definition set_closeNotifySent (v : bool) (c : t) : t :=
  Mk Cs reader c.(conn) c.(rand) c.(isClient) c.(isHandshakeComplete) c.(handshakeErr) c.(vers) c.(haveVers)
    c.(config) c.(handshakes) c.(cipherSuite) c.(closeNotifyErr) v c.(in_) c.(out) c.(rawInput)
    c.(input) c.(hand) c.(buffering) c.(sendBuf) c.(bytesSent) c.(packetsSent) c.(retryCount)
    c.(activeCall).
Definition set_in_ (v : halfConn.t) (c : t) : t :=
  Mk Cs reader c.(conn) c.(rand) c.(isClient) c.(isHandshakeComplete) c.(handshakeErr) c.(vers) c.(haveVers)
    c.(config) c.(handshakes) c.(cipherSuite) c.(closeNotifyErr) c.(closeNotifySent) v c.(out)
    c.(rawInput) c.(input) c.(hand) c.(buffering) c.(sendBuf) c.(bytesSent) c.(packetsSent)
    c.(retryCount) c.(activeCall).
Definition set_out (v : halfConn.t) (c : t) : t :=
  Mk Cs reader c.(conn) c.(rand) c.(isClient) c.(isHandshakeComplete) c.(handshakeErr) c.(vers) c.(haveVers)
    c.(config) c.(handshakes) c.(cipherSuite) c.(closeNotifyErr) c.(closeNotifySent) c.(in_) v
    c.(rawInput) c.(input) c.(hand) c.(buffering) c.(sendBuf) c.(bytesSent) c.(packetsSent)
    c.(retryCount) c.(activeCall).
Definition set_rawInput (v : bytes) (c : t) : t :=
  Mk Cs reader c.(conn) c.(rand) c.(isClient) c.(isHandshakeComplete) c.(handshakeErr) c.(vers) c.(haveVers)
    c.(config) c.(handshakes) c.(cipherSuite) c.(closeNotifyErr) c.(closeNotifySent) c.(in_) c.(out)
    v c.(input) c.(hand) c.(buffering) c.(sendBuf) c.(bytesSent) c.(packetsSent) c.(retryCount)
    c.(activeCall).
Definition set_input (v : bytes) (c : t) : t :=
  Mk Cs reader c.(conn) c.(rand) c.(isClient) c.(isHandshakeComplete) c.(handshakeErr) c.(vers) c.(haveVers)
    c.(config) c.(handshakes) c.(cipherSuite) c.(closeNotifyErr) c.(closeNotifySent) c.(in_) c.(out)
    c.(rawInput) v c.(hand) c.(buffering) c.(sendBuf) c.(bytesSent) c.(packetsSent) c.(retryCount)
    c.(activeCall).
Definition set_hand (v : bytes) (c : t) : t :=
  Mk Cs reader c.(conn) c.(rand) c.(isClient) c.(isHandshakeComplete) c.(handshakeErr) c.(vers) c.(haveVers)
    c.(config) c.(handshakes) c.(cipherSuite) c.(closeNotifyErr) c.(closeNotifySent) c.(in_) c.(out)
    c.(rawInput) c.(input) v c.(buffering) c.(sendBuf) c.(bytesSent) c.(packetsSent) c.(retryCount)
    c.(activeCall).
Definition set_buffering (v : bool) (c : t) : t :=
  Mk Cs reader c.(conn) c.(rand) c.(isClient) c.(isHandshakeComplete) c.(handshakeErr) c.(vers) c.(haveVers)
    c.(config) c.(handshakes) c.(cipherSuite) c.(closeNotifyErr) c.(closeNotifySent) c.(in_) c.(out)
    c.(rawInput) c.(input) c.(hand) v c.(sendBuf) c.(bytesSent) c.(packetsSent) c.(retryCount)
    c.(activeCall).
Definition set_sendBuf (v : bytes) (c : t) : t :=
  Mk Cs reader c.(conn) c.(rand) c.(isClient) c.(isHandshakeComplete) c.(handshakeErr) c.(vers) c.(haveVers)
    c.(config) c.(handshakes) c.(cipherSuite) c.(closeNotifyErr) c.(closeNotifySent) c.(in_) c.(out)
    c.(rawInput) c.(input) c.(hand) c.(buffering) v c.(bytesSent) c.(packetsSent) c.(retryCount)
    c.(activeCall).
Definition set_bytesSent (v : Z) (c : t) : t :=
  Mk Cs reader c.(conn) c.(rand) c.(isClient) c.(isHandshakeComplete) c.(handshakeErr) c.(vers) c.(haveVers)
    c.(config) c.(handshakes) c.(cipherSuite) c.(closeNotifyErr) c.(closeNotifySent) c.(in_) c.(out)
    c.(rawInput) c.(input) c.(hand) c.(buffering) c.(sendBuf) v c.(packetsSent) c.(retryCount)
    c.(activeCall).
Definition set_packetsSent (v : Z) (c : t) : t :=
  Mk Cs reader c.(conn) c.(rand) c.(isClient) c.(isHandshakeComplete) c.(handshakeErr) c.(vers) c.(haveVers)
    c.(config) c.(handshakes) c.(cipherSuite) c.(closeNotifyErr) c.(closeNotifySent) c.(in_) c.(out)
    c.(rawInput) c.(input) c.(hand) c.(buffering) c.(sendBuf) c.(bytesSent) v c.(retryCount)
    c.(activeCall).
Definition set_retryCount (v : Z) (c : t) : t :=
  Mk Cs reader c.(conn) c.(rand) c.(isClient) c.(isHandshakeComplete) c.(handshakeErr) c.(vers) c.(haveVers)
    c.(config) c.(handshakes) c.(cipherSuite) c.(closeNotifyErr) c.(closeNotifySent) c.(in_) c.(out)
    c.(rawInput) c.(input) c.(hand) c.(buffering) c.(sendBuf) c.(bytesSent) c.(packetsSent) v
    c.(activeCall).
Definition set_activeCall (v : Z) (c : t) : t :=
  Mk Cs reader c.(conn) c.(rand) c.(isClient) c.(isHandshakeComplete) c.(handshakeErr) c.(vers) c.(haveVers)
    c.(config) c.(handshakes) c.(cipherSuite) c.(closeNotifyErr) c.(closeNotifySent) c.(in_) c.(out)
    c.(rawInput) c.(input) c.(hand) c.(buffering) c.(sendBuf) c.(bytesSent) c.(packetsSent)
    c.(retryCount) v.
End Set_.
End Conn.

Section Ops.
Context `{C : Cryptobyte} {Cs : Ciphers} {K : Crypto}.
Context {reader : Type} (ReadFull : Z -> reader -> reader * res bytes).
Import Conn.
Abbreviation conn_t := (Conn.t reader).

(** ** Stateful code *)

Definition M (A : Type) : Type := conn_t -> outcome (conn_t * A).
Definition ret {A} (a : A) : M A := fun c => Ret (c, a).
Definition bind {A B} (m : M A) (k : A -> M B) : M B := fun c => run (c, a) := m c in k a c.
Definition modify (f : conn_t -> conn_t) : M unit := fun c => Ret (f c, tt).
Definition field {A} (f : conn_t -> A) : M A := fun c => Ret (c, f c).
Definition lift {A} (o : outcome A) : M A := fun c => run a := o in Ret (c, a).
Definition panic {A} : M A := fun _ => Panic.
(** An operation of a part of the state. *)
Definition on {S A} (get : conn_t -> S) (set : S -> conn_t -> conn_t) (f : S -> S * A) : M A :=
  fun c => let (s, a) := f (get c) in Ret (set s c, a).

#[local] Instance M_ret : MRet M := @ret.
#[local] Instance M_bind : MBind M := fun A B k m => bind m k.

Definition error : Type := option connError.
Definition new_error (msg : string) : error := Some (Plain (ErrorNew msg)).

Definition in_setErrorLocked (e : error) : M error := on in_ set_in_ (setErrorLocked e).
Definition out_setErrorLocked (e : error) : M error := on out set_out (setErrorLocked e).

(** ** Writing *)

Definition tcpMSSEstimate : Z := 1208.
Definition recordSizeBoostThreshold : Z := 128 * 1024.

(** What a record adds to its payload, taken from the room for it. *)
Definition payload_room (hc : halfConn.t) (payloadBytes : Z) : outcome Z :=
  match hc.(halfConn.cipher) with
  | None => Ret payloadBytes
  | Some (Stream _) =>
      match hc.(halfConn.mac) with Some m => Ret (payloadBytes - mac_Size m) | None => Panic end
  | Some (Aead f) => Ret (payloadBytes - Overhead f)
  | Some (CbcMode b) =>
      match hc.(halfConn.mac) with
      | Some m => Ret (Z.land payloadBytes (Z.lnot (BlockSize b - 1)) - 1 - mac_Size m)
      | None => Panic
      end
  end.

Definition maxPayloadSizeForWrite (typ : Z) : M Z := fun c =>
  if c.(config).(Config.DynamicRecordSizingDisabled) || negb (typ =? recordTypeApplicationData) then Ret (c, maxPlaintext) else
  if recordSizeBoostThreshold <=? c.(bytesSent) then Ret (c, maxPlaintext) else
  run payloadBytes := payload_room c.(out) (tcpMSSEstimate - recordHeaderLen - explicitNonceLen c.(out)) in
  let payloadBytes := if c.(vers) =? VersionTLS13 then payloadBytes - 1 else payloadBytes in
  let pkt := c.(packetsSent) in
  let c := set_packetsSent (pkt + 1) c in
  if 1000 <? pkt then Ret (c, maxPlaintext) else
  let n := payloadBytes * (pkt + 1) in
  Ret (c, if maxPlaintext <? n then maxPlaintext else n).

(** [c.conn.Write], counting. *)
Definition conn_Write (data : bytes) : M (Z * error) :=
  r ← on conn set_conn (net.Write data);
  modify (fun c => set_bytesSent (c.(bytesSent) + r.1) c) ;;
  ret r.

Definition write (data : bytes) : M (Z * error) :=
  b ← field buffering;
  if b : bool then
    modify (fun c => set_sendBuf (c.(sendBuf) ++ data) c) ;;
    ret (len data, None)
  else conn_Write data.

Definition flush : M (Z * error) :=
  buf ← field sendBuf;
  if len buf =? 0 then ret (0, None) else
  r ← conn_Write buf;
  modify (set_sendBuf []) ;;
  modify (set_buffering false) ;;
  ret r.

(** The version in a record header. *)
Definition record_version (vers : Z) : Z :=
  if vers =? 0 then VersionTLS10 else if vers =? VersionTLS13 then VersionTLS12 else vers.

Definition out_encrypt (record payload : bytes) : M (res bytes) := fun c =>
  run (hc, rand, r) := encrypt ReadFull record payload c.(rand) c.(out) in
  Ret (set_rand rand (set_out hc c), r).

(** The loop over [data]; the bytes written so far are [n].  Without fuel it does
    not end. *)
Fixpoint write_loop (fuel : nat) (typ : Z) (data : bytes) (n : Z) : M (Z * error) :=
  if len data <=? 0 then ret (n, None) else
  match fuel with
  | O => panic
  | S fuel =>
      maxPayload ← maxPayloadSizeForWrite typ;
      let m := if maxPayload <? len data then maxPayload else len data in
      vers ← field vers;
      payload ← lift (upto data m);
      r ← out_encrypt (record_header typ (record_version vers) m) payload;
      match r with
      | inl e => ret (n, Some (Plain e))
      | inr record =>
          w ← write record;
          match w.2 with
          | Some e => ret (n, Some e)
          | None => data ← lift (from data m); write_loop fuel typ data (n + m)
          end
      end
  end.
Definition write_records (typ : Z) (data : bytes) : M (Z * error) := write_loop (length data) typ data 0.

Definition is_warning (alert : Z) : bool := (alert =? alertNoRenegotiation) || (alert =? alertCloseNotify).

(** Sent in a record of its own, which is not a ChangeCipherSpec. *)
Definition sendAlertLocked (alert : Z) : M error :=
  let level := if is_warning alert then alertLevelWarning else alertLevelError in
  w ← write_records recordTypeAlert [u8 level; u8 alert];
  if alert =? alertCloseNotify then ret w.2
  else out_setErrorLocked (Some (OpError "local error" (Alert alert))).
Definition sendAlert (alert : Z) : M error := sendAlertLocked alert.

Definition writeRecordLocked (typ : Z) (data : bytes) : M (Z * error) :=
  w ← write_records typ data;
  match w.2 with
  | Some e => ret w
  | None =>
      vers ← field vers;
      if (typ =? recordTypeChangeCipherSpec) && negb (vers =? VersionTLS13) then
        e ← on out set_out changeCipherSpec;
        match e with
        | Some alert => err ← sendAlertLocked alert; ret (w.1, err)
        | None => ret w
        end
      else ret w
  end.

(** The bytes written to the transcript. *)
Definition writeHandshakeRecord (msg : handshakeMessage) (transcript : bool) : M (bytes * (Z * error)) :=
  data ← lift (marshal msg);
  match data with
  | inl e => ret ([], (0, Some (Plain e)))
  | inr data => w ← writeRecordLocked recordTypeHandshake data; ret (if transcript then data else [], w)
  end.

Definition writeChangeCipherRecord : M error :=
  w ← writeRecordLocked recordTypeChangeCipherSpec [x01]; ret w.2.

(** ** Reading records *)

(** [atLeastReader] *)
Definition atLeastReader_Read (r : net.t * Z) : (net.t * Z) * (bytes * error) :=
  let '(R, N) := r in
  if N <=? 0 then (r, ([], Some (Plain EOF))) else
  let (R, res) := net.Read R in
  let (p, err) := res in
  let N := N - len p in
  let err :=
    if (0 <? N) && bool_decide (err = Some (Plain EOF)) then Some (Plain ErrUnexpectedEOF)
    else if (N <=? 0) && bool_decide (err = None) then Some (Plain EOF)
    else err in
  ((R, N), (p, err)).

(** [bytes.Buffer.ReadFrom], which ends without error at the end of the stream. *)
Fixpoint ReadFrom (fuel : nat) (r : net.t * Z) (buf : bytes) : outcome (net.t * bytes * error) :=
  match fuel with
  | O => Panic
  | S fuel =>
      let '(r, (p, err)) := atLeastReader_Read r in
      let buf := buf ++ p in
      match err with
      | None => ReadFrom fuel r buf
      | Some e => Ret (r.1, buf, if bool_decide (e = Plain EOF) then None else Some e)
      end
  end.

(** Every [Read] uses up one of the results there are, or is the last. *)
Definition readFromUntil (n : Z) : M error := fun c =>
  if n <=? len c.(rawInput) then Ret (c, None) else
  let needs := n - len c.(rawInput) in
  run (R, buf, err) := ReadFrom (S (length c.(conn).(net.reads))) (c.(conn), needs) c.(rawInput) in
  Ret (set_rawInput buf (set_conn R c), err).

Definition in_decrypt (record : bytes) : M (Z + (bytes * Z)) := fun c =>
  run (hc, r) := decrypt record c.(in_) in Ret (set_in_ hc c, r).

(** The first five bytes, or fewer and zeros. *)
Definition newRecordHeaderError (withConn : bool) (msg : gerror) (c : conn_t) : connError :=
  RecordHeaderError msg (take 5 (c.(rawInput) ++ replicate 5 x00)) withConn.

(** A read error ends the connection unless it is temporary. *)
Definition read_failed (e : connError) : M error :=
  (if negb (is_net_error e && Temporary e) then in_setErrorLocked (Some e) ;; ret tt else ret tt) ;;
  ret (Some e).

(** [return c.in.setErrorLocked(c.sendAlert(alert))] *)
Definition alert_and_fail (alert : Z) : M error := e ← sendAlert alert; in_setErrorLocked e.
(** An alert is sent and the header reported. *)
Definition header_error (withConn : bool) (alert : option Z) (msg : gerror) : M error :=
  (match alert with Some a => sendAlert a ;; ret tt | None => ret tt end) ;;
  c ← field (fun c => c);
  in_setErrorLocked (Some (newRecordHeaderError withConn msg c)).

(** What the handling of a record leads to. *)
Inductive step := Done (err : error) | Retry.
Definition done (m : M error) : M step := e ← m; ret (Done e).

(** All records of TLS 1.3 have the version of TLS 1.2. *)
Definition expected_version (vers : Z) : Z := if vers =? VersionTLS13 then VersionTLS12 else vers.

(** The checks of the header; [None]: the record is read on. *)
Definition check_header (c : conn_t) (handshakeComplete : bool) (typ vers n : Z) : option (M error) :=
  let expectedVers := expected_version c.(Conn.vers) in
  if negb handshakeComplete && (typ =? 128) then
    Some (header_error false (Some alertProtocolVersion) (ErrorNew "unsupported SSLv2 handshake received"))
  else if c.(haveVers) && negb (vers =? expectedVers) then
    Some (header_error false (Some alertProtocolVersion)
      (Errorf "received record with version %x when expecting version %x" [vers; expectedVers]))
  else if negb c.(haveVers) &&
      ((negb (typ =? recordTypeAlert) && negb (typ =? recordTypeHandshake)) || (4096 <=? vers)) then
    Some (header_error true None (ErrorNew "first record does not look like a TLS handshake"))
  else if (c.(Conn.vers) =? VersionTLS13) && (maxCiphertextTLS13 <? n) || (maxCiphertext <? n) then
    Some (header_error false (Some alertRecordOverflow) (Errorf "oversized record received with length %d" [n]))
  else None.

(** The switch on the type of a decrypted record. *)
Definition process_record (expectChangeCipherSpec handshakeComplete : bool) (typ : Z) (data : bytes) : M step :=
  c ← field (fun c => c);
  if typ =? recordTypeAlert then
    match data with
    | [level; description] =>
        if b2z description =? alertCloseNotify then done (in_setErrorLocked (Some (Plain EOF)))
        else if c.(vers) =? VersionTLS13 then
          done (in_setErrorLocked (Some (OpError "remote error" (Alert (b2z description)))))
        else if b2z level =? alertLevelWarning then ret Retry
        else if b2z level =? alertLevelError then
          done (in_setErrorLocked (Some (OpError "remote error" (Alert (b2z description)))))
        else done (alert_and_fail alertUnexpectedMessage)
    | _ => done (alert_and_fail alertUnexpectedMessage)
    end
  else if typ =? recordTypeChangeCipherSpec then
    if negb (bool_decide (data = [x01])) then done (alert_and_fail alertDecodeError) else
    if 0 <? len c.(hand) then done (alert_and_fail alertUnexpectedMessage) else
    if (c.(vers) =? VersionTLS13) && negb handshakeComplete then ret Retry else
    if negb expectChangeCipherSpec then done (alert_and_fail alertUnexpectedMessage) else
    e ← on in_ set_in_ changeCipherSpec;
    match e with
    | Some alert => done (alert_and_fail alert)
    | None => ret (Done None)
    end
  else if typ =? recordTypeApplicationData then
    if negb handshakeComplete || expectChangeCipherSpec then done (alert_and_fail alertUnexpectedMessage) else
    if len data =? 0 then ret Retry else
    modify (set_input data) ;; ret (Done None)
  else if typ =? recordTypeHandshake then
    if (len data =? 0) || expectChangeCipherSpec then done (alert_and_fail alertUnexpectedMessage) else
    modify (fun c => set_hand (c.(hand) ++ data) c) ;; ret (Done None)
  else done (alert_and_fail alertUnexpectedMessage).

(** A record that has been decrypted. *)
Definition handle_data (expectChangeCipherSpec handshakeComplete : bool) (typ : Z) (data : bytes) : M step :=
  if maxPlaintext <? len data then done (alert_and_fail alertRecordOverflow) else
  c ← field (fun c => c);
  if negb (non_nil c.(in_).(halfConn.cipher)) && (typ =? recordTypeApplicationData) then
    done (alert_and_fail alertUnexpectedMessage) else
  (if negb (typ =? recordTypeAlert) && negb (typ =? recordTypeChangeCipherSpec) && (0 <? len data) then
     modify (set_retryCount 0) else ret tt) ;;
  if (c.(vers) =? VersionTLS13) && negb (typ =? recordTypeHandshake) && (0 <? len c.(hand)) then
    done (alert_and_fail alertUnexpectedMessage) else
  process_record expectChangeCipherSpec handshakeComplete typ data.

(** A record that has been read in full. *)
Definition handle_record (expectChangeCipherSpec handshakeComplete : bool) (record : bytes) : M step :=
  r ← in_decrypt record;
  match r with
  | inl alert => done (alert_and_fail alert)
  | inr (data, typ) => handle_data expectChangeCipherSpec handshakeComplete typ data
  end.

(** [c.rawInput.Next(n)] *)
Definition rawInput_Next (n : Z) : M bytes := fun c =>
  run record := upto c.(rawInput) n in run rest := from c.(rawInput) n in Ret (set_rawInput rest c, record).

(** One call of [readRecordOrCCS], up to the call of [retryReadRecord]. *)
Definition read_record (expectChangeCipherSpec : bool) : M step :=
  c ← field (fun c => c);
  match c.(in_).(halfConn.err) with
  | Some e => ret (Done (Some e))
  | None =>
      let handshakeComplete := c.(isHandshakeComplete) in
      if negb (len c.(input) =? 0) then
        done (in_setErrorLocked (new_error "tls: internal error: attempted to read record with pending application data")) else
      err ← readFromUntil recordHeaderLen;
      c ← field (fun c => c);
      match err with
      | Some e =>
          let e := if bool_decide (e = Plain ErrUnexpectedEOF) && (len c.(rawInput) =? 0) then Plain EOF else e in
          done (read_failed e)
      | None =>
          hdr ← lift (upto c.(rawInput) recordHeaderLen);
          typ ← lift (get hdr 0);
          vers ← lift (get16 hdr 1);
          n ← lift (get16 hdr 3);
          match check_header c handshakeComplete typ vers n with
          | Some fail => done fail
          | None =>
              err ← readFromUntil (recordHeaderLen + n);
              match err with
              | Some e => done (read_failed e)
              | None =>
                  record ← rawInput_Next (recordHeaderLen + n);
                  handle_record expectChangeCipherSpec handshakeComplete record
              end
          end
      end
  end.

(** [readRecordOrCCS] with [retryReadRecord]: each of the retries counts, and the
    count is limited. *)
Fixpoint read_retry (fuel : nat) (expectChangeCipherSpec : bool) : M error :=
  match fuel with
  | O => panic
  | S fuel =>
      s ← read_record expectChangeCipherSpec;
      match s with
      | Done err => ret err
      | Retry =>
          modify (fun c => set_retryCount (c.(retryCount) + 1) c) ;;
          n ← field retryCount;
          if maxUselessRecords <? n then
            sendAlert alertUnexpectedMessage ;;
            in_setErrorLocked (new_error "tls: too many ignored records")
          else read_retry fuel expectChangeCipherSpec
      end
  end.
Definition readRecordOrCCS (expectChangeCipherSpec : bool) : M error :=
  n ← field retryCount; read_retry (S (Z.to_nat (maxUselessRecords - n))) expectChangeCipherSpec.
Definition readRecord : M error := readRecordOrCCS false.
Definition readChangeCipherSpec : M error := readRecordOrCCS true.

(** ** Handshake messages *)

(** Each record adds to [c.hand] or [c.input], after which no other is read. *)
Fixpoint read_hand (fuel : nat) (n : Z) : M error :=
  have ← field (fun c => len c.(hand));
  if n <=? have then ret None else
  match fuel with
  | O => panic
  | S fuel =>
      err ← readRecord;
      match err with Some e => ret (Some e) | None => read_hand fuel n end
  end.
Definition readHandshakeBytes (n : Z) : M error := read_hand (Z.to_nat n + 2) n.

Definition hand_Next (n : Z) : M bytes := fun c =>
  run data := upto c.(hand) n in run rest := from c.(hand) n in Ret (set_hand rest c, data).

(** The alerts that [unmarshalHandshakeMessage] sends, the last of which is the
    error. *)
Fixpoint send_alerts (alerts : list Z) (err : error) : M error :=
  match alerts with
  | [] => ret err
  | a :: alerts => err ← alert_and_fail a; send_alerts alerts err
  end.

(** What is written to the transcript, and the message. *)
Definition readHandshake (transcript : bool) : M (bytes * (connError + handshakeMessage)) :=
  let fail e := ret ([], inl e) in
  err ← readHandshakeBytes 4;
  match err with
  | Some e => fail e
  | None =>
      c ← field (fun c => c);
      typ ← lift (get c.(hand) 0);
      n ← lift (get24 c.(hand) 1);
      let maxHandshakeSize := if c.(haveVers) && (typ =? typeCertificate) then maxHandshakeCertificateMsg else maxHandshake in
      if maxHandshakeSize <? n then
        sendAlertLocked alertInternalError ;;
        let e := Plain (Errorf "tls: handshake message of length %d bytes exceeds maximum of %d bytes" [n; maxHandshakeSize]) in
        in_setErrorLocked (Some e) ;;
        fail e
      else
        err ← readHandshakeBytes (4 + n);
        match err with
        | Some e => fail e
        | None =>
            data ← hand_Next (4 + n);
            c ← field (fun c => c);
            h ← lift (unmarshalHandshakeMessage (MkConn c.(vers) c.(Conn.isClient)) data transcript);
            match h.(message) with
            | Some m => ret (h.(written), inr m)
            | None =>
                err ← send_alerts h.(alerts) None;
                match err with Some e => fail e | None => panic end
            end
        end
  end.

(** ** The handshake and what follows it *)

(** [c.handshakeFn], [clientHandshake] and [handleNewSessionTicket]; [newAead] is
    [suite.aead]. *)
Context (handshakeFn clientHandshake : M error).
Context (handleNewSessionTicket : newSessionTicketMsgTLS13.t -> M error).
Context (newAead : cipherSuiteTLS13.t -> bytes -> bytes -> outcome aead).

(** [Handshake], with a context that is not cancelled. *)
Definition Handshake : M error :=
  complete ← field isHandshakeComplete;
  if complete : bool then ret None else
  err ← field handshakeErr;
  match err with
  | Some e => ret (Some e)
  | None =>
      err ← handshakeFn;
      modify (set_handshakeErr err) ;;
      (match err with
       | None => modify (fun c => set_handshakes (c.(handshakes) + 1) c)
       | Some _ => flush ;; ret tt
       end) ;;
      complete ← field isHandshakeComplete;
      match err, complete with
      | None, true => ret None
      | None, false =>
          let e := new_error "tls: internal error: handshake should have had a result" in
          modify (set_handshakeErr e) ;; ret e
      | Some _, true => panic
      | Some e, false => ret (Some e)
      end
  end.

Definition unexpected_message : error :=
  new_error "tls: received unexpected handshake message of type %T when waiting for %T".

Definition handleRenegotiation : M error :=
  vers ← field vers;
  if vers =? VersionTLS13 then ret (new_error "tls: internal error: unexpected renegotiation") else
  msg ← readHandshake false;
  match msg.2 with
  | inl e => ret (Some e)
  | inr HelloRequest =>
      c ← field (fun c => c);
      let handshake :=
        modify (set_isHandshakeComplete false) ;;
        err ← clientHandshake;
        modify (set_handshakeErr err) ;;
        (if non_nil err then ret tt else modify (fun c => set_handshakes (c.(handshakes) + 1) c)) ;;
        ret err in
      if negb c.(Conn.isClient) then sendAlert alertNoRenegotiation else
      match c.(config).(Config.Renegotiation) with
      | RenegotiateNever => sendAlert alertNoRenegotiation
      | RenegotiateOnceAsClient => if 1 <? c.(handshakes) then sendAlert alertNoRenegotiation else handshake
      | RenegotiateFreelyAsClient => handshake
      end
  | inr _ => sendAlert alertUnexpectedMessage ;; ret unexpected_message
  end.

Definition QUICEncryptionLevelInitial : Z := 0.

(** The next secret of one direction. *)
Definition update_secret (suite : cipherSuiteTLS13.t) (hc : halfConn.t) : outcome halfConn.t :=
  run newSecret := nextTrafficSecret suite hc.(halfConn.trafficSecret) in
  setTrafficSecret newAead suite QUICEncryptionLevelInitial newSecret hc.

Definition handleKeyUpdate (keyUpdate : keyUpdateMsg.t) : M error :=
  id ← field cipherSuite;
  match cipherSuiteTLS13ByID id with
  | None => alert_and_fail alertInternalError
  | Some suite =>
      hc ← field in_;
      hc ← lift (update_secret suite hc);
      modify (set_in_ hc) ;;
      if keyUpdate.(keyUpdateMsg.updateRequested) then
        match keyUpdateMsg.marshal (keyUpdateMsg.Mk false) with
        | inl e => ret (Some (Plain e))
        | inr msgBytes =>
            w ← writeRecordLocked recordTypeHandshake msgBytes;
            match w.2 with
            | Some e => out_setErrorLocked (Some e) ;; ret None
            | None =>
                hc ← field out;
                hc ← lift (update_secret suite hc);
                modify (set_out hc) ;;
                ret None
            end
        end
      else ret None
  end.

Definition handlePostHandshakeMessage : M error :=
  vers ← field vers;
  if negb (vers =? VersionTLS13) then handleRenegotiation else
  msg ← readHandshake false;
  match msg.2 with
  | inl e => ret (Some e)
  | inr m =>
      modify (fun c => set_retryCount (c.(retryCount) + 1) c) ;;
      n ← field retryCount;
      if maxUselessRecords <? n then
        sendAlert alertUnexpectedMessage ;;
        in_setErrorLocked (new_error "tls: too many non-advancing records")
      else
        match m with
        | NewSessionTicketTLS13 m => handleNewSessionTicket m
        | KeyUpdate m => handleKeyUpdate m
        | _ =>
            sendAlert alertUnexpectedMessage ;;
            ret (new_error "tls: received unexpected handshake message of type %T")
        end
  end.

(** ** Reading and writing data *)

(** [for c.hand.Len() > 0]: every message takes at least four bytes. *)
Fixpoint handle_messages (fuel : nat) : M error :=
  n ← field (fun c => len c.(hand));
  if n <=? 0 then ret None else
  match fuel with
  | O => panic
  | S fuel =>
      err ← handlePostHandshakeMessage;
      match err with Some e => ret (Some e) | None => handle_messages fuel end
  end.

(** [for c.input.Len() == 0], with fuel for both loops. *)
Fixpoint read_input (fuel : nat) : M error :=
  n ← field (fun c => len c.(input));
  if negb (n =? 0) then ret None else
  match fuel with
  | O => panic
  | S fuel' =>
      err ← readRecord;
      match err with
      | Some e => ret (Some e)
      | None =>
          err ← handle_messages fuel;
          match err with Some e => ret (Some e) | None => read_input fuel' end
      end
  end.

(** [c.input.Read(b)] for a buffer of [n] bytes. *)
Definition input_Read (n : Z) : M bytes := fun c =>
  let k := Z.to_nat (Z.min n (len c.(input))) in
  Ret (set_input (drop k c.(input)) c, take k c.(input)).

(** [Read] into a buffer of [n] bytes: what was read, and an error. *)
Definition Read (fuel : nat) (n : Z) : M (bytes * error) :=
  err ← Handshake;
  match err with
  | Some e => ret ([], Some e)
  | None =>
      if n =? 0 then ret ([], None) else
      err ← read_input fuel;
      match err with
      | Some e => ret ([], Some e)
      | None =>
          data ← input_Read n;
          c ← field (fun c => c);
          if negb (len data =? 0) && (len c.(input) =? 0) &&
              match c.(rawInput) with b :: _ => b2z b =? recordTypeAlert | [] => false end then
            err ← readRecord; ret (data, err)
          else ret (data, None)
      end
  end.

Definition errShutdown : error := new_error "tls: protocol is shutdown".

(** After the interlock with [Close]. *)
Definition write_data (b : bytes) : M (Z * error) :=
  err ← Handshake;
  match err with
  | Some e => ret (0, Some e)
  | None =>
      c ← field (fun c => c);
      match c.(out).(halfConn.err) with
      | Some e => ret (0, Some e)
      | None =>
          if negb c.(isHandshakeComplete) then ret (0, Some (Plain (Alert alertInternalError))) else
          if c.(closeNotifySent) then ret (0, errShutdown) else
          let rest (m : Z) (b : bytes) :=
            w ← writeRecordLocked recordTypeApplicationData b;
            err ← out_setErrorLocked w.2;
            ret (w.1 + m, err) in
          if (1 <? len b) && (c.(vers) =? VersionTLS10) &&
              match c.(out).(halfConn.cipher) with Some (CbcMode _) => true | _ => false end then
            first ← lift (upto b 1);
            w ← writeRecordLocked recordTypeApplicationData first;
            match w.2 with
            | Some e => err ← out_setErrorLocked (Some e); ret (w.1, err)
            | None => b ← lift (from b 1); rest 1 b
            end
          else rest 0 b
      end
  end.

Definition Write (b : bytes) : M (Z * error) :=
  x ← field activeCall;
  if negb (Z.land x 1 =? 0) then ret (0, Some (Plain ErrClosed)) else
  modify (set_activeCall (x + 2)) ;;
  w ← write_data b;
  modify (fun c => set_activeCall (c.(activeCall) - 2) c) ;;
  ret w.

(** ** Closing *)

Definition closeNotify : M error :=
  c ← field (fun c => c);
  if c.(closeNotifySent) then ret c.(closeNotifyErr) else
  modify (fun c => set_conn (net.SetWriteDeadline false c.(conn)) c) ;;
  err ← sendAlertLocked alertCloseNotify;
  modify (set_closeNotifyErr err) ;;
  modify (set_closeNotifySent true) ;;
  modify (fun c => set_conn (net.SetWriteDeadline true c.(conn)) c) ;;
  ret err.

Definition CloseWrite : M error :=
  complete ← field isHandshakeComplete;
  if negb complete then ret (new_error "tls: CloseWrite called before handshake complete") else closeNotify.

Definition conn_Close : M error := on conn set_conn net.Close.

Definition close_failed (e : connError) : connError :=
  WrapError "tls: failed to send closeNotify alert (but connection was closed anyway): %w" e.

Definition Close : M error :=
  x ← field activeCall;
  if negb (Z.land x 1 =? 0) then ret (Some (Plain ErrClosed)) else
  modify (set_activeCall (Z.lor x 1)) ;;
  if negb (x =? 0) then conn_Close else
  complete ← field isHandshakeComplete;
  alertErr ← (if complete : bool then err ← closeNotify; ret (close_failed <$> err) else ret None);
  err ← conn_Close;
  match err with Some e => ret (Some e) | None => ret alertErr end.
End Ops.
