(* ===== verification/Suites.v ===== *)
(** * The ciphers of a suite

    Models the functions of cipher_suites.go and u_common.go that the tables of cipher
    suites name: the block and stream ciphers, the MACs and the AEADs that are made
    from the keys of a connection.

    The ciphers of crypto/rc4, crypto/des, crypto/aes, crypto/cipher and chacha20poly1305
    are the class [BlockCiphers]; its laws are the lengths of keys that they take.

    The theorem: for every suite of either table the keys that the master secret gives
    have the lengths that its ciphers want, so that they are made without a panic. *)

From S2P Require Import Prelude Common Config Negotiation Buffer KeySchedule Record.

(** [None] is an error of the constructor. *)
Class BlockCiphers (Cs : Ciphers) := {
  rc4_NewCipher : bytes -> option stream;
  block : Type;
  des_NewTripleDESCipher : bytes -> option block;
  aes_NewCipher : bytes -> option block;
  block_BlockSize : block -> Z;
  NewCBCEncrypter : block -> bytes -> cbc;
  NewCBCDecrypter : block -> bytes -> cbc;
  NewGCM : block -> option AEAD;
  chacha20poly1305_New : bytes -> option AEAD
}.

(** ** The functions that the tables name *)

Module make.
Section Ops.
Context {Cs : Ciphers} {B : BlockCiphers Cs}.

(** A value, or a panic. *)
Definition must {A} (o : option A) : outcome A := match o with Some a => Ret a | None => Panic end.

(** A nil [*rc4.Cipher] panics when it is used. *)
Definition cipherRC4 (key iv : bytes) (isRead : bool) : outcome cipher :=
  run c := must (rc4_NewCipher key) in Ret (Stream c).

(** The modes panic without a block cipher, and when the IV is not a block long. *)
Definition cbc_mode (b : option block) (iv : bytes) (isRead : bool) : outcome cipher :=
  run b := must b in
  if negb (len iv =? block_BlockSize b) then Panic else
  Ret (CbcMode (if isRead then NewCBCDecrypter b iv else NewCBCEncrypter b iv)).
Definition cipher3DES (key iv : bytes) (isRead : bool) : outcome cipher := cbc_mode (des_NewTripleDESCipher key) iv isRead.
Definition cipherAES (key iv : bytes) (isRead : bool) : outcome cipher := cbc_mode (aes_NewCipher key) iv isRead.

Definition macSHA1 (key : bytes) : mac := MkMac SHA1 key.
Definition macSHA256 (key : bytes) : mac := MkMac SHA256 key.
Definition utlsMacSHA384 (key : bytes) : mac := MkMac SHA384 key.

Definition aeadAESGCM (key noncePrefix : bytes) : outcome aead :=
  if negb (len noncePrefix =? noncePrefixLength) then Panic else
  run aes := must (aes_NewCipher key) in
  run a := must (NewGCM aes) in
  Ret (prefixNonceAEAD (noncePrefix ++ replicate 8 x00) a).

Definition aeadAESGCMTLS13 (key nonceMask : bytes) : outcome aead :=
  if negb (len nonceMask =? aeadNonceLength) then Panic else
  run aes := must (aes_NewCipher key) in
  run a := must (NewGCM aes) in
  Ret (xorNonceAEAD nonceMask a).

Definition aeadChaCha20Poly1305 (key nonceMask : bytes) : outcome aead :=
  if negb (len nonceMask =? aeadNonceLength) then Panic else
  run a := must (chacha20poly1305_New key) in
  Ret (xorNonceAEAD nonceMask a).
End Ops.
End make.

(** ** The fields of a suite *)

Section Ops.
Context {Cs : Ciphers} {B : BlockCiphers Cs} {K : Crypto}.

(** [suite.cipher], [suite.mac] and [suite.aead], called *)
Definition new_cipher (c : block_cipher) : bytes -> bytes -> bool -> outcome cipher :=
  match c with cipherRC4 => make.cipherRC4 | cipher3DES => make.cipher3DES | cipherAES => make.cipherAES end.
Definition new_mac (m : mac_function) : bytes -> mac :=
  match m with macSHA1 => make.macSHA1 | macSHA256 => make.macSHA256 | utlsMacSHA384 => make.utlsMacSHA384 end.
Definition new_aead (a : aead_function) : bytes -> bytes -> outcome aead :=
  match a with
  | aeadAESGCM => make.aeadAESGCM
  | aeadAESGCMTLS13 => make.aeadAESGCMTLS13
  | aeadChaCha20Poly1305 => make.aeadChaCha20Poly1305
  end.

(** [suite.aead] of a suite of TLS 1.3 *)
Definition newAead13 (suite : cipherSuiteTLS13.t) : bytes -> bytes -> outcome aead := new_aead suite.(cipherSuiteTLS13.aead).

(** One direction of [establishKeys]: the cipher and the MAC.  The client looks at
    [suite.cipher], the server at [suite.aead]; calling a nil function is a panic. *)
Definition direction (isClient : bool) (suite : cipherSuite.t) (macKey key iv : bytes) (isRead : bool) : outcome (cipher * option mac) :=
  if (if isClient then non_nil suite.(cipherSuite.cipher) else negb (non_nil suite.(cipherSuite.aead))) then
    run c := make.must suite.(cipherSuite.cipher) in
    run ci := new_cipher c key iv isRead in
    run m := make.must suite.(cipherSuite.mac) in
    Ret (ci, Some (new_mac m macKey))
  else
    run a := make.must suite.(cipherSuite.aead) in
    run a := new_aead a key iv in
    Ret (Aead a, None).

(** The cipher and the MAC of what the client writes and of what the server writes,
    as the client or the server makes them; [None] never happens, see [p_hash_rfc]. *)
Definition establish (isClient : bool) (vers : Z) (suite : cipherSuite.t) (masterSecret clientRandom serverRandom : bytes)
    : outcome (option ((cipher * option mac) * (cipher * option mac))) :=
  run k := keysFromMasterSecret vers suite masterSecret clientRandom serverRandom suite.(cipherSuite.macLen) suite.(cipherSuite.keyLen) suite.(cipherSuite.ivLen) in
  match k with
  | None => Ret None
  | Some k =>
      run client := direction isClient suite k.(keys.clientMAC) k.(keys.clientKey) k.(keys.clientIV) (negb isClient) in
      run server := direction isClient suite k.(keys.serverMAC) k.(keys.serverKey) k.(keys.serverIV) isClient in
      Ret (Some (client, server))
  end.

End Ops.

(** * Theorems *)

(** The lengths of keys, and that two ends with one key work together. *)
Class BlockCiphersOk {Cs : Ciphers} (Sy : Sync Cs) (B : BlockCiphers Cs) : Prop := {
  rc4_key k : 1 <= len k <= 256 -> exists s, rc4_NewCipher k = Some s /\ stream_sync s s;
  des_key k : len k = 24 -> exists b, des_NewTripleDESCipher k = Some b /\ block_BlockSize b = 8;
  aes_key k : len k = 16 \/ len k = 24 \/ len k = 32 -> exists b, aes_NewCipher k = Some b /\ block_BlockSize b = 16;
  cbc_pair b iv : len iv = block_BlockSize b -> cbc_sync (NewCBCEncrypter b iv) (NewCBCDecrypter b iv);
  gcm_block b : block_BlockSize b = 16 -> exists a, NewGCM b = Some a;
  chacha_key k : len k = 32 -> exists a, chacha20poly1305_New k = Some a
}.

Section Facts.
Context {Cs : Ciphers} {Sy : Sync Cs} {B : BlockCiphers Cs} {Bok : BlockCiphersOk Sy B} {K : Crypto} {Kok : CryptoOk K}.
Import halfConn.

(** The key and the IV have the lengths that an AEAD, or a cipher, wants. *)
Definition aead_fits (a : aead_function) (keyLen ivLen : Z) : bool :=
  match a with
  | aeadAESGCM => ((keyLen =? 16) || (keyLen =? 32)) && (ivLen =? noncePrefixLength)
  | aeadAESGCMTLS13 => ((keyLen =? 16) || (keyLen =? 32)) && (ivLen =? aeadNonceLength)
  | aeadChaCha20Poly1305 => (keyLen =? 32) && (ivLen =? aeadNonceLength)
  end.
Definition cipher_fits (c : block_cipher) (keyLen ivLen : Z) : bool :=
  match c with
  | cipherRC4 => (1 <=? keyLen) && (keyLen <=? 256)
  | cipher3DES => (keyLen =? 24) && (ivLen =? 8)
  | cipherAES => ((keyLen =? 16) || (keyLen =? 32)) && (ivLen =? 16)
  end.
Definition fits (s : cipherSuite.t) : bool :=
  let k := s.(cipherSuite.keyLen) in let i := s.(cipherSuite.ivLen) in
  (0 <=? s.(cipherSuite.macLen)) && (0 <=? k) && (0 <=? i) &&
  match s.(cipherSuite.cipher), s.(cipherSuite.mac), s.(cipherSuite.aead) with
  | Some c, Some _, None => cipher_fits c k i
  | None, None, Some a => aead_fits a k i
  | _, _, _ => false
  end.

Lemma tables_fit : Forall (fun s => fits s = true) (utlsSupportedCipherSuites ++ EnableWeakCiphers).
Proof. apply List.Forall_forall, List.forallb_forall. vm_compute. reflexivity. Qed.

(** The cipher of the end that writes and that of the end that reads. *)
Definition pair_sync (w r : Record.cipher * option Record.mac) : Prop :=
  w.2 = r.2 /\
  match w.1, r.1 with
  | Stream s, Stream s' => stream_sync s s' /\ w.2 <> None
  | CbcMode b, CbcMode b' => cbc_sync b b' /\ w.2 <> None
  | Aead f, Aead g => aead_peer f g /\ w.2 = None
  | _, _ => False
  end.

Lemma aead_made a key iv : aead_fits a (len key) (len iv) = true -> exists f, new_aead a key iv = Ret f /\ aead_peer f f /\
  (a <> aeadAESGCM -> aead_explicitNonceLen f = 0).
Proof.
  destruct a; cbn; rewrite ?andb_true_iff, ?orb_true_iff, !Z.eqb_eq; intros [Hk Hi].
  - unfold make.aeadAESGCM. rewrite Hi. destruct (aes_key key) as (b & -> & Hb); [lia|]. cbn.
    destruct (gcm_block b Hb) as [g ->]. cbn. eexists. split; [done|]. split; [|done]. unfold aead_peer, wf_aead. rewrite length_app. cbn [length].
    unfold len, noncePrefixLength in Hi. replace (length iv) with 4%nat by lia. done.
  - unfold make.aeadAESGCMTLS13. rewrite Hi. destruct (aes_key key) as (b & -> & Hb); [lia|]. cbn.
    destruct (gcm_block b Hb) as [g ->]. cbn. eexists. split; [done|]. split; [|done]. unfold aead_peer, wf_aead. unfold len, aeadNonceLength in Hi. replace (length iv) with 12%nat by lia. done.
  - unfold make.aeadChaCha20Poly1305. rewrite Hi. destruct (chacha_key key Hk) as [g ->]. cbn. eexists. split; [done|]. split; [|done].
    unfold aead_peer, wf_aead. unfold len, aeadNonceLength in Hi. replace (length iv) with 12%nat by lia. done.
Qed.

Lemma cipher_made c key iv : cipher_fits c (len key) (len iv) = true ->
  exists w r, new_cipher c key iv false = Ret w /\ new_cipher c key iv true = Ret r /\ forall m, pair_sync (w, Some m) (r, Some m).
Proof.
  destruct c; cbn; rewrite ?andb_true_iff, ?orb_true_iff, ?Z.eqb_eq, ?Z.leb_le; intros Hk.
  - unfold make.cipherRC4. destruct (rc4_key key Hk) as (s & -> & Hs). cbn. by eexists _, _.
  - destruct Hk as [Hk Hi]. unfold make.cipher3DES, make.cbc_mode. destruct (des_key key Hk) as (b & -> & Hb). cbn.
    rewrite Hi, Hb. cbn. eexists _, _. split; [done|]. split; [done|]. split; [done|]. cbn. split; [apply cbc_pair; congruence|done].
  - destruct Hk as [Hk Hi]. unfold make.cipherAES, make.cbc_mode. destruct (aes_key key) as (b & -> & Hb); [lia|]. cbn.
    rewrite Hi, Hb. cbn. eexists _, _. split; [done|]. split; [done|]. split; [done|]. cbn. split; [apply cbc_pair; congruence|done].
Qed.

Lemma direction_made s macKey key iv : fits s = true -> len key = s.(cipherSuite.keyLen) -> len iv = s.(cipherSuite.ivLen) ->
  exists w r, (forall isClient, direction isClient s macKey key iv false = Ret w) /\ (forall isClient, direction isClient s macKey key iv true = Ret r) /\ pair_sync w r.
Proof.
  unfold fits, direction. rewrite !andb_true_iff. intros [_ H] Hk Hi. rewrite <- Hk, <- Hi in H.
  destruct (cipherSuite.cipher s) as [c|], (cipherSuite.mac s) as [m|], (cipherSuite.aead s) as [a|]; try done.
  - destruct (cipher_made c key iv H) as (w & r & Hw & Hr & Hs). exists (w, Some (new_mac m macKey)), (r, Some (new_mac m macKey)).
    cbn. rewrite Hw, Hr. split; [by intros []|]. by split; [intros []|].
  - destruct (aead_made a key iv H) as (f & Hf & Hp & _). exists (Aead f, None), (Aead f, None). cbn. rewrite Hf. split; [by intros []|]. by split; [intros []|].
Qed.

(** [prepareCipherSpec] and [changeCipherSpec], one after the other. *)
Definition installed (v : Z) (c : Record.cipher * option Record.mac) (hc : halfConn.t) : halfConn.t * option Z :=
  changeCipherSpec (prepareCipherSpec v (Some c.1) c.2 hc).

Lemma installed_synced v w r e d : known_version v -> pair_sync w r ->
  exists e' d', installed v w e = (e', None) /\ installed v r d = (d', None) /\ synced e' d'.
Proof.
  intros Hv [Hm Hs]. destruct w as [w m], r as [r m']. cbn in Hm, Hs. subst m'. unfold installed, changeCipherSpec. cbn.
  assert (Hn : v <> VersionTLS13) by (destruct Hv as [->|[->| ->]]; done). rewrite (proj2 (Z.eqb_neq _ _) Hn).
  eexists _, _. split; [done|]. split; [done|]. unfold synced, cipher_sync, same_mac, no_mac. cbn. split_and!; [done|done|done|done|].
  destruct w, r; try done; destruct Hs as [Hs Hm]; split_and!; try done; destruct m; naive_solver.
Qed.

(** C12: for every cipher suite of either table, in TLS 1.0 to 1.2, both ends make
    their ciphers from a master secret without a panic, and once each end has changed
    its cipher spec what one writes with is in step with what the other reads with, in
    both directions, whatever the half connections were before. *)
Theorem keys_in_sync suite v ms cr sr : suite ∈ utlsSupportedCipherSuites ++ EnableWeakCiphers -> known_version v ->
  exists cw sr' cr' sw, establish true v suite ms cr sr = Ret (Some (cw, sr')) /\ establish false v suite ms cr sr = Ret (Some (cr', sw)) /\
    forall e d, (exists e' d', installed v cw e = (e', None) /\ installed v cr' d = (d', None) /\ synced e' d') /\
                (exists e' d', installed v sw e = (e', None) /\ installed v sr' d = (d', None) /\ synced e' d').
Proof.
  intros Hs Hv. pose proof (proj1 (Forall_forall _ _) tables_fit suite Hs) as Hf.
  assert (0 <= suite.(cipherSuite.macLen) /\ 0 <= suite.(cipherSuite.keyLen) /\ 0 <= suite.(cipherSuite.ivLen)) as (H1 & H2 & H3).
  { unfold fits in Hf. rewrite !andb_true_iff, !Z.leb_le in Hf. tauto. }
  destruct (connection_keys v suite ms cr sr _ _ _ Hv H1 H2 H3) as (f & b & k & _ & _ & Hk & _ & _ & _ & Hck & Hsk & Hci & Hsi).
  destruct (direction_made suite k.(keys.clientMAC) _ _ Hf Hck Hci) as (cw & cr' & Hcw & Hcr & Hc).
  destruct (direction_made suite k.(keys.serverMAC) _ _ Hf Hsk Hsi) as (sw & sr' & Hsw & Hsr & Hsy).
  exists cw, sr', cr', sw. unfold establish. rewrite Hk. cbn. rewrite Hcw, Hcr, Hsw, Hsr. cbn. split; [done|]. split; [done|].
  intros e d. split; by apply installed_synced.
Qed.

Lemma trafficKey_ok suite secret : 0 <= suite.(cipherSuiteTLS13.keyLen) <= 255 * Z.of_nat (hash_size suite.(cipherSuiteTLS13.hash)) ->
  exists key iv, trafficKey suite secret = Ret (key, iv) /\ len key = suite.(cipherSuiteTLS13.keyLen) /\ len iv = aeadNonceLength.
Proof.
  intros Hk. unfold trafficKey. set (h := suite.(cipherSuiteTLS13.hash)) in *.
  destruct (ExpandLabel_ok h secret (label "key") [] suite.(cipherSuiteTLS13.keyLen)) as (key & -> & Hlk); [done|done|done|].
  destruct (ExpandLabel_ok h secret (label "iv") [] aeadNonceLength) as (iv & Hi & Hli); [done|done|unfold aeadNonceLength; pose proof (hash_size_pos h); lia|].
  exists key, iv. cbn [obind]. by rewrite Hi.
Qed.

(** In TLS 1.3 a traffic secret gives both ends AEADs that are in step. *)
Theorem traffic_secret_in_sync suite level secret e d : suite ∈ cipherSuitesTLS13 ->
  e.(version) = VersionTLS13 -> d.(version) = VersionTLS13 -> no_mac e d ->
  exists e' d', setTrafficSecret newAead13 suite level secret e = Ret e' /\ setTrafficSecret newAead13 suite level secret d = Ret d' /\ synced e' d'.
Proof.
  intros Hs He Hd Hm.
  assert (Hk : exists key iv, trafficKey suite secret = Ret (key, iv) /\ len key = suite.(cipherSuiteTLS13.keyLen) /\ len iv = aeadNonceLength).
  { apply trafficKey_ok. unfold cipherSuitesTLS13 in Hs. repeat (apply elem_of_cons in Hs as [->|Hs]; [cbn; lia|]). by apply elem_of_nil in Hs. }
  destruct Hk as (key & iv & Hk & Hlk & Hli).
  assert (Ha : aead_fits suite.(cipherSuiteTLS13.aead) (len key) (len iv) = true /\ suite.(cipherSuiteTLS13.aead) <> aeadAESGCM).
  { rewrite Hlk, Hli. unfold cipherSuitesTLS13 in Hs. repeat (apply elem_of_cons in Hs as [->|Hs]; [done|]). by apply elem_of_nil in Hs. }
  destruct Ha as [Ha Hn]. destruct (aead_made _ _ _ Ha) as (f & Hf & Hp & Hx). unfold setTrafficSecret, newAead13. rewrite Hk. cbn. rewrite Hf. cbn.
  eexists _, _. split; [done|]. split; [done|]. unfold synced, cipher_sync. cbn. split_and!; [congruence|done|done|done|done|done|]. by intros _; apply Hx.
Qed.

End Facts.

(** * Example *)

Definition key_of (sizes : list Z) (k : bytes) : option Z := if bool_decide (len k ∈ sizes) then Some (be_val k) else None.
Definition toy_blocks : BlockCiphers toy_ciphers := {|
  rc4_NewCipher k := Some (be_val k : @stream toy_ciphers);
  block := Z * Z;
  des_NewTripleDESCipher k := pair 8 <$> key_of [24] k;
  aes_NewCipher k := pair 16 <$> key_of [16; 24; 32] k;
  block_BlockSize b := b.1;
  NewCBCEncrypter b iv := iv : @cbc toy_ciphers;
  NewCBCDecrypter b iv := iv : @cbc toy_ciphers;
  NewGCM b := Some (b.2 : @AEAD toy_ciphers);
  chacha20poly1305_New k := key_of [32] k : option (@AEAD toy_ciphers)
|}.
#[export] Instance toy_blocks_ok : BlockCiphersOk toy_sync toy_blocks.
Proof.
  constructor; cbn; unfold key_of; eauto.
  - intros k ->. by eexists.
  - intros k [->|[->| ->]]; by eexists.
  - intros k ->. by eexists.
Qed.

Lemma keys_in_sync_witness : exists cw sr cr sw,
  establish (B := toy_blocks) (K := toy_hash) true VersionTLS12 suite_gcm [x01] [x02] [x03] = Ret (Some (cw, sr)) /\
  establish (B := toy_blocks) (K := toy_hash) false VersionTLS12 suite_gcm [x01] [x02] [x03] = Ret (Some (cr, sw)) /\
  exists e d, installed VersionTLS12 cw newHalfConn = (e, None) /\ installed VersionTLS12 cr newHalfConn = (d, None) /\ synced e d.
Proof.
  destruct (keys_in_sync (B := toy_blocks) (K := toy_hash) suite_gcm VersionTLS12 [x01] [x02] [x03]) as (cw & sr & cr & sw & H1 & H2 & H).
  - apply list_elem_of_In. vm_compute. tauto.
  - by right; right.
  - exists cw, sr, cr, sw. split; [exact H1|]. split; [exact H2|]. exact (proj1 (H newHalfConn newHalfConn)).
Defined.
