(* ===== verification/Hpke.v ===== *)
(** * Hybrid public key encryption

    Models internal/hpke/hpke.go, which Encrypted ClientHello uses: the labelled key
    derivation, the KEM on X25519, the contexts of sender and receiver with their
    128-bit counter, and [Seal] and [Open].  crypto/ecdh is the class [X25519Keys]; the
    AEADs are those of Record and Suites, with their [NonceSize].  [rand.Reader], from
    which an ephemeral key is made, is an argument.

    Theorems: sender and receiver derive the same context, what is sealed is opened in
    order, no nonce is used twice, and where the counter stops. *)

From S2P Require Import Prelude Cryptobyte Common Negotiation Buffer KeySchedule Record Suites ECH.

(** ** crypto/ecdh and the nonces of AEADs *)

(** The curve X25519; [entropy] is what [rand.Reader] delivers. *)
Class X25519Keys := {
  ecdhPrivate : Type;
  ecdhPublic : Type;
  entropy : Type;
  ecdh_GenerateKey : entropy -> res ecdhPrivate;
  ecdh_PublicKey : ecdhPrivate -> ecdhPublic;
  ecdh_Bytes : ecdhPublic -> bytes;
  ecdh_NewPublicKey : bytes -> res ecdhPublic;
  ecdh_NewPrivateKey : bytes -> res ecdhPrivate;
  ecdh_ECDH : ecdhPrivate -> ecdhPublic -> res bytes
}.
Class X25519KeysOk (D : X25519Keys) : Prop := {
  NewPublicKey_Bytes p : ecdh_NewPublicKey (ecdh_Bytes p) = inr p;
  ECDH_comm a b : ecdh_ECDH a (ecdh_PublicKey b) = ecdh_ECDH b (ecdh_PublicKey a)
}.

Class NonceSizes (Cs : Ciphers) := { NonceSize : AEAD -> Z }.
Class NonceSizesOk {Cs : Ciphers} (B : BlockCiphers Cs) (N : NonceSizes Cs) : Prop := {
  gcm_sizes b a : NewGCM b = Some a -> NonceSize a = 12 /\ AEAD_Overhead a = 16;
  chacha_sizes k a : chacha20poly1305_New k = Some a -> NonceSize a = 12 /\ AEAD_Overhead a = 16
}.

(** ** uint128 *)

Module uint128.
Record t := Mk { hi : Z; lo : Z }.
Definition wf (u : t) : Prop := 0 <= u.(hi) < 2 ^ 64 /\ 0 <= u.(lo) < 2 ^ 64.
(** The number it stands for. *)
Definition value (u : t) : Z := u.(hi) * 2 ^ 64 + u.(lo).

(** [bits.Len64] *)
Definition Len64 (x : Z) : Z := if x =? 0 then 0 else Z.log2 x + 1.

Definition addOne (u : t) : t :=
  let sum := u.(lo) + 1 in
  Mk ((u.(hi) + sum / 2 ^ 64) mod 2 ^ 64) (sum mod 2 ^ 64).
Definition bitLen (u : t) : Z := Len64 u.(hi) + Len64 u.(lo).
Definition bytes_ (u : t) : bytes := be 8 u.(hi) ++ be 8 u.(lo).
End uint128.

Module hpke.
Section Ops.
Context {Cs : Ciphers} {B : BlockCiphers Cs} {N : NonceSizes Cs} {K : Crypto} {D : X25519Keys}.

(** ** Key derivation *)

(** [hkdfKDF] is its hash. *)
Definition LabeledExtract (kdf : hash_function) (sid salt : bytes) (lbl : string) (inputKey : bytes) : bytes :=
  let labeledIKM := label "HPKE-v1" ++ sid ++ label lbl ++ inputKey in
  hkdf_Extract kdf labeledIKM salt.

Definition LabeledExpand (kdf : hash_function) (suiteID randomKey : bytes) (lbl : string) (info : bytes) (length : Z) : outcome bytes :=
  let labeledInfo := be 2 length ++ label "HPKE-v1" ++ suiteID ++ label lbl ++ info in
  hkdf_Expand kdf randomKey labeledInfo length.

(** ** The KEM *)

Record dhKEM := MkKEM { kem_kdf : hash_function; kem_suiteID : bytes; nSecret : Z }.

(** The entries of [SupportedKEMs]; the curve is X25519. *)
Definition kem_entry (kemID : Z) : option (hash_function * Z) :=
  if kemID =? DHKEM_X25519_HKDF_SHA256 then Some (SHA256, 32) else None.

Definition newDHKem (kemID : Z) : res dhKEM :=
  match kem_entry kemID with
  | None => inl (ErrorNew "unsupported suite ID")
  | Some (hash, nSecret) => inr (MkKEM hash (label "KEM" ++ be 2 kemID) nSecret)
  end.

Definition ExtractAndExpand (dh : dhKEM) (dhKey kemContext : bytes) : outcome bytes :=
  let eaePRK := LabeledExtract dh.(kem_kdf) dh.(kem_suiteID) [] "eae_prk" dhKey in
  LabeledExpand dh.(kem_kdf) dh.(kem_suiteID) eaePRK "shared_secret" kemContext dh.(nSecret).

(** The shared secret and the encapsulated key. *)
Definition Encap (rand : entropy) (dh : dhKEM) (pubRecipient : ecdhPublic) : outcome (res (bytes * bytes)) :=
  match ecdh_GenerateKey rand with
  | inl err => Ret (inl err)
  | inr privEph =>
      match ecdh_ECDH privEph pubRecipient with
      | inl err => Ret (inl err)
      | inr dhVal =>
          let encPubEph := ecdh_Bytes (ecdh_PublicKey privEph) in
          run sharedSecret := ExtractAndExpand dh dhVal (encPubEph ++ ecdh_Bytes pubRecipient) in
          Ret (inr (sharedSecret, encPubEph))
      end
  end.

Definition Decap (dh : dhKEM) (encPubEph : bytes) (secRecipient : ecdhPrivate) : outcome (res bytes) :=
  match ecdh_NewPublicKey encPubEph with
  | inl err => Ret (inl err)
  | inr pubEph =>
      match ecdh_ECDH secRecipient pubEph with
      | inl err => Ret (inl err)
      | inr dhVal =>
          run sharedSecret := ExtractAndExpand dh dhVal (encPubEph ++ ecdh_Bytes (ecdh_PublicKey secRecipient)) in
          Ret (inr sharedSecret)
      end
  end.

(** ** Contexts *)

Record context := MkContext {
  aead : AEAD;
  sharedSecret : bytes;
  ctx_suiteID : bytes;
  key : bytes;
  baseNonce : bytes;
  exporterSecret : bytes;
  seqNum : uint128.t
}.
Definition set_seqNum (v : uint128.t) (c : context) : context :=
  MkContext c.(aead) c.(sharedSecret) c.(ctx_suiteID) c.(key) c.(baseNonce) c.(exporterSecret) v.

(** The errors of the packages for AEADs, whose text nobody reads. *)
Definition errAEAD : gerror := ErrorNew "crypto: invalid key size".
Definition errOpen : gerror := ErrorNew "crypto: message authentication failed".
Definition of_option {A} (o : option A) : res A := match o with Some a => inr a | None => inl errAEAD end.

Definition aesGCMNew (key : bytes) : res AEAD :=
  match aes_NewCipher key with None => inl errAEAD | Some block => of_option (NewGCM block) end.

(** The entries of [SupportedAEADs] and [SupportedKDFs]. *)
Record aead_entry := MkAead { keySize : Z; nonceSize : Z; aead_new : bytes -> res AEAD }.
Definition aead_of (aeadID : Z) : option aead_entry :=
  if aeadID =? AEAD_AES_128_GCM then Some (MkAead 16 12 aesGCMNew)
  else if aeadID =? AEAD_AES_256_GCM then Some (MkAead 32 12 aesGCMNew)
  else if aeadID =? AEAD_ChaCha20Poly1305 then Some (MkAead 32 12 (fun key => of_option (chacha20poly1305_New key)))
  else None.
Definition kdf_of (kdfID : Z) : option hash_function := if kdfID =? KDF_HKDF_SHA256 then Some SHA256 else None.

Definition suiteID (kemID kdfID aeadID : Z) : bytes := label "HPKE" ++ be 2 kemID ++ be 2 kdfID ++ be 2 aeadID.

Definition newContext (sharedSecret : bytes) (kemID kdfID aeadID : Z) (info : bytes) : outcome (res context) :=
  let sid := suiteID kemID kdfID aeadID in
  match kdf_of kdfID with
  | None => Ret (inl (ErrorNew "unsupported KDF id"))
  | Some kdf =>
  match aead_of aeadID with
  | None => Ret (inl (ErrorNew "unsupported AEAD id"))
  | Some aeadInfo =>
      let pskIDHash := LabeledExtract kdf sid [] "psk_id_hash" [] in
      let infoHash := LabeledExtract kdf sid [] "info_hash" info in
      let ksContext := [x00] ++ pskIDHash ++ infoHash in
      let secret := LabeledExtract kdf sid sharedSecret "secret" [] in
      run key := LabeledExpand kdf sid secret "key" ksContext (aeadInfo.(keySize) mod 2 ^ 16) in
      run baseNonce := LabeledExpand kdf sid secret "base_nonce" ksContext (aeadInfo.(nonceSize) mod 2 ^ 16) in
      run exporterSecret := LabeledExpand kdf sid secret "exp" ksContext (Z.of_nat (hash_size kdf) mod 2 ^ 16) in
      Ret (match aeadInfo.(aead_new) key with
           | inl err => inl err
           | inr aead => inr (MkContext aead sharedSecret sid key baseNonce exporterSecret (uint128.Mk 0 0))
           end)
  end
  end.

Definition SetupSender (rand : entropy) (kemID kdfID aeadID : Z) (pub : ecdhPublic) (info : bytes) : outcome (res (bytes * context)) :=
  match newDHKem kemID with
  | inl err => Ret (inl err)
  | inr kem =>
      run r := Encap rand kem pub in
      match r with
      | inl err => Ret (inl err)
      | inr (sharedSecret, encapsulatedKey) =>
          run context := newContext sharedSecret kemID kdfID aeadID info in
          Ret (match context with inl err => inl err | inr context => inr (encapsulatedKey, context) end)
      end
  end.

Definition SetupReceipient (kemID kdfID aeadID : Z) (priv : ecdhPrivate) (info encPubEph : bytes) : outcome (res context) :=
  match newDHKem kemID with
  | inl err => Ret (inl err)
  | inr kem =>
      run r := Decap kem encPubEph priv in
      match r with
      | inl err => Ret (inl err)
      | inr sharedSecret => newContext sharedSecret kemID kdfID aeadID info
      end
  end.

(** ** Messages *)

(** [for i := range ctx.baseNonce { nonce[i] ^= ctx.baseNonce[i] }] *)
Definition nextNonce (ctx : context) : outcome bytes :=
  run nonce := from (uint128.bytes_ ctx.(seqNum)) (16 - NonceSize ctx.(aead)) in
  let n := length ctx.(baseNonce) in
  if len ctx.(baseNonce) <=? len nonce then Ret (xor_bytes ctx.(baseNonce) (take n nonce) ++ drop n nonce) else Panic.

Definition incrementNonce (ctx : context) : outcome context :=
  if NonceSize ctx.(aead) * 8 - 1 <=? uint128.bitLen ctx.(seqNum) then Panic
  else Ret (set_seqNum (uint128.addOne ctx.(seqNum)) ctx).

(** The error of [Seal] is always nil. *)
Definition Seal (s : context) (aad plaintext : bytes) : outcome (context * bytes) :=
  run nonce := nextNonce s in
  let ciphertext := AEAD_Seal s.(aead) nonce plaintext aad in
  run s := incrementNonce s in
  Ret (s, ciphertext).

Definition Open (r : context) (aad ciphertext : bytes) : outcome (context * res bytes) :=
  run nonce := nextNonce r in
  match AEAD_Open r.(aead) nonce ciphertext aad with
  | None => Ret (r, inl errOpen)
  | Some plaintext => run r := incrementNonce r in Ret (r, inr plaintext)
  end.

(** ** Keys *)

Definition ParseHPKEPublicKey (kemID : Z) (b : bytes) : res ecdhPublic :=
  match kem_entry kemID with None => inl (ErrorNew "unsupported KEM id") | Some _ => ecdh_NewPublicKey b end.
Definition ParseHPKEPrivateKey (kemID : Z) (b : bytes) : res ecdhPrivate :=
  match kem_entry kemID with None => inl (ErrorNew "unsupported KEM id") | Some _ => ecdh_NewPrivateKey b end.
End Ops.
End hpke.

(** * Theorems *)

Section Counter.
Import uint128.
Implicit Types u : t.

Lemma addOne_value u : wf u -> value u + 1 < 2 ^ 128 -> wf (addOne u) /\ value (addOne u) = value u + 1.
Proof.
  unfold wf, value, addOne. destruct u as [h l]. cbn. intros [Hh Hl] Hv.
  pose proof (Z.div_mod (l + 1) (2 ^ 64)) as Hd. pose proof (Z.mod_pos_bound (l + 1) (2 ^ 64)) as Hm.
  assert (0 <= (l + 1) / 2 ^ 64 <= 1) by (split; [apply Z.div_pos; lia|]; apply Z.lt_succ_r, Z.div_lt_upper_bound; lia).
  assert (h + (l + 1) / 2 ^ 64 < 2 ^ 64) by lia. rewrite (Z.mod_small (h + _)) by lia. split; lia.
Qed.

Lemma Len64_bound x k : 0 <= k -> 0 <= x < 2 ^ k -> 0 <= Len64 x <= k.
Proof.
  intros Hk Hx. unfold Len64. destruct (x =? 0) eqn:E; [lia|]. apply Z.eqb_neq in E. pose proof (Z.log2_nonneg x).
  assert (Z.log2 x < k) by (apply Z.log2_lt_pow2; lia). lia.
Qed.

(** Where the counter stops. *)
Definition message_limit : Z := 2 ^ 94 + 2 ^ 63.
Lemma bitLen_limit u : wf u -> value u <= message_limit -> (95 <=? bitLen u) = (value u =? message_limit).
Proof.
  unfold wf, value, message_limit, bitLen. destruct u as [h l]. cbn [hi lo]. intros [Hh Hl] Hv.
  destruct (Z.eq_dec (h * 2 ^ 64 + l) (2 ^ 94 + 2 ^ 63)) as [E|E].
  - assert (h = 2 ^ 30) as -> by lia. assert (l = 2 ^ 63) as -> by lia. reflexivity.
  - rewrite (proj2 (Z.eqb_neq _ _) E). apply Z.leb_gt. destruct (Z.eq_dec h (2 ^ 30)) as [->|Hn].
    + pose proof (Len64_bound l 63). change (Len64 (2 ^ 30)) with 31. lia.
    + pose proof (Len64_bound h 30). pose proof (Len64_bound l 64). lia.
Qed.

Lemma shift_high h l k : 0 <= l < 2 ^ 64 -> 0 <= k -> Z.shiftr (h * 2 ^ 64 + l) (64 + k) = Z.shiftr h k.
Proof.
  intros Hl Hk. rewrite !Z.shiftr_div_pow2 by lia. rewrite Z.pow_add_r by lia. rewrite <- Z.div_div by lia. rewrite Z.div_add_l by lia.
  rewrite (Z.div_small l) by lia. by rewrite Z.add_0_r.
Qed.
Lemma bytes_value u : wf u -> from (bytes_ u) 4 = Ret (be 12 (value u)).
Proof.
  unfold wf, value, bytes_. destruct u as [h l]. cbn [hi lo]. intros [Hh Hl].
  unfold from, len. rewrite length_app, !length_be. change (0 <=? 4) with true. change (4 <=? Z.of_nat (8 + 8)) with true. cbn [andb]. f_equal.
  assert (Hb : be 12 (h * 2 ^ 64 + l) = be 4 h ++ be 8 l).
  { pose proof (be_add_high 8 h l 8 ltac:(lia)) as H8. change (256 ^ Z.of_nat 8) with (2 ^ 64) in H8. rewrite <- H8. set (v := h * 2 ^ 64 + l).
    change (be 12 v) with ([u8 (Z.shiftr v (64 + 24)); u8 (Z.shiftr v (64 + 16)); u8 (Z.shiftr v (64 + 8)); u8 (Z.shiftr v (64 + 0))] ++ be 8 v).
    unfold v. rewrite !shift_high by lia. reflexivity. }
  rewrite Hb. change (Z.to_nat 4) with 4%nat. reflexivity.
Qed.
End Counter.

Section Facts.
Context {Cs : Ciphers} {Sy : Sync Cs} {Cok : CiphersOk Cs Sy} {B : BlockCiphers Cs} {Bok : BlockCiphersOk Sy B} {N : NonceSizes Cs} {Nok : NonceSizesOk B N}
  {K : Crypto} {Kok : CryptoOk K} {D : X25519Keys} {Dok : X25519KeysOk D}.
Import hpke.
Implicit Types (c s r : context).

(** ** Setting up *)

Lemma LabeledExpand_ok sid k lbl info n : 0 <= n <= 255 * 32 -> exists x, LabeledExpand SHA256 sid k lbl info n = Ret x /\ len x = n.
Proof. intros Hn. apply Expand_len. exact Hn. Qed.
Lemma ExtractAndExpand_ok kem dhKey ctx : newDHKem DHKEM_X25519_HKDF_SHA256 = inr kem -> exists x, ExtractAndExpand kem dhKey ctx = Ret x.
Proof.
  intros [= <-]. unfold ExtractAndExpand. cbn [kem_kdf kem_suiteID nSecret].
  destruct (LabeledExpand_ok (label "KEM" ++ be 2 DHKEM_X25519_HKDF_SHA256) (LabeledExtract SHA256 (label "KEM" ++ be 2 DHKEM_X25519_HKDF_SHA256) [] "eae_prk" dhKey)
    "shared_secret" ctx 32) as (x & Hx & _); [lia|]. by exists x.
Qed.

(** An entry of the table, for keys of its size. *)
Lemma aead_of_ok aeadID e k : aead_of aeadID = Some e -> nonceSize e = 12 /\ (keySize e = 16 \/ keySize e = 32) /\
  (len k = keySize e -> exists a, aead_new e k = inr a) /\ forall a, aead_new e k = inr a -> NonceSize a = 12 /\ AEAD_Overhead a = 16.
Proof.
  unfold aead_of. intros H.
  assert (Hg : (len k = 16 \/ len k = 32 -> exists a, aesGCMNew k = inr a) /\ forall a, aesGCMNew k = inr a -> NonceSize a = 12 /\ AEAD_Overhead a = 16).
  { unfold aesGCMNew. split.
    - intros Hk. destruct (aes_key k) as (b & -> & Hb); [destruct Hk; auto|]. destruct (gcm_block b Hb) as [a ->]. by exists a.
    - intros a. destruct (aes_NewCipher k) as [b|]; [|done]. destruct (NewGCM b) as [a'|] eqn:E; [|done]. intros [= <-]. by eapply gcm_sizes. }
  destruct Hg as [Hg1 Hg2]. repeat case_match; try done; injection H as <-; cbn; split; auto; split; auto; split; auto.
  - intros Hk. destruct (chacha_key k Hk) as [a ->]. by exists a.
  - intros a. destruct (chacha20poly1305_New k) as [a'|] eqn:E; [|done]. intros [= <-]. by eapply chacha_sizes.
Qed.

(** A context whose counter has not passed the limit. *)
Record ready c : Prop := {
  rd_size : NonceSize c.(aead) = 12;
  rd_overhead : AEAD_Overhead c.(aead) = 16;
  rd_nonce : length c.(baseNonce) = 12%nat;
  rd_wf : uint128.wf c.(seqNum);
  rd_limit : uint128.value c.(seqNum) <= message_limit
}.

Lemma newContext_ok secret kem kdf aead info : kdf_of kdf = Some SHA256 -> aead_of aead <> None ->
  exists c, newContext secret kem kdf aead info = Ret (inr c) /\ ready c /\ uint128.value c.(seqNum) = 0.
Proof.
  intros Hk Ha. unfold newContext. rewrite Hk. destruct (aead_of aead) as [e|] eqn:Ee; [|done]. set (sid := suiteID kem kdf aead).
  set (ks := [x00] ++ _). set (sec := LabeledExtract SHA256 sid secret "secret" []).
  pose proof (aead_of_ok _ _ [] Ee) as (Hn & Hs & _). rewrite Hn, !Z.mod_small by (cbn; lia).
  destruct (LabeledExpand_ok sid sec "key" ks (keySize e)) as (k & -> & Hl); [lia|]. cbn [obind].
  destruct (LabeledExpand_ok sid sec "base_nonce" ks 12) as (nonce & -> & Hl2); [lia|]. cbn [obind].
  destruct (LabeledExpand_ok sid sec "exp" ks (Z.of_nat (hash_size SHA256))) as (ex & -> & Hl3); [cbn; lia|]. cbn [obind].
  destruct (aead_of_ok _ _ k Ee) as (_ & _ & Hnew & Hsize). destruct (Hnew Hl) as [a Hna]. rewrite Hna. eexists. split; [reflexivity|]. split; [|reflexivity].
  destruct (Hsize a Hna). constructor; cbn; [done|done|unfold len in Hl2; lia|unfold uint128.wf; cbn; lia|unfold message_limit, uint128.value; cbn; lia].
Qed.

(** With supported algorithms, when the ephemeral key can be made and its product with
    the key of the recipient computed, both sides get the same context. *)
Lemma setup_ok rand kdf aead priv info eph secret : kdf_of kdf <> None -> aead_of aead <> None ->
  ecdh_GenerateKey rand = inr eph -> ecdh_ECDH eph (ecdh_PublicKey priv) = inr secret ->
  exists enc c, SetupSender rand DHKEM_X25519_HKDF_SHA256 kdf aead (ecdh_PublicKey priv) info = Ret (inr (enc, c)) /\
    SetupReceipient DHKEM_X25519_HKDF_SHA256 kdf aead priv info enc = Ret (inr c) /\ ready c /\ uint128.value c.(seqNum) = 0.
Proof.
  intros Hk Ha Hg Hs. unfold SetupSender, SetupReceipient. destruct (newDHKem _) as [e|kem] eqn:Ek; [discriminate|]. unfold Encap, Decap.
  exists (ecdh_Bytes (ecdh_PublicKey eph)). rewrite Hg, Hs, NewPublicKey_Bytes, (ECDH_comm priv), Hs.
  destruct (ExtractAndExpand_ok kem secret (ecdh_Bytes (ecdh_PublicKey eph) ++ ecdh_Bytes (ecdh_PublicKey priv)) Ek) as [x Hx]. rewrite Hx. cbn [obind].
  assert (Hk' : kdf_of kdf = Some SHA256) by (unfold kdf_of in *; by destruct (kdf =? _)).
  destruct (newContext_ok x DHKEM_X25519_HKDF_SHA256 kdf aead info Hk' Ha) as (c & Hc & Hr & Hv). rewrite Hc. cbn [obind]. by exists c.
Qed.

(** What a successful [SetupSender] needs. *)
Lemma sender_inv rand kdf aead pub info enc s : SetupSender rand DHKEM_X25519_HKDF_SHA256 kdf aead pub info = Ret (inr (enc, s)) ->
  kdf_of kdf <> None /\ aead_of aead <> None /\ exists eph secret, ecdh_GenerateKey rand = inr eph /\ ecdh_ECDH eph pub = inr secret.
Proof.
  unfold SetupSender. destruct (newDHKem _) as [|kem]; [done|]. unfold Encap. destruct (ecdh_GenerateKey rand) as [|eph]; [done|]. destruct (ecdh_ECDH eph pub) as [|dh] eqn:Ed; [done|].
  destruct (ExtractAndExpand _ _ _); [done|]. cbn [obind]. unfold newContext. destruct (kdf_of kdf); [|done]. destruct (aead_of aead); [|done]. eauto 8.
Qed.
(** The recipient of a sender. *)
Lemma setup_agree rand kdf aead priv info enc s : SetupSender rand DHKEM_X25519_HKDF_SHA256 kdf aead (ecdh_PublicKey priv) info = Ret (inr (enc, s)) ->
  SetupReceipient DHKEM_X25519_HKDF_SHA256 kdf aead priv info enc = Ret (inr s) /\ ready s /\ uint128.value s.(seqNum) = 0.
Proof.
  intros H. destruct (sender_inv _ _ _ _ _ _ _ H) as (Hk & Ha & eph & secret & Hg & Hs).
  destruct (setup_ok rand kdf aead priv info eph secret Hk Ha Hg Hs) as (enc' & s' & H1 & H2). rewrite H in H1. injection H1 as -> ->. exact H2.
Qed.

(** ** Messages *)

Lemma nextNonce_ok c : ready c -> nextNonce c = Ret (xor_bytes c.(baseNonce) (be 12 (uint128.value c.(seqNum)))).
Proof.
  intros [H1 H0 H2 H3 H4]. unfold nextNonce. rewrite H1. change (16 - 12) with 4. rewrite bytes_value by done. cbn [obind]. unfold len. rewrite H2, length_be.
  change (Z.of_nat 12 <=? Z.of_nat 12) with true. cbn iota. rewrite take_ge, drop_ge, app_nil_r by (rewrite length_be; lia). done.
Qed.
Lemma incrementNonce_ok c : ready c -> incrementNonce c = (if uint128.value c.(seqNum) =? message_limit then Panic else Ret (set_seqNum (uint128.addOne c.(seqNum)) c)).
Proof. intros [H1 H0 H2 H3 H4]. unfold incrementNonce. rewrite H1. change (12 * 8 - 1) with 95. by rewrite bitLen_limit. Qed.
Lemma ready_next c : ready c -> uint128.value c.(seqNum) <> message_limit ->
  ready (set_seqNum (uint128.addOne c.(seqNum)) c) /\ uint128.value (uint128.addOne c.(seqNum)) = uint128.value c.(seqNum) + 1.
Proof.
  intros [H1 H0 H2 H3 H4] Hn. destruct (addOne_value c.(seqNum) H3) as [H5 H6]; [unfold message_limit in *; lia|]. split; [|exact H6]. constructor; cbn; [done|done|done|done|].
  rewrite H6. lia.
Qed.

(** Messages with their additional data, one after the other. *)
Fixpoint seal_all s (msgs : list (bytes * bytes)) : outcome (context * list bytes) :=
  match msgs with
  | [] => Ret (s, [])
  | (aad, plaintext) :: msgs =>
      run (s, ciphertext) := Seal s aad plaintext in
      run (s, rest) := seal_all s msgs in
      Ret (s, ciphertext :: rest)
  end.
Fixpoint open_all r (msgs : list (bytes * bytes)) : outcome (context * res (list bytes)) :=
  match msgs with
  | [] => Ret (r, inr [])
  | (aad, ciphertext) :: msgs =>
      run (r, p) := Open r aad ciphertext in
      match p with
      | inl e => Ret (r, inl e)
      | inr p => run (r, rest) := open_all r msgs in Ret (r, match rest with inl e => inl e | inr rest => inr (p :: rest) end)
      end
  end.

Lemma seal_step c aad p : ready c ->
  Seal c aad p = if uint128.value c.(seqNum) =? message_limit then Panic
                 else Ret (set_seqNum (uint128.addOne c.(seqNum)) c, AEAD_Seal c.(aead) (xor_bytes c.(baseNonce) (be 12 (uint128.value c.(seqNum)))) p aad).
Proof. intros Hr. unfold Seal. rewrite nextNonce_ok by done. cbn [obind]. rewrite incrementNonce_ok by done. by destruct (_ =? _). Qed.
Lemma open_step c aad p : ready c -> uint128.value c.(seqNum) <> message_limit ->
  Open c aad (AEAD_Seal c.(aead) (xor_bytes c.(baseNonce) (be 12 (uint128.value c.(seqNum)))) p aad) = Ret (set_seqNum (uint128.addOne c.(seqNum)) c, inr p).
Proof.
  intros Hr Hn. unfold Open. rewrite nextNonce_ok by done. cbn [obind]. rewrite AEAD_open, incrementNonce_ok by done. by rewrite (proj2 (Z.eqb_neq _ _) Hn).
Qed.

(** The two directions of a stream of messages. *)
Lemma stream_ok msgs : forall c, ready c -> uint128.value c.(seqNum) + len msgs <= message_limit ->
  exists c' cts, seal_all c msgs = Ret (c', cts) /\ open_all c (zip (map fst msgs) cts) = Ret (c', inr (map snd msgs)) /\
    ready c' /\ uint128.value c'.(seqNum) = uint128.value c.(seqNum) + len msgs /\ c' = set_seqNum c'.(seqNum) c.
Proof.
  induction msgs as [|[aad p] msgs IH]; intros c Hr Hl.
  - exists c, []. cbn. unfold len. cbn. split; [done|]. split; [done|]. split; [done|]. split; [lia|]. by destruct c.
  - unfold len in Hl. cbn [length] in Hl. assert (Hn : uint128.value c.(seqNum) <> message_limit) by lia. destruct (ready_next c Hr Hn) as [Hr2 Hv2].
    destruct (IH (set_seqNum (uint128.addOne c.(seqNum)) c) Hr2) as (c' & cts & H1 & H2 & H3 & H4 & H5); [cbn; unfold len; lia|].
    cbn [seal_all]. rewrite seal_step, (proj2 (Z.eqb_neq _ _) Hn) by done. cbn [obind]. rewrite H1. cbn [obind]. eexists c', _. split; [reflexivity|].
    cbn [map fst zip open_all]. cbn [zip_with open_all]. rewrite open_step by done. cbn [obind]. rewrite H2. cbn [obind]. split; [done|]. split; [done|].
    cbn in H4. unfold len in *. cbn [length]. split; [lia|]. by rewrite H5 at 1.
Qed.

Lemma stream_stops msgs : forall c, ready c -> message_limit < uint128.value c.(seqNum) + len msgs -> seal_all c msgs = Panic.
Proof.
  induction msgs as [|[aad p] msgs IH]; intros c Hr Hl; [destruct Hr; unfold len in Hl; cbn in Hl; lia|].
  cbn [seal_all]. rewrite seal_step by done. destruct (_ =? message_limit) eqn:E; [done|]. apply Z.eqb_neq in E. destruct (ready_next c Hr E) as [Hr2 Hv2]. cbn [obind].
  rewrite IH; [done|done|]. cbn. unfold len in *. cbn [length] in Hl. lia.
Qed.

(** At the limit nothing more is sealed or opened. *)
Lemma limit_stops c aad x : ready c -> uint128.value c.(seqNum) = message_limit ->
  Seal c aad x = Panic /\ (Open c aad x = Panic \/ Open c aad x = Ret (c, inl errOpen)).
Proof.
  intros Hr Hv. rewrite seal_step by done. rewrite (proj2 (Z.eqb_eq _ _) Hv). split; [done|]. unfold Open. rewrite nextNonce_ok by done. cbn [obind].
  destruct (AEAD_Open _ _ _ _); [|by right]. rewrite incrementNonce_ok, (proj2 (Z.eqb_eq _ _) Hv) by done. by left.
Qed.


(** The nonce of message [i], as RFC 9180 has it. *)
Definition nonce_of (s : context) (i : Z) : bytes := xor_bytes s.(baseNonce) (be 12 i).

Lemma sealed_with msgs : forall c c' cts, ready c -> seal_all c msgs = Ret (c', cts) ->
  cts = zip_with (fun nonce '(aad, plaintext) => AEAD_Seal c.(aead) nonce plaintext aad)
          (map (nonce_of c) (seqZ (uint128.value c.(seqNum)) (len msgs))) msgs /\
  uint128.value c.(seqNum) + len msgs <= message_limit.
Proof.
  induction msgs as [|[aad p] msgs IH]; intros c c' cts Hr; cbn [seal_all].
  - intros [= _ <-]. split; [by destruct (map _ _)|]. destruct Hr. unfold len. cbn. lia.
  - rewrite seal_step by done. destruct (_ =? message_limit) eqn:E; [done|]. apply Z.eqb_neq in E. destruct (ready_next c Hr E) as [Hr2 Hv2]. cbn [obind].
    destruct (seal_all _ msgs) as [|[c2 rest]] eqn:Es; [done|]. cbn [obind]. intros [= <- <-]. destruct (IH _ _ _ Hr2 Es) as [IH1 IH2].
    cbn in IH1, IH2. rewrite Hv2 in IH1, IH2. rewrite len_cons, seqZ_cons by (pose proof (len_nonneg msgs); lia).
    split; [|lia]. cbn [map zip_with]. unfold nonce_of at 1. f_equal. rewrite IH1. replace (Z.pred (1 + len msgs)) with (len msgs) by lia.
    replace (Z.succ (uint128.value (seqNum c))) with (uint128.value (seqNum c) + 1) by lia. done.
Qed.

(** C16: no two messages of a sender are sealed with the same nonce: the ciphertexts of a
    sender, from its first message on, are what the AEAD makes with the nonces of RFC 9180,
    the base nonce xor the number of the message, and these nonces are all different. *)
Theorem hpke_nonces_distinct rand kdf aeadID priv info enc s msgs s' cts :
  SetupSender rand DHKEM_X25519_HKDF_SHA256 kdf aeadID (ecdh_PublicKey priv) info = Ret (inr (enc, s)) ->
  seal_all s msgs = Ret (s', cts) ->
  let nonces := map (nonce_of s) (seqZ 0 (len msgs)) in
  cts = zip_with (fun nonce '(aad, plaintext) => AEAD_Seal s.(aead) nonce plaintext aad) nonces msgs /\ NoDup nonces.
Proof.
  intros Hset H nonces. destruct (setup_agree _ _ _ _ _ _ _ Hset) as (_ & Hr & Hv). destruct (sealed_with _ _ _ _ Hr H) as [H1 H2]. rewrite Hv in H1, H2.
  split; [exact H1|]. unfold nonces. apply NoDup_fmap_2_strong; [|apply NoDup_seqZ]. intros i j Hi Hj Hx. apply elem_of_seqZ in Hi, Hj.
  unfold nonce_of in Hx. apply xor_bytes_inj in Hx; [|rewrite length_be; by destruct Hr|rewrite length_be; by destruct Hr].
  apply (f_equal be_val) in Hx. unfold message_limit in H2. rewrite !be_val_be_small in Hx by (cbn; lia). done.
Qed.
End Facts.

(** * Example *)

(** Keys are numbers, the product of two is their sum. *)
Definition toy_x25519 : X25519Keys := {|
  ecdhPrivate := Z; ecdhPublic := bytes; entropy := Z;
  ecdh_GenerateKey z := inr z;
  ecdh_PublicKey z := be 32 z;
  ecdh_Bytes b := b;
  ecdh_NewPublicKey b := inr b;
  ecdh_NewPrivateKey b := inr (be_val b);
  ecdh_ECDH a b := inr (be 32 ((a mod 256 ^ 32 + be_val b) mod 256 ^ 32))
|}.
#[export] Instance toy_x25519_ok : X25519KeysOk toy_x25519.
Proof.
  constructor; [done|]. intros a b. cbn. rewrite !be_val_be. change (256 ^ Z.of_nat 32) with (256 ^ 32). by rewrite Z.add_comm.
Qed.
Definition toy_nonces : NonceSizes toy_ciphers := {| NonceSize _ := 12 |}.
#[export] Instance toy_nonces_ok : NonceSizesOk toy_blocks toy_nonces.
Proof. by constructor. Qed.

#[local] Existing Instance toy_ciphers.
#[local] Existing Instance toy_blocks.
#[local] Existing Instance toy_nonces.
#[local] Existing Instance toy_hash.
#[local] Existing Instance toy_x25519.

Definition example_messages : list (bytes * bytes) := [([x01], [x02; x03]); ([], [x04]); ([x05], [])].

Lemma hpke_nonces_distinct_witness : exists enc s s' cts,
  hpke.SetupSender (5 : @entropy toy_x25519) DHKEM_X25519_HKDF_SHA256 KDF_HKDF_SHA256 AEAD_ChaCha20Poly1305 (ecdh_PublicKey (7 : @ecdhPrivate toy_x25519)) [] = Ret (inr (enc, s)) /\
  seal_all s example_messages = Ret (s', cts) /\
  cts = zip_with (fun nonce '(aad, plaintext) => AEAD_Seal s.(hpke.aead) nonce plaintext aad) (map (nonce_of s) [0; 1; 2]) example_messages /\
  NoDup (map (nonce_of s) [0; 1; 2]).
Proof.
  destruct (hpke.SetupSender (5 : @entropy toy_x25519) DHKEM_X25519_HKDF_SHA256 KDF_HKDF_SHA256 AEAD_ChaCha20Poly1305 (ecdh_PublicKey (7 : @ecdhPrivate toy_x25519)) [])
    as [|[e|[enc s]]] eqn:E1; [discriminate E1|discriminate E1|].
  destruct (seal_all s example_messages) as [|[s2 cts]] eqn:E2; [injection E1 as <- <-; discriminate E2|].
  destruct (hpke_nonces_distinct (Sy := toy_sync) (5 : @entropy toy_x25519) KDF_HKDF_SHA256 AEAD_ChaCha20Poly1305 (7 : @ecdhPrivate toy_x25519) []
    enc s example_messages s2 cts) as [H1 H2]; [exact E1|exact E2|].
  exists enc, s, s2, cts. split; [reflexivity|]. split; [exact E2|]. split; [exact H1|exact H2].
Defined.
