(* ===== verification/EchFacts.v ===== *)
(** * An inner hello that the client seals is what the server opens

    Composes the parts of Encrypted ClientHello: [computeAndUpdateOuterECHExtension]
    (ech.go) of the client with the [Seal] of Hpke, the outer hello on the wire, and
    [processECHClientHello] of the server with [SetupReceipient] and [Open] of Hpke. *)

From S2P Require Import Prelude Cryptobyte Common Codec Buffer Negotiation KeySchedule Record Messages ClientHello Suites ECH Hpke.

(** ** The outer hello with another extension *)

Section Swap.
Context `{C : Cryptobyte} {Cok : CryptobyteOk C}.
Import clientHelloMsg.

(** The extensions before and after encrypted_client_hello. *)
Definition before_ech (m : t) : Builder -> Builder :=
  bwhen (0 <? len m.(serverName)) (add_server_name m) ;>
  bwhen ((0 <? len m.(supportedPoints)) && negb false) (add_supported_points m) ;>
  bwhen (m.(ticketSupported) && negb false) (add_session_ticket m) ;>
  bwhen (m.(secureRenegotiationSupported) && negb false) (add_renegotiation_info m) ;>
  bwhen (m.(extendedMasterSecret) && negb false) (AddUint16 extensionExtendedMasterSecret ;> AddUint16 0) ;>
  bwhen (m.(scts) && negb false) (AddUint16 extensionSCT ;> AddUint16 0) ;>
  bwhen (m.(earlyData) && negb false) (AddUint16 extensionEarlyData ;> AddUint16 0) ;>
  bwhen (non_nil m.(quicTransportParameters) && negb false) (add_quic_transport_parameters m).
Definition after_ech (m : t) : Builder -> Builder :=
  bwhen (m.(ocspStapling) && negb false) add_status_request ;>
  bwhen ((0 <? len m.(supportedCurves)) && negb false) (add_u16_list extensionSupportedCurves m.(supportedCurves)) ;>
  bwhen ((0 <? len m.(supportedSignatureAlgorithms)) && negb false) (add_u16_list extensionSignatureAlgorithms m.(supportedSignatureAlgorithms)) ;>
  bwhen ((0 <? len m.(supportedSignatureAlgorithmsCert)) && negb false)
    (add_u16_list extensionSignatureAlgorithmsCert m.(supportedSignatureAlgorithmsCert)) ;>
  bwhen ((0 <? len m.(alpnProtocols)) && negb false) (add_alpn m) ;>
  bwhen (0 <? len m.(supportedVersions)) (add_u16_list8 extensionSupportedVersions m.(supportedVersions)) ;>
  bwhen ((0 <? len m.(cookie)) && negb false) (add_cookie m) ;>
  bwhen ((0 <? len m.(keyShares)) && negb false) (add_key_share m) ;>
  bwhen ((0 <? len m.(pskModes)) && negb false) (add_psk_modes m) ;>
  bwhen ((0 <? len (plain_outer_exts m false None)) && false) (add_u16_list8 extensionECHOuterExtensions (plain_outer_exts m false None)) ;>
  bwhen (0 <? len m.(pskIdentities)) (add_pre_shared_key m).

Lemma plain_exts_split m : (0 <? len m.(encryptedClientHello)) = true ->
  plain_exts m false None = (before_ech m ;> (add_encrypted_client_hello m ;> after_ech m)).
Proof. intros H. unfold plain_exts, before_ech, after_ech. rewrite H. cbn [andb negb]. reflexivity. Qed.

Lemma emits_before m : exists d, Emits (before_ech m) d.
Proof.
  eexists. unfold before_ech, add_server_name, add_supported_points, add_session_ticket, add_renegotiation_info, add_quic_transport_parameters. typeclasses eauto.
Qed.
Lemma emits_after m : exists d, Emits (after_ech m) d.
Proof.
  eexists. unfold after_ech, add_status_request, add_u16_list, add_alpn, add_u16_list8, add_cookie, add_key_share,
    add_psk_modes, add_pre_shared_key. typeclasses eauto.
Qed.

(** The extensions and the message around the extension. *)
Lemma exts_swap m x x' z : (0 <? len x) = true -> len x' = len x -> Bytes (plain_exts (set_encryptedClientHello x m) false None NewBuilder) = inr z ->
  exists p q, z = p ++ x ++ q /\ Bytes (plain_exts (set_encryptedClientHello x' m) false None NewBuilder) = inr (p ++ x' ++ q).
Proof.
  intros Hx Hl. destruct (emits_before m) as [dp Ep]. destruct (emits_after m) as [dq Eq].
  assert (E : forall y, (0 <? len y) = true -> Emits (plain_exts (set_encryptedClientHello y m) false None)
    (oapp dp (oapp (oapp (Some (be 2 extensionEncryptedClientHello)) (olp 2 (Some y))) dq))).
  { intros y Hy. rewrite plain_exts_split by done. apply emits_seq; [exact Ep|]. apply emits_seq; [|exact Eq].
    unfold add_encrypted_client_hello. cbn [encryptedClientHello set_encryptedClientHello]. typeclasses eauto. }
  intros H. apply (Bytes_emits _ _ _ (E x Hx)) in H. apply oapp_Some in H as (p & r & -> & H & ->). apply oapp_Some in H as (r1 & q & H & -> & ->).
  apply oapp_Some in H as (r2 & r3 & [= <-] & H & ->). apply olp_Some in H as (y & [= <-] & Hb & ->).
  exists (p ++ be 2 extensionEncryptedClientHello ++ be 2 (len x)), q. split; [by rewrite <- !app_assoc|].
  apply (Bytes_emits _ _ _ (E x' ltac:(by rewrite Hl))). unfold olp. rewrite Hl. rewrite (proj2 (Z.ltb_lt _ _) Hb). unfold oapp. by rewrite <- !app_assoc.
Qed.

Lemma build_split m z w : (0 <? len z) = true -> buildClientHello m false z = inr w ->
  exists hd, 4 <= len hd /\ w = hd ++ z /\ forall z', len z' = len z -> buildClientHello m false z' = inr (hd ++ z').
Proof.
  intros Hz. pose (hdr := AddUint16 m.(vers) ;> addBytesWithLength m.(random) 32 ;>
    AddUint8LengthPrefixed (bwhen (negb false) (AddBytes m.(sessionId))) ;>
    AddUint16LengthPrefixed (for_each m.(cipherSuites) (fun suite => AddUint16 suite)) ;> AddUint8LengthPrefixed (AddBytes m.(compressionMethods))).
  assert (Eh : exists dh, Emits hdr dh) by (eexists; unfold hdr; typeclasses eauto). destruct Eh as [dh Eh].
  assert (E : forall y, len y = len z -> exists f, buildClientHello m false y = Bytes (f NewBuilder) /\
    Emits f (oapp (Some (be 1 typeClientHello)) (olp 3 (oapp dh (olp 2 (Some y)))))).
  { intros y Hy. exists (AddUint8 typeClientHello ;> AddUint24LengthPrefixed (hdr ;> AddUint16LengthPrefixed (AddBytes y))). split.
    - unfold buildClientHello. rewrite Hy, Hz. reflexivity.
    - clearbody hdr. typeclasses eauto. }
  destruct (E z eq_refl) as (f & -> & Ef). intros H. apply (Bytes_emits _ _ _ Ef) in H. apply oapp_Some in H as (b1 & r & [= <-] & H & ->).
  apply olp_Some in H as (r2 & H & Hl & ->). apply oapp_Some in H as (hd & r3 & -> & H & ->). apply olp_Some in H as (r4 & [= <-] & Hl2 & ->).
  exists (be 1 typeClientHello ++ be 3 (len (hd ++ be 2 (len z) ++ z)) ++ hd ++ be 2 (len z)). split; [|split].
  - rewrite !len_app, !len_be. pose proof (len_nonneg hd). lia.
  - by rewrite <- !app_assoc.
  - intros z' Hz'. destruct (E z' Hz') as (f' & -> & Ef'). apply (Bytes_emits _ _ _ Ef'). unfold olp. rewrite Hz', (proj2 (Z.ltb_lt _ _) Hl2).
    unfold oapp. assert (Hle : len (hd ++ be 2 (len z) ++ z') = len (hd ++ be 2 (len z) ++ z)) by (rewrite !len_app; lia).
    rewrite Hle, (proj2 (Z.ltb_lt _ _) Hl). by rewrite <- !app_assoc.
Qed.

(** Two extensions of the same length. *)
Lemma hello_swap m x x' w : m.(original) = None -> (0 <? len x) = true -> len x' = len x -> marshal (set_encryptedClientHello x m) = inr w ->
  exists a b, w = a ++ x ++ b /\ 4 <= len a /\ marshal (set_encryptedClientHello x' m) = inr (a ++ x' ++ b).
Proof.
  intros Ho Hx Hl. unfold marshal. cbn [original set_encryptedClientHello]. rewrite Ho. unfold marshalMsg, marshalMsgReorderOuterExts, res_bind.
  destruct (Bytes _) as [e|z] eqn:Ez; [done|]. apply (exts_swap m x x' z Hx Hl) in Ez as (p & q & -> & Ez'). rewrite Ez'. clear Ez'.
  change (buildClientHello (set_encryptedClientHello x m) false) with (buildClientHello m false).
  change (buildClientHello (set_encryptedClientHello x' m) false) with (buildClientHello m false).
  intros (hd & H4 & -> & Hs)%build_split.
  - exists (hd ++ p), q. rewrite Hs by (rewrite !len_app; lia). rewrite <- !app_assoc. split; [done|]. split; [|done]. rewrite len_app. pose proof (len_nonneg p). lia.
  - rewrite !len_app. apply Z.ltb_lt in Hx. apply Z.ltb_lt. pose proof (len_nonneg p). pose proof (len_nonneg q). lia.
Qed.

(** The extension around its payload. *)
Lemma ext_split id kdf aead key pl x : generateOuterECHExt id kdf aead key pl = inr x ->
  exists p, p <> [] /\ x = p ++ pl /\ forall pl', len pl' = len pl -> generateOuterECHExt id kdf aead key pl' = inr (p ++ pl').
Proof.
  unfold generateOuterECHExt. intros H. denote H. repeat (apply oapp_Some in H as (? & ? & [= <-] & H & ->)).
  apply oapp_Some in H as (k & r & Hk & H & ->). apply olp_Some in Hk as (? & [= <-] & Hk & ->). apply olp_Some in H as (? & [= <-] & H & ->).
  exists (be 1 0 ++ be 2 kdf ++ be 2 aead ++ be 1 id ++ (be 2 (len key) ++ key) ++ be 2 (len pl)). split; [done|]. split; [by rewrite <- !app_assoc|]. intros pl' Hl.
  match goal with |- Bytes (?f NewBuilder) = _ => eassert (E : Emits f _) by typeclasses eauto end. apply (Bytes_emits _ _ _ E). unfold olp. rewrite Hl.
  repeat match goal with Hlt : ?n < _ |- _ => rewrite (proj2 (Z.ltb_lt _ _) Hlt); clear Hlt end. unfold oapp. by rewrite <- !app_assoc.
Qed.
End Swap.

(** ** The payload in the hello *)

(** How often [p] is in [s]. *)
Fixpoint occurrences (p s : bytes) : nat :=
  (if bool_decide (take (length p) s = p) then 1 else 0) + match s with [] => 0 | _ :: s => occurrences p s end.

Lemma occurs_at a p b : (1 <= occurrences p (a ++ p ++ b))%nat.
Proof.
  induction a as [|x a IH]; cbn [app].
  - destruct (p ++ b) as [|y s] eqn:E; cbn [occurrences]; rewrite <- E, bool_decide_true by (apply take_app_length); lia.
  - cbn [occurrences]. lia.
Qed.
(** [bytes.Replace] replaces the payload. *)
Lemma replace_at a p z b : occurrences p (a ++ p ++ b) = 1%nat -> replace_first p z (a ++ p ++ b) = a ++ z ++ b.
Proof.
  induction a as [|x a IH]; cbn [app].
  - intros _. destruct (p ++ b) as [|y s] eqn:E; cbn [replace_first]; rewrite <- E, bool_decide_true by (apply take_app_length); by rewrite drop_app_length.
  - cbn [occurrences replace_first]. destruct (bool_decide _).
    + intros H. pose proof (occurs_at a p b). lia.
    + intros H. by rewrite IH.
Qed.

(** ** Client and server *)

Section Session.
Context `{C : Cryptobyte} {CBok : CryptobyteOk C}.
Context {Cs : Ciphers} {Sy : Sync Cs} {Cok : CiphersOk Cs Sy} {B : BlockCiphers Cs} {Bok : BlockCiphersOk Sy B} {N : NonceSizes Cs} {Nok : NonceSizesOk B N}
  {K : Crypto} {Kok : CryptoOk K} {D : X25519Keys} {Dok : X25519KeysOk D}.
Import clientHelloMsg.

(** The operations of Hpke as ECH takes them: a context that stays below the limit does
    not panic, nor does setting one up. *)
Definition seal (s : hpke.context) (aad plaintext : bytes) : hpke.context * res bytes :=
  match hpke.Seal s aad plaintext with Ret (s, ciphertext) => (s, inr ciphertext) | Panic => (s, inl hpke.errAEAD) end.
Definition open_ (r : hpke.context) (aad ciphertext : bytes) : hpke.context * res bytes :=
  match hpke.Open r aad ciphertext with Ret r => r | Panic => (r, inl hpke.errOpen) end.
Definition recipient (kemID kdfID aeadID : Z) (priv : ecdhPrivate) (info encPubEph : bytes) : res hpke.context :=
  match hpke.SetupReceipient kemID kdfID aeadID priv info encPubEph with Ret r => r | Panic => inl hpke.errAEAD end.

(** What the client makes, and what the server opens. *)
Lemma sealed_opens outer inner ech s s' outer' useKey w e : ready s -> uint128.value s.(hpke.seqNum) < message_limit -> outer.(original) = None ->
  is_u8 ech.(echClientContext.config).(echConfig.ConfigID) -> is_u16 ech.(echClientContext.kdfID) -> is_u16 ech.(echClientContext.aeadID) ->
  computeAndUpdateOuterECHExtension seal outer inner ech s useKey = Ret (s', inr outer') -> marshal outer' = inr w ->
  parseECHExt outer'.(encryptedClientHello) = inr e -> occurrences e.(payload) (drop 4 w) = 1%nat ->
  e = MkExt outerECHExt (echCipher.Mk ech.(echClientContext.kdfID) ech.(echClientContext.aeadID)) ech.(echClientContext.config).(echConfig.ConfigID)
        (if useKey then ech.(echClientContext.encapsulatedKey) else []) e.(payload) /\
  exists outerExts encodedInner, encodeInnerClientHelloReorderOuterExts inner ech.(echClientContext.config).(echConfig.MaxNameLength) outerExts = Ret (inr encodedInner) /\
    decryptECHPayload open_ s w e.(payload) = Ret (s', inr encodedInner).
Proof.
  intros Hr Hlim Ho Hid Hkdf Haead H Hw He Hocc. unfold computeAndUpdateOuterECHExtension in H. set (encapKey := if useKey then _ else []) in *.
  destruct (marshal outer) as [|t0]; [by injection H|]. destruct (from t0 4) as [|t1]; [done|]. cbn [obind] in H.
  destruct (extractExtensionTypes t1) as [|types]; [done|]. cbn [obind] in H. destruct (encodeInnerClientHelloReorderOuterExts _ _ _) as [|[|enc]] eqn:Eenc; [done|by injection H|].
  cbn [obind] in H. destruct (make (len enc + 16)) as [|zeros] eqn:Ez; [done|]. cbn [obind] in H.
  destruct (generateOuterECHExt _ _ _ _ zeros) as [|ext0] eqn:E0; [by injection H|]. destruct (marshal (set_encryptedClientHello ext0 outer)) as [|w0] eqn:Em0; [by injection H|].
  destruct (from w0 4) as [|aad] eqn:Ea; [done|]. cbn [obind] in H. unfold seal in H. rewrite seal_step in H by done.
  rewrite (proj2 (Z.eqb_neq _ _)) in H by lia. set (ct := AEAD_Seal _ _ enc aad) in *.
  cbn [res_bind] in H. destruct (generateOuterECHExt _ _ _ _ ct) as [|ext1] eqn:E1; [by injection H|]. injection H as <- <-.
  assert (Hct : len ct = len enc + 16) by (unfold ct; rewrite AEAD_len; f_equal; by destruct Hr).
  assert (zeros = replicate (length ct) x00) as ->.
  { unfold make in Ez. destruct (0 <=? _); [|discriminate Ez]. injection Ez as <-. f_equal. unfold len in *. lia. }
  destruct (ext_split _ _ _ _ _ _ E0) as (p0 & Hp0 & -> & Hg). rewrite Hg in E1 by (unfold len; by rewrite length_replicate). injection E1 as <-.
  apply (hello_swap outer (p0 ++ replicate (length ct) x00) (p0 ++ ct) w0) in Em0 as (a & b & -> & Ha & Hm);
    [|done|apply Z.ltb_lt; destruct p0; [done|unfold len; cbn; lia]|unfold len; rewrite !length_app, length_replicate; done].
  change (set_encryptedClientHello (p0 ++ ct) (set_encryptedClientHello (p0 ++ replicate (length ct) x00) outer)) with (set_encryptedClientHello (p0 ++ ct) outer) in *.
  rewrite Hm in Hw. injection Hw as <-. cbn [encryptedClientHello set_encryptedClientHello] in He.
  assert (Hx : generateOuterECHExt ech.(echClientContext.config).(echConfig.ConfigID) ech.(echClientContext.kdfID) ech.(echClientContext.aeadID) encapKey ct = inr (p0 ++ ct))
    by (apply Hg; unfold len; by rewrite length_replicate).
  apply outer_ext_parsed in Hx; [|done|done|done]. rewrite He in Hx. injection Hx as ->. split; [done|]. cbn [payload] in *.
  assert (Hd : forall y, drop 4 (a ++ y) = drop 4 a ++ y) by (intros y; rewrite drop_app_le; [done|]; unfold len in Ha; lia).
  assert (Hf : forall y, from (a ++ y) 4 = Ret (drop 4 a ++ y)).
  { intros y. rewrite from_ok by (rewrite len_app; pose proof (len_nonneg y); lia). f_equal. apply Hd. }
  rewrite Hf in Ea. injection Ea as Haad. exists (appended types), enc. split; [exact Eenc|].
  unfold decryptECHPayload. rewrite Hf. cbn [obind]. rewrite Hd in Hocc.
  replace (drop 4 a ++ (p0 ++ ct) ++ b) with ((drop 4 a ++ p0) ++ ct ++ b) in * by (by rewrite <- !app_assoc). rewrite replace_at by done.
  replace ((drop 4 a ++ p0) ++ replicate (length ct) x00 ++ b) with aad by (rewrite <- Haad; by rewrite <- !app_assoc).
  unfold open_, ct. rewrite open_step by (done || lia). done.
Qed.

Lemma known_algorithms kdf aead : hpke.kdf_of kdf <> None -> hpke.aead_of aead <> None -> is_u16 kdf /\ is_u16 aead.
Proof.
  unfold hpke.kdf_of, hpke.aead_of, is_u16, KDF_HKDF_SHA256, AEAD_AES_128_GCM, AEAD_AES_256_GCM, AEAD_ChaCha20Poly1305. intros H1 H2.
  destruct (Z.eqb_spec kdf 1); [|done]. destruct (Z.eqb_spec aead 1), (Z.eqb_spec aead 2), (Z.eqb_spec aead 3); try done; lia.
Qed.

(** C14: Encrypted ClientHello reaches the server whole: an outer hello that the client
    has made with [computeAndUpdateOuterECHExtension] and a context set up for the public
    key of the server, is opened by a server that has that key first in its list, whose
    [processECHClientHello] goes on with exactly the encoded inner hello that the client
    sealed.  The encrypted payload must occur only once in the hello, since the server
    looks for its first occurrence. *)
Theorem ech_delivered rand outer inner ech s s' outer' w e rcv k keys config priv :
  let info := ech_info_prefix ++ k.(EncryptedClientHelloKey.Config) in
  hpke.SetupSender rand DHKEM_X25519_HKDF_SHA256 ech.(echClientContext.kdfID) ech.(echClientContext.aeadID) (ecdh_PublicKey priv) info =
    Ret (inr (ech.(echClientContext.encapsulatedKey), s)) ->
  parseECHConfig k.(EncryptedClientHelloKey.Config) = Ret (inr (Some config)) ->
  hpke.ParseHPKEPrivateKey config.(echConfig.KemID) k.(EncryptedClientHelloKey.PrivateKey) = inr priv ->
  is_u8 ech.(echClientContext.config).(echConfig.ConfigID) -> outer.(original) = None ->
  computeAndUpdateOuterECHExtension seal outer inner ech s true = Ret (s', inr outer') -> marshal outer' = inr w ->
  rcv.(original) = Some w -> rcv.(encryptedClientHello) = outer'.(encryptedClientHello) ->
  parseECHExt outer'.(encryptedClientHello) = inr e -> occurrences e.(payload) (drop 4 w) = 1%nat ->
  exists outerExts encodedInner, encodeInnerClientHelloReorderOuterExts inner ech.(echClientContext.config).(echConfig.MaxNameLength) outerExts = Ret (inr encodedInner) /\
    processECHClientHello hpke.ParseHPKEPrivateKey recipient open_ (k :: keys) rcv =
      Ret (match decodeInnerClientHello rcv encodedInner with
           | inl _ => fail_with alertIllegalParameter errInvalidECHExt
           | inr echInner => MkProcess None true (inr (echInner, Some (ServerOuter s' e.(configID) e.(cs))))
           end).
Proof.
  cbn zeta. intros Hset Hcfg Hpriv Hid Ho Hc Hw Hro Hre He Hocc. destruct (sender_inv _ _ _ _ _ _ _ Hset) as (Hk & Ha & _).
  destruct (known_algorithms _ _ Hk Ha) as [Hku Hau]. destruct (setup_agree _ _ _ _ _ _ _ Hset) as (Hrec & Hr & Hv).
  destruct (sealed_opens outer inner ech s s' outer' true w e) as (Hee & outerExts & enc & Henc & Hd); [done|rewrite Hv; unfold message_limit; lia|done|done|done|done|done|done|done|done|].
  exists outerExts, enc. split; [exact Henc|]. unfold processECHClientHello. rewrite Hre, He. rewrite Hee at 1. cbn [echType]. change (outerECHExt =? innerECHExt) with false. cbn iota.
  assert (Hl : (len (k :: keys) =? 0) = false) by (apply Z.eqb_neq; unfold len; cbn; lia). rewrite Hl. cbn [try_keys].
  rewrite Hcfg. cbn [obind]. rewrite Hpriv. unfold recipient. rewrite Hee at 1 2 3. cbn [cs encap echCipher.KDFID echCipher.AEADID]. rewrite Hrec, Hro. cbn [slice_bytes default].
  unfold slice_bytes. cbn. rewrite Hd. cbn [obind]. by destruct (decodeInnerClientHello rcv enc).
Qed.
End Session.

(** * Example *)

#[local] Existing Instance toy_ciphers.
#[local] Existing Instance toy_blocks.
#[local] Existing Instance toy_nonces.
#[local] Existing Instance toy_hash.
#[local] Existing Instance toy_x25519.
#[local] Existing Instance Reference.ops.
Import clientHelloMsg.

(** A configuration with the public key of the private key 7, and the key of the server. *)
Definition example_config : bytes :=
  let body := be 1 9 ++ be 2 DHKEM_X25519_HKDF_SHA256 ++ be 2 32 ++ be 32 7 ++ be 2 4 ++ be 2 KDF_HKDF_SHA256 ++ be 2 AEAD_AES_128_GCM ++ be 1 64 ++ be 1 4 ++
    be 4 0x61626364 ++ be 2 0 in
  be 2 extensionEncryptedClientHello ++ be 2 (len body) ++ body.
Definition example_key : EncryptedClientHelloKey.t := EncryptedClientHelloKey.Mk example_config (be 32 7) true.
(** An outer hello for the public name, and an inner one with another name. *)
Definition example_outer_hello : t :=
  set_supportedVersions [VersionTLS13] (set_pskBinders [] (set_pskIdentities [] (set_encryptedClientHello [] example_hello))).
Definition example_inner_hello : t := set_serverName (be 6 0x686964646e21) (set_encryptedClientHello [u8 innerECHExt] example_outer_hello).


(** The run: the client's HPKE context, the configuration, the hello it makes, its bytes
    and its extension. *)
Definition example_sender : hpke.context := Eval vm_compute in
  match hpke.SetupSender (5 : @entropy toy_x25519) DHKEM_X25519_HKDF_SHA256 KDF_HKDF_SHA256 AEAD_AES_128_GCM (ecdh_PublicKey (7 : @ecdhPrivate toy_x25519))
      (ech_info_prefix ++ example_config) with
  | Ret (inr (_, s)) => s
  | _ => hpke.MkContext 0 [] [] [] [] [] (uint128.Mk 0 0)
  end.
Definition example_parsed : echConfig.t := Eval vm_compute in
  match parseECHConfig example_config with Ret (inr (Some config)) => config | _ => echConfig.Mk [] 0 0 0 0 [] [] 0 [] [] end.
Definition example_ech : echClientContext.t := echClientContext.Mk example_parsed (be 32 5) KDF_HKDF_SHA256 AEAD_AES_128_GCM.
Definition example_sealed : hpke.context * t := Eval vm_compute in
  match computeAndUpdateOuterECHExtension seal example_outer_hello example_inner_hello example_ech example_sender true with
  | Ret (s, inr hello) => (s, hello)
  | _ => (example_sender, example_outer_hello)
  end.
Definition example_wire : bytes := Eval vm_compute in match marshal example_sealed.2 with inr w => w | inl _ => [] end.
Definition example_ext : ech_ext := Eval vm_compute in
  match parseECHExt example_sealed.2.(encryptedClientHello) with inr e => e | inl _ => MkExt 0 (echCipher.Mk 0 0) 0 [] [] end.
Definition example_received : t := set_original (Some example_wire) example_sealed.2.
Definition example_opened : t := Eval vm_compute in
  match processECHClientHello hpke.ParseHPKEPrivateKey recipient open_ [example_key] example_received with
  | Ret p => match p.(result) with inr (echInner, _) => echInner | inl _ => example_received end
  | Panic => example_received
  end.

(** The server goes on with the hidden name. *)
Lemma ech_delivered_witness : exists encodedInner echInner,
  processECHClientHello hpke.ParseHPKEPrivateKey recipient open_ [example_key] example_received =
    Ret (MkProcess None true (inr (echInner, Some (ServerOuter example_sealed.1 9 (echCipher.Mk KDF_HKDF_SHA256 AEAD_AES_128_GCM))))) /\
  decodeInnerClientHello example_received encodedInner = inr echInner /\ echInner.(serverName) = be 6 0x686964646e21.
Proof.
  destruct (ech_delivered (C := Reference.ops) (CBok := Reference.ok) (Sy := toy_sync) (5 : @entropy toy_x25519) example_outer_hello example_inner_hello example_ech example_sender example_sealed.1 example_sealed.2
    example_wire example_ext example_received example_key [] example_parsed (7 : @ecdhPrivate toy_x25519)) as (outerExts & enc & Henc & H).
  - vm_cast_no_check (@eq_refl (outcome (res (bytes * hpke.context))) (Ret (inr (be 32 5, example_sender)))).
  - vm_cast_no_check (@eq_refl (outcome (res (option echConfig.t))) (Ret (inr (Some example_parsed)))).
  - reflexivity.
  - cbn. unfold is_u8. lia.
  - reflexivity.
  - vm_cast_no_check (@eq_refl (outcome (hpke.context * res t)) (Ret (example_sealed.1, inr example_sealed.2))).
  - vm_cast_no_check (@eq_refl (res bytes) (inr example_wire)).
  - reflexivity.
  - reflexivity.
  - vm_cast_no_check (@eq_refl (res ech_ext) (inr example_ext)).
  - vm_cast_no_check (@eq_refl nat 1%nat).
  - assert (Hp : processECHClientHello hpke.ParseHPKEPrivateKey recipient open_ [example_key] example_received =
      Ret (MkProcess None true (inr (example_opened, Some (ServerOuter example_sealed.1 9 (echCipher.Mk KDF_HKDF_SHA256 AEAD_AES_128_GCM))))))
      by vm_cast_no_check (@eq_refl (outcome (@process_result hpke.context))
        (Ret (MkProcess None true (inr (example_opened, Some (ServerOuter example_sealed.1 9 (echCipher.Mk KDF_HKDF_SHA256 AEAD_AES_128_GCM))))))).
    exists enc, example_opened. split; [exact Hp|]. split; [|reflexivity].
    destruct (decodeInnerClientHello example_received enc) as [e|inner]; [|f_equal]; pose proof (eq_trans (eq_sym H) Hp) as E; [discriminate E|by injection E].
Defined.
