(* ===== verification/Forge.v ===== *)
(** * A connection without a handshake

    Models [MakeConnWithCompleteHandshake] of u_conn.go, which makes either end of a TLS
    1.0 to 1.2 connection from a master secret that was agreed on elsewhere.

    A forged server is in step with a real client for every suite, and a forged client
    with a real server for every suite but those in CBC mode, whose ciphers the code
    makes for the wrong direction ([forged_client_cbc]).  The error of
    [changeCipherSpec] is not looked at, so that in TLS 1.3 nothing is encrypted
    ([forged_plaintext]). *)

From S2P Require Import Prelude Common Config Negotiation Buffer KeySchedule Record Conn Suites.

Section Ops.
Context {Cs : Ciphers} {B : BlockCiphers Cs} {K : Crypto} {reader : Type}.

(** One direction: the cipher is installed and the Finished message counted. *)
Definition after_finished (version : Z) (c : cipher * option mac) : outcome halfConn.t :=
  incSeq (changeCipherSpec (prepareCipherSpec version (Some c.1) c.2 newHalfConn)).1.

(** [rand] is the source of the system. *)
Definition MakeConnWithCompleteHandshake (supported : list cipherSuite.t) (rand : reader) (tcpConn : net.t) (version cipherSuite : Z)
    (masterSecret clientRandom serverRandom : bytes) (isClient : bool) : outcome (option (Conn.t reader)) :=
  match cipherSuiteByID supported cipherSuite with
  | None => Ret None
  | Some cs =>
      run k := keysFromMasterSecret version cs masterSecret clientRandom serverRandom cs.(cipherSuite.macLen) cs.(cipherSuite.keyLen) cs.(cipherSuite.ivLen) in
      run k := make.must k in
      run client := direction true cs k.(keys.clientMAC) k.(keys.clientKey) k.(keys.clientIV) true in
      run server := direction true cs k.(keys.serverMAC) k.(keys.serverKey) k.(keys.serverIV) false in
      run in_ := after_finished version (if isClient then server else client) in
      run out := after_finished version (if isClient then client else server) in
      Ret (Some (Conn.Mk Cs reader tcpConn rand isClient true None version true Config.zero 0 cipherSuite None false in_ out [] [] [] false [] 0 0 0 0))
  end.
End Ops.

Section Facts.
Context {Cs : Ciphers} {Sy : Sync Cs} {B : BlockCiphers Cs} {Bok : BlockCiphersOk Sy B} {K : Crypto} {Kok : CryptoOk K} {reader : Type}.
Import halfConn.

Definition is_cbc_suite (s : cipherSuite.t) : bool := match s.(cipherSuite.cipher) with Some cipher3DES | Some cipherAES => true | _ => false end.

Lemma incSeq_synced e d : synced e d -> e.(seq) = replicate 8 x00 -> d.(seq) = replicate 8 x00 ->
  exists e' d', incSeq e = Ret e' /\ incSeq d = Ret d' /\ synced e' d'.
Proof.
  intros (Hv & _ & _ & _ & Hc) He Hd. unfold incSeq. rewrite He, Hd. cbn. eexists _, _. split; [done|]. split; [done|].
  unfold synced, cipher_sync, same_mac, no_mac in *. destruct e, d. cbn in *. done.
Qed.
Lemma after_finished_synced v w r : known_version v -> pair_sync w r ->
  exists e d, after_finished v w = Ret e /\ after_finished v r = Ret d /\ synced e d.
Proof.
  intros Hv Hp. destruct (installed_synced v w r newHalfConn newHalfConn Hv Hp) as (e & d & He & Hd & Hs).
  unfold after_finished, installed in *. rewrite He, Hd. cbn. apply incSeq_synced; [done|..].
  - unfold changeCipherSpec in He. cbn in He. repeat case_match; by injection He as <-.
  - unfold changeCipherSpec in Hd. cbn in Hd. repeat case_match; by injection Hd as <-.
Qed.
(** Outside of CBC mode a cipher is the same for both uses. *)
Lemma direction_same b s macKey key iv : is_cbc_suite s = false -> direction b s macKey key iv true = direction b s macKey key iv false.
Proof. unfold is_cbc_suite, direction. destruct (cipherSuite.cipher s) as [[]|]; by destruct b. Qed.

(** What a connection is forged from, and what the other end makes of it. *)
Lemma forge_keys suite v ms cr sr : suite ∈ utlsSupportedCipherSuites ++ EnableWeakCiphers -> known_version v ->
  exists k cw cr' sw sr', keysFromMasterSecret v suite ms cr sr suite.(cipherSuite.macLen) suite.(cipherSuite.keyLen) suite.(cipherSuite.ivLen) = Ret (Some k) /\
    (forall b, direction b suite k.(keys.clientMAC) k.(keys.clientKey) k.(keys.clientIV) false = Ret cw) /\
    (forall b, direction b suite k.(keys.clientMAC) k.(keys.clientKey) k.(keys.clientIV) true = Ret cr') /\
    (forall b, direction b suite k.(keys.serverMAC) k.(keys.serverKey) k.(keys.serverIV) false = Ret sw) /\
    (forall b, direction b suite k.(keys.serverMAC) k.(keys.serverKey) k.(keys.serverIV) true = Ret sr') /\ pair_sync cw cr' /\ pair_sync sw sr'.
Proof.
  intros Hs Hv. pose proof (proj1 (Forall_forall _ _) tables_fit suite Hs) as Hf.
  assert (0 <= suite.(cipherSuite.macLen) /\ 0 <= suite.(cipherSuite.keyLen) /\ 0 <= suite.(cipherSuite.ivLen)) as (H1 & H2 & H3).
  { unfold fits in Hf. rewrite !andb_true_iff, !Z.leb_le in Hf. tauto. }
  destruct (connection_keys v suite ms cr sr _ _ _ Hv H1 H2 H3) as (f & b & k & _ & _ & Hk & _ & _ & _ & Hck & Hsk & Hci & Hsi).
  destruct (direction_made suite k.(keys.clientMAC) _ _ Hf Hck Hci) as (cw & cr' & Hcw & Hcr & Hc).
  destruct (direction_made suite k.(keys.serverMAC) _ _ Hf Hsk Hsi) as (sw & sr' & Hsw & Hsr & Hsy).
  by exists k, cw, cr', sw, sr'.
Qed.

(** A forged connection is in step with the end that was made by a handshake: a server
    for every suite, a client for every suite that is not in CBC mode. *)
Theorem forged_in_step supported suite (rand : reader) tcp v ms cr sr isClient : cipherSuiteByID supported suite.(cipherSuite.id) = Some suite ->
  suite ∈ utlsSupportedCipherSuites ++ EnableWeakCiphers -> known_version v -> isClient = false \/ is_cbc_suite suite = false ->
  exists c pc ps e d, MakeConnWithCompleteHandshake supported rand tcp v suite.(cipherSuite.id) ms cr sr isClient = Ret (Some c) /\
    establish (negb isClient) v suite ms cr sr = Ret (Some (pc, ps)) /\
    after_finished v (if isClient then ps else pc) = Ret e /\ after_finished v (if isClient then pc else ps) = Ret d /\
    synced e c.(Conn.in_) /\ synced c.(Conn.out) d.
Proof.
  intros Hid Hs Hv Hc. destruct (forge_keys suite v ms cr sr Hs Hv) as (k & cw & cr' & sw & sr' & Hk & D1 & D2 & D3 & D4 & P1 & P2).
  destruct (after_finished_synced v _ _ Hv P1) as (e1 & d1 & E1 & F1 & S1). destruct (after_finished_synced v _ _ Hv P2) as (e2 & d2 & E2 & F2 & S2).
  unfold MakeConnWithCompleteHandshake, establish. rewrite Hid, Hk. cbn. rewrite !D2, !D3. cbn. destruct isClient; cbn.
  - destruct Hc as [[=]|Hc]. assert (cr' = cw) as -> by (pose proof (direction_same true suite k.(keys.clientMAC) k.(keys.clientKey) k.(keys.clientIV) Hc) as H; rewrite D1, D2 in H; by injection H).
    assert (sr' = sw) as -> by (pose proof (direction_same true suite k.(keys.serverMAC) k.(keys.serverKey) k.(keys.serverIV) Hc) as H; rewrite D3, D4 in H; by injection H).
    rewrite E1, E2. cbn. rewrite E1 in F1. rewrite E2 in F2. injection F1 as <-. injection F2 as <-.
    eexists _, cw, sw, e2, e1. split; [reflexivity|]. split; [by rewrite D2, D3|]. split; [exact E2|]. split; [exact E1|]. split; [exact S2|exact S1].
  - rewrite E2, F1. cbn. eexists _, cw, sr', e1, d2.
    split; [reflexivity|]. split; [by rewrite D1, D4|]. split; [exact E1|]. split; [exact F2|]. split; [exact S1|exact S2].
Qed.

(** A forged client in CBC mode writes with the decrypter of the keys it should encrypt
    with, and reads with the encrypter. *)
Theorem forged_client_cbc supported (rand : reader) tcp v ms cr sr suite k b b' :
  cipherSuiteByID supported suite.(cipherSuite.id) = Some suite -> suite.(cipherSuite.cipher) = Some cipherAES -> suite.(cipherSuite.mac) <> None -> known_version v ->
  keysFromMasterSecret v suite ms cr sr suite.(cipherSuite.macLen) suite.(cipherSuite.keyLen) suite.(cipherSuite.ivLen) = Ret (Some k) ->
  aes_NewCipher k.(keys.clientKey) = Some b -> block_BlockSize b = len k.(keys.clientIV) ->
  aes_NewCipher k.(keys.serverKey) = Some b' -> block_BlockSize b' = len k.(keys.serverIV) ->
  exists c, MakeConnWithCompleteHandshake supported rand tcp v suite.(cipherSuite.id) ms cr sr true = Ret (Some c) /\
    c.(Conn.out).(cipher) = Some (CbcMode (NewCBCDecrypter b k.(keys.clientIV))) /\ c.(Conn.in_).(cipher) = Some (CbcMode (NewCBCEncrypter b' k.(keys.serverIV))).
Proof.
  intros Hid Hc Hm Hv Hk Hb Hl Hb' Hl'. unfold MakeConnWithCompleteHandshake, direction. rewrite Hid, Hk, Hc. cbn. unfold make.cipherAES, make.cbc_mode.
  rewrite Hb, Hb'. cbn. rewrite Hl, Hl', !Z.eqb_refl. destruct (cipherSuite.mac suite); [|done]. cbn. unfold after_finished, changeCipherSpec. cbn.
  assert (Hn : v <> VersionTLS13) by (destruct Hv as [->|[->| ->]]; done). rewrite (proj2 (Z.eqb_neq _ _) Hn). cbn. eexists. split; [reflexivity|]. done.
Qed.

(** With the number of TLS 1.3 a connection is marked complete but has no cipher. *)
Theorem forged_plaintext supported (rand : reader) tcp id ms cr sr isClient c :
  MakeConnWithCompleteHandshake supported rand tcp VersionTLS13 id ms cr sr isClient = Ret (Some c) ->
  c.(Conn.isHandshakeComplete) = true /\ c.(Conn.out).(cipher) = None /\ c.(Conn.in_).(cipher) = None.
Proof.
  unfold MakeConnWithCompleteHandshake. destruct (cipherSuiteByID _ _) as [cs|]; [|done]. intros H.
  do 6 match type of H with obind ?o _ = _ => destruct o eqn:?; [done|]; cbn [obind] in H end. injection H as <-. cbn.
  unfold after_finished in *. destruct isClient; cbn in *; by repeat match goal with H : Ret _ = Ret _ |- _ => injection H as <- end.
Qed.
End Facts.
