(* ===== verification/ConnFacts.v ===== *)
(** * What connections deliver

    Theorems on the connections of Conn.v: reading ends and does one thing at a
    time, data and handshake messages arrive at the other end as they were sent,
    and nothing is sent after the close_notify alert. *)

From S2P Require Import Prelude Cryptobyte Common Config Negotiation Codec Buffer KeySchedule Record Messages RawMessages ServerHello ClientHello Handshake Conn.

(** * Reading from the network *)

Section Reading.
Context `{C : Cryptobyte} {Cs : Ciphers} {K : Crypto}.
Context {reader : Type} (ReadFull : Z -> reader -> reader * res bytes).
Import Conn.
Implicit Types c : Conn.t reader.

Lemma bind_run {A B} (m : M A) (k : A -> M B) c c' a : m c = Ret (c', a) -> bind m k c = k a c'.
Proof. unfold bind. by intros ->. Qed.

Definition set_reads (rs : list (bytes * option connError)) (n : net.t) : net.t :=
  net.Mk rs n.(net.writes) n.(net.sent) n.(net.expired) n.(net.closeErr) n.(net.closed).
Definition arriving (rs : list (bytes * option connError)) : bytes := concat (map fst rs).
Definition no_error (r : bytes * option connError) : Prop := r.2 = None.

(** A [Read] without error uses up a result. *)
Lemma atLeast_shorter r r' p : atLeastReader_Read r = (r', (p, None)) -> S (length r'.1.(net.reads)) = length r.1.(net.reads).
Proof.
  destruct r as [[rs ws sent ex ce cl] N]. unfold atLeastReader_Read. destruct (N <=? 0); [done|].
  destruct rs as [|[q e] rs]; cbn.
  - by repeat case_match; intros ?; simplify_eq.
  - intros [= <- _ _]. done.
Qed.

(** [bytes.Buffer.ReadFrom] ends, whatever the connection gives. *)
Lemma ReadFrom_returns r buf : exists R buf' e, ReadFrom (S (length r.1.(net.reads))) r buf = Ret (R, buf', e).
Proof.
  remember (length r.1.(net.reads)) as n eqn:Hn. revert r buf Hn. induction n as [|n IH]; intros r buf Hn; cbn [ReadFrom];
    destruct (atLeastReader_Read r) as [r' [p [e|]]] eqn:E; [by repeat eexists| |by repeat eexists|];
    apply atLeast_shorter in E; [lia|apply IH; lia].
Qed.

(** When enough is coming, it is read. *)
Lemma ReadFrom_ok R N buf : 0 < N -> Forall no_error R.(net.reads) -> N <= len (arriving R.(net.reads)) ->
  exists rs p, ReadFrom (S (length R.(net.reads))) (R, N) buf = Ret (set_reads rs R, buf ++ p, None) /\
    p ++ arriving rs = arriving R.(net.reads) /\ N <= len p /\ Forall no_error rs.
Proof.
  intros HN Hok Hlen. destruct R as [rs ws sent ex ce cl]. cbn [net.reads] in *. revert N buf HN Hlen.
  induction Hok as [|[p e] rs He Hok IH]; intros N buf HN Hlen; [unfold arriving, len in Hlen; cbn in Hlen; lia|].
  unfold no_error in He. cbn in He. subst e. unfold arriving in Hlen. cbn [map concat fst] in Hlen. rewrite len_app in Hlen.
  cbn [ReadFrom atLeastReader_Read net.Read net.reads length]. cbv zeta. replace (N <=? 0) with false by lia.
  rewrite bool_decide_false by done. rewrite andb_false_r, bool_decide_true, andb_true_r by done.
  destruct (Z.leb_spec (N - len p) 0).
  - rewrite bool_decide_true by done. exists rs, p. cbn. split_and!; [done|done|lia|done].
  - destruct (IH (N - len p) (buf ++ p)) as (rs' & q & Hr & Ha & Hl & Hf); [lia|unfold arriving; lia|].
    cbn [net.writes net.sent net.expired net.closeErr net.closed] in *. exists rs', (p ++ q). split; [|split_and!].
    + etransitivity; [exact Hr|]. by rewrite <- app_assoc.
    + rewrite <- app_assoc, Ha. done.
    + rewrite len_app. lia.
    + done.
Qed.

(** What has been read and what is coming. *)
Definition stream_of c : bytes := c.(rawInput) ++ arriving c.(conn).(net.reads).
Definition healthy c : Prop := Forall no_error c.(conn).(net.reads).

Lemma readFromUntil_ok c n : healthy c -> n <= len (stream_of c) ->
  exists raw rs, let c' := set_rawInput raw (set_conn (set_reads rs c.(conn)) c) in
    readFromUntil n c = Ret (c', None) /\ stream_of c' = stream_of c /\ healthy c' /\ n <= len raw.
Proof.
  intros Hh Hn. unfold readFromUntil. destruct (Z.leb_spec n (len c.(rawInput))).
  - exists c.(rawInput), c.(conn).(net.reads). cbn. split_and!; [|done|done|done]. by destruct c as [[]].
  - unfold stream_of in *. rewrite len_app in Hn.
    destruct (ReadFrom_ok c.(conn) (n - len c.(rawInput)) c.(rawInput)) as (rs & p & -> & Ha & Hl & Hf); [lia|done|lia|].
    cbn [obind]. exists (c.(rawInput) ++ p), rs. cbn. split_and!; [done| |done|rewrite len_app; lia].
    rewrite <- app_assoc. by rewrite <- Ha.
Qed.

Lemma readFromUntil_returns c n : exists c' e, readFromUntil n c = Ret (c', e) /\
  c' = set_rawInput c'.(rawInput) (set_conn c'.(conn) c).
Proof.
  unfold readFromUntil. case_match; [exists c, None; split; [done|by destruct c]|].
  destruct (ReadFrom_returns (c.(conn), n - len c.(rawInput)) c.(rawInput)) as (R & buf & e & Hr). cbn [fst] in Hr. rewrite Hr. cbn [obind].
  by eexists _, _.
Qed.

(** ** A record that a peer in step has sent *)

Context {Sy : Sync Cs}.

Lemma header_fields typ vers n : 0 <= typ < 256 -> 0 <= vers < 65536 -> 0 <= n < 65536 ->
  get (record_header typ vers n) 0 = Ret typ /\ get16 (record_header typ vers n) 1 = Ret vers /\
  get16 (record_header typ vers n) 3 = Ret n.
Proof.
  intros Ht Hv Hn. change (get (record_header typ vers n) 0) with (Ret (b2z (u8 typ))).
  change (get16 (record_header typ vers n) 1) with (Ret (be2 (b2z (u8 (Z.shiftr vers 8))) (b2z (u8 vers)))).
  change (get16 (record_header typ vers n) 3) with (Ret (be2 (b2z (u8 (Z.shiftr n 8))) (b2z (u8 n)))).
  rewrite !be2_bytes, b2z_u8_small by done. change (2 ^ 16) with 65536. by rewrite !Z.mod_small.
Qed.

(** The first record, once it has been read. *)
Lemma take_record (raw coming record rest : bytes) n : raw ++ coming = record ++ rest -> Z.of_nat n <= len raw -> (n <= length record)%nat ->
  take n raw = take n record.
Proof.
  intros H Hr Hn. unfold len in Hr. transitivity (take n (raw ++ coming)); [by rewrite take_app_le by lia|].
  rewrite H. by rewrite take_app_le.
Qed.

Lemma split_record (raw coming record rest : bytes) n : raw ++ coming = record ++ rest -> n = length record -> (n <= length raw)%nat ->
  take n raw = record /\ drop n raw ++ coming = rest.
Proof.
  intros H -> Hl. assert (take (length record) raw = record) as Ht.
  { transitivity (take (length record) (raw ++ coming)); [by rewrite take_app_le|]. rewrite H. by apply take_app_length. }
  split; [done|]. rewrite <- (take_drop (length record) raw), Ht, <- app_assoc in H. by apply app_inv_head in H.
Qed.

(** A version that the reader takes with a type. *)
Definition header_ok c (typ v : Z) : Prop :=
  0 <= v < 65536 /\ if c.(haveVers) then v = expected_version c.(vers) else v < 4096 /\ typ = recordTypeHandshake.

Lemma check_header_ok c complete typ v n : header_ok c typ v -> 0 <= typ < 128 -> n <= maxCiphertext ->
  (c.(vers) = VersionTLS13 -> n <= maxCiphertextTLS13) -> check_header ReadFull c complete typ v n = None.
Proof.
  intros [_ Hv] Ht Hn Hn13. unfold check_header. replace (typ =? 128) with false by lia. rewrite andb_false_r.
  assert (c.(haveVers) && negb (v =? expected_version c.(vers)) = false) as ->.
  { destruct c.(haveVers); [|done]. subst v. by rewrite Z.eqb_refl. }
  assert (negb c.(haveVers) && ((negb (typ =? recordTypeAlert) && negb (typ =? recordTypeHandshake)) || (4096 <=? v)) = false) as ->.
  { destruct c.(haveVers); [done|]. destruct Hv as [Hv ->]. by replace (4096 <=? v) with false by lia. }
  replace (maxCiphertext <? n) with false by lia. rewrite orb_false_r.
  destruct (Z.eqb_spec c.(vers) VersionTLS13); [|done]. cbn [andb]. by replace (maxCiphertextTLS13 <? n) with false by lia.
Qed.

Lemma read_delivered ccs c typ v e' payload record rest : c.(in_).(halfConn.err) = None -> c.(input) = [] -> healthy c ->
  header_ok c (outer_type e' typ) v -> c.(in_).(halfConn.version) = c.(vers) -> 0 <= typ < 128 ->
  delivered c.(in_) typ v payload e' record -> stream_of c = record ++ rest ->
  exists raw rs d', let c1 := set_in_ d' (set_rawInput raw (set_conn (set_reads rs c.(conn)) c)) in
    read_record ReadFull ccs c = handle_data ReadFull ccs c.(isHandshakeComplete) typ payload c1 /\
    synced e' d' /\ decrypt record c.(in_) = Ret (d', inr (payload, typ)) /\ stream_of c1 = rest /\ healthy c1.
Proof.
  intros Herr Hin Hh Hv Hver Ht (d' & n & Hdec & Hsync & Hlen & Hn & Hn13 & Hhdr) Hs.
  assert (Hnn : 0 <= n).
  { apply (f_equal length) in Hhdr. rewrite length_take in Hhdr. change (length (record_header _ _ _)) with 5%nat in Hhdr.
    unfold len, recordHeaderLen in Hlen. lia. }
  assert (Hlr : (5 <= length record)%nat) by (unfold len, recordHeaderLen in Hlen; lia).
  pose proof (len_nonneg rest) as Hrest. unfold recordHeaderLen in Hlen.
  destruct (readFromUntil_ok c 5 Hh) as (raw & rs & Hr1 & Hs1 & Hh1 & Hl1); [rewrite Hs, len_app; lia|].
  set (c1 := set_rawInput raw (set_conn (set_reads rs c.(conn)) c)) in *.
  destruct (readFromUntil_ok c1 (5 + n) Hh1) as (raw2 & rs2 & Hr2 & Hs2 & Hh2 & Hl2); [rewrite Hs1, Hs, len_app; lia|].
  set (c2 := set_rawInput raw2 (set_conn (set_reads rs2 c1.(conn)) c1)) in *.
  assert (Hh5 : take 5 raw = record_header (outer_type e' typ) v n).
  { rewrite <- Hhdr. eapply take_record; [|cbn; lia|done]. rewrite Hs in Hs1. exact Hs1. }
  assert (Heq : raw2 ++ arriving rs2 = record ++ rest) by (transitivity (stream_of c1); [exact Hs2|by rewrite Hs1]).
  destruct (split_record raw2 (arriving rs2) record rest (Z.to_nat (5 + n)) Heq) as [Htk Hdr]; [unfold len in *; lia|unfold len in *; lia|].
  exists (drop (Z.to_nat (5 + n)) raw2), rs2, d'. split; [|split_and!; [done|done|exact Hdr|exact Hh2]].
  unfold read_record. etransitivity; [by apply bind_run|]. cbn beta. rewrite Herr, Hin. change (negb (len [] =? 0)) with false. cbn beta iota.
  etransitivity; [apply bind_run, Hr1|]. etransitivity; [by apply bind_run|]. cbn beta iota.
  etransitivity; [apply bind_run|].
  { unfold lift, upto. cbn [c1 set_rawInput rawInput]. unfold recordHeaderLen. zbool. change (Z.to_nat 5) with 5%nat. by rewrite Hh5. }
  destruct (header_fields (outer_type e' typ) v n) as (H0 & H1 & H3).
  { unfold outer_type. destruct (_ && _); unfold recordTypeApplicationData; lia. }
  { by destruct Hv. }
  { unfold maxCiphertext in Hn. lia. }
  etransitivity; [apply bind_run; unfold lift; by rewrite H0|]. etransitivity; [apply bind_run; unfold lift; by rewrite H1|].
  etransitivity; [apply bind_run; unfold lift; by rewrite H3|]. cbv zeta.
  assert (Hot : 0 <= outer_type e' typ < 128) by (unfold outer_type; destruct (_ && _); unfold recordTypeApplicationData; lia).
  assert (Hve : c.(vers) = VersionTLS13 -> n <= maxCiphertextTLS13).
  { intros H. apply Hn13. destruct Hsync as [-> _]. destruct (decrypt_moved _ _ _ _ Hdec) as (? & ? & -> & _). cbn. by rewrite Hver. }
  rewrite (check_header_ok c1) by done.
  etransitivity; [apply bind_run, Hr2|]. cbn beta iota.
  etransitivity; [apply bind_run|].
  { unfold rawInput_Next, upto, from. cbn [c2 set_rawInput rawInput]. unfold recordHeaderLen. zbool. cbn [obind]. by rewrite Htk. }
  unfold handle_record. etransitivity; [apply bind_run; unfold in_decrypt|].
  - cbn [set_rawInput set_conn in_ c1 c2]. by rewrite Hdec.
  - done.
Qed.

(** A connection that reads application data. *)
Record receiving c : Prop := {
  r_err : c.(in_).(halfConn.err) = None;
  r_input : c.(input) = [];
  r_hand : c.(hand) = [];
  r_healthy : healthy c;
  r_haveVers : c.(haveVers) = true;
  r_version : c.(in_).(halfConn.version) = c.(vers);
  r_vers : 0 <= c.(vers) < 65536;
  r_complete : c.(isHandshakeComplete) = true;
  r_cipher : non_nil c.(in_).(halfConn.cipher) = true
}.

Definition no_alert (s : bytes) : Prop := match s with b :: _ => b2z b <> recordTypeAlert | [] => True end.

Lemma no_alert_head (raw coming : bytes) : no_alert (raw ++ coming) ->
  match raw with b :: _ => b2z b =? recordTypeAlert | [] => false end = false.
Proof. destruct raw; cbn; [done|]. intros H. by apply Z.eqb_neq. Qed.

(** One record of data. *)
Lemma readRecord_data c e' payload record rest : receiving c -> 0 < len payload <= maxPlaintext ->
  delivered c.(in_) recordTypeApplicationData (expected_version c.(vers)) payload e' record -> stream_of c = record ++ rest ->
  exists c', readRecord ReadFull c = Ret (set_input payload c', None) /\ receiving c' /\ stream_of c' = rest /\
    synced e' c'.(in_) /\ decrypt record c.(in_) = Ret (c'.(in_), inr (payload, recordTypeApplicationData)) /\ c'.(vers) = c.(vers).
Proof.
  intros [] Hp Hdel Hs.
  assert (Hho : header_ok c (outer_type e' recordTypeApplicationData) (expected_version c.(vers))).
  { split; [|by rewrite r_haveVers0]. unfold expected_version. destruct (_ =? _); unfold VersionTLS12; lia. }
  destruct (read_delivered false c recordTypeApplicationData (expected_version c.(vers)) e' payload record rest)
    as (raw & rs & d' & Hr & Hsync & Hm & Hst & Hh); try done. pose proof (decrypt_moved _ _ _ _ Hm) as (ci & sq & Hd' & Hci & _).
  set (c1 := set_in_ d' (set_rawInput raw (set_conn (set_reads rs (conn c)) c))) in *.
  assert (Hci1 : non_nil (halfConn.cipher (in_ c1)) = true) by (cbn; rewrite Hd'; cbn; by rewrite Hci).
  exists (set_retryCount 0 c1). split; [|split_and!; try done].
  - unfold readRecord, readRecordOrCCS. etransitivity; [by apply bind_run|]. cbn [read_retry].
    etransitivity; [apply bind_run|].
    { rewrite Hr, r_complete0. unfold handle_data. replace (maxPlaintext <? len payload) with false by lia.
      etransitivity; [by apply bind_run|]. cbn beta. rewrite Hci1. cbn [negb andb].
      replace (0 <? len payload) with true by lia. etransitivity; [by apply bind_run|]. cbn beta.
      change (hand c1) with (hand c). rewrite r_hand0, andb_false_r.
      unfold process_record. etransitivity; [by apply bind_run|]. cbn beta iota. cbn [Z.eqb negb orb].
      replace (len payload =? 0) with false by lia. cbn. reflexivity. }
    done.
  - constructor; cbn; try done; rewrite Hd'; cbn; done.
Qed.

Section Data.
Context (handshakeFn clientHandshake : @M Cs reader error).
Context (handleNewSessionTicket : newSessionTicketMsgTLS13.t -> @M Cs reader error).
Context (newAead : cipherSuiteTLS13.t -> bytes -> bytes -> outcome aead).
Notation Read := (Read ReadFull handshakeFn clientHandshake handleNewSessionTicket newAead).

Lemma Read_data fuel c e' payload record rest : receiving c -> 0 < len payload <= maxPlaintext ->
  delivered c.(in_) recordTypeApplicationData (expected_version c.(vers)) payload e' record -> stream_of c = record ++ rest ->
  no_alert rest ->
  exists c', Read (S fuel) maxPlaintext c = Ret (c', (payload, None)) /\ receiving c' /\ stream_of c' = rest /\
    synced e' c'.(in_) /\ decrypt record c.(in_) = Ret (c'.(in_), inr (payload, recordTypeApplicationData)) /\ c'.(vers) = c.(vers).
Proof.
  intros Hrc Hp Hdel Hs Hna. pose proof Hrc as [].
  destruct (readRecord_data c e' payload record rest Hrc Hp Hdel Hs) as (c' & Hr & Hrc' & Hst & Hsync & Hm & Hv).
  exists c'. split; [|by split_and!]. unfold Conn.Read.
  etransitivity; [apply bind_run; unfold Handshake; etransitivity; [by apply bind_run|]; cbn beta; by rewrite r_complete0|].
  cbn beta iota. change (maxPlaintext =? 0) with false. cbn beta iota.
  etransitivity; [apply bind_run|].
  { cbn [read_input]. etransitivity; [by apply bind_run|]. cbn beta. rewrite r_input0. change (negb (len [] =? 0)) with false. cbn beta iota.
    etransitivity; [apply bind_run, Hr|]. cbn beta iota.
    etransitivity; [apply bind_run|].
    { cbn [handle_messages]. etransitivity; [by apply bind_run|]. cbn beta. cbn [set_input hand]. destruct Hrc'. by rewrite r_hand1. }
    cbn beta iota. destruct fuel; cbn [read_input]; (etransitivity; [by apply bind_run|]); cbn beta; cbn [set_input input];
      replace (len payload =? 0) with false by lia; done. }
  cbn beta iota. etransitivity; [by apply bind_run|]. etransitivity; [by apply bind_run|]. cbn beta. cbn [set_input input rawInput].
  rewrite Z.min_r by lia. assert (Hd : drop (Z.to_nat (len payload)) payload = []) by (apply drop_ge; unfold len; lia).
  assert (Ht : take (Z.to_nat (len payload)) payload = payload) by (apply take_ge; unfold len; lia). rewrite !Hd, !Ht.
  unfold stream_of in Hst. subst rest. rewrite (no_alert_head _ _ Hna), andb_false_r. destruct Hrc'. destruct c'; cbn in *. by rewrite r_input1.
Qed.

(** ** Writing *)

Context {Cok : CiphersOk Cs Sy} {Kok : CryptoOk K}.
Context (rand_ok : forall n r, 0 <= n -> exists r' b, ReadFull n r = (r', inr b) /\ len b = n).

(** A connection whose writes succeed. *)
Record sending c : Prop := {
  s_writes : Forall (fun w => w = None) c.(conn).(net.writes);
  s_expired : c.(conn).(net.expired) = false;
  s_buffering : c.(buffering) = false;
  s_packets : 0 <= c.(packetsSent)
}.

Lemma split_mask a b : a = Z.ldiff a b + Z.land a b.
Proof.
  assert (Z.land (Z.ldiff a b) (Z.land a b) = 0) by (by rewrite (Z.land_comm a b), Z.land_assoc, Z.land_ldiff).
  rewrite Z.add_nocarry_lxor, Z.lxor_lor by done. by rewrite Z.lor_ldiff_and.
Qed.

Lemma mask_range x m : 0 <= x -> 0 <= m -> x - m <= Z.land x (Z.lnot m) <= x.
Proof.
  intros Hx Hm. rewrite <- Z.ldiff_land. pose proof (split_mask x m) as H. pose proof (split_mask m x) as H'.
  rewrite (Z.land_comm m x) in H'.
  assert (0 <= Z.land x m) by (apply Z.land_nonneg; by left). assert (0 <= Z.ldiff m x) by (apply Z.ldiff_nonneg; by left). lia.
Qed.

(** A record always has room for data. *)
Lemma payload_room_ok e d : synced e d -> exists n, payload_room e (tcpMSSEstimate - recordHeaderLen - explicitNonceLen e) = Ret n /\ 900 <= n <= 1208.
Proof.
  intros (_ & _ & _ & _ & Hc). unfold cipher_sync in Hc. unfold payload_room, explicitNonceLen, tcpMSSEstimate, recordHeaderLen.
  destruct (halfConn.cipher e) as [[s|f|b]|], (halfConn.cipher d) as [[s'|f'|b']|]; try done.
  - destruct Hc as (_ & (m & -> & _) & _). eexists. split; [done|]. pose proof (hash_size_le m.(mac_hash)). unfold mac_Size. lia.
  - eexists. split; [done|]. assert (0 <= Overhead f <= 255) by (destruct f; apply AEAD_Overhead_range).
    destruct (aead_nonce_len f) as [-> | ->]; lia.
  - destruct Hc as (Hs & (m & -> & _) & _). destruct (cbc_block _ _ Hs) as [_ Hb]. eexists. split; [done|].
    pose proof (hash_size_le m.(mac_hash)). unfold mac_Size.
    set (x := 1208 - 5 - (if VersionTLS11 <=? halfConn.version e then BlockSize b else 0)).
    assert (1187 <= x <= 1208) by (unfold x; destruct (_ <=? _); lia). pose proof (mask_range x (BlockSize b - 1) ltac:(lia) ltac:(lia)). lia.
  - eexists. split; [done|]. lia.
Qed.

Lemma maxPayload_ok c d typ : sending c -> synced c.(out) d ->
  exists p m, maxPayloadSizeForWrite typ c = Ret (set_packetsSent p c, m) /\ 1 <= m <= maxPlaintext /\ 0 <= p.
Proof.
  intros [] Hs. unfold maxPayloadSizeForWrite. assert (Hc : c = set_packetsSent c.(packetsSent) c) by (by destruct c).
  case_match; [exists c.(packetsSent), maxPlaintext; by rewrite <- Hc|].
  case_match; [exists c.(packetsSent), maxPlaintext; by rewrite <- Hc|].
  destruct (payload_room_ok _ _ Hs) as (n & -> & Hn). cbn [obind]. exists (c.(packetsSent) + 1).
  set (n' := if vers c =? VersionTLS13 then n - 1 else n). assert (899 <= n' <= 1208) by (unfold n'; destruct (vers c =? VersionTLS13); lia).
  destruct (1000 <? packetsSent c); [exists maxPlaintext; split_and!; [done|done|done|lia]|].
  eexists. split; [done|]. split; [|lia]. destruct (Z.ltb_spec maxPlaintext (n' * (packetsSent c + 1))); [done|nia].
Qed.

Lemma conn_Write_ok c data : sending c -> exists n, conn_Write data c = Ret (set_bytesSent (c.(bytesSent) + len data) (set_conn n c), (len data, None)) /\
  n.(net.sent) = c.(conn).(net.sent) ++ data /\ Forall (fun w => w = None) n.(net.writes) /\ n.(net.expired) = false.
Proof.
  intros []. assert (exists n, net.Write data c.(conn) = (n, (len data, None)) /\ n.(net.sent) = c.(conn).(net.sent) ++ data /\
    Forall (fun w => w = None) n.(net.writes) /\ n.(net.expired) = false) as (n & Hw & Hn).
  { unfold net.Write. rewrite s_expired0. destruct (net.writes (conn c)) as [|[x|] ws]; cbn.
    - eexists. split; [done|]. done.
    - by apply Forall_cons in s_writes0 as [? _].
    - apply Forall_cons in s_writes0 as [_ Hw]. eexists. split; [done|]. done. }
  exists n. split; [|done]. unfold conn_Write. etransitivity; [apply bind_run; unfold on; by rewrite Hw|]. done.
Qed.

(** What the writing of a record changes. *)
Record wrote c (record : bytes) c' : Prop := {
  w_sending : sending c';
  w_sent : c'.(conn).(net.sent) = c.(conn).(net.sent) ++ record;
  w_vers : c'.(vers) = c.(vers);
  w_complete : c'.(isHandshakeComplete) = c.(isHandshakeComplete);
  w_closed : c'.(closeNotifySent) = c.(closeNotifySent);
  w_err : c'.(out).(halfConn.err) = c.(out).(halfConn.err);
  w_cipher : non_nil c'.(out).(halfConn.cipher) = non_nil c.(out).(halfConn.cipher);
  w_active : c'.(activeCall) = c.(activeCall);
  w_config : c'.(config) = c.(config)
}.

Lemma wrote_nil c : sending c -> wrote c [] c.
Proof. intros H. constructor; try done. by rewrite app_nil_r. Qed.

Lemma wrote_app c r1 c1 r2 c2 : wrote c r1 c1 -> wrote c1 r2 c2 -> wrote c (r1 ++ r2) c2.
Proof. intros [] []. constructor; try congruence. rewrite app_assoc. congruence. Qed.

(** One turn of the loop. *)
Lemma write_step fuel typ data n c d : sending c -> synced c.(out) d -> 0 < typ < 256 -> 0 < len data ->
  be_val c.(out).(halfConn.seq) + 1 < 2 ^ 64 -> be_val d.(halfConn.seq) + 1 < 2 ^ 64 ->
  exists c' record m, write_loop ReadFull (S fuel) typ data n c = write_loop ReadFull fuel typ (drop m data) (n + Z.of_nat m) c' /\
    wrote c record c' /\ delivered d typ (record_version c.(vers)) (take m data) c'.(out) record /\
    moved c.(out) c'.(out) /\ (1 <= m <= length data)%nat /\ Z.of_nat m <= maxPlaintext.
Proof.
  intros Hsend Hsync Ht Hd Hq Hq'. cbn [write_loop]. replace (len data <=? 0) with false by lia.
  destruct (maxPayload_ok c d typ Hsend Hsync) as (p & mp & Hmp & Hmpr & Hp).
  set (m := if mp <? len data then mp else len data). assert (Hm : 1 <= m <= len data /\ m <= maxPlaintext) by (unfold m; destruct (Z.ltb_spec mp (len data)); lia).
  assert (Hlt : len (take (Z.to_nat m) data) = m) by (unfold len in *; rewrite length_take; lia).
  destruct (record_step ReadFull rand_ok (out c) d typ (record_version (vers c)) (take (Z.to_nat m) data) (rand c) Hsync Ht ltac:(lia) Hq Hq')
    as (e' & rand' & record & Henc & Hdel). pose proof (encrypt_moved _ _ _ _ _ _ _ _ Henc) as Hmv. rewrite Hlt in Henc.
  set (c1 := set_rand rand' (set_out e' (set_packetsSent p c))).
  assert (Hsend1 : sending c1) by (destruct Hsend; by constructor).
  destruct (conn_Write_ok c1 record Hsend1) as (n1 & Hw & Hsent & Hws & Hex).
  exists (set_bytesSent (bytesSent c1 + len record) (set_conn n1 c1)), record, (Z.to_nat m).
  split; [|split_and!; [|done|done|unfold len in *; lia|unfold len in *; lia|lia]].
  - etransitivity; [apply bind_run, Hmp|]. cbv zeta. fold m. etransitivity; [by apply bind_run|]. cbn beta.
    etransitivity; [apply bind_run; unfold lift, upto; by zbool|]. cbn [obind].
    etransitivity; [apply bind_run; unfold out_encrypt; cbn [set_packetsSent rand out vers]; by rewrite Henc|]. cbn beta iota.
    etransitivity; [apply bind_run; unfold write; etransitivity; [by apply bind_run|]; cbn beta;
      cbn [set_packetsSent set_out set_rand buffering]; destruct Hsend; rewrite s_buffering0; exact Hw|]. cbn beta iota. cbn [snd].
    etransitivity; [apply bind_run; unfold lift, from; by zbool|]. rewrite Z2Nat.id by lia. done.
  - destruct Hmv as (ci & sq & -> & Hci & _). destruct Hsend. constructor; try done.
Qed.

(** ** From one end to the other *)

(** The records that carry fragments to a receiver in the state [d], which is then
    in the state [d']. *)
Inductive feed (typ v : Z) : halfConn.t -> list bytes -> bytes -> halfConn.t -> Prop :=
  | feed_nil d : feed typ v d [] [] d
  | feed_cons d payload record e d1 frags recs d' :
      delivered d typ v payload e record -> decrypt record d = Ret (d1, inr (payload, typ)) -> 0 < len payload <= maxPlaintext ->
      feed typ v d1 frags recs d' -> feed typ v d (payload :: frags) (record ++ recs) d'.

Lemma feed_app typ v d f1 r1 d1 f2 r2 d2 : feed typ v d f1 r1 d1 -> feed typ v d1 f2 r2 d2 -> feed typ v d (f1 ++ f2) (r1 ++ r2) d2.
Proof. intros H1 H2. induction H1; [done|]. cbn. rewrite <- app_assoc. by econstructor; eauto. Qed.

(** What is said of the writing of [data] to a receiver in the state [d]. *)
Definition written_ok (typ : Z) c (d : halfConn.t) (data : bytes) c' (d' : halfConn.t) : Prop :=
  exists recs frags, wrote c recs c' /\ synced c'.(out) d' /\ feed typ (record_version c.(vers)) d frags recs d' /\ concat frags = data /\
    be_val c'.(out).(halfConn.seq) <= be_val c.(out).(halfConn.seq) + len data /\
    be_val d'.(halfConn.seq) <= be_val d.(halfConn.seq) + len data.

Lemma written_nil typ c d : sending c -> synced c.(out) d -> written_ok typ c d [] c d.
Proof.
  intros Hs Hd. exists [], []. split; [by apply wrote_nil|]. split; [done|]. split; [constructor|]. split; [done|]. unfold len. cbn. lia.
Qed.

Lemma written_app typ c d a c1 d1 b c2 d2 : written_ok typ c d a c1 d1 -> written_ok typ c1 d1 b c2 d2 -> written_ok typ c d (a ++ b) c2 d2.
Proof.
  intros (r1 & f1 & Hw1 & _ & Hf1 & <- & Hq1 & Hp1) (r2 & f2 & Hw2 & Hs2 & Hf2 & <- & Hq2 & Hp2). exists (r1 ++ r2), (f1 ++ f2).
  split; [by eapply wrote_app|]. split; [done|]. destruct Hw1. rewrite w_vers0 in Hf2.
  split; [by eapply feed_app|]. rewrite concat_app, len_app. split; [done|]. lia.
Qed.

(** One record. *)
Lemma written_one typ c d payload record c1 d1 : wrote c record c1 -> moved c.(out) c1.(out) -> synced c1.(out) d1 ->
  delivered d typ (record_version c.(vers)) payload c1.(out) record -> 0 < len payload <= maxPlaintext ->
  decrypt record d = Ret (d1, inr (payload, typ)) -> written_ok typ c d payload c1 d1.
Proof.
  intros Hw (ci & sq & Hout & _ & _ & Hsq) Hsy Hdel Hp Hdec. exists record, [payload]. split; [done|]. split; [done|].
  split; [rewrite <- (app_nil_r record); by eapply feed_cons; [| | |apply feed_nil]|]. split; [by cbn; rewrite app_nil_r|].
  destruct (decrypt_moved _ _ _ _ Hdec) as (ci' & sq' & -> & _ & _ & Hsq'). rewrite Hout. cbn. lia.
Qed.

Lemma write_loop_ok typ fuel data n c d : (length data <= fuel)%nat -> sending c -> synced c.(out) d -> 0 < typ < 256 ->
  be_val c.(out).(halfConn.seq) + len data < 2 ^ 64 -> be_val d.(halfConn.seq) + len data < 2 ^ 64 ->
  exists c' d', write_loop ReadFull fuel typ data n c = Ret (c', (n + len data, None)) /\ written_ok typ c d data c' d'.
Proof.
  revert data n c d. induction fuel as [|fuel IH]; intros data n c d Hf Hsend Hsync Ht Hq Hq'; (destruct data as [|x data];
    [exists c, d; split; [by cbn; unfold ret; rewrite Z.add_0_r|by apply written_nil]|]); [cbn in Hf; lia|].
  set (all := x :: data) in *. assert (Hlen : 0 < len all) by (unfold len, all; cbn; lia).
  destruct (write_step fuel typ all n c d) as (c1 & record & m & Hloop & Hw & Hdel & Hmv & Hm & Hmx); try done; [lia|lia|].
  pose proof Hdel as (d1 & _ & Hdec & Hsync1 & _). pose proof Hmv as (ci & sq & Hout & Hcip & Hls & Hseq).
  destruct (decrypt_moved _ _ _ _ Hdec) as (ci' & sq' & Hd1 & _ & _ & Hseq').
  assert (Hlt : len (take m all) = Z.of_nat m) by (unfold len; rewrite length_take; lia).
  assert (Hld : len (drop m all) = len all - Z.of_nat m) by (unfold len; rewrite length_drop; lia).
  destruct (IH (drop m all) (n + Z.of_nat m) c1 d1) as (c2 & d2 & Hl2 & Hok2); try done.
  - rewrite length_drop. lia.
  - by destruct Hw.
  - rewrite Hout, Hld. cbn. lia.
  - rewrite Hd1, Hld. cbn. lia.
  - exists c2, d2. split; [rewrite Hloop, Hl2, Hld; do 3 f_equal; lia|]. rewrite <- (take_drop m all).
    eapply written_app; [|exact Hok2]. eapply written_one; [exact Hw|done|done|exact Hdel|rewrite Hlt; lia|exact Hdec].
Qed.

(** Of any type that does not change the cipher. *)
Lemma writeRecordLocked_ok typ data c d : sending c -> synced c.(out) d -> 0 < typ < 256 -> typ <> recordTypeChangeCipherSpec ->
  be_val c.(out).(halfConn.seq) + len data < 2 ^ 64 -> be_val d.(halfConn.seq) + len data < 2 ^ 64 ->
  exists c' d', writeRecordLocked ReadFull typ data c = Ret (c', (len data, None)) /\ written_ok typ c d data c' d'.
Proof.
  intros Hs Hd Ht Hn Hq Hq'. destruct (write_loop_ok typ (length data) data 0 c d) as (c' & d' & Hl & Hok); try done.
  exists c', d'. split; [|done]. unfold writeRecordLocked. etransitivity; [apply bind_run, Hl|]. cbn beta iota. cbn [snd].
  etransitivity; [by apply bind_run|]. cbn beta. by rewrite (proj2 (Z.eqb_neq _ _) Hn).
Qed.

(** ** Data *)

(** What [k] calls of [Read] give. *)
Fixpoint read_n (k : nat) : @M Cs reader bytes :=
  match k with
  | O => ret []
  | S k => bind (Read 1 maxPlaintext) (fun r =>
      match r.2 with None => bind (read_n k) (fun rest => ret (r.1 ++ rest)) | Some _ => panic end)
  end.

Lemma record_version_expected vers : vers <> 0 -> record_version vers = expected_version vers.
Proof. intros H. unfold record_version, expected_version. by rewrite (proj2 (Z.eqb_neq _ _) H). Qed.

(** The first byte of a record of data. *)
Lemma feed_no_alert v d frags recs d' : feed recordTypeApplicationData v d frags recs d' -> no_alert recs.
Proof.
  destruct 1 as [|d payload record e d1 frags recs d' (d0 & n & _ & _ & _ & _ & _ & H) _ _ _]; [done|].
  unfold outer_type in H. destruct record as [|b record]; [done|]. cbn in H. injection H as -> _. cbn. by destruct (_ && _).
Qed.

(** Reads give the fragments. *)
Lemma feed_read d frags recs d' r : feed recordTypeApplicationData (expected_version r.(Conn.vers)) d frags recs d' ->
  receiving r -> r.(in_) = d -> stream_of r = recs ->
  exists r', read_n (length frags) r = Ret (r', concat frags) /\ receiving r' /\ stream_of r' = [] /\ r'.(in_) = d'.
Proof.
  remember (expected_version r.(Conn.vers)) as v eqn:Hv. intros H. revert r Hv.
  induction H as [d|d payload record e d1 frags recs d' Hdel Hdec Hp Hf IH]; intros r -> Hr Hin Hs; [by exists r|].
  rewrite <- Hin in Hdel.
  destruct (Read_data 0 r e payload record recs Hr Hp Hdel Hs (feed_no_alert _ _ _ _ _ Hf)) as (r1 & Hread & Hr1 & Hs1 & _ & Hdec1 & Hv1).
  rewrite Hin, Hdec in Hdec1. injection Hdec1 as Hd1.
  destruct (IH r1) as (r2 & Hn & Hr2 & Hs2 & Hin2); [by rewrite Hv1|done|done|done|]. exists r2. split_and!; try done.
  cbn [read_n length concat]. etransitivity; [apply bind_run, Hread|]. cbn beta iota. cbn [snd fst].
  etransitivity; [apply bind_run, Hn|]. done.
Qed.

(** A connection that may write data. *)
Record writable c : Prop := {
  wr_sending : sending c;
  wr_complete : c.(isHandshakeComplete) = true;
  wr_err : c.(out).(halfConn.err) = None;
  wr_open : c.(closeNotifySent) = false;
  wr_active : Z.land c.(activeCall) 1 = 0;
  wr_cipher : non_nil c.(out).(halfConn.cipher) = true;
  wr_vers : c.(vers) <> 0
}.
Notation Write := (Write ReadFull handshakeFn).

Lemma clear_err c : c.(out).(halfConn.err) = None -> set_out (halfConn.set_err None c.(out)) c = c.
Proof. destruct c as [? ? ? ? ? ? ? ? ? ? ? ? ? [] ? ? ? ? ? ? ? ? ?]. cbn. by intros ->. Qed.

(** The data after the first [m] bytes. *)
Lemma write_rest_ok data m c d c1 d1 : written_ok recordTypeApplicationData c d (take (Z.to_nat m) data) c1 d1 -> 0 <= m <= len data ->
  c.(out).(halfConn.err) = None -> be_val c.(out).(halfConn.seq) + len data < 2 ^ 64 -> be_val d.(halfConn.seq) + len data < 2 ^ 64 ->
  exists c' d', bind (writeRecordLocked ReadFull recordTypeApplicationData (drop (Z.to_nat m) data)) (fun w =>
      bind (out_setErrorLocked w.2) (fun err => ret (w.1 + m, err))) c1 = Ret (c', (len data, None)) /\ written_ok recordTypeApplicationData c d data c' d'.
Proof.
  intros Hok Hm Herr Hq Hq'. pose proof Hok as (rs & k & [] & Hsy & _ & _ & Hseq & Hseq').
  assert (Hlt : len (take (Z.to_nat m) data) = m) by (unfold len in *; rewrite length_take; lia).
  assert (Hld : len (drop (Z.to_nat m) data) = len data - m) by (unfold len in *; rewrite length_drop; lia).
  destruct (writeRecordLocked_ok recordTypeApplicationData (drop (Z.to_nat m) data) c1 d1) as (c2 & d2 & Hwr & Hok2); try done; [lia|lia|].
  exists c2, d2. split; [|rewrite <- (take_drop (Z.to_nat m) data); by eapply written_app].
  etransitivity; [apply bind_run, Hwr|]. cbn beta. etransitivity; [by apply bind_run|]. unfold ret. cbn [snd fst setErrorLocked].
  rewrite clear_err, Hld by (destruct Hok2 as (? & ? & [] & _); congruence). do 3 f_equal. lia.
Qed.

(** [Write] after the handshake, with the split of TLS 1.0. *)
Lemma write_data_ok data c d : sending c -> c.(isHandshakeComplete) = true -> c.(out).(halfConn.err) = None -> c.(closeNotifySent) = false ->
  synced c.(out) d -> be_val c.(out).(halfConn.seq) + len data < 2 ^ 64 -> be_val d.(halfConn.seq) + len data < 2 ^ 64 ->
  exists c' d', write_data ReadFull handshakeFn data c = Ret (c', (len data, None)) /\ written_ok recordTypeApplicationData c d data c' d'.
Proof.
  intros Hs Hcomp Herr Hcl Hd Hq Hq'. unfold write_data.
  assert (Hh : Handshake handshakeFn c = Ret (c, None)) by (unfold Handshake; etransitivity; [by apply bind_run|]; cbn beta; by rewrite Hcomp).
  set (split := (1 <? len data) && (vers c =? VersionTLS10) && match halfConn.cipher (out c) with Some (CbcMode _) => true | _ => false end).
  destruct split eqn:Esplit.
  - assert (1 < len data) by (unfold split in Esplit; destruct (Z.ltb_spec 1 (len data)); done).
    assert (Hl1 : len (take 1 data) = 1) by (unfold len in *; rewrite length_take; lia).
    destruct (writeRecordLocked_ok recordTypeApplicationData (take 1 data) c d) as (c1 & d1 & Hw1 & Hok1); try done; [lia|lia|].
    destruct (write_rest_ok data 1 c d c1 d1 Hok1) as (c2 & d2 & Hw2 & Hok2); try done; [lia|].
    exists c2, d2. split; [|done]. etransitivity; [apply bind_run, Hh|]. cbn beta iota. etransitivity; [by apply bind_run|]. cbn beta zeta.
    rewrite Herr, Hcomp, Hcl. cbn [negb]. fold split. rewrite Esplit.
    etransitivity; [apply bind_run; unfold lift, upto; by zbool|]. etransitivity; [apply bind_run, Hw1|]. cbn beta iota. cbn [snd].
    etransitivity; [apply bind_run; unfold lift, from; by zbool|]. exact Hw2.
  - destruct (write_rest_ok data 0 c d c d (written_nil _ c d Hs Hd)) as (c2 & d2 & Hw2 & Hok2); try done; [pose proof (len_nonneg data); lia|].
    exists c2, d2. split; [|done]. etransitivity; [apply bind_run, Hh|]. cbn beta iota. etransitivity; [by apply bind_run|]. cbn beta zeta.
    rewrite Herr, Hcomp, Hcl. cbn [negb]. fold split. rewrite Esplit. exact Hw2.
Qed.

(** C2: data given to [Write] comes out of [Read] at the other end, whole and in
    order, when the two ends are in step and the network delivers the bytes, in
    whatever pieces: with any cipher, version and size of records.  Both ends can
    go on afterwards. *)
Theorem write_then_read data c d : writable c -> synced c.(out) d -> be_val c.(out).(halfConn.seq) + len data < 2 ^ 64 ->
  exists c' d' recs k, Write data c = Ret (c', (len data, None)) /\ c'.(conn).(net.sent) = c.(conn).(net.sent) ++ recs /\
    writable c' /\ synced c'.(out) d' /\
    forall r, receiving r -> r.(in_) = d -> r.(Conn.vers) = c.(vers) -> stream_of r = recs ->
      exists r', read_n k r = Ret (r', data) /\ receiving r' /\ stream_of r' = [] /\ r'.(in_) = d'.
Proof.
  intros [] Hd Hq. set (c0 := set_activeCall (c.(activeCall) + 2) c).
  assert (Hsq : c.(out).(halfConn.seq) = d.(halfConn.seq)).
  { destruct Hd as (_ & _ & _ & H & _). apply H. by destruct (halfConn.cipher (out c)). }
  destruct (write_data_ok data c0 d) as (c1 & d' & Hw & recs & frags & Hwr & Hsy & Hf & <- & _ & _); try done.
  { destruct wr_sending0; by constructor. }
  { by rewrite <- Hsq. }
  exists (set_activeCall (c1.(activeCall) - 2) c1), d', recs, (length frags). destruct Hwr as [[] Hsent Hv1 Hcomp1 Hcl1 He1 Hci1 Ha1 _].
  split_and!.
  - unfold Conn.Write. etransitivity; [by apply bind_run|]. cbn beta. rewrite wr_active0. cbn [Z.eqb negb].
    etransitivity; [by apply bind_run|]. etransitivity; [apply bind_run, Hw|]. done.
  - done.
  - unfold c0 in *. cbn in Hv1, Hcomp1, Hcl1, He1, Hci1, Ha1. constructor; cbn; try congruence; [by constructor|].
    by rewrite Ha1, Z.add_simpl_r.
  - done.
  - intros r Hr Hin Hv Hs. apply (feed_read d frags recs d' r); try done.
    rewrite <- record_version_expected by congruence. by rewrite Hv.
Qed.

(** ** Handshake messages *)

Context {Cbok : CryptobyteOk C}.

(** A connection that reads handshake messages from records with the version [v]. *)
Record shaking (v : Z) c : Prop := {
  h_err : c.(in_).(halfConn.err) = None;
  h_input : c.(input) = [];
  h_healthy : healthy c;
  h_version : c.(in_).(halfConn.version) = c.(Conn.vers);
  h_range : 0 <= v < 65536;
  h_header : if c.(haveVers) then v = expected_version c.(Conn.vers) else v < 4096 /\ c.(Conn.vers) <> VersionTLS13
}.

Lemma readRecord_hand v c e' payload record rest : shaking v c -> 0 < len payload <= maxPlaintext ->
  delivered c.(in_) recordTypeHandshake v payload e' record -> stream_of c = record ++ rest ->
  exists c', readRecord ReadFull c = Ret (c', None) /\ shaking v c' /\ stream_of c' = rest /\ c'.(hand) = c.(hand) ++ payload /\
    decrypt record c.(in_) = Ret (c'.(in_), inr (payload, recordTypeHandshake)) /\
    c'.(Conn.vers) = c.(Conn.vers) /\ c'.(haveVers) = c.(haveVers) /\ c'.(Conn.isClient) = c.(Conn.isClient).
Proof.
  intros [] Hp Hdel Hs.
  assert (Hho : header_ok c (outer_type e' recordTypeHandshake) v).
  { split; [done|]. destruct c.(haveVers); [done|]. destruct h_header0 as [Hv Hne]. split; [done|]. apply outer_type_old.
    destruct Hdel as (d1 & n & Hdec & (-> & _) & _). destruct (decrypt_moved _ _ _ _ Hdec) as (? & ? & -> & _). cbn. congruence. }
  destruct (read_delivered false c recordTypeHandshake v e' payload record rest) as (raw & rs & d' & Hr & Hsync & Hm & Hst & Hh); try done.
  destruct (decrypt_moved _ _ _ _ Hm) as (ci & sq & Hd' & _).
  set (c1 := set_in_ d' (set_rawInput raw (set_conn (set_reads rs (conn c)) c))) in *.
  exists (set_hand (c.(hand) ++ payload) (set_retryCount 0 c1)). split; [|split_and!; try done].
  - unfold readRecord, readRecordOrCCS. etransitivity; [by apply bind_run|]. cbn [read_retry].
    etransitivity; [apply bind_run|].
    { rewrite Hr. unfold handle_data. replace (maxPlaintext <? len payload) with false by lia.
      etransitivity; [by apply bind_run|]. cbn beta. rewrite andb_false_r. replace (0 <? len payload) with true by lia.
      etransitivity; [by apply bind_run|]. cbn beta. rewrite andb_false_r. cbn [andb].
      unfold process_record. etransitivity; [by apply bind_run|]. cbn beta iota. cbn [Z.eqb negb orb].
      replace (len payload =? 0) with false by lia. cbn. reflexivity. }
    done.
  - constructor; cbn; try done; rewrite Hd'; done.
Qed.

Lemma read_hand_feed v fuel n c d' frags recs : shaking v c -> feed recordTypeHandshake v c.(in_) frags recs d' ->
  stream_of c = recs -> n <= len c.(hand) + len (concat frags) -> n - len c.(hand) <= Z.of_nat fuel ->
  exists c' f1 f2 recs', read_hand ReadFull fuel n c = Ret (c', None) /\ shaking v c' /\ frags = f1 ++ f2 /\
    c'.(hand) = c.(hand) ++ concat f1 /\ feed recordTypeHandshake v c'.(in_) f2 recs' d' /\ stream_of c' = recs' /\ n <= len c'.(hand) /\
    c'.(Conn.vers) = c.(Conn.vers) /\ c'.(haveVers) = c.(haveVers) /\ c'.(Conn.isClient) = c.(Conn.isClient).
Proof.
  revert c frags recs. induction fuel as [|fuel IH]; intros c frags recs Hsh Hf Hs Hn Hfuel; cbn [read_hand];
    (destruct (Z.leb_spec n (len c.(hand))) as [Hle|Hlt];
    [exists c, [], frags, recs; split; [etransitivity; [by apply bind_run|]; cbn beta; by replace (n <=? len c.(hand)) with true by lia|];
     split_and!; try done; by rewrite app_nil_r|]); [lia|].
  inversion Hf as [|d payload record e d1 frags' recs' d'' Hdel Hdec Hp Hf']; subst; [unfold len at 2 in Hn; cbn in Hn; lia|].
  destruct (readRecord_hand v c e payload record recs') as (c1 & Hr & Hsh1 & Hs1 & Hh1 & Hdec1 & Hv1 & Hv2 & Hv3); try done.
  rewrite Hdec in Hdec1. injection Hdec1 as ->. cbn [concat] in Hn. rewrite len_app in Hn.
  destruct (IH c1 frags' recs') as (c2 & f1 & f2 & recs2 & Hr2 & Hsh2 & -> & Hh2 & Hf2 & Hs2 & Hn2 & Hv4 & Hv5 & Hv6); try done.
  { rewrite Hh1, len_app. lia. }
  { rewrite Hh1, len_app. lia. }
  exists c2, (payload :: f1), f2, recs2. split; [|split_and!; try done; try congruence].
  - etransitivity; [by apply bind_run|]. cbn beta. replace (n <=? len c.(hand)) with false by lia.
    etransitivity; [apply bind_run, Hr|]. exact Hr2.
  - rewrite Hh2, Hh1. cbn [concat]. by rewrite app_assoc.
Qed.

(** No record is left when all bytes have come. *)
Lemma feed_rest typ v d frags recs d' : feed typ v d frags recs d' -> len (concat frags) <= 0 -> frags = [] /\ recs = [] /\ d = d'.
Proof.
  destruct 1 as [|d payload record e d1 frags recs d' _ _ Hp _]; [done|]. cbn [concat]. rewrite len_app.
  pose proof (len_nonneg (concat frags)). lia.
Qed.

Lemma get_prefix (a b : bytes) i : 0 <= i < len a -> get (a ++ b) i = get a i.
Proof.
  intros Hi. unfold get. rewrite len_app. pose proof (len_nonneg b). zbool. unfold len in *. by rewrite lookup_app_l by lia.
Qed.

(** The header of a message, from its first bytes. *)
Lemma framed_header typ x a b : framed typ x -> x = a ++ b -> 4 <= len a -> 0 <= typ < 256 -> len x < 2 ^ 24 ->
  get a 0 = Ret typ /\ get24 a 1 = Ret (len x - 4).
Proof.
  intros [body Hx] Hab Ha Ht Hl. split; [rewrite <- (get_prefix a b), <- Hab, Hx by lia; by apply get_be1_head|].
  assert (get24 a 1 = get24 x 1) as -> by (unfold get24; rewrite Hab, !get_prefix by lia; done).
  rewrite Hx, get24_be by done. rewrite Hx in Hl. rewrite !len_app, !len_be in *. pose proof (len_nonneg body).
  rewrite Z.mod_small by lia. f_equal. lia.
Qed.

(** The reader's part. *)
Lemma readHandshake_feed v m t x r d' frags recs : marshal m = Ret (inr x) -> shaking v r ->
  feed recordTypeHandshake v r.(in_) frags recs d' -> concat frags = x -> r.(hand) = [] -> stream_of r = recs ->
  wf_message (MkConn r.(Conn.vers) r.(Conn.isClient)) m ->
  len x - 4 <= (if r.(haveVers) && (type_of m =? typeCertificate) then maxHandshakeCertificateMsg else maxHandshake) ->
  exists r', readHandshake ReadFull t r = Ret (r', (if t then x else [], inr (as_read x m))) /\
    r'.(in_) = d' /\ r'.(hand) = [] /\ stream_of r' = [].
Proof.
  intros Hm Hsh Hf Hx Hhand Hst Hwf Hlen.
  pose proof (marshal_framed _ _ _ Hwf Hm) as Hfr.
  assert (Hx4 : 4 <= len x). { destruct Hfr as [body ->]. rewrite !len_app, !len_be. pose proof (len_nonneg body). lia. }
  assert (Hmax : len x < 2 ^ 24) by (unfold maxHandshakeCertificateMsg, maxHandshake in Hlen; destruct (_ && _); lia).
  destruct (read_hand_feed v 6 4 r d' frags recs) as (r1 & f1 & f2 & recs1 & Hr1 & Hsh1 & Hf12 & Hh1 & Hf1 & Hs1 & Hn1 & Hv1 & Hv2 & Hv3); try done.
  { rewrite Hx, Hhand, len_nil. lia. }
  { rewrite Hhand, len_nil. lia. }
  rewrite Hhand in Hh1. cbn [app] in Hh1. rewrite Hf12, concat_app, <- Hh1 in Hx.
  assert (Ht : 0 <= type_of m < 256) by (by destruct m).
  destruct (framed_header _ x (hand r1) (concat f2) Hfr (eq_sym Hx) Hn1 Ht Hmax) as [Hg0 Hg1].
  destruct (read_hand_feed v (Z.to_nat (4 + (len x - 4)) + 2) (4 + (len x - 4)) r1 d' f2 recs1)
    as (r2 & f3 & f4 & recs2 & Hr2 & Hsh2 & Hf34 & Hh2 & Hf2 & Hs2 & Hn2 & Hv4 & Hv5 & Hv6); try done.
  { rewrite <- Hx, len_app. lia. }
  { pose proof (len_nonneg (hand r1)). lia. }
  assert (Hx2 : x = hand r2 ++ concat f4) by (rewrite <- Hx, Hh2, Hf34, concat_app; by rewrite app_assoc).
  destruct (feed_rest _ _ _ _ _ _ Hf2) as (-> & -> & Hin2).
  { apply (f_equal len) in Hx2. rewrite len_app in Hx2. lia. }
  cbn [concat] in Hx2. rewrite app_nil_r in Hx2.
  exists (set_hand [] r2). split; [|by split_and!].
  unfold readHandshake. etransitivity; [apply bind_run, Hr1|]. cbn beta iota. etransitivity; [by apply bind_run|]. cbn beta.
  etransitivity; [apply bind_run; unfold lift; by rewrite Hg0|]. etransitivity; [apply bind_run; unfold lift; by rewrite Hg1|]. cbv zeta.
  rewrite Hv2. replace (_ <? len x - 4) with false by lia.
  etransitivity; [apply bind_run, Hr2|]. cbn beta iota. etransitivity; [apply bind_run|].
  { unfold hand_Next, upto, from. rewrite <- Hx2. zbool. cbn [obind]. rewrite take_ge, drop_ge by (unfold len in *; lia). done. }
  etransitivity; [by apply bind_run|]. cbn beta. destruct (parser_reads _ m x Hwf Hm) as (p & Hp & Hpx).
  etransitivity; [apply bind_run; unfold lift, unmarshalHandshakeMessage; cbn [set_hand Conn.vers Conn.isClient]|].
  { rewrite Hv4, Hv1, Hv6, Hv3, (marshal_type _ m x Hwf Hm). cbn [obind]. rewrite Hp, Hpx. done. }
  done.
Qed.

(** C21: a handshake message of any kind written with [writeHandshakeRecord], however
    it is cut into records and whatever pieces the network delivers, is what
    [readHandshake] returns at the other end, with the same bytes added to both
    transcripts; nothing of it is left in the buffers. *)
Theorem handshake_message_delivered m t x c d : marshal m = Ret (inr x) -> sending c -> synced c.(out) d ->
  be_val c.(out).(halfConn.seq) + len x < 2 ^ 64 -> be_val d.(halfConn.seq) + len x < 2 ^ 64 ->
  exists c' d' recs, writeHandshakeRecord ReadFull m t c = Ret (c', (if t then x else [], (len x, None))) /\
    c'.(conn).(net.sent) = c.(conn).(net.sent) ++ recs /\ synced c'.(out) d' /\
    (forall r, shaking (record_version c.(Conn.vers)) r -> r.(in_) = d -> r.(hand) = [] -> stream_of r = recs ->
     wf_message (MkConn r.(Conn.vers) r.(Conn.isClient)) m ->
     len x - 4 <= (if r.(haveVers) && (type_of m =? typeCertificate) then maxHandshakeCertificateMsg else maxHandshake) ->
     exists r', readHandshake ReadFull t r = Ret (r', (if t then x else [], inr (as_read x m))) /\
       r'.(in_) = d' /\ r'.(hand) = [] /\ stream_of r' = []).
Proof.
  intros Hm Hs Hd Hq Hq'.
  destruct (writeRecordLocked_ok recordTypeHandshake x c d) as (c' & d' & Hw & recs & frags & [] & Hsy & Hf & Hx & _ & _); try done.
  exists c', d', recs. split; [|split; [done|split; [done|]]].
  { unfold writeHandshakeRecord. etransitivity; [apply bind_run; unfold lift; by rewrite Hm|]. cbn beta iota.
    etransitivity; [apply bind_run, Hw|]. done. }
  intros r Hsh <- Hhand Hst Hwf Hlen. by eapply readHandshake_feed.
Qed.

(** ** What a record can do *)

(** The parts of the state that a record may advance are the same. *)
Definition quiet c c' : Prop :=
  c'.(hand) = c.(hand) /\ c'.(input) = c.(input) /\ c'.(retryCount) = c.(retryCount) /\ c'.(isHandshakeComplete) = c.(isHandshakeComplete).
Definition quietly {A} (m : @M Cs reader A) : Prop := forall c c' a, m c = Ret (c', a) -> quiet c c'.
(** A computation that always gives an error. *)
Definition fails (m : @M Cs reader error) : Prop := forall c c' e, m c = Ret (c', e) -> quiet c c' /\ e <> None.

Lemma quiet_refl c : quiet c c.
Proof. done. Qed.
Lemma quiet_trans c1 c2 c3 : quiet c1 c2 -> quiet c2 c3 -> quiet c1 c3.
Proof. unfold quiet. intuition congruence. Qed.

Lemma bind_inv {A B} (m : M A) (k : A -> M B) c c' b : bind m k c = Ret (c', b) ->
  exists c1 a, m c = Ret (c1, a) /\ k a c1 = Ret (c', b).
Proof. unfold bind. destruct (m c) as [|[c1 a]]; [done|]. cbn. intros H. by exists c1, a. Qed.

Lemma quietly_ret {A} (a : A) : quietly (ret a).
Proof. by intros c c' x [= <- _]. Qed.
Lemma quietly_bind {A B} (m : M A) (k : A -> M B) : quietly m -> (forall a, quietly (k a)) -> quietly (bind m k).
Proof. intros Hm Hk c c' b (c1 & a & H1 & H2)%bind_inv. eapply quiet_trans; [by eapply Hm|by eapply Hk]. Qed.
Lemma quietly_field {A} (f : Conn.t reader -> A) : quietly (field f).
Proof. by intros c c' x [= <- _]. Qed.
Lemma quietly_lift {A} (o : outcome A) : quietly (lift o).
Proof. unfold lift. intros c c' x. destruct o; [done|]. by intros [= <- _]. Qed.
Lemma quietly_panic {A} : quietly (@panic Cs reader A).
Proof. done. Qed.
Lemma quietly_modify f : (forall c, quiet c (f c)) -> quietly (modify f).
Proof. intros H c c' x [= <- _]. apply H. Qed.
Lemma quietly_on {S A} (get : Conn.t reader -> S) set (f : S -> S * A) : (forall s c, quiet c (set s c)) -> quietly (on get set f).
Proof. unfold on. intros H c c' x. destruct (f (get c)). intros [= <- _]. apply H. Qed.
Lemma quietly_if {A} (b : bool) (m1 m2 : M A) : quietly m1 -> quietly m2 -> quietly (if b then m1 else m2).
Proof. by destruct b. Qed.

Create HintDb quiet.
#[local] Hint Resolve quiet_refl quietly_ret quietly_bind quietly_field quietly_lift quietly_panic quietly_modify quietly_on quietly_if : quiet.
#[local] Hint Extern 1 (quiet _ _) => done : quiet.
#[local] Hint Extern 2 (quietly (mbind _ _)) => apply quietly_bind : quiet.
#[local] Hint Extern 2 (quietly (match ?x with _ => _ end)) => destruct x : quiet.

Lemma quietly_maxPayload typ : quietly (@maxPayloadSizeForWrite Cs reader typ).
Proof.
  intros c c' n. unfold maxPayloadSizeForWrite. case_match; [by intros [= <- _]|]. case_match; [by intros [= <- _]|].
  destruct (payload_room _ _); [done|]. cbn [obind]. case_match; by intros [= <- _].
Qed.
Lemma quietly_encrypt header p : quietly (out_encrypt ReadFull header p).
Proof. intros c c' r. unfold out_encrypt. destruct (encrypt _ _ _ _ _) as [|[[hc rd] x]]; [done|]. by intros [= <- _]. Qed.
#[local] Hint Resolve quietly_maxPayload quietly_encrypt : quiet.

Lemma quietly_write_loop fuel typ data n : quietly (write_loop ReadFull fuel typ data n).
Proof.
  revert data n. induction fuel as [|fuel IH]; intros data n; cbn [write_loop]; apply quietly_if; auto with quiet.
  unfold write, conn_Write. auto 20 with quiet.
Qed.
#[local] Hint Resolve quietly_write_loop : quiet.

Lemma quietly_sendAlert a : quietly (sendAlert ReadFull a).
Proof. unfold sendAlert, sendAlertLocked, write_records, out_setErrorLocked. auto 10 with quiet. Qed.
Lemma quietly_in_err e : quietly (@in_setErrorLocked Cs reader e).
Proof. unfold in_setErrorLocked. auto with quiet. Qed.
Lemma quietly_readFromUntil n : quietly (@readFromUntil Cs reader n).
Proof. intros c c' e H. destruct (readFromUntil_returns c n) as (c1 & e1 & H1 & Hc). rewrite H1 in H. injection H as <- _. by rewrite Hc. Qed.
Lemma quietly_decrypt record : quietly (@in_decrypt Cs K reader record).
Proof. intros c c' r. unfold in_decrypt. destruct (decrypt _ _) as [|[hc x]]; [done|]. by intros [= <- _]. Qed.
Lemma quietly_rawInput_Next n : quietly (@rawInput_Next Cs reader n).
Proof. intros c c' r. unfold rawInput_Next. destruct (upto _ _); [done|]. cbn. destruct (from _ _); [done|]. by intros [= <- _]. Qed.
#[local] Hint Resolve quietly_sendAlert quietly_in_err quietly_readFromUntil quietly_decrypt quietly_rawInput_Next : quiet.

Lemma fails_bind {A} (m : M A) (k : A -> M error) : quietly m -> (forall a, fails (k a)) -> fails (bind m k).
Proof.
  intros Hm Hk c c' b (c1 & a & H1 & H2)%bind_inv. apply Hk in H2 as [H2 H3]. split; [|done].
  eapply quiet_trans; [by eapply Hm|done].
Qed.
Lemma fails_in_err e : fails (@in_setErrorLocked Cs reader (Some e)).
Proof. intros c c' x. unfold in_setErrorLocked, on. cbn. by intros [= <- <-]. Qed.
Lemma fails_alert a : a <> alertCloseNotify -> fails (alert_and_fail ReadFull a).
Proof.
  intros Ha c c' e (c1 & x & H1 & H2)%bind_inv. pose proof (quietly_sendAlert _ _ _ _ H1) as Hq.
  assert (exists y, x = Some y) as [y ->].
  { unfold sendAlert, sendAlertLocked in H1. apply bind_inv in H1 as (c2 & w & _ & H1). cbn beta in H1.
    rewrite (proj2 (Z.eqb_neq _ _) Ha) in H1. unfold out_setErrorLocked, on in H1. cbn in H1. injection H1 as _ <-. by eexists. }
  apply fails_in_err in H2 as [H2 H3]. split; [by eapply quiet_trans|done].
Qed.
Lemma fails_header b a msg : fails (header_error ReadFull b a msg).
Proof.
  unfold header_error. apply fails_bind; [destruct a; auto with quiet|]. intros []. apply fails_bind; [auto with quiet|].
  intros c. apply fails_in_err.
Qed.
Lemma fails_read e : fails (@read_failed Cs reader e).
Proof.
  unfold read_failed. apply fails_bind; [auto with quiet|]. intros [] c c' x [= <- <-]. done.
Qed.

Lemma check_header_fails c complete typ v n m : check_header ReadFull c complete typ v n = Some m -> fails m.
Proof. unfold check_header. repeat (case_match; [intros [= <-]; apply fails_header|]). done. Qed.

(** A record that was decrypted, and any number of them: what happens to the half of
    the connection that reads. *)
Definition decrypts (h h' : halfConn.t) : Prop := exists record data typ, decrypt record h = Ret (h', inr (data, typ)).
Definition received : halfConn.t -> halfConn.t -> Prop := rtc decrypts.

(** Decrypting changes neither the error nor the next keys. *)
Definition same_next (h h' : halfConn.t) : Prop :=
  h'.(halfConn.err) = h.(halfConn.err) /\ h'.(halfConn.version) = h.(halfConn.version) /\
  h'.(halfConn.nextCipher) = h.(halfConn.nextCipher) /\ h'.(halfConn.nextMac) = h.(halfConn.nextMac) /\
  h'.(halfConn.level) = h.(halfConn.level) /\ h'.(halfConn.trafficSecret) = h.(halfConn.trafficSecret).
Lemma decrypt_next record h h' r : decrypt record h = Ret (h', r) -> same_next h h'.
Proof. intros H. destruct (decrypt_moved _ _ _ _ H) as (ci & sq & -> & _). done. Qed.
Lemma received_next h h' : received h h' -> same_next h h'.
Proof.
  induction 1 as [|h h1 h' (record & data & typ & H) _ IH]; [done|]. apply decrypt_next in H. unfold same_next in *. intuition congruence.
Qed.

(** What a successful read has done: exactly one of these.  After records that were
    decrypted and dropped, the last record was decrypted; its handshake data was added,
    its application data set, or it said that the next cipher is to be installed.  The
    half that reads has decrypted these records and nothing else, or it has then the
    cipher and MAC that were waiting, with a sequence number of zero. *)
Inductive advanced (ccs : bool) c c' : Prop :=
  | adv_hand h record data : ccs = false -> data <> [] -> received c.(in_) h -> decrypt record h = Ret (c'.(in_), inr (data, recordTypeHandshake)) ->
      c'.(hand) = c.(hand) ++ data -> c.(input) = [] -> c'.(input) = [] -> advanced ccs c c'
  | adv_input h record data : ccs = false -> c.(isHandshakeComplete) = true -> data <> [] ->
      received c.(in_) h -> decrypt record h = Ret (c'.(in_), inr (data, recordTypeApplicationData)) ->
      c.(input) = [] -> c'.(input) = data -> c'.(hand) = c.(hand) -> advanced ccs c c'
  | adv_cipher h record h2 cipher : ccs = true -> received c.(in_) h -> decrypt record h = Ret (h2, inr ([x01], recordTypeChangeCipherSpec)) ->
      c.(in_).(halfConn.nextCipher) = Some cipher ->
      c'.(in_) = halfConn.Mk Cs c.(in_).(halfConn.err) c.(in_).(halfConn.version) (Some cipher) c.(in_).(halfConn.nextMac) (replicate 8 x00) None None
        c.(in_).(halfConn.level) c.(in_).(halfConn.trafficSecret) ->
      c'.(hand) = c.(hand) -> c.(input) = [] -> c'.(input) = [] -> advanced ccs c c'.

(** The same for the record that was just decrypted. *)
Inductive processed (ccs : bool) (typ : Z) (data : bytes) c c' : Prop :=
  | pr_hand : ccs = false -> typ = recordTypeHandshake -> data <> [] -> c'.(in_) = c.(in_) -> c'.(hand) = c.(hand) ++ data -> c'.(input) = [] ->
      processed ccs typ data c c'
  | pr_input : ccs = false -> c.(isHandshakeComplete) = true -> typ = recordTypeApplicationData -> data <> [] -> c'.(in_) = c.(in_) ->
      c'.(input) = data -> c'.(hand) = c.(hand) -> processed ccs typ data c c'
  | pr_cipher : ccs = true -> typ = recordTypeChangeCipherSpec -> data = [x01] -> changeCipherSpec c.(in_) = (c'.(in_), None) ->
      c'.(hand) = c.(hand) -> c'.(input) = [] -> processed ccs typ data c c'.

(** What a step does, when [P] is what it does on success and [Q] what happens to the
    half that reads when the record is dropped. *)
Definition outcome_of (P : Prop) (Q : halfConn.t -> halfConn.t -> Prop) c c' (s : step) : Prop :=
  match s with
  | Retry => quiet c c' /\ Q c.(in_) c'.(in_)
  | Done (Some _) => c'.(hand) = c.(hand) /\ c'.(input) = c.(input)
  | Done None => P
  end.
Definition record_ok (ccs : bool) (typ : Z) (data : bytes) c c' (s : step) : Prop :=
  outcome_of (processed ccs typ data c c') (fun h h' => h' = h) c c' s.
Definition outcome_ok (ccs : bool) c c' (s : step) : Prop := outcome_of (advanced ccs c c') decrypts c c' s.

Lemma done_fails P Q m c c' s : fails m -> done m c = Ret (c', s) -> outcome_of P Q c c' s.
Proof.
  intros Hm (c1 & e & H1 & H2)%bind_inv. injection H2 as <- <-. apply Hm in H1 as [(H1 & H2 & _) H3]. by destruct e.
Qed.

Lemma outcome_after ccs c c1 c' s : quiet c c1 -> c1.(in_) = c.(in_) -> outcome_ok ccs c1 c' s -> outcome_ok ccs c c' s.
Proof.
  intros (H1 & H2 & H3 & H4) H5. destruct s as [[e|]|]; cbn.
  - intuition congruence.
  - intros []; [eapply adv_hand|eapply adv_input|eapply adv_cipher]; rewrite <- ?H5; try done; congruence.
  - unfold quiet. rewrite H5. intuition congruence.
Qed.

(** A record that was decrypted and then handled. *)
Lemma decrypted_outcome ccs record data typ c c1 c' s : decrypt record c.(in_) = Ret (c1.(in_), inr (data, typ)) -> quiet c c1 -> c.(input) = [] ->
  record_ok ccs typ data c1 c' s -> outcome_ok ccs c c' s.
Proof.
  intros Hd (H1 & H2 & H3 & H4) Hin. destruct s as [[e|]|]; cbn.
  - intuition congruence.
  - intros [? -> ? E ? ?|? ? -> ? E ? ?|? -> -> E ? ?].
    + eapply (adv_hand _ _ _ c.(in_) record data); rewrite ?E; try done; congruence.
    + eapply (adv_input _ _ _ c.(in_) record data); rewrite ?E; try done; congruence.
    + pose proof (decrypt_next _ _ _ _ Hd) as (N1 & N2 & N3 & N4 & N5 & N6). unfold changeCipherSpec in E.
      destruct (halfConn.nextCipher (in_ c1)) as [k|] eqn:Ek; [|done]. destruct (halfConn.version (in_ c1) =? VersionTLS13); [done|].
      injection E as E. eapply (adv_cipher _ _ _ c.(in_) record c1.(in_) k); [done|apply rtc_refl|done|congruence| |congruence|done|done]. rewrite <- E, N1, N2, N4, N5, N6. done.
  - intros [Hq E]. split; [unfold quiet in *; intuition congruence|]. rewrite E. by exists record, data, typ.
Qed.

(** What a read does after records that were dropped. *)
Lemma advanced_later ccs c c1 c' : quiet c (set_retryCount c.(retryCount) c1) -> decrypts c.(in_) c1.(in_) -> advanced ccs c1 c' -> advanced ccs c c'.
Proof.
  intros (H1 & H2 & _ & H4) Hd. cbn in H1, H2, H4. assert (Hn : same_next (in_ c) (in_ c1)) by (by apply received_next, rtc_once).
  destruct Hn as (N1 & N2 & N3 & N4 & N5 & N6).
  assert (Hr : forall h, received (in_ c1) h -> received (in_ c) h) by (intros h; by apply rtc_l).
  intros [| |h record h2 k ? ? ? Hk E ? ? ?]; [eapply adv_hand|eapply adv_input|eapply (adv_cipher _ _ _ h record h2 k)]; try (by apply Hr); try done; try congruence.
Qed.

Lemma process_record_ok ccs typ data c c' s : c.(input) = [] ->
  process_record ReadFull ccs c.(isHandshakeComplete) typ data c = Ret (c', s) -> record_ok ccs typ data c c' s.
Proof.
  intros Hin H. apply bind_inv in H as (c1 & a & [= <- <-] & H). cbn beta in H. unfold record_ok.
  assert (Hua : fails (alert_and_fail ReadFull alertUnexpectedMessage)) by (by apply fails_alert).
  destruct (typ =? recordTypeAlert).
  { destruct data as [|l [|dsc [|]]]; try (by eapply done_fails in H).
    repeat case_match; try (by eapply done_fails in H); try (eapply done_fails in H; [done|apply fails_in_err]).
    by injection H as <- <-. }
  destruct (Z.eqb_spec typ recordTypeChangeCipherSpec) as [->|_].
  { destruct (bool_decide (data = [x01])) eqn:Ed; cbn [negb] in H; [apply bool_decide_eq_true in Ed|eapply done_fails in H; [exact H|by apply fails_alert]].
    repeat case_match; try (by eapply done_fails in H); try (by injection H as <- <-).
    apply bind_inv in H as (c1 & e & Hon & Hk). unfold on in Hon. destruct (changeCipherSpec (in_ c)) as [hc e'] eqn:Ec.
    injection Hon as <- <-. destruct e' as [a|].
    - assert (hc = in_ c /\ a <> alertCloseNotify) as [-> Ha] by (unfold changeCipherSpec in Ec; repeat case_match; simplify_eq; done).
      apply bind_inv in Hk as (c9 & e & He & [= <- <-]). apply fails_alert in He as [(Hh & Hi & _) He]; [|done]. by destruct e.
    - injection Hk as <- <-. cbn. destruct ccs; [|done]. by apply pr_cipher. }
  destruct (Z.eqb_spec typ recordTypeApplicationData) as [->|_].
  { destruct (negb (isHandshakeComplete c) || ccs) eqn:E; [by eapply done_fails in H|].
    apply orb_false_elim in E as [E ->]. apply negb_false_iff in E.
    destruct (len data =? 0) eqn:El; [by injection H as <- <-|]. injection H as <- <-. cbn.
    apply pr_input; [done|done|done|by intros ->|done|done|done]. }
  destruct (Z.eqb_spec typ recordTypeHandshake) as [->|_]; [|by eapply done_fails in H].
  destruct ((len data =? 0) || ccs) eqn:E; [by eapply done_fails in H|]. apply orb_false_elim in E as [E ->].
  injection H as <- <-. cbn. apply pr_hand; [done|done|by intros ->|done|done|done].
Qed.

(** The count is reset only for records that are not ignored. *)
Lemma process_advances ccs complete typ data c c' s : negb (typ =? recordTypeAlert) && negb (typ =? recordTypeChangeCipherSpec) && (0 <? len data) = true ->
  process_record ReadFull ccs complete typ data c = Ret (c', s) -> s <> Retry.
Proof.
  intros [[Ha%negb_true_iff Hc%negb_true_iff]%andb_prop Hl]%andb_prop H. apply bind_inv in H as (c1 & a & _ & H). cbn beta in H.
  rewrite Ha, Hc in H. replace (len data =? 0) with false in H by lia. cbn [orb] in H.
  repeat case_match; unfold done in H; apply bind_inv in H as (c2 & e & _ & [= _ <-]); done.
Qed.

Lemma outcome_reset ccs typ data c c' s : s <> Retry -> record_ok ccs typ data (set_retryCount 0 c) c' s -> record_ok ccs typ data c c' s.
Proof. destruct s as [[e|]|]; cbn; [done| |done]. intros _ []; [apply pr_hand|apply pr_input|apply pr_cipher]; done. Qed.

Lemma handle_data_ok ccs typ data c c' s : c.(input) = [] ->
  handle_data ReadFull ccs c.(isHandshakeComplete) typ data c = Ret (c', s) -> record_ok ccs typ data c c' s.
Proof.
  intros Hin. unfold handle_data. destruct (maxPlaintext <? len data); [apply done_fails; by apply fails_alert|].
  intros (c1 & x & [= <- <-] & H)%bind_inv. cbn beta in H. case_match eqn:E1; [eapply done_fails in H; [exact H|by apply fails_alert]|].
  apply bind_inv in H as (c1 & [] & Hc1 & H). cbn beta in H.
  destruct (negb (typ =? recordTypeAlert) && negb (typ =? recordTypeChangeCipherSpec) && (0 <? len data)) eqn:Er; injection Hc1 as <-.
  - case_match eqn:E2.
    + apply outcome_reset; [unfold done in H; by apply bind_inv in H as (c2 & e & _ & [= _ <-])|]. eapply done_fails; [|exact H]. by apply fails_alert.
    + apply outcome_reset; [by eapply process_advances|]. by eapply (process_record_ok ccs typ data (set_retryCount 0 c)).
  - case_match eqn:E2; [eapply done_fails in H; [exact H|by apply fails_alert]|]. by eapply process_record_ok.
Qed.

(** Reading from the network leaves the half that reads. *)
Lemma read_keeps_in n c c' e : readFromUntil n c = Ret (c', e) -> quiet c c' /\ c'.(in_) = c.(in_).
Proof. intros H. split; [by eapply quietly_readFromUntil|]. destruct (readFromUntil_returns c n) as (c1 & e1 & H1 & Hc). rewrite H1 in H. injection H as <- _. by rewrite Hc. Qed.
Lemma next_keeps_in n c c' r : @rawInput_Next Cs reader n c = Ret (c', r) -> quiet c c' /\ c'.(in_) = c.(in_).
Proof. unfold rawInput_Next. destruct (upto _ _); [done|]. cbn. destruct (from _ _); [done|]. by intros [= <- _]. Qed.
Lemma lift_keeps {A} (o : outcome A) c c' a : @lift Cs reader A o c = Ret (c', a) -> c' = c.
Proof. unfold lift. destruct o; [done|]. by intros [= <- _]. Qed.

(** One call of [readRecordOrCCS]. *)
Lemma read_record_ok ccs c c' s : read_record ReadFull ccs c = Ret (c', s) -> outcome_ok ccs c c' s.
Proof.
  intros (c1 & x & [= <- <-] & H)%bind_inv. cbn beta in H. destruct (halfConn.err (in_ c)) as [e|]; [by injection H as <- <-|].
  destruct (len (input c) =? 0) eqn:Ein; cbn [negb] in H; [|eapply done_fails in H; [exact H|apply fails_in_err]].
  assert (Hin : c.(input) = []) by (destruct c.(input) as [|x l]; [done|rewrite len_cons in Ein; pose proof (len_nonneg l); lia]).
  apply bind_inv in H as (c1 & e & Hr & H). cbn beta in H. apply read_keeps_in in Hr as [Hq1 Hi1]. apply (outcome_after ccs c c1); [done|done|].
  apply bind_inv in H as (c2 & x & [= <- <-] & H). cbn beta in H. destruct e as [e|]; [eapply done_fails in H; [exact H|apply fails_read]|].
  apply bind_inv in H as (c2 & hdr & ->%lift_keeps & H). apply bind_inv in H as (c2 & typ & ->%lift_keeps & H).
  apply bind_inv in H as (c2 & v & ->%lift_keeps & H). apply bind_inv in H as (c2 & n & ->%lift_keeps & H). cbn beta in H.
  destruct (check_header _ _ _ _ _ _) as [m|] eqn:Eh; [eapply done_fails in H; [exact H|by eapply check_header_fails]|].
  apply bind_inv in H as (c6 & e & Hq6 & H). apply read_keeps_in in Hq6 as [Hq6 Hi6]. apply (outcome_after ccs c1 c6); [done|done|]. cbn beta in H.
  destruct e as [e|]; [eapply done_fails in H; [exact H|apply fails_read]|].
  apply bind_inv in H as (c7 & record & Hq7 & H). apply next_keeps_in in Hq7 as [Hq7 Hi7]. apply (outcome_after ccs c6 c7); [done|done|]. cbn beta in H.
  apply bind_inv in H as (c8 & r & Hd & H). pose proof (quietly_decrypt _ _ _ _ Hd) as Hq8. cbn beta in H. unfold in_decrypt in Hd.
  destruct (decrypt record (in_ c7)) as [|[hc x]] eqn:Ed; [done|]. injection Hd as <- <-. destruct x as [a|[data t]].
  - assert (Ha : a <> alertCloseNotify).
    { apply decrypt_alert in Ed. intros ->. by repeat (apply elem_of_cons in Ed as [Ed|Ed]; [done|]); apply elem_of_nil in Ed. }
    apply bind_inv in H as (c9 & e & He & [= <- <-]). apply fails_alert in He as [(Hh & Hi & _) He]; [|done]. by destruct e.
  - assert (Hin7 : c7.(input) = []) by (unfold quiet in *; intuition congruence).
    apply (decrypted_outcome ccs record data t c7 (set_in_ hc c7)); [exact Ed|done|exact Hin7|]. apply handle_data_ok; [exact Hin7|].
    unfold quiet in *. replace (isHandshakeComplete c) with (isHandshakeComplete (set_in_ hc c7)) in H by (cbn; intuition congruence). exact H.
Qed.

(** Enough fuel is enough. *)
Lemma read_retry_fuel ccs fuel k c : (1 <= fuel)%nat -> maxUselessRecords - c.(retryCount) < Z.of_nat fuel ->
  read_retry ReadFull (fuel + k) ccs c = read_retry ReadFull fuel ccs c.
Proof.
  revert c. induction fuel as [|fuel IH]; intros c H1 Hf; [lia|]. cbn [read_retry Nat.add]. unfold mbind, M_bind, bind at 1 5.
  destruct (read_record ReadFull ccs c) as [|[c1 s]] eqn:E; [done|]. cbn [obind]. apply read_record_ok in E.
  destruct s as [e|]; [done|]. destruct E as [(_ & _ & Hr & _) _]. unfold bind, modify, field. cbn [obind]. cbn [set_retryCount retryCount].
  destruct (Z.ltb_spec maxUselessRecords (retryCount c1 + 1)); [done|]. apply IH; cbn; lia.
Qed.

Lemma read_retry_ok ccs fuel c c' e : read_retry ReadFull fuel ccs c = Ret (c', e) -> outcome_ok ccs c c' (Done e).
Proof.
  revert c. induction fuel as [|fuel IH]; intros c; [done|]. cbn [read_retry]. intros (c1 & s & Hr & H)%bind_inv.
  apply read_record_ok in Hr. destruct s as [x|]; [by injection H as <- <-|].
  apply bind_inv in H as (c2 & [] & [= <-] & H). apply bind_inv in H as (c2 & n & [= <- <-] & H). cbn beta in H.
  destruct Hr as [(H1 & H2 & H3 & H4) Hd].
  assert (Hfin : outcome_ok ccs (set_retryCount (retryCount c1 + 1) c1) c' (Done e)).
  { case_match; [|by apply IH]. apply bind_inv in H as (c2 & x & Hs & H). apply quietly_sendAlert in Hs.
    apply fails_in_err in H as [Hq He]. destruct e; [|done]. destruct Hs as (? & ? & _), Hq as (? & ? & _). cbn in *. split; congruence. }
  destruct e as [x|]; cbn in Hfin |- *; [split; intuition congruence|].
  by eapply advanced_later; [| |exact Hfin].
Qed.

(** C25: [readRecord] and [readChangeCipherSpec] end, however many records are dropped;
    when they succeed exactly one thing has happened ([advanced]): the data of a decrypted
    handshake record was added to the handshake data; or, after the handshake, the data of a
    decrypted record was set as application data; or, if that was asked for, the cipher and
    MAC that were waiting have replaced the old ones.  Apart from the last case the half of
    the connection that reads has only decrypted records.  After an error neither buffer has
    changed. *)
Theorem read_record_contract ccs c :
  (forall k, read_retry ReadFull (S (Z.to_nat (maxUselessRecords - c.(retryCount))) + k) ccs c = readRecordOrCCS ReadFull ccs c) /\
  (forall c' e, readRecordOrCCS ReadFull ccs c = Ret (c', e) ->
    match e with None => advanced ccs c c' | Some _ => c'.(hand) = c.(hand) /\ c'.(input) = c.(input) end).
Proof.
  unfold readRecordOrCCS. split.
  - intros k. etransitivity; [|symmetry; by apply bind_run]. apply read_retry_fuel; lia.
  - intros c' e (c1 & n & [= <- <-] & H)%bind_inv. by apply read_retry_ok in H.
Qed.

(** ** Bytes of handshake messages *)

(** With data pending no record is read. *)
Lemma readRecord_pending c c' e : c.(input) <> [] -> readRecord ReadFull c = Ret (c', e) -> e <> None.
Proof.
  intros Hi (c1 & n & [= <- <-] & H)%bind_inv. cbn [read_retry] in H. apply bind_inv in H as (c1 & s & H & Hs).
  apply bind_inv in H as (c2 & x & [= <- <-] & H). cbn beta in H. destruct (halfConn.err (in_ c)).
  - injection H as <- <-. by injection Hs as _ <-.
  - replace (len (input c) =? 0) with false in H.
    2: { destruct c.(input) as [|b l]; [done|]. rewrite len_cons. pose proof (len_nonneg l). lia. }
    apply bind_inv in H as (c2 & y & H & [= <- <-]). apply fails_in_err in H as [_ H]. by injection Hs as _ <-.
Qed.

Definition hand_measure (n : Z) c : Z := n - len c.(hand) + (if bool_decide (c.(input) = []) then 1 else 0).

Lemma read_hand_fuel n fuel k c : n <= len c.(hand) \/ hand_measure n c <= Z.of_nat fuel ->
  read_hand ReadFull (fuel + k) n c = read_hand ReadFull fuel n c.
Proof.
  revert c. induction fuel as [|fuel IH]; intros c Hf.
  - assert (n <= len c.(hand)) by (unfold hand_measure in Hf; case_bool_decide; lia).
    destruct k; [done|]. cbn [Nat.add read_hand]. unfold mbind, M_bind, bind at 1 3, field. cbn [obind]. by replace (n <=? len (hand c)) with true by lia.
  - cbn [Nat.add read_hand]. unfold mbind, M_bind, bind at 1 3, field. cbn [obind].
    destruct (Z.leb_spec n (len c.(hand))); [done|]. unfold bind.
    destruct (readRecord ReadFull c) as [|[c1 e]] eqn:E; [done|]. cbn [obind]. destruct e; [done|]. apply IH. right.
    assert (Hi : c.(input) = []). { destruct (decide (c.(input) = [])); [done|]. by apply readRecord_pending in E. }
    destruct Hf as [|Hf]; [lia|]. unfold hand_measure in *. rewrite bool_decide_true in Hf by done.
    apply bind_inv in E as (c2 & m & [= <- <-] & E). apply read_retry_ok in E. destruct E as [h r data _ Hd _ _ Hh _ Hi'|h r data _ _ Hd _ _ _ Hi' Hh|]; [..|done].
    + rewrite Hi', bool_decide_true, Hh, len_app by done. destruct data; [done|]. rewrite len_cons. pose proof (len_nonneg data). lia.
    + rewrite bool_decide_false by congruence. rewrite Hh. lia.
Qed.

(** [readHandshakeBytes] ends for every peer, and when it succeeds the bytes asked
    for are there, after those that were. *)
Theorem read_handshake_bytes n c :
  (forall k, read_hand ReadFull (Z.to_nat n + 2 + k) n c = readHandshakeBytes ReadFull n c) /\
  (forall c', readHandshakeBytes ReadFull n c = Ret (c', None) -> n <= len c'.(hand) /\ exists data, c'.(hand) = c.(hand) ++ data).
Proof.
  split.
  - intros k. apply read_hand_fuel. unfold hand_measure. pose proof (len_nonneg c.(hand)). case_bool_decide; lia.
  - unfold readHandshakeBytes. generalize (Z.to_nat n + 2)%nat as fuel. intros fuel. revert c.
    induction fuel as [|fuel IH]; intros c c' (c1 & m & [= <- <-] & H)%bind_inv; cbn beta in H;
      (destruct (Z.leb_spec n (len c.(hand))); [injection H as <-; split; [done|exists []; by rewrite app_nil_r]|]); [done|].
    apply bind_inv in H as (c1 & e & Hr & H). cbn beta in H. destruct e; [done|]. destruct (IH _ _ H) as (Hn & data & Hd). split; [done|].
    apply bind_inv in Hr as (c2 & m & [= <- <-] & Hr). apply read_retry_ok in Hr. destruct Hr as [h r d1 _ _ _ _ Hh _ _|h r d1 _ _ _ _ _ _ _ Hh|]; [..|done].
    + exists (d1 ++ data). by rewrite Hd, Hh, app_assoc.
    + exists data. congruence.
Qed.

(** ** After closing *)

(** Nothing reaches the network. *)
Definition silent {A} (m : @M Cs reader A) : Prop := forall c c' a, c.(conn).(net.expired) = true -> m c = Ret (c', a) ->
  c'.(conn).(net.sent) = c.(conn).(net.sent) /\ c'.(conn).(net.expired) = true.

Lemma silent_bind {A B} (m : M A) (k : A -> M B) : silent m -> (forall a, silent (k a)) -> silent (bind m k).
Proof.
  intros Hm Hk c c' b Hx (c1 & a & H1 & H2)%bind_inv. apply Hm in H1 as [Hs1 Hx1]; [|done]. apply Hk in H2 as [Hs2 Hx2]; [|done].
  split; [congruence|done].
Qed.
Lemma silent_same {A} (m : M A) : (forall c c' a, m c = Ret (c', a) -> c'.(conn) = c.(conn)) -> silent m.
Proof. intros H c c' a Hx Hm. rewrite (H _ _ _ Hm). done. Qed.
Lemma silent_ret {A} (a : A) : silent (ret a).
Proof. apply silent_same. by intros c c' x [= <- _]. Qed.
Lemma silent_field {A} (f : Conn.t reader -> A) : silent (field f).
Proof. apply silent_same. by intros c c' x [= <- _]. Qed.
Lemma silent_lift {A} (o : outcome A) : silent (lift o).
Proof. apply silent_same. unfold lift. intros c c' x. destruct o; [done|]. by intros [= <- _]. Qed.
Lemma silent_modify f : (forall c, (f c).(conn) = c.(conn)) -> silent (modify f).
Proof. intros H. apply silent_same. intros c c' x [= <- _]. apply H. Qed.
Lemma silent_conn_Write data : silent (@conn_Write Cs reader data).
Proof. intros c c' x Hx. unfold conn_Write, mbind, M_bind, bind, on, net.Write. rewrite Hx. by intros [= <- _]. Qed.

Create HintDb silent.
#[local] Hint Resolve silent_ret silent_field silent_lift silent_conn_Write : silent.
#[local] Hint Extern 1 (silent (mbind _ _)) => apply silent_bind : silent.
#[local] Hint Extern 1 (silent (modify _)) => by apply silent_modify : silent.
#[local] Hint Extern 2 (silent (match ?x with _ => _ end)) => destruct x : silent.

Lemma silent_maxPayload typ : silent (@maxPayloadSizeForWrite Cs reader typ).
Proof.
  apply silent_same. intros c c' n. unfold maxPayloadSizeForWrite. repeat (case_match; [by intros [= <- _]|]).
  destruct (payload_room _ _); [done|]. cbn [obind]. case_match; by intros [= <- _].
Qed.
Lemma silent_encrypt header p : silent (out_encrypt ReadFull header p).
Proof. apply silent_same. intros c c' r. unfold out_encrypt. destruct (encrypt _ _ _ _ _) as [|[[hc rd] x]]; [done|]. by intros [= <- _]. Qed.
Lemma silent_write_loop fuel typ data n : silent (write_loop ReadFull fuel typ data n).
Proof.
  revert data n. induction fuel as [|fuel IH]; intros data n; cbn [write_loop]; (destruct (len data <=? 0); [apply silent_ret|]); [done|].
  pose proof silent_maxPayload. pose proof silent_encrypt. unfold write. auto 20 with silent.
Qed.

(** C26: once the close_notify alert has been sent nothing more reaches the network:
    [Write] and [CloseWrite] fail or repeat the old result and send no byte. *)
Theorem silent_after_close b c c1 e : c.(isHandshakeComplete) = true -> c.(closeNotifySent) = false ->
  CloseWrite ReadFull c = Ret (c1, e) ->
  (forall c2 r, Write b c1 = Ret (c2, r) -> c2.(conn).(net.sent) = c1.(conn).(net.sent) /\ r.1 = 0 /\ r.2 <> None) /\
  CloseWrite ReadFull c1 = Ret (c1, e) /\
  (forall typ c2 r, writeRecordLocked ReadFull typ b c1 = Ret (c2, r) -> c2.(conn).(net.sent) = c1.(conn).(net.sent)).
Proof.
  intros Hcomp Hopen H.
  assert (Hc1 : c1.(conn).(net.expired) = true /\ c1.(closeNotifySent) = true /\ c1.(closeNotifyErr) = e /\ c1.(isHandshakeComplete) = true).
  { unfold CloseWrite in H. apply bind_inv in H as (c2 & x & [= <- <-] & H). cbn beta in H. rewrite Hcomp in H. cbn [negb] in H.
    apply bind_inv in H as (c2 & x & [= <- <-] & H). cbn beta in H. rewrite Hopen in H.
    apply bind_inv in H as (c2 & [] & [= <-] & H). cbn beta in H. apply bind_inv in H as (c3 & err & Ha & H).
    injection H as <- <-. apply quietly_sendAlert in Ha as (_ & _ & _ & Ha). cbn in Ha |- *. by rewrite Ha. }
  destruct Hc1 as (Hx & Hs & He & Hcomp1). split; [|split].
  - intros c2 r Hw. apply bind_inv in Hw as (c3 & x & [= <- <-] & Hw). cbn beta in Hw. case_match; [by injection Hw as <- <-|].
    apply bind_inv in Hw as (c3 & [] & [= <-] & Hw). apply bind_inv in Hw as (c3 & w & Hd & Hw).
    apply bind_inv in Hd as (c4 & y & Hh & Hd). apply bind_inv in Hh as (c5 & z & [= <- <-] & Hh). cbn in Hh. rewrite Hcomp1 in Hh.
    injection Hh as <- <-. apply bind_inv in Hd as (c5 & z & [= <- <-] & Hd). cbn beta in Hd.
    cbn [set_activeCall out isHandshakeComplete closeNotifySent] in Hd.
    destruct (halfConn.err (out c1)); [|rewrite Hcomp1, Hs in Hd]; injection Hd as <- <-; by injection Hw as <- <-.
  - unfold CloseWrite. etransitivity; [by apply bind_run|]. cbn beta. rewrite Hcomp1. cbn [negb].
    unfold closeNotify. etransitivity; [by apply bind_run|]. cbn beta. by rewrite Hs, He.
  - intros typ c2 r Hw.
    assert (Hsil : silent (writeRecordLocked ReadFull typ b)); [|by apply Hsil in Hw as [? _]].
    assert (Hon : forall A (f : halfConn.t -> halfConn.t * A), silent (on out set_out f)).
    { intros A f. apply silent_same. unfold on. intros d d' a. destruct (f (out d)). by intros [= <- _]. }
    pose proof silent_write_loop. unfold writeRecordLocked, sendAlertLocked, out_setErrorLocked, write_records. auto 20 with silent.
Qed.
End Data.
End Reading.

(** * Examples *)

(** A connection over [n] whose two directions use [hc]. *)
Definition example_conn (hc : halfConn.t) (vers : Z) (n : net.t) : Conn.t Z :=
  Conn.Mk toy_ciphers Z n 3 true true None vers true Config.zero 1 4865 None false hc hc [] [] [] false [] 0 0 0 0.
Definition quiet_net (reads : list (bytes * option connError)) : net.t := net.Mk reads [] [] false None false.
Definition writer12 : Conn.t Z := example_conn end12 VersionTLS12 (quiet_net []).
Definition writer13 : Conn.t Z := example_conn end13 VersionTLS13 (quiet_net []).

#[local] Abbreviation no_handshake := (fun c : Conn.t Z => Ret (c, None)).
#[local] Abbreviation no_ticket := (fun (_ : newSessionTicketMsgTLS13.t) (c : Conn.t Z) => Ret (c, None)).
#[local] Abbreviation no_aead := (fun (_ : cipherSuiteTLS13.t) (_ _ : bytes) => Panic).

Lemma sync12 : synced end12 end12.
Proof. split_and!; [done|done|done|done|]. unfold cipher_sync. cbn. split_and!; [done| |done]. by eexists. Qed.
Lemma sync13 : synced end13 end13.
Proof. split_and!; [done|done|done|done|]. by unfold cipher_sync. Qed.

(** Three bytes, delivered one byte at a time. *)
Example one_byte_at_a_time :
  match Write (K := toy_hash) toy_rand no_handshake [x01; x02; x03] writer12 with
  | Ret (c, (3, None)) =>
      let r := example_conn end12 VersionTLS12 (quiet_net (map (fun b => ([b], None)) c.(Conn.conn).(net.sent))) in
      match Read (C := Reference.ops) (K := toy_hash) toy_rand no_handshake no_handshake no_ticket no_aead 1 maxPlaintext r with
      | Ret (_, (data, None)) => data = [x01; x02; x03]
      | _ => False
      end
  | _ => False
  end.
Proof. vm_compute. reflexivity. Qed.

Lemma write_then_read_witness :
  exists c' d' recs k, Write (K := toy_hash) toy_rand no_handshake [x01; x02; x03] writer12 = Ret (c', (3, None)) /\
    c'.(Conn.conn).(net.sent) = recs /\ writable c' /\ synced c'.(Conn.out) d' /\
    forall r, receiving r -> r.(Conn.in_) = end12 -> r.(Conn.vers) = VersionTLS12 -> stream_of r = recs ->
      exists r', read_n (C := Reference.ops) (K := toy_hash) toy_rand no_handshake no_handshake no_ticket no_aead k r = Ret (r', [x01; x02; x03]) /\
        receiving r' /\ stream_of r' = [] /\ r'.(Conn.in_) = d'.
Proof.
  apply (write_then_read (C := Reference.ops) (K := toy_hash) (Kok := toy_hash_ok) toy_rand no_handshake no_handshake no_ticket no_aead
    toy_rand_ok [x01; x02; x03] writer12 end12); [|exact sync12|done].
  constructor; [constructor| | | | | |]; done.
Defined.

Lemma handshake_message_delivered_witness :
  exists c' d' recs, writeHandshakeRecord (C := Reference.ops) (K := toy_hash) toy_rand HelloRequest true writer12
      = Ret (c', ([x00; x00; x00; x00], (4, None))) /\
    c'.(Conn.conn).(net.sent) = recs /\ synced c'.(Conn.out) d' /\
    (let r := example_conn end12 VersionTLS12 (quiet_net [(recs, None)]) in
     exists r', readHandshake (C := Reference.ops) (K := toy_hash) toy_rand true r = Ret (r', ([x00; x00; x00; x00], inr HelloRequest)) /\
       r'.(Conn.in_) = d' /\ r'.(Conn.hand) = [] /\ stream_of r' = []).
Proof.
  destruct (handshake_message_delivered (C := Reference.ops) (Cbok := Reference.ok) (K := toy_hash) (Kok := toy_hash_ok) toy_rand
    toy_rand_ok HelloRequest true [x00; x00; x00; x00] writer12 end12) as (c' & d' & recs & Hw & Hs & Hy & Hr);
    [done|done|exact sync12|done|done|].
  exists c', d', recs. split; [exact Hw|]. split; [exact Hs|]. split; [exact Hy|].
  intros r. apply (Hr r).
  - constructor; [reflexivity|reflexivity|by constructor|reflexivity|done|reflexivity].
  - reflexivity.
  - reflexivity.
  - unfold r, stream_of, arriving. cbn. by rewrite !app_nil_r.
  - exact I.
  - vm_compute. discriminate.
Defined.

Lemma silent_after_close_witness : exists c1 e, CloseWrite (K := toy_hash) toy_rand writer13 = Ret (c1, e) /\ e = None /\
  forall c2 r, Write (K := toy_hash) toy_rand no_handshake [x05] c1 = Ret (c2, r) ->
    c2.(Conn.conn).(net.sent) = c1.(Conn.conn).(net.sent) /\ r.1 = 0 /\ r.2 <> None.
Proof.
  assert (H : match CloseWrite (K := toy_hash) toy_rand writer13 with Ret (_, None) => true | _ => false end = true)
    by (vm_compute; reflexivity).
  destruct (CloseWrite (K := toy_hash) toy_rand writer13) as [|[c1 [e|]]] eqn:E; [discriminate|discriminate|].
  exists c1, None. split; [reflexivity|]. split; [reflexivity|].
  apply (silent_after_close (K := toy_hash) toy_rand no_handshake [x05] writer13 c1 None); [reflexivity|reflexivity|exact E].
Defined.

(** A warning that is dropped and then the message that changes the cipher. *)
Definition ccs_half : halfConn.t :=
  halfConn.Mk toy_ciphers None VersionTLS12 None None (replicate 8 x00) end12.(halfConn.cipher) end12.(halfConn.mac) 0 [].
Definition ccs_reader : Conn.t Z :=
  example_conn ccs_half VersionTLS12 (quiet_net [(map u8 [21; 3; 3; 0; 2; 1; 90; 20; 3; 3; 0; 1; 1], None)]).
Lemma read_record_contract_witness : exists c', readRecordOrCCS (K := toy_hash) toy_rand true ccs_reader = Ret (c', None) /\
  advanced (K := toy_hash) true ccs_reader c' /\ c'.(Conn.in_).(halfConn.cipher) = end12.(halfConn.cipher).
Proof.
  assert (H : match readRecordOrCCS (K := toy_hash) toy_rand true ccs_reader with Ret (_, None) => true | _ => false end = true)
    by (vm_compute; reflexivity).
  destruct (readRecordOrCCS (K := toy_hash) toy_rand true ccs_reader) as [|[c1 [e|]]] eqn:E; [discriminate|discriminate|].
  destruct (read_record_contract (K := toy_hash) toy_rand true ccs_reader) as [_ Hr].
  pose proof (Hr c1 None E) as Ha. cbn iota in Ha. exists c1. split; [reflexivity|]. split; [exact Ha|]. clear Hr. rename Ha into Hr. destruct Hr as [|h r d ? ?|h r h2 k _ _ _ Hk Hi _ _ _]; [discriminate..|]. rewrite Hi. symmetry. exact Hk.
Defined.
