(* ===== verification/ConnFrame.v ===== *)
(** * What the record layer leaves alone

    The operations of the record layer that a handshake uses keep the traffic
    secrets, the negotiated parameters and the flag of a complete handshake. *)

From S2P Require Import Prelude Cryptobyte Common Config Negotiation Codec Buffer KeySchedule Record Messages RawMessages ServerHello ClientHello Handshake Conn ConnFacts.

(** Over the outcome at the head of [H]. *)
Ltac ostep H := match type of H with obind ?o _ = _ => destruct o eqn:?; [done|]; cbn [obind] in H end.

Section Layer.
Context {C : Cryptobyte} {Cs : Ciphers} {K : Crypto} {reader : Type} (ReadFull : Z -> reader -> reader * res bytes).
Import Conn.
#[local] Existing Instance M_ret.
#[local] Existing Instance M_bind.

(** A half-connection with the same traffic secret. *)
Definition same_secret (hc hc' : halfConn.t) : Prop := hc'.(halfConn.trafficSecret) = hc.(halfConn.trafficSecret).

Record frame (c c' : Conn.t reader) : Prop := {
  fr_complete : c'.(isHandshakeComplete) = c.(isHandshakeComplete);
  fr_vers : c'.(vers) = c.(vers);
  fr_config : c'.(config) = c.(config);
  fr_handshakes : c'.(handshakes) = c.(handshakes);
  fr_cipherSuite : c'.(cipherSuite) = c.(cipherSuite);
  fr_isClient : c'.(isClient) = c.(isClient);
  fr_in : same_secret c.(in_) c'.(in_);
  fr_out : same_secret c.(out) c'.(out)
}.
#[export] Instance frame_preorder : PreOrder frame.
Proof.
  split; [by constructor|]. intros c1 c2 c3 [] []. unfold same_secret in *. constructor; unfold same_secret; congruence.
Qed.

Definition framed {A} (m : @M Cs reader A) : Prop := forall c c' a, m c = Ret (c', a) -> frame c c'.

Lemma framed_ret {A} (a : A) : framed (ret a).
Proof. by intros c c' x [= <- _]. Qed.
Lemma framed_bind {A B} (m : M A) (k : A -> M B) : framed m -> (forall a, framed (k a)) -> framed (bind m k).
Proof. intros Hm Hk c c' b (c1 & a & H1 & H2)%bind_inv. etrans; [by eapply Hm|by eapply Hk]. Qed.
Lemma framed_field {A} (f : Conn.t reader -> A) : framed (field f).
Proof. by intros c c' x [= <- _]. Qed.
Lemma framed_lift {A} (o : outcome A) : framed (lift o).
Proof. unfold lift. intros c c' x. destruct o; [done|]. by intros [= <- _]. Qed.
Lemma framed_panic {A} : framed (@panic Cs reader A).
Proof. done. Qed.
Lemma framed_modify f : (forall c, frame c (f c)) -> framed (modify f).
Proof. intros H c c' x [= <- _]. apply H. Qed.
Lemma framed_net {A} (f : net.t -> net.t * A) : framed (on conn set_conn f).
Proof. unfold on. intros c c' x. destruct (f _). by intros [= <- _]. Qed.
Lemma framed_in {A} (f : halfConn.t -> halfConn.t * A) : (forall hc, same_secret hc (f hc).1) -> framed (on in_ set_in_ f).
Proof. unfold on. intros H c c' x. specialize (H c.(in_)). destruct (f _). by intros [= <- _]. Qed.
Lemma framed_out {A} (f : halfConn.t -> halfConn.t * A) : (forall hc, same_secret hc (f hc).1) -> framed (on out set_out f).
Proof. unfold on. intros H c c' x. specialize (H c.(out)). destruct (f _). by intros [= <- _]. Qed.
Lemma setError_secret e hc : same_secret hc (setErrorLocked e hc).1.
Proof. done. Qed.
Lemma changeCipherSpec_secret hc : same_secret hc (changeCipherSpec hc).1.
Proof. unfold changeCipherSpec. by repeat case_match. Qed.

Create HintDb frame.
Hint Resolve framed_ret framed_bind framed_field framed_lift framed_panic framed_modify framed_net framed_in framed_out setError_secret changeCipherSpec_secret : frame.
Hint Extern 1 (frame _ _) => by constructor : frame.
Hint Extern 2 (framed (mbind _ _)) => apply framed_bind : frame.
Hint Extern 2 (framed (match ?x with _ => _ end)) => destruct x : frame.
Ltac frame := auto 20 with frame.

Lemma incSeq_secret hc hc' : incSeq hc = Ret hc' -> same_secret hc hc'.
Proof. unfold incSeq. destruct (inc_bytes _); [done|]. by intros [= <-]. Qed.
Lemma decrypt_secret record hc hc' r : decrypt record hc = Ret (hc', r) -> same_secret hc hc'.
Proof.
  unfold decrypt. intros H. do 3 ostep H. case_match; [by injection H as <- _|]. ostep H. case_match; [case_match; by injection H as <- _|].
  case_match; [by injection H as <- _|]. case_match. ostep H. case_match; [by injection H as <- _|].
  destruct (incSeq _) eqn:E; [done|]. injection H as <- _. by apply incSeq_secret in E.
Qed.
Lemma encrypt_secret record payload rand hc hc' rand' r : encrypt ReadFull record payload rand hc = Ret (hc', rand', r) -> same_secret hc hc'.
Proof.
  unfold encrypt. intros H. case_match; [|by injection H as <- _ _]. ostep H. case_match. case_match; [by injection H as <- _ _|].
  do 2 ostep H. case_match. case_match. ostep H. destruct (incSeq _) eqn:E; [done|]. injection H as <- _ _. by apply incSeq_secret in E.
Qed.

Lemma framed_maxPayload typ : framed (@maxPayloadSizeForWrite Cs reader typ).
Proof.
  intros c c' n. unfold maxPayloadSizeForWrite. case_match; [by intros [= <- _]|]. case_match; [by intros [= <- _]|].
  destruct (payload_room _ _); [done|]. cbn [obind]. case_match; by intros [= <- _].
Qed.
Lemma framed_encrypt header p : framed (out_encrypt ReadFull header p).
Proof.
  intros c c' r. unfold out_encrypt. destruct (encrypt _ _ _ _ _) as [|[[hc rd] x]] eqn:E; [done|]. intros [= <- _].
  by apply encrypt_secret in E.
Qed.
Lemma framed_decrypt record : framed (@in_decrypt Cs K reader record).
Proof.
  intros c c' r. unfold in_decrypt. destruct (decrypt _ _) as [|[hc x]] eqn:E; [done|]. intros [= <- _]. by apply decrypt_secret in E.
Qed.
Lemma framed_rawInput_Next n : framed (@rawInput_Next Cs reader n).
Proof. intros c c' r. unfold rawInput_Next. destruct (upto _ _); [done|]. cbn. destruct (from _ _); [done|]. by intros [= <- _]. Qed.
Lemma framed_hand_Next n : framed (@hand_Next Cs reader n).
Proof. intros c c' r. unfold hand_Next. destruct (upto _ _); [done|]. cbn. destruct (from _ _); [done|]. by intros [= <- _]. Qed.
Lemma framed_readFromUntil n : framed (@readFromUntil Cs reader n).
Proof.
  intros c c' r. unfold readFromUntil. case_match; [by intros [= <- _]|]. destruct (ReadFrom _ _ _) as [|[[R b] e]]; [done|]. by intros [= <- _].
Qed.
Hint Resolve framed_maxPayload framed_encrypt framed_decrypt framed_rawInput_Next framed_hand_Next framed_readFromUntil : frame.

Lemma framed_write data : framed (@write Cs reader data).
Proof. unfold write, conn_Write. frame. Qed.
Hint Resolve framed_write : frame.
Lemma framed_flush : framed (@flush Cs reader).
Proof. unfold flush, conn_Write. frame. Qed.
Lemma framed_write_loop fuel typ data n : framed (write_loop ReadFull fuel typ data n).
Proof. revert data n. induction fuel as [|fuel IH]; intros data n; cbn [write_loop]; frame. Qed.
Hint Resolve framed_write_loop : frame.
Lemma framed_sendAlert a : framed (sendAlert ReadFull a).
Proof. unfold sendAlert, sendAlertLocked, write_records, out_setErrorLocked. frame. Qed.
Lemma framed_writeRecordLocked typ data : framed (writeRecordLocked ReadFull typ data).
Proof. unfold writeRecordLocked, write_records, sendAlertLocked, write_records, out_setErrorLocked. frame. Qed.
Hint Resolve framed_sendAlert framed_writeRecordLocked : frame.
Lemma framed_writeHandshakeRecord m t : framed (Conn.writeHandshakeRecord ReadFull m t).
Proof. unfold Conn.writeHandshakeRecord. frame. Qed.
Lemma framed_writeChangeCipherRecord : framed (Conn.writeChangeCipherRecord ReadFull).
Proof. unfold Conn.writeChangeCipherRecord. frame. Qed.

Lemma framed_in_err e : framed (@in_setErrorLocked Cs reader e).
Proof. unfold in_setErrorLocked. frame. Qed.
Hint Resolve framed_in_err : frame.
Lemma framed_alert_and_fail a : framed (alert_and_fail ReadFull a).
Proof. unfold alert_and_fail. frame. Qed.
Lemma framed_done m : framed m -> framed (@done Cs reader m).
Proof. intros H. unfold done. frame. Qed.
Hint Resolve framed_alert_and_fail framed_done : frame.
Lemma framed_read_failed e : framed (@read_failed Cs reader e).
Proof. unfold read_failed. frame. Qed.
Lemma framed_check_header c b typ v n m : check_header ReadFull c b typ v n = Some m -> framed m.
Proof. unfold check_header, header_error. intros H. repeat case_match; simplify_eq; frame. Qed.
Lemma framed_handle_record ccs b record : framed (handle_record ReadFull ccs b record).
Proof. unfold handle_record, handle_data, process_record. frame. Qed.
Hint Resolve framed_read_failed framed_check_header framed_handle_record : frame.
Lemma framed_read_record ccs : framed (read_record ReadFull ccs).
Proof.
  unfold read_record. apply framed_bind; [frame|]. intros c. case_match; [frame|]. case_match; [frame|]. apply framed_bind; [frame|]. intros err.
  apply framed_bind; [frame|]. intros c1. destruct err; [frame|]. do 4 (apply framed_bind; [frame|]; intros ?).
  destruct (check_header _ _ _ _ _ _) eqn:E; [apply framed_check_header in E; frame|frame].
Qed.
Hint Resolve framed_read_record : frame.
Lemma framed_readRecordOrCCS ccs : framed (readRecordOrCCS ReadFull ccs).
Proof.
  unfold readRecordOrCCS. apply framed_bind; [frame|]. intros n. generalize (S (Z.to_nat (maxUselessRecords - n))) as fuel.
  induction fuel as [|fuel IH]; cbn [read_retry]; frame.
Qed.
Lemma framed_readHandshakeBytes n : framed (readHandshakeBytes ReadFull n).
Proof.
  unfold readHandshakeBytes. generalize (Z.to_nat n + 2)%nat as fuel. induction fuel as [|fuel IH]; cbn [read_hand]; [frame|].
  pose proof (framed_readRecordOrCCS false). unfold readRecord. frame.
Qed.
Hint Resolve framed_readHandshakeBytes : frame.
Lemma framed_send_alerts l e : framed (send_alerts ReadFull l e).
Proof. revert e. induction l; intros e; cbn [send_alerts]; frame. Qed.
Hint Resolve framed_send_alerts : frame.
Lemma framed_readHandshake t : framed (Conn.readHandshake ReadFull t).
Proof. unfold Conn.readHandshake, sendAlertLocked, write_records, out_setErrorLocked. frame. Qed.

(** An alert other than close_notify gives an error. *)
Lemma sendAlert_error a c c' e : a <> alertCloseNotify -> sendAlert ReadFull a c = Ret (c', e) -> e <> None.
Proof.
  intros Ha H. unfold sendAlert, sendAlertLocked in H. apply bind_inv in H as (c1 & w & _ & H). destruct (Z.eqb_spec a alertCloseNotify); [done|].
  unfold out_setErrorLocked, on, setErrorLocked in H. by injection H as _ <-.
Qed.
End Layer.
