(* ===== verification/GreaseECH.v ===== *)
(** * GREASE Encrypted ClientHello

    Models u_ech.go and the helpers of u_hpke.go: the extension that imitates an
    encrypted_client_hello, filled with random values the first time it is
    measured or sent.  What the random source and HPKE will deliver to the next
    initialisations is a field of the extension ([rnd]), of which every initialisation
    takes one element, so that a repeated one would fill in other values.

    The theorems: what is sent has the format of a real encrypted hello and is
    the same however often the extension is measured and sent (a second hello
    after a HelloRetryRequest repeats it); and where [Write] goes wrong. *)

From S2P Require Import Prelude Cryptobyte Common Config Codec Buffer Public Extensions Messages ClientHello ECH.

(** ** u_hpke.go *)

Module HPKESymmetricCipherSuite.
Record t := Mk { KdfId : Z; AeadId : Z }.
End HPKESymmetricCipherSuite.

Definition defaultHpkeKdf : Z := 0x0001.
Definition defaultHpkeAead : Z := 0x0001.

Definition cipherLen (a mLen : Z) : outcome Z :=
  if (a =? 0x0001) || (a =? 0x0002) || (a =? 0x0003) then Ret (mLen + 16) else Panic.

(** ** The extension *)

(** What the random source delivers to one initialisation: a byte, indexes below
    a bound, the result of [hpke.SetupSender] and the payload. *)
Record ech_draw := MkEchDraws {
  d_byte : option Z;
  d_config : Z -> option Z;
  d_suite : Z -> option Z;
  d_key : res bytes;
  d_len : Z -> option Z;
  d_payload : Z -> option bytes
}.
(** And to the following ones. *)
Definition ech_draws : Type := nat -> ech_draw.

Module GREASEEncryptedClientHelloExtension.
Import HPKESymmetricCipherSuite.
Record t := MkG {
  CandidateCipherSuites : list HPKESymmetricCipherSuite.t;
  cipherSuite : HPKESymmetricCipherSuite.t;
  CandidateConfigIds : list Z;
  configId : Z;
  EncapsulatedKey : bytes;
  CandidatePayloadLens : list Z;
  payload : bytes;
  initOnce : bool;
  rnd : ech_draws
}.

Definition set_cipherSuite (v : HPKESymmetricCipherSuite.t) (g : t) : t :=
  MkG g.(CandidateCipherSuites) v g.(CandidateConfigIds) g.(configId) g.(EncapsulatedKey)
    g.(CandidatePayloadLens) g.(payload) g.(initOnce) g.(rnd).
Definition set_configId (v : Z) (g : t) : t :=
  MkG g.(CandidateCipherSuites) g.(cipherSuite) g.(CandidateConfigIds) v g.(EncapsulatedKey)
    g.(CandidatePayloadLens) g.(payload) g.(initOnce) g.(rnd).
Definition set_EncapsulatedKey (v : bytes) (g : t) : t :=
  MkG g.(CandidateCipherSuites) g.(cipherSuite) g.(CandidateConfigIds) g.(configId) v
    g.(CandidatePayloadLens) g.(payload) g.(initOnce) g.(rnd).
Definition set_CandidatePayloadLens (v : list Z) (g : t) : t :=
  MkG g.(CandidateCipherSuites) g.(cipherSuite) g.(CandidateConfigIds) g.(configId) g.(EncapsulatedKey)
    v g.(payload) g.(initOnce) g.(rnd).
Definition set_payload (v : bytes) (g : t) : t :=
  MkG g.(CandidateCipherSuites) g.(cipherSuite) g.(CandidateConfigIds) g.(configId) g.(EncapsulatedKey)
    g.(CandidatePayloadLens) v g.(initOnce) g.(rnd).
Definition set_initOnce (g : t) : t :=
  MkG g.(CandidateCipherSuites) g.(cipherSuite) g.(CandidateConfigIds) g.(configId) g.(EncapsulatedKey)
    g.(CandidatePayloadLens) g.(payload) true g.(rnd).
(** What the random source delivers next. *)
Definition draw (g : t) : ech_draw := g.(rnd) O.
Definition drawn (g : t) : t :=
  MkG g.(CandidateCipherSuites) g.(cipherSuite) g.(CandidateConfigIds) g.(configId) g.(EncapsulatedKey)
    g.(CandidatePayloadLens) g.(payload) g.(initOnce) (fun i => g.(rnd) (S i)).
Definition set_CandidateCipherSuites (v : list HPKESymmetricCipherSuite.t) (g : t) : t :=
  MkG v g.(cipherSuite) g.(CandidateConfigIds) g.(configId) g.(EncapsulatedKey)
    g.(CandidatePayloadLens) g.(payload) g.(initOnce) g.(rnd).

(** [l[i]] *)
Definition index {A} (l : list A) (i : Z) : outcome A :=
  if 0 <=? i then match l !! Z.to_nat i with Some x => Ret x | None => Panic end else Panic.

Definition regenerating : gerror := ErrorNew "tls: grease ech: regenerating payload is forbidden".

Definition randomizePayload (d : ech_draw) (encodedHelloInnerLen : Z) (g : t) : outcome (t * option gerror) :=
  if negb (len g.(payload) =? 0) then Ret (g, Some regenerating) else
  run n := cipherLen g.(cipherSuite).(AeadId) encodedHelloInnerLen in
  match d.(d_payload) n with
  | Some p => Ret (set_payload p g, None)
  | None => Ret (set_payload (replicate (Z.to_nat n) x00) g, Some (ErrorNew "tls: generating grease ech payload"))
  end.

(** The parts of [init]; each may end it with an error. *)
Definition step : Type := outcome (t * option gerror).
Definition andthen (x : step) (k : t -> step) : step :=
  run (g, err) := x in match err with Some e => Ret (g, Some e) | None => k g end.

Definition pick_configId (d : ech_draw) (g : t) : step :=
  if len g.(CandidateConfigIds) =? 0 then
    match d.(d_byte) with
    | Some b => Ret (set_configId b g, None)
    | None => Ret (g, Some (ErrorNew "error generating random byte for config_id"))
    end
  else
    match d.(d_config) (len g.(CandidateConfigIds)) with
    | Some i => run id := index g.(CandidateConfigIds) i in Ret (set_configId id g, None)
    | None => Ret (g, Some (ErrorNew "error generating random index for config_id"))
    end.

Definition pick_cipherSuite (d : ech_draw) (g : t) : step :=
  if len g.(CandidateCipherSuites) =? 0 then
    Ret (set_cipherSuite (Mk defaultHpkeKdf defaultHpkeAead) g, None)
  else
    match d.(d_suite) (len g.(CandidateCipherSuites)) with
    | Some i =>
        run s := index g.(CandidateCipherSuites) i in
        Ret (set_cipherSuite (Mk s.(KdfId) s.(AeadId)) g, None)
    | None => Ret (g, Some (ErrorNew "error generating random index for cipher_suite"))
    end.

Definition fill_EncapsulatedKey (d : ech_draw) (g : t) : step :=
  if len g.(EncapsulatedKey) =? 0 then
    match d.(d_key) with
    | inr key => Ret (set_EncapsulatedKey key g, None)
    | inl e => Ret (set_EncapsulatedKey [] g, Some e)
    end
  else Ret (g, None).

Definition fill_payload (d : ech_draw) (g : t) : step :=
  if len g.(payload) =? 0 then
    let g := if len g.(CandidatePayloadLens) =? 0 then set_CandidatePayloadLens [128] g else g in
    match d.(d_len) (len g.(CandidatePayloadLens)) with
    | Some i => run n := index g.(CandidatePayloadLens) i in randomizePayload d n g
    | None => Ret (g, Some (ErrorNew "error generating random index for payload length"))
    end
  else Ret (g, None).

Definition init (g : t) : step :=
  if g.(initOnce) then Ret (g, None) else
  let d := draw g in
  andthen (pick_configId d (drawn (set_initOnce g))) (fun g =>
  andthen (pick_cipherSuite d g) (fun g =>
  andthen (fill_EncapsulatedKey d g) (fill_payload d))).

(** The error of [init] is dropped. *)
Definition Len (g : t) : outcome (t * Z) :=
  run (g, _) := init g in
  Ret (g, 2 + 2 + 1 + 4 + 1 + 2 + len g.(EncapsulatedKey) + 2 + len g.(payload)).

Definition Read (g : t) (b : bytes) : outcome (t * (bytes * (Z * gerror))) :=
  run (g, n) := Len g in
  if len b <? n then Ret (g, (b, (0, ErrShortBuffer))) else
  run (g, n2) := Len g in
  run (g, n3) := Len g in
  let k := len g.(EncapsulatedKey) in
  run b := (put 0 (Z.shiftr utlsExtensionECH 8) ;!
            put 1 (Z.land utlsExtensionECH 0xff) ;!
            put 2 (Z.shiftr (n2 - 4) 8) ;! put 3 (Z.land (n3 - 4) 0xff) ;!
            put 4 0 ;!
            put 5 (Z.shiftr g.(cipherSuite).(KdfId) 8) ;! put 6 (Z.land g.(cipherSuite).(KdfId) 0xff) ;!
            put 7 (Z.shiftr g.(cipherSuite).(AeadId) 8) ;! put 8 (Z.land g.(cipherSuite).(AeadId) 0xff) ;!
            put 9 g.(configId) ;!
            put 10 (Z.shiftr k 8) ;! put 11 (Z.land k 0xff) ;!
            copy_at 12 g.(EncapsulatedKey) ;!
            put (12 + k) (Z.shiftr (len g.(payload)) 8) ;! put (12 + k + 1) (Z.land (len g.(payload)) 0xff) ;!
            copy_at (12 + k + 2) g.(payload)) b in
  run (g, n) := Len g in
  Ret (g, (b, (n, EOF))).

Section Write.
Context `{C : Cryptobyte}.

(** [randKey]: the bytes drawn for the key, or a failure of the random source. *)
Definition Write (randKey : Z -> option bytes) (g : t) (b : bytes) : outcome (res (t * Z)) :=
  match ReadUint8 b with
  | None => Ret (inl (Errorf "bad Client Hello type, expected 0, got %d" [0]))
  | Some (chType, s) =>
  if negb (chType =? 0) then Ret (inl (Errorf "bad Client Hello type, expected 0, got %d" [chType])) else
  match read (kdf, s) := ReadUint16 s in read (aead, s) := ReadUint16 s in Some (kdf, aead, s) with
  | None => Ret (inl (ErrorNew "bad cipher suite"))
  | Some (kdf, aead, s) =>
  if negb ((kdf =? 1) || (kdf =? 2) || (kdf =? 3)) then Ret (inl (Errorf "bad KDF ID: %d" [kdf])) else
  if negb ((aead =? 1) || (aead =? 2) || (aead =? 3)) then Ret (inl (Errorf "bad AEAD ID: %d" [aead])) else
  match ReadUint8 s with
  | None => Ret (inl (ErrorNew "bad config ID"))
  | Some (id, s) =>
  match ReadUint16LengthPrefixed s with
  | None => Ret (inl (ErrorNew "bad encapsulated key"))
  | Some (ignored, s) =>
  match randKey (len ignored) with
  | None => Ret (inl (ErrorNew "tls: generating grease ech encapsulated key"))
  | Some key =>
  match ReadUint16LengthPrefixed s with
  | None => Ret (inl (ErrorNew "bad payload"))
  | Some (ignored, s) =>
      run n := cipherLen aead 0 in
      let suite := Mk kdf aead in
      Ret (inr (set_CandidatePayloadLens [(len ignored - n) mod 2 ^ 16]
        (set_EncapsulatedKey key (set_configId id (set_CandidateCipherSuites [suite] (set_cipherSuite suite g)))), len b))
  end end end end end end.
End Write.
End GREASEEncryptedClientHelloExtension.

Definition BoringGREASEECH (d : ech_draws) : GREASEEncryptedClientHelloExtension.t :=
  GREASEEncryptedClientHelloExtension.MkG [HPKESymmetricCipherSuite.Mk 1 1] (HPKESymmetricCipherSuite.Mk 0 0) [] 0 []
    [128; 160; 192; 224] [] false d.

(** * What is sent *)

Section Sent.
Context `{C : Cryptobyte} {Cok : CryptobyteOk C}.
Import GREASEEncryptedClientHelloExtension HPKESymmetricCipherSuite.

Lemma andthen_once x k g e :
  (forall g e, x = Ret (g, e) -> g.(initOnce) = true) ->
  (forall g g' e, g.(initOnce) = true -> k g = Ret (g', e) -> g'.(initOnce) = true) ->
  andthen x k = Ret (g, e) -> g.(initOnce) = true.
Proof.
  unfold andthen. intros Hx Hk. destruct x as [|[g1 [e1|]]]; cbn [obind]; [done| |].
  - intros [= <- <-]. by eapply Hx.
  - apply Hk. by eapply Hx.
Qed.

(** Whatever happens, the initialisation is not repeated. *)
Lemma init_once g g' e : init g = Ret (g', e) -> g'.(initOnce) = true.
Proof.
  unfold init. destruct (initOnce g) eqn:E; [by intros [= <- _]|].
  apply andthen_once; [|intros g1 g2 e1 H1; apply andthen_once; [|intros g3 g4 e3 H3; apply andthen_once]].
  - intros g1 e1. unfold pick_configId, obind. repeat case_match; naive_solver.
  - intros g3 e3. unfold pick_cipherSuite, obind. repeat case_match; naive_solver.
  - intros g5 e5. unfold fill_EncapsulatedKey. repeat case_match; naive_solver.
  - intros g5 g6 e5 H5. unfold fill_payload, randomizePayload. case_match; [|naive_solver].
    set (g7 := if len (CandidatePayloadLens g5) =? 0 then set_CandidatePayloadLens [128] g5 else g5). assert (H7 : g7.(initOnce) = true) by (unfold g7; by destruct (len (CandidatePayloadLens g5) =? 0)).
    unfold obind. repeat case_match; naive_solver.
Qed.

Lemma Len_again g g' n : Len g = Ret (g', n) -> Len g' = Ret (g', n) /\
  n = 14 + len g'.(EncapsulatedKey) + len g'.(payload).
Proof.
  unfold Len. destruct (init g) as [|[g1 e1]] eqn:E; cbn [obind]; [done|].
  apply init_once in E. intros [= <- <-]. unfold init. rewrite E. cbn [obind]. split; [done|lia].
Qed.

(** The body of the extension is what [generateOuterECHExt] makes. *)
Definition ech_body (g : GREASEEncryptedClientHelloExtension.t) : bytes :=
  be 1 0 ++ be 2 g.(cipherSuite).(KdfId) ++ be 2 g.(cipherSuite).(AeadId) ++ be 1 g.(configId) ++
  enc_lp 2 g.(EncapsulatedKey) ++ enc_lp 2 g.(payload).

Lemma ech_body_real g : len g.(EncapsulatedKey) < 2 ^ 16 -> len g.(payload) < 2 ^ 16 ->
  generateOuterECHExt g.(configId) g.(cipherSuite).(KdfId) g.(cipherSuite).(AeadId) g.(EncapsulatedKey) g.(payload) =
  inr (ech_body g).
Proof.
  intros Hk Hp. unfold generateOuterECHExt. eapply Bytes_emits; [typeclasses eauto|].
  unfold olp. change (256 ^ Z.of_nat 2) with (2 ^ 16). rewrite !(proj2 (Z.ltb_lt _ _)) by done.
  unfold oapp, ech_body, enc_lp. by rewrite <- ?app_assoc.
Qed.

(** An extension that is initialised stays as it is. *)
Lemma Len_ready g : g.(initOnce) = true -> Len g = Ret (g, 2 + 2 + 1 + 4 + 1 + 2 + len g.(EncapsulatedKey) + 2 + len g.(payload)).
Proof. intros H. unfold Len, init. by rewrite H. Qed.

Lemma Read_fills g rest : g.(initOnce) = true ->
  let block := enc_ext (utlsExtensionECH, ech_body g) in
  Read g (replicate (length block) x00 ++ rest) = Ret (g, (block ++ rest, (len block, EOF))).
Proof.
  intros Hi block. unfold Read. rewrite Len_ready by done. cbn [obind].
  assert (EL : len block = 2 + 2 + 1 + 4 + 1 + 2 + len g.(EncapsulatedKey) + 2 + len g.(payload))
    by (unfold block, enc_ext, ech_body; cbn [fst snd]; rewrite !len_app, !len_enc_lp, !len_be; lia).
  rewrite <- EL. rewrite room by lia. rewrite Len_ready by done. cbn [obind]. rewrite Len_ready by done. cbn [obind]. rewrite <- EL.
  match goal with |- obind (?f _) _ = _ => assert (HF : Fills f 0 block) end.
  - unfold block, enc_ext, ech_body. cbn [fst snd]. apply fills_land.
    eapply fills_seq; [apply fills_put16|reflexivity|]. apply fills_land.
    eapply fills_seq; [eapply fills_cast; [apply fills_put16|done|f_equal; fold (ech_body g)]|reflexivity|].
    + unfold ech_body. rewrite !len_app, !len_enc_lp, !len_be. lia.
    + eapply fills_seq; [apply fills_put|reflexivity|]. apply fills_land.
      eapply fills_seq; [apply fills_put16|reflexivity|]. apply fills_land.
      eapply fills_seq; [apply fills_put16|reflexivity|].
      eapply fills_seq; [apply fills_put|reflexivity|]. unfold enc_lp. rewrite <- !app_assoc. apply fills_land.
      eapply fills_seq; [apply fills_put16|reflexivity|].
      eapply fills_seq; [apply fills_copy|reflexivity|]. apply fills_land.
      eapply fills_seq; [apply fills_put16|reflexivity|].
      eapply fills_cast; [apply fills_copy| |done]. autorewrite with cb. lia.
  - specialize (HF [] rest eq_refl). cbn [app] in HF. rewrite HF. cbn [obind].
    rewrite Len_ready, <- EL by done. done.
Qed.

(** C40: a GREASE extension, once it was measured, is sent as one block whose body
    is byte for byte what the encoder of a real encrypted hello makes from the
    drawn values, so that a server parses it as one; measuring and sending it
    again draws nothing and gives the same bytes, whatever the random source would
    deliver next. *)
Theorem grease_ech_like_real g g' n rest : Len g = Ret (g', n) ->
  len g'.(EncapsulatedKey) < 2 ^ 16 -> len g'.(payload) < 2 ^ 16 -> is_u8 g'.(configId) ->
  is_u16 g'.(cipherSuite).(KdfId) -> is_u16 g'.(cipherSuite).(AeadId) ->
  exists body,
    generateOuterECHExt g'.(configId) g'.(cipherSuite).(KdfId) g'.(cipherSuite).(AeadId)
      g'.(EncapsulatedKey) g'.(payload) = inr body /\
    n = 4 + len body /\ Len g' = Ret (g', n) /\
    Read g' (replicate (Z.to_nat n) x00 ++ rest) = Ret (g', (enc_ext (utlsExtensionECH, body) ++ rest, (n, EOF))) /\
    parseECHExt body = inr (MkExt outerECHExt (echCipher.Mk g'.(cipherSuite).(KdfId) g'.(cipherSuite).(AeadId))
      g'.(configId) g'.(EncapsulatedKey) g'.(payload)).
Proof.
  intros HL Hk Hp Hc Hd Ha. exists (ech_body g'). pose proof (Len_again g g' n HL) as [HL' Hn].
  assert (Hi : g'.(initOnce) = true).
  { unfold Len in HL. destruct (init g) as [|[g1 e1]] eqn:E; cbn [obind] in HL; [done|].
    injection HL as <- _. by eapply init_once. }
  pose proof (ech_body_real g' Hk Hp) as Hb.
  assert (EL : len (enc_ext (utlsExtensionECH, ech_body g')) = n)
    by (rewrite Hn; unfold enc_ext, ech_body; cbn [fst snd]; rewrite !len_app, !len_enc_lp, !len_be; lia).
  split_and!; [exact Hb| |exact HL'| |by apply outer_ext_parsed].
  - rewrite <- EL. unfold enc_ext. cbn [fst snd]. autorewrite with cb. lia.
  - rewrite <- EL. unfold len at 1. rewrite Nat2Z.id. by apply Read_fills.
Qed.

(** A captured extension whose payload is shorter than an authentication tag
    makes the payload of the copy 64 KiB long. *)
Theorem grease_ech_short_payload randKey g key s p aead :
  len key < 2 ^ 16 -> len p < 16 -> randKey (len key) = Some s ->
  In aead [1; 2; 3] ->
  exists g', Write randKey g (be 1 0 ++ be 2 1 ++ be 2 aead ++ be 1 7 ++ enc_lp 2 key ++ enc_lp 2 p) =
    Ret (inr (g', len (be 1 0 ++ be 2 1 ++ be 2 aead ++ be 1 7 ++ enc_lp 2 key ++ enc_lp 2 p))) /\
    g'.(CandidatePayloadLens) = [2 ^ 16 - 16 + len p].
Proof.
  intros Hk Hp Hr Ha. pose proof (len_nonneg p). set (b := be 1 0 ++ _). unfold Write.
  unfold b at 1. unfold enc_lp.
  assert (Hu : is_u16 aead) by (unfold is_u16; cbn in Ha; lia).
  parse. change (0 =? 0) with true. cbn [negb]. parse. change ((1 =? 1) || _) with true. cbn [negb].
  replace ((aead =? 1) || (aead =? 2) || (aead =? 3)) with true; [|symmetry; cbn in Ha; zbool; lia].
  cbn [negb]. parse. rewrite Hr. parse. unfold cipherLen.
  replace ((aead =? 1) || (aead =? 2) || (aead =? 3)) with true; [|symmetry; cbn in Ha; zbool; lia].
  cbn [obind]. eexists. split; [reflexivity|]. cbn. f_equal.
  rewrite <- (Z.mod_add _ 1) by lia. rewrite Z.mod_small; lia.
Qed.
End Sent.

(** * Examples *)

Definition example_draws : ech_draws := fun i =>
  MkEchDraws (Some (42 + Z.of_nat i)) (fun _ => Some 0) (fun _ => Some 0) (inr (replicate 32 x09)) (fun _ => Some 1)
    (fun n => Some (replicate (Z.to_nat n) xab)).

(** BoringSSL's scheme, with the second payload length. *)
Lemma grease_ech_like_real_witness :
  exists g body, GREASEEncryptedClientHelloExtension.Len (BoringGREASEECH example_draws) = Ret (g, 222) /\
    @parseECHExt Reference.ops body = inr (MkExt outerECHExt (echCipher.Mk 1 1) 42 (replicate 32 x09) (replicate 176 xab)).
Proof.
  destruct (grease_ech_like_real (C := Reference.ops) (Cok := Reference.ok) (BoringGREASEECH example_draws)
    (match GREASEEncryptedClientHelloExtension.Len (BoringGREASEECH example_draws) with
     | Ret (g, _) => g | Panic => BoringGREASEECH example_draws end) 222 []) as (body & _ & _ & _ & _ & H);
    [vm_compute; reflexivity..|vm_compute; done|vm_compute; done|vm_compute; done|].
  eexists _, body. split; [vm_compute; reflexivity|]. exact H.
Defined.
