(* ===== verification/Marshal.v ===== *)
(** * Marshalling the ClientHello

    Models [MarshalClientHelloNoECH] of u_conn.go: the extensions of the
    connection are measured, the padding extension is adjusted, and the hello is
    written through a [bufio.Writer] whose buffer has exactly the expected size,
    each extension writing itself into what is left of the buffer.

    [Ext] is the sum of the types that implement the interface [TLSExtension];
    measuring and reading an extension may change it, so both return it.

    bufio.Writer and bytes.Buffer are written out as far as they are used: the
    writer flushes when its buffer is full, and when it is empty it hands the
    reader to the [bytes.Buffer], which offers its spare capacity; that
    capacity is an argument ([spare]). *)

From S2P Require Import Prelude Cryptobyte Common Config Negotiation Codec Buffer Names Quic Messages Ticket ClientHello Public Extensions PreSharedKey ECH GreaseECH.

(** ** bufio.Writer over a bytes.Buffer *)

Module bufio.
Record writer := Mk { buf : bytes; n : Z; out : bytes }.

Definition Available (w : writer) : Z := len w.(buf) - w.(n).
Definition Flush (w : writer) : writer := Mk w.(buf) 0 (w.(out) ++ take (Z.to_nat w.(n)) w.(buf)).
Definition NewWriterSize (size : Z) : writer :=
  Mk (replicate (Z.to_nat (if size <=? 0 then 4096 else size)) x00) 0 [].

(** [n += copy(b.buf[b.n:], p)] *)
Definition buffer (p : bytes) (w : writer) : writer :=
  let k := Z.to_nat w.(n) in
  let p := take (Z.to_nat (Available w)) p in
  Mk (take k w.(buf) ++ p ++ drop (k + length p) w.(buf)) (w.(n) + len p) w.(out).

(** [Write]; a write that does not fit fills the buffer and flushes it, and what
    is left either fits or goes to the underlying buffer directly. *)
Definition Write (p : bytes) (w : writer) : writer :=
  let direct p w :=
    if Available w <? len p then Mk w.(buf) w.(n) (w.(out) ++ p) else buffer p w in
  if Available w <? len p then
    if w.(n) =? 0 then direct p w
    else direct (drop (Z.to_nat (Available w)) p) (Flush (buffer p w))
  else buffer p w.

End bufio.

(** ** The extensions *)

Inductive Ext `{X : X509} :=
  | SNI (e : SNIExtension.t)
  | StatusRequest (e : StatusRequestExtension.t)
  | SupportedCurves (e : SupportedCurvesExtension.t)
  | SupportedPoints (e : SupportedPointsExtension.t)
  | SignatureAlgorithms (e : SignatureAlgorithmsExtension.t)
  | StatusRequestV2 (e : StatusRequestV2Extension.t)
  | SignatureAlgorithmsCert (e : SignatureAlgorithmsCertExtension.t)
  | ALPN (e : ALPNExtension.t)
  | ApplicationSettings (e : ApplicationSettingsExtension.t)
  | SCT (e : SCTExtension.t)
  | Generic (e : GenericExtension.t)
  | ExtendedMasterSecret (e : ExtendedMasterSecretExtension.t)
  | UtlsGREASE (e : UtlsGREASEExtension.t)
  | UtlsPadding (e : UtlsPaddingExtension.t)
  | UtlsCompressCert (e : UtlsCompressCertExtension.t)
  | KeyShare (e : KeyShareExtension.t)
  | PSKKeyExchangeModes (e : PSKKeyExchangeModesExtension.t)
  | SupportedVersions (e : SupportedVersionsExtension.t)
  | Cookie (e : CookieExtension.t)
  | NPN (e : NPNExtension.t)
  | RenegotiationInfo (e : RenegotiationInfoExtension.t)
  | FakeChannelID (e : FakeChannelIDExtension.t)
  | FakeRecordSizeLimit (e : FakeRecordSizeLimitExtension.t)
  | FakeTokenBinding (e : FakeTokenBindingExtension.t)
  | FakeDelegatedCredentials (e : FakeDelegatedCredentialsExtension.t)
  | FakeEarlyData (e : FakeEarlyDataExtension.t)
  | TrustAnchors (e : TrustAnchorsExtension.t)
  | ApplicationSettingsNew (e : ApplicationSettingsExtensionNew.t)
  | SessionTicket (e : SessionTicketExtension.t X)
  | QUICTransportParameters (e : QUICTransportParametersExtension.t)
  | UtlsPreSharedKey (e : UtlsPreSharedKeyExtension.t X)
  | FakePreSharedKey (e : FakePreSharedKeyExtension.t)
  | GREASEEncryptedClientHello (e : GREASEEncryptedClientHelloExtension.t).
#[global] Arguments Ext _ : clear implicits.

Section Interface.
Context `{X : X509}.

(** [ext.Len()] *)
Definition ext_Len (x : Ext X) : outcome (Ext X * Z) :=
  match x with
  | SNI e => Ret (x, SNIExtension.Len e)
  | StatusRequest e => Ret (x, StatusRequestExtension.Len e)
  | SupportedCurves e => Ret (x, SupportedCurvesExtension.Len e)
  | SupportedPoints e => Ret (x, SupportedPointsExtension.Len e)
  | SignatureAlgorithms e => Ret (x, SignatureAlgorithmsExtension.Len e)
  | StatusRequestV2 e => Ret (x, StatusRequestV2Extension.Len e)
  | SignatureAlgorithmsCert e => Ret (x, SignatureAlgorithmsCertExtension.Len e)
  | ALPN e => Ret (x, ALPNExtension.Len e)
  | ApplicationSettings e => Ret (x, ApplicationSettingsExtension.Len e)
  | SCT e => Ret (x, SCTExtension.Len e)
  | Generic e => Ret (x, GenericExtension.Len e)
  | ExtendedMasterSecret e => Ret (x, ExtendedMasterSecretExtension.Len e)
  | UtlsGREASE e => Ret (x, UtlsGREASEExtension.Len e)
  | UtlsPadding e => Ret (x, UtlsPaddingExtension.Len e)
  | UtlsCompressCert e => Ret (x, UtlsCompressCertExtension.Len e)
  | KeyShare e => Ret (x, KeyShareExtension.Len e)
  | PSKKeyExchangeModes e => Ret (x, PSKKeyExchangeModesExtension.Len e)
  | SupportedVersions e => Ret (x, SupportedVersionsExtension.Len e)
  | Cookie e => Ret (x, CookieExtension.Len e)
  | NPN e => Ret (x, NPNExtension.Len e)
  | RenegotiationInfo e => Ret (x, RenegotiationInfoExtension.Len e)
  | FakeChannelID e => Ret (x, FakeChannelIDExtension.Len e)
  | FakeRecordSizeLimit e => Ret (x, FakeRecordSizeLimitExtension.Len e)
  | FakeTokenBinding e => Ret (x, FakeTokenBindingExtension.Len e)
  | FakeDelegatedCredentials e => Ret (x, FakeDelegatedCredentialsExtension.Len e)
  | FakeEarlyData e => Ret (x, FakeEarlyDataExtension.Len e)
  | TrustAnchors e => Ret (x, TrustAnchorsExtension.Len e)
  | ApplicationSettingsNew e => Ret (x, ApplicationSettingsExtensionNew.Len e)
  | SessionTicket e => Ret (x, SessionTicketExtension.Len e)
  | QUICTransportParameters e => run (e, n) := QUICTransportParametersExtension.Len e in Ret (QUICTransportParameters e, n)
  | UtlsPreSharedKey e => let (e, n) := UtlsPreSharedKeyExtension.Len e in Ret (UtlsPreSharedKey e, n)
  | FakePreSharedKey e => Ret (x, FakePreSharedKeyExtension.Len e)
  | GREASEEncryptedClientHello e =>
      run (e, n) := GREASEEncryptedClientHelloExtension.Len e in Ret (GREASEEncryptedClientHello e, n)
  end.

(** [ext.Read(b)]: the extension and the buffer afterwards, and what it returns. *)
Definition ext_Read (x : Ext X) (b : bytes) : outcome (Ext X * (bytes * (Z * gerror))) :=
  match x with
  | SNI e => run r := SNIExtension.Read e b in Ret (x, r)
  | StatusRequest e => run r := StatusRequestExtension.Read e b in Ret (x, r)
  | SupportedCurves e => run r := SupportedCurvesExtension.Read e b in Ret (x, r)
  | SupportedPoints e => run r := SupportedPointsExtension.Read e b in Ret (x, r)
  | SignatureAlgorithms e => run r := SignatureAlgorithmsExtension.Read e b in Ret (x, r)
  | StatusRequestV2 e => run r := StatusRequestV2Extension.Read e b in Ret (x, r)
  | SignatureAlgorithmsCert e => run r := SignatureAlgorithmsCertExtension.Read e b in Ret (x, r)
  | ALPN e => run r := ALPNExtension.Read e b in Ret (x, r)
  | ApplicationSettings e => run r := ApplicationSettingsExtension.Read e b in Ret (x, r)
  | SCT e => run r := SCTExtension.Read e b in Ret (x, r)
  | Generic e => run r := GenericExtension.Read e b in Ret (x, r)
  | ExtendedMasterSecret e => run r := ExtendedMasterSecretExtension.Read e b in Ret (x, r)
  | UtlsGREASE e => run r := UtlsGREASEExtension.Read e b in Ret (x, r)
  | UtlsPadding e => run r := UtlsPaddingExtension.Read e b in Ret (x, r)
  | UtlsCompressCert e => run r := UtlsCompressCertExtension.Read e b in Ret (x, r)
  | KeyShare e => run r := KeyShareExtension.Read e b in Ret (x, r)
  | PSKKeyExchangeModes e => run r := PSKKeyExchangeModesExtension.Read e b in Ret (x, r)
  | SupportedVersions e => run r := SupportedVersionsExtension.Read e b in Ret (x, r)
  | Cookie e => run r := CookieExtension.Read e b in Ret (x, r)
  | NPN e => run r := NPNExtension.Read e b in Ret (x, r)
  | RenegotiationInfo e => run r := RenegotiationInfoExtension.Read e b in Ret (x, r)
  | FakeChannelID e => run r := FakeChannelIDExtension.Read e b in Ret (x, r)
  | FakeRecordSizeLimit e => run r := FakeRecordSizeLimitExtension.Read e b in Ret (x, r)
  | FakeTokenBinding e => run r := FakeTokenBindingExtension.Read e b in Ret (x, r)
  | FakeDelegatedCredentials e => run r := FakeDelegatedCredentialsExtension.Read e b in Ret (x, r)
  | FakeEarlyData e => run r := FakeEarlyDataExtension.Read e b in Ret (x, r)
  | TrustAnchors e => run r := TrustAnchorsExtension.Read e b in Ret (x, r)
  | ApplicationSettingsNew e => run r := ApplicationSettingsExtensionNew.Read e b in Ret (x, r)
  | SessionTicket e => run r := SessionTicketExtension.Read e b in Ret (x, r)
  | QUICTransportParameters e =>
      run (e, r) := QUICTransportParametersExtension.Read e b in Ret (QUICTransportParameters e, r)
  | UtlsPreSharedKey e => run (e, r) := UtlsPreSharedKeyExtension.Read e b in Ret (UtlsPreSharedKey e, r)
  | FakePreSharedKey e => run r := FakePreSharedKeyExtension.Read e b in Ret (x, r)
  | GREASEEncryptedClientHello e =>
      run (e, r) := GREASEEncryptedClientHelloExtension.Read e b in Ret (GREASEEncryptedClientHello e, r)
  end.

(** [ReadFrom(ext)]; [Read] always returns an error, [io.EOF] when it is done. *)
Definition ReadFrom (spare : bytes -> bytes) (x : Ext X) (w : bufio.writer) : outcome (Ext X * bufio.writer * option gerror) :=
  let w := if bufio.Available w =? 0 then bufio.Flush w else w in
  let verdict err := if decide (err = EOF) then None else Some err in
  if w.(bufio.n) =? 0 then
    run (x, (b, (m, err))) := ext_Read x (spare w.(bufio.out)) in
    Ret (x, bufio.Mk w.(bufio.buf) 0 (w.(bufio.out) ++ take (Z.to_nat m) b), verdict err)
  else
    run (x, (b, (m, err))) := ext_Read x (drop (Z.to_nat w.(bufio.n)) w.(bufio.buf)) in
    let w := bufio.Mk (take (Z.to_nat w.(bufio.n)) w.(bufio.buf) ++ b) (w.(bufio.n) + m) w.(bufio.out) in
    let w := if decide (err = EOF) then if bufio.Available w =? 0 then bufio.Flush w else w else w in
    Ret (x, w, verdict err).

(** ** MarshalClientHelloNoECH *)

Definition errMultiplePadding : gerror := ErrorNew "multiple padding extensions".

Definition is_padding (x : Ext X) : bool := match x with UtlsPadding _ => true | _ => false end.

(** The first loop: the lengths of all extensions but the padding.  [seen]: a
    padding extension was found. *)
Fixpoint measure (exts : list (Ext X)) (extensionsLen : Z) (seen : bool) : outcome (list (Ext X) * res (Z * bool)) :=
  match exts with
  | [] => Ret ([], inr (extensionsLen, seen))
  | x :: exts =>
      if negb (is_padding x) then
        run (x, k) := ext_Len x in
        run (exts, r) := measure exts (extensionsLen + k) seen in
        Ret (x :: exts, r)
      else if seen then Ret (x :: exts, inl errMultiplePadding)
      else run (exts, r) := measure exts extensionsLen true in Ret (x :: exts, r)
  end.

Definition update_padding (unpadded : Z) (x : Ext X) : Ext X :=
  match x with UtlsPadding e => UtlsPadding (UtlsPaddingExtension.Update unpadded e) | _ => x end.
Definition padding_len (exts : list (Ext X)) : Z :=
  fold_left (fun k x => match x with UtlsPadding e => k + UtlsPaddingExtension.Len e | _ => k end) exts 0.

(** The last loop: every extension is read into the writer. *)
Fixpoint write_exts (spare : bytes -> bytes) (exts : list (Ext X)) (w : bufio.writer)
    : outcome (list (Ext X) * bufio.writer * option gerror) :=
  match exts with
  | [] => Ret ([], w, None)
  | x :: exts =>
      run (x, w, err) := ReadFrom spare x w in
      match err with
      | Some err => Ret (x :: exts, w, Some err)
      | None => run (exts, w, err) := write_exts spare exts w in Ret (x :: exts, w, err)
      end
  end.

Definition headerLength (hello : PubClientHelloMsg.t) : Z :=
  2 + 32 + 1 + len hello.(PubClientHelloMsg.SessionId) + 2 + len hello.(PubClientHelloMsg.CipherSuites) * 2 +
  1 + len hello.(PubClientHelloMsg.CompressionMethods).

(** What precedes the extensions, written with [binary.Write]. *)
Definition write_header (hello : PubClientHelloMsg.t) (helloLen : Z) (w : bufio.writer) : bufio.writer :=
  let w := bufio.Write (be 1 typeClientHello) w in
  let w := bufio.Write (be 3 helloLen) w in
  let w := bufio.Write (be 2 hello.(PubClientHelloMsg.Vers)) w in
  let w := bufio.Write hello.(PubClientHelloMsg.Random) w in
  let w := bufio.Write (be 1 (len hello.(PubClientHelloMsg.SessionId))) w in
  let w := bufio.Write hello.(PubClientHelloMsg.SessionId) w in
  let w := bufio.Write (be 2 (Z.shiftl (len hello.(PubClientHelloMsg.CipherSuites)) 1)) w in
  let w := fold_left (fun w suite => bufio.Write (be 2 suite) w) hello.(PubClientHelloMsg.CipherSuites) w in
  let w := bufio.Write (be 1 (len hello.(PubClientHelloMsg.CompressionMethods))) w in
  bufio.Write hello.(PubClientHelloMsg.CompressionMethods) w.

(** The extensions and the hello afterwards, and the error ([None] is nil). *)
Definition MarshalClientHelloNoECH (spare : bytes -> bytes) (hello : PubClientHelloMsg.t) (exts : list (Ext X))
    : outcome (list (Ext X) * PubClientHelloMsg.t * option gerror) :=
  let header := headerLength hello in
  run (exts, r) := measure exts 0 false in
  match r with
  | inl err => Ret (exts, hello, Some err)
  | inr (extensionsLen, padded) =>
      let exts := if padded then map (update_padding (header + 4 + extensionsLen + 2)) exts else exts in
      let extensionsLen := if padded then extensionsLen + padding_len exts else extensionsLen in
      let some := 0 <? len exts in
      let helloLen := header + (if some then 2 + extensionsLen else 0) in
      let w := write_header hello helloLen (bufio.NewWriterSize (helloLen + 4)) in
      run (exts, w, err) :=
        if some then write_exts spare exts (bufio.Write (be 2 extensionsLen) w) else Ret (exts, w, None) in
      match err with
      | Some err => Ret (exts, hello, Some err)
      | None =>
          let w := bufio.Flush w in
          if negb (len w.(bufio.out) =? 4 + helloLen) then
            Ret (exts, hello, Some (Errorf "utls: unexpected ClientHello length. Expected: %d. Got: %d" [4 + helloLen; len w.(bufio.out)]))
          else Ret (exts, PubClientHelloMsg.set_Raw (Some w.(bufio.out)) hello, None)
      end
  end.

(** ** What an extension sends *)

(** The block an extension will write, once it was measured. *)
Definition block_of (x : Ext X) : option (Z * bytes) :=
  match x with
  | SNI e => block e
  | StatusRequest e => block e
  | SupportedCurves e => block e
  | SupportedPoints e => block e
  | SignatureAlgorithms e => block e
  | StatusRequestV2 e => block e
  | SignatureAlgorithmsCert e => block e
  | ALPN e => block e
  | ApplicationSettings e => block e
  | SCT e => block e
  | Generic e => block e
  | ExtendedMasterSecret e => block e
  | UtlsGREASE e => block e
  | UtlsPadding e => block e
  | UtlsCompressCert e => block e
  | KeyShare e => block e
  | PSKKeyExchangeModes e => block e
  | SupportedVersions e => block e
  | Cookie e => block e
  | NPN e => block e
  | RenegotiationInfo e => block e
  | FakeChannelID e => block e
  | FakeRecordSizeLimit e => block e
  | FakeTokenBinding e => block e
  | FakeDelegatedCredentials e => block e
  | FakeEarlyData e => block e
  | TrustAnchors e => block e
  | ApplicationSettingsNew e => block e
  | SessionTicket e => block e
  | QUICTransportParameters e => Some (extensionQUICTransportParameters,
      match e.(QUICTransportParametersExtension.RawData) with
      | Some d => d
      | None => default [] e.(QUICTransportParametersExtension.marshalResult)
      end)
  | UtlsPreSharedKey e =>
      if pskExtLen e.(UtlsPreSharedKeyExtension.Identities) e.(UtlsPreSharedKeyExtension.Binders) =? 0 then None
      else Some (extensionPreSharedKey, enc_psk e.(UtlsPreSharedKeyExtension.Identities) e.(UtlsPreSharedKeyExtension.Binders))
  | FakePreSharedKey e =>
      if FakePreSharedKeyExtension.Len e =? 0 then None
      else Some (extensionPreSharedKey, enc_psk (FakePreSharedKeyExtension.ids e) (FakePreSharedKeyExtension.bs e))
  | GREASEEncryptedClientHello e => Some (utlsExtensionECH, ech_body e)
  end.

(** An extension that can be measured and sent: its lists are not longer than
    their length fields can say, and what it needs is there. *)
Definition can_send (x : Ext X) : Prop :=
  match x with
  | SNI e => ready e
  | StatusRequest e => ready e
  | SupportedCurves e => ready e
  | SupportedPoints e => ready e
  | SignatureAlgorithms e => ready e
  | StatusRequestV2 e => ready e
  | SignatureAlgorithmsCert e => ready e
  | ALPN e => ready e
  | ApplicationSettings e => ready e
  | SCT e => ready e
  | Generic e => ready e
  | ExtendedMasterSecret e => ready e
  | UtlsGREASE e => ready e
  | UtlsPadding e => ready e
  | UtlsCompressCert e => ready e
  | KeyShare e => ready e
  | PSKKeyExchangeModes e => ready e
  | SupportedVersions e => ready e
  | Cookie e => ready e
  | NPN e => ready e
  | RenegotiationInfo e => ready e
  | FakeChannelID e => ready e
  | FakeRecordSizeLimit e => ready e
  | FakeTokenBinding e => ready e
  | FakeDelegatedCredentials e => ready e
  | FakeEarlyData e => ready e
  | TrustAnchors e => ready e
  | ApplicationSettingsNew e => ready e
  | SessionTicket e => ready e
  | QUICTransportParameters e =>
      e.(QUICTransportParametersExtension.RawData) <> None \/ e.(QUICTransportParametersExtension.marshalResult) <> None \/
      exists tps d, Quic.Marshal e.(QUICTransportParametersExtension.rnd) e.(QUICTransportParametersExtension.TransportParameters) = Ret (tps, d) /\ d <> []
  | UtlsPreSharedKey e =>
      let n := pskExtLen e.(UtlsPreSharedKeyExtension.Identities) e.(UtlsPreSharedKeyExtension.Binders) in
      (e.(UtlsPreSharedKeyExtension.cachedLength) = None \/ e.(UtlsPreSharedKeyExtension.cachedLength) = Some n) /\
      (e.(UtlsPreSharedKeyExtension.OmitEmptyPsk) = true \/ n <> 0)
  | FakePreSharedKey e =>
      (e.(FakePreSharedKeyExtension.OmitEmptyPsk) = true \/ FakePreSharedKeyExtension.Len e <> 0) /\
      Forall (fun b => contains validHashLen (len b) = true) (FakePreSharedKeyExtension.bs e)
  | GREASEEncryptedClientHello e => GREASEEncryptedClientHelloExtension.init e <> Panic
  end.

(** A measured extension writes its block into zeros and stays as it is. *)
Definition settled (x : Ext X) : Prop :=
  ext_Len x = Ret (x, len (wire (block_of x))) /\
  forall rest, ext_Read x (replicate (length (wire (block_of x))) x00 ++ rest) =
    Ret (x, (wire (block_of x) ++ rest, (len (wire (block_of x)), EOF))).

Lemma settled_class `{TLSExtensionOk E} (c : E -> Ext X) e :
  (forall e, ext_Len (c e) = Ret (c e, Len e)) ->
  (forall e b, ext_Read (c e) b = run r := Read e b in Ret (c e, r)) ->
  block_of (c e) = block e -> ready e -> settled (c e).
Proof.
  intros HL HR HB He. split.
  - by rewrite HL, HB, Len_block.
  - intros rest. rewrite HR, HB, Read_block by done. cbn [obind]. by rewrite Len_block.
Qed.

Lemma wire_some id body : len (wire (Some (id, body))) = 4 + len body.
Proof. unfold wire, enc_ext. cbn [fst snd]. autorewrite with cb. lia. Qed.

Lemma psk_nonzero ids bs : pskExtLen ids bs <> 0 -> ids <> [] /\ bs <> [].
Proof. unfold pskExtLen. destruct ids, bs; naive_solver. Qed.

(** [readPskIntoBytes] with nothing to send. *)
Lemma readPsk_empty b ids bs : pskExtLen ids bs = 0 -> readPskIntoBytes b ids bs = Ret (b, (0, EOF)).
Proof. intros E. unfold readPskIntoBytes. by rewrite E. Qed.

Lemma psk_block ids bs rest :
  let blk := if pskExtLen ids bs =? 0 then None else Some (extensionPreSharedKey, enc_psk ids bs) in
  len (wire blk) = pskExtLen ids bs /\
  readPskIntoBytes (replicate (length (wire blk)) x00 ++ rest) ids bs = Ret (wire blk ++ rest, (len (wire blk), EOF)).
Proof.
  intros blk. unfold blk. destruct (Z.eqb_spec (pskExtLen ids bs) 0) as [E|E].
  - split; [by rewrite E|]. by apply readPsk_empty.
  - destruct (psk_nonzero ids bs E) as [Hi Hb]. split; [by rewrite wire_some, pskExtLen_eq|]. by apply readPsk_block.
Qed.

Lemma utls_psk_settled e : can_send (UtlsPreSharedKey e) ->
  exists e', UtlsPreSharedKeyExtension.Len e = (e', pskExtLen e.(UtlsPreSharedKeyExtension.Identities) e.(UtlsPreSharedKeyExtension.Binders)) /\
    block_of (UtlsPreSharedKey e') = block_of (UtlsPreSharedKey e) /\ settled (UtlsPreSharedKey e').
Proof.
  cbn [can_send]. intros [Hc Ho]. set (n := pskExtLen _ _) in *.
  assert (H : exists e', UtlsPreSharedKeyExtension.Len e = (e', n) /\ UtlsPreSharedKeyExtension.Len e' = (e', n) /\
    UtlsPreSharedKeyExtension.Identities e' = UtlsPreSharedKeyExtension.Identities e /\
    UtlsPreSharedKeyExtension.Binders e' = UtlsPreSharedKeyExtension.Binders e /\
    UtlsPreSharedKeyExtension.OmitEmptyPsk e' = UtlsPreSharedKeyExtension.OmitEmptyPsk e).
  { unfold UtlsPreSharedKeyExtension.Len at 1. destruct (negb _ && _) eqn:E.
    - exists e. assert (n = 0) as ->.
      { apply andb_true_iff in E as [_ E]. unfold n, pskExtLen. by rewrite E. }
      unfold UtlsPreSharedKeyExtension.Len. by rewrite E.
    - destruct Hc as [Hc|Hc]; rewrite Hc.
      + eexists. split; [reflexivity|]. unfold UtlsPreSharedKeyExtension.Len. cbn. rewrite E. by split_and!.
      + exists e. unfold UtlsPreSharedKeyExtension.Len. rewrite E, Hc. by split_and!. }
  destruct H as (e' & H1 & H2 & Ei & Eb & Eo). exists e'. split; [done|]. cbn [block_of]. rewrite Ei, Eb. split; [done|].
  destruct (psk_block (UtlsPreSharedKeyExtension.Identities e) (UtlsPreSharedKeyExtension.Binders e) []) as [EL _].
  split; cbn [ext_Len ext_Read block_of]; rewrite ?Ei, ?Eb; fold n in EL |- *.
  - by rewrite H2, EL.
  - intros rest. unfold UtlsPreSharedKeyExtension.Read. rewrite Eo, H2. unfold n.
    assert (HR : forall b, (let '(e0, empty) := if negb (UtlsPreSharedKeyExtension.OmitEmptyPsk e) then (e', n =? 0) else (e', false) in
       if empty then Ret (e0, (b, (0, ErrEmptyPsk)))
       else run r := readPskIntoBytes b (UtlsPreSharedKeyExtension.Identities e0) (UtlsPreSharedKeyExtension.Binders e0) in Ret (e0, r)) =
       run r := readPskIntoBytes b (UtlsPreSharedKeyExtension.Identities e) (UtlsPreSharedKeyExtension.Binders e) in Ret (e', r)).
    { intros b. destruct Ho as [->|Hn]; cbn [negb]; [by rewrite Ei, Eb|].
      rewrite (proj2 (Z.eqb_neq n 0)) by done. destruct (negb _); by rewrite Ei, Eb. }
    rewrite HR. by rewrite (proj2 (psk_block _ _ rest)).
Qed.

Lemma fake_psk_settled e : can_send (FakePreSharedKey e) -> settled (FakePreSharedKey e).
Proof.
  cbn [can_send]. intros [Ho Hv]. unfold settled. cbn [block_of ext_Len ext_Read].
  destruct (psk_block (FakePreSharedKeyExtension.ids e) (FakePreSharedKeyExtension.bs e) []) as [EL _].
  change (pskExtLen _ _) with (FakePreSharedKeyExtension.Len e) in EL. split; [by rewrite EL|].
  intros rest. unfold FakePreSharedKeyExtension.Read.
  change (if FakePreSharedKeyExtension.Len e =? 0 then None else _)
    with (if pskExtLen (FakePreSharedKeyExtension.ids e) (FakePreSharedKeyExtension.bs e) =? 0 then None
          else Some (extensionPreSharedKey, enc_psk (FakePreSharedKeyExtension.ids e) (FakePreSharedKeyExtension.bs e))).
  replace (negb _ && _) with false; [|destruct Ho as [->|Hn]; [done|];
    rewrite (proj2 (Z.eqb_neq _ 0)), andb_false_r by done; done].
  replace (forallb _ _) with true.
  - by rewrite (proj2 (psk_block _ _ rest)).
  - symmetry. apply forallb_forall. intros x Hx. rewrite Forall_forall in Hv. apply Hv. by apply list_elem_of_In.
Qed.

Lemma quic_settled e : can_send (QUICTransportParameters e) ->
  exists e' n, QUICTransportParametersExtension.Len e = Ret (e', n) /\
    n = len (wire (block_of (QUICTransportParameters e'))) /\ settled (QUICTransportParameters e').
Proof.
  intros H. cbn [can_send] in H.
  assert (HS : forall e d, match e.(QUICTransportParametersExtension.RawData) with
      | Some d => Some d | None => e.(QUICTransportParametersExtension.marshalResult) end = Some d ->
    QUICTransportParametersExtension.Len e = Ret (e, 4 + len d) /\ settled (QUICTransportParameters e)).
  { clear. intros e d Hd. assert (HL : QUICTransportParametersExtension.Len e = Ret (e, 4 + len d)).
    { unfold QUICTransportParametersExtension.Len. destruct (QUICTransportParametersExtension.RawData e); [by injection Hd as <-|].
      by rewrite Hd. }
    split; [done|]. unfold settled. cbn [block_of ext_Len ext_Read].
    replace (match QUICTransportParametersExtension.RawData e with Some d0 => d0 | None => _ end) with d
      by (destruct (QUICTransportParametersExtension.RawData e); [by injection Hd as <-|by rewrite Hd]).
    rewrite HL, wire_some. split; [done|]. intros rest. unfold QUICTransportParametersExtension.Read.
    rewrite HL. cbn [obind]. rewrite room by (rewrite wire_some; lia).
    replace (match QUICTransportParametersExtension.RawData e with Some d0 => d0 | None => _ end) with d
      by (destruct (QUICTransportParametersExtension.RawData e); [by injection Hd as <-|by rewrite Hd]).
    assert (HF : Fills (put16 0 extensionQUICTransportParameters ;! put16 2 (len d) ;! copy_at 4 d) 0
      (enc_ext (extensionQUICTransportParameters, d))) by (apply fills_ext; [apply fills_copy|done]).
    specialize (HF [] rest eq_refl). cbn [app] in HF. cbn [wire]. rewrite HF. cbn [obind]. by rewrite HL. }
  destruct (QUICTransportParametersExtension.RawData e) as [d|] eqn:Er.
  { destruct (HS e d) as [HL Hs]; [by rewrite Er|]. exists e, (4 + len d). split_and!; [done| |done].
    cbn [block_of]. by rewrite Er, wire_some. }
  destruct (QUICTransportParametersExtension.marshalResult e) as [d|] eqn:Em.
  { destruct (HS e d) as [HL Hs]; [by rewrite Er, Em|]. exists e, (4 + len d). split_and!; [done| |done].
    cbn [block_of]. by rewrite Er, Em, wire_some. }
  destruct H as [H|[H|(tps & d & HM & Hd)]]; [done..|].
  set (e' := QUICTransportParametersExtension.Mk tps (QUICTransportParametersExtension.rnd e) None (Some d)).
  exists e', (4 + len d). split_and!.
  - unfold QUICTransportParametersExtension.Len. rewrite Er, Em, HM. cbn [obind].
    rewrite (proj2 (Z.eqb_neq (len d) 0)); [done|]. destruct d; [done|]. rewrite len_cons. pose proof (len_nonneg d). lia.
  - cbn [block_of e' QUICTransportParametersExtension.RawData QUICTransportParametersExtension.marshalResult default id]; by rewrite wire_some.
  - by apply (HS e' d).
Qed.

Lemma grease_ech_settled e : can_send (GREASEEncryptedClientHello e) ->
  exists e' n, GREASEEncryptedClientHelloExtension.Len e = Ret (e', n) /\
    n = len (wire (block_of (GREASEEncryptedClientHello e'))) /\ settled (GREASEEncryptedClientHello e').
Proof.
  cbn [can_send]. intros H.
  destruct (GREASEEncryptedClientHelloExtension.init e) as [|[g err]] eqn:E; [done|].
  assert (HL : GREASEEncryptedClientHelloExtension.Len e = Ret (g, len (wire (block_of (GREASEEncryptedClientHello g))))).
  { unfold GREASEEncryptedClientHelloExtension.Len. rewrite E. cbn [obind block_of].
    rewrite wire_some. unfold ech_body. rewrite !len_app, !len_enc_lp, !len_be. do 2 f_equal. lia. }
  exists g. eexists. split_and!; [exact HL|done|]. pose proof (Len_again e g _ HL) as [HL' _]. split.
  - cbn [ext_Len]. by rewrite HL'.
  - intros rest. cbn [ext_Read block_of wire]. rewrite Read_fills; [done|]. by eapply init_once.
Qed.

(** Every extension that can be sent is measured without a panic, and from then
    on writes the block it announced. *)
Lemma measured x : can_send x ->
  exists x', ext_Len x = Ret (x', len (wire (block_of x'))) /\ settled x' /\ is_padding x' = is_padding x.
Proof.
  intros H. assert (HS : settled x -> exists x', ext_Len x = Ret (x', len (wire (block_of x'))) /\ settled x' /\
    is_padding x' = is_padding x) by (intros Hs; exists x; split; [apply Hs|done]).
  destruct x; try (apply HS; apply settled_class; first [done|exact H]).
  - destruct (quic_settled e H) as (e' & k & HL & Hk & Hs). exists (QUICTransportParameters e').
    split; [|done]. cbn [ext_Len]. rewrite HL. cbn [obind]. by rewrite Hk.
  - destruct (utls_psk_settled e H) as (e' & HL & HB & Hs). exists (UtlsPreSharedKey e'). split; [|done].
    cbn [ext_Len]. rewrite HL, HB. cbn [block_of]. by rewrite (proj1 (psk_block _ _ [])).
  - apply HS. by apply fake_psk_settled.
  - destruct (grease_ech_settled e H) as (e' & k & HL & Hk & Hs). exists (GREASEEncryptedClientHello e').
    split; [|done]. cbn [ext_Len]. rewrite HL. cbn [obind]. by rewrite Hk.
Qed.

(** ** The lengths *)

Definition payload (exts : list (Ext X)) : bytes := concat (map (fun x => wire (block_of x)) exts).
Definition unpadded (exts : list (Ext X)) : bytes :=
  concat (map (fun x => if is_padding x then [] else wire (block_of x)) exts).
Definition paddings (exts : list (Ext X)) : Z := len (List.filter is_padding exts).

(** What is left of the extensions after the first loop. *)
Record measures (exts exts' : list (Ext X)) : Prop := {
  ms_settled : Forall (fun x => is_padding x = false -> settled x) exts';
  ms_padding : Forall2 (fun x x' => is_padding x' = is_padding x /\ (is_padding x = true -> x' = x)) exts exts'
}.

Lemma measure_spec exts : Forall can_send exts -> forall acc (seen : bool),
  (if seen then 1 else 0) + paddings exts <= 1 ->
  exists exts', measure exts acc seen =
    Ret (exts', inr (acc + len (unpadded exts'), (seen || existsb is_padding exts'))) /\ measures exts exts'.
Proof.
  unfold paddings. induction 1 as [|x exts Hx H IH]; intros acc seen Hp.
  - exists []. cbn. rewrite orb_false_r, Z.add_0_r. split; [done|]. by constructor.
  - cbn [measure]. cbn [List.filter] in Hp. destruct (is_padding x) eqn:E; cbn [negb] in *.
    + rewrite len_cons in Hp. pose proof (len_nonneg (List.filter is_padding exts)).
      destruct seen; [lia|]. destruct (IH acc true) as (exts' & HM & [H1 H2]); [lia|]. rewrite HM. cbn [obind].
      exists (x :: exts'). unfold unpadded. cbn [map concat existsb]. rewrite E. split; [by rewrite orb_true_r|].
      constructor; constructor; try done. by rewrite E.
    + destruct (measured x Hx) as (x' & HL & Hs & Ep). rewrite HL. cbn [obind].
      destruct (IH (acc + len (wire (block_of x'))) seen) as (exts' & HM & [H1 H2]); [lia|]. rewrite HM. cbn [obind].
      exists (x' :: exts'). rewrite E in Ep. unfold unpadded. cbn [map concat existsb]. rewrite Ep. cbn [orb].
      rewrite len_app, Z.add_assoc. split; [done|]. constructor; constructor; try done. by rewrite Ep, E.
Qed.

Lemma padding_len_cons x exts : padding_len (x :: exts) =
  (if is_padding x then len (wire (block_of x)) else 0) + padding_len exts \/ ~ settled x.
Proof.
  assert (Hacc : forall exts k, fold_left (fun k x => match x with UtlsPadding e => k + UtlsPaddingExtension.Len e | _ => k end)
    exts k = k + padding_len exts).
  { clear. unfold padding_len. induction exts as [|x exts IH]; intros k; cbn [fold_left]; [lia|].
    rewrite IH. symmetry. rewrite IH. destruct x; lia. }
  unfold padding_len at 1. cbn [fold_left]. rewrite Hacc. destruct (is_padding x) eqn:E.
  - destruct x; try done. destruct (Z.eq_dec (UtlsPaddingExtension.Len e) (len (wire (block_of (UtlsPadding e))))) as [->|Hne].
    + left. lia.
    + right. intros [HL _]. cbn [ext_Len] in HL. by injection HL.
  - left. by destruct x.
Qed.

Lemma payload_len exts : Forall settled exts -> len (payload exts) = len (unpadded exts) + padding_len exts.
Proof.
  unfold payload, unpadded. induction 1 as [|x exts Hx H IH]; [done|]. cbn [map concat]. rewrite !len_app, IH.
  destruct (padding_len_cons x exts) as [->|]; [|done].
  destruct (is_padding x); rewrite ?len_nil; lia.
Qed.

(** ** The writer *)

(** [D] was written so far to a writer of [size] bytes: all of it is in the
    buffer, whose rest is zero, or the buffer was full and has been flushed. *)
Definition holding (size : nat) (w : bufio.writer) (D : bytes) : Prop :=
  (length D <= size)%nat /\
  (w = bufio.Mk (D ++ replicate (size - length D) x00) (len D) [] \/
   length D = size /\ exists b, length b = size /\ w = bufio.Mk b 0 D).

Lemma holding_new size : 0 < size -> holding (Z.to_nat size) (bufio.NewWriterSize size) [].
Proof.
  intros Hs. split; [cbn; lia|]. left. unfold bufio.NewWriterSize. rewrite (proj2 (Z.leb_gt size 0)) by lia.
  cbn [app length]. by rewrite Nat.sub_0_r.
Qed.

Lemma buffer_rest size D p : (length D + length p <= size)%nat ->
  bufio.buffer p (bufio.Mk (D ++ replicate (size - length D) x00) (len D) []) =
  bufio.Mk ((D ++ p) ++ replicate (size - length (D ++ p)) x00) (len (D ++ p)) [].
Proof.
  intros Hs. unfold bufio.buffer, bufio.Available. cbn [bufio.buf bufio.n bufio.out].
  rewrite (take_ge p) by (unfold len; rewrite length_app, length_replicate; lia).
  replace (Z.to_nat (len D)) with (length D) by (unfold len; lia).
  rewrite take_app_length, drop_app_ge by lia. rewrite len_app. f_equal. rewrite <- app_assoc. do 2 f_equal.
  rewrite drop_replicate. f_equal. rewrite length_app. lia.
Qed.

Lemma Write_holding size w D p : holding size w D -> (length D + length p <= size)%nat ->
  holding size (bufio.Write p w) (D ++ p).
Proof.
  intros [Hl Hw] Hs. split; [rewrite length_app; lia|]. destruct Hw as [->|(E & b & Hb & ->)].
  - left. rewrite <- buffer_rest by done. unfold bufio.Write.
    replace (_ <? len p) with false; [done|]. symmetry. apply Z.ltb_ge. unfold bufio.Available. cbn.
    unfold len. rewrite length_app, length_replicate. lia.
  - destruct p as [|c p]; [|cbn in Hs; lia]. right. rewrite app_nil_r. split; [done|]. exists b. split; [done|].
    unfold bufio.Write, bufio.Available, bufio.buffer, bufio.Available. cbn.
    pose proof (len_nonneg b). rewrite (proj2 (Z.ltb_ge _ _)) by (rewrite len_nil; lia). by rewrite take_nil, drop_0.
Qed.

Lemma Flush_holding size w D : holding size w D -> (bufio.Flush w).(bufio.out) = D.
Proof.
  intros [Hl [->|(E & b & Hb & ->)]]; unfold bufio.Flush; cbn.
  - unfold len. by rewrite Nat2Z.id, take_app_length.
  - by rewrite app_nil_r.
Qed.

Lemma ReadFrom_holding spare size w D x : settled x -> holding size w D ->
  (length D + length (wire (block_of x)) <= size)%nat -> (0 < length D)%nat ->
  exists w', ReadFrom spare x w = Ret (x, w', None) /\ holding size w' (D ++ wire (block_of x)).
Proof.
  intros [_ HR] [Hl Hw] Hs HD. set (B := wire (block_of x)) in *.
  assert (Hfull : forall b, length D = size -> length b = size -> exists w',
    ReadFrom spare x (bufio.Mk b 0 D) = Ret (x, w', None) /\ holding size w' (D ++ B)).
  { intros b E Hb. assert (EB : B = []) by (apply nil_length_inv; lia). rewrite EB in *. unfold ReadFrom. cbn [length] in HR.
    unfold bufio.Available. cbn. rewrite Z.sub_0_r.
    rewrite (proj2 (Z.eqb_neq (len b) 0)) by (unfold len; lia). cbn. specialize (HR (spare D)). cbn in HR.
    rewrite HR. cbn [obind]. rewrite decide_True by done. eexists. split; [done|]. cbn [Z.to_nat take]. rewrite !app_nil_r.
    split; [lia|]. right. split; [done|]. by exists b. }
  destruct Hw as [->|(E & b & Hb & ->)]; [|by apply Hfull]. destruct (decide (length D = size)) as [E|Hne].
  - destruct (Hfull (D ++ replicate (size - length D) x00) E) as (w' & HF & Hh);
      [rewrite length_app, length_replicate; lia|]. exists w'. split; [|done].
    unfold ReadFrom in *. unfold bufio.Available in *. cbn [bufio.buf bufio.n bufio.out] in *.
    replace (len (D ++ _) - len D =? 0) with true
      by (symmetry; apply Z.eqb_eq; unfold len; rewrite length_app, length_replicate; lia).
    unfold bufio.Flush. cbn [bufio.buf bufio.n bufio.out]. unfold len. rewrite Nat2Z.id, take_app_length.
    rewrite Z.sub_0_r in HF. rewrite (proj2 (Z.eqb_neq (len (D ++ _)) 0)) in HF by (unfold len; rewrite length_app; lia). exact HF.
  - unfold ReadFrom, bufio.Available. cbn [bufio.buf bufio.n bufio.out].
    replace (len (D ++ _) - len D =? 0) with false
      by (symmetry; apply Z.eqb_neq; unfold len; rewrite length_app, length_replicate; lia).
    cbn [bufio.buf bufio.n bufio.out]. rewrite (proj2 (Z.eqb_neq (len D) 0)) by (unfold len; lia).
    replace (Z.to_nat (len D)) with (length D) by (unfold len; lia). rewrite take_app_length, drop_app_length.
    replace (size - length D)%nat with (length B + (size - length (D ++ B)))%nat by (rewrite length_app; lia).
    rewrite replicate_add, HR. cbn [obind]. rewrite !decide_True by done. eexists. split; [reflexivity|].
    rewrite app_assoc, <- len_app. split; [rewrite length_app; lia|].
    match goal with |- context[if ?c then _ else _] => destruct c eqn:E end; [right|by left].
    apply Z.eqb_eq in E. cbn in E. unfold len in E. rewrite length_app, length_replicate in E.
    assert (E' : length (D ++ B) = size) by (rewrite length_app in *; lia). split; [done|]. rewrite E', Nat.sub_diag. cbn [replicate].
    rewrite app_nil_r. exists (D ++ B). split; [done|]. unfold bufio.Flush. cbn. unfold len. by rewrite Nat2Z.id, firstn_all.
Qed.

Lemma write_exts_holding spare size exts : Forall settled exts -> forall w D, holding size w D ->
  (length D + length (payload exts) <= size)%nat -> (0 < length D)%nat ->
  exists w', write_exts spare exts w = Ret (exts, w', None) /\ holding size w' (D ++ payload exts).
Proof.
  unfold payload. induction 1 as [|x exts Hx H IH]; intros w D Hw Hs HD; cbn [map concat write_exts] in *.
  - exists w. by rewrite app_nil_r.
  - rewrite length_app in Hs. destruct (ReadFrom_holding spare size w D x) as (w1 & HR & Hw1); [done..|lia|done|].
    rewrite HR. cbn [obind]. destruct (IH w1 (D ++ wire (block_of x))) as (w' & HE & Hw'); [done|rewrite length_app; lia..|].
    rewrite HE. cbn [obind]. exists w'. by rewrite app_assoc.
Qed.

(** ** The hello *)

Definition suites_bytes (suites : list Z) : bytes := concat (map (be 2) suites).

(** Everything before the extensions, for a hello of [helloLen] bytes. *)
Definition header_bytes (hello : PubClientHelloMsg.t) (helloLen : Z) : bytes :=
  be 1 typeClientHello ++ be 3 helloLen ++ be 2 hello.(PubClientHelloMsg.Vers) ++ hello.(PubClientHelloMsg.Random) ++
  be 1 (len hello.(PubClientHelloMsg.SessionId)) ++ hello.(PubClientHelloMsg.SessionId) ++
  be 2 (2 * len hello.(PubClientHelloMsg.CipherSuites)) ++ suites_bytes hello.(PubClientHelloMsg.CipherSuites) ++
  be 1 (len hello.(PubClientHelloMsg.CompressionMethods)) ++ hello.(PubClientHelloMsg.CompressionMethods).

Lemma length_suites l : length (suites_bytes l) = (2 * length l)%nat.
Proof. unfold suites_bytes. induction l as [|s l IH]; [done|]. cbn [map concat length]. rewrite length_app, length_be, IH. lia. Qed.

Lemma suites_holding size l : forall w D, holding size w D -> (length D + 2 * length l <= size)%nat ->
  holding size (fold_left (fun w suite => bufio.Write (be 2 suite) w) l w) (D ++ suites_bytes l).
Proof.
  unfold suites_bytes. induction l as [|s l IH]; intros w D Hw Hs; cbn [fold_left map concat length] in *; [by rewrite app_nil_r|].
  rewrite app_assoc. apply IH; [|rewrite length_app, length_be; lia]. apply Write_holding; [done|]. rewrite length_be. lia.
Qed.

Lemma header_holding size hello helloLen w : holding size w [] ->
  (length (header_bytes hello helloLen) <= size)%nat ->
  holding size (write_header hello helloLen w) (header_bytes hello helloLen).
Proof.
  intros Hw Hs. unfold header_bytes, write_header in *. rewrite !length_app, length_suites, !length_be in Hs.
  replace (Z.shiftl (len (PubClientHelloMsg.CipherSuites hello)) 1) with (2 * len (PubClientHelloMsg.CipherSuites hello))
    by (rewrite Z.shiftl_mul_pow2 by lia; lia).
  rewrite !app_assoc. repeat (first [apply suites_holding|apply Write_holding]);
    rewrite ?length_app, ?length_be, ?length_suites; cbn [length]; try lia.
  apply (Write_holding size w [] (be 1 typeClientHello)); [exact Hw|]. rewrite length_be. cbn [length]. lia.
Qed.

Lemma len_header hello helloLen : len hello.(PubClientHelloMsg.Random) = 32 ->
  len (header_bytes hello helloLen) = 4 + headerLength hello.
Proof.
  intros HR. unfold header_bytes, headerLength. rewrite !len_app, !len_be, HR. unfold len.
  rewrite length_suites. lia.
Qed.

(** The padding functions never ask for a negative length. *)
Definition pads (x : Ext X) : Prop :=
  match x with
  | UtlsPadding e => forall f n, e.(UtlsPaddingExtension.GetPaddingLen) = Some f -> 0 <= (f n).1
  | _ => True
  end.

(** The hello and its extensions, ready to be marshalled. *)
Record marshallable (hello : PubClientHelloMsg.t) (exts : list (Ext X)) : Prop := {
  mb_random : len hello.(PubClientHelloMsg.Random) = 32;
  mb_send : Forall can_send exts;
  mb_pads : Forall pads exts;
  mb_one_padding : paddings exts <= 1
}.

(** The length of the message before padding, as the padding extension is told. *)
Definition unpaddedLen (hello : PubClientHelloMsg.t) (exts : list (Ext X)) : Z :=
  headerLength hello + 4 + len (unpadded exts) + 2.

Definition hello_wire (hello : PubClientHelloMsg.t) (exts : list (Ext X)) : bytes :=
  let E := match exts with [] => [] | _ => be 2 (len (payload exts)) ++ payload exts end in
  header_bytes hello (headerLength hello + len E) ++ E.

Lemma update_no_padding k exts : existsb is_padding exts = false -> map (update_padding k) exts = exts.
Proof.
  induction exts as [|x exts IH]; [done|]. cbn [existsb map]. intros [E1 E2]%orb_false_iff. f_equal; [by destruct x|by apply IH].
Qed.

Lemma no_padding_len exts : existsb is_padding exts = false -> padding_len exts = 0.
Proof.
  unfold padding_len. induction exts as [|x exts IH]; [done|]. cbn [existsb fold_left].
  intros [E1 E2]%orb_false_iff. destruct x; try done; by apply IH.
Qed.

Lemma unpadded_update k exts : unpadded (map (update_padding k) exts) = unpadded exts.
Proof. unfold unpadded. induction exts as [|x exts IH]; [done|]. cbn [map concat]. rewrite IH. by destruct x. Qed.

Lemma settled_update k exts exts' : measures exts exts' -> Forall can_send exts -> Forall pads exts ->
  Forall settled (map (update_padding k) exts').
Proof.
  intros [Hs Hp] Hc Hd. induction Hp as [|x x' exts exts' [Ep Ex] H IH]; [constructor|].
  inversion_clear Hs as [|? ? Hs1 Hs2]. inversion_clear Hc as [|? ? Hc1 Hc2]. inversion_clear Hd as [|? ? Hd1 Hd2].
  cbn [map]. constructor; [|by apply IH]. destruct (is_padding x') eqn:E; [|by destruct x'; try done; apply Hs1].
  rewrite <- Ep in Ex. rewrite Ex in * by done. destruct x; try done.
  apply (settled_class UtlsPadding); try done. cbn [ready UtlsPadding_ok]. cbn in Hc1, Hd1.
  unfold UtlsPaddingExtension.Update. destruct (UtlsPaddingExtension.GetPaddingLen e) as [f|] eqn:Ef; [|done].
  specialize (Hd1 f k eq_refl). by destruct (f k).
Qed.

(** The length of the message, without its four-byte header. *)
Definition helloLen_of (hello : PubClientHelloMsg.t) (final : list (Ext X)) : Z :=
  headerLength hello + (if 0 <? len final then 2 + len (payload final) else 0).

Lemma hello_wire_eq hello final : hello_wire hello final =
  header_bytes hello (helloLen_of hello final) ++
  (if 0 <? len final then be 2 (len (payload final)) ++ payload final else []).
Proof.
  unfold hello_wire, helloLen_of. destruct final as [|x final]; [done|].
  rewrite len_cons, (proj2 (Z.ltb_lt 0 _)) by (pose proof (len_nonneg final); lia). by rewrite len_app, len_be.
Qed.

Lemma helloLen_pos hello final : 0 <= helloLen_of hello final.
Proof.
  unfold helloLen_of, headerLength. pose proof (len_nonneg (PubClientHelloMsg.SessionId hello)).
  pose proof (len_nonneg (PubClientHelloMsg.CipherSuites hello)).
  pose proof (len_nonneg (PubClientHelloMsg.CompressionMethods hello)). pose proof (len_nonneg (payload final)).
  destruct (0 <? len final); lia.
Qed.

Lemma len_hello_wire hello final : len hello.(PubClientHelloMsg.Random) = 32 ->
  len (hello_wire hello final) = 4 + helloLen_of hello final.
Proof.
  intros HR. rewrite hello_wire_eq, len_app, len_header by done. unfold helloLen_of.
  destruct (0 <? len final); rewrite ?len_app, ?len_be, ?len_nil; lia.
Qed.

(** The header and the extensions fill the writer. *)
Lemma written_hello spare hello final : len hello.(PubClientHelloMsg.Random) = 32 -> Forall settled final ->
  let w := write_header hello (helloLen_of hello final) (bufio.NewWriterSize (helloLen_of hello final + 4)) in
  exists w', (if 0 <? len final then write_exts spare final (bufio.Write (be 2 (len (payload final))) w)
              else Ret (final, w, None)) = Ret (final, w', None) /\ (bufio.Flush w').(bufio.out) = hello_wire hello final.
Proof.
  intros HR Hs w. set (hl := helloLen_of hello final) in *. set (size := Z.to_nat (hl + 4)).
  pose proof (len_header hello hl HR) as Hhd. pose proof (helloLen_pos hello final) as Hp. fold hl in Hp.
  pose proof (len_hello_wire hello final HR) as Hlen. rewrite hello_wire_eq, len_app in Hlen. fold hl in Hlen.
  pose proof (len_nonneg (if 0 <? len final then be 2 (len (payload final)) ++ payload final else [])).
  assert (Hw : holding size w (header_bytes hello hl)).
  { apply header_holding; [apply holding_new; lia|]. unfold size, len in *. lia. }
  enough (exists w', (if 0 <? len final then write_exts spare final (bufio.Write (be 2 (len (payload final))) w)
    else Ret (final, w, None)) = Ret (final, w', None) /\ holding size w' (hello_wire hello final)) as (w' & ? & Hw').
  { exists w'. split; [done|]. by eapply Flush_holding. }
  rewrite hello_wire_eq. fold hl. destruct (0 <? len final).
  - rewrite len_app, len_be in Hlen. rewrite app_assoc. apply write_exts_holding; [done| | |].
    + apply Write_holding; [done|]. rewrite length_be. pose proof (len_nonneg (payload final)). unfold size, len in *. lia.
    + rewrite length_app, length_be. unfold size, len in *. lia.
    + rewrite length_app, length_be. lia.
  - exists w. by rewrite app_nil_r.
Qed.

(** The marshaller succeeds and writes exactly the hello. *)
Lemma marshal_exact hello exts : marshallable hello exts ->
  exists exts', measures exts exts' /\
    let final := map (update_padding (unpaddedLen hello exts')) exts' in
    Forall settled final /\
    forall spare, MarshalClientHelloNoECH spare hello exts =
      Ret (final, PubClientHelloMsg.set_Raw (Some (hello_wire hello final)) hello, None).
Proof.
  intros [HR Hc Hp H1]. unfold MarshalClientHelloNoECH.
  destruct (measure_spec exts Hc 0 false) as (exts' & HM & Hm); [lia|]. exists exts'. split; [done|]. cbn zeta.
  pose proof (settled_update (unpaddedLen hello exts') exts exts' Hm Hc Hp) as Hs. split; [done|].
  intros spare. rewrite HM. cbn [obind orb]. rewrite Z.add_0_l.
  change (headerLength hello + 4 + len (unpadded exts') + 2) with (unpaddedLen hello exts').
  set (final := map (update_padding (unpaddedLen hello exts')) exts') in *.
  replace (if existsb is_padding exts' then final else exts') with final
    by (destruct (existsb is_padding exts') eqn:E; [done|]; unfold final; by apply update_no_padding).
  replace (if existsb is_padding exts' then len (unpadded exts') + padding_len final else len (unpadded exts'))
    with (len (payload final)).
  2: { rewrite payload_len by done. unfold final. rewrite unpadded_update.
       destruct (existsb is_padding exts') eqn:E; [done|].
       rewrite update_no_padding, no_padding_len by done. lia. }
  fold (helloLen_of hello final). destruct (written_hello spare hello final HR Hs) as (w & HW & Hw).
  rewrite HW. cbn [obind]. rewrite Hw, len_hello_wire by done. by rewrite Z.eqb_refl.
Qed.

(** C36: for a hello with a 32-byte random and extensions that can be sent, at
    most one of them padding, the marshaller returns no error, and [Raw] is the
    ClientHello message: the header with the length of the rest, the fields,
    and the blocks of the extensions in order, whose lengths are those that
    were announced; nothing depends on the spare room of the output buffer. *)
Theorem hello_marshalled hello exts : marshallable hello exts ->
  exists final,
    (forall spare, MarshalClientHelloNoECH spare hello exts =
      Ret (final, PubClientHelloMsg.set_Raw (Some (hello_wire hello final)) hello, None)) /\
    map is_padding final = map is_padding exts /\
    Forall (fun x => ext_Len x = Ret (x, len (wire (block_of x)))) final /\
    len (hello_wire hello final) = 4 + headerLength hello + (if 0 <? len exts then 2 + len (payload final) else 0).
Proof.
  intros H. pose proof (mb_random _ _ H) as HR.
  destruct (marshal_exact hello exts H) as (exts' & Hm & Hs & HM). set (final := map _ exts') in *.
  assert (EL : length final = length exts)
    by (unfold final; rewrite length_map; symmetry; eapply Forall2_length, (ms_padding _ _ Hm)).
  exists final. split_and!; [exact HM| | |].
  - unfold final. rewrite map_map. destruct Hm as [_ Hp]. clear -Hp. generalize (unpaddedLen hello exts'). intros k.
    induction Hp as [|x x' exts exts' [E _] _ IH]; [done|]. cbn [map]. f_equal; [rewrite <- E; by destruct x'|exact IH].
  - eapply Forall_impl; [exact Hs|]. by intros x [? _].
  - rewrite len_hello_wire by done. unfold helloLen_of. replace (len final) with (len exts) by (unfold len; by rewrite EL). lia.
Qed.

Lemma filter_nil_exists {A} (f : A -> bool) l : List.filter f l = [] -> existsb f l = false.
Proof. induction l as [|x l IH]; [done|]. cbn. destruct (f x); [done|exact IH]. Qed.

Lemma settled_padding e : settled (UtlsPadding e) ->
  UtlsPaddingExtension.Len e = len (wire (block_of (UtlsPadding e))).
Proof. intros [HL _]. exact (f_equal snd (Ret_inj _ _ HL)). Qed.

Lemma padding_len_one k e l : List.filter is_padding l = [UtlsPadding e] ->
  Forall settled (map (update_padding k) l) ->
  padding_len (map (update_padding k) l) = UtlsPaddingExtension.Len (UtlsPaddingExtension.Update k e).
Proof.
  induction l as [|x l IH]; [done|]. cbn [List.filter map]. intros Hf Hs. inversion_clear Hs as [|? ? Hs1 Hs2].
  destruct (padding_len_cons (update_padding k x) (map (update_padding k) l)) as [->|]; [|done].
  destruct (is_padding x) eqn:E.
  - injection Hf as -> Hf. cbn [update_padding is_padding].
    rewrite (no_padding_len (map _ l)); [rewrite (settled_padding _ Hs1); lia|].
    rewrite update_no_padding by (by apply filter_nil_exists). by apply filter_nil_exists.
  - rewrite IH by done. by destruct x.
Qed.

(** The padding that is asked for, as a length of the whole message. *)
Lemma padded_len hello exts exts' e : measures exts exts' -> Forall can_send exts -> Forall pads exts ->
  len hello.(PubClientHelloMsg.Random) = 32 -> List.filter is_padding exts = [UtlsPadding e] ->
  let k := unpaddedLen hello exts' in
  len (hello_wire hello (map (update_padding k) exts')) = k + UtlsPaddingExtension.Len (UtlsPaddingExtension.Update k e).
Proof.
  intros Hm Hc Hd HR Hf k. pose proof (settled_update k exts exts' Hm Hc Hd) as Hs.
  assert (Hf' : List.filter is_padding exts' = [UtlsPadding e]).
  { destruct Hm as [_ Hp]. rewrite <- Hf. clear -Hp. induction Hp as [|x x' exts exts' [E1 E2] _ IH]; [done|].
    cbn [List.filter]. rewrite E1. destruct (is_padding x); [f_equal; [by apply E2|done]|done]. }
  rewrite len_hello_wire by done. unfold helloLen_of.
  rewrite payload_len, unpadded_update, (padding_len_one k e) by done.
  replace (0 <? len _) with true; [unfold k, unpaddedLen; lia|]. symmetry. apply Z.ltb_lt.
  destruct exts'; [done|]. cbn [map]. rewrite len_cons. pose proof (len_nonneg (map (update_padding k) exts')). lia.
Qed.

(** C37: with BoringSSL's padding the ClientHello never has a length of 256 to 511
    bytes (some servers fail on those): such a hello is padded to 512 bytes, or
    to at most 516 when the padding block itself does not fit. *)
Theorem boring_padding hello exts e : marshallable hello exts ->
  List.filter is_padding exts = [UtlsPadding e] -> e.(UtlsPaddingExtension.GetPaddingLen) = Some BoringPaddingStyle ->
  exists final raw, (forall spare, MarshalClientHelloNoECH spare hello exts =
      Ret (final, PubClientHelloMsg.set_Raw (Some raw) hello, None)) /\
    ~ (256 <= len raw < 512) /\
    let k := unpaddedLen hello final in
    len raw = if (k <? 256) || (512 <=? k) then k else if k <? 508 then 512 else k + 5.
Proof.
  intros H Hf He. destruct (marshal_exact hello exts H) as (exts' & Hm & Hs & HM). cbn zeta in HM.
  eexists _, _. split; [exact HM|]. destruct H as [HR Hc Hd _].
  rewrite (padded_len hello exts exts' e Hm Hc Hd HR Hf). set (k := unpaddedLen hello exts').
  assert (Ek : unpaddedLen hello (map (update_padding k) exts') = k)
    by (unfold unpaddedLen; rewrite unpadded_update; done). rewrite Ek.
  unfold UtlsPaddingExtension.Update. rewrite He. unfold BoringPaddingStyle.
  destruct (Z.ltb_spec k 256), (Z.leb_spec 512 k), (Z.ltb_spec k 508), (Z.ltb_spec 0xff k), (Z.ltb_spec k 0x200);
    cbn [andb orb]; try destruct (Z.leb_spec (4 + 1) (0x200 - k)); unfold UtlsPaddingExtension.Len; cbn; lia.
Qed.

(** *** The end of a hello with a pre-shared key *)

Lemma psk_at_end hello pre e :
  pskExtLen e.(UtlsPreSharedKeyExtension.Identities) e.(UtlsPreSharedKeyExtension.Binders) <> 0 ->
  exists y, hello_wire hello (pre ++ [UtlsPreSharedKey e]) = y ++ binder_bytes e.(UtlsPreSharedKeyExtension.Binders).
Proof.
  intros Hn. rewrite hello_wire_eq. replace (0 <? len (pre ++ [UtlsPreSharedKey e])) with true
    by (symmetry; apply Z.ltb_lt; unfold len; rewrite length_app; cbn [length]; lia).
  unfold payload at 2. rewrite map_app, concat_app. cbn [map concat block_of]. rewrite (proj2 (Z.eqb_neq _ 0) Hn).
  cbn [wire]. unfold enc_ext. cbn [fst snd]. unfold enc_psk. rewrite app_nil_r, !app_assoc.
  eexists. unfold binder_bytes, enc_lp at 2. reflexivity.
Qed.
End Interface.

(** * Examples *)

Definition example_out : PubClientHelloMsg.t :=
  PubClientHelloMsg.set_Random (replicate 32 x11) (getPublicPtr example_hello).

Definition example_exts : list (Ext plain_x509) :=
  [UtlsGREASE (UtlsGREASEExtension.Mk 0x1a1a []);
   Generic (GenericExtension.Mk 0x1234 (replicate 150 x05));
   UtlsPadding (UtlsPaddingExtension.Mk 0 false (Some BoringPaddingStyle));
   UtlsPreSharedKey example_psk].

Lemma example_marshallable : marshallable example_out example_exts.
Proof.
  constructor; [reflexivity| | |vm_compute; discriminate].
  - repeat (apply Forall_cons; split); [done|done|vm_compute; discriminate| |done].
    split; [by left|right; vm_compute; discriminate].
  - repeat (apply Forall_cons; split); [done|done| |done|done]. intros f n [= <-]. unfold BoringPaddingStyle.
    destruct (Z.ltb_spec 0xff n), (Z.ltb_spec n 0x200); cbn; try lia. destruct (_ <=? _) eqn:E; cbn in *; lia.
Qed.

Lemma hello_marshalled_witness :
  exists final, forall spare, MarshalClientHelloNoECH spare example_out example_exts =
    Ret (final, PubClientHelloMsg.set_Raw (Some (hello_wire example_out final)) example_out, None).
Proof.
  destruct (hello_marshalled example_out example_exts example_marshallable) as (final & H & _). exists final. exact H.
Defined.

Lemma boring_padding_witness :
  exists raw final, (forall spare, MarshalClientHelloNoECH spare example_out example_exts =
    Ret (final, PubClientHelloMsg.set_Raw (Some raw) example_out, None)) /\ ~ (256 <= len raw < 512).
Proof.
  destruct (boring_padding example_out example_exts (UtlsPaddingExtension.Mk 0 false (Some BoringPaddingStyle))
    example_marshallable eq_refl eq_refl) as (final & raw & H & Hn & _). exists raw, final. split; [exact H|exact Hn].
Defined.
