(* ===== verification/Shuffle.v ===== *)
(** * The order of the extensions

    Models the shuffling of u_parrots.go ([positionInvariantExtension],
    [shufflePermutable], [ShuffleChromeTLSExtensions] and its seeded form,
    [cookieSpliceRange]) with [Shuffle] of math/rand, whose draws are an
    argument: [draw i] is the partner drawn for index [i].

    The theorems say that a shuffle permutes the movable extensions and leaves
    the pinned ones in their slots, and that every such order comes from exactly
    one sequence of draws, so that uniform draws give a uniform order. *)

From S2P Require Import Prelude Common Buffer Ticket Extensions PreSharedKey GreaseECH Marshal.

(** ** Shuffling a list in place *)

Section Lists.
Context {A : Type}.

(** [l[i], l[j] = l[j], l[i]] *)
Definition swap_at (i j : nat) (l : list A) : outcome (list A) :=
  match l !! i, l !! j with
  | Some a, Some b => Ret (<[i := b]> (<[j := a]> l))
  | _, _ => Panic
  end.

(** The loop of [rand.Shuffle] from index [i] down to 1. *)
Fixpoint shuffle_down (draw : nat -> nat) (i : nat) (l : list A) : outcome (list A) :=
  match i with
  | O => Ret l
  | S i' => run l := swap_at i (draw i) l in shuffle_down draw i' l
  end.
Definition Shuffle (draw : nat -> nat) (n : nat) (l : list A) : outcome (list A) := shuffle_down draw (n - 1) l.

(** What the source of randomness returns below a bound. *)
Definition in_range (draw : nat -> nat) : Prop := forall i, (draw i <= i)%nat.

(** ** Shuffling the elements that are not pinned *)

Context (pinned : A -> bool).

(** The indexes of the elements that are not pinned, from [i]. *)
Fixpoint movable_from (i : nat) (exts : list A) : list nat :=
  match exts with
  | [] => []
  | e :: exts => if pinned e then movable_from (S i) exts else i :: movable_from (S i) exts
  end.

(** The elements at the indexes; an index out of range panics. *)
Fixpoint gather (idx : list nat) (exts : list A) : outcome (list A) :=
  match idx with
  | [] => Ret []
  | i :: idx =>
      match exts !! i with
      | Some e => run l := gather idx exts in Ret (e :: l)
      | None => Panic
      end
  end.
Fixpoint scatter (idx : list nat) (movable : list A) (exts : list A) : outcome (list A) :=
  match idx with
  | [] => Ret exts
  | i :: idx =>
      match movable with
      | m :: movable =>
          if (i <? length exts)%nat then scatter idx movable (<[i := m]> exts) else Panic
      | [] => Panic
      end
  end.

Definition shufflePermutable (draw : nat -> nat) (exts : list A) : outcome (list A) :=
  let idx := movable_from 0 exts in
  if (length idx <? 2)%nat then Ret exts else
  run movable := gather idx exts in
  run movable := Shuffle draw (length movable) movable in
  scatter idx movable exts.

(** ** Where a cookie goes *)

(** [first] and [last] of the loop, over the extensions from index [i]. *)
Fixpoint splice_loop (i : nat) (exts : list A) (first last : option nat) : option nat * option nat :=
  match exts with
  | [] => (first, last)
  | e :: exts =>
      if pinned e then splice_loop (S i) exts first last
      else splice_loop (S i) exts (match first with None => Some i | _ => first end) (Some i)
  end.

Definition cookieSpliceRange (exts : list A) : nat * nat :=
  match splice_loop 0 exts None None with
  | (Some first, Some last) => (first, S last)
  | _ => match exts with [] => (0, 0) | _ => (1, 1) end%nat
  end.
End Lists.

(** ** The extensions of a hello *)

Section Exts.
Context {X : X509}.

Definition positionInvariantExtension (ext : Ext X) : bool :=
  match ext with
  | UtlsGREASE _ | UtlsPadding _ | UtlsPreSharedKey _ | FakePreSharedKey _ => true
  | _ => false
  end.

(** The draws come from a generator seeded by crypto/rand, or from the shared
    generator when that fails. *)
Definition ShuffleChromeTLSExtensions (draw : nat -> nat) (exts : list (Ext X)) : outcome (list (Ext X)) :=
  shufflePermutable positionInvariantExtension draw exts.

(** [draws seed] is the generator [rand.NewSource(seed)]. *)
Definition ShuffleChromeTLSExtensionsWithSeed (draws : Z -> nat -> nat) (exts : list (Ext X)) (seed : Z)
    : outcome (list (Ext X)) :=
  shufflePermutable positionInvariantExtension (draws seed) exts.
End Exts.

(** * Permutations *)

Section Permutations.
Context {A : Type}.
Implicit Types l out : list A.

Lemma swap_insert_perm i j l a b : l !! i = Some a -> l !! j = Some b -> <[i := b]> (<[j := a]> l) ≡ₚ l.
Proof.
  intros Hi Hj. destruct (decide (i = j)) as [->|Hne].
  { rewrite Hi in Hj. injection Hj as ->. by rewrite (list_insert_id l), list_insert_id. }
  apply Permutation_inj. rewrite !length_insert. split; [done|].
  pose proof (lookup_lt_Some _ _ _ Hi). pose proof (lookup_lt_Some _ _ _ Hj).
  exists (fun k => if decide (k = i) then j else if decide (k = j) then i else k). split.
  { intros x y. repeat case_decide; congruence. }
  intros k. repeat case_decide; subst.
  - by rewrite list_lookup_insert_eq by (by rewrite length_insert).
  - by rewrite list_lookup_insert_ne, list_lookup_insert_eq, Hi by (rewrite ?length_insert; done).
  - by rewrite !list_lookup_insert_ne by done.
Qed.

(** One swap with the partner of an index. *)
Lemma swap_at_ok i j l : (i < length l)%nat -> (j <= i)%nat ->
  exists a b, l !! i = Some a /\ l !! j = Some b /\ swap_at i j l = Ret (<[i := b]> (<[j := a]> l)).
Proof.
  intros Hi Hj. destruct (lookup_lt_is_Some_2 l i Hi) as [a Ha].
  destruct (lookup_lt_is_Some_2 l j ltac:(lia)) as [b Hb].
  exists a, b. unfold swap_at. by rewrite Ha, Hb.
Qed.

(** Above the index where it starts, the loop changes nothing. *)
Lemma shuffle_down_ok draw i l : in_range draw -> (i < length l)%nat ->
  exists out, shuffle_down draw i l = Ret out /\ out ≡ₚ l /\ forall k, (i < k)%nat -> out !! k = l !! k.
Proof.
  intros Hd. revert l. induction i as [|i IH]; intros l Hi; cbn.
  { exists l. done. }
  destruct (swap_at_ok (S i) (draw (S i)) l Hi (Hd _)) as (a & b & Ha & Hb & ->). cbn.
  destruct (IH (<[S i := b]> (<[draw (S i) := a]> l))) as (out & -> & Hp & Hk).
  { rewrite !length_insert. lia. }
  exists out. split; [done|]. split.
  - rewrite Hp. by apply swap_insert_perm.
  - intros k Hlt. rewrite Hk by lia. pose proof (Hd (S i)). by rewrite !list_lookup_insert_ne by lia.
Qed.

Lemma shuffle_down_ext draw draw' i l : (forall k, (0 < k <= i)%nat -> draw k = draw' k) ->
  shuffle_down draw i l = shuffle_down draw' i l.
Proof.
  revert l. induction i as [|i IH]; intros l H; [done|]. cbn.
  rewrite (H (S i)) by lia. destruct (swap_at _ _ _); cbn; [done|]. apply IH. intros k Hk. apply H. lia.
Qed.

Lemma perm_same_tail x y l : x :: l ≡ₚ y :: l -> x = y.
Proof. intros H. apply (Permutation_app_inv_r l [x] [y]) in H. by apply Permutation_length_1 in H. Qed.

Lemma perm_short l out : (length l < 2)%nat -> out ≡ₚ l -> out = l.
Proof.
  intros Hl Hp. destruct l as [|x [|]]; cbn in Hl; [by apply Permutation_nil_r| |lia].
  by apply Permutation_singleton_r.
Qed.

Lemma perm_same_above l out : out ≡ₚ l -> (forall k, (0 < k)%nat -> out !! k = l !! k) -> out = l.
Proof.
  intros Hp H. destruct out as [|x out], l as [|y l]; try done.
  { by apply Permutation_nil_l in Hp. } { by apply Permutation_nil_r in Hp. }
  assert (out = l) as ->. { apply list_eq. intros k. apply (H (S k)). lia. }
  by rewrite (perm_same_tail _ _ _ Hp).
Qed.

(** The index of the element that goes to [S i]. *)
Lemma partner i l out : NoDup l -> out ≡ₚ l -> (forall k, (i < k)%nat -> out !! k = l !! k) -> (i < length l)%nat ->
  exists j b, (j <= i)%nat /\ l !! j = Some b /\ out !! i = Some b /\ forall j', l !! j' = Some b -> j' = j.
Proof.
  intros Hnd Hp Hk Hi. assert (Hlen : length out = length l) by (by rewrite Hp).
  destruct (lookup_lt_is_Some_2 out i ltac:(lia)) as [b Hb].
  assert (Hin : b ∈ l). { rewrite <- Hp. by eapply list_elem_of_lookup_2. }
  apply list_elem_of_lookup_1 in Hin as [j Hj]. exists j, b. split_and!; [|done|done|].
  - destruct (decide (j <= i)%nat); [done|]. assert (NoDup out) by (by rewrite Hp).
    assert (j = i); [|lia]. eapply NoDup_lookup; [done|rewrite Hk by lia; done|done].
  - intros j' Hj'. by eapply NoDup_lookup.
Qed.

(** Every target that agrees above [i] is reached, by one sequence of draws. *)
Lemma shuffle_down_onto i l out : NoDup l -> out ≡ₚ l -> (forall k, (i < k)%nat -> out !! k = l !! k) ->
  (i < length l)%nat ->
  exists draw, in_range draw /\ shuffle_down draw i l = Ret out /\
    forall draw', in_range draw' -> shuffle_down draw' i l = Ret out -> forall k, (0 < k <= i)%nat -> draw' k = draw k.
Proof.
  revert l. induction i as [|i IH]; intros l Hnd Hp Hk Hi.
  { exists id. split_and!; [unfold in_range, id; lia|cbn; by rewrite (perm_same_above l out)|lia]. }
  destruct (partner (S i) l out Hnd Hp Hk Hi) as (j & b & Hj & Hlj & Hout & Huniq).
  destruct (swap_at_ok (S i) j l Hi Hj) as (a & b' & Ha & Hb' & Hsw). assert (b' = b) as -> by congruence.
  set (l' := <[S i := b]> (<[j := a]> l)) in *. assert (Hl' : l' ≡ₚ l) by (by apply swap_insert_perm).
  destruct (IH l') as (draw & Hd & Hrun & Hun); [by rewrite Hl'|by rewrite Hl'| |by unfold l'; rewrite !length_insert; lia|].
  { intros k Hlt. destruct (decide (k = S i)) as [->|Hne].
    - unfold l'. by rewrite Hout, list_lookup_insert_eq by (rewrite length_insert; done).
    - unfold l'. rewrite Hk, !list_lookup_insert_ne by lia. done. }
  exists (fun k => if decide (k = S i) then j else draw k). split_and!.
  - intros k. case_decide; [lia|apply Hd].
  - cbn. rewrite decide_True by done. rewrite Hsw. cbn. rewrite <- Hrun.
    apply shuffle_down_ext. intros k Hk'. by rewrite decide_False by lia.
  - intros draw' Hd' Hrun'. cbn in Hrun'.
    destruct (swap_at_ok (S i) (draw' (S i)) l Hi (Hd' _)) as (a' & b'' & Ha' & Hb'' & Hsw').
    assert (a' = a) as -> by congruence. rewrite Hsw' in Hrun'. cbn in Hrun'.
    destruct (shuffle_down_ok draw' i (<[S i := b'']> (<[draw' (S i) := a]> l)) Hd') as (o & Ho & _ & Hko).
    { rewrite !length_insert. lia. }
    rewrite Ho in Hrun'. injection Hrun' as ->. specialize (Hko (S i) ltac:(lia)).
    rewrite Hout, list_lookup_insert_eq in Hko by (rewrite length_insert; done). injection Hko as <-.
    assert (draw' (S i) = j) as Hj' by (by apply Huniq). rewrite Hj' in Ho.
    intros k Hk'. case_decide as Hks; [by subst|]. apply Hun; [done|done|lia].
Qed.
End Permutations.

(** * Shuffles that leave the pinned elements alone *)

Section Pinned.
Context {A : Type} (pinned : A -> bool).
Implicit Types exts out ms pre : list A.

Definition movable (e : A) : bool := negb (pinned e).

(** The same elements, each pinned one in its slot. *)
Definition reorders exts out : Prop :=
  out ≡ₚ exts /\ Forall2 (fun e o => if pinned e then o = e else pinned o = false) exts out.

(** The movable slots of [exts] filled with [ms]. *)
Fixpoint refill exts ms : list A :=
  match exts with
  | [] => []
  | e :: exts =>
      if pinned e then e :: refill exts ms
      else match ms with m :: ms => m :: refill exts ms | [] => e :: refill exts [] end
  end.

Lemma filter_movable_cons e exts : List.filter movable (e :: exts) =
  if pinned e then List.filter movable exts else e :: List.filter movable exts.
Proof. cbn. unfold movable at 1. by destruct (pinned e). Qed.

Lemma gather_movable pre exts :
  gather (movable_from pinned (length pre) exts) (pre ++ exts) = Ret (List.filter movable exts).
Proof.
  revert pre. induction exts as [|e exts IH]; intros pre; [done|]. rewrite filter_movable_cons. cbn.
  specialize (IH (pre ++ [e])). rewrite length_app, Nat.add_1_r, <- app_assoc in IH. cbn in IH.
  destruct (pinned e); cbn; [done|]. rewrite list_lookup_middle by done. by rewrite IH.
Qed.

Lemma scatter_refill pre exts ms : length ms = length (List.filter movable exts) ->
  scatter (movable_from pinned (length pre) exts) ms (pre ++ exts) = Ret (pre ++ refill exts ms).
Proof.
  revert pre ms. induction exts as [|e exts IH]; intros pre ms Hlen; [done|].
  rewrite filter_movable_cons in Hlen. cbn. destruct (pinned e); cbn in *.
  - specialize (IH (pre ++ [e]) ms Hlen). rewrite length_app, Nat.add_1_r, <- !app_assoc in IH. done.
  - destruct ms as [|m ms]; [done|]. rewrite length_app. cbn. case_match eqn:Hlt; [|apply Nat.ltb_ge in Hlt; lia].
    rewrite insert_app_r_alt, Nat.sub_diag by lia. cbn.
    specialize (IH (pre ++ [m]) ms ltac:(cbn in Hlen; lia)).
    rewrite length_app, Nat.add_1_r, <- !app_assoc in IH. done.
Qed.

Lemma refill_self exts : refill exts (List.filter movable exts) = exts.
Proof. induction exts as [|e exts IH]; [done|]. rewrite filter_movable_cons. cbn. destruct (pinned e); by rewrite IH. Qed.

Lemma refill_perm exts ms : length ms = length (List.filter movable exts) ->
  refill exts ms ≡ₚ List.filter pinned exts ++ ms.
Proof.
  revert ms. induction exts as [|e exts IH]; intros ms Hlen; [by destruct ms|].
  rewrite filter_movable_cons in Hlen. cbn. destruct (pinned e); cbn.
  - constructor. by apply IH.
  - destruct ms as [|m ms]; [done|]. rewrite <- Permutation_middle. constructor. apply IH. cbn in Hlen. lia.
Qed.

Lemma filter_movable_perm exts out : out ≡ₚ exts -> List.filter movable out ≡ₚ List.filter movable exts.
Proof.
  induction 1 as [|e l l' _ IH|x y l|l l' l'' _ IH _ IH']; cbn; [done| | |by etrans].
  - destruct (movable e); [by constructor|done].
  - destruct (movable x), (movable y); try done. constructor.
Qed.

(** The orders are exactly the fillings of the movable slots. *)
Lemma refill_reorders exts ms : ms ≡ₚ List.filter movable exts -> reorders exts (refill exts ms).
Proof.
  intros Hp. assert (Hm : Forall (fun m => pinned m = false) ms).
  { rewrite Hp. apply List.Forall_forall. intros m [_ Hm]%List.filter_In. by apply negb_true_iff in Hm. }
  assert (Hlen : length ms = length (List.filter movable exts)) by (by rewrite Hp). split.
  - rewrite <- (refill_self exts) at 2. by rewrite !refill_perm, Hp.
  - clear Hp. revert ms Hm Hlen. induction exts as [|e exts IH]; intros ms Hm Hlen; [constructor|].
    rewrite filter_movable_cons in Hlen. cbn. destruct (pinned e) eqn:E.
    + constructor; [by rewrite E|by apply IH].
    + destruct ms as [|m ms]; [done|]. inversion_clear Hm. constructor; [by rewrite E|]. apply IH; [done|cbn in Hlen; lia].
Qed.

Lemma reorders_refill exts out : reorders exts out -> out = refill exts (List.filter movable out).
Proof.
  intros [_ H]. induction H as [|e o exts out He H IH]; [done|]. rewrite filter_movable_cons. cbn.
  destruct (pinned e) eqn:E.
  - subst o. rewrite E. by rewrite <- IH.
  - rewrite He. by rewrite <- IH.
Qed.

Lemma refill_inj exts ms ms' : length ms = length (List.filter movable exts) -> length ms' = length ms ->
  refill exts ms = refill exts ms' -> ms = ms'.
Proof.
  revert ms ms'. induction exts as [|e exts IH]; intros ms ms' Hlen Hlen'; [by destruct ms, ms'|].
  rewrite filter_movable_cons in Hlen. cbn. destruct (pinned e).
  - intros [= H]. by apply IH.
  - destruct ms as [|m ms], ms' as [|m' ms']; try done. intros [= -> H]. f_equal. apply IH; [cbn in *; lia|cbn in *; lia|done].
Qed.

Lemma movable_from_length i exts : length (movable_from pinned i exts) = length (List.filter movable exts).
Proof.
  revert i. induction exts as [|e exts IH]; intros i; [done|]. rewrite filter_movable_cons. cbn.
  destruct (pinned e); cbn; by rewrite IH.
Qed.

(** A shuffle fills the movable slots with the shuffled movable elements. *)
Lemma shuffle_refill draw exts : in_range draw ->
  exists ms, ms ≡ₚ List.filter movable exts /\ shufflePermutable pinned draw exts = Ret (refill exts ms) /\
    ((2 <= length (List.filter movable exts))%nat -> Shuffle draw (length (List.filter movable exts)) (List.filter movable exts) = Ret ms).
Proof.
  intros Hd. unfold shufflePermutable. rewrite movable_from_length. set (fs := List.filter movable exts).
  case_match eqn:Hlt.
  { apply Nat.ltb_lt in Hlt. exists fs. unfold fs in *. rewrite refill_self. split_and!; [done|done|lia]. }
  apply Nat.ltb_ge in Hlt. pose proof (gather_movable [] exts) as Hg. cbn [length app] in Hg. rewrite Hg. cbn [obind]. fold fs.
  destruct (shuffle_down_ok draw (length fs - 1) fs Hd) as (ms & Hms & Hp & _); [lia|].
  exists ms. unfold Shuffle. rewrite Hms. cbn [obind]. split_and!; [done| |done].
  apply (scatter_refill [] exts). by rewrite Hp.
Qed.

(** [first] and [last] after the extensions [pre]. *)
Definition spliced pre (first last : option nat) : Prop :=
  match first, last with
  | None, None => Forall (fun e => pinned e = true) pre
  | Some a, Some b =>
      (a <= b < length pre)%nat /\ Forall (fun e => pinned e = true) (take a pre ++ drop (S b) pre) /\
      (exists e, pre !! a = Some e /\ pinned e = false) /\ exists e, pre !! b = Some e /\ pinned e = false
  | _, _ => False
  end.

Lemma spliced_step pre e f l : spliced pre f l ->
  if pinned e then spliced (pre ++ [e]) f l
  else spliced (pre ++ [e]) (match f with None => Some (length pre) | _ => f end) (Some (length pre)).
Proof.
  intros H. destruct (pinned e) eqn:E.
  - destruct f as [a|], l as [b|]; cbn in *; try done; [|by apply Forall_app_2; [|repeat constructor]].
    destruct H as (Hab & Hp & (x & Hx & Hxp) & y & Hy & Hyp). rewrite length_app. split_and!; try (cbn; lia).
    + rewrite take_app_le, drop_app_le, app_assoc by lia. apply Forall_app_2; [done|by repeat constructor].
    + exists x. by rewrite lookup_app_l by lia.
    + exists y. by rewrite lookup_app_l by lia.
  - assert (Hlast : exists y, (pre ++ [e]) !! length pre = Some y /\ pinned y = false).
    { exists e. by rewrite list_lookup_middle. }
    assert (Hd : drop (S (length pre)) (pre ++ [e]) = []).
    { apply drop_ge. rewrite length_app. cbn. lia. }
    destruct f as [a|], l as [b|]; try done; cbn [spliced] in *; rewrite Hd, length_app; cbn [length].
    + destruct H as (Hab & Hp & (x & Hx & Hxp) & _). apply Forall_app in Hp as [Hp _].
      split_and!; [lia|lia| |by exists x; rewrite lookup_app_l by lia|done].
      rewrite take_app_le by lia. by apply Forall_app_2.
    + split_and!; [lia|lia| |done|done]. rewrite take_app_length. by apply Forall_app_2.
Qed.

Lemma splice_loop_spec pre exts f l : spliced pre f l ->
  let '(f, l) := splice_loop pinned (length pre) exts f l in spliced (pre ++ exts) f l.
Proof.
  revert pre f l. induction exts as [|e exts IH]; intros pre f l H; cbn; [by rewrite app_nil_r|].
  pose proof (spliced_step pre e f l H) as Hs.
  assert (Hlen : S (length pre) = length (pre ++ [e])) by (rewrite length_app; cbn; lia).
  rewrite (cons_middle e), app_assoc, Hlen. destruct (pinned e); by apply IH.
Qed.

(** Between a run of pinned elements and another. *)
Lemma splice_range exts : Exists (fun e => pinned e = false) exts ->
  let '(lo, hi) := cookieSpliceRange pinned exts in
  (lo < hi <= length exts)%nat /\ Forall (fun e => pinned e = true) (take lo exts ++ drop hi exts) /\
  (exists e, exts !! lo = Some e /\ pinned e = false) /\ exists e, exts !! (hi - 1)%nat = Some e /\ pinned e = false.
Proof.
  intros Hex. unfold cookieSpliceRange. pose proof (splice_loop_spec [] exts None None ltac:(constructor)) as H.
  cbn [length app] in H. destruct (splice_loop pinned 0 exts None None) as [[a|] [b|]]; cbn [spliced] in H; try done.
  - destruct H as (Hab & Hp & Ha & Hb). split_and!; [lia|lia|done|done|]. by replace (S b - 1)%nat with b by lia.
  - exfalso. apply Exists_exists in Hex as (x & Hx & Hxp). rewrite Forall_forall in H. specialize (H x Hx). congruence.
Qed.
End Pinned.

(** * What a shuffle does to a hello *)

Section ShuffleTheorems.
Context {X : X509}.
Implicit Types exts out : list (Ext X).

(** A shuffle of the extensions of a hello never fails, and it returns the same
    extensions with every GREASE, padding and pre_shared_key extension in the
    slot it had, the other slots holding the other extensions. *)
Theorem shuffle_keeps_pinned draw exts : in_range draw ->
  exists out, ShuffleChromeTLSExtensions draw exts = Ret out /\ reorders positionInvariantExtension exts out.
Proof.
  intros Hd. destruct (shuffle_refill positionInvariantExtension draw exts Hd) as (ms & Hp & Hs & _).
  exists (refill positionInvariantExtension exts ms). split; [done|]. by apply refill_reorders.
Qed.

(** C27: if the movable extensions of a hello are all different, every order of the
    extensions that keeps the GREASE, padding and pre_shared_key extensions in their
    slots is the result of exactly one sequence of draws of the shuffle, so that uniform
    draws give a uniform order.  (The extensions that stay may be equal, as the two GREASE
    extensions of a Chrome specification are before their values are drawn.) *)
Theorem shuffle_bijective exts out : NoDup (List.filter (movable positionInvariantExtension) exts) -> reorders positionInvariantExtension exts out ->
  exists draw, in_range draw /\ ShuffleChromeTLSExtensions draw exts = Ret out /\
    forall draw', in_range draw' -> ShuffleChromeTLSExtensions draw' exts = Ret out ->
      forall k, (0 < k < length (List.filter (movable positionInvariantExtension) exts))%nat -> draw' k = draw k.
Proof.
  intros Hnd Hre. set (pinned := positionInvariantExtension). set (fs := List.filter (movable pinned) exts).
  set (os := List.filter (movable pinned) out). pose proof (reorders_refill _ _ _ Hre) as Hout.
  assert (Hp : os ≡ₚ fs) by apply filter_movable_perm, Hre.
  destruct (decide (2 <= length fs)%nat) as [Hge|Hlt].
  - destruct (shuffle_down_onto (length fs - 1) fs os) as (draw & Hd & Hrun & Hun).
    { exact Hnd. } { done. }
    { intros k Hk. rewrite !lookup_ge_None_2; [done|lia|rewrite Hp; lia]. } { lia. }
    exists draw. split_and!; [done| |].
    + destruct (shuffle_refill pinned draw exts Hd) as (ms & _ & Hs & Hm). specialize (Hm Hge).
      unfold Shuffle in Hm. fold fs in Hm. rewrite Hrun in Hm. injection Hm as <-. by rewrite Hout.
    + intros draw' Hd' Hs' k Hk. destruct (shuffle_refill pinned draw' exts Hd') as (ms & Hp' & Hs & Hm).
      apply Hun; [done| |fold fs in Hk; lia]. specialize (Hm Hge). unfold Shuffle in Hm. fold fs in Hm. rewrite Hm. f_equal.
      unfold ShuffleChromeTLSExtensions in Hs'. fold pinned in Hs'. rewrite Hs, Hout in Hs'. injection Hs' as Hs'.
      fold pinned os in Hs'. apply refill_inj in Hs'; [done|by rewrite Hp'|]. by rewrite (Permutation_length Hp'), (Permutation_length Hp).
  - exists id. split_and!; [unfold in_range, id; lia| |intros draw' _ _ k Hk; unfold fs, pinned in *; lia].
    destruct (shuffle_refill pinned id exts) as (ms & Hp' & Hs & _); [unfold in_range, id; lia|].
    unfold ShuffleChromeTLSExtensions. fold pinned. rewrite Hs, Hout. do 2 f_equal. change (ms = os).
    by rewrite (perm_short fs ms), (perm_short fs os) by (done || lia).
Qed.

(** A cookie spliced into a hello anywhere in the range [cookieSpliceRange] gives
    comes after the leading run and before the trailing run of GREASE, padding and
    pre_shared_key extensions, and the range is as wide as that allows. *)
Theorem cookie_after_leading_run exts cookie p :
  Exists (fun e => positionInvariantExtension e = false) exts ->
  let '(lo, hi) := cookieSpliceRange positionInvariantExtension exts in
  (lo <= p <= hi)%nat ->
  exists lead mid mid' trail, exts = lead ++ mid ++ mid' ++ trail /\
    take p exts ++ cookie :: drop p exts = lead ++ mid ++ cookie :: mid' ++ trail /\
    Forall (fun e => positionInvariantExtension e = true) (lead ++ trail) /\
    length lead = lo /\ length trail = (length exts - hi)%nat /\
    (exists e rest, mid ++ mid' = e :: rest /\ positionInvariantExtension e = false) /\
    (exists e rest, mid ++ mid' = rest ++ [e] /\ positionInvariantExtension e = false).
Proof.
  intros Hex. pose proof (splice_range positionInvariantExtension exts Hex) as H.
  destruct (cookieSpliceRange positionInvariantExtension exts) as [lo hi].
  destruct H as (Hlh & Hp & (a & Ha & Hap) & b & Hb & Hbp). intros Hlp.
  set (m := take (hi - lo) (drop lo exts)).
  assert (Hm : exts = take lo exts ++ m ++ drop hi exts).
  { unfold m. rewrite <- (take_drop lo exts) at 1. f_equal. rewrite <- (take_drop (hi - lo) (drop lo exts)) at 1.
    f_equal. rewrite drop_drop. f_equal. lia. }
  assert (Hlm : length m = (hi - lo)%nat) by (unfold m; rewrite length_take, length_drop; lia).
  assert (Hlo : length (take lo exts) = lo) by (rewrite length_take; lia).
  exists (take lo exts), (take (p - lo) m), (drop (p - lo) m), (drop hi exts).
  rewrite (app_assoc (take _ m)), (take_drop (p - lo) m). split_and!; [done| |done|done|by rewrite length_drop| |].
  - rewrite Hm at 1 2. rewrite take_app_ge, drop_app_ge, Hlo by lia.
    rewrite take_app_le, drop_app_le by lia. by rewrite <- !app_assoc.
  - assert (H0 : m !! 0%nat = Some a). { unfold m. rewrite lookup_take_lt, lookup_drop, Nat.add_0_r by lia. done. }
    destruct m as [|x m']; [done|]. injection H0 as ->. by exists a, m'.
  - assert (H0 : last m = Some b).
    { rewrite last_lookup, Hlm. unfold m. rewrite lookup_take_lt, lookup_drop by lia. rewrite <- Hb. f_equal. lia. }
    apply last_Some in H0 as [m' ->]. by exists b, m'.
Qed.
End ShuffleTheorems.

(** * Witnesses *)

Definition example_order : list (Ext plain_x509) :=
  [UtlsGREASE (UtlsGREASEExtension.Mk 0 []); SCT SCTExtension.Mk; ExtendedMasterSecret ExtendedMasterSecretExtension.Mk;
   UtlsGREASE (UtlsGREASEExtension.Mk 0 []); StatusRequest StatusRequestExtension.Mk; UtlsPreSharedKey example_psk].
Definition example_other_order : list (Ext plain_x509) :=
  [UtlsGREASE (UtlsGREASEExtension.Mk 0 []); StatusRequest StatusRequestExtension.Mk; SCT SCTExtension.Mk;
   UtlsGREASE (UtlsGREASEExtension.Mk 0 []); ExtendedMasterSecret ExtendedMasterSecretExtension.Mk; UtlsPreSharedKey example_psk].

Lemma example_reorders : reorders positionInvariantExtension example_order example_other_order.
Proof.
  apply (refill_reorders positionInvariantExtension example_order
    [StatusRequest StatusRequestExtension.Mk; SCT SCTExtension.Mk; ExtendedMasterSecret ExtendedMasterSecretExtension.Mk]).
  cbn. by rewrite (Permutation_cons_append [SCT _; _]).
Qed.

Lemma shuffle_keeps_pinned_witness :
  exists out, ShuffleChromeTLSExtensions (fun _ => 0%nat) example_order = Ret out /\
    reorders positionInvariantExtension example_order out.
Proof. apply (shuffle_keeps_pinned (fun _ => 0%nat) example_order). intros i. lia. Defined.

Lemma shuffle_bijective_witness :
  exists draw, ShuffleChromeTLSExtensions draw example_order = Ret example_other_order.
Proof.
  destruct (shuffle_bijective example_order example_other_order) as (draw & _ & H & _).
  - cbn. repeat constructor; set_unfold; intuition discriminate.
  - exact example_reorders.
  - exists draw. exact H.
Defined.

Lemma cookie_after_leading_run_witness :
  exists lead mid mid' trail, example_order = lead ++ mid ++ mid' ++ trail /\ length lead = 1%nat /\ length trail = 1%nat.
Proof.
  destruct (cookie_after_leading_run example_order (Cookie (CookieExtension.Mk [x05])) 2) as (a & b & b' & c & H & _ & _ & Ha & Hc & _).
  - apply Exists_exists. exists (SCT SCTExtension.Mk). split; [|reflexivity]. unfold example_order. set_solver.
  - cbn. lia.
  - exists a, b, b', c. split_and!; [exact H|exact Ha|exact Hc].
Defined.
