(* ===== verification/Parrots.v ===== *)
(** * The ClientHello of each client

    Models the specifications of u_parrots.go ([utlsIdToSpec]) with the
    identifiers of u_common.go that select them, [UTLSIdToSpec],
    [UTLSIdToSpecWithSeed] and [permutesExtensions].

    A specification is a value here; its extensions become objects of a
    connection when it is applied.  The randomness a specification uses when it
    is made (the order of shuffled extensions, what a GREASE Encrypted
    ClientHello draws later) is an argument. *)

From S2P Require Import Prelude Common Config Negotiation Buffer KeySchedule Quic Ticket Public Extensions PreSharedKey GreaseECH Marshal Shuffle.

(** ** Specifications and identifiers *)

(** [ClientHelloSpec], over the type of its extensions.  [GetSessionID] is a
    function of a ticket. *)
Module ClientHelloSpec.
Record t {E : Type} := Mk {
  CipherSuites : list Z;
  CompressionMethods : bytes;
  Extensions : list E;
  TLSVersMin : Z;
  TLSVersMax : Z;
  GetSessionID : option (bytes -> bytes);
  GREASESeed : list Z
}.
#[global] Arguments t _ : clear implicits.
Definition set_Extensions {E E'} (v : list E') (s : t E) : t E' :=
  Mk E' s.(CipherSuites) s.(CompressionMethods) v s.(TLSVersMin) s.(TLSVersMax) s.(GetSessionID) s.(GREASESeed).
#[global] Arguments Mk {E}.
End ClientHelloSpec.

(** [ClientHelloID]; [Seed] and [Weights] are pointers, compared by address. *)
Module ClientHelloID.
Record t := Mk { Client : string; Version : string; Seed : option nat; Weights : option nat }.
End ClientHelloID.

#[export] Instance ClientHelloID_eq_dec : EqDecision ClientHelloID.t.
Proof. solve_decision. Defined.

Definition helloGolang : string := "Golang".
Definition helloRandomized : string := "Randomized".
Definition helloRandomizedALPN : string := "Randomized-ALPN".
Definition helloRandomizedNoALPN : string := "Randomized-NoALPN".
Definition helloCustom : string := "Custom".
Definition helloFirefox : string := "Firefox".
Definition helloChrome : string := "Chrome".
Definition helloIOS : string := "iOS".
Definition helloAndroid : string := "Android".
Definition helloEdge : string := "Edge".
Definition helloSafari : string := "Safari".
Definition hello360 : string := "360Browser".
Definition helloQQ : string := "QQBrowser".
Definition helloAutoVers : string := "0".

Definition HelloGolang : ClientHelloID.t := ClientHelloID.Mk helloGolang helloAutoVers None None.
Definition HelloCustom : ClientHelloID.t := ClientHelloID.Mk helloCustom helloAutoVers None None.
Definition HelloRandomized : ClientHelloID.t := ClientHelloID.Mk helloRandomized helloAutoVers None None.
Definition HelloRandomizedALPN : ClientHelloID.t := ClientHelloID.Mk helloRandomizedALPN helloAutoVers None None.
Definition HelloRandomizedNoALPN : ClientHelloID.t := ClientHelloID.Mk helloRandomizedNoALPN helloAutoVers None None.
Definition HelloFirefox_55 : ClientHelloID.t := ClientHelloID.Mk helloFirefox "55" None None.
Definition HelloFirefox_56 : ClientHelloID.t := ClientHelloID.Mk helloFirefox "56" None None.
Definition HelloFirefox_63 : ClientHelloID.t := ClientHelloID.Mk helloFirefox "63" None None.
Definition HelloFirefox_65 : ClientHelloID.t := ClientHelloID.Mk helloFirefox "65" None None.
Definition HelloFirefox_99 : ClientHelloID.t := ClientHelloID.Mk helloFirefox "99" None None.
Definition HelloFirefox_102 : ClientHelloID.t := ClientHelloID.Mk helloFirefox "102" None None.
Definition HelloFirefox_105 : ClientHelloID.t := ClientHelloID.Mk helloFirefox "105" None None.
Definition HelloFirefox_120 : ClientHelloID.t := ClientHelloID.Mk helloFirefox "120" None None.
Definition HelloChrome_58 : ClientHelloID.t := ClientHelloID.Mk helloChrome "58" None None.
Definition HelloChrome_62 : ClientHelloID.t := ClientHelloID.Mk helloChrome "62" None None.
Definition HelloChrome_70 : ClientHelloID.t := ClientHelloID.Mk helloChrome "70" None None.
Definition HelloChrome_72 : ClientHelloID.t := ClientHelloID.Mk helloChrome "72" None None.
Definition HelloChrome_83 : ClientHelloID.t := ClientHelloID.Mk helloChrome "83" None None.
Definition HelloChrome_87 : ClientHelloID.t := ClientHelloID.Mk helloChrome "87" None None.
Definition HelloChrome_96 : ClientHelloID.t := ClientHelloID.Mk helloChrome "96" None None.
Definition HelloChrome_100 : ClientHelloID.t := ClientHelloID.Mk helloChrome "100" None None.
Definition HelloChrome_102 : ClientHelloID.t := ClientHelloID.Mk helloChrome "102" None None.
Definition HelloChrome_106_Shuffle : ClientHelloID.t := ClientHelloID.Mk helloChrome "106" None None.
Definition HelloChrome_100_PSK : ClientHelloID.t := ClientHelloID.Mk helloChrome "100_PSK" None None.
Definition HelloChrome_112_PSK_Shuf : ClientHelloID.t := ClientHelloID.Mk helloChrome "112_PSK" None None.
Definition HelloChrome_114_Padding_PSK_Shuf : ClientHelloID.t := ClientHelloID.Mk helloChrome "114_PSK" None None.
Definition HelloChrome_115_PQ : ClientHelloID.t := ClientHelloID.Mk helloChrome "115_PQ" None None.
Definition HelloChrome_115_PQ_PSK : ClientHelloID.t := ClientHelloID.Mk helloChrome "115_PQ_PSK" None None.
Definition HelloChrome_120 : ClientHelloID.t := ClientHelloID.Mk helloChrome "120" None None.
Definition HelloChrome_120_PQ : ClientHelloID.t := ClientHelloID.Mk helloChrome "120_PQ" None None.
Definition HelloChrome_131 : ClientHelloID.t := ClientHelloID.Mk helloChrome "131" None None.
Definition HelloChrome_133 : ClientHelloID.t := ClientHelloID.Mk helloChrome "133" None None.
Definition HelloChrome_143_Windows : ClientHelloID.t := ClientHelloID.Mk helloChrome "143_Windows" None None.
Definition HelloChrome_143_Linux : ClientHelloID.t := ClientHelloID.Mk helloChrome "143_Linux" None None.
Definition HelloChrome_143_macOS : ClientHelloID.t := ClientHelloID.Mk helloChrome "143_macOS" None None.
Definition HelloChrome_143_QUIC : ClientHelloID.t := ClientHelloID.Mk helloChrome "143_QUIC" None None.
Definition HelloChrome_133_PSK : ClientHelloID.t := ClientHelloID.Mk helloChrome "133_PSK" None None.
Definition HelloChrome_143_Windows_PSK : ClientHelloID.t := ClientHelloID.Mk helloChrome "143_Windows_PSK" None None.
Definition HelloChrome_143_Linux_PSK : ClientHelloID.t := ClientHelloID.Mk helloChrome "143_Linux_PSK" None None.
Definition HelloChrome_143_macOS_PSK : ClientHelloID.t := ClientHelloID.Mk helloChrome "143_macOS_PSK" None None.
Definition HelloChrome_143_QUIC_PSK : ClientHelloID.t := ClientHelloID.Mk helloChrome "143_QUIC_PSK" None None.
Definition HelloChrome_144_Windows : ClientHelloID.t := ClientHelloID.Mk helloChrome "144_Windows" None None.
Definition HelloChrome_144_Linux : ClientHelloID.t := ClientHelloID.Mk helloChrome "144_Linux" None None.
Definition HelloChrome_144_macOS : ClientHelloID.t := ClientHelloID.Mk helloChrome "144_macOS" None None.
Definition HelloChrome_144_QUIC : ClientHelloID.t := ClientHelloID.Mk helloChrome "144_QUIC" None None.
Definition HelloChrome_144_Windows_PSK : ClientHelloID.t := ClientHelloID.Mk helloChrome "144_Windows_PSK" None None.
Definition HelloChrome_144_Linux_PSK : ClientHelloID.t := ClientHelloID.Mk helloChrome "144_Linux_PSK" None None.
Definition HelloChrome_144_macOS_PSK : ClientHelloID.t := ClientHelloID.Mk helloChrome "144_macOS_PSK" None None.
Definition HelloChrome_144_QUIC_PSK : ClientHelloID.t := ClientHelloID.Mk helloChrome "144_QUIC_PSK" None None.
Definition HelloChrome_145_Windows : ClientHelloID.t := ClientHelloID.Mk helloChrome "145_Windows" None None.
Definition HelloChrome_145_Linux : ClientHelloID.t := ClientHelloID.Mk helloChrome "145_Linux" None None.
Definition HelloChrome_145_macOS : ClientHelloID.t := ClientHelloID.Mk helloChrome "145_macOS" None None.
Definition HelloChrome_145_QUIC : ClientHelloID.t := ClientHelloID.Mk helloChrome "145_QUIC" None None.
Definition HelloChrome_145_Windows_PSK : ClientHelloID.t := ClientHelloID.Mk helloChrome "145_Windows_PSK" None None.
Definition HelloChrome_145_Linux_PSK : ClientHelloID.t := ClientHelloID.Mk helloChrome "145_Linux_PSK" None None.
Definition HelloChrome_145_macOS_PSK : ClientHelloID.t := ClientHelloID.Mk helloChrome "145_macOS_PSK" None None.
Definition HelloChrome_145_QUIC_PSK : ClientHelloID.t := ClientHelloID.Mk helloChrome "145_QUIC_PSK" None None.
Definition HelloChrome_146_Windows : ClientHelloID.t := ClientHelloID.Mk helloChrome "146_Windows" None None.
Definition HelloChrome_146_Linux : ClientHelloID.t := ClientHelloID.Mk helloChrome "146_Linux" None None.
Definition HelloChrome_146_macOS : ClientHelloID.t := ClientHelloID.Mk helloChrome "146_macOS" None None.
Definition HelloChrome_146_QUIC : ClientHelloID.t := ClientHelloID.Mk helloChrome "146_QUIC" None None.
Definition HelloChrome_146_Windows_PSK : ClientHelloID.t := ClientHelloID.Mk helloChrome "146_Windows_PSK" None None.
Definition HelloChrome_146_Linux_PSK : ClientHelloID.t := ClientHelloID.Mk helloChrome "146_Linux_PSK" None None.
Definition HelloChrome_146_macOS_PSK : ClientHelloID.t := ClientHelloID.Mk helloChrome "146_macOS_PSK" None None.
Definition HelloChrome_146_QUIC_PSK : ClientHelloID.t := ClientHelloID.Mk helloChrome "146_QUIC_PSK" None None.
Definition HelloIOS_11_1 : ClientHelloID.t := ClientHelloID.Mk helloIOS "111" None None.
Definition HelloIOS_12_1 : ClientHelloID.t := ClientHelloID.Mk helloIOS "12.1" None None.
Definition HelloIOS_13 : ClientHelloID.t := ClientHelloID.Mk helloIOS "13" None None.
Definition HelloIOS_14 : ClientHelloID.t := ClientHelloID.Mk helloIOS "14" None None.
Definition HelloIOS_18 : ClientHelloID.t := ClientHelloID.Mk helloIOS "18" None None.
Definition HelloIOS_18_QUIC : ClientHelloID.t := ClientHelloID.Mk helloIOS "18_QUIC" None None.
Definition HelloAndroid_11_OkHttp : ClientHelloID.t := ClientHelloID.Mk helloAndroid "11" None None.
Definition HelloEdge_85 : ClientHelloID.t := ClientHelloID.Mk helloEdge "85" None None.
Definition HelloEdge_106 : ClientHelloID.t := ClientHelloID.Mk helloEdge "106" None None.
Definition HelloSafari_16_0 : ClientHelloID.t := ClientHelloID.Mk helloSafari "16.0" None None.
Definition HelloSafari_18 : ClientHelloID.t := ClientHelloID.Mk helloSafari "18" None None.
Definition Hello360_7_5 : ClientHelloID.t := ClientHelloID.Mk hello360 "7.5" None None.
Definition Hello360_11_0 : ClientHelloID.t := ClientHelloID.Mk hello360 "11.0" None None.
Definition HelloQQ_11_1 : ClientHelloID.t := ClientHelloID.Mk helloQQ "11.1" None None.
Definition HelloFirefox_Auto : ClientHelloID.t := HelloFirefox_120.
Definition HelloChrome_Auto : ClientHelloID.t := HelloChrome_133.
Definition HelloIOS_Auto : ClientHelloID.t := HelloIOS_18.
Definition HelloEdge_Auto : ClientHelloID.t := HelloEdge_85.
Definition HelloSafari_Auto : ClientHelloID.t := HelloSafari_18.
Definition Hello360_Auto : ClientHelloID.t := Hello360_7_5.
Definition HelloQQ_Auto : ClientHelloID.t := HelloQQ_11_1.

(** ** Constants of the specifications *)

Definition compressionNone : byte := x00.
Definition pskModeDHE : byte := x01.
Definition PskModeDHE : byte := pskModeDHE.
Definition CertCompressionZlib : Z := 0x0001.
Definition CertCompressionBrotli : Z := 0x0002.
Definition PKCS1WithSHA256 : Z := 0x0401.
Definition PKCS1WithSHA384 : Z := 0x0501.
Definition PKCS1WithSHA512 : Z := 0x0601.
Definition PSSWithSHA256 : Z := 0x0804.
Definition PSSWithSHA384 : Z := 0x0805.
Definition PSSWithSHA512 : Z := 0x0806.
Definition ECDSAWithP256AndSHA256 : Z := 0x0403.
Definition ECDSAWithP384AndSHA384 : Z := 0x0503.
Definition ECDSAWithP521AndSHA512 : Z := 0x0603.
Definition PKCS1WithSHA1 : Z := 0x0201.
Definition ECDSAWithSHA1 : Z := 0x0203.
Definition FakeSHA1WithDSA : Z := 0x0202.
Definition FakeSHA256WithDSA : Z := 0x0402.
Definition X25519Kyber768Draft00 : Z := 0x6399.
Definition FakeFFDHE2048 : Z := 0x0100.
Definition FakeFFDHE3072 : Z := 0x0101.
Definition FAKE_TLS_DHE_RSA_WITH_AES_128_CBC_SHA : Z := 0x0033.
Definition FAKE_TLS_DHE_RSA_WITH_AES_256_CBC_SHA : Z := 0x0039.
Definition FAKE_TLS_RSA_WITH_RC4_128_MD5 : Z := 0x0004.
Definition FAKE_TLS_DHE_DSS_WITH_AES_128_CBC_SHA : Z := 0x0032.
Definition FAKE_TLS_DHE_RSA_WITH_AES_256_CBC_SHA256 : Z := 0x006b.
Definition FAKE_TLS_DHE_RSA_WITH_AES_128_CBC_SHA256 : Z := 0x0067.
Definition FAKE_TLS_ECDHE_ECDSA_WITH_3DES_EDE_CBC_SHA : Z := 0xc008.

Module dicttls.
Definition HKDF_SHA256 : Z := 0x0001.
Definition AEAD_AES_128_GCM : Z := 0x0001.
Definition AEAD_CHACHA20_POLY1305 : Z := 0x0003.
End dicttls.

Definition str (s : string) : bytes := String.list_byte_of_string s.

(** ** The specifications *)

Section Specs.
Context {X : X509} {K : Crypto}.

Definition spec : Type := ClientHelloSpec.t (Ext X).

Definition sha256_Sum256 : bytes -> bytes := Hash SHA256.

(** A [GREASESeed] that is not set. *)
Definition no_seed : list Z := replicate ssl_grease_seed_len 0.

(** The randomness behind one specification. *)
Record parrot_rand := MkParrotRand {
  r_order : nat -> nat;
  r_ech : ech_draws;
  r_quic : nat -> draws
}.

Definition shuffled (r : parrot_rand) (s : spec) : outcome spec :=
  run exts := ShuffleChromeTLSExtensions r.(r_order) s.(ClientHelloSpec.Extensions) in
  Ret (ClientHelloSpec.set_Extensions exts s).

(** [HelloChrome_58, HelloChrome_62] *)
Definition spec_Chrome_58 (r : parrot_rand) : outcome spec :=
  Ret (ClientHelloSpec.Mk [
      GREASE_PLACEHOLDER; TLS_ECDHE_ECDSA_WITH_AES_128_GCM_SHA256; TLS_ECDHE_RSA_WITH_AES_128_GCM_SHA256;
      TLS_ECDHE_ECDSA_WITH_AES_256_GCM_SHA384; TLS_ECDHE_RSA_WITH_AES_256_GCM_SHA384;
      TLS_ECDHE_ECDSA_WITH_CHACHA20_POLY1305; TLS_ECDHE_RSA_WITH_CHACHA20_POLY1305;
      TLS_ECDHE_RSA_WITH_AES_128_CBC_SHA; TLS_ECDHE_RSA_WITH_AES_256_CBC_SHA; TLS_RSA_WITH_AES_128_GCM_SHA256;
      TLS_RSA_WITH_AES_256_GCM_SHA384; TLS_RSA_WITH_AES_128_CBC_SHA; TLS_RSA_WITH_AES_256_CBC_SHA;
      TLS_RSA_WITH_3DES_EDE_CBC_SHA]
    [compressionNone] [
      UtlsGREASE (UtlsGREASEExtension.Mk 0 []);
      RenegotiationInfo (RenegotiationInfoExtension.Mk RenegotiateOnceAsClient []);
      SNI (SNIExtension.Mk []);
      ExtendedMasterSecret ExtendedMasterSecretExtension.Mk;
      SessionTicket (SessionTicketExtension.Mk None [] false);
      SignatureAlgorithms (SignatureAlgorithmsExtension.Mk [
        ECDSAWithP256AndSHA256; PSSWithSHA256; PKCS1WithSHA256; ECDSAWithP384AndSHA384; PSSWithSHA384;
        PKCS1WithSHA384; PSSWithSHA512; PKCS1WithSHA512; PKCS1WithSHA1]);
      StatusRequest StatusRequestExtension.Mk;
      SCT SCTExtension.Mk;
      ALPN (ALPNExtension.Mk [str "h2"; str "http/1.1"]);
      FakeChannelID (FakeChannelIDExtension.Mk false);
      SupportedPoints (SupportedPointsExtension.Mk [pointFormatUncompressed]);
      SupportedCurves (SupportedCurvesExtension.Mk [GREASE_PLACEHOLDER; X25519; CurveP256; CurveP384]);
      UtlsGREASE (UtlsGREASEExtension.Mk 0 []);
      UtlsPadding (UtlsPaddingExtension.Mk 0 false (Some BoringPaddingStyle))]
    VersionTLS10 VersionTLS12 (Some sha256_Sum256) no_seed).

(** [HelloChrome_70] *)
Definition spec_Chrome_70 (r : parrot_rand) : outcome spec :=
  Ret (ClientHelloSpec.Mk [
      GREASE_PLACEHOLDER; TLS_AES_128_GCM_SHA256; TLS_AES_256_GCM_SHA384; TLS_CHACHA20_POLY1305_SHA256;
      TLS_ECDHE_ECDSA_WITH_AES_128_GCM_SHA256; TLS_ECDHE_RSA_WITH_AES_128_GCM_SHA256;
      TLS_ECDHE_ECDSA_WITH_AES_256_GCM_SHA384; TLS_ECDHE_RSA_WITH_AES_256_GCM_SHA384;
      TLS_ECDHE_ECDSA_WITH_CHACHA20_POLY1305; TLS_ECDHE_RSA_WITH_CHACHA20_POLY1305;
      TLS_ECDHE_RSA_WITH_AES_128_CBC_SHA; TLS_ECDHE_RSA_WITH_AES_256_CBC_SHA; TLS_RSA_WITH_AES_128_GCM_SHA256;
      TLS_RSA_WITH_AES_256_GCM_SHA384; TLS_RSA_WITH_AES_128_CBC_SHA; TLS_RSA_WITH_AES_256_CBC_SHA;
      TLS_RSA_WITH_3DES_EDE_CBC_SHA]
    [compressionNone] [
      UtlsGREASE (UtlsGREASEExtension.Mk 0 []);
      RenegotiationInfo (RenegotiationInfoExtension.Mk RenegotiateOnceAsClient []);
      SNI (SNIExtension.Mk []);
      ExtendedMasterSecret ExtendedMasterSecretExtension.Mk;
      SessionTicket (SessionTicketExtension.Mk None [] false);
      SignatureAlgorithms (SignatureAlgorithmsExtension.Mk [
        ECDSAWithP256AndSHA256; PSSWithSHA256; PKCS1WithSHA256; ECDSAWithP384AndSHA384; PSSWithSHA384;
        PKCS1WithSHA384; PSSWithSHA512; PKCS1WithSHA512; PKCS1WithSHA1]);
      StatusRequest StatusRequestExtension.Mk;
      SCT SCTExtension.Mk;
      ALPN (ALPNExtension.Mk [str "h2"; str "http/1.1"]);
      FakeChannelID (FakeChannelIDExtension.Mk false);
      SupportedPoints (SupportedPointsExtension.Mk [pointFormatUncompressed]);
      KeyShare (KeyShareExtension.Mk [KeyShare.Mk GREASE_PLACEHOLDER [x00]; KeyShare.Mk X25519 []]);
      PSKKeyExchangeModes (PSKKeyExchangeModesExtension.Mk [pskModeDHE]);
      SupportedVersions (SupportedVersionsExtension.Mk [GREASE_PLACEHOLDER; VersionTLS13; VersionTLS12; VersionTLS11; VersionTLS10]);
      SupportedCurves (SupportedCurvesExtension.Mk [GREASE_PLACEHOLDER; X25519; CurveP256; CurveP384]);
      UtlsCompressCert (UtlsCompressCertExtension.Mk [CertCompressionBrotli]);
      UtlsGREASE (UtlsGREASEExtension.Mk 0 []);
      UtlsPadding (UtlsPaddingExtension.Mk 0 false (Some BoringPaddingStyle))]
    VersionTLS10 VersionTLS13 None no_seed).

(** [HelloChrome_72] *)
Definition spec_Chrome_72 (r : parrot_rand) : outcome spec :=
  Ret (ClientHelloSpec.Mk [
      GREASE_PLACEHOLDER; TLS_AES_128_GCM_SHA256; TLS_AES_256_GCM_SHA384; TLS_CHACHA20_POLY1305_SHA256;
      TLS_ECDHE_ECDSA_WITH_AES_128_GCM_SHA256; TLS_ECDHE_RSA_WITH_AES_128_GCM_SHA256;
      TLS_ECDHE_ECDSA_WITH_AES_256_GCM_SHA384; TLS_ECDHE_RSA_WITH_AES_256_GCM_SHA384;
      TLS_ECDHE_ECDSA_WITH_CHACHA20_POLY1305; TLS_ECDHE_RSA_WITH_CHACHA20_POLY1305;
      TLS_ECDHE_RSA_WITH_AES_128_CBC_SHA; TLS_ECDHE_RSA_WITH_AES_256_CBC_SHA; TLS_RSA_WITH_AES_128_GCM_SHA256;
      TLS_RSA_WITH_AES_256_GCM_SHA384; TLS_RSA_WITH_AES_128_CBC_SHA; TLS_RSA_WITH_AES_256_CBC_SHA;
      TLS_RSA_WITH_3DES_EDE_CBC_SHA]
    [x00] [
      UtlsGREASE (UtlsGREASEExtension.Mk 0 []);
      SNI (SNIExtension.Mk []);
      ExtendedMasterSecret ExtendedMasterSecretExtension.Mk;
      RenegotiationInfo (RenegotiationInfoExtension.Mk RenegotiateOnceAsClient []);
      SupportedCurves (SupportedCurvesExtension.Mk [GREASE_PLACEHOLDER; X25519; CurveP256; CurveP384]);
      SupportedPoints (SupportedPointsExtension.Mk [x00]);
      SessionTicket (SessionTicketExtension.Mk None [] false);
      ALPN (ALPNExtension.Mk [str "h2"; str "http/1.1"]);
      StatusRequest StatusRequestExtension.Mk;
      SignatureAlgorithms (SignatureAlgorithmsExtension.Mk [
        ECDSAWithP256AndSHA256; PSSWithSHA256; PKCS1WithSHA256; ECDSAWithP384AndSHA384; PSSWithSHA384;
        PKCS1WithSHA384; PSSWithSHA512; PKCS1WithSHA512; PKCS1WithSHA1]);
      SCT SCTExtension.Mk;
      KeyShare (KeyShareExtension.Mk [KeyShare.Mk GREASE_PLACEHOLDER [x00]; KeyShare.Mk X25519 []]);
      PSKKeyExchangeModes (PSKKeyExchangeModesExtension.Mk [PskModeDHE]);
      SupportedVersions (SupportedVersionsExtension.Mk [GREASE_PLACEHOLDER; VersionTLS13; VersionTLS12; VersionTLS11; VersionTLS10]);
      UtlsCompressCert (UtlsCompressCertExtension.Mk [CertCompressionBrotli]);
      UtlsGREASE (UtlsGREASEExtension.Mk 0 []);
      UtlsPadding (UtlsPaddingExtension.Mk 0 false (Some BoringPaddingStyle))]
    0 0 None no_seed).

(** [HelloChrome_83] *)
Definition spec_Chrome_83 (r : parrot_rand) : outcome spec :=
  Ret (ClientHelloSpec.Mk [
      GREASE_PLACEHOLDER; TLS_AES_128_GCM_SHA256; TLS_AES_256_GCM_SHA384; TLS_CHACHA20_POLY1305_SHA256;
      TLS_ECDHE_ECDSA_WITH_AES_128_GCM_SHA256; TLS_ECDHE_RSA_WITH_AES_128_GCM_SHA256;
      TLS_ECDHE_ECDSA_WITH_AES_256_GCM_SHA384; TLS_ECDHE_RSA_WITH_AES_256_GCM_SHA384;
      TLS_ECDHE_ECDSA_WITH_CHACHA20_POLY1305; TLS_ECDHE_RSA_WITH_CHACHA20_POLY1305;
      TLS_ECDHE_RSA_WITH_AES_128_CBC_SHA; TLS_ECDHE_RSA_WITH_AES_256_CBC_SHA; TLS_RSA_WITH_AES_128_GCM_SHA256;
      TLS_RSA_WITH_AES_256_GCM_SHA384; TLS_RSA_WITH_AES_128_CBC_SHA; TLS_RSA_WITH_AES_256_CBC_SHA]
    [x00] [
      UtlsGREASE (UtlsGREASEExtension.Mk 0 []);
      SNI (SNIExtension.Mk []);
      ExtendedMasterSecret ExtendedMasterSecretExtension.Mk;
      RenegotiationInfo (RenegotiationInfoExtension.Mk RenegotiateOnceAsClient []);
      SupportedCurves (SupportedCurvesExtension.Mk [GREASE_PLACEHOLDER; X25519; CurveP256; CurveP384]);
      SupportedPoints (SupportedPointsExtension.Mk [x00]);
      SessionTicket (SessionTicketExtension.Mk None [] false);
      ALPN (ALPNExtension.Mk [str "h2"; str "http/1.1"]);
      StatusRequest StatusRequestExtension.Mk;
      SignatureAlgorithms (SignatureAlgorithmsExtension.Mk [
        ECDSAWithP256AndSHA256; PSSWithSHA256; PKCS1WithSHA256; ECDSAWithP384AndSHA384; PSSWithSHA384;
        PKCS1WithSHA384; PSSWithSHA512; PKCS1WithSHA512]);
      SCT SCTExtension.Mk;
      KeyShare (KeyShareExtension.Mk [KeyShare.Mk GREASE_PLACEHOLDER [x00]; KeyShare.Mk X25519 []]);
      PSKKeyExchangeModes (PSKKeyExchangeModesExtension.Mk [PskModeDHE]);
      SupportedVersions (SupportedVersionsExtension.Mk [GREASE_PLACEHOLDER; VersionTLS13; VersionTLS12; VersionTLS11; VersionTLS10]);
      UtlsCompressCert (UtlsCompressCertExtension.Mk [CertCompressionBrotli]);
      UtlsGREASE (UtlsGREASEExtension.Mk 0 []);
      UtlsPadding (UtlsPaddingExtension.Mk 0 false (Some BoringPaddingStyle))]
    0 0 None no_seed).

(** [HelloChrome_87] *)
Definition spec_Chrome_87 (r : parrot_rand) : outcome spec :=
  Ret (ClientHelloSpec.Mk [
      GREASE_PLACEHOLDER; TLS_AES_128_GCM_SHA256; TLS_AES_256_GCM_SHA384; TLS_CHACHA20_POLY1305_SHA256;
      TLS_ECDHE_ECDSA_WITH_AES_128_GCM_SHA256; TLS_ECDHE_RSA_WITH_AES_128_GCM_SHA256;
      TLS_ECDHE_ECDSA_WITH_AES_256_GCM_SHA384; TLS_ECDHE_RSA_WITH_AES_256_GCM_SHA384;
      TLS_ECDHE_ECDSA_WITH_CHACHA20_POLY1305; TLS_ECDHE_RSA_WITH_CHACHA20_POLY1305;
      TLS_ECDHE_RSA_WITH_AES_128_CBC_SHA; TLS_ECDHE_RSA_WITH_AES_256_CBC_SHA; TLS_RSA_WITH_AES_128_GCM_SHA256;
      TLS_RSA_WITH_AES_256_GCM_SHA384; TLS_RSA_WITH_AES_128_CBC_SHA; TLS_RSA_WITH_AES_256_CBC_SHA]
    [x00] [
      UtlsGREASE (UtlsGREASEExtension.Mk 0 []);
      SNI (SNIExtension.Mk []);
      ExtendedMasterSecret ExtendedMasterSecretExtension.Mk;
      RenegotiationInfo (RenegotiationInfoExtension.Mk RenegotiateOnceAsClient []);
      SupportedCurves (SupportedCurvesExtension.Mk [GREASE_PLACEHOLDER; X25519; CurveP256; CurveP384]);
      SupportedPoints (SupportedPointsExtension.Mk [x00]);
      SessionTicket (SessionTicketExtension.Mk None [] false);
      ALPN (ALPNExtension.Mk [str "h2"; str "http/1.1"]);
      StatusRequest StatusRequestExtension.Mk;
      SignatureAlgorithms (SignatureAlgorithmsExtension.Mk [
        ECDSAWithP256AndSHA256; PSSWithSHA256; PKCS1WithSHA256; ECDSAWithP384AndSHA384; PSSWithSHA384;
        PKCS1WithSHA384; PSSWithSHA512; PKCS1WithSHA512]);
      SCT SCTExtension.Mk;
      KeyShare (KeyShareExtension.Mk [KeyShare.Mk GREASE_PLACEHOLDER [x00]; KeyShare.Mk X25519 []]);
      PSKKeyExchangeModes (PSKKeyExchangeModesExtension.Mk [PskModeDHE]);
      SupportedVersions (SupportedVersionsExtension.Mk [GREASE_PLACEHOLDER; VersionTLS13; VersionTLS12; VersionTLS11; VersionTLS10]);
      UtlsCompressCert (UtlsCompressCertExtension.Mk [CertCompressionBrotli]);
      UtlsGREASE (UtlsGREASEExtension.Mk 0 []);
      UtlsPadding (UtlsPaddingExtension.Mk 0 false (Some BoringPaddingStyle))]
    0 0 None no_seed).

(** [HelloChrome_96] *)
Definition spec_Chrome_96 (r : parrot_rand) : outcome spec :=
  Ret (ClientHelloSpec.Mk [
      GREASE_PLACEHOLDER; TLS_AES_128_GCM_SHA256; TLS_AES_256_GCM_SHA384; TLS_CHACHA20_POLY1305_SHA256;
      TLS_ECDHE_ECDSA_WITH_AES_128_GCM_SHA256; TLS_ECDHE_RSA_WITH_AES_128_GCM_SHA256;
      TLS_ECDHE_ECDSA_WITH_AES_256_GCM_SHA384; TLS_ECDHE_RSA_WITH_AES_256_GCM_SHA384;
      TLS_ECDHE_ECDSA_WITH_CHACHA20_POLY1305; TLS_ECDHE_RSA_WITH_CHACHA20_POLY1305;
      TLS_ECDHE_RSA_WITH_AES_128_CBC_SHA; TLS_ECDHE_RSA_WITH_AES_256_CBC_SHA; TLS_RSA_WITH_AES_128_GCM_SHA256;
      TLS_RSA_WITH_AES_256_GCM_SHA384; TLS_RSA_WITH_AES_128_CBC_SHA; TLS_RSA_WITH_AES_256_CBC_SHA]
    [x00] [
      UtlsGREASE (UtlsGREASEExtension.Mk 0 []);
      SNI (SNIExtension.Mk []);
      ExtendedMasterSecret ExtendedMasterSecretExtension.Mk;
      RenegotiationInfo (RenegotiationInfoExtension.Mk RenegotiateOnceAsClient []);
      SupportedCurves (SupportedCurvesExtension.Mk [GREASE_PLACEHOLDER; X25519; CurveP256; CurveP384]);
      SupportedPoints (SupportedPointsExtension.Mk [x00]);
      SessionTicket (SessionTicketExtension.Mk None [] false);
      ALPN (ALPNExtension.Mk [str "h2"; str "http/1.1"]);
      StatusRequest StatusRequestExtension.Mk;
      SignatureAlgorithms (SignatureAlgorithmsExtension.Mk [
        ECDSAWithP256AndSHA256; PSSWithSHA256; PKCS1WithSHA256; ECDSAWithP384AndSHA384; PSSWithSHA384;
        PKCS1WithSHA384; PSSWithSHA512; PKCS1WithSHA512]);
      SCT SCTExtension.Mk;
      KeyShare (KeyShareExtension.Mk [KeyShare.Mk GREASE_PLACEHOLDER [x00]; KeyShare.Mk X25519 []]);
      PSKKeyExchangeModes (PSKKeyExchangeModesExtension.Mk [PskModeDHE]);
      SupportedVersions (SupportedVersionsExtension.Mk [GREASE_PLACEHOLDER; VersionTLS13; VersionTLS12; VersionTLS11; VersionTLS10]);
      UtlsCompressCert (UtlsCompressCertExtension.Mk [CertCompressionBrotli]);
      ApplicationSettings (ApplicationSettingsExtension.Mk [str "h2"]);
      UtlsGREASE (UtlsGREASEExtension.Mk 0 []);
      UtlsPadding (UtlsPaddingExtension.Mk 0 false (Some BoringPaddingStyle))]
    0 0 None no_seed).

(** [HelloChrome_100, HelloChrome_102] *)
Definition spec_Chrome_100 (r : parrot_rand) : outcome spec :=
  Ret (ClientHelloSpec.Mk [
      GREASE_PLACEHOLDER; TLS_AES_128_GCM_SHA256; TLS_AES_256_GCM_SHA384; TLS_CHACHA20_POLY1305_SHA256;
      TLS_ECDHE_ECDSA_WITH_AES_128_GCM_SHA256; TLS_ECDHE_RSA_WITH_AES_128_GCM_SHA256;
      TLS_ECDHE_ECDSA_WITH_AES_256_GCM_SHA384; TLS_ECDHE_RSA_WITH_AES_256_GCM_SHA384;
      TLS_ECDHE_ECDSA_WITH_CHACHA20_POLY1305; TLS_ECDHE_RSA_WITH_CHACHA20_POLY1305;
      TLS_ECDHE_RSA_WITH_AES_128_CBC_SHA; TLS_ECDHE_RSA_WITH_AES_256_CBC_SHA; TLS_RSA_WITH_AES_128_GCM_SHA256;
      TLS_RSA_WITH_AES_256_GCM_SHA384; TLS_RSA_WITH_AES_128_CBC_SHA; TLS_RSA_WITH_AES_256_CBC_SHA]
    [x00] [
      UtlsGREASE (UtlsGREASEExtension.Mk 0 []);
      SNI (SNIExtension.Mk []);
      ExtendedMasterSecret ExtendedMasterSecretExtension.Mk;
      RenegotiationInfo (RenegotiationInfoExtension.Mk RenegotiateOnceAsClient []);
      SupportedCurves (SupportedCurvesExtension.Mk [GREASE_PLACEHOLDER; X25519; CurveP256; CurveP384]);
      SupportedPoints (SupportedPointsExtension.Mk [x00]);
      SessionTicket (SessionTicketExtension.Mk None [] false);
      ALPN (ALPNExtension.Mk [str "h2"; str "http/1.1"]);
      StatusRequest StatusRequestExtension.Mk;
      SignatureAlgorithms (SignatureAlgorithmsExtension.Mk [
        ECDSAWithP256AndSHA256; PSSWithSHA256; PKCS1WithSHA256; ECDSAWithP384AndSHA384; PSSWithSHA384;
        PKCS1WithSHA384; PSSWithSHA512; PKCS1WithSHA512]);
      SCT SCTExtension.Mk;
      KeyShare (KeyShareExtension.Mk [KeyShare.Mk GREASE_PLACEHOLDER [x00]; KeyShare.Mk X25519 []]);
      PSKKeyExchangeModes (PSKKeyExchangeModesExtension.Mk [PskModeDHE]);
      SupportedVersions (SupportedVersionsExtension.Mk [GREASE_PLACEHOLDER; VersionTLS13; VersionTLS12]);
      UtlsCompressCert (UtlsCompressCertExtension.Mk [CertCompressionBrotli]);
      ApplicationSettings (ApplicationSettingsExtension.Mk [str "h2"]);
      UtlsGREASE (UtlsGREASEExtension.Mk 0 []);
      UtlsPadding (UtlsPaddingExtension.Mk 0 false (Some BoringPaddingStyle))]
    0 0 None no_seed).

(** [HelloChrome_106_Shuffle] *)
Definition spec_Chrome_106_Shuffle (r : parrot_rand) : outcome spec :=
  shuffled r (ClientHelloSpec.Mk [
      GREASE_PLACEHOLDER; TLS_AES_128_GCM_SHA256; TLS_AES_256_GCM_SHA384; TLS_CHACHA20_POLY1305_SHA256;
      TLS_ECDHE_ECDSA_WITH_AES_128_GCM_SHA256; TLS_ECDHE_RSA_WITH_AES_128_GCM_SHA256;
      TLS_ECDHE_ECDSA_WITH_AES_256_GCM_SHA384; TLS_ECDHE_RSA_WITH_AES_256_GCM_SHA384;
      TLS_ECDHE_ECDSA_WITH_CHACHA20_POLY1305; TLS_ECDHE_RSA_WITH_CHACHA20_POLY1305;
      TLS_ECDHE_RSA_WITH_AES_128_CBC_SHA; TLS_ECDHE_RSA_WITH_AES_256_CBC_SHA; TLS_RSA_WITH_AES_128_GCM_SHA256;
      TLS_RSA_WITH_AES_256_GCM_SHA384; TLS_RSA_WITH_AES_128_CBC_SHA; TLS_RSA_WITH_AES_256_CBC_SHA]
    [x00] [
      UtlsGREASE (UtlsGREASEExtension.Mk 0 []);
      SNI (SNIExtension.Mk []);
      ExtendedMasterSecret ExtendedMasterSecretExtension.Mk;
      RenegotiationInfo (RenegotiationInfoExtension.Mk RenegotiateOnceAsClient []);
      SupportedCurves (SupportedCurvesExtension.Mk [GREASE_PLACEHOLDER; X25519; CurveP256; CurveP384]);
      SupportedPoints (SupportedPointsExtension.Mk [x00]);
      SessionTicket (SessionTicketExtension.Mk None [] false);
      ALPN (ALPNExtension.Mk [str "h2"; str "http/1.1"]);
      StatusRequest StatusRequestExtension.Mk;
      SignatureAlgorithms (SignatureAlgorithmsExtension.Mk [
        ECDSAWithP256AndSHA256; PSSWithSHA256; PKCS1WithSHA256; ECDSAWithP384AndSHA384; PSSWithSHA384;
        PKCS1WithSHA384; PSSWithSHA512; PKCS1WithSHA512]);
      SCT SCTExtension.Mk;
      KeyShare (KeyShareExtension.Mk [KeyShare.Mk GREASE_PLACEHOLDER [x00]; KeyShare.Mk X25519 []]);
      PSKKeyExchangeModes (PSKKeyExchangeModesExtension.Mk [PskModeDHE]);
      SupportedVersions (SupportedVersionsExtension.Mk [GREASE_PLACEHOLDER; VersionTLS13; VersionTLS12]);
      UtlsCompressCert (UtlsCompressCertExtension.Mk [CertCompressionBrotli]);
      ApplicationSettings (ApplicationSettingsExtension.Mk [str "h2"]);
      UtlsGREASE (UtlsGREASEExtension.Mk 0 []);
      UtlsPadding (UtlsPaddingExtension.Mk 0 false (Some BoringPaddingStyle))]
    0 0 None no_seed).

(** [HelloChrome_115_PQ] *)
Definition spec_Chrome_115_PQ (r : parrot_rand) : outcome spec :=
  shuffled r (ClientHelloSpec.Mk [
      GREASE_PLACEHOLDER; TLS_AES_128_GCM_SHA256; TLS_AES_256_GCM_SHA384; TLS_CHACHA20_POLY1305_SHA256;
      TLS_ECDHE_ECDSA_WITH_AES_128_GCM_SHA256; TLS_ECDHE_RSA_WITH_AES_128_GCM_SHA256;
      TLS_ECDHE_ECDSA_WITH_AES_256_GCM_SHA384; TLS_ECDHE_RSA_WITH_AES_256_GCM_SHA384;
      TLS_ECDHE_ECDSA_WITH_CHACHA20_POLY1305; TLS_ECDHE_RSA_WITH_CHACHA20_POLY1305;
      TLS_ECDHE_RSA_WITH_AES_128_CBC_SHA; TLS_ECDHE_RSA_WITH_AES_256_CBC_SHA; TLS_RSA_WITH_AES_128_GCM_SHA256;
      TLS_RSA_WITH_AES_256_GCM_SHA384; TLS_RSA_WITH_AES_128_CBC_SHA; TLS_RSA_WITH_AES_256_CBC_SHA]
    [x00] [
      UtlsGREASE (UtlsGREASEExtension.Mk 0 []);
      SNI (SNIExtension.Mk []);
      ExtendedMasterSecret ExtendedMasterSecretExtension.Mk;
      RenegotiationInfo (RenegotiationInfoExtension.Mk RenegotiateOnceAsClient []);
      SupportedCurves (SupportedCurvesExtension.Mk [GREASE_PLACEHOLDER; X25519Kyber768Draft00; X25519; CurveP256; CurveP384]);
      SupportedPoints (SupportedPointsExtension.Mk [x00]);
      SessionTicket (SessionTicketExtension.Mk None [] false);
      ALPN (ALPNExtension.Mk [str "h2"; str "http/1.1"]);
      StatusRequest StatusRequestExtension.Mk;
      SignatureAlgorithms (SignatureAlgorithmsExtension.Mk [
        ECDSAWithP256AndSHA256; PSSWithSHA256; PKCS1WithSHA256; ECDSAWithP384AndSHA384; PSSWithSHA384;
        PKCS1WithSHA384; PSSWithSHA512; PKCS1WithSHA512]);
      SCT SCTExtension.Mk;
      KeyShare (KeyShareExtension.Mk [
        KeyShare.Mk GREASE_PLACEHOLDER [x00]; KeyShare.Mk X25519Kyber768Draft00 []; KeyShare.Mk X25519 []]);
      PSKKeyExchangeModes (PSKKeyExchangeModesExtension.Mk [PskModeDHE]);
      SupportedVersions (SupportedVersionsExtension.Mk [GREASE_PLACEHOLDER; VersionTLS13; VersionTLS12]);
      UtlsCompressCert (UtlsCompressCertExtension.Mk [CertCompressionBrotli]);
      ApplicationSettings (ApplicationSettingsExtension.Mk [str "h2"]);
      UtlsGREASE (UtlsGREASEExtension.Mk 0 []);
      UtlsPadding (UtlsPaddingExtension.Mk 0 false (Some BoringPaddingStyle))]
    0 0 None no_seed).

(** [HelloChrome_120] *)
Definition spec_Chrome_120 (r : parrot_rand) : outcome spec :=
  shuffled r (ClientHelloSpec.Mk [
      GREASE_PLACEHOLDER; TLS_AES_128_GCM_SHA256; TLS_AES_256_GCM_SHA384; TLS_CHACHA20_POLY1305_SHA256;
      TLS_ECDHE_ECDSA_WITH_AES_128_GCM_SHA256; TLS_ECDHE_RSA_WITH_AES_128_GCM_SHA256;
      TLS_ECDHE_ECDSA_WITH_AES_256_GCM_SHA384; TLS_ECDHE_RSA_WITH_AES_256_GCM_SHA384;
      TLS_ECDHE_ECDSA_WITH_CHACHA20_POLY1305; TLS_ECDHE_RSA_WITH_CHACHA20_POLY1305;
      TLS_ECDHE_RSA_WITH_AES_128_CBC_SHA; TLS_ECDHE_RSA_WITH_AES_256_CBC_SHA; TLS_RSA_WITH_AES_128_GCM_SHA256;
      TLS_RSA_WITH_AES_256_GCM_SHA384; TLS_RSA_WITH_AES_128_CBC_SHA; TLS_RSA_WITH_AES_256_CBC_SHA]
    [x00] [
      UtlsGREASE (UtlsGREASEExtension.Mk 0 []);
      SNI (SNIExtension.Mk []);
      ExtendedMasterSecret ExtendedMasterSecretExtension.Mk;
      RenegotiationInfo (RenegotiationInfoExtension.Mk RenegotiateOnceAsClient []);
      SupportedCurves (SupportedCurvesExtension.Mk [GREASE_PLACEHOLDER; X25519; CurveP256; CurveP384]);
      SupportedPoints (SupportedPointsExtension.Mk [x00]);
      SessionTicket (SessionTicketExtension.Mk None [] false);
      ALPN (ALPNExtension.Mk [str "h2"; str "http/1.1"]);
      StatusRequest StatusRequestExtension.Mk;
      SignatureAlgorithms (SignatureAlgorithmsExtension.Mk [
        ECDSAWithP256AndSHA256; PSSWithSHA256; PKCS1WithSHA256; ECDSAWithP384AndSHA384; PSSWithSHA384;
        PKCS1WithSHA384; PSSWithSHA512; PKCS1WithSHA512]);
      SCT SCTExtension.Mk;
      KeyShare (KeyShareExtension.Mk [KeyShare.Mk GREASE_PLACEHOLDER [x00]; KeyShare.Mk X25519 []]);
      PSKKeyExchangeModes (PSKKeyExchangeModesExtension.Mk [PskModeDHE]);
      SupportedVersions (SupportedVersionsExtension.Mk [GREASE_PLACEHOLDER; VersionTLS13; VersionTLS12]);
      UtlsCompressCert (UtlsCompressCertExtension.Mk [CertCompressionBrotli]);
      ApplicationSettings (ApplicationSettingsExtension.Mk [str "h2"]);
      GREASEEncryptedClientHello (BoringGREASEECH r.(r_ech));
      UtlsGREASE (UtlsGREASEExtension.Mk 0 [])]
    0 0 None no_seed).

(** [HelloChrome_120_PQ] *)
Definition spec_Chrome_120_PQ (r : parrot_rand) : outcome spec :=
  shuffled r (ClientHelloSpec.Mk [
      GREASE_PLACEHOLDER; TLS_AES_128_GCM_SHA256; TLS_AES_256_GCM_SHA384; TLS_CHACHA20_POLY1305_SHA256;
      TLS_ECDHE_ECDSA_WITH_AES_128_GCM_SHA256; TLS_ECDHE_RSA_WITH_AES_128_GCM_SHA256;
      TLS_ECDHE_ECDSA_WITH_AES_256_GCM_SHA384; TLS_ECDHE_RSA_WITH_AES_256_GCM_SHA384;
      TLS_ECDHE_ECDSA_WITH_CHACHA20_POLY1305; TLS_ECDHE_RSA_WITH_CHACHA20_POLY1305;
      TLS_ECDHE_RSA_WITH_AES_128_CBC_SHA; TLS_ECDHE_RSA_WITH_AES_256_CBC_SHA; TLS_RSA_WITH_AES_128_GCM_SHA256;
      TLS_RSA_WITH_AES_256_GCM_SHA384; TLS_RSA_WITH_AES_128_CBC_SHA; TLS_RSA_WITH_AES_256_CBC_SHA]
    [x00] [
      UtlsGREASE (UtlsGREASEExtension.Mk 0 []);
      SNI (SNIExtension.Mk []);
      ExtendedMasterSecret ExtendedMasterSecretExtension.Mk;
      RenegotiationInfo (RenegotiationInfoExtension.Mk RenegotiateOnceAsClient []);
      SupportedCurves (SupportedCurvesExtension.Mk [GREASE_PLACEHOLDER; X25519Kyber768Draft00; X25519; CurveP256; CurveP384]);
      SupportedPoints (SupportedPointsExtension.Mk [x00]);
      SessionTicket (SessionTicketExtension.Mk None [] false);
      ALPN (ALPNExtension.Mk [str "h2"; str "http/1.1"]);
      StatusRequest StatusRequestExtension.Mk;
      SignatureAlgorithms (SignatureAlgorithmsExtension.Mk [
        ECDSAWithP256AndSHA256; PSSWithSHA256; PKCS1WithSHA256; ECDSAWithP384AndSHA384; PSSWithSHA384;
        PKCS1WithSHA384; PSSWithSHA512; PKCS1WithSHA512]);
      SCT SCTExtension.Mk;
      KeyShare (KeyShareExtension.Mk [
        KeyShare.Mk GREASE_PLACEHOLDER [x00]; KeyShare.Mk X25519Kyber768Draft00 []; KeyShare.Mk X25519 []]);
      PSKKeyExchangeModes (PSKKeyExchangeModesExtension.Mk [PskModeDHE]);
      SupportedVersions (SupportedVersionsExtension.Mk [GREASE_PLACEHOLDER; VersionTLS13; VersionTLS12]);
      UtlsCompressCert (UtlsCompressCertExtension.Mk [CertCompressionBrotli]);
      ApplicationSettings (ApplicationSettingsExtension.Mk [str "h2"]);
      GREASEEncryptedClientHello (BoringGREASEECH r.(r_ech));
      UtlsGREASE (UtlsGREASEExtension.Mk 0 []);
      UtlsPreSharedKey (UtlsPreSharedKeyExtension.Mk [] [] [] [] None None None false false)]
    0 0 None no_seed).

(** [HelloChrome_131] *)
Definition spec_Chrome_131 (r : parrot_rand) : outcome spec :=
  shuffled r (ClientHelloSpec.Mk [
      GREASE_PLACEHOLDER; TLS_AES_128_GCM_SHA256; TLS_AES_256_GCM_SHA384; TLS_CHACHA20_POLY1305_SHA256;
      TLS_ECDHE_ECDSA_WITH_AES_128_GCM_SHA256; TLS_ECDHE_RSA_WITH_AES_128_GCM_SHA256;
      TLS_ECDHE_ECDSA_WITH_AES_256_GCM_SHA384; TLS_ECDHE_RSA_WITH_AES_256_GCM_SHA384;
      TLS_ECDHE_ECDSA_WITH_CHACHA20_POLY1305; TLS_ECDHE_RSA_WITH_CHACHA20_POLY1305;
      TLS_ECDHE_RSA_WITH_AES_128_CBC_SHA; TLS_ECDHE_RSA_WITH_AES_256_CBC_SHA; TLS_RSA_WITH_AES_128_GCM_SHA256;
      TLS_RSA_WITH_AES_256_GCM_SHA384; TLS_RSA_WITH_AES_128_CBC_SHA; TLS_RSA_WITH_AES_256_CBC_SHA]
    [x00] [
      UtlsGREASE (UtlsGREASEExtension.Mk 0 []);
      SNI (SNIExtension.Mk []);
      ExtendedMasterSecret ExtendedMasterSecretExtension.Mk;
      RenegotiationInfo (RenegotiationInfoExtension.Mk RenegotiateOnceAsClient []);
      SupportedCurves (SupportedCurvesExtension.Mk [GREASE_PLACEHOLDER; X25519MLKEM768; X25519; CurveP256; CurveP384]);
      SupportedPoints (SupportedPointsExtension.Mk [x00]);
      SessionTicket (SessionTicketExtension.Mk None [] false);
      ALPN (ALPNExtension.Mk [str "h2"; str "http/1.1"]);
      StatusRequest StatusRequestExtension.Mk;
      SignatureAlgorithms (SignatureAlgorithmsExtension.Mk [
        ECDSAWithP256AndSHA256; PSSWithSHA256; PKCS1WithSHA256; ECDSAWithP384AndSHA384; PSSWithSHA384;
        PKCS1WithSHA384; PSSWithSHA512; PKCS1WithSHA512]);
      SCT SCTExtension.Mk;
      KeyShare (KeyShareExtension.Mk [KeyShare.Mk GREASE_PLACEHOLDER [x00]; KeyShare.Mk X25519MLKEM768 []; KeyShare.Mk X25519 []]);
      PSKKeyExchangeModes (PSKKeyExchangeModesExtension.Mk [PskModeDHE]);
      SupportedVersions (SupportedVersionsExtension.Mk [GREASE_PLACEHOLDER; VersionTLS13; VersionTLS12]);
      UtlsCompressCert (UtlsCompressCertExtension.Mk [CertCompressionBrotli]);
      ApplicationSettings (ApplicationSettingsExtension.Mk [str "h2"]);
      GREASEEncryptedClientHello (BoringGREASEECH r.(r_ech));
      UtlsGREASE (UtlsGREASEExtension.Mk 0 [])]
    0 0 None no_seed).

(** [HelloChrome_133] *)
Definition spec_Chrome_133 (r : parrot_rand) : outcome spec :=
  shuffled r (ClientHelloSpec.Mk [
      GREASE_PLACEHOLDER; TLS_AES_128_GCM_SHA256; TLS_AES_256_GCM_SHA384; TLS_CHACHA20_POLY1305_SHA256;
      TLS_ECDHE_ECDSA_WITH_AES_128_GCM_SHA256; TLS_ECDHE_RSA_WITH_AES_128_GCM_SHA256;
      TLS_ECDHE_ECDSA_WITH_AES_256_GCM_SHA384; TLS_ECDHE_RSA_WITH_AES_256_GCM_SHA384;
      TLS_ECDHE_ECDSA_WITH_CHACHA20_POLY1305; TLS_ECDHE_RSA_WITH_CHACHA20_POLY1305;
      TLS_ECDHE_RSA_WITH_AES_128_CBC_SHA; TLS_ECDHE_RSA_WITH_AES_256_CBC_SHA; TLS_RSA_WITH_AES_128_GCM_SHA256;
      TLS_RSA_WITH_AES_256_GCM_SHA384; TLS_RSA_WITH_AES_128_CBC_SHA; TLS_RSA_WITH_AES_256_CBC_SHA]
    [x00] [
      UtlsGREASE (UtlsGREASEExtension.Mk 0 []);
      SNI (SNIExtension.Mk []);
      ExtendedMasterSecret ExtendedMasterSecretExtension.Mk;
      RenegotiationInfo (RenegotiationInfoExtension.Mk RenegotiateOnceAsClient []);
      SupportedCurves (SupportedCurvesExtension.Mk [GREASE_PLACEHOLDER; X25519MLKEM768; X25519; CurveP256; CurveP384]);
      SupportedPoints (SupportedPointsExtension.Mk [x00]);
      SessionTicket (SessionTicketExtension.Mk None [] false);
      ALPN (ALPNExtension.Mk [str "h2"; str "http/1.1"]);
      StatusRequest StatusRequestExtension.Mk;
      SignatureAlgorithms (SignatureAlgorithmsExtension.Mk [
        ECDSAWithP256AndSHA256; PSSWithSHA256; PKCS1WithSHA256; ECDSAWithP384AndSHA384; PSSWithSHA384;
        PKCS1WithSHA384; PSSWithSHA512; PKCS1WithSHA512]);
      SCT SCTExtension.Mk;
      KeyShare (KeyShareExtension.Mk [KeyShare.Mk GREASE_PLACEHOLDER [x00]; KeyShare.Mk X25519MLKEM768 []; KeyShare.Mk X25519 []]);
      PSKKeyExchangeModes (PSKKeyExchangeModesExtension.Mk [PskModeDHE]);
      SupportedVersions (SupportedVersionsExtension.Mk [GREASE_PLACEHOLDER; VersionTLS13; VersionTLS12]);
      UtlsCompressCert (UtlsCompressCertExtension.Mk [CertCompressionBrotli]);
      ApplicationSettingsNew (ApplicationSettingsExtensionNew.Mk [str "h2"]);
      GREASEEncryptedClientHello (BoringGREASEECH r.(r_ech));
      UtlsGREASE (UtlsGREASEExtension.Mk 0 [])]
    0 0 None no_seed).

(** [HelloChrome_143_Windows] *)
Definition spec_Chrome_143_Windows (r : parrot_rand) : outcome spec :=
  shuffled r (ClientHelloSpec.Mk [
      GREASE_PLACEHOLDER; TLS_AES_128_GCM_SHA256; TLS_AES_256_GCM_SHA384; TLS_CHACHA20_POLY1305_SHA256;
      TLS_ECDHE_ECDSA_WITH_AES_128_GCM_SHA256; TLS_ECDHE_RSA_WITH_AES_128_GCM_SHA256;
      TLS_ECDHE_ECDSA_WITH_AES_256_GCM_SHA384; TLS_ECDHE_RSA_WITH_AES_256_GCM_SHA384;
      TLS_ECDHE_ECDSA_WITH_CHACHA20_POLY1305; TLS_ECDHE_RSA_WITH_CHACHA20_POLY1305;
      TLS_ECDHE_RSA_WITH_AES_128_CBC_SHA; TLS_ECDHE_RSA_WITH_AES_256_CBC_SHA; TLS_RSA_WITH_AES_128_GCM_SHA256;
      TLS_RSA_WITH_AES_256_GCM_SHA384; TLS_RSA_WITH_AES_128_CBC_SHA; TLS_RSA_WITH_AES_256_CBC_SHA]
    [x00] [
      UtlsGREASE (UtlsGREASEExtension.Mk 0 []);
      UtlsCompressCert (UtlsCompressCertExtension.Mk [CertCompressionBrotli]);
      ALPN (ALPNExtension.Mk [str "h2"; str "http/1.1"]);
      RenegotiationInfo (RenegotiationInfoExtension.Mk RenegotiateOnceAsClient []);
      StatusRequest StatusRequestExtension.Mk;
      ApplicationSettingsNew (ApplicationSettingsExtensionNew.Mk [str "h2"]);
      SNI (SNIExtension.Mk []);
      SCT SCTExtension.Mk;
      SupportedVersions (SupportedVersionsExtension.Mk [GREASE_PLACEHOLDER; VersionTLS13; VersionTLS12]);
      GREASEEncryptedClientHello (BoringGREASEECH r.(r_ech));
      SupportedPoints (SupportedPointsExtension.Mk [x00]);
      SignatureAlgorithms (SignatureAlgorithmsExtension.Mk [
        ECDSAWithP256AndSHA256; PSSWithSHA256; PKCS1WithSHA256; ECDSAWithP384AndSHA384; PSSWithSHA384;
        PKCS1WithSHA384; PSSWithSHA512; PKCS1WithSHA512]);
      PSKKeyExchangeModes (PSKKeyExchangeModesExtension.Mk [PskModeDHE]);
      SessionTicket (SessionTicketExtension.Mk None [] false);
      ExtendedMasterSecret ExtendedMasterSecretExtension.Mk;
      SupportedCurves (SupportedCurvesExtension.Mk [GREASE_PLACEHOLDER; X25519MLKEM768; X25519; CurveP256; CurveP384]);
      KeyShare (KeyShareExtension.Mk [KeyShare.Mk GREASE_PLACEHOLDER [x00]; KeyShare.Mk X25519MLKEM768 []; KeyShare.Mk X25519 []]);
      UtlsGREASE (UtlsGREASEExtension.Mk 0 [])]
    0 0 None no_seed).

(** [HelloChrome_143_Linux] *)
Definition spec_Chrome_143_Linux (r : parrot_rand) : outcome spec :=
  shuffled r (ClientHelloSpec.Mk [
      GREASE_PLACEHOLDER; TLS_AES_128_GCM_SHA256; TLS_AES_256_GCM_SHA384; TLS_CHACHA20_POLY1305_SHA256;
      TLS_ECDHE_ECDSA_WITH_AES_128_GCM_SHA256; TLS_ECDHE_RSA_WITH_AES_128_GCM_SHA256;
      TLS_ECDHE_ECDSA_WITH_AES_256_GCM_SHA384; TLS_ECDHE_RSA_WITH_AES_256_GCM_SHA384;
      TLS_ECDHE_ECDSA_WITH_CHACHA20_POLY1305; TLS_ECDHE_RSA_WITH_CHACHA20_POLY1305;
      TLS_ECDHE_RSA_WITH_AES_128_CBC_SHA; TLS_ECDHE_RSA_WITH_AES_256_CBC_SHA; TLS_RSA_WITH_AES_128_GCM_SHA256;
      TLS_RSA_WITH_AES_256_GCM_SHA384; TLS_RSA_WITH_AES_128_CBC_SHA; TLS_RSA_WITH_AES_256_CBC_SHA]
    [x00] [
      UtlsGREASE (UtlsGREASEExtension.Mk 0 []);
      UtlsCompressCert (UtlsCompressCertExtension.Mk [CertCompressionBrotli]);
      ALPN (ALPNExtension.Mk [str "h2"; str "http/1.1"]);
      RenegotiationInfo (RenegotiationInfoExtension.Mk RenegotiateOnceAsClient []);
      StatusRequest StatusRequestExtension.Mk;
      ApplicationSettingsNew (ApplicationSettingsExtensionNew.Mk [str "h2"]);
      SNI (SNIExtension.Mk []);
      SCT SCTExtension.Mk;
      SupportedVersions (SupportedVersionsExtension.Mk [GREASE_PLACEHOLDER; VersionTLS13; VersionTLS12]);
      GREASEEncryptedClientHello (BoringGREASEECH r.(r_ech));
      SupportedPoints (SupportedPointsExtension.Mk [x00]);
      SignatureAlgorithms (SignatureAlgorithmsExtension.Mk [
        ECDSAWithP256AndSHA256; PSSWithSHA256; PKCS1WithSHA256; ECDSAWithP384AndSHA384; PSSWithSHA384;
        PKCS1WithSHA384; PSSWithSHA512; PKCS1WithSHA512]);
      PSKKeyExchangeModes (PSKKeyExchangeModesExtension.Mk [PskModeDHE]);
      SessionTicket (SessionTicketExtension.Mk None [] false);
      ExtendedMasterSecret ExtendedMasterSecretExtension.Mk;
      SupportedCurves (SupportedCurvesExtension.Mk [GREASE_PLACEHOLDER; X25519MLKEM768; X25519; CurveP256; CurveP384]);
      KeyShare (KeyShareExtension.Mk [KeyShare.Mk GREASE_PLACEHOLDER [x00]; KeyShare.Mk X25519MLKEM768 []; KeyShare.Mk X25519 []]);
      UtlsGREASE (UtlsGREASEExtension.Mk 0 [])]
    0 0 None no_seed).

(** [HelloChrome_143_macOS] *)
Definition spec_Chrome_143_macOS (r : parrot_rand) : outcome spec :=
  shuffled r (ClientHelloSpec.Mk [
      GREASE_PLACEHOLDER; TLS_AES_128_GCM_SHA256; TLS_AES_256_GCM_SHA384; TLS_CHACHA20_POLY1305_SHA256;
      TLS_ECDHE_ECDSA_WITH_AES_128_GCM_SHA256; TLS_ECDHE_RSA_WITH_AES_128_GCM_SHA256;
      TLS_ECDHE_ECDSA_WITH_AES_256_GCM_SHA384; TLS_ECDHE_RSA_WITH_AES_256_GCM_SHA384;
      TLS_ECDHE_ECDSA_WITH_CHACHA20_POLY1305; TLS_ECDHE_RSA_WITH_CHACHA20_POLY1305;
      TLS_ECDHE_RSA_WITH_AES_128_CBC_SHA; TLS_ECDHE_RSA_WITH_AES_256_CBC_SHA; TLS_RSA_WITH_AES_128_GCM_SHA256;
      TLS_RSA_WITH_AES_256_GCM_SHA384; TLS_RSA_WITH_AES_128_CBC_SHA; TLS_RSA_WITH_AES_256_CBC_SHA]
    [x00] [
      UtlsGREASE (UtlsGREASEExtension.Mk 0 []);
      UtlsCompressCert (UtlsCompressCertExtension.Mk [CertCompressionBrotli]);
      ALPN (ALPNExtension.Mk [str "h2"; str "http/1.1"]);
      RenegotiationInfo (RenegotiationInfoExtension.Mk RenegotiateOnceAsClient []);
      StatusRequest StatusRequestExtension.Mk;
      ApplicationSettingsNew (ApplicationSettingsExtensionNew.Mk [str "h2"]);
      SNI (SNIExtension.Mk []);
      SCT SCTExtension.Mk;
      SupportedVersions (SupportedVersionsExtension.Mk [GREASE_PLACEHOLDER; VersionTLS13; VersionTLS12]);
      GREASEEncryptedClientHello (BoringGREASEECH r.(r_ech));
      SupportedPoints (SupportedPointsExtension.Mk [x00]);
      SignatureAlgorithms (SignatureAlgorithmsExtension.Mk [
        ECDSAWithP256AndSHA256; PSSWithSHA256; PKCS1WithSHA256; ECDSAWithP384AndSHA384; PSSWithSHA384;
        PKCS1WithSHA384; PSSWithSHA512; PKCS1WithSHA512]);
      PSKKeyExchangeModes (PSKKeyExchangeModesExtension.Mk [PskModeDHE]);
      SessionTicket (SessionTicketExtension.Mk None [] false);
      ExtendedMasterSecret ExtendedMasterSecretExtension.Mk;
      SupportedCurves (SupportedCurvesExtension.Mk [GREASE_PLACEHOLDER; X25519MLKEM768; X25519; CurveP256; CurveP384]);
      KeyShare (KeyShareExtension.Mk [KeyShare.Mk GREASE_PLACEHOLDER [x00]; KeyShare.Mk X25519MLKEM768 []; KeyShare.Mk X25519 []]);
      UtlsGREASE (UtlsGREASEExtension.Mk 0 [])]
    0 0 None no_seed).

(** [HelloChrome_143_QUIC] *)
Definition spec_Chrome_143_QUIC (r : parrot_rand) : outcome spec :=
  Ret (ClientHelloSpec.Mk [TLS_AES_128_GCM_SHA256; TLS_AES_256_GCM_SHA384; TLS_CHACHA20_POLY1305_SHA256]
    [x00] [
      ApplicationSettingsNew (ApplicationSettingsExtensionNew.Mk [str "h3"]);
      PSKKeyExchangeModes (PSKKeyExchangeModesExtension.Mk [PskModeDHE]);
      GREASEEncryptedClientHello (BoringGREASEECH r.(r_ech));
      SupportedCurves (SupportedCurvesExtension.Mk [X25519MLKEM768; X25519; CurveP256; CurveP384]);
      ALPN (ALPNExtension.Mk [str "h3"]);
      SupportedVersions (SupportedVersionsExtension.Mk [VersionTLS13]);
      SNI (SNIExtension.Mk []);
      SignatureAlgorithms (SignatureAlgorithmsExtension.Mk [
        ECDSAWithP256AndSHA256; PSSWithSHA256; PKCS1WithSHA256; ECDSAWithP384AndSHA384; PSSWithSHA384;
        PKCS1WithSHA384; PSSWithSHA512; PKCS1WithSHA512; PKCS1WithSHA1]);
      UtlsCompressCert (UtlsCompressCertExtension.Mk [CertCompressionBrotli]);
      QUICTransportParameters (QUICTransportParametersExtension.Mk [] r.(r_quic) None None);
      KeyShare (KeyShareExtension.Mk [KeyShare.Mk X25519MLKEM768 []; KeyShare.Mk X25519 []])]
    0 0 None no_seed).

(** [HelloChrome_133_PSK] *)
Definition spec_Chrome_133_PSK (r : parrot_rand) : outcome spec :=
  shuffled r (ClientHelloSpec.Mk [
      GREASE_PLACEHOLDER; TLS_AES_128_GCM_SHA256; TLS_AES_256_GCM_SHA384; TLS_CHACHA20_POLY1305_SHA256;
      TLS_ECDHE_ECDSA_WITH_AES_128_GCM_SHA256; TLS_ECDHE_RSA_WITH_AES_128_GCM_SHA256;
      TLS_ECDHE_ECDSA_WITH_AES_256_GCM_SHA384; TLS_ECDHE_RSA_WITH_AES_256_GCM_SHA384;
      TLS_ECDHE_ECDSA_WITH_CHACHA20_POLY1305; TLS_ECDHE_RSA_WITH_CHACHA20_POLY1305;
      TLS_ECDHE_RSA_WITH_AES_128_CBC_SHA; TLS_ECDHE_RSA_WITH_AES_256_CBC_SHA; TLS_RSA_WITH_AES_128_GCM_SHA256;
      TLS_RSA_WITH_AES_256_GCM_SHA384; TLS_RSA_WITH_AES_128_CBC_SHA; TLS_RSA_WITH_AES_256_CBC_SHA]
    [x00] [
      UtlsGREASE (UtlsGREASEExtension.Mk 0 []);
      SNI (SNIExtension.Mk []);
      ExtendedMasterSecret ExtendedMasterSecretExtension.Mk;
      RenegotiationInfo (RenegotiationInfoExtension.Mk RenegotiateOnceAsClient []);
      SupportedCurves (SupportedCurvesExtension.Mk [GREASE_PLACEHOLDER; X25519MLKEM768; X25519; CurveP256; CurveP384]);
      SupportedPoints (SupportedPointsExtension.Mk [x00]);
      SessionTicket (SessionTicketExtension.Mk None [] false);
      ALPN (ALPNExtension.Mk [str "h2"; str "http/1.1"]);
      StatusRequest StatusRequestExtension.Mk;
      SignatureAlgorithms (SignatureAlgorithmsExtension.Mk [
        ECDSAWithP256AndSHA256; PSSWithSHA256; PKCS1WithSHA256; ECDSAWithP384AndSHA384; PSSWithSHA384;
        PKCS1WithSHA384; PSSWithSHA512; PKCS1WithSHA512]);
      SCT SCTExtension.Mk;
      KeyShare (KeyShareExtension.Mk [KeyShare.Mk GREASE_PLACEHOLDER [x00]; KeyShare.Mk X25519MLKEM768 []; KeyShare.Mk X25519 []]);
      PSKKeyExchangeModes (PSKKeyExchangeModesExtension.Mk [PskModeDHE]);
      SupportedVersions (SupportedVersionsExtension.Mk [GREASE_PLACEHOLDER; VersionTLS13; VersionTLS12]);
      UtlsCompressCert (UtlsCompressCertExtension.Mk [CertCompressionBrotli]);
      ApplicationSettingsNew (ApplicationSettingsExtensionNew.Mk [str "h2"]);
      GREASEEncryptedClientHello (BoringGREASEECH r.(r_ech));
      UtlsGREASE (UtlsGREASEExtension.Mk 0 []);
      UtlsPreSharedKey (UtlsPreSharedKeyExtension.Mk [] [] [] [] None None None false false)]
    0 0 None no_seed).

(** [HelloChrome_143_Windows_PSK] *)
Definition spec_Chrome_143_Windows_PSK (r : parrot_rand) : outcome spec :=
  shuffled r (ClientHelloSpec.Mk [
      GREASE_PLACEHOLDER; TLS_AES_128_GCM_SHA256; TLS_AES_256_GCM_SHA384; TLS_CHACHA20_POLY1305_SHA256;
      TLS_ECDHE_ECDSA_WITH_AES_128_GCM_SHA256; TLS_ECDHE_RSA_WITH_AES_128_GCM_SHA256;
      TLS_ECDHE_ECDSA_WITH_AES_256_GCM_SHA384; TLS_ECDHE_RSA_WITH_AES_256_GCM_SHA384;
      TLS_ECDHE_ECDSA_WITH_CHACHA20_POLY1305; TLS_ECDHE_RSA_WITH_CHACHA20_POLY1305;
      TLS_ECDHE_RSA_WITH_AES_128_CBC_SHA; TLS_ECDHE_RSA_WITH_AES_256_CBC_SHA; TLS_RSA_WITH_AES_128_GCM_SHA256;
      TLS_RSA_WITH_AES_256_GCM_SHA384; TLS_RSA_WITH_AES_128_CBC_SHA; TLS_RSA_WITH_AES_256_CBC_SHA]
    [x00] [
      UtlsGREASE (UtlsGREASEExtension.Mk 0 []);
      ExtendedMasterSecret ExtendedMasterSecretExtension.Mk;
      RenegotiationInfo (RenegotiationInfoExtension.Mk RenegotiateOnceAsClient []);
      SupportedCurves (SupportedCurvesExtension.Mk [GREASE_PLACEHOLDER; X25519MLKEM768; X25519; CurveP256; CurveP384]);
      ALPN (ALPNExtension.Mk [str "h2"; str "http/1.1"]);
      StatusRequest StatusRequestExtension.Mk;
      ApplicationSettingsNew (ApplicationSettingsExtensionNew.Mk [str "h2"]);
      SignatureAlgorithms (SignatureAlgorithmsExtension.Mk [
        ECDSAWithP256AndSHA256; PSSWithSHA256; PKCS1WithSHA256; ECDSAWithP384AndSHA384; PSSWithSHA384;
        PKCS1WithSHA384; PSSWithSHA512; PKCS1WithSHA512]);
      SCT SCTExtension.Mk;
      UtlsCompressCert (UtlsCompressCertExtension.Mk [CertCompressionBrotli]);
      KeyShare (KeyShareExtension.Mk [KeyShare.Mk GREASE_PLACEHOLDER [x00]; KeyShare.Mk X25519MLKEM768 []; KeyShare.Mk X25519 []]);
      SupportedVersions (SupportedVersionsExtension.Mk [GREASE_PLACEHOLDER; VersionTLS13; VersionTLS12]);
      GREASEEncryptedClientHello (BoringGREASEECH r.(r_ech));
      SNI (SNIExtension.Mk []);
      SupportedPoints (SupportedPointsExtension.Mk [x00]);
      PSKKeyExchangeModes (PSKKeyExchangeModesExtension.Mk [PskModeDHE]);
      SessionTicket (SessionTicketExtension.Mk None [] false);
      UtlsGREASE (UtlsGREASEExtension.Mk 0 []);
      UtlsPreSharedKey (UtlsPreSharedKeyExtension.Mk [] [] [] [] None None None false false)]
    0 0 None no_seed).

(** [HelloChrome_143_Linux_PSK] *)
Definition spec_Chrome_143_Linux_PSK (r : parrot_rand) : outcome spec :=
  shuffled r (ClientHelloSpec.Mk [
      GREASE_PLACEHOLDER; TLS_AES_128_GCM_SHA256; TLS_AES_256_GCM_SHA384; TLS_CHACHA20_POLY1305_SHA256;
      TLS_ECDHE_ECDSA_WITH_AES_128_GCM_SHA256; TLS_ECDHE_RSA_WITH_AES_128_GCM_SHA256;
      TLS_ECDHE_ECDSA_WITH_AES_256_GCM_SHA384; TLS_ECDHE_RSA_WITH_AES_256_GCM_SHA384;
      TLS_ECDHE_ECDSA_WITH_CHACHA20_POLY1305; TLS_ECDHE_RSA_WITH_CHACHA20_POLY1305;
      TLS_ECDHE_RSA_WITH_AES_128_CBC_SHA; TLS_ECDHE_RSA_WITH_AES_256_CBC_SHA; TLS_RSA_WITH_AES_128_GCM_SHA256;
      TLS_RSA_WITH_AES_256_GCM_SHA384; TLS_RSA_WITH_AES_128_CBC_SHA; TLS_RSA_WITH_AES_256_CBC_SHA]
    [x00] [
      UtlsGREASE (UtlsGREASEExtension.Mk 0 []);
      UtlsCompressCert (UtlsCompressCertExtension.Mk [CertCompressionBrotli]);
      ALPN (ALPNExtension.Mk [str "h2"; str "http/1.1"]);
      RenegotiationInfo (RenegotiationInfoExtension.Mk RenegotiateOnceAsClient []);
      StatusRequest StatusRequestExtension.Mk;
      ApplicationSettingsNew (ApplicationSettingsExtensionNew.Mk [str "h2"]);
      SNI (SNIExtension.Mk []);
      SCT SCTExtension.Mk;
      SupportedVersions (SupportedVersionsExtension.Mk [GREASE_PLACEHOLDER; VersionTLS13; VersionTLS12]);
      GREASEEncryptedClientHello (BoringGREASEECH r.(r_ech));
      SupportedPoints (SupportedPointsExtension.Mk [x00]);
      SignatureAlgorithms (SignatureAlgorithmsExtension.Mk [
        ECDSAWithP256AndSHA256; PSSWithSHA256; PKCS1WithSHA256; ECDSAWithP384AndSHA384; PSSWithSHA384;
        PKCS1WithSHA384; PSSWithSHA512; PKCS1WithSHA512]);
      PSKKeyExchangeModes (PSKKeyExchangeModesExtension.Mk [PskModeDHE]);
      SessionTicket (SessionTicketExtension.Mk None [] false);
      ExtendedMasterSecret ExtendedMasterSecretExtension.Mk;
      SupportedCurves (SupportedCurvesExtension.Mk [GREASE_PLACEHOLDER; X25519MLKEM768; X25519; CurveP256; CurveP384]);
      KeyShare (KeyShareExtension.Mk [KeyShare.Mk GREASE_PLACEHOLDER [x00]; KeyShare.Mk X25519MLKEM768 []; KeyShare.Mk X25519 []]);
      UtlsGREASE (UtlsGREASEExtension.Mk 0 []);
      UtlsPreSharedKey (UtlsPreSharedKeyExtension.Mk [] [] [] [] None None None false false)]
    0 0 None no_seed).

(** [HelloChrome_143_macOS_PSK] *)
Definition spec_Chrome_143_macOS_PSK (r : parrot_rand) : outcome spec :=
  shuffled r (ClientHelloSpec.Mk [
      GREASE_PLACEHOLDER; TLS_AES_128_GCM_SHA256; TLS_AES_256_GCM_SHA384; TLS_CHACHA20_POLY1305_SHA256;
      TLS_ECDHE_ECDSA_WITH_AES_128_GCM_SHA256; TLS_ECDHE_RSA_WITH_AES_128_GCM_SHA256;
      TLS_ECDHE_ECDSA_WITH_AES_256_GCM_SHA384; TLS_ECDHE_RSA_WITH_AES_256_GCM_SHA384;
      TLS_ECDHE_ECDSA_WITH_CHACHA20_POLY1305; TLS_ECDHE_RSA_WITH_CHACHA20_POLY1305;
      TLS_ECDHE_RSA_WITH_AES_128_CBC_SHA; TLS_ECDHE_RSA_WITH_AES_256_CBC_SHA; TLS_RSA_WITH_AES_128_GCM_SHA256;
      TLS_RSA_WITH_AES_256_GCM_SHA384; TLS_RSA_WITH_AES_128_CBC_SHA; TLS_RSA_WITH_AES_256_CBC_SHA]
    [x00] [
      UtlsGREASE (UtlsGREASEExtension.Mk 0 []);
      SCT SCTExtension.Mk;
      RenegotiationInfo (RenegotiationInfoExtension.Mk RenegotiateOnceAsClient []);
      SupportedVersions (SupportedVersionsExtension.Mk [GREASE_PLACEHOLDER; VersionTLS13; VersionTLS12]);
      SNI (SNIExtension.Mk []);
      ApplicationSettingsNew (ApplicationSettingsExtensionNew.Mk [str "h2"]);
      ALPN (ALPNExtension.Mk [str "h2"; str "http/1.1"]);
      StatusRequest StatusRequestExtension.Mk;
      SignatureAlgorithms (SignatureAlgorithmsExtension.Mk [
        ECDSAWithP256AndSHA256; PSSWithSHA256; PKCS1WithSHA256; ECDSAWithP384AndSHA384; PSSWithSHA384;
        PKCS1WithSHA384; PSSWithSHA512; PKCS1WithSHA512]);
      SupportedCurves (SupportedCurvesExtension.Mk [GREASE_PLACEHOLDER; X25519MLKEM768; X25519; CurveP256; CurveP384]);
      UtlsCompressCert (UtlsCompressCertExtension.Mk [CertCompressionBrotli]);
      KeyShare (KeyShareExtension.Mk [KeyShare.Mk GREASE_PLACEHOLDER [x00]; KeyShare.Mk X25519MLKEM768 []; KeyShare.Mk X25519 []]);
      GREASEEncryptedClientHello (BoringGREASEECH r.(r_ech));
      PSKKeyExchangeModes (PSKKeyExchangeModesExtension.Mk [PskModeDHE]);
      ExtendedMasterSecret ExtendedMasterSecretExtension.Mk;
      SupportedPoints (SupportedPointsExtension.Mk [x00]);
      SessionTicket (SessionTicketExtension.Mk None [] false);
      UtlsGREASE (UtlsGREASEExtension.Mk 0 []);
      UtlsPreSharedKey (UtlsPreSharedKeyExtension.Mk [] [] [] [] None None None false false)]
    0 0 None no_seed).

(** [HelloChrome_143_QUIC_PSK] *)
Definition spec_Chrome_143_QUIC_PSK (r : parrot_rand) : outcome spec :=
  shuffled r (ClientHelloSpec.Mk [TLS_AES_128_GCM_SHA256; TLS_AES_256_GCM_SHA384; TLS_CHACHA20_POLY1305_SHA256]
    [x00] [
      FakeEarlyData FakeEarlyDataExtension.Mk;
      ApplicationSettingsNew (ApplicationSettingsExtensionNew.Mk [str "h3"]);
      GREASEEncryptedClientHello (BoringGREASEECH r.(r_ech));
      ALPN (ALPNExtension.Mk [str "h3"]);
      SupportedCurves (SupportedCurvesExtension.Mk [X25519MLKEM768; X25519; CurveP256; CurveP384]);
      QUICTransportParameters (QUICTransportParametersExtension.Mk [] r.(r_quic) None None);
      PSKKeyExchangeModes (PSKKeyExchangeModesExtension.Mk [PskModeDHE]);
      UtlsCompressCert (UtlsCompressCertExtension.Mk [CertCompressionBrotli]);
      KeyShare (KeyShareExtension.Mk [KeyShare.Mk X25519MLKEM768 []; KeyShare.Mk X25519 []]);
      SNI (SNIExtension.Mk []);
      SupportedVersions (SupportedVersionsExtension.Mk [VersionTLS13]);
      SignatureAlgorithms (SignatureAlgorithmsExtension.Mk [
        ECDSAWithP256AndSHA256; PSSWithSHA256; PKCS1WithSHA256; ECDSAWithP384AndSHA384; PSSWithSHA384;
        PKCS1WithSHA384; PSSWithSHA512; PKCS1WithSHA512; PKCS1WithSHA1]);
      UtlsPreSharedKey (UtlsPreSharedKeyExtension.Mk [] [] [] [] None None None false false)]
    0 0 None no_seed).

(** [HelloFirefox_55, HelloFirefox_56] *)
Definition spec_Firefox_55 (r : parrot_rand) : outcome spec :=
  Ret (ClientHelloSpec.Mk [
      TLS_ECDHE_ECDSA_WITH_AES_128_GCM_SHA256; TLS_ECDHE_RSA_WITH_AES_128_GCM_SHA256;
      TLS_ECDHE_ECDSA_WITH_CHACHA20_POLY1305; TLS_ECDHE_RSA_WITH_CHACHA20_POLY1305;
      TLS_ECDHE_ECDSA_WITH_AES_256_GCM_SHA384; TLS_ECDHE_RSA_WITH_AES_256_GCM_SHA384;
      TLS_ECDHE_ECDSA_WITH_AES_256_CBC_SHA; TLS_ECDHE_ECDSA_WITH_AES_128_CBC_SHA;
      TLS_ECDHE_RSA_WITH_AES_128_CBC_SHA; TLS_ECDHE_RSA_WITH_AES_256_CBC_SHA;
      FAKE_TLS_DHE_RSA_WITH_AES_128_CBC_SHA; FAKE_TLS_DHE_RSA_WITH_AES_256_CBC_SHA; TLS_RSA_WITH_AES_128_CBC_SHA;
      TLS_RSA_WITH_AES_256_CBC_SHA; TLS_RSA_WITH_3DES_EDE_CBC_SHA]
    [compressionNone] [
      SNI (SNIExtension.Mk []);
      ExtendedMasterSecret ExtendedMasterSecretExtension.Mk;
      RenegotiationInfo (RenegotiationInfoExtension.Mk RenegotiateOnceAsClient []);
      SupportedCurves (SupportedCurvesExtension.Mk [X25519; CurveP256; CurveP384; CurveP521]);
      SupportedPoints (SupportedPointsExtension.Mk [pointFormatUncompressed]);
      SessionTicket (SessionTicketExtension.Mk None [] false);
      ALPN (ALPNExtension.Mk [str "h2"; str "http/1.1"]);
      StatusRequest StatusRequestExtension.Mk;
      SignatureAlgorithms (SignatureAlgorithmsExtension.Mk [
        ECDSAWithP256AndSHA256; ECDSAWithP384AndSHA384; ECDSAWithP521AndSHA512; PSSWithSHA256; PSSWithSHA384;
        PSSWithSHA512; PKCS1WithSHA256; PKCS1WithSHA384; PKCS1WithSHA512; ECDSAWithSHA1; PKCS1WithSHA1]);
      UtlsPadding (UtlsPaddingExtension.Mk 0 false (Some BoringPaddingStyle))]
    VersionTLS10 VersionTLS12 None no_seed).

(** [HelloFirefox_63, HelloFirefox_65] *)
Definition spec_Firefox_63 (r : parrot_rand) : outcome spec :=
  Ret (ClientHelloSpec.Mk [
      TLS_AES_128_GCM_SHA256; TLS_CHACHA20_POLY1305_SHA256; TLS_AES_256_GCM_SHA384;
      TLS_ECDHE_ECDSA_WITH_AES_128_GCM_SHA256; TLS_ECDHE_RSA_WITH_AES_128_GCM_SHA256;
      TLS_ECDHE_ECDSA_WITH_CHACHA20_POLY1305; TLS_ECDHE_RSA_WITH_CHACHA20_POLY1305;
      TLS_ECDHE_ECDSA_WITH_AES_256_GCM_SHA384; TLS_ECDHE_RSA_WITH_AES_256_GCM_SHA384;
      TLS_ECDHE_ECDSA_WITH_AES_256_CBC_SHA; TLS_ECDHE_ECDSA_WITH_AES_128_CBC_SHA;
      TLS_ECDHE_RSA_WITH_AES_128_CBC_SHA; TLS_ECDHE_RSA_WITH_AES_256_CBC_SHA;
      FAKE_TLS_DHE_RSA_WITH_AES_128_CBC_SHA; FAKE_TLS_DHE_RSA_WITH_AES_256_CBC_SHA; TLS_RSA_WITH_AES_128_CBC_SHA;
      TLS_RSA_WITH_AES_256_CBC_SHA; TLS_RSA_WITH_3DES_EDE_CBC_SHA]
    [compressionNone] [
      SNI (SNIExtension.Mk []);
      ExtendedMasterSecret ExtendedMasterSecretExtension.Mk;
      RenegotiationInfo (RenegotiationInfoExtension.Mk RenegotiateOnceAsClient []);
      SupportedCurves (SupportedCurvesExtension.Mk [X25519; CurveP256; CurveP384; CurveP521; FakeFFDHE2048; FakeFFDHE3072]);
      SupportedPoints (SupportedPointsExtension.Mk [pointFormatUncompressed]);
      SessionTicket (SessionTicketExtension.Mk None [] false);
      ALPN (ALPNExtension.Mk [str "h2"; str "http/1.1"]);
      StatusRequest StatusRequestExtension.Mk;
      KeyShare (KeyShareExtension.Mk [KeyShare.Mk X25519 []; KeyShare.Mk CurveP256 []]);
      SupportedVersions (SupportedVersionsExtension.Mk [VersionTLS13; VersionTLS12; VersionTLS11; VersionTLS10]);
      SignatureAlgorithms (SignatureAlgorithmsExtension.Mk [
        ECDSAWithP256AndSHA256; ECDSAWithP384AndSHA384; ECDSAWithP521AndSHA512; PSSWithSHA256; PSSWithSHA384;
        PSSWithSHA512; PKCS1WithSHA256; PKCS1WithSHA384; PKCS1WithSHA512; ECDSAWithSHA1; PKCS1WithSHA1]);
      PSKKeyExchangeModes (PSKKeyExchangeModesExtension.Mk [pskModeDHE]);
      FakeRecordSizeLimit (FakeRecordSizeLimitExtension.Mk 0x4001);
      UtlsPadding (UtlsPaddingExtension.Mk 0 false (Some BoringPaddingStyle))]
    VersionTLS10 VersionTLS13 None no_seed).

(** [HelloFirefox_99] *)
Definition spec_Firefox_99 (r : parrot_rand) : outcome spec :=
  Ret (ClientHelloSpec.Mk [
      TLS_AES_128_GCM_SHA256; TLS_CHACHA20_POLY1305_SHA256; TLS_AES_256_GCM_SHA384;
      TLS_ECDHE_ECDSA_WITH_AES_128_GCM_SHA256; TLS_ECDHE_RSA_WITH_AES_128_GCM_SHA256;
      TLS_ECDHE_ECDSA_WITH_CHACHA20_POLY1305; TLS_ECDHE_RSA_WITH_CHACHA20_POLY1305;
      TLS_ECDHE_ECDSA_WITH_AES_256_GCM_SHA384; TLS_ECDHE_RSA_WITH_AES_256_GCM_SHA384;
      TLS_ECDHE_ECDSA_WITH_AES_256_CBC_SHA; TLS_ECDHE_ECDSA_WITH_AES_128_CBC_SHA;
      TLS_ECDHE_RSA_WITH_AES_128_CBC_SHA; TLS_ECDHE_RSA_WITH_AES_256_CBC_SHA; TLS_RSA_WITH_AES_128_GCM_SHA256;
      TLS_RSA_WITH_AES_256_GCM_SHA384; TLS_RSA_WITH_AES_128_CBC_SHA; TLS_RSA_WITH_AES_256_CBC_SHA;
      TLS_RSA_WITH_3DES_EDE_CBC_SHA]
    [compressionNone] [
      SNI (SNIExtension.Mk []);
      ExtendedMasterSecret ExtendedMasterSecretExtension.Mk;
      RenegotiationInfo (RenegotiationInfoExtension.Mk RenegotiateOnceAsClient []);
      SupportedCurves (SupportedCurvesExtension.Mk [X25519; CurveP256; CurveP384; CurveP521; FakeFFDHE2048; FakeFFDHE3072]);
      SupportedPoints (SupportedPointsExtension.Mk [pointFormatUncompressed]);
      SessionTicket (SessionTicketExtension.Mk None [] false);
      ALPN (ALPNExtension.Mk [str "h2"; str "http/1.1"]);
      StatusRequest StatusRequestExtension.Mk;
      FakeDelegatedCredentials (FakeDelegatedCredentialsExtension.Mk [ECDSAWithP256AndSHA256; ECDSAWithP384AndSHA384; ECDSAWithP521AndSHA512; ECDSAWithSHA1]);
      KeyShare (KeyShareExtension.Mk [KeyShare.Mk X25519 []; KeyShare.Mk CurveP256 []]);
      SupportedVersions (SupportedVersionsExtension.Mk [VersionTLS13; VersionTLS12; VersionTLS11; VersionTLS10]);
      SignatureAlgorithms (SignatureAlgorithmsExtension.Mk [
        ECDSAWithP256AndSHA256; ECDSAWithP384AndSHA384; ECDSAWithP521AndSHA512; PSSWithSHA256; PSSWithSHA384;
        PSSWithSHA512; PKCS1WithSHA256; PKCS1WithSHA384; PKCS1WithSHA512; ECDSAWithSHA1; PKCS1WithSHA1]);
      PSKKeyExchangeModes (PSKKeyExchangeModesExtension.Mk [PskModeDHE]);
      FakeRecordSizeLimit (FakeRecordSizeLimitExtension.Mk 0x4001);
      UtlsPadding (UtlsPaddingExtension.Mk 0 false (Some BoringPaddingStyle))]
    VersionTLS10 VersionTLS13 None no_seed).

(** [HelloFirefox_102] *)
Definition spec_Firefox_102 (r : parrot_rand) : outcome spec :=
  Ret (ClientHelloSpec.Mk [
      TLS_AES_128_GCM_SHA256; TLS_CHACHA20_POLY1305_SHA256; TLS_AES_256_GCM_SHA384;
      TLS_ECDHE_ECDSA_WITH_AES_128_GCM_SHA256; TLS_ECDHE_RSA_WITH_AES_128_GCM_SHA256;
      TLS_ECDHE_ECDSA_WITH_CHACHA20_POLY1305; TLS_ECDHE_RSA_WITH_CHACHA20_POLY1305;
      TLS_ECDHE_ECDSA_WITH_AES_256_GCM_SHA384; TLS_ECDHE_RSA_WITH_AES_256_GCM_SHA384;
      TLS_ECDHE_ECDSA_WITH_AES_256_CBC_SHA; TLS_ECDHE_ECDSA_WITH_AES_128_CBC_SHA;
      TLS_ECDHE_RSA_WITH_AES_128_CBC_SHA; TLS_ECDHE_RSA_WITH_AES_256_CBC_SHA; TLS_RSA_WITH_AES_128_GCM_SHA256;
      TLS_RSA_WITH_AES_256_GCM_SHA384; TLS_RSA_WITH_AES_128_CBC_SHA; TLS_RSA_WITH_AES_256_CBC_SHA]
    [compressionNone] [
      SNI (SNIExtension.Mk []);
      ExtendedMasterSecret ExtendedMasterSecretExtension.Mk;
      RenegotiationInfo (RenegotiationInfoExtension.Mk RenegotiateOnceAsClient []);
      SupportedCurves (SupportedCurvesExtension.Mk [X25519; CurveP256; CurveP384; CurveP521; FakeFFDHE2048; FakeFFDHE3072]);
      SupportedPoints (SupportedPointsExtension.Mk [pointFormatUncompressed]);
      SessionTicket (SessionTicketExtension.Mk None [] false);
      ALPN (ALPNExtension.Mk [str "h2"]);
      StatusRequest StatusRequestExtension.Mk;
      FakeDelegatedCredentials (FakeDelegatedCredentialsExtension.Mk [ECDSAWithP256AndSHA256; ECDSAWithP384AndSHA384; ECDSAWithP521AndSHA512; ECDSAWithSHA1]);
      KeyShare (KeyShareExtension.Mk [KeyShare.Mk X25519 []; KeyShare.Mk CurveP256 []]);
      SupportedVersions (SupportedVersionsExtension.Mk [VersionTLS13; VersionTLS12]);
      SignatureAlgorithms (SignatureAlgorithmsExtension.Mk [
        ECDSAWithP256AndSHA256; ECDSAWithP384AndSHA384; ECDSAWithP521AndSHA512; PSSWithSHA256; PSSWithSHA384;
        PSSWithSHA512; PKCS1WithSHA256; PKCS1WithSHA384; PKCS1WithSHA512; ECDSAWithSHA1; PKCS1WithSHA1]);
      PSKKeyExchangeModes (PSKKeyExchangeModesExtension.Mk [PskModeDHE]);
      FakeRecordSizeLimit (FakeRecordSizeLimitExtension.Mk 0x4001);
      UtlsPadding (UtlsPaddingExtension.Mk 0 false (Some BoringPaddingStyle))]
    VersionTLS10 VersionTLS13 None no_seed).

(** [HelloFirefox_105] *)
Definition spec_Firefox_105 (r : parrot_rand) : outcome spec :=
  Ret (ClientHelloSpec.Mk [
      TLS_AES_128_GCM_SHA256; TLS_CHACHA20_POLY1305_SHA256; TLS_AES_256_GCM_SHA384;
      TLS_ECDHE_ECDSA_WITH_AES_128_GCM_SHA256; TLS_ECDHE_RSA_WITH_AES_128_GCM_SHA256;
      TLS_ECDHE_ECDSA_WITH_CHACHA20_POLY1305; TLS_ECDHE_RSA_WITH_CHACHA20_POLY1305;
      TLS_ECDHE_ECDSA_WITH_AES_256_GCM_SHA384; TLS_ECDHE_RSA_WITH_AES_256_GCM_SHA384;
      TLS_ECDHE_ECDSA_WITH_AES_256_CBC_SHA; TLS_ECDHE_ECDSA_WITH_AES_128_CBC_SHA;
      TLS_ECDHE_RSA_WITH_AES_128_CBC_SHA; TLS_ECDHE_RSA_WITH_AES_256_CBC_SHA; TLS_RSA_WITH_AES_128_GCM_SHA256;
      TLS_RSA_WITH_AES_256_GCM_SHA384; TLS_RSA_WITH_AES_128_CBC_SHA; TLS_RSA_WITH_AES_256_CBC_SHA]
    [x00] [
      SNI (SNIExtension.Mk []);
      ExtendedMasterSecret ExtendedMasterSecretExtension.Mk;
      RenegotiationInfo (RenegotiationInfoExtension.Mk RenegotiateOnceAsClient []);
      SupportedCurves (SupportedCurvesExtension.Mk [X25519; CurveP256; CurveP384; CurveP521; 0x100; 0x101]);
      SupportedPoints (SupportedPointsExtension.Mk [x00]);
      SessionTicket (SessionTicketExtension.Mk None [] false);
      ALPN (ALPNExtension.Mk [str "h2"; str "http/1.1"]);
      StatusRequest StatusRequestExtension.Mk;
      FakeDelegatedCredentials (FakeDelegatedCredentialsExtension.Mk [ECDSAWithP256AndSHA256; ECDSAWithP384AndSHA384; ECDSAWithP521AndSHA512; ECDSAWithSHA1]);
      KeyShare (KeyShareExtension.Mk [KeyShare.Mk X25519 []; KeyShare.Mk CurveP256 []]);
      SupportedVersions (SupportedVersionsExtension.Mk [VersionTLS13; VersionTLS12]);
      SignatureAlgorithms (SignatureAlgorithmsExtension.Mk [
        ECDSAWithP256AndSHA256; ECDSAWithP384AndSHA384; ECDSAWithP521AndSHA512; PSSWithSHA256; PSSWithSHA384;
        PSSWithSHA512; PKCS1WithSHA256; PKCS1WithSHA384; PKCS1WithSHA512; ECDSAWithSHA1; PKCS1WithSHA1]);
      PSKKeyExchangeModes (PSKKeyExchangeModesExtension.Mk [PskModeDHE]);
      FakeRecordSizeLimit (FakeRecordSizeLimitExtension.Mk 0x4001);
      UtlsPadding (UtlsPaddingExtension.Mk 0 false (Some BoringPaddingStyle))]
    VersionTLS12 VersionTLS13 None no_seed).

(** [HelloFirefox_120] *)
Definition spec_Firefox_120 (r : parrot_rand) : outcome spec :=
  Ret (ClientHelloSpec.Mk [
      TLS_AES_128_GCM_SHA256; TLS_CHACHA20_POLY1305_SHA256; TLS_AES_256_GCM_SHA384;
      TLS_ECDHE_ECDSA_WITH_AES_128_GCM_SHA256; TLS_ECDHE_RSA_WITH_AES_128_GCM_SHA256;
      TLS_ECDHE_ECDSA_WITH_CHACHA20_POLY1305; TLS_ECDHE_RSA_WITH_CHACHA20_POLY1305;
      TLS_ECDHE_ECDSA_WITH_AES_256_GCM_SHA384; TLS_ECDHE_RSA_WITH_AES_256_GCM_SHA384;
      TLS_ECDHE_ECDSA_WITH_AES_256_CBC_SHA; TLS_ECDHE_ECDSA_WITH_AES_128_CBC_SHA;
      TLS_ECDHE_RSA_WITH_AES_128_CBC_SHA; TLS_ECDHE_RSA_WITH_AES_256_CBC_SHA; TLS_RSA_WITH_AES_128_GCM_SHA256;
      TLS_RSA_WITH_AES_256_GCM_SHA384; TLS_RSA_WITH_AES_128_CBC_SHA; TLS_RSA_WITH_AES_256_CBC_SHA]
    [x00] [
      SNI (SNIExtension.Mk []);
      ExtendedMasterSecret ExtendedMasterSecretExtension.Mk;
      RenegotiationInfo (RenegotiationInfoExtension.Mk RenegotiateOnceAsClient []);
      SupportedCurves (SupportedCurvesExtension.Mk [X25519; CurveP256; CurveP384; CurveP521; 0x100; 0x101]);
      SupportedPoints (SupportedPointsExtension.Mk [x00]);
      SessionTicket (SessionTicketExtension.Mk None [] false);
      ALPN (ALPNExtension.Mk [str "h2"; str "http/1.1"]);
      StatusRequest StatusRequestExtension.Mk;
      FakeDelegatedCredentials (FakeDelegatedCredentialsExtension.Mk [ECDSAWithP256AndSHA256; ECDSAWithP384AndSHA384; ECDSAWithP521AndSHA512; ECDSAWithSHA1]);
      KeyShare (KeyShareExtension.Mk [KeyShare.Mk X25519 []; KeyShare.Mk CurveP256 []]);
      SupportedVersions (SupportedVersionsExtension.Mk [VersionTLS13; VersionTLS12]);
      SignatureAlgorithms (SignatureAlgorithmsExtension.Mk [
        ECDSAWithP256AndSHA256; ECDSAWithP384AndSHA384; ECDSAWithP521AndSHA512; PSSWithSHA256; PSSWithSHA384;
        PSSWithSHA512; PKCS1WithSHA256; PKCS1WithSHA384; PKCS1WithSHA512; ECDSAWithSHA1; PKCS1WithSHA1]);
      PSKKeyExchangeModes (PSKKeyExchangeModesExtension.Mk [PskModeDHE]);
      FakeRecordSizeLimit (FakeRecordSizeLimitExtension.Mk 0x4001);
      GREASEEncryptedClientHello (GREASEEncryptedClientHelloExtension.MkG
        [
          HPKESymmetricCipherSuite.Mk dicttls.HKDF_SHA256 dicttls.AEAD_AES_128_GCM;
          HPKESymmetricCipherSuite.Mk dicttls.HKDF_SHA256 dicttls.AEAD_CHACHA20_POLY1305]
        (HPKESymmetricCipherSuite.Mk 0 0) [] 0 [] [0xdf] [] false r.(r_ech))]
    VersionTLS12 VersionTLS13 None no_seed).

(** [HelloIOS_11_1] *)
Definition spec_IOS_11_1 (r : parrot_rand) : outcome spec :=
  Ret (ClientHelloSpec.Mk [
      TLS_ECDHE_ECDSA_WITH_AES_256_GCM_SHA384; TLS_ECDHE_ECDSA_WITH_AES_128_GCM_SHA256;
      DISABLED_TLS_ECDHE_ECDSA_WITH_AES_256_CBC_SHA384; TLS_ECDHE_ECDSA_WITH_AES_128_CBC_SHA256;
      TLS_ECDHE_ECDSA_WITH_AES_256_CBC_SHA; TLS_ECDHE_ECDSA_WITH_AES_128_CBC_SHA;
      TLS_ECDHE_ECDSA_WITH_CHACHA20_POLY1305; TLS_ECDHE_RSA_WITH_AES_256_GCM_SHA384;
      TLS_ECDHE_RSA_WITH_AES_128_GCM_SHA256; DISABLED_TLS_ECDHE_RSA_WITH_AES_256_CBC_SHA384;
      TLS_ECDHE_RSA_WITH_AES_128_CBC_SHA256; TLS_ECDHE_RSA_WITH_AES_256_CBC_SHA;
      TLS_ECDHE_RSA_WITH_AES_128_CBC_SHA; TLS_ECDHE_RSA_WITH_CHACHA20_POLY1305; TLS_RSA_WITH_AES_256_GCM_SHA384;
      TLS_RSA_WITH_AES_128_GCM_SHA256; DISABLED_TLS_RSA_WITH_AES_256_CBC_SHA256; TLS_RSA_WITH_AES_128_CBC_SHA256;
      TLS_RSA_WITH_AES_256_CBC_SHA; TLS_RSA_WITH_AES_128_CBC_SHA]
    [compressionNone] [
      RenegotiationInfo (RenegotiationInfoExtension.Mk RenegotiateOnceAsClient []);
      SNI (SNIExtension.Mk []);
      ExtendedMasterSecret ExtendedMasterSecretExtension.Mk;
      SignatureAlgorithms (SignatureAlgorithmsExtension.Mk [
        ECDSAWithP256AndSHA256; PSSWithSHA256; PKCS1WithSHA256; ECDSAWithP384AndSHA384; PSSWithSHA384;
        PKCS1WithSHA384; PSSWithSHA512; PKCS1WithSHA512; PKCS1WithSHA1]);
      StatusRequest StatusRequestExtension.Mk;
      NPN (NPNExtension.Mk []);
      SCT SCTExtension.Mk;
      ALPN (ALPNExtension.Mk [
        str "h2"; str "h2-16"; str "h2-15"; str "h2-14"; str "spdy/3.1"; str "spdy/3"; str "http/1.1"]);
      SupportedPoints (SupportedPointsExtension.Mk [pointFormatUncompressed]);
      SupportedCurves (SupportedCurvesExtension.Mk [X25519; CurveP256; CurveP384; CurveP521])]
    VersionTLS10 VersionTLS12 None no_seed).

(** [HelloIOS_12_1] *)
Definition spec_IOS_12_1 (r : parrot_rand) : outcome spec :=
  Ret (ClientHelloSpec.Mk [
      TLS_ECDHE_ECDSA_WITH_AES_256_GCM_SHA384; TLS_ECDHE_ECDSA_WITH_AES_128_GCM_SHA256;
      DISABLED_TLS_ECDHE_ECDSA_WITH_AES_256_CBC_SHA384; TLS_ECDHE_ECDSA_WITH_AES_128_CBC_SHA256;
      TLS_ECDHE_ECDSA_WITH_AES_256_CBC_SHA; TLS_ECDHE_ECDSA_WITH_AES_128_CBC_SHA;
      TLS_ECDHE_ECDSA_WITH_CHACHA20_POLY1305; TLS_ECDHE_RSA_WITH_AES_256_GCM_SHA384;
      TLS_ECDHE_RSA_WITH_AES_128_GCM_SHA256; DISABLED_TLS_ECDHE_RSA_WITH_AES_256_CBC_SHA384;
      TLS_ECDHE_RSA_WITH_AES_128_CBC_SHA256; TLS_ECDHE_RSA_WITH_AES_256_CBC_SHA;
      TLS_ECDHE_RSA_WITH_AES_128_CBC_SHA; TLS_ECDHE_RSA_WITH_CHACHA20_POLY1305; TLS_RSA_WITH_AES_256_GCM_SHA384;
      TLS_RSA_WITH_AES_128_GCM_SHA256; DISABLED_TLS_RSA_WITH_AES_256_CBC_SHA256; TLS_RSA_WITH_AES_128_CBC_SHA256;
      TLS_RSA_WITH_AES_256_CBC_SHA; TLS_RSA_WITH_AES_128_CBC_SHA; 0xc008; TLS_ECDHE_RSA_WITH_3DES_EDE_CBC_SHA;
      TLS_RSA_WITH_3DES_EDE_CBC_SHA]
    [compressionNone] [
      RenegotiationInfo (RenegotiationInfoExtension.Mk RenegotiateOnceAsClient []);
      SNI (SNIExtension.Mk []);
      ExtendedMasterSecret ExtendedMasterSecretExtension.Mk;
      SignatureAlgorithms (SignatureAlgorithmsExtension.Mk [
        ECDSAWithP256AndSHA256; PSSWithSHA256; PKCS1WithSHA256; ECDSAWithP384AndSHA384; ECDSAWithSHA1;
        PSSWithSHA384; PSSWithSHA384; PKCS1WithSHA384; PSSWithSHA512; PKCS1WithSHA512; PKCS1WithSHA1]);
      StatusRequest StatusRequestExtension.Mk;
      NPN (NPNExtension.Mk []);
      SCT SCTExtension.Mk;
      ALPN (ALPNExtension.Mk [
        str "h2"; str "h2-16"; str "h2-15"; str "h2-14"; str "spdy/3.1"; str "spdy/3"; str "http/1.1"]);
      SupportedPoints (SupportedPointsExtension.Mk [pointFormatUncompressed]);
      SupportedCurves (SupportedCurvesExtension.Mk [X25519; CurveP256; CurveP384; CurveP521])]
    0 0 None no_seed).

(** [HelloIOS_13] *)
Definition spec_IOS_13 (r : parrot_rand) : outcome spec :=
  Ret (ClientHelloSpec.Mk [
      TLS_AES_128_GCM_SHA256; TLS_AES_256_GCM_SHA384; TLS_CHACHA20_POLY1305_SHA256;
      TLS_ECDHE_ECDSA_WITH_AES_256_GCM_SHA384; TLS_ECDHE_ECDSA_WITH_AES_128_GCM_SHA256;
      DISABLED_TLS_ECDHE_ECDSA_WITH_AES_256_CBC_SHA384; TLS_ECDHE_ECDSA_WITH_AES_128_CBC_SHA256;
      TLS_ECDHE_ECDSA_WITH_AES_256_CBC_SHA; TLS_ECDHE_ECDSA_WITH_AES_128_CBC_SHA;
      TLS_ECDHE_ECDSA_WITH_CHACHA20_POLY1305; TLS_ECDHE_RSA_WITH_AES_256_GCM_SHA384;
      TLS_ECDHE_RSA_WITH_AES_128_GCM_SHA256; DISABLED_TLS_ECDHE_RSA_WITH_AES_256_CBC_SHA384;
      TLS_ECDHE_RSA_WITH_AES_128_CBC_SHA256; TLS_ECDHE_RSA_WITH_AES_256_CBC_SHA;
      TLS_ECDHE_RSA_WITH_AES_128_CBC_SHA; TLS_ECDHE_RSA_WITH_CHACHA20_POLY1305; TLS_RSA_WITH_AES_256_GCM_SHA384;
      TLS_RSA_WITH_AES_128_GCM_SHA256; DISABLED_TLS_RSA_WITH_AES_256_CBC_SHA256; TLS_RSA_WITH_AES_128_CBC_SHA256;
      TLS_RSA_WITH_AES_256_CBC_SHA; TLS_RSA_WITH_AES_128_CBC_SHA; 0xc008; TLS_ECDHE_RSA_WITH_3DES_EDE_CBC_SHA;
      TLS_RSA_WITH_3DES_EDE_CBC_SHA]
    [x00] [
      RenegotiationInfo (RenegotiationInfoExtension.Mk RenegotiateOnceAsClient []);
      SNI (SNIExtension.Mk []);
      ExtendedMasterSecret ExtendedMasterSecretExtension.Mk;
      SignatureAlgorithms (SignatureAlgorithmsExtension.Mk [
        ECDSAWithP256AndSHA256; PSSWithSHA256; PKCS1WithSHA256; ECDSAWithP384AndSHA384; ECDSAWithSHA1;
        PSSWithSHA384; PSSWithSHA384; PKCS1WithSHA384; PSSWithSHA512; PKCS1WithSHA512; PKCS1WithSHA1]);
      StatusRequest StatusRequestExtension.Mk;
      SCT SCTExtension.Mk;
      ALPN (ALPNExtension.Mk [str "h2"; str "http/1.1"]);
      SupportedPoints (SupportedPointsExtension.Mk [x00]);
      KeyShare (KeyShareExtension.Mk [KeyShare.Mk X25519 []]);
      PSKKeyExchangeModes (PSKKeyExchangeModesExtension.Mk [PskModeDHE]);
      SupportedVersions (SupportedVersionsExtension.Mk [VersionTLS13; VersionTLS12; VersionTLS11; VersionTLS10]);
      SupportedCurves (SupportedCurvesExtension.Mk [X25519; CurveP256; CurveP384; CurveP521]);
      UtlsPadding (UtlsPaddingExtension.Mk 0 false (Some BoringPaddingStyle))]
    0 0 None no_seed).

(** [HelloIOS_14] *)
Definition spec_IOS_14 (r : parrot_rand) : outcome spec :=
  Ret (ClientHelloSpec.Mk [
      GREASE_PLACEHOLDER; TLS_AES_128_GCM_SHA256; TLS_AES_256_GCM_SHA384; TLS_CHACHA20_POLY1305_SHA256;
      TLS_ECDHE_ECDSA_WITH_AES_256_GCM_SHA384; TLS_ECDHE_ECDSA_WITH_AES_128_GCM_SHA256;
      TLS_ECDHE_ECDSA_WITH_CHACHA20_POLY1305; TLS_ECDHE_RSA_WITH_AES_256_GCM_SHA384;
      TLS_ECDHE_RSA_WITH_AES_128_GCM_SHA256; TLS_ECDHE_RSA_WITH_CHACHA20_POLY1305;
      DISABLED_TLS_ECDHE_ECDSA_WITH_AES_256_CBC_SHA384; TLS_ECDHE_ECDSA_WITH_AES_128_CBC_SHA256;
      TLS_ECDHE_ECDSA_WITH_AES_256_CBC_SHA; TLS_ECDHE_ECDSA_WITH_AES_128_CBC_SHA;
      DISABLED_TLS_ECDHE_RSA_WITH_AES_256_CBC_SHA384; TLS_ECDHE_RSA_WITH_AES_128_CBC_SHA256;
      TLS_ECDHE_RSA_WITH_AES_256_CBC_SHA; TLS_ECDHE_RSA_WITH_AES_128_CBC_SHA; TLS_RSA_WITH_AES_256_GCM_SHA384;
      TLS_RSA_WITH_AES_128_GCM_SHA256; DISABLED_TLS_RSA_WITH_AES_256_CBC_SHA256; TLS_RSA_WITH_AES_128_CBC_SHA256;
      TLS_RSA_WITH_AES_256_CBC_SHA; TLS_RSA_WITH_AES_128_CBC_SHA; 0xc008; TLS_ECDHE_RSA_WITH_3DES_EDE_CBC_SHA;
      TLS_RSA_WITH_3DES_EDE_CBC_SHA]
    [x00] [
      UtlsGREASE (UtlsGREASEExtension.Mk 0 []);
      SNI (SNIExtension.Mk []);
      ExtendedMasterSecret ExtendedMasterSecretExtension.Mk;
      RenegotiationInfo (RenegotiationInfoExtension.Mk RenegotiateOnceAsClient []);
      SupportedCurves (SupportedCurvesExtension.Mk [GREASE_PLACEHOLDER; X25519; CurveP256; CurveP384; CurveP521]);
      SupportedPoints (SupportedPointsExtension.Mk [x00]);
      ALPN (ALPNExtension.Mk [str "h2"; str "http/1.1"]);
      StatusRequest StatusRequestExtension.Mk;
      SignatureAlgorithms (SignatureAlgorithmsExtension.Mk [
        ECDSAWithP256AndSHA256; PSSWithSHA256; PKCS1WithSHA256; ECDSAWithP384AndSHA384; ECDSAWithSHA1;
        PSSWithSHA384; PSSWithSHA384; PKCS1WithSHA384; PSSWithSHA512; PKCS1WithSHA512; PKCS1WithSHA1]);
      SCT SCTExtension.Mk;
      KeyShare (KeyShareExtension.Mk [KeyShare.Mk GREASE_PLACEHOLDER [x00]; KeyShare.Mk X25519 []]);
      PSKKeyExchangeModes (PSKKeyExchangeModesExtension.Mk [PskModeDHE]);
      SupportedVersions (SupportedVersionsExtension.Mk [GREASE_PLACEHOLDER; VersionTLS13; VersionTLS12; VersionTLS11; VersionTLS10]);
      UtlsGREASE (UtlsGREASEExtension.Mk 0 []);
      UtlsPadding (UtlsPaddingExtension.Mk 0 false (Some BoringPaddingStyle))]
    0 0 None no_seed).

(** [HelloAndroid_11_OkHttp] *)
Definition spec_Android_11_OkHttp (r : parrot_rand) : outcome spec :=
  Ret (ClientHelloSpec.Mk [
      TLS_ECDHE_ECDSA_WITH_AES_128_GCM_SHA256; TLS_ECDHE_ECDSA_WITH_AES_256_GCM_SHA384; 0xcca9;
      TLS_ECDHE_RSA_WITH_AES_128_GCM_SHA256; TLS_ECDHE_RSA_WITH_AES_256_GCM_SHA384; 0xcca8;
      TLS_ECDHE_RSA_WITH_AES_128_CBC_SHA; TLS_ECDHE_RSA_WITH_AES_256_CBC_SHA; TLS_RSA_WITH_AES_128_GCM_SHA256;
      TLS_RSA_WITH_AES_256_GCM_SHA384; TLS_RSA_WITH_AES_128_CBC_SHA; TLS_RSA_WITH_AES_256_CBC_SHA]
    [x00] [
      SNI (SNIExtension.Mk []);
      ExtendedMasterSecret ExtendedMasterSecretExtension.Mk;
      RenegotiationInfo (RenegotiationInfoExtension.Mk RenegotiateNever []);
      SupportedCurves (SupportedCurvesExtension.Mk [X25519; CurveP256; CurveP384]);
      SupportedPoints (SupportedPointsExtension.Mk [x00]);
      StatusRequest StatusRequestExtension.Mk;
      SignatureAlgorithms (SignatureAlgorithmsExtension.Mk [
        ECDSAWithP256AndSHA256; PSSWithSHA256; PKCS1WithSHA256; ECDSAWithP384AndSHA384; PSSWithSHA384;
        PKCS1WithSHA384; PSSWithSHA512; PKCS1WithSHA512; PKCS1WithSHA1])]
    0 0 None no_seed).

(** [HelloEdge_85] *)
Definition spec_Edge_85 (r : parrot_rand) : outcome spec :=
  Ret (ClientHelloSpec.Mk [
      GREASE_PLACEHOLDER; TLS_AES_128_GCM_SHA256; TLS_AES_256_GCM_SHA384; TLS_CHACHA20_POLY1305_SHA256;
      TLS_ECDHE_ECDSA_WITH_AES_128_GCM_SHA256; TLS_ECDHE_RSA_WITH_AES_128_GCM_SHA256;
      TLS_ECDHE_ECDSA_WITH_AES_256_GCM_SHA384; TLS_ECDHE_RSA_WITH_AES_256_GCM_SHA384;
      TLS_ECDHE_ECDSA_WITH_CHACHA20_POLY1305; TLS_ECDHE_RSA_WITH_CHACHA20_POLY1305;
      TLS_ECDHE_RSA_WITH_AES_128_CBC_SHA; TLS_ECDHE_RSA_WITH_AES_256_CBC_SHA; TLS_RSA_WITH_AES_128_GCM_SHA256;
      TLS_RSA_WITH_AES_256_GCM_SHA384; TLS_RSA_WITH_AES_128_CBC_SHA; TLS_RSA_WITH_AES_256_CBC_SHA]
    [x00] [
      UtlsGREASE (UtlsGREASEExtension.Mk 0 []);
      SNI (SNIExtension.Mk []);
      ExtendedMasterSecret ExtendedMasterSecretExtension.Mk;
      RenegotiationInfo (RenegotiationInfoExtension.Mk RenegotiateOnceAsClient []);
      SupportedCurves (SupportedCurvesExtension.Mk [GREASE_PLACEHOLDER; X25519; CurveP256; CurveP384]);
      SupportedPoints (SupportedPointsExtension.Mk [x00]);
      SessionTicket (SessionTicketExtension.Mk None [] false);
      ALPN (ALPNExtension.Mk [str "h2"; str "http/1.1"]);
      StatusRequest StatusRequestExtension.Mk;
      SignatureAlgorithms (SignatureAlgorithmsExtension.Mk [
        ECDSAWithP256AndSHA256; PSSWithSHA256; PKCS1WithSHA256; ECDSAWithP384AndSHA384; PSSWithSHA384;
        PKCS1WithSHA384; PSSWithSHA512; PKCS1WithSHA512]);
      SCT SCTExtension.Mk;
      KeyShare (KeyShareExtension.Mk [KeyShare.Mk GREASE_PLACEHOLDER [x00]; KeyShare.Mk X25519 []]);
      PSKKeyExchangeModes (PSKKeyExchangeModesExtension.Mk [PskModeDHE]);
      SupportedVersions (SupportedVersionsExtension.Mk [GREASE_PLACEHOLDER; VersionTLS13; VersionTLS12; VersionTLS11; VersionTLS10]);
      UtlsCompressCert (UtlsCompressCertExtension.Mk [CertCompressionBrotli]);
      UtlsGREASE (UtlsGREASEExtension.Mk 0 []);
      UtlsPadding (UtlsPaddingExtension.Mk 0 false (Some BoringPaddingStyle))]
    0 0 None no_seed).

(** [HelloEdge_106] *)
Definition spec_Edge_106 (r : parrot_rand) : outcome spec :=
  Ret (ClientHelloSpec.Mk [
      GREASE_PLACEHOLDER; TLS_AES_128_GCM_SHA256; TLS_AES_256_GCM_SHA384; TLS_CHACHA20_POLY1305_SHA256;
      TLS_ECDHE_ECDSA_WITH_AES_128_GCM_SHA256; TLS_ECDHE_RSA_WITH_AES_128_GCM_SHA256;
      TLS_ECDHE_ECDSA_WITH_AES_256_GCM_SHA384; TLS_ECDHE_RSA_WITH_AES_256_GCM_SHA384;
      TLS_ECDHE_ECDSA_WITH_CHACHA20_POLY1305; TLS_ECDHE_RSA_WITH_CHACHA20_POLY1305;
      TLS_ECDHE_RSA_WITH_AES_128_CBC_SHA; TLS_ECDHE_RSA_WITH_AES_256_CBC_SHA; TLS_RSA_WITH_AES_128_GCM_SHA256;
      TLS_RSA_WITH_AES_256_GCM_SHA384; TLS_RSA_WITH_AES_128_CBC_SHA; TLS_RSA_WITH_AES_256_CBC_SHA]
    [x00] [
      UtlsGREASE (UtlsGREASEExtension.Mk 0 []);
      SNI (SNIExtension.Mk []);
      ExtendedMasterSecret ExtendedMasterSecretExtension.Mk;
      RenegotiationInfo (RenegotiationInfoExtension.Mk RenegotiateOnceAsClient []);
      SupportedCurves (SupportedCurvesExtension.Mk [GREASE_PLACEHOLDER; X25519; CurveP256; CurveP384]);
      SupportedPoints (SupportedPointsExtension.Mk [x00]);
      SessionTicket (SessionTicketExtension.Mk None [] false);
      ALPN (ALPNExtension.Mk [str "h2"; str "http/1.1"]);
      StatusRequest StatusRequestExtension.Mk;
      SignatureAlgorithms (SignatureAlgorithmsExtension.Mk [
        ECDSAWithP256AndSHA256; PSSWithSHA256; PKCS1WithSHA256; ECDSAWithP384AndSHA384; PSSWithSHA384;
        PKCS1WithSHA384; PSSWithSHA512; PKCS1WithSHA512]);
      SCT SCTExtension.Mk;
      KeyShare (KeyShareExtension.Mk [KeyShare.Mk GREASE_PLACEHOLDER [x00]; KeyShare.Mk X25519 []]);
      PSKKeyExchangeModes (PSKKeyExchangeModesExtension.Mk [PskModeDHE]);
      SupportedVersions (SupportedVersionsExtension.Mk [GREASE_PLACEHOLDER; VersionTLS13; VersionTLS12]);
      UtlsCompressCert (UtlsCompressCertExtension.Mk [CertCompressionBrotli]);
      ApplicationSettings (ApplicationSettingsExtension.Mk [str "h2"]);
      UtlsGREASE (UtlsGREASEExtension.Mk 0 []);
      UtlsPadding (UtlsPaddingExtension.Mk 0 false (Some BoringPaddingStyle))]
    VersionTLS12 VersionTLS13 None no_seed).

(** [HelloSafari_16_0] *)
Definition spec_Safari_16_0 (r : parrot_rand) : outcome spec :=
  Ret (ClientHelloSpec.Mk [
      GREASE_PLACEHOLDER; TLS_AES_128_GCM_SHA256; TLS_AES_256_GCM_SHA384; TLS_CHACHA20_POLY1305_SHA256;
      TLS_ECDHE_ECDSA_WITH_AES_256_GCM_SHA384; TLS_ECDHE_ECDSA_WITH_AES_128_GCM_SHA256;
      TLS_ECDHE_ECDSA_WITH_CHACHA20_POLY1305; TLS_ECDHE_RSA_WITH_AES_256_GCM_SHA384;
      TLS_ECDHE_RSA_WITH_AES_128_GCM_SHA256; TLS_ECDHE_RSA_WITH_CHACHA20_POLY1305;
      TLS_ECDHE_ECDSA_WITH_AES_256_CBC_SHA; TLS_ECDHE_ECDSA_WITH_AES_128_CBC_SHA;
      TLS_ECDHE_RSA_WITH_AES_256_CBC_SHA; TLS_ECDHE_RSA_WITH_AES_128_CBC_SHA; TLS_RSA_WITH_AES_256_GCM_SHA384;
      TLS_RSA_WITH_AES_128_GCM_SHA256; TLS_RSA_WITH_AES_256_CBC_SHA; TLS_RSA_WITH_AES_128_CBC_SHA;
      FAKE_TLS_ECDHE_ECDSA_WITH_3DES_EDE_CBC_SHA; TLS_ECDHE_RSA_WITH_3DES_EDE_CBC_SHA;
      TLS_RSA_WITH_3DES_EDE_CBC_SHA]
    [x00] [
      UtlsGREASE (UtlsGREASEExtension.Mk 0 []);
      SNI (SNIExtension.Mk []);
      ExtendedMasterSecret ExtendedMasterSecretExtension.Mk;
      RenegotiationInfo (RenegotiationInfoExtension.Mk RenegotiateOnceAsClient []);
      SupportedCurves (SupportedCurvesExtension.Mk [GREASE_PLACEHOLDER; X25519; CurveP256; CurveP384; CurveP521]);
      SupportedPoints (SupportedPointsExtension.Mk [x00]);
      ALPN (ALPNExtension.Mk [str "h2"; str "http/1.1"]);
      StatusRequest StatusRequestExtension.Mk;
      SignatureAlgorithms (SignatureAlgorithmsExtension.Mk [
        ECDSAWithP256AndSHA256; PSSWithSHA256; PKCS1WithSHA256; ECDSAWithP384AndSHA384; ECDSAWithSHA1;
        PSSWithSHA384; PSSWithSHA384; PKCS1WithSHA384; PSSWithSHA512; PKCS1WithSHA512; PKCS1WithSHA1]);
      SCT SCTExtension.Mk;
      KeyShare (KeyShareExtension.Mk [KeyShare.Mk GREASE_PLACEHOLDER [x00]; KeyShare.Mk X25519 []]);
      PSKKeyExchangeModes (PSKKeyExchangeModesExtension.Mk [PskModeDHE]);
      SupportedVersions (SupportedVersionsExtension.Mk [GREASE_PLACEHOLDER; VersionTLS13; VersionTLS12; VersionTLS11; VersionTLS10]);
      UtlsCompressCert (UtlsCompressCertExtension.Mk [CertCompressionZlib]);
      UtlsGREASE (UtlsGREASEExtension.Mk 0 []);
      UtlsPadding (UtlsPaddingExtension.Mk 0 false (Some BoringPaddingStyle))]
    VersionTLS10 VersionTLS13 None no_seed).

(** [HelloSafari_18] *)
Definition spec_Safari_18 (r : parrot_rand) : outcome spec :=
  Ret (ClientHelloSpec.Mk [
      GREASE_PLACEHOLDER; TLS_AES_256_GCM_SHA384; TLS_CHACHA20_POLY1305_SHA256; TLS_AES_128_GCM_SHA256;
      TLS_ECDHE_ECDSA_WITH_AES_256_GCM_SHA384; TLS_ECDHE_ECDSA_WITH_AES_128_GCM_SHA256;
      TLS_ECDHE_ECDSA_WITH_CHACHA20_POLY1305; TLS_ECDHE_RSA_WITH_AES_256_GCM_SHA384;
      TLS_ECDHE_RSA_WITH_AES_128_GCM_SHA256; TLS_ECDHE_RSA_WITH_CHACHA20_POLY1305;
      TLS_ECDHE_ECDSA_WITH_AES_256_CBC_SHA; TLS_ECDHE_ECDSA_WITH_AES_128_CBC_SHA;
      TLS_ECDHE_RSA_WITH_AES_256_CBC_SHA; TLS_ECDHE_RSA_WITH_AES_128_CBC_SHA; TLS_RSA_WITH_AES_256_GCM_SHA384;
      TLS_RSA_WITH_AES_128_GCM_SHA256; TLS_RSA_WITH_AES_256_CBC_SHA; TLS_RSA_WITH_AES_128_CBC_SHA;
      FAKE_TLS_ECDHE_ECDSA_WITH_3DES_EDE_CBC_SHA; TLS_ECDHE_RSA_WITH_3DES_EDE_CBC_SHA;
      TLS_RSA_WITH_3DES_EDE_CBC_SHA]
    [x00] [
      UtlsGREASE (UtlsGREASEExtension.Mk 0 []);
      SNI (SNIExtension.Mk []);
      ExtendedMasterSecret ExtendedMasterSecretExtension.Mk;
      RenegotiationInfo (RenegotiationInfoExtension.Mk RenegotiateOnceAsClient []);
      SupportedCurves (SupportedCurvesExtension.Mk [GREASE_PLACEHOLDER; X25519MLKEM768; X25519; CurveP256; CurveP384; CurveP521]);
      SupportedPoints (SupportedPointsExtension.Mk [x00]);
      ALPN (ALPNExtension.Mk [str "h2"; str "http/1.1"]);
      StatusRequest StatusRequestExtension.Mk;
      SignatureAlgorithms (SignatureAlgorithmsExtension.Mk [
        ECDSAWithP256AndSHA256; PSSWithSHA256; PKCS1WithSHA256; ECDSAWithP384AndSHA384; PSSWithSHA384;
        PSSWithSHA384; PKCS1WithSHA384; PSSWithSHA512; PKCS1WithSHA512; PKCS1WithSHA1]);
      SCT SCTExtension.Mk;
      KeyShare (KeyShareExtension.Mk [KeyShare.Mk GREASE_PLACEHOLDER [x00]; KeyShare.Mk X25519MLKEM768 []; KeyShare.Mk X25519 []]);
      PSKKeyExchangeModes (PSKKeyExchangeModesExtension.Mk [PskModeDHE]);
      SupportedVersions (SupportedVersionsExtension.Mk [GREASE_PLACEHOLDER; VersionTLS13; VersionTLS12]);
      UtlsCompressCert (UtlsCompressCertExtension.Mk [CertCompressionZlib]);
      UtlsGREASE (UtlsGREASEExtension.Mk 0 []);
      UtlsPadding (UtlsPaddingExtension.Mk 0 false (Some BoringPaddingStyle))]
    VersionTLS12 VersionTLS13 None no_seed).

(** [HelloIOS_18_QUIC] *)
Definition spec_IOS_18_QUIC (r : parrot_rand) : outcome spec :=
  Ret (ClientHelloSpec.Mk [GREASE_PLACEHOLDER; TLS_AES_256_GCM_SHA384; TLS_CHACHA20_POLY1305_SHA256; TLS_AES_128_GCM_SHA256]
    [x00] [
      UtlsGREASE (UtlsGREASEExtension.Mk 0 []);
      SNI (SNIExtension.Mk []);
      SupportedCurves (SupportedCurvesExtension.Mk [GREASE_PLACEHOLDER; X25519MLKEM768; X25519; CurveP256; CurveP384; CurveP521]);
      ALPN (ALPNExtension.Mk [str "h3"]);
      StatusRequest StatusRequestExtension.Mk;
      SignatureAlgorithms (SignatureAlgorithmsExtension.Mk [
        ECDSAWithP256AndSHA256; PSSWithSHA256; PKCS1WithSHA256; ECDSAWithP384AndSHA384; PSSWithSHA384;
        PSSWithSHA384; PKCS1WithSHA384; PSSWithSHA512; PKCS1WithSHA512; PKCS1WithSHA1]);
      SCT SCTExtension.Mk;
      KeyShare (KeyShareExtension.Mk [KeyShare.Mk GREASE_PLACEHOLDER [x00]; KeyShare.Mk X25519MLKEM768 []; KeyShare.Mk X25519 []]);
      PSKKeyExchangeModes (PSKKeyExchangeModesExtension.Mk [PskModeDHE]);
      SupportedVersions (SupportedVersionsExtension.Mk [GREASE_PLACEHOLDER; VersionTLS13]);
      QUICTransportParameters (QUICTransportParametersExtension.Mk [] r.(r_quic) None None);
      UtlsCompressCert (UtlsCompressCertExtension.Mk [CertCompressionZlib]);
      UtlsGREASE (UtlsGREASEExtension.Mk 0 [])]
    0 0 None no_seed).

(** [Hello360_7_5] *)
Definition spec_360_7_5 (r : parrot_rand) : outcome spec :=
  Ret (ClientHelloSpec.Mk [
      TLS_ECDHE_ECDSA_WITH_AES_256_CBC_SHA; TLS_ECDHE_RSA_WITH_AES_256_CBC_SHA;
      FAKE_TLS_DHE_RSA_WITH_AES_256_CBC_SHA; FAKE_TLS_DHE_RSA_WITH_AES_256_CBC_SHA256;
      TLS_RSA_WITH_AES_256_CBC_SHA; DISABLED_TLS_RSA_WITH_AES_256_CBC_SHA256; TLS_ECDHE_ECDSA_WITH_RC4_128_SHA;
      TLS_ECDHE_ECDSA_WITH_AES_128_CBC_SHA; TLS_ECDHE_ECDSA_WITH_AES_128_CBC_SHA256;
      TLS_ECDHE_RSA_WITH_RC4_128_SHA; TLS_ECDHE_RSA_WITH_AES_128_CBC_SHA; TLS_ECDHE_RSA_WITH_AES_128_CBC_SHA256;
      FAKE_TLS_DHE_RSA_WITH_AES_128_CBC_SHA; FAKE_TLS_DHE_RSA_WITH_AES_128_CBC_SHA256;
      FAKE_TLS_DHE_DSS_WITH_AES_128_CBC_SHA; TLS_RSA_WITH_RC4_128_SHA; FAKE_TLS_RSA_WITH_RC4_128_MD5;
      TLS_RSA_WITH_AES_128_CBC_SHA; TLS_RSA_WITH_AES_128_CBC_SHA256; TLS_RSA_WITH_3DES_EDE_CBC_SHA]
    [x00] [
      SNI (SNIExtension.Mk []);
      RenegotiationInfo (RenegotiationInfoExtension.Mk RenegotiateOnceAsClient []);
      SupportedCurves (SupportedCurvesExtension.Mk [CurveP256; CurveP384; CurveP521]);
      SupportedPoints (SupportedPointsExtension.Mk [x00]);
      SessionTicket (SessionTicketExtension.Mk None [] false);
      NPN (NPNExtension.Mk []);
      ALPN (ALPNExtension.Mk [str "spdy/2"; str "spdy/3"; str "spdy/3.1"; str "http/1.1"]);
      FakeChannelID (FakeChannelIDExtension.Mk true);
      StatusRequest StatusRequestExtension.Mk;
      SignatureAlgorithms (SignatureAlgorithmsExtension.Mk [
        PKCS1WithSHA256; PKCS1WithSHA384; PKCS1WithSHA1; ECDSAWithP256AndSHA256; ECDSAWithP384AndSHA384;
        ECDSAWithSHA1; FakeSHA256WithDSA; FakeSHA1WithDSA])]
    0 0 None no_seed).

(** [Hello360_11_0] *)
Definition spec_360_11_0 (r : parrot_rand) : outcome spec :=
  Ret (ClientHelloSpec.Mk [
      GREASE_PLACEHOLDER; TLS_AES_128_GCM_SHA256; TLS_AES_256_GCM_SHA384; TLS_CHACHA20_POLY1305_SHA256;
      TLS_ECDHE_ECDSA_WITH_AES_128_GCM_SHA256; TLS_ECDHE_RSA_WITH_AES_128_GCM_SHA256;
      TLS_ECDHE_ECDSA_WITH_AES_256_GCM_SHA384; TLS_ECDHE_RSA_WITH_AES_256_GCM_SHA384;
      TLS_ECDHE_ECDSA_WITH_CHACHA20_POLY1305; TLS_ECDHE_RSA_WITH_CHACHA20_POLY1305;
      TLS_ECDHE_RSA_WITH_AES_128_CBC_SHA; TLS_ECDHE_RSA_WITH_AES_256_CBC_SHA; TLS_RSA_WITH_AES_128_GCM_SHA256;
      TLS_RSA_WITH_AES_256_GCM_SHA384; TLS_RSA_WITH_AES_128_CBC_SHA; TLS_RSA_WITH_AES_256_CBC_SHA;
      TLS_RSA_WITH_3DES_EDE_CBC_SHA]
    [x00] [
      UtlsGREASE (UtlsGREASEExtension.Mk 0 []);
      SNI (SNIExtension.Mk []);
      ExtendedMasterSecret ExtendedMasterSecretExtension.Mk;
      RenegotiationInfo (RenegotiationInfoExtension.Mk RenegotiateOnceAsClient []);
      SupportedCurves (SupportedCurvesExtension.Mk [GREASE_PLACEHOLDER; X25519; CurveP256; CurveP384]);
      SupportedPoints (SupportedPointsExtension.Mk [x00]);
      SessionTicket (SessionTicketExtension.Mk None [] false);
      ALPN (ALPNExtension.Mk [str "h2"; str "http/1.1"]);
      StatusRequest StatusRequestExtension.Mk;
      SignatureAlgorithms (SignatureAlgorithmsExtension.Mk [
        ECDSAWithP256AndSHA256; PSSWithSHA256; PKCS1WithSHA256; ECDSAWithP384AndSHA384; PSSWithSHA384;
        PKCS1WithSHA384; PSSWithSHA512; PKCS1WithSHA512; PKCS1WithSHA1]);
      SCT SCTExtension.Mk;
      FakeChannelID (FakeChannelIDExtension.Mk false);
      KeyShare (KeyShareExtension.Mk [KeyShare.Mk GREASE_PLACEHOLDER [x00]; KeyShare.Mk X25519 []]);
      PSKKeyExchangeModes (PSKKeyExchangeModesExtension.Mk [PskModeDHE]);
      SupportedVersions (SupportedVersionsExtension.Mk [GREASE_PLACEHOLDER; VersionTLS13; VersionTLS12; VersionTLS11; VersionTLS10]);
      UtlsCompressCert (UtlsCompressCertExtension.Mk [CertCompressionBrotli]);
      UtlsGREASE (UtlsGREASEExtension.Mk 0 []);
      UtlsPadding (UtlsPaddingExtension.Mk 0 false (Some BoringPaddingStyle))]
    VersionTLS10 VersionTLS13 None no_seed).

(** [HelloQQ_11_1] *)
Definition spec_QQ_11_1 (r : parrot_rand) : outcome spec :=
  Ret (ClientHelloSpec.Mk [
      GREASE_PLACEHOLDER; TLS_AES_128_GCM_SHA256; TLS_AES_256_GCM_SHA384; TLS_CHACHA20_POLY1305_SHA256;
      TLS_ECDHE_ECDSA_WITH_AES_128_GCM_SHA256; TLS_ECDHE_RSA_WITH_AES_128_GCM_SHA256;
      TLS_ECDHE_ECDSA_WITH_AES_256_GCM_SHA384; TLS_ECDHE_RSA_WITH_AES_256_GCM_SHA384;
      TLS_ECDHE_ECDSA_WITH_CHACHA20_POLY1305; TLS_ECDHE_RSA_WITH_CHACHA20_POLY1305;
      TLS_ECDHE_RSA_WITH_AES_128_CBC_SHA; TLS_ECDHE_RSA_WITH_AES_256_CBC_SHA; TLS_RSA_WITH_AES_128_GCM_SHA256;
      TLS_RSA_WITH_AES_256_GCM_SHA384; TLS_RSA_WITH_AES_128_CBC_SHA; TLS_RSA_WITH_AES_256_CBC_SHA]
    [x00] [
      UtlsGREASE (UtlsGREASEExtension.Mk 0 []);
      SNI (SNIExtension.Mk []);
      ExtendedMasterSecret ExtendedMasterSecretExtension.Mk;
      RenegotiationInfo (RenegotiationInfoExtension.Mk RenegotiateOnceAsClient []);
      SupportedCurves (SupportedCurvesExtension.Mk [GREASE_PLACEHOLDER; X25519; CurveP256; CurveP384]);
      SupportedPoints (SupportedPointsExtension.Mk [x00]);
      SessionTicket (SessionTicketExtension.Mk None [] false);
      ALPN (ALPNExtension.Mk [str "h2"; str "http/1.1"]);
      StatusRequest StatusRequestExtension.Mk;
      SignatureAlgorithms (SignatureAlgorithmsExtension.Mk [
        ECDSAWithP256AndSHA256; PSSWithSHA256; PKCS1WithSHA256; ECDSAWithP384AndSHA384; PSSWithSHA384;
        PKCS1WithSHA384; PSSWithSHA512; PKCS1WithSHA512]);
      SCT SCTExtension.Mk;
      KeyShare (KeyShareExtension.Mk [KeyShare.Mk GREASE_PLACEHOLDER [x00]; KeyShare.Mk X25519 []]);
      PSKKeyExchangeModes (PSKKeyExchangeModesExtension.Mk [PskModeDHE]);
      SupportedVersions (SupportedVersionsExtension.Mk [GREASE_PLACEHOLDER; VersionTLS13; VersionTLS12; VersionTLS11; VersionTLS10]);
      UtlsCompressCert (UtlsCompressCertExtension.Mk [CertCompressionBrotli]);
      ApplicationSettings (ApplicationSettingsExtension.Mk [str "h2"]);
      UtlsGREASE (UtlsGREASEExtension.Mk 0 []);
      UtlsPadding (UtlsPaddingExtension.Mk 0 false (Some BoringPaddingStyle))]
    VersionTLS10 VersionTLS13 None no_seed).

(** [HelloChrome_100_PSK] *)
Definition spec_Chrome_100_PSK (r : parrot_rand) : outcome spec :=
  Ret (ClientHelloSpec.Mk [
      GREASE_PLACEHOLDER; TLS_AES_128_GCM_SHA256; TLS_AES_256_GCM_SHA384; TLS_CHACHA20_POLY1305_SHA256;
      TLS_ECDHE_ECDSA_WITH_AES_128_GCM_SHA256; TLS_ECDHE_RSA_WITH_AES_128_GCM_SHA256;
      TLS_ECDHE_ECDSA_WITH_AES_256_GCM_SHA384; TLS_ECDHE_RSA_WITH_AES_256_GCM_SHA384;
      TLS_ECDHE_ECDSA_WITH_CHACHA20_POLY1305; TLS_ECDHE_RSA_WITH_CHACHA20_POLY1305;
      TLS_ECDHE_RSA_WITH_AES_128_CBC_SHA; TLS_ECDHE_RSA_WITH_AES_256_CBC_SHA; TLS_RSA_WITH_AES_128_GCM_SHA256;
      TLS_RSA_WITH_AES_256_GCM_SHA384; TLS_RSA_WITH_AES_128_CBC_SHA; TLS_RSA_WITH_AES_256_CBC_SHA]
    [x00] [
      UtlsGREASE (UtlsGREASEExtension.Mk 0 []);
      SNI (SNIExtension.Mk []);
      ExtendedMasterSecret ExtendedMasterSecretExtension.Mk;
      RenegotiationInfo (RenegotiationInfoExtension.Mk RenegotiateOnceAsClient []);
      SupportedCurves (SupportedCurvesExtension.Mk [GREASE_PLACEHOLDER; X25519; CurveP256; CurveP384]);
      SupportedPoints (SupportedPointsExtension.Mk [x00]);
      SessionTicket (SessionTicketExtension.Mk None [] false);
      ALPN (ALPNExtension.Mk [str "h2"; str "http/1.1"]);
      StatusRequest StatusRequestExtension.Mk;
      SignatureAlgorithms (SignatureAlgorithmsExtension.Mk [
        ECDSAWithP256AndSHA256; PSSWithSHA256; PKCS1WithSHA256; ECDSAWithP384AndSHA384; PSSWithSHA384;
        PKCS1WithSHA384; PSSWithSHA512; PKCS1WithSHA512]);
      SCT SCTExtension.Mk;
      KeyShare (KeyShareExtension.Mk [KeyShare.Mk GREASE_PLACEHOLDER [x00]; KeyShare.Mk X25519 []]);
      PSKKeyExchangeModes (PSKKeyExchangeModesExtension.Mk [PskModeDHE]);
      SupportedVersions (SupportedVersionsExtension.Mk [GREASE_PLACEHOLDER; VersionTLS13; VersionTLS12]);
      UtlsCompressCert (UtlsCompressCertExtension.Mk [CertCompressionBrotli]);
      ApplicationSettings (ApplicationSettingsExtension.Mk [str "h2"]);
      UtlsGREASE (UtlsGREASEExtension.Mk 0 []);
      UtlsPreSharedKey (UtlsPreSharedKeyExtension.Mk [] [] [] [] None None None false false)]
    0 0 None no_seed).

(** [HelloChrome_112_PSK_Shuf] *)
Definition spec_Chrome_112_PSK_Shuf (r : parrot_rand) : outcome spec :=
  shuffled r (ClientHelloSpec.Mk [
      GREASE_PLACEHOLDER; TLS_AES_128_GCM_SHA256; TLS_AES_256_GCM_SHA384; TLS_CHACHA20_POLY1305_SHA256;
      TLS_ECDHE_ECDSA_WITH_AES_128_GCM_SHA256; TLS_ECDHE_RSA_WITH_AES_128_GCM_SHA256;
      TLS_ECDHE_ECDSA_WITH_AES_256_GCM_SHA384; TLS_ECDHE_RSA_WITH_AES_256_GCM_SHA384;
      TLS_ECDHE_ECDSA_WITH_CHACHA20_POLY1305; TLS_ECDHE_RSA_WITH_CHACHA20_POLY1305;
      TLS_ECDHE_RSA_WITH_AES_128_CBC_SHA; TLS_ECDHE_RSA_WITH_AES_256_CBC_SHA; TLS_RSA_WITH_AES_128_GCM_SHA256;
      TLS_RSA_WITH_AES_256_GCM_SHA384; TLS_RSA_WITH_AES_128_CBC_SHA; TLS_RSA_WITH_AES_256_CBC_SHA]
    [x00] [
      UtlsGREASE (UtlsGREASEExtension.Mk 0 []);
      SNI (SNIExtension.Mk []);
      ExtendedMasterSecret ExtendedMasterSecretExtension.Mk;
      RenegotiationInfo (RenegotiationInfoExtension.Mk RenegotiateOnceAsClient []);
      SupportedCurves (SupportedCurvesExtension.Mk [GREASE_PLACEHOLDER; X25519; CurveP256; CurveP384]);
      SupportedPoints (SupportedPointsExtension.Mk [x00]);
      SessionTicket (SessionTicketExtension.Mk None [] false);
      ALPN (ALPNExtension.Mk [str "h2"; str "http/1.1"]);
      StatusRequest StatusRequestExtension.Mk;
      SignatureAlgorithms (SignatureAlgorithmsExtension.Mk [
        ECDSAWithP256AndSHA256; PSSWithSHA256; PKCS1WithSHA256; ECDSAWithP384AndSHA384; PSSWithSHA384;
        PKCS1WithSHA384; PSSWithSHA512; PKCS1WithSHA512]);
      SCT SCTExtension.Mk;
      KeyShare (KeyShareExtension.Mk [KeyShare.Mk GREASE_PLACEHOLDER [x00]; KeyShare.Mk X25519 []]);
      PSKKeyExchangeModes (PSKKeyExchangeModesExtension.Mk [PskModeDHE]);
      SupportedVersions (SupportedVersionsExtension.Mk [GREASE_PLACEHOLDER; VersionTLS13; VersionTLS12]);
      UtlsCompressCert (UtlsCompressCertExtension.Mk [CertCompressionBrotli]);
      ApplicationSettings (ApplicationSettingsExtension.Mk [str "h2"]);
      UtlsGREASE (UtlsGREASEExtension.Mk 0 []);
      UtlsPreSharedKey (UtlsPreSharedKeyExtension.Mk [] [] [] [] None None None false false)]
    0 0 None no_seed).

(** [HelloChrome_114_Padding_PSK_Shuf] *)
Definition spec_Chrome_114_Padding_PSK_Shuf (r : parrot_rand) : outcome spec :=
  shuffled r (ClientHelloSpec.Mk [
      GREASE_PLACEHOLDER; TLS_AES_128_GCM_SHA256; TLS_AES_256_GCM_SHA384; TLS_CHACHA20_POLY1305_SHA256;
      TLS_ECDHE_ECDSA_WITH_AES_128_GCM_SHA256; TLS_ECDHE_RSA_WITH_AES_128_GCM_SHA256;
      TLS_ECDHE_ECDSA_WITH_AES_256_GCM_SHA384; TLS_ECDHE_RSA_WITH_AES_256_GCM_SHA384;
      TLS_ECDHE_ECDSA_WITH_CHACHA20_POLY1305; TLS_ECDHE_RSA_WITH_CHACHA20_POLY1305;
      TLS_ECDHE_RSA_WITH_AES_128_CBC_SHA; TLS_ECDHE_RSA_WITH_AES_256_CBC_SHA; TLS_RSA_WITH_AES_128_GCM_SHA256;
      TLS_RSA_WITH_AES_256_GCM_SHA384; TLS_RSA_WITH_AES_128_CBC_SHA; TLS_RSA_WITH_AES_256_CBC_SHA]
    [x00] [
      UtlsGREASE (UtlsGREASEExtension.Mk 0 []);
      SNI (SNIExtension.Mk []);
      ExtendedMasterSecret ExtendedMasterSecretExtension.Mk;
      RenegotiationInfo (RenegotiationInfoExtension.Mk RenegotiateOnceAsClient []);
      SupportedCurves (SupportedCurvesExtension.Mk [GREASE_PLACEHOLDER; X25519; CurveP256; CurveP384]);
      SupportedPoints (SupportedPointsExtension.Mk [x00]);
      SessionTicket (SessionTicketExtension.Mk None [] false);
      ALPN (ALPNExtension.Mk [str "h2"; str "http/1.1"]);
      StatusRequest StatusRequestExtension.Mk;
      SignatureAlgorithms (SignatureAlgorithmsExtension.Mk [
        ECDSAWithP256AndSHA256; PSSWithSHA256; PKCS1WithSHA256; ECDSAWithP384AndSHA384; PSSWithSHA384;
        PKCS1WithSHA384; PSSWithSHA512; PKCS1WithSHA512]);
      SCT SCTExtension.Mk;
      KeyShare (KeyShareExtension.Mk [KeyShare.Mk GREASE_PLACEHOLDER [x00]; KeyShare.Mk X25519 []]);
      PSKKeyExchangeModes (PSKKeyExchangeModesExtension.Mk [PskModeDHE]);
      SupportedVersions (SupportedVersionsExtension.Mk [GREASE_PLACEHOLDER; VersionTLS13; VersionTLS12]);
      UtlsCompressCert (UtlsCompressCertExtension.Mk [CertCompressionBrotli]);
      ApplicationSettings (ApplicationSettingsExtension.Mk [str "h2"]);
      UtlsGREASE (UtlsGREASEExtension.Mk 0 []);
      UtlsPadding (UtlsPaddingExtension.Mk 0 false (Some BoringPaddingStyle));
      UtlsPreSharedKey (UtlsPreSharedKeyExtension.Mk [] [] [] [] None None None false false)]
    0 0 None no_seed).

(** [HelloChrome_115_PQ_PSK] *)
Definition spec_Chrome_115_PQ_PSK (r : parrot_rand) : outcome spec :=
  shuffled r (ClientHelloSpec.Mk [
      GREASE_PLACEHOLDER; TLS_AES_128_GCM_SHA256; TLS_AES_256_GCM_SHA384; TLS_CHACHA20_POLY1305_SHA256;
      TLS_ECDHE_ECDSA_WITH_AES_128_GCM_SHA256; TLS_ECDHE_RSA_WITH_AES_128_GCM_SHA256;
      TLS_ECDHE_ECDSA_WITH_AES_256_GCM_SHA384; TLS_ECDHE_RSA_WITH_AES_256_GCM_SHA384;
      TLS_ECDHE_ECDSA_WITH_CHACHA20_POLY1305; TLS_ECDHE_RSA_WITH_CHACHA20_POLY1305;
      TLS_ECDHE_RSA_WITH_AES_128_CBC_SHA; TLS_ECDHE_RSA_WITH_AES_256_CBC_SHA; TLS_RSA_WITH_AES_128_GCM_SHA256;
      TLS_RSA_WITH_AES_256_GCM_SHA384; TLS_RSA_WITH_AES_128_CBC_SHA; TLS_RSA_WITH_AES_256_CBC_SHA]
    [x00] [
      UtlsGREASE (UtlsGREASEExtension.Mk 0 []);
      SNI (SNIExtension.Mk []);
      ExtendedMasterSecret ExtendedMasterSecretExtension.Mk;
      RenegotiationInfo (RenegotiationInfoExtension.Mk RenegotiateOnceAsClient []);
      SupportedCurves (SupportedCurvesExtension.Mk [GREASE_PLACEHOLDER; X25519Kyber768Draft00; X25519; CurveP256; CurveP384]);
      SupportedPoints (SupportedPointsExtension.Mk [x00]);
      SessionTicket (SessionTicketExtension.Mk None [] false);
      ALPN (ALPNExtension.Mk [str "h2"; str "http/1.1"]);
      StatusRequest StatusRequestExtension.Mk;
      SignatureAlgorithms (SignatureAlgorithmsExtension.Mk [
        ECDSAWithP256AndSHA256; PSSWithSHA256; PKCS1WithSHA256; ECDSAWithP384AndSHA384; PSSWithSHA384;
        PKCS1WithSHA384; PSSWithSHA512; PKCS1WithSHA512]);
      SCT SCTExtension.Mk;
      KeyShare (KeyShareExtension.Mk [
        KeyShare.Mk GREASE_PLACEHOLDER [x00]; KeyShare.Mk X25519Kyber768Draft00 []; KeyShare.Mk X25519 []]);
      PSKKeyExchangeModes (PSKKeyExchangeModesExtension.Mk [PskModeDHE]);
      SupportedVersions (SupportedVersionsExtension.Mk [GREASE_PLACEHOLDER; VersionTLS13; VersionTLS12]);
      UtlsCompressCert (UtlsCompressCertExtension.Mk [CertCompressionBrotli]);
      ApplicationSettings (ApplicationSettingsExtension.Mk [str "h2"]);
      UtlsGREASE (UtlsGREASEExtension.Mk 0 []);
      UtlsPreSharedKey (UtlsPreSharedKeyExtension.Mk [] [] [] [] None None None false false)]
    0 0 None no_seed).

(** ** The table *)

(** A case of the switch returns a literal, or what another identifier gives. *)
Inductive entry :=
  | Literal (f : parrot_rand -> outcome spec)
  | SameAs (id : ClientHelloID.t).

Definition parrots : list (list ClientHelloID.t * entry) := [
  ([HelloChrome_58; HelloChrome_62], Literal spec_Chrome_58);
  ([HelloChrome_70], Literal spec_Chrome_70);
  ([HelloChrome_72], Literal spec_Chrome_72);
  ([HelloChrome_83], Literal spec_Chrome_83);
  ([HelloChrome_87], Literal spec_Chrome_87);
  ([HelloChrome_96], Literal spec_Chrome_96);
  ([HelloChrome_100; HelloChrome_102], Literal spec_Chrome_100);
  ([HelloChrome_106_Shuffle], Literal spec_Chrome_106_Shuffle);
  ([HelloChrome_115_PQ], Literal spec_Chrome_115_PQ);
  ([HelloChrome_120], Literal spec_Chrome_120);
  ([HelloChrome_120_PQ], Literal spec_Chrome_120_PQ);
  ([HelloChrome_131], Literal spec_Chrome_131);
  ([HelloChrome_133], Literal spec_Chrome_133);
  ([HelloChrome_143_Windows], Literal spec_Chrome_143_Windows);
  ([HelloChrome_143_Linux], Literal spec_Chrome_143_Linux);
  ([HelloChrome_143_macOS], Literal spec_Chrome_143_macOS);
  ([HelloChrome_143_QUIC], Literal spec_Chrome_143_QUIC);
  ([HelloChrome_133_PSK], Literal spec_Chrome_133_PSK);
  ([HelloChrome_143_Windows_PSK], Literal spec_Chrome_143_Windows_PSK);
  ([HelloChrome_143_Linux_PSK], Literal spec_Chrome_143_Linux_PSK);
  ([HelloChrome_143_macOS_PSK], Literal spec_Chrome_143_macOS_PSK);
  ([HelloChrome_143_QUIC_PSK], Literal spec_Chrome_143_QUIC_PSK);
  ([HelloChrome_144_Windows], SameAs HelloChrome_143_Windows);
  ([HelloChrome_144_Linux], SameAs HelloChrome_143_Linux);
  ([HelloChrome_144_macOS], SameAs HelloChrome_143_macOS);
  ([HelloChrome_144_QUIC], SameAs HelloChrome_143_QUIC);
  ([HelloChrome_144_Windows_PSK], SameAs HelloChrome_143_Windows_PSK);
  ([HelloChrome_144_Linux_PSK], SameAs HelloChrome_143_Linux_PSK);
  ([HelloChrome_144_macOS_PSK], SameAs HelloChrome_143_macOS_PSK);
  ([HelloChrome_144_QUIC_PSK], SameAs HelloChrome_143_QUIC_PSK);
  ([HelloChrome_145_Windows], SameAs HelloChrome_144_Windows);
  ([HelloChrome_145_Linux], SameAs HelloChrome_144_Linux);
  ([HelloChrome_145_macOS], SameAs HelloChrome_144_macOS);
  ([HelloChrome_145_QUIC], SameAs HelloChrome_144_QUIC);
  ([HelloChrome_145_Windows_PSK], SameAs HelloChrome_144_Windows_PSK);
  ([HelloChrome_145_Linux_PSK], SameAs HelloChrome_144_Linux_PSK);
  ([HelloChrome_145_macOS_PSK], SameAs HelloChrome_144_macOS_PSK);
  ([HelloChrome_145_QUIC_PSK], SameAs HelloChrome_144_QUIC_PSK);
  ([HelloChrome_146_Windows], SameAs HelloChrome_145_Windows);
  ([HelloChrome_146_Linux], SameAs HelloChrome_145_Linux);
  ([HelloChrome_146_macOS], SameAs HelloChrome_145_macOS);
  ([HelloChrome_146_QUIC], SameAs HelloChrome_145_QUIC);
  ([HelloChrome_146_Windows_PSK], SameAs HelloChrome_145_Windows_PSK);
  ([HelloChrome_146_Linux_PSK], SameAs HelloChrome_145_Linux_PSK);
  ([HelloChrome_146_macOS_PSK], SameAs HelloChrome_145_macOS_PSK);
  ([HelloChrome_146_QUIC_PSK], SameAs HelloChrome_145_QUIC_PSK);
  ([HelloFirefox_55; HelloFirefox_56], Literal spec_Firefox_55);
  ([HelloFirefox_63; HelloFirefox_65], Literal spec_Firefox_63);
  ([HelloFirefox_99], Literal spec_Firefox_99);
  ([HelloFirefox_102], Literal spec_Firefox_102);
  ([HelloFirefox_105], Literal spec_Firefox_105);
  ([HelloFirefox_120], Literal spec_Firefox_120);
  ([HelloIOS_11_1], Literal spec_IOS_11_1);
  ([HelloIOS_12_1], Literal spec_IOS_12_1);
  ([HelloIOS_13], Literal spec_IOS_13);
  ([HelloIOS_14], Literal spec_IOS_14);
  ([HelloAndroid_11_OkHttp], Literal spec_Android_11_OkHttp);
  ([HelloEdge_85], Literal spec_Edge_85);
  ([HelloEdge_106], Literal spec_Edge_106);
  ([HelloSafari_16_0], Literal spec_Safari_16_0);
  ([HelloSafari_18], Literal spec_Safari_18);
  ([HelloIOS_18], SameAs HelloSafari_18);
  ([HelloIOS_18_QUIC], Literal spec_IOS_18_QUIC);
  ([Hello360_7_5], Literal spec_360_7_5);
  ([Hello360_11_0], Literal spec_360_11_0);
  ([HelloQQ_11_1], Literal spec_QQ_11_1);
  ([HelloChrome_100_PSK], Literal spec_Chrome_100_PSK);
  ([HelloChrome_112_PSK_Shuf], Literal spec_Chrome_112_PSK_Shuf);
  ([HelloChrome_114_Padding_PSK_Shuf], Literal spec_Chrome_114_Padding_PSK_Shuf);
  ([HelloChrome_115_PQ_PSK], Literal spec_Chrome_115_PQ_PSK)].

(** The literal an identifier stands for; [None] on a default case. *)
Fixpoint parrot (fuel : nat) (id : ClientHelloID.t) : option (parrot_rand -> outcome spec) :=
  match List.find (fun p => bool_decide (id ∈ p.1)) parrots with
  | Some (_, Literal f) => Some f
  | Some (_, SameAs id) => match fuel with S fuel => parrot fuel id | O => None end
  | None => None
  end.

(** Identifiers that stand for another one chain at most three times. *)
Definition parrot_fuel : nat := 3.

Definition ErrUnknownClientHelloID : gerror := ErrorNew "tls: unknown ClientHelloID".

(** [generateRandomizedSpec] on an identifier, a server name and protocols; it
    changes the identifier. *)
Context (generateRandomizedSpec : ClientHelloID.t -> bytes -> list bytes -> ClientHelloID.t * outcome (res spec)).

Definition utlsIdToSpec (id : ClientHelloID.t) (r : parrot_rand) : outcome (res spec) :=
  match parrot parrot_fuel id with
  | Some f => run s := f r in Ret (inr s)
  | None =>
      if bool_decide (id.(ClientHelloID.Client) ∈ [helloRandomized; helloRandomizedALPN; helloRandomizedNoALPN])
      then (generateRandomizedSpec id [] []).2
      else Ret (inl ErrUnknownClientHelloID)
  end.

Definition UTLSIdToSpec (id : ClientHelloID.t) (r : parrot_rand) : outcome (res spec) := utlsIdToSpec id r.

Definition permutesExtensions (id : ClientHelloID.t) : bool :=
  let c := id.(ClientHelloID.Client) in
  if bool_decide (c ∈ [helloChrome; helloEdge; hello360; helloQQ]) then true
  else if bool_decide (c ∈ [helloRandomized; helloRandomizedALPN; helloRandomizedNoALPN]) then true
  else if bool_decide (c ∈ [helloFirefox; helloSafari; helloIOS; helloAndroid; helloGolang]) then false
  else true.

(** [draws seed] is the generator [rand.NewSource(seed)]. *)
Definition UTLSIdToSpecWithSeed (draws : Z -> nat -> nat) (id : ClientHelloID.t) (seed : Z) (r : parrot_rand)
    : outcome (res spec) :=
  run s := utlsIdToSpec id r in
  match s with
  | inl err => Ret (inl err)
  | inr s =>
      if permutesExtensions id then
        run exts := ShuffleChromeTLSExtensionsWithSeed draws s.(ClientHelloSpec.Extensions) seed in
        Ret (inr (ClientHelloSpec.set_Extensions exts s))
      else Ret (inr s)
  end.
End Specs.
