(* ===== verification/ParrotFacts.v ===== *)
(** * What the specifications have in common

    Well-formedness of a specification, as RFC 8446 asks of a ClientHello, and
    the theorem that every specification of u_parrots.go has it, whatever order
    its extensions are shuffled into. *)

From S2P Require Import Prelude Common Config Negotiation Buffer KeySchedule Quic Ticket Public Extensions PreSharedKey GreaseECH Marshal Shuffle Parrots.

Section Specs.
Context {X : X509} {K : Crypto}.
Implicit Types x : Ext X.

(** The type an extension has on the wire; that of a GREASE extension is drawn. *)
Definition wire_type x : option Z :=
  match x with
  | SNI _ => Some extensionServerName
  | StatusRequest _ => Some extensionStatusRequest
  | SupportedCurves _ => Some extensionSupportedCurves
  | SupportedPoints _ => Some extensionSupportedPoints
  | SignatureAlgorithms _ => Some extensionSignatureAlgorithms
  | StatusRequestV2 _ => Some extensionStatusRequestV2
  | SignatureAlgorithmsCert _ => Some extensionSignatureAlgorithmsCert
  | ALPN _ => Some extensionALPN
  | ApplicationSettings _ => Some utlsExtensionApplicationSettings
  | SCT _ => Some extensionSCT
  | Generic e => Some e.(GenericExtension.Id)
  | ExtendedMasterSecret _ => Some extensionExtendedMasterSecret
  | UtlsGREASE _ => None
  | UtlsPadding _ => Some utlsExtensionPadding
  | UtlsCompressCert _ => Some utlsExtensionCompressCertificate
  | KeyShare _ => Some extensionKeyShare
  | PSKKeyExchangeModes _ => Some extensionPSKModes
  | SupportedVersions _ => Some extensionSupportedVersions
  | Cookie _ => Some extensionCookie
  | NPN _ => Some extensionNextProtoNeg
  | RenegotiationInfo _ => Some extensionRenegotiationInfo
  | FakeChannelID _ => Some fakeExtensionChannelID
  | FakeRecordSizeLimit _ => Some fakeRecordSizeLimit
  | FakeTokenBinding _ => Some fakeExtensionTokenBinding
  | FakeDelegatedCredentials _ => Some fakeExtensionDelegatedCredentials
  | FakeEarlyData _ => Some extensionEarlyData
  | TrustAnchors _ => Some utlsExtensionTrustAnchors
  | ApplicationSettingsNew _ => Some utlsExtensionApplicationSettingsNew
  | SessionTicket _ => Some extensionSessionTicket
  | QUICTransportParameters _ => Some extensionQUICTransportParameters
  | UtlsPreSharedKey _ | FakePreSharedKey _ => Some extensionPreSharedKey
  | GREASEEncryptedClientHello _ => Some utlsExtensionECH
  end.

Definition is_GREASE_ext x : bool := match x with UtlsGREASE _ => true | _ => false end.
Definition is_psk x : bool := match x with UtlsPreSharedKey _ | FakePreSharedKey _ => true | _ => false end.

Definition ext_groups x : list Z := match x with SupportedCurves e => e.(SupportedCurvesExtension.Curves) | _ => [] end.
Definition ext_shares x : list Z := match x with KeyShare e => map KeyShare.Group e.(KeyShareExtension.KeyShares) | _ => [] end.
Definition ext_versions x : list Z := match x with SupportedVersions e => e.(SupportedVersionsExtension.Versions) | _ => [] end.
Definition types (l : list (Ext X)) : list Z := omap wire_type l.

(** [a] in the order of [b]. *)
Fixpoint in_order (a b : list Z) : bool :=
  match a, b with
  | [], _ => true
  | _, [] => false
  | x :: a', y :: b => if x =? y then in_order a' b else in_order a b
  end.

Definition has (l : list (Ext X)) (t : Z) : bool := bool_decide (t ∈ types l).
Definition tls13_suites : list Z := [0x1301; 0x1302; 0x1303].
(** TLS 1.3 is offered. *)
Definition offers13 (l : list (Ext X)) : bool := List.existsb (fun x => bool_decide (VersionTLS13 ∈ ext_versions x)) l.

(** What a server may rely on: no extension type twice, at most the two GREASE
    extensions that [ApplyPreset] can fill, the pre_shared_key extension last
    (RFC 8446, 4.2.11), key shares for offered groups in their order (4.2.8), and
    with TLS 1.3 the extensions and suites that it needs (9.2). *)
Record spec_wf (s : @spec X) : Prop := {
  wf_suites : NoDup s.(ClientHelloSpec.CipherSuites);
  wf_compression : s.(ClientHelloSpec.CompressionMethods) = [x00];
  wf_types : NoDup (types s.(ClientHelloSpec.Extensions));
  wf_grease : (length (List.filter is_GREASE_ext s.(ClientHelloSpec.Extensions)) <= 2)%nat;
  wf_psk : forall i x, s.(ClientHelloSpec.Extensions) !! i = Some x -> is_psk x = true -> S i = length s.(ClientHelloSpec.Extensions);
  wf_shares : forall x y, x ∈ s.(ClientHelloSpec.Extensions) -> y ∈ s.(ClientHelloSpec.Extensions) ->
    wire_type y = Some extensionSupportedCurves -> in_order (ext_shares x) (ext_groups y) = true;
  wf_base : forall t, t ∈ [extensionServerName; extensionSignatureAlgorithms; extensionSupportedCurves] ->
    has s.(ClientHelloSpec.Extensions) t = true;
  wf_tls13 : forall t, t ∈ [extensionKeyShare; extensionPSKModes] ->
    has s.(ClientHelloSpec.Extensions) t = offers13 s.(ClientHelloSpec.Extensions);
  wf_tls13_suites : List.existsb (fun c => bool_decide (c ∈ tls13_suites)) s.(ClientHelloSpec.CipherSuites)
    = offers13 s.(ClientHelloSpec.Extensions)
}.

(** The same, decided. *)
Definition check_spec (s : @spec X) : bool :=
  let l := s.(ClientHelloSpec.Extensions) in
  bool_decide (NoDup s.(ClientHelloSpec.CipherSuites)) && bool_decide (s.(ClientHelloSpec.CompressionMethods) = [x00]) &&
  bool_decide (NoDup (types l)) && Nat.leb (length (List.filter is_GREASE_ext l)) 2 &&
  negb (List.existsb is_psk (removelast l)) &&
  forallb (fun x => forallb (fun y => negb (bool_decide (wire_type y = Some extensionSupportedCurves)) ||
    in_order (ext_shares x) (ext_groups y)) l) l &&
  forallb (has l) [extensionServerName; extensionSignatureAlgorithms; extensionSupportedCurves] &&
  forallb (fun t => Bool.eqb (has l t) (offers13 l)) [extensionKeyShare; extensionPSKModes] &&
  Bool.eqb (List.existsb (fun c => bool_decide (c ∈ tls13_suites)) s.(ClientHelloSpec.CipherSuites)) (offers13 l).

Lemma psk_last_spec (l : list (Ext X)) i x : List.existsb is_psk (removelast l) = false -> l !! i = Some x -> is_psk x = true -> S i = length l.
Proof.
  intros H Hi Hx. destruct (decide (S i = length l)) as [|Hn]; [done|]. exfalso.
  pose proof (lookup_lt_Some _ _ _ Hi) as Hl. assert (l <> []) as Hne by (by destruct l).
  rewrite (app_removelast_last x Hne) in Hi, Hl, Hn. rewrite length_app in Hl, Hn. cbn in Hl, Hn.
  rewrite lookup_app_l in Hi by lia. apply not_true_iff_false in H. apply H, existsb_exists. exists x. split; [|done].
  by apply list_elem_of_In, list_elem_of_lookup_2 with i.
Qed.

Lemma check_spec_ok s : check_spec s = true -> spec_wf s.
Proof.
  unfold check_spec. rewrite !andb_true_iff. intros [[[[[[[[H1 H2] H3] H4] H5] H6] H7] H8] H9].
  apply bool_decide_eq_true_1 in H1, H2, H3. apply Nat.leb_le in H4. apply negb_true_iff in H5. apply eqb_prop in H9.
  rewrite !forallb_forall in *. constructor; try done.
  - intros i x. by apply psk_last_spec.
  - intros x y Hx%list_elem_of_In Hy%list_elem_of_In Ht. specialize (H6 x Hx). rewrite forallb_forall in H6. specialize (H6 y Hy).
    rewrite bool_decide_true in H6 by done. done.
  - intros t Ht%list_elem_of_In. by apply H7.
  - intros t Ht%list_elem_of_In. by apply eqb_prop, H8.
Qed.

(** ** Shuffling *)

Lemma filter_length_perm {A} (f : A -> bool) (l l' : list A) : l ≡ₚ l' -> length (List.filter f l) = length (List.filter f l').
Proof. induction 1; cbn; repeat case_match; cbn; congruence. Qed.

Lemma existsb_perm {A} (f : A -> bool) (l l' : list A) : l ≡ₚ l' -> List.existsb f l = List.existsb f l'.
Proof. induction 1; cbn; [done|congruence|by rewrite !orb_assoc, (orb_comm (f y))|congruence]. Qed.

Lemma spec_wf_perm s exts : spec_wf s -> exts ≡ₚ s.(ClientHelloSpec.Extensions) ->
  (forall i x, exts !! i = Some x -> is_psk x = true -> S i = length exts) -> spec_wf (ClientHelloSpec.set_Extensions exts s).
Proof.
  intros [] Hp Hpsk. set (l := s.(ClientHelloSpec.Extensions)) in *.
  assert (Ht : types exts ≡ₚ types l) by (unfold types; by rewrite Hp).
  assert (Hh : forall t, has exts t = has l t) by (intros t; unfold has; apply bool_decide_ext; by rewrite Ht).
  assert (Ho : offers13 exts = offers13 l) by (by apply existsb_perm).
  constructor; cbn [ClientHelloSpec.set_Extensions ClientHelloSpec.Extensions ClientHelloSpec.CipherSuites ClientHelloSpec.CompressionMethods]; try done.
  - by rewrite Ht.
  - by rewrite (filter_length_perm _ _ _ Hp).
  - intros x y Hx Hy. apply wf_shares0; by rewrite <- Hp.
  - intros t Hin. rewrite Hh. by apply wf_base0.
  - intros t Hin. rewrite Hh, Ho. by apply wf_tls13.
  - by rewrite Ho.
Qed.

Lemma spec_wf_reorders s exts : spec_wf s -> reorders positionInvariantExtension s.(ClientHelloSpec.Extensions) exts ->
  spec_wf (ClientHelloSpec.set_Extensions exts s).
Proof.
  intros Hs [Hp H2]. apply spec_wf_perm; [done..|]. intros i x Hi Hx. pose proof (wf_psk s Hs) as Hpsk.
  destruct (Forall2_lookup_r _ _ _ _ _ H2 Hi) as (y & Hy & Hxy). rewrite (Forall2_length _ _ _ H2) in Hpsk.
  destruct (positionInvariantExtension y); [|by destruct x]. subst y. by eapply Hpsk.
Qed.

Lemma reorders_refl (l : list (Ext X)) : reorders positionInvariantExtension l l.
Proof. split; [done|]. induction l as [|x l IH]; constructor; [by destruct (positionInvariantExtension x) eqn:E|done]. Qed.

Lemma shuffled_ok r s : in_range r.(r_order) -> check_spec s = true -> exists s', shuffled r s = Ret s' /\ spec_wf s'.
Proof.
  intros Hr Hs. destruct (shuffle_refill positionInvariantExtension r.(r_order) s.(ClientHelloSpec.Extensions) Hr) as (ms & Hp & Hsh & _).
  unfold shuffled, ShuffleChromeTLSExtensions. rewrite Hsh. cbn [obind]. eexists. split; [done|].
  apply spec_wf_reorders; [by apply check_spec_ok|by apply refill_reorders].
Qed.

Lemma literal_ok s : check_spec s = true -> exists s', Ret s = Ret s' /\ spec_wf s'.
Proof. intros Hs. exists s. split; [done|]. by apply check_spec_ok. Qed.

(** Every literal of the table. *)
Definition entry_ok (e : @entry X) : Prop :=
  match e with
  | Literal f => forall r, in_range r.(r_order) -> exists s, f r = Ret s /\ spec_wf s
  | SameAs _ => True
  end.

Lemma parrots_ok : Forall (fun p => entry_ok p.2) parrots.
Proof.
  unfold parrots. repeat apply Forall_cons_2; try (exact I); try apply Forall_nil_2; intros r Hr; cbn [snd];
    first [apply shuffled_ok; [done|] | apply literal_ok]; vm_compute; reflexivity.
Qed.

Lemma parrot_ok fuel id f r : parrot fuel id = Some f -> in_range r.(r_order) -> exists s, f r = Ret s /\ spec_wf s.
Proof.
  intros H Hr. revert id H. induction fuel as [|fuel IH]; intros id; cbn [parrot];
    (destruct (List.find _ parrots) as [[ids [g|id']]|] eqn:E; [|first [done|apply IH]|done]); intros [= ->];
    apply find_some in E as [Hin _]; pose proof parrots_ok as Hok; rewrite List.Forall_forall in Hok; by apply (Hok _ Hin).
Qed.

(** The identifiers that the switch of [utlsIdToSpec] lists. *)
Definition known_ids : list ClientHelloID.t := concat (map fst (@parrots X K)).

Lemma known_parrot id : id ∈ known_ids -> exists f, parrot parrot_fuel id = Some f.
Proof.
  intros H. assert (Hb : forallb (fun id => match parrot (X := X) (K := K) parrot_fuel id with Some _ => true | None => false end) known_ids = true)
    by (vm_compute; reflexivity).
  rewrite forallb_forall in Hb. apply list_elem_of_In in H. specialize (Hb id H). by destruct (parrot parrot_fuel id) as [f|]; [exists f|].
Qed.

(** C20: every identifier that [UTLSIdToSpec] knows has a specification, and it is
    well formed, in whatever order its extensions are shuffled: no extension type
    twice, pre_shared_key last, key shares only for offered groups and in their
    order, no more GREASE extensions than [ApplyPreset] can fill, and the
    extensions and cipher suites of TLS 1.3 exactly when it is offered.  Shuffling
    with a seed keeps this. *)
Theorem presets_well_formed gen id r draws seed : id ∈ known_ids -> in_range r.(r_order) -> in_range (draws seed) ->
  (exists s, UTLSIdToSpec gen id r = Ret (inr s) /\ spec_wf s) /\
  (exists s, UTLSIdToSpecWithSeed gen draws id seed r = Ret (inr s) /\ spec_wf s).
Proof.
  intros Hid Hr Hd. destruct (known_parrot id Hid) as [f Hf]. destruct (parrot_ok _ _ _ r Hf Hr) as (s & Hs & Hwf).
  assert (Hu : utlsIdToSpec gen id r = Ret (inr s)) by (unfold utlsIdToSpec; by rewrite Hf, Hs).
  split; [by exists s|]. unfold UTLSIdToSpecWithSeed. rewrite Hu. cbn [obind]. destruct (permutesExtensions id); [|by exists s].
  destruct (shuffle_refill positionInvariantExtension (draws seed) s.(ClientHelloSpec.Extensions) Hd) as (ms & Hp & Hsh & _).
  unfold ShuffleChromeTLSExtensionsWithSeed. rewrite Hsh. cbn [obind]. eexists. split; [done|].
  apply spec_wf_reorders; [done|by apply refill_reorders].
Qed.
End Specs.

Lemma presets_well_formed_witness :
  exists s, UTLSIdToSpec (X := plain_x509) (K := toy_hash) (fun id _ _ => (id, Ret (inl EOF))) HelloChrome_133
    (MkParrotRand (fun k => k) (fun _ => MkEchDraws None (fun _ => None) (fun _ => None) (inl EOF) (fun _ => None) (fun _ => None))
      (fun _ => MkDraws None (fun _ => []) (fun _ => None) (fun _ => None))) = Ret (inr s) /\ spec_wf s.
Proof.
  apply (presets_well_formed (X := plain_x509) (K := toy_hash) (fun id _ _ => (id, Ret (inl EOF))) HelloChrome_133
    (MkParrotRand (fun k => k) (fun _ => MkEchDraws None (fun _ => None) (fun _ => None) (inl EOF) (fun _ => None) (fun _ => None))
      (fun _ => MkDraws None (fun _ => []) (fun _ => None) (fun _ => None))) (fun _ k => k) 0).
  - apply (bool_decide_unpack _). vm_compute. exact I.
  - intros i. cbn. lia.
  - intros i. lia.
Defined.
