(* ===== verification/Fingerprint.v ===== *)
(** * Capturing a ClientHello

    Models how a captured ClientHello becomes a specification: [FromRaw],
    [ReadTLSExtensions], [AlwaysAddPadding] and [ImportTLSClientHello] of
    u_common.go, [ExtensionFromID] of u_tls_extensions.go, the [Fingerprinter] of
    u_fingerprinter.go and [Uint8to16] of internal/helper.

    A method that changes the specification returns it with the error, since an
    error leaves it partly filled.  A map from names to byte slices has no entry
    where the slice is nil.  Messages written to the log are not modelled. *)

From S2P Require Import Prelude Cryptobyte Common Config Negotiation Codec Buffer KeySchedule Names Quic Messages Ticket ClientHello Public Extensions PreSharedKey ECH GreaseECH Marshal Shuffle Parrots ParrotFacts.

Module helper.
Definition Uint8to16 `{Cryptobyte} (b : bytes) : res (list Z) :=
  match loop (fun out s => read (v, s) := ReadUint16 s in Some (out ++ [v], s)) [] b with
  | Some out => inr out
  | None => inl (ErrorNew "ReadUint16 failed")
  end.
End helper.

Section Capture.
Context {X : X509} {C : Cryptobyte}.

(** What the random source delivers to one extension. *)
Record capture_rand := MkCaptureRand {
  c_key : Z -> option bytes;
  c_ech : ech_draws;
  c_quic : nat -> draws
}.

Definition zero_ech (d : ech_draws) : GREASEEncryptedClientHelloExtension.t :=
  GREASEEncryptedClientHelloExtension.MkG [] (HPKESymmetricCipherSuite.Mk 0 0) [] 0 [] [] [] false d.

(** [None] is nil. *)
Definition ExtensionFromID (r : capture_rand) (id : Z) : option (Ext X) :=
  if id =? extensionServerName then Some (SNI (SNIExtension.Mk []))
  else if id =? extensionStatusRequest then Some (StatusRequest StatusRequestExtension.Mk)
  else if id =? extensionSupportedCurves then Some (SupportedCurves (SupportedCurvesExtension.Mk []))
  else if id =? extensionSupportedPoints then Some (SupportedPoints (SupportedPointsExtension.Mk []))
  else if id =? extensionSignatureAlgorithms then Some (SignatureAlgorithms (SignatureAlgorithmsExtension.Mk []))
  else if id =? extensionALPN then Some (ALPN (ALPNExtension.Mk []))
  else if id =? extensionStatusRequestV2 then Some (StatusRequestV2 StatusRequestV2Extension.Mk)
  else if id =? extensionSCT then Some (SCT SCTExtension.Mk)
  else if id =? utlsExtensionPadding then Some (UtlsPadding (UtlsPaddingExtension.Mk 0 false None))
  else if id =? extensionExtendedMasterSecret then Some (ExtendedMasterSecret ExtendedMasterSecretExtension.Mk)
  else if id =? fakeExtensionTokenBinding then Some (FakeTokenBinding (FakeTokenBindingExtension.Mk 0 0 []))
  else if id =? utlsExtensionCompressCertificate then Some (UtlsCompressCert (UtlsCompressCertExtension.Mk []))
  else if id =? fakeRecordSizeLimit then Some (FakeRecordSizeLimit (FakeRecordSizeLimitExtension.Mk 0))
  else if id =? fakeExtensionDelegatedCredentials then Some (FakeDelegatedCredentials (FakeDelegatedCredentialsExtension.Mk []))
  else if id =? extensionSessionTicket then Some (SessionTicket (SessionTicketExtension.Mk None [] false))
  else if id =? extensionPreSharedKey then Some (FakePreSharedKey (FakePreSharedKeyExtension.Mk None None false))
  else if id =? extensionSupportedVersions then Some (SupportedVersions (SupportedVersionsExtension.Mk []))
  else if id =? extensionPSKModes then Some (PSKKeyExchangeModes (PSKKeyExchangeModesExtension.Mk []))
  else if id =? extensionSignatureAlgorithmsCert then Some (SignatureAlgorithmsCert (SignatureAlgorithmsCertExtension.Mk []))
  else if id =? extensionKeyShare then Some (KeyShare (KeyShareExtension.Mk []))
  else if id =? extensionQUICTransportParameters then
    Some (QUICTransportParameters (QUICTransportParametersExtension.Mk [] r.(c_quic) None None))
  else if id =? extensionNextProtoNeg then Some (NPN (NPNExtension.Mk []))
  else if id =? utlsExtensionApplicationSettings then Some (ApplicationSettings (ApplicationSettingsExtension.Mk []))
  else if id =? utlsExtensionApplicationSettingsNew then Some (ApplicationSettingsNew (ApplicationSettingsExtensionNew.Mk []))
  else if id =? utlsExtensionTrustAnchors then Some (TrustAnchors (TrustAnchorsExtension.Mk [] false None))
  else if id =? fakeOldExtensionChannelID then Some (FakeChannelID (FakeChannelIDExtension.Mk true))
  else if id =? fakeExtensionChannelID then Some (FakeChannelID (FakeChannelIDExtension.Mk false))
  else if id =? utlsExtensionECH then Some (GREASEEncryptedClientHello (zero_ech r.(c_ech)))
  else if id =? extensionRenegotiationInfo then Some (RenegotiationInfo (RenegotiationInfoExtension.Mk RenegotiateNever []))
  else if isGREASEUint16 id then Some (UtlsGREASE (UtlsGREASEExtension.Mk 0 []))
  else None.

(** The assertion [ext.(TLSExtensionWriter)]. *)
Definition is_writer (x : Ext X) : bool := match x with Generic _ | Cookie _ => false | _ => true end.

(** [extWriter.Write(b)]: the extension afterwards, or an error. *)
Definition wrote_as {E} (c : E -> Ext X) (r : res (E * Z)) : outcome (res (Ext X)) :=
  Ret (try (e, n) := r in inr (c e)).
Definition ext_Write (r : capture_rand) (x : Ext X) (b : bytes) : outcome (res (Ext X)) :=
  match x with
  | SNI e => wrote_as SNI (SNIExtension.Write e b)
  | StatusRequest e => wrote_as StatusRequest (StatusRequestExtension.Write e b)
  | SupportedCurves e => wrote_as SupportedCurves (SupportedCurvesExtension.Write e b)
  | SupportedPoints e => wrote_as SupportedPoints (SupportedPointsExtension.Write e b)
  | SignatureAlgorithms e => wrote_as SignatureAlgorithms (SignatureAlgorithmsExtension.Write e b)
  | StatusRequestV2 e => wrote_as StatusRequestV2 (StatusRequestV2Extension.Write e b)
  | SignatureAlgorithmsCert e => wrote_as SignatureAlgorithmsCert (SignatureAlgorithmsCertExtension.Write e b)
  | ALPN e => wrote_as ALPN (ALPNExtension.Write e b)
  | ApplicationSettings e => wrote_as ApplicationSettings (ApplicationSettingsExtension.Write e b)
  | SCT e => wrote_as SCT (SCTExtension.Write e b)
  | ExtendedMasterSecret e => wrote_as ExtendedMasterSecret (ExtendedMasterSecretExtension.Write e b)
  | UtlsGREASE e => wrote_as UtlsGREASE (UtlsGREASEExtension.Write e b)
  | UtlsPadding e => wrote_as UtlsPadding (UtlsPaddingExtension.Write e b)
  | UtlsCompressCert e => wrote_as UtlsCompressCert (UtlsCompressCertExtension.Write e b)
  | KeyShare e => wrote_as KeyShare (KeyShareExtension.Write e b)
  | PSKKeyExchangeModes e => wrote_as PSKKeyExchangeModes (PSKKeyExchangeModesExtension.Write e b)
  | SupportedVersions e => wrote_as SupportedVersions (SupportedVersionsExtension.Write e b)
  | NPN e => wrote_as NPN (NPNExtension.Write e b)
  | RenegotiationInfo e => wrote_as RenegotiationInfo (RenegotiationInfoExtension.Write e b)
  | FakeChannelID e => wrote_as FakeChannelID (FakeChannelIDExtension.Write e b)
  | FakeRecordSizeLimit e => wrote_as FakeRecordSizeLimit (FakeRecordSizeLimitExtension.Write e b)
  | FakeTokenBinding e => wrote_as FakeTokenBinding (FakeTokenBindingExtension.Write e b)
  | FakeDelegatedCredentials e => wrote_as FakeDelegatedCredentials (FakeDelegatedCredentialsExtension.Write e b)
  | FakeEarlyData e => wrote_as FakeEarlyData (FakeEarlyDataExtension.Write e b)
  | TrustAnchors e => wrote_as TrustAnchors (TrustAnchorsExtension.Write e b)
  | ApplicationSettingsNew e => wrote_as ApplicationSettingsNew (ApplicationSettingsExtensionNew.Write e b)
  | SessionTicket e => wrote_as SessionTicket (SessionTicketExtension.Write e b)
  | QUICTransportParameters e => wrote_as QUICTransportParameters (QUICTransportParametersExtension.Write e b)
  | UtlsPreSharedKey e => wrote_as UtlsPreSharedKey (UtlsPreSharedKeyExtension.Write e b)
  | FakePreSharedKey e => wrote_as FakePreSharedKey (FakePreSharedKeyExtension.Write e b)
  | GREASEEncryptedClientHello e =>
      run w := GREASEEncryptedClientHelloExtension.Write r.(c_key) e b in wrote_as GREASEEncryptedClientHello w
  | Generic _ | Cookie _ => Panic
  end.

(** ** The specification *)

Definition set_CipherSuites (v : list Z) (s : @spec X) : spec :=
  ClientHelloSpec.Mk v s.(ClientHelloSpec.CompressionMethods) s.(ClientHelloSpec.Extensions) s.(ClientHelloSpec.TLSVersMin)
    s.(ClientHelloSpec.TLSVersMax) s.(ClientHelloSpec.GetSessionID) s.(ClientHelloSpec.GREASESeed).
Definition set_CompressionMethods (v : bytes) (s : @spec X) : spec :=
  ClientHelloSpec.Mk s.(ClientHelloSpec.CipherSuites) v s.(ClientHelloSpec.Extensions) s.(ClientHelloSpec.TLSVersMin)
    s.(ClientHelloSpec.TLSVersMax) s.(ClientHelloSpec.GetSessionID) s.(ClientHelloSpec.GREASESeed).
Definition set_TLSVers (min max : Z) (s : @spec X) : spec :=
  ClientHelloSpec.Mk s.(ClientHelloSpec.CipherSuites) s.(ClientHelloSpec.CompressionMethods) s.(ClientHelloSpec.Extensions) min
    max s.(ClientHelloSpec.GetSessionID) s.(ClientHelloSpec.GREASESeed).
Definition append_ext (x : Ext X) (s : @spec X) : spec :=
  ClientHelloSpec.set_Extensions (s.(ClientHelloSpec.Extensions) ++ [x]) s.
Definition empty_spec : @spec X := ClientHelloSpec.Mk [] [] [] 0 0 None no_seed.

Definition updated : Type := outcome (@spec X * option gerror).
Definition fail (s : @spec X) (e : gerror) : updated := Ret (s, Some e).

Definition ReadCipherSuites (b : bytes) (chs : @spec X) : @spec X * option gerror :=
  match loop (fun out s => read (suite, s) := ReadUint16 s in Some (out ++ [unGREASEUint16 suite], s)) [] b with
  | Some suites => (set_CipherSuites suites chs, None)
  | None => (chs, Some (ErrorNew "unable to read ciphersuite"))
  end.

Definition ReadCompressionMethods (compressionMethods : bytes) (chs : @spec X) : @spec X * option gerror :=
  (set_CompressionMethods compressionMethods chs, None).

(** [for !extensions.Empty() { ... }]; the randomness of an extension is that of
    its place in the list. *)
Fixpoint read_exts (fuel : nat) (rnd : nat -> capture_rand) (allowBluntMimicry realPSK : bool) (extensions : bytes)
    (chs : @spec X) : updated :=
  if Empty extensions then Ret (chs, None) else
  match fuel with
  | O => Panic
  | S fuel =>
      match ReadUint16 extensions with
      | None => fail chs (ErrorNew "unable to read extension ID")
      | Some (extension, extensions) =>
      match ReadUint16LengthPrefixed extensions with
      | None => fail chs (Errorf "unable to read data for extension %x" [extension])
      | Some (extData, extensions) =>
          let r := rnd (length chs.(ClientHelloSpec.Extensions)) in
          match ExtensionFromID r extension with
          | Some ext =>
              if is_writer ext then
                let ext := if extension =? extensionPreSharedKey then
                             if realPSK then UtlsPreSharedKey (UtlsPreSharedKeyExtension.Mk [] [] [] [] None None None false false)
                             else FakePreSharedKey (FakePreSharedKeyExtension.Mk None None false)
                           else ext in
                let chs := if extension =? extensionSupportedVersions then set_TLSVers 0 0 chs else chs in
                run w := ext_Write r ext extData in
                match w with
                | inl e => fail chs e
                | inr ext => read_exts fuel rnd allowBluntMimicry realPSK extensions (append_ext ext chs)
                end
              else if allowBluntMimicry then
                read_exts fuel rnd allowBluntMimicry realPSK extensions (append_ext (Generic (GenericExtension.Mk extension extData)) chs)
              else fail chs (Errorf "unsupported extension %d" [extension])
          | None =>
              if allowBluntMimicry then
                read_exts fuel rnd allowBluntMimicry realPSK extensions (append_ext (Generic (GenericExtension.Mk extension extData)) chs)
              else fail chs (Errorf "unsupported extension %d" [extension])
          end
      end
      end
  end.
Definition ReadTLSExtensions (rnd : nat -> capture_rand) (b : bytes) (allowBluntMimicry realPSK : bool) (chs : @spec X) : updated :=
  read_exts (length b) rnd allowBluntMimicry realPSK b chs.

Definition boring_padding_ext : Ext X := UtlsPadding (UtlsPaddingExtension.Mk 0 false (Some BoringPaddingStyle)).

(** The loop stops at the first padding or pre_shared_key extension. *)
Fixpoint add_padding (l : list (Ext X)) : list (Ext X) :=
  match l with
  | [] => [boring_padding_ext]
  | UtlsPadding _ :: _ => l
  | (UtlsPreSharedKey _ | FakePreSharedKey _) :: _ => boring_padding_ext :: l
  | x :: l => x :: add_padding l
  end.
Definition AlwaysAddPadding (chs : @spec X) : @spec X := ClientHelloSpec.set_Extensions (add_padding chs.(ClientHelloSpec.Extensions)) chs.

(** The first padding extension pads to the length of the captured message. *)
Fixpoint pad_first (n : Z) (l : list (Ext X)) : list (Ext X) :=
  match l with
  | [] => []
  | UtlsPadding e :: l =>
      UtlsPadding (UtlsPaddingExtension.Mk e.(UtlsPaddingExtension.PaddingLen) e.(UtlsPaddingExtension.WillPad) (Some (AlwaysPadToLen n))) :: l
  | x :: l => x :: pad_first n l
  end.

(** [bluntMimicry] and [realPSK] are the control flags, false when not given.  The
    content of the specification is dropped first. *)
Definition FromRaw (rnd : nat -> capture_rand) (raw : bytes) (bluntMimicry realPSK : bool) : updated :=
  let chs := empty_spec in
  match read (contentType, s) := ReadUint8 raw in read (recordVersion, s) := ReadUint16 s in read s := Skip 2 s in
        Some (contentType, recordVersion, s) with
  | None => fail chs (ErrorNew "unable to read record type, version, and length")
  | Some (contentType, recordVersion, s) =>
  if negb (contentType =? recordTypeHandshake) then fail chs (ErrorNew "record is not a handshake") else
  match read (handshakeType, s) := ReadUint8 s in read s := Skip 3 s in
        read (handshakeVersion, s) := ReadUint16 s in read s := Skip 32 s in Some (handshakeType, handshakeVersion, s) with
  | None => fail chs (ErrorNew "unable to read handshake message type, length, and random")
  | Some (handshakeType, handshakeVersion, s) =>
  if negb (handshakeType =? typeClientHello) then fail chs (ErrorNew "handshake message is not a ClientHello") else
  let chs := set_TLSVers recordVersion handshakeVersion chs in
  match ReadUint8LengthPrefixed s with
  | None => fail chs (ErrorNew "unable to read session id")
  | Some (ignoredSessionID, s) =>
  match ReadUint16LengthPrefixed s with
  | None => fail chs (ErrorNew "unable to read ciphersuites")
  | Some (cipherSuitesBytes, s) =>
  match ReadCipherSuites cipherSuitesBytes chs with
  | (chs, Some e) => fail chs e
  | (chs, None) =>
  match ReadUint8LengthPrefixed s with
  | None => fail chs (ErrorNew "unable to read compression methods")
  | Some (compressionMethods, s) =>
  match ReadCompressionMethods compressionMethods chs with
  | (chs, Some e) => fail chs e
  | (chs, None) =>
  if Empty s then Ret (chs, None) else
  match ReadUint16LengthPrefixed s with
  | None => fail chs (ErrorNew "unable to read extensions data")
  | Some (extensions, s) =>
  run (chs, err) := ReadTLSExtensions rnd extensions bluntMimicry realPSK chs in
  match err with
  | Some e => fail chs e
  | None => Ret (ClientHelloSpec.set_Extensions (pad_first (len raw - 5) chs.(ClientHelloSpec.Extensions)) chs, None)
  end end end end end end end end end.

(** ** Fingerprinter *)

Record Fingerprinter := MkFingerprinter { AllowBluntMimicry : bool; f_AlwaysAddPadding : bool; RealPSKResumption : bool }.

Definition RawClientHello (rnd : nat -> capture_rand) (f : Fingerprinter) (raw : bytes) : outcome (res (@spec X)) :=
  run (chs, err) := FromRaw rnd raw f.(AllowBluntMimicry) f.(RealPSKResumption) in
  match err with
  | Some e => Ret (inl e)
  | None => Ret (inr (if f.(f_AlwaysAddPadding) then AlwaysAddPadding chs else chs))
  end.
Definition FingerprintClientHello (rnd : nat -> capture_rand) (f : Fingerprinter) (data : bytes) : outcome (res (@spec X)) :=
  RawClientHello rnd f data.

(** ** Importing from client.tlsfingerprint.io *)

(** A list whose length goes before it as a byte. *)
Definition u8_prefixed (d : bytes) : bytes := u8 (Z.land (len d) 0xff) :: d.

(** Each group and length is followed by as many zeros as the low byte of the
    length says. *)
Fixpoint zero_shares (fuel : nat) (data : bytes) : outcome bytes :=
  match data with
  | [] => Ret []
  | _ =>
      match fuel, data with
      | S fuel, g0 :: g1 :: l0 :: l1 :: data =>
          run rest := zero_shares fuel data in
          Ret ([g0; g1; l0; l1] ++ replicate (Z.to_nat (b2z l1)) x00 ++ rest)
      | _, _ => Panic
      end
  end.

(** The field of the data that holds the content of an extension type, and how it
    is turned into the body that [Write] reads. *)
Definition import_field (extType : Z) : option (string * (bytes -> outcome bytes)) :=
  if extType =? extensionSupportedPoints then Some ("pt_fmts"%string, Ret)
  else if extType =? extensionSignatureAlgorithms then Some ("sig_algs"%string, Ret)
  else if extType =? extensionSupportedVersions then Some ("supported_versions"%string, fun d => Ret (u8_prefixed d))
  else if extType =? extensionSupportedCurves then Some ("curves"%string, Ret)
  else if extType =? extensionALPN then Some ("alpn"%string, Ret)
  else if extType =? extensionKeyShare then Some ("key_share"%string, fun d =>
    run z := zero_shares (length d) d in Ret (u8 (Z.shiftr (len z) 8) :: u8 (Z.land (len z) 0xff) :: z))
  else if extType =? extensionPSKModes then Some ("psk_key_exchange_modes"%string, fun d => Ret (u8_prefixed d))
  else if extType =? utlsExtensionCompressCertificate then Some ("cert_compression_algs"%string, fun d => Ret (u8_prefixed d))
  else if extType =? fakeRecordSizeLimit then Some ("record_size_limit"%string, Ret)
  else None.

Definition required (field : string) : gerror := ErrorNew (field ++ " is required").

(** [for _, extType := range tlsExtensionTypes { ... }] *)
Fixpoint import_exts (rnd : nat -> capture_rand) (data : gmap string bytes) (types : list Z) (chs : @spec X) : updated :=
  match types with
  | [] => Ret (chs, None)
  | extType :: types =>
      let r := rnd (length chs.(ClientHelloSpec.Extensions)) in
      match ExtensionFromID r extType with
      | None => fail chs (Errorf "unsupported extension %d" [extType])
      | Some ext =>
          if negb (is_writer ext) then fail chs (Errorf "unsupported extension %d" [extType]) else
          match import_field extType with
          | Some (field, body) =>
              let chs := if extType =? extensionSupportedVersions then set_TLSVers 0 0 chs else chs in
              match data !! field with
              | None => fail chs (required field)
              | Some d =>
                  run b := body d in
                  run w := ext_Write r ext b in
                  match w with
                  | inl e => fail chs e
                  | inr ext => import_exts rnd data types (append_ext ext chs)
                  end
              end
          | None =>
              let ext := if extType =? utlsExtensionApplicationSettings then ApplicationSettings (ApplicationSettingsExtension.Mk [str "h2"])
                else if extType =? utlsExtensionApplicationSettingsNew then ApplicationSettingsNew (ApplicationSettingsExtensionNew.Mk [str "h2"])
                else ext in
              import_exts rnd data types (append_ext ext chs)
          end
      end
  end.

(** A slice that could not be read is nil in [chs.CipherSuites] as well. *)
Definition ImportTLSClientHello (rnd : nat -> capture_rand) (data : gmap string bytes) (chs : @spec X) : updated :=
  match data !! "cipher_suites"%string with
  | None => fail chs (required "cipher_suites")
  | Some d =>
  match helper.Uint8to16 d with
  | inl e => fail (set_CipherSuites [] chs) e
  | inr suites =>
  let chs := set_CipherSuites suites chs in
  match data !! "compression_methods"%string with
  | None => fail chs (required "compression_methods")
  | Some methods =>
  let chs := set_CompressionMethods methods chs in
  match data !! "extensions"%string with
  | None => fail chs (required "extensions")
  | Some d =>
  match helper.Uint8to16 d with
  | inl e => fail chs e
  | inr types => import_exts rnd data types chs
  end end end end end.
End Capture.
