(* ===== verification/FingerprintFacts.v ===== *)
(** * What a captured ClientHello becomes

    Theorems on Fingerprint: every input is read without a panic and its
    extensions come out in order and of the same type; a hello that the marshaller
    wrote is read back to extensions that send the same again. *)

From S2P Require Import Prelude Cryptobyte Common Config Negotiation Codec Buffer KeySchedule Names Quic Messages Ticket ClientHello Public Extensions PreSharedKey ECH GreaseECH Marshal Shuffle Parrots ParrotFacts Fingerprint.

Section Facts.
Context {X : X509} {C : Cryptobyte} {Cok : CryptobyteOk C}.
Implicit Types x y : Ext X.

(** ** Any input *)

(** The type on the wire of an extension other than GREASE. *)
Definition ext_type x : option Z :=
  match x with
  | FakeChannelID e => Some (if e.(FakeChannelIDExtension.OldExtensionID) then fakeOldExtensionChannelID else fakeExtensionChannelID)
  | _ => wire_type x
  end.

(** A captured block and the extension made of it: a GREASE block becomes a GREASE
    extension with the same body, any other an extension of the same type. *)
Definition captured_as (b : Z * bytes) x : Prop :=
  if isGREASEUint16 b.1 then x = UtlsGREASE (UtlsGREASEExtension.Mk GREASE_PLACEHOLDER b.2) else ext_type x = Some b.1.

Ltac zcase := match goal with |- context[?a =? ?b] => destruct (Z.eqb_spec a b) as [->|] end.

Lemma from_id_type r id x : ExtensionFromID r id = Some x -> is_writer x = true /\
  if isGREASEUint16 id then x = UtlsGREASE (UtlsGREASEExtension.Mk 0 []) else ext_type x = Some id.
Proof. unfold ExtensionFromID. repeat (zcase; [by intros [= <-]|]). destruct (isGREASEUint16 id); [by intros [= <-]|done]. Qed.
Lemma generic_id r id : ExtensionFromID r id = None -> isGREASEUint16 id = false.
Proof. unfold ExtensionFromID. repeat (zcase; [done|]). by destruct (isGREASEUint16 id). Qed.

Lemma wrote_as_inv {E} (c : E -> Ext X) (w : res (E * Z)) : exists o, wrote_as c w = Ret o /\
  forall x', o = inr x' -> exists e, x' = c e /\ exists n, w = inr (e, n).
Proof.
  unfold wrote_as. eexists. split; [done|]. intros x'. destruct w as [e|[e n]]; [done|]. intros [= <-]. eauto.
Qed.

Lemma ech_Write_ok k g b : GREASEEncryptedClientHelloExtension.Write k g b <> Panic.
Proof.
  unfold GREASEEncryptedClientHelloExtension.Write, cipherLen. repeat case_match; try done.
Qed.

(** Reading the body of an extension does not change its type. *)
Lemma ext_Write_type r x b : is_writer x = true -> exists o, ext_Write r x b = Ret o /\
  forall x', o = inr x' -> ext_type x' = ext_type x /\
    (forall e, x = UtlsGREASE e -> x' = UtlsGREASE (UtlsGREASEExtension.Mk GREASE_PLACEHOLDER b)).
Proof.
  intros Hw. assert (Hs : forall E (c : E -> Ext X) w, (forall e n, w = inr (e, n) -> ext_type (c e) = ext_type x /\
      (forall e', x = UtlsGREASE e' -> c e = UtlsGREASE (UtlsGREASEExtension.Mk GREASE_PLACEHOLDER b))) ->
    exists o, wrote_as c w = Ret o /\ forall x', o = inr x' -> ext_type x' = ext_type x /\
      (forall e, x = UtlsGREASE e -> x' = UtlsGREASE (UtlsGREASEExtension.Mk GREASE_PLACEHOLDER b))).
  { intros E c w H. destruct (wrote_as_inv c w) as (o & Ho & Hx). exists o. split; [done|]. intros x' (e & -> & n & Hn)%Hx. by eapply H. }
  destruct x; try done; cbn [ext_Write]; try (apply Hs; by intros).
  - apply Hs. by intros e' n [= <- _].
  - apply Hs. by intros e' n [= <- _].
  - destruct (GREASEEncryptedClientHelloExtension.Write _ _ _) as [|w] eqn:E; [by apply ech_Write_ok in E|]. cbn [obind]. by apply Hs.
Qed.

Lemma set_TLSVers_exts a b (s : @spec X) : (set_TLSVers a b s).(ClientHelloSpec.Extensions) = s.(ClientHelloSpec.Extensions).
Proof. done. Qed.

(** From [s] to [s'], the blocks of [b] have been appended. *)
Definition reads (b : bytes) (s s' : @spec X) : Prop :=
  s'.(ClientHelloSpec.CipherSuites) = s.(ClientHelloSpec.CipherSuites) /\
  s'.(ClientHelloSpec.CompressionMethods) = s.(ClientHelloSpec.CompressionMethods) /\
  exists blocks l, b = enc_exts blocks /\ s'.(ClientHelloSpec.Extensions) = s.(ClientHelloSpec.Extensions) ++ l /\ Forall2 captured_as blocks l.

Lemma reads_nil s : reads [] s s.
Proof. split_and!; [done..|]. exists [], []. by rewrite app_nil_r. Qed.
Lemma reads_step id d x b (s s' : @spec X) (versions : bool) : captured_as (id, d) x ->
  reads b (append_ext x (if versions then set_TLSVers 0 0 s else s)) s' -> reads (be 2 id ++ (be 2 (len d) ++ d) ++ b) s s'.
Proof.
  intros Hx (H1 & H2 & blocks & l & -> & H3 & H4). split_and!; [rewrite H1; by destruct versions|rewrite H2; by destruct versions|].
  exists ((id, d) :: blocks), (x :: l). split_and!; [|rewrite H3; destruct versions; cbn; by rewrite <- app_assoc|by constructor].
  change (enc_exts ((id, d) :: blocks)) with (enc_ext (id, d) ++ enc_exts blocks). unfold enc_ext. cbn [fst snd]. by rewrite <- !app_assoc.
Qed.

(** The loop ends and takes the blocks in order. *)
Lemma read_exts_sound rnd blunt psk fuel : forall b s, (length b <= fuel)%nat ->
  exists s' err, read_exts fuel rnd blunt psk b s = Ret (s', err) /\ (err = None -> reads b s s').
Proof.
  induction fuel as [|fuel IH]; intros b s Hf; cbn [read_exts]; rewrite Empty_spec;
    (destruct b as [|b0 b']; [exists s, None; split; [done|]; intros _; apply reads_nil|]); [cbn in Hf; lia|].
  set (b := b0 :: b') in *. autorewrite with cbspec.
  destruct (rd_uint 2 b) as [[id b1]|] eqn:E1; [|by eexists _, _]. autorewrite with cbspec.
  destruct (rd_lp 2 b1) as [[d b2]|] eqn:E2; [|by eexists _, _].
  apply rd_uint_eq in E1 as [-> _]. apply rd_lp_eq in E2 as [-> _].
  assert (Hl : (length b2 <= fuel)%nat) by (rewrite !length_app, length_be in Hf; lia).
  assert (Hstep : forall x (versions : bool), captured_as (id, d) x ->
    exists s' err, read_exts fuel rnd blunt psk b2 (append_ext x (if versions then set_TLSVers 0 0 s else s)) = Ret (s', err) /\
    (err = None -> reads (be 2 id ++ (be 2 (len d) ++ d) ++ b2) s s')).
  { intros x versions Hx. edestruct (IH b2) as (s' & err & -> & H); [done|]. exists s', err. split; [done|].
    intros He%H. by eapply reads_step. }
  destruct (ExtensionFromID _ id) as [x|] eqn:Ex.
  - apply from_id_type in Ex as [Hw Ht]. rewrite Hw. set (x0 := if id =? extensionPreSharedKey then _ else x).
    assert (Hw0 : is_writer x0 = true) by (unfold x0; repeat case_match; done).
    destruct (ext_Write_type (rnd (length s.(ClientHelloSpec.Extensions))) x0 d Hw0) as (o & -> & Ho). cbn [obind].
    destruct o as [e|x1]; [by eexists _, _|]. destruct (Ho x1 eq_refl) as [Ho1 Ho2].
    assert (Hx0 : if isGREASEUint16 id then exists e, x0 = UtlsGREASE e else ext_type x0 = Some id).
    { unfold x0. destruct (Z.eqb_spec id extensionPreSharedKey) as [->|]; [by destruct psk|].
      destruct (isGREASEUint16 id); [|done]. rewrite Ht. eauto. }
    apply Hstep. unfold captured_as. cbn [fst snd].
    destruct (isGREASEUint16 id); [|congruence]. destruct Hx0 as [e He]. by eapply Ho2.
  - pose proof (generic_id _ _ Ex) as Hg. destruct blunt; [|by eexists _, _]. apply (Hstep _ false).
    unfold captured_as. cbn [fst]. by rewrite Hg.
Qed.

Lemma suites_sound (f : Z -> Z) b : forall acc out,
  loop (fun out s => read (v, s) := ReadUint16 s in Some (out ++ [f v], s)) acc b = Some out ->
  exists l, b = enc_u16s l /\ out = acc ++ map f l.
Proof.
  set (body := fun out s => _). assert (Hs : shrinks body).
  { intros st s st' s'. unfold body. autorewrite with cbspec. destruct (rd_uint 2 s) as [[v r]|] eqn:E; [|done]. intros [= <- <-].
    apply rd_uint_shrinks in E. unfold len in E. lia. }
  remember (length b) as n eqn:Hn. revert b Hn. induction n as [n IH] using lt_wf_ind. intros b -> acc out H.
  destruct b as [|b0 b]; [rewrite loop_nil in H; injection H as <-; exists []; by rewrite app_nil_r|].
  rewrite loop_step in H by done. destruct (body acc (b0 :: b)) as [[acc1 b1]|] eqn:E; [|done].
  pose proof (Hs _ _ _ _ E) as Hlt. apply (IH _ Hlt _ eq_refl) in H as (l & -> & ->). unfold body in E. autorewrite with cbspec in E.
  destruct (rd_uint 2 _) as [[v r]|] eqn:E1; [|done]. injection E as <- ->. apply rd_uint_eq in E1 as [-> _].
  exists (v :: l). split; [done|]. cbn. by rewrite <- app_assoc.
Qed.

Lemma pad_first_captured n blocks l : Forall2 captured_as blocks l -> Forall2 captured_as blocks (pad_first n l).
Proof.
  induction 1 as [|b x blocks l Hx Hl IH]; [constructor|]. destruct x; cbn [pad_first]; constructor; try done.
  unfold captured_as in *. by destruct (isGREASEUint16 b.1).
Qed.

(** The bytes of a record with a ClientHello up to its extensions. *)
Definition hello_record (recordVersion : Z) (l2 l3 : bytes) (version : Z) (random sessionId : bytes) (suites : list Z) (methods : bytes) : bytes :=
  be 1 recordTypeHandshake ++ be 2 recordVersion ++ l2 ++ be 1 typeClientHello ++ l3 ++ be 2 version ++ random ++
  enc_lp 1 sessionId ++ enc_lp 2 (enc_u16s suites) ++ enc_lp 1 methods.

(** Every input given to [FromRaw] is read to its end or refused, without a
    panic.  From a captured ClientHello it takes the cipher suites and the
    compression methods as they are, with GREASE values replaced by the
    placeholder, and one extension for each extension block, in order: a GREASE
    extension for a GREASE block, otherwise one of the type of the block.  The
    lengths of the record and of the message, and what follows the extensions, are
    not looked at. *)
Theorem fingerprint_keeps_order rnd raw blunt psk :
  exists s err, FromRaw rnd raw blunt psk = Ret (s, err) /\ (err = None ->
    exists recordVersion l2 l3 version random sessionId suites methods blocks rest,
      raw = hello_record recordVersion l2 l3 version random sessionId suites methods ++ rest /\
      length l2 = 2%nat /\ length l3 = 3%nat /\ length random = 32%nat /\
      s.(ClientHelloSpec.CipherSuites) = map unGREASEUint16 suites /\ s.(ClientHelloSpec.CompressionMethods) = methods /\
      (rest = [] /\ blocks = [] \/ exists junk, rest = enc_lp 2 (enc_exts blocks) ++ junk) /\
      Forall2 captured_as blocks s.(ClientHelloSpec.Extensions)).
Proof.
  unfold FromRaw. autorewrite with cbspec. 
  destruct (rd_uint 1 raw) as [[ct s1]|] eqn:E1; [|by eexists _, _]. autorewrite with cbspec.
  destruct (rd_uint 2 s1) as [[rv s2]|] eqn:E2; [|by eexists _, _]. autorewrite with cbspec.
  destruct (rd_bytes 2 s2) as [[l2 s3]|] eqn:E3; [|by eexists _, _]. cbn [fmap option_fmap option_map snd].
  destruct (Z.eqb_spec ct recordTypeHandshake) as [->|]; [|by eexists _, _]. cbn [negb]. autorewrite with cbspec.
  destruct (rd_uint 1 s3) as [[ht s4]|] eqn:E4; [|by eexists _, _]. autorewrite with cbspec.
  destruct (rd_bytes 3 s4) as [[l3 s5]|] eqn:E5; [|by eexists _, _]. cbn [fmap option_fmap option_map snd]. autorewrite with cbspec.
  destruct (rd_uint 2 s5) as [[hv s6]|] eqn:E6; [|by eexists _, _]. autorewrite with cbspec.
  destruct (rd_bytes 32 s6) as [[random s7]|] eqn:E7; [|by eexists _, _]. cbn [fmap option_fmap option_map snd].
  destruct (Z.eqb_spec ht typeClientHello) as [->|]; [|by eexists _, _]. cbn [negb]. autorewrite with cbspec.
  destruct (rd_lp 1 s7) as [[sid s8]|] eqn:E8; [|by eexists _, _]. autorewrite with cbspec.
  destruct (rd_lp 2 s8) as [[sb s9]|] eqn:E9; [|by eexists _, _]. autorewrite with cbspec.
  unfold ReadCipherSuites. destruct (loop _ [] sb) as [suites|] eqn:E10; [|by eexists _, _]. autorewrite with cbspec.
  destruct (rd_lp 1 s9) as [[methods s11]|] eqn:E11; [|by eexists _, _]. cbn [ReadCompressionMethods].
  apply rd_uint_eq in E1 as [-> _], E2 as [-> _], E4 as [-> _], E6 as [-> _]. apply rd_bytes_eq in E3 as [-> H3], E5 as [-> H5], E7 as [-> H7].
  apply rd_lp_eq in E8 as [-> _], E9 as [-> _], E11 as [-> _]. apply suites_sound in E10 as (us & -> & ->). 
  set (chs := set_CompressionMethods methods _). set (raw := be 1 recordTypeHandshake ++ _).
  assert (Hraw : raw = hello_record rv l2 l3 hv random sid us methods ++ s11) by (unfold raw, hello_record, enc_lp; by rewrite <- !app_assoc).
  assert (Hlen : length l2 = 2%nat /\ length l3 = 3%nat /\ length random = 32%nat) by (unfold len in *; lia). destruct Hlen as (? & ? & ?).
  rewrite Empty_spec. destruct s11 as [|b0 s11]; [|autorewrite with cbspec].
  { exists chs, None. split; [done|]. intros _. exists rv, l2, l3, hv, random, sid, us, methods, [], []. split_and!; try done. by left. }
  destruct (rd_lp 2 (b0 :: s11)) as [[eb junk]|] eqn:E12; [|by eexists _, _]. apply rd_lp_eq in E12 as [E12 _]. rewrite E12 in Hraw.
  destruct (read_exts_sound rnd blunt psk (length eb) eb chs (le_n _)) as (s' & err & Hr & Hs). unfold ReadTLSExtensions. rewrite Hr. cbn [obind].
  destruct err as [e|]; [by eexists _, _|]. eexists _, None. split; [done|]. intros _.
  destruct (Hs eq_refl) as (Hc & Hm & blocks & l & -> & He & Hf). cbn in He.
  exists rv, l2, l3, hv, random, sid, us, methods, blocks, (enc_lp 2 (enc_exts blocks) ++ junk).
  split_and!; [done..|exact Hc|exact Hm|by right; exists junk|]. cbn [ClientHelloSpec.Extensions ClientHelloSpec.set_Extensions].
  rewrite He. by apply pad_first_captured.
Qed.

(** ** A hello that the marshaller wrote *)

(** The captured share of a share: its key is dropped, a GREASE one stays. *)
Definition bare_share (ks : KeyShare.t) : KeyShare.t :=
  let g := unGREASEUint16 ks.(KeyShare.Group) in
  KeyShare.Mk g (if negb (g =? GREASE_PLACEHOLDER) then [] else ks.(KeyShare.Data)).

(** What is captured of an extension that was sent: the same extension, without
    what belongs to a connection (names, keys, tickets) and with GREASE values
    replaced by the placeholder.  Types that are not known come out opaque. *)
Definition recovered (realPSK : bool) (pad : Z -> Z * bool) x y : Prop :=
  match x with
  | SNI _ => y = SNI (SNIExtension.Mk [])
  | SupportedCurves e => y = SupportedCurves (SupportedCurvesExtension.Mk (map unGREASEUint16 e.(SupportedCurvesExtension.Curves)))
  | SupportedVersions e => y = SupportedVersions (SupportedVersionsExtension.Mk (map unGREASEUint16 e.(SupportedVersionsExtension.Versions)))
  | KeyShare e => y = KeyShare (KeyShareExtension.Mk (map bare_share e.(KeyShareExtension.KeyShares)))
  | UtlsGREASE e => y = UtlsGREASE (UtlsGREASEExtension.Mk GREASE_PLACEHOLDER e.(UtlsGREASEExtension.Body))
  | UtlsPadding _ => y = UtlsPadding (UtlsPaddingExtension.Mk 0 false (Some pad))
  | Cookie e => y = Generic (GenericExtension.Mk extensionCookie (enc_lp 2 e.(CookieExtension.Cookie)))
  | FakeEarlyData _ => y = Generic (GenericExtension.Mk extensionEarlyData [])
  | NPN _ => y = NPN (NPNExtension.Mk [])
  | RenegotiationInfo _ => y = RenegotiationInfo (RenegotiationInfoExtension.Mk RenegotiateOnceAsClient [])
  | TrustAnchors e => y = TrustAnchors (TrustAnchorsExtension.Mk (TrustAnchorsExtension.list_ e) false None)
  | SessionTicket _ => y = SessionTicket (SessionTicketExtension.Mk None [] false)
  | QUICTransportParameters e => exists e', y = QUICTransportParameters e' /\ block_of y = block_of x
  | UtlsPreSharedKey _ | FakePreSharedKey _ =>
      if realPSK then y = UtlsPreSharedKey (UtlsPreSharedKeyExtension.Mk [] [] [] [] None None None false false)
      else exists e', y = FakePreSharedKey e' /\ block_of y = block_of x
  | GREASEEncryptedClientHello g => exists g', y = GREASEEncryptedClientHello g' /\
      g'.(GREASEEncryptedClientHelloExtension.CandidateCipherSuites) = [g.(GREASEEncryptedClientHelloExtension.cipherSuite)] /\
      g'.(GREASEEncryptedClientHelloExtension.CandidatePayloadLens) = [len g.(GREASEEncryptedClientHelloExtension.payload) - 16] /\
      len g'.(GREASEEncryptedClientHelloExtension.EncapsulatedKey) = len g.(GREASEEncryptedClientHelloExtension.EncapsulatedKey)
  | _ => y = x
  end.

(** The numbers and strings of an extension fit their fields, and its lists are not
    empty where the format forbids it. *)
Definition u16_list (l : list Z) : Prop := Forall is_u16 l /\ l <> [].
Definition str8_list (l : list bytes) : Prop := Forall (fun s => len s < 256) l /\ Forall (fun s => s <> []) l.
Definition capturable x : Prop :=
  (forall b, block_of x = Some b -> is_u16 b.1 /\ len b.2 < 2 ^ 16) /\
  match x with
  | SupportedCurves e => u16_list e.(SupportedCurvesExtension.Curves)
  | SupportedPoints e => e.(SupportedPointsExtension.SupportedPoints) <> [] /\ len e.(SupportedPointsExtension.SupportedPoints) < 256
  | SignatureAlgorithms e => u16_list e.(SignatureAlgorithmsExtension.SupportedSignatureAlgorithms)
  | SignatureAlgorithmsCert e => u16_list e.(SignatureAlgorithmsCertExtension.SupportedSignatureAlgorithms)
  | FakeDelegatedCredentials e => u16_list e.(FakeDelegatedCredentialsExtension.SupportedSignatureAlgorithms)
  | SupportedVersions e => u16_list e.(SupportedVersionsExtension.Versions) /\ 2 * len e.(SupportedVersionsExtension.Versions) < 256
  | UtlsCompressCert e => Forall is_u16 e.(UtlsCompressCertExtension.Algorithms) /\ 2 * len e.(UtlsCompressCertExtension.Algorithms) < 256
  | ALPN e => str8_list e.(ALPNExtension.AlpnProtocols) /\ e.(ALPNExtension.AlpnProtocols) <> []
  | ApplicationSettings e => str8_list e.(ApplicationSettingsExtension.SupportedProtocols) /\ e.(ApplicationSettingsExtension.SupportedProtocols) <> []
  | ApplicationSettingsNew e => str8_list e.(ApplicationSettingsExtensionNew.SupportedProtocols) /\ e.(ApplicationSettingsExtensionNew.SupportedProtocols) <> []
  | TrustAnchors e => str8_list (TrustAnchorsExtension.list_ e)
  | KeyShare e => Forall (fun ks => is_u16 ks.(KeyShare.Group) /\ ks.(KeyShare.Data) <> [] /\ len ks.(KeyShare.Data) < 2 ^ 16) e.(KeyShareExtension.KeyShares)
  | PSKKeyExchangeModes e => len e.(PSKKeyExchangeModesExtension.Modes) < 256
  | FakeRecordSizeLimit e => is_u16 e.(FakeRecordSizeLimitExtension.Limit)
  | FakeTokenBinding e => is_u8 e.(FakeTokenBindingExtension.MajorVersion) /\ is_u8 e.(FakeTokenBindingExtension.MinorVersion) /\
      len e.(FakeTokenBindingExtension.KeyParameters) < 256
  | UtlsGREASE e => isGREASEUint16 e.(UtlsGREASEExtension.Value) = true
  | Generic e => forall r, ExtensionFromID r e.(GenericExtension.Id) = None
  | UtlsPreSharedKey e => PreSharedKey.wf_psk e.(UtlsPreSharedKeyExtension.Identities) e.(UtlsPreSharedKeyExtension.Binders)
  | FakePreSharedKey e => PreSharedKey.wf_psk (FakePreSharedKeyExtension.ids e) (FakePreSharedKeyExtension.bs e)
  | GREASEEncryptedClientHello g => let s := g.(GREASEEncryptedClientHelloExtension.cipherSuite) in
      s.(HPKESymmetricCipherSuite.KdfId) ∈ [1; 2; 3] /\ s.(HPKESymmetricCipherSuite.AeadId) ∈ [1; 2; 3] /\
      is_u8 g.(GREASEEncryptedClientHelloExtension.configId) /\ 16 <= len g.(GREASEEncryptedClientHelloExtension.payload)
  | _ => True
  end.

(** What the loop of [ReadTLSExtensions] makes of one block. *)
Definition capture (r : capture_rand) (realPSK : bool) (id : Z) (body : bytes) : outcome (res (Ext X)) :=
  match ExtensionFromID r id with
  | Some ext =>
      ext_Write r (if id =? extensionPreSharedKey then
                     if realPSK then UtlsPreSharedKey (UtlsPreSharedKeyExtension.Mk [] [] [] [] None None None false false)
                     else FakePreSharedKey (FakePreSharedKeyExtension.Mk None None false)
                   else ext) body
  | None => Ret (inr (Generic (GenericExtension.Mk id body)))
  end.
Lemma from_grease r id : isGREASEUint16 id = true -> ExtensionFromID r id = Some (UtlsGREASE (UtlsGREASEExtension.Mk 0 [])).
Proof. intros H. unfold ExtensionFromID. repeat (zcase; [by vm_compute in H|]). by rewrite H. Qed.
Lemma u16s_written err f l : u16_list l -> 2 * len l < 2 ^ 16 ->
  write_u16s_ext err f (be 2 (2 * len l) ++ enc_u16s l) = inr (map f l, 2 + 2 * len l).
Proof.
  intros [Hl Hn] Hlen. unfold write_u16s_ext. rewrite <- (app_nil_r (be 2 _ ++ _)), <- (len_enc_u16s l).
  rewrite (read_u16_list_enc 2); [|intros; by autorewrite with cbspec|done|by destruct l; [|apply len_pos_cons]|rewrite len_enc_u16s; width].
  cbn [app]. rewrite app_nil_r, len_app, len_be. done.
Qed.


Lemma versions_written e l : u16_list l -> 2 * len l < 256 ->
  SupportedVersionsExtension.Write e (enc_lp 1 (enc_u16s l)) = inr (SupportedVersionsExtension.Mk (map unGREASEUint16 l), len (enc_lp 1 (enc_u16s l))).
Proof.
  intros [Hl Hn] Hlen. unfold SupportedVersionsExtension.Write. rewrite <- (app_nil_r (enc_lp 1 _)) at 1. unfold enc_lp at 1.
  rewrite (read_u16_list_enc 1); [|intros; by autorewrite with cbspec|done|by destruct l; [|apply len_pos_cons]|rewrite len_enc_u16s; width].
  done.
Qed.
Lemma compress_written e l : Forall is_u16 l -> 2 * len l < 256 ->
  UtlsCompressCertExtension.Write e (enc_lp 1 (enc_u16s l)) = inr (UtlsCompressCertExtension.Mk l, len (enc_lp 1 (enc_u16s l))).
Proof.
  intros Hl Hlen. unfold UtlsCompressCertExtension.Write. rewrite <- len_enc_u16s in Hlen. unfold enc_lp at 1. parse.
  by rewrite read_u16s_enc.
Qed.

Lemma strings_read l : str8_list l -> loop (fun acc s =>
    read (proto, s) := ReadUint8LengthPrefixed s in
    ensure negb (Empty proto) in
    Some (acc ++ [proto], s)) [] (concat (map (enc_lp 1) l)) = Some l.
Proof.
  intros [H1 H2]. etransitivity; [|apply (loop_lps 1 ReadUint8LengthPrefixed []); [intros; by autorewrite with cbspec|lia|done|done]].
  unfold loop. match goal with |- while_nonempty ?f _ _ _ = while_nonempty ?g _ _ _ =>
    enough (E : forall n acc b, while_nonempty f n acc b = while_nonempty g n acc b) by apply E end.
  induction n as [|n IH]; intros acc b; cbn [while_nonempty]; [done|]. destruct (Empty b); [done|].
  destruct (ReadUint8LengthPrefixed b) as [[p b']|]; [|done]. rewrite Empty_len. destruct (negb _); [apply IH|done].
Qed.
Lemma strings_nonempty l : l <> [] -> Empty (concat (map (enc_lp 1) l)) = false.
Proof.
  rewrite Empty_len. destruct l as [|s l]; [done|]. intros _. cbn [map concat]. rewrite len_app, len_enc_lp.
  apply Z.eqb_neq. pose proof (len_nonneg s). pose proof (len_nonneg (concat (map (enc_lp 1) l))). lia.
Qed.
Lemma protocols_written l : str8_list l -> l <> [] -> len (concat (map (enc_lp 1) l)) < 2 ^ 16 ->
  write_protocols (enc_lp 2 (concat (map (enc_lp 1) l))) = inr (l, len (enc_lp 2 (concat (map (enc_lp 1) l)))).
Proof. intros Hl Hn Hlen. unfold write_protocols, enc_lp at 1. rewrite ReadUint16LengthPrefixed_spec, rd_lp_end by width. by rewrite strings_nonempty, strings_read. Qed.

Lemma fold_snoc_map {A B} (f : A -> B) l acc : fold_left (fun acc a => acc ++ [f a]) l acc = acc ++ map f l.
Proof. revert acc. induction l as [|a l IH]; intros acc; cbn; [by rewrite app_nil_r|]. by rewrite IH, <- app_assoc. Qed.

Lemma shares_written e l :
  Forall (fun ks => is_u16 ks.(KeyShare.Group) /\ ks.(KeyShare.Data) <> [] /\ len ks.(KeyShare.Data) < 2 ^ 16) l ->
  len (concat (map enc_share l)) < 2 ^ 16 ->
  KeyShareExtension.Write e (enc_lp 2 (concat (map enc_share l))) = inr (KeyShareExtension.Mk (map bare_share l), len (enc_lp 2 (concat (map enc_share l)))).
Proof.
  intros Hl Hlen. unfold KeyShareExtension.Write, enc_lp at 1. parse.
  erewrite (loop_concat _ enc_share (fun acc ks => acc ++ [bare_share ks])); [| | |exact Hl].
  - by rewrite fold_snoc_map.
  - intros st s st' s'. unfold KeyShareExtension.share_body, readUint16LengthPrefixed. autorewrite with cbspec.
    destruct (rd_uint 2 s) as [[g s1]|] eqn:E1; [|done]. autorewrite with cbspec. destruct (rd_lp 2 s1) as [[d s2]|] eqn:E2; [|done].
    destruct (negb _); [|done]. intros [= <- <-]. apply rd_uint_shrinks in E1. apply rd_lp_shrinks in E2. unfold len in *. lia.
  - intros ks acc r (Hg & Hd & Hk). unfold KeyShareExtension.share_body, readUint16LengthPrefixed, enc_share, enc_lp. parse.
    by destruct (Z.eqb_spec (len (KeyShare.Data ks)) 0) as [E%len_0_iff|].
Qed.

Lemma read_names_one fuel h : h <> [] -> len h < 2 ^ 16 -> (forall c, last h = Some c -> b2z c <> dot) ->
  SNIExtension.read_names (S fuel) [] (be 1 0 ++ be 2 (len h) ++ h) = inr h.
Proof.
  intros Hn Hlen Hd. cbn [SNIExtension.read_names]. rewrite Empty_spec. destruct (be 1 0 ++ _) eqn:E; [by destruct (be 1 0)|]. rewrite <- E. clear E.
  autorewrite with cbspec. rewrite rd_uint_be_small by width. autorewrite with cbspec. rewrite rd_lp_end by width.
  rewrite Empty_len. destruct (Z.eqb_spec (len h) 0) as [?%len_0_iff|]; [done|]. cbn [negb Z.eqb len length Z.of_nat].
  rewrite bool_decide_false by (intros Hc; apply (Hd _ Hc); vm_compute; reflexivity).
  destruct fuel; cbn [SNIExtension.read_names]; by rewrite Empty_spec.
Qed.
Lemma sni_written e name : let h := hostnameInSNI name in h <> [] -> len h < 2 ^ 16 - 3 ->
  SNIExtension.Write e (be 2 (len h + 3) ++ be 1 0 ++ be 2 (len h) ++ h) = inr (e, 5 + len h).
Proof.
  intros h Hn Hlen. destruct (hostnameInSNI_spec name) as (_ & Hd & _). fold h in Hd. pose proof (len_nonneg h).
  unfold SNIExtension.Write. rewrite ReadUint16LengthPrefixed_spec. set (l := be 1 0 ++ be 2 (len h) ++ h).
  assert (Hl : len l = len h + 3) by (unfold l; autorewrite with cb; lia). rewrite <- Hl. rewrite rd_lp_end by (rewrite Hl; width).
  rewrite Empty_len, (proj2 (Z.eqb_neq (len l) 0)) by lia. replace (length l) with (S (length h + 2)) by (unfold len in *; lia).
  unfold l at 1. rewrite read_names_one by (done || lia). cbn [res_bind]. do 2 f_equal. rewrite len_app, len_be. lia.
Qed.

(** The random source delivers. *)
Definition delivers (r : capture_rand) : Prop := forall n, 0 <= n -> exists k, r.(c_key) n = Some k /\ len k = n.

Lemma fake_psk_captured i b : PreSharedKey.wf_psk i b -> exists e, FakePreSharedKeyExtension.Write (FakePreSharedKeyExtension.Mk None None false) (enc_psk i b) =
  inr (e, len (enc_psk i b)) /\ FakePreSharedKeyExtension.ids e = i /\ FakePreSharedKeyExtension.bs e = b.
Proof.
  intros H. destruct (Write_complete (FakePreSharedKeyExtension.Mk None None false) i b [] H) as (e & He & Hi & Hb & _).
  rewrite app_nil_r in He. by exists e.
Qed.
Lemma psk_captured r psk x i b : PreSharedKey.wf_psk i b -> block_of x = Some (extensionPreSharedKey, enc_psk i b) -> pskExtLen i b <> 0 ->
  exists y, capture r psk extensionPreSharedKey (enc_psk i b) = Ret (inr y) /\
  (if psk then y = UtlsPreSharedKey (UtlsPreSharedKeyExtension.Mk [] [] [] [] None None None false false)
   else exists e', y = FakePreSharedKey e' /\ block_of y = block_of x).
Proof.
  intros Hw Hx Hn. destruct psk; [by eexists|]. destruct (fake_psk_captured i b Hw) as (e & He & Hi & Hb).
  exists (FakePreSharedKey e). split; [|exists e; split; [done|]].
  - change (wrote_as FakePreSharedKey (FakePreSharedKeyExtension.Write (FakePreSharedKeyExtension.Mk None None false) (enc_psk i b)) = Ret (inr (FakePreSharedKey e))).
    by rewrite He.
  - rewrite Hx. cbn [block_of]. unfold FakePreSharedKeyExtension.Len. by rewrite Hi, Hb, (proj2 (Z.eqb_neq _ 0)).
Qed.

Lemma ech_captured r psk g : delivers r -> capturable (GREASEEncryptedClientHello g) -> len (ech_body g) < 2 ^ 16 ->
  exists y, capture r psk utlsExtensionECH (ech_body g) = Ret (inr y) /\ recovered psk BoringPaddingStyle (GREASEEncryptedClientHello g) y.
Proof.
  intros Hr [_ (Hk & Ha & Hc & Hp)] Hl. cbn zeta in *. destruct (Hr (len g.(GREASEEncryptedClientHelloExtension.EncapsulatedKey)) (len_nonneg _)) as (k & Ek & Lk).
  assert (Hb : len g.(GREASEEncryptedClientHelloExtension.EncapsulatedKey) < 2 ^ 16 /\ len g.(GREASEEncryptedClientHelloExtension.payload) < 2 ^ 16).
  { revert Hl. unfold ech_body, enc_lp. autorewrite with cb. pose proof (len_nonneg (GREASEEncryptedClientHelloExtension.EncapsulatedKey g)). lia. }
  destruct Hb as [Hb1 Hb2]. unfold recovered, ech_body in *. destruct (GREASEEncryptedClientHelloExtension.cipherSuite g) as [kdf aead] eqn:Eg. cbn in Hk, Ha.
  assert (Hm : forall z, z ∈ [1; 2; 3] -> (z =? 1) || (z =? 2) || (z =? 3) = true /\ is_u16 z).
  { intros z. set_unfold. unfold is_u16. intros [->|[->|[->|[]]]]; split; done || lia. }
  destruct (Hm _ Hk) as [Ek' Hku], (Hm _ Ha) as [Ea' Hau]. eexists. split; [|eexists; split; [reflexivity|]].
  - change (capture r psk utlsExtensionECH ?b) with (run w := GREASEEncryptedClientHelloExtension.Write r.(c_key) (zero_ech r.(c_ech)) b in wrote_as GREASEEncryptedClientHello w).
    unfold GREASEEncryptedClientHelloExtension.Write, enc_lp. cbn [HPKESymmetricCipherSuite.KdfId HPKESymmetricCipherSuite.AeadId]. parse.
    cbn [negb Z.eqb]. rewrite Ek', Ea'. cbn [negb]. rewrite Ek. unfold cipherLen. rewrite Ea'. cbn [obind]. reflexivity.
  - cbn. rewrite Z.mod_small by lia. by rewrite Lk.
Qed.

Lemma by_write {E} (c : E -> Ext X) (w : res (E * Z)) o e n : o = wrote_as c w -> w = inr (e, n) -> o = Ret (inr (c e)).
Proof. by intros -> ->. Qed.

Lemma u16s_captured {E} (c : E -> Ext X) (mk : list Z -> E) o err f l :
  o = wrote_as c (try (l, n) := write_u16s_ext err f (be 2 (2 * len l) ++ enc_u16s l) in inr (mk l, n)) ->
  u16_list l -> len (be 2 (2 * len l) ++ enc_u16s l) < 2 ^ 16 -> o = Ret (inr (c (mk (map f l)))).
Proof. intros -> Hl Hlen. rewrite u16s_written; [done..|]. rewrite len_app, len_be, len_enc_u16s in Hlen. lia. Qed.
Lemma protocols_captured {E} (c : E -> Ext X) (mk : list bytes -> E) o l : let b := enc_lp 2 (concat (map (enc_lp 1) l)) in
  o = wrote_as c (try (l, n) := write_protocols b in inr (mk l, n)) ->
  str8_list l /\ l <> [] -> len b < 2 ^ 16 -> o = Ret (inr (c (mk l))).
Proof. intros b -> [Hl Hn] Hlen. unfold b in *. rewrite protocols_written; [done..|]. rewrite len_enc_lp in Hlen. lia. Qed.

Lemma status_written : StatusRequestExtension.Write StatusRequestExtension.Mk (be 1 1 ++ be 4 0) = inr (StatusRequestExtension.Mk, 5).
Proof. unfold StatusRequestExtension.Write. change (be 4 0) with (be 2 0 ++ be 2 0). parse. reflexivity. Qed.
Lemma status_v2_written : StatusRequestV2Extension.Write StatusRequestV2Extension.Mk (enc_lp 2 (be 1 2 ++ be 2 4 ++ be 4 0)) = inr (StatusRequestV2Extension.Mk, 9).
Proof.
  unfold StatusRequestV2Extension.Write, enc_lp. rewrite ReadUint16LengthPrefixed_spec, rd_lp_end by (vm_compute; reflexivity). parse. reflexivity.
Qed.
Lemma points_written e l : l <> [] -> len l < 256 -> SupportedPointsExtension.Write e (enc_lp 1 l) = inr (SupportedPointsExtension.Mk l, len (enc_lp 1 l)).
Proof.
  intros Hn Hl. unfold SupportedPointsExtension.Write, readUint8LengthPrefixed, enc_lp at 1. parse. by destruct (Z.eqb_spec (len l) 0) as [?%len_0_iff|].
Qed.
Lemma modes_written e l : len l < 256 -> PSKKeyExchangeModesExtension.Write e (enc_lp 1 l) = inr (PSKKeyExchangeModesExtension.Mk l, len (enc_lp 1 l)).
Proof. intros Hl. unfold PSKKeyExchangeModesExtension.Write, readUint8LengthPrefixed, enc_lp at 1. by parse. Qed.
Lemma limit_written e v : is_u16 v -> FakeRecordSizeLimitExtension.Write e (be 2 v) = inr (FakeRecordSizeLimitExtension.Mk v, 2).
Proof. intros Hv. unfold FakeRecordSizeLimitExtension.Write. parse. by rewrite len_be. Qed.
Lemma token_written e a b l : is_u8 a -> is_u8 b -> len l < 256 -> let d := be 1 a ++ be 1 b ++ enc_lp 1 l in
  FakeTokenBindingExtension.Write e d = inr (FakeTokenBindingExtension.Mk a b l, len d).
Proof. intros Ha Hb Hl. cbn zeta. unfold FakeTokenBindingExtension.Write, enc_lp. by parse. Qed.
Lemma anchors_written e l : str8_list l -> let d := enc_lp 2 (concat (map (enc_lp 1) l)) in len d < 2 ^ 16 ->
  TrustAnchorsExtension.Write e d = inr (TrustAnchorsExtension.Mk l e.(TrustAnchorsExtension.Shuffle) e.(TrustAnchorsExtension.emitOrder), len d).
Proof.
  intros Hl. cbn zeta. intros Hlen. rewrite len_enc_lp in Hlen. unfold TrustAnchorsExtension.Write, enc_lp at 1.
  rewrite ReadUint16LengthPrefixed_spec, rd_lp_end by width. by rewrite strings_read.
Qed.

(** Every extension that was sent is captured. *)
Lemma capture_recovers r psk x id body : delivers r -> capturable x -> block_of x = Some (id, body) ->
  exists y, capture r psk id body = Ret (inr y) /\ recovered psk BoringPaddingStyle x y.
Proof.
  intros Hr Hcap H. pose proof Hcap as [Hb Hx]. destruct (Hb _ H) as [Hid Hlen]. cbn [fst snd] in *. clear Hb.
  assert (Hy : forall y, capture r psk id body = Ret (inr y) -> recovered psk BoringPaddingStyle x y ->
    exists y, capture r psk id body = Ret (inr y) /\ recovered psk BoringPaddingStyle x y) by eauto.
  destruct x; cbn [block_of] in H; try (injection H as <- <-; eapply Hy; [reflexivity|done]).
  - cbn in H. destruct (len (hostnameInSNI _) =? 0) eqn:E; [done|]. injection H as <- <-. eapply Hy; [|done].
    eapply (by_write SNI); [reflexivity|]. apply sni_written; [by intros E'; rewrite E' in E|]. revert Hlen. autorewrite with cb. lia.
  - injection H as <- <-. destruct e. eapply Hy; [|done]. exact (by_write StatusRequest _ _ _ _ eq_refl status_written).
  - injection H as <- <-. eapply Hy; [|done]. eapply (u16s_captured SupportedCurves SupportedCurvesExtension.Mk); [reflexivity|done..].
  - destruct e as [l]. injection H as <- <-. eapply Hy; [|done]. eapply (by_write SupportedPoints); [reflexivity|]. by apply points_written; apply Hx.
  - destruct e as [l]. injection H as <- <-. eapply Hy; [by eapply (u16s_captured SignatureAlgorithms SignatureAlgorithmsExtension.Mk)|]. cbn. by rewrite map_id.
  - injection H as <- <-. destruct e. eapply Hy; [|done]. exact (by_write StatusRequestV2 _ _ _ _ eq_refl status_v2_written).
  - destruct e as [l]. injection H as <- <-. eapply Hy; [by eapply (u16s_captured SignatureAlgorithmsCert SignatureAlgorithmsCertExtension.Mk)|]. cbn. by rewrite map_id.
  - destruct e as [l]. injection H as <- <-. eapply Hy; [|done]. by eapply (protocols_captured ALPN ALPNExtension.Mk).
  - destruct e as [l]. injection H as <- <-. eapply Hy; [|done]. by eapply (protocols_captured ApplicationSettings ApplicationSettingsExtension.Mk).
  - injection H as <- <-. destruct e. by eapply Hy.
  - destruct e. injection H as <- <-. eapply Hy; [|done]. unfold capture. by rewrite Hx.
  - injection H as <- <-. destruct e. by eapply Hy.
  - destruct e as [v b]. injection H as <- <-. eapply Hy; [|done]. unfold capture. cbn in Hx |- *. rewrite from_grease by done.
    by destruct (Z.eqb_spec v extensionPreSharedKey) as [->|]; [vm_compute in Hx|].
  - cbn in H. destruct (UtlsPaddingExtension.WillPad e); [|done]. injection H as <- <-. by eapply Hy.
  - destruct e as [l]. injection H as <- <-. eapply Hy; [|done]. eapply (by_write UtlsCompressCert); [reflexivity|]. apply compress_written; apply Hx.
  - destruct e as [l]. injection H as <- <-. eapply Hy; [|done]. eapply (by_write KeyShare); [reflexivity|]. apply shares_written; [done|].
    revert Hlen. cbn [KeyShareExtension.KeyShares]. rewrite len_enc_lp. lia.
  - destruct e as [l]. injection H as <- <-. eapply Hy; [|done]. eapply (by_write PSKKeyExchangeModes); [reflexivity|]. by apply modes_written.
  - destruct e as [l]. injection H as <- <-. eapply Hy; [|done]. eapply (by_write SupportedVersions); [reflexivity|]. apply versions_written; apply Hx.
  - destruct e as [[]]; injection H as <- <-; by eapply Hy.
  - destruct e as [l]. injection H as <- <-. eapply Hy; [|done]. eapply (by_write FakeRecordSizeLimit); [reflexivity|]. by apply limit_written.
  - destruct e as [a b l]. injection H as <- <-. eapply Hy; [|done]. eapply (by_write FakeTokenBinding); [reflexivity|]. apply token_written; apply Hx.
  - destruct e as [l]. injection H as <- <-. eapply Hy; [by eapply (u16s_captured FakeDelegatedCredentials FakeDelegatedCredentialsExtension.Mk)|]. cbn. by rewrite map_id.
  - injection H as <- <-. eapply Hy; [|done]. eapply (by_write TrustAnchors); [reflexivity|]. by apply anchors_written.
  - destruct e as [l]. injection H as <- <-. eapply Hy; [|done]. by eapply (protocols_captured ApplicationSettingsNew ApplicationSettingsExtensionNew.Mk).
  - injection H as <- <-. eapply Hy; [reflexivity|]. eexists. split; [done|]. by destruct e.
  - destruct (Z.eqb_spec (pskExtLen (UtlsPreSharedKeyExtension.Identities e) (UtlsPreSharedKeyExtension.Binders e)) 0) as [|Hn]; [done|]. injection H as <- <-.
    apply psk_captured; [done| |done]. cbn [block_of]. by rewrite (proj2 (Z.eqb_neq _ 0)).
  - destruct (Z.eqb_spec (FakePreSharedKeyExtension.Len e) 0) as [|Hn]; [done|]. injection H as <- <-. apply psk_captured; [done| |done].
    cbn [block_of]. by rewrite (proj2 (Z.eqb_neq _ 0)).
  - injection H as <- <-. by apply ech_captured.
Qed.

Definition sends x : bool := non_nil (block_of x).

Lemma read_exts_block fuel rnd psk id d b (s : @spec X) y : is_u16 id -> len d < 2 ^ 16 ->
  capture (rnd (length s.(ClientHelloSpec.Extensions))) psk id d = Ret (inr y) ->
  read_exts (S fuel) rnd true psk (enc_ext (id, d) ++ b) s =
  read_exts fuel rnd true psk b (append_ext y (if id =? extensionSupportedVersions then set_TLSVers 0 0 s else s)).
Proof.
  intros Hid Hd. unfold capture. cbn [read_exts]. rewrite Empty_spec. destruct (enc_ext (id, d) ++ b) eqn:E; [by apply enc_ext_nonempty in E|].
  rewrite <- E. clear E. unfold enc_ext. cbn [fst snd]. rewrite <- !app_assoc. autorewrite with cbspec. rewrite rd_uint_be_small by width.
  autorewrite with cbspec. rewrite rd_lp_cat by width. destruct (ExtensionFromID _ id) as [x|] eqn:Ex.
  - destruct (from_id_type _ _ _ Ex) as [-> _]. intros ->. done.
  - intros [= <-]. destruct (Z.eqb_spec id extensionSupportedVersions) as [->|]; [done|]. done.
Qed.

Lemma read_exts_recovers rnd psk xs : (forall i, delivers (rnd i)) -> Forall capturable xs -> forall fuel s, (length (payload xs) <= fuel)%nat ->
  exists s' ys, read_exts fuel rnd true psk (payload xs) s = Ret (s', None) /\
    s'.(ClientHelloSpec.CipherSuites) = s.(ClientHelloSpec.CipherSuites) /\
    s'.(ClientHelloSpec.CompressionMethods) = s.(ClientHelloSpec.CompressionMethods) /\
    s'.(ClientHelloSpec.Extensions) = s.(ClientHelloSpec.Extensions) ++ ys /\
    Forall2 (recovered psk BoringPaddingStyle) (List.filter sends xs) ys.
Proof.
  intros Hr. induction 1 as [|x xs Hx Hxs IH]; intros fuel s Hf.
  { exists s, []. rewrite app_nil_r. split_and!; [|done..]. destruct fuel; cbn; by rewrite Empty_spec. }
  unfold payload in *. cbn [map concat List.filter] in *. unfold sends at 1. destruct (block_of x) as [[id d]|] eqn:Eb; cbn [wire non_nil app] in *; [|by apply IH].
  pose proof Hx as [Hw _]. destruct (Hw _ Eb) as [Hid Hd]. cbn [fst snd] in *.
  destruct (capture_recovers _ psk x id d (Hr (length s.(ClientHelloSpec.Extensions))) Hx Eb) as (y & Hy & Hrec).
  destruct fuel as [|fuel]; [rewrite length_app in Hf; unfold enc_ext in Hf; rewrite !length_app, length_be in Hf; lia|].
  rewrite (read_exts_block _ _ _ _ _ _ _ _ Hid Hd Hy).
  destruct (IH fuel (append_ext y (if id =? extensionSupportedVersions then set_TLSVers 0 0 s else s))) as (s' & ys & -> & H1 & H2 & H3 & H4).
  { rewrite length_app in Hf. unfold enc_ext in Hf. rewrite !length_app, length_be in Hf. lia. }
  exists s', (y :: ys). rewrite H1, H2, H3. split_and!; [done|..|by constructor]; destruct (id =? _); cbn; by rewrite <- ?app_assoc.
Qed.

Lemma unpadded_recovered psk f g xs ys : paddings xs = 0 -> Forall2 (recovered psk f) xs ys -> Forall2 (recovered psk g) xs ys.
Proof.
  intros Hp H. induction H as [|x y xs ys Hxy H IH]; [constructor|]. unfold paddings in *. cbn [List.filter] in Hp.
  destruct (is_padding x) eqn:E; [rewrite len_cons in Hp; pose proof (len_nonneg (List.filter is_padding xs)); lia|].
  constructor; [by destruct x|by apply IH].
Qed.
Lemma pad_first_other n x y psk f l : is_padding x = false -> recovered psk f x y -> pad_first n (y :: l) = y :: pad_first n l.
Proof. intros Hx Hr. destruct x; try done; cbn in Hr; try destruct psk; try (by subst y); by destruct Hr as (? & -> & _). Qed.
Lemma pad_first_recovered psk n xs ys : paddings xs <= 1 -> Forall2 (recovered psk BoringPaddingStyle) xs ys ->
  Forall2 (recovered psk (AlwaysPadToLen n)) xs (pad_first n ys).
Proof.
  intros Hp H. induction H as [|x y xs ys Hxy H IH]; [constructor|]. unfold paddings in *. cbn [List.filter] in Hp.
  destruct (is_padding x) eqn:E.
  - destruct x; try done. cbn in Hxy. subst y. cbn [pad_first]. constructor; [done|]. eapply unpadded_recovered; [|exact H].
    rewrite len_cons in Hp. unfold paddings. pose proof (len_nonneg (List.filter is_padding xs)). lia.
  - rewrite (pad_first_other n x y psk _ ys E Hxy). constructor; [by destruct x|by apply IH].
Qed.

(** The numbers of the hello fit their fields. *)
Record fits (h : PubClientHelloMsg.t) : Prop := {
  fit_vers : is_u16 h.(PubClientHelloMsg.Vers);
  fit_session : len h.(PubClientHelloMsg.SessionId) < 256;
  fit_suites : Forall is_u16 h.(PubClientHelloMsg.CipherSuites);
  fit_suites_len : 2 * len h.(PubClientHelloMsg.CipherSuites) < 2 ^ 16;
  fit_methods : len h.(PubClientHelloMsg.CompressionMethods) < 256
}.
(** The record in which a hello is sent. *)
Definition record_of (version : Z) (msg : bytes) : bytes := be 1 recordTypeHandshake ++ be 2 version ++ be 2 (len msg) ++ msg.

Lemma suites_captured l (s : @spec X) : Forall is_u16 l -> ReadCipherSuites (enc_u16s l) s = (set_CipherSuites (map unGREASEUint16 l) s, None).
Proof.
  intros Hl. unfold ReadCipherSuites, enc_u16s. erewrite (loop_concat _ (be 2) (fun acc v => acc ++ [unGREASEUint16 v])); [by rewrite fold_snoc_map|..|done].
  - intros st b st' b'. autorewrite with cbspec. destruct (rd_uint 2 b) as [[v r]|] eqn:E; [|done]. intros [= <- <-].
    apply rd_uint_shrinks in E. unfold len in E. lia.
  - intros v acc r Hv. by parse.
Qed.

(** Reading the fields before the extensions. *)
Lemma FromRaw_header rnd psk version h n tail : is_u16 version -> fits h -> len h.(PubClientHelloMsg.Random) = 32 -> 
  let raw := header_bytes h n ++ tail in
  let s := set_CompressionMethods h.(PubClientHelloMsg.CompressionMethods) (set_CipherSuites (map unGREASEUint16 h.(PubClientHelloMsg.CipherSuites))
    (set_TLSVers version h.(PubClientHelloMsg.Vers) empty_spec)) in
  FromRaw rnd (record_of version raw) true psk =
    if Empty tail then Ret (s, None) else
    match ReadUint16LengthPrefixed tail with
    | None => fail s (ErrorNew "unable to read extensions data")
    | Some (extensions, _) =>
        run (s, err) := ReadTLSExtensions rnd extensions true psk s in
        match err with
        | Some e => fail s e
        | None => Ret (ClientHelloSpec.set_Extensions (pad_first (len raw) s.(ClientHelloSpec.Extensions)) s, None)
        end
    end.
Proof.
  intros Hv [H1 H2 H3 H4 H5] HR raw s. unfold FromRaw. set (rec := record_of version raw).
  assert (Hl : len rec - 5 = len raw) by (unfold rec, record_of; autorewrite with cb; lia). rewrite Hl.
  unfold rec at 1, record_of. autorewrite with cbspec.
  rewrite rd_uint_be_small by width. autorewrite with cbspec. rewrite rd_uint_be_small by width. autorewrite with cbspec.
  rewrite rd_bytes_app by (rewrite len_be; lia). cbn [fmap option_fmap option_map snd]. rewrite Z.eqb_refl. cbn [negb].
  unfold raw at 1, header_bytes. change (suites_bytes ?l) with (enc_u16s l). rewrite <- (len_enc_u16s (PubClientHelloMsg.CipherSuites h)), <- !app_assoc.
  autorewrite with cbspec. rewrite rd_uint_be_small by width. autorewrite with cbspec.
  rewrite rd_bytes_app by (rewrite len_be; lia). cbn [fmap option_fmap option_map snd]. autorewrite with cbspec. rewrite rd_uint_be_small by width.
  autorewrite with cbspec. rewrite rd_bytes_app by done. cbn [fmap option_fmap option_map snd]. rewrite Z.eqb_refl. cbn [negb].
  autorewrite with cbspec. rewrite rd_lp_cat by width. autorewrite with cbspec. rewrite rd_lp_cat by (rewrite len_enc_u16s; width).
  rewrite suites_captured by done. autorewrite with cbspec. rewrite rd_lp_cat by width. cbn [ReadCompressionMethods]. by autorewrite with cbspec.
Qed.

Lemma paddings_filter p (l : list (Ext X)) : paddings (List.filter p l) <= paddings l.
Proof.
  unfold paddings. induction l as [|x l IH]; cbn [List.filter]; [lia|]. destruct (p x); cbn [List.filter]; destruct (is_padding x); rewrite ?len_cons; lia.
Qed.
Lemma paddings_final k (exts exts' : list (Ext X)) : measures exts exts' -> paddings (map (update_padding k) exts') = paddings exts.
Proof.
  intros [_ Hp]. unfold paddings. induction Hp as [|x x' exts exts' [E _] _ IH]; [done|]. cbn [map List.filter].
  assert (E' : is_padding (update_padding k x') = is_padding x) by (rewrite <- E; by destruct x'). rewrite E'.
  destruct (is_padding x); rewrite ?len_cons; by rewrite IH.
Qed.

(** C22: a hello that the uTLS marshaller wrote, captured from its record, gives
    back the specification it was made from: the same cipher suites and
    compression methods, and in the same order the extensions that were sent, each
    with the content it had except for what belongs to the connection (the server
    name, keys, tickets) and GREASE values, which become the placeholder; the
    padding extension pads to the captured length. *)
Theorem fingerprint_recovers rnd psk spare version h exts final h' msg :
  (forall i, delivers (rnd i)) -> is_u16 version -> fits h -> marshallable h exts ->
  MarshalClientHelloNoECH spare h exts = Ret (final, h', None) -> h'.(PubClientHelloMsg.Raw) = Some msg ->
  Forall capturable final -> len (payload final) < 2 ^ 16 ->
  exists s, FromRaw rnd (record_of version msg) true psk = Ret (s, None) /\
    s.(ClientHelloSpec.CipherSuites) = map unGREASEUint16 h.(PubClientHelloMsg.CipherSuites) /\
    s.(ClientHelloSpec.CompressionMethods) = h.(PubClientHelloMsg.CompressionMethods) /\
    Forall2 (recovered psk (AlwaysPadToLen (len msg))) (List.filter sends final) s.(ClientHelloSpec.Extensions).
Proof.
  intros Hr Hv Hf Hm HM Hraw Hc Hlen. pose proof (mb_random _ _ Hm) as HR.
  destruct (marshal_exact h exts Hm) as (exts' & Hms & Hs & HE). rewrite HE in HM. injection HM as Hfin Hh. rewrite Hfin in *.
  subst h'. injection Hraw as <-. rewrite hello_wire_eq. rewrite FromRaw_header by done.
  destruct final as [|x0 final']; [eexists; cbn [len length Z.of_nat Z.ltb Z.compare]; rewrite Empty_spec; by split_and!|].
  set (final := x0 :: final') in *. replace (0 <? len final) with true by (symmetry; apply len_pos_cons).
  rewrite Empty_len, len_app, len_be, (proj2 (Z.eqb_neq _ 0)) by (pose proof (len_nonneg (payload final)); lia).
  rewrite ReadUint16LengthPrefixed_spec, rd_lp_end by width. set (s := set_CompressionMethods _ _).
  destruct (read_exts_recovers rnd psk final Hr Hc (length (payload final)) s (le_n _)) as (s' & ys & HR' & H1 & H2 & H3 & H4).
  unfold ReadTLSExtensions. rewrite HR'. cbn [obind]. eexists. split; [done|]. cbn [ClientHelloSpec.set_Extensions ClientHelloSpec.CipherSuites
    ClientHelloSpec.CompressionMethods ClientHelloSpec.Extensions]. rewrite H1, H2, H3. split_and!; [done..|].
  apply pad_first_recovered; [|done]. etrans; [apply paddings_filter|]. rewrite <- Hfin, (paddings_final _ exts exts' Hms). apply (mb_one_padding _ _ Hm).
Qed.
End Facts.

(** * Witnesses *)

#[local] Existing Instance Reference.ops.
#[local] Existing Instance Reference.ok.
Definition zero_rand : capture_rand :=
  MkCaptureRand (fun n => Some (replicate (Z.to_nat n) x00))
    (fun _ => MkEchDraws (Some 1) (fun _ => Some 0) (fun _ => Some 0) (inr (replicate 32 x01)) (fun _ => Some 0) (fun n => Some (replicate (Z.to_nat n) x02)))
    (fun _ => MkDraws (Some 27) (fun n => replicate n x01) (fun _ => Some 1) (fun _ => Some 1)).
Definition sample_hello : PubClientHelloMsg.t := example_out.
Definition sample_exts : list (Ext plain_x509) :=
  [UtlsGREASE (UtlsGREASEExtension.Mk 0x1a1a []);
   SNI (SNIExtension.Mk (str "example.com"));
   SupportedCurves (SupportedCurvesExtension.Mk [0x2a2a; X25519]);
   KeyShare (KeyShareExtension.Mk [KeyShare.Mk 0x2a2a [x00]; KeyShare.Mk X25519 (replicate 32 x07)]);
   ALPN (ALPNExtension.Mk [str "h2"])].
Definition sample_run := MarshalClientHelloNoECH (fun _ => []) sample_hello sample_exts.
Definition sample_out : PubClientHelloMsg.t := match sample_run with Ret (_, h, _) => h | Panic => sample_hello end.
Definition sample_msg : bytes := default [] sample_out.(PubClientHelloMsg.Raw).

Lemma sample_marshallable : marshallable sample_hello sample_exts.
Proof.
  constructor; [reflexivity| | |vm_compute; discriminate]; repeat (apply Forall_cons; split); done.
Qed.
Lemma sample_runs : sample_run = Ret (sample_exts, sample_out, None).
Proof. vm_compute. reflexivity. Qed.
Lemma sample_capturable : Forall capturable sample_exts.
Proof.
  repeat (apply Forall_cons; split); try done; (split; [intros b [= <-]; split; vm_compute; done || (split; done)|]).
  - reflexivity.
  - done.
  - split; [|done]. repeat (apply Forall_cons; split); vm_compute; done || (split; done).
  - repeat (apply Forall_cons; split); try done; split_and!; vm_compute; done || (split; done).
  - split; [split|done]; repeat (apply Forall_cons; split); done.
Qed.
Lemma sample_fits : fits sample_hello.
Proof. constructor; try (vm_compute; done || (split; done)). repeat (apply Forall_cons; split); vm_compute; done || (split; done). Qed.

Lemma fingerprint_recovers_witness : exists s, FromRaw (fun _ => zero_rand) (record_of 0x0301 sample_msg) true false = Ret (s, None) /\
  Forall2 (recovered false (AlwaysPadToLen (len sample_msg))) (List.filter sends sample_exts) s.(ClientHelloSpec.Extensions).
Proof.
  destruct (fingerprint_recovers (X := plain_x509) (C := Reference.ops) (fun _ => zero_rand) false (fun _ => []) 0x0301 sample_hello sample_exts
    sample_exts sample_out sample_msg) as (s & H & _ & _ & Hf).
  - intros i n Hn. exists (replicate (Z.to_nat n) x00). split; [done|]. unfold len. rewrite length_replicate. lia.
  - done.
  - exact sample_fits.
  - exact sample_marshallable.
  - exact sample_runs.
  - vm_compute. reflexivity.
  - exact sample_capturable.
  - vm_compute. reflexivity.
  - exists s. split; [exact H|exact Hf].
Defined.

Lemma fingerprint_keeps_order_witness : exists s, FromRaw (X := plain_x509) (C := Reference.ops) (fun _ => zero_rand) (record_of 0x0301 sample_msg) true false = Ret (s, None) /\
  exists blocks, Forall2 (captured_as (X := plain_x509)) blocks s.(ClientHelloSpec.Extensions).
Proof.
  destruct (fingerprint_keeps_order (X := plain_x509) (C := Reference.ops) (fun _ => zero_rand) (record_of 0x0301 sample_msg) true false)
    as (s & err & H & Hs).
  assert (err = None) as -> by (revert H; vm_compute; by intros [= _ <-]).
  destruct (Hs eq_refl) as (? & ? & ? & ? & ? & ? & ? & ? & blocks & ? & ? & ? & ? & ? & ? & ? & ? & Hf).
  exists s. split; [exact H|]. by exists blocks.
Defined.

(** A key share of 256 bytes or more cannot be imported: only the low byte of its
    length is used. *)
Lemma import_long_share : exists s, ImportTLSClientHello (X := plain_x509) (fun _ => zero_rand)
  (list_to_map [("cipher_suites"%string, [x13; x01]); ("compression_methods"%string, [x00]); ("extensions"%string, [x00; x33]);
    ("key_share"%string, [x11; xec; x04; xc0])]) empty_spec = Ret (s, Some (ErrorNew "unable to read key share extension data")).
Proof. vm_compute. eexists. reflexivity. Qed.
