(* ===== verification/Session.v ===== *)
(** * Sessions on the client

    Models u_session_controller.go and [loadSession] of handshake_client.go,
    over the connection that Preset and Build also use: the controller decides
    whether a session is loaded from the cache or given by the user, hands it to
    the session ticket or pre-shared key extension, and locks it once the hello
    is built.

    Extensions are shared by reference between the list of the connection, the
    controller and the user: the connection holds a store of extension objects
    and the others hold addresses.  Failed assertions ([uAssert], [panic]) are
    the outcome [Panic].  The connection does not use QUIC. *)

From S2P Require Import Prelude Cryptobyte Common Config Negotiation Codec Buffer KeySchedule Names Quic Messages Ticket Caches ClientHello Public Extensions PreSharedKey ECH GreaseECH Marshal Shuffle Parrots.

(** ** What is used of crypto/x509 *)

Class X509Verify (X : X509) := {
  NotAfter : @certificate X -> Z;
  VerifyHostname : @certificate X -> bytes -> bool
}.

(** ** The session controller *)

(** [LoadSessionTrackerState] *)
Inductive LoadSessionTrackerState := NeverCalled | UtlsAboutToCall | CalledByULoadSession | CalledByGoTLS.
(** [sessionControllerState] *)
Inductive sessionControllerState :=
  NoSession | SessionTicketExtInitialized | SessionTicketExtAllSet | PskExtInitialized | PskExtAllSet.
(** [ClientHelloBuildStatus] *)
Inductive ClientHelloBuildStatus := NotBuilt | BuildByUtls | BuildByGoTLS.
(** [shouldLoadSessionResult] *)
Inductive shouldLoadSessionResult := shouldReturn | shouldSetTicket | shouldSetPsk | shouldLoad.

#[export] Instance tracker_eq_dec : EqDecision LoadSessionTrackerState.
Proof. solve_decision. Defined.
#[export] Instance controller_state_eq_dec : EqDecision sessionControllerState.
Proof. solve_decision. Defined.
#[export] Instance build_status_eq_dec : EqDecision ClientHelloBuildStatus.
Proof. solve_decision. Defined.

#[export] Instance PskIdentity_eq_dec : EqDecision PskIdentity.t.
Proof. solve_decision. Defined.

Module sessionController.
Record t := Mk {
  sessionTicketExt : option nat;
  pskExtension : option nat;
  state : sessionControllerState;
  loadSessionTracker : LoadSessionTrackerState;
  callingLoadSession : bool;
  locked : bool
}.
Definition newSessionController : t := Mk None None NoSession NeverCalled false false.
Definition set_sessionTicketExt (v : option nat) (s : t) : t :=
  Mk v s.(pskExtension) s.(state) s.(loadSessionTracker) s.(callingLoadSession) s.(locked).
Definition set_pskExtension (v : option nat) (s : t) : t :=
  Mk s.(sessionTicketExt) v s.(state) s.(loadSessionTracker) s.(callingLoadSession) s.(locked).
Definition set_state (v : sessionControllerState) (s : t) : t :=
  Mk s.(sessionTicketExt) s.(pskExtension) v s.(loadSessionTracker) s.(callingLoadSession) s.(locked).
Definition set_loadSessionTracker (v : LoadSessionTrackerState) (s : t) : t :=
  Mk s.(sessionTicketExt) s.(pskExtension) s.(state) v s.(callingLoadSession) s.(locked).
Definition set_callingLoadSession (v : bool) (s : t) : t :=
  Mk s.(sessionTicketExt) s.(pskExtension) s.(state) s.(loadSessionTracker) v s.(locked).
Definition set_locked (v : bool) (s : t) : t :=
  Mk s.(sessionTicketExt) s.(pskExtension) s.(state) s.(loadSessionTracker) s.(callingLoadSession) v.
End sessionController.

(** ** Randomness and keys *)

(** What is used of [config.rand()], of crypto/ecdh and crypto/mlkem, and of the
    hpke package: [GenerateKey] is that of the curve of a group,
    [SetupSender] draws its own randomness and [Seal] counts its messages. *)
Class Keys := {
  reader : Type;
  ReadFull : Z -> reader -> reader * res bytes;
  ecdhKey : Type;
  GenerateKey : Z -> reader -> reader * res ecdhKey;
  PublicKey : ecdhKey -> bytes;
  mlkemKey : Type;
  NewDecapsulationKey768 : bytes -> res mlkemKey;
  EncapsulationKey : mlkemKey -> bytes;
  hpkePublicKey : Type;
  ParseHPKEPublicKey : Z -> bytes -> res hpkePublicKey;
  hpkeSender : Type;
  SetupSender : Z -> Z -> Z -> hpkePublicKey -> bytes -> res (bytes * hpkeSender);
  Seal : hpkeSender -> bytes -> bytes -> hpkeSender * res bytes
}.

Definition mlkem_SeedSize : Z := 64.
Definition mlkem_KeySize : Z := 1184.

(** The public key of each curve. *)
Definition public_size (group : Z) : Z :=
  if group =? X25519 then 32 else if group =? CurveP256 then 65 else if group =? CurveP384 then 97 else 133.

Class KeysOk (Ks : Keys) : Prop := {
  ReadFull_len n r r' b : 0 <= n -> ReadFull n r = (r', inr b) -> len b = n;
  GenerateKey_len group r r' k : GenerateKey group r = (r', inr k) -> len (PublicKey k) = public_size group;
  NewDecapsulationKey768_ok b : len b = mlkem_SeedSize -> exists k, NewDecapsulationKey768 b = inr k;
  EncapsulationKey_len k : len (EncapsulationKey k) = mlkem_KeySize
}.

(** The private keys of the key shares, in the private and in the exported form. *)
Module keySharePrivateKeys.
Record t `{Ks : Keys} := Mk {
  curveID : Z; ecdhe : option ecdhKey; mlkem : option mlkemKey; mlkemEcdhe : option ecdhKey
}.
#[global] Arguments t {Ks}.
End keySharePrivateKeys.
Module KeySharePrivateKeys.
Record t `{Ks : Keys} := Mk {
  CurveID : Z; Ecdhe : option ecdhKey; Mlkem : option mlkemKey; MlkemEcdhe : option ecdhKey
}.
#[global] Arguments t {Ks}.
Section Ops.
Context `{Ks : Keys}.
Definition set_Ecdhe (v : option ecdhKey) (k : t) : t := Mk Ks k.(CurveID) v k.(Mlkem) k.(MlkemEcdhe).
Definition set_hybrid (m : mlkemKey) (e : ecdhKey) (k : t) : t := Mk Ks k.(CurveID) k.(Ecdhe) (Some m) (Some e).
Definition ToPublic (k : keySharePrivateKeys.t) : t :=
  Mk Ks k.(keySharePrivateKeys.curveID) k.(keySharePrivateKeys.ecdhe) k.(keySharePrivateKeys.mlkem)
    k.(keySharePrivateKeys.mlkemEcdhe).
Definition ToPrivate (k : t) : keySharePrivateKeys.t :=
  keySharePrivateKeys.Mk Ks k.(CurveID) k.(Ecdhe) k.(Mlkem) k.(MlkemEcdhe).
End Ops.
End KeySharePrivateKeys.

(** [echClientContext], with the HPKE sender; [ech] holds the fields that
    [makeClientHello] fills in. *)
Module echContext.
Record t `{Ks : Keys} := Mk {
  ech : echClientContext.t;
  hpkeContext : hpkeSender;
  innerHello : option clientHelloMsg.t;
  innerTranscript : bytes;
  echRejected : bool;
  retryConfigs : option bytes;
  expandedInnerHello : bytes;
  encodedInnerHello : bytes;
  pskInOuterOnly : bool;
  preSealExpandedInner : bytes
}.
#[global] Arguments t {Ks}.
Section Ops.
Context `{Ks : Keys}.
Definition set_hpkeContext (v : hpkeSender) (e : t) : t :=
  Mk Ks e.(ech) v e.(innerHello) e.(innerTranscript) e.(echRejected) e.(retryConfigs) e.(expandedInnerHello) e.(encodedInnerHello) e.(pskInOuterOnly) e.(preSealExpandedInner).
Definition set_innerHello (v : option clientHelloMsg.t) (e : t) : t :=
  Mk Ks e.(ech) e.(hpkeContext) v e.(innerTranscript) e.(echRejected) e.(retryConfigs) e.(expandedInnerHello) e.(encodedInnerHello) e.(pskInOuterOnly) e.(preSealExpandedInner).
Definition set_innerTranscript (v : bytes) (e : t) : t :=
  Mk Ks e.(ech) e.(hpkeContext) e.(innerHello) v e.(echRejected) e.(retryConfigs) e.(expandedInnerHello) e.(encodedInnerHello) e.(pskInOuterOnly) e.(preSealExpandedInner).
Definition set_echRejected (v : bool) (e : t) : t :=
  Mk Ks e.(ech) e.(hpkeContext) e.(innerHello) e.(innerTranscript) v e.(retryConfigs) e.(expandedInnerHello) e.(encodedInnerHello) e.(pskInOuterOnly) e.(preSealExpandedInner).
Definition set_retryConfigs (v : option bytes) (e : t) : t :=
  Mk Ks e.(ech) e.(hpkeContext) e.(innerHello) e.(innerTranscript) e.(echRejected) v e.(expandedInnerHello) e.(encodedInnerHello) e.(pskInOuterOnly) e.(preSealExpandedInner).
Definition set_expandedInnerHello (v : bytes) (e : t) : t :=
  Mk Ks e.(ech) e.(hpkeContext) e.(innerHello) e.(innerTranscript) e.(echRejected) e.(retryConfigs) v e.(encodedInnerHello) e.(pskInOuterOnly) e.(preSealExpandedInner).
Definition set_encodedInnerHello (v : bytes) (e : t) : t :=
  Mk Ks e.(ech) e.(hpkeContext) e.(innerHello) e.(innerTranscript) e.(echRejected) e.(retryConfigs) e.(expandedInnerHello) v e.(pskInOuterOnly) e.(preSealExpandedInner).
Definition set_pskInOuterOnly (v : bool) (e : t) : t :=
  Mk Ks e.(ech) e.(hpkeContext) e.(innerHello) e.(innerTranscript) e.(echRejected) e.(retryConfigs) e.(expandedInnerHello) e.(encodedInnerHello) v e.(preSealExpandedInner).
Definition set_preSealExpandedInner (v : bytes) (e : t) : t :=
  Mk Ks e.(ech) e.(hpkeContext) e.(innerHello) e.(innerTranscript) e.(echRejected) e.(retryConfigs) e.(expandedInnerHello) e.(encodedInnerHello) e.(pskInOuterOnly) v.
(** The context as [makeClientHello] makes it. *)
Definition make (ech : echClientContext.t) (s : hpkeSender) : t := Mk Ks ech s None [] false None [] [] false [].
End Ops.
End echContext.

(** ** The connection *)

Section Client.
Context {X : X509} {V : X509Verify X} {C : Cryptobyte} {K : Crypto} {I : ClientSessionCache (session.ptr X)} {Ks : Keys}.

(** [UConn] with the parts of [Conn], [Config] and [HandshakeState] that carry
    sessions and keys; [uc] holds the hello and the rest of the configuration,
    [sessionCache] is [config.ClientSessionCache], [rand] the state of
    [config.Rand], and [store] the extension objects. *)
Record conn := MkConn {
  uc : UConn.t;
  sessionCache : option I.(cache);
  remoteAddr : option bytes;
  rand : reader;
  ClientHelloID : ClientHelloID.t;
  clientHelloSpec : option (ClientHelloSpec.t nat);
  greaseSeed : list Z;
  Exts : list nat;
  store : gmap nat (Ext X);
  sc : sessionController.t;
  clientHelloBuildStatus : ClientHelloBuildStatus;
  skipResumptionOnNilExtension : bool;
  omitSNIExtension : bool;
  KeyShareKeys : option KeySharePrivateKeys.t;
  echCtx : option echContext.t;
  Session : option (session.ptr X);
  EarlySecret : bytes;
  BinderKey : bytes;
  pskBinderKey : bytes;
  pskCipherSuite : option cipherSuiteTLS13.t
}.

Definition set_uc (v : UConn.t) (c : conn) : conn :=
  MkConn v c.(sessionCache) c.(remoteAddr) c.(rand) c.(ClientHelloID) c.(clientHelloSpec) c.(greaseSeed) c.(Exts)
    c.(store) c.(sc) c.(clientHelloBuildStatus) c.(skipResumptionOnNilExtension) c.(omitSNIExtension) c.(KeyShareKeys)
    c.(echCtx) c.(Session) c.(EarlySecret) c.(BinderKey) c.(pskBinderKey) c.(pskCipherSuite).
Definition set_sessionCache (v : option I.(cache)) (c : conn) : conn :=
  MkConn c.(uc) v c.(remoteAddr) c.(rand) c.(ClientHelloID) c.(clientHelloSpec) c.(greaseSeed) c.(Exts)
    c.(store) c.(sc) c.(clientHelloBuildStatus) c.(skipResumptionOnNilExtension) c.(omitSNIExtension) c.(KeyShareKeys)
    c.(echCtx) c.(Session) c.(EarlySecret) c.(BinderKey) c.(pskBinderKey) c.(pskCipherSuite).
Definition set_rand (v : reader) (c : conn) : conn :=
  MkConn c.(uc) c.(sessionCache) c.(remoteAddr) v c.(ClientHelloID) c.(clientHelloSpec) c.(greaseSeed) c.(Exts)
    c.(store) c.(sc) c.(clientHelloBuildStatus) c.(skipResumptionOnNilExtension) c.(omitSNIExtension) c.(KeyShareKeys)
    c.(echCtx) c.(Session) c.(EarlySecret) c.(BinderKey) c.(pskBinderKey) c.(pskCipherSuite).
Definition set_ClientHelloID (v : ClientHelloID.t) (c : conn) : conn :=
  MkConn c.(uc) c.(sessionCache) c.(remoteAddr) c.(rand) v c.(clientHelloSpec) c.(greaseSeed) c.(Exts)
    c.(store) c.(sc) c.(clientHelloBuildStatus) c.(skipResumptionOnNilExtension) c.(omitSNIExtension) c.(KeyShareKeys)
    c.(echCtx) c.(Session) c.(EarlySecret) c.(BinderKey) c.(pskBinderKey) c.(pskCipherSuite).
Definition set_clientHelloSpec (v : option (ClientHelloSpec.t nat)) (c : conn) : conn :=
  MkConn c.(uc) c.(sessionCache) c.(remoteAddr) c.(rand) c.(ClientHelloID) v c.(greaseSeed) c.(Exts)
    c.(store) c.(sc) c.(clientHelloBuildStatus) c.(skipResumptionOnNilExtension) c.(omitSNIExtension) c.(KeyShareKeys)
    c.(echCtx) c.(Session) c.(EarlySecret) c.(BinderKey) c.(pskBinderKey) c.(pskCipherSuite).
Definition set_greaseSeed (v : list Z) (c : conn) : conn :=
  MkConn c.(uc) c.(sessionCache) c.(remoteAddr) c.(rand) c.(ClientHelloID) c.(clientHelloSpec) v c.(Exts)
    c.(store) c.(sc) c.(clientHelloBuildStatus) c.(skipResumptionOnNilExtension) c.(omitSNIExtension) c.(KeyShareKeys)
    c.(echCtx) c.(Session) c.(EarlySecret) c.(BinderKey) c.(pskBinderKey) c.(pskCipherSuite).
Definition set_Exts (v : list nat) (c : conn) : conn :=
  MkConn c.(uc) c.(sessionCache) c.(remoteAddr) c.(rand) c.(ClientHelloID) c.(clientHelloSpec) c.(greaseSeed) v
    c.(store) c.(sc) c.(clientHelloBuildStatus) c.(skipResumptionOnNilExtension) c.(omitSNIExtension) c.(KeyShareKeys)
    c.(echCtx) c.(Session) c.(EarlySecret) c.(BinderKey) c.(pskBinderKey) c.(pskCipherSuite).
Definition set_store (v : gmap nat (Ext X)) (c : conn) : conn :=
  MkConn c.(uc) c.(sessionCache) c.(remoteAddr) c.(rand) c.(ClientHelloID) c.(clientHelloSpec) c.(greaseSeed) c.(Exts)
    v c.(sc) c.(clientHelloBuildStatus) c.(skipResumptionOnNilExtension) c.(omitSNIExtension) c.(KeyShareKeys)
    c.(echCtx) c.(Session) c.(EarlySecret) c.(BinderKey) c.(pskBinderKey) c.(pskCipherSuite).
Definition set_sc (v : sessionController.t) (c : conn) : conn :=
  MkConn c.(uc) c.(sessionCache) c.(remoteAddr) c.(rand) c.(ClientHelloID) c.(clientHelloSpec) c.(greaseSeed) c.(Exts)
    c.(store) v c.(clientHelloBuildStatus) c.(skipResumptionOnNilExtension) c.(omitSNIExtension) c.(KeyShareKeys)
    c.(echCtx) c.(Session) c.(EarlySecret) c.(BinderKey) c.(pskBinderKey) c.(pskCipherSuite).
Definition set_status (v : ClientHelloBuildStatus) (c : conn) : conn :=
  MkConn c.(uc) c.(sessionCache) c.(remoteAddr) c.(rand) c.(ClientHelloID) c.(clientHelloSpec) c.(greaseSeed) c.(Exts)
    c.(store) c.(sc) v c.(skipResumptionOnNilExtension) c.(omitSNIExtension) c.(KeyShareKeys)
    c.(echCtx) c.(Session) c.(EarlySecret) c.(BinderKey) c.(pskBinderKey) c.(pskCipherSuite).
Definition set_omitSNIExtension (v : bool) (c : conn) : conn :=
  MkConn c.(uc) c.(sessionCache) c.(remoteAddr) c.(rand) c.(ClientHelloID) c.(clientHelloSpec) c.(greaseSeed) c.(Exts)
    c.(store) c.(sc) c.(clientHelloBuildStatus) c.(skipResumptionOnNilExtension) v c.(KeyShareKeys)
    c.(echCtx) c.(Session) c.(EarlySecret) c.(BinderKey) c.(pskBinderKey) c.(pskCipherSuite).
Definition set_KeyShareKeys (v : option KeySharePrivateKeys.t) (c : conn) : conn :=
  MkConn c.(uc) c.(sessionCache) c.(remoteAddr) c.(rand) c.(ClientHelloID) c.(clientHelloSpec) c.(greaseSeed) c.(Exts)
    c.(store) c.(sc) c.(clientHelloBuildStatus) c.(skipResumptionOnNilExtension) c.(omitSNIExtension) v
    c.(echCtx) c.(Session) c.(EarlySecret) c.(BinderKey) c.(pskBinderKey) c.(pskCipherSuite).
Definition set_echCtx (v : option echContext.t) (c : conn) : conn :=
  MkConn c.(uc) c.(sessionCache) c.(remoteAddr) c.(rand) c.(ClientHelloID) c.(clientHelloSpec) c.(greaseSeed) c.(Exts)
    c.(store) c.(sc) c.(clientHelloBuildStatus) c.(skipResumptionOnNilExtension) c.(omitSNIExtension) c.(KeyShareKeys)
    v c.(Session) c.(EarlySecret) c.(BinderKey) c.(pskBinderKey) c.(pskCipherSuite).
Definition set_Session (v : option (session.ptr X)) (c : conn) : conn :=
  MkConn c.(uc) c.(sessionCache) c.(remoteAddr) c.(rand) c.(ClientHelloID) c.(clientHelloSpec) c.(greaseSeed) c.(Exts)
    c.(store) c.(sc) c.(clientHelloBuildStatus) c.(skipResumptionOnNilExtension) c.(omitSNIExtension) c.(KeyShareKeys)
    c.(echCtx) v c.(EarlySecret) c.(BinderKey) c.(pskBinderKey) c.(pskCipherSuite).
Definition set_EarlySecret (v : bytes) (c : conn) : conn :=
  MkConn c.(uc) c.(sessionCache) c.(remoteAddr) c.(rand) c.(ClientHelloID) c.(clientHelloSpec) c.(greaseSeed) c.(Exts)
    c.(store) c.(sc) c.(clientHelloBuildStatus) c.(skipResumptionOnNilExtension) c.(omitSNIExtension) c.(KeyShareKeys)
    c.(echCtx) c.(Session) v c.(BinderKey) c.(pskBinderKey) c.(pskCipherSuite).
Definition set_BinderKey (v : bytes) (c : conn) : conn :=
  MkConn c.(uc) c.(sessionCache) c.(remoteAddr) c.(rand) c.(ClientHelloID) c.(clientHelloSpec) c.(greaseSeed) c.(Exts)
    c.(store) c.(sc) c.(clientHelloBuildStatus) c.(skipResumptionOnNilExtension) c.(omitSNIExtension) c.(KeyShareKeys)
    c.(echCtx) c.(Session) c.(EarlySecret) v c.(pskBinderKey) c.(pskCipherSuite).
Definition set_pskBinderKey (v : bytes) (c : conn) : conn :=
  MkConn c.(uc) c.(sessionCache) c.(remoteAddr) c.(rand) c.(ClientHelloID) c.(clientHelloSpec) c.(greaseSeed) c.(Exts)
    c.(store) c.(sc) c.(clientHelloBuildStatus) c.(skipResumptionOnNilExtension) c.(omitSNIExtension) c.(KeyShareKeys)
    c.(echCtx) c.(Session) c.(EarlySecret) c.(BinderKey) v c.(pskCipherSuite).
Definition set_pskCipherSuite (v : option cipherSuiteTLS13.t) (c : conn) : conn :=
  MkConn c.(uc) c.(sessionCache) c.(remoteAddr) c.(rand) c.(ClientHelloID) c.(clientHelloSpec) c.(greaseSeed) c.(Exts)
    c.(store) c.(sc) c.(clientHelloBuildStatus) c.(skipResumptionOnNilExtension) c.(omitSNIExtension) c.(KeyShareKeys)
    c.(echCtx) c.(Session) c.(EarlySecret) c.(BinderKey) c.(pskBinderKey) v.

Definition hello (c : conn) : PubClientHelloMsg.t := c.(uc).(UConn.Hello).
Definition config (c : conn) : Config.t := c.(uc).(UConn.config).
Definition set_hello (f : PubClientHelloMsg.t -> PubClientHelloMsg.t) (c : conn) : conn :=
  set_uc (hello_set f c.(uc)) c.
Definition on_sc (f : sessionController.t -> sessionController.t) (c : conn) : conn := set_sc (f c.(sc)) c.

(** ** Stateful code *)

Definition M (A : Type) : Type := conn -> outcome (conn * A).
Definition ret {A} (a : A) : M A := fun c => Ret (c, a).
Definition bind {A B} (m : M A) (k : A -> M B) : M B := fun c => run (c, a) := m c in k a c.
Definition modify (f : conn -> conn) : M unit := fun c => Ret (f c, tt).
Definition get {A} (f : conn -> A) : M A := fun c => Ret (c, f c).
(** [uAssert], [panic]. *)
Definition uAssert (b : conn -> bool) : M unit := fun c => if b c then Ret (c, tt) else Panic.
Definition panic {A} : M A := fun _ => Panic.
Definition lift {A} (o : outcome A) : M A := fun c => run a := o in Ret (c, a).
(** A nil pointer is dereferenced. *)
Definition deref {A} (o : option A) : M A := match o with Some a => ret a | None => panic end.

#[local] Instance M_ret : MRet M := @ret.
#[local] Instance M_bind : MBind M := fun A B k m => bind m k.

(** ** Extension objects *)

Definition object (l : nat) : M (Ext X) := fun c => deref (c.(store) !! l) c.
Definition update (l : nat) (x : Ext X) : M unit := modify (fun c => set_store (<[l := x]> c.(store)) c).

(** A session ticket extension at an address. *)
Definition ticket_at (l : nat) : M (SessionTicketExtension.t X) :=
  x ← object l; match x with SessionTicket e => ret e | _ => panic end.

(** The methods of [PreSharedKeyExtension] on its two implementations. *)
Definition psk_IsInitialized (x : Ext X) : bool :=
  match x with
  | UtlsPreSharedKey e => UtlsPreSharedKeyExtension.IsInitialized e
  | FakePreSharedKey e => FakePreSharedKeyExtension.IsInitialized e
  | _ => false
  end.
Definition psk_InitializeByUtls (x : Ext X) (s : session.ptr X) (earlySecret binderKey : bytes)
    (identities : list PskIdentity.t) : outcome (Ext X) :=
  match x with
  | UtlsPreSharedKey e =>
      run e := UtlsPreSharedKeyExtension.InitializeByUtls e s earlySecret binderKey identities in Ret (UtlsPreSharedKey e)
  | _ => Panic
  end.
Definition psk_ResetForReuse (x : Ext X) : Ext X :=
  match x with
  | UtlsPreSharedKey e => UtlsPreSharedKey (UtlsPreSharedKeyExtension.ResetForReuse e)
  | FakePreSharedKey e => FakePreSharedKey (FakePreSharedKeyExtension.ResetForReuse e)
  | _ => x
  end.
Definition psk_SetOmitEmptyPsk (val : bool) (x : Ext X) : Ext X :=
  match x with
  | UtlsPreSharedKey e => UtlsPreSharedKey (UtlsPreSharedKeyExtension.SetOmitEmptyPsk val e)
  | FakePreSharedKey e => FakePreSharedKey (FakePreSharedKeyExtension.SetOmitEmptyPsk val e)
  | _ => x
  end.
Definition psk_GetPreSharedKeyCommon (x : Ext X) : outcome (PreSharedKeyCommon.t X) :=
  match x with
  | UtlsPreSharedKey e => Ret (UtlsPreSharedKeyExtension.GetPreSharedKeyCommon e)
  | FakePreSharedKey e => Ret (FakePreSharedKeyExtension.GetPreSharedKeyCommon e)
  | _ => Panic
  end.
Definition psk_PatchBuiltHello (x : Ext X) (h : PubClientHelloMsg.t)
    : outcome (Ext X * PubClientHelloMsg.t * option gerror) :=
  match x with
  | UtlsPreSharedKey e =>
      run (e, h, err) := UtlsPreSharedKeyExtension.PatchBuiltHello e h in Ret (UtlsPreSharedKey e, h, err)
  | FakePreSharedKey e => Ret (x, h, None)
  | _ => Panic
  end.

(** ** u_session_controller.go *)

Definition state (c : conn) : sessionControllerState := c.(sc).(sessionController.state).
Definition tracker (c : conn) : LoadSessionTrackerState := c.(sc).(sessionController.loadSessionTracker).
Definition set_state (v : sessionControllerState) : M unit := modify (on_sc (sessionController.set_state v)).

Definition isSessionLocked (c : conn) : bool := c.(sc).(sessionController.locked).

Definition shouldLoadSession (c : conn) : shouldLoadSessionResult :=
  if negb (non_nil c.(sc).(sessionController.sessionTicketExt)) && negb (non_nil c.(sc).(sessionController.pskExtension))
  then shouldReturn else
  match tracker c with
  | CalledByULoadSession | CalledByGoTLS => shouldReturn
  | _ =>
      match state c with
      | SessionTicketExtInitialized => shouldSetTicket
      | PskExtInitialized => shouldSetPsk
      | _ => shouldLoad
      end
  end.

Definition utlsAboutToLoadSession : M unit :=
  uAssert (fun c => bool_decide (state c = NoSession) && negb (isSessionLocked c)) ;;
  modify (on_sc (sessionController.set_loadSessionTracker UtlsAboutToCall)).

Definition assertHelloNotBuilt : M unit := uAssert (fun c => bool_decide (c.(clientHelloBuildStatus) = NotBuilt)).
Definition assertControllerState (desired : list sessionControllerState) : M unit :=
  uAssert (fun c => bool_decide (state c ∈ desired)).
Definition assertNotLocked : M unit := uAssert (fun c => negb (isSessionLocked c)).
Definition assertCanSkip : M unit := uAssert skipResumptionOnNilExtension.

Definition finalCheck : M unit :=
  assertControllerState [PskExtAllSet; SessionTicketExtAllSet; NoSession] ;;
  modify (on_sc (sessionController.set_locked true)).

(** [initializationGuard] is written out; [panicOnNil] is passed interface values
    that hold pointers or slices, which are never equal to nil. *)
Definition initSessionTicketExt (s : session.ptr X) (ticket : option bytes) : M unit :=
  assertNotLocked ;; assertHelloNotBuilt ;; assertControllerState [NoSession] ;;
  ext ← get (fun c => c.(sc).(sessionController.sessionTicketExt));
  match ext with
  | None => assertCanSkip
  | Some l =>
      e ← ticket_at l;
      uAssert (fun _ => negb (SessionTicketExtension.IsInitialized e)) ;;
      e ← lift (SessionTicketExtension.InitializeByUtls e s ticket);
      update l (SessionTicket e) ;;
      uAssert (fun _ => SessionTicketExtension.IsInitialized e) ;;
      set_state SessionTicketExtInitialized
  end.

Definition initPskExt (s : session.ptr X) (earlySecret : tls13.EarlySecret) (binderKey : bytes)
    (pskIdentities : list pskIdentity.t) : M unit :=
  assertNotLocked ;; assertHelloNotBuilt ;; assertControllerState [NoSession] ;;
  ext ← get (fun c => c.(sc).(sessionController.pskExtension));
  match ext with
  | None => assertCanSkip
  | Some l =>
      x ← object l;
      uAssert (fun _ => negb (psk_IsInitialized x)) ;;
      let publicPskIdentities :=
        map (fun p => PskIdentity.Mk p.(pskIdentity.label) p.(pskIdentity.obfuscatedTicketAge)) pskIdentities in
      x ← lift (psk_InitializeByUtls x s earlySecret.(tls13.early) binderKey publicPskIdentities);
      update l x ;;
      uAssert (fun _ => psk_IsInitialized x) ;;
      set_state PskExtInitialized
  end.

Definition setSessionTicketToUConn : M unit :=
  ext ← get (fun c => c.(sc).(sessionController.sessionTicketExt));
  uAssert (fun c => non_nil ext && bool_decide (state c = SessionTicketExtInitialized)) ;;
  l ← deref ext;
  e ← ticket_at l;
  modify (set_Session (SessionTicketExtension.GetSession e)) ;;
  modify (set_hello (PubClientHelloMsg.set_SessionTicket (SessionTicketExtension.GetTicket e))) ;;
  set_state SessionTicketExtAllSet.

(** Every identity of the hello agrees with [pskCommon.Identities[i]]; an index out
    of range panics, as the assertion does. *)
Definition same_identities (theirs ours : list PskIdentity.t) : bool :=
  forallb (fun p => bool_decide (p.1 = p.2)) (zip ours theirs) && (len ours <=? len theirs).

Definition setPskToUConn : M unit :=
  ext ← get (fun c => c.(sc).(sessionController.pskExtension));
  uAssert (fun c => non_nil ext && bool_decide (state c ∈ [PskExtInitialized; PskExtAllSet])) ;;
  l ← deref ext;
  x ← object l;
  pskCommon ← lift (psk_GetPreSharedKeyCommon x);
  st ← get state;
  match st with
  | PskExtInitialized =>
      modify (set_EarlySecret pskCommon.(PreSharedKeyCommon.EarlySecret)) ;;
      modify (set_Session pskCommon.(PreSharedKeyCommon.Session)) ;;
      modify (set_hello (PubClientHelloMsg.set_PskIdentities pskCommon.(PreSharedKeyCommon.Identities))) ;;
      modify (set_hello (PubClientHelloMsg.set_PskBinders pskCommon.(PreSharedKeyCommon.Binders)))
  | PskExtAllSet =>
      uAssert (fun c => session.same c.(Session) pskCommon.(PreSharedKeyCommon.Session) &&
        bool_decide (c.(EarlySecret) = pskCommon.(PreSharedKeyCommon.EarlySecret)) &&
        same_identities pskCommon.(PreSharedKeyCommon.Identities) (hello c).(PubClientHelloMsg.PskIdentities))
  | _ => ret tt
  end ;;
  modify (set_BinderKey pskCommon.(PreSharedKeyCommon.BinderKey)) ;;
  set_state PskExtAllSet.

Definition shouldUpdateBinders (c : conn) : bool :=
  non_nil c.(sc).(sessionController.pskExtension) && bool_decide (state c ∈ [PskExtInitialized; PskExtAllSet]).

(** The error of [PatchBuiltHello] is dropped. *)
Definition updateBinders : M unit :=
  uAssert shouldUpdateBinders ;;
  ext ← get (fun c => c.(sc).(sessionController.pskExtension));
  l ← deref ext;
  x ← object l;
  h ← get hello;
  '(x, h, _) ← lift (psk_PatchBuiltHello x h);
  update l x ;; modify (set_hello (fun _ => h)).

Definition overrideExtension (initialized : bool) (override : conn -> conn) (initializedState : sessionControllerState)
    : M (option gerror) :=
  assertNotLocked ;; assertControllerState [NoSession] ;; modify override ;;
  (if initialized then set_state initializedState else ret tt) ;; ret None.

Definition overridePskExt (l : nat) : M (option gerror) :=
  x ← object l;
  overrideExtension (psk_IsInitialized x) (on_sc (sessionController.set_pskExtension (Some l))) PskExtInitialized.
Definition overrideSessionTicketExt (l : nat) : M (option gerror) :=
  e ← ticket_at l;
  overrideExtension (SessionTicketExtension.IsInitialized e)
    (on_sc (sessionController.set_sessionTicketExt (Some l))) SessionTicketExtInitialized.

(** One iteration of the loop of [syncSessionExts] over the [n] extensions, at
    index [i]: the count of ticket extensions and whether there is a PSK. *)
Definition sync_ext (n i l : nat) (found : Z * bool) : M (Z * bool) :=
  let '(numSessionExt, hasPskExt) := found in
  x ← object l;
  match x with
  | SessionTicket _ =>
      uAssert (fun _ => numSessionExt =? 0) ;;
      ext ← get (fun c => c.(sc).(sessionController.sessionTicketExt));
      match ext with
      | None => modify (on_sc (sessionController.set_sessionTicketExt (Some l)))
      | Some l' => modify (fun c => set_Exts (<[i := l']> c.(Exts)) c)
      end ;;
      ret (numSessionExt + 1, hasPskExt)
  | UtlsPreSharedKey _ | FakePreSharedKey _ =>
      uAssert (fun _ => Nat.eqb i (n - 1)) ;;
      ext ← get (fun c => c.(sc).(sessionController.pskExtension));
      match ext with
      | None => update l (psk_ResetForReuse x) ;; modify (on_sc (sessionController.set_pskExtension (Some l)))
      | Some l' => modify (fun c => set_Exts (<[i := l']> c.(Exts)) c)
      end ;;
      ext ← get (fun c => c.(sc).(sessionController.pskExtension));
      l' ← deref ext;
      x' ← object l';
      omit ← get (fun c => (config c).(Config.OmitEmptyPsk));
      update l' (psk_SetOmitEmptyPsk omit x') ;;
      ret (numSessionExt, true)
  | _ => ret found
  end.

Fixpoint sync_exts (n i : nat) (ls : list nat) (found : Z * bool) : M (Z * bool) :=
  match ls with
  | [] => ret found
  | l :: ls => found ← sync_ext n i l found; sync_exts n (1 + i) ls found
  end.

Definition errNoTicketInSpec : gerror :=
  ErrorNew "tls: checkSessionExts failed: the user provided a session ticket, but the specification doesn't contain one".
Definition errNoPskInSpec : gerror :=
  ErrorNew "tls: checkSessionExts failed: the user provided a psk, but the specification doesn't contain one".

Definition drop_ticket (c : conn) : conn :=
  set_hello (PubClientHelloMsg.set_SessionTicket []) (set_Session None
    (on_sc (sessionController.set_sessionTicketExt None) c)).
Definition drop_psk (c : conn) : conn :=
  set_hello (PubClientHelloMsg.set_PskIdentities []) (set_Session None (set_EarlySecret [] (set_BinderKey []
    (on_sc (sessionController.set_pskExtension None) c)))).

Definition syncSessionExts : M (option gerror) :=
  assertHelloNotBuilt ;; assertNotLocked ;; assertHelloNotBuilt ;;
  assertControllerState [NoSession; SessionTicketExtInitialized; PskExtInitialized] ;;
  ls ← get Exts;
  found ← sync_exts (length ls) 0 ls (0, false);
  let '(numSessionExt, hasPskExt) := (found : Z * bool) in
  st ← get state;
  if (numSessionExt =? 0) && bool_decide (st = SessionTicketExtInitialized) then ret (Some errNoTicketInSpec) else
  (if numSessionExt =? 0 then modify drop_ticket else ret tt) ;;
  if negb hasPskExt && bool_decide (st = PskExtInitialized) then ret (Some errNoPskInSpec) else
  (if negb hasPskExt then modify drop_psk else ret tt) ;;
  ret None.

Definition onEnterLoadSessionCheck : M unit :=
  uAssert (fun c => negb (isSessionLocked c)) ;;
  uAssert (fun c => bool_decide (tracker c ∈ [UtlsAboutToCall; NeverCalled])) ;;
  modify (on_sc (sessionController.set_callingLoadSession true)).

Definition onLoadSessionReturn : M unit :=
  uAssert (fun c => c.(sc).(sessionController.callingLoadSession)) ;;
  t ← get tracker;
  match t with
  | NeverCalled => modify (on_sc (sessionController.set_loadSessionTracker CalledByGoTLS))
  | UtlsAboutToCall => modify (on_sc (sessionController.set_loadSessionTracker CalledByULoadSession))
  | _ => panic
  end ;;
  modify (on_sc (sessionController.set_callingLoadSession false)).

Definition shouldLoadSessionWriteBinders : M bool :=
  uAssert (fun c => c.(sc).(sessionController.callingLoadSession)) ;;
  t ← get tracker;
  match t with NeverCalled => ret true | UtlsAboutToCall => ret false | _ => panic end.

(** ** loadSession *)

Definition clientSessionCacheKey (c : conn) : bytes :=
  if 0 <? len (config c).(Config.ServerName) then (config c).(Config.ServerName) else default [] c.(remoteAddr).

(** What [loadSession] returns, with the hello it was given, which it changes. *)
Record loaded := MkLoaded {
  ld_hello : clientHelloMsg.t;
  ld_session : option (session.ptr X);
  ld_earlySecret : option tls13.EarlySecret;
  ld_binderKey : bytes;
  ld_err : option gerror
}.
Definition nothing (h : clientHelloMsg.t) : loaded := MkLoaded h None None [] None.

Definition second : Z := 1000000000.
Definition int64 (z : Z) : Z := (z + 2 ^ 63) mod 2 ^ 64 - 2 ^ 63.
(** [t.Sub(u)] saturates. *)
Definition Sub (t u : Z) : Z := Z.max (- 2 ^ 63) (Z.min (2 ^ 63 - 1) (t - u)).
(** [uint32(ticketAge/time.Millisecond) + session.ageAdd]; division truncates. *)
Definition obfuscatedTicketAge (now : Z) (s : SessionState.t X) : Z :=
  (Z.quot (Sub now (int64 s.(SessionState.createdAt) * second)) 1000000 + s.(SessionState.ageAdd)) mod 2 ^ 32.


(** The certificate check; [None]: the peer certificate list is empty, and the
    code panics. *)
Definition session_verified (now : Z) (cfg : Config.t) (s : SessionState.t X) : outcome (bool * bool) :=
  let first := match s.(SessionState.peerCertificates) with c :: _ => Ret c | [] => Panic end in
  run expired := (if cfg.(Config.InsecureSkipTimeVerify) then Ret false else run c := first in Ret (NotAfter c <? now)) in
  if expired then Ret (true, false) else
  if cfg.(Config.InsecureSkipVerify) then Ret (false, true) else
  if len s.(SessionState.verifiedChains) =? 0 then Ret (false, false) else
  let dnsName :=
    if len cfg.(Config.InsecureServerNameToVerify) =? 0 then cfg.(Config.ServerName)
    else if bool_decide (cfg.(Config.InsecureServerNameToVerify) = [x2a]) then []
    else cfg.(Config.InsecureServerNameToVerify) in
  if 0 <? len dnsName then run c := first in Ret (false, VerifyHostname c dnsName) else Ret (false, true).

(** Drops the cache entry of this connection. *)
Definition forget_session (key : bytes) : M unit :=
  modify (fun c => set_sessionCache (Put key None <$> c.(sessionCache)) c).

(** The end of [loadSession] for TLS 1.3. *)
Definition load_psk (now : Z) (key : bytes) (s : session.ptr X) (h : clientHelloMsg.t) : M loaded :=
  let st := s.(session.state) in
  if int64 st.(SessionState.useBy) * second <? now then forget_session key ;; ret (nothing h) else
  match cipherSuiteTLS13ByID st.(SessionState.cipherSuite) with
  | None => ret (nothing h)
  | Some suite =>
      let offered id := match cipherSuiteTLS13ByID id with
        | Some o => bool_decide (o.(cipherSuiteTLS13.hash) = suite.(cipherSuiteTLS13.hash)) | None => false end in
      if negb (existsb offered h.(clientHelloMsg.cipherSuites)) then ret (nothing h) else
      let identity := pskIdentity.Mk (default [] st.(SessionState.ticket)) (obfuscatedTicketAge now st) in
      let h := clientHelloMsg.set_pskBinders [replicate (hash_size suite.(cipherSuiteTLS13.hash)) x00]
                 (clientHelloMsg.set_pskIdentities [identity] h) in
      let earlySecret := tls13.NewEarlySecret suite.(cipherSuiteTLS13.hash) (Some st.(SessionState.secret)) in
      binderKey ← lift (tls13.ResumptionBinderKey earlySecret);
      writeBinders ← shouldLoadSessionWriteBinders;
      if negb writeBinders then ret (MkLoaded h (Some s) (Some earlySecret) binderKey None) else
      (* computeAndUpdatePSK *)
      helloBytes ← lift (clientHelloMsg.marshalWithoutBinders h);
      match helloBytes with
      | inl err => ret (MkLoaded h None None [] (Some err))
      | inr helloBytes =>
          binder ← lift (finishedHash suite binderKey helloBytes);
          match clientHelloMsg.updateBinders h [binder] with
          | inl err => ret (MkLoaded h None None [] (Some err))
          | inr h => ret (MkLoaded h (Some s) (Some earlySecret) binderKey None)
          end
      end
  end.

(** Between the two hooks of the controller. *)
Definition load_session_body (now : Z) (h : clientHelloMsg.t) : M loaded :=
  cfg ← get config;
  cache ← get sessionCache;
  match cache with
  | None => ret (nothing h)
  | Some ca =>
      if cfg.(Config.SessionTicketsDisabled) then ret (nothing h) else
      let echInner := bool_decide (h.(clientHelloMsg.encryptedClientHello) = [x01]) in
      let h := clientHelloMsg.set_ticketSupported (negb echInner) h in
      match h.(clientHelloMsg.supportedVersions) with
      | [] => panic
      | v :: _ =>
          let h := if v =? VersionTLS13 then clientHelloMsg.set_pskModes [pskModeDHE] h else h in
          handshakes ← get (fun c => c.(uc).(UConn.handshakes));
          if negb (handshakes =? 0) then ret (nothing h) else
          key ← get clientSessionCacheKey;
          if len key =? 0 then ret (nothing h) else
          let '(r, ca) := Get key ca in
          modify (set_sessionCache (Some ca)) ;;
          match r with
          | (Some s, true) =>
              let st := s.(session.state) in
              if negb (contains h.(clientHelloMsg.supportedVersions) st.(SessionState.version)) then ret (nothing h) else
              ev ← lift (session_verified now cfg st);
              let '(expired, verified) := (ev : bool * bool) in
              if expired then forget_session key ;; ret (nothing h) else
              if negb verified then ret (nothing h) else
              if negb (st.(SessionState.version) =? VersionTLS13) then
                match mutualCipherSuite utlsSupportedCipherSuites h.(clientHelloMsg.cipherSuites) st.(SessionState.cipherSuite) with
                | None => ret (nothing h)
                | Some _ =>
                    ret (MkLoaded (clientHelloMsg.set_sessionTicket (default [] st.(SessionState.ticket)) h) (Some s) None [] None)
                end
              else load_psk now key s h
          | _ => ret (nothing h)
          end
      end
  end.

Definition loadSession (now : Z) (h : clientHelloMsg.t) : M loaded :=
  onEnterLoadSessionCheck ;; r ← load_session_body now h; onLoadSessionReturn ;; ret r.
End Client.

(** * Concrete instances *)

Definition plain_verify : X509Verify plain_x509 :=
  {| NotAfter _ := 4000000000 * 1000000000; VerifyHostname _ _ := true |}.

(** A counter for a source of randomness, and keys that are their public halves. *)
Definition toy_keys : Keys := {|
  reader := nat;
  ReadFull n r := (S r, inr (replicate (Z.to_nat n) (u8 (Z.of_nat r))));
  ecdhKey := bytes;
  GenerateKey group r := (S r, inr (replicate (Z.to_nat (public_size group)) (u8 (Z.of_nat r))));
  PublicKey k := k;
  mlkemKey := unit;
  NewDecapsulationKey768 _ := inr tt;
  EncapsulationKey _ := replicate (Z.to_nat mlkem_KeySize) x4d;
  hpkePublicKey := bytes;
  ParseHPKEPublicKey _ b := inr b;
  hpkeSender := unit;
  SetupSender _ _ _ _ _ := inr ([], tt);
  Seal s _ b := (s, inr b)
|}.
