(* ===== verification/Preset.v ===== *)
(** * Applying a specification

    Models what gives a connection the hello of a specification: [SetTLSVers]
    (u_conn.go), [makeClientHello] (handshake_client.go),
    [makeClientHelloForApplyPreset] (u_handshake_client.go), and [ApplyPreset],
    [applyPresetByID] and [regreaseSignatureAlgorithms] (u_parrots.go).

    The extensions of a specification are objects of the connection's store, and
    a specification lists their addresses; the connection does not use QUIC. *)

From S2P Require Import Prelude Cryptobyte Common Config Negotiation Codec Buffer KeySchedule Names Quic Messages Ticket Caches ClientHello Public Extensions PreSharedKey ECH GreaseECH Marshal Shuffle Parrots Session.

#[local] Existing Instance M_ret.
#[local] Existing Instance M_bind.

(** ** Versions *)

(** [maxVers-minVers+1] wraps around. *)
Definition makeSupportedVersions (minVers maxVers : Z) : list Z :=
  map (fun i => (maxVers - Z.of_nat i) mod 2 ^ 16) (seq 0 (Z.to_nat ((maxVers - minVers + 1) mod 2 ^ 16))).

(** The least and the greatest version that is not GREASE, 0 when there is none. *)
Fixpoint find_versions (versions : list Z) (minVers maxVers : Z) : Z * Z :=
  match versions with
  | [] => (minVers, maxVers)
  | vers :: versions =>
      if isGREASEUint16 vers then find_versions versions minVers maxVers else
      let maxVers := if (maxVers <? vers) || (maxVers =? 0) then vers else maxVers in
      let minVers := if (vers <? minVers) || (minVers =? 0) then vers else minVers in
      find_versions versions minVers maxVers
  end.

Definition Ed25519 : Z := 0x0807.
Definition defaultSupportedSignatureAlgorithms : list Z := [
  PSSWithSHA256; ECDSAWithP256AndSHA256; Ed25519; PSSWithSHA384; PSSWithSHA512; PKCS1WithSHA256; PKCS1WithSHA384;
  PKCS1WithSHA512; ECDSAWithP384AndSHA384; ECDSAWithP521AndSHA512; PKCS1WithSHA1; ECDSAWithSHA1].
Definition supportedSignatureAlgorithms : list Z := defaultSupportedSignatureAlgorithms.

(** Keys for a group. *)
Definition curveForCurveID (id : Z) : bool := bool_decide (id ∈ [X25519; CurveP256; CurveP384; CurveP521]).

(** ** GREASE *)

Definition ssl_grease_cipher : nat := 0.
Definition ssl_grease_group : nat := 1.
Definition ssl_grease_extension1 : nat := 2.
Definition ssl_grease_extension2 : nat := 3.
Definition ssl_grease_version : nat := 4.
Definition ssl_grease_signature_algorithm : nat := 7.

(** Every GREASE value of a list replaced by that of the index. *)
Definition regrease (seed : list Z) (index : nat) (l : list Z) : outcome (list Z) :=
  run v := GetBoringGREASEValue seed index in Ret (map (fun x => if isGREASEUint16 x then v else x) l).

Definition regreaseSignatureAlgorithms (ext : SignatureAlgorithmsExtension.t) (seed : list Z)
    : outcome SignatureAlgorithmsExtension.t :=
  run l := regrease seed ssl_grease_signature_algorithm ext.(SignatureAlgorithmsExtension.SupportedSignatureAlgorithms) in
  Ret (SignatureAlgorithmsExtension.Mk l).

Section Client.
Context {X : X509} {V : X509Verify X} {C : Cryptobyte} {K : Crypto} {I : ClientSessionCache (session.ptr X)} {Ks : Keys}.

Definition readFull (n : Z) : M (res bytes) := fun c => let (r, b) := ReadFull n c.(rand) in Ret (set_rand r c, b).

Definition errUnsupportedCurve : gerror := ErrorNew "tls: internal error: unsupported curve".
Definition generateECDHEKey (curveID : Z) : M (res ecdhKey) := fun c =>
  if negb (curveForCurveID curveID) then Ret (c, inl errUnsupportedCurve) else
  let (r, k) := GenerateKey curveID c.(rand) in Ret (set_rand r c, k).

(** [k] on the value of a result, or its error. *)
Definition ok {A B} (m : M (res A)) (k : A -> M (res B)) : M (res B) :=
  r ← m; match r with inl err => ret (inl err) | inr a => k a end.

(** ** SetTLSVers *)

Definition errVersionsField : gerror := ErrorNew "SupportedVersions extension has invalid Versions field".

(** The loop over the extensions: how many list versions, and the last range. *)
Fixpoint versions_loop (ls : list nat) (n minVers maxVers : Z) : M (res (Z * Z * Z)) :=
  match ls with
  | [] => ret (inr (n, minVers, maxVers))
  | l :: ls =>
      x ← object l;
      match x with
      | SupportedVersions e =>
          let (minVers, maxVers) := find_versions e.(SupportedVersionsExtension.Versions) 0 0 in
          if (minVers =? 0) && (maxVers =? 0) then ret (inl errVersionsField)
          else versions_loop ls (n + 1) minVers maxVers
      | _ => versions_loop ls n minVers maxVers
      end
  end.

Definition SetTLSVers (minTLSVers maxTLSVers : Z) (specExtensions : list nat) : M (option gerror) :=
  range ← (if (minTLSVers =? 0) && (maxTLSVers =? 0) then
      r ← versions_loop specExtensions 0 minTLSVers maxTLSVers;
      match r with
      | inl err => ret (inl err)
      | inr (n, minVers, maxVers) =>
          if n =? 0 then ret (inr (VersionTLS10, VersionTLS12))
          else if n =? 1 then ret (inr (minVers, maxVers))
          else ret (inl (Errorf "uconn.Extensions contains %v separate SupportedVersions extensions" [n]))
      end
    else ret (inr (minTLSVers, maxTLSVers)));
  match (range : res (Z * Z)) with
  | inl err => ret (Some err)
  | inr (minVers, maxVers) =>
      if (minVers <? VersionTLS10) || (VersionTLS13 <? minVers)
      then ret (Some (Errorf "uTLS does not support 0x%X as min version" [minVers])) else
      if (maxVers <? VersionTLS10) || (VersionTLS13 <? maxVers)
      then ret (Some (Errorf "uTLS does not support 0x%X as max version" [maxVers])) else
      modify (set_hello (PubClientHelloMsg.set_SupportedVersions (makeSupportedVersions minVers maxVers))) ;;
      cfg ← get config;
      (if non_nil cfg.(Config.EncryptedClientHelloConfigList) then ret tt else
         modify (fun c => set_uc (config_set (fun cfg => Config.set_MaxVersion maxVers (Config.set_MinVersion minVers cfg)) c.(uc)) c)) ;;
      ret None
  end.

(** ** The hello of the configuration *)

(** [hasAESGCMHardwareSupport], and the suites of the package, which
    [EnableWeakCiphers] changes. *)
Context (hardware : bool) (supported : list cipherSuite.t).

Definition errNoName : gerror := ErrorNew
  "tls: at least one of ServerName, InsecureSkipVerify or InsecureServerNameToVerify must be specified in the tls.Config".
(** Without the text of the wrapped error. *)
Definition errShortRand : gerror := ErrorNew "tls: short read from Rand: ".

Definition protos_len (protos : list bytes) : Z := fold_left (fun n p => n + (1 + len p)) protos 0.

(** The checks on the names of the configuration, and on its versions. *)
Definition check_names (cfg : Config.t) : option gerror :=
  if (len cfg.(Config.ServerName) =? 0) && negb cfg.(Config.InsecureSkipVerify) &&
     (len cfg.(Config.InsecureServerNameToVerify) =? 0) then Some errNoName else
  if List.existsb (fun p => (len p =? 0) || (255 <? len p)) cfg.(Config.NextProtos)
  then Some (ErrorNew "tls: invalid NextProtos value") else
  if 0xffff <? protos_len cfg.(Config.NextProtos) then Some (ErrorNew "tls: NextProtos values too large") else None.
Definition check_config (cfg : Config.t) : option gerror :=
  match check_names cfg with
  | Some err => Some err
  | None =>
      if len (config_supportedVersions cfg true) =? 0
      then Some (ErrorNew "tls: no supported versions satisfy MinVersion and MaxVersion") else None
  end.

(** The cipher suites up to TLS 1.2. *)
Definition hello_suites (cfg : Config.t) (maxVersion : Z) : list Z :=
  let preferenceOrder := if hardware then cipherSuitesPreferenceOrder else cipherSuitesPreferenceOrderNoAES in
  List.filter (fun id =>
    match mutualCipherSuite supported (config_cipherSuites cfg) id with
    | None => false
    | Some suite => negb ((maxVersion <? VersionTLS12) && cipherSuite.has suiteTLS12 suite)
    end) preferenceOrder.

(** The fields set before any key is made, on [&clientHelloMsg{}]. *)
Definition config_hello (cfg : Config.t) (handshakes : Z) (clientFinished random sessionId : bytes) : clientHelloMsg.t :=
  let maxVersion := maxSupportedVersion cfg true in
  let versions := config_supportedVersions cfg true in
  let tls13 := bool_decide (head versions = Some VersionTLS13) in
  let suites := hello_suites cfg maxVersion in
  let suites := if tls13 then
      (if len versions =? 1 then [] else suites) ++
      (if hardware then defaultCipherSuitesTLS13 else defaultCipherSuitesTLS13NoAES)
    else suites in
  {| clientHelloMsg.original := None;
     clientHelloMsg.vers := Z.min maxVersion VersionTLS12;
     clientHelloMsg.random := random;
     clientHelloMsg.sessionId := sessionId;
     clientHelloMsg.cipherSuites := suites;
     clientHelloMsg.compressionMethods := [compressionNone];
     clientHelloMsg.serverName := hostnameInSNI cfg.(Config.ServerName);
     clientHelloMsg.ocspStapling := true;
     clientHelloMsg.supportedCurves := curvePreferences cfg maxVersion;
     clientHelloMsg.supportedPoints := [pointFormatUncompressed];
     clientHelloMsg.ticketSupported := false;
     clientHelloMsg.sessionTicket := [];
     clientHelloMsg.supportedSignatureAlgorithms :=
       if VersionTLS12 <=? maxVersion then supportedSignatureAlgorithms else [];
     clientHelloMsg.supportedSignatureAlgorithmsCert := [];
     clientHelloMsg.secureRenegotiationSupported := true;
     clientHelloMsg.secureRenegotiation := if 0 <? handshakes then clientFinished else [];
     clientHelloMsg.extendedMasterSecret := true;
     clientHelloMsg.alpnProtocols := cfg.(Config.NextProtos);
     clientHelloMsg.scts := true;
     clientHelloMsg.supportedVersions := versions;
     clientHelloMsg.cookie := [];
     clientHelloMsg.keyShares := [];
     clientHelloMsg.earlyData := false;
     clientHelloMsg.pskModes := [];
     clientHelloMsg.pskIdentities := [];
     clientHelloMsg.pskBinders := [];
     clientHelloMsg.quicTransportParameters := None;
     clientHelloMsg.encryptedClientHello := [];
     clientHelloMsg.extensions := [];
     clientHelloMsg.nextProtoNeg := false |}.

(** The start of [makeClientHello] and [makeClientHelloForApplyPreset]. *)
Definition start_hello : M (res clientHelloMsg.t) :=
  c ← get uc;
  let cfg := c.(UConn.config) in
  match check_config cfg with
  | Some err => ret (inl err)
  | None =>
      random ← readFull 32;
      match random with
      | inl _ => ret (inl errShortRand)
      | inr random =>
          sessionId ← readFull 32;
          match sessionId with
          | inl _ => ret (inl errShortRand)
          | inr sessionId =>
              let hello := config_hello cfg c.(UConn.handshakes) c.(UConn.clientFinished) random sessionId in
              if bool_decide (head hello.(clientHelloMsg.supportedVersions) = Some VersionTLS13) &&
                 (len hello.(clientHelloMsg.supportedCurves) =? 0)
              then ret (inl (ErrorNew "tls: no supported elliptic curves for ECDHE"))
              else ret (inr hello)
          end
      end
  end.

(** The key shares of [makeClientHello]. *)
Definition first_share (hello : clientHelloMsg.t) (curveID : Z) : M (res (list keyShare.t * keySharePrivateKeys.t)) :=
  if curveID =? X25519MLKEM768 then
    ok (generateECDHEKey X25519) (fun ecdhe =>
    ok (readFull mlkem_SeedSize) (fun seed =>
    ok (ret (NewDecapsulationKey768 seed)) (fun mlkem =>
      let x25519EphemeralKey := PublicKey ecdhe in
      let hybrid := keyShare.Mk X25519MLKEM768 (EncapsulationKey mlkem ++ x25519EphemeralKey) in
      let fallback := if contains hello.(clientHelloMsg.supportedCurves) X25519
                      then [keyShare.Mk X25519 x25519EphemeralKey] else [] in
      ret (inr (hybrid :: fallback, keySharePrivateKeys.Mk Ks curveID (Some ecdhe) (Some mlkem) None)))))
  else if negb (curveForCurveID curveID) then ret (inl (ErrorNew "tls: CurvePreferences includes unsupported curve"))
  else ok (generateECDHEKey curveID) (fun ecdhe =>
    ret (inr ([keyShare.Mk curveID (PublicKey ecdhe)], keySharePrivateKeys.Mk Ks curveID (Some ecdhe) None None))).

Definition errNoECHConfig : gerror := ErrorNew "tls: EncryptedClientHelloConfigList contains no valid configs".

(** [parseECHConfigList] needs no more fuel than it has. *)
Definition parse_config_list (data : bytes) : outcome (res (list echConfig.t)) :=
  match parseECHConfigList data with Some o => o | None => Panic end.

(** The Encrypted ClientHello part of both functions. *)
Definition hello_ech (hello : clientHelloMsg.t) : M (res (clientHelloMsg.t * option echContext.t)) :=
  cfg ← get config;
  match cfg.(Config.EncryptedClientHelloConfigList) with
  | None => ret (inr (hello, None))
  | Some data =>
      if negb (cfg.(Config.MinVersion) =? 0) && (cfg.(Config.MinVersion) <? VersionTLS13) then
        ret (inl (ErrorNew "tls: MinVersion must be >= VersionTLS13 if EncryptedClientHelloConfigList is populated")) else
      if negb (cfg.(Config.MaxVersion) =? 0) && (cfg.(Config.MaxVersion) <=? VersionTLS12) then
        ret (inl (ErrorNew "tls: MaxVersion must be >= VersionTLS13 if EncryptedClientHelloConfigList is populated")) else
      ok (lift (parse_config_list data)) (fun echConfigs =>
      match pickECHConfig echConfigs with
      | None => ret (inl errNoECHConfig)
      | Some echConfig =>
          let hello := clientHelloMsg.set_extendedMasterSecret false
            (clientHelloMsg.set_secureRenegotiationSupported false
            (clientHelloMsg.set_ticketSupported false
            (clientHelloMsg.set_supportedPoints []
            (clientHelloMsg.set_encryptedClientHello [x01] hello)))) in
          ok (ret (ParseHPKEPublicKey echConfig.(echConfig.KemID) echConfig.(echConfig.PublicKey))) (fun echPK =>
          ok (ret (pickECHCipherSuite echConfig.(echConfig.SymmetricCipherSuite))) (fun suite =>
          let info := ech_info_prefix ++ echConfig.(echConfig.raw) in
          ok (ret (SetupSender echConfig.(echConfig.KemID) suite.(echCipher.KDFID) suite.(echCipher.AEADID) echPK info))
            (fun sender =>
              ret (inr (hello, Some (echContext.make (echClientContext.Mk echConfig sender.1
                suite.(echCipher.KDFID) suite.(echCipher.AEADID)) sender.2))))))
      end)
  end.

Definition made : Type := clientHelloMsg.t * option keySharePrivateKeys.t * option echContext.t.

Definition makeClientHello : M (res made) :=
  ok start_hello (fun hello =>
  ok (if bool_decide (head hello.(clientHelloMsg.supportedVersions) = Some VersionTLS13) then
        match hello.(clientHelloMsg.supportedCurves) with
        | [] => panic
        | curveID :: _ =>
            ok (first_share hello curveID) (fun p =>
              ret (inr (clientHelloMsg.set_keyShares p.1 hello, Some p.2)))
        end
      else ret (inr (hello, None))) (fun p =>
  ok (hello_ech p.1) (fun q => ret (inr (q.1, p.2, q.2))))).

Definition makeClientHelloForApplyPreset : M (res made) :=
  ok start_hello (fun hello => ok (hello_ech hello) (fun q => ret (inr (q.1, None, q.2)))).

(** ** ApplyPreset *)

Definition spec_ : Type := ClientHelloSpec.t nat.

(** The GREASE seed: that of the specification when it has one. *)
Definition has_seed (seed : list Z) : bool := List.existsb (fun v => negb (v =? 0)) seed.

(** [binary.LittleEndian.Uint16(b[2*i:2*i+2])] for every [i]. *)
Fixpoint seed_of (b : bytes) : list Z :=
  match b with lo :: hi :: b => b2z lo + 256 * b2z hi :: seed_of b | _ => [] end.

(** The values of the two GREASE extensions differ. *)
Definition separate (seed : list Z) : outcome (list Z) :=
  run v1 := GetBoringGREASEValue seed ssl_grease_extension1 in
  run v2 := GetBoringGREASEValue seed ssl_grease_extension2 in
  if v1 =? v2 then Ret (alter (fun s => Z.lxor s 0x1010) ssl_grease_extension2 seed) else Ret seed.

Definition choose_seed (p : spec_) : M (option gerror) :=
  if has_seed p.(ClientHelloSpec.GREASESeed) then modify (set_greaseSeed p.(ClientHelloSpec.GREASESeed)) ;; ret None else
  r ← readFull (2 * Z.of_nat ssl_grease_seed_len);
  match r with
  | inl _ => ret (Some errShortRand)
  | inr b => seed ← lift (separate (seed_of b)); modify (set_greaseSeed seed) ;; ret None
  end.

Definition on_keys (f : KeySharePrivateKeys.t -> KeySharePrivateKeys.t) : M unit :=
  k ← get KeyShareKeys; k ← deref k; modify (set_KeyShareKeys (Some (f k))).

Definition errCurveInShare (curveID : Z) : gerror := Errorf
  "unsupported Curve in KeyShareExtension: %v.To mimic it, fill the Data(key) field manually" [curveID].

Definition hybrid (curveID : Z) : bool := (curveID =? X25519MLKEM768) || (curveID =? X25519Kyber768Draft00).

(** The key of one share that is not GREASE, and whether the preferred curve is
    set after it. *)
Definition share_key (curveID : Z) (preferredCurveIsSet : bool) : M (res (bytes * bool)) :=
  if hybrid curveID then
    ok (generateECDHEKey X25519) (fun ecdheKey =>
    ok (readFull mlkem_SeedSize) (fun seed =>
    ok (ret (NewDecapsulationKey768 seed)) (fun mlkemKey =>
      on_keys (KeySharePrivateKeys.set_hybrid mlkemKey ecdheKey) ;;
      ret (inr (if curveID =? X25519Kyber768Draft00 then PublicKey ecdheKey ++ EncapsulationKey mlkemKey
                else EncapsulationKey mlkemKey ++ PublicKey ecdheKey, preferredCurveIsSet)))))
  else
    r ← generateECDHEKey curveID;
    match r with
    | inl _ => ret (inl (errCurveInShare curveID))
    | inr ecdheKey =>
        (if preferredCurveIsSet then ret tt else on_keys (KeySharePrivateKeys.set_Ecdhe (Some ecdheKey))) ;;
        ret (inr (PublicKey ecdheKey, true))
    end.

(** The shares as they are when the loop ends, and its error: a share without a
    key has lost its data. *)
Fixpoint share_loop (shares : list KeyShare.t) (preferredCurveIsSet : bool) : M (list KeyShare.t * option gerror) :=
  match shares with
  | [] => ret ([], None)
  | ks :: shares =>
      let curveID := ks.(KeyShare.Group) in
      if isGREASEUint16 curveID then
        seed ← get greaseSeed;
        v ← lift (GetBoringGREASEValue seed ssl_grease_group);
        let data := if len ks.(KeyShare.Data) =? 0 then [x00] else ks.(KeyShare.Data) in
        '(rest, err) ← share_loop shares preferredCurveIsSet;
        ret (KeyShare.Mk v data :: rest, err)
      else
        r ← share_key curveID preferredCurveIsSet;
        match r with
        | inl err => ret (KeyShare.Mk curveID [] :: shares, Some err)
        | inr (data, set) =>
            '(rest, err) ← share_loop shares set;
            ret (KeyShare.Mk curveID data :: rest, err)
        end
  end.

Definition errGREASEs : gerror := ErrorNew "at most 2 grease extensions are supported".

(** One iteration of the loop over the extensions: the count of GREASE
    extensions and whether there is an NPN extension. *)
Definition preset_ext (l : nat) (found : nat * bool) : M (res (nat * bool)) :=
  let '(seen, haveNPN) := found in
  x ← object l;
  seed ← get greaseSeed;
  cfg ← get config;
  match x with
  | SNI e =>
      let e := if len e.(SNIExtension.ServerName) =? 0 then SNIExtension.Mk cfg.(Config.ServerName) else e in
      (if non_nil cfg.(Config.EncryptedClientHelloConfigList) then
         ech ← get echCtx; ech ← deref ech;
         update l (SNI (SNIExtension.Mk ech.(echContext.ech).(echClientContext.config).(echConfig.PublicName)))
       else update l (SNI e)) ;;
      ret (inr found)
  | UtlsGREASE e =>
      match seen with
      | O => v ← lift (GetBoringGREASEValue seed ssl_grease_extension1);
             update l (UtlsGREASE (UtlsGREASEExtension.Mk v e.(UtlsGREASEExtension.Body))) ;; ret (inr (1%nat, haveNPN))
      | 1%nat => v ← lift (GetBoringGREASEValue seed ssl_grease_extension2);
             update l (UtlsGREASE (UtlsGREASEExtension.Mk v [x00])) ;; ret (inr (2%nat, haveNPN))
      | _ => ret (inl errGREASEs)
      end
  | SupportedCurves e =>
      curves ← lift (regrease seed ssl_grease_group e.(SupportedCurvesExtension.Curves));
      update l (SupportedCurves (SupportedCurvesExtension.Mk curves)) ;; ret (inr found)
  | SignatureAlgorithms e =>
      e ← lift (regreaseSignatureAlgorithms e seed);
      update l (SignatureAlgorithms e) ;; ret (inr found)
  | KeyShare e =>
      '(shares, err) ← share_loop e.(KeyShareExtension.KeyShares) false;
      update l (KeyShare (KeyShareExtension.Mk shares)) ;;
      ret (match err with Some err => inl err | None => inr found end)
  | SupportedVersions e =>
      versions ← lift (regrease seed ssl_grease_version e.(SupportedVersionsExtension.Versions));
      update l (SupportedVersions (SupportedVersionsExtension.Mk versions)) ;; ret (inr found)
  | NPN _ => ret (inr (seen, true))
  | _ => ret (inr found)
  end.

Fixpoint preset_exts (ls : list nat) (found : nat * bool) : M (res (nat * bool)) :=
  match ls with
  | [] => ret (inr found)
  | l :: ls => ok (preset_ext l found) (preset_exts ls)
  end.

(** The random bytes of the hello. *)
Definition hello_random : M (option gerror) :=
  h ← get hello;
  let n := len h.(PubClientHelloMsg.Random) in
  if n =? 0 then
    r ← readFull 32;
    match r with
    | inl _ => ret (Some errShortRand)
    | inr b => modify (set_hello (PubClientHelloMsg.set_Random b)) ;; ret None
    end
  else if n =? 32 then ret None
  else ret (Some (Errorf "ClientHello expected length: 32 bytes. Got: %d bytes" [n])).

(** [k] unless an error was returned. *)
Definition unless (m : M (option gerror)) (k : M (option gerror)) : M (option gerror) :=
  err ← m; match err with Some err => ret (Some err) | None => k end.

(** The hello of the configuration becomes that of the connection. *)
Definition install (m : made) : M (option gerror) :=
  let '(privateHello, clientKeySharePrivate, ech) := m in
  modify (set_hello (fun _ => getPublicPtr privateHello)) ;;
  modify (set_KeyShareKeys (Some (match clientKeySharePrivate with
    | Some k => KeySharePrivateKeys.ToPublic k
    | None => KeySharePrivateKeys.Mk Ks 0 None None None
    end))) ;;
  modify (set_echCtx ech) ;;
  unless hello_random (
    modify (set_hello (fun h =>
      if len h.(PubClientHelloMsg.CompressionMethods) =? 0 then PubClientHelloMsg.set_CompressionMethods [compressionNone] h else h)) ;;
    ret None).

(** The cipher suites, a session identifier and the extensions of the
    specification. *)
Definition install_spec (p : spec_) : M (option gerror) :=
  seed ← get greaseSeed;
  suites ← lift (regrease seed ssl_grease_cipher p.(ClientHelloSpec.CipherSuites));
  modify (set_hello (PubClientHelloMsg.set_CipherSuites suites)) ;;
  sessionID ← readFull 32;
  match sessionID with
  | inl err => ret (Some err)
  | inr sessionID =>
      modify (set_hello (PubClientHelloMsg.set_SessionId sessionID)) ;;
      modify (set_Exts p.(ClientHelloSpec.Extensions)) ;;
      found ← preset_exts p.(ClientHelloSpec.Extensions) (0%nat, false);
      match found with
      | inl err => ret (Some err)
      | inr (_, haveNPN) =>
          modify (set_hello (PubClientHelloMsg.set_NextProtoNeg haveNPN)) ;;
          syncSessionExts
      end
  end.

Definition ApplyPreset (p : spec_) : M (option gerror) :=
  unless (SetTLSVers p.(ClientHelloSpec.TLSVersMin) p.(ClientHelloSpec.TLSVersMax) p.(ClientHelloSpec.Extensions)) (
  m ← makeClientHelloForApplyPreset;
  match m with
  | inl err => ret (Some err)
  | inr m => unless (install m) (unless (choose_seed p) (install_spec p))
  end).

(** ** applyPresetByID *)

(** A new object. *)
Definition alloc (x : Ext X) : M nat := fun c =>
  let l := fresh (dom c.(store)) in Ret (set_store (<[l := x]> c.(store)) c, l).
Fixpoint alloc_all (xs : list (Ext X)) : M (list nat) :=
  match xs with
  | [] => ret []
  | x :: xs => l ← alloc x; ls ← alloc_all xs; ret (l :: ls)
  end.
Definition alloc_spec (s : @spec X) : M spec_ :=
  ls ← alloc_all s.(ClientHelloSpec.Extensions); ret (ClientHelloSpec.set_Extensions ls s).

Context (generateRandomizedSpec : ClientHelloID.t -> bytes -> list bytes -> ClientHelloID.t * outcome (res (@spec X))).

(** The server name of the connection is empty: the handshake sets it after the
    specification is chosen. *)
Definition UConn_generateRandomizedSpec : M (res (@spec X)) :=
  id ← get ClientHelloID; cfg ← get config;
  let (id, s) := generateRandomizedSpec id [] cfg.(Config.NextProtos) in
  modify (set_ClientHelloID id) ;; lift s.

Definition choose_spec (id : ClientHelloID.t) (r : parrot_rand) : M (res (option spec_)) :=
  modify (set_ClientHelloID id) ;;
  if bool_decide (id.(ClientHelloID.Client) ∈ [helloRandomized; helloRandomizedNoALPN; helloRandomizedALPN]) then
    ok UConn_generateRandomizedSpec (fun s => s ← alloc_spec s; ret (inr (Some s)))
  else if bool_decide (id.(ClientHelloID.Client) = helloCustom) then ret (inr None)
  else ok (lift (UTLSIdToSpec generateRandomizedSpec id r)) (fun s => s ← alloc_spec s; ret (inr (Some s))).

Definition applyPresetByID (id : ClientHelloID.t) (r : parrot_rand) : M (option gerror) :=
  p ← get clientHelloSpec;
  match p with
  | Some p => ApplyPreset p
  | None =>
      s ← choose_spec id r;
      match s with
      | inl err => ret (Some err)
      | inr None => ret None
      | inr (Some p) => modify (set_clientHelloSpec (Some p)) ;; ApplyPreset p
      end
  end.
End Client.
