(* ===== verification/Auth.v ===== *)
(** * Signatures of the handshake

    Models auth.go: the schemes that a certificate can sign with, the choice of one
    from the peer's list, the message that is signed in TLS 1.3, and the
    verification of a signature.

    The keys and algorithms of crypto/rsa, crypto/ecdsa and crypto/ed25519 are the
    class [Signing]: the dynamic type of a public key is a constructor of
    [publicKey], and a private key may or may not implement [crypto.Signer] and
    [crypto.Decrypter].  Its laws are that a signature made with a key is accepted
    for its public key by the algorithm it was made for. *)

From S2P Require Import Prelude Cryptobyte Common Config Negotiation Codec Buffer KeySchedule Names Messages Ticket Public Extensions Marshal Shuffle Parrots Session Preset.

(** ** Keys *)

(** [crypto.Hash] as far as it is used here; [directSigning] is 0. *)
Inductive cryptoHash := directSigning | MD5SHA1 | CryptoHash (h : hash_function).

#[export] Instance cryptoHash_eq_dec : EqDecision cryptoHash.
Proof. solve_decision. Defined.

(** [crypto.SignerOpts]: a hash, or [rsa.PSSOptions] with a salt of its length. *)
Inductive SignerOpts := HashOpts (h : cryptoHash) | PSSOptions (h : cryptoHash).

(** The curves of crypto/elliptic. *)
Inductive ellipticCurve := P256 | P384 | P521 | OtherCurve.

(** The types of private keys that an error message tells apart. *)
Inductive privateType := rsa_PrivateKey_value | ecdsa_PrivateKey_value | ed25519_PrivateKey_pointer | otherPrivateType.

Inductive publicKey {rsaPublic ecdsaPublic ed25519Public : Type} :=
  | RSA (k : rsaPublic)
  | ECDSA (k : ecdsaPublic)
  | Ed25519Key (k : ed25519Public)
  | OtherPublic.
#[global] Arguments publicKey : clear implicits.

Class Signing {Ks : Keys} := {
  rsaPublic : Type;
  ecdsaPublic : Type;
  ed25519Public : Type;
  rsa_Size : rsaPublic -> Z;
  ecdsa_Curve : ecdsaPublic -> ellipticCurve;
  ecdsa_VerifyASN1 : ecdsaPublic -> bytes -> bytes -> bool;
  ed25519_Verify : ed25519Public -> bytes -> bytes -> bool;
  rsa_VerifyPKCS1v15 : rsaPublic -> cryptoHash -> bytes -> bytes -> option gerror;
  rsa_VerifyPSS : rsaPublic -> cryptoHash -> bytes -> bytes -> option gerror;
  rsa_EncryptPKCS1v15 : rsaPublic -> bytes -> reader -> reader * res bytes;
  privateKey : Type;
  type_of : privateKey -> privateType;
  Signer_Public : privateKey -> option (publicKey rsaPublic ecdsaPublic ed25519Public);
  Sign : privateKey -> bytes -> SignerOpts -> reader -> reader * res bytes;
  Decrypter : privateKey -> bool;
  (* with a session key of 48 bytes *)
  Decrypt : privateKey -> bytes -> reader -> reader * res bytes
}.
#[global] Arguments Signing : clear implicits.
Abbreviation public := (publicKey rsaPublic ecdsaPublic ed25519Public).

(** [Certificate] with its private key; [SupportedSignatureAlgorithms] can be nil. *)
Module KeyPair.
Record t `{S : Signing} := Mk {
  chain : Certificate.t;
  PrivateKey : privateKey;
  SupportedSignatureAlgorithms : option (list Z)
}.
#[global] Arguments t {Ks S}.
#[global] Arguments Mk {Ks S}.
End KeyPair.

(** ** auth.go *)

Definition signaturePKCS1v15 : Z := 225.
Definition signatureRSAPSS : Z := 226.

Definition isSupportedSignatureAlgorithm (sigAlg : Z) (supportedSignatureAlgorithms : list Z) : bool :=
  List.existsb (fun s => s =? sigAlg) supportedSignatureAlgorithms.

Definition one_of (x : Z) (l : list Z) : bool := bool_decide (x ∈ l).

Definition typeAndHashFromSignatureScheme (signatureAlgorithm : Z) : res (Z * cryptoHash) :=
  let unsupported := inl (Errorf "unsupported signature algorithm: %v" [signatureAlgorithm]) in
  let among := one_of signatureAlgorithm in
  match (if among [PKCS1WithSHA1; PKCS1WithSHA256; PKCS1WithSHA384; PKCS1WithSHA512] then Some signaturePKCS1v15
         else if among [PSSWithSHA256; PSSWithSHA384; PSSWithSHA512] then Some signatureRSAPSS
         else if among [ECDSAWithSHA1; ECDSAWithP256AndSHA256; ECDSAWithP384AndSHA384; ECDSAWithP521AndSHA512] then Some signatureECDSA
         else if among [Ed25519] then Some signatureEd25519
         else None) with
  | None => unsupported
  | Some sigType =>
      if among [PKCS1WithSHA1; ECDSAWithSHA1] then inr (sigType, CryptoHash SHA1)
      else if among [PKCS1WithSHA256; PSSWithSHA256; ECDSAWithP256AndSHA256] then inr (sigType, CryptoHash SHA256)
      else if among [PKCS1WithSHA384; PSSWithSHA384; ECDSAWithP384AndSHA384] then inr (sigType, CryptoHash SHA384)
      else if among [PKCS1WithSHA512; PSSWithSHA512; ECDSAWithP521AndSHA512] then inr (sigType, CryptoHash SHA512)
      else if among [Ed25519] then inr (sigType, directSigning)
      else unsupported
  end.

(** [crypto.Hash.New] panics for a hash that is not available. *)
Definition hash_Sum `{K : Crypto} (h : cryptoHash) (b : bytes) : outcome bytes :=
  match h with CryptoHash h => Ret (Hash h b) | _ => Panic end.

Definition serverSignatureContext : bytes := label "TLS 1.3, server CertificateVerify" ++ [x00].
Definition clientSignatureContext : bytes := label "TLS 1.3, client CertificateVerify" ++ [x00].
Definition signaturePadding : bytes := replicate 64 x20.

(** The transcript is a running hash: its function and the bytes written to it. *)
Definition signedMessage `{K : Crypto} (sigHash : cryptoHash) (context : bytes) (hash : hash_function) (transcript : bytes) : outcome bytes :=
  let content := signaturePadding ++ context ++ Hash hash transcript in
  if bool_decide (sigHash = directSigning) then Ret content else hash_Sum sigHash content.

Section Auth.
Context {Ks : Keys} {S : Signing Ks}.

Definition verifyHandshakeSignature (sigType : Z) (pubkey : public) (hashFunc : cryptoHash) (signed sig : bytes) : option gerror :=
  if sigType =? signatureECDSA then
    match pubkey with
    | ECDSA k => if ecdsa_VerifyASN1 k signed sig then None else Some (ErrorNew "ECDSA verification failure")
    | _ => Some (ErrorNew "expected an ECDSA public key, got %T")
    end
  else if sigType =? signatureEd25519 then
    match pubkey with
    | Ed25519Key k => if ed25519_Verify k signed sig then None else Some (ErrorNew "Ed25519 verification failure")
    | _ => Some (ErrorNew "expected an Ed25519 public key, got %T")
    end
  else if sigType =? signaturePKCS1v15 then
    match pubkey with
    | RSA k => rsa_VerifyPKCS1v15 k hashFunc signed sig
    | _ => Some (ErrorNew "expected an RSA public key, got %T")
    end
  else if sigType =? signatureRSAPSS then
    match pubkey with
    | RSA k => rsa_VerifyPSS k hashFunc signed sig
    | _ => Some (ErrorNew "expected an RSA public key, got %T")
    end
  else Some (ErrorNew "internal error: unknown signature type").

Definition legacyTypeAndHashFromPublicKey (pub : public) : res (Z * cryptoHash) :=
  match pub with
  | RSA _ => inr (signaturePKCS1v15, MD5SHA1)
  | ECDSA _ => inr (signatureECDSA, CryptoHash SHA1)
  | Ed25519Key _ => inl (ErrorNew "tls: Ed25519 public keys are not supported before TLS 1.2")
  | OtherPublic => inl (ErrorNew "tls: unsupported public key: %T")
  end.

(** The scheme, the smallest modulus in bytes and the last version. *)
Definition rsaSignatureSchemes : list (Z * Z * Z) := [
  (PSSWithSHA256, 32 * 2 + 2, VersionTLS13);
  (PSSWithSHA384, 48 * 2 + 2, VersionTLS13);
  (PSSWithSHA512, 64 * 2 + 2, VersionTLS13);
  (PKCS1WithSHA256, 19 + 32 + 11, VersionTLS12);
  (PKCS1WithSHA384, 19 + 48 + 11, VersionTLS12);
  (PKCS1WithSHA512, 19 + 64 + 11, VersionTLS12);
  (PKCS1WithSHA1, 15 + 20 + 11, VersionTLS12)].

Definition rsa_schemes (version size : Z) : list Z :=
  map (fun c => c.1.1) (List.filter (fun c => (c.1.2 <=? size) && (version <=? c.2)) rsaSignatureSchemes).

(** The schemes of a public key; a nil list is [None]. *)
Definition schemes_of_key (version : Z) (pub : public) : option (list Z) :=
  match pub with
  | ECDSA k =>
      if negb (version =? VersionTLS13) then
        Some [ECDSAWithP256AndSHA256; ECDSAWithP384AndSHA384; ECDSAWithP521AndSHA512; ECDSAWithSHA1]
      else match ecdsa_Curve k with
           | P256 => Some [ECDSAWithP256AndSHA256]
           | P384 => Some [ECDSAWithP384AndSHA384]
           | P521 => Some [ECDSAWithP521AndSHA512]
           | OtherCurve => None
           end
  | RSA k => Some (rsa_schemes version (rsa_Size k))
  | Ed25519Key _ => Some [Ed25519]
  | OtherPublic => None
  end.

Definition signatureSchemesForCertificate (version : Z) (cert : KeyPair.t) : list Z :=
  match Signer_Public cert.(KeyPair.PrivateKey) with
  | None => []
  | Some pub =>
      match schemes_of_key version pub with
      | None => []
      | Some sigAlgs =>
          match cert.(KeyPair.SupportedSignatureAlgorithms) with
          | Some l => List.filter (fun sigAlg => isSupportedSignatureAlgorithm sigAlg l) sigAlgs
          | None => sigAlgs
          end
      end
  end.

Definition unsupportedCertificateError (cert : KeyPair.t) : gerror :=
  match type_of cert.(KeyPair.PrivateKey) with
  | rsa_PrivateKey_value | ecdsa_PrivateKey_value => ErrorNew "tls: unsupported certificate: private key is %T, expected *%T"
  | ed25519_PrivateKey_pointer => ErrorNew "tls: unsupported certificate: private key is *ed25519.PrivateKey, expected ed25519.PrivateKey"
  | otherPrivateType =>
      let rest :=
        if non_nil cert.(KeyPair.SupportedSignatureAlgorithms) then ErrorNew "tls: peer doesn't support the certificate custom signature algorithms"
        else ErrorNew "tls: internal error: unsupported key (%T)" in
      match Signer_Public cert.(KeyPair.PrivateKey) with
      | None => ErrorNew "tls: certificate private key (%T) does not implement crypto.Signer"
      | Some (ECDSA k) =>
          match ecdsa_Curve k with
          | OtherCurve => ErrorNew "tls: unsupported certificate curve (%s)"
          | _ => rest
          end
      | Some (RSA _) => ErrorNew "tls: certificate RSA key size too small for supported signature algorithms"
      | Some (Ed25519Key _) => rest
      | Some OtherPublic => ErrorNew "tls: unsupported certificate key (%T)"
      end
  end.

Definition selectSignatureScheme (vers : Z) (c : KeyPair.t) (peerAlgs : list Z) : res Z :=
  let supportedAlgs := signatureSchemesForCertificate vers c in
  if len supportedAlgs =? 0 then inl (unsupportedCertificateError c) else
  let peerAlgs := if (len peerAlgs =? 0) && (vers =? VersionTLS12) then [PKCS1WithSHA1; ECDSAWithSHA1] else peerAlgs in
  match List.find (fun preferredAlg => isSupportedSignatureAlgorithm preferredAlg supportedAlgs) peerAlgs with
  | Some preferredAlg => inr preferredAlg
  | None => inl (ErrorNew "tls: peer doesn't support any of the certificate's signature algorithms")
  end.

(** The options that a signature of a type is made with. *)
Definition sign_opts (sigType : Z) (sigHash : cryptoHash) : SignerOpts :=
  if sigType =? signatureRSAPSS then PSSOptions sigHash else HashOpts sigHash.
End Auth.

(** ** What is relied on *)

(** A signature that a key makes is accepted for its public key by the algorithm
    that its type and the options stand for. *)
Class SigningOk {Ks : Keys} (S : Signing Ks) : Prop := {
  Sign_RSA k pub h m r r' sig : Signer_Public k = Some (RSA pub) -> Sign k m (HashOpts h) r = (r', inr sig) -> rsa_VerifyPKCS1v15 pub h m sig = None;
  Sign_PSS k pub h m r r' sig : Signer_Public k = Some (RSA pub) -> Sign k m (PSSOptions h) r = (r', inr sig) -> rsa_VerifyPSS pub h m sig = None;
  Sign_ECDSA k pub h m r r' sig : Signer_Public k = Some (ECDSA pub) -> Sign k m (HashOpts h) r = (r', inr sig) -> ecdsa_VerifyASN1 pub m sig = true;
  Sign_Ed25519 k pub m r r' sig : Signer_Public k = Some (Ed25519Key pub) -> Sign k m (HashOpts directSigning) r = (r', inr sig) -> ed25519_Verify pub m sig = true
}.

(** * Theorems *)

Section Facts.
Context {Ks : Keys} {S : Signing Ks} {Sok : SigningOk S}.

(** A signature type that goes with a public key. *)
Definition type_fits (sigType : Z) (sigHash : cryptoHash) (pub : public) : Prop :=
  match pub with
  | RSA _ => sigType = signaturePKCS1v15 \/ sigType = signatureRSAPSS
  | ECDSA _ => sigType = signatureECDSA
  | Ed25519Key _ => sigType = signatureEd25519 /\ sigHash = directSigning
  | OtherPublic => False
  end.
(** Allowed in TLS 1.3. *)
Definition modern (sigType : Z) (sigHash : cryptoHash) : Prop := sigType <> signaturePKCS1v15 /\ sigHash <> CryptoHash SHA1.

Lemma isSupported_spec alg l : isSupportedSignatureAlgorithm alg l = true <-> alg ∈ l.
Proof.
  unfold isSupportedSignatureAlgorithm. rewrite existsb_exists, list_elem_of_In. split; [intros (x & Hx & ->%Z.eqb_eq); done|].
  intros H. exists alg. by rewrite Z.eqb_refl.
Qed.

Ltac eval_scheme := vm_compute typeAndHashFromSignatureScheme; eexists _, _; split; [reflexivity|].

Lemma key_scheme_fits version pub l alg : VersionTLS10 <= version <= VersionTLS13 -> schemes_of_key version pub = Some l -> alg ∈ l ->
  exists t h, typeAndHashFromSignatureScheme alg = inr (t, h) /\ type_fits t h pub /\ (version = VersionTLS13 -> modern t h).
Proof.
  intros Hv. unfold schemes_of_key. destruct pub as [k|k|k|]; try done.
  - intros [= <-] (c & <- & Hc)%list_elem_of_In%in_map_iff. apply filter_In in Hc as [Hc [_ Hle]%andb_true_iff].
    cbn in Hc. repeat (destruct Hc as [<-|Hc]; [eval_scheme; split; [cbn; auto|]; intros ->; (split; done) || (vm_compute in Hle; done)|]). done.
  - destruct (Z.eqb_spec version VersionTLS13) as [->|Hne]; cbn [negb].
    + destruct (ecdsa_Curve k); try done; intros [= <-] ->%list_elem_of_singleton; eval_scheme; (split; [done|split; done]).
    + intros [= <-] Ha. rewrite !elem_of_cons, elem_of_nil in Ha. destruct Ha as [->|[->|[->|[->|[]]]]]; eval_scheme; done.
  - intros [= <-] ->%list_elem_of_singleton. eval_scheme. split; [done|split; done].
Qed.

Lemma certificate_scheme version cert alg : alg ∈ signatureSchemesForCertificate version cert -> exists pub l,
  Signer_Public cert.(KeyPair.PrivateKey) = Some pub /\ schemes_of_key version pub = Some l /\ alg ∈ l /\
  (forall own, cert.(KeyPair.SupportedSignatureAlgorithms) = Some own -> alg ∈ own).
Proof.
  unfold signatureSchemesForCertificate. destruct (Signer_Public _) as [pub|]; [|by intros ?%elem_of_nil].
  destruct (schemes_of_key version pub) as [l|] eqn:E; [|by intros ?%elem_of_nil]. intros H. exists pub, l.
  destruct (cert.(KeyPair.SupportedSignatureAlgorithms)) as [own|]; [|done].
  apply list_elem_of_In, filter_In in H as [Hin Hown%isSupported_spec]. split_and!; [done|done|by apply list_elem_of_In|]. by intros ? [= <-].
Qed.

Lemma verify_signed t h k pub m r r' sig : Signer_Public k = Some pub -> type_fits t h pub -> Sign k m (sign_opts t h) r = (r', inr sig) ->
  verifyHandshakeSignature t pub h m sig = None.
Proof.
  intros Hk Hf Hs. unfold sign_opts in Hs. unfold verifyHandshakeSignature. destruct pub as [k'|k'|k'|]; cbn in Hf; [|subst t|destruct Hf as [-> ->]|done].
  - destruct Hf as [->| ->]; cbn in Hs |- *; [by eapply Sign_RSA|by eapply Sign_PSS].
  - cbn in Hs |- *. by erewrite Sign_ECDSA.
  - cbn in Hs |- *. by erewrite Sign_Ed25519.
Qed.

(** The algorithms of the peer, with the default of TLS 1.2. *)
Definition peer_algs (vers : Z) (l : list Z) : list Z :=
  if (len l =? 0) && (vers =? VersionTLS12) then [PKCS1WithSHA1; ECDSAWithSHA1] else l.

(** The scheme that is chosen for a certificate is the first of the peer's list
    that its key can sign with, one is chosen whenever there is one, and it has a
    signature type and hash with which what the key signs is accepted for its
    public key; in TLS 1.3 it is never PKCS #1 v1.5 or SHA-1, which the peer would
    refuse. *)
Theorem signature_scheme_works vers cert peerAlgs : VersionTLS10 <= vers <= VersionTLS13 ->
  match selectSignatureScheme vers cert peerAlgs with
  | inr alg => (exists before after, peer_algs vers peerAlgs = before ++ alg :: after /\
        alg ∈ signatureSchemesForCertificate vers cert /\ (forall a, a ∈ before -> a ∉ signatureSchemesForCertificate vers cert)) /\
      exists pub t h, Signer_Public cert.(KeyPair.PrivateKey) = Some pub /\ typeAndHashFromSignatureScheme alg = inr (t, h) /\
        (vers = VersionTLS13 -> modern t h) /\
        (forall m r r' sig, Sign cert.(KeyPair.PrivateKey) m (sign_opts t h) r = (r', inr sig) -> verifyHandshakeSignature t pub h m sig = None)
  | inl _ => forall alg, alg ∈ peer_algs vers peerAlgs -> alg ∉ signatureSchemesForCertificate vers cert
  end.
Proof.
  intros Hv. unfold selectSignatureScheme. fold (peer_algs vers peerAlgs). set (l := signatureSchemesForCertificate vers cert).
  destruct (Z.eqb_spec (len l) 0) as [Hl|Hl].
  { intros alg _ Hin. destruct l; [by apply elem_of_nil in Hin|]. unfold len in Hl. cbn in Hl. lia. }
  destruct (List.find _ (peer_algs vers peerAlgs)) as [alg|] eqn:Ef.
  - assert (Hin : alg ∈ l) by (apply find_some in Ef as [_ H]; by apply isSupported_spec). split.
    + clear Hin Hl. revert Ef. induction (peer_algs vers peerAlgs) as [|a algs IH]; [done|]. cbn.
      destruct (isSupportedSignatureAlgorithm a l) eqn:Ea; [intros [= ->]; exists [], algs; split_and!; [done|by apply isSupported_spec|by intros ? ?%elem_of_nil]|].
      intros (before & after & -> & Hin & Hb)%IH. exists (a :: before), after. split_and!; [done|done|].
      intros b [->|Hb']%elem_of_cons; [|by apply Hb]. intros Hc%isSupported_spec. congruence.
    + destruct (certificate_scheme vers cert alg Hin) as (pub & sch & Hp & Hs & Ha & _).
      destruct (key_scheme_fits vers pub sch alg Hv Hs Ha) as (t & h & Ht & Hf & Hm). exists pub, t, h. split_and!; [done..|].
      intros m r r' sig. by apply verify_signed.
  - intros alg Hin Hc. eapply find_none in Ef; [|by apply list_elem_of_In]. cbn in Ef. apply isSupported_spec in Hc. congruence.
Qed.
End Facts.

(** ** A concrete instance *)

(** A signature is the message, and a private key its public key. *)
Definition toy_signing (Ks : Keys) : Signing Ks := {|
  rsaPublic := Z; ecdsaPublic := ellipticCurve; ed25519Public := unit;
  rsa_Size k := k;
  ecdsa_Curve k := k;
  ecdsa_VerifyASN1 _ m sig := bool_decide (sig = m);
  ed25519_Verify _ m sig := bool_decide (sig = m);
  rsa_VerifyPKCS1v15 _ _ m sig := if bool_decide (sig = m) then None else Some (ErrorNew "crypto/rsa: verification error");
  rsa_VerifyPSS _ _ m sig := if bool_decide (sig = m) then None else Some (ErrorNew "crypto/rsa: verification error");
  rsa_EncryptPKCS1v15 _ m r := (r, inr m);
  privateKey := publicKey Z ellipticCurve unit;
  type_of _ := otherPrivateType;
  Signer_Public k := Some k;
  Sign _ m _ r := (r, inr m);
  Decrypter k := match k with RSA _ => true | _ => false end;
  Decrypt _ c r := (r, inr c)
|}.
#[export] Instance toy_signing_ok Ks : SigningOk (toy_signing Ks).
Proof.
  constructor; cbn; [intros k pub h m r r' sig _ [= _ <-]..|intros k pub m r r' sig _ [= _ <-]]; by rewrite bool_decide_true.
Qed.

Lemma signature_scheme_works_witness :
  selectSignatureScheme (S := toy_signing toy_keys) VersionTLS13 (KeyPair.Mk (S := toy_signing toy_keys) (Certificate.Mk [] None None) (RSA 256) None)
    [PKCS1WithSHA256; PSSWithSHA256] = inr PSSWithSHA256 /\
  exists t h, typeAndHashFromSignatureScheme PSSWithSHA256 = inr (t, h) /\ modern t h.
Proof.
  split; [vm_compute; reflexivity|].
  destruct (signature_scheme_works (S := toy_signing toy_keys) VersionTLS13
    (KeyPair.Mk (S := toy_signing toy_keys) (Certificate.Mk [] None None) (RSA 256) None) [PKCS1WithSHA256; PSSWithSHA256]) as [_ (pub & t & h & _ & Ht & Hm & _)].
  - vm_compute. done.
  - exists t, h. split; [exact Ht|by apply Hm].
Defined.
