(* ===== verification/KeyAgreement.v ===== *)
(** * Key agreement of TLS 1.0 to 1.2

    Models key_agreement.go: RSA key transport and ephemeral elliptic curve
    Diffie-Hellman, on the side of the server and of the client.  A method that uses
    [config.rand()] takes its state and returns it; a method of a pointer receiver
    returns the changed object.

    The theorems: with a key and a certificate that work, both sides of either
    agreement get the same premaster secret. *)

From S2P Require Import Prelude Cryptobyte Common Config Negotiation Codec Buffer KeySchedule Names Messages RawMessages ServerHello ClientHello Ticket Public Extensions Marshal Shuffle Parrots Session Preset Auth.

(** ** Exchange of keys *)

(** [ECDH k b] is [k.ECDH(k.Curve().NewPublicKey(b))]: [None] when one of the two
    fails.  [sha3_Shake256 m n] is the first [n] bytes of SHAKE-256, [sha3_256] is
    SHA3-256. *)
Class KeyExchange (Ks : Keys) := {
  ECDH : ecdhKey -> bytes -> option bytes;
  Decapsulate : mlkemKey -> bytes -> option bytes;
  sha3_Shake256 : bytes -> nat -> bytes;
  sha3_256 : bytes -> bytes
}.
(** The public key of a certificate. *)
Class X509Keys (X : X509) {Ks : Keys} (S : Signing Ks) := {
  x509_PublicKey : @certificate X -> public
}.

Definition errClientKeyExchange : gerror := ErrorNew "tls: invalid ClientKeyExchange message".
Definition errServerKeyExchange : gerror := ErrorNew "tls: invalid ServerKeyExchange message".

(** u_key_schedule.go *)
Section Kyber.
Context {Ks : Keys} {E : KeyExchange Ks}.

Definition kyberSharedSecret (c K : bytes) : bytes := sha3_Shake256 (K ++ sha3_256 c) 32.
Definition kyberDecapsulate (dk : mlkemKey) (c : bytes) : option bytes :=
  K ← Decapsulate dk c; Some (kyberSharedSecret c K).

End Kyber.

(** ** Computations that draw random numbers *)

Section Random.
Context {Ks : Keys}.

(** A computation that draws random numbers. *)
Definition RM (A : Type) : Type := reader -> outcome (reader * A).
Definition rret {A} (a : A) : RM A := fun r => Ret (r, a).
Definition draw {A} (f : reader -> reader * A) : RM A := fun r => Ret (f r).
Definition rlift {A} (o : outcome A) : RM A := fun r => run a := o in Ret (r, a).
Definition rbind {A B} (m : RM A) (k : A -> RM B) : RM B := fun r => run (r, a) := m r in k a r.
#[export] Instance RM_ret : MRet RM := @rret.
#[export] Instance RM_bind : MBind RM := fun A B k m => rbind m k.
(** [k] on the value of a result, or its error. *)
Definition rok {A B} (m : RM (res A)) (k : A -> RM (res B)) : RM (res B) :=
  a ← m; match a with inl e => rret (inl e) | inr a => k a end.

(** [generateECDHEKey] of key_schedule.go *)
Definition generate_key (curveID : Z) : RM (res ecdhKey) :=
  if negb (curveForCurveID curveID) then rret (inl errUnsupportedCurve) else draw (GenerateKey curveID).

End Random.

(** ** RSA *)

Module rsaKeyAgreement.
Section Ops.
Context {Ks : Keys} {S : Signing Ks} {E : KeyExchange Ks} {K : Crypto} {X : X509} {XK : X509Keys X S}.

Definition processClientKeyExchange (cert : KeyPair.t) (ckx : clientKeyExchangeMsg.t) : RM (res bytes) :=
  let c := ckx.(clientKeyExchangeMsg.ciphertext) in
  if len c <? 2 then rret (inl errClientKeyExchange) else
  ciphertextLen ← rlift (get16 c 0);
  if negb (ciphertextLen =? len c - 2) then rret (inl errClientKeyExchange) else
  ciphertext ← rlift (from c 2);
  if negb (Decrypter cert.(KeyPair.PrivateKey)) then
    rret (inl (ErrorNew "tls: certificate private key does not implement crypto.Decrypter"))
  else draw (Decrypt cert.(KeyPair.PrivateKey) ciphertext).

Definition processServerKeyExchange : gerror := ErrorNew "tls: unexpected ServerKeyExchange".

Definition generateClientKeyExchange (clientHello : clientHelloMsg.t) (cert : certificate) : RM (res (bytes * clientKeyExchangeMsg.t)) :=
  rok (draw (ReadFull 46)) (fun rnd =>
  let preMasterSecret := be 2 clientHello.(clientHelloMsg.vers) ++ rnd in
  match x509_PublicKey cert with
  | RSA rsaKey =>
      rok (draw (rsa_EncryptPKCS1v15 rsaKey preMasterSecret)) (fun encrypted =>
      rret (inr (preMasterSecret, clientKeyExchangeMsg.Mk (be 2 (len encrypted) ++ encrypted))))
  | _ => rret (inl (ErrorNew "tls: server certificate contains incorrect key type for selected ciphersuite"))
  end).
End Ops.
End rsaKeyAgreement.

(** ** Hashes *)

Section Hashes.
Context {K : Crypto}.

Definition sha1Hash (slices : list bytes) : bytes := Hash SHA1 (concat slices).
Definition md5SHA1Hash (slices : list bytes) : bytes := Hash MD5 (concat slices) ++ sha1Hash slices.

Definition hashForServerKeyExchange (sigType : Z) (hashFunc : cryptoHash) (version : Z) (slices : list bytes) : outcome bytes :=
  if sigType =? signatureEd25519 then Ret (concat slices)
  else if VersionTLS12 <=? version then hash_Sum hashFunc (concat slices)
  else if sigType =? signatureECDSA then Ret (sha1Hash slices)
  else Ret (md5SHA1Hash slices).

End Hashes.

(** ** ECDHE *)

Module ecdheKeyAgreement.
Record t {Ks : Keys} := Mk {
  version : Z;
  isRSA : bool;
  key : option ecdhKey;
  ckx : option clientKeyExchangeMsg.t;
  preMasterSecret : bytes
}.
#[global] Arguments Mk {Ks}.
Section Ops.
Context {Ks : Keys} {S : Signing Ks} {E : KeyExchange Ks} {K : Crypto} {X : X509} {XK : X509Keys X S}.

Definition is_rsa_type (sigType : Z) : bool := (sigType =? signaturePKCS1v15) || (sigType =? signatureRSAPSS).

(** The parameters of a named curve with a public key. *)
Definition ecdhe_params (curveID : Z) (ecdhePublic : bytes) : bytes :=
  [x03] ++ be 2 curveID ++ [u8 (len ecdhePublic)] ++ ecdhePublic.

(** The type and hash that the server signs with, and the scheme (0 before TLS 1.2). *)
Definition server_scheme (ka : t) (cert : KeyPair.t) (pub : public) (peerAlgs : list Z) : res (Z * (Z * cryptoHash)) :=
  if VersionTLS12 <=? ka.(version) then
    try signatureAlgorithm := selectSignatureScheme ka.(version) cert peerAlgs in
    try th := typeAndHashFromSignatureScheme signatureAlgorithm in
    inr (signatureAlgorithm, th)
  else try th := legacyTypeAndHashFromPublicKey pub in inr (0, th).

Definition generateServerKeyExchange (config : Config.t) (cert : KeyPair.t) (clientHello : clientHelloMsg.t) (hello : serverHelloMsg.t) (ka : t)
    : RM (t * res serverKeyExchangeMsg.t) :=
  let fail ka e := rret (ka, inl e) in
  let curveID := default 0 (List.find (supportsCurve config ka.(version)) clientHello.(clientHelloMsg.supportedCurves)) in
  if curveID =? 0 then fail ka (ErrorNew "tls: no supported elliptic curves offered") else
  if negb (curveForCurveID curveID) then fail ka (ErrorNew "tls: CurvePreferences includes unsupported curve") else
  key ← generate_key curveID;
  match key with inl e => fail ka e | inr key =>
  let ka := Mk ka.(version) ka.(isRSA) (Some key) ka.(ckx) ka.(preMasterSecret) in
  let serverECDHEParams := ecdhe_params curveID (PublicKey key) in
  match Signer_Public cert.(KeyPair.PrivateKey) with
  | None => fail ka (ErrorNew "tls: certificate private key of type %T does not implement crypto.Signer")
  | Some pub =>
      match server_scheme ka cert pub clientHello.(clientHelloMsg.supportedSignatureAlgorithms) with
      | inl e => fail ka e
      | inr (signatureAlgorithm, (sigType, sigHash)) =>
          if negb (Bool.eqb (is_rsa_type sigType) ka.(isRSA)) then
            fail ka (ErrorNew "tls: certificate cannot be used with the selected cipher suite") else
          signed ← rlift (hashForServerKeyExchange sigType sigHash ka.(version)
            [clientHello.(clientHelloMsg.random); hello.(serverHelloMsg.random); serverECDHEParams]);
          sig ← draw (Sign cert.(KeyPair.PrivateKey) signed (sign_opts sigType sigHash));
          match sig with
          | inl _ => fail ka (ErrorNew "tls: failed to sign ECDHE parameters: ")
          | inr sig =>
              rret (ka, inr (serverKeyExchangeMsg.Mk (serverECDHEParams ++
                (if VersionTLS12 <=? ka.(version) then be 2 signatureAlgorithm else []) ++ be 2 (len sig) ++ sig)))
          end
      end
  end end.

Definition processClientKeyExchange (ckx : clientKeyExchangeMsg.t) (ka : t) : outcome (res bytes) :=
  let c := ckx.(clientKeyExchangeMsg.ciphertext) in
  if len c =? 0 then Ret (inl errClientKeyExchange) else
  run n := Buffer.get c 0 in
  if negb (n =? len c - 1) then Ret (inl errClientKeyExchange) else
  run peer := from c 1 in
  match ka.(key) with
  | None => Panic
  | Some key =>
      match ECDH key peer with
      | None => Ret (inl errClientKeyExchange)
      | Some preMasterSecret => Ret (inr preMasterSecret)
      end
  end.

(** The scheme of a signature before which it stands, and the signature that is
    left with its length. *)
Definition client_scheme (ka : t) (pub : public) (algs : list Z) (sig : bytes) : outcome (res (Z * cryptoHash * bytes)) :=
  if VersionTLS12 <=? ka.(version) then
    run signatureAlgorithm := get16 sig 0 in
    run sig := from sig 2 in
    if len sig <? 2 then Ret (inl errServerKeyExchange) else
    if negb (isSupportedSignatureAlgorithm signatureAlgorithm algs) then
      Ret (inl (ErrorNew "tls: certificate used with invalid signature algorithm")) else
    Ret (try th := typeAndHashFromSignatureScheme signatureAlgorithm in inr (th, sig))
  else Ret (try th := legacyTypeAndHashFromPublicKey pub in inr (th, sig)).

(** The end of [processServerKeyExchange]: the check of the signature. *)
Definition check_signature (ka : t) (clientHello : clientHelloMsg.t) (serverHello : serverHelloMsg.t) (cert : certificate)
    (serverECDHEParams sig : bytes) : outcome (option gerror) :=
  run s := client_scheme ka (x509_PublicKey cert) clientHello.(clientHelloMsg.supportedSignatureAlgorithms) sig in
  match s with
  | inl e => Ret (Some e)
  | inr (sigType, sigHash, sig) =>
      if negb (Bool.eqb (is_rsa_type sigType) ka.(isRSA)) then Ret (Some errServerKeyExchange) else
      run sigLen := get16 sig 0 in
      if negb (sigLen + 2 =? len sig) then Ret (Some errServerKeyExchange) else
      run sig := from sig 2 in
      run signed := hashForServerKeyExchange sigType sigHash ka.(version)
        [clientHello.(clientHelloMsg.random); serverHello.(serverHelloMsg.random); serverECDHEParams] in
      match verifyHandshakeSignature sigType (x509_PublicKey cert) sigHash signed sig with
      | Some _ => Ret (Some (ErrorNew "tls: invalid signature by the server certificate: "))
      | None => Ret None
      end
  end.

Definition processServerKeyExchange (clientHello : clientHelloMsg.t) (serverHello : serverHelloMsg.t) (cert : certificate)
    (skx : serverKeyExchangeMsg.t) (ka : t) : RM (t * option gerror) :=
  let fail ka e := rret (ka, Some e) in
  let k := skx.(serverKeyExchangeMsg.key) in
  if len k <? 4 then fail ka errServerKeyExchange else
  curve_type ← rlift (Buffer.get k 0);
  if negb (curve_type =? 3) then fail ka (ErrorNew "tls: server selected unsupported curve") else
  curveID ← rlift (get16 k 1);
  publicLen ← rlift (Buffer.get k 3);
  if len k <? publicLen + 4 then fail ka errServerKeyExchange else
  serverECDHEParams ← rlift (upto k (4 + publicLen));
  publicKey ← rlift (from serverECDHEParams 4);
  sig ← rlift (from k (4 + publicLen));
  if len sig <? 2 then fail ka errServerKeyExchange else
  if negb (curveForCurveID curveID) then fail ka (ErrorNew "tls: server selected unsupported curve") else
  key ← generate_key curveID;
  match key with inl e => fail ka e | inr key =>
  let ka := Mk ka.(version) ka.(isRSA) (Some key) ka.(ckx) ka.(preMasterSecret) in
  match ECDH key publicKey with
  | None => fail ka errServerKeyExchange
  | Some preMasterSecret =>
      let ourPublicKey := PublicKey key in
      let ka := Mk ka.(version) ka.(isRSA) (Some key)
        (Some (clientKeyExchangeMsg.Mk ([u8 (len ourPublicKey)] ++ ourPublicKey))) preMasterSecret in
      err ← rlift (check_signature ka clientHello serverHello cert serverECDHEParams sig);
      rret (ka, err)
  end end.

Definition generateClientKeyExchange (ka : t) : res (bytes * clientKeyExchangeMsg.t) :=
  match ka.(ckx) with
  | None => inl (ErrorNew "tls: missing ServerKeyExchange message")
  | Some ckx => inr (ka.(preMasterSecret), ckx)
  end.
End Ops.
End ecdheKeyAgreement.

(** ** The interface *)

Section Agreement.
Context {Ks : Keys} {S : Signing Ks} {E : KeyExchange Ks} {K : Crypto} {X : X509} {XK : X509Keys X S}.

(** [keyAgreement], and the functions of cipher_suites.go that make one. *)
Inductive keyAgreement := RsaKA | EcdheKA (ka : ecdheKeyAgreement.t).
Definition new_ka (ka : key_agreement) (version : Z) : keyAgreement :=
  match ka with
  | rsaKA => RsaKA
  | ecdheECDSAKA => EcdheKA (ecdheKeyAgreement.Mk version false None None [])
  | ecdheRSAKA => EcdheKA (ecdheKeyAgreement.Mk version true None None [])
  end.

(** [None] is the nil message. *)
Definition generateServerKeyExchange (config : Config.t) (cert : KeyPair.t) (clientHello : clientHelloMsg.t) (hello : serverHelloMsg.t) (ka : keyAgreement)
    : RM (keyAgreement * res (option serverKeyExchangeMsg.t)) :=
  match ka with
  | RsaKA => rret (RsaKA, inr None)
  | EcdheKA ka =>
      r ← ecdheKeyAgreement.generateServerKeyExchange config cert clientHello hello ka;
      rret (EcdheKA r.1, match r.2 with inl e => inl e | inr skx => inr (Some skx) end)
  end.
Definition processClientKeyExchange (cert : KeyPair.t) (ckx : clientKeyExchangeMsg.t) (ka : keyAgreement) : RM (res bytes) :=
  match ka with
  | RsaKA => rsaKeyAgreement.processClientKeyExchange cert ckx
  | EcdheKA ka => rlift (ecdheKeyAgreement.processClientKeyExchange ckx ka)
  end.
Definition processServerKeyExchange (clientHello : clientHelloMsg.t) (serverHello : serverHelloMsg.t) (cert : certificate)
    (skx : serverKeyExchangeMsg.t) (ka : keyAgreement) : RM (keyAgreement * option gerror) :=
  match ka with
  | RsaKA => rret (RsaKA, Some rsaKeyAgreement.processServerKeyExchange)
  | EcdheKA ka =>
      r ← ecdheKeyAgreement.processServerKeyExchange clientHello serverHello cert skx ka;
      rret (EcdheKA r.1, r.2)
  end.
Definition generateClientKeyExchange (clientHello : clientHelloMsg.t) (cert : certificate) (ka : keyAgreement)
    : RM (res (bytes * clientKeyExchangeMsg.t)) :=
  match ka with
  | RsaKA => rsaKeyAgreement.generateClientKeyExchange clientHello cert
  | EcdheKA ka => rret (ecdheKeyAgreement.generateClientKeyExchange ka)
  end.
End Agreement.

(** * Theorems *)

(** What is relied on: two keys of a group agree on a secret, and what is encrypted
    for a public key is decrypted with its private key. *)
Class KeyExchangeOk {Ks : Keys} (E : KeyExchange Ks) : Prop := {
  ECDH_agree g r1 r1' k1 r2 r2' k2 : GenerateKey g r1 = (r1', inr k1) -> GenerateKey g r2 = (r2', inr k2) ->
    exists s, ECDH k1 (PublicKey k2) = Some s /\ ECDH k2 (PublicKey k1) = Some s
}.
Class RsaOk {Ks : Keys} (S : Signing Ks) : Prop := {
  Decrypt_Encrypt k pub m c r1 r1' r2 : Signer_Public k = Some (RSA pub) -> Decrypter k = true -> len m = 48 ->
    rsa_EncryptPKCS1v15 pub m r1 = (r1', inr c) -> len c < 2 ^ 16 /\ exists r2', Decrypt k c r2 = (r2', inr m)
}.

Section Facts.
Context {Ks : Keys} {Kok : KeysOk Ks} {S : Signing Ks} {Sok : SigningOk S} {E : KeyExchange Ks} {Eok : KeyExchangeOk E}.
Context {K : Crypto} {X : X509} {XK : X509Keys X S}.
Import ecdheKeyAgreement.

Lemma rbind_ret {A B} (m : RM A) (k : A -> RM B) r r' b : rbind m k r = Ret (r', b) -> exists r1 a, m r = Ret (r1, a) /\ k a r1 = Ret (r', b).
Proof. unfold rbind. destruct (m r) as [|[r1 a]]; [done|]. cbn. eauto. Qed.

(** A message that the server makes. *)
Record server_message (cert : KeyPair.t) (ch : clientHelloMsg.t) (sh : serverHelloMsg.t) (ka0 ka : t) (skx : serverKeyExchangeMsg.t) : Prop := {
  sm_run : exists curveID key r r' pub alg t h signed sig r1 r2, curveForCurveID curveID = true /\ GenerateKey curveID r = (r', inr key) /\
    ka = Mk ka0.(version) ka0.(isRSA) (Some key) ka0.(ckx) ka0.(preMasterSecret) /\ Signer_Public cert.(KeyPair.PrivateKey) = Some pub /\
    server_scheme ka0 cert pub ch.(clientHelloMsg.supportedSignatureAlgorithms) = inr (alg, (t, h)) /\ is_rsa_type t = ka0.(isRSA) /\
    hashForServerKeyExchange t h ka0.(version) [ch.(clientHelloMsg.random); sh.(serverHelloMsg.random); ecdhe_params curveID (PublicKey key)] = Ret signed /\
    Sign cert.(KeyPair.PrivateKey) signed (sign_opts t h) r1 = (r2, inr sig) /\
    skx = serverKeyExchangeMsg.Mk (ecdhe_params curveID (PublicKey key) ++ (if VersionTLS12 <=? ka0.(version) then be 2 alg else []) ++ be 2 (len sig) ++ sig)
}.

Lemma server_message_made config cert ch sh ka0 r r' ka skx :
  generateServerKeyExchange config cert ch sh ka0 r = Ret (r', (ka, inr skx)) -> server_message cert ch sh ka0 ka skx.
Proof.
  intros H. unfold generateServerKeyExchange in H. set (curveID := default 0 _) in H. destruct (curveID =? 0); [done|].
  destruct (curveForCurveID curveID) eqn:Ec; [|done]. cbn [negb] in H. apply rbind_ret in H as (ra & [e|key] & Hk & H); [done|].
  unfold generate_key in Hk. rewrite Ec in Hk. cbn in Hk. injection Hk as Hk. destruct (Signer_Public _) as [pub|] eqn:Ep; [|done].
  destruct (server_scheme _ cert pub _) as [e|[alg [t h]]] eqn:Es; [done|]. destruct (Bool.eqb _ _) eqn:Eb; [|done]. cbn [negb version isRSA] in *.
  apply eqb_prop in Eb. apply rbind_ret in H as (rb & signed & Hs & H). apply rbind_ret in H as (rc & [e|sig] & Hg & H); [done|].
  injection H as <- <- <-. unfold rlift in Hs. destruct (hashForServerKeyExchange _ _ _ _) as [|s] eqn:Eh; [done|]. injection Hs as <- <-.
  injection Hg as Hg. constructor. exists curveID, key, r, ra, pub, alg, t, h, s, sig, ra, rc. done.
Qed.

Lemma scheme_small alg th : typeAndHashFromSignatureScheme alg = inr th -> alg mod 2 ^ 16 = alg.
Proof.
  unfold typeAndHashFromSignatureScheme, one_of. intros H. apply Z.mod_small.
  assert (Hin : alg ∈ [PKCS1WithSHA1; PKCS1WithSHA256; PKCS1WithSHA384; PKCS1WithSHA512] \/ alg ∈ [PSSWithSHA256; PSSWithSHA384; PSSWithSHA512] \/
    alg ∈ [ECDSAWithSHA1; ECDSAWithP256AndSHA256; ECDSAWithP384AndSHA384; ECDSAWithP521AndSHA512] \/ alg ∈ [Ed25519]).
  { revert H. repeat (case_bool_decide as Hx; [by auto|clear Hx]). done. }
  set_unfold in Hin. naive_solver (vm_compute; done).
Qed.

(** The scheme that the server chose is one with which it can sign, and which the
    client accepts. *)
Lemma scheme_chosen ka cert pub algs alg t h : VersionTLS10 <= ka.(version) <= VersionTLS12 -> Signer_Public cert.(KeyPair.PrivateKey) = Some pub ->
  (VersionTLS12 <= ka.(version) -> algs <> []) -> server_scheme ka cert pub algs = inr (alg, (t, h)) ->
  type_fits t h pub /\ forall sig, 2 <= len sig ->
    client_scheme ka pub algs ((if VersionTLS12 <=? ka.(version) then be 2 alg else []) ++ sig) = Ret (inr (t, h, sig)).
Proof.
  intros Hv Hp Hne. unfold server_scheme, client_scheme. destruct (VersionTLS12 <=? ka.(version)) eqn:Ev.
  - pose proof (signature_scheme_works ka.(version) cert algs) as Hw. destruct (selectSignatureScheme _ _ _) as [e|a] eqn:Ea; [done|].
    cbn [res_bind]. destruct (typeAndHashFromSignatureScheme a) as [e|[t' h']] eqn:Et; [done|]. intros [= -> -> ->].
    destruct Hw as [(before & after & Hb & Hin & _) _]; [change VersionTLS13 with 772; change VersionTLS12 with 771 in *; lia|].
    destruct (certificate_scheme _ _ _ Hin) as (pub' & l & Hp' & Hl & Ha & _). rewrite Hp in Hp'. injection Hp' as <-.
    destruct (key_scheme_fits ka.(version) pub l alg) as (t1 & h1 & Ht & Hf & _); [change VersionTLS13 with 772; change VersionTLS12 with 771 in *; lia|done|done|].
    rewrite Et in Ht. injection Ht as <- <-. split; [done|]. intros sig Hs. rewrite get16_be0. cbn [obind].
    assert (Hr : alg mod 2 ^ 16 = alg).
    { by eapply scheme_small. }
    rewrite Hr. unfold from. rewrite len_app. change (len (be 2 alg)) with 2. replace ((0 <=? 2) && (2 <=? 2 + len sig)) with true by lia.
    cbn [obind]. change (Z.to_nat 2) with (length (be 2 alg)). rewrite drop_app_length. replace (len sig <? 2) with false by lia.
    assert (isSupportedSignatureAlgorithm alg algs = true) as ->.
    { apply isSupported_spec. unfold peer_algs in Hb. destruct algs as [|a algs]; [exfalso; apply Hne; [lia|done]|]. destruct (Z.eqb_spec (len (a :: algs)) 0) as [H0|_]; [unfold len in H0; cbn in H0; lia|].
      cbn [andb] in Hb. rewrite Hb. set_solver. }
    cbn [negb]. by rewrite Et.
  - destruct (legacyTypeAndHashFromPublicKey pub) as [e|[t' h']] eqn:El; [done|]. cbn. intros [= <- <- <-]. split; [|done].
    destruct pub; try done; injection El as <- <-; cbn; auto.
Qed.

Lemma curve_small g : curveForCurveID g = true -> g mod 2 ^ 16 = g /\ public_size g <= 133 /\ 0 <= public_size g.
Proof. unfold curveForCurveID. intros H%bool_decide_eq_true_1. set_unfold in H. naive_solver (vm_compute; done). Qed.

Lemma len_params g p : len (ecdhe_params g p) = 4 + len p.
Proof. unfold ecdhe_params, len. rewrite !length_app, length_be. cbn. lia. Qed.

(** The client takes the parameters and the signature apart. *)
Lemma params_parsed g p rest : curveForCurveID g = true -> len p <= 133 ->
  let k := ecdhe_params g p ++ rest in
  Buffer.get k 0 = Ret 3 /\ get16 k 1 = Ret g /\ Buffer.get k 3 = Ret (len p) /\ upto k (4 + len p) = Ret (ecdhe_params g p) /\
  from (ecdhe_params g p) 4 = Ret p /\ from k (4 + len p) = Ret rest.
Proof.
  intros Hg Hp k. destruct (curve_small g Hg) as [Hs _]. pose proof (len_nonneg p). unfold k, ecdhe_params. split_and!.
  - by apply (get_app [] x03).
  - rewrite <- Hs at 2. rewrite <- !app_assoc. by apply (get16_be [x03]).
  - replace (Ret (len p)) with (Ret (b2z (u8 (len p)))) by (rewrite b2z_u8_small; [done|lia]). rewrite <- !app_assoc. by apply (get_app ([x03] ++ be 2 g)).
  - fold (ecdhe_params g p). rewrite <- len_params with (g := g). by apply upto_app.
  - by apply (from_app ([x03] ++ be 2 g ++ [u8 (len p)]) p).
  - fold (ecdhe_params g p). rewrite <- len_params with (g := g). by apply from_app.
Qed.

Lemma signature_checked ka cert ch sh leaf params alg t h signed sig r r' : VersionTLS10 <= ka.(version) <= VersionTLS12 ->
  Signer_Public cert.(KeyPair.PrivateKey) = Some (x509_PublicKey leaf) -> (VersionTLS12 <= ka.(version) -> ch.(clientHelloMsg.supportedSignatureAlgorithms) <> []) ->
  server_scheme ka cert (x509_PublicKey leaf) ch.(clientHelloMsg.supportedSignatureAlgorithms) = inr (alg, (t, h)) -> is_rsa_type t = ka.(isRSA) ->
  hashForServerKeyExchange t h ka.(version) [ch.(clientHelloMsg.random); sh.(serverHelloMsg.random); params] = Ret signed ->
  Sign cert.(KeyPair.PrivateKey) signed (sign_opts t h) r = (r', inr sig) -> len sig < 2 ^ 16 ->
  check_signature ka ch sh leaf params ((if VersionTLS12 <=? ka.(version) then be 2 alg else []) ++ be 2 (len sig) ++ sig) = Ret None.
Proof.
  intros Hv Hp Hne Hs Ht Hh Hg Hl. destruct (scheme_chosen _ _ _ _ _ _ _ Hv Hp Hne Hs) as [Hf Hc]. unfold check_signature.
  pose proof (len_nonneg sig). rewrite Hc by (rewrite len_app; change (len (be 2 (len sig))) with 2; lia). cbn [obind]. rewrite Ht, Bool.eqb_reflx. cbn [negb].
  rewrite get16_be0, Z.mod_small by lia. cbn [obind]. rewrite len_app. change (len (be 2 (len sig))) with 2. rewrite Z.add_comm, Z.eqb_refl. cbn [negb].
  rewrite (from_app (be 2 (len sig))) by done. cbn [obind]. rewrite Hh. cbn [obind]. by erewrite verify_signed.
Qed.

(** C24: the ECDHE key agreement works: when a server makes a key exchange message
    for a client that offers signature algorithms, with the key of the certificate
    the client has, the client accepts it, and from the key exchange message it
    answers with the server computes the same premaster secret. *)
Theorem ecdhe_agreement config cert ch sh leaf vers rsa r1 r1' ka skx r2 :
  VersionTLS10 <= vers <= VersionTLS12 -> Signer_Public cert.(KeyPair.PrivateKey) = Some (x509_PublicKey leaf) ->
  (VersionTLS12 <= vers -> ch.(clientHelloMsg.supportedSignatureAlgorithms) <> []) ->
  generateServerKeyExchange config cert ch sh (Mk vers rsa None None []) r1 = Ret (r1', (ka, inr skx)) ->
  len skx.(serverKeyExchangeMsg.key) < 2 ^ 16 -> (forall g, exists r k, GenerateKey g r2 = (r, inr k)) ->
  exists r2' ka' secret ckx, processServerKeyExchange ch sh leaf skx (Mk vers rsa None None []) r2 = Ret (r2', (ka', None)) /\
    generateClientKeyExchange ka' = inr (secret, ckx) /\ processClientKeyExchange ckx ka = Ret (inr secret).
Proof.
  intros Hv Hp Hne Hgen Hlen Hr2. apply server_message_made in Hgen as [(g & key & r & r' & pub & alg & t & h & signed & sig & ra & rb & Hg & Hk & -> & Hp' & Hs & Ht & Hh & Hsig & ->)].
  rewrite Hp in Hp'. injection Hp' as <-. cbn [version isRSA ckx preMasterSecret] in *. destruct (Hr2 g) as (r2' & key2 & Hk2).
  destruct (ECDH_agree _ _ _ _ _ _ _ Hk Hk2) as (secret & Hs1 & Hs2). destruct (curve_small g Hg) as (_ & Hb & _).
  pose proof (GenerateKey_len _ _ _ _ Hk) as Hl1. pose proof (GenerateKey_len _ _ _ _ Hk2) as Hl2.
  set (sigs := (if VersionTLS12 <=? vers then be 2 alg else []) ++ be 2 (len sig) ++ sig) in *. cbn [serverKeyExchangeMsg.key] in *.
  assert (Hls : 2 <= len sigs /\ len sig < 2 ^ 16).
  { rewrite len_app, len_params in Hlen. unfold sigs in Hlen |- *. rewrite !len_app in *. change (len (be 2 (len sig))) with 2 in *.
    pose proof (len_nonneg (PublicKey key)). pose proof (len_nonneg sig). pose proof (len_nonneg (if VersionTLS12 <=? vers then be 2 alg else [])). lia. }
  destruct (params_parsed g (PublicKey key) sigs Hg) as (E1 & E2 & E3 & E4 & E5 & E6); [lia|].
  pose proof (len_nonneg (PublicKey key)). unfold processServerKeyExchange. cbn [serverKeyExchangeMsg.key].
  eexists r2', (Mk vers rsa (Some key2) (Some _) secret), secret, _. split; [|split; [reflexivity|]].
  - rewrite len_app, len_params. replace (_ <? 4) with false by lia. unfold mbind, RM_bind, rbind, rlift. rewrite E1. cbn [obind]. rewrite E2. cbn [obind]. rewrite E3.
    cbn [obind]. replace (_ <? _ + 4) with false by lia. rewrite E4. cbn [obind]. rewrite E5. cbn [obind]. rewrite E6. cbn [obind].
    replace (len sigs <? 2) with false by lia. rewrite Hg. cbn [negb]. unfold generate_key, draw. rewrite Hg. cbn [negb obind]. change (3 =? 3) with true. cbn [negb]. rewrite Hk2. cbn [obind].
    rewrite Hs2. unfold sigs. erewrite (signature_checked (Mk vers rsa _ _ _)); [reflexivity|done..|lia].
  - unfold processClientKeyExchange. cbn [clientKeyExchangeMsg.ciphertext ecdheKeyAgreement.key]. rewrite len_app. change (len [_]) with 1.
    replace (1 + len (PublicKey key2) =? 0) with false by (pose proof (len_nonneg (PublicKey key2)); lia).
    change (Buffer.get _ 0) with (Buffer.get ([] ++ u8 (len (PublicKey key2)) :: PublicKey key2) 0). rewrite (get_app []) by done. cbn [obind]. rewrite b2z_u8_small by (pose proof (len_nonneg (PublicKey key2)); lia).
    replace (_ =? _) with true by lia. cbn [negb]. rewrite (from_app [u8 (len (PublicKey key2))]) by done. cbn [obind]. by rewrite Hs1.
Qed.

(** RSA key transport: what the client encrypts for the certificate of the server is
    the secret that the server gets. *)
Theorem rsa_agreement {Rok : RsaOk S} cert ch leaf pub r1 r1' secret ckx r2 :
  x509_PublicKey leaf = RSA pub -> Signer_Public cert.(KeyPair.PrivateKey) = Some (RSA pub) -> Decrypter cert.(KeyPair.PrivateKey) = true ->
  rsaKeyAgreement.generateClientKeyExchange ch leaf r1 = Ret (r1', inr (secret, ckx)) ->
  exists r2', rsaKeyAgreement.processClientKeyExchange cert ckx r2 = Ret (r2', inr secret).
Proof.
  intros Hp Hs Hd H. apply rbind_ret in H as (ra & [e|rnd] & Hr & H); [done|]. injection Hr as Hr. rewrite Hp in H.
  apply rbind_ret in H as (rb & [e|enc] & He & H); [done|]. injection He as He.
  remember (be 2 (len enc) ++ enc) as body eqn:Hb. remember (be 2 ch.(clientHelloMsg.vers) ++ rnd) as m eqn:Hm. injection H as <- <- <-. subst body m.
  assert (Hl : len (be 2 ch.(clientHelloMsg.vers) ++ rnd) = 48) by (rewrite len_app, (ReadFull_len 46 _ _ _ ltac:(lia) Hr); done).
  destruct (Decrypt_Encrypt _ _ _ _ _ _ r2 Hs Hd Hl He) as [Hc (r2' & Hdec)]. pose proof (len_nonneg enc).
  exists r2'. unfold rsaKeyAgreement.processClientKeyExchange. cbn [clientKeyExchangeMsg.ciphertext]. rewrite len_app. change (len (be 2 (len enc))) with 2.
  replace (_ <? 2) with false by lia. unfold mbind, RM_bind, rbind, rlift. rewrite get16_be0, Z.mod_small by lia. cbn [obind].
  replace (negb _) with false by lia. rewrite (from_app (be 2 (len enc))) by done. cbn [obind]. rewrite Hd. cbn [negb]. unfold draw. by rewrite Hdec.
Qed.
End Facts.

(** ** A concrete instance *)

#[export] Instance toy_keys_ok : KeysOk toy_keys.
Proof.
  constructor; cbn; [intros n r r' b Hn [= _ <-]|intros g r r' k [= _ <-]|by exists tt|done].
  - unfold len. rewrite length_replicate. lia.
  - unfold len. rewrite length_replicate. unfold public_size. repeat case_match; done.
Qed.
(** The secret of two keys is the sum of what they are as numbers. *)
Definition toy_ecdh (k p : bytes) : option bytes := Some (be 32 (be_val k + be_val p)).
Definition toy_exchange : KeyExchange toy_keys := Build_KeyExchange toy_keys toy_ecdh (fun _ c => Some (take 32 c)) (fun m n => take n m) (take 32).
#[export] Instance toy_exchange_ok : KeyExchangeOk toy_exchange.
Proof.
  constructor. intros g r1 r1' k1 r2 r2' k2 _ _. cbn. unfold toy_ecdh. eexists. split; [done|]. do 2 f_equal. lia.
Qed.
(** A certificate is one byte: the curve of its key. *)
Definition toy_public (c : bytes) : publicKey Z ellipticCurve unit := match c with [] => RSA 256 | _ => ECDSA P256 end.
Definition toy_x509_keys : X509Keys plain_x509 (toy_signing toy_keys) := Build_X509Keys plain_x509 toy_keys (toy_signing toy_keys) toy_public.

Definition toy_client_hello : clientHelloMsg.t :=
  clientHelloMsg.Mk None VersionTLS12 (replicate 32 x01) [] [] [x00] [] false [X25519; CurveP256] [] false []
    [PSSWithSHA256; ECDSAWithP256AndSHA256] [] false [] false [] false [] [] [] false [] [] [] None [] [] false.
Definition toy_server_hello : serverHelloMsg.t :=
  serverHelloMsg.Mk None VersionTLS12 (replicate 32 x02) [] 0 0 false false false [] false [] [] 0 (keyShare.Mk 0 []) false 0 [] None false None 0 false [].
Definition toy_cert : KeyPair.t (S := toy_signing toy_keys) := KeyPair.Mk (S := toy_signing toy_keys) (Certificate.Mk [[]] None None) (RSA 256) None.

Lemma ecdhe_agreement_witness : exists r1 ka skx r2 ka' secret ckx,
  ecdheKeyAgreement.generateServerKeyExchange (S := toy_signing toy_keys) (K := toy_hash) Config.zero toy_cert toy_client_hello toy_server_hello
    (ecdheKeyAgreement.Mk VersionTLS12 true None None []) 5%nat = Ret (r1, (ka, inr skx)) /\
  ecdheKeyAgreement.processServerKeyExchange (S := toy_signing toy_keys) (E := toy_exchange) (K := toy_hash) (XK := toy_x509_keys) toy_client_hello toy_server_hello
    ([] : bytes) skx (ecdheKeyAgreement.Mk VersionTLS12 true None None []) 7%nat = Ret (r2, (ka', None)) /\
  ecdheKeyAgreement.generateClientKeyExchange ka' = inr (secret, ckx) /\
  ecdheKeyAgreement.processClientKeyExchange (E := toy_exchange) ckx ka = Ret (inr secret).
Proof.
  assert (exists r1 ka skx, ecdheKeyAgreement.generateServerKeyExchange (S := toy_signing toy_keys) (K := toy_hash) Config.zero toy_cert toy_client_hello
    toy_server_hello (ecdheKeyAgreement.Mk VersionTLS12 true None None []) 5%nat = Ret (r1, (ka, inr skx)) /\ len skx.(serverKeyExchangeMsg.key) < 2 ^ 16)
    as (r1 & ka & skx & Hg & Hl) by (eexists _, _, _; split; vm_compute; reflexivity).
  destruct (ecdhe_agreement (S := toy_signing toy_keys) (E := toy_exchange) (K := toy_hash) (XK := toy_x509_keys) Config.zero toy_cert toy_client_hello
    toy_server_hello ([] : bytes) VersionTLS12 true 5%nat r1 ka skx 7%nat) as (r2 & ka' & secret & ckx & H1 & H2 & H3).
  - vm_compute. done.
  - reflexivity.
  - intros _. done.
  - exact Hg.
  - exact Hl.
  - intros g. eexists _, _. reflexivity.
  - exists r1, ka, skx, r2, ka', secret, ckx. split; [exact Hg|]. split; [exact H1|]. split; [exact H2|exact H3].
Defined.
