(* ===== verification/Randomized.v ===== *)
(** * Randomized specifications

    Models the generator of u_prng.go, [generateRandomizedSpec] of u_parrots.go
    with the weights of u_common.go, and the [Roller] of u_roller.go.

    The SHAKE256 stream and the generators of math/rand are parameters (class
    [Random]) with the documented range of what they return as laws.  A float64 is
    a [spec_float] of 53 bits of precision, and its operations are those of the
    standard library of Rocq, rounded to nearest even as in Go.  A pointer to a seed
    or to weights is an address; what is stored there is an argument. *)

From Stdlib Require Import SpecFloat.
From S2P Require Import Prelude Cryptobyte Common Config Negotiation Codec Buffer KeySchedule Names Messages Ticket Public Extensions Marshal Shuffle Parrots Session Preset.

(** An [int] of 64 bits. *)
Definition int64 (z : Z) : Z := (z + 2 ^ 63) mod 2 ^ 64 - 2 ^ 63.

(** ** float64 *)

Definition float64 : Type := spec_float.
Definition float_of (z : Z) : float64 := binary_normalize 53 1024 z 0 false.
Definition fdiv : float64 -> float64 -> float64 := SFdiv 53 1024.
Definition fmul : float64 -> float64 -> float64 := SFmul 53 1024.
Definition fsub : float64 -> float64 -> float64 := SFsub 53 1024.
Definition fgt (x y : float64) : bool := match SFcompare x y with Some Gt => true | _ => false end.
(** A literal [n / 100]. *)
Definition hundredths (n : Z) : float64 := fdiv (float_of n) (float_of 100).

(** ** u_common.go *)

Module Weights.
Record t := Mk {
  Extensions_Append_ALPN : float64;
  TLSVersMax_Set_VersionTLS13 : float64;
  CipherSuites_Remove_RandomCiphers : float64;
  SigAndHashAlgos_Append_ECDSAWithSHA1 : float64;
  SigAndHashAlgos_Append_ECDSAWithP521AndSHA512 : float64;
  SigAndHashAlgos_Append_PSSWithSHA256 : float64;
  SigAndHashAlgos_Append_PSSWithSHA384_PSSWithSHA512 : float64;
  CurveIDs_Append_X25519 : float64;
  CurveIDs_Append_CurveP521 : float64;
  Extensions_Append_Padding : float64;
  Extensions_Append_Status : float64;
  Extensions_Append_SCT : float64;
  Extensions_Append_Reneg : float64;
  Extensions_Append_EMS : float64;
  FirstKeyShare_Set_CurveP256 : float64;
  KeyShare_Append_RandomGroups : float64;
  Extensions_Append_ALPS : float64
}.
End Weights.
Definition DefaultWeights : Weights.t := Weights.Mk
  (hundredths 70) (hundredths 40) (hundredths 40) (hundredths 63) (hundredths 59) (hundredths 51) (hundredths 90) (hundredths 71) (hundredths 46)
  (hundredths 62) (hundredths 74) (hundredths 46) (hundredths 75) (hundredths 77) (hundredths 0) (hundredths 50) (hundredths 33).

(** ** u_prng.go *)

(** [sha3.NewShake256] and [io.ReadFull] on it, [hkdf.New(sha3.New256, ...)], and
    the methods of [rand.New(p)]. *)
Class Random := {
  shake : Type;
  NewShake : bytes -> res shake;
  ShakeRead : nat -> shake -> shake * bytes;
  HkdfSeed : bytes -> string -> res bytes;
  RandIntn : Z -> shake -> shake * Z;
  RandInt63n : Z -> shake -> shake * Z;
  RandPerm : nat -> shake -> shake * list nat;
  RandShuffle : nat -> shake -> shake * (nat -> nat)
}.
Class RandomOk (R : Random) : Prop := {
  ShakeRead_len n s : length (ShakeRead n s).2 = n;
  RandIntn_range n s : 0 < n -> 0 <= (RandIntn n s).2 < n;
  RandInt63n_range n s : 0 < n -> 0 <= (RandInt63n n s).2 < n;
  RandPerm_perm n s : (RandPerm n s).2 ≡ₚ seq 0 n;
  RandShuffle_range n s : in_range (RandShuffle n s).2
}.

Module sortableCipher.
Record t := Mk { isObsolete : bool; randomTag : nat; suite : Z }.
Definition Less (a b : t) : bool :=
  if a.(isObsolete) && negb b.(isObsolete) then false
  else if b.(isObsolete) && negb a.(isObsolete) then true
  else Nat.ltb a.(randomTag) b.(randomTag).
End sortableCipher.

Section Prng.
Context {R : Random}.

Definition Rand (A : Type) : Type := shake -> shake * A.
Definition ret {A} (a : A) : Rand A := fun p => (p, a).
Definition bind {A B} (m : Rand A) (k : A -> Rand B) : Rand B := fun p => let (p, a) := m p in k a p.
#[local] Instance Rand_ret : MRet Rand := @ret.
#[local] Instance Rand_bind : MBind Rand := fun A B k m => bind m k.

Definition newPRNGWithSeed (seed : bytes) : res shake := NewShake seed.
Definition newSaltedPRNGSeed (seed : bytes) (salt : string) : res bytes := HkdfSeed seed salt.
Definition newPRNGWithSaltedSeed (seed : bytes) (salt : string) : res shake :=
  try saltedSeed := newSaltedPRNGSeed seed salt in newPRNGWithSeed saltedSeed.

Definition Read (n : nat) : Rand bytes := ShakeRead n.
Definition Uint64 : Rand Z := b ← Read 8; ret (be_val b).
Definition Int63 : Rand Z := i ← Uint64; ret (Z.land i (2 ^ 63 - 1)).

Definition FlipWeightedCoin (weight : float64) : Rand bool :=
  let weight := if fgt weight (float_of 1) then float_of 1 else weight in
  i ← Int63;
  let f := fdiv (float_of i) (float_of (2 ^ 63 - 1)) in
  ret (fgt f (fsub (float_of 1) weight)).

Definition Intn (n : Z) : Rand Z := if n <=? 0 then ret 0 else RandIntn n.
Definition Int63n (n : Z) : Rand Z := if n <=? 0 then ret 0 else RandInt63n n.
Definition Perm (n : nat) : Rand (list nat) := RandPerm n.
Definition Range (min max : Z) : Rand Z :=
  let min := if min <? 0 then 0 else min in
  if max <? min then ret min else
  n ← Intn (int64 (max - min + 1)); ret (int64 (n + min)).

(** [r.rand.Shuffle(len(l), ...)] over a slice. *)
Definition shuffle {A} (l : list A) : Rand (outcome (list A)) :=
  draw ← RandShuffle (length l); ret (Shuffle draw (length l) l).

(** ** Cipher suites *)

(** [sort.Sort]: the tags are distinct, so there is one sorted order. *)
Fixpoint insert_cipher (c : sortableCipher.t) (l : list sortableCipher.t) : list sortableCipher.t :=
  match l with
  | [] => [c]
  | d :: l => if sortableCipher.Less d c then d :: insert_cipher c l else c :: d :: l
  end.
Definition Sort (l : list sortableCipher.t) : list sortableCipher.t := foldr insert_cipher [] l.

(** [ciphers[i] = sortableCipher{...; perm[i]}] *)
Fixpoint tagged (suites : list cipherSuite.t) (perm : list nat) : outcome (list sortableCipher.t) :=
  match suites, perm with
  | [], _ => Ret []
  | s :: suites, tag :: perm =>
      run l := tagged suites perm in
      Ret (sortableCipher.Mk (negb (cipherSuite.has suiteTLS12 s)) tag s.(cipherSuite.id) :: l)
  | _, [] => Panic
  end.
Definition shuffledCiphers : Rand (outcome (list Z)) :=
  perm ← Perm (length cipherSuites);
  ret (run ciphers := tagged cipherSuites perm in Ret (map sortableCipher.suite (Sort ciphers))).

(** [i] is the index of the first element of the rest. *)
Fixpoint remove_from (maxRemovalProbability floatLen : float64) (i : Z) (s : list Z) : Rand (list Z) :=
  match s with
  | [] => ret []
  | c :: s =>
      b ← FlipWeightedCoin (fdiv (fmul maxRemovalProbability (float_of i)) floatLen);
      if b : bool then remove_from maxRemovalProbability floatLen i s
      else l ← remove_from maxRemovalProbability floatLen (i + 1) s; ret (c :: l)
  end.
Definition removeRandomCiphers (s : list Z) (maxRemovalProbability : float64) : Rand (list Z) :=
  if len s <=? 1 then ret s else
  match s with
  | [] => ret []
  | first :: rest => l ← remove_from maxRemovalProbability (float_of (len s)) 1 rest; ret (first :: l)
  end.

Definition is_RC4 (cipher : Z) : bool :=
  (cipher =? TLS_ECDHE_ECDSA_WITH_RC4_128_SHA) || (cipher =? TLS_ECDHE_RSA_WITH_RC4_128_SHA) || (cipher =? TLS_RSA_WITH_RC4_128_SHA).
Definition removeRC4Ciphers (s : list Z) : list Z := List.filter (fun c => negb (is_RC4 c)) s.

(** ** generateRandomizedSpec *)

Context {X : X509}.
Notation spec := (@spec X).

(** What follows from the maximum version. *)
Definition random_versions (w : Weights.t) (shuffledSuites : list Z) : Rand (outcome (Z * Z * list Z)) :=
  tls13 ← FlipWeightedCoin w.(Weights.TLSVersMax_Set_VersionTLS13);
  if tls13 : bool then
    i ← Intn 2;
    tls13ciphers ← shuffle defaultCipherSuitesTLS13;
    ret (match [VersionTLS10; VersionTLS12] !! Z.to_nat i with
         | None => Panic
         | Some min => run l := tls13ciphers in Ret (min, VersionTLS13, removeRC4Ciphers (l ++ shuffledSuites))
         end)
  else ret (Ret (VersionTLS10, VersionTLS12, shuffledSuites)).

(** [if flip { l = append(l, x...) }] *)
Definition append_if {A} (w : float64) (x l : list A) : Rand (list A) :=
  b ← FlipWeightedCoin w; ret (if b : bool then l ++ x else l).

Definition random_sig_algs (w : Weights.t) (tls13 : bool) : Rand (outcome (list Z)) :=
  let algs := [ECDSAWithP256AndSHA256; PKCS1WithSHA256; ECDSAWithP384AndSHA384; PKCS1WithSHA384; PKCS1WithSHA1; PKCS1WithSHA512] in
  algs ← append_if w.(Weights.SigAndHashAlgos_Append_ECDSAWithSHA1) [ECDSAWithSHA1] algs;
  algs ← append_if w.(Weights.SigAndHashAlgos_Append_ECDSAWithP521AndSHA512) [ECDSAWithP521AndSHA512] algs;
  pss ← FlipWeightedCoin w.(Weights.SigAndHashAlgos_Append_PSSWithSHA256);
  algs ← (if pss || tls13 then
            append_if w.(Weights.SigAndHashAlgos_Append_PSSWithSHA384_PSSWithSHA512) [PSSWithSHA384; PSSWithSHA512] (algs ++ [PSSWithSHA256])
          else ret algs);
  shuffle algs.

Definition random_curves (w : Weights.t) (tls13 : bool) : Rand (list Z) :=
  b1 ← FlipWeightedCoin w.(Weights.CurveIDs_Append_X25519);
  b2 ← FlipWeightedCoin w.(Weights.CurveIDs_Append_X25519);
  append_if w.(Weights.CurveIDs_Append_CurveP521) [CurveP521]
    ((if b1 && tls13 then [X25519MLKEM768] else []) ++ (if b2 || tls13 then [X25519] else []) ++ [CurveP256; CurveP384]).

Definition random_shares (w : Weights.t) : Rand (list KeyShare.t) :=
  b ← FlipWeightedCoin w.(Weights.FirstKeyShare_Set_CurveP256);
  if b : bool then ret [KeyShare.Mk CurveP256 []] else
  l ← append_if w.(Weights.KeyShare_Append_RandomGroups) [KeyShare.Mk CurveP256 []] [KeyShare.Mk X25519 []];
  b ← FlipWeightedCoin w.(Weights.KeyShare_Append_RandomGroups);
  ret (if b : bool then KeyShare.Mk X25519MLKEM768 [] :: l else l).

(** The extensions that are there by chance. *)
Definition random_extras (w : Weights.t) (tls13 : bool) (exts : list (Ext X)) : Rand (list (Ext X)) :=
  pad ← FlipWeightedCoin w.(Weights.Extensions_Append_Padding);
  let exts := if pad || tls13 then exts ++ [UtlsPadding (UtlsPaddingExtension.Mk 0 false (Some BoringPaddingStyle))] else exts in
  exts ← append_if w.(Weights.Extensions_Append_Status) [StatusRequest StatusRequestExtension.Mk] exts;
  exts ← append_if w.(Weights.Extensions_Append_SCT) [SCT SCTExtension.Mk] exts;
  exts ← append_if w.(Weights.Extensions_Append_Reneg) [RenegotiationInfo (RenegotiationInfoExtension.Mk RenegotiateOnceAsClient [])] exts;
  append_if w.(Weights.Extensions_Append_EMS) [ExtendedMasterSecret ExtendedMasterSecretExtension.Mk] exts.

(** The extensions of TLS 1.3; the one for application settings is drawn from a
    generator of its own. *)
Definition random_tls13 (w : Weights.t) (seed : bytes) (WithALPN : bool) (min max : Z) (exts : list (Ext X)) : Rand (res (list (Ext X))) :=
  shares ← random_shares w;
  let exts := exts ++ [KeyShare (KeyShareExtension.Mk shares); PSKKeyExchangeModes (PSKKeyExchangeModesExtension.Mk [pskModeDHE]);
                       SupportedVersions (SupportedVersionsExtension.Mk (makeSupportedVersions min max))] in
  ret (if WithALPN then
         try r := newPRNGWithSaltedSeed seed "ALPS" in
         inr (append_if w.(Weights.Extensions_Append_ALPS) [ApplicationSettings (ApplicationSettingsExtension.Mk [str "h2"])] exts r).2
       else inr exts).

(** Once the generator is made; an error leaves the specification unfinished. *)
Definition random_spec (w : Weights.t) (seed : bytes) (chooseALPN : Rand bool) (serverName : bytes) (nextProtos : list bytes)
    : Rand (outcome (res spec)) :=
  WithALPN ← chooseALPN;
  shuffledSuites ← shuffledCiphers;
  match shuffledSuites with Panic => ret Panic | Ret shuffledSuites =>
  v ← random_versions w shuffledSuites;
  match v with Panic => ret Panic | Ret (min, max, shuffledSuites) =>
  let tls13 := max =? VersionTLS13 in
  suites ← removeRandomCiphers shuffledSuites w.(Weights.CipherSuites_Remove_RandomCiphers);
  algs ← random_sig_algs w tls13;
  match algs with Panic => ret Panic | Ret algs =>
  curves ← random_curves w tls13;
  let exts := [SNI (SNIExtension.Mk serverName); SessionTicket (SessionTicketExtension.Mk None [] false);
               SignatureAlgorithms (SignatureAlgorithmsExtension.Mk algs); SupportedPoints (SupportedPointsExtension.Mk [pointFormatUncompressed]);
               SupportedCurves (SupportedCurvesExtension.Mk curves)] in
  let exts := if WithALPN : bool then
                exts ++ [ALPN (ALPNExtension.Mk (if len nextProtos =? 0 then [str "h2"; str "http/1.1"] else nextProtos))]
              else exts in
  exts ← random_extras w tls13 exts;
  exts ← (if tls13 then random_tls13 w seed WithALPN min max exts else ret (inr exts));
  match exts with inl e => ret (Ret (inl e)) | inr exts =>
  exts ← shuffle exts;
  ret (run exts := exts in Ret (inr (ClientHelloSpec.Mk suites [] exts min max None no_seed)))
  end end end end.

(** What the pointers of an identifier point to, the address of [DefaultWeights], and
    that of the seed that [NewPRNGSeed] makes. *)
Record pointers := MkPointers {
  seed_at : nat -> bytes;
  weights_at : nat -> Weights.t;
  default_weights : nat;
  new_seed : res nat
}.

(** The identifier is changed: it gets the seed and the weights that were used. *)
Definition generateRandomizedSpec (ptr : pointers) (id : ClientHelloID.t) (serverName : bytes) (nextProtos : list bytes)
    : ClientHelloID.t * outcome (res spec) :=
  match (match id.(ClientHelloID.Seed) with Some a => inr a | None => ptr.(new_seed) end) with
  | inl e => (id, Ret (inl e))
  | inr a =>
      let id := ClientHelloID.Mk id.(ClientHelloID.Client) id.(ClientHelloID.Version) (Some a) id.(ClientHelloID.Weights) in
      let seed := ptr.(seed_at) a in
      match newPRNGWithSeed seed with
      | inl e => (id, Ret (inl e))
      | inr r =>
          let b := default ptr.(default_weights) id.(ClientHelloID.Weights) in
          let id := ClientHelloID.Mk id.(ClientHelloID.Client) id.(ClientHelloID.Version) (Some a) (Some b) in
          let w := ptr.(weights_at) b in
          let make chooseALPN := (id, (random_spec w seed chooseALPN serverName nextProtos r).2) in
          if bool_decide (id.(ClientHelloID.Client) = helloRandomizedALPN) then make (ret true)
          else if bool_decide (id.(ClientHelloID.Client) = helloRandomizedNoALPN) then make (ret false)
          else if bool_decide (id.(ClientHelloID.Client) = helloRandomized) then
            make (FlipWeightedCoin w.(Weights.Extensions_Append_ALPN))
          else (id, Ret (inl (ErrorNew ("using non-randomized ClientHelloID " ++ id.(ClientHelloID.Client) ++ " to generate randomized spec"))))
      end
  end.
End Prng.

(** ** u_roller.go *)

Module Roller.
Section Roller.
Context {R : Random}.
Record t := Mk {
  HelloIDs : list ClientHelloID.t;
  WorkingHelloID : option ClientHelloID.t;
  TcpDialTimeout : Z;
  TlsHandshakeTimeout : Z;
  r : shake
}.
Definition set_Working (v : option ClientHelloID.t) (r' : shake) (c : t) : t := Mk c.(HelloIDs) v c.(TcpDialTimeout) c.(TlsHandshakeTimeout) r'.

Definition Second : Z := 1000000000.

(** [seed] is what [NewPRNGSeed] makes. *)
Definition newPRNG (seed : res bytes) : res shake := try seed := seed in newPRNGWithSeed seed.

Definition NewRoller (seed : res bytes) : res t :=
  try r := newPRNG seed in
  let (r, tcpDialTimeoutInc) := Intn 14 r in
  let tcpDialTimeoutInc := 7 + tcpDialTimeoutInc in
  let (r, tlsHandshakeTimeoutInc) := Intn 20 r in
  let tlsHandshakeTimeoutInc := 11 + tlsHandshakeTimeoutInc in
  inr (Mk [HelloChrome_Auto; HelloFirefox_Auto; HelloIOS_Auto; HelloRandomized] None
    (Second * tcpDialTimeoutInc) (Second * tlsHandshakeTimeoutInc) r).

(** [helloIDs[i] = helloIDs[0]; helloIDs[0] = *workingHelloId], or the identifier
    put in front. *)
Definition working_first (working : ClientHelloID.t) (helloIDs : list ClientHelloID.t) : list ClientHelloID.t :=
  match list_find (fun ID => ID = working) helloIDs, helloIDs with
  | Some (i, _), first :: _ => <[0%nat := working]> (<[i := first]> helloIDs)
  | _, _ => working :: helloIDs
  end.
Definition dial_order (c : t) : shake * outcome (list ClientHelloID.t) :=
  let (r', helloIDs) := shuffle c.(HelloIDs) c.(r) in
  (r', run helloIDs := helloIDs in
       Ret (match c.(WorkingHelloID) with None => helloIDs | Some working => working_first working helloIDs end)).

(** The network and the clients: what dialling gives, what a client made with an
    identifier is after its handshake, and the identifier it has then. *)
Context {W conn uconn : Type} (DialTimeout : Z -> W -> W * res conn)
  (handshake : conn -> ClientHelloID.t -> bytes -> Z -> W -> W * (uconn * option gerror)) (id_of : uconn -> ClientHelloID.t).

(** The client of the first identifier that works, and the error. *)
Fixpoint dial_loop (c : t) (serverName : bytes) (err : option gerror) (helloIDs : list ClientHelloID.t) (w : W) : W * (t * option uconn * option gerror) :=
  match helloIDs with
  | [] => (w, (c, None, err))
  | helloID :: helloIDs =>
      let (w, o) := DialTimeout c.(TcpDialTimeout) w in
      match o with
      | inl err => (w, (c, None, Some err))
      | inr tcpConn =>
          let '(w, (client, err)) := handshake tcpConn helloID serverName c.(TlsHandshakeTimeout) w in
          match err with
          | Some _ => dial_loop c serverName err helloIDs w
          | None => (w, (set_Working (Some (id_of client)) c.(r) c, Some client, None))
          end
      end
  end.
Definition Dial (c : t) (serverName : bytes) (w : W) : W * outcome (t * option uconn * option gerror) :=
  let (r', helloIDs) := dial_order c in
  let c := set_Working c.(WorkingHelloID) r' c in
  match helloIDs with
  | Panic => (w, Panic)
  | Ret helloIDs => let (w, o) := dial_loop c serverName None helloIDs w in (w, Ret o)
  end.
End Roller.
End Roller.
