(* ===== verification/RandomizedFacts.v ===== *)
(** * What holds of every randomized specification, and of the roller

    A Hoare-style predicate [returns] on the computations of Randomized.v carries the
    proofs: a specification that the generator makes is a shuffle of the extensions
    of some [choices]; what is true of all choices is then shown of the list before
    it is shuffled. *)

From S2P Require Import Prelude Cryptobyte Common Config Negotiation Codec Buffer KeySchedule Names Messages Ticket Public Extensions Marshal Shuffle Parrots ParrotFacts Session Preset Randomized.

Section Facts.
Context {R : Random} {Rok : RandomOk R} {X : X509}.
#[local] Existing Instance Rand_ret.
#[local] Existing Instance Rand_bind.

(** Whatever the stream, [m] returns a value of [Q]. *)
Definition returns {A} (m : Rand A) (Q : A -> Prop) : Prop := forall p, Q (m p).2.

Lemma returns_ret {A} (a : A) (Q : A -> Prop) : Q a -> returns (ret a) Q.
Proof. by intros H p. Qed.
Lemma returns_bind {A B} (m : Rand A) (k : A -> Rand B) P Q : returns m P -> (forall a, P a -> returns (k a) Q) -> returns (bind m k) Q.
Proof. intros Hm Hk p. unfold bind. specialize (Hm p). destruct (m p) as [p' a]. by apply Hk. Qed.
Lemma returns_any {A} (m : Rand A) : returns m (fun _ => True).
Proof. done. Qed.
Lemma returns_coin {B} w (k : bool -> Rand B) Q : (forall b, returns (k b) Q) -> returns (bind (FlipWeightedCoin w) k) Q.
Proof. intros H. eapply returns_bind; [apply returns_any|]. intros b _. apply H. Qed.

(** ** Lists by chance *)

Lemma returns_append_if {A} w (x l : list A) : returns (append_if w x l) (fun l' => l' = l \/ l' = l ++ x).
Proof. apply returns_coin. intros []; apply returns_ret; auto. Qed.

Lemma returns_shuffle {A} (l : list A) : returns (shuffle l) (fun o => exists l', o = Ret l' /\ l' ≡ₚ l).
Proof.
  apply (returns_bind _ _ in_range); [intros p; apply RandShuffle_range|]. intros draw Hd. apply returns_ret. unfold Shuffle.
  destruct l as [|a l]; [by exists []|]. destruct (shuffle_down_ok draw (length (a :: l) - 1) (a :: l) Hd) as (out & -> & Hp & _); [cbn; lia|].
  by exists out.
Qed.

(** ** Cipher suites *)

Definition suite_ids : list Z := map cipherSuite.id cipherSuites.

Lemma insert_perm c l : insert_cipher c l ≡ₚ c :: l.
Proof. induction l as [|d l IH]; cbn; [done|]. case_match; [|done]. by rewrite IH, Permutation_swap. Qed.
Lemma Sort_perm l : Sort l ≡ₚ l.
Proof. induction l as [|c l IH]; cbn; [done|]. by rewrite insert_perm, IH. Qed.
Lemma tagged_ok suites perm : length perm = length suites ->
  exists l, tagged suites perm = Ret l /\ map sortableCipher.suite l = map cipherSuite.id suites.
Proof.
  revert perm. induction suites as [|s suites IH]; intros [|tag perm]; try done; [by exists []|]. cbn. intros [= H].
  destruct (IH perm H) as (l & -> & E). eexists. split; [done|]. cbn. by rewrite E.
Qed.
Lemma returns_suites : returns shuffledCiphers (fun o => exists l, o = Ret l /\ l ≡ₚ suite_ids).
Proof.
  apply (returns_bind _ _ (fun perm => perm ≡ₚ seq 0 (length cipherSuites))); [intros p; apply RandPerm_perm|]. intros perm Hp. apply returns_ret.
  destruct (tagged_ok cipherSuites perm) as (l & -> & E); [by rewrite Hp, length_seq|]. cbn. eexists. split; [done|].
  by rewrite Sort_perm, E.
Qed.

Lemma returns_remove_from w n i s : returns (remove_from w n i s) (fun l => l `sublist_of` s).
Proof.
  revert i. induction s as [|c s IH]; intros i; cbn [remove_from]; [by apply returns_ret|].
  apply returns_coin. intros []; [intros p; apply sublist_cons, IH|].
  eapply returns_bind; [apply IH|]. intros l Hl. apply returns_ret. by apply sublist_skip.
Qed.
Lemma returns_remove s w : returns (removeRandomCiphers s w) (fun l => l `sublist_of` s /\ head l = head s).
Proof.
  unfold removeRandomCiphers. destruct (len s <=? 1); [by apply returns_ret|]. destruct s as [|c s]; [by apply returns_ret|].
  eapply returns_bind; [apply returns_remove_from|]. intros l Hl. apply returns_ret. split; [by apply sublist_skip|done].
Qed.

Lemma removeRC4_tls13 l s : l ≡ₚ defaultCipherSuitesTLS13 -> removeRC4Ciphers (l ++ s) = l ++ removeRC4Ciphers s.
Proof.
  intros Hl. unfold removeRC4Ciphers. rewrite List.filter_app. f_equal. apply forallb_filter_id, forallb_forall. intros c Hc.
  apply list_elem_of_In in Hc. rewrite Hl in Hc. unfold defaultCipherSuitesTLS13 in Hc. set_unfold in Hc. by destruct Hc as [->|[->|[->|[]]]].
Qed.
Lemma removeRC4_incl c s : c ∈ removeRC4Ciphers s -> c ∈ s /\ is_RC4 c = false.
Proof. unfold removeRC4Ciphers. rewrite !list_elem_of_In, filter_In, negb_true_iff. done. Qed.

(** The suites of a specification and its versions. *)
Record suites_ok (min max : Z) (l : list Z) : Prop := {
  so_nodup : NoDup l;
  so_known : forall c, c ∈ l -> c ∈ defaultCipherSuitesTLS13 ++ suite_ids;
  so_versions : max = VersionTLS13 /\ (min = VersionTLS10 \/ min = VersionTLS12) /\ (exists c, head l = Some c /\ c ∈ defaultCipherSuitesTLS13) /\
      (forall c, c ∈ l -> is_RC4 c = false) \/
    max = VersionTLS12 /\ min = VersionTLS10 /\ l <> [] /\ (forall c, c ∈ l -> c ∉ defaultCipherSuitesTLS13)
}.


Lemma tls13_suites_nodup : NoDup (defaultCipherSuitesTLS13 ++ suite_ids).
Proof. apply (bool_decide_unpack _). vm_compute. exact Logic.I. Qed.
Lemma suites_disjoint c : c ∈ suite_ids -> c ∉ defaultCipherSuitesTLS13.
Proof. intros Hc H. pose proof tls13_suites_nodup as Hn. apply NoDup_app in Hn as (_ & Hn & _). by apply (Hn c). Qed.

Lemma suites_ok_sub min max l l' : l' `sublist_of` l -> head l' = head l -> suites_ok min max l -> suites_ok min max l'.
Proof.
  intros Hs Hh [Hn Hk Hv]. assert (Hi : forall c, c ∈ l' -> c ∈ l) by (intros c Hc; by eapply elem_of_sublist).
  constructor; [by eapply sublist_NoDup|auto|].
  destruct Hv as [(? & ? & ? & ?)|(? & ? & Hne & ?)]; [left|right]; split_and!; eauto; [rewrite Hh; eauto|].
  intros ->. by destruct l.
Qed.

Lemma suites_tls13 min l s : l ≡ₚ defaultCipherSuitesTLS13 -> s ≡ₚ suite_ids -> min = VersionTLS10 \/ min = VersionTLS12 ->
  suites_ok min VersionTLS13 (removeRC4Ciphers (l ++ s)).
Proof.
  intros Hl Hs Hm. constructor.
  - apply NoDup_ListNoDup, List.NoDup_filter, NoDup_ListNoDup. rewrite Hl, Hs. apply tls13_suites_nodup.
  - intros c Hc. apply removeRC4_incl in Hc as [Hc _]. by rewrite Hl, Hs in Hc.
  - left. split_and!; [done|done| |intros c Hc; by apply removeRC4_incl in Hc as [_ ?]].
    rewrite removeRC4_tls13 by done. destruct l as [|c l]; [by apply Permutation_nil_l in Hl|]. exists c. split; [done|]. rewrite <- Hl. by left.
Qed.
Lemma suites_tls12 s : s ≡ₚ suite_ids -> suites_ok VersionTLS10 VersionTLS12 s.
Proof.
  intros Hs. constructor.
  - rewrite Hs. pose proof tls13_suites_nodup as Hn. by apply NoDup_app in Hn as (_ & _ & Hn).
  - intros c Hc. rewrite Hs in Hc. apply elem_of_app. by right.
  - right. split_and!; [done|done| |intros c Hc; apply suites_disjoint; by rewrite <- Hs]. intros ->. by apply Permutation_length in Hs.
Qed.

Lemma returns_versions w s : s ≡ₚ suite_ids ->
  returns (random_versions w s) (fun o => exists min max l, o = Ret (min, max, l) /\ suites_ok min max l).
Proof.
  intros Hs. apply returns_coin. intros []; [|apply returns_ret; eexists _, _, _; split; [done|by apply suites_tls12]].
  apply (returns_bind _ _ (fun i => 0 <= i < 2)); [intros p; apply (RandIntn_range 2); lia|]. intros i Hi. eapply returns_bind; [apply returns_shuffle|].
  intros o (l & -> & Hl). apply returns_ret.
  assert (i = 0 \/ i = 1) as [->| ->] by lia; cbn; eexists _, _, _; (split; [done|]); apply suites_tls13; auto.
Qed.

(** ** Extensions *)

Notation spec := (@Parrots.spec X).

(** What chance decides about the extensions. *)
Record choices := MkChoices {
  c_alpn : bool; c_pad : bool; c_status : bool; c_sct : bool; c_reneg : bool; c_ems : bool; c_alps : bool;
  c_mlkem : bool; c_x25519 : bool; c_p521 : bool;
  c_algs : list Z;
  c_shares : list Z
}.

Definition opt {A} (b : bool) (l : list A) : list A := if b then l else [].
Definition chosen_curves (c : choices) : list Z :=
  opt c.(c_mlkem) [X25519MLKEM768] ++ opt c.(c_x25519) [X25519] ++ [CurveP256; CurveP384] ++ opt c.(c_p521) [CurveP521].

(** The extensions before they are shuffled. *)
Definition chosen (serverName : bytes) (nextProtos : list bytes) (min max : Z) (c : choices) : list (Ext X) :=
  [SNI (SNIExtension.Mk serverName); SessionTicket (SessionTicketExtension.Mk None [] false);
   SignatureAlgorithms (SignatureAlgorithmsExtension.Mk c.(c_algs)); SupportedPoints (SupportedPointsExtension.Mk [pointFormatUncompressed]);
   SupportedCurves (SupportedCurvesExtension.Mk (chosen_curves c))] ++
  opt c.(c_alpn) [ALPN (ALPNExtension.Mk (if len nextProtos =? 0 then [str "h2"; str "http/1.1"] else nextProtos))] ++
  opt c.(c_pad) [UtlsPadding (UtlsPaddingExtension.Mk 0 false (Some BoringPaddingStyle))] ++
  opt c.(c_status) [StatusRequest StatusRequestExtension.Mk] ++ opt c.(c_sct) [SCT SCTExtension.Mk] ++
  opt c.(c_reneg) [RenegotiationInfo (RenegotiationInfoExtension.Mk RenegotiateOnceAsClient [])] ++
  opt c.(c_ems) [ExtendedMasterSecret ExtendedMasterSecretExtension.Mk] ++
  opt (max =? VersionTLS13)
    ([KeyShare (KeyShareExtension.Mk (map (fun g => KeyShare.Mk g []) c.(c_shares))); PSKKeyExchangeModes (PSKKeyExchangeModesExtension.Mk [pskModeDHE]);
      SupportedVersions (SupportedVersionsExtension.Mk (makeSupportedVersions min max))] ++
     opt c.(c_alps) [ApplicationSettings (ApplicationSettingsExtension.Mk [str "h2"])]).

(** The lists of groups that get a key share. *)
Definition share_groups : list (list Z) :=
  [[CurveP256]; [X25519]; [X25519; CurveP256]; [X25519MLKEM768; X25519]; [X25519MLKEM768; X25519; CurveP256]].
Definition all_sig_algs : list Z :=
  [ECDSAWithP256AndSHA256; PKCS1WithSHA256; ECDSAWithP384AndSHA384; PKCS1WithSHA384; PKCS1WithSHA1; PKCS1WithSHA512;
   ECDSAWithSHA1; ECDSAWithP521AndSHA512; PSSWithSHA256; PSSWithSHA384; PSSWithSHA512].

(** The choices the generator can make. *)
Record choices_ok (tls13 : bool) (c : choices) : Prop := {
  co_pad : tls13 = true -> c.(c_pad) = true;
  co_alps : c.(c_alps) = true -> c.(c_alpn) = true;
  co_mlkem : c.(c_mlkem) = true -> tls13 = true;
  co_x25519 : tls13 = true -> c.(c_x25519) = true;
  co_shares : c.(c_shares) ∈ share_groups;
  co_algs : exists l, l `sublist_of` all_sig_algs /\ c.(c_algs) ≡ₚ l /\ (tls13 = true -> PSSWithSHA256 ∈ l)
}.

Ltac solve_sublist := repeat first [apply sublist_nil | apply sublist_skip | apply sublist_cons | apply sublist_nil_l].

Lemma returns_sig_algs w tls13 : returns (random_sig_algs w tls13) (fun o => exists algs, o = Ret algs /\
  exists l, l `sublist_of` all_sig_algs /\ algs ≡ₚ l /\ (tls13 = true -> PSSWithSHA256 ∈ l)).
Proof.
  unfold random_sig_algs. set (base := [ECDSAWithP256AndSHA256; _; _; _; _; _]).
  assert (Hfin : forall l, l `sublist_of` all_sig_algs -> (tls13 = true -> PSSWithSHA256 ∈ l) -> returns (shuffle l) (fun o => exists algs, o = Ret algs /\
    exists l, l `sublist_of` all_sig_algs /\ algs ≡ₚ l /\ (tls13 = true -> PSSWithSHA256 ∈ l))).
  { intros l Hl Hp p. destruct (returns_shuffle l p) as (l' & -> & Hp'). by exists l'; split; [|exists l]. }
  assert (Hin : forall l : list Z, bool_decide (PSSWithSHA256 ∈ l) = true -> tls13 = true -> PSSWithSHA256 ∈ l) by (intros l Hl _; by apply bool_decide_eq_true_1 in Hl).
  eapply returns_bind; [apply returns_append_if|]. intros l1 H1. eapply returns_bind; [apply returns_append_if|]. intros l2 H2.
  apply returns_coin. intros pss. destruct (pss || tls13) eqn:Ep.
  - eapply returns_bind; [apply returns_append_if|]. intros l3 H3. destruct H1 as [->| ->], H2 as [->| ->], H3 as [->| ->];
      (apply Hfin; [solve_sublist|apply Hin; vm_compute; reflexivity]).
  - eapply (returns_bind _ _ (fun l3 => l3 = l2)); [by apply returns_ret|]. intros ? ->. apply orb_false_iff in Ep as [_ ->].
    destruct H1 as [->| ->], H2 as [->| ->]; (apply Hfin; [solve_sublist|done]).
Qed.

Lemma returns_curves w tls13 : returns (random_curves w tls13) (fun l => exists m x p, l = opt m [X25519MLKEM768] ++ opt x [X25519] ++ [CurveP256; CurveP384] ++ opt p [CurveP521] /\
  (m = true -> tls13 = true) /\ (tls13 = true -> x = true)).
Proof.
  apply returns_coin. intros b1. apply returns_coin. intros b2. intros q.
  destruct (returns_append_if w.(Weights.CurveIDs_Append_CurveP521) [CurveP521] ((if b1 && tls13 then [X25519MLKEM768] else []) ++ (if b2 || tls13 then [X25519] else []) ++ [CurveP256; CurveP384]) q) as [->| ->];
    [exists (b1 && tls13), (b2 || tls13), false|exists (b1 && tls13), (b2 || tls13), true]; (split_and!; [by destruct b1, b2, tls13|by destruct b1|by destruct b2, tls13]).
Qed.

Lemma returns_shares w : returns (random_shares w) (fun l => exists groups, l = map (fun g => KeyShare.Mk g []) groups /\ groups ∈ share_groups).
Proof.
  assert (H : forall groups, bool_decide (groups ∈ share_groups) = true -> exists gs, map (fun g => KeyShare.Mk g []) groups = map (fun g => KeyShare.Mk g []) gs /\ gs ∈ share_groups).
  { intros gs Hg. exists gs. split; [done|]. by apply bool_decide_eq_true_1 in Hg. }
  apply returns_coin. intros []; [apply returns_ret, (H [CurveP256]); reflexivity|]. eapply returns_bind; [apply returns_append_if|].
  intros l Hl. apply returns_coin. intros []; apply returns_ret; destruct Hl as [->| ->].
  - apply (H [X25519MLKEM768; X25519]). reflexivity.
  - apply (H [X25519MLKEM768; X25519; CurveP256]). reflexivity.
  - apply (H [X25519]). reflexivity.
  - apply (H [X25519; CurveP256]). reflexivity.
Qed.

Lemma returns_append_opt {A} w (x l : list A) : returns (append_if w x l) (fun l' => exists b, l' = l ++ opt b x).
Proof. apply returns_coin. intros b. apply returns_ret. exists b. destruct b; [done|]. by rewrite app_nil_r. Qed.

Lemma returns_extras w tls13 exts : returns (random_extras w tls13 exts) (fun l => exists pad status sct reneg ems, l = exts ++
  opt pad [UtlsPadding (UtlsPaddingExtension.Mk 0 false (Some BoringPaddingStyle))] ++
  opt status [StatusRequest StatusRequestExtension.Mk] ++ opt sct [SCT SCTExtension.Mk] ++
  opt reneg [RenegotiationInfo (RenegotiationInfoExtension.Mk RenegotiateOnceAsClient [])] ++
  opt ems [ExtendedMasterSecret ExtendedMasterSecretExtension.Mk] /\ (tls13 = true -> pad = true)).
Proof.
  apply returns_coin. intros b. eapply returns_bind; [apply returns_append_opt|]. intros l1 [b1 ->].
  eapply returns_bind; [apply returns_append_opt|]. intros l2 [b2 ->]. eapply returns_bind; [apply returns_append_opt|]. intros l3 [b3 ->].
  intros p. destruct (returns_append_opt (w.(Weights.Extensions_Append_EMS)) [ExtendedMasterSecret ExtendedMasterSecretExtension.Mk]
    ((((if b || tls13 then exts ++ [UtlsPadding (UtlsPaddingExtension.Mk 0 false (Some BoringPaddingStyle))] else exts) ++
      opt b1 [StatusRequest StatusRequestExtension.Mk]) ++ opt b2 [SCT SCTExtension.Mk]) ++
      opt b3 [RenegotiationInfo (RenegotiationInfoExtension.Mk RenegotiateOnceAsClient [])]) p) as [b4 ->].
  exists (b || tls13), b1, b2, b3, b4. split; [|by destruct b, tls13]. destruct (b || tls13); by rewrite <- ?app_assoc.
Qed.

Lemma returns_tls13 w seed alpn min max exts r : newPRNGWithSaltedSeed seed "ALPS" = inr r ->
  returns (random_tls13 w seed alpn min max exts) (fun o => exists shares alps, shares ∈ share_groups /\ (alps = true -> alpn = true) /\
    o = inr (exts ++ [KeyShare (KeyShareExtension.Mk (map (fun g => KeyShare.Mk g []) shares)); PSKKeyExchangeModes (PSKKeyExchangeModesExtension.Mk [pskModeDHE]);
      SupportedVersions (SupportedVersionsExtension.Mk (makeSupportedVersions min max))] ++
      opt alps [ApplicationSettings (ApplicationSettingsExtension.Mk [str "h2"])])).
Proof.
  intros Hr. eapply returns_bind; [apply returns_shares|]. intros l (groups & -> & Hg). apply returns_ret. destruct alpn.
  - rewrite Hr. destruct (returns_append_opt w.(Weights.Extensions_Append_ALPS) [ApplicationSettings (ApplicationSettingsExtension.Mk [str "h2"])]
      (exts ++ [KeyShare (KeyShareExtension.Mk (map (fun g => KeyShare.Mk g []) groups)); PSKKeyExchangeModes (PSKKeyExchangeModesExtension.Mk [pskModeDHE]);
      SupportedVersions (SupportedVersionsExtension.Mk (makeSupportedVersions min max))]) r) as [alps E].
    exists groups, alps. split_and!; [done|done|]. refine (eq_trans (f_equal inr E) _). by rewrite <- app_assoc.
  - exists groups, false. done.
Qed.

(** A specification that the generator can make. *)
Record randomized (alpn : bool -> Prop) (serverName : bytes) (nextProtos : list bytes) (s : spec) : Prop := {
  rz_suites : suites_ok s.(ClientHelloSpec.TLSVersMin) s.(ClientHelloSpec.TLSVersMax) s.(ClientHelloSpec.CipherSuites);
  rz_exts : exists c, choices_ok (s.(ClientHelloSpec.TLSVersMax) =? VersionTLS13) c /\ alpn c.(c_alpn) /\
    s.(ClientHelloSpec.Extensions) ≡ₚ chosen serverName nextProtos s.(ClientHelloSpec.TLSVersMin) s.(ClientHelloSpec.TLSVersMax) c
}.

Lemma returns_spec w seed chooseALPN alpn serverName nextProtos r : newPRNGWithSaltedSeed seed "ALPS" = inr r -> returns chooseALPN alpn ->
  returns (random_spec w seed chooseALPN serverName nextProtos) (fun o => exists s, o = Ret (inr s) /\ randomized alpn serverName nextProtos s).
Proof.
  intros Hr Ha. eapply returns_bind; [exact Ha|]. intros b Hb. eapply returns_bind; [apply returns_suites|]. intros o (l & -> & Hl).
  eapply returns_bind; [by apply returns_versions|]. intros o (min & max & l1 & -> & Hl1). clear l Hl.
  eapply returns_bind; [apply returns_remove|]. intros l (Hsub & Hhd). eapply (suites_ok_sub _ _ _ l) in Hl1; [|done..]. clear Hsub Hhd l1.
  eapply returns_bind; [apply returns_sig_algs|]. intros o (algs & -> & Halgs). set (tls13 := max =? VersionTLS13) in *.
  eapply returns_bind; [apply returns_curves|]. intros curves (m & x & p521 & -> & Hm & Hx).
  eapply returns_bind; [apply returns_extras|]. intros exts (pad & status & sct & reneg & ems & -> & Hpad).
  eapply (returns_bind _ _ (fun o => exists alps shares, (alps = true -> b = true) /\ shares ∈ share_groups /\
    o = inr (chosen serverName nextProtos min max (MkChoices b pad status sct reneg ems alps m x p521 algs shares)))).
  - destruct tls13 eqn:Et.
    + match goal with |- returns (random_tls13 _ _ _ _ _ ?l) _ => intros q; destruct (returns_tls13 w seed b min max l r Hr q) as (shares & alps & Hs & Hal & E) end.
      exists alps, shares. split_and!; [done|done|]. refine (eq_trans E _). unfold chosen. fold tls13. rewrite Et. cbn [c_alpn c_pad c_status c_sct c_reneg c_ems c_alps c_algs c_shares opt]. f_equal. destruct b; rewrite <- !app_assoc; reflexivity.
    + apply returns_ret. exists false, [X25519]. split_and!; [done|by right; left|]. unfold chosen. fold tls13. rewrite Et. cbn [c_alpn opt].
      cbn [c_pad c_status c_sct c_reneg c_ems c_algs]. rewrite app_nil_r. destruct b; by rewrite <- ?app_assoc.
  - intros o (alps & shares & Hal & Hs & ->). eapply returns_bind; [apply returns_shuffle|]. intros o (exts & -> & He). apply returns_ret.
    eexists. split; [done|]. constructor; [exact Hl1|]. cbn. eexists. split; [|split; [|exact He]]; done.
Qed.

(** ** Well-formedness *)

(** As [ApplyPreset] completes it. *)
Definition with_compression (s : spec) : spec :=
  ClientHelloSpec.Mk s.(ClientHelloSpec.CipherSuites) [x00] s.(ClientHelloSpec.Extensions) s.(ClientHelloSpec.TLSVersMin)
    s.(ClientHelloSpec.TLSVersMax) s.(ClientHelloSpec.GetSessionID) s.(ClientHelloSpec.GREASESeed).

Lemma types_opt b (l : list (Ext X)) : types (opt b l) `sublist_of` types l.
Proof. destruct b; [done|apply sublist_nil_l]. Qed.
Lemma types_app (l k : list (Ext X)) : types (l ++ k) = types l ++ types k.
Proof. apply omap_app. Qed.
Lemma has_app (l k : list (Ext X)) t : has (l ++ k) t = has l t || has k t.
Proof. unfold has. rewrite types_app. rewrite <- bool_decide_or. apply bool_decide_ext, elem_of_app. Qed.
Lemma has_opt b (l : list (Ext X)) t : has (opt b l) t = b && has l t.
Proof. by destruct b. Qed.
Lemma offers13_app (l k : list (Ext X)) : offers13 (l ++ k) = offers13 l || offers13 k.
Proof. apply existsb_app. Qed.
Lemma offers13_opt b (l : list (Ext X)) : offers13 (opt b l) = b && offers13 l.
Proof. by destruct b. Qed.

Lemma chosen_types sn np min max c : NoDup (types (chosen sn np min max c)).
Proof.
  eapply (sublist_NoDup _ [0; 35; 13; 11; 10; 16; 21; 5; 18; 0xff01; 23; 51; 45; 43; 17513]); [apply (bool_decide_unpack _); vm_compute; exact Logic.I|].
  unfold chosen. rewrite !types_app.
  change [0; 35; 13; 11; 10; 16; 21; 5; 18; 0xff01; 23; 51; 45; 43; 17513] with
    ([0; 35; 13; 11; 10] ++ [16] ++ [21] ++ [5] ++ [18] ++ [0xff01] ++ [23] ++ ([51; 45; 43] ++ [17513])).
  apply sublist_app; [done|]. do 6 (apply sublist_app; [apply types_opt|]).
  etransitivity; [apply types_opt|]. rewrite types_app. apply sublist_app; [done|apply types_opt].
Qed.

(** Which types are there. *)
Lemma chosen_has sn np min max c t : has (chosen sn np min max c) t =
  bool_decide (t ∈ [extensionServerName; extensionSessionTicket; extensionSignatureAlgorithms; extensionSupportedPoints; extensionSupportedCurves]) ||
  (c.(c_alpn) && bool_decide (t ∈ [extensionALPN])) || (c.(c_pad) && bool_decide (t ∈ [utlsExtensionPadding])) ||
  (c.(c_status) && bool_decide (t ∈ [extensionStatusRequest])) || (c.(c_sct) && bool_decide (t ∈ [extensionSCT])) ||
  (c.(c_reneg) && bool_decide (t ∈ [extensionRenegotiationInfo])) || (c.(c_ems) && bool_decide (t ∈ [extensionExtendedMasterSecret])) ||
  ((max =? VersionTLS13) && (bool_decide (t ∈ [extensionKeyShare; extensionPSKModes; extensionSupportedVersions]) ||
    (c.(c_alps) && bool_decide (t ∈ [utlsExtensionApplicationSettings])))).
Proof. unfold chosen. rewrite !has_app, !has_opt, has_app, has_opt, !orb_assoc. reflexivity. Qed.

Lemma chosen_offers sn np min max c : max = VersionTLS13 /\ (min = VersionTLS10 \/ min = VersionTLS12) \/ max = VersionTLS12 /\ min = VersionTLS10 ->
  offers13 (chosen sn np min max c) = (max =? VersionTLS13).
Proof.
  intros H. unfold chosen. rewrite !offers13_app, !offers13_opt, offers13_app, offers13_opt.
  destruct H as [[-> [->| ->]]|[-> ->]]; vm_compute; by repeat case_match.
Qed.

Lemma chosen_no_psk sn np min max c x : x ∈ chosen sn np min max c -> is_psk x = false /\ is_GREASE_ext x = false.
Proof.
  intros Hx. assert (H : forallb (fun x => negb (is_psk x) && negb (is_GREASE_ext x)) (chosen sn np min max c) = true).
  { unfold chosen. rewrite !forallb_app. unfold opt. repeat case_match; reflexivity. }
  rewrite forallb_forall in H. apply list_elem_of_In, H, andb_true_iff in Hx. by rewrite !negb_true_iff in Hx.
Qed.

Lemma Forall_opt {A} (P : A -> Prop) b l : (b = true -> Forall P l) -> Forall P (opt b l).
Proof. destruct b; cbn; auto. Qed.

(** What [chosen_has] says of one type. *)
Ltac solve_choice :=
  match goal with |- context[c_alpn ?c] => destruct c; cbn [c_alpn c_pad c_status c_sct c_reneg c_ems c_alps] end;
  match goal with |- context[?m =? VersionTLS13] => generalize (m =? VersionTLS13) end;
  vm_compute; intros; by repeat case_match.

Ltac solve_parts := repeat (apply Forall_cons; split); try apply Forall_nil; try done; (split; [done|by left]).

Lemma chosen_groups sn np min max c : Forall (fun x => (wire_type x = Some extensionSupportedCurves -> ext_groups x = chosen_curves c) /\
  (ext_shares x = [] \/ max = VersionTLS13 /\ ext_shares x = c.(c_shares))) (chosen sn np min max c).
Proof.
  unfold chosen. apply Forall_app. split; [solve_parts|].
  do 6 (apply Forall_app; split; [apply Forall_opt; intros _; solve_parts|]).
  apply Forall_opt. intros Hm%Z.eqb_eq. rewrite Forall_app. split; [|apply Forall_opt; intros _; solve_parts].
  constructor; [|solve_parts]. split; [done|]. right. split; [done|]. cbn. rewrite map_map. apply map_id.
Qed.

Lemma shares_in_order c : choices_ok true c -> c.(c_mlkem) = true \/ X25519MLKEM768 ∉ c.(c_shares) ->
  in_order c.(c_shares) (chosen_curves c) = true.
Proof.
  intros [_ _ _ Hx Hs _] Hm. unfold chosen_curves. rewrite (Hx eq_refl). clear Hx. destruct c; cbn [c_mlkem c_shares c_p521] in *. unfold share_groups in Hs. rewrite !elem_of_cons, elem_of_nil in Hs.
  destruct Hs as [->|[->|[->|[->|[->|[]]]]]]; (destruct Hm as [->|Hm]; [|first [by destruct Hm; left | destruct c_mlkem0]]);
    vm_compute; reflexivity.
Qed.

Lemma tls13_suites_ok min max l : suites_ok min max l ->
  List.existsb (fun c => bool_decide (c ∈ tls13_suites)) l = (max =? VersionTLS13) /\
  (max = VersionTLS13 /\ (min = VersionTLS10 \/ min = VersionTLS12) \/ max = VersionTLS12 /\ min = VersionTLS10).
Proof.
  assert (Hd : forall c, c ∈ tls13_suites <-> c ∈ defaultCipherSuitesTLS13) by (intros c; unfold tls13_suites, defaultCipherSuitesTLS13; set_solver).
  intros [_ _ [(-> & Hm & (c & Hh & Hc) & _)|(-> & -> & _ & Hn)]]; (split; [|auto]).
  - apply existsb_exists. exists c. split; [destruct l; [done|]; injection Hh as ->; by left|]. by apply bool_decide_eq_true_2, Hd.
  - apply not_true_iff_false. intros (c & Hc & H)%existsb_exists. apply bool_decide_eq_true_1, Hd in H. apply (Hn c); [by apply list_elem_of_In|done].
Qed.

Lemma chosen_wf sn np min max l c : suites_ok min max l -> choices_ok (max =? VersionTLS13) c ->
  c.(c_mlkem) = true \/ X25519MLKEM768 ∉ c.(c_shares) \/ max <> VersionTLS13 ->
  spec_wf (ClientHelloSpec.Mk l [x00] (chosen sn np min max c) min max None no_seed).
Proof.
  intros Hl Hc Hm. destruct (tls13_suites_ok _ _ _ Hl) as [Hs Hv]. pose proof (chosen_groups sn np min max c) as Hg. rewrite Forall_forall in Hg.
  constructor; cbn [ClientHelloSpec.Extensions ClientHelloSpec.CipherSuites ClientHelloSpec.CompressionMethods]; rewrite ?chosen_offers by done.
  - by destruct Hl.
  - done.
  - apply chosen_types.
  - rewrite (List.filter_ext_in _ (fun _ => false)), List.filter_false; [cbn; lia|]. intros x Hx%list_elem_of_In. by apply chosen_no_psk in Hx as [_ ?].
  - intros i x Hi Hx. apply list_elem_of_lookup_2, chosen_no_psk in Hi as [? _]. congruence.
  - intros x y Hx Hy Hty. apply Hg in Hx as [_ Hx], Hy as [Hy _]. rewrite (Hy Hty). destruct Hx as [->|[-> ->]]; [by destruct (chosen_curves c)|].
    apply shares_in_order; [done|naive_solver].
  - intros t Ht. rewrite chosen_has. rewrite bool_decide_true; [done|]. set_solver.
  - intros t Ht. rewrite chosen_has. rewrite !elem_of_cons, elem_of_nil in Ht. clear -Ht. destruct Ht as [->|[->|[]]]; solve_choice.
  - done.
Qed.

(** A key share for X25519MLKEM768, which is not among the supported groups. *)
Definition unsupported_share (s : spec) : Prop :=
  exists x y, x ∈ s.(ClientHelloSpec.Extensions) /\ y ∈ s.(ClientHelloSpec.Extensions) /\ wire_type y = Some extensionSupportedCurves /\
    X25519MLKEM768 ∈ ext_shares x /\ X25519MLKEM768 ∉ ext_groups y.

Lemma unsupported_chosen sn np min c : c.(c_mlkem) = false -> X25519MLKEM768 ∈ c.(c_shares) ->
  exists x y, x ∈ chosen sn np min VersionTLS13 c /\ y ∈ chosen sn np min VersionTLS13 c /\ wire_type y = Some extensionSupportedCurves /\
    X25519MLKEM768 ∈ ext_shares x /\ X25519MLKEM768 ∉ ext_groups y.
Proof.
  intros Hm Hs. exists (KeyShare (KeyShareExtension.Mk (map (fun g => KeyShare.Mk g []) c.(c_shares)))), (SupportedCurves (SupportedCurvesExtension.Mk (chosen_curves c))).
  split_and!; [|by do 4 right; left|done| |].
  - unfold chosen. rewrite !elem_of_app. do 7 right. by left.
  - cbn. rewrite map_map. by rewrite map_id.
  - cbn. unfold chosen_curves. rewrite Hm. destruct (c_x25519 c), (c_p521 c); apply (bool_decide_unpack _); vm_compute; exact Logic.I.
Qed.

(** What every randomized specification has. *)
Record random_ok (s : spec) : Prop := {
  ro_suites : suites_ok s.(ClientHelloSpec.TLSVersMin) s.(ClientHelloSpec.TLSVersMax) s.(ClientHelloSpec.CipherSuites);
  ro_types : NoDup (types s.(ClientHelloSpec.Extensions));
  ro_base : forall t, t ∈ [extensionServerName; extensionSessionTicket; extensionSignatureAlgorithms; extensionSupportedPoints; extensionSupportedCurves] ->
    has s.(ClientHelloSpec.Extensions) t = true;
  ro_tls13 : forall t, t ∈ [extensionKeyShare; extensionPSKModes; extensionSupportedVersions] ->
    has s.(ClientHelloSpec.Extensions) t = (s.(ClientHelloSpec.TLSVersMax) =? VersionTLS13);
  ro_offers : offers13 s.(ClientHelloSpec.Extensions) = (s.(ClientHelloSpec.TLSVersMax) =? VersionTLS13);
  ro_wf : spec_wf (with_compression s) \/ s.(ClientHelloSpec.TLSVersMax) = VersionTLS13 /\ unsupported_share s;
  ro_alps : has s.(ClientHelloSpec.Extensions) utlsExtensionApplicationSettings = true ->
    has s.(ClientHelloSpec.Extensions) extensionALPN = true /\ s.(ClientHelloSpec.TLSVersMax) = VersionTLS13;
  ro_padding : s.(ClientHelloSpec.TLSVersMax) = VersionTLS13 -> has s.(ClientHelloSpec.Extensions) utlsExtensionPadding = true;
  ro_algs : exists algs, SignatureAlgorithms (SignatureAlgorithmsExtension.Mk algs) ∈ s.(ClientHelloSpec.Extensions) /\ NoDup algs /\
    (forall a, a ∈ algs -> a ∈ all_sig_algs) /\ (s.(ClientHelloSpec.TLSVersMax) = VersionTLS13 -> PSSWithSHA256 ∈ algs)
}.

Lemma has_perm (l k : list (Ext X)) t : l ≡ₚ k -> has l t = has k t.
Proof. intros H. unfold has. apply bool_decide_ext. unfold types. by rewrite H. Qed.
Lemma chosen_alpn sn np min max c : has (chosen sn np min max c) extensionALPN = c.(c_alpn).
Proof. rewrite chosen_has. solve_choice. Qed.
Lemma chosen_padding sn np min max c : has (chosen sn np min max c) utlsExtensionPadding = c.(c_pad).
Proof. rewrite chosen_has. solve_choice. Qed.
Lemma chosen_alps sn np min max c : has (chosen sn np min max c) utlsExtensionApplicationSettings = (max =? VersionTLS13) && c.(c_alps).
Proof. rewrite chosen_has. solve_choice. Qed.

Lemma chosen_tls13 sn np min max c t : t ∈ [extensionKeyShare; extensionPSKModes; extensionSupportedVersions] ->
  has (chosen sn np min max c) t = (max =? VersionTLS13).
Proof. intros Ht. rewrite chosen_has. rewrite !elem_of_cons, elem_of_nil in Ht. clear -Ht. destruct Ht as [->|[->|[->|[]]]]; solve_choice. Qed.
Lemma all_sig_algs_nodup : NoDup all_sig_algs.
Proof. apply (bool_decide_unpack _). vm_compute. exact Logic.I. Qed.

Lemma randomized_ok alpn sn np s : randomized alpn sn np s -> random_ok s /\ alpn (has s.(ClientHelloSpec.Extensions) extensionALPN).
Proof.
  intros [Hs (c & Hc & Ha & Hp)]. rewrite (has_perm _ _ _ Hp), chosen_alpn. split; [|done].
  set (max := s.(ClientHelloSpec.TLSVersMax)) in *. set (min := s.(ClientHelloSpec.TLSVersMin)) in *.
  constructor; fold max min; try rewrite !(has_perm _ _ _ Hp); rewrite ?chosen_alps, ?chosen_alpn, ?chosen_padding.
  - done.
  - assert (Ht : types s.(ClientHelloSpec.Extensions) ≡ₚ types (chosen sn np min max c)) by (unfold types; by rewrite Hp). rewrite Ht. apply chosen_types.
  - intros t Ht. rewrite (has_perm _ _ _ Hp), chosen_has. rewrite (bool_decide_true _ Ht). done.
  - intros t Ht. rewrite (has_perm _ _ _ Hp). by apply chosen_tls13.
  - transitivity (offers13 (chosen sn np min max c)); [by apply existsb_perm|]. apply chosen_offers. by apply tls13_suites_ok in Hs as [_ ?].
  - destruct (decide (c.(c_mlkem) = true \/ X25519MLKEM768 ∉ c.(c_shares) \/ max <> VersionTLS13)) as [Hm|Hm].
    + left. pose proof (chosen_wf sn np min max _ c Hs Hc Hm) as Hwf. apply (spec_wf_perm _ s.(ClientHelloSpec.Extensions)) in Hwf; [|done|].
      * unfold with_compression. destruct Hwf. by constructor.
      * intros i x Hi Hx. apply list_elem_of_lookup_2 in Hi. rewrite Hp in Hi. apply chosen_no_psk in Hi as [? _]. congruence.
    + right. apply Decidable.not_or in Hm as [Hm1 Hm2]. apply Decidable.not_or in Hm2 as [Hm2 Hm3].
      apply not_true_is_false in Hm1. apply dec_stable in Hm2, Hm3. split; [done|]. unfold unsupported_share. setoid_rewrite Hp. rewrite Hm3. by apply unsupported_chosen.
  - intros [Hm H]%andb_true_iff. split; [by eapply co_alps|by apply Z.eqb_eq].
  - intros Hm. eapply co_pad; [done|]. by apply Z.eqb_eq.
  - destruct (co_algs _ _ Hc) as (l & Hsub & Hl & Hin). exists c.(c_algs). split; [rewrite Hp; by do 2 right; left|]. split; [|split].
    + rewrite Hl. eapply sublist_NoDup; [apply all_sig_algs_nodup|done].
    + intros x Hx. rewrite Hl in Hx. by eapply elem_of_sublist.
    + intros Hm. rewrite Hl. apply Hin. by apply Z.eqb_eq.
Qed.

Lemma choose_alpn ptr a r sn np alpn (m : Rand bool) w r' : newPRNGWithSaltedSeed (seed_at ptr a) "ALPS" = inr r' -> returns m alpn ->
  exists s, (random_spec w (seed_at ptr a) m sn np r).2 = Ret (inr s) /\ random_ok s /\ alpn (has s.(ClientHelloSpec.Extensions) extensionALPN).
Proof.
  intros Hr Hm. destruct (returns_spec w (seed_at ptr a) m alpn sn np r' Hr Hm r) as (s & E & Hs). exists s. split; [done|].
  by eapply randomized_ok.
Qed.

Ltac finish_random Hr E :=
  eexists _, _; split; [rewrite E; reflexivity|]; split_and!;
  [done|first [done|intros H; vm_compute in H; discriminate]..|]; cbn; rewrite Hr; exact (f_equal (pair _) E).

End Facts.

(** ** A concrete generator *)

(** Every byte is 255 but for those of the reads numbered in [zeros], and no
    shuffle moves anything. *)
Definition toy_random (zeros : list nat) : Random := {|
  shake := nat;
  NewShake _ := inr 0%nat;
  ShakeRead n k := (S k, replicate n (if bool_decide (k ∈ zeros) then x00 else xff));
  HkdfSeed seed _ := inr seed;
  RandIntn _ k := (k, 0);
  RandInt63n _ k := (k, 0);
  RandPerm n k := (k, seq 0 n);
  RandShuffle _ k := (k, fun i => i)
|}.
#[export] Instance toy_random_ok zeros : RandomOk (toy_random zeros).
Proof.
  constructor; cbn; [intros; apply length_replicate|lia|lia|done|intros ? ? i; lia].
Qed.

Definition toy_pointers : pointers := MkPointers (fun _ => []) (fun _ => DefaultWeights) 0 (inr 0%nat).


(** With the default weights there is a stream that gives a key share without its
    group. *)
Lemma default_weights_unsupported_share : exists id s,
  generateRandomizedSpec (R := toy_random [27%nat]) (X := plain_x509) toy_pointers HelloRandomized (str "example.com") [] = (id, Ret (inr s)) /\
  concat (map ext_groups s.(ClientHelloSpec.Extensions)) = [X25519; CurveP256; CurveP384; CurveP521] /\
  concat (map ext_shares s.(ClientHelloSpec.Extensions)) = [X25519MLKEM768; X25519; CurveP256].
Proof. eexists _, _. split; [vm_compute; reflexivity|]. split; reflexivity. Qed.

(** A coin of weight 1 can fall on the other side. *)
Lemma sure_coin_false : (FlipWeightedCoin (R := toy_random [0%nat]) (float_of 1) 0%nat).2 = false.
Proof. vm_compute. reflexivity. Qed.

(** ** The roller *)

Section RollerFacts.
Context {R : Random} {Rok : RandomOk R}.
Context {W conn uconn : Type} (DialTimeout : Z -> W -> W * res conn)
  (handshake : conn -> ClientHelloID.t -> bytes -> Z -> W -> W * (uconn * option gerror)) (id_of : uconn -> ClientHelloID.t).
Notation dial_loop := (Roller.dial_loop DialTimeout handshake id_of).
Notation Dial := (Roller.Dial DialTimeout handshake id_of).

Lemma working_first_head working ids : head (Roller.working_first working ids) = Some working.
Proof. unfold Roller.working_first. destruct (list_find _ ids) as [[i ?]|]; [|done]. destruct ids as [|first ids]; [done|]. by destruct i. Qed.
Lemma working_first_found working ids : working ∈ ids -> Roller.working_first working ids ≡ₚ ids.
Proof.
  intros Hin. unfold Roller.working_first. destruct (list_find (fun ID => ID = working) ids) as [[i x]|] eqn:E.
  - apply list_find_Some in E as (Hi & -> & _). destruct ids as [|first ids]; [done|]. destruct i as [|i]; [injection Hi as ->; done|].
    change (working :: <[i := first]> ids ≡ₚ first :: ids). change (ids !! i = Some working) in Hi.
    rewrite <- (take_drop_middle ids i working Hi) at 2. rewrite insert_take_drop by (by eapply lookup_lt_Some). 
    rewrite <- !Permutation_middle. apply Permutation_swap.
  - apply list_find_None in E. rewrite Forall_forall in E. by apply E in Hin.
Qed.
Lemma working_first_added working ids : working ∉ ids -> Roller.working_first working ids = working :: ids.
Proof.
  intros Hn. unfold Roller.working_first. destruct (list_find _ ids) as [[i x]|] eqn:E; [|done].
  apply list_find_Some in E as (Hi & -> & _). by apply list_elem_of_lookup_2 in Hi.
Qed.

(** Dialling worked for each of [ids] and the handshake did not; [err] is the last
    error. *)
Inductive failed (c : Roller.t) (serverName : bytes) : list ClientHelloID.t -> option gerror -> W -> option gerror -> W -> Prop :=
  | failed_none err w : failed c serverName [] err w err w
  | failed_more id ids err0 w tcp w1 client e w2 err w3 :
      DialTimeout c.(Roller.TcpDialTimeout) w = (w1, inr tcp) -> handshake tcp id serverName c.(Roller.TlsHandshakeTimeout) w1 = (w2, (client, Some e)) ->
      failed c serverName ids (Some e) w2 err w3 -> failed c serverName (id :: ids) err0 w err w3.

(** How trying [ids] ends. *)
Inductive dialled (c : Roller.t) (serverName : bytes) (ids : list ClientHelloID.t) (err0 : option gerror) (w w' : W)
    : Roller.t -> option uconn -> option gerror -> Prop :=
  | dialled_exhausted err : failed c serverName ids err0 w err w' -> dialled c serverName ids err0 w w' c None err
  | dialled_no_tcp tried id rest err w1 e : ids = tried ++ id :: rest -> failed c serverName tried err0 w err w1 ->
      DialTimeout c.(Roller.TcpDialTimeout) w1 = (w', inl e) -> dialled c serverName ids err0 w w' c None (Some e)
  | dialled_works tried id rest err w1 w2 tcp client : ids = tried ++ id :: rest -> failed c serverName tried err0 w err w1 ->
      DialTimeout c.(Roller.TcpDialTimeout) w1 = (w2, inr tcp) ->
      handshake tcp id serverName c.(Roller.TlsHandshakeTimeout) w2 = (w', (client, None)) ->
      dialled c serverName ids err0 w w' (Roller.set_Working (Some (id_of client)) c.(Roller.r) c) (Some client) None.

Lemma dialled_more c serverName id ids err0 w tcp w1 client e w2 w' c' k err :
  DialTimeout c.(Roller.TcpDialTimeout) w = (w1, inr tcp) -> handshake tcp id serverName c.(Roller.TlsHandshakeTimeout) w1 = (w2, (client, Some e)) ->
  dialled c serverName ids (Some e) w2 w' c' k err -> dialled c serverName (id :: ids) err0 w w' c' k err.
Proof.
  intros H1 H2 H. pose proof (failed_more c serverName id) as Hm. destruct H as [err H|tried id' rest err w3 e' -> H Hd|tried id' rest err w3 w4 tcp' client' -> H Hd Hh].
  - apply dialled_exhausted. eauto.
  - eapply (dialled_no_tcp _ _ _ _ _ _ (id :: tried)); eauto.
  - eapply (dialled_works _ _ _ _ _ _ (id :: tried)); eauto.
Qed.

Lemma dial_loop_spec c serverName ids : forall err0 w, exists w' c' k err,
  dial_loop c serverName err0 ids w = (w', (c', k, err)) /\ dialled c serverName ids err0 w w' c' k err.
Proof.
  induction ids as [|id ids IH]; intros err0 w; cbn [Roller.dial_loop].
  - eexists _, _, _, _. split; [done|]. apply dialled_exhausted. constructor.
  - destruct (DialTimeout _ w) as [w1 [e|tcp]] eqn:Ed.
    + eexists _, _, _, _. split; [done|]. eapply (dialled_no_tcp _ _ _ _ _ _ []); [done|constructor|done].
    + destruct (handshake tcp id serverName _ w1) as [w2 [client [e|]]] eqn:Eh.
      * destruct (IH (Some e) w2) as (w' & c' & k & err & -> & H). eexists _, _, _, _. split; [done|]. by eapply dialled_more.
      * eexists _, _, _, _. split; [done|]. eapply (dialled_works _ _ _ _ _ _ []); [done|constructor|done..].
Qed.

(** [Dial] tries every identifier of the roller once, in some order, the one
    that worked before first, which is added when it is not one of them: it stops at
    the first TCP error, which it returns, or at the first handshake that succeeds,
    whose client it returns and whose identifier it keeps; otherwise it returns the
    last error and keeps what it had. *)
Theorem roller_dials c serverName w : exists ids r' w' c' k err,
  (c.(Roller.WorkingHelloID) = None -> ids ≡ₚ c.(Roller.HelloIDs)) /\
  (forall working, c.(Roller.WorkingHelloID) = Some working -> head ids = Some working /\
    ids ≡ₚ (if bool_decide (working ∈ c.(Roller.HelloIDs)) then c.(Roller.HelloIDs) else working :: c.(Roller.HelloIDs))) /\
  Dial c serverName w = (w', Ret (c', k, err)) /\
  dialled (Roller.set_Working c.(Roller.WorkingHelloID) r' c) serverName ids None w w' c' k err.
Proof.
  unfold Roller.Dial, Roller.dial_order. pose proof (returns_shuffle c.(Roller.HelloIDs) c.(Roller.r)) as (l & E & Hp).
  destruct (shuffle c.(Roller.HelloIDs) c.(Roller.r)) as [r' o]. cbn in E. subst o. cbn [obind].
  set (ids := match c.(Roller.WorkingHelloID) with None => l | Some working => Roller.working_first working l end).
  destruct (dial_loop_spec (Roller.set_Working c.(Roller.WorkingHelloID) r' c) serverName ids None w) as (w' & c' & k & err & Hd & H).
  rewrite Hd. exists ids, r', w', c', k, err. unfold ids. split_and!; [by intros ->| |done|done].
  intros working ->. split; [apply working_first_head|]. case_bool_decide as Hin.
  - rewrite <- Hp. apply working_first_found. by rewrite Hp.
  - rewrite working_first_added by (by rewrite Hp). by rewrite Hp.
Qed.
End RollerFacts.

(** Handshakes that succeed only as Firefox. *)
Definition only_firefox (tcp : unit) (id : ClientHelloID.t) (serverName : bytes) (timeout : Z) (w : nat) : nat * (ClientHelloID.t * option gerror) :=
  (w, (id, if bool_decide (id = HelloFirefox_Auto) then None else Some EOF)).

Lemma roller_dials_witness : exists c, Roller.NewRoller (R := toy_random []) (inr []) = inr c /\
  exists ids r' w' c' k err, ids ≡ₚ Roller.HelloIDs c /\
    Roller.Dial (fun _ w => (S w, inr tt)) only_firefox (fun id => id) c (str "example.com") 0%nat = (w', Ret (c', k, err)) /\
    dialled (R := toy_random []) (fun _ w => (S w, inr tt)) only_firefox (fun id => id) (Roller.set_Working None r' c) (str "example.com") ids None 0%nat w' c' k err.
Proof.
  eexists. split; [reflexivity|].
  destruct (roller_dials (R := toy_random []) (Rok := toy_random_ok []) (fun _ w => (S w, inr tt)) only_firefox (fun id => id)
    (Roller.Mk (R := toy_random []) [HelloChrome_Auto; HelloFirefox_Auto; HelloIOS_Auto; HelloRandomized] None 7000000000 11000000000 0%nat) (str "example.com") 0%nat)
    as (ids & r' & w' & c' & k & err & H1 & _ & H2 & H3).
  exists ids, r', w', c', k, err. split; [by apply H1|]. split; [exact H2|exact H3].
Defined.
