(* ===== verification/Apply.v ===== *)
(** * Applying the configuration and marshalling the hello

    Models the functions of u_conn.go that write the extensions into the hello and
    marshal it: [ApplyConfig] with the [writeToUConn] of every extension,
    [MarshalClientHello], and what it does for Encrypted ClientHello: the inner
    hello is made from the outer one, encoded, sealed and put into the outer hello,
    whose pre-shared key becomes a decoy; [echTranscriptMsg] is from
    u_handshake_client.go.

    Slices that the pre_shared_key extension shares with the hello are changed in
    both. *)

From S2P Require Import Prelude Cryptobyte Common Config Negotiation Codec Buffer KeySchedule Names Quic Messages Ticket Caches ClientHello Public Extensions PreSharedKey ECH Handshake GreaseECH Marshal Shuffle Parrots Session Preset.

#[local] Existing Instance M_ret.
#[local] Existing Instance M_bind.

Section Client.
Context {X : X509} {V : X509Verify X} {C : Cryptobyte} {K : Crypto} {I : ClientSessionCache (session.ptr X)} {Ks : Keys}.

(** ** ApplyConfig and marshalling *)

(** The spare capacity of a [bytes.Buffer]; see Marshal. *)
Context (spare : bytes -> bytes).

Definition on_uc (f : UConn.t -> UConn.t) (c : conn) : conn := set_uc (f c.(uc)) c.

(** The objects of the list are marshalled and stored back; no object is listed
    twice. *)
Definition store_all (ls : list nat) (xs : list (Ext X)) (st : gmap nat (Ext X)) : gmap nat (Ext X) :=
  fold_left (fun st p => <[p.1 := p.2]> st) (zip ls xs) st.

Definition marshalNoECH : M (option gerror) := fun c =>
  match mapM (fun l => c.(store) !! l) c.(Exts) with
  | None => Panic
  | Some xs =>
      run (xs, h, err) := MarshalClientHelloNoECH spare (hello c) xs in
      Ret (set_store (store_all c.(Exts) xs c.(store)) (set_hello (fun _ => h) c), err)
  end.

(** [ext.writeToUConn(uconn)] for the object at [l].  The types that are not
    listed do nothing. *)
Definition writeToUConn (l : nat) : M (option gerror) :=
  x ← object l;
  match x with
  | SNI e => modify (on_uc (SNIExtension.writeToUConn e)) ;; ret None
  | StatusRequest e => modify (on_uc (StatusRequestExtension.writeToUConn e)) ;; ret None
  | SupportedCurves e => modify (on_uc (SupportedCurvesExtension.writeToUConn e)) ;; ret None
  | SupportedPoints e => modify (on_uc (SupportedPointsExtension.writeToUConn e)) ;; ret None
  | SignatureAlgorithms e => modify (on_uc (SignatureAlgorithmsExtension.writeToUConn e)) ;; ret None
  | StatusRequestV2 e => modify (on_uc (StatusRequestV2Extension.writeToUConn e)) ;; ret None
  | SignatureAlgorithmsCert e => modify (on_uc (SignatureAlgorithmsCertExtension.writeToUConn e)) ;; ret None
  | ALPN e => modify (on_uc (ALPNExtension.writeToUConn e)) ;; ret None
  | SCT e => modify (on_uc (SCTExtension.writeToUConn e)) ;; ret None
  | ExtendedMasterSecret e => modify (on_uc (ExtendedMasterSecretExtension.writeToUConn e)) ;; ret None
  | UtlsCompressCert e => modify (on_uc (UtlsCompressCertExtension.writeToUConn e)) ;; ret None
  | KeyShare e => modify (on_uc (KeyShareExtension.writeToUConn e)) ;; ret None
  | PSKKeyExchangeModes e => modify (on_uc (PSKKeyExchangeModesExtension.writeToUConn e)) ;; ret None
  | SupportedVersions e => modify (on_uc (SupportedVersionsExtension.writeToUConn e)) ;; ret None
  | NPN e => modify (on_uc (NPNExtension.writeToUConn e)) ;; ret None
  | FakeEarlyData e => modify (on_uc (FakeEarlyDataExtension.writeToUConn e)) ;; ret None
  | RenegotiationInfo e =>
      c ← get uc;
      let (e, c) := RenegotiationInfoExtension.writeToUConn e c in
      modify (set_uc c) ;; update l (RenegotiationInfo e) ;; ret None
  | TrustAnchors e =>
      c ← get uc;
      let (e, c) := TrustAnchorsExtension.writeToUConn e c in
      modify (set_uc c) ;; update l (TrustAnchors e) ;; ret None
  | SessionTicket e => modify (on_uc (SessionTicketExtension.writeToUConn e)) ;; ret None
  | UtlsPreSharedKey e => modify (on_uc (UtlsPreSharedKeyExtension.writeToUConn e)) ;; ret None
  | FakePreSharedKey e =>
      ca ← get sessionCache;
      match ca with
      | None => ret None
      | Some ca =>
          key ← get clientSessionCacheKey;
          let '(r, ca) := Get key ca in
          modify (set_sessionCache (Some ca)) ;;
          let found := match r with (Some _, true) => true | _ => false end in
          modify (on_uc (FakePreSharedKeyExtension.writeToUConn found e)) ;; ret None
      end
  | GREASEEncryptedClientHello _ => marshalNoECH
  | _ => ret None
  end.

Fixpoint apply_exts (ls : list nat) : M (option gerror) :=
  match ls with
  | [] => ret None
  | l :: ls =>
      err ← writeToUConn l;
      match err with Some err => ret (Some err) | None => apply_exts ls end
  end.

Definition ApplyConfig : M (option gerror) := ls ← get Exts; apply_exts ls.

(** ** Encrypted ClientHello *)

(** The environment variable UTLS_ECH_PSK_FALLBACK is set; the parameters of
    [makeClientHello]. *)
Context (useFallbackMode : bool) (hardware : bool) (supported : list cipherSuite.t).

(** The type of the extension as [Read] writes it into 2000 zero bytes. *)
Definition read_type (l : nat) : M Z :=
  x ← object l;
  r ← lift (ext_Read x (replicate 2000 x00));
  update l r.1 ;;
  lift (get16 r.2.1 0).
Fixpoint types_loop (ls : list nat) : M (list Z) :=
  match ls with
  | [] => ret []
  | l :: ls =>
      extension ← read_type l;
      outerExts ← types_loop ls;
      ret (if extension =? extensionSupportedVersions then outerExts else extension :: outerExts)
  end.
Definition extensionsList : M (list Z) := ls ← get Exts; types_loop ls.

(** [slices.IndexFunc] for an extension of the interface
    [EncryptedClientHelloExtension]. *)
Definition is_ECH (x : Ext X) : bool := match x with GREASEEncryptedClientHello _ => true | _ => false end.
Fixpoint ech_index (ls : list nat) (i : nat) : M (option nat) :=
  match ls with
  | [] => ret None
  | l :: ls => x ← object l; if is_ECH x then ret (Some i) else ech_index ls (S i)
  end.

(** [uconn.Extensions[i] = ...] *)
Definition set_ext (i l : nat) : M unit := modify (fun c => set_Exts (<[i := l]> c.(Exts)) c).
Definition put_ech (i : nat) (outerECHExt : bytes) : M unit :=
  l ← alloc (Generic (GenericExtension.Mk extensionEncryptedClientHello outerECHExt)); set_ext i l.

(** A handshake header before the rest of a hello. *)
Definition with_header (serializedOuter : bytes) : bytes :=
  [u8 typeClientHello] ++ be 3 (len serializedOuter) ++ serializedOuter.

(** The length of the binders at the end of a hello. *)
Definition binders_len (binders : list bytes) : Z := fold_left (fun n b => n + (1 + len b)) binders 2.

(** The binder of the inner hello is computed over the expanded hello, as the server
    does; the context, the encoded inner hello and the changed inner hello. *)
Definition fix_binder (serializedOuter : bytes) (outerExts : list Z) (encodedInner : bytes) (inner : clientHelloMsg.t) (ech : echContext.t)
    : M (echContext.t * bytes) :=
  suite ← get pskCipherSuite;
  key ← get pskBinderKey;
  match suite with
  | Some suite =>
      if negb ((0 <? len inner.(clientHelloMsg.pskIdentities)) && (0 <? len key)) then ret (ech, encodedInner) else
      match clientHelloMsg.unmarshal (with_header serializedOuter) with
      | None => ret (ech, encodedInner)
      | Some outerForDecode =>
          match decodeInnerClientHelloWithRaw outerForDecode encodedInner with
          | inl _ => ret (ech, encodedInner)
          | inr (decodedInner, reconBytes) =>
              match decodedInner.(clientHelloMsg.pskBinders) with
              | [] => ret (ech, encodedInner)
              | currentBinder :: _ =>
                  helloBytes ← lift (upto reconBytes (len reconBytes - binders_len decodedInner.(clientHelloMsg.pskBinders)));
                  correctBinder ← lift (finishedHash suite key helloBytes);
                  if bool_decide (currentBinder = correctBinder) then ret (ech, encodedInner) else
                  match inner.(clientHelloMsg.pskBinders) with
                  | [] => panic
                  | _ :: rest =>
                      let inner := clientHelloMsg.set_original None (clientHelloMsg.set_pskBinders (correctBinder :: rest) inner) in
                      let ech := echContext.set_innerHello (Some inner) ech in
                      r ← lift (encodeInnerClientHelloReorderOuterExts inner
                                  ech.(echContext.ech).(echClientContext.config).(echConfig.MaxNameLength) (Some outerExts));
                      match r with
                      | inl _ => ret (ech, encodedInner)
                      | inr encodedInner =>
                          let ech := echContext.set_encodedInnerHello encodedInner ech in
                          ret (match decodeInnerClientHelloWithRaw outerForDecode encodedInner with
                               | inl _ => ech
                               | inr (_, fixedReconBytes) =>
                                   echContext.set_preSealExpandedInner fixedReconBytes (echContext.set_expandedInnerHello fixedReconBytes ech)
                               end, encodedInner)
                      end
                  end
              end
          end
      end
  | None => ret (ech, encodedInner)
  end.

(** What the server computes from the marshalled outer hello, if it can. *)
Definition expand_inner (raw encodedInner : bytes) (ech : echContext.t) : echContext.t :=
  match clientHelloMsg.unmarshal raw with
  | None => ech
  | Some outerHello =>
      match decodeInnerClientHello outerHello encodedInner with
      | inl _ => ech
      | inr decodedInner =>
          match clientHelloMsg.marshal decodedInner with
          | inl _ => ech
          | inr decodedBytes => echContext.set_expandedInnerHello decodedBytes ech
          end
      end
  end.

Definition raw_hello (c : conn) : bytes := default [] (hello c).(PubClientHelloMsg.Raw).

(** The marshalled outer hello without its header. *)
Definition serialized_outer : M bytes := raw ← get raw_hello; lift (from raw 4).

Definition errNoECHExtension : gerror := ErrorNew "extension satisfying EncryptedClientHelloExtension not present".

(** An error leaves the extension that was put in place of the one of the user. *)
Definition computeAndUpdateOuterECHExtensionWithOuterExts (ech : echContext.t) (useKey : bool) (outerExts : list Z)
    (pskExt : option (UtlsPreSharedKeyExtension.t X)) : M (echContext.t * option gerror) :=
  let cfg := ech.(echContext.ech).(echClientContext.config) in
  let outer_ext := generateOuterECHExt cfg.(echConfig.ConfigID) ech.(echContext.ech).(echClientContext.kdfID) ech.(echContext.ech).(echClientContext.aeadID)
                     (if useKey then ech.(echContext.ech).(echClientContext.encapsulatedKey) else []) in
  let outerExts := if negb (non_nil pskExt) then List.filter (fun t => negb (t =? extensionEarlyData)) outerExts else outerExts in
  inner ← deref ech.(echContext.innerHello);
  encodedInner ← lift (encodeInnerClientHelloReorderOuterExts inner cfg.(echConfig.MaxNameLength) (Some outerExts));
  match encodedInner with inl err => ret (ech, Some err) | inr encodedInner =>
  let ech := echContext.set_encodedInnerHello encodedInner ech in
  zeros ← lift (make (len encodedInner + 16));
  match outer_ext zeros with inl err => ret (ech, Some err) | inr outerECHExt =>
  ls ← get Exts;
  i ← ech_index ls 0;
  match i with None => ret (ech, Some errNoECHExtension) | Some i =>
  oldExt ← deref (ls !! i);
  put_ech i outerECHExt ;;
  err ← marshalNoECH;
  match err with Some err => ret (ech, Some err) | None =>
  serializedOuter ← serialized_outer;
  let ech := match pskExt with
             | Some p =>
                 if non_nil p.(UtlsPreSharedKeyExtension.cipherSuite) && (0 <? len p.(UtlsPreSharedKeyExtension.BinderKey)) && useFallbackMode then
                   echContext.set_pskInOuterOnly true (echContext.set_expandedInnerHello (with_header serializedOuter) ech)
                 else ech
             | None => ech
             end in
  r ← fix_binder serializedOuter outerExts encodedInner inner ech;
  let (ech, encodedInner) := (r : echContext.t * bytes) in
  let (sender, encryptedInner) := Seal ech.(echContext.hpkeContext) serializedOuter encodedInner in
  let ech := echContext.set_hpkeContext sender ech in
  match encryptedInner with inl err => ret (ech, Some err) | inr encryptedInner =>
  match outer_ext encryptedInner with inl err => ret (ech, Some err) | inr outerECHExt =>
  put_ech i outerECHExt ;;
  err ← marshalNoECH;
  match err with Some err => ret (ech, Some err) | None =>
  raw ← get raw_hello;
  set_ext i oldExt ;;
  ret (expand_inner raw encodedInner ech, None)
  end end end end end end end.

Definition computeAndUpdateOuterECHExtension (ech : echContext.t) (useKey : bool) : M (echContext.t * option gerror) :=
  outerExts ← extensionsList;
  computeAndUpdateOuterECHExtensionWithOuterExts ech useKey outerExts None.

(** ** MarshalClientHello *)

(** The inner hello has the fields of the outer one. *)
Definition copy_outer (outer : PubClientHelloMsg.t) (inner : clientHelloMsg.t) : clientHelloMsg.t :=
  clientHelloMsg.set_secureRenegotiation outer.(PubClientHelloMsg.SecureRenegotiation)
  (clientHelloMsg.set_secureRenegotiationSupported outer.(PubClientHelloMsg.SecureRenegotiationSupported)
  (clientHelloMsg.set_ticketSupported outer.(PubClientHelloMsg.TicketSupported)
  (clientHelloMsg.set_earlyData outer.(PubClientHelloMsg.EarlyData)
  (clientHelloMsg.set_alpnProtocols outer.(PubClientHelloMsg.AlpnProtocols)
  (clientHelloMsg.set_pskModes outer.(PubClientHelloMsg.PskModes)
  (clientHelloMsg.set_supportedCurves outer.(PubClientHelloMsg.SupportedCurves)
  (clientHelloMsg.set_sessionId outer.(PubClientHelloMsg.SessionId)
  (clientHelloMsg.set_supportedSignatureAlgorithmsCert outer.(PubClientHelloMsg.SupportedSignatureAlgorithmsCert)
  (clientHelloMsg.set_supportedSignatureAlgorithms outer.(PubClientHelloMsg.SupportedSignatureAlgorithms)
  (clientHelloMsg.set_keyShares (KeyShares_ToPrivate outer.(PubClientHelloMsg.KeyShares))
  (clientHelloMsg.set_cipherSuites outer.(PubClientHelloMsg.CipherSuites) inner))))))))))).

(** The first extension object that is a pre-shared key of uTLS, that is the QUIC
    transport parameters, and that is a server name. *)
Fixpoint first_ext {A} (f : Ext X -> option A) (ls : list nat) : M (option (nat * A)) :=
  match ls with
  | [] => ret None
  | l :: ls => x ← object l; match f x with Some a => ret (Some (l, a)) | None => first_ext f ls end
  end.
Definition as_psk (x : Ext X) : option (UtlsPreSharedKeyExtension.t X) := match x with UtlsPreSharedKey e => Some e | _ => None end.
Definition as_qtp (x : Ext X) : option QUICTransportParametersExtension.t := match x with QUICTransportParameters e => Some e | _ => None end.
Definition as_sni (x : Ext X) : option SNIExtension.t := match x with SNI e => Some e | _ => None end.

(** The transport parameters of the extension. *)
Definition inner_qtp (inner : clientHelloMsg.t) : M clientHelloMsg.t :=
  ls ← get Exts;
  q ← first_ext as_qtp ls;
  match q with
  | None => ret inner
  | Some (l, e) =>
      r ← lift (QUICTransportParametersExtension.Len e);
      let (e, extLen) := (r : QUICTransportParametersExtension.t * Z) in
      update l (QUICTransportParameters e) ;;
      if 4 <? extLen then
        buf ← lift (make extLen);
        r ← lift (QUICTransportParametersExtension.Read e buf);
        update l (QUICTransportParameters r.1) ;;
        params ← lift (from r.2.1 4);
        ret (clientHelloMsg.set_quicTransportParameters (Some params) inner)
      else ret inner
  end.

(** The pre-shared key of the extension in the inner hello, with its binder. *)
Definition inner_psk (e : UtlsPreSharedKeyExtension.t X) (inner : clientHelloMsg.t) : M (res clientHelloMsg.t) :=
  let inner := clientHelloMsg.set_pskBinders (map (fun b => replicate (length b) x00) e.(UtlsPreSharedKeyExtension.Binders))
    (clientHelloMsg.set_pskIdentities (PskIdentities_ToPrivate e.(UtlsPreSharedKeyExtension.Identities)) inner) in
  suite ← get pskCipherSuite;
  key ← get pskBinderKey;
  match suite with
  | Some suite =>
      if 0 <? len key then
        ok (lift (clientHelloMsg.marshalWithoutBinders inner)) (fun helloBytes =>
          pskBinder ← lift (finishedHash suite key helloBytes);
          match inner.(clientHelloMsg.pskBinders) with
          | [] => panic
          | _ :: rest => ret (inr (clientHelloMsg.set_pskBinders (pskBinder :: rest) inner))
          end)
      else ret (inr inner)
  | None => ret (inr inner)
  end.

(** Random bytes; a read that fails leaves the zeros that were allocated. *)
Definition random_bytes (n : Z) : M bytes :=
  r ← readFull n; ret (match r with inr b => b | inl _ => replicate (Z.to_nat n) x00 end).
Fixpoint grease_identities (ids : list PskIdentity.t) : M (list PskIdentity.t) :=
  match ids with
  | [] => ret []
  | id :: ids =>
      randomLabel ← random_bytes (len id.(PskIdentity.Label));
      randomAge ← random_bytes 4;
      ids ← grease_identities ids;
      ret (PskIdentity.Mk randomLabel (be_val randomAge) :: ids)
  end.
Fixpoint grease_binders (bs : list bytes) : M (list bytes) :=
  match bs with
  | [] => ret []
  | b :: bs => randomBinder ← random_bytes (len b); bs ← grease_binders bs; ret (randomBinder :: bs)
  end.

(** The extension at [l] gave the hello its slices. *)
Definition shares_psk (l : nat) (c : conn) : bool :=
  bool_decide (state c = PskExtAllSet) && bool_decide (c.(sc).(sessionController.pskExtension) = Some l).

(** The outer hello gets random identities and binders, in the slices that it shares
    with the extension while nobody has replaced them. *)
Definition grease_psk (l : nat) (e : UtlsPreSharedKeyExtension.t X) : M unit :=
  ids ← grease_identities e.(UtlsPreSharedKeyExtension.Identities);
  bs ← grease_binders e.(UtlsPreSharedKeyExtension.Binders);
  modify (fun c => if shares_psk l c && bool_decide ((hello c).(PubClientHelloMsg.PskIdentities) = e.(UtlsPreSharedKeyExtension.Identities))
                   then set_hello (PubClientHelloMsg.set_PskIdentities ids) c else c) ;;
  modify (fun c => if shares_psk l c && bool_decide ((hello c).(PubClientHelloMsg.PskBinders) = e.(UtlsPreSharedKeyExtension.Binders))
                   then set_hello (PubClientHelloMsg.set_PskBinders bs) c else c) ;;
  update l (UtlsPreSharedKey (UtlsPreSharedKeyExtension.Mk ids bs e.(UtlsPreSharedKeyExtension.BinderKey) e.(UtlsPreSharedKeyExtension.EarlySecret)
    e.(UtlsPreSharedKeyExtension.Session) e.(UtlsPreSharedKeyExtension.cipherSuite) e.(UtlsPreSharedKeyExtension.cachedLength)
    e.(UtlsPreSharedKeyExtension.OmitEmptyPsk) true)).

(** The extension can resume a session. *)
Definition psk_ready (e : UtlsPreSharedKeyExtension.t X) : bool :=
  non_nil e.(UtlsPreSharedKeyExtension.cipherSuite) && (0 <? len e.(UtlsPreSharedKeyExtension.BinderKey)) &&
  (0 <? len e.(UtlsPreSharedKeyExtension.Identities)).

(** The inner hello, and the extensions it refers to when there is a session. *)
Definition prepare_psk (inner : clientHelloMsg.t) : M (res (clientHelloMsg.t * option (list Z))) :=
  ls ← get Exts;
  p ← first_ext as_psk ls;
  match p with
  | Some (l, e) =>
      if psk_ready e then
        ok (if negb useFallbackMode then ok (inner_psk e inner) (fun inner => grease_psk l e ;; ret (inr inner)) else ret (inr inner)) (fun inner =>
        outerExtsList ← extensionsList;
        ret (inr (inner, Some (List.filter (fun ext => negb (ext =? extensionEncryptedClientHello) && negb (negb useFallbackMode && (ext =? extensionPreSharedKey)))
                                 outerExtsList))))
      else ret (inr (inner, None))
  | None => ret (inr (inner, None))
  end.

Definition set_server_name (name : bytes) : M unit :=
  modify (on_uc (fun u => config_set (Config.set_ServerName name) u)).

(** The part of [MarshalClientHello] for Encrypted ClientHello. *)
Definition marshalECH : M (option gerror) :=
  m ← makeClientHello hardware supported;
  match m with
  | inl err => ret (Some err)
  | inr (inner, _, ech) =>
      outer ← get hello;
      ls ← get Exts;
      inner ← inner_qtp (copy_outer outer inner);
      r ← prepare_psk inner;
      match r with
      | inl err => ret (Some err)
      | inr (inner, outerExtsList) =>
          ech ← deref ech;
          let ech := echContext.set_innerHello (Some inner) ech in
          originalServerName ← get (fun c => (config c).(Config.ServerName));
          let publicName := ech.(echContext.ech).(echClientContext.config).(echConfig.PublicName) in
          set_server_name publicName ;;
          sni ← first_ext as_sni ls;
          (match sni with Some (l, _) => update l (SNI (SNIExtension.Mk publicName)) | None => ret tt end) ;;
          p ← first_ext as_psk ls;
          r ← match outerExtsList with
              | Some outerExtsList => computeAndUpdateOuterECHExtensionWithOuterExts ech true outerExtsList (snd <$> p)
              | None => computeAndUpdateOuterECHExtension ech true
              end;
          set_server_name originalServerName ;;
          match r.2 with
          | Some err => ret (Some err)
          | None => modify (set_echCtx (Some r.1)) ;; ret None
          end
      end
  end.

Definition MarshalClientHello : M (option gerror) :=
  unless ApplyConfig (
    cfg ← get config;
    if 0 <? len (default [] cfg.(Config.EncryptedClientHelloConfigList)) then marshalECH else marshalNoECH).

(** ** The transcript of the inner hello *)

(** The context with the expanded inner hello in its transcript. *)
Definition echTranscriptMsg (outer : clientHelloMsg.t) (ech : echContext.t) : M (res echContext.t) :=
  ok (if (0 <? len ech.(echContext.expandedInnerHello)) && (0 <? len ech.(echContext.encodedInnerHello)) then
        ret (inr ech.(echContext.encodedInnerHello))
      else
        inner ← deref ech.(echContext.innerHello);
        outerExts ← extensionsList;
        lift (encodeInnerClientHelloReorderOuterExts inner
          ech.(echContext.ech).(echClientContext.config).(echConfig.MaxNameLength) (Some outerExts))) (fun encodedInner =>
  ok (ret (decodeInnerClientHello outer encodedInner)) (fun decodedInner =>
  ok (lift (transcriptMsg (ClientHello decodedInner))) (fun b =>
  ret (inr (echContext.set_innerTranscript (ech.(echContext.innerTranscript) ++ b) ech))))).

End Client.
