(* ===== verification/Binders.v ===== *)
(** * The binder of an encrypted inner hello

    With Encrypted ClientHello and a session, the client computes the binder of the
    inner hello over the bytes that it reconstructs from its own encoding
    ([computeAndUpdateOuterECHExtensionWithOuterExts] of u_conn.go, modelled by
    [fix_binder] of Apply).  Here: what the server reconstructs, block by block, and
    that the binder is the one the server computes when it checks it. *)

From S2P Require Import Prelude Cryptobyte Common Config Negotiation Codec Buffer KeySchedule Names Quic Messages Ticket Caches ClientHello Public Extensions PreSharedKey ECH Handshake GreaseECH Marshal Shuffle Parrots Session Preset Apply.

(** ** The blocks of a reconstructed hello *)

Section Expansion.
Context `{C : Cryptobyte} {Cok : CryptobyteOk C}.
Import clientHelloMsg.

(** The blocks that an ech_outer_extensions list refers to, from those that are left of
    the outer hello. *)
Fixpoint refs (fuel : nat) (s : bytes) (rest : list (Z * bytes)) : option (list (Z * bytes)) :=
  match s, fuel with
  | [], _ => Some []
  | _, O => None
  | _, S fuel =>
      match rd_uint 2 s with
      | None => None
      | Some (t, s) =>
          if t =? extensionEncryptedClientHello then None else
          match seek t rest with
          | Some ((e :: _) as rest) => cons e <$> refs fuel s rest
          | _ => None
          end
      end
  end.
(** The blocks of the reconstructed hello, from those of the encoded one. *)
Fixpoint expansion (L l : list (Z * bytes)) : option (list (Z * bytes)) :=
  match l with
  | [] => Some []
  | e :: l =>
      if e.1 =? extensionECHOuterExtensions then
        match rd_lp 1 e.2 with
        | None => None
        | Some (ids, _) => x ← refs (length ids) ids L; app x <$> expansion L l
        end
      else cons e <$> expansion L l
  end.

(** What a builder makes of blocks. *)
Definition written (l : list (Z * bytes)) : option bytes := oconcat (map (fun e => oext e.1 (Some e.2)) l).

Lemma emits_written e b : out ((AddUint16 e.1 ;> AddUint16LengthPrefixed (AddBytes e.2)) b) = oapp (out b) (oext e.1 (Some e.2)).
Proof.
  eassert (E : Emits (AddUint16 e.1 ;> AddUint16LengthPrefixed (AddBytes e.2)) _) by typeclasses eauto. apply E.
Qed.
Lemma written_blocks_app l1 l2 : written (l1 ++ l2) = oapp (written l1) (written l2).
Proof. unfold written. rewrite map_app. induction (map _ l1) as [|x l IH]; cbn [app oconcat]; [by rewrite oapp_nil_l|]. by rewrite IH, oapp_assoc. Qed.
Lemma written_Some l z : written l = Some z -> z = enc_exts l /\ Forall (fun e => len e.2 < 2 ^ 16) l.
Proof.
  revert z. induction l as [|e l IH]; intros z; cbn [written map oconcat]; [by intros [= <-]|].
  intros (p & q & (c & [= <-] & Hc & ->)%oext_Some & Hq & ->)%oapp_Some. destruct (IH q Hq) as [-> Hl]. split; [|by constructor].
  unfold enc_exts. cbn. rewrite app_nil_r. by destruct e.
Qed.
Lemma written_enc l : Forall (fun e => len e.2 < 2 ^ 16) l -> written l = Some (enc_exts l).
Proof.
  induction 1 as [|e l He Hl IH]; [done|]. cbn [written map oconcat]. fold (written l). rewrite IH. assert (oext e.1 (Some e.2) = Some (enc_exts [e])) as ->.
  { apply oext_Some. exists e.2. by destruct e. }
  unfold oapp, enc_exts. cbn. by rewrite app_nil_r.
Qed.

Lemma recon_outer_refs fuel s rest b :
  match recon_outer fuel s rest b with
  | (true, b') => exists x, refs fuel s rest = Some x /\ out b' = oapp (out b) (written x)
  | (false, b') => refs fuel s rest = None /\ out b' = None
  end.
Proof.
  revert s rest b. induction fuel as [|fuel IH]; intros s rest b; cbn [recon_outer]; rewrite Empty_spec; destruct s as [|x s].
  1, 3: exists []; split; [done|]; by rewrite oapp_nil_r.
  { by rewrite out_SetError. }
  rewrite ReadUint16_spec. cbn [refs]. destruct (rd_uint 2 (x :: s)) as [[t s']|]; [|by rewrite out_SetError].
  destruct (t =? _); [by rewrite out_SetError|]. destruct (seek t rest) as [[|[typ data] rest']|]; [by rewrite out_SetError| |by rewrite out_SetError].
  specialize (IH s' ((typ, data) :: rest') ((AddUint16 typ ;> AddUint16LengthPrefixed (AddBytes data)) b)).
  destruct (recon_outer fuel s' _ _) as [[] b'].
  - destruct IH as (y & -> & Ho). exists ((typ, data) :: y). split; [done|]. rewrite Ho, (emits_written (typ, data)). cbn [written map oconcat]. by rewrite oapp_assoc.
  - destruct IH as [-> Ho]. done.
Qed.

Lemma recon_exts_expansion L l fuel b : Forall wf_ext l -> (length l <= fuel)%nat ->
  out (recon_exts fuel L (enc_exts l) b) = oapp (out b) (x ← expansion L l; written x).
Proof.
  intros Hl. revert fuel b. induction Hl as [|e l He Hl IH]; intros fuel b Hf.
  - destruct fuel; cbn; rewrite Empty_spec; by rewrite oapp_nil_r.
  - destruct fuel as [|fuel]; [simpl in Hf; lia|]. rewrite enc_exts_cons. cbn [recon_exts length] in *. destruct e as [id d]. pose proof (len_enc_ext (id, d)).
    rewrite Empty_len, len_app. pose proof (len_nonneg d). pose proof (len_nonneg (enc_exts l)). cbn [fst snd] in *. zbool. unfold enc_ext at 1. cbn [fst snd].
    destruct He as [Hid Hd]. cbn [fst snd] in *. parse. cbn [expansion fst snd]. destruct (id =? _).
    + destruct (rd_lp 1 d) as [[ids r]|]; [|rewrite out_SetError; by destruct (out b)].
      pose proof (recon_outer_refs (length ids) ids L b) as Hr. destruct (recon_outer _ _ _ _) as [[] b'].
      * destruct Hr as (x & -> & Ho). rewrite IH, Ho by lia. cbn [mbind option_bind]. destruct (expansion L l) as [y|]; cbn.
        { by rewrite written_blocks_app, oapp_assoc. }
        { destruct (oapp (out b) (written x)), (out b); done. }
      * destruct Hr as [-> Ho]. rewrite Ho. cbn. by destruct (out b).
    + rewrite IH, (emits_written (id, d)) by lia. cbn [fst snd]. destruct (expansion L l) as [y|]; cbn.
      * by rewrite oapp_assoc.
      * destruct (oapp (out b) _), (out b); done.
Qed.

Lemma expansion_last L l e : e.1 <> extensionECHOuterExtensions -> expansion L (l ++ [e]) = (fun x => x ++ [e]) <$> expansion L l.
Proof.
  intros He. induction l as [|a l IH]; cbn [app expansion].
  - by destruct (Z.eqb_spec e.1 extensionECHOuterExtensions).
  - rewrite IH. destruct (a.1 =? _); [|by destruct (expansion L l)]. destruct (rd_lp 1 a.2) as [[ids r]|]; [|done].
    destruct (refs _ _ _); [|done]. destruct (expansion L l); [|done]. cbn. by rewrite app_assoc.
Qed.

Lemma seek_head t rest e l : seek t rest = Some (e :: l) -> e.1 = t.
Proof. induction rest as [|a rest IH]; cbn [seek]; [done|]. destruct (Z.eqb_spec a.1 t); [by intros [= <- _]|done]. Qed.
Lemma refs_u16 fuel s rest x : refs fuel s rest = Some x -> Forall (fun e => is_u16 e.1) x.
Proof.
  revert s rest x. induction fuel as [|fuel IH]; intros s rest x; destruct s as [|b s]; cbn [refs]; try (by intros [= <-]).
  destruct (rd_uint 2 (b :: s)) as [[t s']|] eqn:E; [|done]. apply rd_uint_eq in E as [_ Ht]. destruct (t =? _); [done|].
  destruct (seek t rest) as [[|e rest']|] eqn:Es; [done| |done]. apply seek_head in Es. intros H. apply fmap_Some in H as (y & Hy & ->).
  constructor; [by rewrite Es|by eapply IH].
Qed.
Lemma expansion_u16 L l x : Forall wf_ext l -> expansion L l = Some x -> Forall (fun e => is_u16 e.1) x.
Proof.
  intros Hl. revert x. induction Hl as [|e l [He _] Hl IH]; intros x; cbn [expansion]; [by intros [= <-]|]. destruct (e.1 =? _).
  - destruct (rd_lp 1 e.2) as [[ids r]|]; [|done]. destruct (refs _ _ _) as [y|] eqn:Er; [|done]. cbn. intros H. apply fmap_Some in H as (z & Hz & ->).
    apply Forall_app. split; [by eapply refs_u16|by apply IH].
  - intros H. apply fmap_Some in H as (z & Hz & ->). constructor; [done|by apply IH].
Qed.

(** Blocks that differ in nothing but the data of encrypted_client_hello. *)
Definition but_ech (e e' : Z * bytes) : Prop := e'.1 = e.1 /\ (e.1 <> extensionEncryptedClientHello -> e' = e).
Lemma seek_but_ech t L L' : Forall2 but_ech L L' ->
  match seek t L with
  | Some l => exists l', seek t L' = Some l' /\ Forall2 but_ech l l'
  | None => seek t L' = None
  end.
Proof.
  induction 1 as [|e e' L L' [H1 H2] HL IH]; cbn [seek]; [done|]. rewrite H1. destruct (e.1 =? t); [|exact IH].
  exists (e' :: L'). split; [done|]. by constructor.
Qed.
Lemma refs_but_ech fuel s L L' : Forall2 but_ech L L' -> refs fuel s L' = refs fuel s L.
Proof.
  revert s L L'. induction fuel as [|fuel IH]; intros s L L' HL; destruct s as [|b s]; cbn [refs]; try done.
  destruct (rd_uint 2 (b :: s)) as [[t s']|]; [|done]. destruct (Z.eqb_spec t extensionEncryptedClientHello) as [|Ht]; [done|].
  pose proof (seek_but_ech t L L' HL) as Hs. destruct (seek t L) as [l|] eqn:El; [|by rewrite Hs]. destruct Hs as (l' & -> & Hl).
  destruct Hl as [|e e' l l' [H1 H2] Hl]; [done|]. apply seek_head in El. rewrite H2 by congruence. by rewrite (IH s' (e :: l) (e :: l')) by (by constructor).
Qed.
Lemma expansion_but_ech L L' l : Forall2 but_ech L L' -> expansion L' l = expansion L l.
Proof.
  intros HL. induction l as [|e l IH]; cbn [expansion]; [done|]. rewrite IH. destruct (e.1 =? _); [|done]. destruct (rd_lp 1 e.2) as [[ids r]|]; [|done].
  by rewrite (refs_but_ech _ _ _ _ HL).
Qed.

(** An encoded inner hello, and the hello with a session identifier and other blocks. *)
Definition encoding (vr cs cm : bytes) (l : list (Z * bytes)) (n : nat) : bytes :=
  vr ++ be 1 0 ++ enc_lp 2 cs ++ enc_lp 1 cm ++ enc_lp 2 (enc_exts l) ++ replicate n x00.
Definition message (vr sid cs cm : bytes) (l : list (Z * bytes)) : bytes :=
  let body := vr ++ enc_lp 1 sid ++ enc_lp 2 cs ++ enc_lp 1 cm ++ enc_lp 2 (enc_exts l) in be 1 typeClientHello ++ be 3 (len body) ++ body.

Lemma reconstruct_blocks outer vr cs cm l n y : len vr = 34 -> len cs < 2 ^ 16 -> len cm < 2 ^ 8 -> len (enc_exts l) < 2 ^ 16 -> Forall wf_ext l ->
  reconstruct outer (encoding vr cs cm l n) = inr y <->
  exists L x, extractRawExtensions outer = inr L /\ expansion L l = Some x /\ Forall (fun e => len e.2 < 2 ^ 16) x /\ len (enc_exts x) < 2 ^ 16 /\
    len outer.(sessionId) < 2 ^ 8 /\ len (message vr outer.(sessionId) cs cm x) < 2 ^ 24 + 4 /\ y = message vr outer.(sessionId) cs cm x.
Proof.
  intros Hv Hcs Hcm Hl Hw. unfold reconstruct, encoding. autorewrite with cbspec. rewrite rd_bytes_app by (by rewrite Hv). unfold enc_lp. rewrite <- !app_assoc. parse.
  change (len [] =? 0) with true. cbn [negb]. parse. rewrite padding_zero. unfold res_bind. destruct (extractRawExtensions outer) as [e|L].
  { split; [done|]. intros (L & x & [=] & _). }
  assert (Er : Emits (AddUint16LengthPrefixed (recon_exts (length (enc_exts l)) L (enc_exts l))) (olp 2 (x ← expansion L l; written x))).
  { intros b. rewrite out_AddUint16LengthPrefixed, recon_exts_expansion, out_NewBuilder, oapp_nil_l by (done || apply length_enc_exts). done. }
  match goal with |- Bytes (?f NewBuilder) = _ <-> _ => eassert (E : Emits f _) by typeclasses eauto end. rewrite (Bytes_emits _ _ _ E). clear E Er.
  split.
  - intros H. apply oapp_Some in H as (p & q & [= <-] & H & ->). apply olp_Some in H as (c & H & Hc & ->).
    apply oapp_Some in H as (p1 & c1 & [= <-] & H & ->). apply oapp_Some in H as (p2 & c2 & Hs & H & ->). apply oapp_Some in H as (p3 & c3 & H3 & H & ->).
    apply oapp_Some in H as (p4 & c4 & H4 & H & ->). apply olp_Some in Hs as (? & [= <-] & Hs & ->). apply olp_Some in H3 as (? & [= <-] & _ & ->). apply olp_Some in H4 as (? & [= <-] & _ & ->).
    apply olp_Some in H as (z & Hz & Hzl & ->). destruct (expansion L l) as [x|] eqn:Ex; [|done]. cbn in Hz. apply written_Some in Hz as [-> Hx].
    exists L, x. split; [done|]. split; [done|]. split; [done|]. split; [exact Hzl|]. split; [exact Hs|]. unfold message, enc_lp. split; [|done].
    rewrite !len_app, !len_be in *. change (256 ^ Z.of_nat 3) with (2 ^ 24) in Hc. lia.
  - intros (L' & x & [= <-] & -> & Hx & Hxl & Hs & Hm & ->). cbn [mbind option_bind]. rewrite (written_enc x Hx).
    assert (Ho : forall k (z : bytes), len z < 256 ^ Z.of_nat k -> olp k (Some z) = Some (be k (len z) ++ z)) by (intros k z Hz; apply olp_Some; by exists z).
    rewrite (Ho 1%nat (sessionId outer)), (Ho 2%nat cs), (Ho 1%nat cm), (Ho 2%nat (enc_exts x)) by done. unfold oapp at 2 3 4 5. rewrite Ho; [done|].
    unfold message, enc_lp in Hm. rewrite !len_app, !len_be in *. change (256 ^ Z.of_nat 3) with (2 ^ 24). lia.
Qed.
End Expansion.

(** ** Reading a reconstructed hello *)

Section Reading.
Context `{C : Cryptobyte} {Cok : CryptobyteOk C}.
Import clientHelloMsg.

(** What [unmarshal] has read before the extensions, without the bytes of the hello. *)
Definition hello_start (vr sid cs cm : bytes) : option t :=
  '(reneg, suites) ← loop suites_body (false, []) cs;
  Some (Mk None (be_val (take 2 vr)) (drop 2 vr) sid suites cm [] false [] [] false [] [] [] reneg [] false [] false [] [] [] false [] [] [] None [] [] false).

Lemma unmarshal_start hdr vr sid cs cm s : len hdr = 4 -> len vr = 34 -> len sid < 2 ^ 8 -> len cs < 2 ^ 16 -> len cm < 2 ^ 8 ->
  let data := hdr ++ vr ++ enc_lp 1 sid ++ enc_lp 2 cs ++ enc_lp 1 cm ++ s in
  unmarshal data = m ← hello_start vr sid cs cm; optional_exts unmarshal_logged (set_original (Some data) m) s.
Proof.
  intros Hh Hv Hs Hcs Hcm data. unfold unmarshal, data. autorewrite with cbspec. rewrite rd_bytes_app by done. cbn [fmap option_fmap option_map snd].
  autorewrite with cbspec.
  assert (rd_uint 2 (vr ++ enc_lp 1 sid ++ enc_lp 2 cs ++ enc_lp 1 cm ++ s) = Some (be_val (take 2 vr), drop 2 vr ++ enc_lp 1 sid ++ enc_lp 2 cs ++ enc_lp 1 cm ++ s)) as ->.
  { unfold rd_uint. unfold len in Hv. replace (2 <=? length _)%nat with true by (symmetry; apply Nat.leb_le; rewrite length_app; lia).
    rewrite take_app_le, drop_app_le by lia. done. }
  autorewrite with cbspec. rewrite rd_bytes_app by (unfold len in *; rewrite length_drop; lia). unfold enc_lp. rewrite <- !app_assoc. parse. unfold hello_start.
  destruct (loop suites_body (false, []) cs) as [[reneg suites]|]; [|done]. cbn. parse. done.
Qed.

(** The extensions neither read nor change the bytes of the hello. *)
Lemma unmarshal_ext_original v m e d r : unmarshal_ext (set_original v m) e d r = set_original v <$> unmarshal_ext m e d r.
Proof.
  unfold unmarshal_ext, unmarshal_psk. destruct m; cbn [set_original serverName supportedCurves
    sessionTicket supportedSignatureAlgorithms supportedSignatureAlgorithmsCert alpnProtocols
    supportedVersions keyShares pskIdentities pskBinders].
  repeat (match goal with |- (if ?c then _ else _) = _ => destruct c; [repeat case_match; done|] end).
  done.
Qed.
Lemma run_exts_original v m l r : run_exts unmarshal_logged (set_original v m) l r = set_original v <$> run_exts unmarshal_logged m l r.
Proof.
  revert m. induction l as [|e l IH]; intros m; [done|]. cbn [run_exts]. unfold unmarshal_logged at 1 3.
  change (set_extensions (extensions (set_original v m) ++ [e.1]) (set_original v m)) with (set_original v (set_extensions (extensions m ++ [e.1]) m)).
  rewrite unmarshal_ext_original. destruct (unmarshal_ext _ e.1 e.2 _); cbn; auto.
Qed.

(** There is one way to read a sequence of blocks. *)
Lemma enc_exts_inj l l' : Forall wf_ext l -> Forall wf_ext l' -> enc_exts l = enc_exts l' -> l = l'.
Proof.
  pose (h := fun (st : list (Z * bytes)) e d (_ : bytes) => Some (st ++ [(e, d)])).
  assert (Hr : forall l st r, run_exts h st l r = Some (st ++ l)).
  { clear. induction l as [|[e d] l IH]; intros st r; cbn [run_exts]; [by rewrite app_nil_r|]. cbn. rewrite IH, <- app_assoc. done. }
  intros H H' E. pose proof (ext_loop_enc h [] l H) as E1. rewrite E, (ext_loop_enc h [] l' H'), !Hr in E1. by injection E1.
Qed.

Lemma len_message_header vr sid cs cm l : exists hdr, len hdr = 4 /\
  message vr sid cs cm l = hdr ++ vr ++ enc_lp 1 sid ++ enc_lp 2 cs ++ enc_lp 1 cm ++ enc_lp 2 (enc_exts l).
Proof.
  unfold message. set (body := vr ++ _). exists (be 1 typeClientHello ++ be 3 (len body)). split; [by autorewrite with cb|]. by rewrite <- app_assoc.
Qed.

Lemma unmarshal_message vr sid cs cm l m : len vr = 34 -> len sid < 2 ^ 8 -> len cs < 2 ^ 16 -> len cm < 2 ^ 8 ->
  Forall wf_ext l -> l <> [] -> len (enc_exts l) < 2 ^ 16 ->
  unmarshal (message vr sid cs cm l) = Some m <->
  NoDup (map fst l) /\ exists m0 m1, hello_start vr sid cs cm = Some m0 /\ run_exts unmarshal_ext m0 l [] = Some m1 /\
    m = set_original (Some (message vr sid cs cm l)) (set_extensions (map fst l) m1).
Proof.
  intros Hv Hs Hcs Hcm Hl Hne Hll. destruct (len_message_header vr sid cs cm l) as (hdr & Hh & E).
  assert (Hu : unmarshal (message vr sid cs cm l) = m ← hello_start vr sid cs cm;
    optional_exts unmarshal_logged (set_original (Some (message vr sid cs cm l)) m) (enc_lp 2 (enc_exts l))) by (rewrite E; by apply unmarshal_start).
  rewrite Hu. clear Hu E Hh hdr. set (data := message vr sid cs cm l).
  assert (Hex : forall m0, hello_start vr sid cs cm = Some m0 -> m0.(extensions) = []).
  { intros m0. unfold hello_start. destruct (loop _ _ cs) as [[a b]|]; [|done]. cbn. by intros [= <-]. }
  destruct (hello_start vr sid cs cm) as [m0|]; cbn [mbind option_bind]; [|split; [done|]; by intros (_ & m0 & m1 & [=] & _)]. specialize (Hex m0 eq_refl). split.
  - intros (l' & Hs' & Hl' & Hnd & Hr)%optional_exts_inv. assert (l' = l) as ->.
    { destruct Hs' as [[Hs' _]|Hs']; [apply (f_equal len) in Hs'; unfold enc_lp in Hs'; autorewrite with cb in Hs'; pose proof (len_nonneg (enc_exts l)); lia|].
      unfold enc_lp in Hs'. apply enc_exts_inj; [done|done|]. apply (f_equal (drop 2)) in Hs'. rewrite !drop_app_length' in Hs' by (by rewrite length_be). done. }
    split; [exact Hnd|]. rewrite run_exts_original, run_exts_log, Hex in Hr. destruct (run_exts unmarshal_ext m0 l []) as [m1|] eqn:E; [|done]. cbn in Hr. injection Hr as <-.
    by exists m0, m1.
  - intros (Hnd & m0' & m1 & [= <-] & Hr & ->). rewrite (optional_exts_enc _ _ l); [|  |done|done].
    + by rewrite run_exts_original, run_exts_log, Hex, Hr.
    + destruct (0 <? len (enc_exts l)) eqn:E0; [apply olp_Some; by exists (enc_exts l)|]. apply len_pos_false, enc_exts_nil in E0. done.
Qed.

(** Only pre_shared_key looks at what follows it, and writes the binders. *)
Lemma unmarshal_ext_rest m e d r r' : e <> extensionPreSharedKey -> unmarshal_ext m e d r = unmarshal_ext m e d r'.
Proof.
  intros He. unfold unmarshal_ext. destruct (Z.eqb_spec e extensionPreSharedKey); [done|]. reflexivity.
Qed.
Lemma run_exts_rest m l r r' : extensionPreSharedKey ∉ map fst l -> run_exts unmarshal_ext m l r = run_exts unmarshal_ext m l r'.
Proof.
  revert m. induction l as [|e l IH]; intros m; cbn [run_exts map]; [done|]. intros [He Hl]%not_elem_of_cons.
  rewrite (unmarshal_ext_rest _ _ _ _ (enc_exts l ++ r')) by congruence. destruct (unmarshal_ext m e.1 e.2 _); [|done]. by apply IH.
Qed.
Lemma unmarshal_ext_binders m e d r m' : e <> extensionPreSharedKey -> unmarshal_ext m e d r = Some m' -> m'.(pskBinders) = m.(pskBinders).
Proof.
  intros He. unfold unmarshal_ext. destruct (Z.eqb_spec e extensionPreSharedKey); [done|]. intros H.
  repeat case_match; try discriminate H; injection H as <-; reflexivity.
Qed.
Lemma run_exts_binders m l r m' : extensionPreSharedKey ∉ map fst l -> run_exts unmarshal_ext m l r = Some m' -> m'.(pskBinders) = m.(pskBinders).
Proof.
  revert m. induction l as [|e l IH]; intros m; cbn [run_exts map]; [by intros _ [= <-]|]. intros [He Hl]%not_elem_of_cons.
  destruct (unmarshal_ext m e.1 e.2 _) as [m1|] eqn:E; [|done]. intros H. apply unmarshal_ext_binders in E; [|congruence]. rewrite <- E. by apply IH.
Qed.

Lemma binders_dec bs acc r : Forall (fun b => len b < 2 ^ 8) bs -> loop binder_body acc (concat (map (enc_lp 1) bs)) = Some r ->
  r = acc ++ bs /\ Forall (fun b => b <> []) bs.
Proof.
  intros Hb. revert acc. induction Hb as [|b bs Hb Hbs IH]; intros acc; cbn [map concat].
  - rewrite loop_nil. intros [= <-]. by rewrite app_nil_r.
  - rewrite loop_step; [|apply binder_body_shrinks|].
    + unfold binder_body at 1. unfold enc_lp at 1. parse. destruct (len b =? 0) eqn:E0; [done|]. cbn [negb]. intros H. apply IH in H as [-> H].
      rewrite <- app_assoc. split; [done|]. constructor; [|exact H]. by intros ->.
    + intros E%(f_equal len). unfold enc_lp in E. autorewrite with cb in E. pose proof (len_nonneg b). pose proof (len_nonneg (concat (map (enc_lp 1) bs))).
      unfold enc_lp in *. lia.
Qed.

(** The body of a pre_shared_key block, and the same with other binders. *)
Definition psk_body (ids : list pskIdentity.t) (binders : list bytes) : option bytes :=
  oapp (olp 2 (oconcat (map (fun p => oapp (olp 2 (Some p.(pskIdentity.label))) (Some (be 4 p.(pskIdentity.obfuscatedTicketAge)))) ids)))
       (olp 2 (oconcat (map (fun b => olp 1 (Some b)) binders))).
Definition same_lengths (bs bs' : list bytes) : Prop := Forall2 (fun b b' => len b = len b') bs bs'.
Lemma same_lengths_refl bs : same_lengths bs bs.
Proof. induction bs; by constructor. Qed.
Record binders_ok (bs : list bytes) : Prop := {
  bo_each : Forall (fun b => len b < 2 ^ 8) bs;
  bo_all : len (concat (map (enc_lp 1) bs)) < 2 ^ 16
}.
Lemma same_binders_ok bs bs' : same_lengths bs bs' -> binders_ok bs -> binders_ok bs' /\ len (binder_bytes bs') = len (binder_bytes bs).
Proof.
  intros Hf [H1 H2]. assert (Hl : len (concat (map (enc_lp 1) bs')) = len (concat (map (enc_lp 1) bs))).
  { clear H1 H2. induction Hf as [|b b' bs bs' Hb Hf IH]; [done|]. cbn [map concat]. rewrite !len_app, IH. unfold enc_lp. autorewrite with cb. lia. }
  split; [constructor|].
  - clear Hl H2. induction Hf as [|b b' bs bs' Hb Hf IH]; [done|]. apply Forall_cons in H1 as [Hx Hy]. constructor; [by rewrite <- Hb|by apply IH].
  - by rewrite Hl.
  - unfold binder_bytes. autorewrite with cb. lia.
Qed.
Lemma psk_body_inv ids bs d : psk_body ids bs = Some d -> binders_ok bs /\ exists ib, len ib < 2 ^ 16 /\ d = enc_lp 2 ib ++ binder_bytes bs /\
  forall bs', binders_ok bs' -> psk_body ids bs' = Some (enc_lp 2 ib ++ binder_bytes bs').
Proof.
  unfold psk_body. intros (p & q & Hi & (B & HB & HBl & ->)%olp_Some & ->)%oapp_Some. pose proof HB as [-> Hb]%emit_lps. split; [by constructor|].
  rewrite Hi. apply olp_Some in Hi as (ib & Hi & Hil & ->). exists ib. split; [exact Hil|]. split; [done|]. intros bs' [H1 H2].
  assert (oconcat (map (fun b => olp 1 (Some b)) bs') = Some (concat (map (enc_lp 1) bs'))) as ->.
  { clear H2. induction H1 as [|b bs' Hx Hy IH]; [done|]. cbn [map oconcat concat]. rewrite IH.
    assert (olp 1 (Some b) = Some (enc_lp 1 b)) as -> by (apply olp_Some; by exists b). done. }
  assert (olp 2 (Some (concat (map (enc_lp 1) bs'))) = Some (binder_bytes bs')) as -> by (apply olp_Some; by eexists). done.
Qed.

Lemma unmarshal_psk_swap m ib bs bs' m' : m.(pskBinders) = [] -> len ib < 2 ^ 16 -> binders_ok bs -> same_lengths bs bs' ->
  unmarshal_psk m (enc_lp 2 ib ++ binder_bytes bs) [] = Some m' ->
  m'.(pskBinders) = bs /\ unmarshal_psk m (enc_lp 2 ib ++ binder_bytes bs') [] = Some (set_pskBinders bs' m').
Proof.
  intros Hm Hi Hb Hf. destruct (same_binders_ok _ _ Hf Hb) as [Hb' Hlen]. unfold binder_bytes in Hlen. rewrite !len_app, !len_be in Hlen.
  unfold unmarshal_psk, binder_bytes, enc_lp. rewrite <- !app_assoc.
  destruct Hb as [Hb1 Hb2], Hb' as [Hb1' Hb2']. parse. rewrite ?Empty_spec. destruct ib as [|i ib]; [done|]. cbn [negb].
  destruct (loop psk_identity_body _ _) as [ids|]; [|done]. parse. rewrite Hm. rewrite ?Empty_spec. change (fun x : bytes => be 1 (len x) ++ x) with (enc_lp 1).
  destruct (concat (map (enc_lp 1) bs)) as [|x B] eqn:EB; [done|]. cbn [negb]. rewrite <- EB in *. intros H. destruct (loop binder_body [] _) as [r|] eqn:Er; [|done].
  apply binders_dec in Er as [-> Hne]; [|done]. injection H as <-. split; [done|].
  destruct (concat (map (enc_lp 1) bs')) as [|x' B'] eqn:EB'; [rewrite EB in Hlen; unfold len in Hlen; cbn in Hlen; lia|]. cbn [negb]. rewrite <- EB'.
  rewrite binders_enc; [done|exact Hb1'|]. clear - Hne Hf. induction Hf as [|y y' l l' Hy Hl IH]; [constructor|].
  apply Forall_cons in Hne as [H1 H2]. constructor; [|by apply IH]. intros ->. apply H1. destruct y; [done|]. unfold len in Hy. cbn in Hy. lia.
Qed.

(** The same hello with other binders of the same lengths. *)
Definition psk_block (ib : bytes) (bs : list bytes) : Z * bytes := (extensionPreSharedKey, enc_lp 2 ib ++ binder_bytes bs).

Lemma message_prefix vr sid cs cm x ib bs : exists y, forall bs', len (binder_bytes bs') = len (binder_bytes bs) ->
  message vr sid cs cm (x ++ [psk_block ib bs']) = y ++ binder_bytes bs'.
Proof.
  pose (n := len (enc_lp 2 ib) + len (binder_bytes bs)). pose (q := enc_exts x ++ be 2 extensionPreSharedKey ++ be 2 n ++ enc_lp 2 ib).
  pose (body := vr ++ enc_lp 1 sid ++ enc_lp 2 cs ++ enc_lp 1 cm ++ be 2 (len q + len (binder_bytes bs)) ++ q).
  assert (H : forall b, len (binder_bytes b) = len (binder_bytes bs) ->
    message vr sid cs cm (x ++ [psk_block ib b]) = (be 1 typeClientHello ++ be 3 (len body + len (binder_bytes bs)) ++ body) ++ binder_bytes b).
  { intros b Eb. assert (E1 : enc_exts (x ++ [psk_block ib b]) = q ++ binder_bytes b).
    { rewrite enc_exts_app. unfold psk_block, enc_exts at 2, enc_ext, q, n. cbn. by rewrite app_nil_r, len_app, Eb, <- !app_assoc. }
    assert (E2 : vr ++ enc_lp 1 sid ++ enc_lp 2 cs ++ enc_lp 1 cm ++ enc_lp 2 (q ++ binder_bytes b) = body ++ binder_bytes b).
    { unfold body, enc_lp. rewrite len_app, Eb. by rewrite <- !app_assoc. }
    unfold message. rewrite E1, E2, len_app, Eb. by rewrite <- !app_assoc. }
  eexists. exact H.
Qed.

Lemma message_swap vr sid cs cm x ib bs bs' m : len vr = 34 -> len sid < 2 ^ 8 -> len cs < 2 ^ 16 -> len cm < 2 ^ 8 -> Forall wf_ext x ->
  len (enc_exts (x ++ [psk_block ib bs])) < 2 ^ 16 -> len ib < 2 ^ 16 -> binders_ok bs -> same_lengths bs bs' ->
  unmarshal (message vr sid cs cm (x ++ [psk_block ib bs])) = Some m ->
  m.(pskBinders) = bs /\ unmarshal (message vr sid cs cm (x ++ [psk_block ib bs'])) =
    Some (set_original (Some (message vr sid cs cm (x ++ [psk_block ib bs']))) (set_pskBinders bs' m)).
Proof.
  intros Hv Hs Hcs Hcm Hx Hl Hi Hb Hf H. destruct (same_binders_ok _ _ Hf Hb) as [_ Hlen].
  assert (Hl2 : forall b, len (enc_exts (x ++ [psk_block ib b])) = len (enc_exts x) + (4 + (2 + len ib + len (binder_bytes b)))).
  { intros b. rewrite enc_exts_app, len_app. unfold enc_exts at 2. cbn [map concat]. rewrite app_nil_r, len_enc_ext. unfold psk_block, enc_lp. cbn [snd]. autorewrite with cb. lia. }
  assert (Hw : forall b, len (binder_bytes b) = len (binder_bytes bs) -> Forall wf_ext (x ++ [psk_block ib b])).
  { intros b Eb. apply Forall_app. split; [done|]. constructor; [|done]. split; [done|]. rewrite Hl2 in Hl. pose proof (len_nonneg (enc_exts x)).
    unfold psk_block, enc_lp. cbn [snd]. autorewrite with cb. rewrite Eb. lia. }
  assert (Hn : forall b, x ++ [psk_block ib b] <> []) by (intros b; by destruct x).
  apply unmarshal_message in H as (Hnd & m0 & m1 & H0 & Hr & ->); [|try done..|done]; [|by apply Hw]. rewrite map_app in Hnd. cbn [map psk_block fst] in Hnd.
  assert (Hp : extensionPreSharedKey ∉ map fst x) by (apply NoDup_app in Hnd as (_ & Hd & _); intros Hin; apply (Hd _ Hin); left).
  assert (Hm0 : m0.(pskBinders) = []) by (unfold hello_start in H0; destruct (loop _ _ cs) as [[a b]|]; [|done]; cbn in H0; by injection H0 as <-).
  rewrite run_exts_app in Hr. destruct (run_exts unmarshal_ext m0 x _) as [m2|] eqn:E2; [|done]. cbn [run_exts psk_block fst snd] in Hr.
  unfold unmarshal_ext in Hr. cbn -[unmarshal_psk] in Hr. destruct (unmarshal_psk m2 _ _) as [m3|] eqn:E3; [|done]. injection Hr as ->.
  pose proof (run_exts_binders _ _ _ _ Hp E2) as Hm2. rewrite Hm0 in Hm2. apply (unmarshal_psk_swap _ _ _ bs') in E3 as [E4 E5]; [|done..]. split; [exact E4|].
  apply unmarshal_message; [done..|by apply Hw| | |]; [done| |]; [by rewrite Hl2, Hlen, <- Hl2|]. split; [by rewrite map_app|]. exists m0, (set_pskBinders bs' m1). split; [exact H0|]. split; [|by rewrite !map_app].
  rewrite run_exts_app, (run_exts_rest _ _ _ (enc_exts [psk_block ib bs] ++ [])), E2 by done. cbn [run_exts psk_block fst snd]. unfold unmarshal_ext. cbn -[unmarshal_psk]. by rewrite E5.
Qed.

(** ** Encoding the inner hello *)

(** What [buildClientHello] writes for an inner hello with extensions. *)
Definition inner_body (m : t) (z : bytes) : bytes :=
  (be 2 m.(vers) ++ m.(random)) ++ be 1 0 ++ enc_lp 2 (enc_u16s m.(cipherSuites)) ++ enc_lp 1 m.(compressionMethods) ++ enc_lp 2 z.
Record inner_fits (m : t) (z : bytes) : Prop := {
  if_random : len m.(random) = 32;
  if_suites : len (enc_u16s m.(cipherSuites)) < 2 ^ 16;
  if_compression : len m.(compressionMethods) < 2 ^ 8;
  if_exts : len z < 2 ^ 16;
  if_body : len (inner_body m z) < 2 ^ 24
}.
Lemma build_inner m z h : 0 < len z ->
  buildClientHello m true z = inr h <-> inner_fits m z /\ h = (be 1 typeClientHello ++ be 3 (len (inner_body m z))) ++ inner_body m z.
Proof.
  intros Hz. unfold buildClientHello. match goal with |- Bytes (?f NewBuilder) = _ <-> _ => eassert (E : Emits f _) by typeclasses eauto end.
  rewrite (Bytes_emits _ _ _ E). clear E. rewrite emit_u16s. cbn [negb]. replace (0 <? len z) with true by (symmetry; by apply Z.ltb_lt).
  assert (Ho : forall k (w : bytes), len w < 256 ^ Z.of_nat k -> olp k (Some w) = Some (enc_lp k w)) by (intros k w Hw; apply olp_Some; by exists w). split.
  - intros H. apply oapp_Some in H as (p & q & [= <-] & H & ->). apply olp_Some in H as (c & H & Hc & ->).
    apply oapp_Some in H as (p1 & c1 & [= <-] & H & ->). apply oapp_Some in H as (p2 & c2 & Hs & H & ->). destruct (len (random m) =? 32) eqn:E32; [|done]. injection Hs as <-.
    apply oapp_Some in H as (p3 & c3 & H3 & H & ->). apply oapp_Some in H as (p4 & c4 & H4 & H & ->). apply oapp_Some in H as (p5 & c5 & H5 & H & ->).
    apply olp_Some in H3 as (? & [= <-] & _ & ->). apply olp_Some in H4 as (? & [= <-] & ? & ->). apply olp_Some in H5 as (? & [= <-] & ? & ->). apply olp_Some in H as (? & [= <-] & ? & ->).
    assert (Hb : be 2 (vers m) ++ random m ++ (be 1 (len (@nil byte)) ++ []) ++ (be 2 (len (enc_u16s (cipherSuites m))) ++ enc_u16s (cipherSuites m)) ++
      (be 1 (len (compressionMethods m)) ++ compressionMethods m) ++ be 2 (len z) ++ z = inner_body m z).
    { unfold inner_body, enc_lp. rewrite app_nil_r, <- !app_assoc. done. }
    rewrite Hb in *. split; [|by rewrite <- app_assoc]. constructor; try done. by apply Z.eqb_eq.
  - intros [[H1 H2 H3 H4 H5] ->]. rewrite H1. change (32 =? 32) with true. rewrite (Ho 2%nat (enc_u16s _)), (Ho 1%nat (compressionMethods m)), (Ho 2%nat z) by done.
    change (olp 1 (Some [])) with (Some (be 1 0)). unfold oapp at 2 3 4 5 6.
    assert (Hb : be 2 (vers m) ++ random m ++ be 1 0 ++ enc_lp 2 (enc_u16s (cipherSuites m)) ++ enc_lp 1 (compressionMethods m) ++ enc_lp 2 z = inner_body m z)
      by (unfold inner_body; by rewrite <- !app_assoc).
    rewrite Hb, Ho by done. unfold enc_lp. cbn. by rewrite <- ?app_assoc.
Qed.

(** The extensions of an inner hello before pre_shared_key. *)
Definition fixed_pre (m : t) (outerExts : list Z) : Builder -> Builder :=
  let echOuterExts := ech_outer_exts outerExts in
  bwhen (0 <? len m.(encryptedClientHello)) (add_encrypted_client_hello m) ;>
  bwhen (0 <? len m.(serverName)) (add_server_name m) ;>
  bwhen (0 <? len echOuterExts) (add_u16_list8 extensionECHOuterExtensions echOuterExts) ;>
  bwhen (negb (List.existsb (fun e => e =? extensionSupportedVersions) echOuterExts) && (0 <? len m.(supportedVersions)))
    (add_u16_list8 extensionSupportedVersions [VersionTLS13]).

Lemma fixed_pre_blocks m outerExts : exists o, Emits (fixed_pre m outerExts) o /\ forall z, o = Some z -> exists l, z = enc_exts l /\ Forall wf_ext l.
Proof.
  eexists. split; [unfold fixed_pre, add_encrypted_client_hello, add_server_name, add_u16_list8; cbv zeta; typeclasses eauto|]. intros z Hz.
  apply oapp_Some in Hz as (a & z1 & Ha & Hz & ->). apply oapp_Some in Hz as (b & z2 & Hb & Hz & ->). apply oapp_Some in Hz as (c & d & Hc & Hd & ->).
  apply opt_ext_inv in Ha as (ba & -> & Hba). apply opt_ext_inv in Hb as (bb & -> & Hbb). apply opt_ext_inv in Hc as (bc & -> & Hbc). apply opt_ext_inv in Hd as (bd & -> & Hbd).
  rewrite <- !enc_exts_app. eexists. split; [reflexivity|]. wf_exts.
Qed.

Lemma fixed_exts_psk m outerExts bs z o : m.(pskIdentities) <> [] -> Emits (fixed_pre m outerExts) o ->
  Bytes (ech_fixed_exts (set_original None (set_pskBinders bs m)) outerExts NewBuilder) = inr z <-> oapp o (oext extensionPreSharedKey (psk_body m.(pskIdentities) bs)) = Some z.
Proof.
  intros Hid E.
  assert (Hpos : (0 <? len m.(pskIdentities)) = true) by (destruct (pskIdentities m); [done|apply len_pos_cons]).
  change (ech_fixed_exts (set_original None (set_pskBinders bs m)) outerExts NewBuilder)
    with ((fixed_pre m outerExts ;> bwhen (0 <? len m.(pskIdentities)) (add_pre_shared_key (set_pskBinders bs m))) NewBuilder).
  rewrite Hpos. cbn [bwhen]. apply (Bytes_emits _ _ _ (emits_seq _ _ _ _ E (emits_add_psk (set_pskBinders bs m)))).
Qed.

(** The blocks of an encoded inner hello with a session, and those of the same hello
    with other binders. *)
Lemma encode_binders m outerExts maxName encoded : m.(pskIdentities) <> [] ->
  encodeInnerClientHelloReorderOuterExts m maxName (Some outerExts) = Ret (inr encoded) ->
  exists vr cs cm x ib n, len vr = 34 /\ len cs < 2 ^ 16 /\ len cm < 2 ^ 8 /\ Forall wf_ext x /\ len ib < 2 ^ 16 /\ binders_ok m.(pskBinders) /\
    len (enc_exts (x ++ [psk_block ib m.(pskBinders)])) < 2 ^ 16 /\ encoded = encoding vr cs cm (x ++ [psk_block ib m.(pskBinders)]) n /\
    forall bs, same_lengths m.(pskBinders) bs ->
      encodeInnerClientHelloReorderOuterExts (set_original None (set_pskBinders bs m)) maxName (Some outerExts) =
        Ret (inr (encoding vr cs cm (x ++ [psk_block ib bs]) n)).
Proof.
  intros Hid. unfold encodeInnerClientHelloReorderOuterExts, marshalMsgReorderOuterExts, res_bind.
  destruct (fixed_pre_blocks m outerExts) as (o & Eo & Ho).
  assert (Ex : forall bs, ech_fixed_exts (set_original None (set_pskBinders bs m)) outerExts NewBuilder = ech_fixed_exts (set_pskBinders bs m) outerExts NewBuilder) by done.
  destruct (Bytes (ech_fixed_exts m outerExts NewBuilder)) as [|z] eqn:Ez; [done|].
  assert (Ez' : Bytes (ech_fixed_exts (set_original None (set_pskBinders m.(pskBinders) m)) outerExts NewBuilder) = inr z) by (by destruct m).
  apply (fixed_exts_psk _ _ _ _ o Hid Eo) in Ez'. apply oapp_Some in Ez' as (zp & zk & -> & Hk & ->). destruct (Ho zp eq_refl) as (x & -> & Hx).
  apply oext_Some in Hk as (d & Hd & Hdl & ->). apply psk_body_inv in Hd as (Hb & ib & Hi & -> & Hbody).
  change [(extensionPreSharedKey, enc_lp 2 ib ++ binder_bytes m.(pskBinders))] with [psk_block ib m.(pskBinders)] in *. rewrite <- enc_exts_app in *.
  assert (Hz : forall b, 0 < len (enc_exts (x ++ [psk_block ib b]))).
  { intros b. rewrite enc_exts_app, len_app. pose proof (len_nonneg (enc_exts x)). unfold enc_exts at 2. cbn [map concat]. rewrite app_nil_r, len_enc_ext. pose proof (len_nonneg (psk_block ib b).2). lia. }
  destruct (buildClientHello m true _) as [|h] eqn:Eh; [done|]. apply build_inner in Eh as [[F1 F2 F3 F4 F5] ->]; [|apply Hz].
  assert (Hfrom : forall w (y : bytes), from ((be 1 typeClientHello ++ be 3 w) ++ y) 4 = Ret y) by (intros w y; rewrite from_app by (by autorewrite with cb); done).
  rewrite Hfrom. cbn [obind]. destruct (make _) as [|pad] eqn:Ep; [done|]. cbn [obind]. intros Hq. apply Ret_inj, (inj inr) in Hq. subst encoded.
  pose proof Ep as Ep'. unfold make in Ep'. destruct (0 <=? _); [|done]. apply Ret_inj in Ep' as <-.
  match type of Ep with _ = Ret (replicate ?k _) => set (n := k) in * end.
  exists (be 2 m.(vers) ++ m.(random)), (enc_u16s m.(cipherSuites)), m.(compressionMethods), x, ib, n.
  split; [by rewrite len_app, len_be, F1|]. split; [exact F2|]. split; [exact F3|]. split; [exact Hx|]. split; [exact Hi|]. split; [exact Hb|]. split; [exact F4|].
  split; [unfold encoding, inner_body; by rewrite <- !app_assoc|]. intros bs Hf. destruct (same_binders_ok _ _ Hf Hb) as [Hb' Hlen].
  assert (Hl2 : len (enc_exts (x ++ [psk_block ib bs])) = len (enc_exts (x ++ [psk_block ib m.(pskBinders)]))).
  { rewrite !enc_exts_app, !len_app. unfold enc_exts at 2 4. cbn [map concat]. rewrite !app_nil_r, !len_enc_ext. unfold psk_block. cbn [snd]. rewrite !len_app. lia. }
  assert (Hl3 : len (inner_body m (enc_exts (x ++ [psk_block ib bs]))) = len (inner_body m (enc_exts (x ++ [psk_block ib m.(pskBinders)])))).
  { unfold inner_body, enc_lp. rewrite !len_app, !len_be. lia. }
  assert (Bytes (ech_fixed_exts (set_original None (set_pskBinders bs m)) outerExts NewBuilder) = inr (enc_exts (x ++ [psk_block ib bs]))) as ->.
  { apply (fixed_exts_psk _ _ _ _ (Some (enc_exts x)) Hid Eo). rewrite (Hbody bs Hb'), enc_exts_app. apply oapp_Some. do 2 eexists. split; [done|]. split; [|done].
    apply oext_Some. eexists. split; [done|]. split; [|done]. rewrite len_app, Hlen, <- len_app. exact Hdl. }
  change (buildClientHello (set_original None (set_pskBinders bs m)) true) with (buildClientHello m true).
  assert (buildClientHello m true (enc_exts (x ++ [psk_block ib bs])) = inr ((be 1 typeClientHello ++ be 3 (len (inner_body m (enc_exts (x ++ [psk_block ib bs]))))) ++
    inner_body m (enc_exts (x ++ [psk_block ib bs])))) as -> by (apply build_inner; [apply Hz|]; split; [|done]; constructor; try done; [by rewrite Hl2|by rewrite Hl3]).
  rewrite Hfrom. cbn [obind]. change (serverName (set_original None (set_pskBinders bs m))) with (serverName m). rewrite Hl3, Ep. cbn [obind].
  unfold encoding, inner_body. by rewrite <- !app_assoc.
Qed.

(** ** Decoding it *)

(** The outer hello, and the one with other data in encrypted_client_hello. *)
Definition same_but_ech (outer outer' : t) : Prop := outer'.(sessionId) = outer.(sessionId) /\
  exists L L', extractRawExtensions outer = inr L /\ extractRawExtensions outer' = inr L' /\ Forall2 but_ech L L'.

Lemma decode_swap vr cs cm x ib bs n outer decoded recon : len vr = 34 -> len cs < 2 ^ 16 -> len cm < 2 ^ 8 -> Forall wf_ext x -> len ib < 2 ^ 16 -> binders_ok bs ->
  len (enc_exts (x ++ [psk_block ib bs])) < 2 ^ 16 -> decodeInnerClientHelloWithRaw outer (encoding vr cs cm (x ++ [psk_block ib bs]) n) = inr (decoded, recon) ->
  decoded.(pskBinders) = bs /\ exists y, recon = y ++ binder_bytes bs /\ forall bs' outer', same_lengths bs bs' -> same_but_ech outer outer' ->
    decodeInnerClientHelloWithRaw outer' (encoding vr cs cm (x ++ [psk_block ib bs']) n) =
      inr (set_original (Some (y ++ binder_bytes bs')) (set_pskBinders bs' decoded), y ++ binder_bytes bs').
Proof.
  intros Hv Hcs Hcm Hx Hi Hb Hl. unfold decodeInnerClientHelloWithRaw, res_bind.
  assert (Hwf : forall b l, Forall wf_ext l -> len (enc_exts (l ++ [psk_block ib b])) < 2 ^ 16 -> Forall wf_ext (l ++ [psk_block ib b])).
  { intros b l Hw Hlw. apply Forall_app. split; [done|]. constructor; [|done]. split; [done|]. rewrite enc_exts_app, len_app in Hlw. unfold enc_exts at 2 in Hlw.
    cbn [map concat] in Hlw. rewrite app_nil_r, len_enc_ext in Hlw. pose proof (len_nonneg (enc_exts l)). lia. }
  destruct (reconstruct outer _) as [|y0] eqn:Er; [done|]. apply reconstruct_blocks in Er; [|try done..]; [|by apply Hwf].
  destruct Er as (L & X & HL & HX & HX1 & HX2 & Hs & Hm & ->). rewrite expansion_last in HX by done. apply fmap_Some in HX as (X0 & HX & ->).
  assert (Hw0 : Forall wf_ext X0).
  { apply (expansion_u16 _ _ _ Hx) in HX as Hu. apply Forall_app in HX1 as [HX1 _]. clear - Hu HX1. induction Hu as [|e l He Hl IH]; [done|].
    apply Forall_cons in HX1 as [H1 H2]. constructor; [by split|by apply IH]. }
  destruct (unmarshal _) as [m|] eqn:Eu; [|done]. pose proof Eu as Eu0. apply (message_swap _ _ _ _ _ _ _ bs) in Eu0 as [Hbs _]; [|done..|by apply same_lengths_refl].
  destruct (message_prefix vr outer.(sessionId) cs cm X0 ib bs) as [y Hy]. destruct (bool_decide (encryptedClientHello m = _)) eqn:E1; [|done]. cbn [negb].
  destruct (negb (len (supportedVersions m) =? 1) || _) eqn:E2; [done|]. intros H. apply (inj inr) in H. injection H as <- <-. split; [exact Hbs|].
  exists y. split; [by apply Hy|]. intros bs' outer' Hf [Hsid (L1 & L' & HL1 & HL' & Hbut)]. rewrite HL in HL1. apply (inj inr) in HL1. subst L1.
  destruct (same_binders_ok _ _ Hf Hb) as [Hb' Hlen].
  assert (Hl' : forall l, len (enc_exts (l ++ [psk_block ib bs'])) = len (enc_exts (l ++ [psk_block ib bs]))).
  { intros l. rewrite !enc_exts_app, !len_app. unfold enc_exts at 2 4. cbn [map concat]. rewrite !app_nil_r, !len_enc_ext. unfold psk_block. cbn [snd]. rewrite !len_app. lia. }
  assert (Hr : reconstruct outer' (encoding vr cs cm (x ++ [psk_block ib bs']) n) = inr (message vr outer'.(sessionId) cs cm (X0 ++ [psk_block ib bs']))).
  { apply reconstruct_blocks; [done..|by rewrite Hl'|apply Hwf; [done|by rewrite Hl']|]. exists L', (X0 ++ [psk_block ib bs']).
    split; [exact HL'|]. split; [by rewrite expansion_last, (expansion_but_ech _ _ _ Hbut), HX by done|]. rewrite Hsid. split.
    - apply Forall_app in HX1 as [HX1 HX3]. apply Forall_app. split; [done|]. apply Forall_cons in HX3 as [HX3 _]. constructor; [|done]. unfold psk_block in *. cbn [snd] in *.
      by rewrite len_app, Hlen, <- len_app.
    - split; [by rewrite Hl'|]. split; [done|]. split; [|done]. rewrite (Hy bs' Hlen), len_app, Hlen, <- len_app, <- (Hy bs eq_refl). done. }
  rewrite Hr, Hsid. apply (message_swap _ _ _ _ _ _ _ bs') in Eu as [_ Eu]; [|done..]. rewrite Eu, (Hy bs' Hlen).
  change (encryptedClientHello (set_original (Some (y ++ binder_bytes bs')) (set_pskBinders bs' m))) with (encryptedClientHello m).
  change (supportedVersions (set_original (Some (y ++ binder_bytes bs')) (set_pskBinders bs' m))) with (supportedVersions m). rewrite E1, E2. done.
Qed.
End Reading.

(** ** The binder is the one that the server computes *)

#[local] Existing Instance M_ret.
#[local] Existing Instance M_bind.

Section Fix.
Context {X : X509} {V : X509Verify X} {C : Cryptobyte} {Cok : CryptobyteOk C} {K : Crypto} {Kok : CryptoOk K} {I : ClientSessionCache (session.ptr X)} {Ks : Keys}.
Import clientHelloMsg.

Lemma binders_len_bytes bs : binders_len bs = len (binder_bytes bs).
Proof.
  unfold binders_len, binder_bytes. rewrite len_app, len_be.
  enough (forall n, fold_left (fun n b => n + (1 + len b)) bs n = n + len (concat (map (enc_lp 1) bs))) as -> by lia.
  induction bs as [|x l IH]; intros n; cbn [fold_left map concat]; [rewrite len_nil; lia|]. rewrite IH. unfold enc_lp at 2. autorewrite with cb. lia.
Qed.

(** C17: the binder of an inner hello with a session is the one that the server computes.
    Let the inner hello, with a placeholder of the length of the hash, be encoded for an
    outer hello with which it can be decoded.  Then the correction of the binder returns
    an encoding, and the server that decodes it, with the outer hello that is sent in the
    end (it differs in the data of encrypted_client_hello alone), gets a hello whose
    first binder is the Finished hash, under the binder key, of the bytes of that hello
    without its binders, which is what the server compares it with. *)
Theorem binder_accepted (c : conn) serializedOuter outerExts inner ech encoded outer decoded recon suite placeholder rest :
  c.(pskCipherSuite) = Some suite -> 0 < len c.(pskBinderKey) ->
  inner.(pskIdentities) <> [] -> inner.(pskBinders) = placeholder :: rest -> length placeholder = hash_size suite.(cipherSuiteTLS13.hash) ->
  encodeInnerClientHelloReorderOuterExts inner ech.(echContext.ech).(echClientContext.config).(echConfig.MaxNameLength) (Some outerExts) = Ret (inr encoded) ->
  unmarshal (with_header serializedOuter) = Some outer -> decodeInnerClientHelloWithRaw outer encoded = inr (decoded, recon) ->
  exists ech' encoded', fix_binder serializedOuter outerExts encoded inner ech c = Ret (c, (ech', encoded')) /\
    forall outer', same_but_ech outer outer' -> exists received hello binder,
      decodeInnerClientHello outer' encoded' = inr received /\ received.(pskIdentities) = decoded.(pskIdentities) /\ received.(pskBinders) = binder :: rest /\
      marshalWithoutBinders received = Ret (inr hello) /\ finishedHash suite c.(pskBinderKey) hello = Ret binder.
Proof.
  intros Hsu Hk Hid Hbs Hpl Henc Hu Hdec. pose proof Henc as (vr & cs & cm & x & ib & n & Hv & Hcs & Hcm & Hx & Hi & Hb & Hl & -> & Hother)%encode_binders; [|done].
  rewrite Hbs in *. destruct (decode_swap _ _ _ _ _ _ _ _ _ _ Hv Hcs Hcm Hx Hi Hb Hl Hdec) as (Hd & y & -> & Hswap).
  destruct (finishedHash_ok suite c.(pskBinderKey) y) as (binder & Hf & Hlen).
  assert (Hsame : same_lengths (placeholder :: rest) (binder :: rest)) by (constructor; [unfold len; lia|apply same_lengths_refl]).
  assert (Hgoal : forall outer', same_but_ech outer outer' -> exists received hello b,
    decodeInnerClientHello outer' (encoding vr cs cm (x ++ [psk_block ib (binder :: rest)]) n) = inr received /\ received.(pskIdentities) = decoded.(pskIdentities) /\
    received.(pskBinders) = b :: rest /\ marshalWithoutBinders received = Ret (inr hello) /\ finishedHash suite c.(pskBinderKey) hello = Ret b).
  { intros outer' Ho. eexists _, y, binder. unfold decodeInnerClientHello, res_bind. rewrite (Hswap _ _ Hsame Ho). split; [done|]. split; [done|]. split; [done|]. split; [|exact Hf].
    unfold marshalWithoutBinders. cbn [original set_original]. apply (cut_binders_app (set_original _ (set_pskBinders (binder :: rest) decoded))). }
  unfold fix_binder, mbind, M_bind, bind, get. cbn [obind]. rewrite Hsu.
  assert ((0 <? len (pskIdentities inner)) = true) as -> by (destruct (pskIdentities inner); [done|apply len_pos_cons]).
  apply Z.ltb_lt in Hk. rewrite Hk, Hu, Hdec, Hd. cbn [andb negb]. unfold lift. rewrite binders_len_bytes, len_app.
  rewrite upto_app by lia. cbn [obind]. rewrite Hf. cbn [obind]. destruct (bool_decide (placeholder = binder)) eqn:Eb.
  - apply bool_decide_eq_true_1 in Eb. subst binder. eexists _, _. split; [reflexivity|exact Hgoal].
  - rewrite Hbs. cbn [echContext.ech echContext.set_innerHello]. rewrite (Hother _ Hsame). cbn [obind]. unfold ret. eexists _, _. split; [reflexivity|exact Hgoal].
Qed.
End Fix.

(** ** A hello with a session *)

#[local] Existing Instance plain_x509.
#[local] Existing Instance plain_verify.
#[local] Existing Instance toy_keys.
#[local] Existing Instance Reference.ops.
#[local] Existing Instance Reference.ok.
#[local] Existing Instance toy_hash.
#[local] Existing Instance toy_hash_ok.

(** A connection with the key of a session, and the context of Encrypted ClientHello. *)
Definition resuming : conn (I := lru_cache _) :=
  MkConn (UConn.Mk Config.zero (getPublicPtr example_hello) [] 0 [] []) None None 7%nat HelloGolang None [] [] ∅
    sessionController.newSessionController BuildByGoTLS false false None None None [] [] (replicate 32 x0b) (Some suite_128).
Definition ech_example : echContext.t :=
  echContext.Mk toy_keys (echClientContext.Mk (echConfig.Mk [] 0 0 9 0 [] [] 64 [] []) [] 0 0) tt None [] false None [] [] false [].

(** The outer hello before and after its extension has the sealed inner hello. *)
Definition outer_blocks (payload : bytes) : list (Z * bytes) :=
  [(0x2a2a, []); (extensionKeyShare, enc_lp 2 (be 2 X25519 ++ enc_lp 2 (be 4 1)));
   (extensionSupportedVersions, be 1 2 ++ be 2 VersionTLS13); (extensionEncryptedClientHello, payload)].
Definition outer_bytes (payload : bytes) : bytes := drop 4 (message outer_vr (be 4 77) (be 2 0x1301) [x00] (outer_blocks payload)).
Definition outer_read (payload : bytes) : clientHelloMsg.t :=
  match clientHelloMsg.unmarshal (with_header (outer_bytes payload)) with Some m => m | None => example_hello end.
Definition inner_sent : bytes :=
  match encodeInnerClientHelloReorderOuterExts inner_example 64 (Some (map fst (outer_blocks []))) with Ret (inr x) => x | _ => [] end.
Definition inner_read : clientHelloMsg.t * bytes :=
  match decodeInnerClientHelloWithRaw (outer_read (be 2 0)) inner_sent with inr x => x | inl _ => (example_hello, []) end.

Lemma binder_accepted_witness : exists ech' encoded' received hello binder,
  fix_binder (outer_bytes (be 2 0)) (map fst (outer_blocks [])) inner_sent inner_example ech_example resuming = Ret (resuming, (ech', encoded')) /\
  decodeInnerClientHello (outer_read (be 2 9)) encoded' = inr received /\ received.(clientHelloMsg.pskBinders) = [binder] /\
  clientHelloMsg.marshalWithoutBinders received = Ret (inr hello) /\ finishedHash suite_128 (replicate 32 x0b) hello = Ret binder.
Proof.
  assert (H1 : inner_example.(clientHelloMsg.pskIdentities) <> []) by discriminate.
  assert (H2 : encodeInnerClientHelloReorderOuterExts inner_example 64 (Some (map fst (outer_blocks []))) = Ret (inr inner_sent)) by (vm_compute; reflexivity).
  assert (H3 : clientHelloMsg.unmarshal (with_header (outer_bytes (be 2 0))) = Some (outer_read (be 2 0))) by (vm_compute; reflexivity).
  assert (H4 : decodeInnerClientHelloWithRaw (outer_read (be 2 0)) inner_sent = inr (inner_read.1, inner_read.2)) by (vm_compute; reflexivity).
  destruct (binder_accepted resuming (outer_bytes (be 2 0)) (map fst (outer_blocks [])) inner_example ech_example inner_sent (outer_read (be 2 0)) inner_read.1 inner_read.2
    suite_128 (replicate 32 x07) [] eq_refl ltac:(reflexivity) H1 eq_refl eq_refl H2 H3 H4) as (ech' & encoded' & Hf & Hs). clear H1 H2 H3 H4.
  destruct (Hs (outer_read (be 2 9))) as (received & hello & binder & H1 & _ & H2 & H3 & H4).
  - split; [vm_compute; reflexivity|]. exists (outer_blocks (be 2 0)), (outer_blocks (be 2 9)). split; [vm_compute; reflexivity|]. split; [vm_compute; reflexivity|].
    unfold outer_blocks. do 3 (constructor; [split; reflexivity|]). constructor; [|constructor]. split; [reflexivity|]. intros Hne. contradiction Hne. reflexivity.
  - exists ech', encoded', received, hello, binder. split; [exact Hf|]. split; [exact H1|]. split; [exact H2|]. split; [exact H3|exact H4].
Defined.
