(* ===== verification/Build.v ===== *)
(** * Building the handshake state

    Models the functions of u_conn.go that turn the configuration, the preset and
    the session of a uTLS client into a hello: [uLoadSession], [uApplyPatch] and
    [buildHandshakeState], and the calls by which a user gives a connection a
    session or a cache. *)

From S2P Require Import Prelude Cryptobyte Common Config Negotiation Codec Buffer KeySchedule Names Quic Messages Ticket Caches ClientHello Public Extensions PreSharedKey ECH GreaseECH Marshal Shuffle Parrots Session Preset Apply.

#[local] Existing Instance M_ret.
#[local] Existing Instance M_bind.

Section Client.
Context {X : X509} {V : X509Verify X} {C : Cryptobyte} {K : Crypto} {I : ClientSessionCache (session.ptr X)} {Ks : Keys}.

(** The spare capacity of a [bytes.Buffer], see Marshal; the fallback mode of
    Encrypted ClientHello, see Apply. *)
Context (spare : bytes -> bytes) (useFallbackMode : bool).

(** ** Building the handshake state *)

(** The parameters of [makeClientHello] and of the randomized presets, and the
    randomness of the preset. *)
Context (hardware : bool) (supported : list cipherSuite.t)
        (generateRandomizedSpec : ClientHelloID.t -> bytes -> list bytes -> ClientHelloID.t * outcome (res (@spec X))) (r_preset : parrot_rand).

Abbreviation ApplyConfig := (ApplyConfig spare).
Abbreviation MarshalClientHello := (MarshalClientHello spare useFallbackMode hardware supported).

Definition uLoadSession (now : Z) : M (option gerror) :=
  cfg ← get config;
  ca ← get sessionCache;
  if cfg.(Config.SessionTicketsDisabled) || negb (non_nil ca) then ret None else
  r ← get shouldLoadSession;
  match r with
  | shouldReturn => ret None
  | shouldSetTicket => setSessionTicketToUConn ;; ret None
  | shouldSetPsk => setPskToUConn ;; ret None
  | shouldLoad =>
      h ← get (fun c => (getPrivatePtr (hello c)).2);
      utlsAboutToLoadSession ;;
      r ← loadSession now h;
      (* the private hello stays cached in the public one, which refers to it *)
      modify (set_hello (PubClientHelloMsg.set_cachedPrivateHello (Some r.(ld_hello)))) ;;
      match r.(ld_session), r.(ld_err) with
      | Some s, None =>
          (if s.(session.state).(SessionState.version) =? VersionTLS12 then
             initSessionTicketExt s s.(session.state).(SessionState.ticket) ;; setSessionTicketToUConn
           else
             earlySecret ← deref r.(ld_earlySecret);
             initPskExt s earlySecret r.(ld_binderKey) r.(ld_hello).(clientHelloMsg.pskIdentities) ;;
             should ← get shouldUpdateBinders;
             if (should : bool) then
               setPskToUConn ;;
               modify (set_pskBinderKey r.(ld_binderKey)) ;;
               modify (set_pskCipherSuite (cipherSuiteTLS13ByID s.(session.state).(SessionState.cipherSuite)))
             else ret tt) ;; ret None
      | _, err => ret err
      end
  end.

Definition raw_len (c : conn) : Z := len (default [] (hello c).(PubClientHelloMsg.Raw)).

Definition uApplyPatch : M unit :=
  helloLen ← get raw_len;
  should ← get shouldUpdateBinders;
  (if (should : bool) then updateBinders ;; setPskToUConn else ret tt) ;;
  uAssert (fun c => helloLen =? raw_len c).

Definition is_SNI (x : Ext X) : bool := match x with SNI _ => true | _ => false end.
Fixpoint without_SNI (ls : list nat) : M (list nat) :=
  match ls with
  | [] => ret []
  | l :: ls =>
      x ← object l;
      filteredExts ← without_SNI ls;
      ret (if is_SNI x then filteredExts else l :: filteredExts)
  end.
Definition removeSNIExtension : M unit :=
  ls ← get Exts; filteredExts ← without_SNI ls; modify (set_Exts filteredExts).

(** The preset of the connection, without the server name when it is omitted. *)
Definition apply_preset : M (option gerror) :=
  id ← get ClientHelloID;
  unless (applyPresetByID hardware supported generateRandomizedSpec id r_preset) (
    omit ← get omitSNIExtension;
    (if (omit : bool) then removeSNIExtension else ret tt) ;; ret None).

(** The hello of Go's own stack. *)
Definition build_golang : M (option gerror) :=
  m ← makeClientHello hardware supported;
  match m with
  | inl err => ret (Some err)
  | inr (h, keySharePrivate, ech) =>
      modify (set_hello (fun _ => getPublicPtr h)) ;;
      modify (set_KeyShareKeys (KeySharePrivateKeys.ToPublic <$> keySharePrivate)) ;;
      modify (set_echCtx ech) ;;
      modify (set_status BuildByGoTLS) ;; ret None
  end.

Definition buildHandshakeState (now : Z) (load : bool) : M (option gerror) :=
  id ← get ClientHelloID;
  status ← get clientHelloBuildStatus;
  if decide (id = HelloGolang) then
    if decide (status = BuildByGoTLS) then ret None else
    uAssert (fun _ => bool_decide (status = NotBuilt)) ;; build_golang
  else
    uAssert (fun _ => bool_decide (status ∈ [BuildByUtls; NotBuilt])) ;;
    unless (if decide (status = NotBuilt) then apply_preset else ret None) (
    unless ApplyConfig (
    unless (if load then uLoadSession now else ret None) (
    status ← get clientHelloBuildStatus;
    unless (if decide (status = BuildByUtls) then ret None else MarshalClientHello) (
    (if load then uApplyPatch ;; finalCheck else ret tt) ;;
    modify (set_status BuildByUtls) ;; ret None)))).

Definition BuildHandshakeState (now : Z) : M (option gerror) := buildHandshakeState now true.
Definition BuildHandshakeStateWithoutSession (now : Z) : M (option gerror) := buildHandshakeState now false.

(** ** The calls of the user *)

Definition errSessionDisabled (f : string) : gerror := ErrorNew ("tls: " ++ f ++ " failed: session is disabled").

Definition session_disabled (c : conn) : bool :=
  (config c).(Config.SessionTicketsDisabled) || negb (non_nil c.(sessionCache)).

Definition SetSessionTicketExtension (l : option nat) : M (option gerror) :=
  disabled ← get session_disabled;
  if (disabled : bool) then ret (Some (errSessionDisabled "SetSessionTicketExtension")) else
  match l with None => ret None | Some l => overrideSessionTicketExt l end.

Definition SetPskExtension (l : option nat) : M (option gerror) :=
  disabled ← get session_disabled;
  if (disabled : bool) then ret (Some (errSessionDisabled "SetPskExtension")) else
  match l with
  | None => ret None
  | Some l => modify (set_hello (PubClientHelloMsg.set_TicketSupported true)) ;; overridePskExt l
  end.

(** A new extension object at the free address [l]. *)
Definition SetSessionState (l : nat) (s : option (session.ptr X)) : M (option gerror) :=
  let ext := match s with
    | Some s => SessionTicketExtension.Mk (Some s) (default [] s.(session.state).(SessionState.ticket)) true
    | None => SessionTicketExtension.Mk None [] true
    end in
  update l (SessionTicket ext) ;; SetSessionTicketExtension (Some l).

Definition SetSessionCache (ca : option I.(cache)) : M unit :=
  modify (fun c => set_hello (PubClientHelloMsg.set_TicketSupported true) (set_sessionCache ca c)).

Definition SetClientRandom (r : bytes) : M (option gerror) :=
  if negb (len r =? 32) then ret (Some (Errorf "Incorrect client random length! Expected: 32, got: " [len r]))
  else modify (set_hello (PubClientHelloMsg.set_Random r)) ;; ret None.

Fixpoint name_exts (hname : bytes) (ls : list nat) : M unit :=
  match ls with
  | [] => ret tt
  | l :: ls =>
      x ← object l;
      (match x with SNI _ => update l (SNI (SNIExtension.Mk hname)) | _ => ret tt end) ;;
      name_exts hname ls
  end.
Definition SetSNI (sni : bytes) : M unit :=
  let hname := hostnameInSNI sni in
  modify (fun c => set_uc (config_set (Config.set_ServerName hname) c.(uc)) c) ;;
  ls ← get Exts;
  name_exts hname ls.

Definition RemoveSNIExtension : M (option gerror) :=
  id ← get ClientHelloID;
  if decide (id = HelloGolang)
  then ret (Some (ErrorNew "cannot call RemoveSNIExtension on a UConn with a HelloGolang ClientHelloID"))
  else modify (set_omitSNIExtension true) ;; ret None.

(** ** A new connection *)

(** [&PubClientHelloMsg{}] *)
Definition empty_hello : PubClientHelloMsg.t :=
  PubClientHelloMsg.Mk None 0 [] [] [] [] false [] false false false [] [] false [] [] [] false [] [] [] [] [] false [] [] [] None None [].

(** The session cache is a field of the configuration; the remote address, the
    state of the random source and the draws of a trust anchor extension come from
    outside. *)
Definition UClient (config : Config.t) (ca : option I.(cache)) (addr : option bytes) (r : reader) (draws : list (option Z))
    (clientHelloID : ClientHelloID.t) : conn :=
  MkConn (UConn.Mk config empty_hello [] 0 (replicate 12 x00) draws) ca addr r clientHelloID None (replicate ssl_grease_seed_len 0) [] ∅
    sessionController.newSessionController NotBuilt
    (config.(Config.PreferSkipResumptionOnNilExtension) || negb (bool_decide (clientHelloID.(ClientHelloID.Client) = helloCustom)))
    false None None None [] [] [] None.
End Client.
