(* ===== verification/BuildFacts.v ===== *)
(** * What the session controller guarantees

    Theorems on Session, Preset and Build: the GREASE values of a hello, the
    invariant of the session controller under every call of a user, and that a
    session is frozen once a hello is built with it. *)

From S2P Require Import Prelude Cryptobyte Common Config Negotiation Codec Buffer KeySchedule Names Quic Messages Ticket Caches ClientHello Public Extensions PreSharedKey ECH GreaseECH Marshal Shuffle Parrots Session Preset Apply Build.

#[local] Existing Instance M_ret.
#[local] Existing Instance M_bind.

Section Controller.
Context {X : X509} {V : X509Verify X} {C : Cryptobyte} {K : Crypto} {I : ClientSessionCache (session.ptr X)} {Ks : Keys}.
Implicit Types c : conn.

(** ** Inversion *)

Lemma session_bind_inv {A B} (m : M A) (k : A -> M B) c c' b : bind m k c = Ret (c', b) ->
  exists c1 a, m c = Ret (c1, a) /\ k a c1 = Ret (c', b).
Proof. unfold bind. destruct (m c) as [|[c1 a]]; [done|]. cbn. intros H. by exists c1, a. Qed.

Lemma uAssert_inv b c c' a : uAssert b c = Ret (c', a) -> c' = c /\ b c = true.
Proof. unfold uAssert. destruct (b c); [|done]. by intros [= <- _]. Qed.

(** ** The invariant *)

(** A locked session is settled, and a state that uses an extension has one. *)
Definition settled_state (s : sessionControllerState) : bool :=
  match s with NoSession | SessionTicketExtAllSet | PskExtAllSet => true | _ => false end.
Record sc_ok (s : sessionController.t) : Prop := {
  ok_locked : s.(sessionController.locked) = true -> settled_state s.(sessionController.state) = true;
  ok_ticket : s.(sessionController.state) ∈ [SessionTicketExtInitialized; SessionTicketExtAllSet] ->
    s.(sessionController.sessionTicketExt) <> None;
  ok_psk : s.(sessionController.state) ∈ [PskExtInitialized; PskExtAllSet] -> s.(sessionController.pskExtension) <> None
}.
(** What a lock fixes: the controller with its extensions, and the session and the early
    secret of [HandshakeState], with which the handshake resumes. *)
Definition same_session c c' : Prop :=
  c'.(sc).(sessionController.state) = c.(sc).(sessionController.state) /\
  c'.(sc).(sessionController.sessionTicketExt) = c.(sc).(sessionController.sessionTicketExt) /\
  c'.(sc).(sessionController.pskExtension) = c.(sc).(sessionController.pskExtension) /\
  c'.(sc).(sessionController.locked) = c.(sc).(sessionController.locked) /\
  c'.(Session) = c.(Session) /\ c'.(EarlySecret) = c.(EarlySecret).

Definition good c c' : Prop :=
  sc_ok c.(sc) -> sc_ok c'.(sc) /\ (c.(sc).(sessionController.locked) = true -> same_session c c').
Definition goodly {A} (m : M A) : Prop := forall c c' a, m c = Ret (c', a) -> good c c'.

Lemma good_same c c' : same_session c c' -> good c c'.
Proof.
  intros Hs [H1 H2 H3]. pose proof Hs as (Hst & Ht & Hp & Hl & _). split; [|done]. constructor.
  - intros Hc. rewrite Hst. apply H1. by rewrite <- Hl.
  - rewrite Hst, Ht. exact H2.
  - rewrite Hst, Hp. exact H3.
Qed.
Lemma good_refl c : good c c.
Proof. by apply good_same. Qed.
Lemma good_trans c1 c2 c3 : good c1 c2 -> good c2 c3 -> good c1 c3.
Proof.
  intros H1 H2 Hok. destruct (H1 Hok) as [Hok2 Hs]. destruct (H2 Hok2) as [Hok3 Hs2]. split; [done|]. intros Hl.
  pose proof (Hs Hl) as (? & ? & ? & Hl2 & ? & ?). rewrite Hl in Hl2. destruct (Hs2 Hl2) as (? & ? & ? & ? & ? & ?). unfold same_session. intuition congruence.
Qed.

Lemma goodly_ret {A} (a : A) : goodly (ret a).
Proof. intros c c' x [= <- _]. apply good_refl. Qed.
Lemma goodly_bind {A B} (m : M A) (k : A -> M B) : goodly m -> (forall a, goodly (k a)) -> goodly (bind m k).
Proof. intros Hm Hk c c' b (c1 & a & H1 & H2)%session_bind_inv. eapply good_trans; [by eapply Hm|by eapply Hk]. Qed.
Lemma goodly_get {A} (f : conn -> A) : goodly (get f).
Proof. intros c c' x [= <- _]. apply good_refl. Qed.
Lemma goodly_lift {A} (o : outcome A) : goodly (lift o).
Proof. intros c c' x. unfold lift. destruct o; [done|]. intros [= <- _]. apply good_refl. Qed.
Lemma goodly_panic {A} : goodly (@panic X I Ks A).
Proof. done. Qed.
Lemma goodly_assert b : goodly (uAssert b).
Proof. intros c c' x [-> _]%uAssert_inv. apply good_refl. Qed.
Lemma goodly_modify f : (forall c, same_session c (f c)) -> goodly (modify f).
Proof. intros H c c' x [= <- _]. by apply good_same. Qed.
Lemma goodly_deref {A} (o : option A) : goodly (deref (X := X) (I := I) (Ks := Ks) o).
Proof. destruct o; [apply goodly_ret|done]. Qed.
Lemma goodly_object l : goodly (object l).
Proof. intros c c' x. unfold object. destruct (_ !! l); [|done]. intros [= <- _]. apply good_refl. Qed.

Create HintDb goodly.
Hint Resolve good_refl goodly_ret goodly_get goodly_lift goodly_panic goodly_assert goodly_deref goodly_object : goodly.
Hint Extern 1 (goodly (modify _)) => apply goodly_modify; done : goodly.
Hint Extern 1 (goodly (mbind _ _)) => apply goodly_bind : goodly.
Hint Extern 1 (goodly (bind _ _)) => apply goodly_bind : goodly.
Hint Extern 2 (goodly (match ?x with _ => _ end)) => destruct x : goodly.
Ltac goodly := auto 40 with goodly.

Lemma goodly_update l x : goodly (update l x).
Proof. unfold update. goodly. Qed.
Lemma goodly_ticket_at l : goodly (ticket_at l).
Proof. unfold ticket_at. goodly. Qed.
Hint Resolve goodly_update goodly_ticket_at : goodly.

(** ** The operations of the controller *)

(** Computations that leave the controller and the session alone. *)
Definition kept c c' : Prop := c'.(sc) = c.(sc) /\ c'.(Session) = c.(Session) /\ c'.(EarlySecret) = c.(EarlySecret).
Definition keeps {A} (m : M A) : Prop := forall c c' a, m c = Ret (c', a) -> kept c c'.

Lemma kept_good c c' : kept c c' -> good c c'.
Proof. intros (Hk & ? & ?). apply good_same. unfold same_session. by rewrite Hk. Qed.
Lemma keeps_goodly {A} (m : M A) : keeps m -> goodly m.
Proof. intros H c c' a Hm. exact (kept_good _ _ (H _ _ _ Hm)). Qed.
Lemma keeps_ret {A} (a : A) : keeps (ret a).
Proof. by intros c c' x [= <- _]. Qed.
Lemma keeps_bind {A B} (m : M A) (k : A -> M B) : keeps m -> (forall a, keeps (k a)) -> keeps (bind m k).
Proof. intros Hm Hk c c' b (c1 & a & H1 & H2)%session_bind_inv. apply Hm in H1. apply Hk in H2. unfold kept in *. intuition congruence. Qed.
Lemma keeps_get {A} (f : conn -> A) : keeps (get f).
Proof. by intros c c' x [= <- _]. Qed.
Lemma keeps_lift {A} (o : outcome A) : keeps (lift o).
Proof. intros c c' x. unfold lift. destruct o; [done|]. by intros [= <- _]. Qed.
Lemma keeps_panic {A} : keeps (@panic X I Ks A).
Proof. done. Qed.
Lemma keeps_assert b : keeps (uAssert b).
Proof. by intros c c' x [-> _]%uAssert_inv. Qed.
Lemma keeps_modify f : (forall c, kept c (f c)) -> keeps (modify f).
Proof. intros H c c' x [= <- _]. apply H. Qed.
Lemma keeps_deref {A} (o : option A) : keeps (deref (X := X) (I := I) (Ks := Ks) o).
Proof. destruct o; [apply keeps_ret|done]. Qed.
Lemma keeps_object l : keeps (object l).
Proof. intros c c' x. unfold object. destruct (_ !! l); [|done]. by intros [= <- _]. Qed.

Create HintDb keeps.
Hint Resolve keeps_ret keeps_get keeps_lift keeps_panic keeps_assert keeps_deref keeps_object : keeps.
Hint Extern 1 (keeps (modify _)) => apply keeps_modify; done : keeps.
Hint Extern 1 (keeps (mbind _ _)) => apply keeps_bind : keeps.
Hint Extern 1 (keeps (bind _ _)) => apply keeps_bind : keeps.
Hint Extern 2 (keeps (match ?x with _ => _ end)) => destruct x : keeps.
Ltac keeps := auto 40 with keeps.

Lemma keeps_update l x : keeps (update l x).
Proof. unfold update. keeps. Qed.
Lemma keeps_ticket_at l : keeps (ticket_at l).
Proof. unfold ticket_at. keeps. Qed.
Hint Resolve keeps_update keeps_ticket_at : keeps.

(** Steps over the head of a computation: its assertion, or that the controller is
    as it was. *)
Ltac step H :=
  let c1 := fresh "c" in let a := fresh "a" in let Hs := fresh "Hs" in
  apply session_bind_inv in H as (c1 & a & Hs & H); cbn beta in H;
  lazymatch type of Hs with
  | uAssert _ _ = _ => apply uAssert_inv in Hs as [-> Hs]
  | _ => first [injection Hs as <- <- | apply (fun K => K _ _ _ Hs) in Hs]
  end.
Ltac skip H :=
  let c1 := fresh "c" in let a := fresh "a" in let Hs := fresh "Hs" in
  apply session_bind_inv in H as (c1 & a & Hs & H); cbn beta in H;
  let Hk := fresh "Hk" in let Hr := fresh "Hr" in assert (kept _ c1) as [Hk Hr] by (refine ((_ : keeps _) _ _ _ Hs); keeps); clear Hs.

(** Moving to a state that has its extension, when not locked or to the same. *)
Lemma good_state v c c1 : c1.(sc) = c.(sc) ->
  (c.(sc).(sessionController.locked) = true -> v = state c /\ c1.(Session) = c.(Session) /\ c1.(EarlySecret) = c.(EarlySecret)) ->
  (v ∈ [SessionTicketExtInitialized; SessionTicketExtAllSet] -> c.(sc).(sessionController.sessionTicketExt) <> None) ->
  (v ∈ [PskExtInitialized; PskExtAllSet] -> c.(sc).(sessionController.pskExtension) <> None) ->
  good c (on_sc (sessionController.set_state v) c1).
Proof.
  intros Hc Hl Ht Hp [H1 H2 H3]. cbn. rewrite Hc. split.
  - constructor; cbn; [|done|done]. intros Hk. rewrite (proj1 (Hl Hk)). by apply H1.
  - intros Hk. destruct (Hl Hk) as (-> & ? & ?). unfold same_session. cbn. by rewrite Hc.
Qed.

Lemma goodly_finalCheck : goodly finalCheck.
Proof.
  intros c c' a H. unfold finalCheck, assertControllerState in H. step H. injection H as <- _.
  intros [H1 H2 H3]. cbn. split; [|intros Hl; unfold same_session; cbn; by rewrite Hl].
  constructor; cbn; [|done|done]. intros _. apply bool_decide_eq_true_1 in Hs. unfold state in Hs. set_unfold in Hs.
  by destruct Hs as [-> | [-> | [-> | []]]].
Qed.

Lemma goodly_initTicket s t : goodly (initSessionTicketExt s t).
Proof.
  intros c c' a H. unfold initSessionTicketExt, assertNotLocked, assertHelloNotBuilt, assertControllerState in H.
  step H. step H. step H. step H. apply negb_true_iff in Hs.
  destruct (sessionController.sessionTicketExt (sc c)) as [l|] eqn:El; [|apply uAssert_inv in H as [-> _]; apply good_refl].
  skip H. step H. skip H. skip H. step H. injection H as <- _.
  apply good_state; [congruence|unfold isSessionLocked in Hs; congruence|by rewrite El|set_solver].
Qed.

Lemma goodly_initPsk s e b ids : goodly (initPskExt s e b ids).
Proof.
  intros c c' a H. unfold initPskExt, assertNotLocked, assertHelloNotBuilt, assertControllerState in H.
  step H. step H. step H. step H. apply negb_true_iff in Hs.
  destruct (sessionController.pskExtension (sc c)) as [l|] eqn:El; [|apply uAssert_inv in H as [-> _]; apply good_refl].
  skip H. step H. skip H. skip H. step H. injection H as <- _.
  apply good_state; [congruence|unfold isSessionLocked in Hs; congruence|set_solver|by rewrite El].
Qed.

Lemma goodly_setTicket : goodly setSessionTicketToUConn.
Proof.
  intros c c' a H. unfold setSessionTicketToUConn in H. step H. step H. apply andb_prop in Hs as [Hn Hst].
  apply bool_decide_eq_true_1 in Hst. skip H. skip H. step H. step H. injection H as <- _. intros Hok.
  apply (good_state SessionTicketExtAllSet c); [cbn; congruence| |by destruct (sessionController.sessionTicketExt (sc c))|set_solver|done].
  intros Hl. destruct Hok as [Hl' _ _]. specialize (Hl' Hl). unfold state in Hst. by rewrite Hst in Hl'.
Qed.

Lemma goodly_setPsk : goodly setPskToUConn.
Proof.
  intros c c' a H. unfold setPskToUConn in H. step H. step H. apply andb_prop in Hs as [Hn Hst].
  apply bool_decide_eq_true_1 in Hst. skip H. skip H. skip H. step H. apply session_bind_inv in H as (d & [] & Hm & H). cbn beta in H.
  match type of Hm with _ ?z = _ => assert (Hd : d.(sc) = z.(sc) /\ (state z = PskExtAllSet -> d = z)) by
    (destruct (state z); first [by injection Hm as <- | apply uAssert_inv in Hm as [-> _]; done | by do 3 step Hm; injection Hm as <-]) end.
  destruct Hd as [Hd1 Hd2]. step H. injection H as <- _. intros Hok.
  apply (good_state PskExtAllSet c); [cbn; congruence| |set_solver|by destruct (sessionController.pskExtension (sc c))|done].
  intros Hl. destruct Hok as [Hl' _ _]. specialize (Hl' Hl). unfold state in *. set_unfold in Hst. destruct Hst as [Hst|[Hst|[]]]; [by rewrite Hst in Hl'|].
  cbn. rewrite Hd2 by congruence. intuition congruence.
Qed.

Lemma keeps_updateBinders : keeps updateBinders.
Proof.
  unfold updateBinders. apply keeps_bind; [keeps|]. intros []. apply keeps_bind; [keeps|]. intros e. apply keeps_bind; [keeps|]. intros l.
  apply keeps_bind; [keeps|]. intros x. apply keeps_bind; [keeps|]. intros h. apply keeps_bind; [keeps|]. intros [[x' h'] err]. keeps.
Qed.

(** An extension given by the user, before the session is locked. *)
Lemma good_override c c' initialized override st a : overrideExtension initialized override st c = Ret (c', a) ->
  (forall c, (override c).(sc).(sessionController.locked) = c.(sc).(sessionController.locked) /\ state (override c) = state c) ->
  (st ∈ [SessionTicketExtInitialized; SessionTicketExtAllSet] -> (override c).(sc).(sessionController.sessionTicketExt) <> None) ->
  (st ∈ [PskExtInitialized; PskExtAllSet] -> (override c).(sc).(sessionController.pskExtension) <> None) -> good c c'.
Proof.
  intros H Ho Ht Hp. unfold overrideExtension, assertNotLocked, assertControllerState in H. step H. step H. apply negb_true_iff in Hs.
  apply bool_decide_eq_true_1 in Hs0. set_unfold in Hs0. destruct Hs0 as [Hst|[]].
  apply session_bind_inv in H as (c1 & [] & [= <-] & H). cbn beta in H. destruct (Ho c) as [Hl Hs'].
  apply session_bind_inv in H as (c2 & [] & H1 & [= <- _]). unfold isSessionLocked in Hs. intros _.
  split; [|congruence]. unfold state in *. destruct initialized; injection H1 as <-.
  - constructor; cbn; [congruence|done|done].
  - constructor; rewrite ?Hs', ?Hst; [congruence|set_solver|set_solver].
Qed.

Lemma goodly_overridePsk l : goodly (overridePskExt l).
Proof.
  intros c c' a H. unfold overridePskExt in H. skip H. apply (good_trans c c0); [by apply kept_good|].
  eapply good_override; [exact H|done|set_solver|done].
Qed.
Lemma goodly_overrideTicket l : goodly (overrideSessionTicketExt l).
Proof.
  intros c c' a H. unfold overrideSessionTicketExt in H. skip H. apply (good_trans c c0); [by apply kept_good|].
  eapply good_override; [exact H|done|done|set_solver].
Qed.

(** The loop over the extensions fills in what the controller lacks. *)
Definition filled c c' : Prop :=
  state c' = state c /\ c'.(sc).(sessionController.locked) = c.(sc).(sessionController.locked) /\
  (c.(sc).(sessionController.sessionTicketExt) <> None -> c'.(sc).(sessionController.sessionTicketExt) <> None) /\
  (c.(sc).(sessionController.pskExtension) <> None -> c'.(sc).(sessionController.pskExtension) <> None).
Lemma filled_same c c' : c'.(sc) = c.(sc) -> filled c c'.
Proof. unfold filled, state. by intros ->. Qed.
Lemma filled_trans c1 c2 c3 : filled c1 c2 -> filled c2 c3 -> filled c1 c3.
Proof. unfold filled. intuition congruence. Qed.

Definition fills {A} (m : M A) : Prop := forall c c' a, m c = Ret (c', a) -> filled c c'.
Lemma fills_keeps {A} (m : M A) : keeps m -> fills m.
Proof. intros H c c' a Hm. apply filled_same, (proj1 (H _ _ _ Hm)). Qed.
Lemma fills_bind {A B} (m : M A) (k : A -> M B) : fills m -> (forall a, fills (k a)) -> fills (bind m k).
Proof. intros Hm Hk c c' b (c1 & a & H1 & H2)%session_bind_inv. eapply filled_trans; [by eapply Hm|by eapply Hk]. Qed.
Lemma fills_ticket l : fills (modify (on_sc (sessionController.set_sessionTicketExt (Some l)))).
Proof. by intros c c' a [= <- _]. Qed.
Lemma fills_psk l : fills (modify (on_sc (sessionController.set_pskExtension (Some l)))).
Proof. by intros c c' a [= <- _]. Qed.

Create HintDb fills.
Hint Resolve fills_ticket fills_psk : fills.
Hint Extern 1 (fills (mbind _ _)) => apply fills_bind : fills.
Hint Extern 1 (fills (match ?x with _ => _ end)) => destruct x : fills.
Hint Extern 3 (fills _) => apply fills_keeps; solve [keeps] : fills.

Lemma fills_sync_ext n i l found : fills (sync_ext n i l found).
Proof. unfold sync_ext. destruct found as [num has]. apply fills_bind; [apply fills_keeps; keeps|]. intros x. destruct x; auto 20 with fills. Qed.
Lemma fills_sync_exts n i ls found : fills (sync_exts n i ls found).
Proof.
  revert i found. induction ls as [|l ls IH]; intros i found; cbn [sync_exts]; [apply fills_keeps; keeps|].
  apply fills_bind; [apply fills_sync_ext|done].
Qed.

Lemma not_pending s (P : Prop) : s ∈ [NoSession; SessionTicketExtInitialized; PskExtInitialized] -> s <> SessionTicketExtInitialized ->
  s ∈ [SessionTicketExtInitialized; SessionTicketExtAllSet] -> P.
Proof. set_unfold. destruct s; intuition discriminate. Qed.
Lemma not_pending_psk s (P : Prop) : s ∈ [NoSession; SessionTicketExtInitialized; PskExtInitialized] -> s <> PskExtInitialized ->
  s ∈ [PskExtInitialized; PskExtAllSet] -> P.
Proof. set_unfold. destruct s; intuition discriminate. Qed.

Lemma goodly_sync : goodly syncSessionExts.
Proof.
  intros c c' a H. unfold syncSessionExts, assertNotLocked, assertHelloNotBuilt, assertControllerState in H.
  step H. step H. step H. step H. step H. apply negb_true_iff in Hs0. apply bool_decide_eq_true_1 in Hs2.
  apply session_bind_inv in H as (c1 & [num has] & H1 & H). cbn beta in H. apply fills_sync_exts in H1 as (Hst & Hl & Ht & Hp).
  apply session_bind_inv in H as (c2 & st & [= <- <-] & H). cbn beta in H. unfold isSessionLocked, state in *.
  intros [_ Hok2 Hok3]. assert (Hl1 : c1.(sc).(sessionController.locked) = false) by congruence.
  assert (Hkeep : sc_ok c1.(sc)) by (constructor; [congruence|rewrite Hst; auto|rewrite Hst; auto]).
  destruct ((num =? 0) && bool_decide _) eqn:E1; [injection H as <- _; split; [done|congruence]|].
  apply session_bind_inv in H as (c2 & [] & H1 & H). cbn beta in H.
  assert (H2 : sc_ok c2.(sc) /\ c2.(sc).(sessionController.locked) = false /\ c2.(sc).(sessionController.state) = c1.(sc).(sessionController.state)).
  { destruct (num =? 0); injection H1 as <-; [|done]. cbn [andb] in E1. apply bool_decide_eq_false_1 in E1. destruct Hkeep as [_ _ K3].
    split_and!; [|done|done]. constructor; cbn; [congruence| |done]. rewrite Hst in E1 |- *. by apply not_pending. }
  destruct H2 as (H2 & Hl2 & Hst2). destruct (negb has && bool_decide _) eqn:E2; [injection H as <- _; split; [done|congruence]|].
  apply session_bind_inv in H as (c3 & [] & H3 & [= <- _]). split; [|congruence].
  destruct has; injection H3 as <-; [done|]. cbn [negb andb] in E2. apply bool_decide_eq_false_1 in E2. destruct H2 as [_ K2 _].
  constructor; cbn; [congruence|done|]. rewrite Hst in E2. rewrite Hst2, Hst. by apply not_pending_psk.
Qed.

(** ** Loading a session *)

Lemma goodly_load_psk now key s h : goodly (load_psk now key s h).
Proof. unfold load_psk, forget_session, shouldLoadSessionWriteBinders. goodly. Qed.
Lemma goodly_load_body now h : goodly (load_session_body now h).
Proof. pose proof goodly_load_psk. unfold load_session_body, forget_session. goodly. Qed.
Lemma goodly_loadSession now h : goodly (loadSession now h).
Proof.
  pose proof goodly_load_body. unfold loadSession, onEnterLoadSessionCheck, onLoadSessionReturn. goodly.
Qed.

Lemma goodly_uLoadSession now : goodly (uLoadSession now).
Proof.
  pose proof goodly_loadSession. pose proof goodly_initTicket. pose proof goodly_initPsk. pose proof goodly_setTicket. pose proof goodly_setPsk.
  unfold uLoadSession, utlsAboutToLoadSession. goodly.
Qed.

(** ** Applying a specification *)

Hint Resolve keeps_goodly : goodly.

Lemma keeps_readFull n : keeps (readFull n).
Proof. intros c c' a. unfold readFull. destruct (ReadFull n c.(rand)). by intros [= <- _]. Qed.
Lemma keeps_generate id : keeps (generateECDHEKey id).
Proof. intros c c' a. unfold generateECDHEKey. case_match; [by intros [= <- _]|]. destruct (GenerateKey id c.(rand)). by intros [= <- _]. Qed.
Hint Resolve keeps_readFull keeps_generate : keeps.
Lemma keeps_ok {A B} (m : M (res A)) (k : A -> M (res B)) : keeps m -> (forall a, keeps (k a)) -> keeps (ok m k).
Proof. intros Hm Hk. unfold ok. keeps. Qed.
Hint Resolve keeps_ok : keeps.

Lemma keeps_versions_loop ls n a b : keeps (versions_loop ls n a b).
Proof.
  revert n a b. induction ls as [|l ls IH]; intros n a b; cbn [versions_loop]; [keeps|]. apply keeps_bind; [keeps|]. intros x.
  destruct x; try apply IH. destruct (find_versions _ _ _). keeps.
Qed.
Hint Resolve keeps_versions_loop : keeps.
Lemma keeps_SetTLSVers a b ls : keeps (SetTLSVers a b ls).
Proof. unfold SetTLSVers. keeps. Qed.

Lemma keeps_on_keys f : keeps (on_keys f).
Proof. unfold on_keys. keeps. Qed.
Hint Resolve keeps_on_keys : keeps.
Lemma keeps_share_key id b : keeps (share_key id b).
Proof. unfold share_key. keeps. Qed.
Hint Resolve keeps_share_key : keeps.
Lemma keeps_share_loop l b : keeps (share_loop l b).
Proof. revert b. induction l as [|ks l IH]; intros b; cbn [share_loop]; keeps. Qed.
Hint Resolve keeps_share_loop : keeps.
Lemma keeps_preset_ext l found : keeps (preset_ext l found).
Proof.
  unfold preset_ext. destruct found as [seen npn]. apply keeps_bind; [keeps|]. intros x. apply keeps_bind; [keeps|]. intros seed.
  apply keeps_bind; [keeps|]. intros cfg. destruct x; keeps.
Qed.
Hint Resolve keeps_preset_ext : keeps.
Lemma keeps_preset_exts ls found : keeps (preset_exts ls found).
Proof. revert found. induction ls as [|l ls IH]; intros found; cbn [preset_exts]; keeps. Qed.
Hint Resolve keeps_preset_exts : keeps.

Context (hardware : bool) (supported : list cipherSuite.t).
Lemma keeps_start_hello : keeps (start_hello hardware supported).
Proof. unfold start_hello. keeps. Qed.
Lemma keeps_first_share h id : keeps (first_share h id).
Proof. unfold first_share. keeps. Qed.
Lemma keeps_hello_ech h : keeps (hello_ech h).
Proof. unfold hello_ech. keeps. Qed.
Hint Resolve keeps_start_hello keeps_first_share keeps_hello_ech : keeps.
Lemma keeps_make : keeps (makeClientHelloForApplyPreset hardware supported).
Proof. unfold makeClientHelloForApplyPreset. keeps. Qed.
Lemma keeps_makeClientHello : keeps (makeClientHello hardware supported).
Proof. unfold makeClientHello. keeps. Qed.

Lemma goodly_unless m k : goodly m -> goodly k -> goodly (unless m k).
Proof. intros Hm Hk. unfold unless. goodly. Qed.
Lemma keeps_unless m k : keeps m -> keeps k -> keeps (unless m k).
Proof. intros Hm Hk. unfold unless. keeps. Qed.
Lemma keeps_install m : keeps (install m).
Proof. unfold install, hello_random. destruct m as [[h k] e]. pose proof keeps_unless. keeps. Qed.
Lemma keeps_choose_seed p : keeps (choose_seed p).
Proof. unfold choose_seed. keeps. Qed.

Lemma goodly_install_spec p : goodly (install_spec p).
Proof. pose proof goodly_sync. unfold install_spec. apply goodly_bind; [goodly|]. intros seed. apply goodly_bind; [goodly|]. intros suites.
  apply goodly_bind; [goodly|]. intros []. apply goodly_bind; [apply keeps_goodly; keeps|]. intros [|id]; [goodly|].
  apply goodly_bind; [goodly|]. intros []. apply goodly_bind; [goodly|]. intros []. apply goodly_bind; [apply keeps_goodly; keeps|]. goodly.
Qed.
Lemma goodly_ApplyPreset p : goodly (ApplyPreset hardware supported p).
Proof.
  unfold ApplyPreset. apply goodly_unless; [apply keeps_goodly, keeps_SetTLSVers|]. apply goodly_bind; [apply keeps_goodly, keeps_make|].
  intros [e|m]; [goodly|]. apply goodly_unless; [apply keeps_goodly, keeps_install|].
  apply goodly_unless; [apply keeps_goodly, keeps_choose_seed|apply goodly_install_spec].
Qed.

Lemma keeps_alloc x : keeps (alloc x).
Proof. by intros c c' a [= <- _]. Qed.
Lemma keeps_alloc_all xs : keeps (alloc_all xs).
Proof. pose proof keeps_alloc. induction xs as [|x xs IH]; cbn [alloc_all]; keeps. Qed.
Context (generateRandomizedSpec : ClientHelloID.t -> bytes -> list bytes -> ClientHelloID.t * outcome (res (@spec X))) (r_preset : parrot_rand).
Lemma keeps_generateRandomizedSpec : keeps (UConn_generateRandomizedSpec generateRandomizedSpec).
Proof. unfold UConn_generateRandomizedSpec. keeps. Qed.
Lemma keeps_choose_spec id r : keeps (choose_spec generateRandomizedSpec id r).
Proof. pose proof keeps_alloc_all. pose proof keeps_generateRandomizedSpec. unfold choose_spec, alloc_spec. keeps. Qed.
Lemma goodly_applyPresetByID id r : goodly (applyPresetByID hardware supported generateRandomizedSpec id r).
Proof.
  pose proof goodly_ApplyPreset. unfold applyPresetByID. apply goodly_bind; [goodly|]. intros [p|]; [done|].
  apply goodly_bind; [apply keeps_goodly, keeps_choose_spec|]. intros [e|[p|]]; goodly.
Qed.

(** ** Building *)

Context (spare : bytes -> bytes) (useFallbackMode : bool).

Lemma keeps_marshalNoECH : keeps (marshalNoECH spare).
Proof.
  intros c c' a. unfold marshalNoECH. destruct (mapM _ _) as [xs|]; [|done].
  destruct (MarshalClientHelloNoECH _ _ _) as [|[[xs' h] e]]; [done|]. by intros [= <- _].
Qed.
Hint Resolve keeps_marshalNoECH : keeps.
Lemma keeps_writeToUConn l : keeps (writeToUConn spare l).
Proof.
  unfold writeToUConn. apply keeps_bind; [keeps|]. intros x. destruct x; keeps.
Qed.
Hint Resolve keeps_writeToUConn : keeps.
Lemma keeps_ApplyConfig : keeps (ApplyConfig spare).
Proof.
  unfold ApplyConfig. apply keeps_bind; [keeps|]. intros ls. induction ls as [|l ls IH]; cbn [apply_exts]; keeps.
Qed.

(** The marshalling of a hello with Encrypted ClientHello leaves the controller
    alone. *)
Lemma keeps_extensionsList : keeps extensionsList.
Proof.
  unfold extensionsList. apply keeps_bind; [keeps|]. intros ls. induction ls as [|l ls IH]; cbn [types_loop]; [keeps|].
  apply keeps_bind; [unfold read_type; keeps|]. keeps.
Qed.
Lemma keeps_ech_index ls i : keeps (ech_index ls i).
Proof. revert i. induction ls as [|l ls IH]; intros i; cbn [ech_index]; keeps. Qed.
Lemma keeps_set_ext i l : keeps (set_ext i l).
Proof. unfold set_ext. keeps. Qed.
Lemma keeps_put_ech i b : keeps (put_ech i b).
Proof. pose proof keeps_set_ext. unfold put_ech. apply keeps_bind; [|keeps]. unfold alloc. by intros c c' a [= <- _]. Qed.
Lemma keeps_fix_binder so oe ei inner ech : keeps (fix_binder so oe ei inner ech).
Proof. unfold fix_binder. keeps. Qed.
Hint Resolve keeps_extensionsList keeps_ech_index keeps_set_ext keeps_put_ech keeps_fix_binder : keeps.
Lemma keeps_outer_ech ech useKey outerExts p :
  keeps (computeAndUpdateOuterECHExtensionWithOuterExts spare useFallbackMode ech useKey outerExts p).
Proof. unfold computeAndUpdateOuterECHExtensionWithOuterExts, serialized_outer. keeps. Qed.
Lemma keeps_first_ext {A} (f : Ext X -> option A) ls : keeps (first_ext f ls).
Proof. induction ls as [|l ls IH]; cbn [first_ext]; keeps. Qed.
Hint Resolve keeps_outer_ech keeps_first_ext : keeps.
Lemma keeps_random_bytes n : keeps (random_bytes n).
Proof. unfold random_bytes. keeps. Qed.
Hint Resolve keeps_random_bytes : keeps.
Lemma keeps_grease_psk l e : keeps (grease_psk l e).
Proof.
  unfold grease_psk. apply keeps_bind; [induction (UtlsPreSharedKeyExtension.Identities e); cbn [grease_identities]; keeps|]. intros ids.
  apply keeps_bind; [induction (UtlsPreSharedKeyExtension.Binders e); cbn [grease_binders]; keeps|]. intros bs.
  repeat (apply keeps_bind; [apply keeps_modify; intros c; by case_match|intros _]). keeps.
Qed.
Lemma keeps_prepare_psk inner : keeps (prepare_psk useFallbackMode inner).
Proof. pose proof keeps_grease_psk. unfold prepare_psk, inner_psk, ok. keeps. Qed.
Lemma keeps_marshalECH : keeps (marshalECH spare useFallbackMode hardware supported).
Proof.
  pose proof keeps_prepare_psk. pose proof keeps_makeClientHello. unfold marshalECH, inner_qtp, set_server_name, computeAndUpdateOuterECHExtension. keeps.
Qed.
Lemma keeps_Marshal : keeps (MarshalClientHello spare useFallbackMode hardware supported).
Proof. pose proof keeps_marshalECH. unfold MarshalClientHello. apply keeps_unless; [apply keeps_ApplyConfig|]. keeps. Qed.

Lemma goodly_patch : goodly uApplyPatch.
Proof. pose proof goodly_setPsk. pose proof (keeps_goodly _ keeps_updateBinders). unfold uApplyPatch. goodly. Qed.

Lemma keeps_without_SNI ls : keeps (without_SNI ls).
Proof. induction ls as [|l ls IH]; cbn [without_SNI]; keeps. Qed.
Lemma goodly_apply_preset : goodly (apply_preset hardware supported generateRandomizedSpec r_preset).
Proof.
  pose proof keeps_without_SNI. unfold apply_preset. apply goodly_bind; [goodly|]. intros id.
  apply goodly_unless; [apply goodly_applyPresetByID|]. unfold removeSNIExtension. apply keeps_goodly. keeps.
Qed.
Lemma keeps_build_golang : keeps (build_golang hardware supported).
Proof.
  unfold build_golang. apply keeps_bind; [apply keeps_makeClientHello|]. intros [e|[[h k] ech]]; keeps.
Qed.

Notation buildHandshakeState := (buildHandshakeState spare useFallbackMode hardware supported generateRandomizedSpec r_preset).
Lemma goodly_build now load : goodly (buildHandshakeState now load).
Proof.
  pose proof goodly_finalCheck. pose proof goodly_patch. unfold Build.buildHandshakeState.
  apply goodly_bind; [goodly|]. intros id. apply goodly_bind; [goodly|]. intros status. destruct (decide (id = HelloGolang)).
  { pose proof (keeps_goodly _ keeps_build_golang). goodly. }
  apply goodly_bind; [goodly|]. intros []. apply goodly_unless; [pose proof goodly_apply_preset; goodly|].
  apply goodly_unless; [apply keeps_goodly, keeps_ApplyConfig|]. apply goodly_unless; [pose proof goodly_uLoadSession; goodly|].
  apply goodly_bind; [goodly|]. intros st. apply goodly_unless; [pose proof (keeps_goodly _ keeps_Marshal); goodly|]. goodly.
Qed.

(** ** What a user can do *)

(** The calls that prepare a hello; a user also makes extension objects, for a
    specification of its own or to give them to the connection, and may change any of
    them at any time. *)
Inductive user_step c c' : Prop :=
  | us_object l x : c' = set_store (<[l := x]> c.(store)) c -> user_step c c'
  | us_versions low high ls e : SetTLSVers low high ls c = Ret (c', e) -> user_step c c'
  | us_no_ech e : marshalNoECH spare c = Ret (c', e) -> user_step c c'
  | us_cache ca : SetSessionCache ca c = Ret (c', tt) -> user_step c c'
  | us_ticket l e : SetSessionTicketExtension l c = Ret (c', e) -> user_step c c'
  | us_state l s e : c.(store) !! l = None -> SetSessionState l s c = Ret (c', e) -> user_step c c'
  | us_psk l e : SetPskExtension l c = Ret (c', e) -> user_step c c'
  | us_random r e : SetClientRandom r c = Ret (c', e) -> user_step c c'
  | us_SNI name : SetSNI name c = Ret (c', tt) -> user_step c c'
  | us_no_SNI e : RemoveSNIExtension c = Ret (c', e) -> user_step c c'
  | us_preset p e : ApplyPreset hardware supported p c = Ret (c', e) -> user_step c c'
  | us_config e : ApplyConfig spare c = Ret (c', e) -> user_step c c'
  | us_marshal e : MarshalClientHello spare useFallbackMode hardware supported c = Ret (c', e) -> user_step c c'
  | us_build now load e : buildHandshakeState now load c = Ret (c', e) -> user_step c c'.

Lemma user_step_good c c' : user_step c c' -> good c c'.
Proof.
  pose proof goodly_overrideTicket. pose proof goodly_overridePsk.
  assert (Ht : forall l, goodly (SetSessionTicketExtension l)) by (intros; unfold SetSessionTicketExtension; goodly).
  intros [l x ->|low high ls e Hc|e Hc|ca Hc|l e Hc|l s e _ Hc|l e Hc|r e Hc|name Hc|e Hc|p e Hc|e Hc|e Hc|now load e Hc].
  - by apply kept_good.
  - by eapply (keeps_goodly _ (keeps_SetTLSVers low high ls)).
  - by eapply (keeps_goodly _ keeps_marshalNoECH).
  - refine ((_ : goodly (SetSessionCache ca)) _ _ _ Hc). unfold SetSessionCache. goodly.
  - by eapply Ht.
  - refine ((_ : goodly (SetSessionState l s)) _ _ _ Hc). unfold SetSessionState. goodly.
  - refine ((_ : goodly (SetPskExtension l)) _ _ _ Hc). unfold SetPskExtension. goodly.
  - refine ((_ : goodly (SetClientRandom r)) _ _ _ Hc). unfold SetClientRandom. goodly.
  - refine ((_ : goodly (SetSNI name)) _ _ _ Hc). unfold SetSNI. apply goodly_bind; [goodly|]. intros []. apply goodly_bind; [goodly|].
    intros ls. induction ls as [|l ls IH]; cbn [name_exts]; goodly.
  - refine ((_ : goodly RemoveSNIExtension) _ _ _ Hc). unfold RemoveSNIExtension. goodly.
  - by eapply goodly_ApplyPreset.
  - by eapply (keeps_goodly _ keeps_ApplyConfig).
  - by eapply (keeps_goodly _ keeps_Marshal).
  - by eapply goodly_build.
Qed.

(** Calls that return, in sequence. *)
Definition reachable := rtc user_step.

Lemma reachable_good c c' : reachable c c' -> good c c'.
Proof. induction 1 as [c|c c1 c2 H _ IH]; [apply good_refl|]. eapply good_trans; [by apply user_step_good|done]. Qed.

Lemma new_ok : sc_ok sessionController.newSessionController.
Proof. by constructor; [|set_solver|set_solver]. Qed.

(** C19: whatever a user does with a new connection before its handshake, in any order
    (the exported calls that prepare a hello, and any change to the extension objects),
    the session controller is consistent: it is locked only with a session that is
    completely set or none, and it is in the state of an extension only when it holds
    that extension. *)
Theorem controller_invariant cfg ca addr r draws id c : reachable (UClient cfg ca addr r draws id) c -> sc_ok c.(sc).
Proof. intros H. apply reachable_good in H. apply H, new_ok. Qed.

(** What a successful build locks. *)
Lemma build_locks now c c' : c.(ClientHelloID) <> HelloGolang -> buildHandshakeState now true c = Ret (c', None) ->
  c'.(sc).(sessionController.locked) = true.
Proof.
  intros Hid Hb. unfold Build.buildHandshakeState in Hb. apply session_bind_inv in Hb as (d & id & [= <- <-] & Hb). cbn beta in Hb.
  apply session_bind_inv in Hb as (d & st & [= <- <-] & Hb). cbn beta in Hb. rewrite decide_False in Hb by done.
  apply session_bind_inv in Hb as (d & [] & _ & Hb). unfold unless in Hb. cbn beta in Hb.
  do 3 (apply session_bind_inv in Hb as (? & [e|] & _ & Hb); [done|]).
  apply session_bind_inv in Hb as (? & st' & _ & Hb). cbn beta in Hb. apply session_bind_inv in Hb as (? & [e|] & _ & Hb); [done|].
  apply session_bind_inv in Hb as (d1 & [] & Hp & Hb). injection Hb as <-.
  apply session_bind_inv in Hp as (d2 & [] & _ & Hp). unfold finalCheck in Hp. cbn beta in Hp.
  by apply session_bind_inv in Hp as (d3 & [] & _ & [= <-]).
Qed.

End Controller.

(** * Witnesses *)

Definition no_draws : parrot_rand :=
  MkParrotRand (fun k => k) (fun _ => MkEchDraws (Some 1) (fun _ => Some 0) (fun _ => Some 0) (inr (replicate 32 x01)) (fun _ => Some 0)
    (fun n => Some (replicate (Z.to_nat n) x02)))
    (fun _ => MkDraws (Some 27) (fun n => replicate n x01) (fun _ => Some 1) (fun _ => Some 1)).

#[local] Existing Instance plain_verify.
#[local] Existing Instance toy_keys.
#[local] Existing Instance Reference.ops.
#[local] Existing Instance toy_hash.
Definition example_config : Config.t := Config.set_ServerName (str "example.com") Config.zero.
Definition example_client (id : ClientHelloID.t) : conn :=
  UClient (X := plain_x509) (I := lru_cache _) (Ks := toy_keys) example_config None None 0%nat [] id.
Definition example_build (load : bool) : @M plain_x509 (lru_cache _) toy_keys (option gerror) :=
  buildHandshakeState (fun _ => []) false true utlsSupportedCipherSuites (fun id _ _ => (id, Ret (inl EOF))) no_draws 0 load.

Example firefox_builds : match example_build true (example_client HelloFirefox_120) with
  | Ret (c, None) => match clientHelloMsg.unmarshal (default [] (hello c).(PubClientHelloMsg.Raw)) with
      | Some m => m.(clientHelloMsg.serverName) = str "example.com" /\ len m.(clientHelloMsg.keyShares) = 2
      | None => False end
  | _ => False end.
Proof. vm_compute. done. Qed.

(** The connection after a call, and whether the call returns a value of [p]. *)
Definition after {A} (m : @M plain_x509 (lru_cache _) toy_keys A) c : conn := match m c with Ret (c', _) => c' | Panic => c end.
Definition returns {A} (p : A -> bool) (m : @M plain_x509 (lru_cache _) toy_keys A) c : bool :=
  match m c with Ret (_, a) => p a | Panic => false end.
Lemma after_ret {A} (a : A) p (m : M A) c : returns p m c = true -> (forall b, p b = true -> b = a) -> m c = Ret (after m c, a).
Proof. unfold returns, after. destruct (m c) as [|[c' b]]; [done|]. intros H E. by rewrite (E b H). Qed.

Definition is_none (e : option gerror) : bool := match e with None => true | _ => false end.

(** A specification of the user with two extensions, the second for a session ticket,
    and a session. *)
Definition own_spec : ClientHelloSpec.t nat := ClientHelloSpec.Mk [0xc02f] [x00] [0%nat; 1%nat] VersionTLS12 VersionTLS12 None [].
Definition own_session : session.ptr plain_x509 :=
  session.Ptr 5 (SessionState.Mk [] false VersionTLS12 true 0xc02f 0 (replicate 48 x09) true [] None None [] [] 0 0 (Some (str "ticket"))).

Abbreviation own_M := (@M plain_x509 (lru_cache _) toy_keys).
Definition put_object (l : nat) (x : Ext plain_x509) : own_M unit := modify (fun c => set_store (<[l := x]> c.(store)) c).
Definition give_cache : own_M unit := SetSessionCache (I := lru_cache (session.ptr plain_x509)) (Some (lruSessionCache.NewLRUClientSessionCache (S := session.ptr plain_x509) 4)).
Definition give_session : own_M (option gerror) := SetSessionState 2 (Some own_session).
Definition apply_spec : own_M (option gerror) := ApplyPreset true utlsSupportedCipherSuites own_spec.
Definition rename : own_M unit := SetSNI (str "other.example").

(** The connection before its hello is built, built, and after one more call. *)
Definition with_name : conn := after (put_object 0 (SNI (SNIExtension.Mk []))) (example_client HelloCustom).
Definition with_ticket : conn := after (put_object 1 (SessionTicket (SessionTicketExtension.Mk None [] false))) with_name.
Definition with_cache : conn := after give_cache with_ticket.
Definition with_session : conn := after give_session with_cache.
Definition prepared : conn := after apply_spec with_session.
Definition built : conn := after (example_build true) prepared.
Definition renamed : conn := after rename built.

Abbreviation own_step := (user_step (V := plain_verify) (C := Reference.ops) (K := toy_hash) true utlsSupportedCipherSuites (fun id _ _ => (id, Ret (inl EOF)))
  no_draws (fun _ => []) false).
Lemma step_object l x c : own_step c (after (put_object l x) c).
Proof. by apply (us_object _ _ _ _ _ _ _ _ l x). Qed.
Lemma step_cache c : own_step c (after give_cache c).
Proof. by eapply us_cache. Qed.
Lemma step_session c : c.(store) !! 2%nat = None -> returns is_none give_session c = true -> own_step c (after give_session c).
Proof. intros Hs H. eapply us_state; [exact Hs|]. apply (after_ret None is_none give_session c H). by intros []. Qed.
Lemma step_spec c : returns is_none apply_spec c = true -> own_step c (after apply_spec c).
Proof. intros H. eapply us_preset. apply (after_ret None is_none apply_spec c H). by intros []. Qed.
Lemma step_rename c : returns (fun _ => true) rename c = true -> own_step c (after rename c).
Proof. intros H. eapply us_SNI. apply (after_ret tt (fun _ => true) rename c H). by intros []. Qed.

Lemma session_given : returns is_none give_session with_cache = true.
Proof. vm_compute. reflexivity. Qed.
Lemma spec_applied : returns is_none apply_spec with_session = true.
Proof. vm_compute. reflexivity. Qed.
Lemma prepared_reachable : rtc own_step (example_client HelloCustom) prepared.
Proof.
  exact (rtc_l _ _ _ _ (step_object _ _ _) (rtc_l _ _ _ _ (step_object _ _ _) (rtc_l _ _ _ _ (step_cache _)
    (rtc_l _ _ _ _ (step_session with_cache eq_refl session_given) (rtc_once _ _ (step_spec with_session spec_applied)))))).
Qed.
Lemma built_ok : example_build true prepared = Ret (built, None).
Proof. apply (after_ret None is_none); [vm_compute; reflexivity|by intros []]. Qed.
Lemma rename_returns : returns (fun _ => true) rename built = true.
Proof. vm_compute. reflexivity. Qed.
Lemma renamed_reachable : rtc own_step built renamed.
Proof. exact (rtc_once _ _ (step_rename built rename_returns)). Qed.

(** The user's session is in place before the build. *)
Lemma controller_invariant_witness : sc_ok prepared.(sc) /\ state prepared = SessionTicketExtInitialized.
Proof.
  split; [|vm_compute; reflexivity].
  exact (controller_invariant (Ks := toy_keys) (V := plain_verify) (C := Reference.ops) (K := toy_hash) true utlsSupportedCipherSuites (fun id _ _ => (id, Ret (inl EOF))) no_draws
    (fun _ => []) false example_config None None 0%nat [] HelloCustom prepared prepared_reachable).
Defined.

Lemma custom_not_golang : ClientHelloID prepared <> HelloGolang.
Proof. vm_compute. discriminate. Qed.
