(* ===== verification/Peer.v ===== *)
(** * The state of a handshake

    The part of [Conn] that the handshakes use and the record layer does not, and
    the methods of [Conn] and [Config] that the handshakes of a client share
    (handshake_client.go, conn.go, ticket.go, common.go): [verifyServerCertificate],
    [getClientCertificate], [checkALPN], [pickTLSVersion], [writeKeyLog],
    [connectionStateLocked] and [sessionState].

    A computation of a handshake has a state, can panic, and ends with an error or a
    value; the monad [E] does what Go writes as [if err != nil { return err }].
    The code is that of a connection without QUIC and without FIPS mode. *)

From S2P Require Import Prelude Cryptobyte Common Config Negotiation Codec Buffer KeySchedule Record Names Messages RawMessages ServerHello ClientHello Ticket Caches Public Extensions Handshake Conn ECH Marshal Shuffle Parrots Session Preset Auth KeyAgreement.

(** ** Computations that fail *)

Definition E (S A : Type) : Type := S -> outcome (S * (connError + A)).

Section Monad.
Context {S : Type}.
Definition eret {A} (a : A) : E S A := fun s => Ret (s, inr a).
Definition throw {A} (e : connError) : E S A := fun s => Ret (s, inl e).
Definition ebind {A B} (m : E S A) (k : A -> E S B) : E S B := fun s =>
  run (s, r) := m s in match r with inl e => Ret (s, inl e) | inr a => k a s end.
#[export] Instance E_ret : MRet (E S) := @eret.
#[export] Instance E_bind : MBind (E S) := fun A B k m => ebind m k.

Definition crash {A} : E S A := fun _ => Panic.
Definition state : E S S := fun s => Ret (s, inr s).
Definition gets {A} (f : S -> A) : E S A := fun s => Ret (s, inr (f s)).
Definition emodify (f : S -> S) : E S unit := fun s => Ret (f s, inr tt).
Definition elift {A} (o : outcome A) : E S A := fun s => run a := o in Ret (s, inr a).
(** A nil pointer is dereferenced. *)
Definition ederef {A} (o : option A) : E S A := match o with Some a => eret a | None => crash end.
(** A result or its error. *)
Definition eres {A} (r : res A) : E S A := match r with inl e => throw (Plain e) | inr a => eret a end.
Definition raise (e : option connError) : E S unit := match e with Some e => throw e | None => eret tt end.
Definition when (b : bool) (m : E S unit) : E S unit := if b then m else eret tt.
(** The error of a computation, which goes on. *)
Definition caught {A} (m : E S A) : E S (connError + A) := fun s => run (s, r) := m s in Ret (s, inr r).
(** A computation on a part of the state. *)
Definition zoom {T A} (get : S -> T) (set : T -> S -> S) (m : E T A) : E S A := fun s =>
  run (t, r) := m (get s) in Ret (set t s, r).
End Monad.

Definition fail {S A} (msg : string) : E S A := throw (Plain (ErrorNew msg)).

(** ** Certificates *)

(** [x509.VerifyOptions]; without [Roots] those of the system are used. *)
Record VerifyOptions {certificate certPool : Type} := MkVerify {
  Roots : option certPool;
  CurrentTime : Z;
  DNSName : bytes;
  Intermediates : list certificate
}.
#[global] Arguments VerifyOptions : clear implicits.
#[global] Arguments MkVerify {certificate certPool}.

Class X509Chains (X : X509) {Ks : Keys} (S : Signing Ks) := {
  certPool : Type;
  x509_Verify : @certificate X -> VerifyOptions (@certificate X) certPool -> res (list (list (@certificate X)));
  RawIssuer : @certificate X -> bytes;
  rsa_BitLen : rsaPublic -> Z
}.

(** [CertificateRequestInfo] without the context. *)
Module CertificateRequestInfo.
Record t := Mk { AcceptableCAs : list bytes; SignatureSchemes : list Z; Version : Z }.
End CertificateRequestInfo.

(** ** The connection *)

(** The keying material that can be exported: of a TLS 1.3 master secret and a
    transcript, or of a master secret of TLS 1.2 and the two random values. *)
Inductive exporter :=
  | ekm13 (s : tls13.MasterSecret) (transcript : bytes)
  | ekm12 (version : Z) (suite : cipherSuite.t) (masterSecret clientRandom serverRandom : bytes).
Inductive exported := noEKMBecauseRenegotiation | noEKMBecauseNoEMS | connEKM (e : option exporter).

(** [ConnectionState] *)
Module ConnectionState.
Record t `{X : X509} := Mk {
  HandshakeComplete : bool;
  Version : Z;
  NegotiatedProtocol : bytes;
  DidResume : bool;
  testingOnlyDidHRR : bool;
  testingOnlyCurveID : Z;
  NegotiatedProtocolIsMutual : bool;
  ServerName : bytes;
  CipherSuite : Z;
  PeerCertificates : list certificate;
  VerifiedChains : list (list certificate);
  SignedCertificateTimestamps : option (list bytes);
  OCSPResponse : option bytes;
  TLSUnique : option bytes;
  ekm : exported;
  ECHAccepted : bool;
  PeerApplicationSettings : bytes
}.
#[global] Arguments t : clear implicits.
End ConnectionState.

(** [utlsConnExtraFields] of u_common.go *)
Module utlsConnExtraFields.
Record t := Mk { peerApplicationSettings : bytes; localApplicationSettings : bytes; applicationSettingsCodepoint : Z }.
End utlsConnExtraFields.

(** [Conn]: the record layer, the fields of the handshakes, and what they share with
    the configuration: [sessionCache] is [config.ClientSessionCache], [keyLog] what
    was written to [config.KeyLogWriter], and [nextSession] the address of the next
    session state.  The certificates stand for their handles in the cache. *)
Module tlsConn.
Record t {Cs : Ciphers} {Ks : Keys} {X : X509} {I : ClientSessionCache (session.ptr X)} := Mk {
  conn : Conn.t reader;
  serverName : bytes;
  curveID : Z;
  didResume : bool;
  didHRR : bool;
  extMasterSecret : bool;
  echAccepted : bool;
  clientProtocol : bytes;
  peerCertificates : list certificate;
  verifiedChains : list (list certificate);
  ocspResponse : option bytes;
  scts : option (list bytes);
  resumptionSecret : option bytes;
  ekm : option exporter;
  secureRenegotiation : bool;
  clientFinished : bytes;
  serverFinished : bytes;
  clientFinishedIsFirst : bool;
  utls : utlsConnExtraFields.t;
  sessionCache : option I.(cache);
  keyLog : list (string * bytes * bytes);
  nextSession : nat
}.
#[global] Arguments t {Cs Ks X I}.
#[global] Arguments Mk {Cs Ks X I}.
Section Set_.
Context {Cs : Ciphers} {Ks : Keys} {X : X509} {I : ClientSessionCache (session.ptr X)}.
Definition set_conn (v : Conn.t reader) (s : t) : t :=
  Mk v s.(serverName) s.(curveID) s.(didResume) s.(didHRR) s.(extMasterSecret) s.(echAccepted)
    s.(clientProtocol) s.(peerCertificates) s.(verifiedChains) s.(ocspResponse) s.(scts)
    s.(resumptionSecret) s.(ekm) s.(secureRenegotiation) s.(clientFinished) s.(serverFinished)
    s.(clientFinishedIsFirst) s.(utls) s.(sessionCache) s.(keyLog) s.(nextSession).
Definition set_serverName (v : bytes) (s : t) : t :=
  Mk s.(conn) v s.(curveID) s.(didResume) s.(didHRR) s.(extMasterSecret) s.(echAccepted)
    s.(clientProtocol) s.(peerCertificates) s.(verifiedChains) s.(ocspResponse) s.(scts)
    s.(resumptionSecret) s.(ekm) s.(secureRenegotiation) s.(clientFinished) s.(serverFinished)
    s.(clientFinishedIsFirst) s.(utls) s.(sessionCache) s.(keyLog) s.(nextSession).
Definition set_curveID (v : Z) (s : t) : t :=
  Mk s.(conn) s.(serverName) v s.(didResume) s.(didHRR) s.(extMasterSecret) s.(echAccepted)
    s.(clientProtocol) s.(peerCertificates) s.(verifiedChains) s.(ocspResponse) s.(scts)
    s.(resumptionSecret) s.(ekm) s.(secureRenegotiation) s.(clientFinished) s.(serverFinished)
    s.(clientFinishedIsFirst) s.(utls) s.(sessionCache) s.(keyLog) s.(nextSession).
Definition set_didResume (v : bool) (s : t) : t :=
  Mk s.(conn) s.(serverName) s.(curveID) v s.(didHRR) s.(extMasterSecret) s.(echAccepted)
    s.(clientProtocol) s.(peerCertificates) s.(verifiedChains) s.(ocspResponse) s.(scts)
    s.(resumptionSecret) s.(ekm) s.(secureRenegotiation) s.(clientFinished) s.(serverFinished)
    s.(clientFinishedIsFirst) s.(utls) s.(sessionCache) s.(keyLog) s.(nextSession).
Definition set_didHRR (v : bool) (s : t) : t :=
  Mk s.(conn) s.(serverName) s.(curveID) s.(didResume) v s.(extMasterSecret) s.(echAccepted)
    s.(clientProtocol) s.(peerCertificates) s.(verifiedChains) s.(ocspResponse) s.(scts)
    s.(resumptionSecret) s.(ekm) s.(secureRenegotiation) s.(clientFinished) s.(serverFinished)
    s.(clientFinishedIsFirst) s.(utls) s.(sessionCache) s.(keyLog) s.(nextSession).
Definition set_extMasterSecret (v : bool) (s : t) : t :=
  Mk s.(conn) s.(serverName) s.(curveID) s.(didResume) s.(didHRR) v s.(echAccepted)
    s.(clientProtocol) s.(peerCertificates) s.(verifiedChains) s.(ocspResponse) s.(scts)
    s.(resumptionSecret) s.(ekm) s.(secureRenegotiation) s.(clientFinished) s.(serverFinished)
    s.(clientFinishedIsFirst) s.(utls) s.(sessionCache) s.(keyLog) s.(nextSession).
Definition set_echAccepted (v : bool) (s : t) : t :=
  Mk s.(conn) s.(serverName) s.(curveID) s.(didResume) s.(didHRR) s.(extMasterSecret) v
    s.(clientProtocol) s.(peerCertificates) s.(verifiedChains) s.(ocspResponse) s.(scts)
    s.(resumptionSecret) s.(ekm) s.(secureRenegotiation) s.(clientFinished) s.(serverFinished)
    s.(clientFinishedIsFirst) s.(utls) s.(sessionCache) s.(keyLog) s.(nextSession).
Definition set_clientProtocol (v : bytes) (s : t) : t :=
  Mk s.(conn) s.(serverName) s.(curveID) s.(didResume) s.(didHRR) s.(extMasterSecret) s.(echAccepted)
    v s.(peerCertificates) s.(verifiedChains) s.(ocspResponse) s.(scts) s.(resumptionSecret) s.(ekm)
    s.(secureRenegotiation) s.(clientFinished) s.(serverFinished) s.(clientFinishedIsFirst) s.(utls)
    s.(sessionCache) s.(keyLog) s.(nextSession).
Definition set_peerCertificates (v : list certificate) (s : t) : t :=
  Mk s.(conn) s.(serverName) s.(curveID) s.(didResume) s.(didHRR) s.(extMasterSecret) s.(echAccepted)
    s.(clientProtocol) v s.(verifiedChains) s.(ocspResponse) s.(scts) s.(resumptionSecret) s.(ekm)
    s.(secureRenegotiation) s.(clientFinished) s.(serverFinished) s.(clientFinishedIsFirst) s.(utls)
    s.(sessionCache) s.(keyLog) s.(nextSession).
Definition set_verifiedChains (v : list (list certificate)) (s : t) : t :=
  Mk s.(conn) s.(serverName) s.(curveID) s.(didResume) s.(didHRR) s.(extMasterSecret) s.(echAccepted)
    s.(clientProtocol) s.(peerCertificates) v s.(ocspResponse) s.(scts) s.(resumptionSecret) s.(ekm)
    s.(secureRenegotiation) s.(clientFinished) s.(serverFinished) s.(clientFinishedIsFirst) s.(utls)
    s.(sessionCache) s.(keyLog) s.(nextSession).
Definition set_ocspResponse (v : option bytes) (s : t) : t :=
  Mk s.(conn) s.(serverName) s.(curveID) s.(didResume) s.(didHRR) s.(extMasterSecret) s.(echAccepted)
    s.(clientProtocol) s.(peerCertificates) s.(verifiedChains) v s.(scts) s.(resumptionSecret)
    s.(ekm) s.(secureRenegotiation) s.(clientFinished) s.(serverFinished) s.(clientFinishedIsFirst)
    s.(utls) s.(sessionCache) s.(keyLog) s.(nextSession).
Definition set_scts (v : option (list bytes)) (s : t) : t :=
  Mk s.(conn) s.(serverName) s.(curveID) s.(didResume) s.(didHRR) s.(extMasterSecret) s.(echAccepted)
    s.(clientProtocol) s.(peerCertificates) s.(verifiedChains) s.(ocspResponse) v
    s.(resumptionSecret) s.(ekm) s.(secureRenegotiation) s.(clientFinished) s.(serverFinished)
    s.(clientFinishedIsFirst) s.(utls) s.(sessionCache) s.(keyLog) s.(nextSession).
Definition set_resumptionSecret (v : option bytes) (s : t) : t :=
  Mk s.(conn) s.(serverName) s.(curveID) s.(didResume) s.(didHRR) s.(extMasterSecret) s.(echAccepted)
    s.(clientProtocol) s.(peerCertificates) s.(verifiedChains) s.(ocspResponse) s.(scts) v s.(ekm)
    s.(secureRenegotiation) s.(clientFinished) s.(serverFinished) s.(clientFinishedIsFirst) s.(utls)
    s.(sessionCache) s.(keyLog) s.(nextSession).
Definition set_ekm (v : option exporter) (s : t) : t :=
  Mk s.(conn) s.(serverName) s.(curveID) s.(didResume) s.(didHRR) s.(extMasterSecret) s.(echAccepted)
    s.(clientProtocol) s.(peerCertificates) s.(verifiedChains) s.(ocspResponse) s.(scts)
    s.(resumptionSecret) v s.(secureRenegotiation) s.(clientFinished) s.(serverFinished)
    s.(clientFinishedIsFirst) s.(utls) s.(sessionCache) s.(keyLog) s.(nextSession).
Definition set_secureRenegotiation (v : bool) (s : t) : t :=
  Mk s.(conn) s.(serverName) s.(curveID) s.(didResume) s.(didHRR) s.(extMasterSecret) s.(echAccepted)
    s.(clientProtocol) s.(peerCertificates) s.(verifiedChains) s.(ocspResponse) s.(scts)
    s.(resumptionSecret) s.(ekm) v s.(clientFinished) s.(serverFinished) s.(clientFinishedIsFirst)
    s.(utls) s.(sessionCache) s.(keyLog) s.(nextSession).
Definition set_clientFinished (v : bytes) (s : t) : t :=
  Mk s.(conn) s.(serverName) s.(curveID) s.(didResume) s.(didHRR) s.(extMasterSecret) s.(echAccepted)
    s.(clientProtocol) s.(peerCertificates) s.(verifiedChains) s.(ocspResponse) s.(scts)
    s.(resumptionSecret) s.(ekm) s.(secureRenegotiation) v s.(serverFinished)
    s.(clientFinishedIsFirst) s.(utls) s.(sessionCache) s.(keyLog) s.(nextSession).
Definition set_serverFinished (v : bytes) (s : t) : t :=
  Mk s.(conn) s.(serverName) s.(curveID) s.(didResume) s.(didHRR) s.(extMasterSecret) s.(echAccepted)
    s.(clientProtocol) s.(peerCertificates) s.(verifiedChains) s.(ocspResponse) s.(scts)
    s.(resumptionSecret) s.(ekm) s.(secureRenegotiation) s.(clientFinished) v
    s.(clientFinishedIsFirst) s.(utls) s.(sessionCache) s.(keyLog) s.(nextSession).
Definition set_clientFinishedIsFirst (v : bool) (s : t) : t :=
  Mk s.(conn) s.(serverName) s.(curveID) s.(didResume) s.(didHRR) s.(extMasterSecret) s.(echAccepted)
    s.(clientProtocol) s.(peerCertificates) s.(verifiedChains) s.(ocspResponse) s.(scts)
    s.(resumptionSecret) s.(ekm) s.(secureRenegotiation) s.(clientFinished) s.(serverFinished) v
    s.(utls) s.(sessionCache) s.(keyLog) s.(nextSession).
Definition set_utls (v : utlsConnExtraFields.t) (s : t) : t :=
  Mk s.(conn) s.(serverName) s.(curveID) s.(didResume) s.(didHRR) s.(extMasterSecret) s.(echAccepted)
    s.(clientProtocol) s.(peerCertificates) s.(verifiedChains) s.(ocspResponse) s.(scts)
    s.(resumptionSecret) s.(ekm) s.(secureRenegotiation) s.(clientFinished) s.(serverFinished)
    s.(clientFinishedIsFirst) v s.(sessionCache) s.(keyLog) s.(nextSession).
Definition set_sessionCache (v : option I.(cache)) (s : t) : t :=
  Mk s.(conn) s.(serverName) s.(curveID) s.(didResume) s.(didHRR) s.(extMasterSecret) s.(echAccepted)
    s.(clientProtocol) s.(peerCertificates) s.(verifiedChains) s.(ocspResponse) s.(scts)
    s.(resumptionSecret) s.(ekm) s.(secureRenegotiation) s.(clientFinished) s.(serverFinished)
    s.(clientFinishedIsFirst) s.(utls) v s.(keyLog) s.(nextSession).
Definition set_keyLog (v : list (string * bytes * bytes)) (s : t) : t :=
  Mk s.(conn) s.(serverName) s.(curveID) s.(didResume) s.(didHRR) s.(extMasterSecret) s.(echAccepted)
    s.(clientProtocol) s.(peerCertificates) s.(verifiedChains) s.(ocspResponse) s.(scts)
    s.(resumptionSecret) s.(ekm) s.(secureRenegotiation) s.(clientFinished) s.(serverFinished)
    s.(clientFinishedIsFirst) s.(utls) s.(sessionCache) v s.(nextSession).
Definition set_nextSession (v : nat) (s : t) : t :=
  Mk s.(conn) s.(serverName) s.(curveID) s.(didResume) s.(didHRR) s.(extMasterSecret) s.(echAccepted)
    s.(clientProtocol) s.(peerCertificates) s.(verifiedChains) s.(ocspResponse) s.(scts)
    s.(resumptionSecret) s.(ekm) s.(secureRenegotiation) s.(clientFinished) s.(serverFinished)
    s.(clientFinishedIsFirst) s.(utls) s.(sessionCache) s.(keyLog) v.
End Set_.
End tlsConn.

(** The rest of [Config]: callbacks, certificates and what is given by the user. *)
Record hooks {Ks : Keys} {S : Signing Ks} {X : X509} {XC : X509Chains X S} := MkHooks {
  RootCAs : option certPool;
  Certificates : list KeyPair.t;
  VerifyPeerCertificate : option (list bytes -> list (list certificate) -> option connError);
  VerifyConnection : option (ConnectionState.t X -> option connError);
  EncryptedClientHelloRejectionVerify : option (ConnectionState.t X -> option connError);
  GetClientCertificate : option (CertificateRequestInfo.t -> connError + KeyPair.t);
  KeyLogWriter : option (list (string * bytes * bytes) -> string * bytes * bytes -> option connError);
  ApplicationSettings : bytes -> option bytes
}.
#[global] Arguments hooks Ks S X XC : clear implicits.

Section Ops.
Context {C : Cryptobyte} {Cs : Ciphers} {K : Crypto} {Ks : Keys} {S : Signing Ks} {X : X509} {V : X509Verify X} {XK : X509Keys X S} {XC : X509Chains X S}
  {I : ClientSessionCache (session.ptr X)}.
Import tlsConn.
Abbreviation conn_t := tlsConn.t.
(** The rest of the configuration, the time, and the address of the peer. *)
Context (hk : hooks Ks S X XC) (now : Z) (RemoteAddr : option bytes).

(** ** The record layer *)

(** A computation of the record layer. *)
Definition on_conn {A} (m : Conn.M (reader := reader) A) : E conn_t A := fun c =>
  run (k, a) := m c.(conn) in Ret (set_conn k c, inr a).
Definition config (c : conn_t) : Config.t := c.(conn).(Conn.config).
Definition vers (c : conn_t) : Z := c.(conn).(Conn.vers).

(** [c.sendAlert(alert)] without a look at the error. *)
Definition alert (a : Z) : E conn_t unit := _ ← on_conn (sendAlert ReadFull a); eret tt.
(** An alert, and the error. *)
Definition abort {A} (a : Z) (e : connError) : E conn_t A := alert a ;; throw e.
Definition abort_with {A} (a : Z) (msg : string) : E conn_t A := abort a (Plain (ErrorNew msg)).
(** [return c.sendAlert(alert)]: there is always an error, see [sendAlert_error]. *)
Definition abort_alert {A} (a : Z) : E conn_t A :=
  e ← on_conn (sendAlert ReadFull a); match e with Some e => throw e | None => crash end.

(** The message and what is written to the transcript. *)
Definition readHandshake (transcript : bool) : E conn_t (bytes * handshakeMessage) :=
  r ← on_conn (Conn.readHandshake ReadFull transcript);
  match r.2 with inl e => throw e | inr m => eret (r.1, m) end.
(** What is written to the transcript before an error, too. *)
Definition writeHandshakeRecord (m : handshakeMessage) : E conn_t (bytes * option connError) :=
  r ← on_conn (Conn.writeHandshakeRecord ReadFull m true); eret (r.1, r.2.2).
Definition writeChangeCipherRecord : E conn_t unit := e ← on_conn (Conn.writeChangeCipherRecord ReadFull); raise e.
Definition readChangeCipherSpec : E conn_t unit := e ← on_conn (Conn.readChangeCipherSpec ReadFull); raise e.
Definition flush : E conn_t unit := r ← on_conn Conn.flush; raise r.2.

(** [unexpectedMessageError(wanted, got)] *)
Definition unexpectedMessageError : connError :=
  Plain (ErrorNew "tls: received unexpected handshake message of type %T when waiting for %T").

(** A computation that draws from [config.rand()]. *)
Definition draws {A} (m : RM A) : E conn_t A := fun c =>
  run (r, a) := m c.(conn).(Conn.rand) in Ret (set_conn (Conn.set_rand r c.(conn)) c, inr a).

(** ** Versions and protocols *)

Definition pickTLSVersion (serverHello : serverHelloMsg.t) : E conn_t unit :=
  let peerVersion := if negb (serverHello.(serverHelloMsg.supportedVersion) =? 0)
                     then serverHello.(serverHelloMsg.supportedVersion) else serverHello.(serverHelloMsg.vers) in
  c ← state;
  match mutualVersion (config c) true [peerVersion] with
  | None => abort alertProtocolVersion (Plain (Errorf "tls: server selected unsupported protocol version %x" [peerVersion]))
  | Some vers =>
      emodify (fun c =>
        let k := c.(conn) in
        set_conn (Conn.set_out (halfConn.set_version vers k.(Conn.out)) (Conn.set_in_ (halfConn.set_version vers k.(Conn.in_))
          (Conn.set_haveVers true (Conn.set_vers vers k)))) c)
  end.

Definition checkALPN (clientProtos : list bytes) (serverProto : bytes) : option connError :=
  let err msg := Some (Plain (ErrorNew msg)) in
  if bool_decide (serverProto = []) then None else
  if len clientProtos =? 0 then err "tls: server advertised unrequested ALPN extension" else
  if List.existsb (fun proto => bool_decide (proto = serverProto)) clientProtos then None
  else err "tls: server selected unadvertised ALPN protocol".

(** ** The key log *)

Definition writeKeyLog (label : string) (clientRandom secret : bytes) : E conn_t unit :=
  match hk.(KeyLogWriter) with
  | None => eret tt
  | Some write =>
      c ← state;
      let line := (label, clientRandom, secret) in
      emodify (set_keyLog (c.(keyLog) ++ [line])) ;;
      raise (write c.(keyLog) line)
  end.

(** ** The state of the connection *)

Definition connectionStateLocked (c : conn_t) : ConnectionState.t X := {|
  ConnectionState.HandshakeComplete := c.(conn).(Conn.isHandshakeComplete);
  ConnectionState.Version := vers c;
  ConnectionState.NegotiatedProtocol := c.(clientProtocol);
  ConnectionState.DidResume := c.(didResume);
  ConnectionState.testingOnlyDidHRR := c.(didHRR);
  ConnectionState.testingOnlyCurveID := c.(curveID);
  ConnectionState.NegotiatedProtocolIsMutual := true;
  ConnectionState.ServerName := c.(serverName);
  ConnectionState.CipherSuite := c.(conn).(Conn.cipherSuite);
  ConnectionState.PeerCertificates := c.(peerCertificates);
  ConnectionState.VerifiedChains := c.(verifiedChains);
  ConnectionState.SignedCertificateTimestamps := c.(scts);
  ConnectionState.OCSPResponse := c.(ocspResponse);
  ConnectionState.TLSUnique :=
    if (negb c.(didResume) || c.(extMasterSecret)) && negb (vers c =? VersionTLS13)
    then Some (if c.(clientFinishedIsFirst) then c.(clientFinished) else c.(serverFinished)) else None;
  ConnectionState.ekm :=
    match (config c).(Config.Renegotiation) with
    | RenegotiateNever => if negb (vers c =? VersionTLS13) && negb c.(extMasterSecret) then noEKMBecauseNoEMS else connEKM c.(ekm)
    | _ => noEKMBecauseRenegotiation
    end;
  ConnectionState.ECHAccepted := c.(echAccepted);
  ConnectionState.PeerApplicationSettings := c.(utls).(utlsConnExtraFields.peerApplicationSettings)
|}.

Definition sessionState (c : conn_t) : SessionState.t X := {|
  SessionState.Extra := [];
  SessionState.EarlyData := false;
  SessionState.version := vers c;
  SessionState.isClient := c.(conn).(Conn.isClient);
  SessionState.cipherSuite := c.(conn).(Conn.cipherSuite);
  SessionState.createdAt := (now `div` second) mod 2 ^ 64;
  SessionState.secret := [];
  SessionState.extMasterSecret := c.(extMasterSecret);
  SessionState.peerCertificates := c.(peerCertificates);
  SessionState.ocspResponse := c.(ocspResponse);
  SessionState.scts := c.(scts);
  SessionState.verifiedChains := c.(verifiedChains);
  SessionState.alpnProtocol := c.(clientProtocol);
  SessionState.useBy := 0;
  SessionState.ageAdd := 0;
  SessionState.ticket := None
|}.

Definition clientSessionCacheKey (c : conn_t) : bytes :=
  if 0 <? len (config c).(Config.ServerName) then (config c).(Config.ServerName) else default [] RemoteAddr.

(** A session that was made is put into the cache. *)
Definition store_session (session : SessionState.t X) : E conn_t unit :=
  c ← state;
  match c.(sessionCache) with
  | Some ca =>
      let key := clientSessionCacheKey c in
      let p := session.Ptr c.(nextSession) session in
      emodify (fun c => set_nextSession (Datatypes.S c.(nextSession))
        (if bool_decide (key = []) then c else set_sessionCache (Some (Put key (Some p) ca)) c))
  | None => crash
  end.

(** ** The certificate of the server *)

Definition defaultMaxRSAKeySize : Z := 8192.
Definition checkKeySize (n : Z) : Z * bool := (defaultMaxRSAKeySize, n <=? defaultMaxRSAKeySize).

(** The certificates are those of the cache, which are what parsing gives.  The
    algorithm of a key is RSA exactly when its type is. *)
Fixpoint parse_certs (certificates : list bytes) : E conn_t (list certificate) :=
  match certificates with
  | [] => eret []
  | asn1Data :: rest =>
      match ParseCertificate asn1Data with
      | inl _ => abort_with alertBadCertificate "tls: failed to parse certificate from server: "
      | inr cert =>
          (match x509_PublicKey cert with
           | RSA k =>
               let (max, ok) := checkKeySize (rsa_BitLen k) in
               when (negb ok) (abort alertBadCertificate (Plain (Errorf "tls: server sent certificate containing RSA key larger than %d bits" [max])))
           | _ => eret tt
           end) ;;
          certs ← parse_certs rest;
          eret (cert :: certs)
      end
  end.

(** The name and the time for which the chain must be valid. *)
Definition verify_options (cfg : Config.t) (leaf : certificate) (intermediates : list certificate) : VerifyOptions certificate certPool :=
  MkVerify hk.(RootCAs)
    (if cfg.(Config.InsecureSkipTimeVerify) then NotAfter leaf else now)
    (if len cfg.(Config.InsecureServerNameToVerify) =? 0 then cfg.(Config.ServerName)
     else if bool_decide (cfg.(Config.InsecureServerNameToVerify) = str "*") then []
     else cfg.(Config.InsecureServerNameToVerify))
    intermediates.

Definition verify_chain (certs : list certificate) : E conn_t unit :=
  match certs with
  | [] => crash
  | leaf :: rest =>
      c ← state;
      match x509_Verify leaf (verify_options (config c) leaf rest) with
      | inl e => abort alertBadCertificate (WrapError "tls: failed to verify certificate: " (Plain e))
      | inr chains => emodify (set_verifiedChains chains)
      end
  end.

Definition callback {A} (f : option A) (run_ : A -> option connError) : E conn_t unit :=
  match f with
  | None => eret tt
  | Some f => match run_ f with Some e => abort alertBadCertificate e | None => eret tt end
  end.

Definition supported_key (pub : public) : bool := match pub with OtherPublic => false | _ => true end.

(** Encrypted ClientHello was offered and not accepted. *)
Definition ech_rejected (c : conn_t) : bool :=
  non_nil (config c).(Config.EncryptedClientHelloConfigList) && negb c.(echAccepted).

Definition verifyServerCertificate (certificates : list bytes) : E conn_t unit :=
  certs ← parse_certs certificates;
  c ← state;
  let echRejected := ech_rejected c in
  (if echRejected then
     match hk.(EncryptedClientHelloRejectionVerify) with
     | Some f => callback (Some f) (fun f => f (connectionStateLocked c))
     | None => verify_chain certs
     end
   else when (negb (config c).(Config.InsecureSkipVerify)) (verify_chain certs)) ;;
  leaf ← ederef (head certs);
  when (negb (supported_key (x509_PublicKey leaf)))
    (abort_with alertUnsupportedCertificate "tls: server's certificate contains an unsupported type of public key: %T") ;;
  emodify (set_peerCertificates certs) ;;
  c ← state;
  when (negb echRejected) (callback hk.(VerifyPeerCertificate) (fun f => f certificates c.(verifiedChains))) ;;
  when (negb echRejected) (callback hk.(VerifyConnection) (fun f => f (connectionStateLocked c))).

(** ** The certificate of the client *)

Section SupportsCertificate.
Import CertificateRequestInfo.

(** A leaf that the user gave is the parsed first certificate. *)
Fixpoint acceptable_chain (acceptableCAs : list bytes) (j : Z) (chain : list bytes) : option gerror :=
  match chain with
  | [] => Some (ErrorNew "chain is not signed by an acceptable CA")
  | cert :: rest =>
      match ParseCertificate cert with
      | inl _ => Some (Errorf "failed to parse certificate #%d in the chain: %w" [j])
      | inr x509Cert =>
          if List.existsb (fun ca => bool_decide (RawIssuer x509Cert = ca)) acceptableCAs then None
          else acceptable_chain acceptableCAs (j + 1) rest
      end
  end.

Definition SupportsCertificate (cri : CertificateRequestInfo.t) (c : KeyPair.t) : option gerror :=
  match selectSignatureScheme cri.(Version) c cri.(SignatureSchemes) with
  | inl err => Some err
  | inr _ =>
      if len cri.(AcceptableCAs) =? 0 then None
      else acceptable_chain cri.(AcceptableCAs) 0 c.(KeyPair.chain).(Certificate.Certificate)
  end.
End SupportsCertificate.

(** [None] is a new [Certificate], which is empty. *)
Definition getClientCertificate (cri : CertificateRequestInfo.t) : E conn_t (option KeyPair.t) :=
  match hk.(GetClientCertificate) with
  | Some f => match f cri with inl e => throw e | inr cert => eret (Some cert) end
  | None => eret (List.find (fun chain => negb (non_nil (SupportsCertificate cri chain))) hk.(Certificates))
  end.

End Ops.
