(* ===== verification/PeerFacts.v ===== *)
(** * Success, failure and what a handshake leaves alone

    Rules for the computations of [E]: how the success of one goes back to that of
    its parts, and which relations between the state before and after it keeps,
    whether it fails or not.  With them, what the operations of Peer do. *)

From S2P Require Import Prelude Cryptobyte Common Config Negotiation Codec Buffer KeySchedule Record Names Messages RawMessages ServerHello ClientHello Ticket Caches Public Extensions Handshake Conn ConnFacts ConnFrame ECH Marshal Shuffle Parrots Session Preset Auth KeyAgreement Peer.

(** ** Success *)

Section Success.
Context {S : Type}.

Lemma ebind_inv {A B} (m : E S A) (k : A -> E S B) s s' r : ebind m k s = Ret (s', r) ->
  (exists e, m s = Ret (s', inl e) /\ r = inl e) \/ (exists s1 a, m s = Ret (s1, inr a) /\ k a s1 = Ret (s', r)).
Proof.
  unfold ebind. destruct (m s) as [|[s1 [e|a]]]; [done| |]; cbn; intros H; [left|right].
  - injection H as <- <-. by exists e.
  - by exists s1, a.
Qed.
Lemma ebind_ok {A B} (m : E S A) (k : A -> E S B) s s' b : mbind k m s = Ret (s', inr b) ->
  exists s1 a, m s = Ret (s1, inr a) /\ k a s1 = Ret (s', inr b).
Proof. by intros [(e & _ & [=])|H]%ebind_inv. Qed.
Lemma elift_ok {A} (o : outcome A) (s s' : S) a : elift o s = Ret (s', inr a) -> s' = s /\ o = Ret a.
Proof. unfold elift. destruct o; [done|]. by intros [= <- <-]. Qed.
Lemma ederef_ok {A} (o : option A) (s s' : S) a : ederef o s = Ret (s', inr a) -> s' = s /\ o = Some a.
Proof. destruct o; [|done]. by intros [= <- <-]. Qed.
Lemma eres_ok {A} (o : res A) (s s' : S) a : eres o s = Ret (s', inr a) -> s' = s /\ o = inr a.
Proof. destruct o; [done|]. by intros [= <- <-]. Qed.
Lemma raise_ok e (s s' : S) a : raise e s = Ret (s', inr a) -> s' = s /\ e = None.
Proof. destruct e; [done|]. by intros [= <-]. Qed.
Lemma zoom_ok {T A} (get : S -> T) set (m : E T A) s s' a : zoom get set m s = Ret (s', inr a) ->
  exists t, m (get s) = Ret (t, inr a) /\ s' = set t s.
Proof. unfold zoom. destruct (m (get s)) as [|[t r]]; [done|]. cbn. intros [= <- <-]. by exists t. Qed.
End Success.

(** One step backwards in [H]: over a bind, and over a head that leaves the state
    alone. *)
Ltac estep H :=
  let s := fresh "s" in let a := fresh "a" in let Hs := fresh "Hs" in
  apply ebind_ok in H as (s & a & Hs & H); cbn beta in H;
  lazymatch type of Hs with
  | state _ = _ => injection Hs as <- <-
  | gets _ _ = _ => injection Hs as <- <-
  | emodify _ _ = _ => injection Hs as <- <-
  | eret _ _ = _ => injection Hs as <- <-
  | elift _ _ = _ => apply elift_ok in Hs as [-> Hs]
  | ederef _ _ = _ => apply ederef_ok in Hs as [-> Hs]
  | eres _ _ = _ => apply eres_ok in Hs as [-> Hs]
  | raise _ _ = _ => apply raise_ok in Hs as [-> Hs]
  | _ => idtac
  end.

(** ** Relations that are kept *)

Section Stable.
Context {S : Type} (R : relation S).

Definition stable {A} (m : E S A) : Prop := forall s s' r, m s = Ret (s', r) -> R s s'.
Context {HR : PreOrder R}.

Lemma stable_ret {A} (a : A) : stable (eret a).
Proof. by intros s s' r [= <- _]. Qed.
Lemma stable_throw {A} e : stable (throw (A := A) e).
Proof. by intros s s' r [= <- _]. Qed.
Lemma stable_bind {A B} (m : E S A) (k : A -> E S B) : stable m -> (forall a, stable (k a)) -> stable (mbind k m).
Proof.
  intros Hm Hk s s' r [(e & H & ->)|(s1 & a & H1 & H2)]%ebind_inv; [by eapply Hm|]. etrans; [by eapply Hm|by eapply Hk].
Qed.
Lemma stable_crash {A} : stable (crash (A := A)).
Proof. done. Qed.
Lemma stable_state : stable state.
Proof. by intros s s' r [= <- _]. Qed.
Lemma stable_gets {A} (f : S -> A) : stable (gets f).
Proof. by intros s s' r [= <- _]. Qed.
Lemma stable_modify f : (forall s, R s (f s)) -> stable (emodify f).
Proof. intros H s s' r [= <- _]. apply H. Qed.
Lemma stable_lift {A} (o : outcome A) : stable (elift o).
Proof. intros s s' r. unfold elift. destruct o; [done|]. by intros [= <- _]. Qed.
Lemma stable_deref {A} (o : option A) : stable (ederef o).
Proof. destruct o; [apply stable_ret|done]. Qed.
Lemma stable_res {A} (o : res A) : stable (eres o).
Proof. destruct o; [apply stable_throw|apply stable_ret]. Qed.
Lemma stable_raise e : stable (raise e).
Proof. destruct e; [apply stable_throw|apply stable_ret]. Qed.
Lemma stable_fail {A} msg : stable (fail (A := A) msg).
Proof. apply stable_throw. Qed.
Lemma stable_when b m : stable m -> stable (when b m).
Proof. destruct b; [done|]. intros _. apply stable_ret. Qed.
Lemma stable_caught {A} (m : E S A) : stable m -> stable (caught m).
Proof. intros H s s' r. unfold caught. destruct (m s) as [|[s1 x]] eqn:E; [done|]. intros [= <- _]. by eapply H. Qed.
End Stable.

Lemma stable_weaken {S A} (R R' : relation S) (m : E S A) : (forall s s', R s s' -> R' s s') -> stable R m -> stable R' m.
Proof. intros H Hm s s' r Hs. eapply H, Hm, Hs. Qed.
Lemma stable_zoom {S T A} (R : relation S) (RT : relation T) (get : S -> T) set (m : E T A) :
  (forall s t, RT (get s) t -> R s (set t s)) -> stable RT m -> stable R (zoom get set m).
Proof. intros H Hm s s' r. unfold zoom. destruct (m (get s)) as [|[t x]] eqn:E; [done|]. intros [= <- _]. by eapply H, Hm. Qed.

Create HintDb stable.
#[export] Hint Resolve stable_ret stable_throw stable_crash stable_state stable_gets stable_lift stable_deref stable_res stable_raise stable_fail stable_when stable_caught : stable.
#[export] Hint Extern 2 (stable _ (mbind _ _)) => apply stable_bind; [apply _| |] : stable.
#[export] Hint Extern 1 (PreOrder _) => apply _ : stable.
#[export] Hint Extern 2 (stable _ (match ?x with _ => _ end)) => destruct x : stable.
#[export] Hint Extern 3 (stable _ (emodify _)) => apply stable_modify : stable.
Ltac stable := auto 30 with stable.

(** ** The operations of Peer *)

Section Peer.
Context {C : Cryptobyte} {Cs : Ciphers} {K : Crypto} {Ks : Keys} {S : Signing Ks} {X : X509} {V : X509Verify X} {XK : X509Keys X S} {XC : X509Chains X S}
  {I : ClientSessionCache (session.ptr X)}.
Import tlsConn.
Context (hk : hooks Ks S X XC) (now : Z) (RemoteAddr : option bytes).

(** The record layer moves on, and nothing else. *)
Definition layer (c c' : tlsConn.t) : Prop := exists k, frame c.(conn) k /\ c' = set_conn k c.
#[export] Instance layer_preorder : PreOrder layer.
Proof.
  split.
  - intros [conn' ?]. exists conn'. split; [done|reflexivity].
  - intros c1 c2 c3 (k1 & H1 & ->) (k2 & H2 & ->). exists k2. split; [|reflexivity]. etrans; [exact H1|exact H2].
Qed.

Lemma layer_on_conn {A} (m : Conn.M (reader := reader) A) : framed m -> stable layer (on_conn m).
Proof.
  intros Hm c c' r. unfold on_conn. destruct (m _) as [|[k a]] eqn:E; [done|]. intros [= <- _]. exists k. split; [by eapply Hm|done].
Qed.
Hint Resolve layer_on_conn framed_sendAlert framed_readHandshake framed_writeHandshakeRecord framed_writeChangeCipherRecord framed_flush : stable.
Lemma layer_alert a : stable layer (alert a).
Proof. unfold alert. stable. Qed.
Hint Resolve layer_alert : stable.
Lemma layer_abort {A} a e : stable layer (abort (A := A) a e).
Proof. unfold abort. stable. Qed.
Lemma layer_abort_with {A} a msg : stable layer (abort_with (A := A) a msg).
Proof. apply layer_abort. Qed.
Lemma layer_abort_alert {A} a : stable layer (abort_alert (A := A) a).
Proof. unfold abort_alert. stable. Qed.
Lemma layer_readHandshake t : stable layer (readHandshake t).
Proof. unfold readHandshake. stable. Qed.
Lemma layer_writeHandshakeRecord m : stable layer (writeHandshakeRecord m).
Proof. unfold writeHandshakeRecord. stable. Qed.
Lemma layer_writeChangeCipherRecord : stable layer writeChangeCipherRecord.
Proof. unfold writeChangeCipherRecord. stable. Qed.
Lemma layer_readChangeCipherSpec : stable layer readChangeCipherSpec.
Proof. unfold readChangeCipherSpec, Conn.readChangeCipherSpec. pose proof (framed_readRecordOrCCS (reader := reader) ReadFull true). stable. Qed.
Lemma layer_flush : stable layer flush.
Proof. unfold flush. stable. Qed.
Lemma layer_draws {A} (m : RM A) : stable layer (draws m).
Proof.
  intros c c' r. unfold draws. destruct (m _) as [|[k a]]; [done|]. intros [= <- _]. exists (Conn.set_rand k c.(conn)). by split.
Qed.

Lemma layer_getClientCertificate cri : stable layer (getClientCertificate hk cri).
Proof. unfold getClientCertificate. stable. Qed.

(** Nothing is written when there is no transcript. *)
Lemma readHandshake_unwritten c c' r : Conn.readHandshake (reader := reader) ReadFull false c = Ret (c', r) -> r.1 = [].
Proof.
  unfold Conn.readHandshake. intros (c1 & e1 & _ & H)%bind_inv. destruct e1; [by injection H as _ <-|].
  apply bind_inv in H as (c2 & c3 & _ & H). apply bind_inv in H as (c4 & typ & _ & H). apply bind_inv in H as (c5 & n & _ & H).
  case_match; [by do 2 apply bind_inv in H as (? & ? & _ & H); injection H as _ <-|].
  apply bind_inv in H as (c6 & e2 & _ & H). destruct e2; [by injection H as _ <-|]. apply bind_inv in H as (c7 & data & _ & H).
  apply bind_inv in H as (c8 & c9 & _ & H). apply bind_inv in H as (c10 & h & Hh & H).
  destruct (message h) eqn:Em; [|by apply bind_inv in H as (? & e & _ & H); destruct e; [injection H as _ <-|]].
  injection H as _ <-. unfold Conn.lift in Hh. destruct (unmarshalHandshakeMessage _ _ _) eqn:Eu; [done|]. injection Hh as _ <-.
  unfold unmarshalHandshakeMessage in Eu. ostep Eu. case_match; [|by injection Eu as <-]. ostep Eu. case_match; by injection Eu as <-.
Qed.
Lemma readHandshake_silent c c' r : readHandshake false c = Ret (c', inr r) -> r.1 = [].
Proof.
  unfold readHandshake. intros H. estep H. unfold on_conn in Hs. destruct (Conn.readHandshake _ _ _) as [|[k x]] eqn:E; [done|]. injection Hs as _ <-.
  apply readHandshake_unwritten in E. destruct x as [w [e|m]]; [done|]. injection H as _ <-. exact E.
Qed.
(** The key log is all that a line changes. *)
Lemma logged l random secret : stable (fun c c' => exists k, c' = set_keyLog k c) (writeKeyLog hk l random secret).
Proof.
  unfold writeKeyLog. case_match; [|intros c c' r [= <- _]; by exists c.(keyLog); destruct c].
  intros c c' r Hr. apply ebind_inv in Hr as [(e & [=] & _)|(c1 & a & [= <- <-] & Hr)].
  apply ebind_inv in Hr as [(e & [=] & _)|(c1 & a & [= <- <-] & Hr)]. unfold raise in Hr. case_match; injection Hr as <- _; by eexists.
Qed.

(** A computation that sends an alert does not succeed. *)
Lemma abort_ok {A} a e c c' (x : A) : abort a e c = Ret (c', inr x) -> False.
Proof. intros (c1 & [] & _ & H)%ebind_ok. done. Qed.
Lemma abort_alert_ok {A} a c c' (x : A) : abort_alert a c = Ret (c', inr x) -> False.
Proof. intros (c1 & e & _ & H)%ebind_ok. by destruct e. Qed.
(** Nor does it inside the state of a handshake. *)
Lemma zoom_fails {T A} get set (m : E tlsConn.t A) (s s' : T) x : (forall c c' y, m c = Ret (c', inr y) -> False) -> zoom get set m s = Ret (s', inr x) -> False.
Proof. intros Hm (t & H & _)%zoom_ok. by apply Hm in H. Qed.
Lemma abort_fails {T A} get set a e (s s' : T) (x : A) : zoom get set (abort a e) s = Ret (s', inr x) -> False.
Proof. apply zoom_fails. intros ???. apply abort_ok. Qed.
Lemma abort_with_fails {T A} get set a msg (s s' : T) (x : A) : zoom get set (abort_with a msg) s = Ret (s', inr x) -> False.
Proof. apply abort_fails. Qed.
Lemma abort_alert_fails {T A} get set a (s s' : T) (x : A) : zoom get set (abort_alert a) s = Ret (s', inr x) -> False.
Proof. apply zoom_fails. intros ???. apply abort_alert_ok. Qed.
Lemma when_ok (b : bool) (m : E tlsConn.t unit) c c' x : (forall c c' y, m c = Ret (c', inr y) -> False) ->
  when b m c = Ret (c', inr x) -> b = false /\ c' = c.
Proof. destruct b; cbn; [intros H Hm; by apply H in Hm|]. by intros _ [= <-]. Qed.
Lemma callback_ok {A} (f : option A) g c c' x : callback f g c = Ret (c', inr x) -> c' = c /\ (forall a, f = Some a -> g a = None).
Proof.
  unfold callback. destruct f as [a|]; [|by intros [= <-]]. destruct (g a) eqn:E; [by intros ?%abort_ok|]. intros [= <-]. split; [done|].
  by intros ? [= <-].
Qed.

(** The certificates that are accepted. *)
Lemma parse_certs_ok l c c' certs : parse_certs l c = Ret (c', inr certs) -> c' = c /\ Forall2 (fun b x => ParseCertificate b = inr x) l certs.
Proof.
  revert c c' certs. induction l as [|b l IH]; intros c c' certs; cbn [parse_certs]; [by intros [= <- <-]|].
  destruct (ParseCertificate b) as [|x] eqn:E; [by intros ?%abort_ok|]. intros H. estep H.
  assert (s = c) as ->.
  { destruct (x509_PublicKey x); try by injection Hs as <-. apply when_ok in Hs as [_ ->]; [done|]. intros ???. apply abort_ok. }
  estep H. injection H as <- <-. apply IH in Hs0 as [-> Hl]. split; [done|]. by constructor.
Qed.
Lemma verify_chain_ok certs c c' x : verify_chain hk now certs c = Ret (c', inr x) ->
  exists leaf rest chains, certs = leaf :: rest /\ x509_Verify leaf (verify_options hk now (config c) leaf rest) = inr chains /\ c' = set_verifiedChains chains c.
Proof.
  destruct certs as [|leaf rest]; [done|]. cbn [verify_chain]. intros H. estep H.
  destruct (x509_Verify _ _) as [|chains] eqn:E; [by apply abort_ok in H|]. injection H as <- _. by exists leaf, rest, chains.
Qed.

(** What a verified certificate is: the chain is valid for the configured name,
    unless verification is switched off, or is left to a callback after a rejected
    Encrypted ClientHello. *)
Record verified (c : tlsConn.t) (certificates : list bytes) (leaf : certificate) (rest : list certificate) (chains : list (list certificate)) : Prop := {
  vd_parsed : Forall2 (fun b x => ParseCertificate b = inr x) certificates (leaf :: rest);
  vd_chain : (ech_rejected c = false -> (config c).(Config.InsecureSkipVerify) = false) ->
    (ech_rejected c = true -> hk.(EncryptedClientHelloRejectionVerify) = None) ->
    x509_Verify leaf (verify_options hk now (config c) leaf rest) = inr chains;
  vd_key : supported_key (x509_PublicKey leaf) = true;
  vd_peer : forall f, ech_rejected c = false -> hk.(VerifyPeerCertificate) = Some f -> f certificates chains = None;
  vd_conn : forall f, ech_rejected c = false -> hk.(VerifyConnection) = Some f ->
    f (connectionStateLocked (set_peerCertificates (leaf :: rest) (set_verifiedChains chains c))) = None
}.

Lemma choose_verification certs c c' x :
  (if ech_rejected c then match hk.(EncryptedClientHelloRejectionVerify) with
    | Some f => callback (Some f) (fun f => f (connectionStateLocked c)) | None => verify_chain hk now certs end
   else when (negb (config c).(Config.InsecureSkipVerify)) (verify_chain hk now certs)) c = Ret (c', inr x) ->
  exists chains, c' = set_verifiedChains chains c /\
    forall leaf rest, certs = leaf :: rest -> (ech_rejected c = false -> (config c).(Config.InsecureSkipVerify) = false) ->
    (ech_rejected c = true -> hk.(EncryptedClientHelloRejectionVerify) = None) ->
    x509_Verify leaf (verify_options hk now (config c) leaf rest) = inr chains.
Proof.
  intros H.
  assert (verify_chain hk now certs c = Ret (c', inr x) \/ c' = c /\
    ~ ((ech_rejected c = false -> (config c).(Config.InsecureSkipVerify) = false) /\
       (ech_rejected c = true -> hk.(EncryptedClientHelloRejectionVerify) = None))) as [Hv|[-> Hn]].
  { destruct (ech_rejected c).
    - destruct (EncryptedClientHelloRejectionVerify hk); [|by left]. right. apply callback_ok in H as [-> _]. split; [done|].
      intros [_ Hn]. by specialize (Hn eq_refl).
    - destruct (Config.InsecureSkipVerify _) eqn:Es; cbn in H; [|by left]. right. injection H as <-. split; [done|]. intros [Hn _]. by specialize (Hn eq_refl). }
  - apply verify_chain_ok in Hv as (leaf & rest & chains & -> & Hv & ->). exists chains. split; [done|]. by intros ?? [= <- <-].
  - exists c.(verifiedChains). split; [by destruct c|]. intros leaf rest _ H1 H2. by destruct Hn.
Qed.

Lemma verifyServerCertificate_ok certificates c c' x : verifyServerCertificate hk now certificates c = Ret (c', inr x) ->
  exists leaf rest chains, verified c certificates leaf rest chains /\ c' = set_peerCertificates (leaf :: rest) (set_verifiedChains chains c).
Proof.
  unfold verifyServerCertificate. intros H. estep H. apply parse_certs_ok in Hs as [-> Hp]. estep H. estep H.
  apply choose_verification in Hs as (chains & -> & Hv). estep H. destruct a as [|leaf rest]; [done|]. injection Hs as <-.
  estep H. apply when_ok in Hs as [Hk ->]; [|by intros ??? Ha%abort_ok]. apply negb_false_iff in Hk. estep H. estep H. estep H.
  assert (Hcb : forall b A (f : option A) g s s' y, when (negb b) (callback f g) s = Ret (s', inr y) ->
    s' = s /\ (forall h, b = false -> f = Some h -> g h = None)).
  { intros [] A f g s0 s' y; cbn; [by intros [= <-]|]. intros [-> Hf]%callback_ok. split; [done|]. intros h _. apply Hf. }
  apply Hcb in Hs as [-> H1]. apply Hcb in H as [-> H2]. exists leaf, rest, chains. split; [|done].
  constructor; [done|by intros; apply Hv|done|exact H1|exact H2].
Qed.

(** A relation that the record layer keeps, and new certificates. *)
Section Verify.
Context (R : relation tlsConn.t) {HR : PreOrder R}.
Context (R_layer : forall c c', layer c c' -> R c c') (R_chains : forall c l, R c (set_verifiedChains l c)) (R_peer : forall c l, R c (set_peerCertificates l c)).

Lemma stable_abort {A} a e : stable R (abort (A := A) a e).
Proof. eapply stable_weaken; [exact R_layer|apply layer_abort]. Qed.
Lemma stable_abort_with {A} a msg : stable R (abort_with (A := A) a msg).
Proof. apply stable_abort. Qed.
Hint Resolve stable_abort stable_abort_with : stable.
Lemma stable_callback {A} (f : option A) g : stable R (callback f g).
Proof. unfold callback. stable. Qed.
Lemma stable_parse l : stable R (parse_certs l).
Proof. induction l as [|b l IH]; cbn [parse_certs]; stable. Qed.
Lemma stable_verify_chain l : stable R (verify_chain hk now l).
Proof. unfold verify_chain. stable. Qed.
Hint Resolve stable_callback stable_parse stable_verify_chain : stable.
Lemma stable_verify l : stable R (verifyServerCertificate hk now l).
Proof. unfold verifyServerCertificate. stable. Qed.
End Verify.
End Peer.

(** Discards the branches of [H] that end with an alert. *)
Ltac no_alert H := try (by apply abort_with_fails in H); try (by apply abort_fails in H); try (by apply abort_alert_fails in H).
Ltac pass H := repeat (case_match; no_alert H).

(** * Example *)

(** A chain of one certificate is valid for example.com. *)
Definition toy_chains : X509Chains plain_x509 (toy_signing toy_keys) :=
  Build_X509Chains plain_x509 toy_keys (toy_signing toy_keys) unit
    (fun leaf opts => if bool_decide (opts.(DNSName) = str "example.com") then inr [[leaf]] else inl (ErrorNew "x509: certificate is not valid"))
    (fun _ => []) (fun k : Z => k * 8).
#[local] Existing Instance plain_x509.
#[local] Existing Instance toy_keys.
#[local] Existing Instance Reference.ops.
#[local] Existing Instance toy_hash.
#[local] Existing Instance toy_x509_keys.
#[local] Existing Instance toy_chains.
Abbreviation toy_hooks := (MkHooks toy_keys (toy_signing toy_keys) plain_x509 toy_chains None [] None None None None None (fun _ => None)).
Definition bytes_of (m : handshakeMessage) : bytes := match transcriptMsg m with Ret (inr b) => b | _ => [] end.
Definition get_or {A} (d : A) (o : outcome A) : A := match o with Ret a => a | Panic => d end.

(** A connection over [reads] before any cipher. *)
Definition plain_half (v : Z) : halfConn.t := halfConn.Mk toy_ciphers None v None None (replicate 8 x00) None None 0 [].
Definition example_layer (v : Z) (reads : list (bytes * option connError)) (out : halfConn.t) (client : bool) : Conn.t nat :=
  Conn.Mk toy_ciphers nat (quiet_net reads) 7%nat client false None v true (Config.set_ServerName (str "example.com") Config.zero) 0 0 None false
    (plain_half v) out [] [] [] false [] 0 0 0 0.
Definition send_messages (ms : list handshakeMessage) (c : Conn.t nat) : Conn.t nat :=
  fold_left (fun c m => match Conn.writeHandshakeRecord (ReadFull (Keys := toy_keys)) m true c with Ret (c, _) => c | Panic => c end) ms c.
