(* ===== verification/Client12.v ===== *)
(** * The handshake of a client before TLS 1.3

    Models [clientHandshakeState] of handshake_client.go: the answer of the server to
    the hello, a full handshake with its certificates and its key agreement, a resumed
    one, the Finished messages and the session ticket.

    The running hashes are the bytes written to them.  The connection is without QUIC
    and without FIPS mode.  A session id is nil when it is empty.  [clientFinished] and
    [serverFinished] are arrays of twelve bytes. *)

From S2P Require Import Prelude Cryptobyte Common Config Negotiation Codec Buffer KeySchedule Record Names Messages RawMessages ServerHello ClientHello Ticket Caches Public Extensions Handshake Conn Suites ECH Marshal Shuffle Parrots Session Preset Auth KeyAgreement Peer.

Definition keyLogLabelTLS12 : string := "CLIENT_RANDOM".
Definition certTypeRSASign : Z := 1.
Definition certTypeECDSASign : Z := 64.

(** ** The state *)

Module clientHandshakeState.
Record t {Cs : Ciphers} {Ks : Keys} {X : X509} {I : ClientSessionCache (session.ptr X)} := Mk {
  c : tlsConn.t;
  serverHello : serverHelloMsg.t;
  hello : clientHelloMsg.t;
  suite : option cipherSuite.t;
  finishedHash : option finishedHash12.t;
  masterSecret : bytes;
  session : option (session.ptr X);
  ticket : option bytes
}.
#[global] Arguments t {Cs Ks X I}.
#[global] Arguments Mk {Cs Ks X I}.
Section Set_.
Context {Cs : Ciphers} {Ks : Keys} {X : X509} {I : ClientSessionCache (session.ptr X)}.
Definition set_c (v : tlsConn.t) (s : t) : t :=
  Mk v s.(serverHello) s.(hello) s.(suite) s.(finishedHash) s.(masterSecret) s.(session) s.(ticket).
Definition set_serverHello (v : serverHelloMsg.t) (s : t) : t :=
  Mk s.(c) v s.(hello) s.(suite) s.(finishedHash) s.(masterSecret) s.(session) s.(ticket).
Definition set_hello (v : clientHelloMsg.t) (s : t) : t :=
  Mk s.(c) s.(serverHello) v s.(suite) s.(finishedHash) s.(masterSecret) s.(session) s.(ticket).
Definition set_suite (v : option cipherSuite.t) (s : t) : t :=
  Mk s.(c) s.(serverHello) s.(hello) v s.(finishedHash) s.(masterSecret) s.(session) s.(ticket).
Definition set_finishedHash (v : option finishedHash12.t) (s : t) : t :=
  Mk s.(c) s.(serverHello) s.(hello) s.(suite) v s.(masterSecret) s.(session) s.(ticket).
Definition set_masterSecret (v : bytes) (s : t) : t :=
  Mk s.(c) s.(serverHello) s.(hello) s.(suite) s.(finishedHash) v s.(session) s.(ticket).
Definition set_session (v : option (session.ptr X)) (s : t) : t :=
  Mk s.(c) s.(serverHello) s.(hello) s.(suite) s.(finishedHash) s.(masterSecret) v s.(ticket).
Definition set_ticket (v : option bytes) (s : t) : t :=
  Mk s.(c) s.(serverHello) s.(hello) s.(suite) s.(finishedHash) s.(masterSecret) s.(session) v.
End Set_.
End clientHandshakeState.

(** ** The request of a certificate *)

(** The list of schemes that is made up for a request without one. *)
Definition schemes_of_types (rsaAvail ecAvail : bool) : list Z :=
  let ec := [ECDSAWithP256AndSHA256; ECDSAWithP384AndSHA384; ECDSAWithP521AndSHA512] in
  let rsa := [PKCS1WithSHA256; PKCS1WithSHA384; PKCS1WithSHA512; PKCS1WithSHA1] in
  if rsaAvail && ecAvail then ec ++ rsa else if rsaAvail then rsa else if ecAvail then ec else [].

(** A scheme is kept when a certificate of its kind is accepted. *)
Definition scheme_available (rsaAvail ecAvail : bool) (sigScheme : Z) : bool :=
  match typeAndHashFromSignatureScheme sigScheme with
  | inl _ => false
  | inr (sigType, _) =>
      if (sigType =? signatureECDSA) || (sigType =? signatureEd25519) then ecAvail
      else if (sigType =? signatureRSAPSS) || (sigType =? signaturePKCS1v15) then rsaAvail else false
  end.

Definition certificateRequestInfoFromMsg (vers : Z) (certReq : certificateRequestMsg.t) : CertificateRequestInfo.t :=
  let among t := List.existsb (fun certType => b2z certType =? t) certReq.(certificateRequestMsg.certificateTypes) in
  let rsaAvail := among certTypeRSASign in
  let ecAvail := among certTypeECDSASign in
  CertificateRequestInfo.Mk certReq.(certificateRequestMsg.certificateAuthorities)
    (if negb certReq.(certificateRequestMsg.hasSignatureAlgorithm) then schemes_of_types rsaAvail ecAvail
     else List.filter (scheme_available rsaAvail ecAvail) certReq.(certificateRequestMsg.supportedSignatureAlgorithms))
    vers.

Section Ops.
Context {C : Cryptobyte} {Cs : Ciphers} {B : BlockCiphers Cs} {K : Crypto} {Ks : Keys} {S : Signing Ks} {X : X509} {V : X509Verify X} {XK : X509Keys X S}
  {XC : X509Chains X S} {I : ClientSessionCache (session.ptr X)} {E_ : KeyExchange Ks}.
Import clientHandshakeState.
Abbreviation hs_t := clientHandshakeState.t.

(** The suites that are known, the rest of the configuration, the time, and the
    address of the peer. *)
Context (supported : list cipherSuite.t) (hk : hooks Ks S X XC) (now : Z) (RemoteAddr : option bytes).

(** ** Stateful code *)

Definition onc {A} (m : E tlsConn.t A) : E hs_t A := zoom c set_c m.
Definition conn_field {A} (f : tlsConn.t -> A) : E hs_t A := gets (fun hs => f hs.(c)).
Definition modify_conn (f : tlsConn.t -> tlsConn.t) : E hs_t unit := emodify (fun hs => set_c (f hs.(c)) hs).
Definition modify_layer (f : Conn.t reader -> Conn.t reader) : E hs_t unit :=
  modify_conn (fun c => tlsConn.set_conn (f c.(tlsConn.conn)) c).
Definition suite_of : E hs_t cipherSuite.t := hs ← state; ederef hs.(suite).
Definition the_hash : E hs_t finishedHash12.t := hs ← state; ederef hs.(finishedHash).
(** A length that the PRF delivers: the loop of [pHash] ends, see [p_hash_rfc]. *)
Definition derived (o : outcome (option bytes)) : E hs_t bytes := r ← elift o; ederef r.

Definition write_hash (b : bytes) : E hs_t unit :=
  h ← the_hash; h ← elift (finishedHash12.Write h b); emodify (set_finishedHash (Some h)).
Definition transcript_msg (m : handshakeMessage) : E hs_t unit := r ← elift (transcriptMsg m); b ← eres r; write_hash b.
(** With the transcript, whose bytes are written to the Finished hash. *)
Definition read_message : E hs_t handshakeMessage := r ← onc (readHandshake true); write_hash r.1 ;; eret r.2.
Definition write_message (m : handshakeMessage) : E hs_t unit := r ← onc (writeHandshakeRecord m); write_hash r.1 ;; raise r.2.
Definition unexpected {A} : E hs_t A := onc (abort alertUnexpectedMessage unexpectedMessageError).
Definition leaf_of : E hs_t certificate := hs ← state; ederef (head hs.(c).(tlsConn.peerCertificates)).

(** ** The ServerHello *)

Definition pickCipherSuite : E hs_t unit :=
  hs ← state;
  let suite := mutualCipherSuite supported hs.(hello).(clientHelloMsg.cipherSuites) hs.(serverHello).(serverHelloMsg.cipherSuite) in
  emodify (set_suite suite) ;;
  match suite with
  | None => onc (abort_with alertHandshakeFailure "tls: server chose an unconfigured cipher suite")
  | Some s => modify_layer (Conn.set_cipherSuite s.(cipherSuite.id))
  end.

Definition serverResumedSession (hs : hs_t) : bool :=
  non_nil hs.(session) && negb (bool_decide (hs.(hello).(clientHelloMsg.sessionId) = [])) &&
  bool_decide (hs.(serverHello).(serverHelloMsg.sessionId) = hs.(hello).(clientHelloMsg.sessionId)).

(** The renegotiation extension of an initial handshake, and of a later one. *)
Definition check_renegotiation : E hs_t unit :=
  hs ← state;
  let sh := hs.(serverHello) in
  let handshakes := hs.(c).(tlsConn.conn).(Conn.handshakes) in
  when ((handshakes =? 0) && sh.(serverHelloMsg.secureRenegotiationSupported)) (
    modify_conn (tlsConn.set_secureRenegotiation true) ;;
    when (negb (len sh.(serverHelloMsg.secureRenegotiation) =? 0))
      (onc (abort_with alertHandshakeFailure "tls: initial handshake had non-empty renegotiation extension"))) ;;
  hs ← state;
  when ((0 <? handshakes) && hs.(c).(tlsConn.secureRenegotiation)) (
    let expectedSecureRenegotiation := hs.(c).(tlsConn.clientFinished) ++ hs.(c).(tlsConn.serverFinished) in
    when (negb (bool_decide (sh.(serverHelloMsg.secureRenegotiation) = expectedSecureRenegotiation)))
      (onc (abort_with alertHandshakeFailure "tls: incorrect renegotiation extension contents"))).

(** The master secret and the certificates of a session; the SCTs of the ServerHello
    count before its own. *)
Definition restore (st : SessionState.t X) : E hs_t unit :=
  emodify (set_masterSecret st.(SessionState.secret)) ;;
  modify_conn (fun c =>
    let c := tlsConn.set_extMasterSecret st.(SessionState.extMasterSecret) c in
    let c := tlsConn.set_peerCertificates st.(SessionState.peerCertificates) c in
    let c := tlsConn.set_verifiedChains st.(SessionState.verifiedChains) c in
    let c := tlsConn.set_ocspResponse st.(SessionState.ocspResponse) c in
    if (len (default [] c.(tlsConn.scts)) =? 0) && negb (len (default [] st.(SessionState.scts)) =? 0)
    then tlsConn.set_scts st.(SessionState.scts) c else c).

Definition nil_if_empty {A} (l : list A) : option (list A) := match l with [] => None | _ => Some l end.

Definition processServerHello : E hs_t bool :=
  pickCipherSuite ;;
  hs ← state;
  let sh := hs.(serverHello) in
  let fail {A} a msg : E hs_t A := onc (abort_with a msg) in
  if negb (sh.(serverHelloMsg.compressionMethod) =? b2z compressionNone) then
    fail alertUnexpectedMessage "tls: server selected unsupported compression format" else
  check_renegotiation ;;
  match checkALPN hs.(hello).(clientHelloMsg.alpnProtocols) sh.(serverHelloMsg.alpnProtocol) with
  | Some err => onc (abort alertUnsupportedExtension err)
  | None =>
      modify_conn (fun c => tlsConn.set_scts (nil_if_empty sh.(serverHelloMsg.scts)) (tlsConn.set_clientProtocol sh.(serverHelloMsg.alpnProtocol) c)) ;;
      hs ← state;
      if negb (serverResumedSession hs) then eret false else
      p ← ederef hs.(session);
      s ← suite_of;
      let st := p.(session.state) in
      if negb (st.(SessionState.version) =? vers hs.(c)) then
        fail alertHandshakeFailure "tls: server resumed a session with a different version" else
      if negb (st.(SessionState.cipherSuite) =? s.(cipherSuite.id)) then
        fail alertHandshakeFailure "tls: server resumed a session with a different cipher suite" else
      if negb (Bool.eqb st.(SessionState.extMasterSecret) sh.(serverHelloMsg.extendedMasterSecret)) then
        fail alertHandshakeFailure "tls: server resumed a session with a different EMS extension" else
      restore st ;;
      eret true
  end.

(** ** The full handshake *)

Definition read_certificates : E hs_t (list bytes) :=
  msg ← read_message;
  match msg with
  | CertificateMsg certMsg =>
      let certificates := certMsg.(certificateMsg.certificates) in
      if len certificates =? 0 then unexpected else eret certificates
  | _ => unexpected
  end.

(** The status of a certificate, and the message that follows. *)
Definition certificate_status (msg : handshakeMessage) : E hs_t handshakeMessage :=
  match msg with
  | CertificateStatus cs =>
      hs ← state;
      if negb hs.(serverHello).(serverHelloMsg.ocspStapling) then
        onc (abort_with alertUnexpectedMessage "tls: received unexpected CertificateStatus message") else
      modify_conn (tlsConn.set_ocspResponse (Some cs.(certificateStatusMsg.response))) ;;
      read_message
  | _ => eret msg
  end.

(** The certificates are verified, or those of a renegotiation are the same. *)
Definition check_identity (certificates : list bytes) : E hs_t unit :=
  hs ← state;
  if hs.(c).(tlsConn.conn).(Conn.handshakes) =? 0 then onc (verifyServerCertificate hk now certificates) else
  leaf ← leaf_of;
  first ← ederef (head certificates);
  when (negb (bool_decide (Raw leaf = first)))
    (onc (abort_with alertBadCertificate "tls: server's identity changed during renegotiation")).

Definition server_key_exchange (ka : keyAgreement) (msg : handshakeMessage) : E hs_t (keyAgreement * handshakeMessage) :=
  match msg with
  | ServerKeyExchange skx =>
      hs ← state;
      leaf ← leaf_of;
      r ← onc (draws (processServerKeyExchange hs.(hello) hs.(serverHello) leaf skx ka));
      match r.2 with
      | Some err => onc (abort alertIllegalParameter (Plain err))
      | None =>
          let key := skx.(serverKeyExchangeMsg.key) in
          when (3 <=? len key) (
            curve_type ← elift (Buffer.get key 0);
            when (curve_type =? 3) (curveID ← elift (get16 key 1); modify_conn (tlsConn.set_curveID curveID))) ;;
          msg ← read_message;
          eret (r.1, msg)
      end
  | _ => eret (ka, msg)
  end.

(** The request and the certificate to send, [None] for an empty one. *)
Definition certificate_request (msg : handshakeMessage) : E hs_t (option (certificateRequestMsg.t * option KeyPair.t) * handshakeMessage) :=
  match msg with
  | CertificateRequest certReq =>
      v ← conn_field vers;
      r ← caught (onc (getClientCertificate hk (certificateRequestInfoFromMsg v certReq)));
      match r with
      | inl err => onc (abort alertInternalError err)
      | inr chainToSend => msg ← read_message; eret (Some (certReq, chainToSend), msg)
      end
  | _ => eret (None, msg)
  end.

Definition chain_of (cert : option KeyPair.t) : list bytes :=
  match cert with Some cert => cert.(KeyPair.chain).(Certificate.Certificate) | None => [] end.

Definition client_key_exchange (ka : keyAgreement) : E hs_t bytes :=
  hs ← state;
  leaf ← leaf_of;
  r ← onc (draws (generateClientKeyExchange hs.(hello) leaf ka));
  match r with
  | inl err => onc (abort alertInternalError (Plain err))
  | inr (preMasterSecret, ckx) => write_message (ClientKeyExchange ckx) ;; eret preMasterSecret
  end.

Definition master_secret (preMasterSecret : bytes) : E hs_t unit :=
  hs ← state;
  s ← suite_of;
  let v := vers hs.(c) in
  ms ← (if hs.(serverHello).(serverHelloMsg.extendedMasterSecret) then
          modify_conn (tlsConn.set_extMasterSecret true) ;;
          h ← the_hash;
          sum ← elift (finishedHash12.Sum h);
          derived (extMasterFromPreMasterSecret v s preMasterSecret sum)
        else derived (masterFromPreMasterSecret v s preMasterSecret hs.(hello).(clientHelloMsg.random) hs.(serverHello).(serverHelloMsg.random)));
  emodify (set_masterSecret ms) ;;
  r ← caught (onc (writeKeyLog hk keyLogLabelTLS12 hs.(hello).(clientHelloMsg.random) ms));
  match r with
  | inl _ => onc (abort_with alertInternalError "tls: failed to write to key log: ")
  | inr _ => eret tt
  end.

(** The scheme (before TLS 1.2 none), its type and hash. *)
Definition verify_scheme (cert : KeyPair.t) (pub : public) (certReq : certificateRequestMsg.t) : E hs_t (option Z * (Z * cryptoHash)) :=
  v ← conn_field vers;
  if VersionTLS12 <=? v then
    match selectSignatureScheme v cert certReq.(certificateRequestMsg.supportedSignatureAlgorithms) with
    | inl err => onc (abort alertIllegalParameter (Plain err))
    | inr alg =>
        match typeAndHashFromSignatureScheme alg with
        | inl _ => onc (abort_alert alertInternalError)
        | inr th => eret (Some alg, th)
        end
    end
  else
    match legacyTypeAndHashFromPublicKey pub with
    | inl err => onc (abort alertIllegalParameter (Plain err))
    | inr th => eret (None, th)
    end.

(** [hashForClientCertificate] hashes in TLS 1.2 unless the key is an Ed25519 key; the
    hash must be available then, and is not looked at otherwise. *)
Definition signed_hash (h : finishedHash12.t) (sigType : Z) (sigHash : cryptoHash) : outcome bytes :=
  match sigHash with
  | CryptoHash alg => finishedHash12.hashForClientCertificate h sigType alg
  | _ => if (VersionTLS12 <=? h.(finishedHash12.version)) && negb (sigType =? signatureEd25519) then Panic
         else finishedHash12.hashForClientCertificate h sigType SHA1
  end.

Definition send_certificate_verify (cert : KeyPair.t) (certReq : certificateRequestMsg.t) : E hs_t unit :=
  match Signer_Public cert.(KeyPair.PrivateKey) with
  | None => onc (abort_with alertInternalError "tls: client certificate private key of type %T does not implement crypto.Signer")
  | Some pub =>
      sch ← verify_scheme cert pub certReq;
      let '(alg, (sigType, sigHash)) := sch in
      h ← the_hash;
      signed ← elift (signed_hash h sigType sigHash);
      sig ← onc (draws (draw (Sign cert.(KeyPair.PrivateKey) signed (sign_opts sigType sigHash))));
      match sig with
      | inl err => onc (abort alertInternalError (Plain err))
      | inr sig => write_message (CertificateVerify (certificateVerifyMsg.Mk (non_nil alg) (default 0 alg) sig))
      end
  end.

(** What the server says: its certificates, its keys, a request; up to its done. *)
Definition server_flight : E hs_t (keyAgreement * option (certificateRequestMsg.t * option KeyPair.t)) :=
  certificates ← read_certificates;
  msg ← read_message;
  msg ← certificate_status msg;
  check_identity certificates ;;
  s ← suite_of;
  v ← conn_field vers;
  r ← server_key_exchange (new_ka s.(cipherSuite.ka) v) msg;
  q ← certificate_request r.2;
  match q.2 with
  | ServerHelloDone => eret (r.1, q.1)
  | _ => unexpected
  end.

Definition doFullHandshake : E hs_t unit :=
  r ← server_flight;
  let (ka, request) := (r : keyAgreement * option (certificateRequestMsg.t * option KeyPair.t)) in
  match request with
  | Some (_, cert) => write_message (CertificateMsg (certificateMsg.Mk (chain_of cert)))
  | None => eret tt
  end ;;
  preMasterSecret ← client_key_exchange ka;
  master_secret preMasterSecret ;;
  match request with
  | Some (certReq, Some cert) => when (0 <? len (chain_of (Some cert))) (send_certificate_verify cert certReq)
  | _ => eret tt
  end ;;
  h ← the_hash;
  emodify (set_finishedHash (Some (finishedHash12.discardHandshakeBuffer h))).

(** ** Keys and Finished *)

Definition establishKeys : E hs_t unit :=
  hs ← state;
  s ← suite_of;
  let v := vers hs.(c) in
  k ← elift (establish true v s hs.(masterSecret) hs.(hello).(clientHelloMsg.random) hs.(serverHello).(serverHelloMsg.random));
  k ← ederef k;
  let '(client, server) := k in
  modify_layer (fun c => Conn.set_in_ (prepareCipherSpec v (Some server.1) server.2 c.(Conn.in_)) c) ;;
  modify_layer (fun c => Conn.set_out (prepareCipherSpec v (Some client.1) client.2 c.(Conn.out)) c).

(** The check of the server's Finished message, which is copied to [out]. *)
Definition readFinished : E hs_t unit :=
  onc readChangeCipherSpec ;;
  r ← onc (readHandshake false);
  match r.2 with
  | Finished serverFinished =>
      hs ← state;
      h ← the_hash;
      verify ← derived (finishedHash12.serverSum h hs.(masterSecret));
      if negb (bool_decide (verify = serverFinished.(finishedMsg.verifyData))) then
        onc (abort_with alertHandshakeFailure "tls: server's Finished message was incorrect") else
      transcript_msg r.2 ;;
      out ← elift (copy_at 0 verify hs.(c).(tlsConn.serverFinished));
      modify_conn (tlsConn.set_serverFinished out)
  | _ => unexpected
  end.

Definition readSessionTicket : E hs_t unit :=
  hs ← state;
  if negb hs.(serverHello).(serverHelloMsg.ticketSupported) then eret tt else
  if negb hs.(hello).(clientHelloMsg.ticketSupported) then
    onc (abort_with alertIllegalParameter "tls: server sent unrequested session ticket") else
  msg ← read_message;
  match msg with
  | NewSessionTicket m => emodify (set_ticket (Some m.(newSessionTicketMsg.ticket)))
  | _ => unexpected
  end.

Definition saveSessionTicket : E hs_t unit :=
  hs ← state;
  match hs.(ticket) with
  | None => eret tt
  | Some ticket =>
      let key := clientSessionCacheKey RemoteAddr hs.(c) in
      if bool_decide (key = []) then eret tt else
      let st := sessionState now hs.(c) in
      let session := SessionState.Mk st.(SessionState.Extra) st.(SessionState.EarlyData) st.(SessionState.version) st.(SessionState.isClient)
        st.(SessionState.cipherSuite) st.(SessionState.createdAt) hs.(masterSecret) st.(SessionState.extMasterSecret) st.(SessionState.peerCertificates)
        st.(SessionState.ocspResponse) st.(SessionState.scts) st.(SessionState.verifiedChains) st.(SessionState.alpnProtocol) st.(SessionState.useBy)
        st.(SessionState.ageAdd) (Some ticket) in
      modify_conn (fun c =>
        let p := session.Ptr c.(tlsConn.nextSession) session in
        tlsConn.set_nextSession (Datatypes.S c.(tlsConn.nextSession))
          (match c.(tlsConn.sessionCache) with
           | Some ca => tlsConn.set_sessionCache (Some (Put key (Some p) ca)) c
           | None => c
           end))
  end.

Definition sendFinished : E hs_t unit :=
  onc writeChangeCipherRecord ;;
  hs ← state;
  h ← the_hash;
  verifyData ← derived (finishedHash12.clientSum h hs.(masterSecret));
  write_message (Finished (finishedMsg.Mk verifyData)) ;;
  out ← elift (copy_at 0 verifyData hs.(c).(tlsConn.clientFinished));
  modify_conn (tlsConn.set_clientFinished out).

(** ** The handshake *)

Definition start_handshake : E hs_t bool :=
  isResume ← processServerHello;
  s ← suite_of;
  v ← conn_field vers;
  h ← elift (finishedHash12.newFinishedHash v s);
  emodify (set_finishedHash (Some (if (isResume : bool) || ((len hk.(Certificates) =? 0) && negb (non_nil hk.(GetClientCertificate)))
                                   then finishedHash12.discardHandshakeBuffer h else h))) ;;
  hs ← state;
  transcript_msg (ClientHello hs.(hello)) ;;
  transcript_msg (ServerHello hs.(serverHello)) ;;
  modify_layer (Conn.set_buffering true) ;;
  modify_conn (tlsConn.set_didResume isResume) ;;
  eret isResume.

Definition resumed_handshake : E hs_t unit :=
  establishKeys ;;
  readSessionTicket ;;
  readFinished ;;
  modify_conn (tlsConn.set_clientFinishedIsFirst false) ;;
  hs ← state;
  onc (callback hk.(VerifyConnection) (fun f => f (connectionStateLocked hs.(c)))) ;;
  sendFinished ;;
  onc flush.

Definition full_handshake : E hs_t unit :=
  doFullHandshake ;;
  establishKeys ;;
  sendFinished ;;
  onc flush ;;
  modify_conn (tlsConn.set_clientFinishedIsFirst true) ;;
  readSessionTicket ;;
  readFinished.

Definition handshake : E hs_t unit :=
  isResume ← start_handshake;
  (if (isResume : bool) then resumed_handshake else full_handshake) ;;
  saveSessionTicket ;;
  hs ← state;
  s ← suite_of;
  modify_conn (tlsConn.set_ekm (Some (ekm12 (vers hs.(c)) s hs.(masterSecret) hs.(hello).(clientHelloMsg.random) hs.(serverHello).(serverHelloMsg.random)))) ;;
  modify_layer (Conn.set_isHandshakeComplete true).

End Ops.
