(* ===== verification/Client12Facts.v ===== *)
(** * The client before TLS 1.3 authenticates the server

    Theorems on the handshake of Client12: when it succeeds the server has resumed
    the session that was offered, with its version, its suite and its secret, or it
    has a certificate that is verified (in a renegotiation: the one it had), with
    whose key it has signed its part of the key agreement or alone can decrypt the
    premaster secret; and its Finished message covers the transcript.  The handshake
    is complete exactly when it has succeeded. *)

From S2P Require Import Prelude Cryptobyte Common Config Negotiation Codec Buffer KeySchedule Record Names Messages RawMessages ServerHello ClientHello Ticket Caches Public Extensions Handshake Conn Suites ConnFacts ConnFrame ECH Marshal Shuffle Parrots Session Preset Auth KeyAgreement Peer PeerFacts Client12.

(** ** Key agreement *)

Section Agreement.
Context {Ks : Keys} {S : Signing Ks} {E_ : KeyExchange Ks} {K : Crypto} {X : X509} {XK : X509Keys X S}.

(** The share of the server is signed, together with the random values, by the key of
    the leaf, and gives the premaster secret. *)
Definition signed_share (ch : clientHelloMsg.t) (sh : serverHelloMsg.t) (leaf : certificate) (v : Z) (isRSA : bool) (pms : bytes) : Prop :=
  exists params pub g key r r' t h signed sig, GenerateKey g r = (r', inr key) /\ from params 4 = Ret pub /\ ECDH key pub = Some pms /\
    ecdheKeyAgreement.is_rsa_type t = isRSA /\
    hashForServerKeyExchange t h v [ch.(clientHelloMsg.random); sh.(serverHelloMsg.random); params] = Ret signed /\
    verifyHandshakeSignature t (x509_PublicKey leaf) h signed sig = None.

Lemma check_signature_ok ka ch sh leaf params sig : ecdheKeyAgreement.check_signature ka ch sh leaf params sig = Ret None ->
  exists t h signed sig', ecdheKeyAgreement.is_rsa_type t = ka.(ecdheKeyAgreement.isRSA) /\
    hashForServerKeyExchange t h ka.(ecdheKeyAgreement.version) [ch.(clientHelloMsg.random); sh.(serverHelloMsg.random); params] = Ret signed /\
    verifyHandshakeSignature t (x509_PublicKey leaf) h signed sig' = None.
Proof.
  unfold ecdheKeyAgreement.check_signature. intros H. destruct (ecdheKeyAgreement.client_scheme _ _ _ _) as [|[e|[[t h] sg]]]; [done|done|]. cbn [obind] in H.
  destruct (Bool.eqb _ _) eqn:Eb; [|done]. cbn [negb] in H. ostep H. case_match; [done|]. ostep H. ostep H.
  destruct (verifyHandshakeSignature _ _ _ _ _) eqn:Ev; [done|]. eexists t, h, _, _. split; [by apply eqb_prop|]. split; [eassumption|exact Ev].
Qed.

Lemma processed_share ch sh leaf skx ka ka' r r' :
  ecdheKeyAgreement.processServerKeyExchange ch sh leaf skx ka r = Ret (r', (ka', None)) ->
  signed_share ch sh leaf ka.(ecdheKeyAgreement.version) ka.(ecdheKeyAgreement.isRSA) ka'.(ecdheKeyAgreement.preMasterSecret).
Proof.
  unfold ecdheKeyAgreement.processServerKeyExchange. intros H. case_match; [done|].
  apply rbind_ret in H as (r1 & ct & _ & H). case_match; [done|]. apply rbind_ret in H as (r2 & id & _ & H). apply rbind_ret in H as (r3 & n & _ & H).
  case_match; [done|]. apply rbind_ret in H as (r4 & params & _ & H). apply rbind_ret in H as (r5 & pub & Hp & H). apply rbind_ret in H as (r6 & sig & _ & H).
  case_match; [done|]. destruct (curveForCurveID id) eqn:Ec; [|done]. cbn [negb] in H. apply rbind_ret in H as (r7 & [e|key] & Hk & H); [done|].
  unfold generate_key in Hk. rewrite Ec in Hk. cbn [negb] in Hk. unfold draw in Hk. injection Hk as Hk. destruct (ECDH key pub) as [pms|] eqn:Ee; [|done].
  apply rbind_ret in H as (r8 & err & Hc & H). injection H as _ <- ->. unfold rlift in Hc, Hp. destruct (from params 4) as [|p] eqn:Ef; [done|]. injection Hp as _ ->.
  destruct (ecdheKeyAgreement.check_signature _ _ _ _ _ _) as [|e] eqn:Es; [done|]. injection Hc as _ ->.
  apply check_signature_ok in Es as (t & h & signed & sg & Ht & Hh & Hv).
  exists params, pub, id, key, r6, r7, t, h, signed, sg. done.
Qed.

(** The premaster secret is known only to one who has the key of the leaf. *)
Definition bound (ch : clientHelloMsg.t) (sh : serverHelloMsg.t) (leaf : certificate) (ka : key_agreement) (v : Z) (pms : bytes) : Prop :=
  match ka with
  | rsaKA => exists k rnd enc r r', x509_PublicKey leaf = RSA k /\ pms = be 2 ch.(clientHelloMsg.vers) ++ rnd /\ rsa_EncryptPKCS1v15 k pms r = (r', inr enc)
  | ecdheRSAKA => signed_share ch sh leaf v true pms
  | ecdheECDSAKA => signed_share ch sh leaf v false pms
  end.
(** The state of the agreement before the client takes its part. *)
Definition prepared (ch : clientHelloMsg.t) (sh : serverHelloMsg.t) (leaf : certificate) (ka : key_agreement) (v : Z) (a : keyAgreement) : Prop :=
  match a with
  | RsaKA => ka = rsaKA
  | EcdheKA a => ka <> rsaKA /\ (a.(ecdheKeyAgreement.ckx) = None \/ signed_share ch sh leaf v (match ka with ecdheRSAKA => true | _ => false end) a.(ecdheKeyAgreement.preMasterSecret))
  end.

Lemma prepared_new ch sh leaf ka v : prepared ch sh leaf ka v (new_ka ka v).
Proof. destruct ka; cbn; auto. Qed.
Lemma prepared_processed ch sh leaf ka v skx a r r' : processServerKeyExchange ch sh leaf skx (new_ka ka v) r = Ret (r', (a, None)) -> prepared ch sh leaf ka v a.
Proof.
  destruct ka; cbn [new_ka processServerKeyExchange]; [done| |]; intros (r1 & [a1 e] & H & [= _ <- ->])%rbind_ret; split; [done|right|done|right]; by apply processed_share in H.
Qed.
Lemma prepared_bound ch sh leaf ka v a r r' pms ckx : prepared ch sh leaf ka v a -> generateClientKeyExchange ch leaf a r = Ret (r', inr (pms, ckx)) ->
  bound ch sh leaf ka v pms.
Proof.
  destruct a as [|a]; cbn [prepared generateClientKeyExchange].
  - intros ->. unfold rsaKeyAgreement.generateClientKeyExchange, rok. intros (r1 & [e|rnd] & _ & H)%rbind_ret; [done|].
    destruct (x509_PublicKey leaf) as [k| | |] eqn:Ek; try done. apply rbind_ret in H as (r2 & [e|enc] & He & H); [done|]. injection H as _ <- _.
    unfold draw in He. injection He as He. by exists k, rnd, enc, r1, r2.
  - intros [Hn Ha] H. unfold ecdheKeyAgreement.generateClientKeyExchange in H. destruct Ha as [Hc|Ha]; [by rewrite Hc in H|].
    destruct (ecdheKeyAgreement.ckx a); [|done]. injection H as _ <- _. by destruct ka.
Qed.
End Agreement.

(** ** A view of the state *)

Module view12.
Record t {X : X509} := Mk {
  hello : clientHelloMsg.t;
  sh : serverHelloMsg.t;
  session : option (session.ptr X);
  suite : option cipherSuite.t;
  hash : option finishedHash12.t;
  master : bytes;
  peer : list certificate;
  chains : list (list certificate);
  cfg : Config.t;
  vers : Z;
  handshakes : Z;
  resumed : bool;
  accepted : bool;
  complete : bool
}.
#[global] Arguments t X : clear implicits.
#[global] Arguments Mk {X}.
Section Set_.
Context {X : X509}.
Definition set_suite (v : option cipherSuite.t) (s : t X) : t X :=
  Mk s.(hello) s.(sh) s.(session) v s.(hash) s.(master) s.(peer) s.(chains) s.(cfg) s.(vers)
    s.(handshakes) s.(resumed) s.(accepted) s.(complete).
Definition set_hash (v : option finishedHash12.t) (s : t X) : t X :=
  Mk s.(hello) s.(sh) s.(session) s.(suite) v s.(master) s.(peer) s.(chains) s.(cfg) s.(vers)
    s.(handshakes) s.(resumed) s.(accepted) s.(complete).
Definition set_master (v : bytes) (s : t X) : t X :=
  Mk s.(hello) s.(sh) s.(session) s.(suite) s.(hash) v s.(peer) s.(chains) s.(cfg) s.(vers)
    s.(handshakes) s.(resumed) s.(accepted) s.(complete).
Definition set_peer (v : list certificate) (s : t X) : t X :=
  Mk s.(hello) s.(sh) s.(session) s.(suite) s.(hash) s.(master) v s.(chains) s.(cfg) s.(vers)
    s.(handshakes) s.(resumed) s.(accepted) s.(complete).
Definition set_chains (v : list (list certificate)) (s : t X) : t X :=
  Mk s.(hello) s.(sh) s.(session) s.(suite) s.(hash) s.(master) s.(peer) v s.(cfg) s.(vers)
    s.(handshakes) s.(resumed) s.(accepted) s.(complete).
Definition set_resumed (v : bool) (s : t X) : t X :=
  Mk s.(hello) s.(sh) s.(session) s.(suite) s.(hash) s.(master) s.(peer) s.(chains) s.(cfg) s.(vers)
    s.(handshakes) v s.(accepted) s.(complete).
Definition set_complete (v : bool) (s : t X) : t X :=
  Mk s.(hello) s.(sh) s.(session) s.(suite) s.(hash) s.(master) s.(peer) s.(chains) s.(cfg) s.(vers)
    s.(handshakes) s.(resumed) s.(accepted) v.
End Set_.
End view12.

Section Facts.
Context {C : Cryptobyte} {Cs : Ciphers} {B : BlockCiphers Cs} {K : Crypto} {Ks : Keys} {S : Signing Ks} {X : X509} {V : X509Verify X} {XK : X509Keys X S}
  {XC : X509Chains X S} {I : ClientSessionCache (session.ptr X)} {E_ : KeyExchange Ks}.
Context (supported : list cipherSuite.t) (hk : hooks Ks S X XC) (now : Z) (RemoteAddr : option bytes).
Import clientHandshakeState.
Implicit Types hs : clientHandshakeState.t.
Abbreviation hs_t := clientHandshakeState.t.

Definition view_of hs : view12.t X := {|
  view12.hello := hs.(hello);
  view12.sh := hs.(serverHello);
  view12.session := hs.(session);
  view12.suite := hs.(suite);
  view12.hash := hs.(finishedHash);
  view12.master := hs.(masterSecret);
  view12.peer := hs.(c).(tlsConn.peerCertificates);
  view12.chains := hs.(c).(tlsConn.verifiedChains);
  view12.cfg := config hs.(c);
  view12.vers := vers hs.(c);
  view12.handshakes := hs.(c).(tlsConn.conn).(Conn.handshakes);
  view12.resumed := hs.(c).(tlsConn.didResume);
  view12.accepted := hs.(c).(tlsConn.echAccepted);
  view12.complete := hs.(c).(tlsConn.conn).(Conn.isHandshakeComplete)
|}.

(** More was written to the running hashes. *)
Definition extends (o o' : option finishedHash12.t) : Prop := forall v f alg t k, o = Some (hash_of v f alg t k) ->
  exists w k', o' = Some (hash_of v f alg (t ++ w) k').
Definition same_view hs hs' : Prop := view_of hs' = view_of hs.
Definition grow hs hs' : Prop := exists h, view_of hs' = view12.set_hash h (view_of hs) /\ extends hs.(finishedHash) h.
Definition calm hs hs' : Prop := (view_of hs').(view12.complete) = (view_of hs).(view12.complete).

Lemma extends_refl o : extends o o.
Proof. intros v f alg t k ->. exists [], k. by rewrite app_nil_r. Qed.
Lemma extends_trans o1 o2 o3 : extends o1 o2 -> extends o2 o3 -> extends o1 o3.
Proof. intros H1 H2 v f alg t k (w & k1 & H)%H1. apply H2 in H as (w' & k2 & ->). exists (w ++ w'), k2. by rewrite app_assoc. Qed.
#[local] Instance same_view_preorder : PreOrder same_view.
Proof. split; [done|]. unfold same_view. intros ???. congruence. Qed.
#[local] Instance grow_preorder : PreOrder grow.
Proof.
  split.
  - intros hs. exists hs.(finishedHash). split; [done|]. apply extends_refl.
  - intros h1 h2 h3 (o1 & H1 & E1) (o2 & H2 & E2). exists o2. rewrite H2, H1. split; [done|].
    apply (f_equal view12.hash) in H1. cbn in H1. rewrite H1 in E2. by eapply extends_trans.
Qed.
#[local] Instance calm_preorder : PreOrder calm.
Proof. split; [done|]. unfold calm. intros ???. congruence. Qed.

Lemma same12_grow hs hs' : same_view hs hs' -> grow hs hs'.
Proof. intros H. exists hs.(finishedHash). split; [exact H|]. apply extends_refl. Qed.
Lemma grow12_calm hs hs' : grow hs hs' -> calm hs hs'.
Proof. intros (w & H & _). unfold calm. by rewrite H. Qed.
Lemma grow12_same {A} (m : E hs_t A) : stable same_view m -> stable grow m.
Proof. apply stable_weaken, same12_grow. Qed.
Lemma calm12_grow {A} (m : E hs_t A) : stable grow m -> stable calm m.
Proof. apply stable_weaken, grow12_calm. Qed.

(** ** Steps that leave the view alone, or write to the hashes *)

Lemma same12_onc {A} (m : E tlsConn.t A) : stable layer m -> stable same_view (onc m).
Proof.
  apply stable_zoom. intros hs c' (k & [Hc Hv Hcfg Hh Hs Hcl Hi Ho] & ->). unfold same_view, view_of, config, vers. cbn. by rewrite Hc, Hcfg, Hv, Hh.
Qed.
Hint Resolve same12_onc layer_abort layer_abort_with layer_abort_alert layer_readHandshake layer_writeHandshakeRecord
  layer_writeChangeCipherRecord layer_readChangeCipherSpec layer_flush layer_draws : stable.
Hint Extern 4 (same_view _ _) => done : stable.
Hint Extern 4 (grow _ _) => (apply same12_grow; done) : stable.
Hint Extern 5 (stable grow (onc _)) => apply grow12_same : stable.
Hint Resolve layer_getClientCertificate : stable.

Lemma suite12_of_ok hs hs' s : suite_of hs = Ret (hs', inr s) -> hs' = hs /\ hs.(suite) = Some s.
Proof. unfold suite_of. intros H. estep H. by apply ederef_ok in H. Qed.
Lemma the_hash_ok hs hs' s : the_hash hs = Ret (hs', inr s) -> hs' = hs /\ hs.(finishedHash) = Some s.
Proof. unfold the_hash. intros H. estep H. by apply ederef_ok in H. Qed.
Lemma leaf_of_ok hs hs' s : leaf_of hs = Ret (hs', inr s) -> hs' = hs /\ head hs.(c).(tlsConn.peerCertificates) = Some s.
Proof. unfold leaf_of. intros H. estep H. by apply ederef_ok in H. Qed.
Lemma derived_ok o hs hs' b : derived o hs = Ret (hs', inr b) -> hs' = hs /\ o = Ret (Some b).
Proof. unfold derived. intros H. estep H. apply ederef_ok in H as [-> ->]. done. Qed.
Lemma same_suite_of : stable same_view suite_of.
Proof. unfold suite_of. stable. Qed.
Lemma same_the_hash : stable same_view the_hash.
Proof. unfold the_hash. stable. Qed.
Lemma same_leaf_of : stable same_view leaf_of.
Proof. unfold leaf_of. stable. Qed.
Lemma same_derived o : stable same_view (derived o).
Proof. unfold derived. stable. Qed.
Lemma same_unexpected {A} : stable same_view (unexpected (A := A)).
Proof. unfold unexpected. stable. Qed.
Lemma grow12_write b : stable grow (write_hash b).
Proof.
  intros hs hs' r. unfold write_hash, the_hash, mbind, E_bind, ebind, state. cbn [obind]. destruct (finishedHash hs) as [h|] eqn:Eh; [|done].
  cbn [ederef eret obind]. unfold elift. destruct (finishedHash12.Write h b) as [|h'] eqn:Ew; [done|]. intros [= <- _]. exists (Some h'). split; [done|]. rewrite Eh.
  intros v f alg t k [= ->]. rewrite Write_hash_of in Ew. injection Ew as <-. by exists b, k.
Qed.
Hint Resolve same_suite_of same_the_hash same_leaf_of same_derived same_unexpected grow12_write : stable.
Hint Extern 5 (stable grow suite_of) => apply grow12_same : stable.
Hint Extern 5 (stable grow the_hash) => apply grow12_same : stable.
Hint Extern 5 (stable grow leaf_of) => apply grow12_same : stable.
Hint Extern 5 (stable grow (derived _)) => apply grow12_same : stable.
Hint Extern 5 (stable grow unexpected) => apply grow12_same : stable.
Lemma grow12_transcript m : stable grow (transcript_msg m).
Proof. unfold transcript_msg. stable. Qed.
Lemma grow12_read : stable grow read_message.
Proof. unfold read_message. stable. Qed.
Lemma grow12_write_message m : stable grow (write_message m).
Proof. unfold write_message. stable. Qed.
Hint Resolve grow12_transcript grow12_read grow12_write_message : stable.

Lemma unexpected_fails {A} hs hs' (x : A) : unexpected hs = Ret (hs', inr x) -> False.
Proof. apply abort_fails. Qed.
Ltac no_alert H ::= try (by apply abort_with_fails in H); try (by apply abort_fails in H); try (by apply abort_alert_fails in H); try (by apply unexpected_fails in H).

(** ** The ServerHello *)

Lemma same_renegotiation : stable same_view check_renegotiation.
Proof. unfold check_renegotiation, modify_conn. stable. Qed.

(** The session that the server resumes is the one that was offered. *)
Definition resumes (v : view12.t X) (s : cipherSuite.t) (p : session.ptr X) : Prop :=
  v.(view12.session) = Some p /\ p.(session.state).(SessionState.version) = v.(view12.vers) /\
  p.(session.state).(SessionState.cipherSuite) = s.(cipherSuite.id) /\
  p.(session.state).(SessionState.extMasterSecret) = v.(view12.sh).(serverHelloMsg.extendedMasterSecret).

Lemma pickCipherSuite_ok hs hs' x : pickCipherSuite supported hs = Ret (hs', inr x) ->
  exists s, mutualCipherSuite supported hs.(hello).(clientHelloMsg.cipherSuites) hs.(serverHello).(serverHelloMsg.cipherSuite) = Some s /\
    view_of hs' = view12.set_suite (Some s) (view_of hs).
Proof.
  unfold pickCipherSuite, modify_layer, modify_conn. intros H. estep H. estep H. destruct (mutualCipherSuite _ _ _) as [s|]; [|by no_alert H].
  injection H as <- _. by exists s.
Qed.

Lemma processServerHello12_ok hs hs' b : processServerHello supported hs = Ret (hs', inr b) ->
  exists s, mutualCipherSuite supported hs.(hello).(clientHelloMsg.cipherSuites) hs.(serverHello).(serverHelloMsg.cipherSuite) = Some s /\
    let v := view12.set_suite (Some s) (view_of hs) in
    if b then exists p, resumes (view_of hs) s p /\ view_of hs' = view12.set_master p.(session.state).(SessionState.secret)
      (view12.set_peer p.(session.state).(SessionState.peerCertificates) (view12.set_chains p.(session.state).(SessionState.verifiedChains) v))
    else view_of hs' = v.
Proof.
  unfold processServerHello. intros H. estep H. apply pickCipherSuite_ok in Hs as (s1 & Hm & Hv). exists s1. split; [exact Hm|]. cbn zeta.
  estep H. case_match; [by no_alert H|]. estep H. apply same_renegotiation in Hs. case_match; [by no_alert H|]. unfold modify_conn in H. estep H. estep H.
  assert (Hv1 : view_of s0 = view12.set_suite (Some s1) (view_of hs)) by (by rewrite Hs, Hv).
  case_match; [by injection H as <- <-|]. estep H. estep H. apply suite12_of_ok in Hs1 as [-> Hsu]. do 3 (case_match; [by no_alert H|]).
  unfold restore, modify_conn in H. estep H. estep Hs1. injection Hs1 as <-. injection H as <- <-. injection Hv1 as V1 V2 V3 V4 V5 V6 V7 V8 V9 V10 V11 V12 V13 V14.
  rewrite negb_false_iff in *. cbn in *. exists a1. apply (f_equal view12.sh) in Hv. cbn in Hv. split.
  - repeat match goal with H : (_ =? _) = true |- _ => apply Z.eqb_eq in H end. unfold resumes. cbn. split; [congruence|].
    split; [match goal with H : SessionState.version _ = _ |- _ => rewrite H end; exact V10|]. split; [congruence|]. apply eqb_prop. congruence.
  - unfold view_of, view12.set_suite, view12.set_master, view12.set_peer, view12.set_chains, config, vers in *. cbn in *. case_match; cbn; f_equal; congruence.
Qed.

(** ** The running hashes *)

(** The PRF and the hash of a version, as [hash_of] has them. *)
Definition hashed_by (v : Z) (s : cipherSuite.t) (f : prfFunc) (alg : hash_function) : Prop :=
  exists h, prfAndHashForVersion v s = Ret (f, h) /\ alg = default SHA1 h /\ non_nil h = negb (v <? VersionTLS12).
(** The hash of a transcript, and the contents of a Finished message. *)
Definition digest (v : Z) (alg : hash_function) (t : bytes) : bytes := if v <? VersionTLS12 then Hash MD5 t ++ Hash alg t else Hash alg t.
Definition finished_sum (v : Z) (s : cipherSuite.t) (lbl ms t : bytes) : outcome (option bytes) :=
  run (f, h) := prfAndHashForVersion v s in prf f ms lbl (match h with Some h => Hash h t | None => Hash MD5 t ++ Hash SHA1 t end) finishedVerifyLength.

Lemma newFinishedHash_ok v s h0 : finishedHash12.newFinishedHash v s = Ret h0 ->
  exists f alg, hashed_by v s f alg /\ h0 = hash_of v f alg [] true.
Proof.
  unfold finishedHash12.newFinishedHash, hashed_by. destruct (prfAndHashForVersion v s) as [|[f h]] eqn:E; [done|]. cbn [obind].
  assert (Hh : non_nil h = negb (v <? VersionTLS12)).
  { unfold prfAndHashForVersion in E. repeat case_match; simplify_eq; cbn; rewrite ?orb_true_iff, ?Z.eqb_eq in *; try done; naive_solver. }
  intros H. exists f, (default SHA1 h). split; [by exists h|]. unfold hash_of. rewrite Z.leb_antisym in H.
  destruct h; cbn in Hh, H; destruct (v <? VersionTLS12); try done; by injection H as <-.
Qed.
Lemma Sum_of v f alg t k : finishedHash12.Sum (hash_of v f alg t k) = Ret (digest v alg t).
Proof. unfold finishedHash12.Sum, digest. cbn. rewrite Z.leb_antisym. by destruct (v <? VersionTLS12). Qed.
Lemma serverSum_of v s f alg t k ms : hashed_by v s f alg ->
  finishedHash12.serverSum (hash_of v f alg t k) ms = finished_sum v s serverFinishedLabel ms t.
Proof.
  intros (h & Hp & -> & Hn). unfold finishedHash12.serverSum, finished_sum. rewrite Sum_of, Hp. cbn. unfold digest.
  destruct h; cbn in Hn; destruct (v <? VersionTLS12); done.
Qed.

Lemma transcript12_msg_ok m hs hs' x : transcript_msg m hs = Ret (hs', inr x) -> exists b, transcriptMsg m = Ret (inr b) /\
  forall v f alg t k, hs.(finishedHash) = Some (hash_of v f alg t k) -> view_of hs' = view12.set_hash (Some (hash_of v f alg (t ++ b) k)) (view_of hs).
Proof.
  unfold transcript_msg, write_hash. intros H. estep H. estep H. estep H. apply the_hash_ok in Hs1 as [-> Hh]. estep H. injection H as <- _.
  exists a0. split; [congruence|]. intros v f alg t k Hk. rewrite Hk in Hh. injection Hh as <-. rewrite Write_hash_of in Hs1. by injection Hs1 as <-.
Qed.

Lemma start_handshake_ok hs hs' b : start_handshake supported hk hs = Ret (hs', inr b) ->
  exists s f alg b1 b2 k v, mutualCipherSuite supported hs.(hello).(clientHelloMsg.cipherSuites) hs.(serverHello).(serverHelloMsg.cipherSuite) = Some s /\
    hashed_by (vers hs.(c)) s f alg /\ transcriptMsg (ClientHello hs.(hello)) = Ret (inr b1) /\ transcriptMsg (ServerHello hs.(serverHello)) = Ret (inr b2) /\
    view_of hs' = view12.set_resumed b (view12.set_hash (Some (hash_of (vers hs.(c)) f alg (b1 ++ b2) k)) v) /\
    if b then exists p, resumes (view_of hs) s p /\ v = view12.set_master p.(session.state).(SessionState.secret)
      (view12.set_peer p.(session.state).(SessionState.peerCertificates) (view12.set_chains p.(session.state).(SessionState.verifiedChains)
        (view12.set_suite (Some s) (view_of hs))))
    else v = view12.set_suite (Some s) (view_of hs).
Proof.
  unfold start_handshake, conn_field, modify_layer, modify_conn. intros H. estep H. rename a into b0. apply processServerHello12_ok in Hs as (sx & Hm & Hv).
  estep H. apply suite12_of_ok in Hs as [-> Hsu]. estep H. estep H. estep H. estep H. estep H. apply transcript12_msg_ok in Hs0 as (b1 & H1 & V1). estep H.
  apply transcript12_msg_ok in Hs0 as (b2 & H2 & V2). estep H. estep H. injection H as <- ->.
  assert (a = sx /\ vers s.(c) = vers hs.(c) /\ hello s = hello hs /\ serverHello s = serverHello hs) as (-> & Hve & Hhe & Hsh).
  { destruct b; [destruct Hv as (p & _ & Hv)|]; injection Hv as E1 E2 E3 E4 E5 E6 E7 E8 E9 E10 E11 E12 E13 E14; repeat split; congruence. }
  cbn [hello serverHello set_finishedHash] in *. rewrite Hhe in H1. apply newFinishedHash_ok in Hs as (f & alg & Hf & ->). rewrite Hve in *.
  match goal with V : context [if ?x then _ else _] |- _ => set (k := negb x) in * end.
  assert (Hk : (if negb k then finishedHash12.discardHandshakeBuffer (hash_of (vers (c hs)) f alg [] true) else hash_of (vers (c hs)) f alg [] true) = hash_of (vers (c hs)) f alg [] k).
  { destruct k; [done|]. unfold hash_of, finishedHash12.discardHandshakeBuffer. cbn. by rewrite andb_false_r. }
  unfold k in Hk at 1. rewrite negb_involutive in Hk. rewrite Hk in *.
  specialize (V1 _ _ _ _ _ eq_refl). cbn [app] in V1. apply (f_equal view12.hash) in V1 as Vh. cbn in Vh. specialize (V2 _ _ _ _ _ Vh).
  rewrite Hsh in H2. exists sx, f, alg, b1, b2, k, (view_of s). split; [exact Hm|]. split; [exact Hf|]. split; [exact H1|]. split; [exact H2|]. split; [|destruct b; exact Hv].
  rewrite V1 in V2. apply (f_equal (view12.set_resumed b)) in V2. exact V2.
Qed.

(** ** The full handshake *)

(** Who the server is: its certificates are verified, or in a renegotiation those of
    before, of which the leaf is shown again. *)
Definition identity (v : view12.t X) (certificates : list bytes) (leaf : certificate) (rest : list certificate) (chains : list (list certificate)) : Prop :=
  if v.(view12.handshakes) =? 0 then
    exists cn, config cn = v.(view12.cfg) /\ cn.(tlsConn.echAccepted) = v.(view12.accepted) /\ verified hk now cn certificates leaf rest chains
  else v.(view12.peer) = leaf :: rest /\ v.(view12.chains) = chains /\ head certificates = Some (Raw leaf).

Lemma grow_certificates : stable grow read_certificates.
Proof. unfold read_certificates. stable. Qed.
Lemma grow_status msg : stable grow (certificate_status msg).
Proof. unfold certificate_status, modify_conn. stable. Qed.
Lemma grow_request msg : stable grow (certificate_request hk msg).
Proof. unfold certificate_request, conn_field. stable. Qed.
Hint Resolve grow_certificates grow_status grow_request : stable.

Lemma check_identity_ok certificates hs hs' x : check_identity hk now certificates hs = Ret (hs', inr x) ->
  exists leaf rest chains, identity (view_of hs) certificates leaf rest chains /\ view_of hs' = view12.set_peer (leaf :: rest) (view12.set_chains chains (view_of hs)).
Proof.
  unfold check_identity, identity. intros H. estep H. cbn [view12.handshakes view_of]. destruct (Conn.handshakes _ =? 0).
  - apply zoom_ok in H as (cn & H & ->). apply verifyServerCertificate_ok in H as (leaf & rest & chains & Hv & ->). exists leaf, rest, chains. split; [|done].
    by exists (c hs).
  - estep H. apply leaf_of_ok in Hs as [-> Hl]. estep H. unfold when in H. case_match eqn:Eb; [by no_alert H|]. injection H as <- _.
    apply negb_false_iff, bool_decide_eq_true_1 in Eb. destruct (tlsConn.peerCertificates (c hs)) as [|leaf rest] eqn:Ep; [done|]. injection Hl as <-.
    exists leaf, rest, (tlsConn.verifiedChains (c hs)). cbn. split; [split; [done|split; [done|congruence]]|]. unfold view12.set_peer, view12.set_chains, view_of. cbn. by rewrite Ep.
Qed.

Lemma server_key_exchange_ok leaf rest ka v msg hs hs' r : hs.(c).(tlsConn.peerCertificates) = leaf :: rest ->
  server_key_exchange (new_ka ka v) msg hs = Ret (hs', inr r) -> grow hs hs' /\ prepared hs.(hello) hs.(serverHello) leaf ka v r.1.
Proof.
  intros Hp H. destruct msg as [| | | | | | | | | |skx| | | | | | | | |]; try (injection H as <- <-; split; [reflexivity|apply prepared_new]).
  cbn [server_key_exchange] in H. estep H. estep H. apply leaf_of_ok in Hs as [-> Hl]. rewrite Hp in Hl. injection Hl as <-. estep H.
  pose proof (same12_onc _ (layer_draws _) _ _ _ Hs) as Hv. destruct a as [a [e|]]; cbn [snd fst] in H; [by no_alert H|].
  assert (Hg : grow s hs').
  { unfold modify_conn in H. cbn beta iota in H. match type of H with ?m _ = _ => assert (Hst : stable grow m) by stable end. by eapply Hst. }
  split; [etrans; [by apply same12_grow|exact Hg]|]. estep H. estep H. injection H as _ <-. cbn [fst].
  apply zoom_ok in Hs as (cn & Hs & _). unfold draws in Hs. destruct (processServerKeyExchange _ _ _ _ _ _) as [|[rd z]] eqn:Ep; [done|]. injection Hs as _ ->.
  by apply prepared_processed in Ep.
Qed.

Lemma set_hash_twice (h h' : option finishedHash12.t) (v : view12.t X) : view12.set_hash h (view12.set_hash h' v) = view12.set_hash h v.
Proof. done. Qed.

Lemma server_flight_ok hs hs' r s : hs.(suite) = Some s -> server_flight hk now hs = Ret (hs', inr r) ->
  exists certificates leaf rest chains h, identity (view_of hs) certificates leaf rest chains /\
    prepared hs.(hello) hs.(serverHello) leaf s.(cipherSuite.ka) (vers hs.(c)) r.1 /\ extends hs.(finishedHash) h /\
    view_of hs' = view12.set_hash h (view12.set_peer (leaf :: rest) (view12.set_chains chains (view_of hs))).
Proof.
  intros Hs0 H. unfold server_flight, conn_field in H. estep H. rename a into certificates. apply grow_certificates in Hs. estep H. apply grow12_read in Hs1. estep H. apply grow_status in Hs2.
  assert (grow hs s2) as (h1 & V1 & E1) by (etrans; [exact Hs|]; etrans; [exact Hs1|exact Hs2]).
  estep H. apply check_identity_ok in Hs3 as (leaf & rest & chains & Hid & V2). estep H. apply suite12_of_ok in Hs3 as [-> Hsu]. estep H. estep H.
  assert (V3 : view_of s3 = view12.set_hash h1 (view12.set_peer (leaf :: rest) (view12.set_chains chains (view_of hs)))) by (by rewrite V2, V1).
  injection V3 as W1 W2 W3 W4 W5 W6 W7 W8 W9 W10 W11 W12 W13 W14.
  apply (server_key_exchange_ok leaf rest) in Hs3 as [(h2 & V4 & E2) Hp]; [|exact W7]. estep H. apply grow_request in Hs3 as (h3 & V5 & E3).
  destruct (a4.2); try by no_alert H. injection H as <- <-. exists certificates, leaf, rest, chains, h3. split; [by rewrite V1 in Hid|].
  assert (a2 = s) as -> by congruence. split; [by rewrite <- W1, <- W2, <- W10|].
  split; [|by rewrite V5, V4, V2, V1]. apply (f_equal view12.hash) in V4. cbn in V4. rewrite W5 in E2. rewrite V4 in E3. eapply extends_trans; [exact E1|]. by eapply extends_trans.
Qed.

(** The master secret of a premaster secret; with the extension, of the transcript. *)
Definition derives (v : Z) (s : cipherSuite.t) (alg : hash_function) (ch : clientHelloMsg.t) (sh : serverHelloMsg.t) (t pms ms : bytes) : Prop :=
  if sh.(serverHelloMsg.extendedMasterSecret) then extMasterFromPreMasterSecret v s pms (digest v alg t) = Ret (Some ms)
  else masterFromPreMasterSecret v s pms ch.(clientHelloMsg.random) sh.(serverHelloMsg.random) = Ret (Some ms).

Lemma same_caught_log l r b : stable same_view (caught (onc (writeKeyLog hk l r b))).
Proof. apply stable_caught, (stable_zoom _ (fun c c' => exists l, c' = tlsConn.set_keyLog l c)); [by intros h t [l' ->]|]. apply logged. Qed.

Lemma master_secret_ok pms hs hs' x s v f alg t k : hs.(suite) = Some s -> hs.(finishedHash) = Some (hash_of v f alg t k) -> vers hs.(c) = v ->
  master_secret hk pms hs = Ret (hs', inr x) ->
  exists ms, derives v s alg hs.(hello) hs.(serverHello) t pms ms /\ view_of hs' = view12.set_master ms (view_of hs).
Proof.
  intros Hsu Hh <- H. unfold master_secret, modify_conn in H. estep H. estep H. apply suite12_of_ok in Hs as [-> Hs]. rewrite Hsu in Hs. injection Hs as <-. estep H. rename a into ms.
  assert (derives (vers hs.(c)) s alg hs.(hello) hs.(serverHello) t pms ms /\ view_of s0 = view_of hs) as [Hd V1].
  { unfold derives. destruct (serverHelloMsg.extendedMasterSecret _).
    - estep Hs. estep Hs. apply the_hash_ok in Hs0 as [-> Hx]. change (finishedHash hs = Some a) in Hx. rewrite Hh in Hx. injection Hx as <-. estep Hs.
      rewrite Sum_of in Hs0. injection Hs0 as <-. apply derived_ok in Hs as [-> Hs]. split; done.
    - apply derived_ok in Hs as [-> Hs]. split; done. }
  estep H. estep H. apply same_caught_log in Hs0. exists ms. split; [done|]. destruct a; [by no_alert H|]. injection H as <- _. rewrite Hs0.
  apply (f_equal (view12.set_master ms)) in V1. exact V1.
Qed.

Lemma client_key_exchange_ok leaf rest ka v a hs hs' pms : hs.(c).(tlsConn.peerCertificates) = leaf :: rest -> prepared hs.(hello) hs.(serverHello) leaf ka v a ->
  client_key_exchange a hs = Ret (hs', inr pms) -> grow hs hs' /\ bound hs.(hello) hs.(serverHello) leaf ka v pms.
Proof.
  intros Hp Ha H. unfold client_key_exchange in H. estep H. estep H. apply leaf_of_ok in Hs as [-> Hl]. rewrite Hp in Hl. injection Hl as <-. estep H.
  pose proof (same12_onc _ (layer_draws _) _ _ _ Hs) as Hv. destruct a0 as [e|[p ckx]]; [by no_alert H|]. estep H. injection H as <- <-.
  apply grow12_write_message in Hs0. split; [etrans; [by apply same12_grow|exact Hs0]|].
  apply zoom_ok in Hs as (cn & Hs & _). unfold draws in Hs. destruct (generateClientKeyExchange _ _ _ _) as [|[rd z]] eqn:Ep; [done|]. injection Hs as _ ->.
  by eapply prepared_bound.
Qed.

Lemma grow_verify cert req : stable grow (send_certificate_verify cert req).
Proof. unfold send_certificate_verify, verify_scheme, conn_field. stable. Qed.
Hint Resolve grow_verify : stable.
Lemma discard_of v f alg t k : finishedHash12.discardHandshakeBuffer (hash_of v f alg t k) = hash_of v f alg t false.
Proof. unfold hash_of, finishedHash12.discardHandshakeBuffer. cbn. by rewrite andb_false_r. Qed.

Lemma doFullHandshake_ok hs hs' x s v f alg t0 k : hs.(suite) = Some s -> hs.(finishedHash) = Some (hash_of v f alg t0 k) -> vers hs.(c) = v ->
  doFullHandshake hk now hs = Ret (hs', inr x) ->
  exists certificates leaf rest chains pms ms w w' k', identity (view_of hs) certificates leaf rest chains /\
    bound hs.(hello) hs.(serverHello) leaf s.(cipherSuite.ka) v pms /\ derives v s alg hs.(hello) hs.(serverHello) (t0 ++ w) pms ms /\
    view_of hs' = view12.set_hash (Some (hash_of v f alg (t0 ++ w') k')) (view12.set_master ms (view12.set_peer (leaf :: rest) (view12.set_chains chains (view_of hs)))).
Proof.
  intros Hsu Hh Hv H. unfold doFullHandshake in H. estep H. apply (server_flight_ok _ _ _ s Hsu) in Hs as (certificates & leaf & rest & chains & h & Hid & Hp & He & V1).
  destruct a as [ka request]. cbn [fst] in Hp. pose proof V1 as V1'. injection V1' as W1 W2 W3 W4 W5 W6 W7 W8 W9 W10 W11 W12 W13 W14. estep H.
  match type of Hs with ?m _ = _ => assert (Hst : stable grow m) by stable end. apply Hst in Hs as (h2 & V2 & E2). clear Hst. estep H. rename a0 into pms.
  pose proof V2 as V2'. injection V2' as Z1 Z2 Z3 Z4 Z5 Z6 Z7 Z8 Z9 Z10 Z11 Z12 Z13 Z14. rewrite <- W1, <- W2, <- Z1, <- Z2 in Hp.
  edestruct (client_key_exchange_ok leaf rest) as [(h3 & V3 & E3) Hb]; [|exact Hp|exact Hs|]; [congruence|]. clear Hs.
  assert (exists w1 k1, h3 = Some (hash_of v f alg (t0 ++ w1) k1)) as (w1 & k1 & ->).
  { rewrite W5 in E2. rewrite Z5 in E3. pose proof (extends_trans _ _ _ He (extends_trans _ _ _ E2 E3)) as Hx. by apply (Hx v f alg t0 k). }
  pose proof V3 as V3'. injection V3' as Y1 Y2 Y3 Y4 Y5 Y6 Y7 Y8 Y9 Y10 Y11 Y12 Y13 Y14. estep H.
  apply (master_secret_ok pms _ _ _ s v f alg (t0 ++ w1) k1) in Hs as (ms & Hd & V4); [|congruence|exact Y5|congruence].
  estep H. match type of Hs with ?m _ = _ => assert (Hst : stable grow m) by stable end. apply Hst in Hs as (h5 & V5 & E5). clear Hst.
  destruct (E5 v f alg (t0 ++ w1) k1) as (w2 & k2 & ->); [apply (f_equal view12.hash) in V4; cbn in V4; congruence|].
  estep H. apply the_hash_ok in Hs as [-> Hh5]. injection H as <- _. apply (f_equal view12.hash) in V5 as Q. cbn in Q. rewrite Q in Hh5. injection Hh5 as <-.
  exists certificates, leaf, rest, chains, pms, ms, w1, (w1 ++ w2), false. split; [exact Hid|]. rewrite Y1, Z1, W1, Y2, Z2, W2 in *. rewrite Hv in Hb.
  split; [exact Hb|]. split; [exact Hd|]. rewrite discard_of, app_assoc.
  apply (f_equal (view12.set_hash (Some (hash_of v f alg ((t0 ++ w1) ++ w2) false)))) in V5. etrans; [exact V5|]. rewrite V4.
  by rewrite V3, V2, V1.
Qed.

(** ** Finished *)

Lemma same_establish : stable same_view establishKeys.
Proof. unfold establishKeys, modify_layer, modify_conn. stable. Qed.
Lemma grow_ticket : stable grow readSessionTicket.
Proof. unfold readSessionTicket. stable. Qed.
Lemma grow_sendFinished : stable grow sendFinished.
Proof. unfold sendFinished, modify_conn. stable. Qed.
Lemma same_save : stable same_view (saveSessionTicket now RemoteAddr).
Proof.
  unfold saveSessionTicket, modify_conn. apply stable_bind; [apply _|stable|]. intros hs. case_match; [|stable]. case_match; [stable|].
  apply stable_modify. intros h. unfold same_view, view_of. cbn. by case_match.
Qed.

Lemma readFinished_ok hs hs' x s v f alg t k : hs.(finishedHash) = Some (hash_of v f alg t k) -> hashed_by v s f alg ->
  readFinished hs = Ret (hs', inr x) -> exists fin b, finished_sum v s serverFinishedLabel hs.(masterSecret) t = Ret (Some fin) /\
    transcriptMsg (Finished (finishedMsg.Mk fin)) = Ret (inr b) /\ view_of hs' = view12.set_hash (Some (hash_of v f alg (t ++ b) k)) (view_of hs).
Proof.
  intros Hh Hf H. unfold readFinished, modify_conn in H. estep H. apply (same12_onc _ layer_readChangeCipherSpec) in Hs. estep H. apply (same12_onc _ (layer_readHandshake false)) in Hs0.
  unfold same_view in *. rewrite Hs in Hs0. destruct a0 as [w m]. cbn [snd] in H. destruct m as [| | | | | | | | | | | | | |fm| | | | |]; try by no_alert H.
  estep H. estep H. apply the_hash_ok in Hs1 as [-> Hx]. estep H. apply derived_ok in Hs1 as [-> Hsum].
  pose proof Hs0 as V0. injection Hs0 as W1 W2 W3 W4 W5 W6 W7 W8 W9 W10 W11 W12 W13 W14. rewrite W5, Hh in Hx. injection Hx as <-. rewrite (serverSum_of _ s) in Hsum by done.
  case_match eqn:Ef; [by no_alert H|]. apply negb_false_iff, bool_decide_eq_true_1 in Ef. estep H. apply transcript12_msg_ok in Hs0 as (b & Hb & V1).
  estep H. injection H as <- _. destruct fm as [fin]. cbn in Ef. subst fin. exists a1, b. split; [by rewrite <- W6|]. split; [exact Hb|].
  etrans; [apply (V1 v f alg t k); congruence|]. by rewrite V0.
Qed.

(** ** Authentication *)

Definition transcript_start hs (t0 : bytes) : Prop :=
  exists b1 b2, transcriptMsg (ClientHello hs.(hello)) = Ret (inr b1) /\ transcriptMsg (ServerHello hs.(serverHello)) = Ret (inr b2) /\ t0 = b1 ++ b2.

(** What a successful handshake shows. *)
Record authenticated hs hs' : Prop := {
  au_proof : exists s f alg t0 w fin b w' k,
    let v := vers hs.(c) in
    (* the suite is one that was offered *)
    mutualCipherSuite supported hs.(hello).(clientHelloMsg.cipherSuites) hs.(serverHello).(serverHelloMsg.cipherSuite) = Some s /\ hs'.(suite) = Some s /\
    (* the Finished message of the server covers the transcript, from the hellos on *)
    hashed_by v s f alg /\ transcript_start hs t0 /\
    finished_sum v s serverFinishedLabel hs'.(masterSecret) (t0 ++ w) = Ret (Some fin) /\ transcriptMsg (Finished (finishedMsg.Mk fin)) = Ret (inr b) /\
    hs'.(finishedHash) = Some (hash_of v f alg ((t0 ++ w) ++ b ++ w') k) /\
    (* the session that was offered is resumed, or the key agreement is bound to a certificate *)
    if hs'.(c).(tlsConn.didResume) then
      exists p, resumes (view_of hs) s p /\ hs'.(masterSecret) = p.(session.state).(SessionState.secret) /\
        hs'.(c).(tlsConn.peerCertificates) = p.(session.state).(SessionState.peerCertificates) /\
        hs'.(c).(tlsConn.verifiedChains) = p.(session.state).(SessionState.verifiedChains)
    else
      exists certificates leaf rest pms w1, identity (view_of hs) certificates leaf rest hs'.(c).(tlsConn.verifiedChains) /\
        hs'.(c).(tlsConn.peerCertificates) = leaf :: rest /\ bound hs.(hello) hs.(serverHello) leaf s.(cipherSuite.ka) v pms /\
        derives v s alg hs.(hello) hs.(serverHello) (t0 ++ w1) pms hs'.(masterSecret)
}.

(** The rest of a full handshake and of a resumed one. *)
Lemma resumed_ok hs hs' x s v f alg t k : hs.(finishedHash) = Some (hash_of v f alg t k) -> hashed_by v s f alg -> resumed_handshake hk hs = Ret (hs', inr x) ->
  exists w fin b w' k', finished_sum v s serverFinishedLabel hs.(masterSecret) (t ++ w) = Ret (Some fin) /\ transcriptMsg (Finished (finishedMsg.Mk fin)) = Ret (inr b) /\
    view_of hs' = view12.set_hash (Some (hash_of v f alg ((t ++ w) ++ b ++ w') k')) (view_of hs).
Proof.
  intros Hh Hf H. unfold resumed_handshake, modify_conn in H. estep H. apply same_establish in Hs. estep H. apply grow_ticket in Hs0 as (h1 & V1 & E1).
  unfold same_view in Hs. rewrite Hs in V1. destruct (E1 v f alg t k) as (w & k1 & ->); [apply (f_equal view12.hash) in Hs; cbn in Hs; congruence|].
  pose proof V1 as V1'. injection V1' as W1 W2 W3 W4 W5 W6 W7 W8 W9 W10 W11 W12 W13 W14. estep H. apply (readFinished_ok _ _ _ s v f alg (t ++ w) k1 W5 Hf) in Hs0 as (fin & b & Hfin & Hb & V2).
  rewrite W6 in Hfin. estep H. estep H. estep H.
  match type of Hs0 with onc (callback ?o ?g) _ = _ => assert (Hcb : stable same_view (onc (callback o g))) by (apply same12_onc, (stable_callback layer); done) end.
  apply Hcb in Hs0. clear Hcb. estep H. apply grow_sendFinished in Hs1 as (h3 & V3 & E3). apply (same12_onc _ layer_flush) in H. unfold same_view in *.
  assert (V4 : view_of s3 = view12.set_hash (Some (hash_of v f alg ((t ++ w) ++ b) k1)) (view_of hs)).
  { rewrite Hs0. change (view_of s2 = view12.set_hash (Some (hash_of v f alg ((t ++ w) ++ b) k1)) (view_of hs)). by rewrite V2, V1. }
  destruct (E3 v f alg ((t ++ w) ++ b) k1) as (w' & k' & ->); [apply (f_equal view12.hash) in V4; exact V4|].
  exists w, fin, b, w', k'. split; [done|]. split; [done|]. rewrite H, V3, V4, <- app_assoc. done.
Qed.

Lemma full_ok hs hs' x s v f alg t k : hs.(suite) = Some s -> hs.(finishedHash) = Some (hash_of v f alg t k) -> vers hs.(c) = v -> hashed_by v s f alg ->
  full_handshake hk now hs = Ret (hs', inr x) ->
  exists certificates leaf rest chains pms ms w1 w fin b k', identity (view_of hs) certificates leaf rest chains /\
    bound hs.(hello) hs.(serverHello) leaf s.(cipherSuite.ka) v pms /\ derives v s alg hs.(hello) hs.(serverHello) (t ++ w1) pms ms /\
    finished_sum v s serverFinishedLabel ms (t ++ w) = Ret (Some fin) /\ transcriptMsg (Finished (finishedMsg.Mk fin)) = Ret (inr b) /\
    view_of hs' = view12.set_hash (Some (hash_of v f alg ((t ++ w) ++ b) k'))
      (view12.set_master ms (view12.set_peer (leaf :: rest) (view12.set_chains chains (view_of hs)))).
Proof.
  intros Hsu Hh Hv Hf H. unfold full_handshake, modify_conn in H. estep H.
  apply (doFullHandshake_ok _ _ _ s v f alg t k Hsu Hh Hv) in Hs as (certificates & leaf & rest & chains & pms & ms & w1 & w2 & k2 & Hid & Hb & Hd & V1).
  set (v1 := view12.set_master ms _) in V1. estep H. apply same_establish in Hs. estep H. apply grow_sendFinished in Hs0 as (h2 & V2 & E2).
  unfold same_view in Hs. rewrite Hs, V1 in V2. destruct (E2 v f alg (t ++ w2) k2) as (w3 & k3 & ->); [rewrite V1 in Hs; apply (f_equal view12.hash) in Hs; exact Hs|].
  estep H. apply (same12_onc _ layer_flush) in Hs0. unfold same_view in Hs0. rewrite V2 in Hs0. estep H. estep H. apply grow_ticket in Hs1 as (h4 & V4 & E4).
  destruct (E4 v f alg ((t ++ w2) ++ w3) k3) as (w4 & k4 & ->); [apply (f_equal view12.hash) in Hs0; exact Hs0|].
  match type of V4 with view_of ?z = view12.set_hash ?h (view_of ?y) => assert (V5 : view_of z = view12.set_hash h v1) by (rewrite V4; apply (f_equal (view12.set_hash h)) in Hs0; exact Hs0) end.
  apply (f_equal view12.hash) in V5 as Qh. apply (f_equal view12.master) in V5 as Qm. cbn in Qh, Qm.
  apply (readFinished_ok _ _ _ s _ _ _ _ _ Qh Hf) in H as (fin & b & Hfin & Hb' & V6). rewrite Qm in Hfin. rewrite <- !app_assoc in Hfin.
  exists certificates, leaf, rest, chains, pms, ms, w1, (w2 ++ w3 ++ w4), fin, b, k4. split; [exact Hid|]. split; [exact Hb|]. split; [exact Hd|].
  split; [exact Hfin|]. split; [exact Hb'|]. rewrite V6, V5, !app_assoc. done.
Qed.

(** What a successful handshake has checked. *)
Lemma success12_authenticates hs hs' x : handshake supported hk now RemoteAddr hs = Ret (hs', inr x) -> authenticated hs hs'.
Proof.
  intros H. unfold handshake, modify_conn, modify_layer in H. estep H. apply start_handshake_ok in Hs as (su & f & alg & b1 & b2 & k & v0 & Hm & Hf & H1 & H2 & V1 & Hv0). estep H.
  assert (Hfields : v0.(view12.suite) = Some su /\ v0.(view12.hello) = hs.(hello) /\ v0.(view12.sh) = hs.(serverHello) /\ v0.(view12.vers) = vers hs.(c)).
  { destruct a; [destruct Hv0 as (p & _ & ->)|subst v0]; done. }
  destruct Hfields as (Q1 & Q2 & Q3 & Q4). pose proof V1 as V1'. injection V1' as W1 W2 W3 W4 W5 W6 W7 W8 W9 W10 W11 W12 W13 W14.
  assert (Hrest : exists s2, view_of hs' = view12.set_complete true (view_of s2) /\ s2 = s0).
  { exists s0. split; [|done]. estep H. apply same_save in Hs0. estep H. estep H. apply suite12_of_ok in Hs1 as [-> _]. estep H. injection H as <- _.
    unfold same_view in Hs0. apply (f_equal (view12.set_complete true)) in Hs0. exact Hs0. }
  clear H. destruct Hrest as (s2 & V9 & ->). destruct a.
  - destruct Hv0 as (p & Hr & ->). apply (resumed_ok _ _ _ su _ _ _ _ _ W5 Hf) in Hs as (w & fin & b & w' & k' & Hfin & Hb & V2).
    rewrite V2, V1 in V9. injection V9 as X1 X2 X3 X4 X5 X6 X7 X8 X9 X10 X11 X12 X13 X14. rewrite W6 in Hfin. constructor.
    exists su, f, alg, (b1 ++ b2), w, fin, b, w', k'. cbn zeta. split; [exact Hm|]. split; [exact X4|]. split; [exact Hf|]. split; [by exists b1, b2|].
    split; [by rewrite X6|]. split; [exact Hb|]. split; [exact X5|]. rewrite X12. by exists p.
  - subst v0. apply (full_ok _ _ _ su (vers hs.(c)) f alg (b1 ++ b2) k) in Hs; [|exact W4|exact W5|exact W10|exact Hf].
    destruct Hs as (certificates & leaf & rest & chains & pms & ms & w1 & w & fin & b & k' & Hid & Hb & Hd & Hfin & Hbb & V2).
    rewrite V2, V1 in V9. injection V9 as X1 X2 X3 X4 X5 X6 X7 X8 X9 X10 X11 X12 X13 X14. rewrite W1, W2 in Hb, Hd. constructor.
    exists su, f, alg, (b1 ++ b2), w, fin, b, [], k'. cbn zeta. split; [exact Hm|]. split; [exact X4|]. split; [exact Hf|]. split; [by exists b1, b2|].
    split; [by rewrite X6|]. split; [exact Hbb|]. split; [by rewrite app_nil_r|]. rewrite X12, X6, X7, X8. exists certificates, leaf, rest, pms, w1.
    rewrite V1 in Hid. split; [exact Hid|]. done.
Qed.

(** C5: when the handshake of a client before TLS 1.3 succeeds, the suite is one that
    the client offered, the server has sent a Finished message over the transcript of
    the handshake under the master secret, and either it has resumed the session that
    was offered, with its version, suite and secret, or it has shown certificates that
    are verified (in a renegotiation: the leaf it had before) and the premaster secret
    is one that the key of the leaf has signed for or that only this key decrypts. *)
Theorem client12_authenticates hs hs' x : handshake supported hk now RemoteAddr hs = Ret (hs', inr x) -> authenticated hs hs'.
Proof. apply success12_authenticates. Qed.

(** ** Completion *)

Hint Extern 4 (calm _ _) => done : stable.

Lemma calm_start : stable calm (start_handshake supported hk).
Proof.
  assert (forall A (m : E hs_t A), stable same_view m -> stable calm m) as Hsame by (intros A m; apply stable_weaken; intros h h' H; unfold calm; by rewrite H).
  pose proof (Hsame _ _ same_renegotiation). pose proof (Hsame _ _ same_suite_of). pose proof (fun m => calm12_grow _ (grow12_transcript m)).
  assert (forall A (m : E tlsConn.t A), stable layer m -> stable calm (onc m)) by (intros; by apply Hsame, same12_onc).
  assert (stable calm (pickCipherSuite supported)).
  { unfold pickCipherSuite, modify_layer, modify_conn. stable. }
  assert (forall st, stable calm (restore st)).
  { intros st. unfold restore, modify_conn. apply stable_bind; [apply _|by apply stable_modify|]. intros _. apply stable_modify. intros h. unfold calm, view_of. cbn. by case_match. }
  assert (stable calm (processServerHello supported)) by (unfold processServerHello, modify_conn; stable).
  unfold start_handshake, conn_field, modify_layer, modify_conn. stable.
Qed.

Lemma calm_resumed : stable calm (resumed_handshake hk).
Proof.
  pose proof (calm12_grow _ (grow12_same _ same_establish)). pose proof (calm12_grow _ grow_ticket). pose proof (calm12_grow _ grow_sendFinished).
  pose proof (fun A (m : E tlsConn.t A) H => calm12_grow _ (grow12_same _ (same12_onc m H))).
  assert (stable calm readFinished).
  { apply calm12_grow. unfold readFinished, modify_conn. stable. }
  assert (forall A (f : option A) g, stable layer (callback f g)) by (intros; apply (stable_callback layer); done).
  unfold resumed_handshake, modify_conn. stable.
Qed.

Lemma calm_full : stable calm (full_handshake hk now).
Proof.
  pose proof (calm12_grow _ (grow12_same _ same_establish)). pose proof (calm12_grow _ grow_ticket). pose proof (calm12_grow _ grow_sendFinished).
  pose proof (fun A (m : E tlsConn.t A) H => calm12_grow _ (grow12_same _ (same12_onc m H))).
  assert (stable calm readFinished).
  { apply calm12_grow. unfold readFinished, modify_conn. stable. }
  assert (forall l, stable calm (check_identity hk now l)).
  { intros l. assert (stable calm (onc (verifyServerCertificate hk now l))).
    { apply (stable_zoom _ (fun c c' => c'.(tlsConn.conn).(Conn.isHandshakeComplete) = c.(tlsConn.conn).(Conn.isHandshakeComplete))); [done|].
      apply stable_verify; [split; [done|]; intros ???; congruence|by intros ?? (k & [Hk] & ->)|done|done]. }
    unfold check_identity, leaf_of. stable. }
  pose proof (calm12_grow _ grow_certificates). pose proof (calm12_grow _ grow12_read). pose proof (fun m => calm12_grow _ (grow_status m)). pose proof (fun m => calm12_grow _ (grow_request m)).
  assert (forall ka m, stable calm (server_key_exchange ka m)) by (intros; apply calm12_grow; unfold server_key_exchange, modify_conn; stable).
  pose proof (fun m => calm12_grow _ (grow12_write_message m)).
  assert (forall ka, stable calm (client_key_exchange ka)) by (intros; apply calm12_grow; unfold client_key_exchange; stable).
  assert (forall p, stable calm (master_secret hk p)).
  { intros p. pose proof (fun l r b => calm12_grow _ (grow12_same _ (same_caught_log l r b))). unfold master_secret, modify_conn, suite_of, the_hash, derived. stable. }
  pose proof (fun ce r => calm12_grow _ (grow_verify ce r)). pose proof (calm12_grow _ (grow12_same _ (same_unexpected (A := keyAgreement * option (certificateRequestMsg.t * option KeyPair.t))))).
  assert (stable calm (server_flight hk now)) by (unfold server_flight, suite_of, conn_field; stable).
  unfold full_handshake, doFullHandshake, the_hash, modify_conn. stable.
Qed.

(** The flag of the connection after the handshake. *)
Lemma complete12_result hs hs' r : (view_of hs).(view12.complete) = false -> handshake supported hk now RemoteAddr hs = Ret (hs', r) ->
  (view_of hs').(view12.complete) = match r with inr _ => true | inl _ => false end.
Proof.
  intros Hc H. unfold handshake, modify_conn, modify_layer in H.
  apply ebind_inv in H as [(e & H & ->)|(s1 & b & H1 & H)]; [by rewrite <- Hc; eapply calm_start|]. apply calm_start in H1.
  assert (H2 : stable calm (if b then resumed_handshake hk else full_handshake hk now)) by (destruct b; [apply calm_resumed|apply calm_full]).
  apply ebind_inv in H as [(e & H & ->)|(s2 & x & H3 & H)]; [apply H2 in H; unfold calm in *; congruence|]. apply H2 in H3.
  apply ebind_inv in H as [(e & H & ->)|(s3 & x' & H4 & H)]; [apply same_save in H; unfold calm, same_view in *; rewrite H; congruence|].
  apply ebind_inv in H as [(e & [=] & _)|(s4 & h4 & [= <- <-] & H)]. apply ebind_inv in H as [(e & H & _)|(s5 & su & H5 & H)].
  - unfold suite_of in H. apply ebind_inv in H as [(e' & [=] & _)|(s6 & z & [= <- <-] & H)]. destruct (suite s3); discriminate H.
  - apply ebind_inv in H as [(e & [=] & _)|(s6 & z & [= <- <-] & H)]. by injection H as <- <-.
Qed.

(** Before TLS 1.3, too, the handshake of a client is complete exactly when it has
    succeeded: after a failure at any step the flag of the connection is as it was. *)
Theorem complete12_iff_success hs hs' r : (view_of hs).(view12.complete) = false -> handshake supported hk now RemoteAddr hs = Ret (hs', r) ->
  (view_of hs').(view12.complete) = match r with inr _ => true | inl _ => false end.
Proof. apply complete12_result. Qed.

End Facts.

(** * Example *)

#[local] Existing Instance plain_x509.
#[local] Existing Instance plain_verify.
#[local] Existing Instance toy_keys.
#[local] Existing Instance Reference.ops.
#[local] Existing Instance toy_hash.
#[local] Existing Instance toy_x509_keys.
#[local] Existing Instance toy_chains.
#[local] Existing Instance toy_exchange.
#[local] Existing Instance toy_blocks.

Definition example_suite : Z := TLS_ECDHE_ECDSA_WITH_AES_128_GCM_SHA256.
Definition example_client_hello : clientHelloMsg.t := clientHelloMsg.set_cipherSuites [example_suite] toy_client_hello.
Definition example_server_hello : serverHelloMsg.t := serverHelloMsg.set_cipherSuite example_suite toy_server_hello.

(** What the server says: a certificate, a signed share, and that it is done. *)
Definition example_exchange : handshakeMessage :=
  match ecdheKeyAgreement.generateServerKeyExchange (S := toy_signing toy_keys) Config.zero (KeyPair.Mk (S := toy_signing toy_keys) (Certificate.Mk [[x01]] None None) (ECDSA P256) None)
          example_client_hello example_server_hello (ecdheKeyAgreement.Mk VersionTLS12 false None None []) 5%nat with
  | Ret (_, (_, inr skx)) => ServerKeyExchange skx
  | _ => HelloRequest
  end.
Definition first_flight : bytes :=
  (send_messages [CertificateMsg (certificateMsg.Mk [[x01]]); example_exchange; ServerHelloDone] (example_layer VersionTLS12 [] (plain_half VersionTLS12) false)).(Conn.conn).(net.sent).

Definition example_hs (reads : list (bytes * option connError)) : clientHandshakeState.t (I := lru_cache _) :=
  clientHandshakeState.Mk
    (tlsConn.Mk (example_layer VersionTLS12 reads (plain_half VersionTLS12) true) [] 0 false false false false [] [] [] None None None None false
       (replicate 12 x00) (replicate 12 x00) false (utlsConnExtraFields.Mk [] [] 0) None [] 0%nat)
    example_server_hello example_client_hello None None [] None None.
Abbreviation example_handshake := (handshake (S := toy_signing toy_keys) utlsSupportedCipherSuites toy_hooks 0 None).

(** A server that is gone after its first flight: the handshake ends when the client
    waits for the Finished message, and the state says what it should be. *)
Definition cut_off : clientHandshakeState.t (I := lru_cache _) := example_hs [(first_flight, None)].
Definition at_finished : clientHandshakeState.t (I := lru_cache _) := match example_handshake cut_off with Ret (hs, _) => hs | Panic => cut_off end.
Definition example_finished : handshakeMessage :=
  match clientHandshakeState.finishedHash at_finished with
  | Some h => Finished (finishedMsg.Mk (default [] (get_or None (finishedHash12.serverSum h at_finished.(clientHandshakeState.masterSecret)))))
  | None => HelloRequest
  end.
(** The change of the cipher, and the Finished message. *)
Definition second_flight : bytes :=
  match clientHandshakeState.suite at_finished with
  | Some s =>
      match establish false VersionTLS12 s at_finished.(clientHandshakeState.masterSecret) (replicate 32 x01) (replicate 32 x02) with
      | Ret (Some (_, (ci, m))) =>
          let k := example_layer VersionTLS12 [] (prepareCipherSpec VersionTLS12 (Some ci) m (plain_half VersionTLS12)) false in
          match Conn.writeChangeCipherRecord (ReadFull (Keys := toy_keys)) k with
          | Ret (k, _) => (send_messages [example_finished] k).(Conn.conn).(net.sent)
          | Panic => []
          end
      | _ => []
      end
  | None => []
  end.
Definition example_start : clientHandshakeState.t (I := lru_cache _) := example_hs [(first_flight ++ second_flight, None)].

Example handshake12_works : match example_handshake example_start with Ret (_, inr tt) => true | _ => false end = true.
Proof. vm_compute. reflexivity. Qed.
Example cut_off12_fails : match example_handshake cut_off with Ret (_, inl (Plain EOF)) => true | _ => false end = true.
Proof. vm_compute. reflexivity. Qed.

Lemma client12_authenticates_witness : exists hs', example_handshake example_start = Ret (hs', inr tt) /\
  authenticated (S := toy_signing toy_keys) utlsSupportedCipherSuites toy_hooks 0 example_start hs'.
Proof.
  pose proof handshake12_works as H. destruct (example_handshake example_start) as [|[hs' [e|[]]]] eqn:E; [discriminate|discriminate|].
  exists hs'. split; [reflexivity|].
  exact (client12_authenticates (S := toy_signing toy_keys) utlsSupportedCipherSuites toy_hooks 0 None example_start hs' tt E).
Defined.
Lemma complete12_iff_success_witness : exists hs1 hs2 e,
  example_handshake example_start = Ret (hs1, inr tt) /\ (view_of hs1).(view12.complete) = true /\
  example_handshake cut_off = Ret (hs2, inl e) /\ (view_of hs2).(view12.complete) = false.
Proof.
  pose proof handshake12_works as H. destruct (example_handshake example_start) as [|[hs1 [e|[]]]] eqn:E; [discriminate|discriminate|].
  pose proof cut_off12_fails as H2. destruct (example_handshake cut_off) as [|[hs2 [e|[]]]] eqn:E2; [discriminate| |discriminate].
  exists hs1, hs2, e. split; [reflexivity|]. split; [|split; [reflexivity|]].
  - exact (complete12_iff_success (S := toy_signing toy_keys) utlsSupportedCipherSuites toy_hooks 0 None example_start hs1 (inr tt) eq_refl E).
  - exact (complete12_iff_success (S := toy_signing toy_keys) utlsSupportedCipherSuites toy_hooks 0 None cut_off hs2 (inl e) eq_refl E2).
Defined.
