(* ===== verification/Client13.v ===== *)
(** * The TLS 1.3 handshake of a client

    Models handshake_client_tls13.go and the uTLS parts of it in
    u_handshake_client.go: the checks of the ServerHello, the HelloRetryRequest, the
    confirmation of Encrypted ClientHello, the key schedule, the parameters, the
    certificate (compressed or not) and the Finished message of the server, and the
    answer of the client; and what is done with a session ticket.

    Hash states are the bytes written to them.  The objects [hs.hello] and
    [hs.echContext.innerHello] are changed in place, where the code changes them. *)

From S2P Require Import Prelude Cryptobyte Common Config Negotiation Codec Buffer KeySchedule Record Names Messages RawMessages ServerHello ClientHello Ticket Caches Public Extensions PreSharedKey Handshake Conn ECH GreaseECH Marshal Shuffle Parrots Session Preset Apply Auth KeyAgreement Peer.

(** ** Constants *)

Definition helloRetryRequestRandom : bytes := map u8 [
  0xCF; 0x21; 0xAD; 0x74; 0xE5; 0x9A; 0x61; 0x11;
  0xBE; 0x1D; 0x8C; 0x02; 0x1E; 0x65; 0xB8; 0x91;
  0xC2; 0xA2; 0x11; 0x16; 0x7A; 0xBB; 0x8C; 0x5E;
  0x07; 0x9E; 0x09; 0xE2; 0xC8; 0xA8; 0x33; 0x9C].
Definition QUICEncryptionLevelHandshake : Z := 2.
Definition QUICEncryptionLevelApplication : Z := 3.
Definition keyLogLabelClientHandshake : string := "CLIENT_HANDSHAKE_TRAFFIC_SECRET".
Definition keyLogLabelServerHandshake : string := "SERVER_HANDSHAKE_TRAFFIC_SECRET".
Definition keyLogLabelClientTraffic : string := "CLIENT_TRAFFIC_SECRET_0".
Definition keyLogLabelServerTraffic : string := "SERVER_TRAFFIC_SECRET_0".
Definition CertCompressionZstd : Z := 0x0003.
Definition maxSessionTicketLifetime : Z := 7 * 24 * 3600 * second.
Definition x25519PublicKeySize : Z := 32.
Definition mlkem_CiphertextSize768 : Z := 1088.

(** ** Parameters *)

(** The decompressors: a reader that is opened, and its first [Read] into a buffer of
    the given length. *)
Class Decompressors := {
  brotli_Read : bytes -> Z -> bytes * option gerror;
  zlib_NewReader : bytes -> res (Z -> bytes * option gerror);
  zstd_NewReader : bytes -> res (Z -> bytes * option gerror)
}.

(** ** The state *)

Module clientHandshakeStateTLS13.
Record t {Cs : Ciphers} {Ks : Keys} {X : X509} {I : ClientSessionCache (session.ptr X)} := Mk {
  c : tlsConn.t;
  serverHello : serverHelloMsg.t;
  hello : clientHelloMsg.t;
  keyShareKeys : option keySharePrivateKeys.t;
  session : option (session.ptr X);
  earlySecret : option tls13.EarlySecret;
  binderKey : bytes;
  certReq : option certificateRequestMsgTLS13.t;
  usingPSK : bool;
  sentDummyCCS : bool;
  suite : option cipherSuiteTLS13.t;
  transcript : bytes;
  masterSecret : option tls13.MasterSecret;
  trafficSecret : bytes;
  echContext : option echContext.t;
  uconn : option Session.conn
}.
#[global] Arguments t {Cs Ks X I}.
#[global] Arguments Mk {Cs Ks X I}.
Section Set_.
Context {Cs : Ciphers} {Ks : Keys} {X : X509} {I : ClientSessionCache (session.ptr X)}.
Definition set_c (v : tlsConn.t) (s : t) : t :=
  Mk v s.(serverHello) s.(hello) s.(keyShareKeys) s.(session) s.(earlySecret) s.(binderKey)
    s.(certReq) s.(usingPSK) s.(sentDummyCCS) s.(suite) s.(transcript) s.(masterSecret)
    s.(trafficSecret) s.(echContext) s.(uconn).
Definition set_serverHello (v : serverHelloMsg.t) (s : t) : t :=
  Mk s.(c) v s.(hello) s.(keyShareKeys) s.(session) s.(earlySecret) s.(binderKey) s.(certReq)
    s.(usingPSK) s.(sentDummyCCS) s.(suite) s.(transcript) s.(masterSecret) s.(trafficSecret)
    s.(echContext) s.(uconn).
Definition set_hello (v : clientHelloMsg.t) (s : t) : t :=
  Mk s.(c) s.(serverHello) v s.(keyShareKeys) s.(session) s.(earlySecret) s.(binderKey) s.(certReq)
    s.(usingPSK) s.(sentDummyCCS) s.(suite) s.(transcript) s.(masterSecret) s.(trafficSecret)
    s.(echContext) s.(uconn).
Definition set_keyShareKeys (v : option keySharePrivateKeys.t) (s : t) : t :=
  Mk s.(c) s.(serverHello) s.(hello) v s.(session) s.(earlySecret) s.(binderKey) s.(certReq)
    s.(usingPSK) s.(sentDummyCCS) s.(suite) s.(transcript) s.(masterSecret) s.(trafficSecret)
    s.(echContext) s.(uconn).
Definition set_session (v : option (session.ptr X)) (s : t) : t :=
  Mk s.(c) s.(serverHello) s.(hello) s.(keyShareKeys) v s.(earlySecret) s.(binderKey) s.(certReq)
    s.(usingPSK) s.(sentDummyCCS) s.(suite) s.(transcript) s.(masterSecret) s.(trafficSecret)
    s.(echContext) s.(uconn).
Definition set_earlySecret (v : option tls13.EarlySecret) (s : t) : t :=
  Mk s.(c) s.(serverHello) s.(hello) s.(keyShareKeys) s.(session) v s.(binderKey) s.(certReq)
    s.(usingPSK) s.(sentDummyCCS) s.(suite) s.(transcript) s.(masterSecret) s.(trafficSecret)
    s.(echContext) s.(uconn).
Definition set_binderKey (v : bytes) (s : t) : t :=
  Mk s.(c) s.(serverHello) s.(hello) s.(keyShareKeys) s.(session) s.(earlySecret) v s.(certReq)
    s.(usingPSK) s.(sentDummyCCS) s.(suite) s.(transcript) s.(masterSecret) s.(trafficSecret)
    s.(echContext) s.(uconn).
Definition set_certReq (v : option certificateRequestMsgTLS13.t) (s : t) : t :=
  Mk s.(c) s.(serverHello) s.(hello) s.(keyShareKeys) s.(session) s.(earlySecret) s.(binderKey) v
    s.(usingPSK) s.(sentDummyCCS) s.(suite) s.(transcript) s.(masterSecret) s.(trafficSecret)
    s.(echContext) s.(uconn).
Definition set_usingPSK (v : bool) (s : t) : t :=
  Mk s.(c) s.(serverHello) s.(hello) s.(keyShareKeys) s.(session) s.(earlySecret) s.(binderKey)
    s.(certReq) v s.(sentDummyCCS) s.(suite) s.(transcript) s.(masterSecret) s.(trafficSecret)
    s.(echContext) s.(uconn).
Definition set_sentDummyCCS (v : bool) (s : t) : t :=
  Mk s.(c) s.(serverHello) s.(hello) s.(keyShareKeys) s.(session) s.(earlySecret) s.(binderKey)
    s.(certReq) s.(usingPSK) v s.(suite) s.(transcript) s.(masterSecret) s.(trafficSecret)
    s.(echContext) s.(uconn).
Definition set_suite (v : option cipherSuiteTLS13.t) (s : t) : t :=
  Mk s.(c) s.(serverHello) s.(hello) s.(keyShareKeys) s.(session) s.(earlySecret) s.(binderKey)
    s.(certReq) s.(usingPSK) s.(sentDummyCCS) v s.(transcript) s.(masterSecret) s.(trafficSecret)
    s.(echContext) s.(uconn).
Definition set_transcript (v : bytes) (s : t) : t :=
  Mk s.(c) s.(serverHello) s.(hello) s.(keyShareKeys) s.(session) s.(earlySecret) s.(binderKey)
    s.(certReq) s.(usingPSK) s.(sentDummyCCS) s.(suite) v s.(masterSecret) s.(trafficSecret)
    s.(echContext) s.(uconn).
Definition set_masterSecret (v : option tls13.MasterSecret) (s : t) : t :=
  Mk s.(c) s.(serverHello) s.(hello) s.(keyShareKeys) s.(session) s.(earlySecret) s.(binderKey)
    s.(certReq) s.(usingPSK) s.(sentDummyCCS) s.(suite) s.(transcript) v s.(trafficSecret)
    s.(echContext) s.(uconn).
Definition set_trafficSecret (v : bytes) (s : t) : t :=
  Mk s.(c) s.(serverHello) s.(hello) s.(keyShareKeys) s.(session) s.(earlySecret) s.(binderKey)
    s.(certReq) s.(usingPSK) s.(sentDummyCCS) s.(suite) s.(transcript) s.(masterSecret) v
    s.(echContext) s.(uconn).
Definition set_echContext (v : option echContext.t) (s : t) : t :=
  Mk s.(c) s.(serverHello) s.(hello) s.(keyShareKeys) s.(session) s.(earlySecret) s.(binderKey)
    s.(certReq) s.(usingPSK) s.(sentDummyCCS) s.(suite) s.(transcript) s.(masterSecret)
    s.(trafficSecret) v s.(uconn).
Definition set_uconn (v : option Session.conn) (s : t) : t :=
  Mk s.(c) s.(serverHello) s.(hello) s.(keyShareKeys) s.(session) s.(earlySecret) s.(binderKey)
    s.(certReq) s.(usingPSK) s.(sentDummyCCS) s.(suite) s.(transcript) s.(masterSecret)
    s.(trafficSecret) s.(echContext) v.
End Set_.
End clientHandshakeStateTLS13.

Section Ops.
Context {C : Cryptobyte} {Cs : Ciphers} {K : Crypto} {Ks : Keys} {S : Signing Ks} {X : X509} {V : X509Verify X} {XK : X509Keys X S} {XC : X509Chains X S}
  {I : ClientSessionCache (session.ptr X)} {E_ : KeyExchange Ks} {D : Decompressors}.
Import clientHandshakeStateTLS13.
Abbreviation hs_t := clientHandshakeStateTLS13.t.

(** The rest of the configuration, the time, the address of the peer, [suite.aead],
    and for uTLS the spare capacity of a buffer, the fallback mode of Encrypted
    ClientHello and [newPRNG] with one draw of [Intn]. *)
Context (hk : hooks Ks S X XC) (now : Z) (RemoteAddr : option bytes) (newAead : cipherSuiteTLS13.t -> bytes -> bytes -> outcome aead)
  (spare : bytes -> bytes) (useFallbackMode : bool) (newPRNG_Intn : Z -> res Z).

(** ** Stateful code *)

Definition onc {A} (m : E tlsConn.t A) : E hs_t A := zoom c set_c m.
(** A field of the connection. *)
Definition conn_field {A} (f : tlsConn.t -> A) : E hs_t A := gets (fun hs => f hs.(c)).
Definition modify_conn (f : tlsConn.t -> tlsConn.t) : E hs_t unit := emodify (fun hs => set_c (f hs.(c)) hs).
Definition modify_layer (f : Conn.t reader -> Conn.t reader) : E hs_t unit :=
  modify_conn (fun c => tlsConn.set_conn (f c.(tlsConn.conn)) c).
(** What goes into a transcript. *)
Definition hashed (m : handshakeMessage) : E hs_t bytes := r ← elift (transcriptMsg m); eres r.
Definition write_transcript (b : bytes) : E hs_t unit := emodify (fun hs => set_transcript (hs.(transcript) ++ b) hs).
Definition transcript_msg (m : handshakeMessage) : E hs_t unit := b ← hashed m; write_transcript b.

Definition read_message (transcript : bool) : E hs_t handshakeMessage :=
  r ← onc (readHandshake transcript); write_transcript r.1 ;; eret r.2.
Definition write_message (m : handshakeMessage) : E hs_t unit :=
  r ← onc (writeHandshakeRecord m); write_transcript r.1 ;; raise r.2.
Definition unexpected {A} : E hs_t A := onc (abort alertUnexpectedMessage unexpectedMessageError).

(** A method of the uTLS connection, which shares [config.rand()]. *)
Definition on_uconn {A} (m : Session.M A) : E hs_t A := fun hs =>
  match hs.(uconn) with
  | None => Panic
  | Some u =>
      run (u, a) := m (Session.set_rand hs.(c).(tlsConn.conn).(Conn.rand) u) in
      let k := tlsConn.set_conn (Conn.set_rand u.(Session.rand) hs.(c).(tlsConn.conn)) hs.(c) in
      Ret (set_c k (set_uconn (Some u) hs), inr a)
  end.
Definition on_ech (f : echContext.t -> echContext.t) : E hs_t unit := emodify (fun hs => set_echContext (f <$> hs.(echContext)) hs).

(** [hs.uconn != nil && hs.uconn.clientHelloBuildStatus == BuildByUtls] *)
Definition built_by_utls (hs : hs_t) : bool :=
  match hs.(uconn) with Some u => bool_decide (u.(clientHelloBuildStatus) = BuildByUtls) | None => false end.
Definition suite_of : E hs_t cipherSuiteTLS13.t := hs ← state; ederef hs.(suite).
Definition hash_of (s : cipherSuiteTLS13.t) : hash_function := s.(cipherSuiteTLS13.hash).

(** [c.quicRejectedEarlyData] appends to the events of [c.quic], which is nil. *)
Definition quicRejectedEarlyData : E hs_t unit := crash.

(** ** The ServerHello *)

(** The suite is one of a table: the pointers are equal when the numbers are. *)
Definition checkServerHelloOrHRR : E hs_t unit :=
  hs ← state;
  let sh := hs.(serverHello) in
  let fail a msg := onc (abort_with a msg) in
  if sh.(serverHelloMsg.supportedVersion) =? 0 then
    fail alertMissingExtension "tls: server selected TLS 1.3 using the legacy version field" else
  if negb (sh.(serverHelloMsg.supportedVersion) =? VersionTLS13) then
    fail alertIllegalParameter "tls: server selected an invalid version after a HelloRetryRequest" else
  if negb (sh.(serverHelloMsg.vers) =? VersionTLS12) then
    fail alertIllegalParameter "tls: server sent an incorrect legacy version" else
  if sh.(serverHelloMsg.ocspStapling) || sh.(serverHelloMsg.ticketSupported) || sh.(serverHelloMsg.extendedMasterSecret)
     || sh.(serverHelloMsg.secureRenegotiationSupported) || negb (len sh.(serverHelloMsg.secureRenegotiation) =? 0)
     || negb (len sh.(serverHelloMsg.alpnProtocol) =? 0) || negb (len sh.(serverHelloMsg.scts) =? 0) then
    fail alertUnsupportedExtension "tls: server sent a ServerHello extension forbidden in TLS 1.3" else
  if negb (bool_decide (hs.(hello).(clientHelloMsg.sessionId) = sh.(serverHelloMsg.sessionId))) then
    fail alertIllegalParameter "tls: server did not echo the legacy session ID" else
  if negb (sh.(serverHelloMsg.compressionMethod) =? b2z compressionNone) then
    fail alertIllegalParameter "tls: server selected unsupported compression format" else
  let selectedSuite := mutualCipherSuiteTLS13 hs.(hello).(clientHelloMsg.cipherSuites) sh.(serverHelloMsg.cipherSuite) in
  let id s := cipherSuiteTLS13.id <$> s in
  if non_nil hs.(suite) && negb (bool_decide (id selectedSuite = id hs.(suite))) then
    fail alertIllegalParameter "tls: server changed cipher suite after a HelloRetryRequest" else
  match selectedSuite with
  | None => fail alertIllegalParameter "tls: server chose an unconfigured cipher suite"
  | Some s =>
      emodify (set_suite (Some s)) ;;
      modify_layer (Conn.set_cipherSuite s.(cipherSuiteTLS13.id))
  end.

Definition sendDummyChangeCipherSpec : E hs_t unit :=
  sent ← gets sentDummyCCS;
  if sent : bool then eret tt else
  emodify (set_sentDummyCCS true) ;;
  onc writeChangeCipherRecord.

(** ** HelloRetryRequest *)

(** The hello that is being changed: the inner one or [hs.hello]. *)
Definition the_hello (isInnerHello : bool) : E hs_t clientHelloMsg.t :=
  hs ← state;
  if isInnerHello then ech ← ederef hs.(echContext); ederef ech.(echContext.innerHello) else eret hs.(hello).
Definition change_hello (isInnerHello : bool) (f : clientHelloMsg.t -> clientHelloMsg.t) : E hs_t unit :=
  if isInnerHello then on_ech (fun e => echContext.set_innerHello (f <$> e.(echContext.innerHello)) e)
  else emodify (fun hs => set_hello (f hs.(hello)) hs).

(** A transcript that starts with the hash of the first hello. *)
Definition message_hash (chHash : bytes) : bytes := [u8 typeMessageHash; x00; x00; u8 (len chHash)] ++ chHash.

(** The eight bytes by which the server accepts Encrypted ClientHello. *)
Definition accept_confirmation (s : cipherSuiteTLS13.t) (inner : clientHelloMsg.t) (lbl : string) (confTranscript : bytes) : outcome bytes :=
  tls13.ExpandLabel (hash_of s) (hkdf_Extract (hash_of s) inner.(clientHelloMsg.random) []) (label lbl) (Hash (hash_of s) confTranscript) 8.

(** [c.serverName = c.config.ServerName] and [c.echAccepted = true] *)
Definition accept_ech : E hs_t unit :=
  modify_conn (fun c => tlsConn.set_echAccepted true (tlsConn.set_serverName (config c).(Config.ServerName) c)).

(** The inner transcript and the confirmation in the HelloRetryRequest; the hash of
    the first hello, and whether the inner hello is meant. *)
Definition hrr_ech (s : cipherSuiteTLS13.t) (chHash : bytes) : E hs_t (bytes * bool) :=
  hs ← state;
  let sh := hs.(serverHello) in
  match hs.(echContext) with
  | Some ech =>
      let chHash := Hash (hash_of s) ech.(echContext.innerTranscript) in
      let innerTranscript := message_hash chHash in
      on_ech (echContext.set_innerTranscript innerTranscript) ;;
      isInnerHello ← match sh.(serverHelloMsg.encryptedClientHello) with
        | None => eret false
        | Some conf =>
            if negb (len conf =? 8) then onc (abort_with alertDecodeError "tls: malformed encrypted client hello extension") else
            let hrrHello := replace_first conf (replicate 8 x00) (default [] sh.(serverHelloMsg.original)) in
            inner ← ederef ech.(echContext.innerHello);
            acceptConfirmation ← elift (accept_confirmation s inner "hrr ech accept confirmation" (innerTranscript ++ hrrHello));
            if bool_decide (acceptConfirmation = conf) then accept_ech ;; eret true else eret false
        end;
      b ← hashed (ServerHello sh);
      on_ech (fun e => echContext.set_innerTranscript (e.(echContext.innerTranscript) ++ b) e) ;;
      eret (chHash, isInnerHello)
  | None =>
      if non_nil sh.(serverHelloMsg.encryptedClientHello) then
        onc (abort_with alertUnsupportedExtension "tls: unexpected encrypted client hello extension in serverHello")
      else eret (chHash, false)
  end.

(** A key share for the group that the server asks for. *)
Definition hrr_key_share (isInnerHello : bool) (curveID : Z) : E hs_t unit :=
  hs ← state;
  hello ← the_hello isInnerHello;
  let fail a msg := onc (abort_with a msg) in
  if negb (List.existsb (fun c => c =? curveID) hello.(clientHelloMsg.supportedCurves)) then
    fail alertIllegalParameter "tls: server selected unsupported group" else
  if List.existsb (fun ks => ks.(keyShare.group) =? curveID) hs.(clientHandshakeStateTLS13.hello).(clientHelloMsg.keyShares) then
    fail alertIllegalParameter "tls: server sent an unnecessary HelloRetryRequest key_share" else
  if negb (curveForCurveID curveID) then fail alertInternalError "tls: CurvePreferences includes unsupported curve" else
  key ← onc (draws (generate_key curveID));
  match key with
  | inl e => onc (abort alertInternalError (Plain e))
  | inr key =>
      emodify (set_keyShareKeys (Some (keySharePrivateKeys.Mk Ks curveID (Some key) None None))) ;;
      change_hello isInnerHello (clientHelloMsg.set_keyShares [keyShare.Mk curveID (PublicKey key)])
  end.

(** [computeAndUpdatePSK]: the hello with its binder, over what was said before. *)
Definition computeAndUpdatePSK (m : clientHelloMsg.t) (binderKey transcript : bytes) (s : cipherSuiteTLS13.t) : outcome (res clientHelloMsg.t) :=
  run helloBytes := clientHelloMsg.marshalWithoutBinders m in
  match helloBytes with
  | inl err => Ret (inl err)
  | inr helloBytes =>
      run binder := finishedHash s binderKey (transcript ++ helloBytes) in
      Ret (clientHelloMsg.updateBinders m [binder])
  end.

Definition set_age (age : Z) (ids : list pskIdentity.t) : list pskIdentity.t :=
  match ids with [] => [] | id :: rest => pskIdentity.Mk id.(pskIdentity.label) age :: rest end.

Definition hrr_psk (s : cipherSuiteTLS13.t) (isInnerHello : bool) (chHash : bytes) : E hs_t unit :=
  hello ← the_hello isInnerHello;
  if len hello.(clientHelloMsg.pskIdentities) =? 0 then eret tt else
  hs ← state;
  session ← ederef hs.(session);
  match cipherSuiteTLS13ByID session.(session.state).(SessionState.cipherSuite) with
  | None => onc (abort_alert alertInternalError)
  | Some pskSuite =>
      if bool_decide (hash_of pskSuite = hash_of s) then
        change_hello isInnerHello (fun h =>
          clientHelloMsg.set_pskIdentities (set_age (obfuscatedTicketAge now session.(session.state)) h.(clientHelloMsg.pskIdentities)) h) ;;
        b ← hashed (ServerHello hs.(serverHello));
        hello ← the_hello isInnerHello;
        r ← elift (computeAndUpdatePSK hello hs.(binderKey) (message_hash chHash ++ b) s);
        hello ← eres r;
        change_hello isInnerHello (fun _ => hello)
      else change_hello isInnerHello (fun h => clientHelloMsg.set_pskBinders [] (clientHelloMsg.set_pskIdentities [] h))
  end.

(** The uTLS extensions get the key shares of the hello and the cookie. *)
Fixpoint set_shares (shares : list KeyShare.t) (ls : list nat) : Session.M bool :=
  match ls with
  | [] => Session.ret false
  | l :: ls =>
      Session.bind (object l) (fun x =>
      Session.bind (match x with KeyShare _ => update l (KeyShare (KeyShareExtension.Mk shares)) | _ => Session.ret tt end) (fun _ =>
      Session.bind (set_shares shares ls) (fun found => Session.ret (match x with KeyShare _ => true | _ => found end))))
  end.
Fixpoint set_cookies (cookie : bytes) (ls : list nat) : Session.M bool :=
  match ls with
  | [] => Session.ret false
  | l :: ls =>
      Session.bind (object l) (fun x =>
      Session.bind (match x with Cookie _ => update l (Cookie (CookieExtension.Mk cookie)) | _ => Session.ret tt end) (fun _ =>
      Session.bind (set_cookies cookie ls) (fun found => Session.ret (match x with Cookie _ => true | _ => found end))))
  end.
Fixpoint objects (ls : list nat) : Session.M (list (Ext X)) :=
  match ls with
  | [] => Session.ret []
  | l :: ls => Session.bind (object l) (fun x => Session.bind (objects ls) (fun xs => Session.ret (x :: xs)))
  end.

(** A cookie extension somewhere in the permutable middle. *)
Definition splice_cookie (cookie : bytes) : E hs_t unit :=
  ls ← on_uconn (Session.get Exts);
  exts ← on_uconn (objects ls);
  let (lo, hi) := cookieSpliceRange positionInvariantExtension exts in
  r ← eres (newPRNG_Intn (Z.of_nat hi - Z.of_nat lo + 1));
  let cookieIndex := (lo + Z.to_nat r)%nat in
  on_uconn (Session.bind (alloc (Cookie (CookieExtension.Mk cookie))) (fun l =>
    Session.modify (set_Exts (take cookieIndex ls ++ [l] ++ drop cookieIndex ls)))).

(** The hello is marshalled again by uTLS. *)
Definition hrr_utls : E hs_t unit :=
  hs ← state;
  match hs.(uconn) with
  | None => eret tt
  | Some u =>
      if bool_decide (u.(Session.ClientHelloID) = HelloGolang) then eret tt else
      if 0 <? len hs.(hello).(clientHelloMsg.pskIdentities) then
        fail "uTLS does not support reprocessing of PSK key triggered by HelloRetryRequest" else
      keyShareExtFound ← on_uconn (set_shares (keyShares_ToPublic hs.(hello).(clientHelloMsg.keyShares)) u.(Exts));
      if negb keyShareExtFound then
        fail "uTLS: received HelloRetryRequest, but keyshare not found among client's uconn.Extensions" else
      let cookie := default [] hs.(serverHello).(serverHelloMsg.cookie) in
      (if 0 <? len cookie then
         cookieFound ← on_uconn (set_cookies cookie u.(Exts));
         when (negb cookieFound) (splice_cookie cookie)
       else eret tt) ;;
      err ← on_uconn (marshalNoECH spare);
      raise (Plain <$> err) ;;
      raw ← on_uconn (Session.get (fun u => (Session.hello u).(PubClientHelloMsg.Raw)));
      emodify (fun hs => set_hello (clientHelloMsg.set_original raw hs.(hello)) hs)
  end.

(** The outer hello for a changed inner one. *)
Definition hrr_outer : E hs_t unit :=
  inner ← the_hello true;
  emodify (fun hs => set_hello (clientHelloMsg.set_keyShares inner.(clientHelloMsg.keyShares) hs.(hello)) hs) ;;
  hs ← state;
  ech ← ederef hs.(echContext);
  if built_by_utls hs then
    r ← on_uconn (Apply.computeAndUpdateOuterECHExtension spare useFallbackMode ech false);
    emodify (set_echContext (Some r.1)) ;;
    raise (Plain <$> r.2) ;;
    raw ← on_uconn (Session.get (fun u => (Session.hello u).(PubClientHelloMsg.Raw)));
    emodify (fun hs => set_hello (clientHelloMsg.set_original raw hs.(hello)) hs) ;;
    hs ← state;
    r ← on_uconn (echTranscriptMsg hs.(hello) r.1);
    ech ← eres r;
    emodify (set_echContext (Some ech))
  else
    b ← hashed (ClientHello inner);
    on_ech (fun e => echContext.set_innerTranscript (e.(echContext.innerTranscript) ++ b) e) ;;
    r ← elift (ECH.computeAndUpdateOuterECHExtension Seal hs.(hello) inner ech.(echContext.ech) ech.(echContext.hpkeContext) false);
    on_ech (echContext.set_hpkeContext r.1) ;;
    outer ← eres r.2;
    emodify (set_hello outer).

Definition processHelloRetryRequest : E hs_t unit :=
  s ← suite_of;
  hs ← state;
  let sh := hs.(serverHello) in
  let chHash := Hash (hash_of s) hs.(transcript) in
  emodify (set_transcript (message_hash chHash)) ;;
  transcript_msg (ServerHello sh) ;;
  r ← hrr_ech s chHash;
  let '(chHash, isInnerHello) := (r : bytes * bool) in
  if (sh.(serverHelloMsg.selectedGroup) =? 0) && negb (non_nil sh.(serverHelloMsg.cookie)) then
    onc (abort_with alertIllegalParameter "tls: server sent an unnecessary HelloRetryRequest message") else
  (match sh.(serverHelloMsg.cookie) with Some cookie => change_hello isInnerHello (clientHelloMsg.set_cookie cookie) | None => eret tt end) ;;
  when (negb (sh.(serverHelloMsg.serverShare).(keyShare.group) =? 0))
    (onc (abort_with alertDecodeError "tls: received malformed key_share extension")) ;;
  when (negb (sh.(serverHelloMsg.selectedGroup) =? 0)) (hrr_key_share isInnerHello sh.(serverHelloMsg.selectedGroup)) ;;
  hrr_psk s isInnerHello chHash ;;
  hrr_utls ;;
  h ← the_hello isInnerHello;
  when h.(clientHelloMsg.earlyData) (change_hello isInnerHello (clientHelloMsg.set_earlyData false) ;; quicRejectedEarlyData) ;;
  when isInnerHello hrr_outer ;;
  hello ← gets hello;
  write_message (ClientHello hello) ;;
  msg ← read_message false;
  match msg with
  | ServerHello serverHello =>
      emodify (set_serverHello serverHello) ;;
      checkServerHelloOrHRR ;;
      modify_conn (tlsConn.set_didHRR true)
  | _ => unexpected
  end.

(** ** Keys *)

(** The pre-shared key is that of the session, whose certificates the connection
    takes over. *)
Definition resume (session : SessionState.t X) : E hs_t unit :=
  emodify (set_usingPSK true) ;;
  modify_conn (fun c =>
    tlsConn.set_scts session.(SessionState.scts)
    (tlsConn.set_ocspResponse session.(SessionState.ocspResponse)
    (tlsConn.set_verifiedChains session.(SessionState.verifiedChains)
    (tlsConn.set_peerCertificates session.(SessionState.peerCertificates)
    (tlsConn.set_didResume true c))))).

Definition processServerHello : E hs_t unit :=
  hs ← state;
  let sh := hs.(serverHello) in
  let fail a msg := onc (abort_with a msg) in
  if bool_decide (sh.(serverHelloMsg.random) = helloRetryRequestRandom) then
    fail alertUnexpectedMessage "tls: server sent two HelloRetryRequest messages" else
  if negb (len (default [] sh.(serverHelloMsg.cookie)) =? 0) then
    fail alertUnsupportedExtension "tls: server sent a cookie in a normal ServerHello" else
  if negb (sh.(serverHelloMsg.selectedGroup) =? 0) then
    fail alertDecodeError "tls: malformed key_share extension" else
  if sh.(serverHelloMsg.serverShare).(keyShare.group) =? 0 then
    fail alertIllegalParameter "tls: server did not send a key share" else
  if negb (List.existsb (fun ks => ks.(keyShare.group) =? sh.(serverHelloMsg.serverShare).(keyShare.group)) hs.(hello).(clientHelloMsg.keyShares)) then
    fail alertIllegalParameter "tls: server selected unsupported group" else
  if negb sh.(serverHelloMsg.selectedIdentityPresent) then eret tt else
  if len hs.(hello).(clientHelloMsg.pskIdentities) <=? sh.(serverHelloMsg.selectedIdentity) then
    fail alertIllegalParameter "tls: server selected an invalid PSK" else
  if negb (len hs.(hello).(clientHelloMsg.pskIdentities) =? 1) then onc (abort_alert alertInternalError) else
  match hs.(session) with
  | None => onc (abort_alert alertInternalError)
  | Some session =>
      match cipherSuiteTLS13ByID session.(session.state).(SessionState.cipherSuite) with
      | None => onc (abort_alert alertInternalError)
      | Some pskSuite =>
          s ← suite_of;
          if negb (bool_decide (hash_of pskSuite = hash_of s)) then
            fail alertIllegalParameter "tls: server selected an invalid PSK and cipher suite pair"
          else resume session.(session.state)
      end
  end.

Definition getSharedKey (peerData : bytes) (key : option ecdhKey) : E hs_t (option bytes) :=
  key ← ederef key; eret (ECDH key peerData).

Definition invalid_share {A} : E hs_t A := onc (abort_with alertIllegalParameter "tls: invalid server key share").
Definition shared_or_fail (peerData : bytes) (key : option ecdhKey) : E hs_t bytes :=
  r ← getSharedKey peerData key; match r with Some k => eret k | None => invalid_share end.

(** The X25519 part of the share of the server; the two hybrids have it last and
    first. *)
Definition ecdhe_peer_data (share : keyShare.t) : E hs_t bytes :=
  let data := share.(keyShare.data) in
  if share.(keyShare.group) =? X25519MLKEM768 then
    if negb (len data =? mlkem_CiphertextSize768 + x25519PublicKeySize) then
      onc (abort_with alertIllegalParameter "tls: invalid server X25519MLKEM768 key share")
    else elift (from data mlkem_CiphertextSize768)
  else if share.(keyShare.group) =? X25519Kyber768Draft00 then
    if negb (len data =? x25519PublicKeySize + mlkem_CiphertextSize768) then
      onc (abort_with alertIllegalParameter "tls: invalid server X25519Kyber768Draft00 key share")
    else elift (upto data x25519PublicKeySize)
  else eret data.

(** In a uTLS hello the X25519 key of a hybrid share is one of its own. *)
Definition hybrid_ecdhe (keys : keySharePrivateKeys.t) (ecdhePeerData sharedKey : bytes) : E hs_t bytes :=
  hs ← state;
  if built_by_utls hs then shared_or_fail ecdhePeerData keys.(keySharePrivateKeys.mlkemEcdhe) else eret sharedKey.

Definition shared_key (share : keyShare.t) (keys : keySharePrivateKeys.t) : E hs_t bytes :=
  ecdhePeerData ← ecdhe_peer_data share;
  sharedKey ← shared_or_fail ecdhePeerData keys.(keySharePrivateKeys.ecdhe);
  if share.(keyShare.group) =? X25519MLKEM768 then
    match keys.(keySharePrivateKeys.mlkem) with
    | None => onc (abort_alert alertInternalError)
    | Some mlkem =>
        sharedKey ← hybrid_ecdhe keys ecdhePeerData sharedKey;
        ciphertext ← elift (upto share.(keyShare.data) mlkem_CiphertextSize768);
        match Decapsulate mlkem ciphertext with
        | None => onc (abort_with alertIllegalParameter "tls: invalid X25519MLKEM768 server key share")
        | Some mlkemShared => eret (mlkemShared ++ sharedKey)
        end
    end
  else if share.(keyShare.group) =? X25519Kyber768Draft00 then
    match keys.(keySharePrivateKeys.mlkem) with
    | None => onc (abort_alert alertInternalError)
    | Some mlkem =>
        sharedKey ← hybrid_ecdhe keys ecdhePeerData sharedKey;
        ciphertext ← elift (from share.(keyShare.data) x25519PublicKeySize);
        match kyberDecapsulate mlkem ciphertext with
        | None => onc (abort_with alertIllegalParameter "tls: invalid X25519Kyber768Draft00 server key share")
        | Some kyberShared => eret (sharedKey ++ kyberShared)
        end
    end
  else eret sharedKey.

(** [c.out.setTrafficSecret] and [c.in.setTrafficSecret] *)
Definition set_out_secret (s : cipherSuiteTLS13.t) (level : Z) (secret : bytes) : E hs_t unit :=
  hs ← state;
  hc ← elift (setTrafficSecret newAead s level secret hs.(c).(tlsConn.conn).(Conn.out));
  modify_layer (Conn.set_out hc).
Definition set_in_secret (s : cipherSuiteTLS13.t) (level : Z) (secret : bytes) : E hs_t unit :=
  hs ← state;
  hc ← elift (setTrafficSecret newAead s level secret hs.(c).(tlsConn.conn).(Conn.in_));
  modify_layer (Conn.set_in_ hc).

(** A line of the key log; an error of the writer ends the handshake. *)
Definition log_secret (lbl : string) (secret : bytes) : E hs_t unit :=
  hs ← state;
  r ← onc (caught (writeKeyLog hk lbl hs.(hello).(clientHelloMsg.random) secret));
  match r with inl e => onc (abort alertInternalError e) | inr _ => eret tt end.

Definition establishHandshakeKeys : E hs_t unit :=
  hs ← state;
  keys ← ederef hs.(keyShareKeys);
  let share := hs.(serverHello).(serverHelloMsg.serverShare) in
  sharedKey ← shared_key share keys;
  modify_conn (tlsConn.set_curveID share.(keyShare.group)) ;;
  s ← suite_of;
  earlySecret ← (if negb hs.(usingPSK) then eret (tls13.NewEarlySecret (hash_of s) None) else ederef hs.(earlySecret));
  handshakeSecret ← elift (tls13.EarlySecret_HandshakeSecret earlySecret sharedKey);
  clientSecret ← elift (tls13.ClientHandshakeTrafficSecret handshakeSecret hs.(transcript));
  set_out_secret s QUICEncryptionLevelHandshake clientSecret ;;
  serverSecret ← elift (tls13.ServerHandshakeTrafficSecret handshakeSecret hs.(transcript));
  set_in_secret s QUICEncryptionLevelHandshake serverSecret ;;
  log_secret keyLogLabelClientHandshake clientSecret ;;
  log_secret keyLogLabelServerHandshake serverSecret ;;
  masterSecret ← elift (tls13.HandshakeSecret_MasterSecret handshakeSecret);
  emodify (set_masterSecret (Some masterSecret)).

(** ** The parameters of the server *)

(** Application settings; an unknown protocol leaves the local settings empty. *)
Definition utlsReadServerParameters (ee : encryptedExtensionsMsg.t) : E hs_t unit :=
  let settings := ee.(encryptedExtensionsMsg.utls).(utlsEncryptedExtensionsMsgExtraFields.applicationSettings) in
  let codepoint := ee.(encryptedExtensionsMsg.utls).(utlsEncryptedExtensionsMsgExtraFields.applicationSettingsCodepoint) in
  modify_conn (fun c => tlsConn.set_utls (utlsConnExtraFields.Mk settings c.(tlsConn.utls).(utlsConnExtraFields.localApplicationSettings) codepoint) c) ;;
  if codepoint =? 0 then eret tt else
  hs ← state;
  if vers hs.(c) <? VersionTLS13 then fail "tls: server sent application settings at invalid version" else
  if len hs.(c).(tlsConn.clientProtocol) =? 0 then fail "tls: server sent application settings without ALPN" else
  match hk.(ApplicationSettings) hs.(serverHello).(serverHelloMsg.alpnProtocol) with
  | Some alps => modify_conn (fun c => tlsConn.set_utls (utlsConnExtraFields.Mk settings alps codepoint) c)
  | None => eret tt
  end.

(** A server that accepts early data must use the suite and the protocol of the
    session. *)
Definition check_early_data (ee : encryptedExtensionsMsg.t) : E hs_t unit :=
  hs ← state;
  when (negb hs.(hello).(clientHelloMsg.earlyData) && ee.(encryptedExtensionsMsg.earlyData))
    (onc (abort_with alertUnsupportedExtension "tls: server sent an unexpected early_data extension")) ;;
  when (hs.(hello).(clientHelloMsg.earlyData) && negb ee.(encryptedExtensionsMsg.earlyData)) quicRejectedEarlyData ;;
  if negb ee.(encryptedExtensionsMsg.earlyData) then eret tt else
  session ← ederef hs.(session);
  when (negb (session.(session.state).(SessionState.cipherSuite) =? hs.(c).(tlsConn.conn).(Conn.cipherSuite)))
    (onc (abort_with alertHandshakeFailure "tls: server accepted 0-RTT with the wrong cipher suite")) ;;
  when (negb (bool_decide (session.(session.state).(SessionState.alpnProtocol) = hs.(c).(tlsConn.clientProtocol))))
    (onc (abort_with alertHandshakeFailure "tls: server accepted 0-RTT with the wrong ALPN")).

Definition check_retry_configs (ee : encryptedExtensionsMsg.t) : E hs_t unit :=
  hs ← state;
  match hs.(echContext) with
  | None => eret tt
  | Some ech =>
      if ech.(echContext.echRejected) then on_ech (echContext.set_retryConfigs ee.(encryptedExtensionsMsg.echRetryConfigs))
      else when (non_nil ee.(encryptedExtensionsMsg.echRetryConfigs))
        (onc (abort_with alertUnsupportedExtension "tls: server sent encrypted client hello retry configs after accepting encrypted client hello"))
  end.

Definition process_parameters (ee : encryptedExtensionsMsg.t) : E hs_t unit :=
  hs ← state;
  (match checkALPN hs.(hello).(clientHelloMsg.alpnProtocols) ee.(encryptedExtensionsMsg.alpnProtocol) with
   | Some err => onc (abort alertNoApplicationProtocol err)
   | None => eret tt
   end) ;;
  modify_conn (tlsConn.set_clientProtocol ee.(encryptedExtensionsMsg.alpnProtocol)) ;;
  (if non_nil hs.(uconn) then
     r ← caught (utlsReadServerParameters ee);
     match r with inl err => onc (abort alertUnsupportedExtension err) | inr _ => eret tt end
   else eret tt) ;;
  when (non_nil ee.(encryptedExtensionsMsg.quicTransportParameters))
    (onc (abort_with alertUnsupportedExtension "tls: server sent an unexpected quic_transport_parameters extension")) ;;
  check_early_data ee ;;
  check_retry_configs ee.

Definition readServerParameters : E hs_t unit :=
  msg ← read_message true;
  match msg with EncryptedExtensions ee => process_parameters ee | _ => unexpected end.

(** ** The certificate of the server *)

(** One [Read] of the decompressor fills the message, or the message is refused. *)
Definition decompressCert (m : utlsCompressedCertificateMsg.t) : E hs_t certificateMsgTLS13.t :=
  let bad {A} e : E hs_t A := onc (abort alertBadCertificate e) in
  let n := m.(utlsCompressedCertificateMsg.uncompressedLength) in
  let compressed := m.(utlsCompressedCertificateMsg.compressedCertificateMessage) in
  let alg := m.(utlsCompressedCertificateMsg.algorithm) in
  algs ← on_uconn (Session.get (fun u => u.(uc).(UConn.certCompressionAlgs)));
  if negb (List.existsb (fun a => alg =? a) algs) then bad (Plain (Errorf "unadvertised algorithm (%d)" [alg])) else
  decompressed ← (if alg =? CertCompressionBrotli then eret (brotli_Read compressed)
    else if alg =? CertCompressionZlib then
      match zlib_NewReader compressed with inl _ => bad (Plain (ErrorNew "failed to open zlib reader: %w")) | inr r => eret r end
    else if alg =? CertCompressionZstd then
      match zstd_NewReader compressed with inl _ => bad (Plain (ErrorNew "failed to open zstd reader: %w")) | inr r => eret r end
    else bad (Plain (Errorf "unsupported algorithm (%d)" [alg])));
  let (b, err) := (decompressed n : bytes * option gerror) in
  (match err with Some e => when (negb (bool_decide (e = EOF))) (bad (Plain e)) | None => eret tt end) ;;
  if len b <? n then bad (Plain (Errorf "decompressed len (%d) does not match specified len (%d)" [len b; n])) else
  match certificateMsgTLS13.unmarshal ([u8 typeCertificate] ++ be 3 n ++ b) with
  | None => onc (abort_alert alertUnexpectedMessage)
  | Some certMsg => eret certMsg
  end.

Definition is_CompressCert (x : Ext X) : bool := match x with UtlsCompressCert _ => true | _ => false end.

(** The certificate of a compressed message; [None]: the message is not one. *)
Definition utlsReadServerCertificate (msg : handshakeMessage) : E hs_t (option certificateMsgTLS13.t) :=
  exts ← on_uconn (Session.bind (Session.get Exts) objects);
  algs ← on_uconn (Session.get (fun u => u.(uc).(UConn.certCompressionAlgs)));
  match msg with
  | CompressedCertificate m =>
      if existsb is_CompressCert exts && (0 <? len algs) then
        transcript_msg msg ;;
        r ← caught (decompressCert m);
        match r with
        | inl e => throw (WrapError "tls: failed to decompress certificate message: " e)
        | inr certMsg => eret (Some certMsg)
        end
      else eret None
  | _ => eret None
  end.

(** The certificate message, which is in the transcript when it was compressed. *)
Definition certificate_message (msg : handshakeMessage) : E hs_t certificateMsgTLS13.t :=
  hs ← state;
  processedMsg ← (if non_nil hs.(uconn) then utlsReadServerCertificate msg else eret None);
  let msg' := match processedMsg with Some certMsg => CertificateTLS13 certMsg | None => msg end in
  match msg' with
  | CertificateTLS13 certMsg =>
      if len certMsg.(certificateMsgTLS13.certificate).(Certificate.Certificate) =? 0 then
        onc (abort_with alertDecodeError "tls: received empty certificates message") else
      when (negb (non_nil processedMsg)) (transcript_msg msg') ;;
      eret certMsg
  | _ => unexpected
  end.

(** The first message, and the one after a certificate request. *)
Definition after_request : E hs_t handshakeMessage :=
  msg ← read_message false;
  match msg with
  | CertificateRequestTLS13 certReq =>
      emodify (set_certReq (Some certReq)) ;;
      caught (transcript_msg msg) ;;
      read_message false
  | _ => eret msg
  end.

(** The check of the signature over the transcript. *)
Definition verify_signature (certVerify : certificateVerifyMsg.t) : E hs_t unit :=
  let alg := certVerify.(certificateVerifyMsg.signatureAlgorithm) in
  let invalid {A} : E hs_t A := onc (abort_with alertIllegalParameter "tls: certificate used with invalid signature algorithm") in
  if negb (isSupportedSignatureAlgorithm alg supportedSignatureAlgorithms) then invalid else
  match typeAndHashFromSignatureScheme alg with
  | inl _ => onc (abort_alert alertInternalError)
  | inr (sigType, sigHash) =>
      if (sigType =? signaturePKCS1v15) || bool_decide (sigHash = CryptoHash SHA1) then invalid else
      s ← suite_of;
      hs ← state;
      signed ← elift (signedMessage sigHash serverSignatureContext (hash_of s) hs.(transcript));
      leaf ← ederef (head hs.(c).(tlsConn.peerCertificates));
      match verifyHandshakeSignature sigType (x509_PublicKey leaf) sigHash signed certVerify.(certificateVerifyMsg.signature) with
      | Some _ => onc (abort_with alertDecryptError "tls: invalid signature by the server certificate: ")
      | None => eret tt
      end
  end.

Definition readServerCertificate : E hs_t unit :=
  hs ← state;
  if hs.(usingPSK) then
    onc (callback hk.(VerifyConnection) (fun f => f (connectionStateLocked hs.(c))))
  else
    msg ← after_request;
    certMsg ← certificate_message msg;
    let cert := certMsg.(certificateMsgTLS13.certificate) in
    modify_conn (fun c => tlsConn.set_ocspResponse cert.(Certificate.OCSPStaple) (tlsConn.set_scts cert.(Certificate.SignedCertificateTimestamps) c)) ;;
    onc (verifyServerCertificate hk now cert.(Certificate.Certificate)) ;;
    msg ← read_message false;
    match msg with
    | CertificateVerify certVerify => verify_signature certVerify ;; transcript_msg msg
    | _ => unexpected
    end.

(** ** Finished *)

Definition master_of : E hs_t tls13.MasterSecret := hs ← state; ederef hs.(masterSecret).

Definition readServerFinished : E hs_t unit :=
  msg ← read_message false;
  match msg with
  | Finished finished =>
      s ← suite_of;
      hs ← state;
      expectedMAC ← elift (finishedHash s hs.(c).(tlsConn.conn).(Conn.in_).(halfConn.trafficSecret) hs.(transcript));
      if negb (bool_decide (expectedMAC = finished.(finishedMsg.verifyData))) then
        onc (abort_with alertDecryptError "tls: invalid server finished hash") else
      transcript_msg msg ;;
      masterSecret ← master_of;
      hs ← state;
      trafficSecret ← elift (tls13.ClientApplicationTrafficSecret masterSecret hs.(transcript));
      emodify (set_trafficSecret trafficSecret) ;;
      serverSecret ← elift (tls13.ServerApplicationTrafficSecret masterSecret hs.(transcript));
      set_in_secret s QUICEncryptionLevelApplication serverSecret ;;
      log_secret keyLogLabelClientTraffic trafficSecret ;;
      log_secret keyLogLabelServerTraffic serverSecret ;;
      modify_conn (tlsConn.set_ekm (Some (ekm13 masterSecret hs.(transcript))))
  | _ => unexpected
  end.

Definition sendClientEncryptedExtensions : E hs_t unit :=
  u ← conn_field tlsConn.utls;
  if u.(utlsConnExtraFields.applicationSettingsCodepoint) =? 0 then eret tt else
  write_message (ClientEncryptedExtensions (utlsClientEncryptedExtensionsMsg.Mk None u.(utlsConnExtraFields.localApplicationSettings)
    u.(utlsConnExtraFields.applicationSettingsCodepoint) [])).
Definition serverFinishedReceived : E hs_t unit := sendClientEncryptedExtensions.

Definition empty_certificate : Certificate.t := Certificate.Mk [] None None.
Definition positive_len {A} (o : option (list A)) : bool := 0 <? len (default [] o).

(** The proof that the client has the key of its certificate. *)
Definition send_certificate_verify (cert : KeyPair.t) (certReq : certificateRequestMsgTLS13.t) : E hs_t unit :=
  hs ← state;
  match selectSignatureScheme (vers hs.(c)) cert certReq.(certificateRequestMsgTLS13.supportedSignatureAlgorithms) with
  | inl err => onc (abort alertHandshakeFailure (Plain err))
  | inr alg =>
      match typeAndHashFromSignatureScheme alg with
      | inl _ => onc (abort_alert alertInternalError)
      | inr (sigType, sigHash) =>
          s ← suite_of;
          signed ← elift (signedMessage sigHash clientSignatureContext (hash_of s) hs.(transcript));
          _ ← ederef (Signer_Public cert.(KeyPair.PrivateKey));
          sig ← onc (draws (draw (Sign cert.(KeyPair.PrivateKey) signed (sign_opts sigType sigHash))));
          match sig with
          | inl _ => onc (abort_with alertInternalError "tls: failed to sign handshake: ")
          | inr sig => write_message (CertificateVerify (certificateVerifyMsg.Mk true alg sig))
          end
      end
  end.

Definition sendClientCertificate : E hs_t unit :=
  hs ← state;
  match hs.(certReq) with
  | None => eret tt
  | Some certReq =>
      if match hs.(echContext) with Some ech => ech.(echContext.echRejected) | None => false end then
        write_message (CertificateTLS13 (certificateMsgTLS13.Mk empty_certificate false false))
      else
        cert ← onc (getClientCertificate hk (CertificateRequestInfo.Mk certReq.(certificateRequestMsgTLS13.certificateAuthorities)
                 certReq.(certificateRequestMsgTLS13.supportedSignatureAlgorithms) (vers hs.(c))));
        let chain := match cert with Some cert => cert.(KeyPair.chain) | None => empty_certificate end in
        write_message (CertificateTLS13 (certificateMsgTLS13.Mk chain
          (certReq.(certificateRequestMsgTLS13.ocspStapling) && positive_len chain.(Certificate.OCSPStaple))
          (certReq.(certificateRequestMsgTLS13.scts) && positive_len chain.(Certificate.SignedCertificateTimestamps)))) ;;
        match cert with
        | Some cert => when (negb (len chain.(Certificate.Certificate) =? 0)) (send_certificate_verify cert certReq)
        | None => eret tt
        end
  end.

Definition sendClientFinished : E hs_t unit :=
  s ← suite_of;
  hs ← state;
  verifyData ← elift (finishedHash s hs.(c).(tlsConn.conn).(Conn.out).(halfConn.trafficSecret) hs.(transcript));
  write_message (Finished (finishedMsg.Mk verifyData)) ;;
  hs ← state;
  set_out_secret s QUICEncryptionLevelApplication hs.(trafficSecret) ;;
  when (negb (config hs.(c)).(Config.SessionTicketsDisabled) && non_nil hs.(c).(tlsConn.sessionCache)) (
    masterSecret ← master_of;
    secret ← elift (tls13.ResumptionMasterSecret masterSecret hs.(transcript));
    modify_conn (tlsConn.set_resumptionSecret (Some secret))).

(** ** The handshake *)

(** The transcript of the inner hello is started. *)
Definition start_inner_transcript : E hs_t unit :=
  hs ← state;
  match hs.(echContext) with
  | None => eret tt
  | Some ech =>
      let ech := echContext.set_innerTranscript [] ech in
      emodify (set_echContext (Some ech)) ;;
      if built_by_utls hs then
        r ← on_uconn (echTranscriptMsg hs.(hello) ech);
        ech ← eres r;
        emodify (set_echContext (Some ech))
      else
        inner ← ederef ech.(echContext.innerHello);
        b ← hashed (ClientHello inner);
        on_ech (fun e => echContext.set_innerTranscript (e.(echContext.innerTranscript) ++ b) e)
  end.

(** Whether the server has accepted Encrypted ClientHello. *)
Definition confirm_ech : E hs_t unit :=
  hs ← state;
  match hs.(echContext) with
  | None => eret tt
  | Some ech =>
      if ech.(echContext.pskInOuterOnly) then on_ech (echContext.set_echRejected true) else
      s ← suite_of;
      let original := default [] hs.(serverHello).(serverHelloMsg.original) in
      before ← elift (upto original 30);
      after ← elift (from original 38);
      inner ← ederef ech.(echContext.innerHello);
      acceptConfirmation ← elift (accept_confirmation s inner "ech accept confirmation"
        (ech.(echContext.innerTranscript) ++ before ++ replicate 8 x00 ++ after));
      let random := hs.(serverHello).(serverHelloMsg.random) in
      serverConfirmation ← elift (from random (len random - 8));
      if bool_decide (acceptConfirmation = serverConfirmation) then
        emodify (fun hs => set_transcript ech.(echContext.innerTranscript) (set_hello inner hs)) ;;
        accept_ech ;;
        when (non_nil hs.(serverHello).(serverHelloMsg.encryptedClientHello))
          (onc (abort_with alertUnsupportedExtension "tls: unexpected encrypted client hello extension in server hello despite ECH being accepted")) ;;
        when (bool_decide (inner.(clientHelloMsg.serverName) = []) && hs.(serverHello).(serverHelloMsg.serverNameAck))
          (onc (abort_with alertUnsupportedExtension "tls: unexpected server_name extension in server hello"))
      else on_ech (echContext.set_echRejected true)
  end.

(** [ECHRejectionError] with the configurations to retry with. *)
Definition ECHRejectionError (retryConfigs : option bytes) : connError :=
  Plain (Errorf "tls: server rejected ECH" (map b2z (default [] retryConfigs))).

(** A rejected Encrypted ClientHello ends the handshake, unless the pre-shared key
    was only in the outer hello. *)
Definition check_rejected : E hs_t unit :=
  hs ← state;
  match hs.(echContext) with
  | Some ech =>
      when (ech.(echContext.echRejected) && negb ech.(echContext.pskInOuterOnly))
        (onc (abort alertECHRequired (ECHRejectionError ech.(echContext.retryConfigs))))
  | None => eret tt
  end.

(** Up to the transcript of the ServerHello. *)
Definition start_handshake : E hs_t unit :=
  hs ← state;
  if 0 <? hs.(c).(tlsConn.conn).(Conn.handshakes) then
    onc (abort_with alertProtocolVersion "tls: server selected TLS 1.3 in a renegotiation") else
  if negb (match hs.(keyShareKeys) with Some k => non_nil k.(keySharePrivateKeys.ecdhe) | None => false end)
     || (len hs.(hello).(clientHelloMsg.keyShares) =? 0) then onc (abort_alert alertInternalError) else
  checkServerHelloOrHRR ;;
  emodify (set_transcript []) ;;
  transcript_msg (ClientHello hs.(hello)) ;;
  start_inner_transcript ;;
  when (bool_decide (hs.(serverHello).(serverHelloMsg.random) = helloRetryRequestRandom))
    (sendDummyChangeCipherSpec ;; processHelloRetryRequest) ;;
  confirm_ech ;;
  hs ← state;
  transcript_msg (ServerHello hs.(serverHello)).

Definition finish_handshake : E hs_t unit :=
  serverFinishedReceived ;;
  sendClientCertificate ;;
  sendClientFinished ;;
  onc flush ;;
  check_rejected ;;
  modify_layer (Conn.set_isHandshakeComplete true).

Definition handshake : E hs_t unit :=
  start_handshake ;;
  modify_layer (Conn.set_buffering true) ;;
  processServerHello ;;
  sendDummyChangeCipherSpec ;;
  establishHandshakeKeys ;;
  readServerParameters ;;
  readServerCertificate ;;
  readServerFinished ;;
  finish_handshake.

(** ** Session tickets *)

Definition handleNewSessionTicket (msg : newSessionTicketMsgTLS13.t) : E tlsConn.t unit :=
  c ← state;
  let k := c.(tlsConn.conn) in
  if negb k.(Conn.isClient) then abort_with alertUnexpectedMessage "tls: received new session ticket from a client" else
  if (config c).(Config.SessionTicketsDisabled) || negb (non_nil c.(tlsConn.sessionCache)) then eret tt else
  if msg.(newSessionTicketMsgTLS13.lifetime) =? 0 then eret tt else
  let lifetime := msg.(newSessionTicketMsgTLS13.lifetime) * second in
  if maxSessionTicketLifetime <? lifetime then abort_with alertIllegalParameter "tls: received a session ticket with invalid lifetime" else
  match cipherSuiteTLS13ByID k.(Conn.cipherSuite), c.(tlsConn.resumptionSecret) with
  | Some s, Some resumptionSecret =>
      psk ← elift (tls13.ExpandLabel (hash_of s) resumptionSecret (label "resumption") msg.(newSessionTicketMsgTLS13.nonce)
                     (Z.of_nat (hash_size (hash_of s))));
      let st := sessionState now c in
      store_session RemoteAddr (SessionState.Mk st.(SessionState.Extra) false st.(SessionState.version) st.(SessionState.isClient) st.(SessionState.cipherSuite)
        st.(SessionState.createdAt) psk st.(SessionState.extMasterSecret) st.(SessionState.peerCertificates) st.(SessionState.ocspResponse)
        st.(SessionState.scts) st.(SessionState.verifiedChains) st.(SessionState.alpnProtocol)
        (((now + lifetime) `div` second) mod 2 ^ 64) msg.(newSessionTicketMsgTLS13.ageAdd) (Some msg.(newSessionTicketMsgTLS13.label)))
  | _, _ => abort_alert alertInternalError
  end.

End Ops.
