(* ===== verification/Client13Facts.v ===== *)
(** * The client authenticates the server

    Theorems on the TLS 1.3 handshake of a client: when it succeeds the server has
    proved its identity by a pre-shared key or by a signature over the transcript
    with the key of a verified certificate, its Finished message covers the rest of
    the transcript, and the connection uses the secrets of the key schedule; when
    it fails the handshake is not complete.

    A view of the state keeps what matters for this, and most operations leave the
    view alone or only add to the transcript. *)

From S2P Require Import Prelude Cryptobyte Common Config Negotiation Codec Buffer KeySchedule Record Names Messages RawMessages ServerHello ClientHello Ticket Caches Public Extensions PreSharedKey Handshake Conn ConnFacts ConnFrame ECH GreaseECH Marshal Shuffle Parrots Session Preset Apply Auth KeyAgreement Peer PeerFacts Client13.

(** ** A view of the state *)

Module view.
Record t {X : X509} := Mk {
  suite : option cipherSuiteTLS13.t;
  transcript : bytes;
  usingPSK : bool;
  session : option (session.ptr X);
  earlySecret : option tls13.EarlySecret;
  peer : list certificate;
  chains : list (list certificate);
  secret_in : bytes;
  secret_out : bytes;
  master : option tls13.MasterSecret;
  traffic : bytes;
  cfg : Config.t;
  accepted : bool;
  ekm : option exporter;
  complete : bool;
  sh : serverHelloMsg.t
}.
#[global] Arguments t X : clear implicits.
#[global] Arguments Mk {X}.
Section Set_.
Context {X : X509}.
Definition set_transcript (v : bytes) (s : t X) : t X :=
  Mk s.(suite) v s.(usingPSK) s.(session) s.(earlySecret) s.(peer) s.(chains) s.(secret_in)
    s.(secret_out) s.(master) s.(traffic) s.(cfg) s.(accepted) s.(ekm) s.(complete) s.(sh).
Definition set_usingPSK (v : bool) (s : t X) : t X :=
  Mk s.(suite) s.(transcript) v s.(session) s.(earlySecret) s.(peer) s.(chains) s.(secret_in)
    s.(secret_out) s.(master) s.(traffic) s.(cfg) s.(accepted) s.(ekm) s.(complete) s.(sh).
Definition set_peer (v : list certificate) (s : t X) : t X :=
  Mk s.(suite) s.(transcript) s.(usingPSK) s.(session) s.(earlySecret) v s.(chains) s.(secret_in)
    s.(secret_out) s.(master) s.(traffic) s.(cfg) s.(accepted) s.(ekm) s.(complete) s.(sh).
Definition set_chains (v : list (list certificate)) (s : t X) : t X :=
  Mk s.(suite) s.(transcript) s.(usingPSK) s.(session) s.(earlySecret) s.(peer) v s.(secret_in)
    s.(secret_out) s.(master) s.(traffic) s.(cfg) s.(accepted) s.(ekm) s.(complete) s.(sh).
Definition set_secret_in (v : bytes) (s : t X) : t X :=
  Mk s.(suite) s.(transcript) s.(usingPSK) s.(session) s.(earlySecret) s.(peer) s.(chains) v
    s.(secret_out) s.(master) s.(traffic) s.(cfg) s.(accepted) s.(ekm) s.(complete) s.(sh).
Definition set_secret_out (v : bytes) (s : t X) : t X :=
  Mk s.(suite) s.(transcript) s.(usingPSK) s.(session) s.(earlySecret) s.(peer) s.(chains)
    s.(secret_in) v s.(master) s.(traffic) s.(cfg) s.(accepted) s.(ekm) s.(complete) s.(sh).
Definition set_master (v : option tls13.MasterSecret) (s : t X) : t X :=
  Mk s.(suite) s.(transcript) s.(usingPSK) s.(session) s.(earlySecret) s.(peer) s.(chains)
    s.(secret_in) s.(secret_out) v s.(traffic) s.(cfg) s.(accepted) s.(ekm) s.(complete) s.(sh).
Definition set_traffic (v : bytes) (s : t X) : t X :=
  Mk s.(suite) s.(transcript) s.(usingPSK) s.(session) s.(earlySecret) s.(peer) s.(chains)
    s.(secret_in) s.(secret_out) s.(master) v s.(cfg) s.(accepted) s.(ekm) s.(complete) s.(sh).
Definition set_ekm (v : option exporter) (s : t X) : t X :=
  Mk s.(suite) s.(transcript) s.(usingPSK) s.(session) s.(earlySecret) s.(peer) s.(chains)
    s.(secret_in) s.(secret_out) s.(master) s.(traffic) s.(cfg) s.(accepted) v s.(complete) s.(sh).
Definition set_complete (v : bool) (s : t X) : t X :=
  Mk s.(suite) s.(transcript) s.(usingPSK) s.(session) s.(earlySecret) s.(peer) s.(chains)
    s.(secret_in) s.(secret_out) s.(master) s.(traffic) s.(cfg) s.(accepted) s.(ekm) v s.(sh).
End Set_.
End view.

Section Facts.
Context {C : Cryptobyte} {Cs : Ciphers} {K : Crypto} {Ks : Keys} {S : Signing Ks} {X : X509} {V : X509Verify X} {XK : X509Keys X S} {XC : X509Chains X S}
  {I : ClientSessionCache (session.ptr X)} {E_ : KeyExchange Ks} {D : Decompressors}.
Context (hk : hooks Ks S X XC) (now : Z) (newAead : cipherSuiteTLS13.t -> bytes -> bytes -> outcome aead)
  (spare : bytes -> bytes) (useFallbackMode : bool) (newPRNG_Intn : Z -> res Z).
Import clientHandshakeStateTLS13.
Implicit Types hs : clientHandshakeStateTLS13.t.
Abbreviation hs_t := clientHandshakeStateTLS13.t.

Definition view_of hs : view.t X := {|
  view.suite := hs.(suite);
  view.transcript := hs.(transcript);
  view.usingPSK := hs.(usingPSK);
  view.session := hs.(session);
  view.earlySecret := hs.(earlySecret);
  view.peer := hs.(c).(tlsConn.peerCertificates);
  view.chains := hs.(c).(tlsConn.verifiedChains);
  view.secret_in := hs.(c).(tlsConn.conn).(Conn.in_).(halfConn.trafficSecret);
  view.secret_out := hs.(c).(tlsConn.conn).(Conn.out).(halfConn.trafficSecret);
  view.master := hs.(masterSecret);
  view.traffic := hs.(trafficSecret);
  view.cfg := config hs.(c);
  view.accepted := hs.(c).(tlsConn.echAccepted);
  view.ekm := hs.(c).(tlsConn.ekm);
  view.complete := hs.(c).(tlsConn.conn).(Conn.isHandshakeComplete);
  view.sh := hs.(serverHello)
|}.

Definition same_view hs hs' : Prop := view_of hs' = view_of hs.
(** The transcript is longer. *)
Definition grow hs hs' : Prop := exists w, view_of hs' = view.set_transcript (hs.(transcript) ++ w) (view_of hs).
(** The part that no step of the beginning changes. *)
Definition base hs hs' : Prop :=
  hs'.(usingPSK) = hs.(usingPSK) /\ hs'.(session) = hs.(session) /\ hs'.(earlySecret) = hs.(earlySecret) /\
  config hs'.(c) = config hs.(c) /\ (view_of hs').(view.complete) = (view_of hs).(view.complete).
Definition calm hs hs' : Prop := (view_of hs').(view.complete) = (view_of hs).(view.complete).

#[local] Instance same_view_preorder : PreOrder same_view.
Proof. split; [done|]. unfold same_view. intros ???. congruence. Qed.
#[local] Instance grow_preorder : PreOrder grow.
Proof.
  split.
  - intros hs. exists []. by rewrite app_nil_r.
  - intros h1 h2 h3 [w1 H1] [w2 H2]. exists (w1 ++ w2).
    assert (Ht : h2.(transcript) = h1.(transcript) ++ w1) by (apply (f_equal view.transcript) in H1; exact H1).
    rewrite H2, H1, Ht, <- app_assoc. done.
Qed.
#[local] Instance base_preorder : PreOrder base.
Proof. split; [done|]. unfold base. intros ???. intuition congruence. Qed.
#[local] Instance calm_preorder : PreOrder calm.
Proof. split; [done|]. unfold calm. intros ???. congruence. Qed.

Lemma same_grow hs hs' : same_view hs hs' -> grow hs hs'.
Proof. intros H. exists []. rewrite app_nil_r. exact H. Qed.
Lemma same_base hs hs' : same_view hs hs' -> base hs hs'.
Proof.
  unfold same_view, base. intros H. injection H. intuition.
Qed.
Lemma base_calm hs hs' : base hs hs' -> calm hs hs'.
Proof. by intros (_ & _ & _ & _ & H). Qed.
Lemma grow_calm hs hs' : grow hs hs' -> calm hs hs'.
Proof. intros [w H]. unfold calm. by rewrite H. Qed.

(** ** Steps that leave the view alone *)

Lemma same_onc {A} (m : E tlsConn.t A) : stable layer m -> stable same_view (onc m).
Proof.
  apply stable_zoom. intros hs c' (k & [Hc Hv Hcfg Hh Hs Hcl Hi Ho] & ->). unfold same_view, view_of, config. cbn. unfold same_secret in *. cbn in *. by rewrite Hc, Hcfg, Hi, Ho.
Qed.
Lemma same_uconn {A} (m : Session.M A) : stable same_view (on_uconn m).
Proof.
  intros hs hs' r. unfold on_uconn. destruct (uconn hs) as [u|]; [|done]. destruct (m _) as [|[u' a]]; [done|]. by intros [= <- _].
Qed.
Lemma same_ech f : stable same_view (on_ech f).
Proof. apply stable_modify. by intros hs. Qed.
Hint Resolve same_onc same_uconn same_ech layer_abort layer_abort_with layer_abort_alert layer_readHandshake layer_writeHandshakeRecord
  layer_writeChangeCipherRecord layer_flush layer_draws : stable.
Hint Extern 4 (same_view _ _) => done : stable.

Lemma grow_same {A} (m : E hs_t A) : stable same_view m -> stable grow m.
Proof. apply stable_weaken, same_grow. Qed.
Lemma base_same {A} (m : E hs_t A) : stable same_view m -> stable base m.
Proof. apply stable_weaken, same_base. Qed.
Lemma calm_base {A} (m : E hs_t A) : stable base m -> stable calm m.
Proof. apply stable_weaken, base_calm. Qed.
Lemma calm_grow {A} (m : E hs_t A) : stable grow m -> stable calm m.
Proof. apply stable_weaken, grow_calm. Qed.

Lemma read_quietly hs hs' m : read_message false hs = Ret (hs', inr m) -> same_view hs hs'.
Proof.
  unfold read_message, write_transcript. intros H. estep H. estep H. injection H as <- _. pose proof (same_onc _ (layer_readHandshake false) _ _ _ Hs) as Hv.
  assert (a.1 = []) as ->; [|unfold same_view in *; rewrite <- Hv; unfold view_of; cbn; by rewrite app_nil_r].
  apply zoom_ok in Hs as (c' & Hs & _). by apply readHandshake_silent in Hs.
Qed.

Lemma grow_write b : stable grow (write_transcript b).
Proof. apply stable_modify. intros hs. by exists b. Qed.
Hint Resolve grow_write : stable.
Hint Extern 5 (stable grow (onc _)) => apply grow_same : stable.
Hint Extern 5 (stable grow (on_uconn _)) => apply grow_same : stable.
Hint Extern 5 (stable grow (on_ech _)) => apply grow_same : stable.
Hint Extern 5 (stable base (onc _)) => apply base_same : stable.
Hint Extern 5 (stable base (on_uconn _)) => apply base_same : stable.
Hint Extern 5 (stable base (on_ech _)) => apply base_same : stable.
Hint Extern 4 (base _ _) => done : stable.

Lemma grow_hashed m : stable grow (hashed m).
Proof. unfold hashed. stable. Qed.
Hint Resolve grow_hashed : stable.
Lemma grow_transcript m : stable grow (transcript_msg m).
Proof. unfold transcript_msg. stable. Qed.
Lemma grow_read t : stable grow (read_message t).
Proof. unfold read_message. stable. Qed.
Lemma grow_write_message m : stable grow (write_message m).
Proof. unfold write_message. stable. Qed.
Hint Resolve grow_transcript grow_read grow_write_message : stable.
Lemma grow_unexpected {A} : stable grow (unexpected (A := A)).
Proof. unfold unexpected. stable. Qed.
Hint Resolve grow_unexpected : stable.

(** ** The beginning *)

Lemma base_hashed m : stable base (hashed m).
Proof. unfold hashed. stable. Qed.
Lemma base_write b : stable base (write_transcript b).
Proof. apply stable_modify. by intros hs. Qed.
Hint Resolve base_hashed base_write : stable.
Lemma base_transcript m : stable base (transcript_msg m).
Proof. unfold transcript_msg. stable. Qed.
Lemma base_read t : stable base (read_message t).
Proof. unfold read_message. stable. Qed.
Lemma base_write_message m : stable base (write_message m).
Proof. unfold write_message. stable. Qed.
Lemma base_unexpected {A} : stable base (unexpected (A := A)).
Proof. unfold unexpected. stable. Qed.
Lemma base_suite_of : stable base suite_of.
Proof. unfold suite_of. stable. Qed.
Lemma base_the_hello b : stable base (the_hello b).
Proof. unfold the_hello. stable. Qed.
Lemma base_change_hello b f : stable base (change_hello b f).
Proof. unfold change_hello. stable. Qed.
Lemma base_check : stable base checkServerHelloOrHRR.
Proof. unfold checkServerHelloOrHRR, modify_layer, modify_conn. stable. Qed.
Lemma base_dummy : stable base sendDummyChangeCipherSpec.
Proof. unfold sendDummyChangeCipherSpec. stable. Qed.
Lemma base_accept : stable base accept_ech.
Proof. unfold accept_ech, modify_conn. stable. Qed.
Hint Resolve base_transcript base_read base_write_message base_unexpected base_suite_of base_the_hello base_change_hello base_check base_dummy base_accept : stable.
Lemma base_hrr_ech s h : stable base (hrr_ech s h).
Proof. unfold hrr_ech. stable. Qed.
Lemma base_hrr_key_share b id : stable base (hrr_key_share b id).
Proof. unfold hrr_key_share. stable. Qed.
Lemma base_hrr_psk s b h : stable base (hrr_psk now s b h).
Proof. unfold hrr_psk. stable. Qed.
Lemma base_hrr_utls : stable base (hrr_utls spare newPRNG_Intn).
Proof. unfold hrr_utls, splice_cookie. stable. Qed.
Lemma base_hrr_outer : stable base (hrr_outer spare useFallbackMode).
Proof. unfold hrr_outer. stable. Qed.
Hint Resolve base_hrr_ech base_hrr_key_share base_hrr_psk base_hrr_utls base_hrr_outer : stable.
Lemma base_hrr : stable base (processHelloRetryRequest now spare useFallbackMode newPRNG_Intn).
Proof. unfold processHelloRetryRequest, modify_conn. stable. Qed.
Lemma base_inner : stable base start_inner_transcript.
Proof. unfold start_inner_transcript. stable. Qed.
Lemma base_confirm : stable base confirm_ech.
Proof. unfold confirm_ech. stable. Qed.
Hint Resolve base_hrr base_inner base_confirm : stable.
Lemma base_start : stable base (start_handshake now spare useFallbackMode newPRNG_Intn).
Proof. unfold start_handshake. stable. Qed.

(** ** The steps of a successful handshake *)

(** The suite of the session has the hash of the one that was chosen. *)
Record resumes (v v' : view.t X) (sess : session.ptr X) : Prop := {
  rs_session : v.(view.session) = Some sess;
  rs_suite : exists s p, v.(view.suite) = Some s /\ cipherSuiteTLS13ByID sess.(session.state).(SessionState.cipherSuite) = Some p /\ hash_of p = hash_of s;
  rs_view : v' = view.set_usingPSK true (view.set_peer sess.(session.state).(SessionState.peerCertificates)
    (view.set_chains sess.(session.state).(SessionState.verifiedChains) v))
}.

Lemma processServerHello_ok hs hs' x : processServerHello hs = Ret (hs', inr x) ->
  same_view hs hs' \/ exists sess, resumes (view_of hs) (view_of hs') sess.
Proof.
  unfold processServerHello. intros H. estep H. do 5 (case_match; [by no_alert H|]). case_match; [left; by injection H as <-|].
  do 2 (case_match; [by no_alert H|]). destruct (session hs) as [sess|] eqn:Es; [|by no_alert H].
  destruct (cipherSuiteTLS13ByID _) as [p|] eqn:Ep; [|by no_alert H]. unfold suite_of in H. estep H. estep Hs. apply ederef_ok in Hs as [-> Hs].
  case_match eqn:Eh; [by no_alert H|]. apply negb_false_iff, bool_decide_eq_true_1 in Eh. right. exists sess.
  unfold resume, modify_conn in H. estep H. injection H as <- _. constructor; [exact Es| |done]. by exists a, p.
Qed.

Lemma same_dummy : stable same_view sendDummyChangeCipherSpec.
Proof. unfold sendDummyChangeCipherSpec. stable. Qed.

Lemma same_log l sec : stable same_view (log_secret hk l sec).
Proof.
  unfold log_secret. apply stable_bind; [apply _|stable|]. intros hs. apply stable_bind; [apply _| |stable].
  apply (stable_zoom _ (fun c c' => exists l, c' = tlsConn.set_keyLog l c)); [by intros h t [l' ->]|]. apply stable_caught, logged.
Qed.

(** The record layer with new secrets. *)
Lemma set_out_ok s l sec hs hs' x : set_out_secret newAead s l sec hs = Ret (hs', inr x) -> view_of hs' = view.set_secret_out sec (view_of hs).
Proof.
  unfold set_out_secret, modify_layer, modify_conn. intros H. estep H. estep H. injection H as <- _. unfold setTrafficSecret in Hs.
  ostep Hs. case_match. ostep Hs. by injection Hs as <-.
Qed.
Lemma set_in_ok s l sec hs hs' x : set_in_secret newAead s l sec hs = Ret (hs', inr x) -> view_of hs' = view.set_secret_in sec (view_of hs).
Proof.
  unfold set_in_secret, modify_layer, modify_conn. intros H. estep H. estep H. injection H as <- _. unfold setTrafficSecret in Hs.
  ostep Hs. case_match. ostep Hs. by injection Hs as <-.
Qed.

Lemma suite_of_ok hs hs' s : suite_of hs = Ret (hs', inr s) -> hs' = hs /\ hs.(suite) = Some s.
Proof. unfold suite_of. intros H. estep H. by apply ederef_ok in H. Qed.
Lemma master_of_ok hs hs' s : master_of hs = Ret (hs', inr s) -> hs' = hs /\ hs.(masterSecret) = Some s.
Proof. unfold master_of. intros H. estep H. by apply ederef_ok in H. Qed.

(** The secrets of the handshake: from the early secret and what both sides share. *)
Record handshake_secrets (v : view.t X) (s : cipherSuiteTLS13.t) (sharedKey : bytes) (h : tls13.HandshakeSecret) (sec_c sec_s : bytes) (ms : tls13.MasterSecret) : Prop := {
  hsec_suite : v.(view.suite) = Some s;
  hsec_secret : exists early, (if v.(view.usingPSK) then v.(view.earlySecret) = Some early else early = tls13.NewEarlySecret (hash_of s) None) /\
    tls13.EarlySecret_HandshakeSecret early sharedKey = Ret h;
  hsec_client : tls13.ClientHandshakeTrafficSecret h v.(view.transcript) = Ret sec_c;
  hsec_server : tls13.ServerHandshakeTrafficSecret h v.(view.transcript) = Ret sec_s;
  hsec_master : tls13.HandshakeSecret_MasterSecret h = Ret ms
}.

Lemma same_shared share keys : stable same_view (shared_key share keys).
Proof. unfold shared_key, ecdhe_peer_data, hybrid_ecdhe, shared_or_fail, getSharedKey, invalid_share. stable. Qed.

Lemma establish_ok hs hs' x : establishHandshakeKeys hk newAead hs = Ret (hs', inr x) ->
  exists s share keys sharedKey hs1 h sec_c sec_s ms, shared_key share keys hs = Ret (hs1, inr sharedKey) /\ hs.(keyShareKeys) = Some keys /\
    share = hs.(serverHello).(serverHelloMsg.serverShare) /\ handshake_secrets (view_of hs) s sharedKey h sec_c sec_s ms /\
    view_of hs' = view.set_master (Some ms) (view.set_secret_in sec_s (view.set_secret_out sec_c (view_of hs))).
Proof.
  unfold establishHandshakeKeys, modify_conn. intros H. estep H. estep H. estep H. pose proof (same_shared _ _ _ _ _ Hs0) as Hv. estep H.
  estep H. apply suite_of_ok in Hs1 as [-> Hsuite]. estep H.
  assert (s0 = set_c (tlsConn.set_curveID (keyShare.group (serverHelloMsg.serverShare (serverHello hs))) (c s)) s /\
    if hs.(usingPSK) then hs.(earlySecret) = Some a2 else a2 = tls13.NewEarlySecret (hash_of a1) None) as [-> He].
  { destruct (usingPSK hs); cbn in Hs1; [by apply ederef_ok in Hs1|by injection Hs1 as <- <-]. }
  estep H. estep H. estep H. apply set_out_ok in Hs4. estep H. estep H. apply set_in_ok in Hs6.
  estep H. apply same_log in Hs7. estep H. apply same_log in Hs8. estep H. injection H as <- _.
  exists a1, (serverHelloMsg.serverShare (serverHello hs)), a, a0, s, a3, a4, a6, a10. split; [done|]. split; [done|]. split; [done|].
  assert (Hsu : hs.(suite) = Some a1) by (apply (f_equal view.suite) in Hv; cbn in Hv; rewrite <- Hv; exact Hsuite).
  split; [by constructor; [|exists a2| | |]|].
  assert (forall m z, view_of (set_masterSecret m z) = view.set_master m (view_of z)) as -> by done. unfold same_view in *. rewrite Hs8, Hs7, Hs6, Hs4, <- Hv. done.
Qed.

(** The parameters. *)
Hint Extern 4 (grow _ _) => (apply same_grow; done) : stable.
Lemma grow_parameters : stable grow (readServerParameters hk).
Proof.
  unfold readServerParameters, process_parameters, check_early_data, check_retry_configs, utlsReadServerParameters, modify_conn. stable.
Qed.

(** The certificate and the signature. *)
Lemma grow_after_request : stable grow after_request.
Proof. unfold after_request. stable. Qed.
Lemma grow_objects : stable grow (on_uconn (Session.bind (Session.get Exts) objects)).
Proof. apply grow_same, same_uconn. Qed.
Lemma grow_decompress m : stable grow (decompressCert m).
Proof. unfold decompressCert. stable. Qed.
Hint Resolve grow_objects grow_decompress : stable.
Lemma grow_certificate_message msg : stable grow (certificate_message msg).
Proof. unfold certificate_message, utlsReadServerCertificate. stable. Qed.

(** A signature of the leaf over the transcript [t], with a scheme that TLS 1.3
    allows. *)
Record signed_by (s : cipherSuiteTLS13.t) (leaf : certificate) (t : bytes) (certVerify : certificateVerifyMsg.t) : Prop := {
  sg_supported : isSupportedSignatureAlgorithm certVerify.(certificateVerifyMsg.signatureAlgorithm) supportedSignatureAlgorithms = true;
  sg_valid : exists sigType sigHash signed,
    typeAndHashFromSignatureScheme certVerify.(certificateVerifyMsg.signatureAlgorithm) = inr (sigType, sigHash) /\ modern sigType sigHash /\
    signedMessage sigHash serverSignatureContext (hash_of s) t = Ret signed /\
    verifyHandshakeSignature sigType (x509_PublicKey leaf) sigHash signed certVerify.(certificateVerifyMsg.signature) = None
}.

Lemma verify_signature_ok certVerify hs hs' x : verify_signature certVerify hs = Ret (hs', inr x) ->
  hs' = hs /\ exists s leaf, hs.(suite) = Some s /\ head hs.(c).(tlsConn.peerCertificates) = Some leaf /\ signed_by s leaf hs.(transcript) certVerify.
Proof.
  unfold verify_signature. intros H. destruct (isSupportedSignatureAlgorithm _ _) eqn:Ea; [|by no_alert H]. cbn [negb] in H.
  destruct (typeAndHashFromSignatureScheme _) as [|[t h]] eqn:Et; [by no_alert H|]. case_match eqn:Em; [by no_alert H|].
  apply orb_false_iff in Em as [E1 E2]. estep H. apply suite_of_ok in Hs as [-> Hs]. estep H. estep H. estep H.
  destruct (verifyHandshakeSignature _ _ _ _ _) eqn:Ev; [by no_alert H|]. injection H as <- _. split; [done|]. exists a, a1.
  split; [done|]. split; [done|]. constructor; [done|]. exists t, h, a0. repeat split; try done; [by apply Z.eqb_neq|by eapply bool_decide_eq_false_1].
Qed.

Lemma transcript_msg_ok m hs hs' x : transcript_msg m hs = Ret (hs', inr x) ->
  exists b, transcriptMsg m = Ret (inr b) /\ hs' = set_transcript (hs.(transcript) ++ b) hs.
Proof.
  unfold transcript_msg, hashed, write_transcript. intros H. estep H. estep Hs. apply eres_ok in Hs as [-> Hs]. injection H as <- _.
  exists a. split; [congruence|done].
Qed.

(** The server proved to have the key of a certificate that is verified; the
    signature covers all that was said up to it. *)
Record certified (v v' : view.t X) : Prop := {
  ct_proof : exists s leaf rest chains certificates cn w certVerify b,
    v.(view.suite) = Some s /\ config cn = v.(view.cfg) /\ cn.(tlsConn.echAccepted) = v.(view.accepted) /\
    verified hk now cn certificates leaf rest chains /\ signed_by s leaf (v.(view.transcript) ++ w) certVerify /\
    transcriptMsg (CertificateVerify certVerify) = Ret (inr b) /\
    v' = view.set_transcript ((v.(view.transcript) ++ w) ++ b) (view.set_peer (leaf :: rest) (view.set_chains chains v))
}.

Lemma grow_trans hs hs1 hs2 : grow hs hs1 -> grow hs1 hs2 -> grow hs hs2.
Proof. apply transitivity. Qed.

Lemma readServerCertificate_ok hs hs' x : readServerCertificate hk now hs = Ret (hs', inr x) ->
  if hs.(usingPSK) then same_view hs hs' else certified (view_of hs) (view_of hs').
Proof.
  unfold readServerCertificate. intros H. estep H. destruct (usingPSK hs).
  { apply zoom_ok in H as (cn & H & ->). apply callback_ok in H as [-> _]. done. }
  estep H. apply grow_after_request in Hs. estep H. apply grow_certificate_message in Hs0. pose proof (grow_trans _ _ _ Hs Hs0) as [w Hw].
  clear Hs Hs0. unfold modify_conn in H. estep H. estep H. apply zoom_ok in Hs as (cn & Hv & ->). cbn [c set_c] in Hv.
  apply verifyServerCertificate_ok in Hv as (leaf & rest & chains & Hv & ->). estep H. apply read_quietly in Hs. destruct a2 as [| | | | | | | | | | | | |cv| | | | | |]; try by no_alert H.
  estep H. apply verify_signature_ok in Hs0 as (-> & sx & leaf' & Hsu & Hl & Hsig). apply transcript_msg_ok in H as (b & Hb & ->).
  unfold same_view in Hs. injection Hw as Hw1 Hw2 Hw3 Hw4 Hw5 Hw6 Hw7 Hw8 Hw9 Hw10 Hw11 Hw12 Hw13 Hw14 Hw15 Hw16. injection Hs as Hx1 Hx2 Hx3 Hx4 Hx5 Hx6 Hx7 Hx8 Hx9 Hx10 Hx11 Hx12 Hx13 Hx14 Hx15 Hx16.
  cbn in *. rewrite Hx6 in Hl. injection Hl as <-. constructor.
  match type of Hv with verified _ _ ?cn ?ce _ _ _ => exists sx, leaf, rest, chains, ce, cn, w, cv, b end.
  split; [cbn; congruence|]. split; [exact Hw12|]. split; [exact Hw13|]. split; [exact Hv|].
  split; [cbn; by rewrite <- Hw2, <- Hx2|]. split; [exact Hb|]. unfold view_of, config, view.set_transcript, view.set_peer, view.set_chains in *. cbn in *. f_equal; congruence.
Qed.

(** The Finished message of the server, over all that was said before it, and the
    secrets that it leads to. *)
Record finished (v v' : view.t X) : Prop := {
  fn_proof : exists s ms fin b sec_c sec_s,
    v.(view.suite) = Some s /\ v.(view.master) = Some ms /\ finishedHash s v.(view.secret_in) v.(view.transcript) = Ret fin /\
    transcriptMsg (Finished (finishedMsg.Mk fin)) = Ret (inr b) /\
    tls13.ClientApplicationTrafficSecret ms (v.(view.transcript) ++ b) = Ret sec_c /\
    tls13.ServerApplicationTrafficSecret ms (v.(view.transcript) ++ b) = Ret sec_s /\
    v' = view.set_ekm (Some (ekm13 ms (v.(view.transcript) ++ b))) (view.set_secret_in sec_s (view.set_traffic sec_c
           (view.set_transcript (v.(view.transcript) ++ b) v)))
}.

Lemma readServerFinished_ok hs hs' x : readServerFinished hk newAead hs = Ret (hs', inr x) -> finished (view_of hs) (view_of hs').
Proof.
  unfold readServerFinished, modify_conn. intros H. estep H. apply read_quietly in Hs. unfold same_view in Hs.
  destruct a as [| | | | | | | | | | | | | |fm| | | | |]; try by no_alert H.
  estep H. apply suite_of_ok in Hs0 as [-> Hsu]. estep H. estep H. case_match eqn:Ef; [by no_alert H|].
  apply negb_false_iff, bool_decide_eq_true_1 in Ef. estep H. apply transcript_msg_ok in Hs1 as (b & Hb & ->).
  estep H. apply master_of_ok in Hs1 as [-> Hms]. estep H. estep H. estep H. estep H. estep H. apply set_in_ok in Hs3. estep H. apply same_log in Hs4.
  estep H. apply same_log in Hs5. injection H as <- _. rewrite <- Hs. constructor. exists a, a2, a0, b, a3, a4. destruct fm as [fin]. cbn in Ef. subst fin.
  split; [exact Hsu|]. split; [exact Hms|]. split; [exact Hs0|]. split; [exact Hb|]. split; [exact Hs1|]. split; [exact Hs2|].
  assert (forall e z, view_of (set_c (tlsConn.set_ekm e (c z)) z) = view.set_ekm e (view_of z)) as -> by done.
  unfold same_view in *. by rewrite Hs5, Hs4, Hs3.
Qed.

Hint Resolve layer_getClientCertificate : stable.
Lemma grow_client_certificate : stable grow (sendClientCertificate hk).
Proof. unfold sendClientCertificate, send_certificate_verify, suite_of. stable. Qed.
Lemma grow_extensions : stable grow serverFinishedReceived.
Proof. unfold serverFinishedReceived, sendClientEncryptedExtensions, conn_field. stable. Qed.
Lemma same_rejected : stable same_view check_rejected.
Proof. unfold check_rejected. stable. Qed.

Lemma sendClientFinished_ok hs hs' x : sendClientFinished newAead hs = Ret (hs', inr x) ->
  exists w, view_of hs' = view.set_secret_out hs.(trafficSecret) (view.set_transcript (hs.(transcript) ++ w) (view_of hs)).
Proof.
  unfold sendClientFinished, modify_conn. intros H. estep H. apply suite_of_ok in Hs as [-> _]. estep H. estep H. estep H.
  apply grow_write_message in Hs0 as [w Hw]. estep H. estep H. apply set_out_ok in Hs0.
  assert (view_of hs' = view_of s0) as ->.
  { unfold when in H. case_match; [|by injection H as <-]. estep H. apply master_of_ok in Hs1 as [-> _]. estep H. by injection H as <- _. }
  exists w. rewrite Hs0, Hw. apply (f_equal view.traffic) in Hw. cbn in Hw. by rewrite Hw.
Qed.

(** The rest: the client answers and uses its own secret. *)
Lemma finish_ok hs hs' x : finish_handshake hk newAead hs = Ret (hs', inr x) ->
  exists w, view_of hs' = view.set_complete true (view.set_secret_out hs.(trafficSecret) (view.set_transcript (hs.(transcript) ++ w) (view_of hs))).
Proof.
  unfold finish_handshake, modify_layer, modify_conn. intros H. estep H. apply grow_extensions in Hs. estep H. apply grow_client_certificate in Hs0.
  pose proof (grow_trans _ _ _ Hs Hs0) as [w1 H1]. estep H. apply sendClientFinished_ok in Hs1 as [w2 H2]. estep H.
  apply (same_onc _ layer_flush) in Hs1. estep H. apply same_rejected in Hs2. injection H as <- _. unfold same_view in *.
  assert (forall b z, view_of (set_c (tlsConn.set_conn (Conn.set_isHandshakeComplete b (tlsConn.conn (c z))) (c z)) z) =
    view.set_complete b (view_of z)) as -> by done.
  exists (w1 ++ w2). rewrite Hs2, Hs1, H2, H1, app_assoc. apply (f_equal view.transcript) in H1 as Ht. apply (f_equal view.traffic) in H1 as Hr.
  cbn in Ht, Hr. by rewrite Ht, Hr.
Qed.

(** ** Authentication *)

(** Who the server is: it knows the pre-shared key of the session, or it has signed
    the transcript [t0 ++ w] with the key of a verified certificate; [t1] is what
    was said up to the Finished message. *)
Definition identified hs (v' : view.t X) (s : cipherSuiteTLS13.t) (t0 t1 : bytes) : Prop :=
  if v'.(view.usingPSK) then
    exists sess p, hs.(session) = Some sess /\ cipherSuiteTLS13ByID sess.(session.state).(SessionState.cipherSuite) = Some p /\ hash_of p = hash_of s /\
      v'.(view.peer) = sess.(session.state).(SessionState.peerCertificates) /\ v'.(view.chains) = sess.(session.state).(SessionState.verifiedChains) /\
      exists w, t1 = t0 ++ w
  else
    exists leaf rest certificates cn w certVerify b,
      config cn = config hs.(c) /\ cn.(tlsConn.echAccepted) = v'.(view.accepted) /\
      verified hk now cn certificates leaf rest v'.(view.chains) /\ v'.(view.peer) = leaf :: rest /\
      signed_by s leaf (t0 ++ w) certVerify /\ transcriptMsg (CertificateVerify certVerify) = Ret (inr b) /\ t1 = (t0 ++ w) ++ b.

Record authenticated hs hs' : Prop := {
  au_proof : exists s hello share keys hs1 hs2 sharedKey early h ms t0 t1 fin b2 sec,
    hs'.(suite) = Some s /\
    (* the transcript of the hellos ends with the ServerHello, whose share gives the shared key *)
    transcriptMsg (ServerHello hello) = Ret (inr share) /\ (exists pre, t0 = pre ++ share) /\
    shared_key hello.(serverHelloMsg.serverShare) keys hs1 = Ret (hs2, inr sharedKey) /\
    (* the key schedule *)
    (if hs'.(usingPSK) then hs.(earlySecret) = Some early else early = tls13.NewEarlySecret (hash_of s) None) /\
    tls13.EarlySecret_HandshakeSecret early sharedKey = Ret h /\ tls13.HandshakeSecret_MasterSecret h = Ret ms /\
    tls13.ServerHandshakeTrafficSecret h t0 = Ret sec /\
    identified hs (view_of hs') s t0 t1 /\
    (* the Finished message of the server *)
    finishedHash s sec t1 = Ret fin /\ transcriptMsg (Finished (finishedMsg.Mk fin)) = Ret (inr b2) /\
    (* the secrets in use *)
    tls13.ServerApplicationTrafficSecret ms (t1 ++ b2) = Ret (view_of hs').(view.secret_in) /\
    tls13.ClientApplicationTrafficSecret ms (t1 ++ b2) = Ret (view_of hs').(view.secret_out) /\
    (view_of hs').(view.ekm) = Some (ekm13 ms (t1 ++ b2))
}.

(** What comes after the hellos. *)
Lemma after_hellos hs0 hs1 hs2 hs3 hs4 s (w1 : bytes) x : hs0.(usingPSK) = false ->
  same_view hs0 hs1 \/ (exists sess, resumes (view_of hs0) (view_of hs1) sess) ->
  forall sharedKey h sec_c sec_s ms, handshake_secrets (view_of hs1) s sharedKey h sec_c sec_s ms ->
  view_of hs2 = view.set_master (Some ms) (view.set_secret_in sec_s (view.set_secret_out sec_c (view_of hs1))) ->
  view_of hs3 = view.set_transcript (hs2.(transcript) ++ w1) (view_of hs2) ->
  readServerCertificate hk now hs3 = Ret (hs4, inr x) ->
  exists t1, view_of hs4 = view.set_transcript t1 (view.set_peer (view_of hs4).(view.peer) (view.set_chains (view_of hs4).(view.chains)
      (view.set_usingPSK (view_of hs4).(view.usingPSK) (view.set_master (Some ms) (view.set_secret_in sec_s (view.set_secret_out sec_c (view_of hs0))))))) /\
    (view_of hs1).(view.usingPSK) = (view_of hs4).(view.usingPSK) /\ identified hs0 (view_of hs4) s hs0.(transcript) t1.
Proof.
  intros Hp Hps sharedKey h sec_c sec_s ms [Hsu _ _ _ _] H2 H3 H4.
  assert (Hu : hs3.(usingPSK) = hs1.(usingPSK)) by (by apply (f_equal view.usingPSK) in H2, H3; cbn in H2, H3; congruence).
  assert (Ht : hs2.(transcript) = hs1.(transcript)) by (apply (f_equal view.transcript) in H2; exact H2).
  apply readServerCertificate_ok in H4. destruct Hps as [H1|(sess & [Hss (s' & p & Hsu' & Hpe & Hh) Hv])].
  - assert (hs1.(usingPSK) = false) as Hu1 by (apply (f_equal view.usingPSK) in H1; cbn in H1; congruence).
    rewrite Hu, Hu1 in H4. destruct H4 as [(s1 & leaf & rest & chains & cs & cn & w & cv & b & Hs1 & Hc & Ha & Hver & Hsg & Hb & Hv)].
    unfold same_view in H1. rewrite H3, H2, H1 in *. cbn in Hc, Ha, Hs1, Hsg, Hv, Hsu. rewrite Ht in *.
    assert (Ht1 : hs1.(transcript) = hs0.(transcript)) by (apply (f_equal view.transcript) in H1; exact H1). rewrite Ht1 in *.
    rewrite Hsu in Hs1. injection Hs1 as <-. eexists. split; [rewrite Hv; reflexivity|]. split; [by rewrite Hv|]. unfold identified. rewrite Hv. cbn. rewrite Hp.
    exists leaf, rest, cs, cn, (w1 ++ w), cv, b. split; [exact Hc|]. split; [exact Ha|]. split; [exact Hver|]. split; [done|].
    rewrite (app_assoc hs0.(transcript)). done.
  - assert (hs1.(usingPSK) = true) as Hu1 by (by apply (f_equal view.usingPSK) in Hv). rewrite Hu, Hu1 in H4.
    unfold same_view in H4. rewrite H4, H3, H2, Hv, Ht. cbn in Hss, Hsu'. rewrite Hv in Hsu. cbn in Hsu. rewrite Hsu in Hsu'. injection Hsu' as <-.
    assert (Ht1 : hs1.(transcript) = hs0.(transcript)) by (apply (f_equal view.transcript) in Hv; exact Hv). rewrite Ht1.
    eexists. split; [reflexivity|]. split; [done|]. unfold identified. cbn. exists sess, p. do 5 (split; [done|]). by exists w1.
Qed.

Lemma start_ok hs hs0 x : start_handshake now spare useFallbackMode newPRNG_Intn hs = Ret (hs0, inr x) ->
  exists pre b, transcriptMsg (ServerHello hs0.(serverHello)) = Ret (inr b) /\ hs0.(transcript) = pre ++ b.
Proof.
  unfold start_handshake. intros H. estep H. do 2 (case_match; [by no_alert H|]). do 7 estep H.
  apply transcript_msg_ok in H as (b & Hb & ->). eexists _, b. split; [exact Hb|reflexivity].
Qed.

(** What a successful handshake has checked. *)
Lemma success_authenticates hs hs' x : hs.(usingPSK) = false ->
  handshake hk now newAead spare useFallbackMode newPRNG_Intn hs = Ret (hs', inr x) ->
  authenticated hs hs'.
Proof.
  intros Hp H. unfold handshake in H. estep H. apply base_start in Hs as Hb. destruct Hb as (Hp0 & Hss & Hes & Hcfg & _).
  apply start_ok in Hs as (pre & share & Hshare & Hpre). unfold modify_layer, modify_conn in H. estep H. estep H. apply processServerHello_ok in Hs.
  estep H. apply same_dummy in Hs0. estep H. apply establish_ok in Hs1 as (su & sh & keys & sharedKey & hs1 & h & sec_c & sec_s & ms & Hk & _ & -> & Hsec & Hv).
  estep H. apply grow_parameters in Hs1 as [w1 Hw]. estep H.
  match type of Hs with same_view ?z _ \/ _ => change (view_of z) with (view_of s) in Hs; unfold same_view in Hs; change (view_of z) with (view_of s) in Hs end.
  unfold same_view in Hs0. rewrite <- Hs0 in Hs. destruct (after_hellos s s1 s2 s3 s4 su w1 a4) with (sharedKey := sharedKey) (h := h) (sec_c := sec_c) (sec_s := sec_s) (ms := ms)
    as (t1 & H4 & Hpsk & Hid); [congruence|exact Hs|exact Hsec|exact Hv|exact Hw|exact Hs1|]. destruct Hsec as [Hsu (early & He & Hh) _ Hss' Hms].
  estep H. apply readServerFinished_ok in Hs2 as [(su' & ms' & fin & b2 & sc & ss & Hsu' & Hms' & Hfin & Hb2 & Hc & Hsv & Hv5)]. apply finish_ok in H as [w H].
  assert (Hview : view_of hs' = view.set_complete true (view.set_secret_out sc (view.set_transcript (((view_of s4).(view.transcript) ++ b2) ++ w) (view_of s5)))).
  { rewrite H. apply (f_equal view.transcript) in Hv5 as Ht. apply (f_equal view.traffic) in Hv5 as Htr. cbn in Ht, Htr. by rewrite Ht, Htr. }
  assert (Hid' : identified hs (view_of hs') su (transcript s) t1).
  { rewrite Hview, Hv5. unfold identified in Hid |- *. cbn in Hid |- *. by rewrite <- Hss, <- Hcfg. }
  rewrite H4 in Hsu', Hms', Hfin, Hc, Hsv. cbn in Hsu', Hms', Hfin, Hc, Hsv. injection Hms' as <-.
  assert (Hs1s : (view_of s1).(view.suite) = s.(suite) /\ (view_of s1).(view.transcript) = s.(transcript) /\ (view_of s1).(view.earlySecret) = s.(earlySecret) /\ (view_of s1).(view.sh) = s.(serverHello)).
  { destruct Hs as [->|(sess & [_ _ ->])]; done. }
  destruct Hs1s as (E1 & E2 & E3 & E4). rewrite E1 in Hsu. rewrite Hsu in Hsu'. injection Hsu' as <-. rewrite E2 in Hss'. rewrite E3, Hpsk in He. cbn in E4. rewrite E4 in Hk.
  constructor. exists su, (serverHello s), share, keys, s1, hs1, sharedKey, early, h, ms, (transcript s), t1, fin, b2, sec_s.
  assert (Hsx : suite hs' = Some su) by (apply (f_equal view.suite) in Hview; rewrite Hv5 in Hview; cbn in Hview; rewrite Hview; apply (f_equal view.suite) in H4; cbn in H4; congruence).
  assert (Hux : usingPSK hs' = (view_of s4).(view.usingPSK)) by (apply (f_equal view.usingPSK) in Hview; rewrite Hv5 in Hview; exact Hview).
  split; [exact Hsx|]. split; [exact Hshare|]. split; [by exists pre|]. split; [exact Hk|]. split; [rewrite Hux, <- Hes; exact He|].
  do 4 (split; [done|]). split; [exact Hfin|]. split; [exact Hb2|]. rewrite Hview, Hv5. cbn. apply (f_equal view.transcript) in H4. cbn in H4. by rewrite H4.
Qed.

(** C4: when the TLS 1.3 handshake of a client succeeds, the server has proved who
    it is: it knows the pre-shared key of the session that was offered, or its
    certificate is verified as configured and it has signed the transcript up to its
    signature with the key of that certificate, with a scheme that TLS 1.3 allows;
    its Finished message is the keyed hash, under its handshake secret, of all that
    was said before; and both directions use the application secrets that the key
    schedule derives from the shared key and the transcript up to that message. *)
Theorem client_authenticates hs hs' x : hs.(usingPSK) = false ->
  handshake hk now newAead spare useFallbackMode newPRNG_Intn hs = Ret (hs', inr x) ->
  authenticated hs hs'.
Proof. apply success_authenticates. Qed.

(** ** Completion *)

Hint Extern 4 (calm _ _) => done : stable.
Hint Extern 5 (stable calm (onc _)) => apply calm_grow, grow_same, same_onc : stable.
Hint Extern 5 (stable calm (on_uconn _)) => apply calm_grow, grow_same, same_uconn : stable.
Hint Extern 5 (stable calm (on_ech _)) => apply calm_grow, grow_same, same_ech : stable.
Lemma calm_suite_of : stable calm suite_of.
Proof. apply calm_base, base_suite_of. Qed.
Lemma calm_master_of : stable calm master_of.
Proof. unfold master_of. stable. Qed.
Lemma calm_set_out s l sec : stable calm (set_out_secret newAead s l sec).
Proof. unfold set_out_secret, modify_layer, modify_conn. stable. Qed.
Lemma calm_set_in s l sec : stable calm (set_in_secret newAead s l sec).
Proof. unfold set_in_secret, modify_layer, modify_conn. stable. Qed.
Lemma calm_log l sec : stable calm (log_secret hk l sec).
Proof. apply calm_grow, grow_same, same_log. Qed.
Lemma calm_read b : stable calm (read_message b).
Proof. apply calm_grow, grow_read. Qed.
Lemma calm_write m : stable calm (write_message m).
Proof. apply calm_grow, grow_write_message. Qed.
Lemma calm_transcript m : stable calm (transcript_msg m).
Proof. apply calm_grow, grow_transcript. Qed.
Lemma calm_unexpected {A} : stable calm (unexpected (A := A)).
Proof. apply calm_grow, grow_unexpected. Qed.
Hint Resolve calm_suite_of calm_master_of calm_set_out calm_set_in calm_log calm_read calm_write calm_transcript calm_unexpected : stable.

Lemma calm_processServerHello : stable calm processServerHello.
Proof. unfold processServerHello, resume, modify_conn. stable. Qed.
Lemma calm_establish : stable calm (establishHandshakeKeys hk newAead).
Proof.
  pose proof (fun s k => calm_grow _ (grow_same _ (same_shared s k))). unfold establishHandshakeKeys, modify_conn. stable.
Qed.
Lemma calm_certificate : stable calm (readServerCertificate hk now).
Proof.
  pose proof (calm_grow _ grow_after_request). pose proof (fun m => calm_grow _ (grow_certificate_message m)).
  assert (forall l, stable calm (onc (verifyServerCertificate hk now l))).
  { intros l. apply (stable_zoom _ (fun c c' => c'.(tlsConn.conn).(Conn.isHandshakeComplete) = c.(tlsConn.conn).(Conn.isHandshakeComplete))); [done|].
    apply stable_verify; [split; [done|]; intros ???; congruence|by intros ?? (k & [Hk] & ->)|done|done]. }
  assert (forall A (f : option A) g, stable calm (onc (callback f g))).
  { intros. apply calm_grow, grow_same, same_onc, (stable_callback layer); done. }
  unfold readServerCertificate, verify_signature, modify_conn. stable.
Qed.
Lemma calm_finished : stable calm (readServerFinished hk newAead).
Proof. unfold readServerFinished, modify_conn. stable. Qed.
Lemma calm_send_finished : stable calm (sendClientFinished newAead).
Proof. unfold sendClientFinished, modify_conn. stable. Qed.

(** The flag of the connection after the handshake. *)
Lemma complete_result hs hs' r : (view_of hs).(view.complete) = false ->
  handshake hk now newAead spare useFallbackMode newPRNG_Intn hs = Ret (hs', r) ->
  (view_of hs').(view.complete) = match r with inr _ => true | inl _ => false end.
Proof.
  intros Hc H. destruct r as [e|x].
  - rewrite <- Hc. revert e H.
    assert (Hs : stable calm (start_handshake now spare useFallbackMode newPRNG_Intn)) by apply calm_base, base_start.
    pose proof calm_processServerHello. pose proof (calm_base _ base_dummy). pose proof calm_establish. pose proof (calm_grow _ grow_parameters).
    pose proof calm_certificate. pose proof calm_finished. pose proof (calm_grow _ grow_extensions). pose proof (calm_grow _ grow_client_certificate).
    pose proof calm_send_finished. pose proof (calm_grow _ (grow_same _ same_rejected)).
    assert (Hb : forall {A B} (m : E hs_t A) (k : A -> E hs_t B) hs hs' e, stable calm m -> (forall a hs1, k a hs1 = Ret (hs', inl e) -> calm hs1 hs') ->
      mbind k m hs = Ret (hs', inl e) -> calm hs hs').
    { intros A B m k h1 h2 e Hm Hk [(e' & Hm' & _)|(h3 & a & Hm1 & Hm2)]%ebind_inv; [by eapply Hm|]. etrans; [by eapply Hm|by eapply Hk]. }
    intros e. unfold handshake, finish_handshake, modify_layer, modify_conn.
    repeat (apply Hb; [by stable|intros ??]). done.
  - unfold handshake in H. do 8 estep H. apply finish_ok in H as [w ->]. done.
Qed.

(** The handshake of a TLS 1.3 client is complete exactly when it has succeeded:
    if it fails, at whatever step, the flag of the connection stays as it was. *)
Theorem complete_iff_success hs hs' r : (view_of hs).(view.complete) = false ->
  handshake hk now newAead spare useFallbackMode newPRNG_Intn hs = Ret (hs', r) ->
  (view_of hs').(view.complete) = match r with inr _ => true | inl _ => false end.
Proof. apply complete_result. Qed.

(** ** Two defects *)

(** A hello can say that early data follows on a connection without QUIC; when the
    server refuses the early data, or accepts it without a session (the inner hello of
    Encrypted ClientHello keeps the mark then), the client dereferences nil. *)
Lemma early_data_panics hs ee : hs.(hello).(clientHelloMsg.earlyData) = true -> hs.(session) = None \/ ee.(encryptedExtensionsMsg.earlyData) = false ->
  check_early_data ee hs = Panic.
Proof.
  intros H1 H2. unfold check_early_data, mbind, E_bind, ebind, state. cbn [obind]. rewrite H1.
  destruct (encryptedExtensionsMsg.earlyData ee) eqn:E; cbn; [|done]. destruct H2 as [->|]; done.
Qed.

(** When a HelloRetryRequest accepts Encrypted ClientHello, the new key share goes
    into the inner hello, and [hrr_utls], which comes next, copies the old shares
    of the outer hello, none of which is of the requested group. *)
Lemma retry_shares_stale id hs hs' x : hrr_key_share true id hs = Ret (hs', inr x) ->
  hs'.(hello).(clientHelloMsg.keyShares) = hs.(hello).(clientHelloMsg.keyShares) /\
  Forall (fun ks => ks.(keyShare.group) <> id) hs'.(hello).(clientHelloMsg.keyShares).
Proof.
  unfold hrr_key_share. intros H. estep H. estep H. unfold the_hello in Hs. estep Hs. estep Hs. apply ederef_ok in Hs as [-> _].
  case_match; [by no_alert H|]. destruct (List.existsb _ (clientHelloMsg.keyShares (hello hs))) eqn:Ex; [by no_alert H|]. case_match; [by no_alert H|].
  estep H. destruct a1 as [|key]; [by no_alert H|]. estep H. injection H as <- _. cbn.
  assert (Hh : hello s = hello hs) by (apply zoom_ok in Hs as (cn & _ & ->); done). rewrite Hh. split; [done|].
  apply Forall_forall. intros ks Hin He. apply not_true_iff_false in Ex. apply Ex, List.existsb_exists. exists ks. split; [by apply list_elem_of_In|by apply Z.eqb_eq].
Qed.

End Facts.

(** * Example *)

Definition toy_decompressors : Decompressors := {|
  brotli_Read b n := (take (Z.to_nat n) b, None);
  zlib_NewReader _ := inl EOF;
  zstd_NewReader _ := inl EOF
|}.
Definition toy_newAead (s : cipherSuiteTLS13.t) (key iv : bytes) : outcome aead := Ret (xorNonceAEAD (Cs := toy_ciphers) iv (be_val key mod 65536)).
#[local] Existing Instance plain_x509.
#[local] Existing Instance plain_verify.
#[local] Existing Instance toy_keys.
#[local] Existing Instance Reference.ops.
#[local] Existing Instance toy_hash.
#[local] Existing Instance toy_x509_keys.
#[local] Existing Instance toy_chains.
#[local] Existing Instance toy_exchange.
#[local] Existing Instance toy_decompressors.

Definition example_suite : cipherSuiteTLS13.t := cipherSuiteTLS13.Mk TLS_AES_128_GCM_SHA256 16 aeadAESGCMTLS13 SHA256.
Definition example_share : bytes := replicate 32 x09.
Definition example_client_hello : clientHelloMsg.t :=
  clientHelloMsg.set_keyShares [keyShare.Mk X25519 (replicate 32 x05)]
    (clientHelloMsg.set_supportedVersions [VersionTLS13] (clientHelloMsg.set_cipherSuites [TLS_AES_128_GCM_SHA256] toy_client_hello)).
Definition example_server_hello : serverHelloMsg.t :=
  serverHelloMsg.set_serverShare (keyShare.Mk X25519 example_share)
    (serverHelloMsg.set_supportedVersion VersionTLS13 (serverHelloMsg.set_cipherSuite TLS_AES_128_GCM_SHA256 toy_server_hello)).

(** The messages of the server: its parameters, a certificate, a signature and its
    Finished message; each is over what was said before. *)
Definition example_t0 : bytes := bytes_of (ClientHello example_client_hello) ++ bytes_of (ServerHello example_server_hello).
Definition example_secret : tls13.HandshakeSecret :=
  get_or (tls13.MkHandshake [] SHA256) (tls13.EarlySecret_HandshakeSecret (tls13.NewEarlySecret SHA256 None)
    (default [] (toy_ecdh (replicate 32 x05) example_share))).
Definition server_secret : bytes := get_or [] (tls13.ServerHandshakeTrafficSecret example_secret example_t0).
Definition example_parameters : handshakeMessage :=
  EncryptedExtensions (encryptedExtensionsMsg.Mk [] None false None (utlsEncryptedExtensionsMsgExtraFields.Mk [] 0 [])).
Definition example_certificate : handshakeMessage := CertificateTLS13 (certificateMsgTLS13.Mk (Certificate.Mk [[x01]] None None) false false).
Definition example_t1 : bytes := example_t0 ++ bytes_of example_parameters ++ bytes_of example_certificate.
Definition example_signature : handshakeMessage :=
  CertificateVerify (certificateVerifyMsg.Mk true ECDSAWithP256AndSHA256 (get_or [] (signedMessage (CryptoHash SHA256) serverSignatureContext SHA256 example_t1))).
Definition example_finished : handshakeMessage :=
  Finished (finishedMsg.Mk (get_or [] (finishedHash example_suite server_secret (example_t1 ++ bytes_of example_signature)))).

Definition server_flight : bytes :=
  match setTrafficSecret toy_newAead example_suite QUICEncryptionLevelHandshake server_secret (plain_half VersionTLS13) with
  | Ret out => (send_messages [example_parameters; example_certificate; example_signature; example_finished] (example_layer VersionTLS13 [] out false)).(Conn.conn).(net.sent)
  | Panic => []
  end.

Definition example_hs : clientHandshakeStateTLS13.t (I := lru_cache _) :=
  clientHandshakeStateTLS13.Mk
    (tlsConn.Mk (example_layer VersionTLS13 [(server_flight, None)] (plain_half VersionTLS13) true) [] 0 false false false false [] [] [] None None None None false [] [] false
       (utlsConnExtraFields.Mk [] [] 0) None [] 0%nat)
    example_server_hello example_client_hello (Some (keySharePrivateKeys.Mk toy_keys X25519 (Some (replicate 32 x05)) None None))
    None None [] None false false None [] None [] None None.
Abbreviation example_handshake := (handshake (S := toy_signing toy_keys) toy_hooks 0 toy_newAead (fun _ => []) false (fun _ => inr 0)).
Example handshake_works : match example_handshake example_hs with Ret (_, inr tt) => true | _ => false end = true.
Proof. vm_compute. reflexivity. Qed.

Lemma client_authenticates_witness : exists hs', example_handshake example_hs = Ret (hs', inr tt) /\
  authenticated (S := toy_signing toy_keys) toy_hooks 0 example_hs hs'.
Proof.
  pose proof handshake_works as H. destruct (example_handshake example_hs) as [|[hs' [e|[]]]] eqn:E; [discriminate|discriminate|].
  exists hs'. split; [reflexivity|].
  apply (client_authenticates (S := toy_signing toy_keys) toy_hooks 0 toy_newAead (fun _ => []) false (fun _ => inr 0) example_hs hs' tt); [reflexivity|exact E].
Defined.

(** The same with a server that is gone after its hello. *)
Definition cut_off : clientHandshakeStateTLS13.t (I := lru_cache _) :=
  clientHandshakeStateTLS13.set_c (tlsConn.set_conn (example_layer VersionTLS13 [] (plain_half VersionTLS13) true) example_hs.(clientHandshakeStateTLS13.c)) example_hs.
Example cut_off_fails : match example_handshake cut_off with Ret (_, inl (Plain EOF)) => true | _ => false end = true.
Proof. vm_compute. reflexivity. Qed.
Lemma complete_iff_success_witness : exists hs1 hs2 e,
  example_handshake example_hs = Ret (hs1, inr tt) /\ (view_of hs1).(view.complete) = true /\
  example_handshake cut_off = Ret (hs2, inl e) /\ (view_of hs2).(view.complete) = false.
Proof.
  pose proof handshake_works as H. destruct (example_handshake example_hs) as [|[hs1 [e|[]]]] eqn:E; [discriminate|discriminate|].
  pose proof cut_off_fails as H2. destruct (example_handshake cut_off) as [|[hs2 [e|[]]]] eqn:E2; [discriminate| |discriminate].
  exists hs1, hs2, e. split; [reflexivity|]. split; [|split; [reflexivity|]].
  - exact (complete_iff_success (S := toy_signing toy_keys) toy_hooks 0 toy_newAead (fun _ => []) false (fun _ => inr 0) example_hs hs1 (inr tt) eq_refl E).
  - exact (complete_iff_success (S := toy_signing toy_keys) toy_hooks 0 toy_newAead (fun _ => []) false (fun _ => inr 0) cut_off hs2 (inl e) eq_refl E2).
Defined.
