(* ===== verification/Client.v ===== *)
(** * The client: from the configuration to a connection

    Models the functions that run a handshake: [Conn.clientHandshake]
    (handshake_client.go), [UConn.clientHandshake] (u_handshake_client.go),
    [UConn.handshakeContext] and [UConn.handleRenegotiation] (u_conn.go).  A hello is
    made or taken from the connection, a session is loaded for it, it is sent, and the
    version in the answer decides whether Client12 or Client13 goes on.

    A [client] is a [UConn]: the embedded [Conn] and the rest.  [on_u] runs a method of
    the rest, which sees the fields of [Conn] that it uses.  The exported
    [HandshakeState] that is written back after the handshake is not modelled: no code
    of the library reads it again before it is overwritten. *)

From S2P Require Import Prelude Cryptobyte Common Config Negotiation Codec Buffer KeySchedule Record Names Messages RawMessages ServerHello ClientHello Ticket Caches Public Extensions Handshake Conn Suites ECH Marshal Shuffle Parrots Session Preset Auth KeyAgreement Apply Build Peer Client12 Client13.

Definition downgradeCanaryTLS12 : bytes := [x44; x4f; x57; x4e; x47; x52; x44; x01].
Definition downgradeCanaryTLS11 : bytes := [x44; x4f; x57; x4e; x47; x52; x44; x00].

Section Ops.
Context {C : Cryptobyte} {Cs : Ciphers} {B : BlockCiphers Cs} {K : Crypto} {Ks : Keys} {S : Signing Ks} {X : X509} {V : X509Verify X} {XK : X509Keys X S}
  {XC : X509Chains X S} {I : ClientSessionCache (session.ptr X)} {E_ : KeyExchange Ks} {D : Decompressors}.

(** The suites that are known, the rest of the configuration, the time, and the
    parameters of Build and of Client13. *)
Context (supported : list cipherSuite.t) (hk : hooks Ks S X XC) (now : Z)
  (spare : bytes -> bytes) (useFallbackMode hardware : bool) (newPRNG_Intn : Z -> res Z)
  (generateRandomizedSpec : ClientHelloID.t -> bytes -> list bytes -> ClientHelloID.t * outcome (res (@spec X))) (r_preset : parrot_rand).

Record client := MkClient { cn : tlsConn.t; un : Session.conn }.
Definition set_cn (v : tlsConn.t) (s : client) : client := MkClient v s.(un).
Definition set_un (v : Session.conn) (s : client) : client := MkClient s.(cn) v.

Definition on_c {A} (m : E tlsConn.t A) : E client A := zoom cn set_cn m.
Definition modify_c (f : tlsConn.t -> tlsConn.t) : E client unit := emodify (fun s => set_cn (f s.(cn)) s).
Definition modify_k (f : Conn.t reader -> Conn.t reader) : E client unit := modify_c (fun c => tlsConn.set_conn (f c.(tlsConn.conn)) c).

(** The fields of [Conn] as the methods of Session, Preset and Build see them. *)
Definition seen (s : client) : Session.conn :=
  let k := s.(cn).(tlsConn.conn) in
  let u := s.(un) in
  let uc := UConn.set_config k.(Conn.config) (UConn.set_handshakes k.(Conn.handshakes) (UConn.set_clientFinished s.(cn).(tlsConn.clientFinished) u.(uc))) in
  Session.set_uc uc (Session.set_rand k.(Conn.rand) (Session.set_sessionCache s.(cn).(tlsConn.sessionCache) u)).
(** What they change of them. *)
Definition written (u : Session.conn) (s : client) : client :=
  let k := s.(cn).(tlsConn.conn) in
  let k := Conn.set_config (Session.config u) (Conn.set_rand u.(Session.rand) k) in
  MkClient (tlsConn.set_sessionCache u.(Session.sessionCache) (tlsConn.set_conn k s.(cn))) u.
Definition on_u {A} (m : Session.M A) : E client A := fun s => run (u, a) := m (seen s) in Ret (written u s, inr a).

(** ** What both functions do *)

(** The session that failed is thrown away; a nil cache cannot be told. *)
Definition drop_session : E client unit :=
  s ← state;
  let key := Peer.clientSessionCacheKey s.(un).(remoteAddr) s.(cn) in
  if bool_decide (key = []) then eret tt else
  match s.(cn).(tlsConn.sessionCache) with
  | None => crash
  | Some ca => modify_c (tlsConn.set_sessionCache (Some (Put key None ca)))
  end.
(** The deferred call, with the result of what follows it. *)
Definition dropping {A} (session : option (session.ptr X)) (m : E client A) : E client A :=
  match session with
  | None => m
  | Some _ => r ← caught m; match r with inr a => eret a | inl e => drop_session ;; throw e end
  end.

(** A new random value for the outer hello, which has the public name. *)
Definition outer_of (ech : echContext.t) (hello : clientHelloMsg.t) : E client clientHelloMsg.t :=
  r ← on_u (readFull 32);
  match r with
  | inl _ => throw (Plain errShortRand)
  | inr random => eret (clientHelloMsg.set_random random (clientHelloMsg.set_serverName ech.(echContext.ech).(echClientContext.config).(echConfig.PublicName) hello))
  end.

Definition send_hello (hello : clientHelloMsg.t) : E client unit :=
  modify_c (tlsConn.set_serverName hello.(clientHelloMsg.serverName)) ;;
  r ← on_c (writeHandshakeRecord (ClientHello hello)); raise r.2.

(** [c.quicSetWriteSecret] appends to the events of [c.quic], which is nil. *)
Definition quicSetWriteSecret : E client unit := crash.

Definition hashed_msg (m : handshakeMessage) : E client bytes := r ← elift (transcriptMsg m); eres r.

(** The random value of the ServerHello warns that a server could do better. *)
Definition downgraded (cfg : Config.t) (vers : Z) (mark : bytes) : bool :=
  let maxVers := maxSupportedVersion cfg true in
  let tls12Downgrade := bool_decide (mark = downgradeCanaryTLS12) in
  let tls11Downgrade := bool_decide (mark = downgradeCanaryTLS11) in
  ((maxVers =? VersionTLS13) && (vers <=? VersionTLS12) && (tls12Downgrade || tls11Downgrade)) ||
  ((maxVers =? VersionTLS12) && (vers <=? VersionTLS11) && tls11Downgrade).

Definition read_server_hello : E client serverHelloMsg.t :=
  r ← on_c (readHandshake false);
  match r.2 with
  | ServerHello serverHello =>
      on_c (pickTLSVersion serverHello) ;;
      s ← state;
      mark ← elift (from serverHello.(serverHelloMsg.random) 24);
      if downgraded (Peer.config s.(cn)) (vers s.(cn)) mark then
        on_c (abort_with alertIllegalParameter "tls: downgrade attempt detected, possibly due to a MitM attack or a broken middlebox")
      else eret serverHello
  | _ => on_c (abort alertUnexpectedMessage unexpectedMessageError)
  end.

(** The handshake of the version that was chosen. *)
Definition run13 (hs : clientHandshakeStateTLS13.t) : E client unit := fun s =>
  run (hs, r) := Client13.handshake hk now newAead13 spare useFallbackMode newPRNG_Intn hs in
  let u := match hs.(clientHandshakeStateTLS13.uconn) with
           | Some u => set_echCtx hs.(clientHandshakeStateTLS13.echContext) u | None => s.(un) end in
  Ret (MkClient hs.(clientHandshakeStateTLS13.c) u, r).
Definition run12 (hs : clientHandshakeState.t) : E client unit := fun s =>
  run (hs, r) := Client12.handshake supported hk now s.(un).(remoteAddr) hs in
  Ret (MkClient hs.(clientHandshakeState.c) s.(un), r).

(** ** Conn.clientHandshake *)

(** The hello of Go with its session, which is sent; [un] stands for the parts of the
    configuration that [makeClientHello] and [loadSession] use.  There is no session
    controller: [loadSession] does what it does with a new one. *)
Definition early_data (session : option (session.ptr X)) (earlySecret : option tls13.EarlySecret) (transcript : cipherSuiteTLS13.t -> E client bytes)
    : E client unit :=
  session ← ederef session;
  suite ← ederef (cipherSuiteTLS13ByID session.(session.state).(SessionState.cipherSuite));
  t ← transcript suite;
  early ← ederef earlySecret;
  _ ← elift (tls13.ClientEarlyTrafficSecret early t);
  quicSetWriteSecret.

Definition continue_handshake (hello : clientHelloMsg.t) (keyShareKeys : option keySharePrivateKeys.t) (ech : option echContext.t) (ld : loaded)
    : E client unit :=
  p ← match ech with
    | None => eret (hello, None)
    | Some ech =>
        let inner := clientHelloMsg.clone hello in
        let ech := echContext.set_innerHello (Some inner) ech in
        hello ← outer_of ech hello;
        r ← elift (ECH.computeAndUpdateOuterECHExtension Seal hello inner ech.(echContext.ech) ech.(echContext.hpkeContext) true);
        hello ← eres r.2;
        eret (hello, Some (echContext.set_hpkeContext r.1 ech))
    end;
  let hello := p.1 in let ech := p.2 in
  send_hello hello ;;
  when hello.(clientHelloMsg.earlyData) (early_data ld.(ld_session) ld.(ld_earlySecret) (fun _ => hashed_msg (ClientHello hello))) ;;
  serverHello ← read_server_hello;
  s ← state;
  if vers s.(cn) =? VersionTLS13 then
    run13 (clientHandshakeStateTLS13.Mk s.(cn) serverHello hello keyShareKeys ld.(ld_session) ld.(ld_earlySecret) ld.(ld_binderKey)
      None false false None [] None [] ech None)
  else
    run12 (clientHandshakeState.Mk s.(cn) serverHello hello None None [] ld.(ld_session) None).

Definition Conn_clientHandshake : E client unit :=
  modify_c (tlsConn.set_didResume false) ;;
  m ← on_u (makeClientHello hardware supported);
  match m with
  | inl err => throw (Plain err)
  | inr (hello, keyShareKeys, ech) =>
      ld ← on_u (Session.bind (Session.modify (set_sc sessionController.newSessionController)) (fun _ => loadSession now hello));
      raise (Plain <$> ld.(ld_err)) ;;
      dropping ld.(ld_session) (continue_handshake ld.(ld_hello) keyShareKeys ech ld)
  end.

(** ** UConn.clientHandshake *)

(** The session of a locked controller. *)
Definition locked_session (hello : clientHelloMsg.t) : E client loaded :=
  s ← state;
  let u := s.(un) in
  early ← match u.(Session) with
    | Some p =>
        if 0 <? len u.(EarlySecret) then
          suite ← ederef (cipherSuiteTLS13ByID p.(session.state).(SessionState.cipherSuite));
          eret (Some (tls13.NewEarlySecretFromSecret suite.(cipherSuiteTLS13.hash) u.(EarlySecret)))
        else eret None
    | None => eret None
    end;
  eret (MkLoaded hello u.(Session) early u.(BinderKey) None).

(** A hello that was not built by uTLS is split and sealed. *)
Definition rebuild (ech : echContext.t) (hello : clientHelloMsg.t) : E client (clientHelloMsg.t * echContext.t) :=
  let ech := echContext.set_innerHello (Some (clientHelloMsg.clone hello)) ech in
  outer ← outer_of ech hello;
  outerExts ← on_u extensionsList;
  let outerExts := if 0 <? len hello.(clientHelloMsg.pskIdentities)
                   then List.filter (fun ext => negb (ext =? extensionPreSharedKey)) outerExts else outerExts in
  r ← on_u (computeAndUpdateOuterECHExtensionWithOuterExts spare useFallbackMode ech true outerExts None);
  on_u (Session.modify (set_echCtx (Some r.1))) ;;
  raise (Plain <$> r.2) ;;
  eret (outer, r.1).

(** The transcript of early data: the expanded inner hello, or the hello. *)
Definition early_transcript (ech : option echContext.t) (hello : clientHelloMsg.t) : E client bytes :=
  match ech with
  | Some e =>
      if 0 <? len e.(echContext.expandedInnerHello) then eret e.(echContext.expandedInnerHello) else
      match e.(echContext.innerHello) with
      | Some inner =>
          exts ← on_u extensionsList;
          encodedInner ← elift (encodeInnerClientHelloReorderOuterExts inner e.(echContext.ech).(echClientContext.config).(echConfig.MaxNameLength) (Some exts));
          encodedInner ← eres encodedInner;
          s ← state;
          decodedInner ← eres (decodeInnerClientHello (clientHelloMsg.set_original (Session.hello s.(un)).(PubClientHelloMsg.Raw) hello) encodedInner);
          hashed_msg (ClientHello decodedInner)
      | None => hashed_msg (ClientHello hello)
      end
  | None => hashed_msg (ClientHello hello)
  end.

(** [hs13]; the secrets of a locked session are those of the controller. *)
Definition state13 (sessionIsLocked : bool) (serverHello : serverHelloMsg.t) (hello : clientHelloMsg.t) (ech : option echContext.t) (ld : loaded)
    : E client clientHandshakeStateTLS13.t :=
  s ← state;
  let u := s.(un) in
  early ← (if 0 <? len u.(EarlySecret) then
             p ← ederef ld.(ld_session);
             let id := p.(session.state).(SessionState.cipherSuite) in
             if id =? 0 then eret None else
             suite ← ederef (cipherSuiteTLS13ByID id);
             eret (Some (tls13.NewEarlySecretFromSecret suite.(cipherSuiteTLS13.hash) u.(EarlySecret)))
           else eret None);
  eret (clientHandshakeStateTLS13.Mk s.(cn) serverHello hello (KeySharePrivateKeys.ToPrivate <$> u.(KeyShareKeys))
    (if sessionIsLocked then u.(Session) else ld.(ld_session)) (if sessionIsLocked then early else ld.(ld_earlySecret))
    (if sessionIsLocked then u.(BinderKey) else ld.(ld_binderKey)) None false false None [] None [] ech (Some u)).

Definition continue_uhandshake (sessionIsLocked : bool) (hello : clientHelloMsg.t) (ech : option echContext.t) (ld : loaded) : E client unit :=
  s ← state;
  p ← match ech with
    | Some e =>
        if bool_decide (s.(un).(clientHelloBuildStatus) = BuildByUtls) then eret (hello, Some e)
        else r ← rebuild e hello; eret (r.1, Some r.2)
    | None => eret (hello, None)
    end;
  let hello := p.1 in let ech := p.2 in
  send_hello hello ;;
  let inner := match ech with Some e => e.(echContext.innerHello) | None => None end in
  let earlyDataEnabled := clientHelloMsg.earlyData (default hello inner) in
  when (earlyDataEnabled && non_nil ld.(ld_session))
    (early_data ld.(ld_session) ld.(ld_earlySecret) (fun _ => early_transcript ech hello)) ;;
  serverHello ← read_server_hello;
  s ← state;
  if vers s.(cn) =? VersionTLS13 then
    hs ← state13 sessionIsLocked serverHello hello ech ld; run13 hs
  else
    run12 (clientHandshakeState.Mk s.(cn) serverHello hello None None [] ld.(ld_session) None).

(** The binder key is kept for the inner hello. *)
Definition store_psk (ld : loaded) : E client unit :=
  match ld.(ld_session) with
  | Some p =>
      if 0 <? len ld.(ld_binderKey) then
        on_u (Session.modify (fun u => set_pskCipherSuite (cipherSuiteTLS13ByID p.(session.state).(SessionState.cipherSuite)) (set_pskBinderKey ld.(ld_binderKey) u)))
      else eret tt
  | None => eret tt
  end.

Definition clientHandshake : E client unit :=
  s ← state;
  let hello := (getPrivatePtr (Session.hello s.(un))).2 in
  let ech := s.(un).(echCtx) in
  let sessionIsLocked := isSessionLocked s.(un) in
  modify_c (tlsConn.set_didResume false) ;;
  raise (Plain <$> check_names (Peer.config s.(cn))) ;;
  let hello := if 0 <? s.(cn).(tlsConn.conn).(Conn.handshakes)
               then clientHelloMsg.set_secureRenegotiation s.(cn).(tlsConn.clientFinished) hello else hello in
  ld ← (if sessionIsLocked then locked_session hello else on_u (loadSession now hello));
  raise (Plain <$> ld.(ld_err)) ;;
  store_psk ld ;;
  let hello := if non_nil ld.(ld_session) then ld.(ld_hello) else clientHelloMsg.set_earlyData false ld.(ld_hello) in
  dropping ld.(ld_session) (continue_uhandshake sessionIsLocked hello ech ld).

(** ** UConn.Handshake *)

Definition count_handshake : E client unit := modify_k (fun k => Conn.set_handshakes (k.(Conn.handshakes) + 1) k).
Definition build_state : E client unit :=
  err ← on_u (BuildHandshakeState spare useFallbackMode hardware supported generateRandomizedSpec r_preset now); raise (Plain <$> err).
Definition as_error {A} (r : connError + A) : option connError := match r with inl e => Some e | inr _ => None end.

(** [handshakeContext] with a context that is not cancelled. *)
Definition Handshake : E client unit :=
  s ← state;
  let k := s.(cn).(tlsConn.conn) in
  if k.(Conn.isHandshakeComplete) then eret tt else
  raise k.(Conn.handshakeErr) ;;
  when k.(Conn.isClient) build_state ;;
  r ← caught clientHandshake;
  modify_k (Conn.set_handshakeErr (as_error r)) ;;
  (match r with inr _ => count_handshake | inl _ => _ ← caught (on_c flush); eret tt end) ;;
  s ← state;
  match r, s.(cn).(tlsConn.conn).(Conn.isHandshakeComplete) with
  | inr _, true => eret tt
  | inr _, false =>
      let e := Plain (ErrorNew "tls: internal error: handshake should have had a result") in
      modify_k (Conn.set_handshakeErr (Some e)) ;; throw e
  | inl _, true => crash
  | inl e, false => throw e
  end.

Definition handleRenegotiation : E client unit :=
  s ← state;
  if vers s.(cn) =? VersionTLS13 then fail "tls: internal error: unexpected renegotiation" else
  r ← on_c (readHandshake false);
  match r.2 with
  | HelloRequest =>
      s ← state;
      let k := s.(cn).(tlsConn.conn) in
      let handshake :=
        modify_k (Conn.set_isHandshakeComplete false) ;;
        build_state ;;
        r ← caught clientHandshake;
        modify_k (Conn.set_handshakeErr (as_error r)) ;;
        (match r with inr _ => count_handshake | inl e => throw e end) in
      if negb k.(Conn.isClient) then on_c (abort_alert alertNoRenegotiation) else
      match k.(Conn.config).(Config.Renegotiation) with
      | RenegotiateNever => on_c (abort_alert alertNoRenegotiation)
      | RenegotiateOnceAsClient => if 1 <? k.(Conn.handshakes) then on_c (abort_alert alertNoRenegotiation) else handshake
      | RenegotiateFreelyAsClient => handshake
      end
  | _ => on_c (abort alertUnexpectedMessage unexpectedMessageError)
  end.
End Ops.
