(* ===== verification/ClientFacts.v ===== *)
(** * What the handshake of a client guarantees

    Theorems on Client: whichever version the server chooses, a handshake that succeeds
    has an acceptable version, no sign of a downgrade and an authenticated server; the
    session that a failed handshake tried to resume is dropped; the result of
    [Handshake] is recorded and given again; a hello of Go's own stack is never sent
    with Encrypted ClientHello by uTLS. *)

From S2P Require Import Prelude Cryptobyte Common Config Negotiation Codec Buffer KeySchedule Record Names Messages RawMessages ServerHello ClientHello Ticket Caches Public Extensions Handshake Conn ConnFacts ConnFrame Suites ECH Marshal Shuffle Parrots Session Preset Auth KeyAgreement Apply Build BuildFacts Peer PeerFacts Client12 Client12Facts Client13 Client13Facts Client.

(** ** Methods that keep the configuration *)

Section Steady.
Context {X : X509} {V : X509Verify X} {C : Cryptobyte} {K : Crypto} {I : ClientSessionCache (session.ptr X)} {Ks : Keys}.
#[local] Existing Instance Session.M_ret.
#[local] Existing Instance Session.M_bind.

Definition steady {A} (m : Session.M A) : Prop := forall u u' a, m u = Ret (u', a) -> Session.config u' = Session.config u.

Lemma steady_ret {A} (a : A) : steady (ret a).
Proof. by intros c c' x [= <- _]. Qed.
Lemma steady_bind {A B} (m : Session.M A) (k : A -> Session.M B) : steady m -> (forall a, steady (k a)) -> steady (bind m k).
Proof. intros Hm Hk c c' b (c1 & a & H1 & H2)%session_bind_inv. apply Hm in H1. apply Hk in H2. congruence. Qed.
Lemma steady_get {A} (f : Session.conn -> A) : steady (get f).
Proof. by intros c c' x [= <- _]. Qed.
Lemma steady_lift {A} (o : outcome A) : steady (lift o).
Proof. intros c c' x. unfold lift. destruct o; [done|]. by intros [= <- _]. Qed.
Lemma steady_panic {A} : steady (@panic X I Ks A).
Proof. done. Qed.
Lemma steady_assert b : steady (uAssert b).
Proof. by intros c c' x [-> _]%uAssert_inv. Qed.
Lemma steady_modify f : (forall c, Session.config (f c) = Session.config c) -> steady (modify f).
Proof. intros H c c' x [= <- _]. apply H. Qed.
Lemma steady_deref {A} (o : option A) : steady (deref (X := X) (I := I) (Ks := Ks) o).
Proof. destruct o; [apply steady_ret|done]. Qed.
Lemma steady_object l : steady (object l).
Proof. intros c c' x. unfold object. destruct (_ !! l); [|done]. by intros [= <- _]. Qed.

Create HintDb steady.
Hint Resolve steady_ret steady_get steady_lift steady_panic steady_assert steady_deref steady_object : steady.
Hint Extern 1 (steady (modify _)) => apply steady_modify; done : steady.
Hint Extern 1 (steady (mbind _ _)) => apply steady_bind : steady.
Hint Extern 1 (steady (bind _ _)) => apply steady_bind : steady.
Hint Extern 2 (steady (match ?x with _ => _ end)) => destruct x : steady.
Ltac steady := auto 40 with steady.

Lemma steady_readFull n : steady (readFull n).
Proof. intros c c' a. unfold readFull. destruct (ReadFull _ _). by intros [= <- _]. Qed.
Lemma steady_marshal spare : steady (marshalNoECH spare).
Proof.
  intros c c' a. unfold marshalNoECH. destruct (mapM _ _) as [xs|]; [|done].
  destruct (MarshalClientHelloNoECH _ _ _) as [|[[xs' h] err]]; [done|]. by intros [= <- _].
Qed.
Lemma steady_extensionsList : steady extensionsList.
Proof.
  unfold extensionsList. apply steady_bind; [steady|]. intros ls. induction ls as [|l ls IH]; cbn [types_loop]; [steady|].
  apply steady_bind; [unfold read_type, update; steady|]. steady.
Qed.
Lemma steady_ech_index ls i : steady (ech_index ls i).
Proof. revert i. induction ls as [|l ls IH]; intros i; cbn [ech_index]; steady. Qed.
Lemma steady_put_ech i b : steady (put_ech i b).
Proof. unfold put_ech, set_ext. apply steady_bind; [|steady]. unfold alloc. by intros c c' a [= <- _]. Qed.
Lemma steady_fix_binder so oe ei inner ech : steady (fix_binder so oe ei inner ech).
Proof. unfold fix_binder. steady. Qed.
Hint Resolve steady_marshal steady_ech_index steady_put_ech steady_fix_binder : steady.
Lemma steady_outer_ech spare b ech useKey outerExts p : steady (computeAndUpdateOuterECHExtensionWithOuterExts spare b ech useKey outerExts p).
Proof. unfold computeAndUpdateOuterECHExtensionWithOuterExts, serialized_outer, set_ext. steady. Qed.

(** Loading a session changes the controller and the cache. *)
Definition loads (u u' : Session.conn) : Prop := exists sc ca, u' = set_sc sc (Session.set_sessionCache ca u).
Definition loading {A} (m : Session.M A) : Prop := forall u u' a, m u = Ret (u', a) -> loads u u'.
Lemma loads_refl u : loads u u.
Proof. exists u.(sc), u.(Session.sessionCache). by destruct u. Qed.
Lemma loading_bind {A B} (m : Session.M A) (k : A -> Session.M B) : loading m -> (forall a, loading (k a)) -> loading (bind m k).
Proof.
  intros Hm Hk c c' b (c1 & a & H1 & H2)%session_bind_inv. apply Hm in H1 as (s1 & a1 & ->). apply Hk in H2 as (s2 & a2 & ->).
  exists s2, a2. by destruct c.
Qed.
Lemma loading_ret {A} (a : A) : loading (ret a).
Proof. intros c c' x [= <- _]. apply loads_refl. Qed.
Lemma loading_get {A} (f : Session.conn -> A) : loading (get f).
Proof. intros c c' x [= <- _]. apply loads_refl. Qed.
Lemma loading_lift {A} (o : outcome A) : loading (lift o).
Proof. intros c c' x. unfold lift. destruct o; [done|]. intros [= <- _]. apply loads_refl. Qed.
Lemma loading_panic {A} : loading (@panic X I Ks A).
Proof. done. Qed.
Lemma loading_assert b : loading (uAssert b).
Proof. intros c c' x [-> _]%uAssert_inv. apply loads_refl. Qed.
Lemma loading_cache f : loading (modify (fun u => Session.set_sessionCache (f u) u)).
Proof. intros c c' x [= <- _]. exists c.(sc), (f c). by destruct c. Qed.
Lemma loading_sc f : loading (modify (on_sc f)).
Proof. intros c c' x [= <- _]. exists (f c.(sc)), c.(Session.sessionCache). by destruct c. Qed.
Hint Resolve loading_ret loading_get loading_lift loading_panic loading_assert loading_cache loading_sc : steady.
Hint Extern 1 (loading (mbind _ _)) => apply loading_bind : steady.
Hint Extern 1 (loading (modify (Session.set_sessionCache ?ca))) => apply (loading_cache (fun _ => ca)) : steady.
Hint Extern 2 (loading (match ?x with _ => _ end)) => destruct x : steady.
Lemma loading_session now h : loading (loadSession now h).
Proof.
  unfold loadSession, onEnterLoadSessionCheck, onLoadSessionReturn, load_session_body, load_psk, forget_session, shouldLoadSessionWriteBinders. steady.
Qed.
End Steady.

Section Facts.
Context {C : Cryptobyte} {Cs : Ciphers} {B : BlockCiphers Cs} {K : Crypto} {Ks : Keys} {S : Signing Ks} {X : X509} {V : X509Verify X} {XK : X509Keys X S}
  {XC : X509Chains X S} {I : ClientSessionCache (session.ptr X)} {E_ : KeyExchange Ks} {D : Decompressors}.
Context (supported : list cipherSuite.t) (hk : hooks Ks S X XC) (now : Z)
  (spare : bytes -> bytes) (useFallbackMode hardware : bool) (newPRNG_Intn : Z -> res Z)
  (generateRandomizedSpec : ClientHelloID.t -> bytes -> list bytes -> ClientHelloID.t * outcome (res (@spec X))) (r_preset : parrot_rand).

Definition complete (s : client) : bool := s.(cn).(tlsConn.conn).(Conn.isHandshakeComplete).
Definition cfg_of (s : client) : Config.t := Peer.config s.(cn).

(** Before the handshake proper neither the flag nor the configuration changes. *)
Definition kept (s s' : client) : Prop := complete s' = complete s /\ cfg_of s' = cfg_of s.
#[local] Instance kept_preorder : PreOrder kept.
Proof. split; [done|]. intros s1 s2 s3 [H1 H2] [H3 H4]. split; congruence. Qed.

Lemma kept_layer {A} (m : E tlsConn.t A) : stable layer m -> stable kept (on_c m).
Proof. apply stable_zoom. intros s c' (k & [] & ->). by split. Qed.
Lemma kept_steady {A} (m : Session.M A) : steady m -> stable kept (on_u m).
Proof. intros Hm s s' r. unfold on_u. destruct (m _) as [|[u a]] eqn:E; [done|]. intros [= <- _]. apply Hm in E. by split. Qed.
Lemma kept_pick sh : stable kept (on_c (pickTLSVersion sh)).
Proof.
  assert (H : stable (fun c c' => c'.(tlsConn.conn).(Conn.isHandshakeComplete) = c.(tlsConn.conn).(Conn.isHandshakeComplete) /\ Peer.config c' = Peer.config c) (pickTLSVersion sh)).
  { intros c c' r. unfold pickTLSVersion. intros [(e & [=] & _)|(c1 & a & [= <- <-] & H)]%ebind_inv. destruct (mutualVersion _ _ _).
    - by injection H as <- _.
    - apply (layer_abort _ _) in H as (k & [] & ->). by split. }
  eapply stable_zoom; [|exact H]. by intros s t.
Qed.
Hint Resolve layer_readHandshake layer_writeHandshakeRecord layer_abort layer_abort_with layer_abort_alert layer_flush : stable.
Hint Resolve kept_layer kept_pick kept_steady steady_readFull steady_extensionsList steady_outer_ech : stable.

Lemma kept_modify f : (forall c, (f c).(tlsConn.conn) = c.(tlsConn.conn)) -> stable kept (modify_c f).
Proof. intros H. apply stable_modify. intros s. unfold kept, complete, cfg_of, Peer.config. cbn. by rewrite H. Qed.
Hint Extern 1 (stable kept (modify_c _)) => apply kept_modify; done : stable.
Lemma kept_drop : stable kept drop_session.
Proof. unfold drop_session. stable. Qed.
Lemma kept_outer ech hello : stable kept (outer_of ech hello).
Proof. unfold outer_of. stable. Qed.
Lemma kept_send hello : stable kept (send_hello hello).
Proof. unfold send_hello. stable. Qed.
Lemma kept_server_hello : stable kept read_server_hello.
Proof. unfold read_server_hello. stable. Qed.
Lemma kept_echCtx e : stable kept (on_u (Session.modify (set_echCtx e))).
Proof. apply kept_steady. by apply steady_modify. Qed.
Hint Resolve kept_drop kept_outer kept_send kept_server_hello kept_echCtx : stable.
Lemma kept_rebuild ech hello : stable kept (rebuild spare useFallbackMode ech hello).
Proof. unfold rebuild. stable. Qed.
Lemma kept_hashed m : stable kept (hashed_msg m).
Proof. unfold hashed_msg. stable. Qed.
Hint Resolve kept_rebuild kept_hashed : stable.
Lemma kept_early_transcript ech hello : stable kept (early_transcript ech hello).
Proof. unfold early_transcript. stable. Qed.
Hint Resolve kept_early_transcript : stable.
Lemma kept_early p e f : (forall s, stable kept (f s)) -> stable kept (early_data p e f).
Proof. intros Hf. unfold early_data, quicSetWriteSecret. stable. Qed.
Hint Resolve kept_early : stable.
Lemma kept_load h : stable kept (on_u (loadSession now h)).
Proof. apply kept_steady. intros u u' a (sc & ca & ->)%loading_session. by destruct u. Qed.
Lemma kept_locked h : stable kept (locked_session h).
Proof. unfold locked_session. stable. Qed.
Lemma kept_state13 b sh h ech ld : stable kept (state13 b sh h ech ld).
Proof. unfold state13. stable. Qed.
Hint Resolve kept_load kept_locked kept_state13 : stable.

(** ** A successful handshake *)

Definition peer_version (sh : serverHelloMsg.t) : Z :=
  if negb (sh.(serverHelloMsg.supportedVersion) =? 0) then sh.(serverHelloMsg.supportedVersion) else sh.(serverHelloMsg.vers).

(** The version of the ServerHello is one of the configuration and no downgrade is
    announced; the handshake of that version authenticates the server. *)
Definition secured (cfg : Config.t) (s' : client) : Prop :=
  exists sh v mark, mutualVersion cfg true [peer_version sh] = Some v /\
    from sh.(serverHelloMsg.random) 24 = Ret mark /\ downgraded cfg v mark = false /\
    if v =? VersionTLS13 then
      exists hs hs', Peer.config hs.(clientHandshakeStateTLS13.c) = cfg /\ hs.(clientHandshakeStateTLS13.serverHello) = sh /\
        Peer.vers hs.(clientHandshakeStateTLS13.c) = v /\ Client13Facts.authenticated hk now hs hs' /\ s'.(cn) = hs'.(clientHandshakeStateTLS13.c)
    else
      exists hs hs', Peer.config hs.(clientHandshakeState.c) = cfg /\ hs.(clientHandshakeState.serverHello) = sh /\
        Peer.vers hs.(clientHandshakeState.c) = v /\ Client12Facts.authenticated supported hk now hs hs' /\ s'.(cn) = hs'.(clientHandshakeState.c).

Lemma pick_ok sh c c' x : pickTLSVersion sh c = Ret (c', inr x) -> mutualVersion (Peer.config c) true [peer_version sh] = Some (Peer.vers c').
Proof.
  unfold pickTLSVersion. intros H. estep H. fold (peer_version sh) in H. destruct (mutualVersion _ _ _) eqn:E; [|by apply abort_ok in H].
  by injection H as <- _.
Qed.
Lemma server_hello_ok s s' sh : read_server_hello s = Ret (s', inr sh) ->
  exists mark, mutualVersion (cfg_of s) true [peer_version sh] = Some (Peer.vers s'.(cn)) /\
    from sh.(serverHelloMsg.random) 24 = Ret mark /\ downgraded (cfg_of s) (Peer.vers s'.(cn)) mark = false.
Proof.
  intros H. unfold read_server_hello in H. estep H. assert (Hk : kept s s0) by (eapply kept_layer; [|exact Hs]; stable).
  destruct a as [w m]. cbn in H. destruct m; no_alert H. estep H. assert (Hk2 : kept s0 s1) by (eapply kept_pick; exact Hs0).
  apply zoom_ok in Hs0 as (c' & Hp & ->). apply pick_ok in Hp. estep H. estep H. case_match eqn:Ed; no_alert H. injection H as <- <-.
  destruct Hk as [_ Hk]. destruct Hk2 as [_ Hk2]. unfold cfg_of in Hk, Hk2 |- *. exists a0. rewrite <- Hk. split; [exact Hp|]. split; [exact Hs0|].
  by rewrite <- Hk2.
Qed.

Lemma run13_ok hs s s' x : hs.(clientHandshakeStateTLS13.usingPSK) = false -> run13 hk now spare useFallbackMode newPRNG_Intn hs s = Ret (s', inr x) ->
  exists hs', Client13Facts.authenticated hk now hs hs' /\ s'.(cn) = hs'.(clientHandshakeStateTLS13.c).
Proof.
  intros Hp. unfold run13. destruct (Client13.handshake _ _ _ _ _ _ _) as [|[hs' r]] eqn:E; [done|]. cbn. intros [= <- ->].
  exists hs'. split; [|done]. by eapply success_authenticates.
Qed.
Lemma run12_ok hs s s' x : run12 supported hk now hs s = Ret (s', inr x) ->
  exists hs', Client12Facts.authenticated supported hk now hs hs' /\ s'.(cn) = hs'.(clientHandshakeState.c).
Proof.
  unfold run12. destruct (Client12.handshake _ _ _ _ _) as [|[hs' r]] eqn:E; [done|]. cbn. intros [= <- ->].
  exists hs'. split; [|done]. by eapply success12_authenticates.
Qed.
(** The session of the deferred call does not matter for a success. *)
Lemma dropping_ok {A} p (m : E client A) s s' x : dropping p m s = Ret (s', inr x) -> m s = Ret (s', inr x).
Proof.
  destruct p; [|done]. cbn. intros H. estep H. unfold caught in Hs. destruct (m s) as [|[s1 r]] eqn:E; [done|]. injection Hs as <- ->.
  destruct a; [|by injection H as <- ->]. estep H. done.
Qed.

(** The end of both functions. *)
Lemma secured13 s0 s s' sh hs s1 s'' x : kept s0 s -> read_server_hello s = Ret (s', inr sh) -> Peer.vers s'.(cn) =? VersionTLS13 = true ->
  run13 hk now spare useFallbackMode newPRNG_Intn hs s1 = Ret (s'', inr x) ->
  hs.(clientHandshakeStateTLS13.c) = s'.(cn) -> hs.(clientHandshakeStateTLS13.serverHello) = sh -> hs.(clientHandshakeStateTLS13.usingPSK) = false -> secured (cfg_of s0) s''.
Proof.
  intros [_ Hk] Hr Hv Hrun Hc Hs Hp. assert (Hk2 : kept s s') by (eapply kept_server_hello; exact Hr). destruct Hk2 as [_ Hk2].
  apply server_hello_ok in Hr as (mark & Hm & Hf & Hd). exists sh, (Peer.vers s'.(cn)), mark. rewrite <- Hk, Hv. do 3 (split; [done|]).
  apply run13_ok in Hrun as (hs' & Ha & Hcn); [|exact Hp]. exists hs, hs'. by rewrite Hc.
Qed.
Lemma secured12 s0 s s' sh hs s'' x : kept s0 s -> read_server_hello s = Ret (s', inr sh) -> Peer.vers s'.(cn) =? VersionTLS13 = false ->
  run12 supported hk now hs s' = Ret (s'', inr x) -> hs.(clientHandshakeState.c) = s'.(cn) -> hs.(clientHandshakeState.serverHello) = sh -> secured (cfg_of s0) s''.
Proof.
  intros [_ Hk] Hr Hv Hrun Hc Hs. assert (Hk2 : kept s s') by (eapply kept_server_hello; exact Hr). destruct Hk2 as [_ Hk2].
  apply server_hello_ok in Hr as (mark & Hm & Hf & Hd). exists sh, (Peer.vers s'.(cn)), mark. rewrite <- Hk, Hv. do 3 (split; [done|]).
  apply run12_ok in Hrun as (hs' & Ha & Hcn). exists hs, hs'. by rewrite Hc.
Qed.

(** A step that keeps the flag and the configuration. *)
Ltac kept_step H := let K := fresh "K" in
  match type of H with ?m ?s = Ret (?s', _) => assert (K : kept s s') by (refine ((_ : stable kept m) _ _ _ H); stable) end.

Lemma state13_ok b sh h ech ld s s' hs : state13 b sh h ech ld s = Ret (s', inr hs) ->
  s' = s /\ hs.(clientHandshakeStateTLS13.c) = s.(cn) /\ hs.(clientHandshakeStateTLS13.serverHello) = sh /\ hs.(clientHandshakeStateTLS13.usingPSK) = false.
Proof.
  unfold state13. intros H. estep H. estep H. injection H as <- <-. cbn. split; [|done].
  repeat case_match; [|by injection Hs as <-..]. estep Hs. case_match; [by injection Hs as <-|]. estep Hs. by injection Hs as <-.
Qed.

Lemma continue_u_ok b hello ech ld s0 s s' x : kept s0 s ->
  continue_uhandshake supported hk now spare useFallbackMode newPRNG_Intn b hello ech ld s = Ret (s', inr x) -> secured (cfg_of s0) s'.
Proof.
  intros Hk H. unfold continue_uhandshake in H. estep H. estep H. kept_step Hs. estep H. kept_step Hs0. estep H. kept_step Hs1. estep H.
  assert (Hk' : kept s0 s3) by (do 3 (etrans; [|eassumption]); done). estep H. destruct (Peer.vers _ =? VersionTLS13) eqn:Ev.
  - estep H. apply state13_ok in Hs3 as (-> & Hc & Hsh & Hp). by eapply secured13.
  - exact (secured12 s0 s3 _ _ _ _ _ Hk' Hs2 Ev H eq_refl eq_refl).
Qed.
Lemma continue_ok hello ks ech ld s0 s s' x : kept s0 s ->
  continue_handshake supported hk now spare useFallbackMode newPRNG_Intn hello ks ech ld s = Ret (s', inr x) -> secured (cfg_of s0) s'.
Proof.
  intros Hk H. unfold continue_handshake in H. estep H. kept_step Hs. estep H. kept_step Hs0. estep H. kept_step Hs1. estep H.
  assert (Hk' : kept s0 s3) by (do 3 (etrans; [|eassumption]); done). estep H. destruct (Peer.vers _ =? VersionTLS13) eqn:Ev.
  - exact (secured13 s0 s3 _ _ _ _ _ _ Hk' Hs2 Ev H eq_refl eq_refl eq_refl).
  - exact (secured12 s0 s3 _ _ _ _ _ Hk' Hs2 Ev H eq_refl eq_refl).
Qed.

Lemma steady_generate g : steady (generateECDHEKey g).
Proof. intros u u' a. unfold generateECDHEKey. case_match; [by intros [= <- _]|]. destruct (GenerateKey _ _). by intros [= <- _]. Qed.
Lemma steady_make : steady (makeClientHello hardware supported).
Proof.
  unfold makeClientHello, start_hello, first_share, hello_ech, ok.
  repeat first [apply steady_bind; intros|case_match|apply steady_ret|apply steady_get|apply steady_lift|apply steady_panic|apply steady_readFull|apply steady_generate].
Qed.
Hint Resolve steady_make : stable.
Lemma kept_loads h : stable kept (on_u (Session.bind (Session.modify (set_sc sessionController.newSessionController)) (fun _ => loadSession now h))).
Proof.
  apply kept_steady, steady_bind; [by apply steady_modify|]. intros _ u u' a (sc & ca & ->)%loading_session. by destruct u.
Qed.
Lemma kept_psk f : (forall u, Session.config (f u) = Session.config u) -> stable kept (on_u (Session.modify f)).
Proof. intros H. by apply kept_steady, steady_modify. Qed.
Hint Resolve kept_loads : stable.
Hint Extern 1 (stable kept (on_u (Session.modify _))) => apply kept_psk; done : stable.

Lemma kept_store_psk ld : stable kept (store_psk ld).
Proof. unfold store_psk. stable. Qed.
Hint Resolve kept_store_psk : stable.

Abbreviation uclient := (clientHandshake supported hk now spare useFallbackMode newPRNG_Intn).
Abbreviation goclient := (Conn_clientHandshake supported hk now spare useFallbackMode hardware newPRNG_Intn).

(** C3: when the handshake of a client succeeds, that of uTLS or that of Go, the version
    of the server is one that the configuration allows and is not a downgrade that the
    server announces, and the handshake of that version has authenticated the server
    for the configuration of the connection. *)
Theorem handshake_secured s s' x :
  (uclient s = Ret (s', inr x) -> secured (cfg_of s) s') /\ (goclient s = Ret (s', inr x) -> secured (cfg_of s) s').
Proof.
  split; intros H.
  - unfold clientHandshake in H. estep H. estep H. kept_step Hs. estep H. estep H. kept_step Hs1. estep H. estep H. kept_step Hs3.
    apply dropping_ok in H. eapply continue_u_ok; [|exact H]. do 2 (etrans; [eassumption|]). done.
  - unfold Conn_clientHandshake in H. estep H. kept_step Hs. estep H. kept_step Hs0. destruct a0 as [err|[[hello ks] ech]]; [done|]. estep H. kept_step Hs1. estep H.
    apply dropping_ok in H. eapply continue_ok; [|exact H]. do 2 (etrans; [eassumption|]). done.
Qed.

(** ** A handshake that fails *)

Lemma caught_inv {T A} (m : E T A) s s' r : caught m s = Ret (s', r) -> exists r', r = inr r' /\ m s = Ret (s', r').
Proof. unfold caught. destruct (m s) as [|[s1 r1]]; [done|]. intros [= <- <-]. by exists r1. Qed.
Lemma drop_inv s s' r : drop_session s = Ret (s', r) -> r = inr tt /\
    let key := Peer.clientSessionCacheKey s.(un).(remoteAddr) s.(cn) in
    ((key = [] /\ s' = s) \/
     (exists ca, key <> [] /\ s.(cn).(tlsConn.sessionCache) = Some ca /\ s' = set_cn (tlsConn.set_sessionCache (Some (Put key None ca)) s.(cn)) s)).
Proof.
  unfold drop_session. intros [(? & [=] & _)|(s4 & s5 & [= <- <-] & H)]%ebind_inv. case_bool_decide; [injection H as <- <-; auto|].
  destruct (tlsConn.sessionCache _) as [ca|] eqn:Ec; [|done]. injection H as <- <-. split; [done|]. right. by exists ca.
Qed.
(** The deferred call, when there is one, after an error. *)
Lemma dropping_inv {A} p (m : E client A) s s' r : dropping (Some p) m s = Ret (s', r) ->
  exists s1, m s = Ret (s1, r) /\ match r with inr _ => s' = s1 | inl _ => drop_session s1 = Ret (s', inr tt) end.
Proof.
  cbn. intros [(e' & (? & [=] & _)%caught_inv & _)|(s1 & r1 & (r2 & [= ->] & H1)%caught_inv & H)]%ebind_inv.
  exists s1. destruct r2 as [e|a]; [|injection H as <- <-; by rewrite H1].
  apply ebind_inv in H as [(e' & [[=] _]%drop_inv & _)|(s3 & [] & H3 & [= <- <-])]. by rewrite H1.
Qed.

(** Whatever fails once a session is offered, the last thing that happens to the cache
    is that the session is thrown out of it. *)
Theorem failed_session_dropped p m s s' (e : connError) : dropping (A := unit) (Some p) m s = Ret (s', inl e) ->
  exists s1, m s = Ret (s1, inl e) /\
    let key := Peer.clientSessionCacheKey s1.(un).(remoteAddr) s1.(cn) in
    (key = [] /\ s' = s1) \/
    (exists ca, key <> [] /\ s1.(cn).(tlsConn.sessionCache) = Some ca /\ s' = set_cn (tlsConn.set_sessionCache (Some (Put key None ca)) s1.(cn)) s1).
Proof. intros (s1 & Hm & Hd)%dropping_inv. exists s1. split; [exact Hm|]. by apply drop_inv in Hd as [_ Hd]. Qed.

(** ** The flag of a complete handshake *)

Lemma dropping_calm {A} p (m : E client A) s s' r : dropping p m s = Ret (s', r) ->
  exists s1, m s = Ret (s1, r) /\ complete s' = complete s1.
Proof.
  destruct p as [p|]; [|by exists s']. intros (s1 & Hm & Hd)%dropping_inv. exists s1. split; [exact Hm|].
  destruct r; [by apply kept_drop in Hd as [Hd _]|by subst].
Qed.

Definition succeeded {A} (r : connError + A) : bool := match r with inr _ => true | inl _ => false end.
Lemma run13_complete hs s s' r : hs.(clientHandshakeStateTLS13.c).(tlsConn.conn).(Conn.isHandshakeComplete) = false ->
  run13 hk now spare useFallbackMode newPRNG_Intn hs s = Ret (s', r) -> complete s' = succeeded r.
Proof.
  intros Hc. unfold run13. destruct (Client13.handshake _ _ _ _ _ _ _) as [|[hs' r']] eqn:E; [done|]. cbn. intros [= <- <-].
  by apply complete_result in E.
Qed.
Lemma run12_complete hs s s' r : hs.(clientHandshakeState.c).(tlsConn.conn).(Conn.isHandshakeComplete) = false ->
  run12 supported hk now hs s = Ret (s', r) -> complete s' = succeeded r.
Proof.
  intros Hc. unfold run12. destruct (Client12.handshake _ _ _ _ _) as [|[hs' r']] eqn:E; [done|]. cbn. intros [= <- <-].
  by apply complete12_result in E.
Qed.

(** Over a step that keeps the flag: it fails, or the rest goes on. *)
Lemma complete_bind {A A'} (m : E client A) (k : A -> E client A') s s' r : complete s = false -> stable kept m ->
  (forall a s1 r, m s = Ret (s1, inr a) -> complete s1 = false -> k a s1 = Ret (s', r) -> complete s' = succeeded r) ->
  mbind k m s = Ret (s', r) -> complete s' = succeeded r.
Proof.
  intros Hc Hm Hk [(e & H & ->)|(s1 & a & H1 & H2)]%ebind_inv.
  - apply Hm in H as [H _]. cbn. congruence.
  - eapply Hk; [exact H1| |exact H2]. apply Hm in H1 as [H1 _]. congruence.
Qed.
Lemma continue_complete b hello ech ld s s' r : complete s = false ->
  continue_uhandshake supported hk now spare useFallbackMode newPRNG_Intn b hello ech ld s = Ret (s', r) -> complete s' = succeeded r.
Proof.
  intros Hc. unfold continue_uhandshake. do 5 (apply complete_bind; [assumption|stable|]; clear Hc r; let s1 := fresh "s" in intros ? s1 r _ Hc).
  apply complete_bind; [assumption|stable|]. clear r. intros a4 ? r [= <- <-] _. case_match; [|by apply run12_complete].
  apply complete_bind; [assumption|stable|]. clear r. intros hs ? r (-> & Hh & _)%state13_ok _. apply run13_complete. by rewrite Hh.
Qed.
Lemma client_complete s s' r : complete s = false -> uclient s = Ret (s', r) -> complete s' = succeeded r.
Proof.
  intros Hc. unfold clientHandshake. do 6 (apply complete_bind; [assumption|stable|]; clear Hc r; let s1 := fresh "s" in intros ? s1 r _ Hc).
  intros (s6 & Hm & ->)%dropping_calm. by eapply continue_complete.
Qed.

(** ** Handshake *)

Lemma conn_flush_returns (k : Conn.t reader) : exists k' r, Conn.flush k = Ret (k', r) /\ k'.(Conn.isHandshakeComplete) = k.(Conn.isHandshakeComplete) /\
  k'.(Conn.handshakes) = k.(Conn.handshakes) /\ k'.(Conn.handshakeErr) = k.(Conn.handshakeErr).
Proof.
  unfold Conn.flush, mbind, Conn.M_bind, Conn.bind. cbn. case_match; cbn; [by eexists _, _|]. unfold Conn.conn_Write, mbind, Conn.M_bind, Conn.bind, Conn.on. cbn.
  destruct (net.Write _ _) as [n r]. cbn. by eexists _, _.
Qed.
Lemma flush_returns (s : client) : exists s' x, caught (on_c flush) s = Ret (s', inr x) /\ complete s' = complete s /\
  s'.(cn).(tlsConn.conn).(Conn.handshakes) = s.(cn).(tlsConn.conn).(Conn.handshakes) /\
  s'.(cn).(tlsConn.conn).(Conn.handshakeErr) = s.(cn).(tlsConn.conn).(Conn.handshakeErr).
Proof.
  destruct (conn_flush_returns s.(cn).(tlsConn.conn)) as (k & r & Hf & H1 & H2 & H3).
  exists (set_cn (tlsConn.set_conn k s.(cn)) s). unfold caught, on_c, zoom, flush, mbind, E_bind, ebind, on_conn. rewrite Hf. cbn.
  destruct r as [z [e|]]; by eexists.
Qed.

(** C11: what [Handshake] of a new client returns is what its handshake returned: neither
    of the internal errors can happen.  The connection is marked complete and the
    handshake counted exactly when it succeeded, and every further call gives the same
    result and changes nothing. *)
Theorem handshake_result s s1 s2 r : complete s = false -> s.(cn).(tlsConn.conn).(Conn.handshakeErr) = None ->
  s.(cn).(tlsConn.conn).(Conn.isClient) = true ->
  build_state supported now spare useFallbackMode hardware generateRandomizedSpec r_preset s = Ret (s1, inr tt) -> uclient s1 = Ret (s2, r) ->
  let handshake := Handshake supported hk now spare useFallbackMode hardware newPRNG_Intn generateRandomizedSpec r_preset in
  exists s3, handshake s = Ret (s3, r) /\ complete s3 = succeeded r /\
    s3.(cn).(tlsConn.conn).(Conn.handshakes) = s2.(cn).(tlsConn.conn).(Conn.handshakes) + (if succeeded r then 1 else 0) /\
    handshake s3 = Ret (s3, r).
Proof.
  intros Hc He Hi Hb Hr. cbn zeta. assert (Hc1 : complete s1 = false).
  { unfold build_state in Hb. apply ebind_ok in Hb as (s4 & a & Hb & [-> _]%raise_ok). unfold on_u in Hb. destruct (BuildHandshakeState _ _ _ _ _ _ _ _) as [|[u x]]; [done|].
    by injection Hb as <- _. }
  pose proof (client_complete _ _ _ Hc1 Hr) as Hcr. unfold complete in Hc.
  assert (E : caught uclient s1 = Ret (s2, inr r)) by (unfold caught; by rewrite Hr).
  destruct r as [e|[]].
  - set (s3 := set_cn (tlsConn.set_conn (Conn.set_handshakeErr (Some e) s2.(cn).(tlsConn.conn)) s2.(cn)) s2).
    destruct (flush_returns s3) as (s4 & x & Hf & Hf1 & Hf2 & Hf3). exists s4.
    assert (Hc4 : s4.(cn).(tlsConn.conn).(Conn.isHandshakeComplete) = false) by (transitivity (complete s2); [exact Hf1|exact Hcr]).
    split; [|split; [exact Hc4|split; [rewrite Hf2; cbn; lia|]]].
    + unfold Handshake, mbind, E_bind, ebind. cbn. rewrite Hc, He, Hi. cbn. rewrite Hb. cbn. rewrite E. cbn. fold s3. rewrite Hf. cbn. by rewrite Hc4.
    + unfold Handshake, mbind, E_bind, ebind. cbn. rewrite Hc4, Hf3. done.
  - exists (let k := Conn.set_handshakeErr None s2.(cn).(tlsConn.conn) in set_cn (tlsConn.set_conn (Conn.set_handshakes (k.(Conn.handshakes) + 1) k) s2.(cn)) s2).
    split; [|split; [exact Hcr|split; [reflexivity|]]].
    + unfold Handshake, mbind, E_bind, ebind. cbn. rewrite Hc, He, Hi. cbn. rewrite Hb. cbn. rewrite E. cbn. unfold complete in Hcr. rewrite Hcr. reflexivity.
    + unfold Handshake, mbind, E_bind, ebind. cbn. unfold complete in Hcr. by rewrite Hcr.
Qed.

(** ** Encrypted ClientHello with the hello of Go *)

#[local] Existing Instance Session.M_ret.
#[local] Existing Instance Session.M_bind.
Lemma no_outer_ech ech useKey outerExts p u u' r : u.(Exts) = [] ->
  computeAndUpdateOuterECHExtensionWithOuterExts spare useFallbackMode ech useKey outerExts p u = Ret (u', r) -> r.2 <> None.
Proof.
  intros Hx H. unfold computeAndUpdateOuterECHExtensionWithOuterExts in H. apply session_bind_inv in H as (u1 & inner & H1 & H).
  assert (u1 = u) as -> by (destruct (echContext.innerHello _); [by injection H1 as <-|done]). clear H1.
  apply session_bind_inv in H as (u1 & e & H1 & H). unfold Session.lift in H1. destruct (encodeInnerClientHelloReorderOuterExts _ _ _); [done|].
  injection H1 as <- <-. case_match; [by injection H as _ <-|]. apply session_bind_inv in H as (u1 & z & H1 & H). unfold Session.lift in H1.
  destruct (make _); [done|]. injection H1 as <- <-. case_match; [by injection H as _ <-|].
  apply session_bind_inv in H as (u1 & ls & [= <- <-] & H). rewrite Hx in H. apply session_bind_inv in H as (u1 & i & [= <- <-] & H). by injection H as _ <-.
Qed.

Definition same_build (s s' : client) : Prop := s'.(un).(clientHelloBuildStatus) = s.(un).(clientHelloBuildStatus) /\ s'.(un).(Exts) = s.(un).(Exts).
#[local] Instance same_build_preorder : PreOrder same_build.
Proof. split; [done|]. intros s1 s2 s3 [H1 H2] [H3 H4]. split; congruence. Qed.
Lemma build_on_u {A} (m : Session.M A) : (forall u u' a, m u = Ret (u', a) -> u'.(clientHelloBuildStatus) = u.(clientHelloBuildStatus) /\ u'.(Exts) = u.(Exts)) ->
  stable same_build (on_u m).
Proof. intros Hm s s' r. unfold on_u. destruct (m _) as [|[u a]] eqn:E; [done|]. intros [= <- _]. apply Hm in E. exact E. Qed.
Lemma build_load h : stable same_build (on_u (loadSession now h)).
Proof. apply build_on_u. intros u u' a (sc & ca & ->)%loading_session. by destruct u. Qed.
Lemma build_locked h : stable same_build (locked_session h).
Proof. unfold locked_session. stable. Qed.
Lemma build_store ld : stable same_build (store_psk ld).
Proof. unfold store_psk. destruct (ld_session ld); [|stable]. case_match; [|stable]. apply build_on_u. by intros u u' a [= <- _]. Qed.
Lemma build_outer ech h : stable same_build (outer_of ech h).
Proof. unfold outer_of. pose proof (build_on_u (readFull 32)). apply stable_bind; [apply _| |stable]. apply H. intros u u' a. unfold readFull. destruct (ReadFull _ _). by intros [= <- _]. Qed.

Lemma rebuild_fails e h s s' x : s.(un).(Exts) = [] -> rebuild spare useFallbackMode e h s = Ret (s', inr x) -> False.
Proof.
  intros Hx H. unfold rebuild in H. estep H. apply build_outer in Hs as [_ Hb]. rewrite Hx in Hb. estep H.
  assert (Hl : s1.(un).(Exts) = []).
  { unfold on_u, extensionsList, mbind, Session.M_bind, Session.bind in Hs. cbn in Hs. rewrite Hb in Hs. cbn in Hs. by injection Hs as <- _. }
  estep H. unfold on_u in Hs0. destruct (computeAndUpdateOuterECHExtensionWithOuterExts _ _ _ _ _ _ _) as [|[u r]] eqn:E; [done|]. injection Hs0 as <- <-.
  apply no_outer_ech in E; [|exact Hl]. estep H. estep H. by destruct r as [e' [|]].
Qed.

(** A client with the hello of Go and a configuration for Encrypted ClientHello has no
    list of extensions; the code that seals its inner hello looks for one and fails,
    so that no such handshake succeeds. *)
Theorem golang_ech_fails s s' r e : s.(un).(echCtx) = Some e -> s.(un).(clientHelloBuildStatus) = BuildByGoTLS -> s.(un).(Exts) = [] ->
  uclient s = Ret (s', r) -> exists err, r = inl err.
Proof.
  intros He Hst Hx H. destruct r as [err|x]; [by exists err|exfalso]. unfold clientHandshake in H. estep H. estep H. injection Hs as <- _. estep H. estep H.
  match type of Hs0 with _ ?s1 = Ret (?s2, _) => assert (B1 : same_build s1 s2) by (destruct (isSessionLocked _); [by eapply build_locked|by eapply build_load]) end.
  estep H. estep H. apply build_store in Hs2. apply dropping_ok in H. destruct B1 as [B1 B2]. destruct Hs2 as [B3 B4]. cbn in B1, B2.
  unfold continue_uhandshake in H. rewrite He in H. estep H. rewrite B3, B1, Hst in H. estep H. cbn in Hs2. estep Hs2. eapply rebuild_fails; [|eassumption]. congruence.
Qed.
End Facts.

(** * Example *)

#[local] Existing Instance plain_x509.
#[local] Existing Instance plain_verify.
#[local] Existing Instance toy_keys.
#[local] Existing Instance Reference.ops.
#[local] Existing Instance toy_hash.
#[local] Existing Instance toy_x509_keys.
#[local] Existing Instance toy_chains.
#[local] Existing Instance toy_exchange.
#[local] Existing Instance toy_decompressors.
#[local] Existing Instance toy_blocks.

(** The server of Client13 sends its hello first. *)
Definition example_server : bytes :=
  (send_messages [ServerHello example_server_hello] (example_layer VersionTLS13 [] (plain_half VersionTLS13) false)).(Conn.conn).(net.sent) ++
  match setTrafficSecret newAead13 example_suite QUICEncryptionLevelHandshake server_secret (plain_half VersionTLS13) with
  | Ret out => (send_messages [example_parameters; example_certificate; example_signature; example_finished] (example_layer VersionTLS13 [] out false)).(Conn.conn).(net.sent)
  | Panic => []
  end.
(** A client with the hello of Go, which is built, and [reads] from the server. *)
Definition example_client (reads : list (bytes * option connError)) : client (I := lru_cache _) :=
  let k := example_layer 0 reads (plain_half 0) true in
  MkClient
    (tlsConn.Mk (Conn.set_haveVers false k) [] 0 false false false false [] [] [] None None None None false [] [] false (utlsConnExtraFields.Mk [] [] 0) None [] 0%nat)
    (MkConn (UConn.Mk k.(Conn.config) (getPublicPtr example_client_hello) [] 0 [] []) None None 7%nat HelloGolang None [] [] ∅
       sessionController.newSessionController BuildByGoTLS false false (Some (KeySharePrivateKeys.Mk toy_keys X25519 (Some (replicate 32 x05)) None None))
       None None [] [] [] None).
Abbreviation example_run := (clientHandshake (S := toy_signing toy_keys) (I := lru_cache _) utlsSupportedCipherSuites toy_hooks 0 (fun _ => []) false (fun _ => inr 0)).
Example client_works : match example_run (example_client [(example_server, None)]) with Ret (_, inr tt) => true | _ => false end = true.
Proof. vm_compute. reflexivity. Qed.
Example client_cut_off : match example_run (example_client []) with Ret (_, inl _) => true | _ => false end = true.
Proof. vm_compute. reflexivity. Qed.

Lemma handshake_secured_witness : exists s', example_run (example_client [(example_server, None)]) = Ret (s', inr tt) /\
  secured (S := toy_signing toy_keys) utlsSupportedCipherSuites toy_hooks 0 (cfg_of (example_client [(example_server, None)])) s'.
Proof.
  pose proof client_works as H. destruct (example_run _) as [|[s' [e|[]]]] eqn:E; [discriminate|discriminate|].
  exists s'. split; [reflexivity|].
  exact (proj1 (handshake_secured (S := toy_signing toy_keys) utlsSupportedCipherSuites toy_hooks 0 (fun _ => []) false false (fun _ => inr 0) _ s' tt) E).
Defined.

(** It is built already. *)
Lemma example_built reads : build_state (I := lru_cache _) utlsSupportedCipherSuites 0 (fun _ => []) false false (fun id _ _ => (id, Panic)) no_draws (example_client reads) =
  Ret (example_client reads, inr tt).
Proof. reflexivity. Qed.
(** A handshake that succeeds, and one whose server is gone. *)
Lemma handshake_result_witness :
  let handshake := Handshake (S := toy_signing toy_keys) (I := lru_cache _) utlsSupportedCipherSuites toy_hooks 0 (fun _ => []) false false (fun _ => inr 0)
                     (fun id _ _ => (id, Panic)) no_draws in
  (exists s, handshake (example_client [(example_server, None)]) = Ret (s, inr tt) /\ complete s = true /\ handshake s = Ret (s, inr tt)) /\
  (exists s e, handshake (example_client []) = Ret (s, inl e) /\ complete s = false /\ handshake s = Ret (s, inl e)).
Proof.
  intros handshake. split.
  - pose proof client_works as H. destruct (example_run _) as [|[s' [e|[]]]] eqn:E; [discriminate|discriminate|].
    destruct (handshake_result (S := toy_signing toy_keys) utlsSupportedCipherSuites toy_hooks 0 (fun _ => []) false false (fun _ => inr 0)
      (fun id _ _ => (id, Panic)) no_draws (example_client [(example_server, None)]) (example_client [(example_server, None)]) s' (inr tt)) as (s3 & H1 & H2 & _ & H3);
      [reflexivity|reflexivity|reflexivity|apply example_built|exact E|].
    exists s3. split; [exact H1|]. split; [exact H2|exact H3].
  - pose proof client_cut_off as H. destruct (example_run (example_client [])) as [|[s' [e|[]]]] eqn:E; [discriminate| |discriminate].
    destruct (handshake_result (S := toy_signing toy_keys) utlsSupportedCipherSuites toy_hooks 0 (fun _ => []) false false (fun _ => inr 0)
      (fun id _ _ => (id, Panic)) no_draws (example_client []) (example_client []) s' (inl e)) as (s3 & H1 & H2 & _ & H3);
      [reflexivity|reflexivity|reflexivity|apply example_built|exact E|].
    exists s3, e. split; [exact H1|]. split; [exact H2|exact H3].
Defined.
