(* ===== verification/ServerPeer.v ===== *)
(** * What a server does with its client

    Models the parts of handshake_server.go and common.go that the servers of all
    versions share: the configuration, [ClientHelloInfo] and the choice of a
    certificate ([SupportsCertificate], [getCertificate]), [processCertsFromClient],
    and [readClientHello], which processes Encrypted ClientHello and chooses the
    version.

    The verification of a client chain is the class [X509Server]; [strings.ToLower] and
    the ticket keys of the connection (see TicketKeys) are arguments. *)

From S2P Require Import Prelude Cryptobyte Common Config Negotiation Codec Buffer KeySchedule Record Names Messages RawMessages ServerHello ClientHello Ticket TicketKeys Caches Public Extensions Handshake Conn ECH Marshal Shuffle Parrots Session Preset Auth KeyAgreement Peer Client13.

(** ** The configuration of a server *)

Inductive ClientAuthType := NoClientCert | RequestClientCert | RequireAnyClientCert | VerifyClientCertIfGiven | RequireAndVerifyClientCert.
#[export] Instance ClientAuthType_eq_dec : EqDecision ClientAuthType.
Proof. solve_decision. Defined.
Definition requiresClientCert (c : ClientAuthType) : bool :=
  match c with RequireAnyClientCert | RequireAndVerifyClientCert => true | _ => false end.
(** [ClientAuth >= RequestClientCert] and [ClientAuth >= VerifyClientCertIfGiven] *)
Definition requestsClientCert (c : ClientAuthType) : bool := match c with NoClientCert => false | _ => true end.
Definition verifiesClientCert (c : ClientAuthType) : bool :=
  match c with VerifyClientCertIfGiven | RequireAndVerifyClientCert => true | _ => false end.

(** [ClientHelloInfo] without the connection and the context. *)
Module ClientHelloInfo.
Record t := Mk {
  CipherSuites : list Z;
  ServerName : bytes;
  SupportedCurves : list Z;
  SupportedPoints : bytes;
  SignatureSchemes : list Z;
  SupportedProtos : list bytes;
  SupportedVersions : list Z;
  Extensions : list Z;
  config : Config.t
}.
End ClientHelloInfo.

(** Why a chain is not valid, as far as the alert depends on it. *)
Inductive verifyFailure := UnknownAuthorityError | CertificateExpired | OtherVerifyFailure.

(** [Verify] for [ExtKeyUsageClientAuth], the subjects of a pool, and the public key of
    a private key that is a [crypto.Decrypter]. *)
Class X509Server (X : X509) {Ks : Keys} (S : Signing Ks) (XC : X509Chains X S) := {
  x509_VerifyClient : @certificate X -> VerifyOptions (@certificate X) certPool -> (verifyFailure * gerror) + list (list (@certificate X));
  Subjects : certPool -> list bytes;
  Decrypter_Public : @privateKey Ks S -> option public
}.

Section Config.
Context {Ks : Keys} {S : Signing Ks} {X : X509} {XC : X509Chains X S}.

(** The fields of [Config] for servers. *)
Record serverHooks := MkServerHooks {
  ClientAuth : ClientAuthType;
  ClientCAs : option certPool;
  GetCertificate : option (ClientHelloInfo.t -> option KeyPair.t * option connError);
  NameToCertificate : option (bytes -> option KeyPair.t);
  UnwrapSession : option (bytes -> ConnectionState.t X -> connError + option (SessionState.t X));
  WrapSession : option (ConnectionState.t X -> SessionState.t X -> connError + bytes);
  EncryptedClientHelloKeys : list EncryptedClientHelloKey.t
}.
(** A whole [Config]. *)
Record configured := MkConfigured { cfg : Config.t; hk : hooks Ks S X XC; sv : serverHooks }.
End Config.
#[global] Arguments serverHooks Ks S X XC : clear implicits.
#[global] Arguments configured Ks S X XC : clear implicits.

Section Ops.
Context {C : Cryptobyte} {Cs : Ciphers} {K : Crypto} {Ks : Keys} {S : Signing Ks} {X : X509} {V : X509Verify X} {XK : X509Keys X S} {XC : X509Chains X S}
  {XS : X509Server X S XC} {I : ClientSessionCache (session.ptr X)}.
Import tlsConn.
Abbreviation conn_t := tlsConn.t.
Context (supported : list cipherSuite.t) (now : Z) (ToLower : bytes -> bytes).

(** ** The certificate of the server *)

Section SupportsCertificate.
Import ClientHelloInfo.

(** A suite of the version that uses RSA to encrypt, or ECDHE and a signature. *)
Definition rsa_suite (vers : Z) (c : cipherSuite.t) : bool :=
  negb (cipherSuite.has suiteECDHE c) && negb ((vers <? VersionTLS12) && cipherSuite.has suiteTLS12 c).
Definition ecdhe_suite (vers : Z) (ecdsaCipherSuite : bool) (c : cipherSuite.t) : bool :=
  cipherSuite.has suiteECDHE c && Bool.eqb (cipherSuite.has suiteECSign c) ecdsaCipherSuite && negb ((vers <? VersionTLS12) && cipherSuite.has suiteTLS12 c).

Definition supportsRSAFallback (chi : t) (vers : Z) (c : KeyPair.t) (unsupported : gerror) : option gerror :=
  if vers =? VersionTLS13 then Some unsupported else
  match Decrypter_Public c.(KeyPair.PrivateKey) with
  | Some (RSA _) =>
      if non_nil (selectCipherSuite supported chi.(CipherSuites) (config_cipherSuites chi.(config)) (rsa_suite vers)) then None else Some unsupported
  | _ => Some unsupported
  end.

Definition curve_of (c : ellipticCurve) : option Z :=
  match c with P256 => Some CurveP256 | P384 => Some CurveP384 | P521 => Some CurveP521 | OtherCurve => None end.

(** The key of the certificate: the error, or whether it signs with ECDSA. *)
Definition signing_kind (chi : t) (vers : Z) (c : KeyPair.t) : option gerror + bool :=
  let fallback err := inl (supportsRSAFallback chi vers c err) in
  match Signer_Public c.(KeyPair.PrivateKey) with
  | Some (ECDSA pub) =>
      match curve_of (ecdsa_Curve pub) with
      | None => fallback (unsupportedCertificateError c)
      | Some curve =>
          if contains chi.(SupportedCurves) curve && supportsCurve chi.(config) vers curve then inr true
          else inl (Some (ErrorNew "client doesn't support certificate curve"))
      end
  | Some (Ed25519Key _) =>
      if (vers <? VersionTLS12) || (len chi.(SignatureSchemes) =? 0) then inl (Some (ErrorNew "connection doesn't support Ed25519")) else inr true
  | Some (RSA _) => inr false
  | _ => fallback (unsupportedCertificateError c)
  end.

(** [c.leaf()] and the host name; an empty chain is a panic. *)
Definition check_name (chi : t) (c : KeyPair.t) : outcome (option gerror) :=
  if bool_decide (chi.(ServerName) = []) then Ret None else
  match c.(KeyPair.chain).(Certificate.Certificate) with
  | [] => Panic
  | raw :: _ =>
      match ParseCertificate raw with
      | inl _ => Ret (Some (ErrorNew "failed to parse certificate: %w"))
      | inr x => Ret (if VerifyHostname x chi.(ServerName) then None else Some (ErrorNew "certificate is not valid for requested server name: %w"))
      end
  end.

Definition supports_signature (chi : t) (vers : Z) (c : KeyPair.t) : option gerror :=
  let fallback := supportsRSAFallback chi vers c in
  if vers =? VersionTLS13 then None else
  if negb (supportsECDHE chi.(config) vers chi.(SupportedCurves) chi.(SupportedPoints)) then
    fallback (ErrorNew "client doesn't support ECDHE, can only use legacy RSA key exchange") else
  match signing_kind chi vers c with
  | inl err => err
  | inr ecdsaCipherSuite =>
      if non_nil (selectCipherSuite supported chi.(CipherSuites) (config_cipherSuites chi.(config)) (ecdhe_suite vers ecdsaCipherSuite)) then None
      else fallback (ErrorNew "client doesn't support any cipher suites compatible with the certificate")
  end.

Definition SupportsCertificate (chi : t) (c : KeyPair.t) : outcome (option gerror) :=
  match mutualVersion chi.(config) false chi.(SupportedVersions) with
  | None => Ret (Some (ErrorNew "no mutually supported protocol versions"))
  | Some vers =>
      run err := check_name chi c in
      match err with
      | Some err => Ret (Some err)
      | None =>
          Ret (if 0 <? len chi.(SignatureSchemes) then
                 match selectSignatureScheme vers c chi.(SignatureSchemes) with
                 | inl err => supportsRSAFallback chi vers c err
                 | inr _ => supports_signature chi vers c
                 end
               else supports_signature chi vers c)
      end
  end.

Fixpoint first_supported (chi : t) (certs : list KeyPair.t) : outcome (option KeyPair.t) :=
  match certs with
  | [] => Ret None
  | cert :: certs => run err := SupportsCertificate chi cert in match err with None => Ret (Some cert) | Some _ => first_supported chi certs end
  end.

Definition errNoCertificates : gerror := ErrorNew "tls: no certificates configured".

(** [labels[0] = "*"] *)
Fixpoint from_dot (name : bytes) : bytes :=
  match name with [] => [] | b :: r => if b2z b =? dot then name else from_dot r end.
Definition wildcardName (name : bytes) : bytes := [x2a] ++ from_dot name.
Definition named_certificate (byName : bytes -> option KeyPair.t) (name : bytes) : option KeyPair.t :=
  match byName name with
  | Some cert => Some cert
  | None => if 0 <? len name then byName (wildcardName name) else None
  end.

(** The error [None] is [errNoCertificates]. *)
Definition getCertificate (p : configured Ks S X XC) (clientHello : t) : outcome (option connError + KeyPair.t) :=
  let certs := p.(hk).(Certificates) in
  let rest :=
    match certs with
    | [] => Ret (inl None)
    | [cert] => Ret (inr cert)
    | first :: _ =>
        let named := match p.(sv).(NameToCertificate) with Some f => named_certificate f (ToLower clientHello.(ServerName)) | None => None end in
        match named with
        | Some cert => Ret (inr cert)
        | None => run c := first_supported clientHello certs in Ret (inr (default first c))
        end
    end in
  match p.(sv).(GetCertificate) with
  | Some f =>
      if (len certs =? 0) || (0 <? len clientHello.(ServerName)) then
        match f clientHello with
        | (_, Some err) => Ret (inl (Some err))
        | (Some cert, None) => Ret (inr cert)
        | (None, None) => rest
        end
      else rest
  | None => rest
  end.
End SupportsCertificate.

Definition clientHelloInfo (c : conn_t) (clientHello : clientHelloMsg.t) : ClientHelloInfo.t :=
  ClientHelloInfo.Mk clientHello.(clientHelloMsg.cipherSuites) clientHello.(clientHelloMsg.serverName) clientHello.(clientHelloMsg.supportedCurves)
    clientHello.(clientHelloMsg.supportedPoints) clientHello.(clientHelloMsg.supportedSignatureAlgorithms) clientHello.(clientHelloMsg.alpnProtocols)
    (if len clientHello.(clientHelloMsg.supportedVersions) =? 0 then supportedVersionsFromMax clientHello.(clientHelloMsg.vers)
     else clientHello.(clientHelloMsg.supportedVersions))
    clientHello.(clientHelloMsg.extensions) (Peer.config c).

(** ** The certificates of the client *)

Fixpoint parse_client_certs (certificates : list bytes) : E conn_t (list certificate) :=
  match certificates with
  | [] => eret []
  | asn1Data :: rest =>
      match ParseCertificate asn1Data with
      | inl _ => abort_with alertBadCertificate "tls: failed to parse client certificate: "
      | inr cert =>
          (match x509_PublicKey cert with
           | RSA k =>
               let (max, ok) := checkKeySize (rsa_BitLen k) in
               when (negb ok) (abort alertBadCertificate (Plain (Errorf "tls: client sent certificate containing RSA key larger than %d bits" [max])))
           | _ => eret tt
           end) ;;
          certs ← parse_client_certs rest;
          eret (cert :: certs)
      end
  end.

Definition failure_alert (f : verifyFailure) : Z :=
  match f with UnknownAuthorityError => alertUnknownCA | CertificateExpired => alertCertificateExpired | OtherVerifyFailure => alertBadCertificate end.

Definition verify_client_chain (p : configured Ks S X XC) (leaf : certificate) (rest : list certificate) : E conn_t unit :=
  match x509_VerifyClient leaf (MkVerify p.(sv).(ClientCAs) now [] rest) with
  | inl (f, e) => abort (failure_alert f) (WrapError "tls: failed to verify certificate: " (Plain e))
  | inr chains => emodify (set_verifiedChains chains)
  end.

Definition processCertsFromClient (p : configured Ks S X XC) (cert : Certificate.t) : E conn_t unit :=
  certs ← parse_client_certs cert.(Certificate.Certificate);
  c ← state;
  let auth := p.(sv).(ClientAuth) in
  if (len certs =? 0) && requiresClientCert auth then
    abort_with (if vers c =? VersionTLS13 then alertCertificateRequired else alertBadCertificate) "tls: client didn't provide a certificate"
  else
  (match certs with
   | leaf :: rest => when (verifiesClientCert auth) (verify_client_chain p leaf rest)
   | [] => eret tt
   end) ;;
  emodify (fun c => set_scts cert.(Certificate.SignedCertificateTimestamps) (set_ocspResponse cert.(Certificate.OCSPStaple) (set_peerCertificates certs c))) ;;
  (match certs with
   | leaf :: _ => when (negb (supported_key (x509_PublicKey leaf)))
       (abort_with alertUnsupportedCertificate "tls: client certificate contains an unsupported public key of type %T")
   | [] => eret tt
   end) ;;
  c ← state;
  callback p.(hk).(VerifyPeerCertificate) (fun f => f cert.(Certificate.Certificate) c.(verifiedChains)).

(** ** Tickets *)

(** A new message. *)
Definition new_serverHello : serverHelloMsg.t :=
  serverHelloMsg.Mk None 0 [] [] 0 0 false false false [] false [] [] 0 (keyShare.Mk 0 []) false 0 [] None false None 0 false [].

(** The session of a ticket, if there is one. *)
Definition unwrap_session {T : TicketCrypto} (p : configured Ks S X XC) (ticketKeys : list ticketKey.t) (ticket : bytes) : E conn_t (option (SessionState.t X)) :=
  match p.(sv).(UnwrapSession) with
  | Some unwrap => c ← state; match unwrap ticket (connectionStateLocked c) with inl err => throw err | inr ss => eret ss end
  | None =>
      eret (plaintext ← decryptTicket ticket ticketKeys;
            match SessionState.ParseSessionState plaintext with inl _ => None | inr ss => Some ss end)
  end.

Definition ticket_expired (ss : SessionState.t X) : bool :=
  maxSessionTicketLifetime <? Sub now (int64 ss.(SessionState.createdAt) * second).

(** The certificates of the client in a session are what the configuration asks for. *)
Definition session_certs_ok (p : configured Ks S X XC) (ss : SessionState.t X) : bool :=
  let auth := p.(sv).(ClientAuth) in
  let certs := ss.(SessionState.peerCertificates) in
  let sessionHasClientCerts := negb (len certs =? 0) in
  negb (requiresClientCert auth && negb sessionHasClientCerts) &&
  negb (sessionHasClientCerts && negb (requestsClientCert auth)) &&
  negb (match certs with leaf :: _ => NotAfter leaf <? now | [] => false end) &&
  negb (sessionHasClientCerts && verifiesClientCert auth && (len ss.(SessionState.verifiedChains) =? 0)).

(** The ticket of a session: [WrapSession] of the configuration, or the state that
    [encryptTicket] encrypts with the first key and an IV of sixteen bytes.  In TLS 1.3
    a state that is not marshalled is answered with an alert. *)
Definition wrap_session {T : TicketCrypto} (p : configured Ks S X XC) (ticketKeys : list ticketKey.t) (tls13 : bool) (st : SessionState.t X) : E conn_t bytes :=
  match p.(sv).(WrapSession) with
  | Some wrap => c ← state; match wrap (connectionStateLocked c) st with inl err => throw err | inr ticket => eret ticket end
  | None =>
      match SessionState.Bytes_ st with
      | inl err => if tls13 then abort alertInternalError (Plain err) else throw (Plain err)
      | inr stateBytes =>
          match ticketKeys with
          | [] => eres (encryptTicket None stateBytes [])
          | _ =>
              iv ← draws (draw (ReadFull 16));
              iv ← eres iv;
              eres (encryptTicket (Some iv) stateBytes ticketKeys)
          end
      end
  end.

(** ** The ClientHello *)

Section Read.
(** Encrypted ClientHello, [GetConfigForClient] and [ticketKeys]. *)
Context {PrivKey HpkeContext : Type} (ParseHPKEPrivateKey : Z -> bytes -> res PrivKey)
  (SetupReceipient : Z -> Z -> Z -> PrivKey -> bytes -> bytes -> res HpkeContext) (Open : HpkeContext -> bytes -> bytes -> HpkeContext * res bytes)
  (GetConfigForClient : option (ClientHelloInfo.t -> connError + option (configured Ks S X XC)))
  (ticketKeys : option (configured Ks S X XC) -> list ticketKey.t).

Definition process_ech (p : configured Ks S X XC) (clientHello : clientHelloMsg.t) : E conn_t (clientHelloMsg.t * option (@echServerContext HpkeContext)) :=
  if len clientHello.(clientHelloMsg.encryptedClientHello) =? 0 then eret (clientHello, None) else
  r ← elift (processECHClientHello ParseHPKEPrivateKey SetupReceipient Open p.(sv).(EncryptedClientHelloKeys) clientHello);
  (match r.(alert_sent) with Some a => alert a | None => eret tt end) ;;
  when r.(ECH.echAccepted) (emodify (set_echAccepted true)) ;;
  eres r.(result).

(** The configuration for this client, which replaces that of the connection. *)
Definition config_for_client (p : configured Ks S X XC) (clientHello : clientHelloMsg.t) : E conn_t (option (configured Ks S X XC)) :=
  match GetConfigForClient with
  | None => eret None
  | Some f =>
      c ← state;
      match f (clientHelloInfo c clientHello) with
      | inl err => abort alertInternalError err
      | inr None => eret None
      | inr (Some q) => emodify (fun c => set_conn (Conn.set_config q.(cfg) c.(conn)) c) ;; eret (Some q)
      end
  end.

(** The hello, the context of Encrypted ClientHello, the configuration and the keys for
    tickets. *)
Definition readClientHello (p : configured Ks S X XC)
    : E conn_t (clientHelloMsg.t * option (@echServerContext HpkeContext) * configured Ks S X XC * list ticketKey.t) :=
  r ← readHandshake false;
  match r.2 with
  | ClientHello clientHello =>
      q ← process_ech p clientHello;
      let clientHello := q.1 in let ech := q.2 in
      configForClient ← config_for_client p clientHello;
      let keys := ticketKeys configForClient in
      let p := default p configForClient in
      let clientVersions := if len clientHello.(clientHelloMsg.supportedVersions) =? 0 then supportedVersionsFromMax clientHello.(clientHelloMsg.vers)
                            else clientHello.(clientHelloMsg.supportedVersions) in
      c ← state;
      match mutualVersion (Peer.config c) false clientVersions with
      | None => abort alertProtocolVersion (Plain (Errorf "tls: client offered only unsupported versions: %x" clientVersions))
      | Some v =>
          emodify (fun c =>
            let k := c.(conn) in
            set_conn (Conn.set_out (halfConn.set_version v k.(Conn.out)) (Conn.set_in_ (halfConn.set_version v k.(Conn.in_))
              (Conn.set_haveVers true (Conn.set_vers v k)))) c) ;;
          let outer := match ech with Some (ServerOuter _ _ _) => true | _ => false end in
          if negb (v =? VersionTLS13) && outer then abort_with alertIllegalParameter "tls: Encrypted Client Hello cannot be used pre-TLS 1.3"
          else eret (clientHello, ech, p, keys)
      end
  | _ => abort alertUnexpectedMessage unexpectedMessageError
  end.
End Read.
End Ops.
