(* ===== verification/ServerPeerFacts.v ===== *)
(** * What a server knows of its client

    Theorems on ServerPeer: what [processCertsFromClient] has checked when it succeeds,
    and what the operations of a server leave alone. *)

From S2P Require Import Prelude Cryptobyte Common Config Negotiation Codec Buffer KeySchedule Record Names Messages RawMessages ServerHello ClientHello Ticket TicketKeys Caches Public Extensions Handshake Conn ConnFacts ConnFrame ECH Marshal Shuffle Parrots Session Preset Auth KeyAgreement Peer PeerFacts Client13 ServerPeer.

(** ** A flag that says whether a computation has succeeded *)

Section Decides.
Context {S : Type} (flag : S -> bool).

Definition decides {A} (m : E S A) : Prop := forall s s' r, flag s = false -> m s = Ret (s', r) -> flag s' = match r with inr _ => true | inl _ => false end.

Lemma decides_bind {A B} (m : E S A) (k : A -> E S B) : stable (fun s s' => flag s' = flag s) m -> (forall a, decides (k a)) -> decides (mbind k m).
Proof.
  intros Hm Hk s s' r Hs [(e & H & ->)|(s1 & a & H1 & H2)]%ebind_inv; [by rewrite (Hm _ _ _ H)|]. eapply Hk; [|exact H2]. by rewrite (Hm _ _ _ H1).
Qed.
Lemma decides_modify f : (forall s, flag (f s) = true) -> decides (emodify f).
Proof. intros Hf s s' r _ [= <- <-]. apply Hf. Qed.
End Decides.

Section Facts.
Context {C : Cryptobyte} {Cs : Ciphers} {K : Crypto} {Ks : Keys} {S : Signing Ks} {X : X509} {V : X509Verify X} {XK : X509Keys X S} {XC : X509Chains X S}
  {XS : X509Server X S XC} {I : ClientSessionCache (session.ptr X)}.
Import tlsConn.
Context (now : Z).
Implicit Types (p : configured Ks S X XC) (c : tlsConn.t).

(** ** The certificates of the client *)

(** What the server has checked of the certificates that a client presents. *)
Record presented p (certificates : list bytes) (peer : list certificate) (chains : list (list certificate)) : Prop := {
  pr_parsed : Forall2 (fun b x => ParseCertificate b = inr x) certificates peer;
  pr_required : requiresClientCert p.(sv).(ClientAuth) = true -> peer <> [];
  pr_chain : forall leaf rest, peer = leaf :: rest -> verifiesClientCert p.(sv).(ClientAuth) = true ->
    x509_VerifyClient leaf (MkVerify p.(sv).(ClientCAs) now [] rest) = inr chains;
  pr_key : forall leaf rest, peer = leaf :: rest -> supported_key (x509_PublicKey leaf) = true;
  pr_callback : forall f, p.(hk).(VerifyPeerCertificate) = Some f -> f certificates chains = None
}.

Lemma parse_client_certs_ok l c c' certs : parse_client_certs l c = Ret (c', inr certs) ->
  c' = c /\ Forall2 (fun b x => ParseCertificate b = inr x) l certs.
Proof.
  revert c c' certs. induction l as [|b l IH]; intros c c' certs; cbn [parse_client_certs]; [by intros [= <- <-]|].
  destruct (ParseCertificate b) as [|x] eqn:E; [by intros ?%abort_ok|]. intros H. estep H.
  assert (s = c) as ->.
  { destruct (x509_PublicKey x); try by injection Hs as <-. apply when_ok in Hs as [_ ->]; [done|]. intros ???. apply abort_ok. }
  estep H. injection H as <- <-. apply IH in Hs0 as [-> Hl]. split; [done|]. by constructor.
Qed.

Lemma verify_client_chain_ok p leaf rest c c' x : verify_client_chain now p leaf rest c = Ret (c', inr x) ->
  exists chains, x509_VerifyClient leaf (MkVerify p.(sv).(ClientCAs) now [] rest) = inr chains /\ c' = set_verifiedChains chains c.
Proof.
  unfold verify_client_chain. destruct (x509_VerifyClient _ _) as [[f e]|chains]; [by intros ?%abort_ok|]. intros [= <- _]. by exists chains.
Qed.

Lemma processCertsFromClient_ok p cert c c' x : processCertsFromClient now p cert c = Ret (c', inr x) ->
  exists peer chains, presented p cert.(Certificate.Certificate) peer chains /\
    (verifiesClientCert p.(sv).(ClientAuth) = false -> chains = c.(verifiedChains)) /\
    c' = set_scts cert.(Certificate.SignedCertificateTimestamps) (set_ocspResponse cert.(Certificate.OCSPStaple)
      (set_peerCertificates peer (set_verifiedChains chains c))).
Proof.
  unfold processCertsFromClient. intros H. estep H. rename a into certs. apply parse_client_certs_ok in Hs as [-> Hp]. estep H.
  case_match eqn:Er; [by apply abort_ok in H|]. estep H.
  assert (exists chains, s = set_verifiedChains chains c /\ (verifiesClientCert p.(sv).(ClientAuth) = false -> chains = c.(verifiedChains)) /\
    forall leaf rest, certs = leaf :: rest -> verifiesClientCert p.(sv).(ClientAuth) = true ->
      x509_VerifyClient leaf (MkVerify p.(sv).(ClientCAs) now [] rest) = inr chains) as (chains & -> & Hn & Hv).
  { assert (Hskip : s = c -> certs = [] \/ verifiesClientCert p.(sv).(ClientAuth) = false -> exists chains, s = set_verifiedChains chains c /\
      (verifiesClientCert p.(sv).(ClientAuth) = false -> chains = c.(verifiedChains)) /\
      forall leaf rest, certs = leaf :: rest -> verifiesClientCert p.(sv).(ClientAuth) = true ->
        x509_VerifyClient leaf (MkVerify p.(sv).(ClientCAs) now [] rest) = inr chains).
    { intros -> Hn. exists c.(verifiedChains). split; [by destruct c|]. split; [done|]. intros leaf rest Hl Hv. destruct Hn; congruence. }
    destruct certs as [|leaf rest]; [injection Hs as <-; by auto|]. unfold when in Hs. destruct (verifiesClientCert _); [|injection Hs as <-; by auto].
    apply verify_client_chain_ok in Hs as (chains & Hc & ->). exists chains. split; [done|]. split; [done|]. by intros ?? [= <- <-]. }
  estep H. estep H. assert (s = set_scts cert.(Certificate.SignedCertificateTimestamps) (set_ocspResponse cert.(Certificate.OCSPStaple) (set_peerCertificates certs (set_verifiedChains chains c))) /\
    forall leaf rest, certs = leaf :: rest -> supported_key (x509_PublicKey leaf) = true) as [-> Hk].
  { destruct certs as [|leaf rest]; [by injection Hs0 as <-|]. apply when_ok in Hs0 as [Hb ->]; [|by intros ??? ?%abort_ok].
    apply negb_false_iff in Hb. split; [done|]. by intros ?? [= <- <-]. }
  estep H. apply callback_ok in H as [-> Hf]. exists certs, chains. split; [|by split]. constructor; [done| |done|done|exact Hf].
  intros Hr ->. by rewrite Hr in Er.
Qed.

(** A certificate is there when one is required, and none when none is asked for. *)
Lemma session_certs p ss : session_certs_ok now p ss = true ->
  let peer := ss.(SessionState.peerCertificates) in
  (requiresClientCert p.(sv).(ClientAuth) = true -> peer <> []) /\ (requestsClientCert p.(sv).(ClientAuth) = false -> peer = []) /\
  (forall leaf rest, peer = leaf :: rest -> now <= NotAfter leaf /\ (verifiesClientCert p.(sv).(ClientAuth) = true -> ss.(SessionState.verifiedChains) <> [])).
Proof.
  unfold session_certs_ok. rewrite !andb_true_iff, !negb_true_iff. intros (((H1 & H2) & H3) & H4). cbn zeta.
  destruct (SessionState.peerCertificates ss) as [|leaf rest] eqn:E.
  - cbn in H1. rewrite andb_true_r in H1. split; [congruence|]. by split.
  - assert (Hn : negb (len (leaf :: rest) =? 0) = true) by (apply negb_true_iff, Z.eqb_neq; unfold len; cbn; lia). rewrite Hn in *. cbn [andb] in *.
    split; [done|]. split; [destruct (requestsClientCert _); [done|discriminate]|]. intros ?? [= <- <-]. split; [by apply Z.ltb_ge|]. intros Hv. rewrite Hv in H4. cbn in H4.
    intros Hz. by rewrite Hz in H4.
Qed.

(** ** Messages that are written *)

(** What goes to the transcript is the message. *)
Lemma writeHandshakeRecord_wrote m c c' w : writeHandshakeRecord m c = Ret (c', inr (w, None)) -> marshal m = Ret (inr w).
Proof.
  unfold writeHandshakeRecord. intros H. estep H. injection H as _ Hw He. subst w. unfold on_conn in Hs.
  destruct (Conn.writeHandshakeRecord _ _ _ _) as [|[k r]] eqn:E; [done|]. injection Hs as _ <-. unfold Conn.writeHandshakeRecord in E.
  apply bind_inv in E as (k1 & d & Hd & E). unfold Conn.lift in Hd. destruct (marshal m) as [|d']; [done|]. injection Hd as _ <-.
  destruct d' as [e|data]; [injection E as _ <-; discriminate He|]. apply bind_inv in E as (k2 & w & _ & E). by injection E as _ <-.
Qed.

(** ** What is left alone *)

Hint Resolve layer_abort layer_abort_with layer_abort_alert layer_readHandshake layer_draws : stable.

Lemma layer_unwrap {T : TicketCrypto} p keys ticket : stable layer (unwrap_session p keys ticket).
Proof. unfold unwrap_session. stable. Qed.
Lemma layer_wrap {T : TicketCrypto} p keys b st : stable layer (wrap_session p keys b st).
Proof. unfold wrap_session. stable. Qed.

Section Process.
Context (R : relation tlsConn.t) {HR : PreOrder R}.
Context (R_layer : forall c c', layer c c' -> R c c') (R_chains : forall c l, R c (set_verifiedChains l c))
  (R_certs : forall c l o s, R c (set_scts s (set_ocspResponse o (set_peerCertificates l c)))).
Hint Resolve stable_abort stable_abort_with stable_callback : stable.
Lemma stable_parse_client l : stable R (parse_client_certs l).
Proof. induction l as [|b l IH]; cbn [parse_client_certs]; stable. Qed.
Lemma stable_client_chain p leaf rest : stable R (verify_client_chain now p leaf rest).
Proof. unfold verify_client_chain. stable. Qed.
Hint Resolve stable_parse_client stable_client_chain : stable.
Lemma stable_process p cert : stable R (processCertsFromClient now p cert).
Proof. unfold processCertsFromClient. stable. Qed.
End Process.
End Facts.
