(* ===== verification/Server12.v ===== *)
(** * The server up to TLS 1.2

    Models the handshake of a server in handshake_server.go, one definition per method
    of [serverHandshakeState]: the answer to the hello, resumption from a ticket, the
    full handshake with certificates of both sides, the keys, the Finished messages and
    the tickets.  The choice of the cipher suite is that of Negotiation. *)

From S2P Require Import Prelude Cryptobyte Common Config Negotiation Codec Buffer KeySchedule Record Names Messages RawMessages ServerHello ClientHello Ticket TicketKeys Caches Public Extensions Handshake Conn Suites ECH Marshal Shuffle Parrots Session Preset Auth KeyAgreement Peer Client12 Client13 Client ServerPeer.

(** ** The state *)

(** [serverHandshakeState]; the fields that the choice of a suite reads are those of
    Negotiation. *)
Module serverState12.
Record t {Cs : Ciphers} {Ks : Keys} {S : Signing Ks} {X : X509} {I : ClientSessionCache (session.ptr X)} := Mk {
  c : tlsConn.t;
  clientHello : clientHelloMsg.t;
  hello : serverHelloMsg.t;
  suite : option cipherSuite.t;
  ecdheOk : bool;
  ecSignOk : bool;
  rsaDecryptOk : bool;
  rsaSignOk : bool;
  sessionState : option (SessionState.t X);
  finishedHash : option finishedHash12.t;
  masterSecret : bytes;
  cert : option KeyPair.t
}.
#[global] Arguments t {Cs Ks S X I}.
#[global] Arguments Mk {Cs Ks S X I}.
Section Set_.
Context {Cs : Ciphers} {Ks : Keys} {S : Signing Ks} {X : X509} {I : ClientSessionCache (session.ptr X)}.
Definition set_c (v : tlsConn.t) (s : t) : t :=
  Mk v s.(clientHello) s.(hello) s.(suite) s.(ecdheOk) s.(ecSignOk) s.(rsaDecryptOk) s.(rsaSignOk)
    s.(sessionState) s.(finishedHash) s.(masterSecret) s.(cert).
Definition set_clientHello (v : clientHelloMsg.t) (s : t) : t :=
  Mk s.(c) v s.(hello) s.(suite) s.(ecdheOk) s.(ecSignOk) s.(rsaDecryptOk) s.(rsaSignOk)
    s.(sessionState) s.(finishedHash) s.(masterSecret) s.(cert).
Definition set_hello (v : serverHelloMsg.t) (s : t) : t :=
  Mk s.(c) s.(clientHello) v s.(suite) s.(ecdheOk) s.(ecSignOk) s.(rsaDecryptOk) s.(rsaSignOk)
    s.(sessionState) s.(finishedHash) s.(masterSecret) s.(cert).
Definition set_suite (v : option cipherSuite.t) (s : t) : t :=
  Mk s.(c) s.(clientHello) s.(hello) v s.(ecdheOk) s.(ecSignOk) s.(rsaDecryptOk) s.(rsaSignOk)
    s.(sessionState) s.(finishedHash) s.(masterSecret) s.(cert).
Definition set_ecdheOk (v : bool) (s : t) : t :=
  Mk s.(c) s.(clientHello) s.(hello) s.(suite) v s.(ecSignOk) s.(rsaDecryptOk) s.(rsaSignOk)
    s.(sessionState) s.(finishedHash) s.(masterSecret) s.(cert).
Definition set_ecSignOk (v : bool) (s : t) : t :=
  Mk s.(c) s.(clientHello) s.(hello) s.(suite) s.(ecdheOk) v s.(rsaDecryptOk) s.(rsaSignOk)
    s.(sessionState) s.(finishedHash) s.(masterSecret) s.(cert).
Definition set_rsaDecryptOk (v : bool) (s : t) : t :=
  Mk s.(c) s.(clientHello) s.(hello) s.(suite) s.(ecdheOk) s.(ecSignOk) v s.(rsaSignOk)
    s.(sessionState) s.(finishedHash) s.(masterSecret) s.(cert).
Definition set_rsaSignOk (v : bool) (s : t) : t :=
  Mk s.(c) s.(clientHello) s.(hello) s.(suite) s.(ecdheOk) s.(ecSignOk) s.(rsaDecryptOk) v
    s.(sessionState) s.(finishedHash) s.(masterSecret) s.(cert).
Definition set_sessionState (v : option (SessionState.t X)) (s : t) : t :=
  Mk s.(c) s.(clientHello) s.(hello) s.(suite) s.(ecdheOk) s.(ecSignOk) s.(rsaDecryptOk)
    s.(rsaSignOk) v s.(finishedHash) s.(masterSecret) s.(cert).
Definition set_finishedHash (v : option finishedHash12.t) (s : t) : t :=
  Mk s.(c) s.(clientHello) s.(hello) s.(suite) s.(ecdheOk) s.(ecSignOk) s.(rsaDecryptOk)
    s.(rsaSignOk) s.(sessionState) v s.(masterSecret) s.(cert).
Definition set_masterSecret (v : bytes) (s : t) : t :=
  Mk s.(c) s.(clientHello) s.(hello) s.(suite) s.(ecdheOk) s.(ecSignOk) s.(rsaDecryptOk)
    s.(rsaSignOk) s.(sessionState) s.(finishedHash) v s.(cert).
Definition set_cert (v : option KeyPair.t) (s : t) : t :=
  Mk s.(c) s.(clientHello) s.(hello) s.(suite) s.(ecdheOk) s.(ecSignOk) s.(rsaDecryptOk)
    s.(rsaSignOk) s.(sessionState) s.(finishedHash) s.(masterSecret) v.
End Set_.
End serverState12.

Section Ops.
Context {C : Cryptobyte} {Cs : Ciphers} {B : BlockCiphers Cs} {K : Crypto} {Ks : Keys} {S : Signing Ks} {X : X509} {V : X509Verify X} {XK : X509Keys X S}
  {XC : X509Chains X S} {XS : X509Server X S XC} {I : ClientSessionCache (session.ptr X)} {E_ : KeyExchange Ks} {T : TicketCrypto}.
Import serverState12.
Abbreviation hs_t := serverState12.t.

(** The suites that are known, whether AES is fast, the configuration of this client,
    the time, [strings.ToLower], and [c.ticketKeys]. *)
Context (supported : list cipherSuite.t) (hardware : bool) (p : configured Ks S X XC) (now : Z) (ToLower : bytes -> bytes)
  (ticketKeys : list ticketKey.t).

(** ** Stateful code *)

Definition onc {A} (m : E tlsConn.t A) : E hs_t A := zoom c set_c m.
Definition conn_field {A} (f : tlsConn.t -> A) : E hs_t A := gets (fun hs => f hs.(c)).
Definition modify_conn (f : tlsConn.t -> tlsConn.t) : E hs_t unit := emodify (fun hs => set_c (f hs.(c)) hs).
Definition modify_layer (f : Conn.t reader -> Conn.t reader) : E hs_t unit :=
  modify_conn (fun c => tlsConn.set_conn (f c.(tlsConn.conn)) c).
Definition modify_hello (f : serverHelloMsg.t -> serverHelloMsg.t) : E hs_t unit := emodify (fun hs => set_hello (f hs.(hello)) hs).
Definition suite_of : E hs_t cipherSuite.t := hs ← state; ederef hs.(suite).
Definition cert_of : E hs_t KeyPair.t := hs ← state; ederef hs.(cert).
Definition the_hash : E hs_t finishedHash12.t := hs ← state; ederef hs.(finishedHash).
(** A length that the PRF delivers, see [p_hash_rfc]. *)
Definition derived (o : outcome (option bytes)) : E hs_t bytes := r ← elift o; ederef r.

Definition write_hash (b : bytes) : E hs_t unit :=
  h ← the_hash; h ← elift (finishedHash12.Write h b); emodify (set_finishedHash (Some h)).
Definition transcript_msg (m : handshakeMessage) : E hs_t unit := r ← elift (transcriptMsg m); b ← eres r; write_hash b.
Definition read_message : E hs_t handshakeMessage := r ← onc (readHandshake true); write_hash r.1 ;; eret r.2.
Definition write_message (m : handshakeMessage) : E hs_t unit := r ← onc (writeHandshakeRecord m); write_hash r.1 ;; raise r.2.
Definition unexpected {A} : E hs_t A := onc (abort alertUnexpectedMessage unexpectedMessageError).
Definition fail_with {A} (a : Z) (msg : string) : E hs_t A := onc (abort_with a msg).

(** ** The ClientHello *)

(** The random of the server, which ends with a canary when the version is below what
    the server supports. *)
Definition server_random : E hs_t bytes :=
  c ← conn_field id;
  let maxVers := maxSupportedVersion (Peer.config c) false in
  let canary := if (VersionTLS12 <=? maxVers) && (vers c <? maxVers)
                then (if vers c =? VersionTLS12 then downgradeCanaryTLS12 else downgradeCanaryTLS11) else [] in
  r ← onc (draws (draw (ReadFull (32 - len canary))));
  match r with
  | inl err => onc (abort alertInternalError (Plain err))
  | inr b => eret (b ++ canary)
  end.

(** What the key of the certificate can do. *)
Definition key_abilities : E hs_t unit :=
  cert ← cert_of;
  match Signer_Public cert.(KeyPair.PrivateKey) with
  | None => eret tt
  | Some (ECDSA _) | Some (Ed25519Key _) => emodify (set_ecSignOk true)
  | Some (RSA _) => emodify (set_rsaSignOk true)
  | Some OtherPublic => fail_with alertInternalError "tls: unsupported signing key type (%T)"
  end ;;
  match Decrypter_Public cert.(KeyPair.PrivateKey) with
  | None => eret tt
  | Some (RSA _) => emodify (set_rsaDecryptOk true)
  | Some _ => fail_with alertInternalError "tls: unsupported decryption key type (%T)"
  end.

Definition choose_certificate : E hs_t unit :=
  hs ← state;
  r ← elift (getCertificate supported ToLower p (clientHelloInfo hs.(c) hs.(clientHello)));
  match r with
  | inl None => onc (abort alertUnrecognizedName (Plain errNoCertificates))
  | inl (Some err) => onc (abort alertInternalError err)
  | inr cert => emodify (set_cert (Some cert))
  end.

Definition processClientHello : E hs_t unit :=
  v ← conn_field vers;
  emodify (set_hello (serverHelloMsg.set_vers v new_serverHello)) ;;
  hs ← state;
  let ch := hs.(clientHello) in
  if negb (bool_decide (compressionNone ∈ ch.(clientHelloMsg.compressionMethods))) then
    fail_with alertHandshakeFailure "tls: client does not support uncompressed connections" else
  random ← server_random;
  modify_hello (serverHelloMsg.set_random random) ;;
  if negb (len ch.(clientHelloMsg.secureRenegotiation) =? 0) then
    fail_with alertHandshakeFailure "tls: initial handshake had non-empty renegotiation extension" else
  modify_hello (fun m => serverHelloMsg.set_compressionMethod (b2z compressionNone)
    (serverHelloMsg.set_secureRenegotiationSupported ch.(clientHelloMsg.secureRenegotiationSupported)
      (serverHelloMsg.set_extendedMasterSecret ch.(clientHelloMsg.extendedMasterSecret) m))) ;;
  when (0 <? len ch.(clientHelloMsg.serverName)) (modify_conn (tlsConn.set_serverName ch.(clientHelloMsg.serverName))) ;;
  match negotiateALPN (Peer.config hs.(c)).(Config.NextProtos) ch.(clientHelloMsg.alpnProtocols) false with
  | inl err => onc (abort alertNoApplicationProtocol (Plain err))
  | inr selectedProto =>
      modify_hello (serverHelloMsg.set_alpnProtocol selectedProto) ;;
      modify_conn (tlsConn.set_clientProtocol selectedProto)
  end ;;
  choose_certificate ;;
  cert ← cert_of;
  when ch.(clientHelloMsg.scts)
    (modify_hello (serverHelloMsg.set_scts (default [] cert.(KeyPair.chain).(Certificate.SignedCertificateTimestamps)))) ;;
  let ok := supportsECDHE (Peer.config hs.(c)) v ch.(clientHelloMsg.supportedCurves) ch.(clientHelloMsg.supportedPoints) in
  emodify (set_ecdheOk ok) ;;
  when (ok && (0 <? len ch.(clientHelloMsg.supportedPoints))) (modify_hello (serverHelloMsg.set_supportedPoints [pointFormatUncompressed])) ;;
  key_abilities.

(** ** The cipher suite *)

(** What the choice of a suite looks at. *)
Definition negotiation (hs : hs_t) : serverHandshakeState.t :=
  serverHandshakeState.Mk (Peer.config hs.(c)) (vers hs.(c)) hs.(clientHello).(clientHelloMsg.vers) hs.(clientHello).(clientHelloMsg.cipherSuites)
    hs.(ecdheOk) hs.(ecSignOk) hs.(rsaSignOk) hs.(rsaDecryptOk).

Definition pickCipherSuite : E hs_t unit :=
  hs ← state;
  let offered := hs.(clientHello).(clientHelloMsg.cipherSuites) in
  let suite := selectCipherSuite supported (server_preferences hardware supported (negotiation hs)) offered (cipherSuiteOk (negotiation hs)) in
  emodify (set_suite suite) ;;
  match suite with
  | None => fail_with alertHandshakeFailure "tls: no cipher suite supported by both client and server"
  | Some s =>
      modify_layer (Conn.set_cipherSuite s.(cipherSuite.id)) ;;
      when (contains offered TLS_FALLBACK_SCSV && (hs.(clientHello).(clientHelloMsg.vers) <? maxSupportedVersion (Peer.config hs.(c)) false))
        (fail_with alertInappropriateFallback "tls: client using inappropriate protocol fallback")
  end.

(** ** Resumption *)

(** The suite to resume a session with, for a session that can be resumed. *)
Definition resumable (hs : hs_t) (ss : SessionState.t X) : option cipherSuite.t :=
  if ticket_expired now ss then None else
  if negb (vers hs.(c) =? ss.(SessionState.version)) then None else
  if negb (contains hs.(clientHello).(clientHelloMsg.cipherSuites) ss.(SessionState.cipherSuite)) then None else
  suite ← selectCipherSuite supported [ss.(SessionState.cipherSuite)] (config_cipherSuites (Peer.config hs.(c))) (cipherSuiteOk (negotiation hs));
  if session_certs_ok now p ss then Some suite else None.

Definition checkForResumption : E hs_t unit :=
  hs ← state;
  if (Peer.config hs.(c)).(Config.SessionTicketsDisabled) then eret tt else
  ss ← onc (unwrap_session p ticketKeys hs.(clientHello).(clientHelloMsg.sessionTicket));
  match ss with
  | None => eret tt
  | Some ss =>
      match resumable hs ss with
      | None => eret tt
      | Some suite =>
          let ems := hs.(clientHello).(clientHelloMsg.extendedMasterSecret) in
          if negb ss.(SessionState.extMasterSecret) && ems then eret tt else
          if ss.(SessionState.extMasterSecret) && negb ems then fail "tls: session supported extended_master_secret but client does not" else
          modify_conn (fun c =>
            let c := tlsConn.set_peerCertificates ss.(SessionState.peerCertificates) c in
            let c := tlsConn.set_ocspResponse ss.(SessionState.ocspResponse) c in
            let c := tlsConn.set_scts ss.(SessionState.scts) c in
            let c := tlsConn.set_verifiedChains ss.(SessionState.verifiedChains) c in
            let c := tlsConn.set_extMasterSecret ss.(SessionState.extMasterSecret) c in
            tlsConn.set_didResume true c) ;;
          emodify (fun hs => set_suite (Some suite) (set_sessionState (Some ss) hs))
      end
  end.

Definition doResumeHandshake : E hs_t unit :=
  s ← suite_of;
  hs ← state;
  modify_layer (Conn.set_cipherSuite s.(cipherSuite.id)) ;;
  modify_hello (fun m => serverHelloMsg.set_ticketSupported true
    (serverHelloMsg.set_sessionId hs.(clientHello).(clientHelloMsg.sessionId) (serverHelloMsg.set_cipherSuite s.(cipherSuite.id) m))) ;;
  h ← elift (finishedHash12.newFinishedHash (vers hs.(c)) s);
  emodify (set_finishedHash (Some (finishedHash12.discardHandshakeBuffer h))) ;;
  transcript_msg (ClientHello hs.(clientHello)) ;;
  hs ← state;
  write_message (ServerHello hs.(hello)) ;;
  hs ← state;
  onc (callback p.(hk).(VerifyConnection) (fun f => f (connectionStateLocked hs.(c)))) ;;
  ss ← ederef hs.(sessionState);
  emodify (set_masterSecret ss.(SessionState.secret)).

(** ** The full handshake *)

(** The ServerHello and the certificate with its status. *)
Definition send_hello : E hs_t unit :=
  cert ← cert_of;
  s ← suite_of;
  hs ← state;
  let ch := hs.(clientHello) in
  let chain := cert.(KeyPair.chain) in
  let stapled := ch.(clientHelloMsg.ocspStapling) && (0 <? len (default [] chain.(Certificate.OCSPStaple))) in
  modify_hello (fun m =>
    let m := if stapled then serverHelloMsg.set_ocspStapling true m else m in
    let m := serverHelloMsg.set_ticketSupported (ch.(clientHelloMsg.ticketSupported) && negb (Peer.config hs.(c)).(Config.SessionTicketsDisabled)) m in
    serverHelloMsg.set_cipherSuite s.(cipherSuite.id) m) ;;
  h ← elift (finishedHash12.newFinishedHash (vers hs.(c)) s);
  emodify (set_finishedHash (Some (if requestsClientCert p.(sv).(ClientAuth) then h else finishedHash12.discardHandshakeBuffer h))) ;;
  transcript_msg (ClientHello ch) ;;
  hs ← state;
  write_message (ServerHello hs.(hello)) ;;
  write_message (CertificateMsg (certificateMsg.Mk chain.(Certificate.Certificate))) ;;
  when hs.(hello).(serverHelloMsg.ocspStapling)
    (write_message (CertificateStatus (certificateStatusMsg.Mk (default [] chain.(Certificate.OCSPStaple))))).

Definition send_key_exchange : E hs_t keyAgreement :=
  cert ← cert_of;
  s ← suite_of;
  hs ← state;
  r ← onc (draws (generateServerKeyExchange (Peer.config hs.(c)) cert hs.(clientHello) hs.(hello) (new_ka s.(cipherSuite.ka) (vers hs.(c)))));
  match r.2 with
  | inl err => onc (abort alertHandshakeFailure (Plain err))
  | inr None => eret r.1
  | inr (Some skx) =>
      let key := skx.(serverKeyExchangeMsg.key) in
      when (3 <=? len key) (
        curve_type ← elift (Buffer.get key 0);
        when (curve_type =? 3) (curveID ← elift (get16 key 1); modify_conn (tlsConn.set_curveID curveID))) ;;
      write_message (ServerKeyExchange skx) ;;
      eret r.1
  end.

Definition send_request : E hs_t (option certificateRequestMsg.t) :=
  v ← conn_field vers;
  if negb (requestsClientCert p.(sv).(ClientAuth)) then eret None else
  let certReq := certificateRequestMsg.Mk (VersionTLS12 <=? v) [u8 certTypeRSASign; u8 certTypeECDSASign]
    (if VersionTLS12 <=? v then supportedSignatureAlgorithms else [])
    (match p.(sv).(ClientCAs) with Some pool => Subjects pool | None => [] end) in
  write_message (CertificateRequest certReq) ;;
  eret (Some certReq).

(** The certificate of the client, if it was asked for; the key ([OtherPublic] is the
    nil key) and the message that follows. *)
Definition client_certificate (msg : handshakeMessage) : E hs_t (public * handshakeMessage) :=
  if negb (requestsClientCert p.(sv).(ClientAuth)) then eret (OtherPublic, msg) else
  match msg with
  | CertificateMsg certMsg =>
      let certificates := certMsg.(certificateMsg.certificates) in
      onc (processCertsFromClient now p (Certificate.Mk certificates None None)) ;;
      pub ← (if len certificates =? 0 then eret OtherPublic
             else certs ← conn_field tlsConn.peerCertificates; leaf ← ederef (head certs); eret (x509_PublicKey leaf));
      msg ← read_message;
      eret (pub, msg)
  | _ => unexpected
  end.

Definition client_key_exchange (ka : keyAgreement) (msg : handshakeMessage) : E hs_t bytes :=
  match msg with
  | ClientKeyExchange ckx =>
      cert ← cert_of;
      r ← onc (draws (processClientKeyExchange cert ckx ka));
      match r with
      | inl err => onc (abort alertIllegalParameter (Plain err))
      | inr preMasterSecret => eret preMasterSecret
      end
  | _ => unexpected
  end.

Definition master_secret (preMasterSecret : bytes) : E hs_t unit :=
  hs ← state;
  s ← suite_of;
  let v := vers hs.(c) in
  let random := hs.(clientHello).(clientHelloMsg.random) in
  ms ← (if hs.(hello).(serverHelloMsg.extendedMasterSecret) then
          modify_conn (tlsConn.set_extMasterSecret true) ;;
          h ← the_hash;
          sum ← elift (finishedHash12.Sum h);
          derived (extMasterFromPreMasterSecret v s preMasterSecret sum)
        else derived (masterFromPreMasterSecret v s preMasterSecret random hs.(hello).(serverHelloMsg.random)));
  emodify (set_masterSecret ms) ;;
  r ← caught (onc (writeKeyLog p.(hk) keyLogLabelTLS12 random ms));
  match r with
  | inl err => onc (abort alertInternalError err)
  | inr _ => eret tt
  end.

(** The type and the hash of the client's signature. *)
Definition verify_scheme (certReq : option certificateRequestMsg.t) (pub : public) (certVerify : certificateVerifyMsg.t) : E hs_t (Z * cryptoHash) :=
  v ← conn_field vers;
  let alg := certVerify.(certificateVerifyMsg.signatureAlgorithm) in
  if VersionTLS12 <=? v then
    certReq ← ederef certReq;
    if negb (isSupportedSignatureAlgorithm alg certReq.(certificateRequestMsg.supportedSignatureAlgorithms)) then
      fail_with alertIllegalParameter "tls: client certificate used with invalid signature algorithm" else
    match typeAndHashFromSignatureScheme alg with
    | inl _ => onc (abort_alert alertInternalError)
    | inr th => eret th
    end
  else
    match legacyTypeAndHashFromPublicKey pub with
    | inl err => onc (abort alertIllegalParameter (Plain err))
    | inr th => eret th
    end.

(** The proof that the client has the key of its certificate. *)
Definition read_certificate_verify (certReq : option certificateRequestMsg.t) (pub : public) : E hs_t unit :=
  r ← onc (readHandshake false);
  match r.2 with
  | CertificateVerify certVerify =>
      th ← verify_scheme certReq pub certVerify;
      h ← the_hash;
      signed ← elift (signed_hash h th.1 th.2);
      match verifyHandshakeSignature th.1 pub th.2 signed certVerify.(certificateVerifyMsg.signature) with
      | Some _ => fail_with alertDecryptError "tls: invalid signature by the client certificate: "
      | None => transcript_msg r.2
      end
  | _ => unexpected
  end.

Definition doFullHandshake : E hs_t unit :=
  send_hello ;;
  ka ← send_key_exchange;
  certReq ← send_request;
  write_message ServerHelloDone ;;
  onc flush ;;
  msg ← read_message;
  r ← client_certificate msg;
  hs ← state;
  onc (callback p.(hk).(VerifyConnection) (fun f => f (connectionStateLocked hs.(c)))) ;;
  preMasterSecret ← client_key_exchange ka r.2;
  master_secret preMasterSecret ;;
  certs ← conn_field tlsConn.peerCertificates;
  when (0 <? len certs) (read_certificate_verify certReq r.1) ;;
  h ← the_hash;
  emodify (set_finishedHash (Some (finishedHash12.discardHandshakeBuffer h))).

(** ** Keys and Finished *)

Definition establishKeys : E hs_t unit :=
  hs ← state;
  s ← suite_of;
  let v := vers hs.(c) in
  k ← elift (establish false v s hs.(masterSecret) hs.(clientHello).(clientHelloMsg.random) hs.(hello).(serverHelloMsg.random));
  k ← ederef k;
  let '(client, server) := k in
  modify_layer (fun c => Conn.set_in_ (prepareCipherSpec v (Some client.1) client.2 c.(Conn.in_)) c) ;;
  modify_layer (fun c => Conn.set_out (prepareCipherSpec v (Some server.1) server.2 c.(Conn.out)) c).

(** With [out] the verified data is copied to [clientFinished]. *)
Definition readFinished (out : bool) : E hs_t unit :=
  onc readChangeCipherSpec ;;
  r ← onc (readHandshake false);
  match r.2 with
  | Finished clientFinished =>
      hs ← state;
      h ← the_hash;
      verify ← derived (finishedHash12.clientSum h hs.(masterSecret));
      if negb (bool_decide (verify = clientFinished.(finishedMsg.verifyData))) then
        fail_with alertHandshakeFailure "tls: client's Finished message is incorrect" else
      transcript_msg r.2 ;;
      when out (
        out ← elift (copy_at 0 verify hs.(c).(tlsConn.clientFinished));
        modify_conn (tlsConn.set_clientFinished out))
  | _ => unexpected
  end.

Definition set_secret (secret : bytes) (createdAt : Z) (st : SessionState.t X) : SessionState.t X :=
  SessionState.Mk st.(SessionState.Extra) st.(SessionState.EarlyData) st.(SessionState.version) st.(SessionState.isClient)
    st.(SessionState.cipherSuite) createdAt secret st.(SessionState.extMasterSecret) st.(SessionState.peerCertificates)
    st.(SessionState.ocspResponse) st.(SessionState.scts) st.(SessionState.verifiedChains) st.(SessionState.alpnProtocol) st.(SessionState.useBy)
    st.(SessionState.ageAdd) st.(SessionState.ticket).

Definition sendSessionTicket : E hs_t unit :=
  hs ← state;
  if negb hs.(hello).(serverHelloMsg.ticketSupported) then eret tt else
  let st := Peer.sessionState now hs.(c) in
  let createdAt := match hs.(sessionState) with Some ss => ss.(SessionState.createdAt) | None => st.(SessionState.createdAt) end in
  ticket ← onc (wrap_session p ticketKeys false (set_secret hs.(masterSecret) createdAt st));
  write_message (NewSessionTicket (newSessionTicketMsg.Mk ticket)).

(** With [out] the data is copied to [serverFinished]. *)
Definition sendFinished (out : bool) : E hs_t unit :=
  onc writeChangeCipherRecord ;;
  hs ← state;
  h ← the_hash;
  verifyData ← derived (finishedHash12.serverSum h hs.(masterSecret));
  write_message (Finished (finishedMsg.Mk verifyData)) ;;
  when out (
    out ← elift (copy_at 0 verifyData hs.(c).(tlsConn.serverFinished));
    modify_conn (tlsConn.set_serverFinished out)).

(** ** The handshake *)

Definition resumed_handshake : E hs_t unit :=
  modify_conn (tlsConn.set_didResume true) ;;
  doResumeHandshake ;;
  establishKeys ;;
  sendSessionTicket ;;
  sendFinished true ;;
  onc flush ;;
  modify_conn (tlsConn.set_clientFinishedIsFirst false) ;;
  readFinished false.

Definition full_handshake : E hs_t unit :=
  pickCipherSuite ;;
  doFullHandshake ;;
  establishKeys ;;
  readFinished true ;;
  modify_conn (tlsConn.set_clientFinishedIsFirst true) ;;
  modify_layer (Conn.set_buffering true) ;;
  sendSessionTicket ;;
  sendFinished false ;;
  onc flush.

Definition handshake : E hs_t unit :=
  processClientHello ;;
  modify_layer (Conn.set_buffering true) ;;
  checkForResumption ;;
  hs ← state;
  (if non_nil hs.(sessionState) then resumed_handshake else full_handshake) ;;
  hs ← state;
  s ← suite_of;
  modify_conn (tlsConn.set_ekm (Some (ekm12 (vers hs.(c)) s hs.(masterSecret) hs.(clientHello).(clientHelloMsg.random) hs.(hello).(serverHelloMsg.random)))) ;;
  modify_layer (Conn.set_isHandshakeComplete true).

End Ops.
