(* ===== verification/Server12Facts.v ===== *)
(** * The server before TLS 1.3 authenticates its client

    Theorems on the handshake of Server12: when it succeeds the client has sent a
    Finished message over the transcript under the master secret, and it resumes a
    session that this server may resume, or it has presented the certificates that the
    configuration asks for and signed the transcript with the key of the leaf.  The
    handshake is complete exactly when it has succeeded. *)

From S2P Require Import Prelude Cryptobyte Common Config Negotiation Codec Buffer KeySchedule Record Names Messages RawMessages ServerHello ClientHello Ticket TicketKeys Caches Public Extensions Handshake Conn ConnFacts ConnFrame Suites ECH Marshal Shuffle Parrots Session Preset Auth KeyAgreement Peer PeerFacts Client12 Client12Facts ServerPeer ServerPeerFacts Server12.

(** ** A view of the state *)

Module s12view.
Record t {X : X509} := Mk {
  suite : option cipherSuite.t;
  hash : option finishedHash12.t;
  master : bytes;
  sess : option (SessionState.t X);
  ch : clientHelloMsg.t;
  peer : list certificate;
  chains : list (list certificate);
  resumed : bool;
  cfg : Config.t;
  vers : Z;
  complete : bool
}.
#[global] Arguments t X : clear implicits.
#[global] Arguments Mk {X}.
Section Set_.
Context {X : X509}.
Definition set_suite (v : option cipherSuite.t) (s : t X) : t X :=
  Mk v s.(hash) s.(master) s.(sess) s.(ch) s.(peer) s.(chains) s.(resumed) s.(cfg) s.(vers)
    s.(complete).
Definition set_hash (v : option finishedHash12.t) (s : t X) : t X :=
  Mk s.(suite) v s.(master) s.(sess) s.(ch) s.(peer) s.(chains) s.(resumed) s.(cfg) s.(vers)
    s.(complete).
Definition set_master (v : bytes) (s : t X) : t X :=
  Mk s.(suite) s.(hash) v s.(sess) s.(ch) s.(peer) s.(chains) s.(resumed) s.(cfg) s.(vers)
    s.(complete).
Definition set_sess (v : option (SessionState.t X)) (s : t X) : t X :=
  Mk s.(suite) s.(hash) s.(master) v s.(ch) s.(peer) s.(chains) s.(resumed) s.(cfg) s.(vers)
    s.(complete).
Definition set_peer (v : list certificate) (s : t X) : t X :=
  Mk s.(suite) s.(hash) s.(master) s.(sess) s.(ch) v s.(chains) s.(resumed) s.(cfg) s.(vers)
    s.(complete).
Definition set_chains (v : list (list certificate)) (s : t X) : t X :=
  Mk s.(suite) s.(hash) s.(master) s.(sess) s.(ch) s.(peer) v s.(resumed) s.(cfg) s.(vers)
    s.(complete).
Definition set_resumed (v : bool) (s : t X) : t X :=
  Mk s.(suite) s.(hash) s.(master) s.(sess) s.(ch) s.(peer) s.(chains) v s.(cfg) s.(vers)
    s.(complete).
End Set_.
End s12view.

Section Facts.
Context {C : Cryptobyte} {Cs : Ciphers} {B : BlockCiphers Cs} {K : Crypto} {Ks : Keys} {S : Signing Ks} {X : X509} {V : X509Verify X} {XK : X509Keys X S}
  {XC : X509Chains X S} {XS : X509Server X S XC} {I : ClientSessionCache (session.ptr X)} {E_ : KeyExchange Ks} {T : TicketCrypto}.
Context (supported : list cipherSuite.t) (hardware : bool) (p : configured Ks S X XC) (now : Z) (ToLower : bytes -> bytes)
  (ticketKeys : list ticketKey.t).
Import serverState12.
Abbreviation hs_t := serverState12.t.
Implicit Types hs : hs_t.

Definition view_of hs : s12view.t X := {|
  s12view.suite := hs.(suite);
  s12view.hash := hs.(finishedHash);
  s12view.master := hs.(masterSecret);
  s12view.sess := hs.(sessionState);
  s12view.ch := hs.(clientHello);
  s12view.peer := hs.(c).(tlsConn.peerCertificates);
  s12view.chains := hs.(c).(tlsConn.verifiedChains);
  s12view.resumed := hs.(c).(tlsConn.didResume);
  s12view.cfg := config hs.(c);
  s12view.vers := vers hs.(c);
  s12view.complete := hs.(c).(tlsConn.conn).(Conn.isHandshakeComplete)
|}.

Definition same_view hs hs' : Prop := view_of hs' = view_of hs.
Definition grow hs hs' : Prop := exists h, view_of hs' = s12view.set_hash h (view_of hs) /\ extends hs.(finishedHash) h.
Definition calm hs hs' : Prop := (view_of hs').(s12view.complete) = (view_of hs).(s12view.complete).

#[local] Instance s12_same_preorder : PreOrder same_view.
Proof. split; [done|]. unfold same_view. intros ???. congruence. Qed.
#[local] Instance s12_grow_preorder : PreOrder grow.
Proof.
  split.
  - intros hs. exists hs.(finishedHash). split; [done|]. apply extends_refl.
  - intros h1 h2 h3 (o1 & H1 & E1) (o2 & H2 & E2). exists o2. rewrite H2, H1. split; [done|].
    apply (f_equal s12view.hash) in H1. cbn in H1. rewrite H1 in E2. by eapply extends_trans.
Qed.
#[local] Instance s12_calm_preorder : PreOrder calm.
Proof. split; [done|]. unfold calm. intros ???. congruence. Qed.

Lemma s12_same_grow hs hs' : same_view hs hs' -> grow hs hs'.
Proof. intros H. exists hs.(finishedHash). split; [exact H|]. apply extends_refl. Qed.
Lemma s12_grow_same {A} (m : E hs_t A) : stable same_view m -> stable grow m.
Proof. apply stable_weaken, s12_same_grow. Qed.
Lemma s12_calm_grow {A} (m : E hs_t A) : stable grow m -> stable calm m.
Proof. apply stable_weaken. intros hs hs' (w & H & _). unfold calm. by rewrite H. Qed.
Lemma s12_calm_same {A} (m : E hs_t A) : stable same_view m -> stable calm m.
Proof. intros H. by apply s12_calm_grow, s12_grow_same. Qed.

(** ** Steps that leave the view alone, or write to the hashes *)

Lemma s12_onc {A} (m : E tlsConn.t A) : stable layer m -> stable same_view (onc m).
Proof.
  apply stable_zoom. intros hs c' (k & [Hc Hv Hcfg Hh Hs Hcl Hi Ho] & ->). unfold same_view, view_of, config, vers. cbn. by rewrite Hc, Hcfg, Hv.
Qed.
Hint Resolve s12_onc layer_abort layer_abort_with layer_abort_alert layer_readHandshake layer_writeHandshakeRecord
  layer_writeChangeCipherRecord layer_readChangeCipherSpec layer_flush layer_draws layer_unwrap layer_wrap : stable.
Hint Extern 4 (same_view _ _) => done : stable.
Hint Extern 4 (grow _ _) => (apply s12_same_grow; done) : stable.
Hint Extern 4 (calm _ _) => done : stable.
Hint Extern 5 (stable grow (onc _)) => apply s12_grow_same : stable.
Hint Extern 5 (stable calm (onc _)) => apply s12_calm_same : stable.

Lemma s12_suite_of_ok hs hs' s : suite_of hs = Ret (hs', inr s) -> hs' = hs /\ hs.(suite) = Some s.
Proof. unfold suite_of. intros H. estep H. by apply ederef_ok in H. Qed.
Lemma s12_the_hash_ok hs hs' s : the_hash hs = Ret (hs', inr s) -> hs' = hs /\ hs.(finishedHash) = Some s.
Proof. unfold the_hash. intros H. estep H. by apply ederef_ok in H. Qed.
Lemma s12_derived_ok o hs hs' b : derived o hs = Ret (hs', inr b) -> hs' = hs /\ o = Ret (Some b).
Proof. unfold derived. intros H. estep H. apply ederef_ok in H as [-> ->]. done. Qed.
Lemma s12_same_suite : stable same_view suite_of.
Proof. unfold suite_of. stable. Qed.
Lemma s12_same_cert : stable same_view cert_of.
Proof. unfold cert_of. stable. Qed.
Lemma s12_same_hash : stable same_view the_hash.
Proof. unfold the_hash. stable. Qed.
Lemma s12_same_derived o : stable same_view (derived o).
Proof. unfold derived. stable. Qed.
Lemma s12_same_unexpected {A} : stable same_view (unexpected (A := A)).
Proof. unfold unexpected. stable. Qed.
Lemma s12_same_fail {A} a msg : stable same_view (fail_with (A := A) a msg).
Proof. unfold fail_with. stable. Qed.
Lemma s12_same_hello f : stable same_view (modify_hello f).
Proof. unfold modify_hello. stable. Qed.
Lemma s12_same_field {A} (f : tlsConn.t -> A) : stable same_view (conn_field f).
Proof. unfold conn_field. stable. Qed.
Hint Resolve s12_same_suite s12_same_cert s12_same_hash s12_same_derived s12_same_unexpected s12_same_fail s12_same_hello s12_same_field : stable.
Hint Extern 6 (stable grow _) => (apply s12_grow_same; solve [auto 4 with stable nocore]) : stable.
Hint Extern 6 (stable calm _) => (apply s12_calm_same; solve [auto 4 with stable nocore]) : stable.

Lemma s12_grow_write b : stable grow (write_hash b).
Proof.
  intros hs hs' r. unfold write_hash, the_hash, mbind, E_bind, ebind, state. cbn [obind]. destruct (finishedHash hs) as [h|] eqn:Eh; [|done].
  cbn [ederef eret obind]. unfold elift. destruct (finishedHash12.Write h b) as [|h'] eqn:Ew; [done|]. intros [= <- _]. exists (Some h'). split; [done|]. rewrite Eh.
  intros v f alg t k [= ->]. rewrite Write_hash_of in Ew. injection Ew as <-. by exists b, k.
Qed.
Hint Resolve s12_grow_write : stable.
Lemma s12_grow_transcript m : stable grow (transcript_msg m).
Proof. unfold transcript_msg. stable. Qed.
Lemma s12_grow_read : stable grow read_message.
Proof. unfold read_message. stable. Qed.
Lemma s12_grow_write_message m : stable grow (write_message m).
Proof. unfold write_message. stable. Qed.
Hint Resolve s12_grow_transcript s12_grow_read s12_grow_write_message : stable.
Hint Extern 7 (stable calm _) => (apply s12_calm_grow; solve [auto 4 with stable nocore]) : stable.

Lemma s12_unexpected_fails {A} hs hs' (x : A) : unexpected hs = Ret (hs', inr x) -> False.
Proof. apply abort_fails. Qed.
Lemma s12_fail_fails {A} a msg hs hs' (x : A) : fail_with a msg hs = Ret (hs', inr x) -> False.
Proof. apply abort_fails. Qed.
Ltac no_alert H ::= try (by apply s12_fail_fails in H); try (by apply s12_unexpected_fails in H); try (by apply abort_with_fails in H);
  try (by apply abort_fails in H); try (by apply abort_alert_fails in H).

Lemma s12_same_callback {F} (o : option F) g : stable same_view (onc (callback o g)).
Proof. apply s12_onc, (stable_callback layer). done. Qed.
Lemma s12_same_log l r secret : stable same_view (caught (onc (writeKeyLog p.(hk) l r secret))).
Proof. apply stable_caught, (stable_zoom _ (fun c c' => exists l, c' = tlsConn.set_keyLog l c)); [by intros h t [l' ->]|]. apply logged. Qed.

(** ** The ClientHello and resumption *)

Lemma s12_same_client_hello : stable same_view (processClientHello supported p ToLower).
Proof. unfold processClientHello, server_random, choose_certificate, key_abilities, modify_conn. stable. Qed.

(** The client has offered the ticket of a session that this server may resume: what
    the connection [hs] shows, which has read the hello. *)
Record resumes hs (s : cipherSuite.t) (ss : SessionState.t X) : Prop := {
  r12_ticket : exists c2, unwrap_session p ticketKeys hs.(clientHello).(clientHelloMsg.sessionTicket) hs.(c) = Ret (c2, inr (Some ss));
  r12_current : ticket_expired now ss = false;
  r12_version : ss.(SessionState.version) = vers hs.(c);
  r12_suite : ss.(SessionState.cipherSuite) ∈ hs.(clientHello).(clientHelloMsg.cipherSuites) /\
    selectCipherSuite supported [ss.(SessionState.cipherSuite)] (config_cipherSuites (config hs.(c))) (cipherSuiteOk (negotiation hs)) = Some s;
  r12_certs : session_certs_ok now p ss = true;
  r12_ems : ss.(SessionState.extMasterSecret) = hs.(clientHello).(clientHelloMsg.extendedMasterSecret)
}.
Definition resumed_view (s : cipherSuite.t) (ss : SessionState.t X) (v : s12view.t X) : s12view.t X :=
  s12view.set_suite (Some s) (s12view.set_sess (Some ss) (s12view.set_resumed true
    (s12view.set_peer ss.(SessionState.peerCertificates) (s12view.set_chains ss.(SessionState.verifiedChains) v)))).

Lemma checkForResumption12_ok hs hs' x : checkForResumption supported p now ticketKeys hs = Ret (hs', inr x) ->
  same_view hs hs' \/ exists s ss, resumes hs s ss /\ view_of hs' = resumed_view s ss (view_of hs).
Proof.
  unfold checkForResumption. intros H. estep H. case_match; [injection H as <-; by left|]. estep H. pose proof (s12_onc _ (layer_unwrap p ticketKeys _) _ _ _ Hs) as Hv.
  unfold same_view in Hv. destruct a as [ss|]; [|injection H as <- _; by left]. destruct (resumable _ _ _ _ _) as [su|] eqn:Er; [|injection H as <- _; by left].
  case_match eqn:E1; [injection H as <- _; by left|]. case_match eqn:E2; [discriminate H|]. unfold modify_conn in H. estep H. injection H as <- _. right. exists su, ss. split.
  - apply zoom_ok in Hs as (c' & Hs & _). unfold resumable in Er. destruct (ticket_expired now ss) eqn:Ex; [discriminate|].
    destruct (_ =? SessionState.version ss) eqn:Ev; [|discriminate]. destruct (contains _ _) eqn:Ec; [|discriminate]. cbn [negb] in Er.
    destruct (selectCipherSuite _ _ _ _) as [s1|] eqn:Esu; [|discriminate]. cbn in Er. destruct (session_certs_ok now p ss) eqn:Es; [|discriminate]. injection Er as ->.
    constructor; cbn; try done.
    + by exists c'.
    + symmetry. by apply Z.eqb_eq.
    + split; [by apply contains_spec|done].
    + destruct (SessionState.extMasterSecret ss), (clientHelloMsg.extendedMasterSecret _); done.
  - rewrite <- Hv. done.
Qed.

(** ** The running hashes *)

Lemma clientSum_of v s f alg t k ms : hashed_by v s f alg ->
  finishedHash12.clientSum (hash_of v f alg t k) ms = finished_sum v s clientFinishedLabel ms t.
Proof.
  intros (h & Hp & -> & Hn). unfold finishedHash12.clientSum, finished_sum. rewrite Sum_of, Hp. cbn. unfold digest.
  destruct h; cbn in Hn; destruct (v <? VersionTLS12); done.
Qed.

(** The transcript of a state, with more written to it. *)
Definition at_hash hs (v : Z) (f : prfFunc) (alg : hash_function) (t : bytes) : Prop := exists k, hs.(finishedHash) = Some (hash_of v f alg t k).
Lemma grow_at hs hs' v f alg t : at_hash hs v f alg t -> grow hs hs' ->
  exists w k, view_of hs' = s12view.set_hash (Some (hash_of v f alg (t ++ w) k)) (view_of hs) /\ at_hash hs' v f alg (t ++ w).
Proof.
  intros [k Hk] (h & V1 & E1). destruct (E1 v f alg t k Hk) as (w & k' & ->). exists w, k'. split; [exact V1|]. exists k'. apply (f_equal s12view.hash) in V1. exact V1.
Qed.
Lemma same_at hs hs' v f alg t : at_hash hs v f alg t -> same_view hs hs' -> at_hash hs' v f alg t.
Proof. intros [k Hk] V1. exists k. apply (f_equal s12view.hash) in V1. cbn in V1. congruence. Qed.

Lemma s12_transcript_ok m hs hs' x : transcript_msg m hs = Ret (hs', inr x) -> exists b, transcriptMsg m = Ret (inr b) /\
  forall v f alg t k, hs.(finishedHash) = Some (hash_of v f alg t k) -> view_of hs' = s12view.set_hash (Some (hash_of v f alg (t ++ b) k)) (view_of hs).
Proof.
  unfold transcript_msg, write_hash. intros H. estep H. estep H. estep H. apply s12_the_hash_ok in Hs1 as [-> Hh]. estep H. injection H as <- _.
  exists a0. split; [congruence|]. intros v f alg t k Hk. rewrite Hk in Hh. injection Hh as <-. rewrite Write_hash_of in Hs1. by injection Hs1 as <-.
Qed.

Lemma s12_read_ok hs hs' m : read_message hs = Ret (hs', inr m) -> exists c1 u, readHandshake true hs.(c) = Ret (c1, inr (u, m)) /\
  forall v f alg t k, hs.(finishedHash) = Some (hash_of v f alg t k) -> view_of hs' = s12view.set_hash (Some (hash_of v f alg (t ++ u) k)) (view_of hs).
Proof.
  unfold read_message, write_hash. intros H. estep H. pose proof (s12_onc _ (layer_readHandshake true) _ _ _ Hs) as Hv. unfold same_view in Hv.
  apply zoom_ok in Hs as (c1 & Hs & ->). destruct a as [u m']. estep H. estep Hs0. apply s12_the_hash_ok in Hs1 as [-> Hh]. estep Hs0. injection Hs0 as <- _. injection H as <- <-.
  exists c1, u. split; [exact Hs|]. intros v f alg t k Hk. cbn in Hh. rewrite Hk in Hh. injection Hh as <-. rewrite Write_hash_of in Hs1. injection Hs1 as <-.
  apply (f_equal (s12view.set_hash (Some (hash_of v f alg (t ++ u) k)))) in Hv. exact Hv.
Qed.

(** A new hash, with or without its buffer, that starts with the hello of the client. *)
Lemma hello_hashed hs h1 h2 x v s h0 (keep : bool) : finishedHash12.newFinishedHash v s = Ret h0 -> h1.(finishedHash) = Some (if keep then h0 else finishedHash12.discardHandshakeBuffer h0) ->
  view_of h1 = s12view.set_hash h1.(finishedHash) (view_of hs) -> transcript_msg (ClientHello hs.(clientHello)) h1 = Ret (h2, inr x) ->
  exists f alg b k, hashed_by v s f alg /\ transcriptMsg (ClientHello hs.(clientHello)) = Ret (inr b) /\
    view_of h2 = s12view.set_hash (Some (hash_of v f alg b k)) (view_of hs) /\ at_hash h2 v f alg b.
Proof.
  intros Hn Hh V1 H. apply newFinishedHash_ok in Hn as (f & alg & Hf & ->). apply s12_transcript_ok in H as (b & Hb & V2).
  assert (Hk : exists k, h1.(finishedHash) = Some (hash_of v f alg [] k)) by (destruct keep; [by exists true|exists false; by rewrite Hh, discard_of]).
  destruct Hk as [k Hk]. specialize (V2 _ _ _ _ _ Hk). rewrite V1 in V2. exists f, alg, b, k. split; [exact Hf|]. split; [exact Hb|]. split; [exact V2|].
  exists k. apply (f_equal s12view.hash) in V2. exact V2.
Qed.

Lemma doResumeHandshake_ok hs hs' x s ss : hs.(suite) = Some s -> hs.(sessionState) = Some ss -> doResumeHandshake p hs = Ret (hs', inr x) ->
  exists f alg b w k, hashed_by (vers hs.(c)) s f alg /\ transcriptMsg (ClientHello hs.(clientHello)) = Ret (inr b) /\ at_hash hs' (vers hs.(c)) f alg (b ++ w) /\
    view_of hs' = s12view.set_master ss.(SessionState.secret) (s12view.set_hash (Some (hash_of (vers hs.(c)) f alg (b ++ w) k)) (view_of hs)).
Proof.
  intros Hsu Hss H. unfold doResumeHandshake, modify_layer, modify_conn, modify_hello in H. estep H. apply s12_suite_of_ok in Hs as [-> Hs]. rewrite Hsu in Hs. injection Hs as <-.
  estep H. estep H. estep H. estep H. estep H. estep H.
  apply (hello_hashed hs _ _ _ (vers hs.(c)) s a false) in Hs0 as (f & alg & b & k & Hf & Hb & V1 & A1); [|exact Hs|done|done]. estep H. estep H. apply s12_grow_write_message in Hs0.
  apply (grow_at _ _ _ _ _ _ A1) in Hs0 as (w & k2 & V2 & A2). estep H. estep H.
  apply s12_same_callback in Hs0. pose proof (same_at _ _ _ _ _ _ A2 Hs0) as A3. estep H. injection H as <- _.
  assert (a3 = ss) as -> by (unfold same_view in *; rewrite V1 in V2; apply (f_equal s12view.sess) in V2; cbn in V2; congruence).
  exists f, alg, b, w, k2. split; [exact Hf|]. split; [exact Hb|]. split; [exact A3|]. unfold same_view in Hs0. rewrite V2, V1 in Hs0.
  apply (f_equal (s12view.set_master ss.(SessionState.secret))) in Hs0. exact Hs0.
Qed.

(** ** Finished *)

Lemma s12_same_establish : stable same_view establishKeys.
Proof. unfold establishKeys, modify_layer, modify_conn. stable. Qed.
Lemma s12_grow_ticket : stable grow (sendSessionTicket p now ticketKeys).
Proof. unfold sendSessionTicket. stable. Qed.
Lemma s12_grow_finished b : stable grow (sendFinished b).
Proof. unfold sendFinished, modify_conn. stable. Qed.

(** What the Finished message of the client shows: [hs] is the state before it is read,
    with the transcript [t], and [b] the message in the transcript. *)
Definition finished hs (v : Z) (s : cipherSuite.t) (f : prfFunc) (alg : hash_function) (ms t b : bytes) : Prop := exists fin c1 c2,
  at_hash hs v f alg t /\ readChangeCipherSpec hs.(c) = Ret (c1, inr tt) /\ readHandshake false c1 = Ret (c2, inr ([], Finished (finishedMsg.Mk fin))) /\
  finished_sum v s clientFinishedLabel ms t = Ret (Some fin) /\ transcriptMsg (Finished (finishedMsg.Mk fin)) = Ret (inr b).

Lemma readFinished12_ok out hs hs' x s v f alg t : at_hash hs v f alg t -> hashed_by v s f alg -> readFinished out hs = Ret (hs', inr x) ->
  exists b k, finished hs v s f alg hs.(masterSecret) t b /\ view_of hs' = s12view.set_hash (Some (hash_of v f alg (t ++ b) k)) (view_of hs).
Proof.
  intros [k Hk] Hf H. unfold readFinished, modify_conn in H. estep H. apply (s12_onc _ layer_readChangeCipherSpec) in Hs as V1. apply zoom_ok in Hs as (c1 & Hc & ->).
  estep H. apply (s12_onc _ (layer_readHandshake false)) in Hs as V2.
  apply zoom_ok in Hs as (c2 & Hr & _). destruct a0 as [w m]. cbn [snd] in H. pose proof (readHandshake_silent _ _ _ Hr) as Hw. cbn in Hw. subst w.
  destruct m as [| | | | | | | | | | | | | |fm| | | | |]; try by no_alert H. estep H. estep H. apply s12_the_hash_ok in Hs as [-> Hx]. estep H. apply s12_derived_ok in Hs as [-> Hsum].
  unfold same_view in *. rewrite V1 in V2. pose proof V2 as V3. injection V2 as W1 W2 W3 _. rewrite W2, Hk in Hx. injection Hx as <-. rewrite (clientSum_of _ s), W3 in Hsum by done.
  case_match eqn:Ef; [by no_alert H|]. apply negb_false_iff, bool_decide_eq_true_1 in Ef. destruct fm as [fin]. cbn in Ef. subst fin.
  estep H. apply s12_transcript_ok in Hs as (b & Hb & V4). rewrite W2 in V4. specialize (V4 _ _ _ _ _ Hk). rewrite V3 in V4. exists b, k. destruct a. split.
  - eexists _, c1, c2. split; [by exists k|]. done.
  - match type of H with when ?o ?m _ = _ => assert (Hst : stable same_view (when o m)) by stable end. apply Hst in H. unfold same_view in H. by rewrite H.
Qed.

(** A resumed handshake up to the Finished message of the client. *)
Definition resumed_flight : E hs_t unit :=
  modify_conn (tlsConn.set_didResume true) ;; doResumeHandshake p ;; establishKeys ;; sendSessionTicket p now ticketKeys ;; sendFinished true ;;
  onc flush ;; modify_conn (tlsConn.set_clientFinishedIsFirst false).

(** A sequence of steps from what each of them has done. *)
Ltac replay := unfold mbind, E_bind, ebind, state; cbn [obind];
  repeat match goal with H : _ = Ret (_, inr _) |- _ => rewrite H; cbn [obind]; clear H end; try done.

Lemma resumed12_ok hs hs' x s ss : hs.(suite) = Some s -> hs.(sessionState) = Some ss -> resumed_handshake p now ticketKeys hs = Ret (hs', inr x) ->
  exists h1 f alg b w bf k, resumed_flight hs = Ret (h1, inr tt) /\ hashed_by (vers hs.(c)) s f alg /\ transcriptMsg (ClientHello hs.(clientHello)) = Ret (inr b) /\
    finished h1 (vers hs.(c)) s f alg ss.(SessionState.secret) (b ++ w) bf /\
    view_of hs' = s12view.set_hash (Some (hash_of (vers hs.(c)) f alg ((b ++ w) ++ bf) k)) (s12view.set_master ss.(SessionState.secret) (s12view.set_resumed true (view_of hs))).
Proof.
  intros Hsu Hss H. unfold resumed_handshake in H. estep H. estep H. estep H. estep H. estep H. estep H. estep H. repeat match goal with a : unit |- _ => destruct a end.
  match type of H with readFinished false ?z = _ => rename z into hz end.
  assert (Hfl : resumed_flight hs = Ret (hz, inr tt)) by (clear H; unfold resumed_flight; by replay).
  unfold modify_conn in Hs, Hs5. injection Hs as <-.
  apply (doResumeHandshake_ok _ _ _ s ss) in Hs0 as (f & alg & b & w & k & Hf & Hb & A1 & V1); [|done|done]. apply s12_same_establish in Hs1. apply s12_grow_ticket in Hs2.
  apply s12_grow_finished in Hs3. apply (s12_onc _ layer_flush) in Hs4. injection Hs5 as <-.
  match type of H with readFinished false ?z = _ => set (hz := z) in * end.
  assert (grow s1 hz) as Hg by (etrans; [apply s12_same_grow, Hs1|]; etrans; [exact Hs2|]; etrans; [exact Hs3|]; apply s12_same_grow; unfold same_view in *; exact Hs4).
  clearbody hz. destruct (grow_at _ _ _ _ _ _ A1 Hg) as (w2 & k2 & V2 & A2).
  destruct (readFinished12_ok _ _ _ _ s _ _ _ _ A2 Hf H) as (bf & k3 & Hfin & V3).
  exists hz, f, alg, b, (w ++ w2), bf, k3. split; [exact Hfl|]. split; [exact Hf|]. split; [exact Hb|]. rewrite V1 in V2. rewrite app_assoc. split.
  - apply (f_equal s12view.master) in V2. cbn in V2. by rewrite <- V2.
  - rewrite V3, V2. done.
Qed.

(** ** The full handshake *)

Lemma pickCipherSuite12_ok hs hs' x : pickCipherSuite supported hardware hs = Ret (hs', inr x) ->
  exists s, Negotiation.pickCipherSuite hardware supported (negotiation hs) = inr s /\ view_of hs' = s12view.set_suite (Some s) (view_of hs).
Proof.
  unfold pickCipherSuite, modify_layer, modify_conn, Negotiation.pickCipherSuite. intros H. estep H. estep H.
  change (serverHandshakeState.hello_cipherSuites (negotiation hs)) with (clientHelloMsg.cipherSuites (clientHello hs)).
  destruct (selectCipherSuite _ _ _ _) as [s|]; [|by no_alert H]. estep H. unfold when in H. cbn [serverHandshakeState.hello_vers serverHandshakeState.config negotiation].
  destruct (contains _ _ && _); [by no_alert H|]. injection H as <- _. by exists s.
Qed.

Lemma send_hello_ok hs hs' x s : hs.(suite) = Some s -> send_hello p hs = Ret (hs', inr x) ->
  exists f alg b w k, hashed_by (vers hs.(c)) s f alg /\ transcriptMsg (ClientHello hs.(clientHello)) = Ret (inr b) /\ at_hash hs' (vers hs.(c)) f alg (b ++ w) /\
    view_of hs' = s12view.set_hash (Some (hash_of (vers hs.(c)) f alg (b ++ w) k)) (view_of hs).
Proof.
  intros Hsu H. unfold send_hello, modify_hello in H. estep H. unfold cert_of in Hs. estep Hs. apply ederef_ok in Hs as [-> _]. estep H. apply s12_suite_of_ok in Hs as [-> Hs].
  rewrite Hsu in Hs. injection Hs as <-. estep H. estep H. estep H. estep H. estep H. set (keep := requestsClientCert _) in *.
  apply (hello_hashed hs _ _ _ (vers hs.(c)) s _ keep Hs) in Hs0 as (f & alg & b & k & Hf & Hb & V1 & A1); [|done|done]. estep H.
  match type of H with ?m _ = _ => assert (Hst : stable grow m) by stable end. apply Hst in H.
  apply (grow_at _ _ _ _ _ _ A1) in H as (w & k2 & V2 & A2). exists f, alg, b, w, k2. split; [exact Hf|]. split; [exact Hb|]. split; [exact A2|]. by rewrite V2, V1.
Qed.

Lemma s12_grow_key_exchange : stable grow send_key_exchange.
Proof. unfold send_key_exchange, modify_conn. stable. Qed.
Lemma s12_grow_request : stable grow (send_request p).
Proof. unfold send_request. stable. Qed.
Lemma s12_same_client_key ka msg : stable same_view (client_key_exchange ka msg).
Proof. unfold client_key_exchange. stable. Qed.

Lemma client_certificate_ok msg hs hs' r : client_certificate p now msg hs = Ret (hs', inr r) ->
  if requestsClientCert p.(sv).(ClientAuth) then
    exists m peer chains h, msg = CertificateMsg m /\ presented now p m.(certificateMsg.certificates) peer chains /\ extends hs.(finishedHash) h /\
      (forall leaf rest, peer = leaf :: rest -> r.1 = x509_PublicKey leaf) /\
      view_of hs' = s12view.set_hash h (s12view.set_peer peer (s12view.set_chains chains (view_of hs)))
  else hs' = hs.
Proof.
  unfold client_certificate, conn_field. intros H. destruct (requestsClientCert _); cbn [negb] in H; [|by injection H as <- _].
  destruct msg as [| | | | | | |m| | | | | | | | | | | |]; try by no_alert H. estep H. apply zoom_ok in Hs as (c' & Hp & ->).
  apply processCertsFromClient_ok in Hp as (peer & chains & Hp & _ & ->). estep H. estep H. apply s12_grow_read in Hs0 as (h & V1 & E1). injection H as <- <-.
  exists m, peer, chains, h. split; [done|]. split; [exact Hp|].
  assert (Hpub : view_of s = s12view.set_peer peer (s12view.set_chains chains (view_of hs)) /\ s.(finishedHash) = hs.(finishedHash) /\
    forall leaf rest, peer = leaf :: rest -> a0 = x509_PublicKey leaf).
  { destruct (len (certificateMsg.certificates m) =? 0) eqn:En.
    - injection Hs as <- <-. split; [done|]. split; [done|]. intros leaf rest ->. destruct Hp as [Hp _ _ _ _]. apply Z.eqb_eq in En. cbn in Hp. inversion Hp as [|? ? ? ? ? ? Hl]; subst.
      rewrite <- Hl in En. unfold len in En. cbn in En. lia.
    - estep Hs. estep Hs. injection Hs as <- <-. split; [done|]. split; [done|]. intros leaf rest ->. cbn in Hs0. by injection Hs0 as <-. }
  destruct Hpub as (V2 & Hh & Hpub). rewrite Hh in E1. split; [exact E1|]. split; [exact Hpub|]. by rewrite V1, V2.
Qed.

Lemma master_secret12_ok pms hs hs' x : master_secret p pms hs = Ret (hs', inr x) -> exists ms, view_of hs' = s12view.set_master ms (view_of hs).
Proof.
  unfold master_secret, modify_conn. intros H. estep H. estep H. apply s12_suite_of_ok in Hs as [-> _]. estep H.
  match type of Hs with ?m _ = _ => assert (Hst : stable same_view m) by stable end. apply Hst in Hs. clear Hst. estep H. estep H.
  apply s12_same_log in Hs0. match type of H with (match ?r with _ => _ end) _ = _ => destruct r end; [by no_alert H|]. injection H as <- _. exists a0. unfold same_view in *. rewrite Hs0.
  apply (f_equal (s12view.set_master a0)) in Hs. exact Hs.
Qed.

(** The signature of the client over the transcript [t], with the scheme of its
    message, or that of its key before TLS 1.2. *)
Record client_signed (v : Z) (f : prfFunc) (alg : hash_function) (t : bytes) (pub : public) (certVerify : certificateVerifyMsg.t) : Prop := {
  c12_signed : exists sigType sigHash k signed, signed_hash (hash_of v f alg t k) sigType sigHash = Ret signed /\
    verifyHandshakeSignature sigType pub sigHash signed certVerify.(certificateVerifyMsg.signature) = None /\
    if VersionTLS12 <=? v then
      typeAndHashFromSignatureScheme certVerify.(certificateVerifyMsg.signatureAlgorithm) = inr (sigType, sigHash)
    else legacyTypeAndHashFromPublicKey pub = inr (sigType, sigHash)
}.

Lemma read_certificate_verify12_ok certReq pub hs hs' x f alg t : at_hash hs (vers hs.(c)) f alg t -> read_certificate_verify certReq pub hs = Ret (hs', inr x) ->
  exists certVerify b k, transcriptMsg (CertificateVerify certVerify) = Ret (inr b) /\ client_signed (vers hs.(c)) f alg t pub certVerify /\
    view_of hs' = s12view.set_hash (Some (hash_of (vers hs.(c)) f alg (t ++ b) k)) (view_of hs).
Proof.
  intros [k Hk] H. unfold read_certificate_verify in H. estep H. apply (s12_onc _ (layer_readHandshake false)) in Hs as V1.
  apply zoom_ok in Hs as (c2 & Hr & _). destruct a as [w m]. cbn [snd] in H. clear Hr.
  destruct m as [| | | | | | | | | | | | |cv| | | | | |]; try by no_alert H. estep H. destruct a as [sigType sigHash]. unfold same_view in V1. pose proof V1 as V0. injection V1 as W1 W2 W3 W4 W5 W6 W7 W8 W9 W10 W11.
  assert (s0 = s /\ if VersionTLS12 <=? vers hs.(c) then typeAndHashFromSignatureScheme cv.(certificateVerifyMsg.signatureAlgorithm) = inr (sigType, sigHash)
    else legacyTypeAndHashFromPublicKey pub = inr (sigType, sigHash)) as [-> Hth].
  { unfold verify_scheme, conn_field in Hs. estep Hs. rewrite W10 in Hs. destruct (VersionTLS12 <=? vers hs.(c)).
    - estep Hs. case_match; [by no_alert Hs|]. destruct (typeAndHashFromSignatureScheme _); [by no_alert Hs|]. by injection Hs as <- ->.
    - destruct (legacyTypeAndHashFromPublicKey pub); [by no_alert Hs|]. by injection Hs as <- ->. }
  estep H. apply s12_the_hash_ok in Hs0 as [-> Hx]. rewrite W2, Hk in Hx. injection Hx as <-. estep H. cbn [fst snd] in *.
  destruct (verifyHandshakeSignature _ _ _ _ _) eqn:Ev; [by no_alert H|]. apply s12_transcript_ok in H as (b & Hb & V2). rewrite W2 in V2. specialize (V2 _ _ _ _ _ Hk).
  rewrite V0 in V2. exists cv, b, k. split; [exact Hb|]. split; [|exact V2]. constructor. by exists sigType, sigHash, k, a.
Qed.

(** What the certificate of the client shows: [msg] is the answer to the flight of the
    server, after which the transcript is [t0], and the transcript of the Finished
    message is [t].  The certificates of the message have been checked, and their key has
    signed the transcript up to the CertificateVerify message, which comes last. *)
Definition certified12 (v : Z) (f : prfFunc) (alg : hash_function) (msg : handshakeMessage) (t0 t : bytes) (peer : list certificate) (chains : list (list certificate)) : Prop :=
  (exists m, msg = CertificateMsg m /\ presented now p m.(certificateMsg.certificates) peer chains) /\
  exists w b, t = (t0 ++ w) ++ b /\ (peer = [] -> b = []) /\ forall leaf rest, peer = leaf :: rest -> exists certVerify,
    transcriptMsg (CertificateVerify certVerify) = Ret (inr b) /\ client_signed v f alg (t0 ++ w) (x509_PublicKey leaf) certVerify.
Definition checked12 hs (v : Z) (f : prfFunc) (alg : hash_function) (msg : handshakeMessage) (t0 t : bytes) (peer : list certificate) (chains : list (list certificate)) : Prop :=
  if requestsClientCert p.(sv).(ClientAuth) then certified12 v f alg msg t0 t peer chains
  else peer = hs.(c).(tlsConn.peerCertificates) /\ chains = hs.(c).(tlsConn.verifiedChains).

(** The messages of the server up to ServerHelloDone. *)
Definition flight12 : E hs_t (keyAgreement * option certificateRequestMsg.t) :=
  send_hello p ;; ka ← send_key_exchange; certReq ← send_request p; write_message ServerHelloDone ;; onc flush ;; eret (ka, certReq).
Lemma server_flight12_ok hs h1 r s : hs.(suite) = Some s -> flight12 hs = Ret (h1, inr r) ->
  exists f alg b w k, hashed_by (vers hs.(c)) s f alg /\ transcriptMsg (ClientHello hs.(clientHello)) = Ret (inr b) /\ at_hash h1 (vers hs.(c)) f alg (b ++ w) /\
    view_of h1 = s12view.set_hash (Some (hash_of (vers hs.(c)) f alg (b ++ w) k)) (view_of hs).
Proof.
  intros Hsu H. unfold flight12 in H. estep H. apply (send_hello_ok _ _ _ s Hsu) in Hs as (f & alg & b & w & k & Hf & Hb & A1 & V1).
  pose proof s12_grow_key_exchange. pose proof s12_grow_request.
  match type of H with ?m _ = _ => assert (Hst : stable grow m) by stable end. apply Hst in H.
  apply (grow_at _ _ _ _ _ _ A1) in H as (w2 & k2 & V2 & A2). exists f, alg, b, (w ++ w2), k2. rewrite app_assoc.
  split; [exact Hf|]. split; [exact Hb|]. split; [exact A2|]. by rewrite V2, V1.
Qed.

(** The messages of the client up to its Finished. *)
Lemma client_flight12_ok h0 h1 x ka certReq msg v f alg t : at_hash h0 v f alg t -> v = vers h0.(c) ->
  (r ← client_certificate p now msg; hs ← state; onc (callback p.(hk).(VerifyConnection) (fun f => f (connectionStateLocked hs.(c)))) ;;
   preMasterSecret ← client_key_exchange ka r.2; master_secret p preMasterSecret ;; certs ← conn_field tlsConn.peerCertificates;
   when (0 <? len certs) (read_certificate_verify certReq r.1)) h0 = Ret (h1, inr x) ->
  exists w k ms peer chains, checked12 h0 v f alg msg t (t ++ w) peer chains /\ at_hash h1 v f alg (t ++ w) /\
    view_of h1 = s12view.set_hash (Some (hash_of v f alg (t ++ w) k)) (s12view.set_master ms (s12view.set_peer peer (s12view.set_chains chains (view_of h0)))).
Proof.
  intros A0 -> H. unfold conn_field in H. estep H. rename s into ha. apply client_certificate_ok in Hs.
  assert (exists w k peer chains, at_hash ha (vers h0.(c)) f alg (t ++ w) /\
    view_of ha = s12view.set_hash (Some (hash_of (vers h0.(c)) f alg (t ++ w) k)) (s12view.set_peer peer (s12view.set_chains chains (view_of h0))) /\
    if requestsClientCert p.(sv).(ClientAuth) then (exists m, msg = CertificateMsg m /\ presented now p m.(certificateMsg.certificates) peer chains) /\ (forall leaf rest, peer = leaf :: rest -> a.1 = x509_PublicKey leaf)
    else peer = h0.(c).(tlsConn.peerCertificates) /\ chains = h0.(c).(tlsConn.verifiedChains)) as (w & k & peer & chains & A1 & V1 & Hc).
  { destruct (requestsClientCert _).
    - destruct Hs as (m & peer & chains & h & Hm & Hp & Ex & Hk & V1). destruct A0 as [k0 Hk0]. destruct (Ex _ _ _ _ _ Hk0) as (w & k & ->).
      exists w, k, peer, chains. split; [exists k; apply (f_equal s12view.hash) in V1; exact V1|]. split; [exact V1|]. split; [by exists m|exact Hk].
    - subst ha. destruct A0 as [k Hk]. exists [], k, h0.(c).(tlsConn.peerCertificates), h0.(c).(tlsConn.verifiedChains). rewrite app_nil_r. split; [by exists k|].
      split; [|done]. unfold view_of. by rewrite Hk. }
  clear Hs. estep H. estep H.
  apply s12_same_callback in Hs. estep H. apply s12_same_client_key in Hs0. estep H. apply master_secret12_ok in Hs1 as [ms V2]. estep H.
  unfold same_view in Hs, Hs0. rewrite Hs0, Hs, V1 in V2. pose proof V2 as V3. injection V2 as Q1 Q2 Q3 Q4 Q5 Q6 Q7 Q8 Q9 Q10 Q11.
  match type of H with when _ _ ?z = _ => set (hz := z) in * end.
  change (view_of hz = s12view.set_hash (Some (hash_of (vers h0.(c)) f alg (t ++ w) k))
    (s12view.set_master ms (s12view.set_peer peer (s12view.set_chains chains (view_of h0))))) in V3.
  assert (A3 : at_hash hz (vers hz.(c)) f alg (t ++ w)) by (rewrite Q10; by exists k). clearbody hz. rewrite Q6 in H. unfold when in H.
  destruct (0 <? len peer) eqn:El.
  - apply (read_certificate_verify12_ok _ _ _ _ _ _ _ _ A3) in H as (cv & b & k2 & Hb & Hsig & V4). rewrite Q10, V3 in V4. rewrite Q10 in Hsig.
    exists (w ++ b), k2, ms, peer, chains. rewrite app_assoc. split; [|split; [exists k2; apply (f_equal s12view.hash) in V4; exact V4|exact V4]].
    unfold checked12. destruct (requestsClientCert _); [|exact Hc]. destruct Hc as [Hp Hk]. split; [exact Hp|]. exists w, b. split; [done|]. split; [by intros ->|].
    intros leaf rest Hl. rewrite <- (Hk _ _ Hl). by exists cv.
  - injection H as <- _. exists w, k, ms, peer, chains. rewrite Q10 in A3. split; [|split; [exact A3|exact V3]].
    unfold checked12. destruct (requestsClientCert _); [|exact Hc]. destruct Hc as [Hp Hk]. split; [exact Hp|]. exists w, []. rewrite app_nil_r. split; [done|]. split; [done|]. by intros leaf rest ->.
Qed.

(** The transcript of a full handshake: the flight of the server starts with the hello of
    the client, and the answer [msg] is the next message that is read. *)
Record answered hs (msg : handshakeMessage) (v : Z) (f : prfFunc) (alg : hash_function) (b t0 : bytes) : Prop := {
  an_read : exists h1 r c1 u w, flight12 hs = Ret (h1, inr r) /\ at_hash h1 v f alg (b ++ w) /\ readHandshake true h1.(c) = Ret (c1, inr (u, msg)) /\ t0 = (b ++ w) ++ u
}.

Lemma doFullHandshake12_ok hs hs' x s : hs.(suite) = Some s -> doFullHandshake p now hs = Ret (hs', inr x) ->
  exists f alg b msg t0 w k ms peer chains, hashed_by (vers hs.(c)) s f alg /\ transcriptMsg (ClientHello hs.(clientHello)) = Ret (inr b) /\
    answered hs msg (vers hs.(c)) f alg b t0 /\
    checked12 hs (vers hs.(c)) f alg msg t0 (b ++ w) peer chains /\ at_hash hs' (vers hs.(c)) f alg (b ++ w) /\
    view_of hs' = s12view.set_hash (Some (hash_of (vers hs.(c)) f alg (b ++ w) k)) (s12view.set_master ms (s12view.set_peer peer (s12view.set_chains chains (view_of hs)))).
Proof.
  intros Hsu H. unfold doFullHandshake in H. estep H. estep H. rename a0 into ka. estep H. rename a0 into certReq. estep H. estep H. rename s4 into hf.
  assert (Hfl : flight12 hs = Ret (hf, inr (ka, certReq))) by (clear H; unfold flight12; by replay). clear Hs Hs0 Hs1 Hs2 Hs3.
  destruct (server_flight12_ok hs hf _ s Hsu Hfl) as (f & alg & b & w & k & Hf & Hb & A1 & V1). estep H. rename a2 into msg.
  apply s12_read_ok in Hs as (c1 & u & Hu & V0). destruct A1 as [k1 A1]. specialize (V0 _ _ _ _ _ A1). rewrite V1 in V0.
  match type of V0 with view_of ?z = _ => rename z into hm end. estep H. estep H. estep H. estep H. estep H. estep H. estep H.
  match goal with Hw : when _ _ _ = Ret (?z, _) |- _ => rename z into hz end.
  assert (Hv : vers hs.(c) = vers hm.(c)) by (apply (f_equal s12view.vers) in V0; by symmetry).
  assert (Am : at_hash hm (vers hs.(c)) f alg ((b ++ w) ++ u)) by (exists k1; apply (f_equal s12view.hash) in V0; exact V0).
  match goal with _ : when _ _ _ = Ret (_, inr ?z) |- _ =>
    destruct (client_flight12_ok hm hz z ka certReq msg (vers hs.(c)) f alg ((b ++ w) ++ u) Am Hv) as (w2 & k2 & ms & peer & chains & Hc & A2 & V2); [clear H; by replay|] end.
  clear - H Hfl Hf Hb Hc A1 A2 V0 V2 Hu. estep H. apply s12_the_hash_ok in Hs as [-> Hh]. injection H as <-. destruct A2 as [k3 A2]. rewrite A2 in Hh. injection Hh as <-.
  exists f, alg, b, msg, ((b ++ w) ++ u), ((w ++ u) ++ w2), false, ms, peer, chains. rewrite discard_of, !app_assoc. split; [exact Hf|]. split; [exact Hb|]. split; [|split; [|split]].
  - constructor. exists hf, (ka, certReq), c1, u, w. split; [exact Hfl|]. split; [by exists k1|]. done.
  - unfold checked12 in *. destruct (requestsClientCert _); [exact Hc|]. rewrite V0 in *. injection V0 as _ _ _ _ _ P1 P2 _. by rewrite P1, P2 in Hc.
  - by exists false.
  - rewrite V0 in V2. apply (f_equal (s12view.set_hash (Some (hash_of (vers hs.(c)) f alg (((b ++ w) ++ u) ++ w2) false)))) in V2. exact V2.
Qed.

(** A full handshake up to the Finished message of the client. *)
Definition full_flight : E hs_t unit := pickCipherSuite supported hardware ;; doFullHandshake p now ;; establishKeys.

Lemma full12_ok hs hs' x : full_handshake supported hardware p now ticketKeys hs = Ret (hs', inr x) ->
  exists h0 h1 s f alg b msg t0 w bf w' k ms peer chains, Negotiation.pickCipherSuite hardware supported (negotiation hs) = inr s /\
    full_flight hs = Ret (h1, inr tt) /\ pickCipherSuite supported hardware hs = Ret (h0, inr tt) /\ answered h0 msg (vers hs.(c)) f alg b t0 /\
    hashed_by (vers hs.(c)) s f alg /\ transcriptMsg (ClientHello hs.(clientHello)) = Ret (inr b) /\
    checked12 hs (vers hs.(c)) f alg msg t0 (b ++ w) peer chains /\ finished h1 (vers hs.(c)) s f alg ms (b ++ w) bf /\
    view_of hs' = s12view.set_hash (Some (hash_of (vers hs.(c)) f alg (((b ++ w) ++ bf) ++ w') k))
      (s12view.set_master ms (s12view.set_peer peer (s12view.set_chains chains (s12view.set_suite (Some s) (view_of hs))))).
Proof.
  unfold full_handshake. intros H. estep H. rename s into h1. estep H. rename s into h2. estep H. rename s into h3. repeat match goal with a : unit |- _ => destruct a end.
  assert (Hfl : full_flight hs = Ret (h3, inr tt)) by (clear H; unfold full_flight; by replay). pose proof Hs as Hpk.
  apply pickCipherSuite12_ok in Hs as (s & Hpick & V1). pose proof V1 as V0.
  injection V1 as Q1 Q2 Q3 Q4 Q5 Q6 Q7 Q8 Q9 Q10 Q11.
  apply (doFullHandshake12_ok _ _ _ s Q1) in Hs0 as (f & alg & b & msg & t0 & w & k & ms & peer & chains & Hf & Hb & Ha & Hc & A2 & V2). rewrite Q10 in *. rewrite Q5 in Hb.
  apply s12_same_establish in Hs1. pose proof (same_at _ _ _ _ _ _ A2 Hs1) as A3. unfold same_view in Hs1. estep H. rename s0 into h4.
  destruct (readFinished12_ok _ _ _ _ s _ _ _ _ A3 Hf Hs) as (bf & k2 & Hfin & V4). clear Hs.
  match type of H with ?m _ = _ => assert (Hst : stable grow m) by (pose proof s12_grow_ticket; pose proof (s12_grow_finished false); unfold modify_conn, modify_layer, modify_conn; stable) end.
  apply Hst in H. rewrite Hs1 in V4. rewrite V2 in V4. rewrite V0 in V4.
  assert (A4 : at_hash h4 (vers hs.(c)) f alg ((b ++ w) ++ bf)) by (exists k2; apply (f_equal s12view.hash) in V4; exact V4).
  apply (grow_at _ _ _ _ _ _ A4) in H as (w' & k3 & V5 & _). rewrite V4 in V5.
  exists h1, h3, s, f, alg, b, msg, t0, w, bf, w', k3, ms, peer, chains. do 6 (split; [done|]). split; [|split; [|exact V5]].
  - unfold checked12 in *. destruct (requestsClientCert _); [exact Hc|]. by rewrite Q6, Q7 in Hc.
  - rewrite V2 in Hs1. apply (f_equal s12view.master) in Hs1. cbn in Hs1. by rewrite Hs1 in Hfin.
Qed.

(** ** The client is authenticated *)

(** The hello of the client is processed. *)
Definition hello_processed : E hs_t unit := processClientHello supported p ToLower ;; modify_layer (Conn.set_buffering true).

(** What a successful handshake shows of the client: [h0] is the state before a session
    is looked for, [h1] the one after it, and [h2] the state when the client has to send
    its Finished message. *)
Record authenticated12 hs hs' : Prop := {
  sa12_proof : exists h0 h1 h2 s f alg b w bf w',
    let v := vers hs.(c) in
    hello_processed hs = Ret (h0, inr tt) /\ checkForResumption supported p now ticketKeys h0 = Ret (h1, inr tt) /\
    hs'.(suite) = Some s /\ hashed_by v s f alg /\ transcriptMsg (ClientHello hs.(clientHello)) = Ret (inr b) /\
    (* the Finished message that is read covers the transcript, from the hello of the client on, under the master secret *)
    finished h2 v s f alg hs'.(masterSecret) (b ++ w) bf /\ at_hash hs' v f alg (((b ++ w) ++ bf) ++ w') /\
    let peer := hs'.(c).(tlsConn.peerCertificates) in
    let chains := hs'.(c).(tlsConn.verifiedChains) in
    match hs'.(sessionState) with
    | Some ss =>
        (* the master secret and the certificates are those of a session that may be resumed *)
        resumed_flight h1 = Ret (h2, inr tt) /\
        hs'.(c).(tlsConn.didResume) = true /\ resumes h0 s ss /\ hs'.(masterSecret) = ss.(SessionState.secret) /\
        peer = ss.(SessionState.peerCertificates) /\ chains = ss.(SessionState.verifiedChains)
    | None =>
        full_flight h1 = Ret (h2, inr tt) /\
        hs'.(c).(tlsConn.didResume) = hs.(c).(tlsConn.didResume) /\
        Negotiation.pickCipherSuite hardware supported (negotiation h1) = inr s /\
        exists h3 msg t0, pickCipherSuite supported hardware h1 = Ret (h3, inr tt) /\ answered h3 msg v f alg b t0 /\
          checked12 hs v f alg msg t0 (b ++ w) peer chains
    end
}.

Lemma success12_server hs hs' x : hs.(sessionState) = None ->
  handshake supported hardware p now ToLower ticketKeys hs = Ret (hs', inr x) -> authenticated12 hs hs'.
Proof.
  intros Hn H. unfold handshake in H. estep H. rename s into ha. estep H. rename s into h0. repeat match goal with a : unit |- _ => destruct a end.
  assert (Hst : hello_processed hs = Ret (h0, inr tt)) by (clear H; unfold hello_processed; by replay). apply s12_same_client_hello in Hs.
  assert (same_view hs h0) as V1 by (unfold modify_layer, modify_conn in Hs0; injection Hs0 as <-; exact Hs). clear Hs Hs0. unfold same_view in V1.
  estep H. rename s into h1. match goal with a : unit |- _ => destruct a end. pose proof Hs as Hck.
  apply checkForResumption12_ok in Hs. estep H. estep H. rename s into h4. estep H. estep H. apply s12_suite_of_ok in Hs1 as [-> Hsu].
  unfold modify_layer, modify_conn in H. estep H. injection H as <-. constructor. cbn.
  destruct Hs as [V2|(s & ss & Hr & V2)]; unfold same_view in *; rewrite V1 in V2.
  - pose proof V2 as V0. injection V2 as Q1 Q2 Q3 Q4 Q5 Q6 Q7 Q8 Q9 Q10 Q11. rewrite Q4, Hn in Hs0. cbn in Hs0.
    apply full12_ok in Hs0 as (h3 & h2 & s & f & alg & b & msg & t0 & w & bf & w' & k & ms & peer & chains & Hp & Hfl & Hpk & Ha & Hf & Hb & Hc & Hfin & V3). rewrite Q10, Q5 in *.
    injection V3 as P1 P2 P3 P4 P5 P6 P7 P8 P9 P10 P11. exists h0, h1, h2, s, f, alg, b, w, bf, w'.
    rewrite P3, P4, P6, P7, P8, Q4, Hn. do 6 (split; [done|]). split; [by exists k|]. split; [exact Hfl|]. split; [exact Q8|]. split; [exact Hp|]. exists h3, msg, t0.
    split; [exact Hpk|]. split; [exact Ha|]. unfold checked12 in *. by rewrite Q6, Q7 in Hc.
  - pose proof V2 as V0. injection V2 as Q1 Q2 Q3 Q4 Q5 Q6 Q7 Q8 Q9 Q10 Q11. rewrite Q4 in Hs0. cbn in Hs0.
    apply (resumed12_ok _ _ _ s ss Q1 Q4) in Hs0 as (h2 & f & alg & b & w & bf & k & Hfl & Hf & Hb & Hfin & V3). rewrite Q10, Q5 in *.
    injection V3 as P1 P2 P3 P4 P5 P6 P7 P8 P9 P10 P11. exists h0, h1, h2, s, f, alg, b, w, bf, [].
    rewrite P1, Q1, P3, P4, P6, P7, P8, Q4, Q6, Q7, app_nil_r. do 6 (split; [done|]). split; [by exists k|]. done.
Qed.

(** C8: when the handshake of a server up to TLS 1.2 succeeds, what the client sent after
    its ChangeCipherSpec is a Finished message over the transcript of this handshake, from
    its hello on, under the master secret of the connection; and either the session is
    that of the ticket in the hello, which this server may resume (not expired, same
    version, a suite that was offered, the same extended master secret, with the
    certificates that the configuration asks for) and the master secret is its secret,
    or, when a certificate was requested, the client has answered the flight of the
    server with certificates that pass all the configured checks, and signed the
    transcript up to its CertificateVerify message with their key. *)
Theorem server12_authenticates hs hs' x : hs.(sessionState) = None ->
  handshake supported hardware p now ToLower ticketKeys hs = Ret (hs', inr x) -> authenticated12 hs hs'.
Proof. apply success12_server. Qed.

(** ** Completion *)

Lemma s12_calm_process cert : stable calm (onc (processCertsFromClient now p cert)).
Proof.
  apply (stable_zoom _ (fun c c' => c'.(tlsConn.conn).(Conn.isHandshakeComplete) = c.(tlsConn.conn).(Conn.isHandshakeComplete))); [done|].
  apply stable_process; [split; [done|]; intros ???; congruence|by intros ?? (k & [Hk] & ->)|done|done].
Qed.
Hint Resolve s12_calm_process s12_same_callback s12_same_log s12_grow_key_exchange s12_grow_request s12_same_client_key s12_same_establish
  s12_grow_ticket s12_grow_finished : stable.
Lemma s12_calm_resumption : stable calm (checkForResumption supported p now ticketKeys).
Proof. unfold checkForResumption, modify_conn. stable. Qed.
Lemma s12_calm_certificate msg : stable calm (client_certificate p now msg).
Proof. unfold client_certificate. stable. Qed.
Lemma s12_calm_master pms : stable calm (master_secret p pms).
Proof. unfold master_secret, modify_conn. stable. Qed.
Lemma s12_calm_verify certReq pub : stable calm (read_certificate_verify certReq pub).
Proof. unfold read_certificate_verify, verify_scheme. stable. Qed.
Lemma s12_calm_read out : stable calm (readFinished out).
Proof. unfold readFinished, modify_conn. stable. Qed.
Hint Resolve s12_calm_certificate s12_calm_master s12_calm_verify s12_calm_read : stable.
Lemma s12_calm_resumed : stable calm (resumed_handshake p now ticketKeys).
Proof. unfold resumed_handshake, doResumeHandshake, modify_layer, modify_conn. stable. Qed.
Lemma s12_calm_full : stable calm (full_handshake supported hardware p now ticketKeys).
Proof. unfold full_handshake, doFullHandshake, send_hello, pickCipherSuite, modify_layer, modify_conn. stable. Qed.

(** The flag of the connection after the handshake. *)
Lemma complete12s_result : decides (fun hs => (view_of hs).(s12view.complete)) (handshake supported hardware p now ToLower ticketKeys).
Proof.
  pose proof (s12_calm_same _ s12_same_client_hello) as C1. assert (C2 : stable calm (modify_layer (Conn.set_buffering true))) by (unfold modify_layer, modify_conn; stable).
  pose proof s12_calm_resumption as C3. pose proof s12_calm_resumed as C4. pose proof s12_calm_full as C5. pose proof (s12_calm_same _ s12_same_suite) as C6.
  assert (C0 : stable calm (state (S := hs_t))) by stable.
  unfold handshake. do 3 (apply decides_bind; [assumption|intros _]). apply decides_bind; [assumption|intros hs]. apply decides_bind; [by destruct (non_nil _)|intros _].
  apply decides_bind; [assumption|intros h]. apply decides_bind; [assumption|intros s]. apply decides_bind; [unfold modify_conn; stable|intros _]. by apply decides_modify.
Qed.
End Facts.
