(* ===== verification/Server13.v ===== *)
(** * The TLS 1.3 handshake of a server

    Models handshake_server_tls13.go, one definition per method of
    [serverHandshakeStateTLS13]: the answer to the hello with the HelloRetryRequest and
    the key exchange, resumption from a ticket with its binder, the certificate of the
    server and the request of one of the client, the key schedule, the Finished
    messages, the tickets, and the confirmation of Encrypted ClientHello.

    The connection is without QUIC and without FIPS mode, so there is no early data.
    Hash states are the bytes written to them.  A [Read] of [config.rand()] fills its
    buffer. *)

From S2P Require Import Prelude Cryptobyte Common Config Negotiation Codec Buffer KeySchedule Record Names Messages RawMessages ServerHello ClientHello Ticket TicketKeys Caches Public Extensions Handshake Conn Suites ECH Marshal Shuffle Parrots Session Preset Auth KeyAgreement Peer Client13 ServerPeer.

Definition maxClientPSKIdentities : Z := 5.
Definition mlkem_EncapsulationKeySize768 : Z := 1184.

(** [NewEncapsulationKey768] and [Encapsulate]: the shared secret and the ciphertext,
    [None] when the key is not valid. *)
Class KeyEncapsulation := {
  Encapsulate : bytes -> option (bytes * bytes)
}.

(** ** The state *)

Module serverHandshakeStateTLS13.
Record t {Cs : Ciphers} {Ks : Keys} {S : Signing Ks} {X : X509} {I : ClientSessionCache (session.ptr X)} {HpkeContext : Type} := Mk {
  c : tlsConn.t;
  clientHello : clientHelloMsg.t;
  hello : serverHelloMsg.t;
  sentDummyCCS : bool;
  usingPSK : bool;
  suite : option cipherSuiteTLS13.t;
  cert : option KeyPair.t;
  sigAlg : Z;
  earlySecret : option tls13.EarlySecret;
  sharedKey : bytes;
  handshakeSecret : option tls13.HandshakeSecret;
  masterSecret : option tls13.MasterSecret;
  trafficSecret : bytes;
  transcript : bytes;
  clientFinished : bytes;
  echContext : option (@echServerContext HpkeContext)
}.
#[global] Arguments t {Cs Ks S X I} HpkeContext.
#[global] Arguments Mk {Cs Ks S X I HpkeContext}.
Section Set_.
Context {Cs : Ciphers} {Ks : Keys} {S : Signing Ks} {X : X509} {I : ClientSessionCache (session.ptr X)} {HpkeContext : Type}.
Abbreviation t := (t HpkeContext).
Definition set_c (v : tlsConn.t) (s : t) : t :=
  Mk v s.(clientHello) s.(hello) s.(sentDummyCCS) s.(usingPSK) s.(suite) s.(cert) s.(sigAlg)
    s.(earlySecret) s.(sharedKey) s.(handshakeSecret) s.(masterSecret) s.(trafficSecret)
    s.(transcript) s.(clientFinished) s.(echContext).
Definition set_clientHello (v : clientHelloMsg.t) (s : t) : t :=
  Mk s.(c) v s.(hello) s.(sentDummyCCS) s.(usingPSK) s.(suite) s.(cert) s.(sigAlg) s.(earlySecret)
    s.(sharedKey) s.(handshakeSecret) s.(masterSecret) s.(trafficSecret) s.(transcript)
    s.(clientFinished) s.(echContext).
Definition set_hello (v : serverHelloMsg.t) (s : t) : t :=
  Mk s.(c) s.(clientHello) v s.(sentDummyCCS) s.(usingPSK) s.(suite) s.(cert) s.(sigAlg)
    s.(earlySecret) s.(sharedKey) s.(handshakeSecret) s.(masterSecret) s.(trafficSecret)
    s.(transcript) s.(clientFinished) s.(echContext).
Definition set_sentDummyCCS (v : bool) (s : t) : t :=
  Mk s.(c) s.(clientHello) s.(hello) v s.(usingPSK) s.(suite) s.(cert) s.(sigAlg) s.(earlySecret)
    s.(sharedKey) s.(handshakeSecret) s.(masterSecret) s.(trafficSecret) s.(transcript)
    s.(clientFinished) s.(echContext).
Definition set_usingPSK (v : bool) (s : t) : t :=
  Mk s.(c) s.(clientHello) s.(hello) s.(sentDummyCCS) v s.(suite) s.(cert) s.(sigAlg) s.(earlySecret)
    s.(sharedKey) s.(handshakeSecret) s.(masterSecret) s.(trafficSecret) s.(transcript)
    s.(clientFinished) s.(echContext).
Definition set_suite (v : option cipherSuiteTLS13.t) (s : t) : t :=
  Mk s.(c) s.(clientHello) s.(hello) s.(sentDummyCCS) s.(usingPSK) v s.(cert) s.(sigAlg)
    s.(earlySecret) s.(sharedKey) s.(handshakeSecret) s.(masterSecret) s.(trafficSecret)
    s.(transcript) s.(clientFinished) s.(echContext).
Definition set_cert (v : option KeyPair.t) (s : t) : t :=
  Mk s.(c) s.(clientHello) s.(hello) s.(sentDummyCCS) s.(usingPSK) s.(suite) v s.(sigAlg)
    s.(earlySecret) s.(sharedKey) s.(handshakeSecret) s.(masterSecret) s.(trafficSecret)
    s.(transcript) s.(clientFinished) s.(echContext).
Definition set_sigAlg (v : Z) (s : t) : t :=
  Mk s.(c) s.(clientHello) s.(hello) s.(sentDummyCCS) s.(usingPSK) s.(suite) s.(cert) v
    s.(earlySecret) s.(sharedKey) s.(handshakeSecret) s.(masterSecret) s.(trafficSecret)
    s.(transcript) s.(clientFinished) s.(echContext).
Definition set_earlySecret (v : option tls13.EarlySecret) (s : t) : t :=
  Mk s.(c) s.(clientHello) s.(hello) s.(sentDummyCCS) s.(usingPSK) s.(suite) s.(cert) s.(sigAlg) v
    s.(sharedKey) s.(handshakeSecret) s.(masterSecret) s.(trafficSecret) s.(transcript)
    s.(clientFinished) s.(echContext).
Definition set_sharedKey (v : bytes) (s : t) : t :=
  Mk s.(c) s.(clientHello) s.(hello) s.(sentDummyCCS) s.(usingPSK) s.(suite) s.(cert) s.(sigAlg)
    s.(earlySecret) v s.(handshakeSecret) s.(masterSecret) s.(trafficSecret) s.(transcript)
    s.(clientFinished) s.(echContext).
Definition set_handshakeSecret (v : option tls13.HandshakeSecret) (s : t) : t :=
  Mk s.(c) s.(clientHello) s.(hello) s.(sentDummyCCS) s.(usingPSK) s.(suite) s.(cert) s.(sigAlg)
    s.(earlySecret) s.(sharedKey) v s.(masterSecret) s.(trafficSecret) s.(transcript)
    s.(clientFinished) s.(echContext).
Definition set_masterSecret (v : option tls13.MasterSecret) (s : t) : t :=
  Mk s.(c) s.(clientHello) s.(hello) s.(sentDummyCCS) s.(usingPSK) s.(suite) s.(cert) s.(sigAlg)
    s.(earlySecret) s.(sharedKey) s.(handshakeSecret) v s.(trafficSecret) s.(transcript)
    s.(clientFinished) s.(echContext).
Definition set_trafficSecret (v : bytes) (s : t) : t :=
  Mk s.(c) s.(clientHello) s.(hello) s.(sentDummyCCS) s.(usingPSK) s.(suite) s.(cert) s.(sigAlg)
    s.(earlySecret) s.(sharedKey) s.(handshakeSecret) s.(masterSecret) v s.(transcript)
    s.(clientFinished) s.(echContext).
Definition set_transcript (v : bytes) (s : t) : t :=
  Mk s.(c) s.(clientHello) s.(hello) s.(sentDummyCCS) s.(usingPSK) s.(suite) s.(cert) s.(sigAlg)
    s.(earlySecret) s.(sharedKey) s.(handshakeSecret) s.(masterSecret) s.(trafficSecret) v
    s.(clientFinished) s.(echContext).
Definition set_clientFinished (v : bytes) (s : t) : t :=
  Mk s.(c) s.(clientHello) s.(hello) s.(sentDummyCCS) s.(usingPSK) s.(suite) s.(cert) s.(sigAlg)
    s.(earlySecret) s.(sharedKey) s.(handshakeSecret) s.(masterSecret) s.(trafficSecret)
    s.(transcript) v s.(echContext).
Definition set_echContext (v : option (@echServerContext HpkeContext)) (s : t) : t :=
  Mk s.(c) s.(clientHello) s.(hello) s.(sentDummyCCS) s.(usingPSK) s.(suite) s.(cert) s.(sigAlg)
    s.(earlySecret) s.(sharedKey) s.(handshakeSecret) s.(masterSecret) s.(trafficSecret)
    s.(transcript) s.(clientFinished) v.
End Set_.
End serverHandshakeStateTLS13.

(** The second hello is the first, except for what a HelloRetryRequest changes. *)
Definition illegalClientHelloChange (ch ch1 : clientHelloMsg.t) : bool :=
  negb (bool_decide (ch.(clientHelloMsg.supportedVersions) = ch1.(clientHelloMsg.supportedVersions)))
  || negb (bool_decide (ch.(clientHelloMsg.cipherSuites) = ch1.(clientHelloMsg.cipherSuites)))
  || negb (bool_decide (ch.(clientHelloMsg.supportedCurves) = ch1.(clientHelloMsg.supportedCurves)))
  || negb (bool_decide (ch.(clientHelloMsg.supportedSignatureAlgorithms) = ch1.(clientHelloMsg.supportedSignatureAlgorithms)))
  || negb (bool_decide (ch.(clientHelloMsg.supportedSignatureAlgorithmsCert) = ch1.(clientHelloMsg.supportedSignatureAlgorithmsCert)))
  || negb (bool_decide (ch.(clientHelloMsg.alpnProtocols) = ch1.(clientHelloMsg.alpnProtocols)))
  || negb (ch.(clientHelloMsg.vers) =? ch1.(clientHelloMsg.vers))
  || negb (bool_decide (ch.(clientHelloMsg.random) = ch1.(clientHelloMsg.random)))
  || negb (bool_decide (ch.(clientHelloMsg.sessionId) = ch1.(clientHelloMsg.sessionId)))
  || negb (bool_decide (ch.(clientHelloMsg.compressionMethods) = ch1.(clientHelloMsg.compressionMethods)))
  || negb (bool_decide (ch.(clientHelloMsg.serverName) = ch1.(clientHelloMsg.serverName)))
  || negb (Bool.eqb ch.(clientHelloMsg.ocspStapling) ch1.(clientHelloMsg.ocspStapling))
  || negb (bool_decide (ch.(clientHelloMsg.supportedPoints) = ch1.(clientHelloMsg.supportedPoints)))
  || negb (Bool.eqb ch.(clientHelloMsg.ticketSupported) ch1.(clientHelloMsg.ticketSupported))
  || negb (bool_decide (ch.(clientHelloMsg.sessionTicket) = ch1.(clientHelloMsg.sessionTicket)))
  || negb (Bool.eqb ch.(clientHelloMsg.secureRenegotiationSupported) ch1.(clientHelloMsg.secureRenegotiationSupported))
  || negb (bool_decide (ch.(clientHelloMsg.secureRenegotiation) = ch1.(clientHelloMsg.secureRenegotiation)))
  || negb (Bool.eqb ch.(clientHelloMsg.scts) ch1.(clientHelloMsg.scts))
  || negb (bool_decide (ch.(clientHelloMsg.cookie) = ch1.(clientHelloMsg.cookie)))
  || negb (bool_decide (ch.(clientHelloMsg.pskModes) = ch1.(clientHelloMsg.pskModes))).

Section Ops.
Context {C : Cryptobyte} {Cs : Ciphers} {B : BlockCiphers Cs} {K : Crypto} {Ks : Keys} {S : Signing Ks} {X : X509} {V : X509Verify X} {XK : X509Keys X S}
  {XC : X509Chains X S} {XS : X509Server X S XC} {I : ClientSessionCache (session.ptr X)} {E_ : KeyExchange Ks} {KE : KeyEncapsulation} {T : TicketCrypto}.
(** The HPKE contexts of the server. *)
Context {HpkeContext : Type} (Open : HpkeContext -> bytes -> bytes -> HpkeContext * res bytes).
Import serverHandshakeStateTLS13.
Abbreviation hs_t := (serverHandshakeStateTLS13.t HpkeContext).

(** The suites that are known, whether AES is fast, the configuration of this client,
    the time, [strings.ToLower], and [c.ticketKeys]. *)
Context (supported : list cipherSuite.t) (hardware : bool) (p : configured Ks S X XC) (now : Z) (ToLower : bytes -> bytes)
  (ticketKeys : list ticketKey.t).

(** ** Stateful code *)

Definition onc {A} (m : E tlsConn.t A) : E hs_t A := zoom c set_c m.
Definition conn_field {A} (f : tlsConn.t -> A) : E hs_t A := gets (fun hs => f hs.(c)).
Definition modify_conn (f : tlsConn.t -> tlsConn.t) : E hs_t unit := emodify (fun hs => set_c (f hs.(c)) hs).
Definition modify_layer (f : Conn.t reader -> Conn.t reader) : E hs_t unit :=
  modify_conn (fun c => tlsConn.set_conn (f c.(tlsConn.conn)) c).
Definition modify_hello (f : serverHelloMsg.t -> serverHelloMsg.t) : E hs_t unit := emodify (fun hs => set_hello (f hs.(hello)) hs).
Definition suite_of : E hs_t cipherSuiteTLS13.t := hs ← state; ederef hs.(suite).
Definition cert_of : E hs_t KeyPair.t := hs ← state; ederef hs.(cert).

Definition hashed (m : handshakeMessage) : E hs_t bytes := r ← elift (transcriptMsg m); eres r.
Definition write_transcript (b : bytes) : E hs_t unit := emodify (fun hs => set_transcript (hs.(transcript) ++ b) hs).
Definition transcript_msg (m : handshakeMessage) : E hs_t unit := b ← hashed m; write_transcript b.
Definition read_message (transcript : bool) : E hs_t handshakeMessage :=
  r ← onc (readHandshake transcript); write_transcript r.1 ;; eret r.2.
Definition write_message (m : handshakeMessage) : E hs_t unit := r ← onc (writeHandshakeRecord m); write_transcript r.1 ;; raise r.2.
Definition unexpected {A} : E hs_t A := onc (abort alertUnexpectedMessage unexpectedMessageError).
Definition fail_with {A} (a : Z) (msg : string) : E hs_t A := onc (abort_with a msg).

Definition set_out_secret (s : cipherSuiteTLS13.t) (level : Z) (secret : bytes) : E hs_t unit :=
  hs ← state;
  hc ← elift (setTrafficSecret newAead13 s level secret hs.(c).(tlsConn.conn).(Conn.out));
  modify_layer (Conn.set_out hc).
Definition set_in_secret (s : cipherSuiteTLS13.t) (level : Z) (secret : bytes) : E hs_t unit :=
  hs ← state;
  hc ← elift (setTrafficSecret newAead13 s level secret hs.(c).(tlsConn.conn).(Conn.in_));
  modify_layer (Conn.set_in_ hc).
Definition log_secret (lbl : string) (secret : bytes) : E hs_t unit :=
  hs ← state;
  r ← onc (caught (writeKeyLog p.(hk) lbl hs.(clientHello).(clientHelloMsg.random) secret));
  match r with inl e => onc (abort alertInternalError e) | inr _ => eret tt end.

Definition sendDummyChangeCipherSpec : E hs_t unit :=
  sent ← gets sentDummyCCS;
  if sent : bool then eret tt else
  emodify (set_sentDummyCCS true) ;;
  onc writeChangeCipherRecord.

(** ** HelloRetryRequest *)

Definition helloRetryRequest (hello : serverHelloMsg.t) (selectedGroup : Z) : serverHelloMsg.t :=
  serverHelloMsg.Mk None hello.(serverHelloMsg.vers) helloRetryRequestRandom hello.(serverHelloMsg.sessionId) hello.(serverHelloMsg.cipherSuite)
    hello.(serverHelloMsg.compressionMethod) false false false [] false [] [] hello.(serverHelloMsg.supportedVersion) (keyShare.Mk 0 []) false 0 []
    None false None selectedGroup false [].

Definition send_retry (selectedGroup : Z) : E hs_t unit :=
  s ← suite_of;
  hs ← state;
  transcript_msg (ClientHello hs.(clientHello)) ;;
  emodify (fun hs => set_transcript (message_hash (Hash (hash_of s) hs.(transcript))) hs) ;;
  hs ← state;
  let hrr := helloRetryRequest hs.(hello) selectedGroup in
  hrr ← (if non_nil hs.(echContext) then
           b ← hashed (ServerHello (serverHelloMsg.set_encryptedClientHello (Some (replicate 8 x00)) hrr));
           acceptConfirmation ← elift (accept_confirmation s hs.(clientHello) "hrr ech accept confirmation" (hs.(transcript) ++ b));
           eret (serverHelloMsg.set_encryptedClientHello (Some acceptConfirmation) hrr)
         else eret hrr);
  write_message (ServerHello hrr) ;;
  sendDummyChangeCipherSpec.

(** The inner hello of a second hello, when the first had one. *)
Definition second_inner (clientHello : clientHelloMsg.t) : E hs_t clientHelloMsg.t :=
  hs ← state;
  match hs.(echContext) with
  | None => eret clientHello
  | Some ctx =>
      if len clientHello.(clientHelloMsg.encryptedClientHello) =? 0 then
        fail_with alertMissingExtension "tls: second client hello missing encrypted client hello extension" else
      match parseECHExt clientHello.(clientHelloMsg.encryptedClientHello) with
      | inl _ => fail_with alertDecodeError "tls: client sent invalid encrypted client hello extension"
      | inr e =>
          let outer := e.(echType) =? outerECHExt in
          let inner := e.(echType) =? innerECHExt in
          match ctx with
          | ServerInner =>
              if outer then fail_with alertDecodeError "tls: unexpected switch in encrypted client hello extension type" else eret clientHello
          | ServerOuter hpkeContext configID ciphersuite =>
              if inner then fail_with alertDecodeError "tls: unexpected switch in encrypted client hello extension type" else
              if negb outer then eret clientHello else
              if negb (bool_decide (e.(cs) = ciphersuite)) || negb (e.(ECH.configID) =? configID) || negb (len e.(encap) =? 0) then
                fail_with alertIllegalParameter "tls: second client hello encrypted client hello extension does not match" else
              r ← elift (decryptECHPayload Open hpkeContext (slice_bytes clientHello.(clientHelloMsg.original)) e.(ECH.payload));
              emodify (set_echContext (Some (ServerOuter r.1 configID ciphersuite))) ;;
              match r.2 with
              | inl _ => fail_with alertDecryptError "tls: failed to decrypt second client hello encrypted client hello extension payload"
              | inr encodedInner =>
                  match decodeInnerClientHello clientHello encodedInner with
                  | inl _ => fail_with alertIllegalParameter "tls: client sent invalid encrypted client hello extension"
                  | inr echInner => eret echInner
                  end
              end
          end
      end
  end.

Definition doHelloRetryRequest (selectedGroup : Z) : E hs_t keyShare.t :=
  send_retry selectedGroup ;;
  msg ← read_message false;
  match msg with
  | ClientHello clientHello =>
      clientHello ← second_inner clientHello;
      match clientHello.(clientHelloMsg.keyShares) with
      | [ks] =>
          if negb (ks.(keyShare.group) =? selectedGroup) then
            fail_with alertIllegalParameter "tls: client sent unexpected key share in second ClientHello" else
          if clientHello.(clientHelloMsg.earlyData) then
            fail_with alertIllegalParameter "tls: client indicated early data in second ClientHello" else
          hs ← state;
          if illegalClientHelloChange clientHello hs.(serverHandshakeStateTLS13.clientHello) then
            fail_with alertIllegalParameter "tls: client illegally modified second ClientHello" else
          modify_conn (tlsConn.set_didHRR true) ;;
          emodify (set_clientHello clientHello) ;;
          eret ks
      | _ => fail_with alertIllegalParameter "tls: client didn't send one key share in second ClientHello"
      end
  | _ => unexpected
  end.

(** ** The ClientHello *)

(** The checks before the choice of a suite. *)
Definition check_client_hello : E hs_t unit :=
  hs ← state;
  let ch := hs.(clientHello) in
  if len ch.(clientHelloMsg.supportedVersions) =? 0 then
    fail_with alertIllegalParameter "tls: client used the legacy version field to negotiate TLS 1.3" else
  if contains ch.(clientHelloMsg.cipherSuites) TLS_FALLBACK_SCSV && (vers hs.(c) <? maxSupportedVersion (config hs.(c)) false) then
    fail_with alertInappropriateFallback "tls: client using inappropriate protocol fallback" else
  if negb (bool_decide (ch.(clientHelloMsg.compressionMethods) = [compressionNone])) then
    fail_with alertIllegalParameter "tls: TLS 1.3 client supports illegal compression methods" else
  r ← onc (draws (draw (ReadFull 32)));
  match r with
  | inl err => onc (abort alertInternalError (Plain err))
  | inr random =>
      modify_hello (serverHelloMsg.set_random random) ;;
      if negb (len ch.(clientHelloMsg.secureRenegotiation) =? 0) then
        fail_with alertHandshakeFailure "tls: initial handshake had non-empty renegotiation extension" else
      if ch.(clientHelloMsg.earlyData) then fail_with alertUnsupportedExtension "tls: client sent unexpected early data" else
      modify_hello (fun m => serverHelloMsg.set_compressionMethod (b2z compressionNone) (serverHelloMsg.set_sessionId ch.(clientHelloMsg.sessionId) m))
  end.

(** The suite; the transcript is new. *)
Definition pick_suite : E hs_t unit :=
  hs ← state;
  match select_suiteTLS13 hardware supported hs.(clientHello).(clientHelloMsg.cipherSuites) with
  | inl (a, err) => onc (abort a (Plain err))
  | inr s =>
      emodify (fun hs => set_transcript [] (set_suite (Some s) hs)) ;;
      modify_layer (Conn.set_cipherSuite s.(cipherSuiteTLS13.id)) ;;
      modify_hello (serverHelloMsg.set_cipherSuite s.(cipherSuiteTLS13.id))
  end.

(** The group and the share of the client, if need be after a HelloRetryRequest. *)
Definition pick_group : E hs_t (Z * bytes) :=
  hs ← state;
  let ch := hs.(clientHello) in
  match select_group (config hs.(c)) (vers hs.(c)) ch.(clientHelloMsg.supportedCurves) ch.(clientHelloMsg.keyShares) with
  | inl (a, err) => onc (abort a (Plain err))
  | inr (selectedGroup, clientKeyShare) =>
      ks ← match clientKeyShare with Some ks => eret ks | None => doHelloRetryRequest selectedGroup end;
      modify_conn (tlsConn.set_curveID selectedGroup) ;;
      eret (selectedGroup, ks.(keyShare.data))
  end.

(** The part of a client share that is for ECDH. *)
Definition ecdh_part (selectedGroup : Z) (data : bytes) : E hs_t (Z * bytes) :=
  if selectedGroup =? X25519MLKEM768 then
    if negb (len data =? mlkem_EncapsulationKeySize768 + x25519PublicKeySize) then
      fail_with alertIllegalParameter "tls: invalid X25519MLKEM768 client key share"
    else ecdhData ← elift (from data mlkem_EncapsulationKeySize768); eret (X25519, ecdhData)
  else eret (selectedGroup, data).

Definition exchange_keys (selectedGroup : Z) (data : bytes) : E hs_t unit :=
  ecdh ← ecdh_part selectedGroup data;
  let '(ecdhGroup, ecdhData) := (ecdh : Z * bytes) in
  if negb (curveForCurveID ecdhGroup) then fail_with alertInternalError "tls: CurvePreferences includes unsupported curve" else
  key ← onc (draws (generate_key ecdhGroup));
  match key with
  | inl err => onc (abort alertInternalError (Plain err))
  | inr key =>
      let share := PublicKey key in
      match ECDH key ecdhData with
      | None => fail_with alertIllegalParameter "tls: invalid client key share"
      | Some sharedKey =>
          if negb (selectedGroup =? X25519MLKEM768) then
            modify_hello (serverHelloMsg.set_serverShare (keyShare.Mk selectedGroup share)) ;;
            emodify (set_sharedKey sharedKey)
          else
            k ← elift (upto data mlkem_EncapsulationKeySize768);
            match Encapsulate k with
            | None => fail_with alertIllegalParameter "tls: invalid X25519MLKEM768 client key share"
            | Some (mlkemSharedSecret, ciphertext) =>
                modify_hello (serverHelloMsg.set_serverShare (keyShare.Mk selectedGroup (ciphertext ++ share))) ;;
                emodify (set_sharedKey (mlkemSharedSecret ++ sharedKey))
            end
      end
  end.

Definition processClientHello : E hs_t unit :=
  v ← conn_field vers;
  emodify (set_hello (serverHelloMsg.set_supportedVersion v (serverHelloMsg.set_vers VersionTLS12 new_serverHello))) ;;
  check_client_hello ;;
  pick_suite ;;
  g ← pick_group;
  exchange_keys g.1 g.2 ;;
  hs ← state;
  let ch := hs.(clientHello) in
  match negotiateALPN (config hs.(c)).(Config.NextProtos) ch.(clientHelloMsg.alpnProtocols) false with
  | inl err => onc (abort alertNoApplicationProtocol (Plain err))
  | inr selectedProto =>
      modify_conn (tlsConn.set_clientProtocol selectedProto) ;;
      if non_nil ch.(clientHelloMsg.quicTransportParameters) then
        fail_with alertUnsupportedExtension "tls: client sent an unexpected quic_transport_parameters extension" else
      modify_conn (tlsConn.set_serverName ch.(clientHelloMsg.serverName))
  end.

(** ** Resumption *)

Definition supports_psk (ch : clientHelloMsg.t) : bool := bool_decide (pskModeDHE ∈ ch.(clientHelloMsg.pskModes)).

(** A session of the version and with the hash of this connection. *)
Definition usable (s : cipherSuiteTLS13.t) (ss : SessionState.t X) : bool :=
  (ss.(SessionState.version) =? VersionTLS13) && negb (ticket_expired now ss) &&
  match cipherSuiteTLS13ByID ss.(SessionState.cipherSuite) with Some pskSuite => bool_decide (hash_of pskSuite = hash_of s) | None => false end &&
  session_certs_ok now p ss.

(** The proof that the client knows the pre-shared key. *)
Definition check_binder (s : cipherSuiteTLS13.t) (i : nat) (ss : SessionState.t X) : E hs_t unit :=
  let earlySecret := tls13.NewEarlySecret (hash_of s) (Some ss.(SessionState.secret)) in
  emodify (set_earlySecret (Some earlySecret)) ;;
  binderKey ← elift (tls13.ResumptionBinderKey earlySecret);
  hs ← state;
  r ← elift (clientHelloMsg.marshalWithoutBinders hs.(clientHello));
  match r with
  | inl err => onc (abort alertInternalError (Plain err))
  | inr clientHelloBytes =>
      pskBinder ← elift (finishedHash s binderKey (hs.(transcript) ++ clientHelloBytes));
      binder ← ederef (hs.(clientHello).(clientHelloMsg.pskBinders) !! i);
      when (negb (bool_decide (binder = pskBinder))) (fail_with alertDecryptError "tls: invalid PSK binder")
  end.

Definition resume (i : nat) (ss : SessionState.t X) : E hs_t unit :=
  modify_conn (fun c =>
    let c := tlsConn.set_didResume true c in
    let c := tlsConn.set_peerCertificates ss.(SessionState.peerCertificates) c in
    let c := tlsConn.set_ocspResponse ss.(SessionState.ocspResponse) c in
    let c := tlsConn.set_scts ss.(SessionState.scts) c in
    tlsConn.set_verifiedChains ss.(SessionState.verifiedChains) c) ;;
  modify_hello (fun m => serverHelloMsg.set_selectedIdentity (Z.of_nat i mod 2 ^ 16) (serverHelloMsg.set_selectedIdentityPresent true m)) ;;
  emodify (set_usingPSK true).

(** [for i, identity := range hs.clientHello.pskIdentities { ... }] *)
Fixpoint try_identities (s : cipherSuiteTLS13.t) (i : nat) (identities : list pskIdentity.t) : E hs_t unit :=
  match identities with
  | [] => eret tt
  | identity :: identities =>
      if maxClientPSKIdentities <=? Z.of_nat i then eret tt else
      ss ← onc (unwrap_session p ticketKeys identity.(pskIdentity.label));
      match ss with
      | Some ss =>
          if usable s ss then check_binder s i ss ;; resume i ss
          else try_identities s (Datatypes.S i) identities
      | None => try_identities s (Datatypes.S i) identities
      end
  end.

Definition checkForResumption : E hs_t unit :=
  hs ← state;
  let ch := hs.(clientHello) in
  if (config hs.(c)).(Config.SessionTicketsDisabled) then eret tt else
  if negb (supports_psk ch) then eret tt else
  if negb (len ch.(clientHelloMsg.pskIdentities) =? len ch.(clientHelloMsg.pskBinders)) then
    fail_with alertIllegalParameter "tls: invalid or missing PSK binders" else
  s ← suite_of;
  try_identities s 0 ch.(clientHelloMsg.pskIdentities).

(** ** The certificate of the server *)

Definition pickCertificate : E hs_t unit :=
  hs ← state;
  if hs.(usingPSK) then eret tt else
  let algs := hs.(clientHello).(clientHelloMsg.supportedSignatureAlgorithms) in
  if len algs =? 0 then onc (abort_alert alertMissingExtension) else
  r ← elift (getCertificate supported ToLower p (clientHelloInfo hs.(c) hs.(clientHello)));
  match r with
  | inl None => onc (abort alertUnrecognizedName (Plain errNoCertificates))
  | inl (Some err) => onc (abort alertInternalError err)
  | inr certificate =>
      match selectSignatureScheme (vers hs.(c)) certificate algs with
      | inl err => onc (abort alertHandshakeFailure (Plain err))
      | inr alg => emodify (fun hs => set_cert (Some certificate) (set_sigAlg alg hs))
      end
  end.

(** ** The parameters *)

(** The last eight bytes of the random, when Encrypted ClientHello was accepted. *)
Definition confirm_ech : E hs_t unit :=
  s ← suite_of;
  hs ← state;
  if negb (non_nil hs.(echContext)) then eret tt else
  random ← elift (copy_at 24 (replicate 8 x00) hs.(hello).(serverHelloMsg.random));
  modify_hello (serverHelloMsg.set_random random) ;;
  b ← hashed (ServerHello (serverHelloMsg.set_random random hs.(hello)));
  acceptConfirmation ← elift (accept_confirmation s hs.(clientHello) "ech accept confirmation"
    (hs.(transcript) ++ slice_bytes hs.(clientHello).(clientHelloMsg.original) ++ b));
  random ← elift (copy_at 24 acceptConfirmation random);
  modify_hello (serverHelloMsg.set_random random).

Definition handshake_keys : E hs_t unit :=
  s ← suite_of;
  hs ← state;
  let earlySecret := default (tls13.NewEarlySecret (hash_of s) None) hs.(earlySecret) in
  handshakeSecret ← elift (tls13.EarlySecret_HandshakeSecret earlySecret hs.(sharedKey));
  emodify (set_handshakeSecret (Some handshakeSecret)) ;;
  clientSecret ← elift (tls13.ClientHandshakeTrafficSecret handshakeSecret hs.(transcript));
  set_in_secret s QUICEncryptionLevelHandshake clientSecret ;;
  serverSecret ← elift (tls13.ServerHandshakeTrafficSecret handshakeSecret hs.(transcript));
  set_out_secret s QUICEncryptionLevelHandshake serverSecret ;;
  log_secret keyLogLabelClientHandshake clientSecret ;;
  log_secret keyLogLabelServerHandshake serverSecret.

(** The configurations for a client whose Encrypted ClientHello was not accepted. *)
Definition retry_configs : E hs_t (option bytes) :=
  hs ← state;
  let keys := p.(sv).(EncryptedClientHelloKeys) in
  if (0 <? len keys) && (0 <? len hs.(clientHello).(clientHelloMsg.encryptedClientHello)) && negb (non_nil hs.(echContext)) then
    match buildRetryConfigList keys with
    | inl err => onc (abort alertInternalError (Plain err))
    | inr configs => eret configs
    end
  else eret None.

Definition sendServerParameters : E hs_t unit :=
  confirm_ech ;;
  hs ← state;
  transcript_msg (ClientHello hs.(clientHello)) ;;
  write_message (ServerHello hs.(hello)) ;;
  sendDummyChangeCipherSpec ;;
  handshake_keys ;;
  configs ← retry_configs;
  proto ← conn_field tlsConn.clientProtocol;
  write_message (EncryptedExtensions (encryptedExtensionsMsg.Mk proto None false configs (utlsEncryptedExtensionsMsgExtraFields.Mk [] 0 []))).

(** ** The certificates *)

Definition requestClientCert (hs : hs_t) : bool := requestsClientCert p.(sv).(ClientAuth) && negb hs.(usingPSK).

(** The alert for a signature that fails: a key that is too small for RSA-PSS. *)
Definition sign_alert (pub : public) (sigType : Z) (sigHash : cryptoHash) : Z :=
  match pub, sigHash with
  | RSA k, CryptoHash h =>
      if (sigType =? signatureRSAPSS) && (Z.quot (rsa_BitLen k) 8 <? Z.of_nat (hash_size h) * 2 + 2) then alertHandshakeFailure else alertInternalError
  | _, _ => alertInternalError
  end.

Definition send_certificate_verify (cert : KeyPair.t) : E hs_t unit :=
  s ← suite_of;
  hs ← state;
  match typeAndHashFromSignatureScheme hs.(sigAlg) with
  | inl _ => onc (abort_alert alertInternalError)
  | inr (sigType, sigHash) =>
      signed ← elift (signedMessage sigHash serverSignatureContext (hash_of s) hs.(transcript));
      pub ← ederef (Signer_Public cert.(KeyPair.PrivateKey));
      sig ← onc (draws (draw (Sign cert.(KeyPair.PrivateKey) signed (sign_opts sigType sigHash))));
      match sig with
      | inl _ => fail_with (sign_alert pub sigType sigHash) "tls: failed to sign handshake: "
      | inr sig => write_message (CertificateVerify (certificateVerifyMsg.Mk true hs.(sigAlg) sig))
      end
  end.

Definition sendServerCertificate : E hs_t unit :=
  hs ← state;
  if hs.(usingPSK) then eret tt else
  when (requestClientCert hs)
    (write_message (CertificateRequestTLS13 (certificateRequestMsgTLS13.Mk None true true supportedSignatureAlgorithms []
      (match p.(sv).(ClientCAs) with Some pool => Subjects pool | None => [] end)))) ;;
  cert ← cert_of;
  let chain := cert.(KeyPair.chain) in
  write_message (CertificateTLS13 (certificateMsgTLS13.Mk chain
    (hs.(clientHello).(clientHelloMsg.ocspStapling) && positive_len chain.(Certificate.OCSPStaple))
    (hs.(clientHello).(clientHelloMsg.scts) && positive_len chain.(Certificate.SignedCertificateTimestamps)))) ;;
  send_certificate_verify cert.

(** ** Tickets *)

Definition shouldSendSessionTickets (hs : hs_t) : bool :=
  negb (config hs.(c)).(Config.SessionTicketsDisabled) && supports_psk hs.(clientHello).

(** A session state with what a ticket of TLS 1.3 adds. *)
Definition ticket_state (psk : bytes) (earlyData : bool) (extra : list bytes) (st : SessionState.t X) : SessionState.t X :=
  SessionState.Mk extra earlyData st.(SessionState.version) st.(SessionState.isClient) st.(SessionState.cipherSuite) st.(SessionState.createdAt) psk
    st.(SessionState.extMasterSecret) st.(SessionState.peerCertificates) st.(SessionState.ocspResponse) st.(SessionState.scts)
    st.(SessionState.verifiedChains) st.(SessionState.alpnProtocol) st.(SessionState.useBy) st.(SessionState.ageAdd) st.(SessionState.ticket).

Definition sendSessionTicket (earlyData : bool) (extra : list bytes) : E tlsConn.t unit :=
  c ← state;
  match cipherSuiteTLS13ByID c.(tlsConn.conn).(Conn.cipherSuite) with
  | None => fail "tls: internal error: unknown cipher suite"
  | Some s =>
      psk ← elift (tls13.ExpandLabel (hash_of s) (default [] c.(tlsConn.resumptionSecret)) (label "resumption") [] (Z.of_nat (hash_size (hash_of s))));
      lbl ← wrap_session p ticketKeys true (ticket_state psk earlyData extra (sessionState now c));
      r ← draws (draw (ReadFull 4));
      ageAdd ← eres r;
      r ← on_conn (Conn.writeHandshakeRecord ReadFull (NewSessionTicketTLS13
            (newSessionTicketMsgTLS13.Mk (Z.quot maxSessionTicketLifetime second mod 2 ^ 32) (be_val (rev ageAdd)) [] lbl
              (if earlyData then 0xffffffff else 0))) false);
      raise r.2.2
  end.

Definition sendSessionTickets : E hs_t unit :=
  s ← suite_of;
  hs ← state;
  verifyData ← elift (finishedHash s hs.(c).(tlsConn.conn).(Conn.in_).(halfConn.trafficSecret) hs.(transcript));
  emodify (set_clientFinished verifyData) ;;
  transcript_msg (Finished (finishedMsg.Mk verifyData)) ;;
  hs ← state;
  masterSecret ← ederef hs.(masterSecret);
  secret ← elift (tls13.ResumptionMasterSecret masterSecret hs.(transcript));
  modify_conn (tlsConn.set_resumptionSecret (Some secret)) ;;
  when (shouldSendSessionTickets hs) (onc (sendSessionTicket false [])).

(** ** Finished *)

Definition sendServerFinished : E hs_t unit :=
  s ← suite_of;
  hs ← state;
  verifyData ← elift (finishedHash s hs.(c).(tlsConn.conn).(Conn.out).(halfConn.trafficSecret) hs.(transcript));
  write_message (Finished (finishedMsg.Mk verifyData)) ;;
  hs ← state;
  handshakeSecret ← ederef hs.(handshakeSecret);
  masterSecret ← elift (tls13.HandshakeSecret_MasterSecret handshakeSecret);
  emodify (set_masterSecret (Some masterSecret)) ;;
  trafficSecret ← elift (tls13.ClientApplicationTrafficSecret masterSecret hs.(transcript));
  emodify (set_trafficSecret trafficSecret) ;;
  serverSecret ← elift (tls13.ServerApplicationTrafficSecret masterSecret hs.(transcript));
  set_out_secret s QUICEncryptionLevelApplication serverSecret ;;
  log_secret keyLogLabelClientTraffic trafficSecret ;;
  log_secret keyLogLabelServerTraffic serverSecret ;;
  modify_conn (tlsConn.set_ekm (Some (ekm13 masterSecret hs.(transcript)))) ;;
  when (negb (requestClientCert hs)) sendSessionTickets.

(** ** The certificate of the client *)

Definition verify_signature (certVerify : certificateVerifyMsg.t) : E hs_t unit :=
  let alg := certVerify.(certificateVerifyMsg.signatureAlgorithm) in
  let invalid {A} : E hs_t A := fail_with alertIllegalParameter "tls: client certificate used with invalid signature algorithm" in
  if negb (isSupportedSignatureAlgorithm alg supportedSignatureAlgorithms) then invalid else
  match typeAndHashFromSignatureScheme alg with
  | inl _ => onc (abort_alert alertInternalError)
  | inr (sigType, sigHash) =>
      if (sigType =? signaturePKCS1v15) || bool_decide (sigHash = CryptoHash SHA1) then invalid else
      s ← suite_of;
      hs ← state;
      signed ← elift (signedMessage sigHash clientSignatureContext (hash_of s) hs.(transcript));
      leaf ← ederef (head hs.(c).(tlsConn.peerCertificates));
      match verifyHandshakeSignature sigType (x509_PublicKey leaf) sigHash signed certVerify.(certificateVerifyMsg.signature) with
      | Some _ => fail_with alertDecryptError "tls: invalid signature by the client certificate: "
      | None => eret tt
      end
  end.

Definition read_certificate_verify : E hs_t unit :=
  msg ← read_message false;
  match msg with
  | CertificateVerify certVerify => verify_signature certVerify ;; transcript_msg msg
  | _ => unexpected
  end.

Definition verify_connection : E hs_t unit :=
  hs ← state;
  onc (callback p.(hk).(VerifyConnection) (fun f => f (connectionStateLocked hs.(c)))).

Definition readClientCertificate : E hs_t unit :=
  hs ← state;
  if negb (requestClientCert hs) then verify_connection else
  msg ← read_message true;
  match msg with
  | CertificateTLS13 certMsg =>
      let certificate := certMsg.(certificateMsgTLS13.certificate) in
      onc (processCertsFromClient now p certificate) ;;
      verify_connection ;;
      when (negb (len certificate.(Certificate.Certificate) =? 0)) read_certificate_verify ;;
      sendSessionTickets
  | _ => unexpected
  end.

Definition readClientFinished : E hs_t unit :=
  msg ← read_message false;
  match msg with
  | Finished finished =>
      s ← suite_of;
      hs ← state;
      if negb (bool_decide (hs.(clientFinished) = finished.(finishedMsg.verifyData))) then
        fail_with alertDecryptError "tls: invalid client finished hash"
      else set_in_secret s QUICEncryptionLevelApplication hs.(trafficSecret)
  | _ => unexpected
  end.

(** ** The handshake *)

Definition handshake : E hs_t unit :=
  processClientHello ;;
  checkForResumption ;;
  pickCertificate ;;
  modify_layer (Conn.set_buffering true) ;;
  sendServerParameters ;;
  sendServerCertificate ;;
  sendServerFinished ;;
  onc flush ;;
  readClientCertificate ;;
  readClientFinished ;;
  modify_layer (Conn.set_isHandshakeComplete true).

End Ops.
