(* ===== verification/Server13Facts.v ===== *)
(** * The TLS 1.3 server authenticates its client

    Theorems on the handshake of Server13: when it succeeds the client has proved that
    it knows the secret of a session that this server may resume, or it has presented
    the certificates that the configuration asks for and signed the transcript with the
    key of the leaf; and its Finished message covers the transcript under the secret of
    the handshake.  The handshake is complete exactly when it has succeeded. *)

From S2P Require Import Prelude Cryptobyte Common Config Negotiation Codec Buffer KeySchedule Record Names Messages RawMessages ServerHello ClientHello Ticket TicketKeys Caches Public Extensions Handshake Conn ConnFacts ConnFrame Suites ECH Marshal Shuffle Parrots Session Preset Auth KeyAgreement Peer PeerFacts Client13 ServerPeer ServerPeerFacts Server13.

(** ** A view of the state *)

Module sview.
Record t {X : X509} := Mk {
  suite : option cipherSuiteTLS13.t;
  transcript : bytes;
  usingPSK : bool;
  ch : clientHelloMsg.t;
  peer : list certificate;
  chains : list (list certificate);
  resumed : bool;
  secret_in : bytes;
  hsecret : option tls13.HandshakeSecret;
  master : option tls13.MasterSecret;
  traffic : bytes;
  finished : bytes;
  cfg : Config.t;
  complete : bool
}.
#[global] Arguments t X : clear implicits.
#[global] Arguments Mk {X}.
Section Set_.
Context {X : X509}.
Definition set_transcript (v : bytes) (s : t X) : t X :=
  Mk s.(suite) v s.(usingPSK) s.(ch) s.(peer) s.(chains) s.(resumed) s.(secret_in) s.(hsecret)
    s.(master) s.(traffic) s.(finished) s.(cfg) s.(complete).
Definition set_usingPSK (v : bool) (s : t X) : t X :=
  Mk s.(suite) s.(transcript) v s.(ch) s.(peer) s.(chains) s.(resumed) s.(secret_in) s.(hsecret)
    s.(master) s.(traffic) s.(finished) s.(cfg) s.(complete).
Definition set_peer (v : list certificate) (s : t X) : t X :=
  Mk s.(suite) s.(transcript) s.(usingPSK) s.(ch) v s.(chains) s.(resumed) s.(secret_in) s.(hsecret)
    s.(master) s.(traffic) s.(finished) s.(cfg) s.(complete).
Definition set_chains (v : list (list certificate)) (s : t X) : t X :=
  Mk s.(suite) s.(transcript) s.(usingPSK) s.(ch) s.(peer) v s.(resumed) s.(secret_in) s.(hsecret)
    s.(master) s.(traffic) s.(finished) s.(cfg) s.(complete).
Definition set_resumed (v : bool) (s : t X) : t X :=
  Mk s.(suite) s.(transcript) s.(usingPSK) s.(ch) s.(peer) s.(chains) v s.(secret_in) s.(hsecret)
    s.(master) s.(traffic) s.(finished) s.(cfg) s.(complete).
Definition set_secret_in (v : bytes) (s : t X) : t X :=
  Mk s.(suite) s.(transcript) s.(usingPSK) s.(ch) s.(peer) s.(chains) s.(resumed) v s.(hsecret)
    s.(master) s.(traffic) s.(finished) s.(cfg) s.(complete).
Definition set_hsecret (v : option tls13.HandshakeSecret) (s : t X) : t X :=
  Mk s.(suite) s.(transcript) s.(usingPSK) s.(ch) s.(peer) s.(chains) s.(resumed) s.(secret_in) v
    s.(master) s.(traffic) s.(finished) s.(cfg) s.(complete).
Definition set_master (v : option tls13.MasterSecret) (s : t X) : t X :=
  Mk s.(suite) s.(transcript) s.(usingPSK) s.(ch) s.(peer) s.(chains) s.(resumed) s.(secret_in)
    s.(hsecret) v s.(traffic) s.(finished) s.(cfg) s.(complete).
Definition set_traffic (v : bytes) (s : t X) : t X :=
  Mk s.(suite) s.(transcript) s.(usingPSK) s.(ch) s.(peer) s.(chains) s.(resumed) s.(secret_in)
    s.(hsecret) s.(master) v s.(finished) s.(cfg) s.(complete).
Definition set_finished (v : bytes) (s : t X) : t X :=
  Mk s.(suite) s.(transcript) s.(usingPSK) s.(ch) s.(peer) s.(chains) s.(resumed) s.(secret_in)
    s.(hsecret) s.(master) s.(traffic) v s.(cfg) s.(complete).
Definition set_complete (v : bool) (s : t X) : t X :=
  Mk s.(suite) s.(transcript) s.(usingPSK) s.(ch) s.(peer) s.(chains) s.(resumed) s.(secret_in)
    s.(hsecret) s.(master) s.(traffic) s.(finished) s.(cfg) v.
End Set_.
End sview.

Section Facts.
Context {C : Cryptobyte} {Cs : Ciphers} {B : BlockCiphers Cs} {K : Crypto} {Ks : Keys} {S : Signing Ks} {X : X509} {V : X509Verify X} {XK : X509Keys X S}
  {XC : X509Chains X S} {XS : X509Server X S XC} {I : ClientSessionCache (session.ptr X)} {E_ : KeyExchange Ks} {KE : KeyEncapsulation} {T : TicketCrypto}.
Context {HpkeContext : Type} (Open : HpkeContext -> bytes -> bytes -> HpkeContext * res bytes).
Context (supported : list cipherSuite.t) (hardware : bool) (p : configured Ks S X XC) (now : Z) (ToLower : bytes -> bytes)
  (ticketKeys : list ticketKey.t).
Import serverHandshakeStateTLS13.
Abbreviation hs_t := (serverHandshakeStateTLS13.t HpkeContext).
Implicit Types hs : hs_t.

Definition view_of hs : sview.t X := {|
  sview.suite := hs.(suite);
  sview.transcript := hs.(transcript);
  sview.usingPSK := hs.(usingPSK);
  sview.ch := hs.(clientHello);
  sview.peer := hs.(c).(tlsConn.peerCertificates);
  sview.chains := hs.(c).(tlsConn.verifiedChains);
  sview.resumed := hs.(c).(tlsConn.didResume);
  sview.secret_in := hs.(c).(tlsConn.conn).(Conn.in_).(halfConn.trafficSecret);
  sview.hsecret := hs.(handshakeSecret);
  sview.master := hs.(masterSecret);
  sview.traffic := hs.(trafficSecret);
  sview.finished := hs.(clientFinished);
  sview.cfg := config hs.(c);
  sview.complete := hs.(c).(tlsConn.conn).(Conn.isHandshakeComplete)
|}.

Definition same_view hs hs' : Prop := view_of hs' = view_of hs.
Definition grow hs hs' : Prop := exists w, view_of hs' = sview.set_transcript (hs.(transcript) ++ w) (view_of hs).
(** What no step of the beginning changes. *)
Definition base hs hs' : Prop :=
  hs'.(usingPSK) = hs.(usingPSK) /\ hs'.(c).(tlsConn.peerCertificates) = hs.(c).(tlsConn.peerCertificates) /\
  hs'.(c).(tlsConn.verifiedChains) = hs.(c).(tlsConn.verifiedChains) /\ hs'.(c).(tlsConn.didResume) = hs.(c).(tlsConn.didResume) /\
  config hs'.(c) = config hs.(c) /\ (view_of hs').(sview.complete) = (view_of hs).(sview.complete).
Definition calm hs hs' : Prop := (view_of hs').(sview.complete) = (view_of hs).(sview.complete).

#[local] Instance s13_same_preorder : PreOrder same_view.
Proof. split; [done|]. unfold same_view. intros ???. congruence. Qed.
#[local] Instance s13_grow_preorder : PreOrder grow.
Proof.
  split.
  - intros hs. exists []. by rewrite app_nil_r.
  - intros h1 h2 h3 [w1 H1] [w2 H2]. exists (w1 ++ w2).
    assert (Ht : h2.(transcript) = h1.(transcript) ++ w1) by (apply (f_equal sview.transcript) in H1; exact H1).
    rewrite H2, H1, Ht, <- app_assoc. done.
Qed.
#[local] Instance s13_base_preorder : PreOrder base.
Proof. split; [done|]. unfold base. intros ???. intuition congruence. Qed.
#[local] Instance s13_calm_preorder : PreOrder calm.
Proof. split; [done|]. unfold calm. intros ???. congruence. Qed.

Lemma s13_same_grow hs hs' : same_view hs hs' -> grow hs hs'.
Proof. intros H. exists []. rewrite app_nil_r. exact H. Qed.
Lemma s13_same_base hs hs' : same_view hs hs' -> base hs hs'.
Proof. unfold same_view, base. intros H. injection H. intuition. Qed.
Lemma s13_grow_same {A} (m : E hs_t A) : stable same_view m -> stable grow m.
Proof. apply stable_weaken, s13_same_grow. Qed.
Lemma s13_base_same {A} (m : E hs_t A) : stable same_view m -> stable base m.
Proof. apply stable_weaken, s13_same_base. Qed.
Lemma s13_calm_base {A} (m : E hs_t A) : stable base m -> stable calm m.
Proof. apply stable_weaken. by intros hs hs' (_ & _ & _ & _ & _ & H). Qed.
Lemma s13_calm_grow {A} (m : E hs_t A) : stable grow m -> stable calm m.
Proof. apply stable_weaken. intros hs hs' [w H]. unfold calm. by rewrite H. Qed.

(** ** Steps that leave the view alone, or add to the transcript *)

Lemma s13_onc {A} (m : E tlsConn.t A) : stable layer m -> stable same_view (onc m).
Proof.
  apply stable_zoom. intros hs c' (k & [Hc Hv Hcfg Hh Hs Hcl Hi Ho] & ->). unfold same_view, view_of, config. cbn. unfold same_secret in *. cbn in *. by rewrite Hc, Hcfg, Hi.
Qed.
Hint Resolve s13_onc layer_abort layer_abort_with layer_abort_alert layer_readHandshake layer_writeHandshakeRecord
  layer_writeChangeCipherRecord layer_flush layer_draws layer_unwrap layer_wrap : stable.
Hint Extern 4 (same_view _ _) => done : stable.
Hint Extern 4 (base _ _) => done : stable.
Hint Extern 4 (grow _ _) => (apply s13_same_grow; done) : stable.
Hint Extern 5 (stable grow (onc _)) => apply s13_grow_same : stable.
Hint Extern 5 (stable base (onc _)) => apply s13_base_same : stable.

Lemma s13_read_quietly hs hs' m : read_message false hs = Ret (hs', inr m) ->
  same_view hs hs' /\ exists c1, readHandshake false hs.(c) = Ret (c1, inr ([], m)).
Proof.
  unfold read_message, write_transcript. intros H. estep H. estep H. injection H as <- <-. pose proof (s13_onc _ (layer_readHandshake false) _ _ _ Hs) as Hv.
  apply zoom_ok in Hs as (c' & Hs & ->). pose proof (readHandshake_silent _ _ _ Hs) as Hw. destruct a as [w m']. cbn in Hw. subst w.
  split; [|by exists c']. unfold same_view in *. rewrite <- Hv. unfold view_of. cbn. by rewrite app_nil_r.
Qed.
(** A message that is read and goes to the transcript. *)
Lemma s13_read_ok hs hs' m : read_message true hs = Ret (hs', inr m) ->
  exists c1 u, readHandshake true hs.(c) = Ret (c1, inr (u, m)) /\ view_of hs' = sview.set_transcript (hs.(transcript) ++ u) (view_of hs).
Proof.
  unfold read_message, write_transcript. intros H. estep H. estep H. injection H as <- <-. pose proof (s13_onc _ (layer_readHandshake true) _ _ _ Hs) as Hv.
  apply zoom_ok in Hs as (c' & Hs & ->). destruct a as [u m']. exists c', u. split; [exact Hs|].
  apply (f_equal (sview.set_transcript (hs.(transcript) ++ u))) in Hv. exact Hv.
Qed.
(** A message that only goes to the transcript. *)
Lemma s13_transcript_ok m hs hs' x : transcript_msg m hs = Ret (hs', inr x) ->
  exists b, transcriptMsg m = Ret (inr b) /\ view_of hs' = sview.set_transcript (hs.(transcript) ++ b) (view_of hs).
Proof.
  unfold transcript_msg, hashed, write_transcript. intros H. estep H. estep Hs. apply eres_ok in Hs as [-> Hs]. injection H as <- _.
  exists a. split; [congruence|done].
Qed.
(** A message that is written, and goes to the transcript. *)
Lemma s13_wrote m hs hs' x : write_message m hs = Ret (hs', inr x) ->
  exists b, marshal m = Ret (inr b) /\ view_of hs' = sview.set_transcript (hs.(transcript) ++ b) (view_of hs).
Proof.
  unfold write_message, write_transcript. intros H. estep H. estep H. apply raise_ok in H as [-> He]. pose proof (s13_onc _ (layer_writeHandshakeRecord m) _ _ _ Hs) as Hv.
  apply zoom_ok in Hs as (c' & Hs & ->). destruct a as [b e]. cbn in He. subst e. exists b. split; [exact (writeHandshakeRecord_wrote _ _ _ _ Hs)|].
  apply (f_equal (sview.set_transcript (hs.(transcript) ++ b))) in Hv. exact Hv.
Qed.
Lemma s13_suite_of_ok hs hs' s : suite_of hs = Ret (hs', inr s) -> hs' = hs /\ hs.(suite) = Some s.
Proof. unfold suite_of. intros H. estep H. by apply ederef_ok in H. Qed.
Lemma s13_same_suite : stable same_view suite_of.
Proof. unfold suite_of. stable. Qed.
Lemma s13_same_cert : stable same_view cert_of.
Proof. unfold cert_of. stable. Qed.
Lemma s13_same_unexpected {A} : stable same_view (unexpected (A := A)).
Proof. unfold unexpected. stable. Qed.
Lemma s13_same_fail {A} a msg : stable same_view (fail_with (A := A) a msg).
Proof. unfold fail_with. stable. Qed.
Lemma s13_same_hashed m : stable same_view (hashed m).
Proof. unfold hashed. stable. Qed.
Lemma s13_same_dummy : stable same_view sendDummyChangeCipherSpec.
Proof. unfold sendDummyChangeCipherSpec. stable. Qed.
Lemma s13_same_hello f : stable same_view (modify_hello f).
Proof. unfold modify_hello. stable. Qed.
Lemma s13_same_log l sec : stable same_view (log_secret p l sec).
Proof.
  unfold log_secret. apply stable_bind; [apply _|stable|]. intros hs. apply stable_bind; [apply _| |stable].
  apply (stable_zoom _ (fun c c' => exists l, c' = tlsConn.set_keyLog l c)); [by intros h t [l' ->]|]. apply stable_caught, logged.
Qed.
Hint Resolve s13_same_suite s13_same_cert s13_same_unexpected s13_same_fail s13_same_hashed s13_same_dummy s13_same_hello s13_same_log : stable.
Hint Extern 6 (stable grow _) => (apply s13_grow_same; solve [auto 4 with stable nocore]) : stable.
Hint Extern 6 (stable base _) => (apply s13_base_same; solve [auto 4 with stable nocore]) : stable.

Lemma s13_grow_write b : stable grow (write_transcript b).
Proof. apply stable_modify. intros hs. by exists b. Qed.
Lemma s13_base_write b : stable base (write_transcript b).
Proof. by apply stable_modify. Qed.
Hint Resolve s13_grow_write s13_base_write : stable.
Lemma s13_grow_transcript m : stable grow (transcript_msg m).
Proof. unfold transcript_msg. stable. Qed.
Lemma s13_base_transcript m : stable base (transcript_msg m).
Proof. unfold transcript_msg. stable. Qed.
Lemma s13_grow_read t : stable grow (read_message t).
Proof. unfold read_message. stable. Qed.
Lemma s13_base_read t : stable base (read_message t).
Proof. unfold read_message. stable. Qed.
Lemma s13_grow_write_message m : stable grow (write_message m).
Proof. unfold write_message. stable. Qed.
Lemma s13_base_write_message m : stable base (write_message m).
Proof. unfold write_message. stable. Qed.
Hint Resolve s13_grow_transcript s13_base_transcript s13_grow_read s13_base_read s13_grow_write_message s13_base_write_message : stable.

(** ** The ClientHello *)

Lemma s13_base_retry g : stable base (doHelloRetryRequest Open g).
Proof. unfold doHelloRetryRequest, send_retry, second_inner, modify_conn. stable. Qed.
Hint Resolve s13_base_retry : stable.
Lemma s13_base_exchange g data : stable base (exchange_keys g data).
Proof. unfold exchange_keys, ecdh_part. stable. Qed.
Hint Resolve s13_base_exchange : stable.
Lemma s13_base_client_hello : stable base (processClientHello Open supported hardware).
Proof.
  unfold processClientHello, check_client_hello, pick_suite, pick_group, conn_field, modify_layer, modify_conn. stable.
Qed.

Lemma s13_unexpected_fails {A} hs hs' (x : A) : unexpected hs = Ret (hs', inr x) -> False.
Proof. apply abort_fails. Qed.
Lemma s13_fail_fails {A} a msg hs hs' (x : A) : fail_with a msg hs = Ret (hs', inr x) -> False.
Proof. apply abort_fails. Qed.
Ltac no_alert H ::= try (by apply s13_fail_fails in H); try (by apply s13_unexpected_fails in H); try (by apply abort_with_fails in H);
  try (by apply abort_fails in H); try (by apply abort_alert_fails in H).

(** ** Resumption *)

(** The client has offered a session that this server may resume, and proved with its
    binder that it knows the secret: what the connection [hs] shows, which has read the
    hello.  (The tickets before that of the session have been looked at, which may send
    nothing but alerts: the record layer alone may differ.) *)
Record resumes hs (s : cipherSuiteTLS13.t) (ss : SessionState.t X) : Prop := {
  re_ticket : exists i identity c1 c2, hs.(clientHello).(clientHelloMsg.pskIdentities) !! i = Some identity /\ layer hs.(c) c1 /\
    unwrap_session p ticketKeys identity.(pskIdentity.label) c1 = Ret (c2, inr (Some ss)) /\
    exists key b binder, tls13.ResumptionBinderKey (tls13.NewEarlySecret (hash_of s) (Some ss.(SessionState.secret))) = Ret key /\
      clientHelloMsg.marshalWithoutBinders hs.(clientHello) = Ret (inr b) /\ hs.(clientHello).(clientHelloMsg.pskBinders) !! i = Some binder /\
      finishedHash s key (hs.(transcript) ++ b) = Ret binder;
  re_usable : usable p now s ss = true
}.
Definition resumed_view (ss : SessionState.t X) (v : sview.t X) : sview.t X :=
  sview.set_usingPSK true (sview.set_resumed true (sview.set_peer ss.(SessionState.peerCertificates) (sview.set_chains ss.(SessionState.verifiedChains) v))).

Lemma check_binder_ok s i ss hs hs' x : check_binder s i ss hs = Ret (hs', inr x) -> same_view hs hs' /\
  exists key b binder, tls13.ResumptionBinderKey (tls13.NewEarlySecret (hash_of s) (Some ss.(SessionState.secret))) = Ret key /\
    clientHelloMsg.marshalWithoutBinders hs.(clientHello) = Ret (inr b) /\ hs.(clientHello).(clientHelloMsg.pskBinders) !! i = Some binder /\
    finishedHash s key (hs.(transcript) ++ b) = Ret binder.
Proof.
  unfold check_binder. intros H. estep H. estep H. estep H. estep H. destruct a0 as [e|b]; [by no_alert H|]. estep H. estep H.
  unfold when in H. case_match eqn:Eb; [by no_alert H|]. injection H as <- _. apply negb_false_iff, bool_decide_eq_true_1 in Eb. subst a1.
  split; [done|]. by exists a, b, a0.
Qed.

(** What is left of the identities of a hello is tried. *)
Lemma try_identities_ok s i ids hs0 hs hs' x : view_of hs = view_of hs0 -> layer hs0.(c) hs.(c) ->
  drop i hs0.(clientHello).(clientHelloMsg.pskIdentities) = ids -> try_identities p now ticketKeys s i ids hs = Ret (hs', inr x) ->
  same_view hs0 hs' \/ exists ss, resumes hs0 s ss /\ view_of hs' = resumed_view ss (view_of hs0).
Proof.
  revert i hs. induction ids as [|id ids IH]; intros i hs V0 L0 Hd; cbn [try_identities]; [intros [= <- _]; by left|].
  destruct (maxClientPSKIdentities <=? _); [intros [= <- _]; by left|]. intros H. estep H. pose proof (s13_onc _ (layer_unwrap p ticketKeys _) _ _ _ Hs) as Hv.
  unfold same_view in Hv. rewrite V0 in Hv. apply zoom_ok in Hs as (c' & Hu & ->).
  assert (L1 : layer hs0.(c) (set_c c' hs).(c)) by (etrans; [exact L0|exact (layer_unwrap p ticketKeys _ _ _ _ Hu)]).
  assert (Hd' : drop (Datatypes.S i) hs0.(clientHello).(clientHelloMsg.pskIdentities) = ids) by (rewrite <- Nat.add_1_r, <- drop_drop, Hd; done).
  destruct a as [ss|]; [|by apply (IH _ _ Hv L1 Hd')]. destruct (usable p now s ss) eqn:Eu; [|by apply (IH _ _ Hv L1 Hd')]. estep H. apply check_binder_ok in Hs as [V2 Hb].
  right. exists ss. unfold same_view in *. split.
  - constructor; [|exact Eu]. exists i, id, hs.(c), c'. split; [|split; [exact L0|split; [exact Hu|]]].
    + rewrite <- (Nat.add_0_r i), <- lookup_drop, Hd. done.
    + injection Hv as V1 V3 V4 V5 _. cbn in *. by rewrite <- V5, <- V3.
  - unfold resume, modify_conn, modify_hello in H. estep H. estep H. injection H as <- _. rewrite <- Hv, <- V2. done.
Qed.

Lemma checkForResumption_ok hs hs' x : checkForResumption p now ticketKeys hs = Ret (hs', inr x) ->
  same_view hs hs' \/ exists s ss, hs.(suite) = Some s /\ resumes hs s ss /\ view_of hs' = resumed_view ss (view_of hs).
Proof.
  unfold checkForResumption. intros H. estep H. case_match; [injection H as <-; by left|]. case_match; [injection H as <-; by left|]. case_match; [by no_alert H|].
  estep H. apply s13_suite_of_ok in Hs as [-> Hs]. apply (try_identities_ok _ _ _ hs) in H; [|done|reflexivity|done]. destruct H as [H|(ss & H)]; [by left|]. right. by exists a, ss.
Qed.

Lemma s13_same_pick : stable same_view (pickCertificate supported p ToLower).
Proof. unfold pickCertificate. stable. Qed.

(** ** The keys and the messages of the server *)

Lemma s13_set_out s l sec : stable same_view (set_out_secret s l sec).
Proof.
  intros hs hs' r. unfold set_out_secret, modify_layer, modify_conn. intros [(e & [=] & _)|(h1 & a & [= <- <-] & H)]%ebind_inv.
  apply ebind_inv in H as [(e & H & _)|(h1 & hc & H1 & H)]; [by unfold elift in H; destruct (setTrafficSecret _ _ _ _ _)|].
  apply elift_ok in H1 as [-> H1]. by injection H as <- _.
Qed.
Lemma s13_set_in s l sec hs hs' x : set_in_secret s l sec hs = Ret (hs', inr x) -> view_of hs' = sview.set_secret_in sec (view_of hs).
Proof.
  unfold set_in_secret, modify_layer, modify_conn. intros H. estep H. estep H. injection H as <- _. unfold setTrafficSecret in Hs.
  ostep Hs. case_match. ostep Hs. by injection Hs as <-.
Qed.
Hint Resolve s13_set_out : stable.

Lemma s13_same_confirm : stable same_view confirm_ech.
Proof. unfold confirm_ech. stable. Qed.
Lemma s13_grow_configs : stable same_view (retry_configs p).
Proof. unfold retry_configs. stable. Qed.
Hint Resolve s13_same_confirm s13_grow_configs : stable.

Lemma handshake_keys_ok hs hs' x : handshake_keys p hs = Ret (hs', inr x) ->
  exists h sec, tls13.ClientHandshakeTrafficSecret h hs.(transcript) = Ret sec /\
    view_of hs' = sview.set_secret_in sec (sview.set_hsecret (Some h) (view_of hs)).
Proof.
  unfold handshake_keys. intros H. estep H. apply s13_suite_of_ok in Hs as [-> Hsu]. estep H. estep H. estep H. estep H. estep H. apply s13_set_in in Hs1.
  estep H. estep H. apply s13_set_out in Hs3. estep H. apply s13_same_log in Hs4. apply s13_same_log in H. unfold same_view in *. exists a0, a1.
  split; [exact Hs0|]. by rewrite H, Hs4, Hs3, Hs1.
Qed.

(** The transcript [t] with both hellos behind it. *)
Definition hellos (ch : clientHelloMsg.t) (t t' : bytes) : Prop := exists b1 sh b2,
  transcriptMsg (ClientHello ch) = Ret (inr b1) /\ marshal (ServerHello sh) = Ret (inr b2) /\ t' = (t ++ b1) ++ b2.

(** The secret of the client: from the transcript up to the ServerHello. *)
Lemma sendServerParameters_ok hs hs' x : sendServerParameters p hs = Ret (hs', inr x) ->
  exists h sec t w', tls13.ClientHandshakeTrafficSecret h t = Ret sec /\ hellos hs.(clientHello) hs.(transcript) t /\
    view_of hs' = sview.set_transcript (t ++ w') (sview.set_secret_in sec (sview.set_hsecret (Some h) (view_of hs))).
Proof.
  unfold sendServerParameters, conn_field. intros H. estep H. apply s13_same_confirm in Hs. unfold same_view in Hs. estep H. estep H.
  apply s13_transcript_ok in Hs0 as (b1 & Hb1 & V1). estep H. apply s13_wrote in Hs0 as (b2 & Hb2 & V2). estep H. apply s13_same_dummy in Hs0. unfold same_view in Hs0.
  apply (f_equal sview.ch) in Hs as Hch. apply (f_equal sview.transcript) in Hs as T0. apply (f_equal sview.transcript) in V1 as T1. apply (f_equal sview.transcript) in V2 as T2.
  cbn in Hch, T0, T1, T2. rewrite T1, T0 in T2. rewrite T1, T0, V1, Hs in V2. rewrite Hch in Hb1. rewrite V2 in Hs0.
  estep H. apply handshake_keys_ok in Hs1 as (h & sec & Hsec & V3). rewrite Hs0 in V3. apply (f_equal sview.transcript) in Hs0 as T3. cbn in T3. rewrite T3 in Hsec.
  estep H. apply s13_grow_configs in Hs1. unfold same_view in Hs1. rewrite V3 in Hs1. apply (f_equal sview.transcript) in Hs1 as T4. cbn in T4.
  estep H. apply s13_grow_write_message in H as [w' V4]. rewrite Hs1, T4 in V4.
  exists h, sec, ((hs.(transcript) ++ b1) ++ b2), w'. split; [exact Hsec|]. split; [by exists b1, s.(hello), b2|]. exact V4.
Qed.

Lemma s13_grow_certificate : stable grow (sendServerCertificate p).
Proof. unfold sendServerCertificate, send_certificate_verify. stable. Qed.

(** The Finished message that is expected of the client. *)
Lemma s13_layer_ticket b extra : stable layer (sendSessionTicket p now ticketKeys b extra).
Proof. unfold sendSessionTicket. pose proof (fun m => layer_on_conn _ (framed_writeHandshakeRecord (reader := reader) ReadFull m false)). stable. Qed.
Hint Resolve s13_layer_ticket : stable.

Lemma sendSessionTickets_ok hs hs' x : sendSessionTickets p now ticketKeys hs = Ret (hs', inr x) ->
  exists s fin w, hs.(suite) = Some s /\ finishedHash s (view_of hs).(sview.secret_in) hs.(transcript) = Ret fin /\
    transcriptMsg (Finished (finishedMsg.Mk fin)) = Ret (inr w) /\
    view_of hs' = sview.set_transcript (hs.(transcript) ++ w) (sview.set_finished fin (view_of hs)).
Proof.
  unfold sendSessionTickets, modify_conn. intros H. estep H. apply s13_suite_of_ok in Hs as [-> Hsu]. estep H. estep H. estep H. estep H. apply s13_transcript_ok in Hs0 as (w & Hw & V1).
  estep H. estep H. estep H. estep H. exists a, a0, w. split; [exact Hsu|]. split; [exact Hs|]. split; [exact Hw|].
  match type of H with when ?b ?m _ = _ => assert (Hst : stable same_view (when b m)) by stable end. apply Hst in H. rewrite H. exact V1.
Qed.

Lemma sendServerFinished_ok hs hs' x : sendServerFinished p now ticketKeys hs = Ret (hs', inr x) ->
  exists s ms traffic w, hs.(suite) = Some s /\
    let v := sview.set_traffic traffic (sview.set_master (Some ms) (view_of hs)) in
    if requestClientCert p hs then view_of hs' = sview.set_transcript (hs.(transcript) ++ w) v
    else exists fin w', finishedHash s (view_of hs).(sview.secret_in) (hs.(transcript) ++ w) = Ret fin /\
      transcriptMsg (Finished (finishedMsg.Mk fin)) = Ret (inr w') /\
      view_of hs' = sview.set_transcript ((hs.(transcript) ++ w) ++ w') (sview.set_finished fin v).
Proof.
  unfold sendServerFinished, modify_conn. intros H. estep H. apply s13_suite_of_ok in Hs as [-> Hsu]. estep H. estep H. estep H. apply s13_grow_write_message in Hs0 as [w V1].
  estep H. estep H. estep H. estep H. estep H. estep H. estep H. estep H. apply s13_set_out in Hs4. estep H. apply s13_same_log in Hs5. estep H. apply s13_same_log in Hs6.
  estep H. unfold same_view in *. exists a, a3, a4, w. split; [exact Hsu|]. cbn zeta. rewrite Hs5, Hs4 in Hs6.
  match type of H with _ ?z = _ => set (hz := z) in * end.
  assert (V2 : view_of hz = sview.set_transcript (hs.(transcript) ++ w) (sview.set_traffic a4 (sview.set_master (Some a3) (view_of hs)))).
  { transitivity (view_of s2); [done|]. rewrite Hs6. apply (f_equal (fun v => sview.set_traffic a4 (sview.set_master (Some a3) v))) in V1. exact V1. }
  assert (Hr : requestClientCert p s = requestClientCert p hs).
  { apply (f_equal sview.usingPSK) in V1. unfold requestClientCert. cbn in V1. by rewrite V1. }
  clearbody hz. rewrite Hr in H. destruct (requestClientCert p hs); cbn [negb when] in H; [injection H as <- _; exact V2|].
  apply sendSessionTickets_ok in H as (s3 & fin & w' & Hsu3 & Hfin & Hw' & V3).
  injection V2 as Q1 Q2 Q3 Q4 Q5 Q6 Q7 Q8 Q9 Q10 Q11 Q12 Q13 Q14. exists fin, w'.
  assert (s3 = a) as -> by congruence. cbn [sview.secret_in view_of] in *. rewrite Q8, Q2 in Hfin. split; [exact Hfin|]. split; [exact Hw'|]. rewrite V3, Q2.
  unfold view_of, sview.set_transcript, sview.set_finished, sview.set_traffic, sview.set_master. cbn. f_equal; congruence.
Qed.

(** ** The certificate of the client *)

(** A signature of the leaf over the transcript [t], with a scheme that TLS 1.3
    allows. *)
Record client_signed (s : cipherSuiteTLS13.t) (leaf : certificate) (t : bytes) (certVerify : certificateVerifyMsg.t) : Prop := {
  cs_supported : isSupportedSignatureAlgorithm certVerify.(certificateVerifyMsg.signatureAlgorithm) supportedSignatureAlgorithms = true;
  cs_valid : exists sigType sigHash signed,
    typeAndHashFromSignatureScheme certVerify.(certificateVerifyMsg.signatureAlgorithm) = inr (sigType, sigHash) /\ modern sigType sigHash /\
    signedMessage sigHash clientSignatureContext (hash_of s) t = Ret signed /\
    verifyHandshakeSignature sigType (x509_PublicKey leaf) sigHash signed certVerify.(certificateVerifyMsg.signature) = None
}.
(** The certificates that a client presents, and the proof that it has the key: what the
    connection [c0] reads when its transcript is [t].  The message with the certificates
    is [u], that with the signature [w]. *)
Record certified (c0 : tlsConn.t) (s : cipherSuiteTLS13.t) (peer : list certificate) (chains : list (list certificate)) (t u w : bytes) : Prop := {
  ce_presented : exists c1 certMsg, readHandshake true c0 = Ret (c1, inr (u, CertificateTLS13 certMsg)) /\
    presented now p certMsg.(certificateMsgTLS13.certificate).(Certificate.Certificate) peer chains;
  ce_signed : forall leaf rest, peer = leaf :: rest -> exists certVerify,
    transcriptMsg (CertificateVerify certVerify) = Ret (inr w) /\ client_signed s leaf (t ++ u) certVerify;
  ce_none : peer = [] -> w = []
}.

Lemma s13_verify_signature_ok certVerify hs hs' x : verify_signature certVerify hs = Ret (hs', inr x) ->
  hs' = hs /\ exists s leaf, hs.(suite) = Some s /\ head hs.(c).(tlsConn.peerCertificates) = Some leaf /\ client_signed s leaf hs.(transcript) certVerify.
Proof.
  unfold verify_signature. intros H. destruct (isSupportedSignatureAlgorithm _ _) eqn:Ea; [|by no_alert H]. cbn [negb] in H.
  destruct (typeAndHashFromSignatureScheme _) as [|[t h]] eqn:Et; [by no_alert H|]. case_match eqn:Em; [by no_alert H|].
  apply orb_false_iff in Em as [E1 E2]. estep H. apply s13_suite_of_ok in Hs as [-> Hs]. estep H. estep H. estep H.
  destruct (verifyHandshakeSignature _ _ _ _ _) eqn:Ev; [by no_alert H|]. injection H as <- _. split; [done|]. exists a, a1.
  split; [done|]. split; [done|]. constructor; [done|]. exists t, h, a0. repeat split; try done; [by apply Z.eqb_neq|by eapply bool_decide_eq_false_1].
Qed.

Lemma read_certificate_verify_ok hs hs' x : read_certificate_verify hs = Ret (hs', inr x) ->
  exists s leaf certVerify b, hs.(suite) = Some s /\ head hs.(c).(tlsConn.peerCertificates) = Some leaf /\ client_signed s leaf hs.(transcript) certVerify /\
    transcriptMsg (CertificateVerify certVerify) = Ret (inr b) /\ view_of hs' = sview.set_transcript (hs.(transcript) ++ b) (view_of hs).
Proof.
  unfold read_certificate_verify. intros H. estep H. apply s13_read_quietly in Hs as [Hv _].
  destruct a as [| | | | | | | | | | | | |cv| | | | | |]; try by no_alert H. estep H. apply s13_verify_signature_ok in Hs as (-> & sx & leaf & Hsu & Hl & Hsig).
  apply s13_transcript_ok in H as (b & Hb & V1). exists sx, leaf, cv, b. unfold same_view in Hv. rewrite Hv in V1. injection Hv as W1 W2 W3 W4 W5 _. cbn in *. rewrite W2 in *.
  split; [congruence|]. split; [congruence|]. done.
Qed.

Lemma s13_verify_connection : stable same_view (verify_connection p).
Proof. unfold verify_connection. assert (forall A (f : option A) g, stable layer (callback f g)) by (intros; apply (stable_callback layer); done). stable. Qed.

(** The signature, when there is a certificate. *)
Lemma signature_read hs hs' x peer : hs.(c).(tlsConn.peerCertificates) = peer ->
  when (negb (len peer =? 0)) read_certificate_verify hs = Ret (hs', inr x) ->
  exists w, view_of hs' = sview.set_transcript (hs.(transcript) ++ w) (view_of hs) /\ (peer = [] -> w = []) /\
    forall leaf rest, peer = leaf :: rest -> exists s certVerify, hs.(suite) = Some s /\
      transcriptMsg (CertificateVerify certVerify) = Ret (inr w) /\ client_signed s leaf hs.(transcript) certVerify.
Proof.
  intros Hp. unfold when. case_match eqn:En; intros H.
  - apply read_certificate_verify_ok in H as (s & leaf & cv & b & Hs & Hl & Hsig & Hb & V1). rewrite Hp in Hl. exists b. split; [exact V1|].
    split; [intros ->; discriminate Hl|]. intros leaf' rest ->. injection Hl as <-. by exists s, cv.
  - injection H as <-. exists []. rewrite app_nil_r. split; [done|]. split; [done|]. intros leaf rest ->. apply negb_false_iff, Z.eqb_eq in En. unfold len in En. cbn in En. lia.
Qed.

Lemma readClientCertificate_ok hs hs' x : readClientCertificate p now ticketKeys hs = Ret (hs', inr x) ->
  if requestClientCert p hs then
    exists s peer chains fin u w b, hs.(suite) = Some s /\ certified hs.(c) s peer chains hs.(transcript) u w /\
      finishedHash s (view_of hs).(sview.secret_in) (hs.(transcript) ++ u ++ w) = Ret fin /\
      transcriptMsg (Finished (finishedMsg.Mk fin)) = Ret (inr b) /\
      view_of hs' = sview.set_transcript (hs.(transcript) ++ u ++ w ++ b) (sview.set_finished fin (sview.set_peer peer (sview.set_chains chains (view_of hs))))
  else same_view hs hs'.
Proof.
  unfold readClientCertificate. intros H. estep H. destruct (requestClientCert p hs); cbn [negb] in H; [|by eapply s13_verify_connection].
  estep H. apply s13_read_ok in Hs as (c1 & u & Hu & V1). destruct a as [| | | | | | | |m| | | | | | | | | | |]; try by no_alert H. estep H.
  apply zoom_ok in Hs as (c' & Hp & ->). apply processCertsFromClient_ok in Hp as (peer & chains & Hp & _ & ->). estep H. apply s13_verify_connection in Hs. unfold same_view in Hs.
  assert (V2 : view_of s0 = sview.set_transcript (hs.(transcript) ++ u) (sview.set_peer peer (sview.set_chains chains (view_of hs)))).
  { rewrite Hs. apply (f_equal (fun v => sview.set_peer peer (sview.set_chains chains v))) in V1. exact V1. }
  estep H. apply (f_equal sview.transcript) in V2 as Ht. apply (f_equal sview.peer) in V2 as Hpe. cbn in Ht, Hpe.
  assert (Hl : len (Certificate.Certificate (certificateMsgTLS13.certificate m)) = len peer).
  { unfold len. by rewrite (Forall2_length _ _ _ (pr_parsed _ _ _ _ _ Hp)). }
  rewrite Hl in Hs0. apply (signature_read _ _ _ _ Hpe) in Hs0 as (w & V3 & Hn & Hsig). rewrite Ht, V2 in V3.
  apply sendSessionTickets_ok in H as (sx & fin & b & Hsu & Hfin & Hb & V4).
  injection V3 as Q1 Q2 Q3 Q4 Q5 Q6 Q7 Q8 Q9 Q10 Q11 Q12 Q13 Q14. injection V2 as R1 _. cbn [sview.secret_in view_of] in *.
  exists sx, peer, chains, fin, u, w, b. split; [congruence|]. split; [|split; [|split; [exact Hb|]]].
  - constructor; [by exists c1, m| |exact Hn]. intros leaf rest Hlr. destruct (Hsig leaf rest Hlr) as (sy & cv & Hy & Hcv & Hc). exists cv. split; [exact Hcv|].
    assert (sy = sx) as -> by congruence. by rewrite Ht in Hc.
  - rewrite Q8, Q2, <- app_assoc in Hfin. exact Hfin.
  - rewrite V4, Q2, <- !app_assoc. unfold view_of, sview.set_transcript, sview.set_finished, sview.set_peer, sview.set_chains. cbn. f_equal; congruence.
Qed.

Lemma readClientFinished_ok hs hs' x : readClientFinished hs = Ret (hs', inr x) ->
  (exists c2, readHandshake false hs.(c) = Ret (c2, inr ([], Finished (finishedMsg.Mk hs.(clientFinished))))) /\
  view_of hs' = sview.set_secret_in hs.(trafficSecret) (view_of hs).
Proof.
  unfold readClientFinished. intros H. estep H. apply s13_read_quietly in Hs as [Hv [c2 Hr]]. unfold same_view in Hv.
  destruct a as [| | | | | | | | | | | | | |fm| | | | |]; try by no_alert H. estep H. apply s13_suite_of_ok in Hs as [-> _]. estep H.
  case_match eqn:Ef; [by no_alert H|]. apply negb_false_iff, bool_decide_eq_true_1 in Ef. destruct fm as [fin]. cbn in Ef. apply s13_set_in in H.
  apply (f_equal sview.finished) in Hv as Hf. apply (f_equal sview.traffic) in Hv as Ht. cbn in Hf, Ht. rewrite <- Hf, Ef.
  split; [by exists c2|]. by rewrite H, Hv, Ht.
Qed.

(** ** Authentication *)

(** From the hello of the client to the end of the flight of the server. *)
Definition flight : E hs_t unit :=
  checkForResumption p now ticketKeys ;; pickCertificate supported p ToLower ;; modify_layer (Conn.set_buffering true) ;;
  sendServerParameters p ;; sendServerCertificate p ;; sendServerFinished p now ticketKeys ;; onc flush.

(** What a successful handshake shows: [h0] is the state when the hello has been
    processed, [h1] the state after the flight of the server, and [h2] the state when
    only the Finished message of the client is missing. *)
Record authenticated hs hs' : Prop := {
  sa_proof : exists h0 h1 h2 c2 s h sec t1 t2 fin b,
    processClientHello Open supported hardware hs = Ret (h0, inr tt) /\ flight h0 = Ret (h1, inr tt) /\ readClientCertificate p now ticketKeys h1 = Ret (h2, inr tt) /\
    (* the next message of the client is its Finished *)
    readHandshake false h2.(c) = Ret (c2, inr ([], Finished (finishedMsg.Mk fin))) /\
    (* it covers all of the transcript, under the secret of the handshake up to the ServerHello *)
    hs'.(suite) = Some s /\ hs'.(handshakeSecret) = Some h /\ hs'.(clientHello) = h0.(clientHello) /\
    hellos h0.(clientHello) h0.(transcript) t1 /\ tls13.ClientHandshakeTrafficSecret h t1 = Ret sec /\
    h2.(c).(tlsConn.conn).(Conn.in_).(halfConn.trafficSecret) = sec /\ finishedHash s sec (t1 ++ t2) = Ret fin /\
    transcriptMsg (Finished (finishedMsg.Mk fin)) = Ret (inr b) /\ hs'.(transcript) = (t1 ++ t2) ++ b /\
    let peer := hs'.(c).(tlsConn.peerCertificates) in
    let chains := hs'.(c).(tlsConn.verifiedChains) in
    if hs'.(usingPSK) then
      (* the client knows the secret of a session, whose certificates the connection has *)
      hs'.(c).(tlsConn.didResume) = true /\
      exists ss, resumes h0 s ss /\ peer = ss.(SessionState.peerCertificates) /\ chains = ss.(SessionState.verifiedChains)
    else
      hs'.(c).(tlsConn.didResume) = hs.(c).(tlsConn.didResume) /\
      if requestsClientCert p.(sv).(ClientAuth) then
        exists t3 u w, t2 = t3 ++ u ++ w /\ h1.(transcript) = t1 ++ t3 /\ certified h1.(c) s peer chains (t1 ++ t3) u w
      else peer = hs.(c).(tlsConn.peerCertificates)
}.

(** The state when the keys of the handshake are there. *)
Definition begun hs h0 (v : sview.t X) (s : cipherSuiteTLS13.t) : Prop :=
  v.(sview.ch) = h0.(clientHello) /\ v.(sview.transcript) = h0.(transcript) /\
  if v.(sview.usingPSK) then v.(sview.resumed) = true /\
    exists ss, resumes h0 s ss /\ v.(sview.peer) = ss.(SessionState.peerCertificates) /\ v.(sview.chains) = ss.(SessionState.verifiedChains)
  else v.(sview.resumed) = hs.(c).(tlsConn.didResume) /\ v.(sview.peer) = hs.(c).(tlsConn.peerCertificates).

Lemma begun_ok hs h1 h2 h3 x y z s : hs.(usingPSK) = false ->
  processClientHello Open supported hardware hs = Ret (h1, inr x) -> checkForResumption p now ticketKeys h1 = Ret (h2, inr y) ->
  pickCertificate supported p ToLower h2 = Ret (h3, inr z) -> h3.(suite) = Some s -> begun hs h1 (view_of h3) s.
Proof.
  intros Hp H1 H2 H3 Hsu. apply s13_base_client_hello in H1 as (B1 & B2 & B3 & B4 & _). apply s13_same_pick in H3. unfold same_view in H3.
  apply checkForResumption_ok in H2 as [V1|(s2 & ss & Hs & Hr & V1)]; [unfold same_view in V1|]; rewrite <- H3 in V1.
  - rewrite V1. unfold begun. cbn. rewrite B1, Hp. split; [done|]. split; [done|]. split; [exact B4|exact B2].
  - unfold begun. apply (f_equal sview.suite) in V1 as Hx. cbn in Hx. assert (s2 = s) as -> by congruence. rewrite V1. cbn. do 3 (split; [done|]).
    by exists ss.
Qed.

(** The view with the secrets of the key schedule. *)
Definition keyed (h : tls13.HandshakeSecret) (sec : bytes) (ms : tls13.MasterSecret) (traffic : bytes) (v : sview.t X) : sview.t X :=
  sview.set_traffic traffic (sview.set_master (Some ms) (sview.set_secret_in sec (sview.set_hsecret (Some h) v))).

(** The messages of the server up to its Finished, and the tickets when no
    certificate is asked for. *)
Lemma server_messages_ok hs h1 h2 h3 x y z : sendServerParameters p hs = Ret (h1, inr x) -> sendServerCertificate p h1 = Ret (h2, inr y) ->
  sendServerFinished p now ticketKeys h2 = Ret (h3, inr z) ->
  exists s h sec ms traffic t w, hs.(suite) = Some s /\ hellos hs.(clientHello) hs.(transcript) t /\ tls13.ClientHandshakeTrafficSecret h t = Ret sec /\
    let v := keyed h sec ms traffic (view_of hs) in
    if requestClientCert p hs then view_of h3 = sview.set_transcript (t ++ w) v
    else exists fin b, finishedHash s sec (t ++ w) = Ret fin /\ transcriptMsg (Finished (finishedMsg.Mk fin)) = Ret (inr b) /\
      view_of h3 = sview.set_transcript ((t ++ w) ++ b) (sview.set_finished fin v).
Proof.
  intros H1 H2 H3. apply sendServerParameters_ok in H1 as (h & sec & t & w' & Hsec & Ht & V1). apply s13_grow_certificate in H2 as [w2 V2]. rewrite V1 in V2.
  apply (f_equal sview.transcript) in V1 as T1. cbn in T1. rewrite T1 in V2.
  apply sendServerFinished_ok in H3 as (s & ms & traffic & w3 & Hsu & V3). cbn zeta in V3. rewrite V2 in V3.
  injection V2 as Q1 Q2 Q3 Q4 Q5 Q6 Q7 Q8 Q9 Q10 Q11 Q12 Q13 Q14. cbn [sview.secret_in sview.set_transcript sview.set_secret_in] in V3. rewrite Q2 in V3.
  exists s, h, sec, ms, traffic, t, ((w' ++ w2) ++ w3). split; [congruence|]. split; [exact Ht|]. split; [exact Hsec|]. cbn zeta. unfold requestClientCert in *. rewrite Q3 in V3.
  assert (Hass : ((t ++ w') ++ w2) ++ w3 = t ++ (w' ++ w2) ++ w3) by (by rewrite <- !app_assoc). rewrite Hass in V3.
  destruct (_ && _); exact V3.
Qed.

(** The answer of the client up to its Finished. *)
Lemma client_messages_ok (h0 h1 h2 : hs_t) x s h sec ms traffic t w' : h0.(suite) = Some s ->
  (let v := keyed h sec ms traffic (view_of h0) in
   if requestClientCert p h0 then view_of h1 = sview.set_transcript (t ++ w') v
   else exists fin b, finishedHash s sec (t ++ w') = Ret fin /\ transcriptMsg (Finished (finishedMsg.Mk fin)) = Ret (inr b) /\
     view_of h1 = sview.set_transcript ((t ++ w') ++ b) (sview.set_finished fin v)) ->
  readClientCertificate p now ticketKeys h1 = Ret (h2, inr x) ->
  exists t2 b fin peer chains, finishedHash s sec (t ++ t2) = Ret fin /\ transcriptMsg (Finished (finishedMsg.Mk fin)) = Ret (inr b) /\
    view_of h2 = sview.set_transcript ((t ++ t2) ++ b) (sview.set_finished fin (sview.set_peer peer (sview.set_chains chains (keyed h sec ms traffic (view_of h0))))) /\
    if requestClientCert p h0 then exists t3 u w, t2 = t3 ++ u ++ w /\ h1.(transcript) = t ++ t3 /\ certified h1.(c) s peer chains (t ++ t3) u w
    else peer = h0.(c).(tlsConn.peerCertificates) /\ chains = h0.(c).(tlsConn.verifiedChains).
Proof.
  intros Hs V1 H. cbn zeta in V1. apply readClientCertificate_ok in H. unfold requestClientCert in *.
  assert (U : h1.(usingPSK) = h0.(usingPSK)).
  { destruct (_ && _); [|destruct V1 as (? & ? & _ & _ & V1)]; apply (f_equal sview.usingPSK) in V1; exact V1. }
  rewrite U in H. destruct (requestsClientCert _ && negb _).
  - destruct H as (s' & peer & chains & fin & u & w & b & Hs' & Hc & Hf & Hb & V2). rewrite V1 in V2, Hf.
    injection V1 as Z1 Z2 Z3 Z4 Z5 Z6 Z7 Z8 Z9 Z10 Z11 Z12 Z13 Z14. assert (s' = s) as -> by congruence. rewrite Z2 in Hf, Hc, V2. cbn in Hf.
    exists (w' ++ u ++ w), b, fin, peer, chains. rewrite !app_assoc in *. split; [exact Hf|]. split; [exact Hb|]. split; [exact V2|].
    exists w', u, w. by rewrite <- app_assoc.
  - destruct V1 as (fin & b & Hf & Hb & V1). unfold same_view in H. rewrite V1 in H.
    exists w', b, fin, h0.(c).(tlsConn.peerCertificates), h0.(c).(tlsConn.verifiedChains). done.
Qed.

(** A sequence of steps from what each of them has done. *)
Ltac replay := unfold mbind, E_bind, ebind; cbn [obind];
  repeat match goal with H : _ = Ret (_, inr _) |- _ => rewrite H; cbn [obind]; clear H end; try done.

Lemma success13_authenticates hs hs' x : hs.(usingPSK) = false ->
  handshake Open supported hardware p now ToLower ticketKeys hs = Ret (hs', inr x) -> authenticated hs hs'.
Proof.
  intros Hp H. unfold handshake in H. estep H. estep H. estep H. estep H. estep H. estep H. estep H. estep H. estep H. estep H.
  repeat match goal with a : unit |- _ => destruct a end.
  assert (Hfl : flight s = Ret (s6, inr tt)) by (clear Hs Hs7 Hs8 H; unfold flight; by replay).
  unfold modify_layer, modify_conn in H, Hs2. injection H as <-. injection Hs2 as <-.
  destruct (server_messages_ok _ _ _ _ _ _ _ Hs3 Hs4 Hs5) as (su & h & sec & ms & traffic & t1 & w' & Hsu & Ht & Hsec & V1). cbn zeta in V1.
  apply (s13_onc _ layer_flush) in Hs6. unfold same_view in Hs6. rewrite <- Hs6 in V1.
  match type of Hsu with suite ?z = _ => set (h0 := z) in * end.
  assert (Hb : begun hs s (view_of h0) su) by exact (begun_ok hs _ _ _ _ _ _ su Hp Hs Hs0 Hs1 Hsu). clearbody h0.
  pose proof Hs7 as Hcert.
  apply (client_messages_ok h0 _ _ _ su h sec ms traffic t1 w' Hsu V1) in Hs7 as (t2 & b & fin & peer & chains & Hfin & Hbf & V2 & Hc).
  apply readClientFinished_ok in Hs8 as [[c2 Hr] V3]. rewrite V2 in V3. apply (f_equal sview.finished) in V2 as Hf. cbn in Hf. rewrite Hf in Hr.
  apply (f_equal sview.secret_in) in V2 as Hse. cbn in Hse.
  injection V3 as R1 R2 R3 R4 R5 R6 R7 R8 R9 R10 R11 R12 R13 R14. destruct Hb as (Hch & Htr & Hb). cbn in Hch, Htr. rewrite Hch, Htr in Ht. rewrite Hch in R4. constructor.
  exists s, s6, s7, c2, su, h, sec, t1, t2, fin, b. cbn. rewrite R1, R2, R3, R4, R5, R6, R7, R9. do 13 (split; [done|]).
  cbn in Hb. unfold requestClientCert in Hc. destruct (usingPSK h0).
  - rewrite andb_false_r in Hc. destruct Hc as [-> ->]. exact Hb.
  - rewrite andb_true_r in Hc. destruct Hb as [Hd Hpe]. split; [exact Hd|]. destruct (requestsClientCert _); [exact Hc|]. destruct Hc as [-> _]. exact Hpe.
Qed.

(** C7: when the TLS 1.3 handshake of a server succeeds, the message that the client sent
    last is a Finished message over the whole transcript of this handshake, from the
    hellos to that message, under the secret that follows from the transcript of the
    hellos and with which the connection reads; and either the hello had a binder that proves
    that the client knows the secret of a session which this server made and may resume
    (not expired, with a suitable hash, with the certificates that the configuration asks
    for), or, when a certificate was requested, the client has answered the flight of the
    server with certificates that pass all the configured checks and with a signature of
    their key over the transcript up to there. *)
Theorem server13_authenticates hs hs' x : hs.(usingPSK) = false ->
  handshake Open supported hardware p now ToLower ticketKeys hs = Ret (hs', inr x) -> authenticated hs hs'.
Proof. apply success13_authenticates. Qed.

(** ** Completion *)

Hint Extern 4 (calm _ _) => done : stable.
Lemma s13_calm_same {A} (m : E hs_t A) : stable same_view m -> stable calm m.
Proof. intros H. by apply s13_calm_grow, s13_grow_same. Qed.
Hint Extern 5 (stable calm (onc _)) => apply s13_calm_same : stable.
Hint Extern 6 (stable calm _) => (apply s13_calm_same; solve [auto 4 with stable nocore]) : stable.
Hint Extern 7 (stable calm _) => (apply s13_calm_grow; solve [auto 4 with stable nocore]) : stable.

Lemma s13_calm_in s l sec : stable calm (set_in_secret s l sec).
Proof. unfold set_in_secret, modify_layer, modify_conn. stable. Qed.
Hint Resolve s13_calm_in : stable.
Lemma s13_calm_identities s i ids : stable calm (try_identities p now ticketKeys s i ids).
Proof. revert i. induction ids as [|id ids IH]; intros i; cbn [try_identities]; [stable|]. unfold check_binder, resume, modify_conn. stable. Qed.
Hint Resolve s13_calm_identities s13_same_pick s13_grow_certificate s13_verify_connection : stable.
Lemma s13_calm_resumption : stable calm (checkForResumption p now ticketKeys).
Proof. unfold checkForResumption. stable. Qed.
Lemma s13_calm_parameters : stable calm (sendServerParameters p).
Proof. unfold sendServerParameters, handshake_keys, conn_field. stable. Qed.
Lemma s13_calm_tickets : stable calm (sendSessionTickets p now ticketKeys).
Proof. unfold sendSessionTickets, modify_conn. stable. Qed.
Hint Resolve s13_calm_tickets : stable.
Lemma s13_calm_finished : stable calm (sendServerFinished p now ticketKeys).
Proof. unfold sendServerFinished, modify_conn. stable. Qed.
Lemma s13_calm_process cert : stable calm (onc (processCertsFromClient now p cert)).
Proof.
  apply (stable_zoom _ (fun c c' => c'.(tlsConn.conn).(Conn.isHandshakeComplete) = c.(tlsConn.conn).(Conn.isHandshakeComplete))); [done|].
  apply stable_process; [split; [done|]; intros ???; congruence|by intros ?? (k & [Hk] & ->)|done|done].
Qed.
Lemma s13_calm_certificate : stable calm (readClientCertificate p now ticketKeys).
Proof. pose proof s13_calm_process. unfold readClientCertificate, read_certificate_verify, verify_signature. stable. Qed.
Lemma s13_calm_client_finished : stable calm readClientFinished.
Proof. unfold readClientFinished. stable. Qed.

(** The flag of the connection after the handshake. *)
Lemma complete13_result : decides (fun hs => (view_of hs).(sview.complete)) (handshake Open supported hardware p now ToLower ticketKeys).
Proof.
  pose proof (s13_calm_base _ s13_base_client_hello) as C1. pose proof s13_calm_resumption as C2. pose proof (s13_calm_same _ s13_same_pick) as C3.
  assert (C4 : stable calm (modify_layer (Conn.set_buffering true))) by (unfold modify_layer, modify_conn; stable).
  pose proof s13_calm_parameters as C5. pose proof (s13_calm_grow _ s13_grow_certificate) as C6. pose proof s13_calm_finished as C7.
  pose proof (s13_calm_same _ (s13_onc _ layer_flush)) as C8. pose proof s13_calm_certificate as C9. pose proof s13_calm_client_finished as C10.
  unfold handshake. do 10 (apply decides_bind; [assumption|intros _]). by apply decides_modify.
Qed.
End Facts.
