(* ===== verification/Server.v ===== *)
(** * The handshake of a server

    Models [serverHandshake] (handshake_server.go), which reads the hello and runs the
    handshake of the version that was chosen, and [Conn.handshakeContext] (conn.go) of
    a server, with a context that is not cancelled. *)

From S2P Require Import Prelude Cryptobyte Common Config Negotiation Codec Buffer KeySchedule Record Names Messages RawMessages ServerHello ClientHello Ticket TicketKeys Caches Public Extensions Handshake Conn Suites ECH Marshal Shuffle Parrots Session Preset Auth KeyAgreement Peer ServerPeer Server12 Server13.

Section Ops.
Context {C : Cryptobyte} {Cs : Ciphers} {B : BlockCiphers Cs} {K : Crypto} {Ks : Keys} {S : Signing Ks} {X : X509} {V : X509Verify X} {XK : X509Keys X S}
  {XC : X509Chains X S} {XS : X509Server X S XC} {I : ClientSessionCache (session.ptr X)} {E_ : KeyExchange Ks} {KE : KeyEncapsulation} {T : TicketCrypto}.
(** HPKE, the callback [GetConfigForClient], and [originalConfig.ticketKeys]. *)
Context {PrivKey HpkeContext : Type} (ParseHPKEPrivateKey : Z -> bytes -> res PrivKey)
  (SetupReceipient : Z -> Z -> Z -> PrivKey -> bytes -> bytes -> res HpkeContext) (Open : HpkeContext -> bytes -> bytes -> HpkeContext * res bytes)
  (GetConfigForClient : option (ClientHelloInfo.t -> connError + option (configured Ks S X XC)))
  (ticketKeys : option (configured Ks S X XC) -> list ticketKey.t).
(** The suites that are known, whether AES is fast, the time and [strings.ToLower]. *)
Context (supported : list cipherSuite.t) (hardware : bool) (now : Z) (ToLower : bytes -> bytes).

(** A new state of either handshake. *)
Definition state12 (c : tlsConn.t) (clientHello : clientHelloMsg.t) : serverState12.t :=
  serverState12.Mk c clientHello new_serverHello None false false false false None None [] None.
Definition state13 (c : tlsConn.t) (clientHello : clientHelloMsg.t) (ech : option (@echServerContext HpkeContext)) : serverHandshakeStateTLS13.t HpkeContext :=
  serverHandshakeStateTLS13.Mk c clientHello new_serverHello false false None None 0 None [] None None [] [] [] ech.

(** The handshake of the version that was chosen. *)
Definition run13 (p : configured Ks S X XC) (keys : list ticketKey.t) (clientHello : clientHelloMsg.t) (ech : option (@echServerContext HpkeContext)) : E tlsConn.t unit := fun c =>
  run (hs, r) := Server13.handshake Open supported hardware p now ToLower keys (state13 c clientHello ech) in
  Ret (hs.(serverHandshakeStateTLS13.c), r).
Definition run12 (p : configured Ks S X XC) (keys : list ticketKey.t) (clientHello : clientHelloMsg.t) : E tlsConn.t unit := fun c =>
  run (hs, r) := Server12.handshake supported hardware p now ToLower keys (state12 c clientHello) in
  Ret (hs.(serverState12.c), r).

(** [p] is the configuration of the connection. *)
Definition serverHandshake (p : configured Ks S X XC) : E tlsConn.t unit :=
  r ← readClientHello ParseHPKEPrivateKey SetupReceipient Open GetConfigForClient ticketKeys p;
  let '(clientHello, ech, p, keys) := (r : clientHelloMsg.t * option (@echServerContext HpkeContext) * configured Ks S X XC * list ticketKey.t) in
  c ← state;
  if vers c =? VersionTLS13 then run13 p keys clientHello ech else run12 p keys clientHello.

Definition modify_k (f : Conn.t reader -> Conn.t reader) : E tlsConn.t unit := emodify (fun c => tlsConn.set_conn (f c.(tlsConn.conn)) c).
Definition as_error {A} (r : connError + A) : option connError := match r with inl e => Some e | inr _ => None end.

Definition Handshake (p : configured Ks S X XC) : E tlsConn.t unit :=
  c ← state;
  let k := c.(tlsConn.conn) in
  if k.(Conn.isHandshakeComplete) then eret tt else
  raise k.(Conn.handshakeErr) ;;
  r ← caught (serverHandshake p);
  modify_k (Conn.set_handshakeErr (as_error r)) ;;
  (match r with inr _ => modify_k (fun k => Conn.set_handshakes (k.(Conn.handshakes) + 1) k) | inl _ => _ ← caught flush; eret tt end) ;;
  c ← state;
  match r, c.(tlsConn.conn).(Conn.isHandshakeComplete) with
  | inr _, true => eret tt
  | inr _, false =>
      let e := Plain (ErrorNew "tls: internal error: handshake should have had a result") in
      modify_k (Conn.set_handshakeErr (Some e)) ;; throw e
  | inl _, true => crash
  | inl e, false => throw e
  end.
End Ops.
