(* ===== verification/ServerFacts.v ===== *)
(** * What a server promises

    Theorems on the handshake of a server as a whole (Server): the authentication that
    its configuration asks for is enforced, in either version and on resumption;
    [Handshake] reports what the handshake did; and a client notices when somebody has
    made the server choose an old version.  Runs of the client of Client against the
    server of Server serve as examples. *)

From S2P Require Import Prelude Cryptobyte Common Config Negotiation Codec Buffer KeySchedule Record Names Messages RawMessages ServerHello ClientHello Ticket TicketKeys Caches Public Extensions Handshake Conn ConnFacts ConnFrame Suites ECH Marshal Shuffle Parrots Session Preset Auth KeyAgreement Apply Build BuildFacts Peer PeerFacts Client12 Client12Facts Client13 Client13Facts Client ClientFacts ServerPeer ServerPeerFacts Server12 Server12Facts Server13 Server13Facts Server.

Section Facts.
Context {C : Cryptobyte} {Cs : Ciphers} {B : BlockCiphers Cs} {K : Crypto} {Ks : Keys} {S : Signing Ks} {X : X509} {V : X509Verify X} {XK : X509Keys X S}
  {XC : X509Chains X S} {XS : X509Server X S XC} {I : ClientSessionCache (session.ptr X)} {E_ : KeyExchange Ks} {KE : KeyEncapsulation} {T : TicketCrypto}.
Context {PrivKey HpkeContext : Type} (ParseHPKEPrivateKey : Z -> bytes -> res PrivKey)
  (SetupReceipient : Z -> Z -> Z -> PrivKey -> bytes -> bytes -> res HpkeContext) (Open : HpkeContext -> bytes -> bytes -> HpkeContext * res bytes)
  (GetConfigForClient : option (ClientHelloInfo.t -> connError + option (configured Ks S X XC)))
  (ticketKeys : option (configured Ks S X XC) -> list ticketKey.t).
Context (supported : list cipherSuite.t) (hardware : bool) (now : Z) (ToLower : bytes -> bytes).
Implicit Types (p q : configured Ks S X XC) (c : tlsConn.t).
Abbreviation read_hello := (readClientHello ParseHPKEPrivateKey SetupReceipient Open GetConfigForClient ticketKeys).
Abbreviation serve := (serverHandshake ParseHPKEPrivateKey SetupReceipient Open GetConfigForClient ticketKeys supported hardware now ToLower).
Abbreviation handshake := (Server.Handshake ParseHPKEPrivateKey SetupReceipient Open GetConfigForClient ticketKeys supported hardware now ToLower).

(** ** The hello *)

(** What the connection knows of its peer, and the flag of a complete handshake. *)
Definition standing c : list certificate * list (list certificate) * bool * bool :=
  (c.(tlsConn.peerCertificates), c.(tlsConn.verifiedChains), c.(tlsConn.didResume), c.(tlsConn.conn).(Conn.isHandshakeComplete)).
Definition as_before c c' : Prop := standing c' = standing c.
#[local] Instance as_before_preorder : PreOrder as_before.
Proof. split; [done|]. unfold as_before. intros ???. congruence. Qed.
Lemma before_layer c c' : layer c c' -> as_before c c'.
Proof. intros (k & [Hk] & ->). unfold as_before, standing. cbn. by rewrite Hk. Qed.
Lemma stable_before {A} (m : E tlsConn.t A) : stable layer m -> stable as_before m.
Proof. apply stable_weaken, before_layer. Qed.
Hint Resolve layer_alert layer_abort layer_abort_with layer_readHandshake : stable.
Hint Extern 4 (as_before _ _) => done : stable.
Hint Extern 6 (stable as_before _) => (apply stable_before; solve [auto 4 with stable nocore]) : stable.

Lemma read_hello_before p : stable as_before (read_hello p).
Proof. unfold readClientHello, process_ech, config_for_client. stable. Qed.

(** The configuration of a connection that has not been given another. *)
Definition same_config c c' : Prop := Peer.config c' = Peer.config c.
#[local] Instance same_config_preorder : PreOrder same_config.
Proof. split; [done|]. unfold same_config. intros ???. congruence. Qed.
Lemma config_layer {A} (m : E tlsConn.t A) : stable layer m -> stable same_config m.
Proof. apply stable_weaken. intros c c' (k & [Hc Hv Hcfg] & ->). exact Hcfg. Qed.
Hint Extern 4 (same_config _ _) => done : stable.
Hint Extern 6 (stable same_config _) => (apply config_layer; solve [auto 4 with stable nocore]) : stable.
Lemma config_ech p m : stable same_config (process_ech ParseHPKEPrivateKey SetupReceipient Open p m).
Proof. unfold process_ech. stable. Qed.

(** The configuration [q] that is in force when the connection [c] has read the hello of
    its client: the one that [GetConfigForClient] returns for the hello (the inner one
    if it was encrypted), if it is set and returns one, and otherwise that of the
    connection. *)
Definition in_force p c q : Prop := exists c1 w m c2 ch ech o c3 keys,
  readHandshake false c = Ret (c1, inr (w, ClientHello m)) /\
  process_ech ParseHPKEPrivateKey SetupReceipient Open p m c1 = Ret (c2, inr (ch, ech)) /\
  match GetConfigForClient with None => o = None | Some f => f (clientHelloInfo c2 ch) = inr o end /\ q = default p o /\
  read_hello p c = Ret (c3, inr (ch, ech, q, keys)) /\ Peer.config c3 = match o with Some q' => q'.(cfg) | None => Peer.config c end.

Lemma config_for_client_ok p ch c c' o : config_for_client GetConfigForClient p ch c = Ret (c', inr o) ->
  match GetConfigForClient with None => o = None | Some f => f (clientHelloInfo c ch) = inr o end /\
  Peer.config c' = match o with Some q => q.(cfg) | None => Peer.config c end.
Proof.
  unfold config_for_client. intros H. destruct GetConfigForClient as [f|]; [|by injection H as <- <-]. estep H.
  destruct (f _) as [e|[q'|]] eqn:Ef; [by apply abort_ok in H| |by injection H as <- <-]. estep H. by injection H as <- <-.
Qed.
Lemma read_hello_config p c c' ch ech q keys : read_hello p c = Ret (c', inr (ch, ech, q, keys)) -> in_force p c q.
Proof.
  intros H. pose proof H as H0. unfold readClientHello in H. estep H. destruct a as [w m]. cbn [snd] in H. destruct m as [| m | | | | | | | | | | | | | | | | | |]; try by apply abort_ok in H. estep H. estep H.
  destruct a as [ch' ech']. apply (config_layer _ (layer_readHandshake false)) in Hs as C1. apply config_ech in Hs0 as C2. apply config_for_client_ok in Hs1 as [Ho C3]. estep H.
  destruct (mutualVersion _ _ _) as [v|]; [|by apply abort_ok in H]. estep H. case_match; [by apply abort_ok in H|]. injection H as <- <- <- <- <-.
  unfold same_config in C1, C2. rewrite C2, C1 in C3. exists s, w, m, s0, ch', ech', a0. eexists _, _. split; [exact Hs|]. split; [exact Hs0|]. split; [exact Ho|]. split; [done|]. split; [exact H0|exact C3].
Qed.

(** ** The authentication of the client *)

(** What the connection [c'] shows of a client, which was [c] before the handshake, when
    the configuration [q] is in force. *)
Record client_auth q c c' : Prop := {
  ca_required : requiresClientCert q.(sv).(ClientAuth) = true -> c'.(tlsConn.peerCertificates) <> [];
  ca_unasked : requestsClientCert q.(sv).(ClientAuth) = false -> c.(tlsConn.peerCertificates) = [] -> c'.(tlsConn.peerCertificates) = [];
  ca_verified : forall leaf rest, verifiesClientCert q.(sv).(ClientAuth) = true -> c'.(tlsConn.peerCertificates) = leaf :: rest ->
    if c'.(tlsConn.didResume) then now <= NotAfter leaf /\ c'.(tlsConn.verifiedChains) <> []
    else x509_VerifyClient leaf (MkVerify q.(sv).(ClientCAs) now [] rest) = inr c'.(tlsConn.verifiedChains)
}.

Lemma auth_of_session q c c' (ss : SessionState.t X) : session_certs_ok now q ss = true -> c'.(tlsConn.didResume) = true ->
  c'.(tlsConn.peerCertificates) = ss.(SessionState.peerCertificates) -> c'.(tlsConn.verifiedChains) = ss.(SessionState.verifiedChains) -> client_auth q c c'.
Proof.
  intros Hs Hd Hp Hc. apply session_certs in Hs as (H1 & H2 & H3). constructor; rewrite Hp.
  - exact H1.
  - intros Hr _. by apply H2.
  - intros leaf rest Hv Hl. rewrite Hd, Hc. destruct (H3 _ _ Hl) as [H4 H5]. split; [exact H4|by apply H5].
Qed.
Lemma auth_of_certificates q c c' certificates : presented now q certificates c'.(tlsConn.peerCertificates) c'.(tlsConn.verifiedChains) ->
  c'.(tlsConn.didResume) = false -> requestsClientCert q.(sv).(ClientAuth) = true -> client_auth q c c'.
Proof.
  intros [_ H1 H2 _ _] Hd Hr. constructor; [exact H1|congruence|]. intros leaf rest Hv Hl. rewrite Hd. by apply (H2 leaf rest).
Qed.
Lemma requires_requests a : requestsClientCert a = false -> requiresClientCert a = false /\ verifiesClientCert a = false.
Proof. by destruct a. Qed.
Lemma auth_unasked q c c' : requestsClientCert q.(sv).(ClientAuth) = false -> c'.(tlsConn.peerCertificates) = c.(tlsConn.peerCertificates) -> client_auth q c c'.
Proof. intros Hr Hp. destruct (requires_requests _ Hr) as [H1 H2]. constructor; [congruence|congruence|]. intros leaf rest Hv. congruence. Qed.

Lemma run13_auth q keys ch ech c c' x : c.(tlsConn.didResume) = false -> run13 Open supported hardware now ToLower q keys ch ech c = Ret (c', inr x) -> client_auth q c c'.
Proof.
  intros Hd. unfold run13. destruct (Server13.handshake _ _ _ _ _ _ _ _) as [|[hs' r]] eqn:E; [done|]. cbn. intros [= <- ->].
  apply success13_authenticates in E as [(h0 & h1 & h2 & c2 & s & h & sec & t1 & t2 & fin & b & _ & _ & _ & _ & _ & _ & _ & _ & _ & _ & _ & _ & _ & Hm)]; [|done]. cbn zeta in Hm.
  destruct (serverHandshakeStateTLS13.usingPSK hs').
  - destruct Hm as (Hr & ss & [_ Hu] & Hp & Hc). apply auth_of_session with ss; [|done|done|done].
    unfold usable in Hu. by apply andb_true_iff in Hu as [_ Hu].
  - destruct Hm as [Hr Hm]. cbn in Hr. rewrite Hd in Hr. destruct (requestsClientCert _) eqn:Eq; [|by apply auth_unasked].
    destruct Hm as (t3 & u & w & _ & _ & [(c1 & m & _ & Hp) _ _]). by eapply auth_of_certificates.
Qed.
Lemma run12_auth q keys ch c c' x : c.(tlsConn.didResume) = false -> run12 supported hardware now ToLower q keys ch c = Ret (c', inr x) -> client_auth q c c'.
Proof.
  intros Hd. unfold run12. destruct (Server12.handshake _ _ _ _ _ _ _) as [|[hs' r]] eqn:E; [done|]. cbn. intros [= <- ->].
  apply success12_server in E as [(h0 & h1 & h2 & s & f & alg & b & w & bf & w' & _ & _ & _ & _ & _ & _ & _ & Hm)]; [|done]. cbn zeta in Hm. destruct (serverState12.sessionState hs') as [ss|].
  - destruct Hm as (_ & Hr & Hre & _ & Hp & Hc). apply auth_of_session with ss; [|done|done|done]. by destruct Hre.
  - destruct Hm as (_ & Hr & _ & h3 & msg & t0 & _ & _ & Hm). cbn in Hr. rewrite Hd in Hr. unfold checked12 in Hm. destruct (requestsClientCert _) eqn:Eq.
    + destruct Hm as [(m & _ & Hp) _]. by eapply auth_of_certificates.
    + destruct Hm as [Hm _]. by apply auth_unasked.
Qed.

(** C6: when the handshake of a server succeeds, in any version and with or without
    resumption, the policy [ClientAuth] of the configuration in force holds: a required
    certificate is there, there is none when none was asked for, and a certificate that is
    to be verified has a chain to the configured authorities (that of its session when it
    is resumed, and then it has not expired).  The configuration in force is the one that
    [GetConfigForClient] returned for the hello that was read, if it returned one, and the
    connection then has it; otherwise it is that of the connection. *)
Theorem client_auth_enforced p c c' x : c.(tlsConn.didResume) = false -> serve p c = Ret (c', inr x) ->
  exists q, in_force p c q /\ client_auth q c c'.
Proof.
  intros Hd H. unfold serverHandshake in H. estep H. pose proof (read_hello_before _ _ _ _ Hs) as Hb. destruct a as [[[ch ech] q] keys].
  apply read_hello_config in Hs. exists q. split; [exact Hs|]. estep H. injection Hb as B1 B2 B3 B4.
  assert (Hq : client_auth q s c') by (destruct (_ =? _); [eapply run13_auth|eapply run12_auth]; [|exact H| |exact H]; by rewrite B3).
  destruct Hq as [H1 H2 H3]. constructor; [exact H1| |exact H3]. by rewrite <- B1.
Qed.

(** ** The flag of a complete handshake *)

Definition completed c : bool := c.(tlsConn.conn).(Conn.isHandshakeComplete).

Lemma run13_decides q keys ch ech : decides completed (run13 Open supported hardware now ToLower q keys ch ech).
Proof.
  intros c c' r Hc. unfold run13. destruct (Server13.handshake _ _ _ _ _ _ _ _) as [|[hs' r']] eqn:E; [done|]. cbn. intros [= <- <-].
  apply complete13_result in E; [exact E|exact Hc].
Qed.
Lemma run12_decides q keys ch : decides completed (run12 supported hardware now ToLower q keys ch).
Proof.
  intros c c' r Hc. unfold run12. destruct (Server12.handshake _ _ _ _ _ _ _) as [|[hs' r']] eqn:E; [done|]. cbn. intros [= <- <-].
  apply complete12s_result in E; [exact E|exact Hc].
Qed.
Lemma serve_decides p : decides completed (serve p).
Proof.
  unfold serverHandshake. apply decides_bind.
  - intros c c' r H. apply read_hello_before in H. by injection H as _ _ _ H.
  - intros [[[ch ech] q] keys]. apply decides_bind; [by intros c c' r [= <- _]|]. intros c. destruct (_ =? _); [apply run13_decides|apply run12_decides].
Qed.

Lemma server_flush_returns c : exists c' x, caught flush c = Ret (c', inr x) /\ completed c' = completed c /\
  c'.(tlsConn.conn).(Conn.handshakes) = c.(tlsConn.conn).(Conn.handshakes) /\ c'.(tlsConn.conn).(Conn.handshakeErr) = c.(tlsConn.conn).(Conn.handshakeErr).
Proof.
  destruct (conn_flush_returns c.(tlsConn.conn)) as (k & r & Hf & H1 & H2 & H3). exists (tlsConn.set_conn k c).
  unfold caught, flush, mbind, E_bind, ebind, on_conn. rewrite Hf. cbn. destruct r as [z [e|]]; by eexists.
Qed.

(** C9: what [Handshake] of a new server connection returns is what its handshake
    returned: neither of the internal errors can happen.  The connection is marked
    complete and the handshake counted exactly when it succeeded, and every further call
    gives the same result and changes nothing. *)
Theorem server_handshake_result p c c' r : completed c = false -> c.(tlsConn.conn).(Conn.handshakeErr) = None -> serve p c = Ret (c', r) ->
  let ok := match r with inr _ => true | inl _ => false end in
  exists c2, handshake p c = Ret (c2, r) /\ completed c2 = ok /\
    c2.(tlsConn.conn).(Conn.handshakes) = c'.(tlsConn.conn).(Conn.handshakes) + (if ok then 1 else 0) /\ handshake p c2 = Ret (c2, r).
Proof.
  intros Hc He Hr. pose proof (serve_decides p _ _ _ Hc Hr) as Hcr. unfold completed in *.
  assert (E : caught (serve p) c = Ret (c', inr r)) by (unfold caught; by rewrite Hr).
  destruct r as [e|[]]; cbn zeta.
  - destruct (server_flush_returns (tlsConn.set_conn (Conn.set_handshakeErr (Some e) c'.(tlsConn.conn)) c')) as (c4 & x & Hf & Hf1 & Hf2 & Hf3). exists c4.
    assert (Hc4 : c4.(tlsConn.conn).(Conn.isHandshakeComplete) = false) by (etrans; [exact Hf1|exact Hcr]).
    split; [|split; [exact Hc4|split; [rewrite Hf2; cbn; lia|]]].
    + unfold Handshake, mbind, E_bind, ebind, modify_k. cbn. rewrite Hc, He. cbn. rewrite E. cbn. rewrite Hf. cbn. by rewrite Hc4.
    + unfold Handshake, mbind, E_bind, ebind. cbn. by rewrite Hc4, Hf3.
  - exists (let k := Conn.set_handshakeErr None c'.(tlsConn.conn) in tlsConn.set_conn (Conn.set_handshakes (k.(Conn.handshakes) + 1) k) c').
    split; [|split; [exact Hcr|split; [reflexivity|]]].
    + unfold Handshake, mbind, E_bind, ebind, modify_k. cbn. rewrite Hc, He. cbn. rewrite E. cbn. by rewrite Hcr.
    + unfold Handshake, mbind, E_bind, ebind. cbn. by rewrite Hcr.
Qed.
End Facts.

(** ** Downgrades *)

Section Downgrades.
Context {C : Cryptobyte} {Cs : Ciphers} {B : BlockCiphers Cs} {K : Crypto} {Ks : Keys} {KO : KeysOk Ks} {S : Signing Ks} {X : X509} {V : X509Verify X} {XK : X509Keys X S}
  {XC : X509Chains X S} {I : ClientSessionCache (session.ptr X)} {E_ : KeyExchange Ks} {D : Decompressors}.

Lemma max_version_cases cfg b : maxSupportedVersion cfg b ∈ [0; VersionTLS13; VersionTLS12; VersionTLS11; VersionTLS10].
Proof.
  unfold maxSupportedVersion. destruct (config_supportedVersions cfg b) as [|v l] eqn:E; [set_solver|].
  assert (v ∈ config_supportedVersions cfg b) as Hv by (rewrite E; set_solver). unfold config_supportedVersions in Hv. apply list_elem_of_In, List.filter_In in Hv as [Hv _].
  apply list_elem_of_In in Hv. unfold supportedVersions in Hv. set_solver.
Qed.

(** The end of the random value that a server sends with an old version. *)
Lemma server_random_marked hs hs' b : server_random hs = Ret (hs', inr b) ->
  VersionTLS12 <= maxSupportedVersion (Peer.config hs.(serverState12.c)) false -> Peer.vers hs.(serverState12.c) < maxSupportedVersion (Peer.config hs.(serverState12.c)) false ->
  len b = 32 /\ from b 24 = Ret (if Peer.vers hs.(serverState12.c) =? VersionTLS12 then downgradeCanaryTLS12 else downgradeCanaryTLS11).
Proof.
  intros H H1 H2. unfold server_random, Server12.conn_field in H. estep H. unfold id in H.
  apply Z.leb_le in H1. apply Z.ltb_lt in H2. rewrite H1, H2 in H. cbn [andb] in H. set (canary := if _ =? VersionTLS12 then _ else _) in *. estep H.
  apply zoom_ok in Hs as (c' & Hd & ->). destruct a as [e|rnd]; [by apply abort_fails in H|]. injection H as <- <-.
  unfold draws, draw in Hd. cbn [obind] in Hd. destruct (ReadFull _ _) as [r' [e|b']] eqn:Er; [done|]. injection Hd as _ ->.
  assert (len canary = 8) as Hc by (unfold canary; by destruct (_ =? _)). rewrite Hc in Er. apply ReadFull_len in Er; [|lia]. change (32 - 8) with 24 in Er.
  rewrite len_app, Hc, Er. split; [done|]. unfold from. rewrite len_app, Hc, Er. cbn. f_equal. unfold len in Er.
  rewrite drop_app_length'; [done|]. lia.
Qed.

(** The client's check fires on that mark. *)
Lemma mark_noticed cfg v (mark : bytes) : v < maxSupportedVersion cfg true -> VersionTLS12 <= maxSupportedVersion cfg true ->
  mark = (if v =? VersionTLS12 then downgradeCanaryTLS12 else downgradeCanaryTLS11) -> downgraded cfg v mark = true.
Proof.
  intros H1 H2 ->. pose proof (max_version_cases cfg true) as Hc. unfold downgraded. remember (maxSupportedVersion cfg true) as m eqn:Em. clear Em.
  rewrite !elem_of_cons, elem_of_nil in Hc. unfold VersionTLS10, VersionTLS11, VersionTLS12, VersionTLS13 in *.
  destruct (v =? 771) eqn:Ev; [apply Z.eqb_eq in Ev; subst v; assert (m = 772) as -> by lia; reflexivity|]. apply Z.eqb_neq in Ev.
  assert (m = 772 \/ m = 771 /\ v <= 770) as [->|[-> Hv]] by lia.
  - assert ((v <=? 771) = true) as -> by lia. reflexivity.
  - assert ((v <=? 770) = true) as -> by lia. by rewrite andb_false_l, orb_false_l.
Qed.

(** C10: somebody who makes a client and a server that both support TLS 1.2 use a version
    below what both support is noticed: the random value that the server then puts into
    its ServerHello, if it reaches the client, makes the check of the client fire, and the
    client refuses the ServerHello.  (The value is covered by the signature of the server
    or by its Finished message, so that it cannot be changed on the way.) *)
Theorem downgrade_refused hs hs' b s s1 s2 w sh r :
  let v := Peer.vers hs.(serverState12.c) in
  server_random hs = Ret (hs', inr b) ->
  v < maxSupportedVersion (Peer.config hs.(serverState12.c)) false -> v < maxSupportedVersion (cfg_of s) true ->
  VersionTLS12 <= maxSupportedVersion (Peer.config hs.(serverState12.c)) false -> VersionTLS12 <= maxSupportedVersion (cfg_of s) true ->
  on_c (readHandshake false) s = Ret (s1, inr (w, ServerHello sh)) -> sh.(serverHelloMsg.random) = b -> peer_version sh = v ->
  read_server_hello s = Ret (s2, r) -> exists e, r = inl e.
Proof.
  cbn zeta. intros Hr H1 H2 H3 H4 Hm Hb Hv H. destruct r as [e|sh']; [by exists e|exfalso].
  assert (sh' = sh) as ->.
  { unfold read_server_hello in H. estep H. rewrite Hm in Hs. injection Hs as <- <-. cbn [snd] in H. estep H. estep H. estep H.
    case_match; [by no_alert H|]. by injection H as _ <-. }
  apply server_hello_ok in H as (mark & Hp & Hf & Hd). apply server_random_marked in Hr as [_ Hm']; [|done|done]. rewrite Hb, Hm' in Hf. injection Hf as <-.
  assert (Peer.vers s2.(cn) = Peer.vers hs.(serverState12.c)) as Hv'.
  { unfold mutualVersion in Hp. rewrite Hv in Hp. cbn [List.find] in Hp. destruct (contains _ _); [|done]. by injection Hp as <-. }
  rewrite Hv' in Hd. rewrite mark_noticed in Hd; done.
Qed.
End Downgrades.

(** * Client and server together *)

#[local] Existing Instance plain_x509.
#[local] Existing Instance plain_verify.
#[local] Existing Instance toy_keys.
#[local] Existing Instance Reference.ops.
#[local] Existing Instance toy_hash.
#[local] Existing Instance toy_x509_keys.
#[local] Existing Instance toy_chains.
#[local] Existing Instance toy_exchange.
#[local] Existing Instance toy_decompressors.
#[local] Existing Instance toy_blocks.
#[local] Existing Instance toy_signing.

Definition toy_server_x509 : X509Server plain_x509 (toy_signing toy_keys) toy_chains :=
  Build_X509Server plain_x509 toy_keys (toy_signing toy_keys) toy_chains (fun leaf _ => inr [[leaf]]) (fun _ => [])
    (fun k : publicKey Z ellipticCurve unit => match k with RSA n => Some (RSA n) | _ => None end).
#[local] Existing Instance toy_server_x509.
Definition toy_kem : KeyEncapsulation := Build_KeyEncapsulation (fun b => Some (take 32 b, b)).
#[local] Existing Instance toy_kem.
Definition toy_tickets : TicketCrypto := Build_TicketCrypto (fun b => replicate 64 x00) unit (fun _ => inr tt) (fun _ _ b => b) (fun _ b => replicate 32 x07).
#[local] Existing Instance toy_tickets.

(** ** The two sides *)

Definition server_cert : KeyPair.t (S := toy_signing toy_keys) :=
  KeyPair.Mk (S := toy_signing toy_keys) (Certificate.Mk [[x01]] None None) (ECDSA P256) None.
Definition peer_hooks (certs : list (KeyPair.t (S := toy_signing toy_keys))) : hooks toy_keys (toy_signing toy_keys) plain_x509 toy_chains :=
  MkHooks toy_keys (toy_signing toy_keys) plain_x509 toy_chains None certs None None None None None (fun _ => None).
Abbreviation server_configured := (configured toy_keys (toy_signing toy_keys) plain_x509 toy_chains).
Definition server_config (auth : ClientAuthType) (maxVersion : Z) (curves : list Z) : server_configured :=
  MkConfigured (Config.set_MaxVersion maxVersion (Config.set_CurvePreferences curves Config.zero)) (peer_hooks [server_cert])
    (MkServerHooks (X := plain_x509) (XC := toy_chains) auth None None None None None []).
(** A side before its handshake, with what it will read. *)
Definition fresh_conn (k : Conn.t (reader (Keys := toy_keys))) : tlsConn.t (I := lru_cache _) :=
  tlsConn.Mk (Conn.set_haveVers false k) [] 0 false false false false [] [] [] None None None None false (replicate 12 x00) (replicate 12 x00) false
    (utlsConnExtraFields.Mk [] [] 0) None [] 0%nat.
Definition server_conn (p : server_configured) (reads : bytes) : tlsConn.t (I := lru_cache _) :=
  fresh_conn (Conn.set_config (cfg p) (example_layer 0 [(reads, None)] (plain_half 0) false)).
Definition hello_client (hello : clientHelloMsg.t) (reads : bytes) : client (I := lru_cache _) :=
  let k := example_layer 0 [(reads, None)] (plain_half 0) true in
  MkClient (fresh_conn k)
    (MkConn (UConn.Mk k.(Conn.config) (getPublicPtr hello) [] 0 [] []) None None 7%nat HelloGolang None [] [] ∅
       sessionController.newSessionController BuildByGoTLS false false (Some (KeySharePrivateKeys.Mk toy_keys X25519 (Some (replicate 32 x05)) None None))
       None None [] [] [] None).
Abbreviation server_run := (serverHandshake (S := toy_signing toy_keys) (I := lru_cache _) (PrivKey := unit) (HpkeContext := unit) (fun _ _ => inl EOF) (fun _ _ _ _ _ _ => inl EOF)
  (fun c _ _ => (c, inl EOF)) None (fun _ => [ticketKey.Mk [] [] 0]) utlsSupportedCipherSuites true 0 id).
Abbreviation client_run certs :=
  (clientHandshake (S := toy_signing toy_keys) (I := lru_cache _) utlsSupportedCipherSuites (peer_hooks certs) 0 (fun _ => []) false (fun _ => inr 0)).

(** What a side has sent, and whether it has succeeded. *)
Definition sent_by {T} (get : T -> tlsConn.t (I := lru_cache _)) (o : outcome (T * (connError + unit))) : bytes * bool :=
  match o with
  | Ret (s, inr _) => ((get s).(tlsConn.conn).(Conn.conn).(net.sent), true)
  | Ret (s, inl _) => ((get s).(tlsConn.conn).(Conn.conn).(net.sent), false)
  | Panic => ([], false)
  end.
(** Each side reads what the other has sent so far, [n] times. *)
Fixpoint dialogue (certs : list KeyPair.t) (hello : clientHelloMsg.t) (p : server_configured) (n : nat) : (bytes * bool) * (bytes * bool) :=
  match n with
  | O => (([], false), ([], false))
  | Datatypes.S n =>
      let last := dialogue certs hello p n in
      let c := sent_by cn (client_run certs (hello_client hello last.2.1)) in
      (c, sent_by id (server_run p (server_conn p c.1)))
  end.
Definition outcome_of (certs : list KeyPair.t) (hello : clientHelloMsg.t) (p : server_configured) : bool * bool :=
  let d := dialogue certs hello p 3 in (d.1.2, d.2.2).

(** ** Runs *)

Abbreviation hello13 := example_client_hello.
Definition hello12 : clientHelloMsg.t := clientHelloMsg.set_supportedVersions [VersionTLS12] Client12Facts.example_client_hello.

Example dialogue13 : outcome_of [] hello13 (server_config NoClientCert 0 []) = (true, true).
Proof. vm_compute. reflexivity. Qed.
(** With a certificate of the client, and without the one that is required: the client
    of TLS 1.3 is done before it learns that it is refused. *)
Example dialogue13_certificate : outcome_of [server_cert] hello13 (server_config RequireAndVerifyClientCert 0 []) = (true, true).
Proof. vm_compute. reflexivity. Qed.
Example dialogue13_refused : outcome_of [] hello13 (server_config RequireAndVerifyClientCert 0 []) = (true, false).
Proof. vm_compute. reflexivity. Qed.
(** The server wants another group and asks for a second hello. *)
Example dialogue13_retry : outcome_of [] hello13 (server_config NoClientCert 0 [CurveP256]) = (true, true).
Proof. vm_compute. reflexivity. Qed.
Example dialogue12 : outcome_of [] hello12 (server_config NoClientCert VersionTLS12 []) = (true, true).
Proof. vm_compute. reflexivity. Qed.
Example dialogue12_certificate : outcome_of [server_cert] hello12 (server_config RequireAndVerifyClientCert VersionTLS12 []) = (true, true).
Proof. vm_compute. reflexivity. Qed.
Example dialogue12_refused : outcome_of [] hello12 (server_config RequireAndVerifyClientCert VersionTLS12 []) = (false, false).
Proof. vm_compute. reflexivity. Qed.
(** Both could do better. *)
Example dialogue12_downgrade : outcome_of [] hello12 (server_config NoClientCert 0 []) = (false, false).
Proof. vm_compute. reflexivity. Qed.

(** ** Witnesses *)

(** What the client of a dialogue has sent in the end, and the server that has read its
    hello. *)
Definition client_bytes (certs : list KeyPair.t) (hello : clientHelloMsg.t) (p : server_configured) : bytes := (dialogue certs hello p 3).1.1.
Definition hello_read (p : server_configured) (reads : bytes) : tlsConn.t (I := lru_cache _) * clientHelloMsg.t :=
  match readClientHello (S := toy_signing toy_keys) (PrivKey := unit) (HpkeContext := unit) (fun _ _ => inl EOF) (fun _ _ _ _ _ _ => inl EOF) (fun c _ _ => (c, inl EOF)) None
          (fun _ => []) p (server_conn p reads) with
  | Ret (c, inr (ch, _, _, _)) => (c, ch)
  | _ => (server_conn p [], hello13)
  end.
Definition careful (maxVersion : Z) : server_configured := server_config RequireAndVerifyClientCert maxVersion [].

Definition start13 : serverHandshakeStateTLS13.t unit :=
  let r := hello_read (careful 0) (client_bytes [server_cert] hello13 (careful 0)) in state13 r.1 r.2 None.
Abbreviation run_start13 := (Server13.handshake (S := toy_signing toy_keys) (fun c _ _ => (c, inl EOF)) utlsSupportedCipherSuites true (careful 0) 0 id [ticketKey.Mk [] [] 0] start13).
Example start13_works : match run_start13 with Ret (_, inr tt) => true | _ => false end = true.
Proof. vm_compute. reflexivity. Qed.
Lemma server13_authenticates_witness : exists hs', run_start13 = Ret (hs', inr tt) /\
  Server13Facts.authenticated (S := toy_signing toy_keys) (fun c _ _ => (c, inl EOF)) utlsSupportedCipherSuites true (careful 0) 0 id [ticketKey.Mk [] [] 0] start13 hs'.
Proof.
  pose proof start13_works as H. destruct run_start13 as [|[hs' [e|[]]]] eqn:E; [discriminate H|discriminate H|].
  exists hs'. split; [reflexivity|].
  refine (server13_authenticates (S := toy_signing toy_keys) (fun c _ _ => (c, inl EOF)) utlsSupportedCipherSuites true (careful 0) 0 id [ticketKey.Mk [] [] 0] start13 hs' tt _ E).
  vm_compute. reflexivity.
Defined.

Definition start12 : serverState12.t :=
  let r := hello_read (careful VersionTLS12) (client_bytes [server_cert] hello12 (careful VersionTLS12)) in state12 r.1 r.2.
Abbreviation run_start12 := (Server12.handshake (S := toy_signing toy_keys) utlsSupportedCipherSuites true (careful VersionTLS12) 0 id [ticketKey.Mk [] [] 0] start12).
Example start12_works : match run_start12 with Ret (_, inr tt) => true | _ => false end = true.
Proof. vm_compute. reflexivity. Qed.
Lemma server12_authenticates_witness : exists hs', run_start12 = Ret (hs', inr tt) /\
  authenticated12 (S := toy_signing toy_keys) utlsSupportedCipherSuites true (careful VersionTLS12) 0 id [ticketKey.Mk [] [] 0] start12 hs'.
Proof.
  pose proof start12_works as H. destruct run_start12 as [|[hs' [e|[]]]] eqn:E; [discriminate H|discriminate H|].
  exists hs'. split; [reflexivity|].
  refine (server12_authenticates (S := toy_signing toy_keys) utlsSupportedCipherSuites true (careful VersionTLS12) 0 id [ticketKey.Mk [] [] 0] start12 hs' tt _ E).
  vm_compute. reflexivity.
Defined.

(** A server that requires certificates, with a client that has one and one that has
    none. *)
Abbreviation run_with certs := (server_run (careful 0) (server_conn (careful 0) (client_bytes certs hello13 (careful 0)))).
Example with_certificate : match run_with [server_cert] with Ret (_, inr tt) => true | _ => false end = true.
Proof. vm_compute. reflexivity. Qed.
Example without_certificate : match run_with [] with Ret (_, inl _) => true | _ => false end = true.
Proof. vm_compute. reflexivity. Qed.

(** A server whose own configuration wants no certificate, and whose callback gives the
    one that requires them. *)
Abbreviation lenient := (server_config NoClientCert 0 []).
Abbreviation chooses := (Some (fun _ : ClientHelloInfo.t => inr (Some (careful 0)) : connError + option server_configured)).
Abbreviation run_chosen certs := (serverHandshake (S := toy_signing toy_keys) (I := lru_cache _) (PrivKey := unit) (HpkeContext := unit) (fun _ _ => inl EOF) (fun _ _ _ _ _ _ => inl EOF)
  (fun c _ _ => (c, inl EOF)) chooses (fun _ => [ticketKey.Mk [] [] 0]) utlsSupportedCipherSuites true 0 id lenient (server_conn lenient (client_bytes certs hello13 (careful 0)))).
Example chosen_certificate : match run_chosen [server_cert] with Ret (_, inr tt) => true | _ => false end = true.
Proof. vm_compute. reflexivity. Qed.
Example chosen_refused : match run_chosen [] with Ret (_, inl _) => true | _ => false end = true.
Proof. vm_compute. reflexivity. Qed.

Lemma client_auth_enforced_witness : exists c', run_chosen [server_cert] = Ret (c', inr tt) /\ c'.(tlsConn.peerCertificates) <> [].
Proof.
  pose proof chosen_certificate as H. destruct (run_chosen [server_cert]) as [|[c' [e|[]]]] eqn:E; [discriminate H|discriminate H|].
  exists c'. split; [reflexivity|].
  destruct (client_auth_enforced (S := toy_signing toy_keys) (PrivKey := unit) (HpkeContext := unit) (fun _ _ => inl EOF) (fun _ _ _ _ _ _ => inl EOF)
    (fun c _ _ => (c, inl EOF)) chooses (fun _ => [ticketKey.Mk [] [] 0]) utlsSupportedCipherSuites true 0 id lenient
    (server_conn lenient (client_bytes [server_cert] hello13 (careful 0))) c' tt eq_refl E)
    as (q & (c1 & w & m & c2 & ch & ech & o & c3 & keys & _ & _ & Hq & -> & _) & [H1 _ _]).
  injection Hq as <-. apply H1. reflexivity.
Defined.

Lemma server_handshake_result_witness :
  let handshake := Server.Handshake (S := toy_signing toy_keys) (I := lru_cache _) (PrivKey := unit) (HpkeContext := unit) (fun _ _ => inl EOF) (fun _ _ _ _ _ _ => inl EOF)
    (fun c _ _ => (c, inl EOF)) None (fun _ => [ticketKey.Mk [] [] 0]) utlsSupportedCipherSuites true 0 id (careful 0) in
  (exists c, handshake (server_conn (careful 0) (client_bytes [server_cert] hello13 (careful 0))) = Ret (c, inr tt) /\ completed c = true) /\
  (exists c e, handshake (server_conn (careful 0) (client_bytes [] hello13 (careful 0))) = Ret (c, inl e) /\ completed c = false).
Proof.
  intros handshake. split.
  - pose proof with_certificate as H. destruct (run_with [server_cert]) as [|[c' [e|[]]]] eqn:E; [discriminate H|discriminate H|].
    destruct (server_handshake_result (S := toy_signing toy_keys) (PrivKey := unit) (HpkeContext := unit) (fun _ _ => inl EOF) (fun _ _ _ _ _ _ => inl EOF)
      (fun c _ _ => (c, inl EOF)) None (fun _ => [ticketKey.Mk [] [] 0]) utlsSupportedCipherSuites true 0 id (careful 0)
      (server_conn (careful 0) (client_bytes [server_cert] hello13 (careful 0))) c' (inr tt) eq_refl eq_refl E) as (c2 & H1 & H2 & _).
    exists c2. split; [exact H1|exact H2].
  - pose proof without_certificate as H. destruct (run_with []) as [|[c' [e|[]]]] eqn:E; [discriminate H| |discriminate H].
    destruct (server_handshake_result (S := toy_signing toy_keys) (PrivKey := unit) (HpkeContext := unit) (fun _ _ => inl EOF) (fun _ _ _ _ _ _ => inl EOF)
      (fun c _ _ => (c, inl EOF)) None (fun _ => [ticketKey.Mk [] [] 0]) utlsSupportedCipherSuites true 0 id (careful 0)
      (server_conn (careful 0) (client_bytes [] hello13 (careful 0))) c' (inl e) eq_refl eq_refl E) as (c2 & H1 & H2 & _).
    exists c2, e. split; [exact H1|exact H2].
Defined.

(** A server and a client that both support TLS 1.3, with a hello that says TLS 1.2. *)
Definition modest : server_configured := server_config NoClientCert 0 [].
Definition start_modest : serverState12.t := let r := hello_read modest (dialogue [] hello12 modest 1).1.1 in state12 r.1 r.2.
Abbreviation modest_random := (server_random start_modest).
Definition modest_client : client (I := lru_cache _) := hello_client hello12 (dialogue [] hello12 modest 1).2.1.
Abbreviation modest_hello := (on_c (readHandshake false) modest_client).
Example modest_sent : match modest_random, modest_hello with
  | Ret (_, inr b), Ret (_, inr (_, ServerHello sh)) => bool_decide (sh.(serverHelloMsg.random) = b) && (peer_version sh =? Peer.vers start_modest.(serverState12.c))
  | _, _ => false
  end = true.
Proof. vm_compute. reflexivity. Qed.
Abbreviation modest_answer := (read_server_hello modest_client).
Example modest_answers : match modest_answer with Ret _ => true | Panic => false end = true.
Proof. vm_compute. reflexivity. Qed.
Lemma downgrade_refused_witness : exists s2 e, modest_answer = Ret (s2, inl e).
Proof.
  pose proof modest_sent as H. destruct modest_random as [|[hs' [e|b]]] eqn:E1; [discriminate H|discriminate H|].
  destruct modest_hello as [|[s1 [e|[w []]]]] eqn:E2; try discriminate H. apply andb_true_iff in H as [Hb Hv]. apply bool_decide_eq_true_1 in Hb. apply Z.eqb_eq in Hv.
  pose proof modest_answers as Hr. destruct modest_answer as [|[s2 r]] eqn:E3; [discriminate Hr|].
  assert (H1 : Peer.vers start_modest.(serverState12.c) < maxSupportedVersion (Peer.config start_modest.(serverState12.c)) false) by (vm_compute; reflexivity).
  assert (H2 : Peer.vers start_modest.(serverState12.c) < maxSupportedVersion (cfg_of modest_client) true) by (vm_compute; reflexivity).
  assert (H3 : VersionTLS12 <= maxSupportedVersion (Peer.config start_modest.(serverState12.c)) false) by (vm_compute; discriminate).
  assert (H4 : VersionTLS12 <= maxSupportedVersion (cfg_of modest_client) true) by (vm_compute; discriminate).
  pose proof (downgrade_refused start_modest hs' b modest_client s1 s2 w m r E1) as D.
  specialize (D H1 H2 H3 H4 E2 Hb Hv E3).
  destruct D as [e ->]. exists s2, e. reflexivity.
Defined.
